(* ===== verification/_CoqProject ===== *)
-Q . S2P
Prelude.v
PyFloat.v
PyNet.v
EventBus.v
Commands.v
QueueInterface.v
RuntimeFlags.v
WatchdogActions.v
WatchdogState.v
WatchdogTheorems.v
ExternalSensors.v
PowerSamples.v
SensorTheorems.v
Epg.v
WatchdogProbes.v
WatchdogProbeTheorems.v
WatchdogRules.v
WatchdogRuleTheorems.v
Schedules.v
ScheduleRuntime.v
RuntimeSettings.v
Devices.v
Deployments.v
DeviceConfig.v
Heartbeats.v
DeviceApi.v
TenantScope.v
Enrollment.v
Announcements.v
EnrollmentTheorems.v
AdoptionTheorems.v
RoleBindings.v
Identity.v
Accounts.v
Invitations.v
ApiTokens.v
IdentityHistory.v
AccountTheorems.v
InvitationTheorems.v
TokenTheorems.v
Notifications.v
ConfigBackup.v
ConfigRestore.v
ConfigFacts.v
ConfigTheorems.v
ConfigRoundtrip.v
RestoreTheorems.v
ConflictDetection.v
RuleForms.v
RuleEndpoints.v
ConflictTheorems.v
AuditLog.v
Estate.v
EstateEndpoints.v
EstateFacts.v
EstateTheorems.v
FirmwareStore.v
FirmwareEndpoints.v
FirmwareFacts.v
FirmwareTheorems.v
Attention.v
Inbox.v
InboxEndpoints.v
InboxTheorems.v
UserEndpoints.v
DeviceQueries.v
SetupWizard.v
DeviceForms.v
DevicePages.v
DevicePageTheorems.v
SsrfGuard.v
SyncModel.v
SyncApply.v
SyncFacts.v
SyncReplicator.v
SyncTheorems.v
SyncSnapshot.v
SyncConvergence.v
SyncProtocol.v
SyncExamples.v
