(* ===== verification/Prelude.v ===== *)
(** * Rebooter hub: verification development (root file)

    Rebooter-Droids is a Flask hub that manages power-switching devices for
    several tenants: it queues commands for devices, watches targets and
    power-cycles what fails, runs schedules, and replicates its configuration
    with peer hubs.  Its core is the service layer [src/app/services] over the
    tables of [src/app/models]; this library models that layer and proves it.

    ** Parts and files

    - [Prelude]: Python values and built-ins (JSON values, truthiness, [int()],
      [strip], [dict.get]), call outcomes ([outcome]: a value or an exception),
      [session_scope] ([db.py]: commit on return, roll back on raise; see Sessions below), instants
      (microseconds), ISO 8601 as the class [IsoClock], ORDER BY as a sort (ties open),
      the tactics [cases] and [bool_to_prop], the hint base [hub].
    - [PyFloat]: Python floats (binary64 of the Standard Library's specification),
      [float()], comparisons between numbers, [round()], [sum()], [==].
    - [PyNet]: addresses ([ipaddress]) and URLs ([urllib.parse]) of the standard library.
    - [EventBus]: [event_bus.py]; a heap of bounded subscriber queues and the weak
      references the bus keeps.
    - [Commands]: [commands.py]; state [hub] = devices, group members, command rows,
      results, the bus.  One definition per function, same names.  A [device] is a
      whole row: three columns by field, the others by name in [dev_cols].
    - [QueueInterface]: the class [CommandQueue], what the watchdog and the schedules
      are promised by the queue; its instance is proved from [Commands].
    - [RuntimeFlags]: [runtime_flags.py]; the maintenance flag.
    - [WatchdogActions], [WatchdogState], [WatchdogTheorems]: the package
      [watchdog_runtime]: actions ([_actions.py]), the rule and binding machines and
      the tick ([_state.py], [__init__.py]).  [plain_step] is the abstract machine.
    - [ExternalSensors], [PowerSamples], [Epg]: [external_sensors/], with the webhook
      endpoint; the power samples of [device_power.py] and [events.py]; [epg.py].
      [SensorTheorems] holds their properties.
    - [WatchdogProbes], [WatchdogProbeTheorems]: every probe ([_probes.py],
      [_probes_integrations.py]) over those tables.
    - [WatchdogRules], [WatchdogRuleTheorems]: the package [watchdog]: validation,
      writes, the sentence of a rule; [rule_op] is the step relation of the table.
    - [Schedules], [ScheduleRuntime]: [schedules.py], [schedule_runtime.py].
    - [RuntimeSettings], [TenantScope]: [runtime_settings.py], [tenant_scope.py];
      the read filter and the write guard every ORM statement passes.
    - [Devices]: [devices/_mutations.py] (edits, deletion, merging), the status chip
      of [_serialize.py], [find_by_mac]; [fleet_step] is its step relation.
    - [Deployments]: [deployments.py]; releases, deployments, assignments; [fw_step].
    - [DeviceConfig], [Heartbeats], [DeviceApi]: [device_config.py], [heartbeats.py] and
      [blueprints/device_api.py], with their properties; state [plant] = the fleet with its queue, the firmware tables, the history.
    - [RoleBindings]: [role_bindings.py], [rbac_filter.py].
    - [Notifications]: [notifications.py], [webhook_delivery.py]; [outbound_step] is
      the step relation of the delivery tables.
    - [SsrfGuard]: [ssrf_guard.py] and the escalation webhook; [guarded_exchange] is the
      exchange a delivery makes.
    - [Enrollment]: [enrollment.py], [/device/register], [device_auth.py]; state
      [registry] = the plant with sites, tokens, credentials and announcements.
      [Announcements]: [announcements.py].  [EnrollmentTheorems] ([reg_step] is the step
      relation of the registry) and [AdoptionTheorems] hold their properties.
    - [Identity] (rows and state [idb] of the identity tables), [Accounts] ([users.py],
      [sessions.py], [auth.py], [password_resets.py], the gate of [admin_auth.py], the sign-in
      endpoints), [Invitations] ([invitations.py], [signup_requests.py], [org_membership.py],
      their endpoints, the first start of [bootstrap.py]), [ApiTokens] ([api_tokens.py],
      [token_auth.py], the service endpoints).  [IdentityHistory] has the invariant [wf] and
      the step relation [id_step] over a clock; [AccountTheorems], [InvitationTheorems] and
      [TokenTheorems] the properties.
    - [ConfigBackup] and [ConfigRestore]: [config_backup.py] (export, encryption, plan; import),
      [mass_action.py], [admin/backup.py]; state [hub_config] = the tables a backup holds.
      [ConfigFacts] (the loop over a section, the class [Makes] of what its rows promise),
      [ConfigRoundtrip] (the class [Restores]), [ConfigTheorems], [RestoreTheorems].
    - [ConflictDetection]: [conflict_detection.py], the findings without their prose.
      [RuleForms]: the forms of the rule pages ([_rules_forms.py], [picker_scope.py]).
      [RuleEndpoints]: [admin/rules.py], pages and API.  [ConflictTheorems]: their properties.
    - [AuditLog]: [audit.py].  [Estate] ([sites.py], [groups.py], [scenes.py]; state [estate] =
      those tables, the fleet with its queue, the bindings, the log) and [EstateEndpoints]
      ([admin/groups.py], [sites.py], [scenes.py], the writes of [devices_api.py]).  [EstateFacts]
      has the invariant [estate_ok], [EstateTheorems] the step relation [estate_step].
    - [FirmwareStore] ([firmware.py], [firmware_public.py]; the releases and the directory of
      images) and [FirmwareEndpoints] ([admin/firmware.py]); [FirmwareFacts] has the invariants
      [depot_ok] and [images_ok], [FirmwareTheorems] the step relation [firmware_step].
    - [Attention] ([attention_acks.py], [failsafe.py], [unregistered.py]), [Inbox] ([inbox.py],
      [dashboard.py]), [InboxEndpoints] ([admin/dashboard.py]); [InboxTheorems].
    - [UserEndpoints]: [admin/users.py].  [DeviceQueries]: [devices/_query.py], [_versions.py].
      [SetupWizard]: [setup_wizard.py], [admin/setup.py].  Each with its properties.
    - [DeviceForms] ([_device_config_forms.py]) and [DevicePages] ([admin/devices_ui.py], over the
      releases and the estate, state [works]); [DevicePageTheorems].
    - [SyncModel] (tables, [sync_emission.py]), [SyncApply] (the applier of
      [sync.py]), [SyncReplicator] ([sync_replicator.py], [blueprints/api/sync.py],
      [middleware/sync_auth.py]); [SyncFacts], [SyncSnapshot] hold their lemmas;
      [SyncTheorems], [SyncConvergence], [SyncProtocol] the properties;
      [SyncExamples] the concrete hubs that instantiate them.

    ** How the parts interact

    The watchdog and the schedules are sections over any [CommandQueue] and reach
    the command table only through it, as the code does through
    [enqueue_for_device].  The schedule reconciler and the watchdog tick share the
    maintenance flag of [RuntimeFlags].  The tick takes the probe as an argument;
    [run_probe_sound] lets [run_probe] of [WatchdogProbes] stand there, which reads
    the tables of the sensors, and [rule_op] composes the tick with the writes of
    [WatchdogRules].  A heartbeat updates the device row of [Commands], reports its
    version to [Deployments], stores a row of [PowerSamples], publishes on
    [EventBus] and, after a recovery, pushes through [DeviceConfig] into the queue
    whose commands its own answer then delivers.  The tenant boundary reads its mode through
    [RuntimeSettings], is dropped from its cache by their callbacks, and supplies
    the read decision of [RoleBindings] and the write guard of the sync applier.
    The applier runs with the emission hooks suppressed; the replicator gives it one
    transaction per event.  A delivery of [Notifications] goes out through
    [SsrfGuard].  A redemption writes the device row of [Commands] and its credential,
    settles the announcement and, for a restore, pushes through [DeviceConfig].
    The identity gate binds the organisation the tenant boundary filters by; redeeming an
    invitation grants through [RoleBindings]; a service token reaches the queue of [Commands].
    The rule pages read a form ([RuleForms]), ask [ConflictDetection] about the rule against
    the stored ones, and write through [WatchdogRules] and [Schedules].
    The estate embeds the fleet and its queue: its routes act through [Commands] and [Devices],
    show what the filters of [RoleBindings] let through, and write the log of [AuditLog]; the
    firmware pages deploy through [Deployments] to the devices of the estate; the users page
    acts on the identity tables and the estate's log; the wizard writes a configuration
    through [DeviceConfig] and a rule through [WatchdogRules]; the device pages are the estate,
    the releases, [DeviceQueries] and [DeviceForms] together.  The status page reads the
    devices, the attention tables and the rules.

    ** Sessions

    [db.py] opens every session without autoflush: a query of a transaction does not see the
    rows the transaction added until [session.flush] or the commit.  A definition that queries
    a table after adding to it, with no flush between, therefore reads the table as it was
    stored: [add_members] (an id given twice is refused at the flush), [apply_sections] (groups
    are linked to the sites stored before the import; what follows its flush sees the new rows),
    [replace_window] (the second delete spares the new rows).  Elsewhere the code flushes first,
    or the query is about another table, or the added rows cannot match it.

    ** What the theorems show

    - Queue: a call of [enqueue_for_device] does exactly what it documents or nothing;
      group fan-out partitions the members; histories keep the queue well formed;
      no redelivery within the grace period; expiry is exact.
    - Watchdog: the code refines the plain rule machine; over any history fires
      respect the cooldown and need enough failures; recovery is exact; protected
      devices are never powered; bindings are quiet in their steady state.
    - Probes and rules: [run_probe] is total; no success without a fresh sample; the
      HTTP probe ends; a stored rule is well typed over any history and a tick over
      such rules does not raise; an edit changes exactly what it documents.
    - Sensors: the flags are the bitfield; only the secret opens a webhook; a poll
      tick is contained.
    - Devices: the power topology stays a forest; one active assignment per device;
      a rollout ends with the report of its version; a long poll ends; a heartbeat
      is exact, column by column; a recovery is answered with the operator's configuration.
    - Schedules: the computed run is the first due instant; an accepted schedule
      always runs; a tick fires each due schedule once; the maintenance flag follows
      the windows and the operator.
    - Tenants and roles: reads are isolated; what a flush stamps, lets through, records and
      refuses, in every mode; the cached mode is at most five seconds old; the gate is the
      union of the bindings and admits all in shadow mode; the list filter is exact.
    - Sync: a replicated row is the original; deletions are permanent; re-delivery is
      harmless; hubs converge on the last writer in any order of arrival; enforced
      events stay in their tenant; polling replays the peer's outbox exactly; batches
      are contained; which peer tokens are accepted.
    - Notifications: emission queues exactly the matching subscriptions; a delivery
      is tried at most five times, the back-off apart, and then left alone; a tick
      sends the earliest due rows.
    - Outbound requests: the address filter is exact, as intervals; every socket goes to an
      address the resolver gave at validation, whatever is resolved later, and that is public
      or in the site-local block, which the filter lets through.
    - Enrollment: a token is redeemed once, over any history; a restore rebinds the row
      in place and rotates its credential; what a rebind by the announce endpoint needs.
    - Identity: the gate admits exactly the live credentials of active accounts; logging
      out everywhere ends every credential of an earlier second, but not the refresh
      tokens; reset tokens and invitations work once, over any history; the flags of an
      account follow its role; the bound organisation is a membership; the life of an API
      token is exact.  The histories are of this hub's identity operations, sync apart.
    - Backups: a file exported from one hub, redacted or encrypted, is accepted by any other
      and brings every row, setting, membership and device configuration back, but a group's
      site only where that hub had it before; an import touches no network setting, no secret by its redaction mark, no row of another tenant.
    - Rule pages: a save is blocked exactly when the rule and another (enabled or not), or a
      schedule, fight over a device; over any history of unacknowledged saves none do.
    - Estate: memberships, sites, names and scene items stay consistent over any history of
      requests; a group command is exact on every branch.
    - Firmware: the tables stay consistent over any history; while only the program writes the
      directory, an offered image is there and has its hash.
    - Status page: the verdict is exact; acknowledged items stay hidden; the table of refused
      requests is bounded.
    - Users page: what a request can change, and who can send it.
    - Device pages: the list is exact; a form saved as shown loses nothing; the power source a
      post leaves was offered; upgrades move forward; a command of the page is exact.
    - Wizard: its answers are accepted but for two cases; it keeps one rule per device and
      mode; a refused rule has cost the device the one it had.
    - Some theorems state behaviour the code documents otherwise (an escalation that
      is not an object, a binding after a probe error, a malformed peer event, a hub
      name with a dot, the list filter for a legacy super administrator, events of
      one tenant queued for the webhooks of all, a silent power sampler, a calendar
      with an all-day event, a NaN threshold, the edit of a binding at rest, the
      webhook secret that the redaction leaves in, a resolver failure that ends a
      delivery, site-local addresses, a restore refused because of separators, a stranded
      pickup that is not recovered, announcements hidden by the tenant filter, super
      administrators made by the review of a signup, invitations whose bindings are never
      stored, service tokens that cross tenants, bindings that no route revokes, viewers who
      command groups and devices and roll out firmware, restored groups without their site,
      a replicated edit that lowers a cutoff, a member named twice that fails the request).

    ** Bounds, fuel, parameters

    [walk_to_weekday] takes 7 days of fuel, and [next_run_is_the_first_due_instant]
    shows that a non-empty list of weekdays is hit within them.  The loop of the long
    poll takes fuel for its tests; [long_poll_terminates] shows that 31 are enough
    when a sleep lasts a second, as [time.sleep] documents.  [http_loop] and
    [power_walk] count the iterations of the loops they model (4 requests, 50 hops).
    Every other recursion is structural; the loops of the ticks run over the selected
    rows.
    Integers are unbounded as in Python; a BIGINT column takes what the parameter
    [db_bigint] says, and [db_accepts] stands for the database's constraints at flush
    (types, lengths, NOT NULL, UNIQUE, foreign keys).  Parameters, for code outside
    the repository: fresh identifiers ([ulid], injective where that matters), the ISO
    text of an instant ([IsoClock], whose round trip is its documented law), HMAC-
    SHA256 ([hmac_hex], whose digest has neither dot nor non-ASCII character),
    [json.loads], the environment, [repr], the HTTP exchange ([http_get], [fetch]),
    sockets, ping and DNS ([connect], [ping], [resolve], [getaddrinfo]), the HTTP library
    ([http_library]; [uses_the_mounts] is its documented use of a session's adapters and
    environment), the names the file system takes ([fs_accepts]) and whether a copy succeeds
    ([copy_ok]), the constraints of single tables ([audit_accepts], [device_accepts]), the
    address of a request ([remote_addr]), SHA-256 and the secrets drawn, Argon2 ([argon_hash],
    [argon_verify]), PyJWT ([jwt_encode], [jwt_decode]), [urljoin], [json.dumps],
    scrypt and AES-GCM, the poll of an external system ([poll_kind]), the clocks.  The request's
    user and route, what other threads do while a request sleeps, and whether a statement touches a
    tenant-scoped table are inputs.  A value a column stores is of the column's type:
    a flush refuses any other, coercion is not modelled.

    ** Not modelled

    The parsers of third-party feeds ([_pollers.py]), the listeners of MQTT and syslog, HTTP
    clients, SMTP and e-mail (input and output); HTML and JSON rendering, the prose of labels
    and messages, the settings and history pages; daily power rollups and intraday series;
    Flask glue but for the endpoints above; migrations; thread scheduling inside one
    operation; schedule dates past the year 9999; foreign-key actions other than those the
    components write out; concurrent commits that publish outbox numbers out of order (the
    outbox is by increasing [seq], as one writer leaves it); the sync events a site created by
    a registration emits.  Non-ASCII URLs and host names; Google sign-in. *)

From stdpp Require Export base tactics option list gmap strings fin_maps sorting.
From stdpp Require Import pretty.
From Stdlib Require Export ZArith Lia.
From Stdlib Require Import Ascii.
Local Open Scope string_scope.
Local Open Scope list_scope.

#[global] Set Default Goal Selector "!".

(** ** Scopes and notations

    [py_scope] holds the notations of the development: Python's [a or b] on
    option-valued columns and the outcome of a call. *)
Declare Scope py_scope.
Delimit Scope py_scope with py.

(** The empty string. *)
Abbreviation empty_str := EmptyString.

(** ** Python exceptions and call outcomes

    A call either returns a value or raises.  The message of an exception is
    kept when it is a literal; text interpolated into it is not modelled. *)
Inductive exn :=
  | ValueError (msg : string)
  | LookupError (key : string)
  | TypeError (msg : string)
  | AttributeError (msg : string)
  | KeyError (key : string)
  | RuntimeError (msg : string)
  | OverflowError
  | DBError (msg : string)            (* raised by the database driver *)
  | AppError (cls code : string).     (* an exception class of the application *)

Inductive outcome (A : Type) :=
  | Ret (a : A)
  | Raise (e : exn).
Arguments Ret {A} a.
Arguments Raise {A} e.

#[export] Instance outcome_ret : MRet outcome := @Ret.
#[export] Instance outcome_bind : MBind outcome :=
  fun A B f m => match m with Ret a => f a | Raise e => Raise e end.

#[export] Instance outcome_fmap : FMap outcome :=
  fun A B f m => match m with Ret a => Ret (f a) | Raise e => Raise e end.

(** [returns o]: the call came back without an exception. *)
Definition returns {A} (o : outcome A) : bool :=
  match o with Ret _ => true | Raise _ => false end.

(** ** Transactions

    [app/db.py] [session_scope]: the body runs on a session; the transaction
    commits when the body returns and rolls back when it raises, and the
    exception is re-raised. *)
Definition session_scope {S A} (body : S -> outcome A * S) (s : S) : outcome A * S :=
  match body s with
  | (Ret a, s') => (Ret a, s')
  | (Raise e, _) => (Raise e, s)
  end.

(** ** Time

    A tz-aware UTC [datetime] is a number of microseconds since 1970-01-01.
    [as_aware] is the identity on such values (every column is
    [DateTime(timezone=True)]). *)
Abbreviation time := Z.
Definition MICRO : Z := 1000000.
Definition seconds (n : Z) : Z := n * MICRO.
Definition minutes (n : Z) : Z := n * 60 * MICRO.
Definition hours (n : Z) : Z := n * 3600 * MICRO.
Definition DAY : Z := 86400 * MICRO.

(** ** Strings (ASCII) *)

Definition is_space (a : Ascii.ascii) : bool :=
  match Ascii.nat_of_ascii a with
  | 9 | 10 | 11 | 12 | 13 | 28 | 29 | 30 | 31 | 32 => true
  | _ => false
  end%nat.

Fixpoint lstrip (s : string) : string :=
  match s with
  | EmptyString => EmptyString
  | String a r => if is_space a then lstrip r else s
  end.

Fixpoint rev_string_onto (s acc : string) : string :=
  match s with
  | EmptyString => acc
  | String a r => rev_string_onto r (String a acc)
  end.
Definition rev_str (s : string) : string := rev_string_onto s EmptyString.

(** [str.strip()]. *)
Definition strip (s : string) : string := rev_str (lstrip (rev_str (lstrip s))).

Definition map_ascii (f : Ascii.ascii -> Ascii.ascii) : string -> string :=
  fix go s := match s with
              | EmptyString => EmptyString
              | String a r => String (f a) (go r)
              end.

Definition ascii_lower (a : Ascii.ascii) : Ascii.ascii :=
  let n := Ascii.nat_of_ascii a in
  if (65 <=? n)%nat && (n <=? 90)%nat then Ascii.ascii_of_nat (n + 32) else a.
Definition ascii_upper (a : Ascii.ascii) : Ascii.ascii :=
  let n := Ascii.nat_of_ascii a in
  if (97 <=? n)%nat && (n <=? 122)%nat then Ascii.ascii_of_nat (n - 32) else a.

(** [str.lower()], [str.upper()] on ASCII. *)
Definition lower : string -> string := map_ascii ascii_lower.
Definition upper : string -> string := map_ascii ascii_upper.

(** [s.startswith(p)]. *)
Definition startswith (p s : string) : bool := String.prefix p s.

(** [not s] for a string. *)
Definition is_empty (s : string) : bool :=
  match s with EmptyString => true | _ => false end.

(** Python truthiness of an optional string column. *)
Definition truthy_str (o : option string) : bool :=
  match o with Some s => negb (is_empty s) | None => false end.

(** [a or b] on an optional string. *)
Definition or_str (o : option string) (d : string) : string :=
  match o with Some s => if is_empty s then d else s | None => d end.

(** ** JSON values, as Python sees them

    A [dict] keeps its insertion order; the parser never produces a repeated
    key.  A float is finite ([m * 2^e]), infinite or NaN. *)
Inductive pyfloat :=
  | FFinite (m e : Z)
  | FInf (neg : bool)
  | FNan.

Inductive json :=
  | JNull
  | JBool (b : bool)
  | JInt (z : Z)
  | JFloat (f : pyfloat)
  | JStr (s : string)
  | JList (l : list json)
  | JObj (kvs : list (string * json)).

#[export] Instance pyfloat_eq_dec : EqDecision pyfloat.
Proof. solve_decision. Defined.

Fixpoint json_eq_dec (a b : json) : {a = b} + {a <> b}.
Proof.
  destruct a as [|x|x|x|x|x|x], b as [|y|y|y|y|y|y]; try (right; discriminate).
  - left; reflexivity.
  - destruct (decide (x = y)); [left; congruence | right; congruence].
  - destruct (decide (x = y)); [left; congruence | right; congruence].
  - destruct (decide (x = y)); [left; congruence | right; congruence].
  - destruct (decide (x = y)); [left; congruence | right; congruence].
  - destruct (List.list_eq_dec json_eq_dec x y); [left; congruence | right; congruence].
  - assert (pe : forall p q : string * json, {p = q} + {p <> q}).
    { intros [k v] [k' v'].
      destruct (decide (k = k')); [|right; congruence].
      destruct (json_eq_dec v v'); [left; congruence | right; congruence]. }
    destruct (List.list_eq_dec pe x y); [left; congruence | right; congruence].
Defined.
#[export] Instance json_decision : EqDecision json := json_eq_dec.

(** A Python [dict] with string keys. *)
Abbreviation pydict := (list (string * json)).

(** [d.get(k)]: the first binding (keys do not repeat). *)
Fixpoint dict_get (d : pydict) (k : string) : option json :=
  match d with
  | [] => None
  | (k', v) :: r => if String.eqb k k' then Some v else dict_get r k
  end.

(** [k in d]. *)
Definition dict_has (d : pydict) (k : string) : bool :=
  match dict_get d k with Some _ => true | None => false end.

(** [d.get(k)] as a JSON value: [None] when the key is absent. *)
Definition dget (d : pydict) (k : string) : json :=
  match dict_get d k with Some v => v | None => JNull end.

Definition dict_keys (d : pydict) : list string := d.*1.

(** Truthiness. *)
Definition truthy (v : json) : bool :=
  match v with
  | JNull => false
  | JBool b => b
  | JInt z => negb (z =? 0)%Z
  | JFloat (FFinite m _) => negb (m =? 0)%Z
  | JFloat _ => true
  | JStr s => negb (is_empty s)
  | JList l => match l with [] => false | _ => true end
  | JObj d => match d with [] => false | _ => true end
  end.

(** [a or b]. *)
Definition jor (a b : json) : json := if truthy a then a else b.

(** [isinstance(v, int)]: [bool] is a subclass of [int]. *)
Definition as_int (v : json) : option Z :=
  match v with
  | JInt z => Some z
  | JBool b => Some (if b then 1 else 0)%Z
  | _ => None
  end.
Definition as_str (v : json) : option string :=
  match v with JStr s => Some s | _ => None end.
Definition as_dict (v : json) : option pydict :=
  match v with JObj d => Some d | _ => None end.

(** [v.get(k)] on an arbitrary value: only a [dict] has the attribute. *)
Definition jget (v : json) (k : string) : outcome json :=
  match v with
  | JObj d => Ret (dget d k)
  | _ => Raise (AttributeError "get")
  end.

(** [v == "lit"] on an arbitrary value. *)
Definition jeqs (v : json) (s : string) : bool :=
  match v with JStr t => String.eqb t s | _ => false end.

(** The value can be a key of a dict or a member of a set. *)
Definition hashable (v : json) : bool := match v with JList _ | JObj _ => false | _ => true end.

(** ** Conversions of the Python built-ins *)

(** [int(s)] on a string: blanks around, an optional sign, ASCII digits with
    single underscores between them. *)
Definition digit_of (a : Ascii.ascii) : option Z :=
  let n := Ascii.nat_of_ascii a in
  if (48 <=? n)%nat && (n <=? 57)%nat then Some (Z.of_nat (n - 48)) else None.

Fixpoint digits_from (s : string) (acc : Z) (after_digit : bool) : option Z :=
  match s with
  | EmptyString => if after_digit then Some acc else None
  | String a r =>
    match digit_of a with
    | Some d => digits_from r (acc * 10 + d)%Z true
    | None => if after_digit && Ascii.eqb a "_"%char then digits_from r acc false else None
    end
  end.

Definition parse_int (s : string) : option Z :=
  match strip s with
  | String "-" r => Z.opp <$> digits_from r 0 false
  | String "+" r => digits_from r 0 false
  | r => digits_from r 0 false
  end.

(** [int(v)]: truncation toward zero for a float. *)
Definition py_int (v : json) : outcome Z :=
  match v with
  | JInt z => Ret z
  | JBool b => Ret (if b then 1 else 0)%Z
  | JFloat (FFinite m e) =>
      Ret (if (0 <=? e)%Z then m * 2 ^ e else Z.quot m (2 ^ (- e)))%Z
  | JFloat (FInf _) => Raise OverflowError
  | JFloat FNan => Raise (ValueError "cannot convert float NaN to integer")
  | JStr s => match parse_int s with
              | Some z => Ret z
              | None => Raise (ValueError "invalid literal for int()")
              end
  | JNull | JList _ | JObj _ => Raise (TypeError "int() argument")
  end.

(** [d.get(k, default)]. *)
Definition dget_default (d : pydict) (k : string) (default : json) : json :=
  match dict_get d k with Some v => v | None => default end.

(** The one-character strings of a string. *)
Fixpoint chars (s : string) : list json :=
  match s with
  | EmptyString => []
  | String a r => JStr (String a EmptyString) :: chars r
  end.

(** [for x in v]. *)
Definition py_iter (v : json) : outcome (list json) :=
  match v with
  | JList l => Ret l
  | JObj d => Ret (JStr <$> dict_keys d)
  | JStr s => Ret (chars s)
  | _ => Raise (TypeError "not iterable")
  end.

(** [str(v)]; [py_repr] is the text of a float, a list or a dict. *)
Definition py_str (py_repr : json -> string) (v : json) : string :=
  match v with
  | JStr s => s
  | JNull => "None"
  | JBool true => "True"
  | JBool false => "False"
  | JInt z => pretty z
  | _ => py_repr v
  end.

(** [(v or "").strip()]. *)
Definition strip_or_empty (v : json) : outcome string :=
  match jor v (JStr EmptyString) with
  | JStr s => Ret (strip s)
  | _ => Raise (AttributeError "strip")
  end.
(** [s or None]. *)
Definition none_if_empty (s : string) : json := if is_empty s then JNull else JStr s.

(** [s[:n]]. *)
Definition str_take (n : nat) (s : string) : string := String.substring 0 n s.

(** [needle in s]. *)
Fixpoint str_in (needle s : string) : bool :=
  startswith needle s ||
  match s with EmptyString => false | String _ r => str_in needle r end.

(** [s.split(c)]. *)
Fixpoint split_on (c : Ascii.ascii) (s : string) : list string :=
  match s with
  | EmptyString => [EmptyString]
  | String a r =>
    if Ascii.eqb a c then EmptyString :: split_on c r
    else match split_on c r with
         | x :: l => String a x :: l
         | [] => [String a EmptyString]
         end
  end.

(** [s.splitlines()]: the ASCII line boundaries, a CR LF pair counting once. *)
Definition is_line_break (a : Ascii.ascii) : bool :=
  match Ascii.nat_of_ascii a with
  | 10 | 11 | 12 | 13 | 28 | 29 | 30 => true
  | _ => false
  end%nat.
Fixpoint split_lines_from (s acc : string) : list string :=
  match s with
  | EmptyString => if is_empty acc then [] else [rev_str acc]
  | String a r =>
    if is_line_break a then
      rev_str acc ::
      match a, r with
      | "013"%char, String "010"%char r' => split_lines_from r' EmptyString
      | _, _ => split_lines_from r EmptyString
      end
    else split_lines_from r (String a acc)
  end.
Definition splitlines (s : string) : list string := split_lines_from s EmptyString.

(** [str(e)] of an exception: the modelled part of its message. *)
Definition exn_str (e : exn) : string :=
  match e with
  | ValueError m | LookupError m | TypeError m | AttributeError m | KeyError m
  | RuntimeError m | DBError m => m
  | OverflowError => "overflow"
  | AppError _ c => c
  end.

(** A [json] column that may be absent, as a value. *)
Definition ojson (o : option string) : json :=
  match o with Some s => JStr s | None => JNull end.

(** ** ISO 8601 timestamps

    The code writes instants with [datetime.isoformat()] and reads them back
    with [datetime.fromisoformat] (a naive value is then taken as UTC).  The
    components rely on the round trip only; a text the parser refuses gives
    [None] ([ValueError]). *)
(** [s.replace("Z", "+00:00")]. *)
Fixpoint replace_z (s : string) : string :=
  match s with
  | EmptyString => EmptyString
  | String a r => if Ascii.eqb a "Z"%char then String.append "+00:00" (replace_z r)
                  else String a (replace_z r)
  end.

Class IsoClock := {
  isoformat : time -> string;
  fromisoformat : string -> option time;
  iso_roundtrip t : fromisoformat (isoformat t) = Some t;
  isoformat_nonempty t : is_empty (isoformat t) = false;
  isoformat_no_z t : replace_z (isoformat t) = isoformat t
}.

(** A concrete clock for the witnesses: sign and binary digits. *)
Fixpoint pos_digits (p : positive) : string :=
  match p with
  | xH => EmptyString
  | xO r => String "0"%char (pos_digits r)
  | xI r => String "1"%char (pos_digits r)
  end.
Fixpoint pos_of_digits (s : string) : positive :=
  match s with
  | EmptyString => xH
  | String a r => if Ascii.eqb a "1"%char then xI (pos_of_digits r) else xO (pos_of_digits r)
  end.
Lemma pos_of_digits_digits p : pos_of_digits (pos_digits p) = p.
Proof. induction p as [p IH|p IH|]; simpl; congruence. Qed.

Definition binary_isoformat (t : time) : string :=
  match t with
  | Z0 => "0"
  | Zpos p => String "+"%char (pos_digits p)
  | Zneg p => String "-"%char (pos_digits p)
  end.
Definition binary_fromisoformat (s : string) : option time :=
  match s with
  | String "0"%char EmptyString => Some 0%Z
  | String "+"%char r => Some (Zpos (pos_of_digits r))
  | String "-"%char r => Some (Zneg (pos_of_digits r))
  | _ => None
  end.
Lemma binary_roundtrip t : binary_fromisoformat (binary_isoformat t) = Some t.
Proof. destruct t; simpl; by rewrite ?pos_of_digits_digits. Qed.
Lemma binary_nonempty t : is_empty (binary_isoformat t) = false.
Proof. by destruct t. Qed.
Lemma digits_no_z p : replace_z (pos_digits p) = pos_digits p.
Proof. induction p as [p IH|p IH|]; cbn; by rewrite ?IH. Qed.
Lemma binary_no_z t : replace_z (binary_isoformat t) = binary_isoformat t.
Proof. destruct t; cbn; by rewrite ?digits_no_z. Qed.
Definition binary_clock : IsoClock := {|
  isoformat := binary_isoformat; fromisoformat := binary_fromisoformat;
  iso_roundtrip := binary_roundtrip; isoformat_nonempty := binary_nonempty;
  isoformat_no_z := binary_no_z |}.

(** ** Queries

    [ORDER BY key ASC] and [ORDER BY key DESC] over the rows of a table; SQL
    leaves the order of ties open and so do the theorems. *)
Section order_by.
Context {A : Type} (key : A -> Z).

Definition key_le (a b : A) : Prop := (key a <= key b)%Z.
Definition key_ge (a b : A) : Prop := (key b <= key a)%Z.
#[export] Instance key_le_dec : RelDecision key_le.
Proof. intros a b; unfold key_le; apply _. Defined.
#[export] Instance key_ge_dec : RelDecision key_ge.
Proof. intros a b; unfold key_ge; apply _. Defined.
#[export] Instance key_le_total : Total key_le.
Proof. intros a b; unfold key_le; lia. Qed.
#[export] Instance key_ge_total : Total key_ge.
Proof. intros a b; unfold key_ge; lia. Qed.
#[export] Instance key_le_trans : Transitive key_le.
Proof. intros a b c; unfold key_le; lia. Qed.
#[export] Instance key_ge_trans : Transitive key_ge.
Proof. intros a b c; unfold key_ge; lia. Qed.

Definition order_by (l : list A) : list A := merge_sort key_le l.
Definition order_by_desc (l : list A) : list A := merge_sort key_ge l.

Lemma order_by_perm l : order_by l ≡ₚ l.
Proof. apply merge_sort_Permutation. Qed.
Lemma order_by_desc_perm l : order_by_desc l ≡ₚ l.
Proof. apply merge_sort_Permutation. Qed.
Lemma order_by_sorted l : StronglySorted key_le (order_by l).
Proof. apply StronglySorted_merge_sort; apply _. Qed.
Lemma order_by_desc_sorted l : StronglySorted key_ge (order_by_desc l).
Proof. apply StronglySorted_merge_sort; apply _. Qed.

(** The first row of [ORDER BY key DESC LIMIT 1] is a row with the largest key. *)
Lemma order_by_desc_head l a :
  head (order_by_desc l) = Some a -> a ∈ l /\ forall b, b ∈ l -> (key b <= key a)%Z.
Proof.
  intros Hh. pose proof (order_by_desc_perm l) as Hp.
  pose proof (order_by_desc_sorted l) as Hs.
  destruct (order_by_desc l) as [|x r]; [done|]. simpl in Hh. simplify_eq.
  split.
  - rewrite <- Hp. left.
  - intros b Hb. rewrite <- Hp in Hb. apply elem_of_cons in Hb as [->|Hb]; [lia|].
    inversion Hs as [|? ? _ Hall]; subst.
    rewrite Forall_forall in Hall. apply (Hall b Hb).
Qed.

Lemma order_by_desc_nil l : head (order_by_desc l) = None -> l = [].
Proof.
  intros Hh. pose proof (order_by_desc_perm l) as Hp.
  destruct (order_by_desc l); [|done]. by apply Permutation_nil_l in Hp.
Qed.
End order_by.

(** The rows of a table. *)
Definition rows {K A} `{Countable K} (m : gmap K A) : list A := (map_to_list m).*2.

Lemma elem_of_rows {K A} `{Countable K} (m : gmap K A) a :
  a ∈ rows m <-> exists k, m !! k = Some a.
Proof.
  unfold rows. rewrite list_elem_of_fmap. split.
  - intros [[k v] [-> Hin]]. exists k. by apply elem_of_map_to_list in Hin.
  - intros [k Hk]. exists (k, a). split; [done|]. by apply elem_of_map_to_list.
Qed.

(** ** Lemmas and automation shared by the components *)

Lemma session_scope_raise {S A} (body : S -> outcome A * S) s e s' :
  session_scope body s = (Raise e, s') -> s' = s.
Proof. unfold session_scope. destruct (body s) as [[a|e'] s'']; by intros [=]. Qed.

Lemma session_scope_ret {S A} (body : S -> outcome A * S) s a s' :
  session_scope body s = (Ret a, s') <-> body s = (Ret a, s').
Proof.
  unfold session_scope. destruct (body s) as [[a'|e'] s'']; [done|].
  split; intros; simplify_eq.
Qed.

Create HintDb hub.
#[export] Hint Resolve order_by_perm order_by_desc_perm order_by_sorted : hub.

(** [cases]: split every [match] and [if] of the goal and the hypotheses,
    solving the branches that contradict one another. *)
Ltac cases := repeat (case_match; simplify_eq; try done).

(** Turn boolean tests into propositions. *)
Ltac bool_to_prop :=
  repeat match goal with
  | H : (_ && _) = true |- _ => apply andb_prop in H as [? ?]
  | H : (_ || _) = false |- _ => apply orb_false_elim in H as [? ?]
  | H : negb _ = true |- _ => apply negb_true_iff in H
  | H : negb _ = false |- _ => apply negb_false_iff in H
  | H : (_ <=? _)%Z = true |- _ => apply Z.leb_le in H
  | H : (_ <=? _)%Z = false |- _ => apply Z.leb_gt in H
  | H : (_ <? _)%Z = true |- _ => apply Z.ltb_lt in H
  | H : (_ <? _)%Z = false |- _ => apply Z.ltb_ge in H
  | H : (_ =? _)%Z = true |- _ => apply Z.eqb_eq in H
  | H : (_ =? _)%Z = false |- _ => apply Z.eqb_neq in H
  | H : String.eqb _ _ = true |- _ => apply String.eqb_eq in H
  | H : String.eqb _ _ = false |- _ => apply String.eqb_neq in H
  end.

(** Membership of a string in a literal list, decided. *)
Definition in_strs (s : string) (l : list string) : bool := existsb (String.eqb s) l.
Arguments in_strs _ _ : simpl never.

Lemma in_strs_spec s l : in_strs s l = true <-> s ∈ l.
Proof.
  unfold in_strs. rewrite existsb_exists. split.
  - intros [x [Hx Heq]]. apply String.eqb_eq in Heq as ->. by apply list_elem_of_In.
  - intros Hin. exists s. split; [by apply list_elem_of_In|apply String.eqb_refl].
Qed.

Lemma in_strs_cons s x l : in_strs s (x :: l) = String.eqb s x || in_strs s l.
Proof. done. Qed.

(** ** Calls in sequence *)

Lemma bind_ret {A B} (m : outcome A) (f : A -> outcome B) b :
  (x ← m; f x) = Ret b <-> exists a, m = Ret a /\ f a = Ret b.
Proof. destruct m as [a|e]; cbn; [naive_solver|]. split; [done|by intros (?&?&?)]. Qed.

Lemma bind_raise {A B} (m : outcome A) (f : A -> outcome B) e :
  (x ← m; f x) = Raise e <-> m = Raise e \/ exists a, m = Ret a /\ f a = Raise e.
Proof. destruct m as [a|e']; cbn; naive_solver. Qed.

(** Peel the calls of a [Ret] equation off, one at a time. *)
Ltac peel H :=
  match type of H with
  | mbind _ _ = Ret _ =>
    let x := fresh "x" in let Hx := fresh "Hx" in
    apply bind_ret in H as (x & Hx & H)
  end.

(** ** Mapping a call over a list *)

Lemma mapM_ret {A B} (f : A -> outcome B) l k :
  mapM f l = Ret k <-> Forall2 (fun x y => f x = Ret y) l k.
Proof.
  split.
  - revert k. induction l as [|x l IH]; intros k; cbn.
    { intros [= <-]. constructor. }
    destruct (f x) as [y|e] eqn:E; [|done]. cbn.
    destruct (mapM f l) as [k'|e]; [|done]. intros [= <-]. constructor; auto.
  - induction 1 as [|x y l k Hx _ IH]; cbn; [done|]. rewrite Hx. cbn. by rewrite IH.
Qed.

Lemma mapM_JInt ds : mapM py_int (JInt <$> ds) = Ret ds.
Proof. apply mapM_ret. induction ds; by constructor. Qed.

Lemma truthy_iter v l : truthy v = true -> py_iter v = Ret l -> l <> [].
Proof.
  destruct v as [| | | |s|l'|d]; try done; cbn.
  - destruct s; [done|]. by intros _ [= <-].
  - destruct l'; [done|]. by intros _ [= <-].
  - destruct d; [done|]. by intros _ [= <-].
Qed.

(** ** The token of an [Authorization: Bearer] header *)

Lemma substring_all s : String.substring 0 (String.length s) s = s.
Proof. induction s as [|a s IH]; cbn; congruence. Qed.
Lemma bearer_rest t :
  String.substring 7 (String.length (String.append "Bearer " t) - 7) (String.append "Bearer " t) = t.
Proof.
  change (String.substring 0 (String.length t - 0) t = t). rewrite Nat.sub_0_r. apply substring_all.
Qed.
Lemma startswith_app p s : startswith p (String.append p s) = true.
Proof.
  unfold startswith. induction p as [|a p IH]; [by destruct s|].
  change (String a p +:+ s) with (String a (p +:+ s)). cbn.
  destruct (Ascii.ascii_dec a a); [exact IH|done].
Qed.
Lemma bearer_prefix t : startswith "Bearer " (String.append "Bearer " t) = true.
Proof. by destruct t. Qed.
