(* ===== verification/PyFloat.v ===== *)
(** * Python floats

    The built-in [float] as the probes and the validators use it: binary64
    arithmetic (the specification of the Standard Library, round to nearest
    even), [float()], comparisons, [round()] and [sum()].  A finite value is the
    exact number [m * 2^e]; the sign of zero is not kept. *)

From Stdlib Require Import Ascii SpecFloat.
From S2P Require Import Prelude.
Local Open Scope string_scope.
Local Open Scope list_scope.
Local Open Scope Z_scope.

(** ** Between Python values and the specification *)

Definition PREC : Z := 53.
Definition EMAX : Z := 1024.

Definition of_spec (x : spec_float) : pyfloat :=
  match x with
  | S754_zero _ => FFinite 0 0
  | S754_infinity s => FInf s
  | S754_nan => FNan
  | S754_finite s m e => FFinite (cond_Zopp s (Zpos m)) e
  end.

Definition to_spec (x : pyfloat) : spec_float :=
  match x with
  | FFinite m e => binary_normalize PREC EMAX m e false
  | FInf s => S754_infinity s
  | FNan => S754_nan
  end.

Definition fadd (a b : pyfloat) : pyfloat := of_spec (SFadd PREC EMAX (to_spec a) (to_spec b)).
Definition fsub (a b : pyfloat) : pyfloat := of_spec (SFsub PREC EMAX (to_spec a) (to_spec b)).
Definition fmul (a b : pyfloat) : pyfloat := of_spec (SFmul PREC EMAX (to_spec a) (to_spec b)).
Definition fdiv (a b : pyfloat) : pyfloat := of_spec (SFdiv PREC EMAX (to_spec a) (to_spec b)).

(** The double nearest to [n / d], [d] positive. *)
Definition exact (z : Z) : spec_float :=
  match z with
  | Z0 => S754_zero false
  | Zpos p => S754_finite false p 0
  | Zneg p => S754_finite true p 0
  end.
Definition float_of_ratio (n d : Z) : pyfloat := of_spec (SFdiv PREC EMAX (exact n) (exact d)).

(** The double nearest to [m * 10^k]. *)
Definition float_of_decimal (m k : Z) : pyfloat :=
  if 0 <=? k then of_spec (binary_normalize PREC EMAX (m * 10 ^ k) 0 false)
  else float_of_ratio m (10 ^ (- k)).

(** [float(z)]. *)
Definition float_of_int (z : Z) : outcome pyfloat :=
  match of_spec (binary_normalize PREC EMAX z 0 false) with
  | FInf _ => Raise OverflowError
  | f => Ret f
  end.

(** ** Comparisons

    Exact on finite values; every comparison with NaN is false. *)
Definition fcompare (a b : pyfloat) : option comparison :=
  match a, b with
  | FNan, _ | _, FNan => None
  | FInf s, FInf t => Some (if Bool.eqb s t then Eq else if s then Lt else Gt)
  | FInf s, FFinite _ _ => Some (if s then Lt else Gt)
  | FFinite _ _, FInf s => Some (if s then Gt else Lt)
  | FFinite m e, FFinite n f =>
    let k := Z.min e f in Some (Z.compare (m * 2 ^ (e - k)) (n * 2 ^ (f - k)))
  end.
Definition flt (a b : pyfloat) : bool :=
  match fcompare a b with Some Lt => true | _ => false end.
Definition fle (a b : pyfloat) : bool :=
  match fcompare a b with Some Lt | Some Eq => true | _ => false end.
Definition fgt (a b : pyfloat) : bool := flt b a.

Definition is_finite (f : pyfloat) : bool := match f with FFinite _ _ => true | _ => false end.
Definition is_zero (f : pyfloat) : bool := match f with FFinite m _ => m =? 0 | _ => false end.
Definition fabs (f : pyfloat) : pyfloat :=
  match f with FFinite m e => FFinite (Z.abs m) e | FInf _ => FInf false | FNan => FNan end.
Definition fint (z : Z) : pyfloat := FFinite z 0.

(** ** [float(s)] *)

(** Digits with single underscores between them: their value appended to
    [acc], their number, and the rest; [None] when an underscore is misplaced. *)
Definition starts_digit (s : string) : bool :=
  match s with String a _ => bool_decide (is_Some (digit_of a)) | EmptyString => false end.
Fixpoint take_digits (s : string) (acc : Z) (n : Z) (after_digit : bool)
    : option (Z * Z * string) :=
  match s with
  | EmptyString => Some (acc, n, s)
  | String a r =>
    match digit_of a with
    | Some d => take_digits r (acc * 10 + d) (n + 1) true
    | None =>
      if Ascii.eqb a "_"%char
      then if after_digit && starts_digit r then take_digits r acc n false else None
      else Some (acc, n, s)
    end
  end.

Definition sign_of (s : string) : bool * string :=
  match s with
  | String "-" r => (true, r)
  | String "+" r => (false, r)
  | _ => (false, s)
  end.

(** [e[+-]digits], to the end of the text. *)
Definition take_exponent (s : string) : option Z :=
  match s with
  | EmptyString => Some 0
  | String a r =>
    if Ascii.eqb (ascii_lower a) "e"%char then
      let '(neg, r) := sign_of r in
      match take_digits r 0 0 false with
      | Some (x, n, EmptyString) => if n =? 0 then None else Some (if neg then - x else x)
      | _ => None
      end
    else None
  end.

Definition parse_decimal (neg : bool) (s : string) : option pyfloat :=
  '(i, n1, r) ← take_digits s 0 0 false;
  '(m, n2, r) ← match r with
                | String "." r' => take_digits r' i 0 false
                | _ => Some (i, 0, r)
                end;
  e ← take_exponent r;
  if n1 + n2 =? 0 then None
  else Some (float_of_decimal (if neg then - m else m) (e - n2)).

Definition parse_float (s : string) : option pyfloat :=
  let '(neg, r) := sign_of (strip s) in
  if in_strs (lower r) ["inf"; "infinity"] then Some (FInf neg)
  else if String.eqb (lower r) "nan" then Some FNan
  else parse_decimal neg r.

(** [float(v)]. *)
Definition py_float (v : json) : outcome pyfloat :=
  match v with
  | JFloat f => Ret f
  | JInt z => float_of_int z
  | JBool b => Ret (fint (if b then 1 else 0))
  | JStr s => match parse_float s with
              | Some f => Ret f
              | None => Raise (ValueError "could not convert string to float")
              end
  | JNull | JList _ | JObj _ => Raise (TypeError "float() argument")
  end.

(** [try: float(v) except (TypeError, ValueError): None]; an [OverflowError]
    is not caught. *)
Definition try_float (v : json) : outcome (option pyfloat) :=
  match py_float v with
  | Ret f => Ret (Some f)
  | Raise (TypeError _) | Raise (ValueError _) => Ret None
  | Raise e => Raise e
  end.
(** [try: int(v) except (TypeError, ValueError): None]. *)
Definition try_int (v : json) : outcome (option Z) :=
  match py_int v with
  | Ret z => Ret (Some z)
  | Raise (TypeError _) | Raise (ValueError _) => Ret None
  | Raise e => Raise e
  end.

(** ** [int] and [float] arithmetic *)

Inductive pynum := NInt (z : Z) | NFloat (f : pyfloat).

Definition as_num (v : json) : option pynum :=
  match v with
  | JFloat f => Some (NFloat f)
  | _ => NInt <$> as_int v
  end.
Definition num_float (a : pynum) : outcome pyfloat :=
  match a with NInt z => float_of_int z | NFloat f => Ret f end.
Definition num_op (iop : Z -> Z -> Z) (fop : pyfloat -> pyfloat -> pyfloat) (a b : pynum)
    : outcome pynum :=
  match a, b with
  | NInt x, NInt y => Ret (NInt (iop x y))
  | _, _ => x ← num_float a; y ← num_float b; Ret (NFloat (fop x y))
  end.
Definition num_add : pynum -> pynum -> outcome pynum := num_op Z.add fadd.
Definition num_sub : pynum -> pynum -> outcome pynum := num_op Z.sub fsub.
Definition num_mul : pynum -> pynum -> outcome pynum := num_op Z.mul fmul.
(** [a / b] for a float [b]. *)
Definition num_div (a : pynum) (b : pyfloat) : outcome pyfloat :=
  x ← num_float a; Ret (fdiv x b).
(** [a >= 0]. *)
Definition num_nonneg (a : pynum) : bool :=
  match a with NInt z => 0 <=? z | NFloat f => fle (fint 0) f end.

(** ** [a == b]: numbers by value whatever their types, objects by key. *)
Definition num_eq (a b : pynum) : bool :=
  let float x := match x with NInt z => fint z | NFloat f => f end in
  match fcompare (float a) (float b) with Some Eq => true | _ => false end.
Fixpoint py_eq (a b : json) {struct a} : bool :=
  match a, b with
  | JNull, JNull => true
  | JStr s, JStr t => String.eqb s t
  | JList l, JList m =>
    (fix all2 (l m : list json) : bool :=
       match l, m with
       | [], [] => true
       | x :: l, y :: m => py_eq x y && all2 l m
       | _, _ => false
       end) l m
  | JObj d, JObj e =>
    Nat.eqb (length d) (length e) &&
    (fix sub (d : pydict) : bool :=
       match d with
       | [] => true
       | (k, v) :: d => match dict_get e k with Some w => py_eq v w | None => false end && sub d
       end) d
  | _, _ => match as_num a, as_num b with Some x, Some y => num_eq x y | _, _ => false end
  end.

(** ** [round(x, d)]: the nearest multiple of [10^-d], ties to even, read back
    as a double. *)
Definition round_half_even (n d : Z) : Z :=
  let q := n / d in
  match Z.compare (2 * (n mod d)) d with
  | Lt => q
  | Gt => q + 1
  | Eq => if Z.even q then q else q + 1
  end.
Definition py_round (x : pyfloat) (d : Z) : pyfloat :=
  match x with
  | FFinite m e =>
    let n := if 0 <=? e then m * 2 ^ e * 10 ^ d else m * 10 ^ d in
    let den := if 0 <=? e then 1 else 2 ^ (- e) in
    float_of_decimal (round_half_even n den) (- d)
  | f => f
  end.

(** ** [sum(xs)] over floats: Neumaier's compensated summation, with the
    compensation added at the end when it is finite and not zero. *)
Fixpoint sum_loop (acc c : pyfloat) (xs : list pyfloat) : pyfloat :=
  match xs with
  | [] => if is_finite c && negb (is_zero c) then fadd acc c else acc
  | x :: r =>
    let t := fadd acc x in
    let c := if fle (fabs x) (fabs acc) then fadd c (fadd (fsub acc t) x)
             else fadd c (fadd (fsub x t) acc) in
    sum_loop t c r
  end.
Definition py_sum (xs : list pyfloat) : pyfloat :=
  match xs with [] => fint 0 | x :: r => sum_loop (fadd (fint 0) x) (fint 0) r end.

(** [sum(xs) / len(xs)]. *)
Definition mean (xs : list pyfloat) : pyfloat := fdiv (py_sum xs) (fint (Z.of_nat (length xs))).

(** [min(xs)], [max(xs)] of a list that is not empty: the first extreme. *)
Definition fmin_list (x : pyfloat) (r : list pyfloat) : pyfloat :=
  fold_left (fun m y => if flt y m then y else m) r x.
Definition fmax_list (x : pyfloat) (r : list pyfloat) : pyfloat :=
  fold_left (fun m y => if flt m y then y else m) r x.

(** [timedelta.total_seconds()] of a number of microseconds. *)
Definition total_seconds (us : Z) : pyfloat := float_of_ratio us MICRO.

(** ** Facts *)

Lemma flt_irrefl a : flt a a = false.
Proof.
  unfold flt. destruct a as [m e|s|]; cbn; [|by destruct s|done].
  by rewrite Z.compare_refl.
Qed.

Lemma py_eq_str s t : py_eq (JStr s) (JStr t) = String.eqb s t.
Proof. done. Qed.

Lemma fcompare_antisym a b :
  fcompare b a = CompOpp <$> fcompare a b.
Proof.
  destruct a as [m e|s|], b as [n f|t|]; try done; cbn -[Z.compare]; try by destruct s.
  - rewrite (Z.min_comm f e), Z.compare_antisym. done.
  - by destruct t.
  - by destruct s, t.
Qed.

Lemma flt_asym a b : flt a b = true -> flt b a = false.
Proof. unfold flt. rewrite (fcompare_antisym a b). by destruct (fcompare a b) as [[]|]. Qed.

(** A value neither below [lo] nor above [hi] is NaN or between them. *)
Lemma float_in_bounds v lo hi :
  flt v lo = false -> fgt v hi = false ->
  lo <> FNan -> hi <> FNan -> v = FNan \/ (fle lo v = true /\ fle v hi = true).
Proof.
  unfold fgt, flt, fle. intros H1 H2 Hl Hh. rewrite (fcompare_antisym lo v) in H1.
  rewrite (fcompare_antisym v hi) in H2.
  destruct v as [m e|s|]; [right|right|by left].
  - destruct lo as [? ?|?|]; [| |done]; destruct hi as [? ?|?|]; [| |done| | |done];
      destruct (fcompare _ _) as [[]|] eqn:E1 in H1; try done;
      rewrite ?E1; destruct (fcompare _ _) as [[]|] eqn:E2 in H2; try done; by rewrite ?E2.
  - destruct lo as [? ?|[]|]; [| | |done]; destruct hi as [? ?|[]|]; try done; by destruct s.
Qed.

Lemma try_int_null : try_int JNull = Ret None.
Proof. done. Qed.
Lemma try_float_null : try_float JNull = Ret None.
Proof. done. Qed.

Example equal_values :
  py_eq (JInt 1) (JBool true) = true /\ py_eq (JFloat (fint 2)) (JInt 2) = true /\
  py_eq (JList [JInt 1]) (JList [JInt 1; JNull]) = false /\
  py_eq (JObj [("a", JInt 1); ("b", JNull)]) (JObj [("b", JNull); ("a", JBool true)]) = true.
Proof. by vm_compute. Qed.
Example float_parses : parse_float " -12.5e-1 " = Some (FFinite (-5629499534213120) (-52)).
Proof. vm_compute. reflexivity. Qed.
Example float_underscores : parse_float "1_000" = parse_float "1000" /\ parse_float "1__0" = None.
Proof. by vm_compute. Qed.
Example one_third : py_round (float_of_ratio 1 3) 3 = float_of_decimal 333 (-3).
Proof. vm_compute. reflexivity. Qed.
Example compensated :
  fcompare (py_sum [float_of_decimal 1 16; float_of_decimal 1 0; float_of_decimal (-1) 16])
           (fint 1) = Some Eq.
Proof. vm_compute. reflexivity. Qed.
