(* ===== verification/PyNet.v ===== *)
(** * Addresses and URLs of the Python standard library ([ipaddress], [urllib.parse])

    What the outbound guard uses of them, on ASCII text: [ip_address], the
    classification predicates of an address (the networks of Python 3.12) and
    [urlparse] with its [scheme], [hostname] and [port]. *)

From Stdlib Require Import Ascii.
From S2P Require Import Prelude.
Local Open Scope string_scope.
Local Open Scope list_scope.
Local Open Scope Z_scope.

(** ** Text *)

Definition all_chars (p : Ascii.ascii -> bool) : string -> bool :=
  fix go s := match s with EmptyString => true | String a r => p a && go r end.
Definition is_digit (a : Ascii.ascii) : bool :=
  match digit_of a with Some _ => true | None => false end.
Definition hex_digit (a : Ascii.ascii) : option Z :=
  let n := Z.of_nat (Ascii.nat_of_ascii a) in
  if (48 <=? n) && (n <=? 57) then Some (n - 48)
  else if (65 <=? n) && (n <=? 70) then Some (n - 55)
  else if (97 <=? n) && (n <=? 102) then Some (n - 87) else None.
Definition is_alpha (a : Ascii.ascii) : bool :=
  let n := Ascii.nat_of_ascii (ascii_lower a) in ((97 <=? n) && (n <=? 122))%nat.

(** [s.partition(c)]: the text before, whether [c] occurs, the text after. *)
Fixpoint partition (c : Ascii.ascii) (s : string) : string * bool * string :=
  match s with
  | EmptyString => (EmptyString, false, EmptyString)
  | String a r =>
    if Ascii.eqb a c then (EmptyString, true, r)
    else let '(x, b, y) := partition c r in (String a x, b, y)
  end.
(** [s.rpartition(c)[2]]. *)
Fixpoint after_last (c : Ascii.ascii) (s : string) : string :=
  match s with
  | EmptyString => EmptyString
  | String a r =>
    let '(_, found, _) := partition c r in
    if found then after_last c r else if Ascii.eqb a c then r else s
  end.
Definition contains (c : Ascii.ascii) (s : string) : bool := (partition c s).1.2.

(** ** Addresses *)

(** An [IPv4Address], or an [IPv6Address] with its scope identifier. *)
Inductive ip := V4 (n : Z) | V6 (n : Z) (scope : option string).
#[export] Instance ip_eq_dec : EqDecision ip.
Proof. solve_decision. Defined.

(** [_parse_octet]. *)
Definition parse_octet (s : string) : option Z :=
  if is_empty s || negb (all_chars is_digit s) || (3 <? Z.of_nat (String.length s))
     || (negb (String.eqb s "0") && startswith "0" s) then None
  else match digits_from s 0 false with
       | Some n => if n <=? 255 then Some n else None
       | None => None
       end.
(** Big-endian composition. *)
Definition compose (w : Z) (l : list Z) : Z := foldl (fun acc d => Z.lor (Z.shiftl acc w) d) 0 l.

Definition parse_v4 (s : string) : option Z :=
  match mapM parse_octet (split_on "."%char s) with
  | Some [a; b; c; d] => Some (compose 8 [a; b; c; d])
  | _ => None
  end.

(** [_parse_hextet]; [int] refuses the empty text. *)
Definition hex_value (s : string) : option Z :=
  (fix go s acc := match s with
                   | EmptyString => Some acc
                   | String a r => match hex_digit a with
                                   | Some d => go r (acc * 16 + d)
                                   | None => None
                                   end
                   end) s 0.
Definition parse_hextet (s : string) : option Z :=
  if is_empty s || (4 <? Z.of_nat (String.length s)) then None else hex_value s.

(** A part of the text, or a number taken from a dotted suffix. *)
Inductive part := Text (s : string) | Num (n : Z).
Definition part_empty (p : part) : bool := match p with Text s => is_empty s | Num _ => false end.
Definition part_value (p : part) : option Z :=
  match p with Text s => parse_hextet s | Num n => Some n end.

(** The parts, a dotted suffix converted to two hextets. *)
Definition v6_parts (s : string) : option (list part) :=
  let parts := split_on ":"%char s in
  if (length parts <? 3)%nat then None
  else match last parts with
       | Some l =>
         if contains "."%char l then
           n ← parse_v4 l;
           Some ((Text <$> removelast parts) ++
                 [Num (Z.land (Z.shiftr n 16) 65535); Num (Z.land n 65535)])
         else Some (Text <$> parts)
       | None => None
       end.

(** The indices of the empty parts strictly inside the list. *)
Definition skips (parts : list part) : list nat :=
  List.filter (fun i => match parts !! i with Some p => part_empty p | None => false end)
    (seq 1 (length parts - 2)).
Definition end_empty (p : option part) : bool := match p with Some p => part_empty p | None => true end.

(** [_BaseV6._ip_int_from_string]. *)
Definition parse_v6 (s : string) : option Z :=
  if is_empty s then None else
  parts ← v6_parts s;
  if (9 <? length parts)%nat then None else
  let first := end_empty (head parts) in
  let lst := end_empty (last parts) in
  match skips parts with
  | [] =>
    if negb (length parts =? 8)%nat || first || lst then None
    else compose 16 <$> mapM part_value parts
  | [k] =>
    let hi := if first then (k - 1)%nat else k in
    let lo := (length parts - k - 1 - (if lst then 1 else 0))%nat in
    if (first && (0 <? hi)%nat) || (lst && (0 <? lo)%nat) || (8 <? hi + lo + 1)%nat then None
    else
      h ← mapM part_value (take hi parts);
      l ← mapM part_value (drop (length parts - lo) parts);
      Some (compose 16 (h ++ replicate (8 - (hi + lo)) 0 ++ l))
  | _ => None
  end.

(** [_split_scope_id]. *)
Definition split_scope (s : string) : option (string * option string) :=
  let '(addr, sep, scope) := partition "%"%char s in
  if negb sep then Some (addr, None)
  else if is_empty scope || contains "%"%char scope then None else Some (addr, Some scope).

(** [ipaddress.ip_address]: [None] for [ValueError]. *)
Definition ip_address (s : string) : option ip :=
  if contains "/"%char s then None else
  match parse_v4 s with
  | Some n => Some (V4 n)
  | None => '(addr, scope) ← split_scope s; n ← parse_v6 addr; Some (V6 n scope)
  end.

(** ** Networks *)

(** [ip in network], for addresses of [w] bits. *)
Definition in_net (w n : Z) (net : Z * Z) : bool :=
  Z.land n (Z.shiftl (Z.ones net.2) (w - net.2)) =? net.1.
Definition in_nets (w n : Z) (nets : list (Z * Z)) : bool := existsb (in_net w n) nets.

Definition dotted (a b c d : Z) : Z := a * 2 ^ 24 + b * 2 ^ 16 + c * 2 ^ 8 + d.
(** The address whose leading hextets are given. *)
Definition hextets (a b c d e f g h : Z) : Z :=
  a * 2 ^ 112 + b * 2 ^ 96 + c * 2 ^ 80 + d * 2 ^ 64 + e * 2 ^ 48 + f * 2 ^ 32 + g * 2 ^ 16 + h.
Definition h1 (a : Z) : Z := hextets a 0 0 0 0 0 0 0.
Definition h2 (a b : Z) : Z := hextets a b 0 0 0 0 0 0.
Definition h3 (a b c : Z) : Z := hextets a b c 0 0 0 0 0.

Definition V4_PRIVATE : list (Z * Z) :=
  [(dotted 0 0 0 0, 8); (dotted 10 0 0 0, 8); (dotted 127 0 0 0, 8); (dotted 169 254 0 0, 16);
   (dotted 172 16 0 0, 12); (dotted 192 0 0 0, 24); (dotted 192 0 0 170, 31);
   (dotted 192 0 2 0, 24); (dotted 192 168 0 0, 16); (dotted 198 18 0 0, 15);
   (dotted 198 51 100 0, 24); (dotted 203 0 113 0, 24); (dotted 240 0 0 0, 4);
   (dotted 255 255 255 255, 32)].
Definition V4_PRIVATE_EXCEPT : list (Z * Z) := [(dotted 192 0 0 9, 32); (dotted 192 0 0 10, 32)].
Definition V6_PRIVATE : list (Z * Z) :=
  [(1, 128); (0, 128); (hextets 0 0 0 0 0 0xffff 0 0, 96); (h3 0x64 0xff9b 1, 48); (h1 0x100, 64);
   (h1 0x2001, 23); (h2 0x2001 0xdb8, 32); (h1 0x2002, 16); (h1 0x3fff, 20); (h1 0xfc00, 7);
   (h1 0xfe80, 10)].
Definition V6_PRIVATE_EXCEPT : list (Z * Z) :=
  [(hextets 0x2001 1 0 0 0 0 0 1, 128); (hextets 0x2001 1 0 0 0 0 0 2, 128);
   (h2 0x2001 3, 32); (h3 0x2001 4 0x112, 48); (h2 0x2001 0x20, 28); (h2 0x2001 0x30, 28)].
Definition V6_RESERVED : list (Z * Z) :=
  [(0, 8); (h1 0x100, 8); (h1 0x200, 7); (h1 0x400, 6); (h1 0x800, 5); (h1 0x1000, 4);
   (h1 0x4000, 3); (h1 0x6000, 3); (h1 0x8000, 3); (h1 0xa000, 3); (h1 0xc000, 3);
   (h1 0xe000, 4); (h1 0xf000, 5); (h1 0xf800, 6); (h1 0xfe00, 9)].

Definition is_unspecified (a : ip) : bool := match a with V4 n | V6 n _ => n =? 0 end.
Definition is_loopback (a : ip) : bool :=
  match a with V4 n => in_net 32 n (dotted 127 0 0 0, 8) | V6 n _ => n =? 1 end.
Definition is_link_local (a : ip) : bool :=
  match a with
  | V4 n => in_net 32 n (dotted 169 254 0 0, 16) | V6 n _ => in_net 128 n (h1 0xfe80, 10)
  end.
Definition is_multicast (a : ip) : bool :=
  match a with
  | V4 n => in_net 32 n (dotted 224 0 0 0, 4) | V6 n _ => in_net 128 n (h1 0xff00, 8)
  end.
Definition is_reserved (a : ip) : bool :=
  match a with
  | V4 n => in_net 32 n (dotted 240 0 0 0, 4) | V6 n _ => in_nets 128 n V6_RESERVED
  end.
(** [IPv6Address.ipv4_mapped] and [IPv6Address.sixtofour]. *)
Definition ipv4_mapped (n : Z) : option Z :=
  if Z.shiftr n 32 =? 65535 then Some (Z.land n (Z.ones 32)) else None.
Definition sixtofour (n : Z) : option Z :=
  if Z.shiftr n 112 =? 0x2002 then Some (Z.land (Z.shiftr n 80) (Z.ones 32)) else None.
Definition v4_private (n : Z) : bool :=
  in_nets 32 n V4_PRIVATE && negb (in_nets 32 n V4_PRIVATE_EXCEPT).
Definition is_private (a : ip) : bool :=
  match a with
  | V4 n => v4_private n
  | V6 n _ =>
    match ipv4_mapped n with
    | Some m => v4_private m
    | None => in_nets 128 n V6_PRIVATE && negb (in_nets 128 n V6_PRIVATE_EXCEPT)
    end
  end.

(** ** URLs *)

Fixpoint lstrip_c0 (s : string) : string :=
  match s with
  | String a r => if (Ascii.nat_of_ascii a <=? 32)%nat then lstrip_c0 r else s
  | EmptyString => EmptyString
  end.
Fixpoint remove_unsafe (s : string) : string :=
  match s with
  | EmptyString => EmptyString
  | String a r =>
    let n := Ascii.nat_of_ascii a in
    if ((n =? 9) || (n =? 13) || (n =? 10))%nat then remove_unsafe r else String a (remove_unsafe r)
  end.
Definition scheme_char (a : Ascii.ascii) : bool :=
  is_alpha a || is_digit a || Ascii.eqb a "+" || Ascii.eqb a "-" || Ascii.eqb a ".".
(** The text up to the first of [/?#]. *)
Fixpoint take_netloc (s : string) : string :=
  match s with
  | EmptyString => EmptyString
  | String a r => if Ascii.eqb a "/" || Ascii.eqb a "?" || Ascii.eqb a "#" then EmptyString
                  else String a (take_netloc r)
  end.

(** [_check_bracketed_host]; [IPvFuture] is [v], hexadecimal digits, a dot and more. *)
Definition bracketed_host_ok (h : string) : bool :=
  if startswith "v" h then
    let '(hex, dot, rest) := partition "."%char h in
    match hex with
    | String _ (String _ _ as ds) =>
      dot && all_chars (fun a => match hex_digit a with Some _ => true | None => false end) ds
      && negb (is_empty rest)
    | _ => false
    end
  else match ip_address h with Some (V6 _ _) => true | _ => false end.
Definition bracketed_netloc_ok (netloc : string) : bool :=
  let hp := after_last "@"%char netloc in
  let '(before, br, bracketed) := partition "["%char hp in
  if br then
    let '(host, _, port) := partition "]"%char bracketed in
    is_empty before && (is_empty port || startswith ":" port) && bracketed_host_ok host
  else bracketed_host_ok (partition ":"%char hp).1.1.

(** [urlsplit]: the scheme and the network location. *)
Definition urlsplit (url : string) : outcome (string * string) :=
  let url := remove_unsafe (lstrip_c0 url) in
  let '(pre, colon, rest) := partition ":"%char url in
  let '(scheme, url) :=
    match pre with
    | String a _ => if colon && is_alpha a && all_chars scheme_char pre then (lower pre, rest)
                    else (EmptyString, url)
    | EmptyString => (EmptyString, url)
    end in
  if startswith "//" url then
    let netloc := take_netloc (String.substring 2 (String.length url - 2) url) in
    let o := contains "["%char netloc in
    let c := contains "]"%char netloc in
    if negb (Bool.eqb o c) then Raise (ValueError "Invalid IPv6 URL")
    else if o && negb (bracketed_netloc_ok netloc) then Raise (ValueError "Invalid IPv6 URL")
    else Ret (scheme, netloc)
  else Ret (scheme, EmptyString).

(** [_hostinfo]. *)
Definition hostinfo (netloc : string) : string * option string :=
  let info := after_last "@"%char netloc in
  let '(_, br, bracketed) := partition "["%char info in
  let '(host, port) :=
    if br then let '(h, _, p) := partition "]"%char bracketed in (h, (partition ":"%char p).2)
    else let '(h, _, p) := partition ":"%char info in (h, p) in
  (host, if is_empty port then None else Some port).
(** [parsed.hostname]: the zone keeps its case. *)
Definition hostname (netloc : string) : option string :=
  let h := (hostinfo netloc).1 in
  if is_empty h then None
  else let '(x, sep, zone) := partition "%"%char h in
       Some (String.append (lower x) (if sep then String "%" zone else EmptyString)).
(** [parsed.port]. *)
Definition url_port (netloc : string) : outcome (option Z) :=
  match (hostinfo netloc).2 with
  | None => Ret None
  | Some p =>
    if all_chars is_digit p then
      match digits_from p 0 false with
      | Some n => if n <=? 65535 then Ret (Some n) else Raise (ValueError "Port out of range 0-65535")
      | None => Raise (ValueError "Port could not be cast to integer value")
      end
    else Raise (ValueError "Port could not be cast to integer value")
  end.

(** ** Lemmas *)

(** A network is the interval above its base, when the base is aligned. *)
Lemma in_net_interval w n a p :
  0 <= p <= w -> 0 <= n < 2 ^ w -> a mod 2 ^ (w - p) = 0 ->
  in_net w n (a, p) = true <-> a <= n < a + 2 ^ (w - p).
Proof.
  intros Hp Hn Ha. unfold in_net. cbn [fst snd]. rewrite Z.eqb_eq.
  remember (w - p) as k eqn:Ek. assert (Hk : 0 < 2 ^ k) by (apply Z.pow_pos_nonneg; lia).
  assert (E : Z.land n (Z.shiftl (Z.ones p) k) = 2 ^ k * (n / 2 ^ k)).
  { replace (Z.land n (Z.shiftl (Z.ones p) k))
      with (Z.shiftl (Z.land (Z.shiftr n k) (Z.ones p)) k).
    - rewrite Z.land_ones, Z.shiftr_div_pow2, Z.shiftl_mul_pow2 by lia.
      rewrite Z.mod_small; [lia|]. split; [apply Z.div_pos; lia|].
      apply Z.div_lt_upper_bound; [lia|]. rewrite <- Z.pow_add_r by lia.
      replace (k + p) with w by lia. lia.
    - apply Z.bits_inj'. intros i Hi. rewrite Z.land_spec.
      destruct (decide (i < k)).
      + rewrite !Z.shiftl_spec_low by lia. by rewrite andb_false_r.
      + rewrite !Z.shiftl_spec, Z.land_spec, Z.shiftr_spec by lia.
        f_equal. f_equal. lia. }
  rewrite E. apply Z.mod_divide in Ha as [c ->]; [|lia].
  pose proof (Z.div_mod n (2 ^ k) ltac:(lia)). pose proof (Z.mod_pos_bound n (2 ^ k) Hk).
  rewrite (Z.mul_comm (2 ^ k)). split; [intros; nia|]. intros [? ?]. f_equal. symmetry.
  apply (Z.div_unique_pos n (2 ^ k) c (n - c * 2 ^ k)); lia.
Qed.

(** *** A parsed address has its width *)

Definition valid_ip (a : ip) : Prop :=
  match a with V4 n => 0 <= n < 2 ^ 32 | V6 n _ => 0 <= n < 2 ^ 128 end.

Lemma shift_in w k acc d : 0 <= w -> 0 <= k -> 0 <= acc < 2 ^ k -> 0 <= d < 2 ^ w ->
  0 <= Z.lor (Z.shiftl acc w) d < 2 ^ (k + w).
Proof.
  intros Hw Hk Ha Hd.
  assert (E : Z.lor (Z.shiftl acc w) d = acc * 2 ^ w + d).
  { rewrite <- Z.shiftl_mul_pow2, <- Z.add_lor_land by lia.
    enough (Z.land (Z.shiftl acc w) d = 0) by lia.
    apply Z.bits_inj'. intros i Hi. rewrite Z.land_spec, Z.bits_0.
    destruct (decide (i < w)); [by rewrite Z.shiftl_spec_low|].
    destruct (decide (d = 0)) as [->|]; [by rewrite Z.testbit_0_l, andb_false_r|].
    rewrite (Z.bits_above_log2 d i), andb_false_r; [done|lia|].
    apply Z.log2_lt_pow2; [lia|]. pose proof (Z.pow_le_mono_r 2 w i). lia. }
  rewrite E, Z.pow_add_r by lia. nia.
Qed.

Lemma compose_bound w l : 0 <= w -> Forall (fun d => 0 <= d < 2 ^ w) l ->
  0 <= compose w l < 2 ^ (w * Z.of_nat (length l)).
Proof.
  intros Hw. unfold compose.
  assert (G : forall l acc k, 0 <= k -> 0 <= acc < 2 ^ k -> Forall (fun d => 0 <= d < 2 ^ w) l ->
    0 <= foldl (fun acc d => Z.lor (Z.shiftl acc w) d) acc l < 2 ^ (k + w * Z.of_nat (length l))).
  { clear l. induction l as [|d l IH]; intros acc k Hk Ha Hl; cbn [foldl length].
    - by replace (k + w * Z.of_nat 0) with k by lia.
    - inversion Hl; subst.
      replace (k + w * Z.of_nat (S (length l))) with (k + w + w * Z.of_nat (length l)) by lia.
      apply IH; [lia| |done]. by apply shift_in. }
  intros Hl. apply (G l 0 0); [lia|cbn; lia|done].
Qed.

Lemma digits_nonneg s : forall acc b n, 0 <= acc -> digits_from s acc b = Some n -> 0 <= n.
Proof.
  induction s as [|a s IH]; intros acc b n Ha; cbn [digits_from].
  { destruct b; [|done]. by intros [= <-]. }
  unfold digit_of. destruct (_ && _)%nat eqn:E.
  - apply IH. lia.
  - destruct (b && _); [by apply IH|done].
Qed.

Lemma parse_octet_bound s n : parse_octet s = Some n -> 0 <= n < 2 ^ 8.
Proof.
  unfold parse_octet. destruct (_ || _); [done|].
  destruct (digits_from s 0 false) as [m|] eqn:E; [|done].
  destruct (m <=? 255) eqn:Em; [|done]. intros [= <-]. bool_to_prop.
  apply digits_nonneg in E; lia.
Qed.

Lemma hex_digit_bound a d : hex_digit a = Some d -> 0 <= d < 16.
Proof.
  unfold hex_digit. intros H. repeat case_match; simplify_eq; bool_to_prop; lia.
Qed.

Lemma parse_hextet_bound s n : parse_hextet s = Some n -> 0 <= n < 2 ^ 16.
Proof.
  unfold parse_hextet, hex_value. destruct s as [|a s]; [done|].
  destruct (_ || _) eqn:E; [done|]. apply orb_false_elim in E as [_ E].
  bool_to_prop.
  set (go := fix go s acc := match s with EmptyString => Some acc | String a r => _ end).
  assert (G : forall s acc, 0 <= acc -> forall n, go s acc = Some n ->
    0 <= n < (acc + 1) * 16 ^ Z.of_nat (String.length s)).
  { clear. induction s as [|a s IH]; intros acc Ha n; cbn.
    { intros [= <-]. lia. }
    destruct (hex_digit a) as [d|] eqn:Ed; [|done]. apply hex_digit_bound in Ed.
    intros H. apply IH in H; [|lia]. split; [lia|]. destruct H as [_ H].
    eapply Z.lt_le_trans; [exact H|].
    change (Z.pow_pos 16 (Pos.of_succ_nat (String.length s)))
      with (16 ^ Z.of_nat (S (String.length s))).
    rewrite Nat2Z.inj_succ, Z.pow_succ_r, Z.mul_assoc by lia.
    apply Z.mul_le_mono_nonneg_r; [apply Z.pow_nonneg|]; lia. }
  intros H. apply (G (String a s) 0) in H; [|lia]. split; [lia|]. destruct H as [_ H].
  pose proof (Z.pow_le_mono_r 16 (Z.of_nat (String.length (String a s))) 4 ltac:(lia) ltac:(lia)).
  change (2 ^ 16) with (16 ^ 4). lia.
Qed.

Lemma parse_v4_bound s n : parse_v4 s = Some n -> 0 <= n < 2 ^ 32.
Proof.
  unfold parse_v4. destruct (mapM parse_octet _) as [l|] eqn:E; [|done].
  apply mapM_Some_1 in E. intros H.
  assert (Hl : Forall (fun d => 0 <= d < 2 ^ 8) l).
  { clear H. induction E; constructor; [|done]. by eapply parse_octet_bound. }
  destruct l as [|a [|b [|c [|d [|]]]]]; try done.
  injection H as <-. exact (compose_bound 8 [a; b; c; d] ltac:(lia) Hl).
Qed.

(** A part stands for a hextet. *)
Definition small (p : part) : Prop := forall n, part_value p = Some n -> 0 <= n < 2 ^ 16.
Lemma small_parts s parts : v6_parts s = Some parts -> Forall small parts.
Proof.
  assert (T : forall l, Forall small (Text <$> l)).
  { intros l. apply Forall_fmap, Forall_true. intros x n. apply parse_hextet_bound. }
  assert (N : forall z, small (Num (Z.land z 65535))).
  { intros z n [= <-]. change 65535 with (Z.ones 16). rewrite Z.land_ones by lia.
    by apply Z.mod_pos_bound. }
  unfold v6_parts. destruct (_ <? _)%nat; [done|]. destruct (last _) as [l|]; [|done].
  destruct (contains _ l); [|by intros [= <-]].
  destruct (parse_v4 l) as [m|]; [|done]. intros [= <-]. apply Forall_app. split; [apply T|].
  apply Forall_cons; split; [apply N|]. apply Forall_cons; split; [apply N|constructor].
Qed.

Lemma part_values ps l : Forall small ps -> mapM part_value ps = Some l ->
  Forall (fun d => 0 <= d < 2 ^ 16) l /\ length l = length ps.
Proof.
  intros Hs E. apply mapM_Some_1 in E. split; [|symmetry; by eapply Forall2_length].
  induction E as [|p d ps l Hp _ IH]; constructor; inversion Hs; subst; auto.
Qed.

Lemma parse_v6_bound s n : parse_v6 s = Some n -> 0 <= n < 2 ^ 128.
Proof.
  unfold parse_v6. destruct (is_empty s); [done|].
  destruct (v6_parts s) as [ps|] eqn:E; [|done]. apply small_parts in E.
  cbv [mbind option_bind].
  destruct (9 <? length ps)%nat; [done|].
  destruct (skips ps) as [|k [|]]; [| |done].
  - destruct (_ || _) eqn:E8; [done|]. repeat (apply orb_false_elim in E8 as [E8 _]).
    apply negb_false_iff, Nat.eqb_eq in E8.
    destruct (mapM part_value ps) as [l|] eqn:El; [|done]. intros [= <-].
    apply part_values in El as [Hl Hlen]; [|done].
    pose proof (compose_bound 16 l ltac:(lia) Hl). by rewrite Hlen, E8 in *.
  - set (hi := if end_empty (head ps) then (k - 1)%nat else k).
    set (lo := (length ps - k - 1 - _)%nat).
    destruct (_ || _) eqn:Eg; [done|]. apply orb_false_elim in Eg as [_ Eg].
    apply Nat.ltb_ge in Eg.
    destruct (mapM part_value (take hi ps)) as [h|] eqn:Eh; [|done].
    destruct (mapM part_value (drop (length ps - lo) ps)) as [l|] eqn:El; [|done].
    intros [= <-].
    apply part_values in Eh as [Hh Lh]; [|by apply Forall_take].
    apply part_values in El as [Hl Ll]; [|by apply Forall_drop].
    rewrite length_take in Lh. rewrite length_drop in Ll.
    set (all := h ++ _).
    assert (Ha : Forall (fun d => 0 <= d < 2 ^ 16) all).
    { subst all. rewrite !Forall_app. repeat split; auto. by apply Forall_replicate. }
    pose proof (compose_bound 16 all ltac:(lia) Ha) as Hc.
    assert (length all <= 8)%nat.
    { subst all. rewrite !length_app, length_replicate. lia. }
    pose proof (Z.pow_le_mono_r 2 (16 * Z.of_nat (length all)) 128 ltac:(lia) ltac:(lia)). lia.
Qed.

Lemma ip_address_valid s a : ip_address s = Some a -> valid_ip a.
Proof.
  unfold ip_address. destruct (contains _ s); [done|].
  destruct (parse_v4 s) as [n|] eqn:E; [intros [= <-]; by apply (parse_v4_bound s)|].
  destruct (split_scope s) as [[addr scope]|]; [|done]. cbn.
  destruct (parse_v6 addr) as [n|] eqn:E6; [|done]. cbn. intros [= <-].
  by apply (parse_v6_bound addr).
Qed.
