(* ===== verification/EventBus.v ===== *)
(** * In-process event bus ([app/services/event_bus.py])

    Subscriber objects live in a heap; the bus keeps a set of weak references
    to them.  A dead reference (the consumer was garbage-collected) or a closed
    subscriber is pruned by the next [publish]. *)

From S2P Require Import Prelude.

Section event_bus.
Context {Ev : Type}.   (* the events carried *)

(** A queue entry: an event, or the close sentinel ([None]). *)
Record subscriber := Subscriber {
  sub_queue : list (option Ev);
  sub_maxsize : Z;
  sub_closed : bool;
  sub_alive : bool          (* the weak reference still resolves *)
}.

Record event_bus := EventBus {
  bus_objects : gmap nat subscriber;
  bus_subscribers : gset nat
}.

Definition DEFAULT_QUEUE_SIZE : Z := 100.

(** [queue.Queue(maxsize).full()]: a non-positive [maxsize] is unbounded. *)
Definition queue_full (s : subscriber) : bool :=
  (0 <? sub_maxsize s)%Z && (sub_maxsize s <=? Z.of_nat (length (sub_queue s)))%Z.

(** [put_nowait]: [None] stands for [queue.Full]. *)
Definition put_nowait (s : subscriber) (x : option Ev) : option subscriber :=
  if queue_full s then None
  else Some (Subscriber (sub_queue s ++ [x]) (sub_maxsize s) (sub_closed s) (sub_alive s)).

(** [Subscriber.close]. *)
Definition close (s : subscriber) : subscriber :=
  if sub_closed s then s
  else
    let s' := Subscriber (sub_queue s) (sub_maxsize s) true (sub_alive s) in
    match put_nowait s' None with Some s'' => s'' | None => s' end.

(** [subscribe]: [oid] is the identity of the new object. *)
Definition subscribe (oid : nat) (max_size : Z) (b : event_bus) : event_bus :=
  EventBus (<[oid := Subscriber [] max_size false true]> (bus_objects b))
           ({[oid]} ∪ bus_subscribers b).

(** [unsubscribe]: closes the object; the reference is pruned by [publish]. *)
Definition unsubscribe (oid : nat) (b : event_bus) : event_bus :=
  EventBus (alter close oid (bus_objects b)) (bus_subscribers b).

(** A reference [publish] drops: the object is gone or closed. *)
Definition dead_ref (b : event_bus) (oid : nat) : bool :=
  match bus_objects b !! oid with
  | Some s => negb (sub_alive s) || sub_closed s
  | None => true
  end.

(** What [publish] does to one object: a full queue drops the new event. *)
Definition deliver (refs : gset nat) (event : Ev) (oid : nat) (s : subscriber) : subscriber :=
  if decide (oid ∈ refs) then
    if negb (sub_alive s) || sub_closed s then s
    else match put_nowait s (Some event) with Some s' => s' | None => s end
  else s.

Definition publish (event : Ev) (b : event_bus) : event_bus :=
  EventBus (map_imap (fun oid s => Some (deliver (bus_subscribers b) event oid s)) (bus_objects b))
           (filter (fun oid => dead_ref b oid = false) (bus_subscribers b)).

Definition empty_bus : event_bus := EventBus ∅ ∅.

(** ** Properties *)

Lemma publish_lookup event b oid :
  bus_objects (publish event b) !! oid
  = deliver (bus_subscribers b) event oid <$> bus_objects b !! oid.
Proof.
  unfold publish; simpl. rewrite map_lookup_imap.
  by destruct (bus_objects b !! oid).
Qed.

(** Every queue respects its bound (the close sentinel included). *)
Definition bounded (b : event_bus) : Prop :=
  forall oid s, bus_objects b !! oid = Some s ->
    (0 < sub_maxsize s -> Z.of_nat (length (sub_queue s)) <= sub_maxsize s)%Z.

Lemma put_nowait_bounded s x s' :
  put_nowait s x = Some s' ->
  (0 < sub_maxsize s' -> Z.of_nat (length (sub_queue s')) <= sub_maxsize s')%Z.
Proof.
  unfold put_nowait, queue_full. intros H Hpos. case_match eqn:E; simplify_eq/=.
  rewrite length_app. simpl. apply andb_false_iff in E as [E|E]; bool_to_prop; lia.
Qed.

Lemma publish_bounded event b : bounded b -> bounded (publish event b).
Proof.
  intros Hb oid s Hs. rewrite publish_lookup in Hs.
  destruct (bus_objects b !! oid) as [s0|] eqn:E; simplify_eq/=.
  unfold deliver. case_decide; [|by apply (Hb _ _ E)].
  case_match; [by apply (Hb _ _ E)|].
  case_match eqn:P; [|by apply (Hb _ _ E)]. by eapply put_nowait_bounded.
Qed.

Lemma close_bounded s :
  (0 < sub_maxsize s -> Z.of_nat (length (sub_queue s)) <= sub_maxsize s)%Z ->
  (0 < sub_maxsize (close s) -> Z.of_nat (length (sub_queue (close s))) <= sub_maxsize (close s))%Z.
Proof.
  intros Hb. unfold close. case_match; [done|]. case_match eqn:P; [|done].
  by eapply put_nowait_bounded.
Qed.
End event_bus.

Arguments subscriber Ev : clear implicits.
Arguments event_bus Ev : clear implicits.
