(* ===== verification/Commands.v ===== *)
(** * The command queue ([app/services/commands.py])

    Commands are queued for a device (or fanned out to a group), handed to the
    device by the heartbeat or the poll, acknowledged by [record_result] and
    expired by a job.  The state is the part of the database the module
    touches, with the event bus it publishes to. *)

From stdpp Require Import pretty.
From S2P Require Import Prelude EventBus.
Local Open Scope string_scope.
Local Open Scope list_scope.

(** ** Data *)

Inductive cmd_status :=
  | Pending | Accepted | Running | Completed | Failed | Expired | Cancelled.

#[export] Instance cmd_status_eq_dec : EqDecision cmd_status.
Proof. solve_decision. Defined.

(** A row of [devices]: the columns the queue reads or writes, and the others
    by name ([JNull] when absent; a time column holds its microseconds). *)
Record device := Device {
  dev_is_protected : bool;
  dev_is_held_off : bool;
  dev_local_ip : option string;
  dev_cols : gmap string json
}.

Record command := Command {
  cmd_id : string;
  cmd_device_id : string;
  cmd_group_id : option string;
  cmd_issued_by : option string;
  cmd_type : string;
  cmd_payload : pydict;
  cmd_state : cmd_status;
  cmd_created_at : time;
  cmd_expires_at : time;
  cmd_delivered_at : option time;
  cmd_ack_received_at : option time;
  cmd_completed_at : option time
}.

Record command_result := CommandResult {
  cr_id : string;
  cr_command_id : string;
  cr_device_id : string;
  cr_status : cmd_status;
  cr_message : option string;
  cr_result : pydict;
  cr_completed_at : time;
  cr_received_at : time
}.

(** The events the hub publishes: by [enqueue_for_device], and by
    [record_heartbeat]. *)
Inductive hub_event :=
  | CommandQueued (command_id device_id : string) (local_ip : option string)
      (type : string) (payload : pydict) (created_at : time)
  | DeviceStateChanged (device_id : string) (details : pydict).

Record hub := Hub {
  hub_devices : gmap string device;
  hub_commands : gmap string command;
  hub_results : list command_result;
  hub_members : list (string * string);        (* (group_id, device_id) *)
  hub_bus : event_bus hub_event;
  hub_next : nat                               (* ULIDs drawn so far *)
}.

Definition with_devices (f : gmap string device -> gmap string device) (h : hub) : hub :=
  Hub (f (hub_devices h)) (hub_commands h) (hub_results h) (hub_members h) (hub_bus h) (hub_next h).
Definition with_commands (f : gmap string command -> gmap string command) (h : hub) : hub :=
  Hub (hub_devices h) (f (hub_commands h)) (hub_results h) (hub_members h) (hub_bus h) (hub_next h).
Definition with_results (f : list command_result -> list command_result) (h : hub) : hub :=
  Hub (hub_devices h) (hub_commands h) (f (hub_results h)) (hub_members h) (hub_bus h) (hub_next h).
Definition with_bus (f : event_bus hub_event -> event_bus hub_event) (h : hub) : hub :=
  Hub (hub_devices h) (hub_commands h) (hub_results h) (hub_members h) (f (hub_bus h)) (hub_next h).
Definition bump (h : hub) : hub :=
  Hub (hub_devices h) (hub_commands h) (hub_results h) (hub_members h) (hub_bus h) (S (hub_next h)).

Definition set_held_off (b : bool) (d : device) : device :=
  Device (dev_is_protected d) b (dev_local_ip d) (dev_cols d).

Definition set_state (st : cmd_status) (c : command) : command :=
  Command (cmd_id c) (cmd_device_id c) (cmd_group_id c) (cmd_issued_by c) (cmd_type c)
    (cmd_payload c) st (cmd_created_at c) (cmd_expires_at c) (cmd_delivered_at c)
    (cmd_ack_received_at c) (cmd_completed_at c).
Definition set_delivered (t : time) (c : command) : command :=
  Command (cmd_id c) (cmd_device_id c) (cmd_group_id c) (cmd_issued_by c) (cmd_type c)
    (cmd_payload c) (cmd_state c) (cmd_created_at c) (cmd_expires_at c) (Some t)
    (cmd_ack_received_at c) (cmd_completed_at c).
Definition set_ack (t : time) (c : command) : command :=
  Command (cmd_id c) (cmd_device_id c) (cmd_group_id c) (cmd_issued_by c) (cmd_type c)
    (cmd_payload c) (cmd_state c) (cmd_created_at c) (cmd_expires_at c) (cmd_delivered_at c)
    (Some t) (cmd_completed_at c).
Definition set_completed (t : time) (c : command) : command :=
  Command (cmd_id c) (cmd_device_id c) (cmd_group_id c) (cmd_issued_by c) (cmd_type c)
    (cmd_payload c) (cmd_state c) (cmd_created_at c) (cmd_expires_at c) (cmd_delivered_at c)
    (cmd_ack_received_at c) (Some t).

(** ** Constants *)

Definition DEFAULT_TTL_SECONDS : Z := 600.

Definition ALLOWED_TYPES : list string :=
  ["relay_on"; "relay_off"; "relay_toggle"; "relay_cycle"; "device_restart";
   "factory_reset"; "set_mode"; "apply_config"; "check_firmware";
   "start_firmware_update"; "lan_scan"; "lan_proxy"; "lan_ota_push"].

(** [ALLOWED_RESULT_STATUSES], with the status each string names. *)
Definition result_status (s : string) : option cmd_status :=
  if String.eqb s "accepted" then Some Accepted
  else if String.eqb s "running" then Some Running
  else if String.eqb s "completed" then Some Completed
  else if String.eqb s "failed" then Some Failed
  else if String.eqb s "expired" then Some Expired
  else None.

Definition SET_MODE_ALLOWED : list string :=
  ["smart_plug"; "internet_watchdog"; "device_watchdog"].
Definition APPLY_CONFIG_ALLOWED_TOP_LEVEL : list string :=
  ["device_name"; "relay_restore_behavior"; "monitor_interval_seconds";
   "boot_warmup_seconds"; "manual_button_enabled"; "internet"; "device";
   "notifications"; "power"].

Definition POWER_TYPES : list string :=
  ["relay_on"; "relay_off"; "relay_toggle"; "relay_cycle"; "device_restart"].
Definition POWER_ON_TYPES : list string :=
  ["relay_on"; "relay_toggle"; "relay_cycle"].

(** ** Payload validation *)

(** [v not in SET_MODE_ALLOWED]: a list or dict is unhashable. *)
Definition validate_set_mode (payload : pydict) : outcome pydict :=
  match dget payload "mode" with
  | JStr m => if in_strs m SET_MODE_ALLOWED then Ret [("mode", JStr m)]
              else Raise (ValueError "set_mode.mode must be one of")
  | JList _ | JObj _ => Raise (TypeError "unhashable type")
  | _ => Raise (ValueError "set_mode.mode must be one of")
  end.

Definition validate_apply_config (payload : pydict) : outcome pydict :=
  match payload with
  | [] => Raise (ValueError "apply_config payload must be a non-empty object")
  | _ =>
    if forallb (fun k => in_strs k APPLY_CONFIG_ALLOWED_TOP_LEVEL) (dict_keys payload)
    then Ret payload
    else Raise (ValueError "apply_config contains unsupported top-level keys: ")
  end.

(** [k in payload and not isinstance(payload[k], int)]. *)
Definition bad_int_field (payload : pydict) (k : string) : bool :=
  match dict_get payload k with
  | Some v => match as_int v with Some _ => false | None => true end
  | None => false
  end.

Definition validate_relay_cycle (payload : pydict) : outcome pydict :=
  if bad_int_field payload "power_off_seconds"
  then Raise (ValueError "relay_cycle.power_off_seconds must be an integer")
  else if bad_int_field payload "post_reboot_holdoff_seconds"
  then Raise (ValueError "relay_cycle.post_reboot_holdoff_seconds must be an integer")
  else Ret payload.

Definition validate_lan_scan (payload : pydict) : outcome pydict :=
  match as_int (dget payload "start"), as_int (dget payload "end") with
  | Some s, Some e =>
    if negb ((1 <=? s) && (s <=? 254) && ((1 <=? e) && (e <=? 254)) && (s <=? e))%Z
    then Raise (ValueError "lan_scan start/end must be in 1..254 with start <= end")
    else if (254 <? e - s)%Z
    then Raise (ValueError "lan_scan range too wide (max 254 IPs)")
    else Ret [("start", dget payload "start"); ("end", dget payload "end")]
  | _, _ => Raise (ValueError "lan_scan requires integer 'start' and 'end'")
  end.

(** [isinstance(v, str) and v]. *)
Definition nonempty_str (v : json) : option string :=
  match v with JStr s => if is_empty s then None else Some s | _ => None end.

Definition validate_lan_proxy (payload : pydict) : outcome pydict :=
  match nonempty_str (dget payload "ip") with
  | None => Raise (ValueError "lan_proxy requires non-empty 'ip'")
  | Some ip =>
    match as_str (dget payload "path") with
    | Some path =>
      if startswith "/" path then
        match jor (dget payload "method") (JStr "GET") with
        | JStr m =>
          let method := upper m in
          if negb (in_strs method ["GET"; "POST"])
          then Raise (ValueError "lan_proxy 'method' must be GET or POST")
          else Ret ([("ip", JStr ip); ("path", JStr path); ("method", JStr method)]
                    ++ (if dict_has payload "body" then [("body", dget payload "body")] else [])
                    ++ match as_dict (dget payload "headers") with
                       | Some d => [("headers", JObj d)]
                       | None => []
                       end)
        | _ => Raise (AttributeError "upper")
        end
      else Raise (ValueError "lan_proxy 'path' must be a string starting with '/'")
    | None => Raise (ValueError "lan_proxy 'path' must be a string starting with '/'")
    end
  end.

Definition validate_lan_ota_push (payload : pydict) : outcome pydict :=
  match nonempty_str (dget payload "ip") with
  | None => Raise (ValueError "lan_ota_push requires non-empty 'ip'")
  | Some ip =>
    match as_str (dget payload "url") with
    | Some url =>
      if startswith "http://" url || startswith "https://" url
      then Ret ([("ip", JStr ip); ("url", JStr url)]
                ++ (if dict_has payload "sha256" then [("sha256", dget payload "sha256")] else []))
      else Raise (ValueError "lan_ota_push 'url' must be a http(s) URL")
    | None => Raise (ValueError "lan_ota_push 'url' must be a http(s) URL")
    end
  end.

(** [_validate_payload]; [payload or {}]. *)
Definition validate_payload (cmd_type : string) (payload : option pydict) : outcome pydict :=
  let payload := match payload with Some p => p | None => [] end in
  if String.eqb cmd_type "set_mode" then validate_set_mode payload
  else if String.eqb cmd_type "apply_config" then validate_apply_config payload
  else if String.eqb cmd_type "relay_cycle" then validate_relay_cycle payload
  else if String.eqb cmd_type "lan_scan" then validate_lan_scan payload
  else if String.eqb cmd_type "lan_proxy" then validate_lan_proxy payload
  else if String.eqb cmd_type "lan_ota_push" then validate_lan_ota_push payload
  else Ret payload.

(** [ttl_seconds or DEFAULT_TTL_SECONDS]. *)
Definition ttl_or_default (ttl : option Z) : Z :=
  match ttl with
  | Some t => if (t =? 0)%Z then DEFAULT_TTL_SECONDS else t
  | None => DEFAULT_TTL_SECONDS
  end.

(** [cmd_type in _POWER_TYPES and target.is_protected and not override_lockout]. *)
Definition locked_out (cmd_type : string) (override_lockout : bool) (d : device) : bool :=
  in_strs cmd_type POWER_TYPES && dev_is_protected d && negb override_lockout.

Definition DeviceLockedError : exn := AppError "DeviceLockedError" "is_protected".

(** The deliverable statuses: [("pending", "accepted", "running")]. *)
Definition live_status (st : cmd_status) : bool :=
  match st with Pending | Accepted | Running => true | _ => false end.

(** ** Operations

    [ulid n] is the [n]-th identifier of the ULID library; the clock readings
    of a call are its arguments, in the order the code takes them. *)
Section operations.
Context (ulid : nat -> string).

(** [new_id(prefix)]. *)
Definition new_id (prefix : string) (n : nat) : string :=
  String.append prefix (String.append "_" (ulid n)).

(** The [Command(...)] row of a queueing call, as flushed at [created]. *)
Definition fresh_command (n : nat) (device_id : string) (group_id issued_by : option string)
    (cmd_type : string) (payload : pydict) (expires created : time) : command :=
  Command (new_id "cmd" n) device_id group_id issued_by cmd_type payload Pending
          created expires None None None.

Definition insert_command (c : command) (h : hub) : hub :=
  bump (with_commands (insert (cmd_id c) c) h).

(** The hold-off side effect of [enqueue_for_device]. *)
Definition hold_off_effect (cmd_type : string) (set_hold_off : bool) (d : device) : device :=
  if set_hold_off then set_held_off true d
  else if in_strs cmd_type POWER_ON_TYPES && dev_is_held_off d then set_held_off false d
  else d.

(** The transaction of [enqueue_for_device]; it returns the command and the
    event to publish. *)
Definition enqueue_txn (device_id cmd_type : string) (payload : pydict)
    (issued_by group_id : option string) (override_lockout set_hold_off : bool)
    (expires flush_at : time) (h : hub) : outcome (command * hub_event) * hub :=
  match hub_devices h !! device_id with
  | None => (Raise (LookupError device_id), h)
  | Some target =>
    if locked_out cmd_type override_lockout target then (Raise DeviceLockedError, h)
    else
      let h := with_devices (insert device_id (hold_off_effect cmd_type set_hold_off target)) h in
      let cmd := fresh_command (hub_next h) device_id group_id issued_by cmd_type payload
                               expires flush_at in
      let h := insert_command cmd h in
      (Ret (cmd, CommandQueued (cmd_id cmd) device_id (dev_local_ip target) cmd_type payload
                               (cmd_created_at cmd)), h)
  end.

Definition enqueue_for_device (device_id cmd_type : string) (payload : option pydict)
    (issued_by : option string) (ttl_seconds : option Z) (group_id : option string)
    (override_lockout set_hold_off : bool) (now flush_at : time) (h : hub)
    : outcome command * hub :=
  if negb (in_strs cmd_type ALLOWED_TYPES)
  then (Raise (ValueError "unsupported command type"), h)
  else
    match validate_payload cmd_type payload with
    | Raise e => (Raise e, h)
    | Ret payload =>
      let expires := (now + seconds (ttl_or_default ttl_seconds))%Z in
      match session_scope (enqueue_txn device_id cmd_type payload issued_by group_id
                             override_lockout set_hold_off expires flush_at) h with
      | (Raise e, h) => (Raise e, h)
      | (Ret (cmd, ev), h) => (Ret cmd, with_bus (publish ev) h)
      end
    end.

(** One iteration of the loop of [enqueue_for_group]. *)
Definition group_step (group_id cmd_type : string) (payload : pydict)
    (issued_by : option string) (override_lockout : bool) (expires flush_at : time)
    (acc : list command * list string * hub) (did : string) : list command * list string * hub :=
  let '(created, skipped, h) := acc in
  match hub_devices h !! did with
  | None => acc
  | Some target =>
    if locked_out cmd_type override_lockout target then (created, skipped ++ [did], h)
    else
      let h := if in_strs cmd_type POWER_ON_TYPES && dev_is_held_off target
               then with_devices (insert did (set_held_off false target)) h else h in
      let cmd := fresh_command (hub_next h) did (Some group_id) issued_by cmd_type payload
                               expires flush_at in
      (created ++ [cmd], skipped, insert_command cmd h)
  end.

(** [select(GroupMembership.device_id).where(group_id == ...)]. *)
Definition group_device_ids (group_id : string) (h : hub) : list string :=
  (filter (fun m : string * string => m.1 = group_id) (hub_members h)).*2.

Definition enqueue_for_group (group_id cmd_type : string) (payload : option pydict)
    (issued_by : option string) (ttl_seconds : option Z) (override_lockout : bool)
    (now flush_at : time) (h : hub) : outcome (list command * list string) * hub :=
  if negb (in_strs cmd_type ALLOWED_TYPES)
  then (Raise (ValueError "unsupported command type"), h)
  else
    match validate_payload cmd_type payload with
    | Raise e => (Raise e, h)
    | Ret payload =>
      let expires := (now + seconds (ttl_or_default ttl_seconds))%Z in
      let '(created, skipped, h') :=
        foldl (group_step group_id cmd_type payload issued_by override_lockout expires flush_at)
              ([], [], h) (group_device_ids group_id h) in
      (Ret (created, skipped), h')
    end.

Definition cancel_pending_command (command_id : string) (now : time) (h : hub) : bool * hub :=
  match hub_commands h !! command_id with
  | Some cmd =>
    if decide (cmd_state cmd = Pending)
    then (true, with_commands (insert command_id (set_completed now (set_state Cancelled cmd))) h)
    else (false, h)
  | None => (false, h)
  end.

(** The [WHERE] clause of [list_pending_for_device]. *)
Definition deliverable (device_id : string) (grace : option Z) (now : time) (c : command) : bool :=
  String.eqb (cmd_device_id c) device_id
  && live_status (cmd_state c)
  && (now <? cmd_expires_at c)%Z
  && match grace with
     | None => true
     | Some g => match cmd_delivered_at c with
                 | None => true
                 | Some d => (d <=? now - seconds g)%Z
                 end
     end.

(** [if r.status == "pending": r.status = "accepted"; r.delivered_at = now]. *)
Definition mark_delivered (now : time) (c : command) : command :=
  if decide (cmd_state c = Pending) then set_delivered now (set_state Accepted c) else c.

Definition list_pending_for_device (device_id : string) (mark : bool) (grace : option Z)
    (now : time) (h : hub) : list command * hub :=
  let selected :=
    order_by cmd_created_at
      (filter (fun c => deliverable device_id grace now c = true) (rows (hub_commands h))) in
  if mark then
    (mark_delivered now <$> selected,
     with_commands
       (fmap (fun c => if deliverable device_id grace now c then mark_delivered now c else c)) h)
  else (selected, h).

(** The three readings of the clock: [completed_dt], [ack_received_at] and the
    flush ([received_at]). *)
Definition record_result (device_id command_id status : string) (message : option string)
    (result : option pydict) (completed_at : option time) (now now2 now3 : time) (h : hub)
    : outcome command_result * hub :=
  match result_status status with
  | None => (Raise (ValueError "unsupported result status"), h)
  | Some st =>
    let completed_dt := match completed_at with Some t => t | None => now end in
    match hub_commands h !! command_id with
    | None => (Raise (LookupError command_id), h)
    | Some cmd =>
      if negb (String.eqb (cmd_device_id cmd) device_id)
      then (Raise (LookupError command_id), h)
      else
        let cr := CommandResult (new_id "cmr" (hub_next h)) command_id device_id st message
                    (match result with Some r => r | None => [] end) completed_dt now3 in
        let cmd := match cmd_ack_received_at cmd with None => set_ack now2 cmd | Some _ => cmd end in
        let cmd := set_completed completed_dt (set_state st cmd) in
        (Ret cr, bump (with_results (fun l => l ++ [cr])
                        (with_commands (insert command_id cmd) h)))
    end
  end.

(** A live command whose deadline has passed. *)
Definition overdue (now : time) (c : command) : bool :=
  live_status (cmd_state c) && (cmd_expires_at c <=? now)%Z.

Definition expire_overdue_commands (now : time) (h : hub) : nat * hub :=
  (length (filter (fun c => overdue now c = true) (rows (hub_commands h))),
   with_commands (fmap (fun c => if overdue now c then set_state Expired c else c)) h).

(** ** Steps of the queue: any call, by anyone, at any time. *)
Inductive hub_step : hub -> hub -> Prop :=
  | step_enqueue did ct p u ttl g ov ho n1 n2 h :
      hub_step h (enqueue_for_device did ct p u ttl g ov ho n1 n2 h).2
  | step_group gid ct p u ttl ov n1 n2 h :
      hub_step h (enqueue_for_group gid ct p u ttl ov n1 n2 h).2
  | step_cancel cid n h : hub_step h (cancel_pending_command cid n h).2
  | step_list did mark grace n h : hub_step h (list_pending_for_device did mark grace n h).2
  | step_result did cid st msg r co n1 n2 n3 h :
      hub_step h (record_result did cid st msg r co n1 n2 n3 h).2
  | step_expire n h : hub_step h (expire_overdue_commands n h).2.

(** Commands are keyed by their own id, and every key was drawn. *)
Definition wf_hub (h : hub) : Prop :=
  forall i c, hub_commands h !! i = Some c ->
    cmd_id c = i /\ exists n, n < hub_next h /\ i = new_id "cmd" n.

(** What no step ever changes of a row it finds: the identity of the command,
    the delivery and acknowledgement stamps once set, and that a command that
    left [pending] never returns to it. *)
Definition row_evolves (c c' : command) : Prop :=
  cmd_id c' = cmd_id c /\ cmd_device_id c' = cmd_device_id c /\
  cmd_group_id c' = cmd_group_id c /\ cmd_issued_by c' = cmd_issued_by c /\
  cmd_type c' = cmd_type c /\ cmd_payload c' = cmd_payload c /\
  cmd_created_at c' = cmd_created_at c /\ cmd_expires_at c' = cmd_expires_at c /\
  (forall t, cmd_delivered_at c = Some t -> cmd_state c <> Pending -> cmd_delivered_at c' = Some t) /\
  (forall t, cmd_ack_received_at c = Some t -> cmd_ack_received_at c' = Some t) /\
  (cmd_state c <> Pending -> cmd_state c' <> Pending).

Definition commands_evolve (h h' : hub) : Prop :=
  hub_next h <= hub_next h' /\
  forall i c, hub_commands h !! i = Some c ->
    exists c', hub_commands h' !! i = Some c' /\ row_evolves c c'.

End operations.

(** ** Lemmas on rows *)

Lemma row_evolves_refl c : row_evolves c c.
Proof. unfold row_evolves; naive_solver. Qed.

Lemma row_evolves_trans a b c : row_evolves a b -> row_evolves b c -> row_evolves a c.
Proof.
  intros (?&?&?&?&?&?&?&?&D1&A1&P1) (?&?&?&?&?&?&?&?&D2&A2&P2).
  unfold row_evolves. repeat split; try congruence; eauto.
Qed.

Lemma mark_delivered_evolves now c : row_evolves c (mark_delivered now c).
Proof. unfold mark_delivered. case_decide; [|apply row_evolves_refl]. unfold row_evolves; naive_solver. Qed.

Lemma set_state_evolves st c : st <> Pending -> row_evolves c (set_state st c).
Proof. unfold row_evolves; naive_solver. Qed.

Lemma set_completed_evolves t c : row_evolves c (set_completed t c).
Proof. unfold row_evolves; naive_solver. Qed.

Lemma set_ack_evolves t c : cmd_ack_received_at c = None -> row_evolves c (set_ack t c).
Proof. intros H. unfold row_evolves; simpl. rewrite H. naive_solver. Qed.

Lemma result_status_not_pending s st : result_status s = Some st -> st <> Pending.
Proof. unfold result_status. intros; cases. Qed.

#[export] Hint Resolve row_evolves_refl mark_delivered_evolves set_state_evolves
  set_completed_evolves set_ack_evolves result_status_not_pending : hub.

(** ** Evolution of the table *)
Section evolution.
Context (ulid : nat -> string) `{!Inj (=) (=) ulid}.
Implicit Types h : hub.

Lemma new_id_inj prefix n m : new_id ulid prefix n = new_id ulid prefix m -> n = m.
Proof. unfold new_id. intros H. by simplify_eq. Qed.

Lemma fresh_not_in h n : wf_hub ulid h -> hub_next h <= n ->
  hub_commands h !! new_id ulid "cmd" n = None.
Proof.
  intros Hwf Hn. destruct (_ !! _) as [c|] eqn:E; [|done].
  destruct (Hwf _ _ E) as [_ (m & Hm & He)]. apply new_id_inj in He. lia.
Qed.

(** A step is well behaved: it keeps the table well formed and only lets rows
    evolve. *)
Definition good_step (h h' : hub) : Prop := wf_hub ulid h -> wf_hub ulid h' /\ commands_evolve h h'.

Lemma good_step_refl h : good_step h h.
Proof. intros Hwf. split; [done|]. split; [lia|]. eauto with hub. Qed.

Lemma good_step_trans h1 h2 h3 : good_step h1 h2 -> good_step h2 h3 -> good_step h1 h3.
Proof.
  intros H1 H2 Hwf. destruct (H1 Hwf) as [Hwf2 [N1 E1]]. destruct (H2 Hwf2) as [Hwf3 [N2 E2]].
  split; [done|]. split; [lia|]. intros i c Hi.
  destruct (E1 _ _ Hi) as (c' & Hc' & Hev). destruct (E2 _ _ Hc') as (c'' & Hc'' & Hev').
  eauto using row_evolves_trans.
Qed.

(** Updating rows in place with an evolving function. *)
Lemma good_step_rows h f :
  (forall c, row_evolves c (f c)) ->
  good_step h (with_commands (fmap f) h).
Proof.
  intros Hf Hwf. split.
  - intros i c Hi. simpl in Hi. rewrite lookup_fmap in Hi.
    destruct (hub_commands h !! i) as [c0|] eqn:E; simplify_eq/=.
    destruct (Hf c0) as [-> _]. by apply Hwf.
  - split; [done|]. intros i c Hi. exists (f c). simpl. by rewrite lookup_fmap, Hi.
Qed.

(** Replacing one row by an evolved one. *)
Lemma good_step_row h i c c' :
  hub_commands h !! i = Some c -> row_evolves c c' ->
  good_step h (with_commands (insert i c') h).
Proof.
  intros Hi Hev Hwf. split.
  - intros j d Hj. simpl in *. destruct (decide (i = j)) as [->|].
    + rewrite lookup_insert_eq in Hj. simplify_eq. destruct (Hwf _ _ Hi) as [He Hx].
      destruct Hev as [-> _]. done.
    + rewrite lookup_insert_ne in Hj by done. by apply Hwf.
  - split; [done|]. intros j d Hj. simpl. destruct (decide (i = j)) as [->|].
    + rewrite lookup_insert_eq. simplify_eq. eauto.
    + rewrite lookup_insert_ne by done. eauto with hub.
Qed.

(** Inserting a freshly minted command. *)
Lemma good_step_insert h did g u ct p e t :
  good_step h (insert_command (fresh_command ulid (hub_next h) did g u ct p e t) h).
Proof.
  intros Hwf. split.
  - intros i c Hi. simpl in Hi. destruct (decide (new_id ulid "cmd" (hub_next h) = i)) as [<-|Hne].
    + rewrite lookup_insert_eq in Hi. simplify_eq/=. split; [done|]. exists (hub_next h). split; [lia|done].
    + rewrite lookup_insert_ne in Hi by done. destruct (Hwf _ _ Hi) as [? (n & ? & ?)].
      split; [done|]. exists n. simpl. split; [lia|done].
  - split; [simpl; lia|]. intros i c Hi. exists c. split; [|apply row_evolves_refl]. simpl.
    rewrite lookup_insert_ne; [done|]. intros <-.
    rewrite (fresh_not_in h (hub_next h)) in Hi by (done || lia). done.
Qed.

(** Changes outside the command table and the ULID counter. *)
Lemma good_step_other h h' :
  hub_commands h' = hub_commands h -> hub_next h <= hub_next h' -> good_step h h'.
Proof.
  intros Hc Hn Hwf. split.
  - intros i c Hi. rewrite Hc in Hi. destruct (Hwf _ _ Hi) as [? (n & ? & ?)].
    split; [done|]. exists n. split; [lia|done].
  - split; [done|]. intros i c Hi. rewrite Hc. eauto with hub.
Qed.

Lemma enqueue_good did ct p u ttl g ov ho n1 n2 h :
  good_step h (enqueue_for_device ulid did ct p u ttl g ov ho n1 n2 h).2.
Proof.
  unfold enqueue_for_device, session_scope, enqueue_txn. cases; try apply good_step_refl.
  eapply good_step_trans; [|eapply good_step_trans; [apply good_step_insert|by apply good_step_other]].
  by apply good_step_other.
Qed.

Lemma group_step_good gid ct p u ov e t acc did :
  good_step acc.2 (group_step ulid gid ct p u ov e t acc did).2.
Proof.
  destruct acc as [[cr sk] h]. unfold group_step. cases; try apply good_step_refl.
  - eapply good_step_trans; [|apply good_step_insert]. by apply good_step_other.
  - apply good_step_insert.
Qed.

Lemma group_loop_good gid ct p u ov e t dids : forall acc,
  good_step acc.2 (foldl (group_step ulid gid ct p u ov e t) acc dids).2.
Proof.
  induction dids as [|did dids IH]; intros acc; simpl; [apply good_step_refl|].
  eapply good_step_trans; [apply (group_step_good gid ct p u ov e t acc did)|]. apply IH.
Qed.

Lemma enqueue_group_good gid ct p u ttl ov n1 n2 h :
  good_step h (enqueue_for_group ulid gid ct p u ttl ov n1 n2 h).2.
Proof.
  unfold enqueue_for_group. case_match; [apply good_step_refl|].
  destruct (validate_payload ct p) as [p'|e]; [|apply good_step_refl].
  pose proof (group_loop_good gid ct p' u ov (n1 + seconds (ttl_or_default ttl))%Z n2
                (group_device_ids gid h) ([], [], h)) as Hg.
  by destruct (foldl _ _ _) as [[? ?] ?].
Qed.

Lemma cancel_good cid n h : good_step h (cancel_pending_command cid n h).2.
Proof.
  unfold cancel_pending_command. cases; try apply good_step_refl.
  eapply good_step_row; [done|].
  eapply row_evolves_trans; [|apply set_completed_evolves]. by apply set_state_evolves.
Qed.

Lemma list_good did mark grace n h : good_step h (list_pending_for_device did mark grace n h).2.
Proof.
  unfold list_pending_for_device. destruct mark; [|apply good_step_refl].
  apply (good_step_rows h). intros c. case_match; auto with hub.
Qed.

Lemma result_good did cid st msg r co n1 n2 n3 h :
  good_step h (record_result ulid did cid st msg r co n1 n2 n3 h).2.
Proof.
  unfold record_result. destruct (result_status st) as [s|] eqn:Hs; [|apply good_step_refl].
  destruct (hub_commands h !! cid) as [c|] eqn:Hc; [|apply good_step_refl].
  case_match; [apply good_step_refl|]. cbn [snd].
  match goal with |- good_step _ (bump (with_results _ ?h')) =>
    apply (good_step_trans _ h'); [|apply good_step_other; [done|simpl; lia]] end.
  eapply (good_step_row h); [done|].
  eapply row_evolves_trans; [|apply set_completed_evolves].
  eapply row_evolves_trans; [|by eapply set_state_evolves, result_status_not_pending].
  case_match eqn:Ha; auto with hub.
Qed.

Lemma expire_good n h : good_step h (expire_overdue_commands n h).2.
Proof.
  apply (good_step_rows h). intros c. case_match; [|apply row_evolves_refl].
  by apply set_state_evolves.
Qed.

Lemma hub_step_good h h' : hub_step ulid h h' -> good_step h h'.
Proof.
  destruct 1; [apply enqueue_good|apply enqueue_group_good|apply cancel_good|apply list_good
              |apply result_good|apply expire_good].
Qed.

Lemma hub_steps_good h h' : rtc (hub_step ulid) h h' -> good_step h h'.
Proof.
  induction 1 as [h|h1 h2 h3 Hs _ IH]; [apply good_step_refl|].
  eapply good_step_trans; [by apply hub_step_good|done].
Qed.
End evolution.

(** ** What the operations do *)
Section operations_correct.
Context (ulid : nat -> string).
Implicit Types h : hub.

Lemma locked_out_spec ct ov d :
  locked_out ct ov d = true <->
  ct ∈ POWER_TYPES /\ dev_is_protected d = true /\ ov = false.
Proof.
  unfold locked_out. rewrite <- in_strs_spec.
  destruct (in_strs ct POWER_TYPES), (dev_is_protected d), ov; simpl; naive_solver.
Qed.

Lemma hold_off_effect_protected ct ho d :
  dev_is_protected (hold_off_effect ct ho d) = dev_is_protected d.
Proof. unfold hold_off_effect. cases. Qed.

Lemma hold_off_effect_held ct ho d :
  dev_is_held_off (hold_off_effect ct ho d) =
  if ho then true else if decide (ct ∈ POWER_ON_TYPES) then false else dev_is_held_off d.
Proof.
  unfold hold_off_effect. destruct ho; [done|].
  destruct (in_strs ct POWER_ON_TYPES) eqn:E.
  - apply in_strs_spec in E. rewrite decide_True by done.
    destruct (dev_is_held_off d) eqn:Hd; simpl; done.
  - rewrite decide_False; [done|]. rewrite <- in_strs_spec. congruence.
Qed.

(** The facts the clients of the queue need of one call. *)
Lemma enqueue_for_device_facts did ct p u ttl g ov ho n1 n2 h :
  match enqueue_for_device ulid did ct p u ttl g ov ho n1 n2 h with
  | (Raise _, h') => h' = h
  | (Ret cmd, h') =>
      exists d, hub_devices h !! did = Some d /\
        ~ (ct ∈ POWER_TYPES /\ dev_is_protected d = true /\ ov = false) /\
        cmd_device_id cmd = did /\ cmd_type cmd = ct /\
        cmd_id cmd = new_id ulid "cmd" (hub_next h) /\
        hub_commands h' = <[cmd_id cmd := cmd]> (hub_commands h) /\
        (exists d', hub_devices h' = <[did := d']> (hub_devices h) /\
                    dev_is_protected d' = dev_is_protected d) /\
        hub_members h' = hub_members h
  end.
Proof.
  unfold enqueue_for_device, session_scope, enqueue_txn.
  destruct (in_strs ct ALLOWED_TYPES); simpl; [|done].
  destruct (validate_payload ct p) as [pl|e]; [|done].
  destruct (hub_devices h !! did) as [d|] eqn:Hd; [|done].
  destruct (locked_out ct ov d) eqn:Hl; [done|].
  exists d. simpl. rewrite <- locked_out_spec, Hl.
  split_and!; try done. exists (hold_off_effect ct ho d).
  by rewrite hold_off_effect_protected.
Qed.

(** C1. Queueing for a device.  A call that raises leaves the whole state as it
    was, and it raises exactly for an unknown type, a payload the schema
    refuses, an unknown device, or a power command on a protected device
    without the override.  A call that returns has inserted exactly one
    [pending] command with the requested deadline, changed only that device's
    hold-off flag (set by [set_hold_off], otherwise cleared by a power-on
    command), and published exactly one event. *)
Theorem enqueue_for_device_correct did ct p u ttl g ov ho n1 n2 h :
  match enqueue_for_device ulid did ct p u ttl g ov ho n1 n2 h with
  | (Raise _, h') =>
      h' = h /\
      (ct ∉ ALLOWED_TYPES \/ returns (validate_payload ct p) = false
       \/ hub_devices h !! did = None
       \/ exists d, hub_devices h !! did = Some d /\ ct ∈ POWER_TYPES
                    /\ dev_is_protected d = true /\ ov = false)
  | (Ret cmd, h') =>
      exists d d' pl,
        ct ∈ ALLOWED_TYPES /\ validate_payload ct p = Ret pl /\ hub_devices h !! did = Some d /\
        ~ (ct ∈ POWER_TYPES /\ dev_is_protected d = true /\ ov = false) /\
        cmd = Command (new_id ulid "cmd" (hub_next h)) did g u ct pl Pending n2
                (n1 + seconds (ttl_or_default ttl))%Z None None None /\
        hub_commands h' = <[cmd_id cmd := cmd]> (hub_commands h) /\
        hub_devices h' = <[did := d']> (hub_devices h) /\
        dev_is_protected d' = dev_is_protected d /\
        dev_is_held_off d' = (if ho then true
                              else if decide (ct ∈ POWER_ON_TYPES) then false
                              else dev_is_held_off d) /\
        hub_bus h' = publish (CommandQueued (cmd_id cmd) did (dev_local_ip d) ct pl n2) (hub_bus h) /\
        hub_results h' = hub_results h
  end.
Proof.
  unfold enqueue_for_device, session_scope, enqueue_txn.
  destruct (in_strs ct ALLOWED_TYPES) eqn:Hct; simpl.
  2:{ split; [done|]. left. rewrite <- in_strs_spec. congruence. }
  apply in_strs_spec in Hct.
  destruct (validate_payload ct p) as [pl|e] eqn:Hp; simpl; [|naive_solver].
  destruct (hub_devices h !! did) as [d|] eqn:Hd; [|naive_solver].
  destruct (locked_out ct ov d) eqn:Hl.
  - apply locked_out_spec in Hl. naive_solver.
  - exists d, (hold_off_effect ct ho d), pl. simpl.
    rewrite hold_off_effect_protected, hold_off_effect_held, <- locked_out_spec, Hl.
    naive_solver.
Qed.

(** A member the fan-out reaches, and one it skips. *)
Definition fanout_target (ct : string) (ov : bool) (h : hub) (did : string) : bool :=
  match hub_devices h !! did with Some d => negb (locked_out ct ov d) | None => false end.
Definition fanout_skip (ct : string) (ov : bool) (h : hub) (did : string) : bool :=
  match hub_devices h !! did with Some d => locked_out ct ov d | None => false end.

(** The lockout of every device is the same in two states. *)
Definition same_locks (h h' : hub) : Prop :=
  forall did, (dev_is_protected <$> hub_devices h !! did) = (dev_is_protected <$> hub_devices h' !! did).

Lemma same_locks_fanout ct ov h h' did : same_locks h h' ->
  fanout_target ct ov h did = fanout_target ct ov h' did /\
  fanout_skip ct ov h did = fanout_skip ct ov h' did.
Proof.
  intros Hs. specialize (Hs did). unfold fanout_target, fanout_skip, locked_out.
  destruct (hub_devices h !! did), (hub_devices h' !! did); simplify_eq/=; [|done].
  by rewrite Hs.
Qed.

Lemma same_locks_insert h did d d' : hub_devices h !! did = Some d ->
  dev_is_protected d' = dev_is_protected d -> same_locks h (with_devices (insert did d') h).
Proof.
  intros Hd Hp did'. simpl. destruct (decide (did = did')) as [->|].
  - rewrite lookup_insert_eq, Hd. simpl. congruence.
  - by rewrite lookup_insert_ne.
Qed.

(** One iteration, against the state the loop started in. *)
Lemma group_step_spec gid ct p u ov e t h0 cr sk h did : same_locks h0 h ->
  match group_step ulid gid ct p u ov e t (cr, sk, h) did with
  | (cr', sk', h') =>
      same_locks h0 h' /\
      cmd_device_id <$> cr' = (cmd_device_id <$> cr) ++ (if fanout_target ct ov h0 did then [did] else []) /\
      sk' = sk ++ (if fanout_skip ct ov h0 did then [did] else [])
  end.
Proof.
  intros Hs. destruct (same_locks_fanout ct ov _ _ did Hs) as [-> ->].
  unfold group_step, fanout_target, fanout_skip.
  destruct (hub_devices h !! did) as [d|] eqn:Hd; [|by rewrite !app_nil_r].
  destruct (locked_out ct ov d) eqn:Hl; simpl; [by rewrite app_nil_r|].
  rewrite fmap_app, app_nil_r. split; [|done].
  intros did'. rewrite (Hs did'). case_match; [|done].
  by apply (same_locks_insert h did d).
Qed.

Lemma group_loop_spec gid ct p u ov e t h0 dids : forall cr sk h, same_locks h0 h ->
  match foldl (group_step ulid gid ct p u ov e t) (cr, sk, h) dids with
  | (cr', sk', _) =>
      cmd_device_id <$> cr' = (cmd_device_id <$> cr) ++ filter (fun d => fanout_target ct ov h0 d = true) dids /\
      sk' = sk ++ filter (fun d => fanout_skip ct ov h0 d = true) dids
  end.
Proof.
  induction dids as [|did dids IH]; intros cr sk h Hs; cbn [foldl]; [by rewrite !app_nil_r|].
  pose proof (group_step_spec gid ct p u ov e t h0 cr sk h did Hs) as Hg.
  destruct (group_step _ _ _ _ _ _ _ _ _ _) as [[cr' sk'] h'].
  destruct Hg as (Hs' & Hc & Hk). specialize (IH cr' sk' h' Hs').
  destruct (foldl _ _ _) as [[cr'' sk''] h'']. destruct IH as [-> ->]. rewrite Hc, Hk.
  rewrite !filter_cons. destruct (fanout_target ct ov h0 did), (fanout_skip ct ov h0 did);
    simpl; by rewrite <- ?app_assoc, ?app_nil_r.
Qed.

(** Group fan-out.  When the call returns, the commands created are for
    exactly the members that exist and are not locked out, in membership order,
    and the ids reported as skipped are exactly the locked members: a protected
    device is never power-cycled by a mass action without the override. *)
Theorem enqueue_for_group_partition gid ct p u ttl ov n1 n2 h created skipped h' :
  enqueue_for_group ulid gid ct p u ttl ov n1 n2 h = (Ret (created, skipped), h') ->
  cmd_device_id <$> created = filter (fun d => fanout_target ct ov h d = true) (group_device_ids gid h) /\
  skipped = filter (fun d => fanout_skip ct ov h d = true) (group_device_ids gid h).
Proof.
  unfold enqueue_for_group. intros H. case_match; [done|].
  destruct (validate_payload ct p) as [p'|?]; [|done].
  pose proof (group_loop_spec gid ct p' u ov (n1 + seconds (ttl_or_default ttl))%Z n2 h
                (group_device_ids gid h) [] [] h (fun _ => eq_refl)) as Hg.
  destruct (foldl _ _ _) as [[cr sk] hh]. by simplify_eq.
Qed.

Lemma elem_of_pending did mark grace now h c :
  c ∈ (list_pending_for_device did mark grace now h).1 <->
  exists i r, hub_commands h !! i = Some r /\ deliverable did grace now r = true /\
              c = if mark then mark_delivered now r else r.
Proof.
  unfold list_pending_for_device. destruct mark; cbn [fst].
  - rewrite list_elem_of_fmap. setoid_rewrite order_by_perm.
    setoid_rewrite list_elem_of_filter. setoid_rewrite elem_of_rows. naive_solver.
  - rewrite order_by_perm, list_elem_of_filter, elem_of_rows. naive_solver.
Qed.

Lemma list_pending_lookup did grace now h i :
  hub_commands (list_pending_for_device did true grace now h).2 !! i =
  (fun c => if deliverable did grace now c then mark_delivered now c else c) <$> hub_commands h !! i.
Proof. simpl. by rewrite lookup_fmap. Qed.
End operations_correct.

(** ** Histories of the queue *)
Section histories.
Context (ulid : nat -> string) `{!Inj (=) (=) ulid}.
Implicit Types h : hub.

(** Along any history of queue calls, the table stays keyed by freshly
    drawn ids, no command is ever lost or rewritten (device, type, payload,
    issuer, deadline), the delivery and acknowledgement stamps are write-once,
    and a command that left [pending] never returns to it. *)
Theorem queue_history_preserves_commands h h' :
  wf_hub ulid h -> rtc (hub_step ulid) h h' -> wf_hub ulid h' /\ commands_evolve h h'.
Proof. intros Hwf Hs. by apply (hub_steps_good ulid h h' Hs). Qed.

(** No double delivery inside the grace window.  Once a call (the
    heartbeat's piggyback, say) hands a pending command over at [t1], no later
    poll with a grace of [g] seconds returns that command before [t1 + g],
    whatever happened to the queue in between. *)
Theorem no_redelivery_within_grace did gr t1 h rows1 h1 c c0 h2 did2 mark g t2 c2 :
  wf_hub ulid h ->
  list_pending_for_device did true gr t1 h = (rows1, h1) ->
  hub_commands h !! cmd_id c = Some c0 -> cmd_state c0 = Pending -> c ∈ rows1 ->
  rtc (hub_step ulid) h1 h2 ->
  (t2 < t1 + seconds g)%Z ->
  c2 ∈ (list_pending_for_device did2 mark (Some g) t2 h2).1 ->
  cmd_id c2 <> cmd_id c.
Proof.
  intros Hwf Hl Hc0 Hp Hin Hsteps Ht Hin2 Heq.
  assert (h1 = (list_pending_for_device did true gr t1 h).2) as Hh1 by by rewrite Hl.
  assert (rows1 = (list_pending_for_device did true gr t1 h).1) as Hr1 by by rewrite Hl.
  rewrite Hr1, elem_of_pending in Hin. destruct Hin as (i & r & Hi & Hd & Hcr).
  destruct (Hwf _ _ Hi) as [Hri _].
  destruct (mark_delivered_evolves t1 r) as [Hid _]. rewrite <- Hcr in Hid.
  assert (r = c0) as -> by congruence. rewrite Hid, Hri in Hc0, Heq.
  destruct (hub_step_good ulid h h1) as [Hwf1 _]; [rewrite Hh1; constructor|done|].
  assert (hub_commands h1 !! i = Some (set_delivered t1 (set_state Accepted c0))) as Hi1.
  { rewrite Hh1, list_pending_lookup, Hi. simpl. rewrite Hd. unfold mark_delivered.
    by rewrite decide_True. }
  destruct (hub_steps_good ulid h1 h2 Hsteps Hwf1) as [Hwf2 [_ Hev]].
  destruct (Hev _ _ Hi1) as (c3 & Hi3 & Hrow).
  assert (cmd_delivered_at c3 = Some t1) as Hdel by (apply Hrow; done).
  rewrite elem_of_pending in Hin2. destruct Hin2 as (j & r2 & Hj & Hd2 & Hc2).
  assert (cmd_id c2 = cmd_id r2) as Hid2.
  { rewrite Hc2. destruct mark; [by destruct (mark_delivered_evolves t2 r2)|done]. }
  destruct (Hwf2 _ _ Hj) as [Hrj _]. assert (j = i) as -> by congruence.
  assert (r2 = c3) as -> by congruence.
  unfold deliverable in Hd2. rewrite Hdel in Hd2. bool_to_prop. lia.
Qed.

(** Expiry.  After the job no live command is past its deadline, every
    other command is untouched, the count returned is the number of rows
    changed, and the job removes nothing a device could still have been handed:
    at the same instant the deliverable commands are the same before and
    after. *)
Theorem expire_overdue_correct now h :
  let '(n, h') := expire_overdue_commands now h in
  (forall i c, hub_commands h' !! i = Some c -> overdue now c = false) /\
  (forall i, hub_commands h' !! i =
     (fun c => if overdue now c then set_state Expired c else c) <$> hub_commands h !! i) /\
  n = length (filter (fun c => overdue now c = true) (rows (hub_commands h))) /\
  (forall did g i c, hub_commands h' !! i = Some c /\ deliverable did g now c = true <->
                     hub_commands h !! i = Some c /\ deliverable did g now c = true).
Proof.
  unfold expire_overdue_commands. cbn [with_commands hub_commands].
  assert (Hl : forall i, ((fun c => if overdue now c then set_state Expired c else c)
             <$> hub_commands h) !! i = (fun c => if overdue now c then set_state Expired c else c)
             <$> hub_commands h !! i) by (intros; apply lookup_fmap).
  split; [|split; [done|split; [done|]]].
  - intros i c. rewrite Hl. destruct (hub_commands h !! i) as [c0|]; simpl; [|done].
    intros [= <-]. by destruct (overdue now c0) eqn:E.
  - intros did g i c. rewrite Hl. destruct (hub_commands h !! i) as [c0|]; simpl; [|naive_solver].
    destruct (overdue now c0) eqn:E; [|done].
    unfold overdue in E. bool_to_prop.
    split; intros [[= <-] Hd]; unfold deliverable in Hd; bool_to_prop; [done|lia].
Qed.
End histories.

(** ** Witnesses: a hub with a protected and a held-off device in one group *)
Module Example.

Definition d_free : device := Device false true (Some "10.0.0.7") ∅.
Definition d_prot : device := Device true false None ∅.

Definition h0 : hub :=
  Hub {["dev_a" := d_free; "dev_b" := d_prot]} ∅ [] [("grp", "dev_a"); ("grp", "dev_b"); ("grp", "dev_gone")]
      empty_bus 0.

(** The hub after one [relay_cycle] queued for [dev_a]. *)
Definition h1 : hub :=
  (enqueue_for_device pretty "dev_a" "relay_cycle" None None None None false false 0 0 h0).2.
Definition h2 : hub := (list_pending_for_device "dev_a" true None 1000000 h1).2.
Definition c1 : command :=
  Command (new_id pretty "cmd" 0) "dev_a" None None "relay_cycle" [] Accepted 0 600000000
          (Some 1000000%Z) None None.

Lemma h0_wf : wf_hub pretty h0.
Proof. intros i c H. simpl in H. by rewrite lookup_empty in H. Qed.

Lemma h1_wf : wf_hub pretty h1.
Proof. by apply (enqueue_good pretty), h0_wf. Qed.

Definition group_result : outcome (list command * list string) * hub :=
  enqueue_for_group pretty "grp" "relay_cycle" None None None false 0 0 h0.

Lemma enqueue_for_group_partition_witness :
  exists created h',
    group_result = (Ret (created, ["dev_b"]), h') /\
    cmd_device_id <$> created = ["dev_a"].
Proof.
  assert (E : exists cr sk h', group_result = (Ret (cr, sk), h'))
    by (vm_compute; do 3 eexists; reflexivity).
  destruct E as (cr & sk & h' & E). exists cr, h'.
  destruct (enqueue_for_group_partition pretty "grp" "relay_cycle" None None None false 0 0 h0
              cr sk h' E) as [Hc Hs].
  split; [rewrite E, Hs; vm_compute; reflexivity|rewrite Hc; vm_compute; reflexivity].
Defined.

Lemma queue_history_preserves_commands_witness :
  wf_hub pretty h2 /\ commands_evolve h1 h2.
Proof.
  apply (queue_history_preserves_commands pretty h1 h2 h1_wf).
  apply rtc_once. apply step_list.
Defined.

Lemma no_redelivery_within_grace_witness :
  c1 ∈ (list_pending_for_device "dev_a" true None 1000000 h1).1 /\
  forall c2, c2 ∈ (list_pending_for_device "dev_a" true (Some 30%Z) 2000000 h2).1 ->
             cmd_id c2 <> cmd_id c1.
Proof.
  assert (c1 ∈ (list_pending_for_device "dev_a" true None 1000000 h1).1) as Hin.
  { replace (list_pending_for_device "dev_a" true None 1000000 h1).1 with [c1]
      by (vm_compute; reflexivity). left. }
  split; [exact Hin|]. intros c2.
  refine (no_redelivery_within_grace pretty "dev_a" None 1000000 h1
            (list_pending_for_device "dev_a" true None 1000000 h1).1 h2 c1
            (fresh_command pretty 0 "dev_a" None None "relay_cycle" [] 600000000 0)
            h2 "dev_a" true 30 2000000 c2 h1_wf eq_refl _ eq_refl Hin (rtc_refl _ _) _).
  - vm_compute. reflexivity.
  - vm_compute. reflexivity.
Defined.
End Example.
