(* ===== verification/QueueInterface.v ===== *)
(** * What the command queue promises its callers

    The watchdog and the schedules never touch the command table: they call
    [enqueue_for_device] and read the group memberships.  [CommandQueue] states
    what they rely on; the instance at the end discharges it for the queue of
    [Commands]. *)

From stdpp Require Import pretty.
From S2P Require Import Prelude EventBus Commands.
Local Open Scope string_scope.
Local Open Scope list_scope.

(** [cq_enqueue did type payload override hold_off]: one call of
    [enqueue_for_device] with [issued_by_user_id=None] and the default TTL; it
    returns the id of the command.  [cq_count s d t] counts the commands of type
    [t] ever queued for device [d]. *)
Class CommandQueue (S : Type) := {
  cq_ok : S -> Prop;
  cq_protected : S -> string -> bool;
  cq_count : S -> string -> string -> nat;
  cq_members : S -> string -> list string;
  cq_enqueue : string -> string -> option pydict -> bool -> bool -> S -> outcome string * S;

  cq_enqueue_raise did ct p ov ho s e s' :
    cq_enqueue did ct p ov ho s = (Raise e, s') ->
    cq_count s' = cq_count s /\ cq_protected s' = cq_protected s /\ cq_members s' = cq_members s
    /\ (cq_ok s -> cq_ok s');
  cq_enqueue_locked did ct p ho s :
    cq_protected s did = true -> ct ∈ POWER_TYPES ->
    returns (cq_enqueue did ct p false ho s).1 = false;
  cq_enqueue_ret did ct p ov ho s cid s' :
    cq_ok s -> cq_enqueue did ct p ov ho s = (Ret cid, s') ->
    cq_ok s' /\
    (forall d t, cq_count s' d t =
                 cq_count s d t + if decide (d = did /\ t = ct) then 1 else 0) /\
    (forall d, cq_protected s' d = cq_protected s d) /\
    (forall g, cq_members s' g = cq_members s g)
}.

(** ** The queue of [Commands] behind the interface

    The caller's wall clock is a stream of readings; [enqueue_for_device] takes
    two per call. *)
Record clocked := Clocked {
  ck_hub : hub;
  ck_clock : nat -> time;
  ck_read : nat
}.

Section instance.
Context (ulid : nat -> string) `{!Inj (=) (=) ulid}.

Definition clocked_enqueue (did ct : string) (p : option pydict) (ov ho : bool) (s : clocked)
    : outcome string * clocked :=
  let r := enqueue_for_device ulid did ct p None None None ov ho
             (ck_clock s (ck_read s)) (ck_clock s (S (ck_read s))) (ck_hub s) in
  (cmd_id <$> r.1, Clocked r.2 (ck_clock s) (S (S (ck_read s)))).

Definition of_device (d t : string) (c : command) : Prop := cmd_device_id c = d /\ cmd_type c = t.
#[local] Instance of_device_dec d t c : Decision (of_device d t c).
Proof. unfold of_device; apply _. Defined.

Definition clocked_count (s : clocked) (d t : string) : nat :=
  length (filter (of_device d t) (rows (hub_commands (ck_hub s)))).

Definition clocked_protected (s : clocked) (d : string) : bool :=
  match hub_devices (ck_hub s) !! d with Some x => dev_is_protected x | None => false end.

Lemma count_insert (m : gmap string command) i c d t : m !! i = None ->
  length (filter (of_device d t) (rows (<[i := c]> m))) =
  length (filter (of_device d t) (rows m)) + if decide (of_device d t c) then 1 else 0.
Proof.
  intros Hi. assert (rows (<[i := c]> m) ≡ₚ c :: rows m) as ->.
  { unfold rows. by rewrite map_to_list_insert. }
  rewrite filter_cons. case_decide; simpl; lia.
Qed.

#[export] Program Instance clocked_queue : CommandQueue clocked := {|
  cq_ok s := wf_hub ulid (ck_hub s);
  cq_protected := clocked_protected;
  cq_count := clocked_count;
  cq_members s g := group_device_ids g (ck_hub s);
  cq_enqueue := clocked_enqueue
|}.
Next Obligation.
  intros did ct p ov ho s e s' H. unfold clocked_enqueue in H.
  pose proof (enqueue_for_device_facts ulid did ct p None None None ov ho
    (ck_clock s (ck_read s)) (ck_clock s (S (ck_read s))) (ck_hub s)) as Hc.
  destruct (enqueue_for_device _ _ _ _ _ _ _ _ _ _ _) as [[cmd|e'] h']; simplify_eq/=.
  done.
Qed.
Next Obligation.
  intros did ct p ho s Hp Hct. unfold clocked_enqueue, clocked_protected in *.
  pose proof (enqueue_for_device_facts ulid did ct p None None None false ho
    (ck_clock s (ck_read s)) (ck_clock s (S (ck_read s))) (ck_hub s)) as Hc.
  destruct (enqueue_for_device _ _ _ _ _ _ _ _ _ _ _) as [[cmd|e'] h']; [|done].
  destruct Hc as (d & Hd & Hno & _). rewrite Hd in Hp. naive_solver.
Qed.
Next Obligation.
  intros did ct p ov ho s cid s' Hok H. unfold clocked_enqueue in H.
  pose proof (enqueue_for_device_facts ulid did ct p None None None ov ho
    (ck_clock s (ck_read s)) (ck_clock s (S (ck_read s))) (ck_hub s)) as Hc.
  pose proof (enqueue_good ulid did ct p None None None ov ho
    (ck_clock s (ck_read s)) (ck_clock s (S (ck_read s))) (ck_hub s) Hok) as [Hwf _].
  destruct (enqueue_for_device _ _ _ _ _ _ _ _ _ _ _) as [[cmd|e'] h']; simplify_eq/=.
  destruct Hc as (d & Hd & _ & Hcd & Hct & Hid & Hcm & Hdev & Hmem).
  split; [done|]. split; [|split].
  - intros d' t. unfold clocked_count; simpl. rewrite Hcm, Hid.
    rewrite count_insert by (by apply (fresh_not_in ulid)).
    f_equal. repeat case_decide; unfold of_device in *; naive_solver.
  - intros d'. unfold clocked_protected; simpl.
    destruct Hdev as (x & -> & Hx). destruct (decide (did = d')) as [->|].
    + by rewrite lookup_insert_eq, Hd.
    + by rewrite lookup_insert_ne.
  - intros gid. unfold group_device_ids. by rewrite Hmem.
Qed.
End instance.
