(* ===== verification/RuntimeFlags.v ===== *)
(** * Runtime flags ([app/services/runtime_flags.py])

    A key/value table with one well-known key, the portal-wide maintenance
    mode, and the conventions the schedule reconciler relies on. *)

From S2P Require Import Prelude.
Local Open Scope string_scope.
Local Open Scope list_scope.

(** The row of [runtime_flags]. *)
Record flag_row := FlagRow {
  fl_value : json;
  fl_updated_at : time;
  fl_updated_by : option string
}.
Abbreviation flag_table := (gmap string flag_row).

Definition MAINTENANCE_MODE : string := "maintenance_mode_active".

(** [get(name, default)]. *)
Definition flag_get (name : string) (default : json) (fs : flag_table) : json :=
  match fs !! name with Some row => fl_value row | None => default end.

(** [set_]. *)
Definition flag_set (name : string) (value : json) (user_id : option string) (now : time)
    (fs : flag_table) : flag_table :=
  <[name := FlagRow value now user_id]> fs.

Definition flag_off : json := JObj [("on", JBool false)].

(** [is_maintenance_mode_active]. *)
Definition is_maintenance_mode_active (fs : flag_table) : bool :=
  match flag_get MAINTENANCE_MODE flag_off fs with
  | JObj d => truthy (dget d "on")
  | v => truthy v
  end.

(** The cap of the reason field: 200 characters. *)
Definition cap_reason (reason : option string) : option string :=
  match reason with
  | Some r => Some (if Nat.ltb 200 (String.length r)
                    then String.append (String.substring 0 197 r) "..." else r)
  | None => None
  end.

(** The two reasons the schedule runtime writes. *)
Definition schedule_reason (r : option string) : bool :=
  match r with Some s => in_strs s ["schedule"; "schedule_window_ended"] | None => false end.

Section with_clock.
Context `{IsoClock}.

(** [set_maintenance_mode]; [now1] stamps the payload, [now2] the row. *)
Definition set_maintenance_mode (on : bool) (user_id reason : option string) (now1 now2 : time)
    (fs : flag_table) : flag_table :=
  let reason := cap_reason reason in
  let payload := [("on", JBool on); ("reason", ojson reason);
                  ("set_at", JStr (isoformat now1))] in
  let payload := if schedule_reason reason then payload
                 else payload ++ [("operator_override_at", JStr (isoformat now1))] in
  flag_set MAINTENANCE_MODE (JObj payload) user_id now2 fs.

(** [maintenance_mode_details]. *)
Definition maintenance_mode_details (fs : flag_table) : pydict :=
  match flag_get MAINTENANCE_MODE flag_off fs with
  | JObj d => d
  | v => [("on", JBool (truthy v))]
  end.

(** What a toggle writes is what the readers see. *)
Lemma set_maintenance_reads on u r n1 n2 fs :
  let fs' := set_maintenance_mode on u r n1 n2 fs in
  is_maintenance_mode_active fs' = on /\
  dget (maintenance_mode_details fs') "reason" = ojson (cap_reason r) /\
  dget (maintenance_mode_details fs') "operator_override_at" =
    (if schedule_reason (cap_reason r) then JNull else JStr (isoformat n1)).
Proof.
  unfold set_maintenance_mode, flag_set, is_maintenance_mode_active,
    maintenance_mode_details, flag_get. cbv zeta. rewrite lookup_insert_eq.
  destruct (schedule_reason _); by destruct on.
Qed.

Lemma set_maintenance_other on u r n1 n2 fs k :
  k <> MAINTENANCE_MODE -> set_maintenance_mode on u r n1 n2 fs !! k = fs !! k.
Proof. intros Hk. unfold set_maintenance_mode, flag_set. cbv zeta. by rewrite lookup_insert_ne. Qed.
End with_clock.

#[export] Hint Resolve set_maintenance_other : hub.
