(* ===== verification/WatchdogActions.v ===== *)
(** * Watchdog actions ([app/services/watchdog_runtime/_actions.py])

    What a rule does when it fires: resolve its target to devices and queue
    commands for them, through the [CommandQueue] interface.  Failures are
    captured as data, device by device.  Rules, actions and targets are the
    JSON the database holds, validated or not. *)

From stdpp Require Import pretty.
From S2P Require Import Prelude Commands QueueInterface.
Local Open Scope string_scope.
Local Open Scope list_scope.

(** ** Rules ([app/models/watchdog.py]) *)

Inductive rule_status := Armed | Firing | CooledDown | Suspended | Disabled.
#[export] Instance rule_status_eq_dec : EqDecision rule_status.
Proof. solve_decision. Defined.

(** The configuration columns of [watchdog_rules]. *)
Record rule_config := RuleConfig {
  rc_id : string;
  rc_name : string;
  rc_site_id : option string;
  rc_enabled : bool;
  rc_probe : json;
  rc_failure_threshold : Z;
  rc_recovery_threshold : Z;
  rc_window_seconds : Z;
  rc_cooldown_seconds : Z;
  rc_target : json;
  rc_action : json;
  rc_escalation : json;
  rc_maintenance_windows : json
}.

(** The runtime columns, which the tick writes. *)
Record rule_runtime := RuleRuntime {
  rt_status : rule_status;
  rt_failure_streak : Z;
  rt_recovery_streak : Z;
  rt_last_probed_at : option time;
  rt_last_action_at : option time;
  rt_last_outcome : option string
}.

Record rule := Rule { r_config :> rule_config; r_runtime :> rule_runtime }.

(** [rule.x or {}]. *)
Definition or_dict (v : json) : json := jor v (JObj []).

Section actions.
Context {S : Type} `{CQ : CommandQueue S}.

(** Saved scenes: [scenes.items] by scene id. *)
Context (scenes : gmap string json).
(** [str(v)] of a float, a list or a dict. *)
Context (py_repr : json -> string).

(** [resolve_target_devices].  A key that is not a string is refused by the
    database driver. *)
Definition resolve_target_devices (target : json) (s : S) : outcome (list json) :=
  kind ← jget target "kind";
  if jeqs kind "device" then
    id ← jget target "id";
    Ret (if truthy id then [id] else [])
  else if jeqs kind "group" then
    gid ← jget target "id";
    if truthy gid then
      match gid with
      | JStr g => Ret (JStr <$> filter (fun r => is_empty r = false) (cq_members s g))
      | _ => Raise (DBError "group_id")
      end
    else Ret []
  else Ret [].

(** [enqueue_for_device(device_id=did, ...)] for an id as the JSON holds it. *)
Definition enqueue_id (did : json) (ct : string) (p : option pydict) (ho : bool) (s : S)
    : outcome string * S :=
  match did with
  | JStr d => cq_enqueue d ct p false ho s
  | _ => (Raise (DBError "device_id"), s)
  end.

Definition skipped_entry (did : json) (e : exn) : json :=
  JObj [("device_id", did); ("error", JStr (exn_str e))].

(** The loop [for did in device_ids: try: ... except: skipped.append(...)];
    [item] is what the code appends on success. *)
Fixpoint enqueue_each (item : json -> string -> json) (ct : string) (p : option pydict)
    (ho : bool) (ids : list json) (s : S) : list json * list json * S :=
  match ids with
  | [] => ([], [], s)
  | did :: rest =>
    let '(o, s1) := enqueue_id did ct p ho s in
    let '(done_, skipped, s2) := enqueue_each item ct p ho rest s1 in
    match o with
    | Ret cid => (item did cid :: done_, skipped, s2)
    | Raise e => (done_, skipped_entry did e :: skipped, s2)
    end
  end.

Definition no_devices (action : string) : json :=
  JObj [("action", JStr action); ("skipped", JStr "no devices in target")].

(** [_fire_relay_set]. *)
Definition fire_relay_set (r : rule) (target : json) (ct : string) (s : S) : outcome json * S :=
  match resolve_target_devices target s with
  | Raise e => (Raise e, s)
  | Ret [] => (Ret (no_devices ct), s)
  | Ret ids =>
    let '(enqueued, skipped, s') := enqueue_each (fun _ cid => JStr cid) ct None false ids s in
    (Ret (JObj [("action", JStr ct); ("rule_id", JStr (rc_id r));
                ("enqueued", JList enqueued); ("skipped", JList skipped)]), s')
  end.

(** [_fire_cycle]; [int(action.get(...))] runs before any command is queued. *)
Definition fire_cycle (r : rule) (target : json) (action : pydict) (s : S) : outcome json * S :=
  match resolve_target_devices target s with
  | Raise e => (Raise e, s)
  | Ret [] => (Ret (no_devices "cycle"), s)
  | Ret ids =>
    match py_int (dget_default action "power_off_seconds" (JInt 5)) with
    | Raise e => (Raise e, s)
    | Ret off =>
      match py_int (dget_default action "post_reboot_holdoff_seconds" (JInt 180)) with
      | Raise e => (Raise e, s)
      | Ret hold =>
        let payload := [("power_off_seconds", JInt off);
                        ("post_reboot_holdoff_seconds", JInt hold)] in
        let '(enqueued, skipped, s') :=
          enqueue_each (fun _ cid => JStr cid) "relay_cycle" (Some payload) false ids s in
        (Ret (JObj [("action", JStr "cycle"); ("rule_id", JStr (rc_id r));
                    ("enqueued", JList enqueued); ("skipped", JList skipped);
                    ("payload", JObj payload)]), s')
      end
    end
  end.

(** [_fire_hold_off]: the protected-device gate applies here too
    ([override_lockout] defaults to [False]). *)
Definition fire_hold_off (r : rule) (target : json) (s : S) : outcome json * S :=
  match resolve_target_devices target s with
  | Raise e => (Raise e, s)
  | Ret [] => (Ret (no_devices "hold_off"), s)
  | Ret ids =>
    let '(held, skipped, s') := enqueue_each (fun did _ => did) "relay_off" None true ids s in
    (Ret (JObj [("action", JStr "hold_off"); ("rule_id", JStr (rc_id r));
                ("held", JList held); ("skipped", JList skipped)]), s')
  end.

(** The relay part of one scene item. *)
Definition scene_relay (did : string) (relay : json) (s : S) : outcome (list json) * S :=
  let queue ct p :=
    let '(o, s') := cq_enqueue did ct p false false s in
    (match o with Ret _ => Ret [JStr ct] | Raise e => Raise e end, s') in
  if jeqs relay "on" then queue "relay_on" None
  else if jeqs relay "off" then queue "relay_off" None
  else if jeqs relay "cycle" then
    queue "relay_cycle" (Some [("power_off_seconds", JInt 5);
                               ("post_reboot_holdoff_seconds", JInt 180)])
  else (Ret [], s).

(** The config part: [isinstance(config, dict) and config]. *)
Definition scene_config (did : string) (config : json) (s : S) : outcome (list json) * S :=
  match config with
  | JObj ((_ :: _) as d) =>
    let '(o, s') := cq_enqueue did "apply_config" (Some d) false false s in
    (match o with Ret _ => Ret [JStr "apply_config"] | Raise e => Raise e end, s')
  | _ => (Ret [], s)
  end.

(** The [try] block of one item: a failure after the relay command was queued
    leaves that command queued and reports the item as skipped. *)
Definition scene_commands (did : string) (relay config : json) (s : S) : outcome (list json) * S :=
  match scene_relay did relay s with
  | (Raise e, s1) => (Raise e, s1)
  | (Ret c1, s1) =>
    match scene_config did config s1 with
    | (Raise e, s2) => (Raise e, s2)
    | (Ret c2, s2) => (Ret (c1 ++ c2), s2)
    end
  end.

(** The loop over the items.  [(item or {}).get(...)] raises out of the
    function on an item that is not an object; what was queued stays queued. *)
Fixpoint scene_loop (items applied skipped : list json) (s : S)
    : outcome (list json * list json) * S :=
  match items with
  | [] => (Ret (applied, skipped), s)
  | item :: rest =>
    match or_dict item with
    | JObj d =>
      let did := strip (py_str py_repr (jor (dget d "device_id") (JStr empty_str))) in
      if is_empty did then
        scene_loop rest applied
          (skipped ++ [JObj [("item", item); ("error", JStr "missing device_id")]]) s
      else
        match scene_commands did (dget d "relay") (dget d "config") s with
        | (Ret cmds, s') =>
          scene_loop rest (applied ++ [JObj [("device_id", JStr did); ("commands", JList cmds)]])
                     skipped s'
        | (Raise e, s') => scene_loop rest applied (skipped ++ [skipped_entry (JStr did) e]) s'
        end
    | _ => (Raise (AttributeError "get"), s)
    end
  end.

(** [scenes.scene_items]: [None] when the scene is gone. *)
Definition scene_items (scene_id : json) : outcome (option (list json)) :=
  match scene_id with
  | JStr sid =>
    match scenes !! sid with
    | None => Ret None
    | Some items => Some <$> py_iter (jor items (JList []))
    end
  | _ => Raise (DBError "scene_id")
  end.

(** [_fire_scene]. *)
Definition fire_scene (r : rule) (action : pydict) (s : S) : outcome json * S :=
  let result applied skipped extra :=
    JObj ([("action", JStr "apply_scene"); ("rule_id", JStr (rc_id r))] ++ extra ++
          [("applied", JList applied); ("skipped", JList skipped)]) in
  let run items :=
    match scene_loop items [] [] s with
    | (Raise e, s') => (Raise e, s')
    | (Ret (applied, skipped), s') => (Ret (result applied skipped []), s')
    end in
  if truthy (dget action "scene_id") then
    match scene_items (dget action "scene_id") with
    | Raise e => (Raise e, s)
    | Ret None => (Ret (result [] [] [("error", JStr "scene not found")]), s)
    | Ret (Some items) => run items
    end
  else
    match py_iter (jor (dget action "items") (JList [])) with
    | Raise e => (Raise e, s)
    | Ret items => run items
    end.

(** [_dispatch_one]. *)
Definition dispatch_one (r : rule) (action target : json) (s : S) : outcome json * S :=
  match or_dict action with
  | JObj a =>
    let kind := dget a "kind" in
    if jeqs kind "cycle" then fire_cycle r target a s
    else if jeqs kind "hold_off" then fire_hold_off r target s
    else if jeqs kind "relay_on" then fire_relay_set r target "relay_on" s
    else if jeqs kind "relay_off" then fire_relay_set r target "relay_off" s
    else if jeqs kind "apply_scene" then fire_scene r a s
    else if jeqs kind "notify_only"
    then (Ret (JObj [("action", JStr "notify_only"); ("note", JStr "no power action")]), s)
    else (Ret (JObj [("action", kind); ("error", JStr "unsupported action")]), s)
  | _ => (Raise (AttributeError "get"), s)
  end.

(** The [try: ... except Exception as e: ...] around a dispatch.  The handler
    itself reads [(action or {}).get("kind")], which raises for an action that
    is not an object. *)
Definition guarded_dispatch (r : rule) (action : json) (s : S) : outcome json * S :=
  match dispatch_one r action (or_dict (rc_target r)) s with
  | (Ret d, s') => (Ret d, s')
  | (Raise e, s') =>
    (kind ← jget (or_dict action) "kind";
     Ret (JObj [("action", kind); ("error", JStr (exn_str e))]), s')
  end.

(** [_fire_action] and [apply_binding_action]. *)
Definition fire_action (r : rule) (s : S) : outcome json * S := guarded_dispatch r (rc_action r) s.
Definition apply_binding_action (r : rule) (leaf : json) (s : S) : outcome json * S :=
  guarded_dispatch r leaf s.

(** ** The soft gate

    [soft s s']: nothing a caller without the override may do to a protected
    device happened between [s] and [s']. *)
Definition soft (s s' : S) : Prop :=
  cq_ok s ->
  cq_ok s' /\
  (forall d, cq_protected s' d = cq_protected s d) /\
  (forall g, cq_members s' g = cq_members s g) /\
  (forall d t, cq_count s d t <= cq_count s' d t) /\
  (forall d t, cq_protected s d = true -> t ∈ POWER_TYPES -> cq_count s' d t = cq_count s d t).

Lemma soft_refl s : soft s s.
Proof. unfold soft; auto. Qed.

Lemma soft_trans a b c : soft a b -> soft b c -> soft a c.
Proof.
  intros H1 H2 Hok. destruct (H1 Hok) as (Hb & P1 & M1 & C1 & N1).
  destruct (H2 Hb) as (Hc & P2 & M2 & C2 & N2).
  split; [done|]. split; [congruence|]. split; [congruence|]. split.
  - intros d t. specialize (C1 d t). specialize (C2 d t). lia.
  - intros d t Hp Ht. rewrite N2, N1; try done. by rewrite P1.
Qed.

Lemma enqueue_soft d ct p ho s : soft s (cq_enqueue d ct p false ho s).2.
Proof.
  destruct (cq_enqueue d ct p false ho s) as [[cid|e] s'] eqn:E; cbn [snd].
  - intros Hok. destruct (cq_enqueue_ret _ _ _ _ _ _ _ _ Hok E) as (Hok' & Hc & Hp & Hm).
    split; [done|]. split; [done|]. split; [done|]. split.
    + intros d' t. rewrite Hc. lia.
    + intros d' t Hpd Ht. rewrite Hc. case_decide as Hd; [|lia].
      destruct Hd as [-> ->]. pose proof (cq_enqueue_locked d ct p ho s Hpd Ht) as Hl.
      by rewrite E in Hl.
  - destruct (cq_enqueue_raise _ _ _ _ _ _ _ _ E) as (Hc & Hp & Hm & Hok).
    intros Hs. split; [auto|]. rewrite Hc, Hp, Hm. auto.
Qed.
#[local] Hint Resolve soft_refl enqueue_soft : core.

Lemma enqueue_id_soft did ct p ho s : soft s (enqueue_id did ct p ho s).2.
Proof. destruct did; simpl; auto. Qed.

Lemma enqueue_each_soft item ct p ho ids : forall s, soft s (enqueue_each item ct p ho ids s).2.
Proof.
  induction ids as [|did ids IH]; intros s; cbn [enqueue_each]; [auto|].
  pose proof (enqueue_id_soft did ct p ho s) as H1.
  destruct (enqueue_id did ct p ho s) as [o s1]. specialize (IH s1).
  destruct (enqueue_each item ct p ho ids s1) as [[en sk] s2].
  destruct o; eauto using soft_trans.
Qed.

(** Every device of the target is accounted for, in order: queued or skipped. *)
Lemma enqueue_each_total item ct p ho ids : forall s,
  let '(en, sk, _) := enqueue_each item ct p ho ids s in length en + length sk = length ids.
Proof.
  induction ids as [|did ids IH]; intros s; cbn [enqueue_each]; [done|].
  destruct (enqueue_id did ct p ho s) as [o s1]. specialize (IH s1).
  destruct (enqueue_each item ct p ho ids s1) as [[en sk] s2].
  destruct o; simpl; lia.
Qed.

Lemma fire_relay_set_soft r t ct s : soft s (fire_relay_set r t ct s).2.
Proof.
  unfold fire_relay_set. destruct (resolve_target_devices t s) as [[|i ids]|e]; auto.
  pose proof (enqueue_each_soft (fun _ cid => JStr cid) ct None false (i :: ids) s) as H.
  by destruct (enqueue_each _ _ _ _ _ _) as [[? ?] ?].
Qed.

Lemma fire_hold_off_soft r t s : soft s (fire_hold_off r t s).2.
Proof.
  unfold fire_hold_off. destruct (resolve_target_devices t s) as [[|i ids]|e]; auto.
  pose proof (enqueue_each_soft (fun did _ => did) "relay_off" None true (i :: ids) s) as H.
  by destruct (enqueue_each _ _ _ _ _ _) as [[? ?] ?].
Qed.

Lemma fire_cycle_soft r t a s : soft s (fire_cycle r t a s).2.
Proof.
  unfold fire_cycle. destruct (resolve_target_devices t s) as [[|i ids]|e]; auto.
  destruct (py_int _) as [off|e]; [|auto]. destruct (py_int _) as [hold|e]; [|auto].
  match goal with |- context [enqueue_each ?f ?ct ?p ?ho ?l ?s] =>
    pose proof (enqueue_each_soft f ct p ho l s) as H;
    destruct (enqueue_each f ct p ho l s) as [[? ?] ?] end.
  done.
Qed.

Lemma scene_relay_soft d v s : soft s (scene_relay d v s).2.
Proof.
  unfold scene_relay.
  repeat match goal with |- context [cq_enqueue ?d ?ct ?p false false ?s] =>
    pose proof (enqueue_soft d ct p false s); destruct (cq_enqueue d ct p false false s) end.
  repeat case_match; auto.
Qed.

Lemma scene_config_soft d v s : soft s (scene_config d v s).2.
Proof.
  unfold scene_config. destruct v as [| | | | | |[|kv l]]; auto.
  pose proof (enqueue_soft d "apply_config" (Some (kv :: l)) false s).
  by destruct (cq_enqueue _ _ _ _ _ _).
Qed.

Lemma scene_commands_soft d v c s : soft s (scene_commands d v c s).2.
Proof.
  unfold scene_commands. pose proof (scene_relay_soft d v s) as H1.
  destruct (scene_relay d v s) as [[c1|e] s1]; [|done].
  pose proof (scene_config_soft d c s1) as H2.
  destruct (scene_config d c s1) as [[c2|e] s2]; eauto using soft_trans.
Qed.

Lemma scene_loop_soft items : forall ap sk s, soft s (scene_loop items ap sk s).2.
Proof.
  induction items as [|it items IH]; intros ap sk s; cbn [scene_loop]; [auto|].
  destruct (or_dict it) as [| | | | | |d]; auto. case_match; [auto|].
  match goal with |- context [scene_commands ?d ?v ?c ?s] =>
    pose proof (scene_commands_soft d v c s) as H1;
    destruct (scene_commands d v c s) as [[cmds|e] s1] end;
    eauto using soft_trans.
Qed.

Lemma fire_scene_soft r a s : soft s (fire_scene r a s).2.
Proof.
  assert (Hrun : forall items (f : list json -> list json -> json),
    soft s (match scene_loop items [] [] s with
            | (Raise e, s') => (Raise e, s')
            | (Ret (ap, sk), s') => (Ret (f ap sk), s') end).2).
  { intros items f. pose proof (scene_loop_soft items [] [] s) as H.
    by destruct (scene_loop items [] [] s) as [[[ap sk]|e] s']. }
  unfold fire_scene. destruct (truthy _).
  - destruct (scene_items _) as [[items|]|e]; auto.
  - destruct (py_iter _) as [items|e]; [|auto].
    apply (Hrun items (fun ap sk => JObj _)).
Qed.

Lemma guarded_dispatch_soft r a s : soft s (guarded_dispatch r a s).2.
Proof.
  assert (soft s (dispatch_one r a (or_dict (rc_target r)) s).2) as H.
  { unfold dispatch_one. destruct (or_dict a) as [| | | | | |d]; auto.
    repeat case_match; auto using fire_cycle_soft, fire_hold_off_soft, fire_relay_set_soft, fire_scene_soft. }
  unfold guarded_dispatch. by destruct (dispatch_one _ _ _ _) as [[d|e] s'].
Qed.
End actions.

(** ** Theorems *)
Section theorems.
Context {S : Type} `{CQ : CommandQueue S}.
Context (scenes : gmap string json) (py_repr : json -> string).

(** C30. The soft gate.  Whatever a rule's action, target and scene say (valid
    or not), firing it, as a plain rule or as a binding edge, queues no power
    command for a protected device, keeps the queue well formed and removes
    nothing from it. *)
Theorem watchdog_spares_protected_devices (r : rule) (leaf : json) (s : S) (d t : string) :
  cq_ok s -> cq_protected s d = true -> t ∈ POWER_TYPES ->
  cq_count (fire_action scenes py_repr r s).2 d t = cq_count s d t /\
  cq_count (apply_binding_action scenes py_repr r leaf s).2 d t = cq_count s d t /\
  cq_ok (fire_action scenes py_repr r s).2 /\
  cq_ok (apply_binding_action scenes py_repr r leaf s).2.
Proof.
  intros Hok Hp Ht.
  destruct (guarded_dispatch_soft scenes py_repr r (rc_action r) s Hok) as (Ha & _ & _ & _ & Ca).
  destruct (guarded_dispatch_soft scenes py_repr r leaf s Hok) as (Hb & _ & _ & _ & Cb).
  split_and!; auto.
Qed.

(** The occurrences of a device in a list of ids. *)
Definition occurrences (d : string) (l : list string) : nat := length (filter (fun x => x = d) l).

Lemma enqueue_each_exact item ct p ho ids : forall s, cq_ok s ->
  let '(en, sk, s') := enqueue_each item ct p ho ids s in
  cq_ok s' /\
  exists succ : list (string * string),
    en = (fun x => item (JStr x.1) x.2) <$> succ /\
    (JStr <$> succ.*1) `sublist_of` ids /\
    length succ + length sk = length ids /\
    forall d t, cq_count s' d t = cq_count s d t + if decide (t = ct) then occurrences d succ.*1 else 0.
Proof.
  induction ids as [|did ids IH]; intros s Hok; cbn [enqueue_each].
  { split; [done|]. exists []. split_and!; try done. intros d t. case_decide; cbn; lia. }
  destruct (enqueue_id did ct p ho s) as [o s1] eqn:E.
  assert (cq_ok s1 /\ match o with
    | Ret cid => exists d0, did = JStr d0 /\ forall d t, cq_count s1 d t =
        cq_count s d t + if decide (d = d0 /\ t = ct) then 1 else 0
    | Raise _ => cq_count s1 = cq_count s end) as [Hok1 H1].
  { destruct did as [| | | |d0| |]; unfold enqueue_id in E; simplify_eq; try by split.
    destruct o as [cid|e].
    - destruct (cq_enqueue_ret _ _ _ _ _ _ _ _ Hok E) as (? & ? & _). eauto.
    - destruct (cq_enqueue_raise _ _ _ _ _ _ _ _ E) as (? & _ & _ & ?).
      split; [by auto|done]. }
  specialize (IH s1 Hok1). destruct (enqueue_each item ct p ho ids s1) as [[en sk] s2].
  destruct IH as (Hok2 & succ & -> & Hsub & Hlen & Hc). destruct o as [cid|e].
  - destruct H1 as (d0 & -> & H1). split; [done|]. exists ((d0, cid) :: succ).
    split_and!; [done|by constructor|simpl; lia|]. intros d t. rewrite Hc, H1.
    unfold occurrences. cbn [fmap list_fmap fst]. rewrite filter_cons.
    repeat case_decide; simplify_eq; try naive_solver; simpl; lia.
  - split; [done|]. exists succ. split_and!; [done|by constructor|simpl; lia|].
    intros d t. by rewrite Hc, H1.
Qed.

(** The hold-off report tells the truth.  For a rule whose target resolves
    to devices, [_fire_hold_off] returns the list of devices it held, and the
    queue gained exactly one [relay_off] for each occurrence of a device in that
    list and nothing else; every other device of the target is in [skipped]. *)
Theorem fire_hold_off_report_exact (r : rule) (target : json) (s : S) (ids : list json) :
  cq_ok s -> resolve_target_devices target s = Ret ids -> ids <> [] ->
  exists held skipped s',
    fire_hold_off r target s =
      (Ret (JObj [("action", JStr "hold_off"); ("rule_id", JStr (rc_id r));
                  ("held", JList (JStr <$> held)); ("skipped", JList skipped)]), s') /\
    (JStr <$> held) `sublist_of` ids /\
    length held + length skipped = length ids /\
    forall d t, cq_count s' d t =
      cq_count s d t + if decide (t = "relay_off") then occurrences d held else 0.
Proof.
  intros Hok Hr Hne. unfold fire_hold_off. rewrite Hr. destruct ids as [|i ids]; [done|].
  pose proof (enqueue_each_exact (fun did _ => did) "relay_off" None true (i :: ids) s Hok) as H.
  destruct (enqueue_each _ _ _ _ _ _) as [[en sk] s'].
  destruct H as (_ & succ & -> & Hsub & Hlen & Hc).
  exists (succ.*1), sk, s'. split_and!; [by rewrite <- list_fmap_compose|done| |done].
  by rewrite length_fmap.
Qed.
End theorems.

(** ** Witnesses: a group of one free and one protected device, on the queue of
    [Commands] *)
Module Example.

Definition s0 : clocked := Clocked Commands.Example.h0 (fun n => Z.of_nat n) 0.

Definition cycle_rule : rule :=
  Rule (RuleConfig "wdr_1" "internet" None true JNull 3 2 60 300
          (JObj [("kind", JStr "group"); ("id", JStr "grp")])
          (JObj [("kind", JStr "cycle")]) JNull JNull)
       (RuleRuntime Armed 0 0 None None None).

#[local] Instance q : CommandQueue clocked := clocked_queue pretty.

Lemma watchdog_spares_protected_devices_witness :
  cq_protected s0 "dev_b" = true /\
  cq_count (fire_action ∅ (fun _ => empty_str) cycle_rule s0).2 "dev_b" "relay_cycle" = 0.
Proof.
  split; [reflexivity|].
  refine (proj1 (watchdog_spares_protected_devices ∅ (fun _ => empty_str) cycle_rule JNull s0
                   "dev_b" "relay_cycle" Commands.Example.h0_wf eq_refl _)).
  apply in_strs_spec. reflexivity.
Defined.

Lemma fire_hold_off_report_exact_witness :
  exists held skipped s',
    fire_hold_off cycle_rule (rc_target cycle_rule) s0 =
      (Ret (JObj [("action", JStr "hold_off"); ("rule_id", JStr "wdr_1");
                  ("held", JList (JStr <$> held)); ("skipped", JList skipped)]), s') /\
    length held + length skipped = 3.
Proof.
  destruct (fire_hold_off_report_exact (CQ:=q) cycle_rule (rc_target cycle_rule) s0
              [JStr "dev_a"; JStr "dev_b"; JStr "dev_gone"]
              Commands.Example.h0_wf eq_refl ltac:(discriminate))
    as (held & sk & s' & H1 & _ & H3 & _).
  exists held, sk, s'. split; [exact H1|exact H3].
Defined.
End Example.
