(* ===== verification/WatchdogState.v ===== *)
(** * Watchdog runtime ([app/services/watchdog_runtime/_state.py] and
    [__init__.py])

    The failure/recovery state machine of a rule, the level-triggered binding
    machine, and the tick that drives every due rule from one clock reading.
    The probe itself (network and sensor I/O) is an input of the tick. *)

From stdpp Require Import pretty.
From S2P Require Import Prelude EventBus Commands QueueInterface RuntimeFlags WatchdogActions.
Local Open Scope string_scope.
Local Open Scope list_scope.
Local Open Scope Z_scope.

(** A row of [watchdog_probe_events]. *)
Record probe_event := ProbeEvent {
  pe_rule_id : string;
  pe_at : time;
  pe_outcome : string;
  pe_details : json
}.

(** Calls into the notification and webhook services, which have sessions of
    their own and never raise into the tick. *)
Inductive notice :=
  | RuleFired (rule_id rule_name : string) (details : json) (site_id : option string)
  | EscalationWebhook (rule_id : string) (url : json) (rule_name : string) (details : json)
  | RuleEscalated (rule_id rule_name : string) (site_id : option string).

(** What a tick writes besides the rules: the event log of its own session, the
    command queue and the notices, both committed by sessions of their own. *)
Record world {S : Type} := World {
  w_events : list probe_event;
  w_queue : S;
  w_notices : list notice
}.
Arguments world : clear implicits.
Arguments World {S}.

(** [_rule_is_due]. *)
Definition rule_is_due (r : rule) (now : time) : bool :=
  match rt_last_probed_at r with
  | None => true
  | Some t => seconds (rc_window_seconds r) <=? now - t
  end.

(** [record_event]. *)
Definition record_event {S} (r : rule) (oc : string) (details : json) (at_ : time) (w : world S)
    : world S :=
  World (w_events w ++ [ProbeEvent (rc_id r) at_ oc (or_dict details)]) (w_queue w) (w_notices w).

(** Assignments to the runtime columns. *)
Definition with_runtime (r : rule) (f : rule_runtime -> rule_runtime) : rule :=
  Rule (r_config r) (f (r_runtime r)).
Definition set_probed (now : time) (rt : rule_runtime) : rule_runtime :=
  RuleRuntime (rt_status rt) (rt_failure_streak rt) (rt_recovery_streak rt) (Some now)
              (rt_last_action_at rt) (rt_last_outcome rt).
Definition set_outcome (oc : string) (rt : rule_runtime) : rule_runtime :=
  RuleRuntime (rt_status rt) (rt_failure_streak rt) (rt_recovery_streak rt)
              (rt_last_probed_at rt) (rt_last_action_at rt) (Some oc).
Definition set_streaks (fs rs : Z) (rt : rule_runtime) : rule_runtime :=
  RuleRuntime (rt_status rt) fs rs (rt_last_probed_at rt) (rt_last_action_at rt)
              (rt_last_outcome rt).
Definition set_status (st : rule_status) (rt : rule_runtime) : rule_runtime :=
  RuleRuntime st (rt_failure_streak rt) (rt_recovery_streak rt) (rt_last_probed_at rt)
              (rt_last_action_at rt) (rt_last_outcome rt).
Definition set_action_at (now : time) (rt : rule_runtime) : rule_runtime :=
  RuleRuntime (rt_status rt) (rt_failure_streak rt) (rt_recovery_streak rt)
              (rt_last_probed_at rt) (Some now) (rt_last_outcome rt).

Section machine.
Context {S : Type} `{CQ : CommandQueue S} `{Clock : IsoClock}.
Context (scenes : gmap string json) (py_repr : json -> string).
(** Did [send_escalation_webhook] raise? *)
Context (escalation_raises : string -> json -> bool).

(** One window of [maintenance_windows]: anything but an object with two
    readable instants is skipped. *)
Definition window_covers (now : time) (w : json) : bool :=
  match w with
  | JObj d =>
    match dict_get d "start", dict_get d "end" with
    | Some (JStr a), Some (JStr b) =>
      match fromisoformat a, fromisoformat b with
      | Some start, Some end_ => (start <=? now) && (now <=? end_)
      | _, _ => false
      end
    | _, _ => false
    end
  | _ => false
  end.

(** [_in_maintenance_window]. *)
Definition in_maintenance_window (r : rule) (now : time) : outcome bool :=
  if truthy (rc_maintenance_windows r)
  then ws ← py_iter (rc_maintenance_windows r); Ret (existsb (window_covers now) ws)
  else Ret false.

(** [_run_escalation_and_emit].  The emit is guarded; the read of
    [rule.escalation] is not. *)
Definition run_escalation_and_emit (r : rule) (fired : json) (w : world S)
    : outcome unit * world S :=
  let note n w := World (w_events w) (w_queue w) (w_notices w ++ [n]) in
  let w := note (RuleFired (rc_id r) (rc_name r) fired (rc_site_id r)) w in
  match jget (or_dict (rc_escalation r)) "kind" with
  | Raise e => (Raise e, w)
  | Ret kind =>
    match jget (or_dict (rc_escalation r)) "url" with
    | Raise e => (Raise e, w)
    | Ret url =>
      if jeqs kind "webhook" && truthy url then
        let w := note (EscalationWebhook (rc_id r) url (rc_name r) fired) w in
        if escalation_raises (rc_id r) url then (Ret tt, w)
        else (Ret tt, note (RuleEscalated (rc_id r) (rc_name r) (rc_site_id r)) w)
      else (Ret tt, w)
    end
  end.

(** The second half of [_binding_tick]: the edge the streaks assert, and its leaf
    action when the marker of that edge is not the last outcome. *)
Definition settle_binding (r : rule) (oc : string) (now : time) (w : world S)
    : outcome bool * rule * world S :=
  let edge := if Z.max 1 (rc_recovery_threshold r) <=? rt_recovery_streak r
              then Some "active"
              else if Z.max 1 (rc_failure_threshold r) <=? rt_failure_streak r
              then Some "cleared" else None in
  match edge with
  | None => (Ret false, with_runtime r (set_outcome (String.append "binding_settling:" oc)), w)
  | Some edge =>
    let marker := String.append "binding:" edge in
    if decide (rt_last_outcome r = Some marker) then (Ret false, r, w)
    else
      match jget (or_dict (rc_action r))
                 (if String.eqb edge "active" then "on_active" else "on_clear") with
      | Raise e => (Raise e, r, w)
      | Ret leaf =>
        let leaf := or_dict leaf in
        let '(res, q) := apply_binding_action scenes py_repr r leaf (w_queue w) in
        let w := World (w_events w) q (w_notices w) in
        match res with
        | Raise e => (Raise e, r, w)
        | Ret result =>
          let r := with_runtime r (fun rt =>
            set_status (if String.eqb edge "active" then Firing else Armed)
              (set_action_at now (set_outcome marker rt))) in
          match jget leaf "kind" with
          | Raise e => (Raise e, r, w)
          | Ret kind =>
            (Ret true, r,
             record_event r "binding_applied"
               (JObj [("edge", JStr edge); ("outcome", JStr oc);
                      ("leaf_action", kind); ("result", result)]) now w)
          end
        end
      end
  end.

(** [_binding_tick]. *)
Definition binding_tick (r : rule) (oc : string) (details : json) (now : time) (w : world S)
    : outcome bool * rule * world S :=
  let r := with_runtime r (set_probed now) in
  if String.eqb oc "success" then
    settle_binding (with_runtime r (set_streaks 0 (rt_recovery_streak r + 1))) oc now w
  else if String.eqb oc "failure" then
    settle_binding (with_runtime r (set_streaks (rt_failure_streak r + 1) 0)) oc now w
  else (Ret false, with_runtime r (set_outcome oc), w).

(** The cooldown gate. *)
Definition cooling_down (r : rule) (now : time) : bool :=
  match rt_last_action_at r with
  | Some t => now - t <? seconds (rc_cooldown_seconds r)
  | None => false
  end.

(** The last part of [_update_state_and_maybe_fire]: threshold crossed and not
    in cooldown. *)
Definition fire_rule (r : rule) (now : time) (w : world S) : outcome bool * rule * world S :=
  let '(res, q) := fire_action scenes py_repr r (w_queue w) in
  let w := World (w_events w) q (w_notices w) in
  match res with
  | Raise e => (Raise e, r, w)
  | Ret fired =>
    let r := with_runtime r (fun rt => set_action_at now (set_status Firing rt)) in
    let w := record_event r "action_fired" fired now w in
    match run_escalation_and_emit r fired w with
    | (Raise e, w) => (Raise e, r, w)
    | (Ret _, w) => (Ret true, r, w)
    end
  end.

(** [_update_state_and_maybe_fire]. *)
Definition update_state_and_maybe_fire (r : rule) (oc : string) (details : json) (now : time)
    (w : world S) : outcome bool * rule * world S :=
  match jget (or_dict (rc_action r)) "kind" with
  | Raise e => (Raise e, r, w)
  | Ret kind =>
    if jeqs kind "binding" then binding_tick r oc details now w
    else
      let r := with_runtime r (fun rt => set_outcome oc (set_probed now rt)) in
      if String.eqb oc "success" then
        if (0 <? rt_failure_streak r) || bool_decide (rt_status r = Firing) then
          let r := with_runtime r (set_streaks (rt_failure_streak r) (rt_recovery_streak r + 1)) in
          if rc_recovery_threshold r <=? rt_recovery_streak r then
            let r := with_runtime r (fun rt => set_status Armed (set_streaks 0 0 rt)) in
            (Ret false, r,
             record_event r "recovery"
               (JObj [("reason", JStr "recovery_threshold reached")]) now w)
          else (Ret false, r, w)
        else (Ret false, with_runtime r (set_streaks (rt_failure_streak r) 0), w)
      else if negb (String.eqb oc "failure") then (Ret false, r, w)
      else
        let r := with_runtime r (set_streaks (rt_failure_streak r + 1) 0) in
        if rt_failure_streak r <? rc_failure_threshold r then (Ret false, r, w)
        else if cooling_down r now then
          (Ret false, r,
           record_event r "cooldown_skip"
             (JObj [("failure_streak", JInt (rt_failure_streak r))]) now w)
        else fire_rule r now w
  end.

(** ** The tick ([watchdog_runtime/__init__.py]) *)

Record tick_stats := TickStats {
  st_considered : nat; st_probed : nat; st_fired : nat; st_errors : nat; st_in_window : nat
}.
Definition no_stats : tick_stats := TickStats 0 0 0 0 0.

(** [run_probe(rule)]: the outcome and details, or the exception it raised. *)
Context (run_probe : rule -> outcome (string * json)).

(** The query of the tick. *)
Definition selected (r : rule) : bool := rc_enabled r && negb (bool_decide (rt_status r = Disabled)).

(** The loop body for one selected rule. *)
Definition tick_rule (r : rule) (now : time) (w : world S) (st : tick_stats)
    : outcome tick_stats * rule * world S :=
  let '(TickStats c p f e i) := st in
  let c := Datatypes.S c in
  if negb (rule_is_due r now) then (Ret (TickStats c p f e i), r, w)
  else
    match in_maintenance_window r now with
    | Raise x => (Raise x, r, w)
    | Ret true =>
      let w := record_event r "maintenance_skip"
                 (JObj [("reason", JStr "rule maintenance window")]) now w in
      (Ret (TickStats c p f e (Datatypes.S i)),
       with_runtime r (fun rt => set_outcome "maintenance_skip" (set_probed now rt)), w)
    | Ret false =>
      let '(oc, details, p, e) :=
        match run_probe r with
        | Ret (oc, details) => (oc, details, Datatypes.S p, e)
        | Raise x => ("probe_error", JObj [("error", JStr (exn_str x))], p, Datatypes.S e)
        end in
      let w := record_event r oc details now w in
      match update_state_and_maybe_fire r oc details now w with
      | (Raise x, r, w) => (Raise x, r, w)
      | (Ret fired, r, w) => (Ret (TickStats c p (if fired then Datatypes.S f else f) e i), r, w)
      end
    end.

(** The loop over the table, in the order the query returns it; rows the query
    leaves out are not touched. *)
Fixpoint tick_loop (rules : list rule) (now : time) (w : world S) (st : tick_stats)
    : outcome tick_stats * list rule * world S :=
  match rules with
  | [] => (Ret st, [], w)
  | r :: rest =>
    if selected r then
      match tick_rule r now w st with
      | (Raise e, r, w) => (Raise e, r :: rest, w)
      | (Ret st, r, w) =>
        let '(o, rest, w) := tick_loop rest now w st in (o, r :: rest, w)
      end
    else let '(o, rest, w) := tick_loop rest now w st in (o, r :: rest, w)
  end.

Inductive tick_result :=
  | TickDisabled
  | TickMaintenance
  | TickDone (st : tick_stats).

(** [tick].  The loop runs in one session: when it raises, the rules and the
    event log roll back, while queued commands and notices, committed by
    sessions of their own, stay. *)
Definition tick (disabled : bool) (flags : flag_table) (now : time) (rules : list rule)
    (w : world S) : outcome tick_result * list rule * world S :=
  if disabled then (Ret TickDisabled, rules, w)
  else if is_maintenance_mode_active flags then (Ret TickMaintenance, rules, w)
  else
    match tick_loop rules now w no_stats with
    | (Raise e, _, w') => (Raise e, rules, World (w_events w) (w_queue w') (w_notices w'))
    | (Ret st, rules', w') => (Ret (TickDone st), rules', w')
    end.
End machine.

(** ** The abstract machine of a plain rule

    One evaluation of a rule whose action is not a binding, as a relation on
    its runtime columns: the constructors are the seven things that can happen,
    with the events they log. *)
Inductive plain_step (c : rule_config) (now : time) :
    string -> rule_runtime -> rule_runtime -> list string -> bool -> Prop :=
  | ps_healthy rt :
      rt_failure_streak rt <= 0 -> rt_status rt <> Firing ->
      plain_step c now "success" rt
        (RuleRuntime (rt_status rt) (rt_failure_streak rt) 0 (Some now)
                     (rt_last_action_at rt) (Some "success")) [] false
  | ps_recovering rt :
      0 < rt_failure_streak rt \/ rt_status rt = Firing ->
      rt_recovery_streak rt + 1 < rc_recovery_threshold c ->
      plain_step c now "success" rt
        (RuleRuntime (rt_status rt) (rt_failure_streak rt) (rt_recovery_streak rt + 1) (Some now)
                     (rt_last_action_at rt) (Some "success")) [] false
  | ps_recovered rt :
      0 < rt_failure_streak rt \/ rt_status rt = Firing ->
      rc_recovery_threshold c <= rt_recovery_streak rt + 1 ->
      plain_step c now "success" rt
        (RuleRuntime Armed 0 0 (Some now) (rt_last_action_at rt) (Some "success"))
        ["recovery"] false
  | ps_inconclusive rt oc :
      oc <> "success" -> oc <> "failure" ->
      plain_step c now oc rt
        (RuleRuntime (rt_status rt) (rt_failure_streak rt) (rt_recovery_streak rt) (Some now)
                     (rt_last_action_at rt) (Some oc)) [] false
  | ps_below rt :
      rt_failure_streak rt + 1 < rc_failure_threshold c ->
      plain_step c now "failure" rt
        (RuleRuntime (rt_status rt) (rt_failure_streak rt + 1) 0 (Some now)
                     (rt_last_action_at rt) (Some "failure")) [] false
  | ps_cooling rt t :
      rc_failure_threshold c <= rt_failure_streak rt + 1 ->
      rt_last_action_at rt = Some t -> now < t + seconds (rc_cooldown_seconds c) ->
      plain_step c now "failure" rt
        (RuleRuntime (rt_status rt) (rt_failure_streak rt + 1) 0 (Some now)
                     (rt_last_action_at rt) (Some "failure")) ["cooldown_skip"] false
  | ps_fire rt :
      rc_failure_threshold c <= rt_failure_streak rt + 1 ->
      (forall t, rt_last_action_at rt = Some t -> t + seconds (rc_cooldown_seconds c) <= now) ->
      plain_step c now "failure" rt
        (RuleRuntime Firing (rt_failure_streak rt + 1) 0 (Some now) (Some now)
                     (Some "failure")) ["action_fired"] true.

(** The rule's action is a binding (an unreadable action is not). *)
Definition is_binding (c : rule_config) : bool :=
  match jget (or_dict (rc_action c)) "kind" with Ret k => jeqs k "binding" | Raise _ => false end.

(** [e] is the event [oc] of rule [id] at [now]. *)
Definition event_is (id : string) (now : time) (oc : string) (e : probe_event) : Prop :=
  pe_rule_id e = id /\ pe_at e = now /\ pe_outcome e = oc.

Section machine_facts.
Context {S : Type} `{CQ : CommandQueue S} `{Clock : IsoClock}.
Context (scenes : gmap string json) (py_repr : json -> string).
Context (escalation_raises : string -> json -> bool).

#[local] Abbreviation update := (update_state_and_maybe_fire scenes py_repr escalation_raises).
#[local] Abbreviation fire := (fire_rule scenes py_repr escalation_raises).

Lemma escalation_events r d (w : world S) :
  w_events (run_escalation_and_emit escalation_raises r d w).2 = w_events w /\
  w_queue (run_escalation_and_emit escalation_raises r d w).2 = w_queue w.
Proof. unfold run_escalation_and_emit. repeat case_match; done. Qed.

Lemma fire_rule_facts r now (w : world S) o r' w' :
  fire r now w = (o, r', w') ->
  r_config r' = r_config r /\ w_queue w' = (fire_action scenes py_repr r (w_queue w)).2 /\
  (o = Ret true -> exists d,
    r_runtime r' = set_action_at now (set_status Firing (r_runtime r)) /\
    w_events w' = w_events w ++ [ProbeEvent (rc_id r) now "action_fired" d]) /\
  (forall b, o = Ret b -> b = true).
Proof.
  unfold fire_rule. destruct (fire_action _ _ r (w_queue w)) as [[fired|e] q]; cbn [snd].
  2: { intros [= <- <- <-]. by split_and!. }
  intros H. pose proof (escalation_events
    (with_runtime r (fun rt => set_action_at now (set_status Firing rt))) fired
    (record_event (with_runtime r (fun rt => set_action_at now (set_status Firing rt)))
       "action_fired" fired now (World (w_events w) q (w_notices w)))) as [He Hq].
  destruct (run_escalation_and_emit _ _ _ _) as [[u|e] w1]; simplify_eq; cbn [snd] in *.
  - split_and!; try done; [|by intros b [=]]. intros _. eexists. split; [done|]. by rewrite He.
  - by split_and!.
Qed.

(** Evaluating a plain rule is a step of the abstract machine, and the queue
    moves only when it fires. *)
Lemma update_plain (r : rule) oc details now (w : world S) b r' w' :
  is_binding r = false -> update r oc details now w = (Ret b, r', w') ->
  r_config r' = r_config r /\
  exists names new, plain_step r now oc r r' names b /\
    w_events w' = w_events w ++ new /\
    Forall2 (event_is (rc_id r) now) names new /\
    w_queue w' = (if b then (fire_action scenes py_repr r (w_queue w)).2 else w_queue w).
Proof.
  unfold is_binding, update_state_and_maybe_fire.
  destruct (jget _ _) as [kind|e]; [intros ->|done].
  destruct r as [c rt]. unfold with_runtime. cbn -[fire_rule].
  destruct (String.eqb_spec oc "success") as [->|Hs].
  { destruct (_ || _) eqn:E.
    - assert (0 < rt_failure_streak rt \/ rt_status rt = Firing) as Hor.
      { apply orb_prop in E as [E|E]; bool_to_prop; [by left|right].
        by apply bool_decide_eq_true in E. }
      case_match; intros; simplify_eq/=; bool_to_prop; (split; [done|]).
      + eexists ["recovery"], _. split_and!; [by apply ps_recovered|done|by repeat constructor|done].
      + eexists [], []. split_and!; [by apply ps_recovering|by rewrite app_nil_r|done|done].
    - intros; simplify_eq/=. apply orb_false_elim in E as [E1 E2]. bool_to_prop.
      apply bool_decide_eq_false in E2. split; [done|].
      eexists [], []. split_and!; [by apply ps_healthy|by rewrite app_nil_r|done|done]. }
  destruct (String.eqb_spec oc "failure") as [->|Hf]; cbn -[fire_rule].
  2: { intros; simplify_eq/=. split; [done|].
       eexists [], []. split_and!; [by apply ps_inconclusive|by rewrite app_nil_r|done|done]. }
  destruct (Z.ltb_spec (rt_failure_streak rt + 1) (rc_failure_threshold c)).
  { intros; simplify_eq/=. split; [done|].
    eexists [], []. split_and!; [by apply ps_below|by rewrite app_nil_r|done|done]. }
  destruct (cooling_down _ _) eqn:Ec; unfold cooling_down in Ec; cbn in Ec.
  { destruct (rt_last_action_at rt) as [t|] eqn:Et; [|done]. intros; simplify_eq/=. bool_to_prop.
    split; [done|]. eexists ["cooldown_skip"], _.
    split_and!; [apply (ps_cooling c now rt t); [done|done|lia]|done|by repeat constructor|done]. }
  intros Hfire. destruct (fire_rule_facts _ _ _ _ _ _ Hfire) as (Hc & Hq & Ht & Hb).
  assert (b = true) as -> by eauto. destruct (Ht eq_refl) as (d & Hrt & Hev).
  split; [done|]. rewrite Hrt. eexists ["action_fired"], _.
  split_and!; [|exact Hev|by repeat constructor|exact Hq].
  apply (ps_fire c now rt); [done|]. intros t Et. rewrite Et in Ec. bool_to_prop. lia.
Qed.
End machine_facts.

(** ** Invariants of the log over any history of ticks *)

Definition rule_id (r : rule) : string := rc_id r.

(** The instants at which rule [id] fired. *)
Definition fire_times (id : string) (evs : list probe_event) : list time :=
  pe_at <$> filter (fun e => pe_rule_id e = id /\ pe_outcome e = "action_fired") evs.

(** The failures of rule [id] logged since its last recovery. *)
Definition count_failure (id : string) (n : Z) (e : probe_event) : Z :=
  if negb (String.eqb (pe_rule_id e) id) then n
  else if String.eqb (pe_outcome e) "failure" then n + 1
  else if String.eqb (pe_outcome e) "recovery" then 0 else n.
Definition failures_since_recovery (id : string) (evs : list probe_event) : Z :=
  foldl (count_failure id) 0 evs.

(** What [run_probe] returns when it returns. *)
Definition probe_sound (run_probe : rule -> outcome (string * json)) : Prop :=
  forall r oc d, run_probe r = Ret (oc, d) -> oc = "success" \/ oc = "failure".

Section histories.
Context {S : Type} `{CQ : CommandQueue S} `{Clock : IsoClock}.

(** One step of the hub seen by the watchdog: a tick, whatever the environment,
    the flags, the scenes, the probe results and the clock; or anything another
    component does to the queue. *)
Inductive wd_step : list rule * world S -> list rule * world S -> Prop :=
  | wd_tick scenes py_repr esc probe disabled flags now rules w o rules' w' :
      probe_sound probe ->
      tick scenes py_repr esc probe disabled flags now rules w = (o, rules', w') ->
      wd_step (rules, w) (rules', w')
  | wd_queue rules w q :
      wd_step (rules, w) (rules, World (w_events w) q (w_notices w)).

Section frame.
Context (scenes : gmap string json) (py_repr : json -> string).
Context (esc : string -> json -> bool) (probe : rule -> outcome (string * json)).

(** What a binding evaluation leaves in the rule and the log. *)
Lemma binding_tick_frame r oc details now (w : world S) o r' w' :
  binding_tick scenes py_repr r oc details now w = (o, r', w') ->
  r_config r' = r_config r /\ exists new, w_events w' = w_events w ++ new /\
    Forall (fun e => pe_rule_id e = rc_id r /\ pe_outcome e = "binding_applied") new.
Proof.
  assert (Hnil : exists new, w_events w = w_events w ++ new /\
    Forall (fun e => pe_rule_id e = rc_id r /\ pe_outcome e = "binding_applied") new).
  { exists []. by rewrite app_nil_r. }
  unfold binding_tick, settle_binding, with_runtime, record_event. cbn -[apply_binding_action].
  repeat case_match; intros; simplify_eq/=; (split; [done|]); try done.
  all: eexists [_]; (split; [done|]); repeat constructor.
Qed.

Lemma update_frame r oc details now (w : world S) b r' w' :
  update_state_and_maybe_fire scenes py_repr esc r oc details now w = (Ret b, r', w') ->
  r_config r' = r_config r /\ exists new, w_events w' = w_events w ++ new /\
    Forall (fun e => pe_rule_id e = rc_id r /\
                     (is_binding r = true -> pe_outcome e = "binding_applied")) new.
Proof.
  intros H. destruct (is_binding r) eqn:Hb.
  - unfold is_binding in Hb. unfold update_state_and_maybe_fire in H.
    destruct (jget _ _) as [k|]; [|done]. rewrite Hb in H.
    apply binding_tick_frame in H as (Hc & new & He & Hn). split; [done|].
    exists new. split; [done|]. eapply Forall_impl; [exact Hn|]. naive_solver.
  - destruct (update_plain _ _ _ _ _ _ _ _ _ _ _ Hb H) as (Hc & names & new & _ & He & Hn & _).
    split; [done|]. exists new. split; [done|].
    clear He H. induction Hn as [|? ? ? ? []]; constructor; [by split|done].
Qed.

(** A tick of one rule logs events of that rule only. *)
Lemma tick_rule_frame r now (w : world S) st st' r' w' :
  tick_rule scenes py_repr esc probe r now w st = (Ret st', r', w') ->
  r_config r' = r_config r /\ exists new, w_events w' = w_events w ++ new /\
    Forall (fun e => pe_rule_id e = rc_id r) new.
Proof.
  unfold tick_rule. destruct st as [c p f e i].
  destruct (negb _).
  { intros; simplify_eq. split; [done|]. exists []. by rewrite app_nil_r. }
  destruct (in_maintenance_window r now) as [[]|x]; [| |done].
  { intros; simplify_eq/=. split; [done|]. eexists [_]. split; [done|]. by repeat constructor. }
  set (pr := match probe r with Ret _ => _ | Raise _ => _ end).
  destruct pr as [[[oc details] p'] e'].
  destruct (update_state_and_maybe_fire _ _ _ _ _ _ _ _) as [[[b|x] r1] w1] eqn:E; [|done].
  intros; simplify_eq. apply update_frame in E as (Hc & new & He & Hn).
  split; [done|]. exists (ProbeEvent (rc_id r) now oc (or_dict details) :: new).
  rewrite He. cbn. split; [by rewrite <- app_assoc|]. constructor; [done|].
  eapply Forall_impl; [exact Hn|]. naive_solver.
Qed.

Lemma tick_loop_frame rules now : forall (w : world S) st st' rules' w',
  tick_loop scenes py_repr esc probe rules now w st = (Ret st', rules', w') ->
  r_config <$> rules' = r_config <$> rules /\
  exists new, w_events w' = w_events w ++ new /\
    Forall (fun e => pe_rule_id e ∈ rule_id <$> rules) new.
Proof.
  induction rules as [|r rest IH]; intros w st st' rules' w'; cbn [tick_loop].
  { intros; simplify_eq. split; [done|]. exists []. by rewrite app_nil_r. }
  destruct (selected r).
  - destruct (tick_rule _ _ _ _ r now w st) as [[[st1|x] r1] w1] eqn:E1; [|done].
    destruct (tick_loop _ _ _ _ rest now w1 st1) as [[o rest'] w2] eqn:E2.
    intros; simplify_eq. apply tick_rule_frame in E1 as (Hc & n1 & He1 & Hn1).
    apply IH in E2 as (Hcs & n2 & He2 & Hn2). cbn. split; [congruence|].
    exists (n1 ++ n2). rewrite He2, He1, app_assoc. split; [done|]. apply Forall_app. split.
    + eapply Forall_impl; [exact Hn1|]. cbn. intros e ->. left.
    + eapply Forall_impl; [exact Hn2|]. cbn. intros e He. by right.
  - destruct (tick_loop _ _ _ _ rest now w st) as [[o rest'] w2] eqn:E2.
    intros; simplify_eq. apply IH in E2 as (Hcs & n2 & He2 & Hn2). cbn. split; [congruence|].
    exists n2. split; [done|]. eapply Forall_impl; [exact Hn2|]. cbn. intros e He. by right.
Qed.
End frame.

(** An invariant of one rule and the log, stable under the events of other
    rules and preserved by the rule's own tick, is an invariant of the hub. *)
Section invariant.
Context (I : rule -> list probe_event -> Prop).
Context (I_other : forall (r : rule) evs new,
  Forall (fun e => pe_rule_id e <> rc_id r) new -> I r evs -> I r (evs ++ new)).
Context (I_step : forall scenes py_repr esc probe (r : rule) now (w : world S) st st' r' w',
  probe_sound probe -> I r (w_events w) ->
  tick_rule scenes py_repr esc probe r now w st = (Ret st', r', w') -> I r' (w_events w')).

Lemma tick_loop_invariant scenes py_repr esc probe rules now :
  probe_sound probe -> forall (w : world S) st st' rules' w',
  NoDup (rule_id <$> rules) -> Forall (fun r => I r (w_events w)) rules ->
  tick_loop scenes py_repr esc probe rules now w st = (Ret st', rules', w') ->
  Forall (fun r => I r (w_events w')) rules'.
Proof.
  intros Hp. induction rules as [|r rest IH]; intros w st st' rules' w' Hnd HI; cbn [tick_loop].
  { intros; simplify_eq. constructor. }
  apply NoDup_cons in Hnd as [Hni Hnd]. apply Forall_cons in HI as [HIr HI].
  assert (Hhead : forall r1 w1 w2 st1 st2 rest', rule_id r1 = rule_id r -> I r1 (w_events w1) ->
    tick_loop scenes py_repr esc probe rest now w1 st1 = (Ret st2, rest', w2) ->
    I r1 (w_events w2)).
  { intros r1 w1 w2 st1 st2 rest' Hid HI1 E. apply tick_loop_frame in E as (_ & new & -> & Hn).
    apply I_other; [|done]. eapply Forall_impl; [exact Hn|].
    cbn. intros e He Heq. apply Hni. by rewrite <- Hid; unfold rule_id at 1; rewrite <- Heq. }
  destruct (selected r).
  - destruct (tick_rule _ _ _ _ r now w st) as [[[st1|x] r1] w1] eqn:E1; [|done].
    destruct (tick_loop _ _ _ _ rest now w1 st1) as [[o rest'] w2] eqn:E2.
    intros; simplify_eq. pose proof (tick_rule_frame _ _ _ _ _ _ _ _ _ _ _ E1) as (Hc & n1 & He1 & Hn1).
    constructor.
    + eapply Hhead; [by unfold rule_id; rewrite Hc|by eapply I_step|done].
    + eapply IH; [done| |done]. rewrite He1. apply Forall_forall. intros x Hx.
      apply I_other; [|by eapply Forall_forall in HI].
      eapply Forall_impl; [exact Hn1|]. cbn. intros e He Heq. apply Hni.
      apply list_elem_of_fmap. exists x. split; [|done]. unfold rule_id. congruence.
  - destruct (tick_loop _ _ _ _ rest now w st) as [[o rest'] w2] eqn:E2.
    intros; simplify_eq. constructor; [by eapply Hhead|by eapply IH].
Qed.

Lemma wd_history_invariant rules w rules' w' :
  rtc wd_step (rules, w) (rules', w') ->
  NoDup (rule_id <$> rules) -> Forall (fun r => I r (w_events w)) rules ->
  r_config <$> rules' = r_config <$> rules /\ Forall (fun r => I r (w_events w')) rules'.
Proof.
  intros H. remember (rules, w) as x eqn:Hx. remember (rules', w') as y eqn:Hy.
  revert rules w Hx. induction H as [|x z y Hstep _ IH]; intros rules w ->; [by simplify_eq|].
  intros Hnd HI. destruct z as [rules1 w1].
  assert (r_config <$> rules1 = r_config <$> rules /\ Forall (fun r => I r (w_events w1)) rules1)
    as [Hc HI1].
  { inversion Hstep as [sc pr esc probe dis flags now ? ? o ? ? Hp Ht|]; subst; [|done].
    unfold tick in Ht. destruct dis; [by simplify_eq|].
    destruct (is_maintenance_mode_active flags); [by simplify_eq|].
    destruct (tick_loop _ _ _ _ _ _ _ _) as [[[st|e] rs] w2] eqn:E; simplify_eq; [|done].
    split; [by apply tick_loop_frame in E as [? _]|by eapply tick_loop_invariant]. }
  assert (NoDup (rule_id <$> rules1)) as Hnd1.
  { replace (rule_id <$> rules1) with (rc_id <$> (r_config <$> rules1))
      by (by rewrite <- list_fmap_compose). by rewrite Hc, <- list_fmap_compose. }
  destruct (IH Hy rules1 w1 eq_refl Hnd1 HI1) as [Hc' ?]. split; [congruence|done].
Qed.
End invariant.
End histories.

(** ** The two log invariants *)

Definition spaced (d : Z) : list time -> Prop := Sorted (fun a b => a + d <= b).

Lemma spaced_snoc d l t :
  spaced d l -> (forall a, last l = Some a -> a + d <= t) -> spaced d (l ++ [t]).
Proof.
  induction 1 as [|a l Hs IH Hh]; intros Hl; cbn; [by repeat constructor|].
  constructor.
  - apply IH. intros b Hb. apply Hl. destruct l; [done|exact Hb].
  - destruct l as [|b l]; cbn; constructor; [by apply Hl|]. by inversion Hh.
Qed.

Lemma fire_times_app id a b : fire_times id (a ++ b) = fire_times id a ++ fire_times id b.
Proof. unfold fire_times. by rewrite filter_app, fmap_app. Qed.

Lemma fire_times_none id evs :
  Forall (fun e => pe_rule_id e = id -> pe_outcome e <> "action_fired") evs ->
  fire_times id evs = [].
Proof.
  unfold fire_times. induction 1 as [|e evs He _ IH]; [done|].
  rewrite filter_cons_False by naive_solver. done.
Qed.

Lemma failures_app id a b :
  failures_since_recovery id (a ++ b) = foldl (count_failure id) (failures_since_recovery id a) b.
Proof. unfold failures_since_recovery. by rewrite foldl_app. Qed.

Lemma failures_none id n evs :
  Forall (fun e => pe_rule_id e = id -> pe_outcome e <> "failure" /\ pe_outcome e <> "recovery") evs ->
  foldl (count_failure id) n evs = n.
Proof.
  induction 1 as [|e evs He _ IH]; [done|]. cbn. unfold count_failure at 2.
  destruct (String.eqb_spec (pe_rule_id e) id) as [Hid|]; [|done]. cbn.
  destruct (He Hid). destruct (String.eqb_spec (pe_outcome e) "failure"); [done|].
  by destruct (String.eqb_spec (pe_outcome e) "recovery").
Qed.

(** A rule's fires are spaced by its cooldown, and the last one is where the
    rule remembers it. *)
Definition cooled (r : rule) (evs : list probe_event) : Prop :=
  is_binding r = false ->
  spaced (seconds (rc_cooldown_seconds r)) (fire_times (rc_id r) evs) /\
  (forall t, last (fire_times (rc_id r) evs) = Some t -> rt_last_action_at r = Some t).

(** The streak column is the number of failures logged since the last
    recovery, and every fire in the log came after enough of them. *)
Definition counted (r : rule) (evs : list probe_event) : Prop :=
  is_binding r = false ->
  rt_failure_streak r = failures_since_recovery (rc_id r) evs /\
  (forall pre e post, evs = pre ++ e :: post ->
     pe_rule_id e = rc_id r -> pe_outcome e = "action_fired" ->
     rc_failure_threshold r <= failures_since_recovery (rc_id r) pre).

Lemma cooled_other (r : rule) evs new :
  Forall (fun e => pe_rule_id e <> rc_id r) new -> cooled r evs -> cooled r (evs ++ new).
Proof.
  intros Hn HI Hb. rewrite fire_times_app, (fire_times_none _ new), app_nil_r; [by apply HI|].
  eapply Forall_impl; [exact Hn|]. naive_solver.
Qed.

Lemma app_cons_split {A} (l1 l2 pre post : list A) e :
  l1 ++ l2 = pre ++ e :: post ->
  (exists p, l1 = pre ++ e :: p) \/ (exists m, l2 = m ++ e :: post /\ pre = l1 ++ m).
Proof.
  revert pre. induction l1 as [|a l1 IH]; intros pre H; cbn in *; [right; by exists pre|].
  destruct pre as [|b pre]; injection H as -> H; [left; by exists l1|].
  apply IH in H as [[p ->]|(m & -> & ->)]; [left|right]; eauto.
Qed.

Lemma counted_other (r : rule) evs new :
  Forall (fun e => pe_rule_id e <> rc_id r) new -> counted r evs -> counted r (evs ++ new).
Proof.
  intros Hn HI Hb. destruct (HI Hb) as [Hs Hf]. split.
  - rewrite failures_app, failures_none; [done|]. eapply Forall_impl; [exact Hn|]. naive_solver.
  - intros pre e post Heq Hid Hoc. apply app_cons_split in Heq as [[p ->]|(m & -> & ->)].
    + by eapply Hf.
    + apply Forall_app in Hn as [_ Hn]. apply Forall_cons in Hn as [? _]. done.
Qed.

Lemma fire_times_one id t d : fire_times id [ProbeEvent id t "action_fired" d] = [t].
Proof. unfold fire_times. by rewrite filter_cons_True. Qed.

Lemma quiet_fires id now names new :
  Forall2 (event_is id now) names new -> in_strs "action_fired" names = false ->
  fire_times id new = [].
Proof.
  intros Hn Hq. apply fire_times_none. revert Hq.
  induction Hn as [|n e names new (Hi & Ha & Ho) Hn IH]; intros Hq; [done|].
  rewrite in_strs_cons in Hq. bool_to_prop.
  constructor; [intros _; congruence|by apply IH].
Qed.

Lemma quiet_failures id now names new n :
  Forall2 (event_is id now) names new ->
  in_strs "failure" names || in_strs "recovery" names = false ->
  foldl (count_failure id) n new = n.
Proof.
  intros Hn Hq. apply failures_none. revert Hq.
  induction Hn as [|m e names new (Hi & Ha & Ho) Hn IH]; intros Hq; [done|].
  rewrite !in_strs_cons in Hq. bool_to_prop.
  constructor; [intros _; split; congruence|apply IH]. by apply orb_false_intro.
Qed.

Section log_invariants.
Context {S : Type} `{CQ : CommandQueue S} `{Clock : IsoClock}.

(** The three ways a tick leaves a plain rule: not due, skipped, evaluated. *)
Lemma tick_rule_plain scenes py_repr esc probe (r : rule) now (w : world S) st st' r' w' :
  probe_sound probe -> is_binding r = false ->
  tick_rule scenes py_repr esc probe r now w st = (Ret st', r', w') ->
  r_config r' = r_config r /\
  ((r' = r /\ w' = w) \/
   (rt_failure_streak r' = rt_failure_streak r /\ rt_last_action_at r' = rt_last_action_at r /\
    exists d, w_events w' = w_events w ++ [ProbeEvent (rc_id r) now "maintenance_skip" d]) \/
   (exists oc d names new b, oc ∈ ["success"; "failure"; "probe_error"] /\
     plain_step r now oc r r' names b /\
     w_events w' = w_events w ++ ProbeEvent (rc_id r) now oc d :: new /\
     Forall2 (event_is (rc_id r) now) names new)).
Proof.
  intros Hp Hb. unfold tick_rule. destruct st as [c p f e i].
  destruct (negb _); [intros; simplify_eq; auto|].
  destruct (in_maintenance_window r now) as [[]|x]; [| |done].
  { intros; simplify_eq/=. split; [done|]. right; left. split_and!; [done|done|by eexists]. }
  set (pr := match probe r with Ret _ => _ | Raise _ => _ end).
  assert (pr.1.1.1 ∈ ["success"; "failure"; "probe_error"]) as Hoc.
  { unfold pr. destruct (probe r) as [[oc d]|x] eqn:E; [|set_solver].
    apply Hp in E as [->| ->]; set_solver. }
  destruct pr as [[[oc details] p'] e']. cbn in Hoc.
  destruct (update_state_and_maybe_fire _ _ _ _ _ _ _ _) as [[[b|x] r1] w1] eqn:E; [|done].
  intros; simplify_eq.
  apply update_plain in E as (Hc & names & new & Hstep & He & Hn & _); [|done].
  split; [done|]. right; right. exists oc, (or_dict details), names, new, b.
  split_and!; [done|done| |done]. rewrite He. cbn. by rewrite <- app_assoc.
Qed.

Lemma cooled_step scenes py_repr esc probe (r : rule) now (w : world S) st st' r' w' :
  probe_sound probe -> cooled r (w_events w) ->
  tick_rule scenes py_repr esc probe r now w st = (Ret st', r', w') -> cooled r' (w_events w').
Proof.
  intros Hp HI E Hb'.
  assert (is_binding r = false) as Hb.
  { apply tick_rule_frame in E as [Hc _]. by rewrite <- Hc. }
  apply tick_rule_plain in E as (Hc & H); [|done..]. rewrite Hc.
  destruct (HI Hb) as [Hs Hl].
  destruct H as [[-> ->]|[(_ & Hla & d & ->)|(oc & d & names & new & b & Hoc & Hst & -> & Hn)]].
  - done.
  - rewrite fire_times_app, (fire_times_none _ [_]), app_nil_r by (by repeat constructor).
    rewrite Hla. auto.
  - replace (w_events w ++ _) with ((w_events w ++ [ProbeEvent (rc_id r) now oc d]) ++ new)
      by (by rewrite <- app_assoc).
    rewrite !fire_times_app, (fire_times_none _ [_]), app_nil_r.
    2: { constructor; [|done]. cbn. intros _ ->. set_solver. }
    assert (Hquiet : in_strs "action_fired" names = false -> fire_times (rc_id r) new = [])
      by eauto using quiet_fires.
    destruct r as [c rt], r' as [c' rt']. cbn in *. subst c'.
    inversion Hst as [| | | | | |? Hth Hcd]; subst.
    1-6: rewrite (Hquiet eq_refl), app_nil_r; by split.
    inversion Hn as [|x1 y1 l1 l2 He Hrest]; subst. inversion Hrest; subst.
    destruct He as (Hid & Hat & Hof). destruct y1 as [i1 a1 o1 d1].
    cbn [pe_rule_id pe_at pe_outcome] in *. subst.
    rewrite fire_times_one. split.
    + apply spaced_snoc; [done|]. auto.
    + intros t. rewrite last_snoc. by intros [= <-].
Qed.

(** The first new event of an evaluation, and the effect of the whole on the
    count. *)
Lemma plain_step_count (c : rule_config) now oc rt rt' names b new n d :
  plain_step c now oc rt rt' names b -> oc ∈ ["success"; "failure"; "probe_error"] ->
  Forall2 (event_is (rc_id c) now) names new -> rt_failure_streak rt = n ->
  rt_failure_streak rt' =
    foldl (count_failure (rc_id c)) n (ProbeEvent (rc_id c) now oc d :: new).
Proof.
  intros Hst Hoc Hn <-. cbn [foldl].
  set (n1 := count_failure _ _ (ProbeEvent _ now oc d)).
  assert (n1 = if String.eqb oc "failure" then rt_failure_streak rt + 1
               else rt_failure_streak rt) as ->.
  { unfold n1, count_failure. cbn [pe_rule_id pe_outcome]. rewrite String.eqb_refl. cbn [negb].
    destruct (String.eqb_spec oc "failure"); [done|].
    destruct (String.eqb_spec oc "recovery") as [->|]; [set_solver|done]. }
  inversion Hst as [| | |? ? Hns Hnf| | |]; subst; cbn.
  3: { inversion Hn as [|? e ? ? (He1 & _ & He2) Hr]; subst. inversion Hr; subst. cbn.
       unfold count_failure. by rewrite He1, He2, String.eqb_refl. }
  3: destruct (String.eqb_spec oc "failure"); [done|].
  all: by rewrite (quiet_failures _ _ _ _ _ Hn eq_refl).
Qed.

Lemma plain_step_fired_new (c : rule_config) now oc rt rt' names b new pre e post :
  plain_step c now oc rt rt' names b -> Forall2 (event_is (rc_id c) now) names new ->
  new = pre ++ e :: post -> pe_outcome e = "action_fired" ->
  pre = [] /\ oc = "failure" /\ rc_failure_threshold c <= rt_failure_streak rt + 1.
Proof.
  intros Hst Hn -> Ho. inversion Hst; subst.
  1-6: exfalso; apply Forall2_app_inv_r in Hn as (n1 & n2 & _ & Hn2 & Heq);
       inversion Hn2 as [|m ? n3 ? (_ & _ & Hm)]; subst;
       destruct n1 as [|? [|]]; simplify_eq/=; congruence.
  split; [|done]. apply Forall2_length in Hn. rewrite length_app in Hn. cbn in Hn.
  destruct pre; [done|cbn in Hn; lia].
Qed.

Lemma counted_step scenes py_repr esc probe (r : rule) now (w : world S) st st' r' w' :
  probe_sound probe -> counted r (w_events w) ->
  tick_rule scenes py_repr esc probe r now w st = (Ret st', r', w') -> counted r' (w_events w').
Proof.
  intros Hp HI E Hb'.
  assert (is_binding r = false) as Hb.
  { apply tick_rule_frame in E as [Hc _]. by rewrite <- Hc. }
  apply tick_rule_plain in E as (Hc & H); [|done..]. rewrite Hc.
  destruct (HI Hb) as [Hs Hf].
  destruct H as [[-> ->]|[(Hfs & _ & d & ->)|(oc & d & names & new & b & Hoc & Hst & -> & Hn)]].
  - done.
  - split.
    + rewrite failures_app, failures_none by (by repeat constructor). congruence.
    + intros pre e post Heq Hid Ho. apply app_cons_split in Heq as [[p Heq]|(m & Hm & ->)].
      * by eapply Hf.
      * destruct m as [|? [|]]; simplify_eq/=.
  - split.
    + rewrite failures_app. by eapply plain_step_count.
    + intros pre e post Heq Hid Ho. apply app_cons_split in Heq as [[p Heq]|(m & Hm & ->)].
      * by eapply Hf.
      * destruct m as [|e0 m]; injection Hm as <- Hm; [cbn in Ho; subst oc; set_solver|].
        destruct (plain_step_fired_new _ _ _ _ _ _ _ _ _ _ _ Hst Hn Hm Ho) as (-> & -> & Hth).
        rewrite failures_app. cbn [foldl]. unfold count_failure. cbn [pe_rule_id pe_outcome].
        rewrite String.eqb_refl. cbn. lia.
Qed.
End log_invariants.

(** ** The queue across a tick *)

Section queue_facts.
Context {S : Type} `{CQ : CommandQueue S} `{Clock : IsoClock}.
Context (scenes : gmap string json) (py_repr : json -> string).
Context (esc : string -> json -> bool) (probe : rule -> outcome (string * json)).

Lemma fire_action_soft r (s : S) : soft s (fire_action scenes py_repr r s).2.
Proof. apply guarded_dispatch_soft. Qed.

Lemma binding_tick_soft r oc details now (w : world S) o r' w' :
  binding_tick scenes py_repr r oc details now w = (o, r', w') -> soft (w_queue w) (w_queue w').
Proof.
  unfold binding_tick, settle_binding, with_runtime, record_event, apply_binding_action. cbn -[guarded_dispatch].
  repeat match goal with
  | |- context [guarded_dispatch ?a ?b ?r ?l ?s] =>
    pose proof (guarded_dispatch_soft a b r l s); destruct (guarded_dispatch a b r l s)
  | |- _ => case_match
  end; intros; simplify_eq/=; auto using soft_refl.
Qed.

Lemma update_soft r oc details now (w : world S) o r' w' :
  update_state_and_maybe_fire scenes py_repr esc r oc details now w = (o, r', w') ->
  soft (w_queue w) (w_queue w').
Proof.
  unfold update_state_and_maybe_fire.
  destruct (jget _ _) as [k|e]; [|intros; simplify_eq; apply soft_refl].
  destruct (jeqs k "binding"); [apply binding_tick_soft|]. cbv zeta.
  destruct (String.eqb oc "success").
  { repeat case_match; intros; simplify_eq/=; apply soft_refl. }
  destruct (negb _); [intros; simplify_eq/=; apply soft_refl|].
  destruct (_ <? _); [intros; simplify_eq/=; apply soft_refl|].
  destruct (cooling_down _ _); [intros; simplify_eq/=; apply soft_refl|].
  intros Hfire. apply fire_rule_facts in Hfire as (_ & -> & _). apply fire_action_soft.
Qed.

Lemma tick_rule_soft r now (w : world S) st o r' w' :
  tick_rule scenes py_repr esc probe r now w st = (o, r', w') -> soft (w_queue w) (w_queue w').
Proof.
  unfold tick_rule. destruct st as [c p f e i].
  destruct (negb _); [intros; simplify_eq; apply soft_refl|].
  destruct (in_maintenance_window r now) as [[]|x];
    [intros; simplify_eq; apply soft_refl| |intros; simplify_eq; apply soft_refl].
  set (pr := match probe r with Ret _ => _ | Raise _ => _ end).
  destruct pr as [[[oc details] p'] e'].
  destruct (update_state_and_maybe_fire _ _ _ _ _ _ _ _) as [[o1 r1] w1] eqn:E.
  apply update_soft in E. destruct o1; intros; by simplify_eq.
Qed.

Lemma tick_loop_soft rules now : forall (w : world S) st o rules' w',
  tick_loop scenes py_repr esc probe rules now w st = (o, rules', w') ->
  soft (w_queue w) (w_queue w').
Proof.
  induction rules as [|r rest IH]; intros w st o rules' w'; cbn [tick_loop].
  { intros; simplify_eq. apply soft_refl. }
  destruct (selected r).
  - destruct (tick_rule _ _ _ _ r now w st) as [[o1 r1] w1] eqn:E1.
    apply tick_rule_soft in E1. destruct o1; [|by intros; simplify_eq].
    destruct (tick_loop _ _ _ _ rest now w1 a) as [[o2 rest'] w2] eqn:E2.
    apply IH in E2. intros; simplify_eq. by eapply soft_trans.
  - destruct (tick_loop _ _ _ _ rest now w st) as [[o2 rest'] w2] eqn:E2.
    apply IH in E2. by intros; simplify_eq.
Qed.

Lemma tick_soft disabled flags now rules (w : world S) o rules' w' :
  tick scenes py_repr esc probe disabled flags now rules w = (o, rules', w') ->
  soft (w_queue w) (w_queue w').
Proof.
  unfold tick. destruct disabled; [intros; simplify_eq; apply soft_refl|].
  destruct (is_maintenance_mode_active flags); [intros; simplify_eq; apply soft_refl|].
  destruct (tick_loop _ _ _ _ _ _ _ _) as [[o1 rs] w1] eqn:E. apply tick_loop_soft in E.
  destruct o1; intros; by simplify_eq.
Qed.

(** A rule that is not selected or not due leaves the tick as it entered. *)
Lemma tick_loop_idle rules now i r : forall (w : world S) st o rules' w',
  tick_loop scenes py_repr esc probe rules now w st = (o, rules', w') ->
  rules !! i = Some r -> selected r && rule_is_due r now = false -> rules' !! i = Some r.
Proof.
  revert i. induction rules as [|r0 rest IH]; intros i w st o rules' w'; cbn [tick_loop]; [done|].
  assert (Hskip : forall w st o rest' w', i <> 0%nat ->
    tick_loop scenes py_repr esc probe rest now w st = (o, rest', w') ->
    (r0 :: rest) !! i = Some r -> selected r && rule_is_due r now = false ->
    forall r1, (r1 :: rest') !! i = Some r).
  { intros ? ? ? ? ? Hi E Hl Hs r1. destruct i as [|i]; [done|]. cbn in *. by eapply IH. }
  destruct (decide (i = 0%nat)) as [->|Hi].
  - cbn [lookup list_lookup]. destruct (selected r0) eqn:Es.
    + destruct (tick_rule _ _ _ _ r0 now w st) as [[o1 r1] w1] eqn:E1.
      intros H [= ->] Hd. rewrite Es in Hd. cbn in Hd. unfold tick_rule in E1.
      rewrite Hd in E1. destruct st. cbn in E1. simplify_eq.
      destruct (tick_loop _ _ _ _ rest _ _ _) as [[? ?] ?]. by simplify_eq.
    + destruct (tick_loop _ _ _ _ rest _ _ _) as [[? ?] ?]. intros; by simplify_eq.
  - destruct (selected r0).
    + destruct (tick_rule _ _ _ _ r0 now w st) as [[[st1|x] r1] w1] eqn:E1.
      * destruct (tick_loop _ _ _ _ rest now w1 st1) as [[o2 rest'] w2] eqn:E2.
        intros; simplify_eq. by eapply Hskip.
      * intros; simplify_eq. destruct i; [done|]. done.
    + destruct (tick_loop _ _ _ _ rest now w st) as [[o2 rest'] w2] eqn:E2.
      intros; simplify_eq. by eapply Hskip.
Qed.
End queue_facts.
