(* ===== verification/WatchdogTheorems.v ===== *)
(** * What the watchdog guarantees

    The properties of the rule machine, of the log over any history of ticks
    and of one tick, with their witnesses. *)

From stdpp Require Import pretty.
From S2P Require Import Prelude EventBus Commands QueueInterface RuntimeFlags.
From S2P Require Import WatchdogActions WatchdogState.
Local Open Scope string_scope.
Local Open Scope list_scope.
Local Open Scope Z_scope.

(** The action is readable and not a binding. *)
Definition plain_rule (c : rule_config) : Prop :=
  exists k, jget (or_dict (rc_action c)) "kind" = Ret k /\ jeqs k "binding" = false.
(** The action is a binding. *)
Definition binding_rule (c : rule_config) : Prop :=
  exists k, jget (or_dict (rc_action c)) "kind" = Ret k /\ jeqs k "binding" = true.

Lemma plain_not_binding c : plain_rule c -> is_binding c = false.
Proof. intros (k & Hk & Hb). unfold is_binding. by rewrite Hk. Qed.

(** A binding's two stable states: what the probe says, the edge it asserts,
    and the streak and threshold that must be met for it. *)
Inductive steady (r : rule) : string -> string -> Prop :=
  | steady_active : Z.max 1 (rc_recovery_threshold r) <= rt_recovery_streak r + 1 ->
      steady r "success" "binding:active"
  | steady_cleared : Z.max 1 (rc_failure_threshold r) <= rt_failure_streak r + 1 ->
      steady r "failure" "binding:cleared".

Section theorems.
Context {S : Type} `{CQ : CommandQueue S} `{Clock : IsoClock}.
Context (scenes : gmap string json) (py_repr : json -> string).
Context (esc : string -> json -> bool).

#[local] Abbreviation update := (update_state_and_maybe_fire scenes py_repr esc).

(** Consecutive evaluations of one rule: probe outcomes and clock readings. *)
Fixpoint evaluate (r : rule) (obs : list (string * time)) (w : world S)
    : outcome unit * rule * world S :=
  match obs with
  | [] => (Ret tt, r, w)
  | (oc, now) :: rest =>
    match update r oc JNull now w with
    | (Ret _, r, w) => evaluate r rest w
    | (Raise e, r, w) => (Raise e, r, w)
    end
  end.

(** C37. Refinement.  Evaluating a readable plain rule either raises out of the
    fire, or is exactly one step of the abstract seven-rule machine: the runtime
    columns and the logged events are those of the step, the configuration does
    not move, and the queue moves only if the step is the fire. *)
Theorem update_refines_plain_machine (r : rule) oc details now (w : world S) :
  plain_rule r ->
  (exists e r' w', update r oc details now w = (Raise e, r', w') /\ oc = "failure" /\
     rc_failure_threshold r <= rt_failure_streak r + 1) \/
  (exists b r' w' names new, update r oc details now w = (Ret b, r', w') /\
     r_config r' = r_config r /\ plain_step r now oc r r' names b /\
     w_events w' = w_events w ++ new /\ Forall2 (event_is (rc_id r) now) names new /\
     w_queue w' = if b then (fire_action scenes py_repr r (w_queue w)).2 else w_queue w).
Proof.
  intros Hp. destruct (update r oc details now w) as [[[b|e] r'] w'] eqn:E.
  - right. pose proof (update_plain _ _ _ _ _ _ _ _ _ _ _ (plain_not_binding _ Hp) E)
      as (Hc & names & new & Hs & He & Hn & Hq). eauto 15.
  - left. exists e, r', w'. split; [done|]. destruct Hp as (k & Hk & Hb).
    unfold update_state_and_maybe_fire in E. rewrite Hk, Hb in E. cbv zeta in E.
    destruct (String.eqb_spec oc "success"); [repeat case_match; done|].
    destruct (String.eqb_spec oc "failure"); cbn in E; [|done]. split; [done|].
    destruct (Z.ltb_spec (rt_failure_streak r + 1) (rc_failure_threshold r)); done.
Qed.

(** C4. Cooldown.  Start from an empty log.  After any history of ticks, with
    any probe results, clocks, flags, scenes, failures of other rules and
    changes of the queue by other components, any two consecutive fires of a
    plain rule in the log are at least its cooldown apart. *)
Theorem fires_respect_cooldown rules (w : world S) rules' w' (r : rule) pre t1 t2 post :
  rtc wd_step (rules, w) (rules', w') -> NoDup (rule_id <$> rules) -> w_events w = [] ->
  r ∈ rules -> is_binding r = false ->
  fire_times (rc_id r) (w_events w') = pre ++ t1 :: t2 :: post ->
  t1 + seconds (rc_cooldown_seconds r) <= t2.
Proof.
  intros Hh Hnd He Hr Hb Hf.
  destruct (wd_history_invariant cooled cooled_other cooled_step _ _ _ _ Hh Hnd) as [Hc HI].
  { apply Forall_forall. intros x _ _. rewrite He. split; [constructor|done]. }
  apply list_elem_of_lookup in Hr as [i Hi].
  assert (exists r', rules' !! i = Some r' /\ r_config r' = r_config r) as (r' & Hi' & Hcr).
  { assert ((r_config <$> rules') !! i = Some (r_config r)) as H
      by (by rewrite Hc, list_lookup_fmap, Hi).
    rewrite list_lookup_fmap in H. destruct (rules' !! i) as [x|]; simplify_eq/=. by exists x. }
  apply list_elem_of_lookup_2 in Hi'. rewrite Forall_forall in HI.
  destruct (HI r' Hi') as [Hs _]; [by rewrite Hcr|]. rewrite Hcr, Hf in Hs.
  clear -Hs. induction pre as [|a pre IH]; inversion Hs as [|? ? Hs' Hh]; subst; [|by apply IH].
  by inversion Hh.
Qed.

(** Threshold.  Start from an empty log and zero streaks.  In every
    reachable log, each fire of a plain rule comes after at least
    [failure_threshold] failures of that rule since its last recovery, and the
    streak column is that count. *)
Theorem fires_need_failures rules (w : world S) rules' w' (r : rule) :
  rtc wd_step (rules, w) (rules', w') -> NoDup (rule_id <$> rules) ->
  w_events w = [] -> Forall (fun x : rule => rt_failure_streak x = 0) rules ->
  r ∈ rules' -> is_binding r = false ->
  rt_failure_streak r = failures_since_recovery (rc_id r) (w_events w') /\
  forall pre e post, w_events w' = pre ++ e :: post ->
    pe_rule_id e = rc_id r -> pe_outcome e = "action_fired" ->
    rc_failure_threshold r <= failures_since_recovery (rc_id r) pre.
Proof.
  intros Hh Hnd He Hz Hr Hb.
  destruct (wd_history_invariant counted counted_other counted_step _ _ _ _ Hh Hnd) as [_ HI].
  { eapply Forall_impl; [exact Hz|]. intros x Hx _. rewrite He. split; [done|].
    intros pre e post Heq. by destruct pre. }
  rewrite Forall_forall in HI. by apply HI.
Qed.

(** Recovery hysteresis.  From a failing rule with no success counted yet,
    a run of successes leaves the failure streak and the status alone until it is
    [recovery_threshold] long; the last of exactly that many arms the rule, clears
    both streaks and logs one recovery.  The queue is not touched. *)
Theorem recovery_takes_threshold_successes (r : rule) (ts : list time) (w : world S) :
  plain_rule r -> 0 < rt_failure_streak r \/ rt_status r = Firing ->
  rt_recovery_streak r = 0 -> 1 <= rc_recovery_threshold r ->
  Z.of_nat (length ts) <= rc_recovery_threshold r ->
  exists r' w', evaluate r (pair "success" <$> ts) w = (Ret tt, r', w') /\
    w_queue w' = w_queue w /\ rt_last_action_at r' = rt_last_action_at r /\
    if Z.of_nat (length ts) <? rc_recovery_threshold r
    then rt_status r' = rt_status r /\ rt_failure_streak r' = rt_failure_streak r /\
         w_events w' = w_events w
    else rt_status r' = Armed /\ rt_failure_streak r' = 0 /\ rt_recovery_streak r' = 0 /\
         exists t d, last ts = Some t /\
           w_events w' = w_events w ++ [ProbeEvent (rc_id r) t "recovery" d].
Proof.
  intros (k & Hk & Hb) Hbad Hz Hthr Hlen.
  assert (Hgen : forall ts (r : rule), jget (or_dict (rc_action r)) "kind" = Ret k ->
    0 < rt_failure_streak r \/ rt_status r = Firing ->
    0 <= rt_recovery_streak r < rc_recovery_threshold r ->
    rt_recovery_streak r + Z.of_nat (length ts) <= rc_recovery_threshold r ->
    exists r' w', evaluate r (pair "success" <$> ts) w = (Ret tt, r', w') /\
      w_queue w' = w_queue w /\ rt_last_action_at r' = rt_last_action_at r /\
      if rt_recovery_streak r + Z.of_nat (length ts) <? rc_recovery_threshold r
      then rt_status r' = rt_status r /\ rt_failure_streak r' = rt_failure_streak r /\
           w_events w' = w_events w
      else rt_status r' = Armed /\ rt_failure_streak r' = 0 /\ rt_recovery_streak r' = 0 /\
           exists t d, last ts = Some t /\
             w_events w' = w_events w ++ [ProbeEvent (rc_id r) t "recovery" d]).
  2: { destruct (Hgen ts r Hk Hbad) as (r' & w' & H); [lia|lia|]. rewrite Hz in H. eauto. }
  clear r ts Hk Hbad Hz Hthr Hlen. induction ts as [|t ts IH]; intros r Hk Hbad Hlt Hlen; cbn.
  { exists r, w. split_and!; try done. rewrite Z.add_0_r. by rewrite (proj2 (Z.ltb_lt _ _)) by lia. }
  unfold update_state_and_maybe_fire. rewrite Hk, Hb. cbn [String.eqb Ascii.eqb Bool.eqb].
  destruct r as [c rt]. unfold with_runtime. cbn -[Z.of_nat] in *.
  rewrite (proj2 (orb_true_iff _ _)).
  2: { destruct Hbad; [left; lia|right; by apply bool_decide_eq_true]. }
  destruct (Z.leb_spec (rc_recovery_threshold c) (rt_recovery_streak rt + 1)).
  - assert (ts = []) as -> by (destruct ts; [done|cbn in Hlen; lia]). cbn.
    eexists _, _. split_and!; [done..|]. cbn in Hlen. rewrite (proj2 (Z.ltb_ge _ _)) by lia.
    split_and!; try done. by eexists _, _.
  - destruct (IH (Rule c (set_streaks (rt_failure_streak rt) (rt_recovery_streak rt + 1)
                            (set_outcome "success" (set_probed t rt))))) as (r' & w' & E & Hq & Ha & H');
      cbn; [done|done|lia|lia|].
    cbn in H', Ha. exists r', w'. split_and!; [done..|].
    replace (rt_recovery_streak rt + Z.of_nat (Datatypes.S (length ts)))
      with (rt_recovery_streak rt + 1 + Z.of_nat (length ts)) by lia.
    case_match; [done|]. destruct H' as (? & ? & ? & t' & d & Hl & He). split_and!; try done.
    exists t', d. split; [|done]. destruct ts; [done|exact Hl].
Qed.

Lemma binding_quiet (r : rule) oc marker (ts : list time) (w : world S) :
  binding_rule r -> steady r oc marker -> rt_last_outcome r = Some marker ->
  exists r', evaluate r (pair oc <$> ts) w = (Ret tt, r', w) /\
    rt_last_outcome r' = Some marker /\ rt_status r' = rt_status r /\
    rt_last_action_at r' = rt_last_action_at r.
Proof.
  intros (k & Hk & Hb). revert r Hk.
  induction ts as [|t ts IH]; intros r Hk Hs Hm; cbn [fmap list_fmap evaluate]; [by exists r|].
  unfold update_state_and_maybe_fire. rewrite Hk, Hb. unfold binding_tick, settle_binding, with_runtime.
  destruct r as [c rt]. inversion Hs as [Hle|Hle]; subst; cbn in *.
  - rewrite (proj2 (Z.leb_le _ _)) by lia. cbn. rewrite decide_True by done.
    destruct (IH (Rule c (set_streaks 0 (rt_recovery_streak rt + 1) (set_probed t rt))))
      as (r' & E & ? & ? & ?); cbn; [done|constructor; cbn; lia|done|]. by exists r'.
  - rewrite (proj2 (Z.leb_gt _ _)) by lia. rewrite (proj2 (Z.leb_le _ _)) by lia.
    cbn. rewrite decide_True by done.
    destruct (IH (Rule c (set_streaks (rt_failure_streak rt + 1) 0 (set_probed t rt))))
      as (r' & E & ? & ? & ?); cbn; [done|constructor; cbn; lia|done|]. by exists r'.
Qed.

(** A binding at rest stays at rest.  Once its applied marker matches the
    edge its probe asserts, any number of further evaluations with that same
    probe outcome queue nothing, log nothing, and leave the marker, the status
    and the last action where they are. *)
Theorem binding_steady_state_is_quiet (r : rule) oc marker (ts : list time) (w : world S) :
  binding_rule r -> steady r oc marker -> rt_last_outcome r = Some marker ->
  exists r', evaluate r (pair oc <$> ts) w = (Ret tt, r', w) /\
    rt_last_outcome r' = Some marker /\ rt_status r' = rt_status r /\
    rt_last_action_at r' = rt_last_action_at r.
Proof. apply binding_quiet. Qed.

(** A transient probe error does not only hold the edge: it erases the
    applied marker.  A binding at rest on [active], through one [probe_error]
    and the next success, dispatches its [on_active] action a second time. *)
Theorem binding_reapplies_after_probe_error (r : rule) leaf t1 t2 (w : world S) :
  binding_rule r -> steady r "success" "binding:active" ->
  rt_last_outcome r = Some "binding:active" ->
  jget (or_dict (rc_action r)) "on_active" = Ret leaf ->
  exists o r' w', evaluate r [("probe_error", t1); ("success", t2)] w = (o, r', w') /\
    w_queue w' = (apply_binding_action scenes py_repr r (or_dict leaf) (w_queue w)).2.
Proof.
  intros (k & Hk & Hb) Hs Hm Hl. inversion Hs as [Hle|]; subst.
  cbn [evaluate]. unfold update_state_and_maybe_fire at 1. rewrite Hk, Hb.
  unfold binding_tick, settle_binding, with_runtime. destruct r as [c rt]. cbn -[apply_binding_action] in *.
  unfold update_state_and_maybe_fire. cbn -[apply_binding_action]. rewrite Hk, Hb.
  unfold binding_tick, settle_binding, with_runtime. cbn -[apply_binding_action].
  rewrite (proj2 (Z.leb_le _ _)) by lia. cbn -[apply_binding_action]. rewrite Hl.
  change (apply_binding_action scenes py_repr (Rule c _)) with
    (apply_binding_action scenes py_repr (Rule c rt)).
  destruct (apply_binding_action _ _ _ _ _) as [[res|e] q]; cbn; [|by eexists _, _, _].
  destruct (jget (or_dict leaf) "kind"); by eexists _, _, _.
Qed.

(** One tick.  Whatever the probes report and whether or not the tick
    raises: no protected device gains a power command and the queue stays well
    formed; a rule that is disabled or not yet due is left exactly as it was; in
    maintenance mode nothing at all happens. *)
Theorem tick_is_contained probe disabled flags now rules (w : world S) o rules' w' :
  cq_ok (w_queue w) ->
  tick scenes py_repr esc probe disabled flags now rules w = (o, rules', w') ->
  cq_ok (w_queue w') /\
  (forall d t, cq_protected (w_queue w) d = true -> t ∈ POWER_TYPES ->
     cq_count (w_queue w') d t = cq_count (w_queue w) d t) /\
  (forall i r, rules !! i = Some r -> selected r && rule_is_due r now = false ->
     rules' !! i = Some r) /\
  (is_maintenance_mode_active flags = true -> rules' = rules /\ w' = w).
Proof.
  intros Hok E. destruct (tick_soft _ _ _ _ _ _ _ _ _ _ _ _ E Hok) as (H1 & _ & _ & _ & H2).
  split_and!; [done|done| |].
  - intros i r Hi Hd. unfold tick in E. destruct disabled; [by simplify_eq|].
    destruct (is_maintenance_mode_active flags); [by simplify_eq|].
    destruct (tick_loop _ _ _ _ _ _ _ _) as [[[st|e] rs] w1] eqn:El; simplify_eq; [|done].
    by eapply tick_loop_idle.
  - intros Hm. unfold tick in E. rewrite Hm in E. destruct disabled; by simplify_eq.
Qed.

(** An escalation that is not an object defeats the cooldown.  When such a
    rule crosses its threshold outside maintenance, the tick queues its action,
    then raises: the rule's streaks, [last_action_at] and events roll back but the
    queued commands stay, so the very same state fires again at the next tick. *)
Theorem unreadable_escalation_refires probe flags now (r : rule) (w : world S) d :
  plain_rule r -> is_maintenance_mode_active flags = false ->
  selected r && rule_is_due r now = true -> truthy (rc_maintenance_windows r) = false ->
  probe r = Ret ("failure", d) -> rc_failure_threshold r <= rt_failure_streak r + 1 ->
  cooling_down r now = false -> as_dict (or_dict (rc_escalation r)) = None ->
  exists e notices,
    tick scenes py_repr esc probe false flags now [r] w =
      (Raise e, [r], World (w_events w) (fire_action scenes py_repr r (w_queue w)).2 notices).
Proof.
  intros (k & Hk & Hb) Hm Hsel Hmw Hp Hth Hcd Hesc. apply andb_prop in Hsel as [Hs Hd].
  unfold tick. rewrite Hm. cbn [tick_loop]. rewrite Hs. unfold tick_rule, no_stats.
  rewrite Hd. cbn [negb]. unfold in_maintenance_window. rewrite Hmw, Hp.
  unfold update_state_and_maybe_fire. rewrite Hk, Hb. cbn [String.eqb Ascii.eqb Bool.eqb negb].
  destruct r as [c rt]. unfold with_runtime, record_event. cbn -[fire_rule] in *.
  rewrite (proj2 (Z.ltb_ge _ _)) by lia. unfold cooling_down in *. cbn -[fire_rule] in *.
  rewrite Hcd. unfold fire_rule. cbn [w_queue].
  change (fire_action scenes py_repr (Rule c _)) with (fire_action scenes py_repr (Rule c rt)).
  destruct (fire_action _ _ _ _) as [[fired|e] q]; [|by eexists _, _].
  unfold run_escalation_and_emit. cbn. destruct (or_dict (rc_escalation c)); [by eexists _, _..|done].
Qed.
End theorems.

(** ** Witnesses *)
Module Example.

#[local] Instance q : CommandQueue clocked := clocked_queue pretty.
#[local] Instance clk : IsoClock := binary_clock.

(** The rule of [WatchdogActions.Example], one failure short of its threshold. *)
Definition rule_at (action escalation : json) (rt : rule_runtime) : rule :=
  Rule (RuleConfig "wdr_1" "internet" None true JNull 3 2 60 300
          (JObj [("kind", JStr "group"); ("id", JStr "grp")]) action escalation JNull) rt.
Definition cycle : json := JObj [("kind", JStr "cycle")].
Definition fresh_rt : rule_runtime := RuleRuntime Armed 0 0 None None None.
Definition near_rt : rule_runtime := RuleRuntime Armed 2 0 None None (Some "failure").
Definition r0 : rule := rule_at cycle JNull fresh_rt.
Definition w0 : world clocked := World [] WatchdogActions.Example.s0 [].
Definition no_scenes : gmap string json := ∅.
Definition no_flags : flag_table := ∅.
Definition no_repr (_ : json) : string := empty_str.
Definition never (_ : string) (_ : json) : bool := false.
Definition down (_ : rule) : outcome (string * json) := Ret ("failure", JNull).

Lemma down_sound : probe_sound down.
Proof. intros r oc d [= <- <-]. by right. Qed.

(** Ten ticks, a minute apart, with the probe down. *)
Fixpoint ticks (n : nat) (rw : list rule * world clocked) : list rule * world clocked :=
  match n with
  | O => rw
  | S n => let '(rs, w) := ticks n rw in
           let '(_, rs', w') := tick no_scenes no_repr never down false no_flags (minutes (Z.of_nat n)) rs w in
           (rs', w')
  end.

Lemma ticks_steps n rw : rtc wd_step rw (ticks n rw).
Proof.
  induction n as [|n IH]; cbn [ticks]; [done|].
  destruct (ticks n rw) as [rs w]. destruct (tick _ _ _ _ _ _ _ _ _) as [[o rs'] w'] eqn:E.
  eapply rtc_r; [exact IH|]. eapply wd_tick; [exact down_sound|exact E].
Qed.

Lemma update_refines_plain_machine_witness :
  exists b r' w' names new,
    update_state_and_maybe_fire no_scenes no_repr never r0 "failure" JNull 7 w0 = (Ret b, r', w') /\
    plain_step r0 7 "failure" r0 r' names b /\ w_events w' = w_events w0 ++ new.
Proof.
  destruct (update_refines_plain_machine no_scenes no_repr never r0 "failure" JNull 7 w0)
    as [(e & r' & w' & _ & _ & Ht)|(b & r' & w' & names & new & E & _ & Hs & He & _)].
  - exists (JStr "cycle"). split; reflexivity.
  - vm_compute in Ht. destruct Ht. reflexivity.
  - exists b, r', w', names, new. split; [exact E|split; [exact Hs|exact He]].
Defined.

Lemma fires_respect_cooldown_witness :
  fire_times "wdr_1" (w_events (ticks 10 ([r0], w0)).2) = [minutes 2; minutes 7] /\
  minutes 2 + seconds 300 <= minutes 7.
Proof.
  split; [vm_compute; reflexivity|].
  refine (fires_respect_cooldown [r0] w0 (ticks 10 ([r0], w0)).1 (ticks 10 ([r0], w0)).2 r0
            [] (minutes 2) (minutes 7) [] _ _ eq_refl _ eq_refl _).
  - rewrite <- surjective_pairing. apply ticks_steps.
  - apply NoDup_singleton.
  - left.
  - vm_compute; reflexivity.
Defined.

Lemma fires_need_failures_witness :
  exists pre e post, w_events (ticks 3 ([r0], w0)).2 = pre ++ e :: post /\
    pe_outcome e = "action_fired" /\ 3 <= failures_since_recovery "wdr_1" pre.
Proof.
  destruct (fires_need_failures [r0] w0 (ticks 3 ([r0], w0)).1 (ticks 3 ([r0], w0)).2
              (default r0 (head (ticks 3 ([r0], w0)).1))) as [_ H].
  - rewrite <- surjective_pairing. apply ticks_steps.
  - apply NoDup_singleton.
  - reflexivity.
  - repeat constructor.
  - vm_compute. left.
  - vm_compute; reflexivity.
  - eexists (take 3 (w_events (ticks 3 ([r0], w0)).2)), _, [].
    split; [vm_compute; reflexivity|]. split; [reflexivity|].
    eapply H; [vm_compute; reflexivity|reflexivity|reflexivity].
Defined.

Definition failing : rule := rule_at cycle JNull (RuleRuntime Firing 5 0 None (Some 0) (Some "failure")).

Lemma recovery_takes_threshold_successes_witness :
  exists r' w', evaluate no_scenes no_repr never failing (pair "success" <$> [10; 20]) w0 = (Ret tt, r', w')
    /\ rt_status r' = Armed.
Proof.
  destruct (recovery_takes_threshold_successes no_scenes no_repr never failing [10; 20] w0)
    as (r' & w' & E & _ & _ & Hst & _).
  - exists (JStr "cycle"). split; reflexivity.
  - right; reflexivity.
  - reflexivity.
  - discriminate.
  - discriminate.
  - exists r', w'. split; [exact E|exact Hst].
Defined.

Definition binding : json :=
  JObj [("kind", JStr "binding"); ("on_active", JObj [("kind", JStr "relay_on")]);
        ("on_clear", JObj [("kind", JStr "relay_off")])].
Definition bound : rule :=
  rule_at binding JNull (RuleRuntime Firing 0 2 None (Some 0) (Some "binding:active")).

Lemma bound_steady : steady bound "success" "binding:active".
Proof. constructor. discriminate. Qed.

Lemma binding_steady_state_is_quiet_witness :
  exists r', evaluate no_scenes no_repr never bound (pair "success" <$> [10; 20; 30]) w0 = (Ret tt, r', w0)
    /\ rt_last_action_at r' = Some 0.
Proof.
  destruct (binding_steady_state_is_quiet no_scenes no_repr never bound "success" "binding:active"
              [10; 20; 30] w0) as (r' & E & _ & _ & H).
  - exists (JStr "binding"). split; reflexivity.
  - exact bound_steady.
  - reflexivity.
  - exists r'. split; [exact E|exact H].
Defined.

(** The free device of the group gets a second [relay_on]. *)
Lemma binding_reapplies_after_probe_error_witness :
  cq_count (w_queue w0) "dev_a" "relay_on" = 0%nat /\
  exists o r' w',
    evaluate no_scenes no_repr never bound [("probe_error", 10); ("success", 20)] w0 = (o, r', w') /\
    cq_count (w_queue w') "dev_a" "relay_on" = 1%nat.
Proof.
  split; [vm_compute; reflexivity|].
  destruct (binding_reapplies_after_probe_error no_scenes no_repr never bound
              (JObj [("kind", JStr "relay_on")]) 10 20 w0) as (o & r' & w' & E & Hq).
  - exists (JStr "binding"). split; reflexivity.
  - exact bound_steady.
  - reflexivity.
  - reflexivity.
  - exists o, r', w'. split; [exact E|]. rewrite Hq. vm_compute; reflexivity.
Defined.

Lemma tick_is_contained_witness :
  let '(_, _, w') := tick no_scenes no_repr never down false no_flags 0 [rule_at cycle JNull near_rt] w0 in
  cq_count (w_queue w') "dev_a" "relay_cycle" = 1%nat /\
  cq_count (w_queue w') "dev_b" "relay_cycle" = 0%nat.
Proof.
  destruct (tick no_scenes no_repr never down false no_flags 0 [rule_at cycle JNull near_rt] w0)
    as [[o rs] w'] eqn:E.
  destruct (tick_is_contained (CQ:=q) no_scenes no_repr never down false no_flags 0 _ w0 o rs w'
              Commands.Example.h0_wf E) as (_ & H & _ & _).
  split.
  - assert (w' = (tick no_scenes no_repr never down false no_flags 0 [rule_at cycle JNull near_rt] w0).2) as ->
      by (rewrite E; reflexivity).
    vm_compute; reflexivity.
  - rewrite (H "dev_b" "relay_cycle"); [vm_compute; reflexivity|reflexivity|].
    apply in_strs_spec. reflexivity.
Defined.

Definition poisoned : rule := rule_at cycle (JList [JInt 1]) near_rt.

(** Two ticks one second apart: two reboots, a five-minute cooldown
    notwithstanding. *)
Lemma unreadable_escalation_refires_witness :
  exists e1 n1 e2 n2 q1 q2,
    tick no_scenes no_repr never down false no_flags 0 [poisoned] w0 =
      (Raise e1, [poisoned], World [] q1 n1) /\
    tick no_scenes no_repr never down false no_flags (seconds 1) [poisoned] (World [] q1 n1) =
      (Raise e2, [poisoned], World [] q2 n2) /\
    cq_count q2 "dev_a" "relay_cycle" = 2%nat.
Proof.
  assert (Hp : plain_rule poisoned) by (exists (JStr "cycle"); split; reflexivity).
  destruct (unreadable_escalation_refires (CQ:=q) no_scenes no_repr never down no_flags 0 poisoned w0 JNull
              Hp eq_refl eq_refl eq_refl eq_refl ltac:(discriminate) eq_refl eq_refl)
    as (e1 & n1 & E1).
  destruct (unreadable_escalation_refires (CQ:=q) no_scenes no_repr never down no_flags (seconds 1) poisoned
              (World (w_events w0) (fire_action no_scenes no_repr poisoned (w_queue w0)).2 n1) JNull
              Hp eq_refl eq_refl eq_refl eq_refl ltac:(discriminate) eq_refl eq_refl)
    as (e2 & n2 & E2).
  exists e1, n1, e2, n2. eexists _, _. split; [exact E1|]. split; [exact E2|].
  vm_compute; reflexivity.
Defined.
End Example.
