(* ===== verification/ExternalSensors.v ===== *)
(** * External sensor sources ([app/services/external_sensors])

    The registry of external systems the hub watches and the samples they
    leave: validation and redaction ([_crud.py]), the poll tick ([_pollers.py]),
    the webhook and MQTT writers ([_inbound.py]) and the reads the probes use
    ([_query.py]).  What a poll of the network returns is an input. *)

From S2P Require Import Prelude PyFloat.
Local Open Scope string_scope.
Local Open Scope list_scope.
Local Open Scope Z_scope.

(** ** Tables ([app/models/external_sensors.py]) *)

Definition EXTERNAL_SOURCE_KINDS : list string :=
  ["roku"; "home_assistant"; "weather"; "ical"; "solaredge"; "enphase_envoy"; "snmp";
   "plex"; "jellyfin"; "ios_shortcut"; "mqtt"; "google_calendar"].
Definition WEBHOOK_KINDS : list string := ["plex"; "jellyfin"; "ios_shortcut"].
Definition SUBSCRIBER_KINDS : list string := ["mqtt"].

(** [KIND_TO_MODALITY.get(kind)]. *)
Definition KIND_TO_MODALITY : list (string * string) :=
  [("roku", "media"); ("home_assistant", "appliance_state"); ("weather", "weather");
   ("ical", "calendar"); ("solaredge", "solar"); ("enphase_envoy", "solar");
   ("snmp", "network"); ("plex", "media"); ("jellyfin", "media");
   ("ios_shortcut", "automation"); ("mqtt", "appliance_state");
   ("google_calendar", "calendar")].

Record source := Source {
  src_id : string;
  src_kind : string;
  src_display_name : string;
  src_host : string;
  src_port : Z;
  src_enabled : bool;
  src_poll_interval_seconds : Z;
  src_last_polled_at : option time;
  src_last_success_at : option time;
  src_last_error : option string;
  src_config : json;
  src_created_at : time;
  src_updated_at : time
}.

Record sample := Sample {
  sm_source_id : string;
  sm_sampled_at : time;
  sm_payload : json
}.

Record sensors := Sensors {
  sn_sources : gmap string source;
  sn_samples : list sample;
  sn_next : nat
}.

Definition with_polled (now : time) (s : source) : source :=
  Source (src_id s) (src_kind s) (src_display_name s) (src_host s) (src_port s) (src_enabled s)
         (src_poll_interval_seconds s) (Some now) (src_last_success_at s) (src_last_error s)
         (src_config s) (src_created_at s) (src_updated_at s).
Definition with_error (e : string) (s : source) : source :=
  Source (src_id s) (src_kind s) (src_display_name s) (src_host s) (src_port s) (src_enabled s)
         (src_poll_interval_seconds s) (src_last_polled_at s) (src_last_success_at s) (Some e)
         (src_config s) (src_created_at s) (src_updated_at s).
Definition with_success (now : time) (s : source) : source :=
  Source (src_id s) (src_kind s) (src_display_name s) (src_host s) (src_port s) (src_enabled s)
         (src_poll_interval_seconds s) (src_last_polled_at s) (Some now) None
         (src_config s) (src_created_at s) (src_updated_at s).
Definition with_config (c : json) (s : source) : source :=
  Source (src_id s) (src_kind s) (src_display_name s) (src_host s) (src_port s) (src_enabled s)
         (src_poll_interval_seconds s) (src_last_polled_at s) (src_last_success_at s)
         (src_last_error s) c (src_created_at s) (src_updated_at s).
Definition with_enabled (b : bool) (now : time) (s : source) : source :=
  Source (src_id s) (src_kind s) (src_display_name s) (src_host s) (src_port s) b
         (src_poll_interval_seconds s) (src_last_polled_at s) (src_last_success_at s)
         (src_last_error s) (src_config s) (src_created_at s) now.

Definition put_source (s : source) (w : sensors) : sensors :=
  Sensors (<[src_id s := s]> (sn_sources w)) (sn_samples w) (sn_next w).
Definition add_sample (m : sample) (w : sensors) : sensors :=
  Sensors (sn_sources w) (sn_samples w ++ [m]) (sn_next w).

Section sensors.
(** [str(v)] of a float, a list or a dict; [dt.strftime("%Y-%m-%dT%H:%M:%SZ")];
    [secrets.token_hex(n)]; fresh identifiers. *)
Context (py_repr : json -> string) (iso : time -> string) (token_hex : Z -> string)
        (ulid : nat -> string).
#[local] Abbreviation str := (py_str py_repr).

Definition oiso (t : option time) : json :=
  match t with Some t => JStr (iso t) | None => JNull end.

(** ** [_crud.py] *)

Definition secret_config_keys : list string := ["token"; "api_key"; "jwt"; "community"; "password"].
Definition secret_v3_keys : list string := ["auth_key"; "priv_key"].

(** [if d.get(k): d[k] = "********"] for each key, in place. *)
Definition mask_keys (keys : list string) (d : pydict) : pydict :=
  (fun kv => if in_strs kv.1 keys && truthy kv.2 then (kv.1, JStr "********") else kv) <$> d.

(** [out["v3"] = mask(v3)] when it is a dict. *)
Definition mask_v3 (d : pydict) : pydict :=
  (fun kv => match kv.2 with
             | JObj v3 => if String.eqb kv.1 "v3" then (kv.1, JObj (mask_keys secret_v3_keys v3))
                          else kv
             | _ => kv
             end) <$> d.

(** [_redact_config]; the column is NULL or an object. *)
Definition redact_config (config : json) : json :=
  match config with
  | JObj d => JObj (mask_v3 (mask_keys secret_config_keys d))
  | _ => JObj []
  end.

(** [_serialize]. *)
Definition serialize (s : source) (latest : json) : json :=
  JObj [("id", JStr (src_id s)); ("kind", JStr (src_kind s));
        ("modality", ojson (snd <$> find (fun kv => String.eqb kv.1 (src_kind s)) KIND_TO_MODALITY));
        ("display_name", JStr (src_display_name s)); ("host", JStr (src_host s));
        ("port", JInt (src_port s)); ("enabled", JBool (src_enabled s));
        ("poll_interval_seconds", JInt (src_poll_interval_seconds s));
        ("last_polled_at", oiso (src_last_polled_at s));
        ("last_success_at", oiso (src_last_success_at s));
        ("last_error", ojson (src_last_error s));
        ("created_at", JStr (iso (src_created_at s)));
        ("config", redact_config (jor (src_config s) (JObj [])));
        ("latest_sample", latest)].

(** [str(config.get(k) or "").strip()]. *)
Definition cfg_str (config : pydict) (k : string) : string :=
  strip (str (jor (dget config k) (JStr empty_str))).
(** [str(config.get(k) or dflt).strip()]. *)
Definition cfg_str_default (config : pydict) (k dflt : string) : string :=
  strip (str (jor (dget config k) (JStr dflt))).

Definition bad {A} (m : string) : outcome A := Raise (ValueError m).

(** [out[k] = v] when [v] is not empty. *)
Definition opt_entry (k v : string) : pydict := if is_empty v then [] else [(k, JStr v)].

Definition validate_home_assistant (config : pydict) : outcome pydict :=
  let token := cfg_str config "token" in
  if is_empty token then bad "home_assistant config.token is required"
  else Ret (("token", JStr token) ::
            match dget config "verify_ssl" with
            | JNull => []
            | v => [("verify_ssl", JBool (truthy v))]
            end).

Definition validate_weather (config : pydict) : outcome pydict :=
  match py_float (dget config "lat") with
  | Raise (TypeError _) | Raise (ValueError _) => bad "weather config requires numeric lat + lng"
  | Raise e => Raise e
  | Ret lat =>
    match py_float (dget config "lng") with
    | Raise (TypeError _) | Raise (ValueError _) => bad "weather config requires numeric lat + lng"
    | Raise e => Raise e
    | Ret lng =>
      if fle (fint (-90)) lat && fle lat (fint 90) && fle (fint (-180)) lng && fle lng (fint 180)
      then Ret [("lat", JFloat lat); ("lng", JFloat lng)]
      else bad "weather lat/lng out of range"
    end
  end.

Definition validate_ical (config : pydict) : outcome pydict :=
  let url := cfg_str config "url" in
  if is_empty url then bad "ical config.url is required"
  else if startswith "webcal://" url
  then Ret [("url", JStr (String.append "https://"
                            (String.substring 9 (String.length url) url)))]
  else if startswith "http://" url || startswith "https://" url then Ret [("url", JStr url)]
  else bad "ical url must use http://, https://, or webcal:// scheme".

Definition validate_solaredge (config : pydict) : outcome pydict :=
  let site := cfg_str config "site_id" in
  let key := cfg_str config "api_key" in
  if is_empty site then bad "solaredge config.site_id is required"
  else if is_empty key then bad "solaredge config.api_key is required"
  else Ret [("site_id", JStr site); ("api_key", JStr key)].

(** [str(t).strip()] of each entry, the empty ones dropped. *)
Definition nonblank (l : list json) : list string :=
  filter (fun t => is_empty t = false) ((fun t => strip (str t)) <$> l).

Definition validate_mqtt (config : pydict) : outcome pydict :=
  let topics_raw := match dget config "topics" with
                    | JStr s => JList (JStr <$> filter (fun t => is_empty t = false)
                                                  (strip <$> splitlines s))
                    | v => v
                    end in
  match topics_raw with
  | JList ((_ :: _) as l) =>
    match nonblank l with
    | [] => bad "mqtt config.topics must contain at least one topic"
    | topics =>
      let client := cfg_str config "client_id" in
      Ret ([("topics", JList (JStr <$> topics))] ++
           opt_entry "username" (cfg_str config "username") ++
           opt_entry "password" (str (jor (dget config "password") (JStr empty_str))) ++
           [("client_id", JStr (if is_empty client
                                then String.append "rebooter-droids-" (token_hex 4)
                                else client))])
    end
  | _ => bad "mqtt config.topics is required"
  end.

Definition validate_webhook (config : pydict) : outcome pydict :=
  let secret := cfg_str config "webhook_secret" in
  let server := cfg_str config "server_name" in
  Ret (("webhook_secret", JStr (if is_empty secret then token_hex 24 else secret)) ::
       opt_entry "server_name" (str_take 120 server)).

Definition validate_snmp_v3 (config : pydict) : outcome pydict :=
  match jor (dget config "v3") (JObj []) with
  | JObj v3 =>
    let user := cfg_str v3 "user" in
    let auth_key := cfg_str v3 "auth_key" in
    let priv_key := cfg_str v3 "priv_key" in
    if is_empty user || is_empty auth_key || is_empty priv_key
    then bad "snmp v3 requires v3.user, v3.auth_key, and v3.priv_key"
    else
      let auth_proto := upper (cfg_str_default v3 "auth_proto" "SHA") in
      let priv_proto := upper (cfg_str_default v3 "priv_proto" "AES") in
      if negb (in_strs auth_proto ["SHA"; "MD5"]) then bad "snmp v3.auth_proto must be SHA or MD5"
      else if negb (in_strs priv_proto ["AES"; "DES"])
      then bad "snmp v3.priv_proto must be AES or DES"
      else Ret [("v3", JObj [("user", JStr user); ("auth_proto", JStr auth_proto);
                             ("auth_key", JStr auth_key); ("priv_proto", JStr priv_proto);
                             ("priv_key", JStr priv_key)])]
  | _ => bad "snmp config.v3 must be an object"
  end.

Definition validate_snmp (config : pydict) : outcome pydict :=
  let version := lower (cfg_str_default config "version" "2c") in
  if negb (in_strs version ["2c"; "3"]) then bad "snmp config.version must be '2c' or '3'"
  else
    auth ← (if String.eqb version "2c" then
              let community := cfg_str config "community" in
              if is_empty community then bad "snmp config.community is required for SNMP v2c"
              else Ret [("community", JStr community)]
            else validate_snmp_v3 config);
    names ← (if truthy (dget config "interface_filter") then
               match dget config "interface_filter" with
               | JList l => Ret (match nonblank l with
                                 | [] => []
                                 | names => [("interface_filter", JList (JStr <$> names))]
                                 end)
               | _ => bad "snmp config.interface_filter must be a list"
               end
             else Ret []);
    Ret (("version", JStr version) :: auth ++ names).

Definition validate_google_calendar (config : pydict) : outcome pydict :=
  let refresh := cfg_str config "refresh_token" in
  if is_empty refresh then bad "google_calendar config.refresh_token is required"
  else
    let calendar := cfg_str_default config "calendar_id" "primary" in
    Ret ([("refresh_token", JStr refresh);
          ("calendar_id", JStr (if is_empty calendar then "primary" else calendar))] ++
         opt_entry "access_token" (cfg_str config "access_token") ++
         opt_entry "access_token_expires_at" (cfg_str config "access_token_expires_at")).

(** [_validate_kind_config]. *)
Definition validate_kind_config (kind : string) (config : json) : outcome pydict :=
  match config with
  | JObj d =>
    if String.eqb kind "roku" then Ret []
    else if String.eqb kind "home_assistant" then validate_home_assistant d
    else if String.eqb kind "weather" then validate_weather d
    else if String.eqb kind "ical" then validate_ical d
    else if String.eqb kind "solaredge" then validate_solaredge d
    else if String.eqb kind "enphase_envoy" then Ret (opt_entry "jwt" (cfg_str d "jwt"))
    else if String.eqb kind "mqtt" then validate_mqtt d
    else if in_strs kind WEBHOOK_KINDS then validate_webhook d
    else if String.eqb kind "snmp" then validate_snmp d
    else if String.eqb kind "google_calendar" then validate_google_calendar d
    else Ret []
  | _ => bad "config must be an object"
  end.

Definition needs_host (kind : string) : bool :=
  in_strs kind ["roku"; "home_assistant"; "enphase_envoy"; "snmp"; "mqtt"].

Definition ROKU_DEFAULT_PORT : Z := 8060.
Definition default_port (kind : string) : Z :=
  if String.eqb kind "roku" then ROKU_DEFAULT_PORT
  else if String.eqb kind "home_assistant" then 8123
  else if String.eqb kind "enphase_envoy" then 80
  else if String.eqb kind "snmp" then 161
  else if String.eqb kind "mqtt" then 1883
  else 0.

(** [int(v)] with the two exceptions the code translates. *)
Definition int_or_bad (v : json) (m : string) : outcome Z :=
  z ← try_int v; match z with Some z => Ret z | None => bad m end.

(** What [create_source] checks, in its order: the columns of the new row. *)
Definition check_source (kind display_name host port interval config : json)
    : outcome (string * string * string * Z * Z * json) :=
  kind ← strip_or_empty kind;
  let kind := lower kind in
  if negb (in_strs kind EXTERNAL_SOURCE_KINDS) then bad "kind must be one of"
  else
    name ← strip_or_empty display_name;
    if is_empty name then bad "display_name is required"
    else
      host ← strip_or_empty host;
      if needs_host kind && is_empty host then bad "host is required for this kind"
      else
        port ← int_or_bad (match port with JNull => JInt (default_port kind) | p => p end)
                          "port must be an integer";
        if needs_host kind && ((port <? 1) || (65535 <? port)) then bad "port must be in 1..65535"
        else
          iv ← int_or_bad (jor interval (JInt 30)) "poll_interval_seconds must be an integer";
          if (iv <? 5) || (3600 <? iv) then bad "poll_interval_seconds must be in 5..3600"
          else
            cfg ← validate_kind_config kind (jor config (JObj []));
            Ret (kind, name, host, port, iv, jor (JObj cfg) JNull).

(** [create_source]; [db_accepts] is the verdict of the database at flush. *)
Definition create_source (db_accepts : source -> bool)
    (kind display_name host port interval config : json) (now : time) (w : sensors)
    : outcome json * sensors :=
  match check_source kind display_name host port interval config with
  | Raise e => (Raise e, w)
  | Ret (kind, name, host, port, iv, cfg) =>
    let id := String.append "ext_" (ulid (sn_next w)) in
    let row := Source id kind name host port true iv None None None cfg now now in
    session_scope (fun w =>
      let w' := Sensors (<[id := row]> (sn_sources w)) (sn_samples w) (S (sn_next w)) in
      if db_accepts row then (Ret (serialize row JNull), w')
      else (Raise (DBError "external_sensor_sources"), w')) w
  end.

(** [delete_source]; the samples go with their source. *)
Definition delete_source (source_id : string) (w : sensors) : bool * sensors :=
  match sn_sources w !! source_id with
  | None => (false, w)
  | Some _ =>
    (true, Sensors (delete source_id (sn_sources w))
                   (filter (fun m => sm_source_id m <> source_id) (sn_samples w)) (sn_next w))
  end.

(** [set_enabled]. *)
Definition set_enabled (source_id : string) (enabled : bool) (now : time) (w : sensors)
    : bool * sensors :=
  match sn_sources w !! source_id with
  | None => (false, w)
  | Some s => (true, put_source (with_enabled enabled now s) w)
  end.

(** ** [_inbound.py] *)

Inductive recorded :=
  | Recorded (at_ : time)
  | NotRecorded (why : string).

(** [record_webhook_event]. *)
Definition record_webhook_event (source_id : string) (payload : json) (now : time) (w : sensors)
    : recorded * sensors :=
  match sn_sources w !! source_id with
  | None => (NotRecorded "source not found", w)
  | Some s =>
    if negb (in_strs (src_kind s) WEBHOOK_KINDS)
    then (NotRecorded "source is not a webhook kind", w)
    else if negb (src_enabled s) then (NotRecorded "source disabled", w)
    else
      let payload := match payload with JObj d => JObj d | _ => JObj [] end in
      (Recorded now,
       add_sample (Sample (src_id s) now payload)
                  (put_source (with_success now (with_polled now s)) w))
  end.

(** [record_mqtt_message]. *)
Definition record_mqtt_message (source_id topic msg : string) (now : time) (w : sensors)
    : recorded * sensors :=
  match sn_sources w !! source_id with
  | None => (NotRecorded "source missing/disabled/not mqtt", w)
  | Some s =>
    if negb (String.eqb (src_kind s) "mqtt") || negb (src_enabled s)
    then (NotRecorded "source missing/disabled/not mqtt", w)
    else
      let payload := JObj [("topic", JStr (str_take 400 topic)); ("msg", JStr (str_take 2000 msg));
                           ("received_at", JStr (iso now))] in
      (Recorded now,
       add_sample (Sample (src_id s) now payload)
                  (put_source (with_success now (with_polled now s)) w))
  end.

(** ** [_pollers.py]

    [poll_kind src]: what the poll of the external system returned or raised,
    and [src.config] after it (the calendar poll stores a refreshed token). *)
Context (poll_kind : source -> outcome json * json) (error_text : exn -> string).

Inductive poll_result :=
  | PollError (why : string)
  | Polled (at_ : time) (payload : json).

(** [poll_source]. *)
Definition poll_source (source_id : string) (now : time) (w : sensors) : poll_result * sensors :=
  match sn_sources w !! source_id with
  | None => (PollError "source not found", w)
  | Some s =>
    if in_strs (src_kind s) WEBHOOK_KINDS then (PollError "This is a webhook source", w)
    else if in_strs (src_kind s) SUBSCRIBER_KINDS then (PollError "This is an MQTT source", w)
    else
      let s := with_polled now s in
      match poll_kind s with
      | (Raise e, cfg) =>
        let err := error_text e in
        (PollError err, put_source (with_error (str_take 500 err) (with_config cfg s)) w)
      | (Ret payload, cfg) =>
        (Polled now payload,
         add_sample (Sample (src_id s) now payload)
                    (put_source (with_success now (with_config cfg s)) w))
      end
  end.

(** The rows the tick selects. *)
Definition pollable (s : source) : bool :=
  src_enabled s && negb (in_strs (src_kind s) (WEBHOOK_KINDS ++ SUBSCRIBER_KINDS)).
Definition poll_due (now : time) (s : source) : bool :=
  match src_last_polled_at s with
  | None => true
  | Some t => t + seconds (src_poll_interval_seconds s) <=? now
  end.

Record poll_stats := PollStats {
  ps_considered : nat; ps_polled : nat; ps_errors : nat; ps_skipped : nat
}.

(** The second loop of [poll_all_due]; [clock k] is the reading of the [k]th
    poll. *)
Fixpoint poll_loop (ids : list string) (clock : nat -> time) (k : nat) (st : poll_stats)
    (w : sensors) : poll_stats * sensors :=
  match ids with
  | [] => (st, w)
  | sid :: rest =>
    let '(out, w) := poll_source sid (clock k) w in
    let st := match out with
              | PollError _ =>
                PollStats (ps_considered st) (ps_polled st) (S (ps_errors st)) (ps_skipped st)
              | Polled _ _ =>
                PollStats (ps_considered st) (S (ps_polled st)) (ps_errors st) (ps_skipped st)
              end in
    poll_loop rest clock (S k) st w
  end.

(** [poll_all_due]; [rows] is the table in the order the query returns it. *)
Definition poll_all_due (rows : list source) (clock : nat -> time) (w : sensors)
    : poll_stats * sensors :=
  let now := clock 0%nat in
  let selected := filter (fun s => pollable s = true) rows in
  let due := filter (fun s => poll_due now s = true) selected in
  poll_loop (src_id <$> due) clock 1
    (PollStats (length selected) 0 0 (length selected - length due)) w.

(** ** [_query.py] *)

Definition newest_first (l : list sample) : list sample := order_by_desc sm_sampled_at l.
Definition of_source (source_id : string) (w : sensors) : list sample :=
  filter (fun m => sm_source_id m = source_id) (sn_samples w).

(** The range of [datetime]: year 1 to the last microsecond of 9999. *)
Definition MIN_DATETIME : time := -62135596800 * MICRO.
Definition MAX_DATETIME : time := 253402300800 * MICRO - 1.
(** [now - timedelta(seconds=n)]. *)
Definition cutoff (now : time) (n : Z) : outcome time :=
  let t := now - seconds n in
  if (t <? MIN_DATETIME) || (MAX_DATETIME <? t) then Raise OverflowError else Ret t.

Definition fresh_samples (source_id : string) (cut : time) (w : sensors) : list sample :=
  newest_first (filter (fun m => cut <= sm_sampled_at m) (of_source source_id w)).

Definition as_latest (m : sample) : pydict :=
  [("sampled_at", JStr (iso (sm_sampled_at m))); ("payload", jor (sm_payload m) (JObj []))].

(** [latest_sample] and [latest_active_app], which are the same query. *)
Definition latest_sample (source_id : string) (max_age now : Z) (w : sensors)
    : outcome (option pydict) :=
  cut ← cutoff now max_age;
  Ret (as_latest <$> head (fresh_samples source_id cut w)).
Definition latest_active_app := latest_sample.

(** [last_two_samples]: the rows, newer first. *)
Definition last_two_samples (source_id : string) (max_age now : Z) (w : sensors)
    : outcome (option (sample * sample)) :=
  cut ← cutoff now max_age;
  Ret match newest_first (of_source source_id w) with
      | newer :: older :: _ => if sm_sampled_at newer <? cut then None else Some (newer, older)
      | _ => None
      end.

(** [payload.get("topic") == topic] on a row. *)
Definition on_topic (topic : string) (m : sample) : bool :=
  match jor (sm_payload m) (JObj []) with JObj d => jeqs (dget d "topic") topic | _ => false end.

(** [latest_sample_for_topic]: the newest 500 rows of the window are scanned. *)
Definition latest_sample_for_topic (source_id topic : string) (max_age now : Z) (w : sensors)
    : outcome (option pydict) :=
  cut ← cutoff now max_age;
  Ret (as_latest <$> find (on_topic topic) (firstn 500 (fresh_samples source_id cut w))).

(** [list_sources]: newest first, each with its latest sample; [rows] is the
    table. *)
Definition list_sources (rows : list source) (w : sensors) : list json :=
  (fun s => serialize s (match head (newest_first (of_source (src_id s) w)) with
                         | Some m => JObj (as_latest m)
                         | None => JNull
                         end)) <$> order_by_desc src_created_at rows.

(** One line of the entity browser; entries that are not objects are skipped. *)
Definition ha_entity (eid : string) (entry : json) : option (string * json) :=
  match entry with
  | JObj e =>
    let attrs := match dget e "attributes" with JObj a => a | _ => [] end in
    Some (eid, JObj [("entity_id", JStr eid); ("friendly_name", dget attrs "friendly_name");
                     ("state", dget e "state"); ("unit", dget attrs "unit_of_measurement");
                     ("last_changed", dget e "last_changed")])
  | _ => None
  end.

(** [entities.sort(key=lambda e: e["entity_id"])]. *)
Definition entity_le (a b : string * json) : Prop := String.leb a.1 b.1 = true.
#[local] Instance entity_le_dec : RelDecision entity_le.
Proof. intros a b; unfold entity_le; apply _. Defined.

(** [ha_entities]. *)
Definition ha_entities (source_id : string) (w : sensors) : option json :=
  match sn_sources w !! source_id with
  | None => None
  | Some s =>
    if negb (String.eqb (src_kind s) "home_assistant") then None
    else
      let body at_ entities :=
        JObj [("source_id", JStr source_id); ("display_name", JStr (src_display_name s));
              ("sampled_at", at_); ("entities", JList entities)] in
      match head (newest_first (of_source source_id w)) with
      | None => Some (body JNull [])
      | Some m =>
        let raw := match jor (sm_payload m) (JObj []) with
                   | JObj d => dget d "entities"
                   | _ => JNull
                   end in
        let lines := match raw with
                     | JObj d => omap (fun kv => ha_entity kv.1 kv.2) d
                     | _ => []
                     end in
        Some (body (JStr (iso (sm_sampled_at m))) (snd <$> merge_sort entity_le lines))
      end
  end.
End sensors.

(** ** [POST /api/v1/integrations/webhook/<id>] ([blueprints/api/integrations_webhook.py]) *)

(** [secrets.compare_digest] of two texts: ASCII only. *)
Definition is_ascii (s : string) : bool :=
  forallb (fun a => (Z.of_N (Ascii.N_of_ascii a) <? 128)%Z) (String.list_ascii_of_string s).
Definition compare_digest (a b : string) : outcome bool :=
  if is_ascii a && is_ascii b then Ret (String.eqb a b)
  else Raise (TypeError "comparing strings with non-ASCII characters is not supported").

(** The body, as the framework decoded it: the JSON document, the JSON of the
    [payload] form field ([None] inside when it does not parse), or nothing. *)
Inductive webhook_body :=
  | JsonBody (v : json)
  | FormPayload (v : option json)
  | NoBody.

(** The payload to record; [None] is the 400 of a form that does not parse. *)
Definition webhook_payload (b : webhook_body) : option pydict :=
  match b with
  | FormPayload None => None
  | JsonBody (JObj d) | FormPayload (Some (JObj d)) => Some d
  | _ => Some []
  end.
(** [payload[k] = v]. *)
Definition dict_set (d : pydict) (k : string) (v : json) : pydict :=
  filter (fun kv : string * json => kv.1 <> k) d ++ [(k, v)].

Definition MAX_WEBHOOK_BODY_BYTES : Z := 64 * 1024.

(** [webhook_inbound]: the status of the answer. *)
Definition webhook_inbound (iso : time -> string) (source_id presented : string)
    (content_length : option Z) (body : webhook_body) (remote_addr : option string)
    (now now2 : time) (w : sensors) : outcome Z * sensors :=
  if match content_length with Some n => MAX_WEBHOOK_BODY_BYTES <? n | None => false end
  then (Ret 413, w)
  else
    match sn_sources w !! source_id with
    | None => (Ret 404, w)
    | Some s =>
      if negb (in_strs (src_kind s) WEBHOOK_KINDS) then (Ret 404, w)
      else
        match jget (jor (src_config s) (JObj [])) "webhook_secret" with
        | Raise e => (Raise e, w)
        | Ret v =>
          if negb (src_enabled s) then (Ret 403, w)
          else
            match jor v (JStr empty_str) with
            | JStr expected =>
              if is_empty expected then (Ret 401, w)
              else
                match compare_digest presented expected with
                | Raise e => (Raise e, w)
                | Ret false => (Ret 401, w)
                | Ret true =>
                  match webhook_payload body with
                  | None => (Ret 400, w)
                  | Some p =>
                    let p := dict_set p "_received_at" (JStr (iso now)) in
                    let p := dict_set p "_remote_addr" (ojson remote_addr) in
                    match record_webhook_event source_id (JObj p) now2 w with
                    | (Recorded _, w) => (Ret 202, w)
                    | (NotRecorded _, w) => (Ret 400, w)
                    end
                  end
                end
            | _ => (Raise (TypeError "unsupported operand types"), w)
            end
        end
    end.
