(* ===== verification/PowerSamples.v ===== *)
(** * Power telemetry ([app/services/device_power.py], [app/services/events.py])

    The samples devices upload, how they are validated on the way in, and the
    reads the power probes and the device page use. *)

From S2P Require Import Prelude PyFloat ExternalSensors.
Local Open Scope string_scope.
Local Open Scope list_scope.
Local Open Scope Z_scope.

(** ** The table ([app/models/power_analytics.py])

    A NUMERIC column holds what [float()] of it gives. *)
Record power_sample := PowerSample {
  pw_device_id : string;
  pw_channel_id : Z;
  pw_sampled_at : time;
  pw_received_at : time;
  pw_sampled_uptime_seconds : option Z;
  pw_source : string;
  pw_source_flags : Z;
  pw_v_v : option pyfloat;
  pw_i_ma : option Z;
  pw_i_ma_estimated : option bool;
  pw_i_ma_estimate : option Z;
  pw_p_w : option pyfloat;
  pw_min_w : option pyfloat;
  pw_max_w : option pyfloat;
  pw_s_va : option pyfloat;
  pw_pf : option pyfloat;
  pw_hz : option pyfloat;
  pw_energy_wh : option Z;
  pw_rssi_dbm : option Z;
  pw_crc_fail_count : option Z;
  pw_chip_type : option string
}.

Definition ofloat (f : option pyfloat) : json :=
  match f with Some f => JFloat f | None => JNull end.
Definition oint (z : option Z) : json := match z with Some z => JInt z | None => JNull end.
Definition obool (b : option bool) : json := match b with Some b => JBool b | None => JNull end.

(** ** Source flags *)

Definition POWER_SOURCE_FLAG_NAMES : list string :=
  ["SYNTHETIC"; "REAL"; "VOLTAGE_VALID"; "CURRENT_VALID"; "POWER_VALID"; "FREQUENCY_VALID";
   "ENERGY_VALID"; "CURRENT_ESTIMATED"].

Record decoded_flags := DecodedFlags {
  df_raw : Z;
  df_bits_set : list nat;
  df_names : list string
}.

(** [raw.bit_length()] of a number that is not negative. *)
Definition bit_length (raw : Z) : nat :=
  if raw =? 0 then 0%nat else S (Z.to_nat (Z.log2 raw)).

(** [decode_source_flags]; the column is an integer or NULL. *)
Definition decode_source_flags (flags : option Z) : decoded_flags :=
  let raw := match flags with Some z => z | None => 0 end in
  let raw := if raw <? 0 then 0 else raw in
  let bits := filter (fun i => Z.land raw (Z.shiftl 1 (Z.of_nat i)) <> 0)
                     (seq 0 (bit_length raw)) in
  DecodedFlags raw bits (omap (fun i => POWER_SOURCE_FLAG_NAMES !! i) bits).

Definition decoded_json (d : decoded_flags) : json :=
  JObj [("raw", JInt (df_raw d)); ("bits_set", JList ((fun i => JInt (Z.of_nat i)) <$> df_bits_set d));
        ("names", JList (JStr <$> df_names d))].

Definition REAL_POWER_SOURCES : list string := ["steady"; "burst"].
Definition is_real (source : string) : bool := in_strs source REAL_POWER_SOURCES.

(** [source_kind]. *)
Definition source_kind (source : string) : string :=
  if is_real source then "real" else "synthetic".

Definition MAX_FRESH_SAMPLE_AGE_SECONDS : Z := 300.
Definition RECENT_WINDOW_DEFAULT_SECONDS : Z := 3600.
Definition RECENT_WINDOW_MAX_SECONDS : Z := 86400.

(** [max(lo, min(int(v or dflt), hi))]. *)
Definition clamp_window (lo hi dflt v : Z) : Z :=
  Z.max lo (Z.min (if v =? 0 then dflt else v) hi).

(** [max(0, int((now - sampled_at).total_seconds()))]. *)
Definition age_seconds (now : time) (s : power_sample) : Z :=
  Z.max 0 (Z.quot (now - pw_sampled_at s) MICRO).

Section power.
(** [dt.strftime("%Y-%m-%dT%H:%M:%SZ")]. *)
Context (iso : time -> string).

(** [_serialize_sample]. *)
Definition serialize_sample (now : time) (s : power_sample) : pydict :=
  let age := age_seconds now s in
  [("modality", JStr "power");
   ("channel_id", JInt (pw_channel_id s));
   ("sampled_at", JStr (iso (pw_sampled_at s)));
   ("received_at", JStr (iso (pw_received_at s)));
   ("age_seconds", JInt age);
   ("is_stale", JBool (MAX_FRESH_SAMPLE_AGE_SECONDS <? age));
   ("source", JStr (pw_source s));
   ("source_kind", JStr (source_kind (pw_source s)));
   ("source_flags", JInt (pw_source_flags s));
   ("source_flags_decoded", decoded_json (decode_source_flags (Some (pw_source_flags s))));
   ("v_v", ofloat (pw_v_v s)); ("i_ma", oint (pw_i_ma s));
   ("i_ma_estimated", obool (pw_i_ma_estimated s)); ("i_ma_estimate", oint (pw_i_ma_estimate s));
   ("p_w", ofloat (pw_p_w s)); ("s_va", ofloat (pw_s_va s)); ("pf", ofloat (pw_pf s));
   ("hz", ofloat (pw_hz s)); ("energy_wh", oint (pw_energy_wh s));
   ("rssi_dbm", oint (pw_rssi_dbm s)); ("chip_type", ojson (pw_chip_type s));
   ("sampled_uptime_seconds", oint (pw_sampled_uptime_seconds s))].

(** ** Reads *)

Definition of_channel (device_id : string) (channel : Z) (table : list power_sample)
    : list power_sample :=
  filter (fun s => pw_device_id s = device_id /\ pw_channel_id s = channel) table.

(** [latest_sample]: the newest row. *)
Definition latest_power (device_id : string) (channel : Z) (table : list power_sample)
    : option power_sample :=
  if is_empty device_id then None
  else head (order_by_desc pw_sampled_at (of_channel device_id channel table)).
Definition latest_sample (device_id : string) (channel : Z) (now : time)
    (table : list power_sample) : option pydict :=
  serialize_sample now <$> latest_power device_id channel table.

(** [latest_samples_by_device]: the newest row of each device that has one. *)
Definition latest_samples_by_device (device_ids : list string) (channel : Z) (now : time)
    (table : list power_sample) : list (string * pydict) :=
  omap (fun d => (fun s => (d, s)) <$> latest_sample d channel now table)
       (filter (fun d => is_empty d = false) (remove_dups device_ids)).

(** [recent_samples]: the rows of the window, newest first, at most [limit]. *)
Definition recent_power (device_id : string) (channel window : Z) (limit : nat)
    (source : option string) (now : time) (table : list power_sample) : list power_sample :=
  if is_empty device_id then []
  else
    let win := clamp_window 60 RECENT_WINDOW_MAX_SECONDS RECENT_WINDOW_DEFAULT_SECONDS window in
    let cut := now - seconds win in
    firstn limit
      (order_by_desc pw_sampled_at
         (filter (fun s => cut <= pw_sampled_at s /\
                           (truthy_str source = true -> Some (pw_source s) = source))
                 (of_channel device_id channel table))).
Definition recent_samples (device_id : string) (channel window : Z) (limit : nat)
    (source : option string) (now : time) (table : list power_sample) : list pydict :=
  serialize_sample now <$> recent_power device_id channel window limit source now table.

Record breakdown := Breakdown {
  bd_window_seconds : Z; bd_total : nat; bd_real : nat; bd_synthetic : nat;
  bd_by_source : list (string * nat)
}.

(** [power_source_breakdown]: a count for each source of the window. *)
Definition power_source_breakdown (device_id : string) (channel window : Z) (now : time)
    (table : list power_sample) : breakdown :=
  let win := clamp_window 60 (30 * 86400) RECENT_WINDOW_DEFAULT_SECONDS window in
  let rows := if is_empty device_id then []
              else filter (fun s => now - seconds win <= pw_sampled_at s)
                          (of_channel device_id channel table) in
  let count src := length (filter (fun s => pw_source s = src) rows) in
  let by_source := (fun src => (src, count src)) <$> remove_dups (pw_source <$> rows) in
  let total := sum_list (snd <$> by_source) in
  let real := sum_list (snd <$> filter (fun kv => is_real kv.1 = true) by_source) in
  Breakdown win total real (total - real) by_source.

(** ** The intraday series *)

Record bucket := Bucket {
  bk_sum : pyfloat; bk_count : nat; bk_real : nat; bk_synthetic : nat
}.
Definition empty_bucket : bucket := Bucket (fint 0) 0 0 0.
Definition add_to_bucket (s : power_sample) (b : bucket) : bucket :=
  let '(sum, n) := match pw_p_w s with
                   | Some p => (fadd (bk_sum b) p, S (bk_count b))
                   | None => (bk_sum b, bk_count b)
                   end in
  if is_real (pw_source s) then Bucket sum n (S (bk_real b)) (bk_synthetic b)
  else Bucket sum n (bk_real b) (S (bk_synthetic b)).

(** [int(x)] of a finite float. *)
Definition trunc (f : pyfloat) : Z :=
  match f with
  | FFinite m e => if 0 <=? e then m * 2 ^ e else Z.quot m (2 ^ (- e))
  | _ => -1
  end.

(** The loop over the rows. *)
Definition fill_buckets (n : nat) (cut : time) (bucket_seconds : pyfloat)
    (rows : list power_sample) : list bucket :=
  fold_left (fun bs s =>
      let idx := trunc (fdiv (total_seconds (pw_sampled_at s - cut)) bucket_seconds) in
      if (idx <? 0) || (Z.of_nat n <=? idx) then bs
      else alter (add_to_bucket s) (Z.to_nat idx) bs)
    rows (replicate n empty_bucket).

Definition bucket_avg (b : bucket) : option pyfloat :=
  match bk_count b with
  | O => None
  | _ => Some (py_round (fdiv (bk_sum b) (fint (Z.of_nat (bk_count b)))) 2)
  end.

(** [intraday_power_series]: the window, the slices and their averages. *)
Definition intraday_power_series (device_id : string) (channel window buckets : Z) (now : time)
    (table : list power_sample) : Z * list (bucket * option pyfloat) :=
  if is_empty device_id then (0, [])
  else
    let win := clamp_window 600 (30 * 86400) 86400 window in
    let n := clamp_window 12 1440 144 buckets in
    let cut := now - seconds win in
    let rows := filter (fun s => cut <= pw_sampled_at s) (of_channel device_id channel table) in
    (win, (fun b => (b, bucket_avg b)) <$>
          fill_buckets (Z.to_nat n) cut (float_of_ratio win n) rows).
End power.

(** ** Uploads ([events.py]) *)

Definition MAX_POWER_BATCH : nat := 3600.
Definition ALLOWED_POWER_SOURCES : list string := ["steady"; "burst"; "synthetic"; "heartbeat"].

Section ingest.
(** [datetime.fromisoformat] (a naive value counts as UTC) and [str(v)]. *)
Context `{IsoClock} (py_repr : json -> string).

(** [_parse_ts]. *)
Definition parse_ts (v : json) : outcome (option time) :=
  if truthy v then
    match v with
    | JStr s => Ret (fromisoformat (replace_z s))
    | _ => Raise (AttributeError "replace")
    end
  else Ret None.

(** [_as_int], [_as_float]. *)
Definition as_int_field (v : json) : outcome (option Z) :=
  match v with
  | JNull => Ret None
  | _ => z ← try_int v;
         match z with Some z => Ret (Some z) | None => Raise (ValueError "must be an integer") end
  end.
Definition as_float_field (v : json) : outcome (option pyfloat) :=
  match v with
  | JNull => Ret None
  | _ => f ← try_float v;
         match f with Some f => Ret (Some f) | None => Raise (ValueError "must be numeric") end
  end.

(** [_as_bool]. *)
Definition as_bool_field (v : json) : option bool :=
  match v with
  | JNull => None
  | JBool b => Some b
  | JInt _ | JFloat _ => Some (truthy v)
  | _ => Some (in_strs (lower (strip (py_str py_repr v))) ["1"; "true"; "yes"; "on"])
  end.

(** [_first]. *)
Fixpoint first_present (raw : pydict) (keys : list string) : json :=
  match keys with
  | [] => JNull
  | k :: r => match dget raw k with JNull => first_present raw r | v => v end
  end.

(** [x or 0] on an optional integer. *)
Definition int_or_zero (z : option Z) : Z := match z with Some z => z | None => 0 end.

(** One row of [ingest_power_samples]. *)
Definition read_power_row (device_id : string) (now : time) (raw : json) : outcome power_sample :=
  match raw with
  | JObj d =>
    let source := str_take 20 (py_str py_repr (jor (dget d "source") (JStr "steady"))) in
    if negb (in_strs source ALLOWED_POWER_SOURCES) then Raise (ValueError "source must be one of")
    else
      at_ ← parse_ts (dget d "sampled_at");
      channel ← as_int_field (dget_default d "channel_id" (JInt 0));
      let channel := int_or_zero channel in
      if (channel <? 0) || (255 <? channel) then Raise (ValueError "channel_id must be in 0..255")
      else
        flags ← as_int_field (dget_default d "source_flags" (JInt 0));
        let flags := int_or_zero flags in
        if flags <? 0 then Raise (ValueError "source_flags must be >= 0")
        else
          let estimated := as_bool_field
            (first_present d ["i_ma_estimated"; "power_current_estimated"; "current_estimated"]) in
          estimate ← as_int_field (first_present d ["i_ma_estimate"; "power_estimated_current_ma";
                                                    "estimated_current_ma"]);
          uptime ← as_int_field (dget d "sampled_uptime_seconds");
          v_v ← as_float_field (dget d "v_v");
          i_ma ← as_int_field (dget d "i_ma");
          p_w ← as_float_field (dget d "p_w");
          s_va ← as_float_field (dget d "s_va");
          pf ← as_float_field (dget d "pf");
          hz ← as_float_field (dget d "hz");
          energy ← as_int_field (dget d "energy_wh");
          rssi ← as_int_field (dget d "rssi_dbm");
          _ ← as_int_field (dget d "tx_retry_count");
          _ ← as_int_field (dget d "beacon_miss_count");
          crc ← as_int_field (dget d "crc_fail_count");
          Ret (PowerSample device_id channel (default now at_) now uptime source flags v_v i_ma
                 estimated estimate p_w None None s_va pf hz energy rssi crc
                 (if truthy (dget d "chip_type")
                  then Some (str_take 32 (py_str py_repr (dget d "chip_type"))) else None))
  | _ => Raise (ValueError "each power sample must be an object")
  end.

(** [ingest_power_samples]; [db_store row] is the row as the columns keep it,
    or the error of the flush. *)
Definition ingest_power_samples (db_store : power_sample -> outcome power_sample)
    (device_id : string) (samples : list json) (now : time) (table : list power_sample)
    : outcome nat * list power_sample :=
  match samples with
  | [] => (Ret 0%nat, table)
  | _ =>
    if Nat.ltb MAX_POWER_BATCH (length samples)
    then (Raise (ValueError "too many power samples in one batch"), table)
    else
      session_scope (fun t =>
        match rows ← mapM (read_power_row device_id now) samples; mapM db_store rows with
        | Ret rows => (Ret (length samples), t ++ rows)
        | Raise e => (Raise e, t)
        end) table
  end.

(** [round(i_a * 1000)] as an integer. *)
Definition milliamps (i_a : pyfloat) : outcome Z :=
  py_int (JFloat (py_round (fmul i_a (fint 1000)) 0)).

(** [ingest_power_summary]: the row of a heartbeat's [power] object, or [None]
    when there is nothing to store. *)
Definition power_summary_row (device_id : string) (summary : json) (received_at : time)
    : outcome (option power_sample) :=
  match summary with
  | JObj d =>
    avg ← as_float_field (first_present d ["avg_w"; "p_w"]);
    match avg with
    | None => Ret None
    | Some avg =>
      min_w ← as_float_field (first_present d ["min_w"]);
      max_w ← as_float_field (first_present d ["max_w"]);
      v_v ← as_float_field (first_present d ["v_v"; "latest_v"]);
      i_a ← as_float_field (first_present d ["i_a"; "i_amps"; "latest_a"]);
      i_ma ← as_int_field (dget d "i_ma");
      i_ma ← match i_ma, i_a with
              | None, Some a => Some <$> milliamps a
              | _, _ => Ret i_ma
              end;
      pf ← as_float_field (first_present d ["pf"; "latest_pf"]);
      hz ← as_float_field (dget d "hz");
      energy ← as_int_field (dget d "energy_wh");
      invalid ← as_int_field (first_present d ["invalid_frame_count"; "power_invalid_frame_count";
                                               "invalid_frames"]);
      let estimated := as_bool_field (first_present d ["i_ma_estimated"; "power_current_estimated"]) in
      estimate ← as_int_field (first_present d ["i_ma_estimate"; "power_estimated_current_ma"]);
      uptime ← as_int_field (first_present d ["sampled_uptime_seconds";
                                              "window_start_uptime_seconds"]);
      Ret (Some (PowerSample device_id 0 received_at received_at uptime "heartbeat" 0 v_v i_ma
                   estimated estimate (Some avg) min_w max_w None pf hz energy None invalid None))
    end
  | _ => Ret None
  end.
End ingest.
