(* ===== verification/SensorTheorems.v ===== *)
(** * What the sensors promise

    The flags of a power sample are its bitfield; only the holder of a webhook's
    secret can write a sample through it, and whoever is served the list of
    sources holds it; a poll tick touches only what is due. *)

From stdpp Require Import pretty.
From S2P Require Import Prelude PyFloat ExternalSensors PowerSamples.
Local Open Scope string_scope.
Local Open Scope list_scope.
Local Open Scope Z_scope.

(** ** Source flags *)

(** The value of a set of bits. *)
Definition bits_value (bits : list nat) : Z := foldr (fun i acc => 2 ^ Z.of_nat i + acc) 0 bits.

Lemma bits_value_app a b : bits_value (a ++ b) = bits_value a + bits_value b.
Proof.
  induction a as [|i a IH]; [done|].
  change (bits_value ((i :: a) ++ b)) with (2 ^ Z.of_nat i + bits_value (a ++ b)).
  change (bits_value (i :: a)) with (2 ^ Z.of_nat i + bits_value a). lia.
Qed.

Lemma land_bit raw i : Z.land raw (Z.shiftl 1 (Z.of_nat i)) <> 0 <-> Z.testbit raw (Z.of_nat i) = true.
Proof.
  rewrite Z.shiftl_1_l. split.
  - intros H. destruct (Z.testbit raw (Z.of_nat i)) eqn:E; [done|]. exfalso. apply H.
    apply Z.bits_inj'. intros n Hn. rewrite Z.land_spec, Z.bits_0, Z.pow2_bits_eqb by lia.
    destruct (Z.eqb_spec (Z.of_nat i) n) as [<-|]; [by rewrite E|]. by rewrite andb_false_r.
  - intros H E. apply (f_equal (fun z => Z.testbit z (Z.of_nat i))) in E.
    rewrite Z.land_spec, Z.bits_0, Z.pow2_bits_true, H in E by lia. done.
Qed.

(** The low [n] bits of a number are worth its remainder. *)
Lemma low_bits_value raw n :
  bits_value (filter (fun i => Z.land raw (Z.shiftl 1 (Z.of_nat i)) <> 0) (seq 0 n))
  = raw mod 2 ^ Z.of_nat n.
Proof.
  induction n as [|n IH]; [cbn; by rewrite Z.mod_1_r|].
  rewrite seq_S, filter_app, bits_value_app, IH. cbn [Nat.add].
  rewrite Nat2Z.inj_succ, Z.pow_succ_r by lia.
  assert (0 < 2 ^ Z.of_nat n) as Hp by (apply Z.pow_pos_nonneg; lia).
  rewrite (Z.mul_comm 2), Z.rem_mul_r by lia. f_equal.
  rewrite filter_cons. pose proof (land_bit raw n) as Hb.
  pose proof (Z.testbit_spec' raw (Z.of_nat n) ltac:(lia)) as Hs. rewrite <- Hs.
  case_decide as Hd.
  - apply Hb in Hd. rewrite Hd. cbn -[Z.pow]. lia.
  - destruct (Z.testbit raw (Z.of_nat n)); [exfalso; exact (proj2 Hb eq_refl Hd)|]. cbn -[Z.pow]. lia.
Qed.

Lemma below_bit_length raw : 0 <= raw -> raw < 2 ^ Z.of_nat (bit_length raw).
Proof.
  intros H. unfold bit_length. destruct (Z.eqb_spec raw 0) as [->|Hne]; [done|].
  rewrite Nat2Z.inj_succ, Z2Nat.id by apply Z.log2_nonneg.
  apply Z.log2_spec. lia.
Qed.

(** The decoded flags are the bitfield.  Whatever integer the column holds,
    the indices are exactly its set bits, they add up to the value again, so no
    bit is dropped; a bit beyond the eight named ones has an index but no name;
    and NULL or a negative value decodes as zero. *)
Theorem decoded_flags_are_the_bitfield (flags : option Z) :
  let d := decode_source_flags flags in
  df_raw d = Z.max 0 (default 0 flags) /\
  bits_value (df_bits_set d) = df_raw d /\
  (forall i, i ∈ df_bits_set d <-> Z.testbit (df_raw d) (Z.of_nat i) = true) /\
  (length (df_names d) = length (filter (fun i => (i < 8)%nat) (df_bits_set d))).
Proof.
  cbv zeta. unfold decode_source_flags; cbn [df_raw df_bits_set df_names].
  set (raw := if _ <? 0 then 0 else _).
  assert (raw = Z.max 0 (default 0 flags)) as Hraw.
  { subst raw. destruct flags as [z|]; cbn; [|done]. destruct (Z.ltb_spec z 0); lia. }
  assert (0 <= raw) as Hn by lia. clearbody raw.
  pose proof (below_bit_length raw Hn) as Hl. split_and!; [done| | |].
  - rewrite low_bits_value. by apply Z.mod_small.
  - intros i. rewrite list_elem_of_filter, land_bit, elem_of_seq. split; [naive_solver|].
    intros Hi. split; [done|]. split; [lia|]. cbn.
    destruct (decide (i < bit_length raw)%nat) as [|Hge]; [done|].
    assert (raw < 2 ^ Z.of_nat i) as Hr.
    { eapply Z.lt_le_trans; [exact Hl|]. apply Z.pow_le_mono_r; lia. }
    rewrite <- (Z.mod_small raw (2 ^ Z.of_nat i)), Z.mod_pow2_bits_high in Hi by lia. done.
  - set (bits := filter _ _). clearbody bits. induction bits as [|i bits IH]; [done|].
    rewrite filter_cons. cbn [omap list_omap].
    destruct (POWER_SOURCE_FLAG_NAMES !! i) eqn:E.
    + apply lookup_lt_Some in E. cbn in E. rewrite decide_True by lia. cbn [length]. by rewrite <- IH.
    + apply lookup_ge_None in E. cbn in E. rewrite decide_False by lia. exact IH.
Qed.

(** ** Redaction and the webhook *)

Lemma fmap_lookup (g : string * json -> string * json) d k :
  (forall kv, (g kv).1 = kv.1) ->
  dict_get (g <$> d) k = (fun v => (g (k, v)).2) <$> dict_get d k.
Proof.
  intros Hg. induction d as [|[k' v] d IH]; [done|]. rewrite fmap_cons.
  pose proof (Hg (k', v)) as Hk. destruct (g (k', v)) as [k2 v2] eqn:E. cbn in Hk. subst k2.
  cbn [dict_get]. destruct (decide (k' = k)) as [->|Hne].
  - rewrite !String.eqb_refl. cbn. by rewrite E.
  - apply String.eqb_neq in Hne. rewrite ?(String.eqb_sym k), Hne. exact IH.
Qed.

(** What the page is served for a key that is neither masked nor [v3]. *)
Lemma redact_keeps d k : in_strs k secret_config_keys = false -> k <> "v3" ->
  forall out, redact_config (JObj d) = JObj out -> dict_get out k = dict_get d k.
Proof.
  intros Hk Hv out [= <-]. unfold mask_v3, mask_keys.
  rewrite (fmap_lookup (fun kv => match kv.2 with
             | JObj v3 => if String.eqb kv.1 "v3" then (kv.1, JObj (mask_keys secret_v3_keys v3))
                          else kv
             | _ => kv
             end)).
  2:{ intros [? v]. by repeat case_match. }
  rewrite fmap_lookup by (intros kv; by case_match). rewrite <- option_fmap_compose.
  destruct (dict_get d k) as [v|]; [|done]. cbn. rewrite Hk. cbn.
  apply String.eqb_neq in Hv. rewrite Hv. by destruct v.
Qed.

Section webhook.
Context (iso : time -> string).

(** A webhook writes for the holder of its secret only.  Either the request
    leaves every source and every sample as they were, or it is a 202: the source
    is an enabled webhook with a secret, the header presented exactly that secret,
    one sample of that source is appended and no other source changes. *)
Theorem webhook_writes_need_the_secret id presented cl body ra now now2 (w : sensors) :
  let '(r, w') := webhook_inbound iso id presented cl body ra now now2 w in
  w' = w \/
  (r = Ret 202 /\
   exists s secret p, sn_sources w !! id = Some s /\ src_kind s ∈ WEBHOOK_KINDS /\
     src_enabled s = true /\ jget (jor (src_config s) (JObj [])) "webhook_secret" = Ret (JStr secret) /\
     is_empty secret = false /\ presented = secret /\
     sn_samples w' = sn_samples w ++ [Sample (src_id s) now2 (JObj p)] /\
     forall i, i <> src_id s -> sn_sources w' !! i = sn_sources w !! i).
Proof.
  unfold webhook_inbound. destruct (match cl with Some _ => _ | None => _ end); [by left|].
  destruct (sn_sources w !! id) as [s|] eqn:Es; [|by left].
  destruct (in_strs (src_kind s) WEBHOOK_KINDS) eqn:Ek; cbn [negb]; [|by left].
  destruct (jget _ _) as [v|e] eqn:Ev; [|by left].
  destruct (src_enabled s) eqn:Een; cbn [negb]; [|by left].
  destruct (jor v (JStr empty_str)) as [| | | |secret| |] eqn:Ej; try by left.
  destruct (is_empty secret) eqn:Ee; [by left|]. unfold compare_digest.
  destruct (is_ascii presented && is_ascii secret); [|by left].
  destruct (String.eqb_spec presented secret) as [->|]; [|by left].
  destruct (webhook_payload body) as [p|]; [|by left].
  unfold record_webhook_event. rewrite Es, Ek, Een. cbn [negb]. right. split; [done|].
  exists s, secret. eexists. split_and!; try done.
  - by apply in_strs_spec.
  - rewrite Ev. f_equal. unfold jor in Ej. destruct (truthy v); [done|]. by simplify_eq.
  - intros i Hi. cbn. by rewrite lookup_insert_ne.
Qed.

(** The list of sources opens the webhooks.  The redaction documents that it
    strips the secret fields; it leaves [webhook_secret] in.  For every enabled
    webhook in the table, the row served to the pages contains a text with which
    anybody may write a sample. *)
Theorem served_row_opens_the_webhook id s d secret rows ra now now2 (w : sensors) :
  sn_sources w !! id = Some s -> s ∈ rows -> src_kind s ∈ WEBHOOK_KINDS -> src_enabled s = true ->
  src_config s = JObj d -> dict_get d "webhook_secret" = Some (JStr secret) ->
  is_empty secret = false -> is_ascii secret = true ->
  exists row cfg text, row ∈ list_sources iso rows w /\
    jget row "config" = Ret (JObj cfg) /\ dict_get cfg "webhook_secret" = Some (JStr text) /\
    (webhook_inbound iso id text None NoBody ra now now2 w).1 = Ret 202.
Proof.
  intros Hs Hin Hk He Hc Hd Hne Ha. unfold list_sources.
  eexists (serialize iso s _), _, secret. split_and!.
  - apply list_elem_of_fmap. exists s. split; [reflexivity|]. by rewrite order_by_desc_perm.
  - unfold serialize. rewrite Hc. cbn. destruct d; [done|]. reflexivity.
  - erewrite redact_keeps; [exact Hd|done|done|]. destruct d; [done|]. reflexivity.
  - unfold webhook_inbound, compare_digest. rewrite Hs. apply in_strs_spec in Hk as Hk'.
    rewrite Hk', Hc, He. destruct d as [|kv d]; [done|]. unfold jor at 1. cbn [truthy negb jget].
    unfold dget. rewrite Hd. unfold jor. cbn [truthy]. rewrite Hne. cbn [negb].
    rewrite Hne, Ha, String.eqb_refl. cbn. unfold record_webhook_event. by rewrite Hs, Hk', He.
Qed.
End webhook.

(** ** The poll tick *)

Section poll.
Context (poll_kind : source -> outcome json * json) (error_text : exn -> string).

(** Sources are keyed by their own id. *)
Definition wf_sources (w : sensors) : Prop := map_Forall (fun i s => src_id s = i) (sn_sources w).

(** A source a worker stamped during the tick, or one of a kind it refuses. *)
Definition stamped (clock : nat -> time) (w : sensors) (i : string) : Prop :=
  forall s, sn_sources w !! i = Some s ->
    in_strs (src_kind s) (WEBHOOK_KINDS ++ SUBSCRIBER_KINDS) = true \/
    exists k, src_last_polled_at s = Some (clock k).

Lemma in_strs_app s a b : in_strs s (a ++ b) = in_strs s a || in_strs s b.
Proof. unfold in_strs. apply existsb_app. Qed.

(** One poll: its own source, and at most one sample of it. *)
Lemma poll_source_frame id clock k w out w' : wf_sources w ->
  poll_source poll_kind error_text id (clock k) w = (out, w') ->
  wf_sources w' /\ (forall i, i <> id -> sn_sources w' !! i = sn_sources w !! i) /\
  stamped clock w' id /\
  (exists new, sn_samples w' = sn_samples w ++ new /\ Forall (fun m => sm_source_id m = id) new /\
     length new = match out with Polled _ _ => 1%nat | PollError _ => 0%nat end).
Proof.
  intros Hwf. unfold poll_source. destruct (sn_sources w !! id) as [s|] eqn:Es.
  2:{ intros [= <- <-]. split_and!; try done; [intros s Hs; congruence|].
      exists []. by rewrite app_nil_r. }
  assert (src_id s = id) as Hid by exact (Hwf _ _ Es).
  destruct (in_strs (src_kind s) WEBHOOK_KINDS) eqn:E1.
  { intros [= <- <-]. split_and!; try done; [|exists []; by rewrite app_nil_r].
    intros s' Hs'. left. rewrite Es in Hs'. simplify_eq. by rewrite in_strs_app, E1. }
  destruct (in_strs (src_kind s) SUBSCRIBER_KINDS) eqn:E2.
  { intros [= <- <-]. split_and!; try done; [|exists []; by rewrite app_nil_r].
    intros s' Hs'. left. rewrite Es in Hs'. simplify_eq. by rewrite in_strs_app, E2, orb_true_r. }
  assert (forall x l, src_id x = id -> (exists t, src_last_polled_at x = Some (clock t)) ->
    wf_sources (Sensors (<[src_id x := x]> (sn_sources w)) l (sn_next w)) /\
    (forall i, i <> id -> <[src_id x := x]> (sn_sources w) !! i = sn_sources w !! i) /\
    stamped clock (Sensors (<[src_id x := x]> (sn_sources w)) l (sn_next w)) id) as Hput.
  { intros x l Hx Ht. rewrite Hx. split_and!.
    - by apply map_Forall_insert_2.
    - intros i Hi. by rewrite lookup_insert_ne.
    - intros s' Hs'. cbn in Hs'. rewrite lookup_insert_eq in Hs'. simplify_eq. by right. }
  destruct (poll_kind _) as [[payload|e] cfg]; intros [= <- <-].
  - match goal with |- context [put_source ?x w] =>
      destruct (Hput x (sn_samples w ++ [Sample (src_id s) (clock k) payload]))
        as (H1 & H2 & H3); [done|by eexists|] end.
    split_and!; [exact H1|exact H2|exact H3|]. eexists. split; [reflexivity|]. by split; [constructor|].
  - match goal with |- context [put_source ?x w] =>
      destruct (Hput x (sn_samples w)) as (H1 & H2 & H3); [done|by eexists|] end.
    split_and!; [exact H1|exact H2|exact H3|]. exists []. by rewrite app_nil_r.
Qed.

Lemma poll_loop_frame clock ids : forall k st w st' w', wf_sources w ->
  poll_loop poll_kind error_text ids clock k st w = (st', w') ->
  (ps_polled st' + ps_errors st' = ps_polled st + ps_errors st + length ids)%nat /\
  ps_considered st' = ps_considered st /\ ps_skipped st' = ps_skipped st /\
  (forall i, i ∉ ids -> sn_sources w' !! i = sn_sources w !! i) /\
  (forall i, i ∈ ids \/ stamped clock w i -> stamped clock w' i) /\
  (exists new, sn_samples w' = sn_samples w ++ new /\ Forall (fun m => sm_source_id m ∈ ids) new /\
     (length new + ps_polled st = ps_polled st')%nat).
Proof.
  induction ids as [|id ids IH]; intros k st w st' w' Hwf; cbn [poll_loop].
  { intros [= <- <-]. split_and!; [cbn [length]; lia|done|done|done|set_solver|].
    exists []. by rewrite app_nil_r. }
  destruct (poll_source _ _ id (clock k) w) as [out w1] eqn:E. intros H.
  destruct (poll_source_frame id clock k w out w1 Hwf E) as (Hwf1 & Ho1 & Hs1 & new1 & Hn1 & Hf1 & Hl1).
  apply IH in H as (H1 & H2 & H3 & Ho & Hs & new & Hn & Hf & Hl); [|done].
  split_and!.
  - destruct out; cbn in *; lia.
  - by destruct out.
  - by destruct out.
  - intros i Hi. rewrite Ho by set_solver. apply Ho1. set_solver.
  - intros i Hi. apply Hs. destruct (decide (i = id)) as [->|Hne]; [by right|].
    destruct Hi as [Hi|Hi]; [left; set_solver|]. right. intros s Hlk. rewrite Ho1 in Hlk by done.
    by apply Hi.
  - exists (new1 ++ new). rewrite Hn, Hn1, app_assoc. split_and!; [done| |].
    + apply Forall_app. split; [eapply Forall_impl; [exact Hf1|]; set_solver|].
      eapply Forall_impl; [exact Hf|]. set_solver.
    + rewrite length_app, Hl1. destruct out; cbn [ps_polled] in Hl; lia.
Qed.

(** A poll tick touches what is due, and stamps it.  Sources that are
    disabled, of a pushed kind or not due keep their row and get no sample; the
    counters add up, and the samples appended are as many as the polls that
    succeeded; every source polled is stamped with a time of this tick, whether
    it answered or failed, so that a broken source waits its interval like any
    other. *)
Theorem poll_tick_is_contained (rows : list source) (clock : nat -> time) (w w' : sensors) st :
  wf_sources w -> poll_all_due poll_kind error_text rows clock w = (st, w') ->
  let due := filter (fun s => poll_due (clock 0%nat) s = true)
               (filter (fun s => pollable s = true) rows) in
  ps_considered st = (ps_polled st + ps_errors st + ps_skipped st)%nat /\
  (forall i, i ∉ src_id <$> due -> sn_sources w' !! i = sn_sources w !! i) /\
  (forall i, i ∈ src_id <$> due -> stamped clock w' i) /\
  exists new, sn_samples w' = sn_samples w ++ new /\ length new = ps_polled st /\
    Forall (fun m => sm_source_id m ∈ src_id <$> due) new.
Proof.
  intros Hwf H. cbv zeta. unfold poll_all_due in H.
  set (selected := filter (fun s => pollable s = true) rows) in *.
  set (due := filter (fun s => poll_due (clock 0%nat) s = true) selected) in *.
  apply poll_loop_frame in H as (H1 & H2 & H3 & Ho & Hs & new & Hn & Hf & Hl); [|done].
  cbn in H1, H2, H3, Hl. rewrite length_fmap in H1.
  assert (length due <= length selected)%nat as Hd by (apply sublist_length, sublist_filter).
  split_and!; [lia|exact Ho|intros i Hi; apply Hs; by left|].
  exists new. split_and!; [done|lia|done].
Qed.
End poll.

(** ** Witnesses *)

Module Example.

Definition no_iso (_ : time) : string := empty_str.
Definition hook : source :=
  Source "ext_1" "plex" "Plex" empty_str 0 true 30 None None None
    (JObj [("webhook_secret", JStr "s3cret"); ("password", JStr "hunter2")]) 0 0.
Definition roku : source :=
  Source "ext_2" "roku" "Roku" "10.0.0.9" 8060 true 30 (Some 0) None None JNull 0 0.
Definition idle : source :=
  Source "ext_3" "roku" "Roku 2" "10.0.0.8" 8060 true 30 (Some (seconds 20)) None None JNull 0 0.
Definition w0 : sensors :=
  Sensors {["ext_1" := hook; "ext_2" := roku; "ext_3" := idle]} [] 0.

Lemma served_row_opens_the_webhook_witness :
  exists row cfg text, row ∈ list_sources no_iso [hook] w0 /\
    jget row "config" = Ret (JObj cfg) /\ dict_get cfg "webhook_secret" = Some (JStr text) /\
    (webhook_inbound no_iso "ext_1" text None NoBody None 5 5 w0).1 = Ret 202.
Proof.
  refine (served_row_opens_the_webhook no_iso "ext_1" hook _ "s3cret" [hook] None 5 5 w0
            _ _ _ _ eq_refl _ _ _).
  - vm_compute. reflexivity.
  - left.
  - apply in_strs_spec. reflexivity.
  - reflexivity.
  - reflexivity.
  - reflexivity.
  - reflexivity.
Defined.

(** Every poll fails. *)
Definition broken (s : source) : outcome json * json := (Raise (ValueError "timeout"), src_config s).
Definition clock (k : nat) : time := seconds (40 + Z.of_nat k).

Lemma poll_tick_is_contained_witness :
  exists st w', poll_all_due broken exn_str [hook; roku; idle] clock w0 = (st, w') /\
    ps_errors st = 1%nat /\ sn_sources w' !! "ext_3" = sn_sources w0 !! "ext_3" /\
    stamped clock w' "ext_2".
Proof.
  destruct (poll_all_due broken exn_str [hook; roku; idle] clock w0) as [st w'] eqn:E.
  exists st, w'. split; [reflexivity|].
  destruct (poll_tick_is_contained broken exn_str [hook; roku; idle] clock w0 w' st)
    as (_ & H1 & H2 & _); [|exact E|].
  - apply (bool_decide_unpack _). vm_compute. exact I.
  - split; [vm_compute in E; by injection E as <- _|]. split.
    + apply H1. apply (bool_decide_unpack _). vm_compute. exact I.
    + apply H2. apply (bool_decide_unpack _). vm_compute. exact I.
Defined.
End Example.
