(* ===== verification/Epg.v ===== *)
(** * The programme guide ([app/services/epg.py])

    A cache of what airs when, refreshed from a provider and asked by the
    [epg_show_airing] probe. *)

From Stdlib Require Import Ascii.
From S2P Require Import Prelude PyFloat ExternalSensors.
Local Open Scope string_scope.
Local Open Scope list_scope.
Local Open Scope Z_scope.

(** ** [datetime.fromisoformat] where the code keeps a naive value apart *)
Inductive pydt := Aware (t : time) | Naive (t : time).

(** ** SQL [LIKE]

    The percent sign matches any text, the underscore one character, and a
    backslash makes the next character literal. *)
Definition PERCENT : Ascii.ascii := "%"%char.
Definition UNDERSCORE : Ascii.ascii := "_"%char.
Definition BACKSLASH : Ascii.ascii := "\"%char.

Fixpoint sql_like (p s : string) : bool :=
  match p with
  | EmptyString => is_empty s
  | String a p' =>
    if Ascii.eqb a PERCENT then
      (fix any (s : string) : bool :=
         sql_like p' s || match s with EmptyString => false | String _ r => any r end) s
    else if Ascii.eqb a UNDERSCORE then
      match s with EmptyString => false | String _ r => sql_like p' r end
    else if Ascii.eqb a BACKSLASH then
      match p', s with
      | String b p'', String c r => Ascii.eqb b c && sql_like p'' r
      | _, _ => false
      end
    else match s with EmptyString => false | String c r => Ascii.eqb a c && sql_like p' r end
  end.

(** [col.ilike(f"%{needle}%")]. *)
Definition ilike_contains (needle s : string) : bool :=
  sql_like (lower (String.append "%" (String.append needle "%"))) (lower s).

(** ** The table ([app/models/external_epg.py]) *)

Record epg_row := EpgRow {
  ep_provider : string;
  ep_channel_id : string;
  ep_airing_start : time;
  ep_airing_end : time;
  ep_show_title : string;
  ep_episode_title : option string;
  ep_season : option Z;
  ep_episode : option Z;
  ep_extra : json;
  ep_fetched_at : time
}.

Definition PROVIDER : string := "tvmaze".
Definition DEFAULT_RUNTIME_MIN : Z := 30.

(** The columns of the unique constraint. *)
Definition epg_key (r : epg_row) : string * string * time * string :=
  (ep_provider r, ep_channel_id r, ep_airing_start r, ep_show_title r).

Section epg.
Context (parse_dt : string -> option pydt) (py_repr : json -> string).

(** [int(v)], [None] on the two exceptions the code catches. *)
Definition int_or_none (v : json) : outcome (option Z) := try_int v.

(** [x.get("name") or ""), stripped], on a value that is a dict or not. *)
Definition channel_name (network : json) : outcome string :=
  match network with
  | JObj d => strip_or_empty (dget d "name")
  | _ => Ret empty_str
  end.

(** [(ep.get("name") or "")[:300] or None]. *)
Definition episode_title (v : json) : outcome (option string) :=
  match jor v (JStr empty_str) with
  | JStr s => let t := str_take 300 s in Ret (if is_empty t then None else Some t)
  | JList _ => Raise (DBError "episode_title")
  | _ => Raise (TypeError "not subscriptable")
  end.

(** The air time, in UTC. *)
Definition air_start (airstamp : json) : option time :=
  match parse_dt (replace_z (py_str py_repr airstamp)) with
  | Some (Aware t) | Some (Naive t) => Some t
  | None => None
  end.

(** [_parse_episode]. *)
Definition parse_episode (now : time) (ep : json) : outcome (option epg_row) :=
  match ep with
  | JObj d =>
    let show := jor (dget d "show") (JObj []) in
    name ← jget show "name";
    title ← strip_or_empty name;
    if is_empty title then Ret None
    else
      net ← jget show "network"; web ← jget show "webChannel";
      channel ← channel_name (jor net (jor web (JObj [])));
      if is_empty channel then Ret None
      else if negb (truthy (dget d "airstamp")) then Ret None
      else
        match air_start (dget d "airstamp") with
        | None => Ret None
        | Some start =>
          avg ← jget show "averageRuntime";
          rt ← try_int (jor (dget d "runtime") (jor avg (JInt DEFAULT_RUNTIME_MIN)));
          let runtime := match rt with
                         | Some z => if z <=? 0 then DEFAULT_RUNTIME_MIN else z
                         | None => DEFAULT_RUNTIME_MIN
                         end in
          let end_ := start + minutes runtime in
          if MAX_DATETIME <? end_ then Raise OverflowError
          else
            genres ← jget show "genres";
            let genres := match genres with JList l => l | _ => [] end in
            etitle ← episode_title (dget d "name");
            season ← int_or_none (dget d "season");
            number ← int_or_none (dget d "number");
            Ret (Some (EpgRow PROVIDER (str_take 80 channel) start end_ (str_take 300 title)
                         etitle season number
                         (JObj [("genres", JList (firstn 8 genres)); ("runtime_min", JInt runtime)])
                         now))
        end
  | _ => Ret None
  end.

(** The rows of one fetched day; an exception leaves the function. *)
Fixpoint parse_all (now : time) (eps : list json) : outcome (list epg_row) :=
  match eps with
  | [] => Ret []
  | ep :: r =>
    p ← parse_episode now ep; rest ← parse_all now r;
    Ret (match p with Some row => row :: rest | None => rest end)
  end.

(** [if key in seen: continue]: the first row of each key. *)
Fixpoint dedupe_rows (seen : list (string * string * time * string)) (rows : list epg_row)
    : list epg_row :=
  match rows with
  | [] => []
  | r :: rest =>
    if bool_decide (epg_key r ∈ seen) then dedupe_rows seen rest
    else r :: dedupe_rows (epg_key r :: seen) rest
  end.

Record epg_stats := EpgStats { es_fetched : nat; es_stored : nat; es_pruned : nat; es_errors : nat }.

(** The start of the UTC day of [now]. *)
Definition day_start (now : time) : time := now / DAY * DAY.

(** The transaction: the window is replaced, then rows that ended a day ago go.  Both deletes
    run on the table as it was stored, before the new rows are flushed: the session does not
    flush by itself. *)
Definition replace_window (now : time) (rows cache : list epg_row)
    : outcome (nat * nat) * list epg_row :=
  let kept := filter (fun r => ~ (ep_provider r = PROVIDER /\ day_start now <= ep_airing_start r))
                     cache in
  let left_ := filter (fun r => now - hours 24 <= ep_airing_end r) kept in
  let fresh := dedupe_rows [] rows in
  if bool_decide (NoDup (epg_key <$> (left_ ++ fresh)))
  then (Ret (length fresh, (length kept - length left_)%nat), left_ ++ fresh)
  else (Raise (DBError "uq_epg_cache"), cache).

(** [refresh_epg]; [today] and [tomorrow] are what the two fetches returned. *)
Definition refresh_epg (today tomorrow : outcome (list json)) (now : time) (cache : list epg_row)
    : outcome epg_stats * list epg_row :=
  let count (o : outcome (list json)) := match o with Ret eps => length eps | Raise _ => 0%nat end in
  let fails (o : outcome (list json)) := match o with Ret _ => 0%nat | Raise _ => 1%nat end in
  let read (o : outcome (list json)) := match o with Ret eps => parse_all now eps | Raise _ => Ret [] end in
  let fetched := (count today + count tomorrow)%nat in
  let errors := (fails today + fails tomorrow)%nat in
  match a ← read today; b ← read tomorrow; Ret (a ++ b) with
  | Raise e => (Raise e, cache)
  | Ret rows =>
    match rows, errors with
    | [], S _ => (Ret (EpgStats fetched 0 0 errors), cache)
    | _, _ =>
      match session_scope (replace_window now rows) cache with
      | (Raise e, c) => (Raise e, c)
      | (Ret (stored, pruned), c) => (Ret (EpgStats fetched stored pruned errors), c)
      end
    end
  end.

(** [show_airing_now]: the latest airing that matches. *)
Definition airs (show : string) (network : option string) (now : time) (r : epg_row) : bool :=
  String.eqb (ep_provider r) PROVIDER && (ep_airing_start r <=? now) && (now <? ep_airing_end r) &&
  ilike_contains show (ep_show_title r) &&
  match network with
  | Some n => if is_empty n then true else String.eqb (lower (ep_channel_id r)) (lower n)
  | None => true
  end.
Definition show_airing_now (show : string) (network : option string) (now : time)
    (cache : list epg_row) : option epg_row :=
  let show := strip show in
  if is_empty show then None
  else head (order_by_desc ep_airing_start (filter (fun r => airs show network now r = true) cache)).

(** [epg_status()["cached_rows"]]. *)
Definition cached_rows (cache : list epg_row) : nat :=
  length (filter (fun r => ep_provider r = PROVIDER) cache).
End epg.
