(* ===== verification/WatchdogProbes.v ===== *)
(** * Watchdog probes ([watchdog_runtime/_probes.py], [_probes_integrations.py])

    [run_probe] and every probe it dispatches to: what the hub knows (samples,
    power rows, heartbeats, the programme guide) is the record [probe_env]; what
    the network answers is a set of parameters.  A probe answers ["success"] or
    ["failure"] with the details the event log keeps. *)

From S2P Require Import Prelude PyFloat ExternalSensors PowerSamples Epg.
From S2P Require Import Commands QueueInterface WatchdogActions.
Local Open Scope string_scope.
Local Open Scope list_scope.
Local Open Scope Z_scope.

(** ** What the probes read *)

Record heartbeat_row := HeartbeatRow {
  hb_device_id : string; hb_received_at : time; hb_relay_on : bool
}.

(** [pe_now] and [pe_later] are the two readings of the clock a probe may take. *)
Record probe_env := ProbeEnv {
  pe_now : time;
  pe_later : time;
  pe_sensors : sensors;
  pe_power : list power_sample;
  pe_heartbeats : list heartbeat_row;
  pe_last_heartbeat : gmap string time;
  pe_epg : list epg_row
}.

(** What a connection attempt, a ping and an HTTP exchange answer. *)
Inductive attempt := Connected | NotConnected | Broke (e : exn).
Inductive ping_result :=
  | PingTimeout
  | PingGone
  | PingExit (code : Z) (rtt : option pyfloat) (tail : string).
Inductive http_reply :=
  | HttpStatus (code : Z) (location : option string)
  | HttpBroken.

(** The answer of a probe. *)
Abbreviation probe_answer := (outcome (string * json)).
Definition fails (kvs : pydict) : probe_answer := Ret ("failure", JObj kvs).
Definition answers (ok : bool) (kvs : pydict) : probe_answer :=
  Ret (if ok then "success" else "failure", JObj kvs).
Definition reason (r : string) : string * json := ("reason", JStr r).

(** [try: int(probe.get(k) or dflt) except (TypeError, ValueError): dflt]. *)
Definition int_field (probe : pydict) (k : string) (dflt : Z) : outcome Z :=
  z ← try_int (jor (dget probe k) (JInt dflt)); Ret (default dflt z).

Definition PROBE_TIMEOUT_SECONDS : Z := 3.
Definition MAX_INTERNET_TARGETS : nat := 8.
Definition DEFAULT_INTERNET_TARGETS : list json :=
  (fun h => JObj [("host", JStr h); ("port", JInt 53)]) <$> ["1.1.1.1"; "8.8.8.8"; "4.2.2.2"].

Definition DISPATCHED_PROBE_KINDS : list string :=
  ["internet"; "ping"; "tcp"; "host_awake"; "http"; "dns"; "gateway";
   "roku_app_active"; "ha_state_is"; "ha_numeric_above"; "ha_numeric_below";
   "weather_alert_active"; "ical_event_active";
   "power_above"; "power_below"; "power_zero_while_on";
   "solar_production_above"; "solar_production_below";
   "snmp_interface_down"; "snmp_throughput_above"; "snmp_throughput_below";
   "snmp_error_rate_above"; "media_session_active"; "webhook_field_equals";
   "mqtt_topic_equals"; "epg_show_airing"; "device_heartbeat_stale"].

Section probes.
Context `{Clock : IsoClock}.
Context (py_repr : json -> string) (iso : time -> string) (parse_dt : string -> option pydt).
#[local] Abbreviation str := (py_str py_repr).

(** ** Network probes ([_probes.py]) *)

Context (connect : json -> Z -> attempt) (ping_installed : bool) (ping : string -> Z -> ping_result)
        (resolve : string -> attempt).
Context (http_scheme : string -> bool) (fetch : string -> http_reply)
        (urljoin : string -> string -> option string).

(** [_probe_tcp]. *)
Definition probe_tcp (host : json) (port : Z) : outcome bool :=
  if negb (truthy host) || (port =? 0) then Ret false
  else match connect host port with
       | Connected => Ret true
       | NotConnected => Ret false
       | Broke e => Raise e
       end.

(** [_probe_ping]. *)
Definition probe_ping (probe : pydict) : probe_answer :=
  host ← strip_or_empty (dget probe "host");
  if is_empty host then fails [reason "missing host"]
  else
    timeout ← int_field probe "timeout_seconds" PROBE_TIMEOUT_SECONDS;
    let timeout := if timeout <? 1 then 1 else timeout in
    let fallback why :=
      ok ← probe_tcp (JStr host) 80;
      answers ok [("fallback", JStr "tcp_80"); reason why] in
    if negb ping_installed then fallback "ping binary not available in container"
    else
      match ping host timeout with
      | PingTimeout => fails [reason "ping subprocess timeout"]
      | PingGone => fallback "ping disappeared mid-probe"
      | PingExit code rtt tail =>
        if code =? 0 then
          answers true (("host", JStr host) ::
                        match rtt with Some f => [("rtt_ms", JFloat f)] | None => [] end)
        else
          fails [("host", JStr host);
                 reason (if code =? 1 then "no_reply" else "ping_error");
                 ("exit_code", JInt code); ("stderr_tail", JStr (str_take 200 tail))]
      end.

(** One target of [_probe_internet]: does it answer, and its line in the log. *)
Definition target_line (host : string) (port : json) (err : option string) : json :=
  JObj ([("host", JStr host); ("port", port)] ++
        match err with Some e => [("error", JStr e)] | None => [] end).
Definition probe_target (t : json) : outcome (bool * json) :=
  match t with
  | JObj d =>
    let raw_host := str (jor (dget d "host") (JStr empty_str)) in
    z ← try_int (jor (dget d "port") (JInt 0));
    match z with
    | None => Ret (false, target_line raw_host (dget d "port") (Some "bad target shape"))
    | Some port =>
      let host := strip raw_host in
      if is_empty host || (port <=? 0)
      then Ret (false, target_line host (JInt port) (Some "bad target shape"))
      else
        ok ← probe_tcp (JStr host) port;
        Ret (ok, target_line host (JInt port) (match ok with true => None | false => Some "tcp_connect_failed" end))
    end
  | _ => Ret (false, target_line (str t) JNull (Some "bad target shape"))
  end.

(** The targets a probe walks, and whether they are the default ones. *)
Definition internet_targets (probe : pydict) : list json * bool :=
  match jor (dget probe "targets") (JList []) with
  | JList ((_ :: _) as l) => (firstn MAX_INTERNET_TARGETS l, false)
  | _ => (DEFAULT_INTERNET_TARGETS, true)
  end.

(** [_probe_internet]: every target is tried. *)
Definition probe_internet (probe : pydict) : probe_answer :=
  let '(targets, defaulted) := internet_targets probe in
  tried ← (mapM probe_target targets : outcome (list (bool * json)));
  let succeeded := snd <$> filter (fun x : bool * json => x.1 = true) tried in
  let failed := snd <$> filter (fun x : bool * json => x.1 = false) tried in
  answers (match succeeded with [] => false | _ => true end)
    ([("targets_succeeded", JList succeeded); ("targets_failed", JList failed);
      ("targets_total", JInt (Z.of_nat (length targets)))] ++
     if defaulted then [("used_default_targets", JBool true)] else []).

(** The redirect loop of [_probe_http]: the answer and the URLs requested. *)
Fixpoint http_loop (n : nat) (url : string) (seen : list string) : bool * list string :=
  match n with
  | O => (false, [])
  | S n =>
    if is_empty url || bool_decide (url ∈ seen) then (false, [])
    else if negb (http_scheme url) then (false, [])
    else
      match fetch url with
      | HttpBroken => (false, [url])
      | HttpStatus code location =>
        if (200 <=? code) && (code <? 300) then (true, [url])
        else if (300 <=? code) && (code <? 400) && truthy_str location then
          match location with
          | Some l =>
            match urljoin url l with
            | Some next => let '(ok, trace) := http_loop n next (url :: seen) in (ok, url :: trace)
            | None => (false, [url])
            end
          | None => (false, [url])
          end
        else (false, [url])
      end
  end.
Definition MAX_REDIRECTS : nat := 3.

(** [_probe_http]; only a string reaches the loop ([in seen] wants a hashable
    value, [urlparse] a string). *)
Definition probe_http (url : json) : outcome bool :=
  if negb (truthy url) then Ret false
  else match url with
       | JStr s => Ret (http_loop (S MAX_REDIRECTS) s []).1
       | JList _ | JObj _ => Raise (TypeError "unhashable type")
       | _ => Ret false
       end.

(** [_probe_dns]. *)
Definition probe_dns (hostname : json) : outcome bool :=
  if negb (truthy hostname) then Ret false
  else match hostname with
       | JStr s => match resolve s with
                   | Connected => Ret true
                   | NotConnected => Ret false
                   | Broke e => Raise e
                   end
       | _ => Raise (TypeError "gethostbyname() argument")
       end.

(** ** Sample-backed probes ([_probes_integrations.py]) *)

Context (env : probe_env).

(** [latest_sample(source_id, max_age_seconds=...)] at this probe's clock. *)
Definition latest (source_id : string) (max_age : Z) : outcome (option pydict) :=
  ExternalSensors.latest_sample iso source_id max_age (pe_now env) (pe_sensors env).

Definition stale (why source_id : string) (max_age : Z) : probe_answer :=
  fails [reason why; ("source_id", JStr source_id); ("max_sample_age_seconds", JInt max_age)].

Definition payload_of (sample : pydict) : json := jor (dget sample "payload") (JObj []).
Definition sampled_at (sample : pydict) : string * json := ("sampled_at", dget sample "sampled_at").

(** [_probe_roku_app_active]. *)
Definition probe_roku_app_active (probe : pydict) : probe_answer :=
  source_id ← strip_or_empty (dget probe "source_id");
  expected ← strip_or_empty (dget probe "app_name");
  if is_empty source_id then fails [reason "missing source_id"]
  else if is_empty expected then fails [reason "missing app_name"]
  else
    max_age ← int_field probe "max_sample_age_seconds" 120;
    s ← latest source_id max_age;
    match s with
    | None => stale "stale_sample" source_id max_age
    | Some s =>
      app ← jget (payload_of s) "active_app";
      actual ← strip_or_empty app;
      saver ← jget (payload_of s) "screensaver_active";
      if is_empty actual then
        fails [reason "no_active_app"; ("source_id", JStr source_id); sampled_at s;
               ("screensaver_active", saver)]
      else
        answers (str_in (lower expected) (lower actual))
          [("source_id", JStr source_id); ("expected_app", JStr expected);
           ("actual_app", JStr actual); sampled_at s; ("screensaver_active", saver)]
    end.

(** [entities.get(entity_id)] of a Home Assistant payload. *)
Definition ha_entry (payload : json) (entity_id : string) : json :=
  match payload with
  | JObj p => match jor (dget p "entities") (JObj []) with
              | JObj es => dget es entity_id
              | _ => JNull
              end
  | _ => JNull
  end.

Definition entity_not_found (s : pydict) (source_id entity_id : string) : probe_answer :=
  fails [reason "entity_not_found"; ("source_id", JStr source_id); ("entity_id", JStr entity_id);
         sampled_at s].

(** [_probe_ha_state_is]. *)
Definition probe_ha_state_is (probe : pydict) : probe_answer :=
  source_id ← strip_or_empty (dget probe "source_id");
  entity_id ← strip_or_empty (dget probe "entity_id");
  let expected := strip (str (jor (dget probe "expected_state") (JStr empty_str))) in
  if is_empty source_id || is_empty entity_id || is_empty expected
  then fails [reason "missing source_id / entity_id / expected_state"]
  else
    max_age ← int_field probe "max_sample_age_seconds" 60;
    s ← latest source_id max_age;
    match s with
    | None => stale "stale_sample" source_id max_age
    | Some s =>
      match ha_entry (payload_of s) entity_id with
      | JObj entry =>
        let actual := str (jor (dget entry "state") (JStr empty_str)) in
        answers (String.eqb (lower actual) (lower expected))
          [("source_id", JStr source_id); ("entity_id", JStr entity_id);
           ("expected_state", JStr expected); ("actual_state", JStr actual);
           ("last_changed", dget entry "last_changed"); sampled_at s]
      | _ => entity_not_found s source_id entity_id
      end
    end.

(** The comparison of the [*_above] and [*_below] probes: the probe fails when
    the value is past the threshold. *)
Definition past (above : bool) (v threshold : pyfloat) : bool :=
  if above then fgt v threshold else flt v threshold.

(** The reading of [_probe_ha_numeric]: the entity's state or an attribute. *)
Definition ha_reading (entry : pydict) (attribute : string) : outcome json :=
  if is_empty attribute then Ret (dget entry "state")
  else jget (jor (dget entry "attributes") (JObj [])) attribute.

(** [_probe_ha_numeric]. *)
Definition probe_ha_numeric (probe : pydict) (above : bool) : probe_answer :=
  source_id ← strip_or_empty (dget probe "source_id");
  entity_id ← strip_or_empty (dget probe "entity_id");
  if is_empty source_id || is_empty entity_id then fails [reason "missing source_id / entity_id"]
  else
    attribute ← strip_or_empty (dget probe "attribute");
    threshold ← try_float (dget probe "threshold");
    match threshold with
    | None => fails [reason "missing or non-numeric threshold"]
    | Some threshold =>
      max_age ← int_field probe "max_sample_age_seconds" 60;
      s ← latest source_id max_age;
      match s with
      | None => stale "stale_sample" source_id max_age
      | Some s =>
        match ha_entry (payload_of s) entity_id with
        | JObj entry =>
          raw ← ha_reading entry attribute;
          value ← try_float raw;
          match value with
          | None =>
            fails [reason "non_numeric_reading"; ("source_id", JStr source_id);
                   ("entity_id", JStr entity_id); ("attribute", none_if_empty attribute);
                   ("raw_value", raw); sampled_at s]
          | Some value =>
            answers (negb (past above value threshold))
              [("source_id", JStr source_id); ("entity_id", JStr entity_id);
               ("attribute", none_if_empty attribute); ("value", JFloat value);
               ("threshold", JFloat threshold); ("last_changed", dget entry "last_changed");
               sampled_at s]
          end
        | _ => entity_not_found s source_id entity_id
        end
      end
    end.

(** [sev_rank.get(s, 0)]. *)
Definition sev_rank (s : string) : Z :=
  if String.eqb s "minor" then 1 else if String.eqb s "moderate" then 2
  else if String.eqb s "severe" then 3 else if String.eqb s "extreme" then 4 else 0.

(** One alert that passes the filters. *)
Definition match_alert (event_substr : string) (min_sev : Z) (a : json) : option json :=
  match a with
  | JObj d =>
    let event := str (jor (dget d "event") (JStr empty_str)) in
    let sev := lower (str (jor (dget d "severity") (JStr empty_str))) in
    if negb (is_empty event_substr) && negb (str_in event_substr (lower event)) then None
    else if negb (min_sev =? 0) && (sev_rank sev <? min_sev) then None
    else Some (JObj [("event", JStr event); ("severity", dget d "severity");
                     ("headline", dget d "headline"); ("ends", dget d "ends")])
  | _ => None
  end.

(** [payload.get(k)] when it is a list of a dict, the empty list otherwise. *)
Definition payload_list (payload : json) (k : string) : list json :=
  match payload with
  | JObj p => match dget p k with JList l => l | _ => [] end
  | _ => []
  end.

(** [_probe_weather_alert_active]. *)
Definition probe_weather_alert_active (probe : pydict) : probe_answer :=
  source_id ← strip_or_empty (dget probe "source_id");
  if is_empty source_id then fails [reason "missing source_id"]
  else
    ev ← strip_or_empty (dget probe "event_contains");
    min_sev_raw ← strip_or_empty (dget probe "min_severity");
    max_age ← int_field probe "max_sample_age_seconds" 600;
    s ← latest source_id max_age;
    match s with
    | None => stale "stale_sample" source_id max_age
    | Some s =>
      let alerts := payload_list (payload_of s) "alerts" in
      let matched := omap (match_alert (lower ev) (sev_rank (lower min_sev_raw))) alerts in
      answers (match matched with [] => false | _ => true end)
        [("source_id", JStr source_id); ("alerts_total", JInt (Z.of_nat (length alerts)));
         ("alerts_matched", JList matched); ("event_filter", none_if_empty (lower ev));
         ("min_severity", none_if_empty min_sev_raw); sampled_at s]
    end.

(** [start <= now < end] between datetimes: an aware and a naive one do not
    compare, and the second comparison runs only after the first holds. *)
Definition airing (start end_ : pydt) (now : time) : outcome bool :=
  match start with
  | Naive _ => Raise (TypeError "can't compare offset-naive and offset-aware datetimes")
  | Aware s =>
    if s <=? now then
      match end_ with
      | Naive _ => Raise (TypeError "can't compare offset-naive and offset-aware datetimes")
      | Aware e => Ret (now <? e)
      end
    else Ret false
  end.
Definition shift_dt (d : Z) (x : pydt) : outcome pydt :=
  match x with
  | Aware t => if MAX_DATETIME <? t + d then Raise OverflowError else Ret (Aware (t + d))
  | Naive t => if MAX_DATETIME <? t + d then Raise OverflowError else Ret (Naive (t + d))
  end.

(** One event of the feed: listed as active, or not. *)
Definition match_event (needle : string) (now : time) (e : json) : outcome (option json) :=
  match e with
  | JObj d =>
    let summary := str (jor (dget d "summary") (JStr empty_str)) in
    if negb (is_empty needle) && negb (str_in needle (lower summary)) then Ret None
    else
      match parse_dt (replace_z (str (jor (dget d "start") (JStr empty_str)))) with
      | None => Ret None
      | Some start =>
        let end_ := if truthy (dget d "end") then parse_dt (replace_z (str (dget d "end")))
                    else None in
        end_ ← match end_ with Some x => Ret x | None => shift_dt (hours 24) start end;
        now_airing ← airing start end_ now;
        Ret (if (now_airing : bool)
             then Some (JObj [("summary", JStr summary); ("start", dget d "start");
                              ("end", dget d "end")])
             else None)
      end
  | _ => Ret None
  end.

(** [_probe_ical_event_active]. *)
Definition probe_ical_event_active (probe : pydict) : probe_answer :=
  source_id ← strip_or_empty (dget probe "source_id");
  if is_empty source_id then fails [reason "missing source_id"]
  else
    needle ← strip_or_empty (dget probe "summary_contains");
    max_age ← int_field probe "max_sample_age_seconds" 1800;
    s ← latest source_id max_age;
    match s with
    | None => stale "stale_sample" source_id max_age
    | Some s =>
      let events := payload_list (payload_of s) "events" in
      found ← mapM (match_event (lower needle) (pe_later env)) events;
      let active := omap id found in
      answers (match active with [] => false | _ => true end)
        [("source_id", JStr source_id); ("events_total", JInt (Z.of_nat (length events)));
         ("events_active", JList active); ("summary_filter", none_if_empty (lower needle));
         sampled_at s]
    end.

(** ** Power *)

Definition clamp (lo hi v : Z) : Z := if v <? lo then lo else if hi <? v then hi else v.

(** The newest row of the device and its age, at this probe's clock. *)
Definition latest_row (device_id : string) : option power_sample :=
  latest_power device_id 0 (pe_power env).
Definition recent_rows (device_id : string) (window : Z) : list power_sample :=
  recent_power device_id 0 window 720 None (pe_later env) (pe_power env).

(** [bool(hb.relay_on)] of the latest heartbeat. *)
Definition relay_on_heartbeat (device_id : string) : bool :=
  match head (order_by_desc hb_received_at
                (filter (fun h => hb_device_id h = device_id) (pe_heartbeats env))) with
  | Some h => hb_relay_on h
  | None => false
  end.

(** The verdict of [_probe_power] once the window has an average. *)
Definition power_verdict (probe : pydict) (kind device_id : string) (avg : pyfloat)
    (details : pydict) : probe_answer :=
  if String.eqb kind "power_above" || String.eqb kind "power_below" then
    threshold ← try_float (dget probe "threshold_w");
    match threshold with
    | None => fails (details ++ [reason "missing threshold_w"])
    | Some threshold =>
      answers (negb (past (String.eqb kind "power_above") avg threshold))
              (details ++ [("threshold_w", JFloat threshold)])
    end
  else if String.eqb kind "power_zero_while_on" then
    near_zero ← try_float (jor (dget probe "near_zero_threshold_w") (JFloat (FFinite 1 (-1))));
    let near_zero := default (FFinite 1 (-1)) near_zero in
    let relay_on := relay_on_heartbeat device_id in
    answers (negb (relay_on && flt avg near_zero))
      (details ++ [("near_zero_threshold_w", JFloat near_zero); ("relay_on", JBool relay_on)])
  else fails (reason (String.append "unknown power probe kind: " kind) :: details).

(** [_probe_power]. *)
Definition probe_power (probe : pydict) (kind : string) : probe_answer :=
  device_id ← strip_or_empty (dget probe "device_id");
  if is_empty device_id then fails [reason "missing device_id"]
  else
    window ← int_field probe "window_seconds" 300;
    let window := clamp 30 86400 window in
    max_age ← int_field probe "max_sample_age_seconds" 600;
    match latest_row device_id with
    | None => fails [reason "no_samples"; ("device_id", JStr device_id)]
    | Some row =>
      let age := age_seconds (pe_now env) row in
      if max_age <? age then
        fails [reason "stale_sample"; ("device_id", JStr device_id);
               ("sample_age_seconds", JInt age); ("max_sample_age_seconds", JInt max_age)]
      else
        match recent_rows device_id window with
        | [] => fails [reason "no_samples_in_window"; ("device_id", JStr device_id);
                       ("window_seconds", JInt window)]
        | recent =>
          let count := ("sample_count", JInt (Z.of_nat (length recent))) in
          match omap pw_p_w recent with
          | [] => fails [reason "no_real_power_readings"; ("device_id", JStr device_id); count]
          | v :: vs =>
            let avg := mean (v :: vs) in
            power_verdict probe kind device_id avg
              [("device_id", JStr device_id); ("window_seconds", JInt window); count;
               ("avg_w", JFloat (py_round avg 3)); ("min_w", JFloat (py_round (fmin_list v vs) 3));
               ("max_w", JFloat (py_round (fmax_list v vs) 3));
               ("latest_sample_age_seconds", JInt age)]
          end
        end
    end.

(** ** Solar *)

(** [_probe_solar]. *)
Definition probe_solar (probe : pydict) (above : bool) : probe_answer :=
  source_id ← strip_or_empty (dget probe "source_id");
  if is_empty source_id then fails [reason "missing source_id"]
  else
    threshold ← try_float (dget probe "threshold_w");
    match threshold with
    | None => fails [reason "missing threshold_w"; ("source_id", JStr source_id)]
    | Some threshold =>
      max_age ← int_field probe "max_sample_age_seconds" 1800;
      s ← latest source_id max_age;
      match s with
      | None => stale "stale_sample" source_id max_age
      | Some s =>
        match payload_of s with
        | JObj p =>
          match dget p "production_w" with
          | JNull => fails [reason "no_production_reading"; ("source_id", JStr source_id);
                            sampled_at s]
          | raw =>
            value ← try_float raw;
            match value with
            | None => fails [reason "bad_production_reading"; ("source_id", JStr source_id)]
            | Some value =>
              answers (negb (past above value threshold))
                [("source_id", JStr source_id); ("production_w", JFloat (py_round value 1));
                 ("threshold_w", JFloat threshold); ("vendor", dget p "vendor"); sampled_at s]
            end
          end
        | _ => fails [reason "no_production_reading"; ("source_id", JStr source_id); sampled_at s]
        end
      end
    end.

(** ** SNMP *)

(** [(payload or {}).get("interfaces") or {}], then the interface. *)
Definition interface_entry (payload : json) (interface : string) : outcome json :=
  ifs ← jget (jor payload (JObj [])) "interfaces";
  Ret match jor ifs (JObj []) with JObj d => dget d interface | _ => JNull end.

(** [_probe_snmp_interface_down]. *)
Definition probe_snmp_interface_down (probe : pydict) : probe_answer :=
  source_id ← strip_or_empty (dget probe "source_id");
  interface ← strip_or_empty (dget probe "interface");
  if is_empty source_id || is_empty interface then fails [reason "missing source_id / interface"]
  else
    max_age ← int_field probe "max_sample_age_seconds" 600;
    s ← latest source_id max_age;
    match s with
    | None => stale "stale_sample" source_id max_age
    | Some s =>
      entry ← interface_entry (dget s "payload") interface;
      match entry with
      | JObj e =>
        answers (jeqs (dget e "oper_status") "up")
          [("source_id", JStr source_id); ("interface", JStr interface);
           ("oper_status", dget e "oper_status"); sampled_at s]
      | _ => fails [reason "interface_not_found"; ("source_id", JStr source_id);
                    ("interface", JStr interface); sampled_at s]
      end
    end.

(** The front half of the rate probes: an answer to return as it is, or the
    two readings of the interface and the microseconds between them. *)
Inductive snmp_pair :=
  | Early (oc : string) (details : pydict)
  | Pair (n_if o_if : pydict) (elapsed : Z) (newer_at : time).

(** [_snmp_pair_interface]. *)
Definition snmp_pair_interface (probe : pydict) : outcome snmp_pair :=
  source_id ← strip_or_empty (dget probe "source_id");
  interface ← strip_or_empty (dget probe "interface");
  if is_empty source_id || is_empty interface
  then Ret (Early "failure" [reason "missing source_id / interface"])
  else
    max_age ← int_field probe "max_sample_age_seconds" 600;
    pair ← last_two_samples source_id max_age (pe_now env) (pe_sensors env);
    match pair with
    | None => Ret (Early "success" [reason "insufficient_history"; ("source_id", JStr source_id)])
    | Some (newer, older) =>
      n ← interface_entry (sm_payload newer) interface;
      o ← interface_entry (sm_payload older) interface;
      match n, o with
      | JObj n, JObj o =>
        let dt := sm_sampled_at newer - sm_sampled_at older in
        if dt <=? 0
        then Ret (Early "success" [reason "bad_interval"; ("source_id", JStr source_id)])
        else Ret (Pair n o dt (sm_sampled_at newer))
      | _, _ => Ret (Early "failure" [reason "interface_not_found"; ("source_id", JStr source_id);
                                      ("interface", JStr interface)])
      end
    end.

(** [_snmp_counter_delta]: [None] on a missing reading or a reset counter. *)
Definition snmp_counter_delta (n_if o_if : pydict) (field : string) : outcome (option pynum) :=
  match dget n_if field, dget o_if field with
  | JNull, _ | _, JNull => Ret None
  | n, o =>
    match as_num n, as_num o with
    | Some n, Some o => d ← num_sub n o; Ret (if num_nonneg d then Some d else None)
    | _, _ => Raise (TypeError "unsupported operand type(s) for -")
    end
  end.

(** [d_in + d_out] when both are there. *)
Definition both_deltas (n_if o_if : pydict) (f g : string) : outcome (option pynum) :=
  a ← snmp_counter_delta n_if o_if f;
  b ← snmp_counter_delta n_if o_if g;
  match a, b with
  | Some a, Some b => d ← num_add a b; Ret (Some d)
  | _, _ => Ret None
  end.

Definition snmp_ids (probe : pydict) : outcome pydict :=
  source_id ← strip_or_empty (dget probe "source_id");
  interface ← strip_or_empty (dget probe "interface");
  Ret [("source_id", JStr source_id); ("interface", JStr interface)].

(** [_probe_snmp_throughput]. *)
Definition probe_snmp_throughput (probe : pydict) (above : bool) : probe_answer :=
  dir ← strip_or_empty (jor (dget probe "direction") (JStr "total"));
  let direction := lower dir in
  if negb (in_strs direction ["in"; "out"; "total"])
  then fails [reason "direction must be in / out / total"]
  else
    threshold ← try_float (dget probe "threshold_bps");
    match threshold with
    | None => fails [reason "missing or non-numeric threshold_bps"]
    | Some threshold =>
      pair ← snmp_pair_interface probe;
      match pair with
      | Early oc details => Ret (oc, JObj details)
      | Pair n_if o_if dt newer_at =>
        delta ← (if String.eqb direction "in" then snmp_counter_delta n_if o_if "in_octets"
                 else if String.eqb direction "out" then snmp_counter_delta n_if o_if "out_octets"
                 else both_deltas n_if o_if "in_octets" "out_octets");
        ids ← snmp_ids probe;
        match delta with
        | None => answers true (reason "counter_reset" :: ids)
        | Some delta =>
          bits ← num_mul delta (NInt 8);
          bps ← num_div bits (total_seconds dt);
          answers (negb (past above bps threshold))
            (ids ++ [("direction", JStr direction); ("throughput_bps", JFloat (py_round bps 1));
                     ("threshold_bps", JFloat threshold);
                     ("interval_seconds", JFloat (py_round (total_seconds dt) 1));
                     ("sampled_at", JStr (iso newer_at))])
        end
      end
    end.

(** [_probe_snmp_error_rate]. *)
Definition probe_snmp_error_rate (probe : pydict) : probe_answer :=
  threshold ← try_float (dget probe "threshold_errors_per_min");
  match threshold with
  | None => fails [reason "missing or non-numeric threshold_errors_per_min"]
  | Some threshold =>
    pair ← snmp_pair_interface probe;
    match pair with
    | Early oc details => Ret (oc, JObj details)
    | Pair n_if o_if dt newer_at =>
      delta ← both_deltas n_if o_if "in_errors" "out_errors";
      ids ← snmp_ids probe;
      match delta with
      | None => answers true (reason "counter_reset" :: ids)
      | Some delta =>
        per_second ← num_div delta (total_seconds dt);
        let per_min := fmul per_second (fint 60) in
        answers (negb (fgt per_min threshold))
          (ids ++ [("errors_per_min", JFloat (py_round per_min 2));
                   ("threshold_errors_per_min", JFloat threshold);
                   ("interval_seconds", JFloat (py_round (total_seconds dt) 1));
                   ("sampled_at", JStr (iso newer_at))])
      end
    end
  end.

(** ** Webhook sources *)

Definition MEDIA_STOPPED_TOKENS : list string := ["stop"; "pause"].
Definition MEDIA_PLAYING_TOKENS : list string :=
  ["play"; "start"; "resume"; "progress"; "scrobble"; "unpause"].

(** Is the session active after this event? *)
Definition media_active (event : string) : bool :=
  if existsb (fun tok => str_in tok event) MEDIA_STOPPED_TOKENS then false
  else existsb (fun tok => str_in tok event) MEDIA_PLAYING_TOKENS.

(** [_probe_media_session_active]. *)
Definition probe_media_session_active (probe : pydict) : probe_answer :=
  source_id ← strip_or_empty (dget probe "source_id");
  if is_empty source_id then fails [reason "missing source_id"]
  else
    presumed ← int_field probe "presumed_duration_seconds" 7200;
    max_age ← int_field probe "max_sample_age_seconds" presumed;
    s ← latest source_id max_age;
    match s with
    | None => stale "no_recent_event" source_id max_age
    | Some s =>
      e1 ← jget (payload_of s) "event";
      e2 ← jget (payload_of s) "NotificationType";
      e3 ← jget (payload_of s) "Event";
      let event := lower (str (jor e1 (jor e2 (jor e3 (JStr empty_str))))) in
      answers (media_active event)
        [("source_id", JStr source_id); ("event", none_if_empty event);
         ("media_active", JBool (media_active event)); sampled_at s]
    end.

(** [str(v if v is not None else "")]. *)
Definition str_or_empty (v : json) : string := match v with JNull => empty_str | v => str v end.

(** [_probe_webhook_field_equals]. *)
Definition probe_webhook_field_equals (probe : pydict) : probe_answer :=
  source_id ← strip_or_empty (dget probe "source_id");
  field ← strip_or_empty (dget probe "field");
  let expected := strip (str_or_empty (dget probe "expected")) in
  if is_empty source_id || is_empty field then fails [reason "missing source_id / field"]
  else
    max_age ← int_field probe "max_sample_age_seconds" 3600;
    s ← latest source_id max_age;
    match s with
    | None => stale "stale_sample" source_id max_age
    | Some s =>
      let actual := str_or_empty match payload_of s with JObj p => dget p field | _ => JNull end in
      answers (String.eqb (lower (strip actual)) (lower expected))
        [("source_id", JStr source_id); ("field", JStr field); ("expected", JStr expected);
         ("actual", JStr actual); sampled_at s]
    end.

(** [_probe_mqtt_topic_equals]. *)
Definition probe_mqtt_topic_equals (probe : pydict) : probe_answer :=
  source_id ← strip_or_empty (dget probe "source_id");
  topic ← strip_or_empty (dget probe "topic");
  let expected := strip (str_or_empty (dget probe "expected_value")) in
  if is_empty source_id || is_empty topic then fails [reason "missing source_id / topic"]
  else
    max_age ← int_field probe "max_sample_age_seconds" 300;
    s ← latest_sample_for_topic iso source_id topic max_age (pe_now env) (pe_sensors env);
    match s with
    | None => fails [reason "no_recent_message"; ("source_id", JStr source_id);
                     ("topic", JStr topic); ("max_sample_age_seconds", JInt max_age)]
    | Some s =>
      m ← jget (payload_of s) "msg";
      let msg := str (jor m (JStr empty_str)) in
      answers (String.eqb (lower (strip msg)) (lower expected))
        [("source_id", JStr source_id); ("topic", JStr topic); ("expected_value", JStr expected);
         ("actual_value", JStr msg); sampled_at s]
    end.

(** ** Programme guide and heartbeats *)

(** [_probe_epg_show_airing]. *)
Definition probe_epg_show_airing (probe : pydict) : probe_answer :=
  show ← strip_or_empty (dget probe "show");
  if is_empty show then fails [reason "missing show"]
  else
    network ← strip_or_empty (dget probe "network");
    match show_airing_now show (if is_empty network then None else Some network) (pe_now env)
            (pe_epg env) with
    | None =>
      fails [reason (match cached_rows (pe_epg env) with O => "epg_cache_empty" | _ => "not_airing" end);
             ("show", JStr show); ("network", none_if_empty network)]
    | Some r =>
      answers true
        [("show", JStr show); ("network", none_if_empty network);
         ("matched_show", JStr (ep_show_title r)); ("channel", JStr (ep_channel_id r));
         ("episode_title", ojson (ep_episode_title r)); ("airing_end", JStr (iso (ep_airing_end r)))]
    end.

(** [_probe_device_heartbeat_stale]; the age is compared exactly, as a float
    that large compares with an integer. *)
Definition probe_device_heartbeat_stale (probe : pydict) : probe_answer :=
  device_id ← strip_or_empty (dget probe "device_id");
  if is_empty device_id then fails [reason "missing device_id"]
  else
    max_age ← int_field probe "max_age_seconds" 300;
    let max_age := clamp 30 86400 max_age in
    match pe_last_heartbeat env !! device_id with
    | None => fails [reason "no_heartbeat"; ("device_id", JStr device_id);
                     ("max_age_seconds", JInt max_age)]
    | Some last =>
      let age := pe_now env - last in
      let details := [("device_id", JStr device_id);
                      ("age_seconds", JFloat (py_round (total_seconds age) 1));
                      ("max_age_seconds", JInt max_age);
                      ("last_heartbeat_at", JStr (isoformat last))] in
      if seconds max_age <? age then fails (details ++ [reason "heartbeat_stale"])
      else answers true details
    end.

(** ** The dispatcher *)

(** The answer of the probes that return a [bool]. *)
Definition bool_probe (o : outcome bool) : probe_answer := ok ← o; answers ok [].

(** The [try] block of [run_probe]. *)
Definition dispatch (kind : string) (probe : pydict) : probe_answer :=
  let k s := String.eqb kind s in
  if k "internet" then probe_internet probe
  else if k "ping" then probe_ping probe
  else if k "roku_app_active" then probe_roku_app_active probe
  else if k "ha_state_is" then probe_ha_state_is probe
  else if k "ha_numeric_above" || k "ha_numeric_below"
  then probe_ha_numeric probe (k "ha_numeric_above")
  else if k "weather_alert_active" then probe_weather_alert_active probe
  else if k "ical_event_active" then probe_ical_event_active probe
  else if k "power_above" || k "power_below" || k "power_zero_while_on" then probe_power probe kind
  else if k "solar_production_above" || k "solar_production_below"
  then probe_solar probe (k "solar_production_above")
  else if k "snmp_interface_down" then probe_snmp_interface_down probe
  else if k "snmp_throughput_above" || k "snmp_throughput_below"
  then probe_snmp_throughput probe (k "snmp_throughput_above")
  else if k "snmp_error_rate_above" then probe_snmp_error_rate probe
  else if k "media_session_active" then probe_media_session_active probe
  else if k "webhook_field_equals" then probe_webhook_field_equals probe
  else if k "mqtt_topic_equals" then probe_mqtt_topic_equals probe
  else if k "epg_show_airing" then probe_epg_show_airing probe
  else if k "device_heartbeat_stale" then probe_device_heartbeat_stale probe
  else if k "tcp" || k "host_awake" then
    bool_probe (port ← py_int (jor (dget probe "port") (JInt (if k "host_awake" then 22 else 0)));
                probe_tcp (dget_default probe "host" (JStr empty_str)) port)
  else if k "http" then bool_probe (probe_http (dget_default probe "url" (JStr empty_str)))
  else if k "dns" then bool_probe (probe_dns (dget_default probe "hostname" (JStr empty_str)))
  else if k "gateway" then
    answers true [("skipped", JStr "gateway probe needs device-side gateway info")]
  else fails [reason (String.append "unknown probe kind: " kind)].

(** [run_probe]: whatever a probe raises is a failure; only a probe that is not
    an object, or a kind that cannot be hashed, raises. *)
Definition run_probe (r : rule) : probe_answer :=
  kind ← jget (or_dict (rc_probe r)) "kind";
  match or_dict (rc_probe r) with
  | JObj probe =>
    match kind with
    | JList _ | JObj _ => Raise (TypeError "unhashable type")
    | JStr k =>
      if in_strs k DISPATCHED_PROBE_KINDS then
        match dispatch k probe with
        | Ret a => Ret a
        | Raise e => fails [reason "probe_exception"; ("error", JStr (exn_str e))]
        end
      else fails [reason (String.append "unknown probe kind: " k)]
    | v => fails [reason (String.append "unknown probe kind: " (str v))]
    end
  | _ => Raise (AttributeError "get")
  end.
End probes.
