(* ===== verification/WatchdogProbeTheorems.v ===== *)
(** * What the probes answer

    The verdict of a probe is always one of two; a probe backed by samples never
    succeeds without a fresh one; thresholds are compared exactly; the HTTP
    probe requests a bounded number of URLs; and three behaviours the code
    documents otherwise, carried through to the rule machine. *)

From stdpp Require Import pretty.
From Stdlib Require Import Ascii.
From S2P Require Import Prelude PyFloat ExternalSensors PowerSamples Epg.
From S2P Require Import EventBus Commands QueueInterface RuntimeFlags.
From S2P Require Import WatchdogActions WatchdogState WatchdogTheorems WatchdogProbes.
Local Open Scope string_scope.
Local Open Scope list_scope.
Local Open Scope Z_scope.

(** ** Well-formed answers *)

(** Every answer is a success or a failure with an object of details. *)
Definition well_answered (a : probe_answer) : Prop :=
  forall oc d, a = Ret (oc, d) ->
    (oc = "success" \/ oc = "failure") /\ exists kvs, d = JObj kvs.

Lemma fails_well kvs : well_answered (fails kvs).
Proof. intros oc d [= <- <-]. split; [by right|by eexists]. Qed.
Lemma answers_well b kvs : well_answered (answers b kvs).
Proof. intros oc d [= <- <-]. split; [destruct b; [by left|by right]|by eexists]. Qed.
Lemma raise_well e : well_answered (Raise e).
Proof. intros oc d [=]. Qed.
Lemma stale_well w s a : well_answered (stale w s a).
Proof. apply fails_well. Qed.
Lemma bind_well {A} (m : outcome A) (f : A -> probe_answer) :
  (forall x, well_answered (f x)) -> well_answered (x ← m; f x).
Proof. intros Hf oc d. destruct m as [x|e]; [apply Hf|done]. Qed.
#[local] Hint Resolve fails_well answers_well raise_well stale_well : core.

(** Walk a probe down to its answers. *)
Ltac well :=
  repeat first
    [ done
    | solve [auto]
    | apply bind_well; intros ?
    | case_match ].

Section answers.
Context `{Clock : IsoClock}.
Context (py_repr : json -> string) (iso : time -> string) (parse_dt : string -> option pydt).
Context (connect : json -> Z -> attempt) (ping_installed : bool) (ping : string -> Z -> ping_result)
        (resolve : string -> attempt) (http_scheme : string -> bool)
        (fetch : string -> http_reply) (urljoin : string -> string -> option string).
Context (env : probe_env).

#[local] Abbreviation dispatch :=
  (dispatch py_repr iso parse_dt connect ping_installed ping resolve http_scheme fetch urljoin env).
#[local] Abbreviation run_probe :=
  (run_probe py_repr iso parse_dt connect ping_installed ping resolve http_scheme fetch urljoin env).

Lemma internet_well p : well_answered (probe_internet py_repr connect p).
Proof. unfold probe_internet. well. Qed.
Lemma ping_well p : well_answered (probe_ping connect ping_installed ping p).
Proof. unfold probe_ping. well. Qed.
Lemma roku_well p : well_answered (probe_roku_app_active iso env p).
Proof. unfold probe_roku_app_active. well. Qed.
Lemma ha_state_well p : well_answered (probe_ha_state_is py_repr iso env p).
Proof. unfold probe_ha_state_is, entity_not_found. well. Qed.
Lemma ha_numeric_well p b : well_answered (probe_ha_numeric iso env p b).
Proof. unfold probe_ha_numeric, entity_not_found. well. Qed.
Lemma weather_well p : well_answered (probe_weather_alert_active py_repr iso env p).
Proof. unfold probe_weather_alert_active. well. Qed.
Lemma ical_well p : well_answered (probe_ical_event_active py_repr iso parse_dt env p).
Proof. unfold probe_ical_event_active. well. Qed.
Lemma power_verdict_well p k d a ds : well_answered (power_verdict env p k d a ds).
Proof. unfold power_verdict. well. Qed.
#[local] Hint Resolve power_verdict_well : core.
Lemma power_well p k : well_answered (probe_power env p k).
Proof. unfold probe_power. well. Qed.
Lemma solar_well p b : well_answered (probe_solar iso env p b).
Proof. unfold probe_solar. well. Qed.
Lemma snmp_down_well p : well_answered (probe_snmp_interface_down iso env p).
Proof. unfold probe_snmp_interface_down. well. Qed.

Lemma snmp_pair_well p oc details :
  snmp_pair_interface env p = Ret (Early oc details) -> well_answered (Ret (oc, JObj details)).
Proof.
  unfold snmp_pair_interface. intros H oc' d' [= <- <-]. split; [|by eexists].
  do 2 peel H. case_match; [simplify_eq; by right|].
  do 2 peel H. case_match; [|simplify_eq; by left]. case_match. do 2 peel H.
  repeat case_match; simplify_eq; auto.
Qed.

Lemma bind_well_eq {A} (m : outcome A) (f : A -> probe_answer) :
  (forall x, m = Ret x -> well_answered (f x)) -> well_answered (x ← m; f x).
Proof. intros Hf oc d. destruct m as [x|e]; [by apply Hf|done]. Qed.

Lemma snmp_throughput_well p b : well_answered (probe_snmp_throughput iso env p b).
Proof.
  unfold probe_snmp_throughput. apply bind_well; intros dir. cbv zeta. case_match; [auto|].
  apply bind_well; intros [th|]; [|auto].
  apply bind_well_eq; intros [oc ds|n o dt t] E; [by apply (snmp_pair_well _ _ _ E)|]. well.
Qed.
Lemma snmp_error_well p : well_answered (probe_snmp_error_rate iso env p).
Proof.
  unfold probe_snmp_error_rate. apply bind_well; intros [th|]; [|auto].
  apply bind_well_eq; intros [oc ds|n o dt t] E; [by apply (snmp_pair_well _ _ _ E)|]. well.
Qed.
Lemma media_well p : well_answered (probe_media_session_active py_repr iso env p).
Proof. unfold probe_media_session_active. well. Qed.
Lemma webhook_well p : well_answered (probe_webhook_field_equals py_repr iso env p).
Proof. unfold probe_webhook_field_equals. well. Qed.
Lemma mqtt_well p : well_answered (probe_mqtt_topic_equals py_repr iso env p).
Proof. unfold probe_mqtt_topic_equals. well. Qed.
Lemma epg_well p : well_answered (probe_epg_show_airing iso env p).
Proof. unfold probe_epg_show_airing. well. Qed.
Lemma heartbeat_well p : well_answered (probe_device_heartbeat_stale env p).
Proof. unfold probe_device_heartbeat_stale. well. Qed.
Lemma bool_probe_well o : well_answered (bool_probe o).
Proof. unfold bool_probe. well. Qed.
#[local] Hint Resolve internet_well ping_well roku_well ha_state_well ha_numeric_well weather_well
  ical_well power_well solar_well snmp_down_well snmp_throughput_well snmp_error_well media_well
  webhook_well mqtt_well epg_well heartbeat_well bool_probe_well : core.

Lemma dispatch_well k p : well_answered (dispatch k p).
Proof.
  unfold WatchdogProbes.dispatch. repeat (match goal with |- well_answered (if _ then _ else _) =>
    case_match; [solve [auto]|] end). auto.
Qed.

Lemma run_probe_well r : well_answered (run_probe r).
Proof.
  unfold WatchdogProbes.run_probe. apply bind_well; intros kind. case_match; try solve [auto].
  case_match; try solve [auto]. case_match; [|auto].
  pose proof (dispatch_well s kvs) as Hd. destruct (dispatch s kvs); auto.
Qed.

(** When a probe is reached at all. *)
Lemma run_probe_returns r :
  returns (run_probe r) = match or_dict (rc_probe r) with
                          | JObj p => hashable (dget p "kind") | _ => false end.
Proof.
  unfold WatchdogProbes.run_probe, jget. destruct (or_dict (rc_probe r)) as [| | | | | |p]; try done.
  cbn -[dispatch]. destruct (dget p "kind") as [| | | |s| |]; try done.
  destruct (in_strs _ _); [|done]. by destruct (dispatch s p).
Qed.

(** C27. Totality and type of the probe runtime.  For a rule whose probe is an
    object with a hashable kind (known or not, validated or not), [run_probe]
    never raises, whatever the samples, the network and the clock: it answers
    success or failure with an object of details.  For any other rule it raises
    before a probe is chosen, and the tick logs a probe error. *)
Theorem run_probe_is_total (r : rule) :
  match or_dict (rc_probe r) with
  | JObj p =>
    if hashable (dget p "kind")
    then exists oc kvs, run_probe r = Ret (oc, JObj kvs) /\ (oc = "success" \/ oc = "failure")
    else returns (run_probe r) = false
  | _ => returns (run_probe r) = false
  end.
Proof.
  pose proof (run_probe_well r) as Hw. unfold well_answered in Hw.
  pose proof (run_probe_returns r) as Hr.
  destruct (or_dict (rc_probe r)) as [| | | | | |p]; try done.
  destruct (hashable _); [|done].
  destruct (run_probe r) as [[oc d]|e]; [|done].
  destruct (Hw oc d eq_refl) as [Ho [kvs ->]]. by eexists _, _.
Qed.

(** The histories of the watchdog may use the real probes. *)
Lemma run_probe_sound : probe_sound run_probe.
Proof. intros r oc d H. by destruct (run_probe_well r oc d H). Qed.

(** ** Freshness *)

(** The kinds that read the newest sample of a source. *)
Definition sample_kinds : list string :=
  ["roku_app_active"; "ha_state_is"; "ha_numeric_above"; "ha_numeric_below";
   "weather_alert_active"; "ical_event_active"; "solar_production_above";
   "solar_production_below"; "snmp_interface_down"; "media_session_active";
   "webhook_field_equals"; "mqtt_topic_equals"].

(** The age they accept when the rule does not say. *)
Definition default_age (kind : string) : Z :=
  if String.eqb kind "roku_app_active" then 120
  else if in_strs kind ["ha_state_is"; "ha_numeric_above"; "ha_numeric_below"] then 60
  else if String.eqb kind "mqtt_topic_equals" then 300
  else if in_strs kind ["weather_alert_active"; "snmp_interface_down"] then 600
  else if String.eqb kind "webhook_field_equals" then 3600
  else 1800.
Definition age_limit (kind : string) (p : pydict) : outcome Z :=
  if String.eqb kind "media_session_active" then
    presumed ← int_field p "presumed_duration_seconds" 7200;
    int_field p "max_sample_age_seconds" presumed
  else int_field p "max_sample_age_seconds" (default_age kind).

(** A sample of the rule's source, no older than the limit. *)
Definition fresh_sample (p : pydict) (limit : outcome Z) : Prop :=
  exists sid age m,
    strip_or_empty (dget p "source_id") = Ret sid /\ limit = Ret age /\
    m ∈ sn_samples (pe_sensors env) /\ sm_source_id m = sid /\
    pe_now env <= sm_sampled_at m + seconds age.

Lemma fresh_member sid cut w m :
  m ∈ fresh_samples sid cut w -> m ∈ sn_samples w /\ sm_source_id m = sid /\ cut <= sm_sampled_at m.
Proof.
  unfold fresh_samples, newest_first, of_source. rewrite order_by_desc_perm.
  rewrite !list_elem_of_filter. naive_solver.
Qed.

Lemma cutoff_ret now n t : cutoff now n = Ret t -> t = now - seconds n.
Proof. unfold cutoff. cbv zeta. by case_match; intros [= <-]. Qed.

Lemma latest_fresh p sid age s limit :
  strip_or_empty (dget p "source_id") = Ret sid -> limit = Ret age ->
  latest iso env sid age = Ret (Some s) -> fresh_sample p limit.
Proof.
  intros Hs Hl H. unfold latest, ExternalSensors.latest_sample in H. peel H.
  apply cutoff_ret in Hx as ->. destruct (head _) as [m|] eqn:E; [|done].
  apply head_Some_elem_of, fresh_member in E as (Hm & Hid & Hc).
  exists sid, age, m. split_and!; try done. lia.
Qed.

Lemma latest_topic_fresh p sid topic age s limit :
  strip_or_empty (dget p "source_id") = Ret sid -> limit = Ret age ->
  latest_sample_for_topic iso sid topic age (pe_now env) (pe_sensors env) = Ret (Some s) ->
  fresh_sample p limit.
Proof.
  intros Hs Hl H. unfold latest_sample_for_topic in H. peel H. apply cutoff_ret in Hx as ->.
  destruct (find _ _) as [m|] eqn:E; [|done]. apply find_some in E as [Hin _].
  apply list_elem_of_In in Hin.
  assert (m ∈ fresh_samples sid (pe_now env - seconds age) (pe_sensors env)) as Hm.
  { rewrite <- (firstn_skipn 500). apply elem_of_app. by left. }
  apply fresh_member in Hm as (Hm & Hid & Hc). exists sid, age, m. split_and!; try done. lia.
Qed.

(** Follow a success back to the sample it was read from. *)
Ltac trace_success H :=
  repeat first [discriminate H | peel H | progress cbv zeta in H | case_match];
  first [eapply latest_fresh; eassumption | eapply latest_topic_fresh; eassumption].

Lemma roku_fresh p d : probe_roku_app_active iso env p = Ret ("success", d) ->
  fresh_sample p (int_field p "max_sample_age_seconds" 120).
Proof. unfold probe_roku_app_active. intros H. trace_success H. Qed.
Lemma ha_state_fresh p d : probe_ha_state_is py_repr iso env p = Ret ("success", d) ->
  fresh_sample p (int_field p "max_sample_age_seconds" 60).
Proof. unfold probe_ha_state_is. intros H. trace_success H. Qed.
Lemma ha_numeric_fresh p b d : probe_ha_numeric iso env p b = Ret ("success", d) ->
  fresh_sample p (int_field p "max_sample_age_seconds" 60).
Proof. unfold probe_ha_numeric. intros H. trace_success H. Qed.
Lemma weather_fresh p d : probe_weather_alert_active py_repr iso env p = Ret ("success", d) ->
  fresh_sample p (int_field p "max_sample_age_seconds" 600).
Proof. unfold probe_weather_alert_active. intros H. trace_success H. Qed.
Lemma ical_fresh p d : probe_ical_event_active py_repr iso parse_dt env p = Ret ("success", d) ->
  fresh_sample p (int_field p "max_sample_age_seconds" 1800).
Proof. unfold probe_ical_event_active. intros H. trace_success H. Qed.
Lemma solar_fresh p b d : probe_solar iso env p b = Ret ("success", d) ->
  fresh_sample p (int_field p "max_sample_age_seconds" 1800).
Proof. unfold probe_solar. intros H. trace_success H. Qed.
Lemma snmp_down_fresh p d : probe_snmp_interface_down iso env p = Ret ("success", d) ->
  fresh_sample p (int_field p "max_sample_age_seconds" 600).
Proof. unfold probe_snmp_interface_down. intros H. trace_success H. Qed.
Lemma webhook_fresh p d : probe_webhook_field_equals py_repr iso env p = Ret ("success", d) ->
  fresh_sample p (int_field p "max_sample_age_seconds" 3600).
Proof. unfold probe_webhook_field_equals. intros H. trace_success H. Qed.
Lemma mqtt_fresh p d : probe_mqtt_topic_equals py_repr iso env p = Ret ("success", d) ->
  fresh_sample p (int_field p "max_sample_age_seconds" 300).
Proof. unfold probe_mqtt_topic_equals. intros H. trace_success H. Qed.
Lemma media_fresh p d : probe_media_session_active py_repr iso env p = Ret ("success", d) ->
  fresh_sample p (presumed ← int_field p "presumed_duration_seconds" 7200;
                  int_field p "max_sample_age_seconds" presumed).
Proof.
  unfold probe_media_session_active. intros H. peel H. case_match; [discriminate H|].
  peel H. peel H. peel H. case_match; [|discriminate H].
  eapply latest_fresh; [eassumption| |eassumption]. apply bind_ret. eauto.
Qed.

(** The probe behind a rule that has an object and a string kind. *)
Definition probe_of (r : rule) (kind : string) (p : pydict) : Prop :=
  or_dict (rc_probe r) = JObj p /\ dget p "kind" = JStr kind.

Lemma run_probe_kind r kind p :
  probe_of r kind p -> in_strs kind DISPATCHED_PROBE_KINDS = true ->
  run_probe r = match dispatch kind p with
                | Ret a => Ret a
                | Raise e => fails [reason "probe_exception"; ("error", JStr (exn_str e))]
                end.
Proof.
  intros [Hp Hk] Hin. unfold WatchdogProbes.run_probe. rewrite Hp. cbn -[dispatch].
  by rewrite Hk, Hin.
Qed.

Lemma run_probe_success r kind p d :
  probe_of r kind p -> run_probe r = Ret ("success", d) -> dispatch kind p = Ret ("success", d).
Proof.
  intros [Hp Hk]. unfold WatchdogProbes.run_probe. rewrite Hp. cbn -[dispatch]. rewrite Hk.
  case_match; [|done]. by destruct (dispatch kind p).
Qed.

(** No success on stale data.  For each of the twelve kinds that read an
    external source, a success implies a sample of that source in the table, no
    older than the age the rule accepts (or the default of the kind): a dead
    poller can not keep a probe succeeding. *)
Theorem no_success_without_fresh_sample (r : rule) (kind : string) (p : pydict) (d : json) :
  probe_of r kind p -> kind ∈ sample_kinds -> run_probe r = Ret ("success", d) ->
  fresh_sample p (age_limit kind p).
Proof.
  intros Hp Hk Hs. apply (run_probe_success _ _ _ _ Hp) in Hs. clear Hp.
  unfold sample_kinds in Hk. repeat (apply elem_of_cons in Hk as [->|Hk]);
    [..|by apply elem_of_nil in Hk];
    unfold WatchdogProbes.dispatch in Hs; cbn [String.eqb Ascii.eqb Bool.eqb orb] in Hs.
  - by apply roku_fresh in Hs.
  - by apply ha_state_fresh in Hs.
  - by apply ha_numeric_fresh in Hs.
  - by apply ha_numeric_fresh in Hs.
  - by apply weather_fresh in Hs.
  - by apply ical_fresh in Hs.
  - by apply solar_fresh in Hs.
  - by apply solar_fresh in Hs.
  - by apply snmp_down_fresh in Hs.
  - by apply media_fresh in Hs.
  - by apply webhook_fresh in Hs.
  - by apply mqtt_fresh in Hs.
Qed.

(** ** The HTTP probe *)

(** The request that ended the loop was answered with a 2xx status. *)
Definition answered_ok (trace : list string) : Prop :=
  exists u code loc, last trace = Some u /\ fetch u = HttpStatus code loc /\ 200 <= code < 300.

(** What [http_loop n url seen] returns. *)
Definition good_trace (n : nat) (seen : list string) (ok : bool) (trace : list string) : Prop :=
  (length trace <= n)%nat /\ NoDup trace /\
  Forall (fun u => (u ∉ seen) /\ http_scheme u = true) trace /\ (ok = true <-> answered_ok trace).

Lemma good_nil n seen : good_trace n seen false [].
Proof. split_and!; [cbn; lia|constructor|done|]. split; [done|]. by intros (?&?&?&?&?). Qed.

Lemma good_one n seen url (ok : bool) :
  url ∉ seen -> http_scheme url = true ->
  (ok = true <-> exists code loc, fetch url = HttpStatus code loc /\ 200 <= code < 300) ->
  good_trace (S n) seen ok [url].
Proof.
  intros Hs Hh Hok. split_and!; [cbn; lia|apply NoDup_singleton|by repeat constructor|].
  rewrite Hok. unfold answered_ok. split; [intros (c & l & H); eauto 10|].
  intros (u & c & l & [= <-] & H). eauto.
Qed.

Lemma good_cons n seen url ok trace code loc :
  url ∉ seen -> http_scheme url = true -> fetch url = HttpStatus code loc ->
  ~ (200 <= code < 300) -> good_trace n (url :: seen) ok trace ->
  good_trace (S n) seen ok (url :: trace).
Proof.
  intros Hs Hh Hf Hc (Hl & Hn & Ha & Hok). rewrite Forall_forall in Ha. split_and!.
  - cbn. lia.
  - constructor; [|done]. intros Hin. destruct (Ha url Hin) as [Hns _]. apply Hns. left.
  - constructor; [done|]. apply Forall_forall. intros u Hu. destruct (Ha u Hu) as [Hns Hsu].
    split; [|done]. intros Hin. apply Hns. by right.
  - rewrite Hok. destruct trace as [|u trace]; [|done]. unfold answered_ok. split.
    + by intros (?&?&?&?&?).
    + intros (u & c & l' & [= <-] & Hu' & Hc'). rewrite Hf in Hu'. by simplify_eq.
Qed.

Lemma http_loop_trace n : forall url seen,
  let '(ok, trace) := http_loop http_scheme fetch urljoin n url seen in good_trace n seen ok trace.
Proof.
  induction n as [|n IH]; intros url seen; cbn; [apply good_nil|].
  destruct (is_empty url || _) eqn:E1; [apply good_nil|].
  apply orb_false_elim in E1 as [_ E1]. apply bool_decide_eq_false in E1.
  destruct (http_scheme url) eqn:E2; cbn; [|apply good_nil].
  destruct (fetch url) as [code loc|] eqn:Ef.
  2: { apply good_one; [done..|]. rewrite Ef. split; [done|]. by intros (?&?&?&?). }
  destruct ((200 <=? code) && (code <? 300)) eqn:E3.
  { apply good_one; [done..|]. bool_to_prop. rewrite Ef. split; [|done]. eauto. }
  assert (~ (200 <= code < 300)) as Hno.
  { intros H. apply andb_false_iff in E3 as [E3|E3]; bool_to_prop; lia. }
  assert (good_trace (S n) seen false [url]) as Hf.
  { apply good_one; [done..|]. rewrite Ef. split; [done|]. intros (c & l & [= <- <-] & H). done. }
  destruct (_ && truthy_str loc); [|done]. destruct loc as [l|]; [|done].
  destruct (urljoin url l) as [next|]; [|done]. specialize (IH next (url :: seen)).
  destruct (http_loop _ _ _ n next _) as [ok trace]. by eapply good_cons.
Qed.

(** The HTTP probe ends.  Following redirects from any URL, whatever the
    servers answer, it requests at most four URLs, all with an http or https
    scheme and none twice, and it succeeds exactly when the last one requested
    answered with a 2xx status: a redirect loop is a failure. *)
Theorem http_probe_is_bounded (url : string) :
  let '(ok, trace) := http_loop http_scheme fetch urljoin (S MAX_REDIRECTS) url [] in
  (length trace <= 4)%nat /\ NoDup trace /\ Forall (fun u => http_scheme u = true) trace /\
  (ok = true <-> answered_ok trace).
Proof.
  pose proof (http_loop_trace (S MAX_REDIRECTS) url []) as H.
  destruct (http_loop _ _ _ _ _ _) as [ok trace]. destruct H as (Hl & Hn & Ha & Hok).
  split_and!; try done. eapply Forall_impl; [exact Ha|]. by intros u [_ Hu].
Qed.

(** ** The connectivity probe *)

(** Any of the first eight.  A probe with its own target list succeeds
    exactly when one of the first eight targets of the list accepts a
    connection; targets past the eighth are never tried, although a rule may
    hold ten; every target tried is in the log, once, as up or as down. *)
Theorem internet_probe_is_any_of_eight (p : pydict) (t0 : json) (ts : list json) oc d :
  dget p "targets" = JList (t0 :: ts) -> probe_internet py_repr connect p = Ret (oc, d) ->
  (oc = "success" <-> exists t line, t ∈ firstn MAX_INTERNET_TARGETS (t0 :: ts) /\
                        probe_target py_repr connect t = Ret (true, line)) /\
  exists up down, d = JObj [("targets_succeeded", JList up); ("targets_failed", JList down);
                            ("targets_total", JInt (Z.of_nat (length up + length down)))] /\
    (length up + length down = Nat.min 8 (length (t0 :: ts)))%nat.
Proof.
  intros Ht H. unfold probe_internet in H.
  assert (internet_targets p = (firstn MAX_INTERNET_TARGETS (t0 :: ts), false)) as Hi
    by (unfold internet_targets; by rewrite Ht).
  rewrite Hi in H. set (l := firstn MAX_INTERNET_TARGETS (t0 :: ts)) in *. clear Hi.
  peel H. apply mapM_ret in Hx.
  set (up := filter (fun y : bool * json => y.1 = true) x) in H.
  set (down := filter (fun y : bool * json => y.1 = false) x) in H.
  assert (length up + length down = length l)%nat as Hlen.
  { rewrite (Forall2_length _ _ _ Hx). subst up down. clear.
    induction x as [|[[] ?] x IH]; rewrite ?filter_cons; repeat case_decide; cbn in *; by try lia. }
  apply (f_equal (fun o => match o with Ret a => Some a | Raise _ => None end)) in H.
  cbn in H. injection H as Ho Hd. split.
  - rewrite <- Ho. split.
    + intros Hs. destruct up as [|[b line] up'] eqn:E; [done|].
      assert ((b, line) ∈ up) as Hin by (rewrite E; left). subst up.
      apply list_elem_of_filter in Hin as [Hb Hin]. cbn in Hb. subst b.
      apply list_elem_of_lookup in Hin as [i Hin].
      destruct (Forall2_lookup_r _ _ _ _ _ Hx Hin) as (t & Htl & Hp).
      exists t, line. split; [by eapply list_elem_of_lookup_2|done].
    + intros (t & line & Hin & Hp). apply list_elem_of_lookup in Hin as [i Hin].
      destruct (Forall2_lookup_l _ _ _ _ _ Hx Hin) as (y & Hy & Hp'). rewrite Hp in Hp'.
      simplify_eq. assert ((true, line) ∈ up) as Hu.
      { apply list_elem_of_filter. split; [done|]. by eapply list_elem_of_lookup_2. }
      destruct up; [by apply elem_of_nil in Hu|done].
  - exists (snd <$> up), (snd <$> down). rewrite !length_fmap, Hlen, <- Hd.
    split; [done|]. subst l. by rewrite length_take.
Qed.

(** ** Behaviours documented otherwise *)

Lemma mapM_raises {A B} (f : A -> outcome B) (l : list A) x :
  x ∈ l -> returns (f x) = false -> returns (mapM f l) = false.
Proof.
  intros Hin Hf. destruct (mapM f l) as [k|e] eqn:E; [|done]. apply mapM_ret in E.
  apply list_elem_of_lookup in Hin as [i Hi]. destruct (Forall2_lookup_l _ _ _ _ _ E Hi) as (y & _ & Hy).
  by rewrite Hy in Hf.
Qed.

(** One all-day event blinds a calendar.  When the newest sample of the
    feed holds an event whose start carries no time zone (a date, as calendar
    back ends write all-day events) and the rule has no summary filter, the
    comparison with the clock raises and the probe is a failure, whatever other
    event of the feed is on the air. *)
Theorem date_only_event_blinds_calendar (r : rule) (p e : pydict) sid age s t :
  probe_of r "ical_event_active" p ->
  strip_or_empty (dget p "source_id") = Ret sid -> is_empty sid = false ->
  strip_or_empty (dget p "summary_contains") = Ret empty_str ->
  int_field p "max_sample_age_seconds" 1800 = Ret age ->
  latest iso env sid age = Ret (Some s) ->
  JObj e ∈ payload_list (payload_of s) "events" ->
  parse_dt (replace_z (py_str py_repr (jor (dget e "start") (JStr empty_str)))) = Some (Naive t) ->
  exists why, run_probe r = Ret ("failure", JObj (reason "probe_exception" :: why)).
Proof.
  intros Hp Hs Hne Hf Ha Hl Hin Hd. rewrite (run_probe_kind _ _ _ Hp) by done.
  change (dispatch "ical_event_active" p) with
    (probe_ical_event_active py_repr iso parse_dt env p).
  unfold probe_ical_event_active. rewrite Hs. cbn [mbind outcome_bind]. rewrite Hne, Hf.
  cbn [mbind outcome_bind]. rewrite Ha. cbn [mbind outcome_bind]. rewrite Hl.
  cbn [mbind outcome_bind].
  pose proof (mapM_raises (match_event py_repr parse_dt (lower empty_str) (pe_later env)) _ _ Hin) as Hm.
  destruct (mapM _ _) as [found|x]; cbn [mbind outcome_bind]; [|by eexists].
  exfalso. enough (true = false) by done. apply Hm.
  unfold match_event. cbn -[py_str replace_z jor dget]. rewrite Hd.
  destruct (if truthy _ then _ else _) as [x|]; cbn; [done|]. by case_match.
Qed.

Lemma startswith_skip2 a b (needle s : string) :
  startswith (String a (String b needle)) s = true ->
  exists r, s = String a (String b r) /\ startswith needle r = true.
Proof.
  unfold startswith. destruct s as [|a' s]; [done|]. cbn.
  destruct (ascii_dec a a') as [->|]; [|done]. destruct s as [|b' s]; [done|].
  cbn. destruct (ascii_dec b b') as [->|]; [|done]. eauto.
Qed.

Lemma unpause_pause s : str_in "unpause" s = true -> str_in "pause" s = true.
Proof.
  induction s as [|a s IH]; [done|]. cbn [str_in]. intros H. apply orb_prop in H as [H|H].
  - apply startswith_skip2 in H as (r & [= -> ->] & Hr). apply orb_true_iff. right.
    cbn [str_in]. apply orb_true_iff. right. destruct r; cbn [str_in]; by rewrite Hr.
  - apply orb_true_iff. right. by apply IH.
Qed.

(** An event that resumes playback counts as a stop: "unpause" is listed among
    the playing tokens, but it contains "pause", which is tried first. *)
Lemma unpause_counts_as_stopped event :
  str_in "unpause" event = true -> media_active event = false.
Proof.
  intros H. unfold media_active. cbn [MEDIA_STOPPED_TOKENS existsb].
  by rewrite (unpause_pause _ H), orb_true_r.
Qed.

(** No row of the device: every power probe fails. *)
Lemma no_rows_power_fails p kind dev :
  strip_or_empty (dget p "device_id") = Ret dev ->
  Forall (fun s => pw_device_id s <> dev) (pe_power env) ->
  forall d, probe_power env p kind <> Ret ("success", d).
Proof.
  intros Hd Hn d. unfold probe_power. rewrite Hd. cbn [mbind outcome_bind].
  destruct (is_empty dev) eqn:E; [done|]. intros H. do 2 peel H.
  assert (latest_row env dev = None) as Hl; [|by rewrite Hl in H].
  unfold latest_row, latest_power, of_channel. rewrite E.
  destruct (head _) as [s|] eqn:Eh; [|done]. apply head_Some_elem_of in Eh.
  rewrite order_by_desc_perm, list_elem_of_filter in Eh. destruct Eh as [[Hs _] Hin].
  rewrite Forall_forall in Hn. by destruct (Hn s Hin).
Qed.

Lemma escalation_returns {S} `{CommandQueue S} esc (r : rule) fired (w : world S) :
  is_Some (as_dict (or_dict (rc_escalation r))) ->
  exists w', run_escalation_and_emit esc r fired w = (Ret tt, w') /\ w_queue w' = w_queue w.
Proof.
  intros [e He]. pose proof (escalation_events esc r fired w) as [_ Hq].
  destruct (run_escalation_and_emit esc r fired w) as [o w'] eqn:E. exists w'.
  split; [|exact Hq]. revert E. unfold run_escalation_and_emit.
  destruct (or_dict (rc_escalation r)); try done. cbn. repeat case_match; by intros [= <- <-].
Qed.

(** A silent power sampler fires.  The probe's documentation says that an
    empty window is a success for [power_below], so that a dead poller does not
    power-cycle anything.  When the device has no sample at all, the probe fails,
    and a plain rule at its threshold and out of its cooldown fires on it. *)
Theorem silent_sampler_fires_power_below scenes esc (r : rule) (p : pydict) dev now
    {S} `{CommandQueue S} (w : world S) :
  probe_of r "power_below" p -> strip_or_empty (dget p "device_id") = Ret dev ->
  Forall (fun s => pw_device_id s <> dev) (pe_power env) ->
  plain_rule r -> is_Some (as_dict (or_dict (rc_escalation r))) ->
  rc_failure_threshold r <= rt_failure_streak r + 1 -> cooling_down r now = false ->
  exists d r' w', run_probe r = Ret ("failure", d) /\
    update_state_and_maybe_fire scenes py_repr esc r "failure" d now w = (Ret true, r', w') /\
    rt_status r' = Firing /\ w_queue w' = (fire_action scenes py_repr r (w_queue w)).2.
Proof.
  intros Hp Hd Hn (k & Hk & Hb) [e He] Hth Hcd.
  pose proof (run_probe_returns r) as Ht. pose proof Hp as [Hpo Hpk]. rewrite Hpo, Hpk in Ht.
  destruct (run_probe r) as [[oc dd]|] eqn:Hrun; [|done].
  destruct (run_probe_well r oc dd Hrun) as [[->| ->] [kvs ->]].
  { apply (run_probe_success _ _ _ _ Hp) in Hrun.
    by apply (no_rows_power_fails _ _ _ Hd Hn) in Hrun. }
  exists (JObj kvs).
  assert (exists a, (fire_action scenes py_repr r (w_queue w)).1 = Ret a) as [a Ha].
  { unfold fire_action, guarded_dispatch. destruct (dispatch_one _ _ _ _ _ _) as [[x|x] q]; [eauto|].
    cbn. rewrite Hk. cbn. eauto. }
  unfold update_state_and_maybe_fire. rewrite Hk, Hb.
  destruct r as [c rt]. unfold with_runtime, record_event. cbn -[fire_rule] in *.
  rewrite (proj2 (Z.ltb_ge _ _)) by lia. unfold cooling_down in *. cbn -[fire_rule] in *.
  rewrite Hcd. unfold fire_rule. cbn [w_queue].
  change (fire_action scenes py_repr (Rule c _)) with (fire_action scenes py_repr (Rule c rt)).
  destruct (fire_action scenes py_repr (Rule c rt) (w_queue w)) as [o q]. cbn in Ha. subst o.
  match goal with |- context [run_escalation_and_emit esc ?r2 ?f ?w2] =>
    destruct (escalation_returns esc r2 f w2) as (w1 & Hw & Hq); [by exists e|] end.
  rewrite Hw. by eexists _, _.
Qed.
End answers.

(** ** Witnesses *)
Module Example.

#[local] Instance clk : IsoClock := binary_clock.
#[local] Instance q : CommandQueue clocked := clocked_queue pretty.

Definition no_repr (_ : json) : string := empty_str.
(** A text of digits and signs is an aware instant, any other a date. *)
Definition parse_dt (s : string) : option pydt :=
  match binary_fromisoformat s with Some t => Some (Aware t) | None => Some (Naive 0) end.

(** A network where only port 53 answers. *)
Definition connect (_ : json) (port : Z) : attempt :=
  if port =? 53 then Connected else NotConnected.
Definition no_ping (_ : string) (_ : Z) : ping_result := PingTimeout.
Definition no_dns (_ : string) : attempt := NotConnected.
Definition any_scheme (_ : string) : bool := true.
Definition loop_fetch (_ : string) : http_reply := HttpStatus 302 (Some "/").
Definition join (_ l : string) : option string := Some l.

Definition samples : list sample :=
  [Sample "ext_1" (seconds 100) (JObj [("active_app", JStr "Spectrum TV")]);
   Sample "ext_2" (seconds 100)
     (JObj [("events", JList [JObj [("summary", JStr "on air"); ("start", JStr "0")];
                              JObj [("summary", JStr "birthday"); ("start", JStr "2026-05-14")]])])].
Definition env : probe_env :=
  ProbeEnv (seconds 160) (seconds 161) (Sensors ∅ samples 0) [] [] ∅ [].

Definition rule_for (probe : pydict) : rule :=
  Rule (RuleConfig "wdr_1" "probe" None true (JObj probe) 3 2 60 300
          (JObj [("kind", JStr "group"); ("id", JStr "grp")]) WatchdogTheorems.Example.cycle
          (JObj [("kind", JStr "stop")]) JNull) WatchdogTheorems.Example.near_rt.

Definition roku : pydict :=
  [("kind", JStr "roku_app_active"); ("source_id", JStr "ext_1"); ("app_name", JStr "spectrum")].
Definition calendar : pydict :=
  [("kind", JStr "ical_event_active"); ("source_id", JStr "ext_2")].
Definition low_power : pydict :=
  [("kind", JStr "power_below"); ("device_id", JStr "dev_a"); ("threshold_w", JInt 5)].
Definition targets : list json :=
  [JObj [("host", JStr "10.0.0.1"); ("port", JInt 80)];
   JObj [("host", JStr "10.0.0.2"); ("port", JInt 53)]].

#[local] Abbreviation run :=
  (run_probe no_repr binary_isoformat parse_dt connect true no_ping no_dns any_scheme loop_fetch
     join env).

Lemma no_success_without_fresh_sample_witness :
  exists d, run (rule_for roku) = Ret ("success", d) /\
    fresh_sample env roku (age_limit "roku_app_active" roku).
Proof.
  eexists. split; [vm_compute; reflexivity|].
  refine (no_success_without_fresh_sample no_repr binary_isoformat parse_dt connect true no_ping
            no_dns any_scheme loop_fetch join env (rule_for roku) "roku_app_active" roku _ _ _ _).
  - split; reflexivity.
  - apply (bool_decide_unpack _). vm_compute. exact I.
  - vm_compute. reflexivity.
Defined.

Lemma internet_probe_is_any_of_eight_witness :
  exists d, probe_internet no_repr connect [("targets", JList targets)] = Ret ("success", d) /\
  exists t line, t ∈ firstn MAX_INTERNET_TARGETS targets /\
    probe_target no_repr connect t = Ret (true, line).
Proof.
  eexists. split; [vm_compute; reflexivity|].
  eapply (internet_probe_is_any_of_eight no_repr connect [("targets", JList targets)]
            (JObj [("host", JStr "10.0.0.1"); ("port", JInt 80)])
            [JObj [("host", JStr "10.0.0.2"); ("port", JInt 53)]] "success").
  - reflexivity.
  - vm_compute. reflexivity.
  - reflexivity.
Defined.

Lemma date_only_event_blinds_calendar_witness :
  exists why, run (rule_for calendar) = Ret ("failure", JObj (reason "probe_exception" :: why)).
Proof.
  refine (date_only_event_blinds_calendar no_repr binary_isoformat parse_dt connect true no_ping
    no_dns any_scheme loop_fetch join env (rule_for calendar) calendar
    [("summary", JStr "birthday"); ("start", JStr "2026-05-14")] "ext_2" 1800 _ 0 _ _ _ _ _ _ _ _).
  - split; reflexivity.
  - reflexivity.
  - reflexivity.
  - reflexivity.
  - reflexivity.
  - vm_compute. reflexivity.
  - apply (bool_decide_unpack _). vm_compute. exact I.
  - vm_compute. reflexivity.
Defined.

Lemma silent_sampler_fires_power_below_witness :
  exists d r' w', run (rule_for low_power) = Ret ("failure", d) /\
    update_state_and_maybe_fire ∅ no_repr WatchdogTheorems.Example.never (rule_for low_power)
      "failure" d (minutes 10) WatchdogTheorems.Example.w0 = (Ret true, r', w') /\
    rt_status r' = Firing /\
    w_queue w' = (fire_action ∅ no_repr (rule_for low_power) WatchdogActions.Example.s0).2.
Proof.
  refine (silent_sampler_fires_power_below no_repr binary_isoformat parse_dt connect true no_ping
    no_dns any_scheme loop_fetch join env ∅ WatchdogTheorems.Example.never (rule_for low_power)
    low_power "dev_a" (minutes 10) WatchdogTheorems.Example.w0 _ _ _ _ _ _ _).
  - split; reflexivity.
  - reflexivity.
  - constructor.
  - eexists. split; reflexivity.
  - eexists. reflexivity.
  - vm_compute. discriminate.
  - reflexivity.
Defined.
End Example.
