(* ===== verification/WatchdogRules.v ===== *)
(** * Watchdog rules ([app/services/watchdog])

    What an operator may store: validation per probe kind and action kind
    ([_validate.py]), the write operations ([_mutations.py]), the reads
    ([_query.py]) and the sentence a rule reads as ([_render.py]). *)

From stdpp Require Import pretty.
From S2P Require Import Prelude PyFloat Commands QueueInterface WatchdogActions.
Local Open Scope string_scope.
Local Open Scope list_scope.
Local Open Scope Z_scope.

(** ** Registries ([app/models/watchdog.py]) *)

Definition KNOWN_PROBE_KINDS : list string :=
  ["internet"; "ping"; "tcp"; "http"; "dns"; "gateway"; "host_awake";
   "roku_app_active"; "ha_state_is"; "ha_numeric_above"; "ha_numeric_below";
   "weather_alert_active"; "ical_event_active";
   "power_above"; "power_below"; "power_zero_while_on";
   "solar_production_above"; "solar_production_below";
   "snmp_interface_down"; "snmp_throughput_above"; "snmp_throughput_below";
   "snmp_error_rate_above"; "media_session_active"; "webhook_field_equals";
   "mqtt_topic_equals"; "epg_show_airing"; "device_heartbeat_stale"].
Definition LEAF_ACTION_KINDS : list string :=
  ["cycle"; "hold_off"; "notify_only"; "relay_on"; "relay_off"; "apply_scene"].
Definition WEATHER_SEVERITIES : list string := ["Minor"; "Moderate"; "Severe"; "Extreme"].

(** [v in (...)] for a tuple of strings. *)
Definition jin (v : json) (l : list string) : bool :=
  match v with JStr s => in_strs s l | _ => false end.

(** The rest of the row. *)
Record rule_row := RuleRow {
  rr_rule : rule;
  rr_description : option string;
  rr_max_retries : Z;
  rr_retry_delay_seconds : Z;
  rr_created_by_user_id : option string;
  rr_created_at : time;
  rr_updated_at : time
}.
Record rule_db := RuleDb { rd_rules : gmap string rule_row; rd_next : nat }.

(** [WatchdogValidationError], a [ValueError]. *)
Definition invalid {A} (m : string) : outcome A := Raise (AppError "WatchdogValidationError" m).

Section rules.
Context (py_repr : json -> string).
#[local] Abbreviation str := (py_str py_repr).

(** ** Probes ([_validate.py]) *)

(** [_require]. *)
Definition require (probe : pydict) (field : string) : outcome unit :=
  match dget probe field with
  | JNull => invalid "field is required"
  | JStr s => if is_empty (strip s) then invalid "field is required" else Ret tt
  | _ => Ret tt
  end.
Fixpoint require_all (probe : pydict) (fields : list string) : outcome unit :=
  match fields with
  | [] => Ret tt
  | f :: r => _ ← require probe f; require_all probe r
  end.

(** [_require_numeric]: the bounds test is two comparisons. *)
Definition require_numeric (probe : pydict) (field : string) (low high : Z) : outcome unit :=
  match dget probe field with
  | JNull => invalid "field is required"
  | raw =>
    v ← try_float raw;
    match v with
    | None => invalid "field must be numeric"
    | Some v => if flt v (fint low) || fgt v (fint high) then invalid "field out of range"
                else Ret tt
    end
  end.

(** [_require_int]. *)
Definition require_int (probe : pydict) (field : string) (low high : Z) : outcome unit :=
  match dget probe field with
  | JNull => invalid "field is required"
  | raw =>
    v ← try_int raw;
    match v with
    | None => invalid "field must be an integer"
    | Some v => if (v <? low) || (high <? v) then invalid "field out of range" else Ret tt
    end
  end.
(** [if field in probe: ...]. *)
Definition if_present (probe : pydict) (field : string) (check : outcome unit) : outcome unit :=
  if dict_has probe field then check else Ret tt.

(** One entry of [probe.targets]. *)
Definition validate_target_entry (t : json) : outcome unit :=
  match t with
  | JObj d =>
    if is_empty (strip (str (jor (dget d "host") (JStr empty_str)))) then invalid "host is required"
    else
      port ← try_int (jor (dget d "port") (JInt 0));
      match port with
      | None => invalid "port must be an integer"
      | Some p => if (p <? 1) || (65535 <? p) then invalid "port must be between 1 and 65535"
                  else Ret tt
      end
  | _ => invalid "target must be an object with host + port"
  end.
Fixpoint validate_entries (check : json -> outcome unit) (l : list json) : outcome unit :=
  match l with
  | [] => Ret tt
  | t :: r => _ ← check t; validate_entries check r
  end.

Definition validate_internet (probe : pydict) : outcome unit :=
  match dget probe "targets" with
  | JNull => Ret tt
  | JList l =>
    if Nat.ltb 10 (length l) then invalid "probe.targets accepts at most 10 entries"
    else validate_entries validate_target_entry l
  | _ => invalid "probe.targets must be a list"
  end.

Definition validate_http (probe : pydict) : outcome unit :=
  url ← strip_or_empty (dget probe "url");
  if is_empty url then invalid "probe.url is required"
  else if startswith "http://" url || startswith "https://" url then Ret tt
  else invalid "probe.url must use http:// or https:// scheme".

Definition validate_weather (probe : pydict) : outcome unit :=
  _ ← require probe "source_id";
  sev ← strip_or_empty (dget probe "min_severity");
  if negb (is_empty sev) && negb (in_strs sev WEATHER_SEVERITIES)
  then invalid "probe.min_severity" else Ret tt.

(** [validate_probe]. *)
Definition validate_probe (probe : json) : outcome unit :=
  match probe with
  | JObj p =>
    let kind := dget p "kind" in
    if jeqs kind "internet" then validate_internet p
    else if jeqs kind "ping" then require p "host"
    else if jeqs kind "tcp" then _ ← require p "host"; require_int p "port" 1 65535
    else if jeqs kind "http" then validate_http p
    else if jeqs kind "dns" then require p "hostname"
    else if jeqs kind "gateway" then Ret tt
    else if jeqs kind "roku_app_active" then require_all p ["source_id"; "app_name"]
    else if jeqs kind "ha_state_is" then require_all p ["source_id"; "entity_id"; "expected_state"]
    else if jeqs kind "weather_alert_active" then validate_weather p
    else if jeqs kind "ical_event_active" then require p "source_id"
    else if jin kind ["power_above"; "power_below"] then
      _ ← require p "device_id";
      _ ← require_numeric p "threshold_w" 0 10000;
      if_present p "window_seconds" (require_int p "window_seconds" 30 86400)
    else if jeqs kind "power_zero_while_on" then
      _ ← require p "device_id";
      _ ← if_present p "near_zero_threshold_w" (require_numeric p "near_zero_threshold_w" 0 100);
      if_present p "window_seconds" (require_int p "window_seconds" 30 86400)
    else if jeqs kind "device_heartbeat_stale" then
      _ ← require p "device_id";
      if_present p "max_age_seconds" (require_int p "max_age_seconds" 30 86400)
    else if jin kind ["ha_numeric_above"; "ha_numeric_below"] then
      _ ← require_all p ["source_id"; "entity_id"];
      require_numeric p "threshold" (-1000000) 1000000
    else if jin kind ["solar_production_above"; "solar_production_below"] then
      _ ← require p "source_id"; require_numeric p "threshold_w" 0 1000000
    else if jeqs kind "snmp_interface_down" then require_all p ["source_id"; "interface"]
    else if jin kind ["snmp_throughput_above"; "snmp_throughput_below"] then
      _ ← require_all p ["source_id"; "interface"];
      require_numeric p "threshold_bps" 0 1000000000000
    else if jeqs kind "snmp_error_rate_above" then
      _ ← require_all p ["source_id"; "interface"];
      require_numeric p "threshold_errors_per_min" 0 1000000000
    else if jeqs kind "media_session_active" then require p "source_id"
    else if jeqs kind "webhook_field_equals" then require_all p ["source_id"; "field"]
    else if jeqs kind "mqtt_topic_equals" then require_all p ["source_id"; "topic"]
    else if jeqs kind "epg_show_airing" then require p "show"
    else if jeqs kind "host_awake" then
      _ ← require p "host"; if_present p "port" (require_int p "port" 1 65535)
    else invalid "probe.kind is canonical but has no validator"
  | _ => invalid "probe must be a JSON object"
  end.

(** ** Actions *)

(** One item of an inline scene. *)
Definition validate_item (item : json) : outcome unit :=
  match item with
  | JObj d =>
    if is_empty (strip (str (jor (dget d "device_id") (JStr empty_str))))
    then invalid "device_id is required"
    else
      let relay := dget d "relay" in
      let config := dget d "config" in
      let absent v := match v with JNull => true | _ => false end in
      if negb (absent relay) && negb (jin relay ["on"; "off"; "cycle"])
      then invalid "relay must be 'on', 'off' or 'cycle'"
      else if negb (absent config) && negb (bool_decide (is_Some (as_dict config)))
      then invalid "config must be a JSON object"
      else if absent relay && negb (truthy config)
      then invalid "needs a 'relay' state or a 'config' payload"
      else Ret tt
  | _ => invalid "item must be a JSON object"
  end.

(** [_validate_leaf]. *)
Definition validate_leaf (action : pydict) : outcome unit :=
  let kind := dget action "kind" in
  if negb (jin kind LEAF_ACTION_KINDS) then invalid "kind must be one of"
  else if negb (jeqs kind "apply_scene") then Ret tt
  else
    match dget action "scene_id" with
    | JNull =>
      match dget action "items" with
      | JList ((_ :: _) as items) =>
        if Nat.ltb 50 (length items) then invalid "items accepts at most 50 entries"
        else validate_entries validate_item items
      | _ => invalid "items (or scene_id) is required for an apply_scene action"
      end
    | JStr s => if is_empty (strip s) then invalid "scene_id must be a non-empty string" else Ret tt
    | _ => invalid "scene_id must be a non-empty string"
    end.

(** One side of a binding. *)
Definition validate_sub (action : pydict) (sub : string) : outcome unit :=
  match dget action sub with
  | JObj a =>
    if jeqs (dget a "kind") "binding" then invalid "cannot itself be a binding"
    else validate_leaf a
  | _ => invalid "is required for a binding action and must be a JSON object"
  end.

(** [validate_action]. *)
Definition validate_action (action : json) : outcome unit :=
  match action with
  | JObj a =>
    if jeqs (dget a "kind") "binding" then
      _ ← validate_sub a "on_active"; validate_sub a "on_clear"
    else validate_leaf a
  | _ => invalid "action must be a JSON object"
  end.

(** ** Rules ([_mutations.py]) *)

(** [int(x) < lo or int(x) > hi]. *)
Definition int_between (v : json) (lo hi : Z) (m : string) : outcome Z :=
  z ← py_int v; if (z <? lo) || (hi <? z) then invalid m else Ret z.

(** The target checks. *)
Definition validate_target (target : json) : outcome unit :=
  match target with
  | JObj t =>
    let kind := dget t "kind" in
    if negb (jin kind ["device"; "group"; "tag"])
    then invalid "target.kind must be 'device' | 'group' | 'tag'"
    else if jin kind ["device"; "group"] then
      id ← strip_or_empty (dget t "id");
      if is_empty id then invalid "target.id is required" else Ret tt
    else
      tag ← strip_or_empty (dget t "tag");
      if is_empty tag then invalid "target.tag is required" else Ret tt
  | _ => invalid "target.kind must be 'device' | 'group' | 'tag'"
  end.

(** The fields an operator submits, as the request holds them. *)
Record rule_form := RuleForm {
  rf_name : json;
  rf_probe : json;
  rf_target : json;
  rf_action : json;
  rf_site_id : option string;
  rf_description : option string;
  rf_failure_threshold : json;
  rf_recovery_threshold : json;
  rf_window_seconds : json;
  rf_cooldown_seconds : json;
  rf_max_retries : json;
  rf_retry_delay_seconds : json;
  rf_escalation : json;
  rf_maintenance_windows : json
}.

(** [_validate_rule_inputs]: the name and the four bounded numbers. *)
Definition validate_rule_inputs (f : rule_form) : outcome (string * Z * Z * Z * Z) :=
  name ← strip_or_empty (rf_name f);
  if is_empty name then invalid "name is required"
  else if Nat.ltb 120 (String.length name) then invalid "name must be 120 characters or fewer"
  else
    match rf_probe f with
    | JObj p =>
      if negb (jin (dget p "kind") KNOWN_PROBE_KINDS) then invalid "probe.kind must be one of"
      else
        _ ← validate_probe (rf_probe f);
        _ ← validate_target (rf_target f);
        _ ← validate_action (rf_action f);
        ft ← int_between (rf_failure_threshold f) 1 100 "failure_threshold must be between 1 and 100";
        rt ← int_between (rf_recovery_threshold f) 1 100 "recovery_threshold must be between 1 and 100";
        ws ← int_between (rf_window_seconds f) 5 86400 "window_seconds must be between 5 and 86400";
        cd ← int_between (rf_cooldown_seconds f) 0 86400 "cooldown_seconds must be between 0 and 86400";
        Ret (name, ft, rt, ws, cd)
    | _ => invalid "probe.kind must be one of"
    end.

Definition stop_escalation : json := JObj [("kind", JStr "stop")].

(** The configuration columns a validated form sets. *)
Definition form_config (id : string) (enabled : bool) (f : rule_form)
    (v : string * Z * Z * Z * Z) : rule_config :=
  let '(name, ft, rt, ws, cd) := v in
  RuleConfig id name (rf_site_id f) enabled (rf_probe f) ft rt ws cd (rf_target f) (rf_action f)
    (jor (rf_escalation f) stop_escalation) (jor (rf_maintenance_windows f) (JList [])).

(** [description or None]. *)
Definition or_none (o : option string) : option string := if truthy_str o then o else None.

Context (ulid : nat -> string) (db_accepts : rule_row -> bool).

(** [create_rule]. *)
Definition create_rule (f : rule_form) (user : option string) (now : time) (d : rule_db)
    : outcome rule_row * rule_db :=
  match v ← validate_rule_inputs f;
        retries ← py_int (rf_max_retries f);
        delay ← py_int (rf_retry_delay_seconds f);
        Ret (v, retries, delay) with
  | Raise e => (Raise e, d)
  | Ret (v, retries, delay) =>
    let id := String.append "wdr_" (ulid (rd_next d)) in
    let row := RuleRow (Rule (form_config id true f v) (RuleRuntime Armed 0 0 None None None))
                 (or_none (rf_description f)) retries delay user now now in
    session_scope (fun d =>
      let d' := RuleDb (<[id := row]> (rd_rules d)) (S (rd_next d)) in
      if db_accepts row then (Ret row, d') else (Raise (DBError "watchdog_rules"), d')) d
  end.

(** The runtime columns after an edit: both streaks restart, and an enabled
    rule that is not disabled is armed; the rest stays. *)
Definition reset_runtime (enabled : bool) (rt : rule_runtime) : rule_runtime :=
  RuleRuntime (if enabled && negb (bool_decide (rt_status rt = Disabled)) then Armed
               else rt_status rt)
              0 0 (rt_last_probed_at rt) (rt_last_action_at rt) (rt_last_outcome rt).

(** [update_rule]. *)
Definition update_rule (rule_id : string) (f : rule_form) (now : time) (d : rule_db)
    : outcome (option rule_row) * rule_db :=
  match validate_rule_inputs f with
  | Raise e => (Raise e, d)
  | Ret v =>
    session_scope (fun d =>
      match rd_rules d !! rule_id with
      | None => (Ret None, d)
      | Some row =>
        match retries ← py_int (rf_max_retries f);
              delay ← py_int (rf_retry_delay_seconds f); Ret (retries, delay) with
        | Raise e => (Raise e, d)
        | Ret (retries, delay) =>
          let r := rr_rule row in
          let row' := RuleRow (Rule (form_config (rc_id r) (rc_enabled r) f v)
                                    (reset_runtime (rc_enabled r) r))
                        (or_none (rf_description f)) retries delay
                        (rr_created_by_user_id row) (rr_created_at row) now in
          let d' := RuleDb (<[rule_id := row']> (rd_rules d)) (rd_next d) in
          if db_accepts row' then (Ret (Some row'), d')
          else (Raise (DBError "watchdog_rules"), d')
        end
      end) d
  end.

(** [delete_rule]. *)
Definition delete_rule (rule_id : string) (d : rule_db) : bool * rule_db :=
  match rd_rules d !! rule_id with
  | None => (false, d)
  | Some _ => (true, RuleDb (delete rule_id (rd_rules d)) (rd_next d))
  end.

(** [set_enabled]. *)
Definition enable_config (b : bool) (c : rule_config) : rule_config :=
  RuleConfig (rc_id c) (rc_name c) (rc_site_id c) b (rc_probe c) (rc_failure_threshold c)
    (rc_recovery_threshold c) (rc_window_seconds c) (rc_cooldown_seconds c) (rc_target c)
    (rc_action c) (rc_escalation c) (rc_maintenance_windows c).
Definition set_enabled (rule_id : string) (enabled : bool) (now : time) (d : rule_db)
    : bool * rule_db :=
  match rd_rules d !! rule_id with
  | None => (false, d)
  | Some row =>
    let r := rr_rule row in
    let rt := RuleRuntime (if enabled then Armed else Disabled) (rt_failure_streak r)
                (rt_recovery_streak r) (rt_last_probed_at r) (rt_last_action_at r)
                (rt_last_outcome r) in
    let row' := RuleRow (Rule (enable_config enabled r) rt) (rr_description row)
                  (rr_max_retries row) (rr_retry_delay_seconds row) (rr_created_by_user_id row)
                  (rr_created_at row) now in
    (true, RuleDb (<[rule_id := row']> (rd_rules d)) (rd_next d))
  end.

(** ** The sentence ([_render.py]) *)

(** The text of [f"{p.get(k, dflt)}"]. *)
Definition shown (p : pydict) (k dflt : string) : string := str (dget_default p k (JStr dflt)).
Definition shown_int (p : pydict) (k : string) (dflt : Z) : string :=
  str (dget_default p k (JInt dflt)).
Definition cat (parts : list string) : string := foldr String.append empty_str parts.
Definition code (s : string) : string := cat ["`"; s; "`"].
Definition arrow (above : bool) : string := if above then ">" else "<".

Definition internet_phrase (p : pydict) : string :=
  match jor (dget p "targets") (JList []) with
  | JList ((_ :: _) as l) =>
    cat ["outbound internet connectivity ("; pretty (length l); " target";
         if Nat.eqb (length l) 1 then empty_str else "s"; ")"]
  | _ => "outbound internet connectivity (3 default targets)"
  end.

Definition weather_phrase (p : pydict) : string :=
  let bits := (if truthy (dget p "event_contains")
               then [cat ["event contains "; code (str (dget p "event_contains"))]] else []) ++
              (if truthy (dget p "min_severity")
               then [cat ["severity ≥ "; code (str (dget p "min_severity"))]] else []) in
  cat ["weather source "; code (shown p "source_id" "?"); " has alerts";
       match bits with
       | [] => " (any active)"
       | [a] => cat [" matching ("; a; ")"]
       | a :: b :: _ => cat [" matching ("; a; ", "; b; ")"]
       end].

(** [_probe_to_phrase]. *)
Definition probe_to_phrase (p : pydict) : string :=
  let k := dget_default p "kind" (JStr "?") in
  let q key := code (shown p key "?") in
  if jeqs k "internet" then internet_phrase p
  else if jeqs k "ping" then cat ["ping to "; q "host"]
  else if jeqs k "tcp" then cat ["TCP connect to `"; shown p "host" "?"; ":"; shown p "port" "?"; "`"]
  else if jeqs k "http" then cat ["HTTP GET to "; q "url"]
  else if jeqs k "dns" then cat ["DNS resolve "; q "hostname"]
  else if jeqs k "gateway" then "ping to the device's LAN gateway"
  else if jeqs k "roku_app_active" then
    cat ["Roku source "; q "source_id"; " showing app matching "; q "app_name"]
  else if jeqs k "ha_state_is" then
    cat ["Home Assistant source "; q "source_id"; " entity "; q "entity_id"; " in state ";
         q "expected_state"]
  else if jeqs k "weather_alert_active" then weather_phrase p
  else if jeqs k "ical_event_active" then
    if truthy (dget p "summary_contains") then
      cat ["calendar source "; q "source_id"; " has event matching ";
           code (str (dget p "summary_contains")); " currently airing"]
    else cat ["calendar source "; q "source_id"; " has any event currently airing"]
  else if jin k ["power_above"; "power_below"] then
    cat ["device "; q "device_id"; " averaging "; arrow (jeqs k "power_above"); " ";
         shown p "threshold_w" "?"; " W over "; shown_int p "window_seconds" 300; " s"]
  else if jeqs k "power_zero_while_on" then
    cat ["device "; q "device_id"; " drawing near-zero (< ";
         str (dget_default p "near_zero_threshold_w" (JFloat (FFinite 1 (-1))));
         " W) while relay is on"]
  else if jeqs k "device_heartbeat_stale" then
    cat ["device "; q "device_id"; " has not heartbeated in "; shown_int p "max_age_seconds" 300;
         " s (gone / silent)"]
  else if jin k ["ha_numeric_above"; "ha_numeric_below"] then
    cat ["Home Assistant source "; q "source_id"; " entity "; q "entity_id";
         if truthy (dget p "attribute")
         then cat [" attribute "; code (str (dget p "attribute"))] else empty_str;
         " "; arrow (jeqs k "ha_numeric_above"); " "; shown p "threshold" "?"]
  else if jin k ["solar_production_above"; "solar_production_below"] then
    cat ["solar source "; q "source_id"; " producing "; arrow (jeqs k "solar_production_above");
         " "; shown p "threshold_w" "?"; " W"]
  else if jeqs k "snmp_interface_down" then
    cat ["SNMP source "; q "source_id"; " interface "; q "interface"; " is down"]
  else if jin k ["snmp_throughput_above"; "snmp_throughput_below"] then
    cat ["SNMP source "; q "source_id"; " interface "; q "interface"; " ";
         shown p "direction" "total"; " throughput "; arrow (jeqs k "snmp_throughput_above"); " ";
         shown p "threshold_bps" "?"; " bps"]
  else if jeqs k "snmp_error_rate_above" then
    cat ["SNMP source "; q "source_id"; " interface "; q "interface"; " error rate > ";
         shown p "threshold_errors_per_min" "?"; " errors/min"]
  else if jeqs k "media_session_active" then
    cat ["media source "; q "source_id"; " has an active session"]
  else if jeqs k "webhook_field_equals" then
    cat ["webhook source "; q "source_id"; " field "; q "field"; " equals ";
         code (shown p "expected" empty_str)]
  else if jeqs k "mqtt_topic_equals" then
    cat ["MQTT source "; q "source_id"; " topic "; q "topic"; " equals ";
         code (shown p "expected_value" empty_str)]
  else if jeqs k "epg_show_airing" then
    cat ["EPG shows "; q "show"; " currently airing";
         if truthy (dget p "network") then cat [" on "; code (str (dget p "network"))]
         else empty_str]
  else if jeqs k "host_awake" then
    cat ["TCP connect to `"; shown p "host" "?"; ":"; shown_int p "port" 22; "` (host is awake)"]
  else cat ["unknown probe '"; str k; "'"].

(** [names.get(id, id)]. *)
Definition named (names : gmap string string) (id : string) : string := default id (names !! id).

(** [_target_to_phrase]; an id of a stored target is a string. *)
Definition target_to_phrase (t : pydict) (device_names group_names : gmap string string) : string :=
  let k := dget t "kind" in
  if jeqs k "device" then cat ["device "; code (named device_names (shown t "id" "?"))]
  else if jeqs k "group" then cat ["group "; code (named group_names (shown t "id" "?"))]
  else if jeqs k "tag" then cat ["any device tagged "; code (shown t "tag" "?")]
  else "no target".

(** [_action_to_phrase] of a leaf; [len()] of the inline items. *)
Definition leaf_to_phrase (a : pydict) : string :=
  let k := dget a "kind" in
  if jeqs k "cycle" then cat ["power-cycle ("; shown_int a "power_off_seconds" 5; "s off)"]
  else if jeqs k "hold_off" then "hold off (power off until manually restored)"
  else if jeqs k "notify_only" then "notify (no power action)"
  else if jeqs k "relay_on" then "turn power on"
  else if jeqs k "relay_off" then "turn power off"
  else if jeqs k "apply_scene" then
    if truthy (dget a "scene_id") then "apply a saved scene"
    else cat ["apply a ";
              match jor (dget a "items") (JList []) with
              | JList l => pretty (length l)
              | _ => "0"
              end; "-device scene"]
  else "no action".

(** [_seconds_to_phrase]; the minutes are always shown. *)
Definition seconds_to_phrase (s : Z) : string :=
  if s <? 60 then cat [pretty s; " s"]
  else if s <? 3600 then cat [pretty (s / 60); " min"]
  else cat [pretty (s / 3600); " h "; pretty (s mod 3600 / 60); " min"].

Definition dict_or_empty (v : json) : pydict := match v with JObj d => d | _ => [] end.

(** [render_rule_sentence] of a validated rule. *)
Definition render_rule_sentence (r : rule_config) (device_names group_names : gmap string string)
    : string :=
  let probe := probe_to_phrase (dict_or_empty (rc_probe r)) in
  let target := target_to_phrase (dict_or_empty (rc_target r)) device_names group_names in
  let action := dict_or_empty (rc_action r) in
  if jeqs (dget action "kind") "binding" then
    cat ["While "; probe; ", "; leaf_to_phrase (dict_or_empty (dget action "on_active")); " on ";
         target; "; when it clears, "; leaf_to_phrase (dict_or_empty (dget action "on_clear")); "."]
  else
    cat ["If "; probe; " fails "; pretty (rc_failure_threshold r); " consecutive times over ";
         seconds_to_phrase (rc_window_seconds r); ", "; leaf_to_phrase action; " on "; target;
         ", then wait "; seconds_to_phrase (rc_cooldown_seconds r); " and check ";
         pretty (rc_recovery_threshold r); " successes before re-arming."].
End rules.
