(* ===== verification/WatchdogRuleTheorems.v ===== *)
(** * What validation guarantees

    Stored rules are well typed and stay so under every operation and tick; a
    well-typed rule never makes a tick raise; an edit resets exactly the columns
    it documents; and two gaps: a NaN threshold passes the range check, and the
    edit of a binding at rest is not applied. *)

From stdpp Require Import pretty.
From S2P Require Import Prelude PyFloat ExternalSensors PowerSamples Epg.
From S2P Require Import EventBus Commands QueueInterface RuntimeFlags.
From S2P Require Import WatchdogActions WatchdogState WatchdogTheorems WatchdogProbes.
From S2P Require Import WatchdogProbeTheorems WatchdogRules.
Local Open Scope string_scope.
Local Open Scope list_scope.
Local Open Scope Z_scope.

(** ** Types of the stored JSON *)

(** The probe is an object of a kind [run_probe] dispatches. *)
Definition typed_probe (v : json) : Prop :=
  exists p k, v = JObj p /\ dget p "kind" = JStr k /\ k ∈ DISPATCHED_PROBE_KINDS.

(** The target is an object that names a device, a group or a tag. *)
Definition typed_target (v : json) : Prop :=
  exists t k key s, v = JObj t /\ dget t "kind" = JStr k /\
    ((k = "device" \/ k = "group") /\ key = "id" \/ k = "tag" /\ key = "tag") /\
    dget t key = JStr s /\ is_empty (strip s) = false.

(** A leaf is an object of a kind [_dispatch_one] handles. *)
Definition typed_leaf (v : json) : Prop :=
  exists a k, v = JObj a /\ dget a "kind" = JStr k /\ k ∈ LEAF_ACTION_KINDS.
(** An action is a leaf, or a binding of two leaves. *)
Definition typed_action (v : json) : Prop :=
  typed_leaf v \/
  exists a, v = JObj a /\ dget a "kind" = JStr "binding" /\
    typed_leaf (dget a "on_active") /\ typed_leaf (dget a "on_clear").

Record typed_config (c : rule_config) : Prop := TypedConfig {
  tc_name : is_empty (rc_name c) = false /\ (String.length (rc_name c) <= 120)%nat;
  tc_probe : typed_probe (rc_probe c);
  tc_target : typed_target (rc_target c);
  tc_action : typed_action (rc_action c);
  tc_failure : 1 <= rc_failure_threshold c <= 100;
  tc_recovery : 1 <= rc_recovery_threshold c <= 100;
  tc_window : 5 <= rc_window_seconds c <= 86400;
  tc_cooldown : 0 <= rc_cooldown_seconds c <= 86400
}.

Lemma jin_spec v l : jin v l = true <-> exists k, v = JStr k /\ k ∈ l.
Proof.
  split.
  - destruct v; try done. intros H. apply in_strs_spec in H. eauto.
  - intros (k & -> & Hk). by apply in_strs_spec.
Qed.
Lemma jeqs_spec v s : jeqs v s = true <-> v = JStr s.
Proof.
  split; [|intros ->; apply String.eqb_refl]. destruct v; try done. intros H.
  by apply String.eqb_eq in H as ->.
Qed.

Lemma known_kinds_are_dispatched k : k ∈ KNOWN_PROBE_KINDS <-> k ∈ DISPATCHED_PROBE_KINDS.
Proof.
  assert (Forall (fun k => k ∈ DISPATCHED_PROBE_KINDS) KNOWN_PROBE_KINDS /\
          Forall (fun k => k ∈ KNOWN_PROBE_KINDS) DISPATCHED_PROBE_KINDS) as [H1 H2].
  { apply (bool_decide_unpack _). vm_compute. exact I. }
  rewrite Forall_forall in H1, H2. split; [apply H1|apply H2].
Qed.

Section typing.
Context (py_repr : json -> string).

Lemma validate_leaf_typed a : validate_leaf py_repr a = Ret tt -> typed_leaf (JObj a).
Proof.
  unfold validate_leaf. destruct (jin (dget a "kind") LEAF_ACTION_KINDS) eqn:E; [|done].
  intros _. apply jin_spec in E as (k & Hk & Hin). by exists a, k.
Qed.

Lemma validate_sub_typed a sub : validate_sub py_repr a sub = Ret tt -> typed_leaf (dget a sub).
Proof.
  unfold validate_sub. destruct (dget a sub); try done. case_match; [done|].
  apply validate_leaf_typed.
Qed.

Lemma validate_action_typed v : validate_action py_repr v = Ret tt -> typed_action v.
Proof.
  unfold validate_action. destruct v as [| | | | | |a]; try done.
  destruct (jeqs _ _) eqn:E; intros H; [right|left; by apply validate_leaf_typed].
  apply jeqs_spec in E. peel H. destruct x. exists a. split_and!; [done|done|..];
    by apply validate_sub_typed.
Qed.

Lemma strip_or_empty_str v s :
  strip_or_empty v = Ret s -> is_empty s = false -> exists t, v = JStr t /\ strip t = s.
Proof.
  unfold strip_or_empty, jor. destruct v as [|[]|z|f|t|l|d]; cbn; try (intros [= <-]; done).
  all: try done.
  - destruct (negb _); [done|by intros [= <-]].
  - destruct f as [m e| |]; [destruct (negb _); [done|by intros [= <-]]|done..].
  - destruct (is_empty t) eqn:E; cbn; intros [= <-]; [done|]. by exists t.
  - destruct l; [by intros [= <-]|done].
  - destruct d; [by intros [= <-]|done].
Qed.

Lemma validate_target_typed v : validate_target v = Ret tt -> typed_target v.
Proof.
  unfold validate_target. destruct v as [| | | | | |t]; try done.
  destruct (jin (dget t "kind") ["device"; "group"; "tag"]) eqn:E; cbn [negb]; [|done].
  apply jin_spec in E as (k & Hk & Hin). rewrite Hk. cbn [jin].
  destruct (in_strs k ["device"; "group"]) eqn:E2; intros H; peel H; case_match; try done.
  - apply in_strs_spec in E2. destruct (strip_or_empty_str _ _ Hx) as (s & Hs & Hst); [done|].
    exists t, k, "id", s. split_and!; [done|done|left|done|by rewrite Hst].
    split; [|done]. set_solver.
  - destruct (strip_or_empty_str _ _ Hx) as (s & Hs & Hst); [done|].
    exists t, k, "tag", s. split_and!; [done|done|right|done|by rewrite Hst].
    split; [|done]. assert (k ∉ ["device"; "group"]) by (by rewrite <- in_strs_spec, E2).
    set_solver.
Qed.

Lemma int_between_ret v lo hi m z : int_between v lo hi m = Ret z -> lo <= z <= hi.
Proof. unfold int_between. intros H. peel H. case_match; simplify_eq. bool_to_prop. lia. Qed.

Lemma form_config_typed id b f v :
  validate_rule_inputs py_repr f = Ret v -> typed_config (form_config id b f v).
Proof.
  unfold validate_rule_inputs. intros H. peel H. case_match; [done|]. case_match; [done|].
  destruct (rf_probe f) as [| | | | | |p] eqn:Ep; try done.
  destruct (jin (dget p "kind") KNOWN_PROBE_KINDS) eqn:Ek; cbn [negb] in H; [|done].
  do 7 peel H. simplify_eq. destruct x0, x1, x2.
  apply jin_spec in Ek as (k & Hk & Hin). apply known_kinds_are_dispatched in Hin.
  constructor; cbn.
  - split; [done|]. match goal with E : Nat.ltb _ _ = false |- _ => apply Nat.ltb_ge in E end. done.
  - rewrite Ep. by exists p, k.
  - by apply validate_target_typed.
  - by eapply validate_action_typed.
  - by eapply int_between_ret.
  - by eapply int_between_ret.
  - by eapply int_between_ret.
  - by eapply int_between_ret.
Qed.
End typing.

(** ** Well-typed rules do not go wrong *)

(** The two columns validation does not look at can be read: the escalation is
    an object and the windows can be iterated. *)
Definition readable (c : rule_config) : Prop :=
  is_Some (as_dict (or_dict (rc_escalation c))) /\
  (truthy (rc_maintenance_windows c) = true -> returns (py_iter (rc_maintenance_windows c)) = true).

Lemma or_dict_obj d k : dget d k <> JNull -> or_dict (JObj d) = JObj d.
Proof. destruct d; [done|]. done. Qed.

Lemma typed_leaf_kind v :
  typed_leaf v -> exists a k, v = JObj a /\ or_dict v = JObj a /\ dget a "kind" = JStr k /\
                              k ∈ LEAF_ACTION_KINDS /\ or_dict (or_dict v) = or_dict v.
Proof.
  intros (a & k & -> & Hk & Hin). exists a, k.
  assert (or_dict (JObj a) = JObj a) as E by (apply (or_dict_obj _ "kind"); by rewrite Hk).
  by rewrite !E.
Qed.

Section soundness.
Context {S : Type} `{CQ : CommandQueue S} `{Clock : IsoClock}.
Context (scenes : gmap string json) (py_repr : json -> string) (esc : string -> json -> bool).

Lemma guarded_leaf_returns (r : rule) v (s : S) :
  typed_leaf v -> exists d, (guarded_dispatch scenes py_repr r v s).1 = Ret d.
Proof.
  intros (a & k & -> & Ho & Hk & _)%typed_leaf_kind. unfold guarded_dispatch.
  destruct (dispatch_one _ _ _ _ _ _) as [[d|e] s']; [by exists d|].
  rewrite Ho. cbn. by eexists.
Qed.

(** A typed leaf is one [_dispatch_one] supports: "unsupported action" is never
    its report. *)
Lemma leaf_is_supported (r : rule) v target (s : S) k :
  typed_leaf v ->
  (dispatch_one scenes py_repr r v target s).1 <>
    Ret (JObj [("action", k); ("error", JStr "unsupported action")]).
Proof.
  intros (a & k' & -> & Ho & Hk & Hin & _)%typed_leaf_kind. unfold dispatch_one. rewrite Ho, Hk.
  unfold LEAF_ACTION_KINDS in Hin.
  repeat (apply elem_of_cons in Hin as [->|Hin]); [..|by apply elem_of_nil in Hin];
    cbn [jeqs String.eqb Ascii.eqb Bool.eqb];
    unfold fire_cycle, fire_hold_off, fire_relay_set, fire_scene;
    repeat case_match; simplify_eq; cbn; try done.
Qed.

Lemma settle_returns (r : rule) oc now (w : world S) a :
  or_dict (rc_action r) = JObj a -> typed_leaf (dget a "on_active") ->
  typed_leaf (dget a "on_clear") ->
  exists b r' w', settle_binding scenes py_repr r oc now w = (Ret b, r', w').
Proof.
  intros Ha H1 H2. unfold settle_binding. cbv zeta.
  match goal with |- context [if ?a <=? ?b then Some ?x else ?c] =>
    destruct (if a <=? b then Some x else c) as [e|] end; [|by eexists _, _, _].
  destruct (decide _); [by eexists _, _, _|]. rewrite Ha. cbn [jget].
  set (leaf := dget a _). assert (typed_leaf leaf) as Hl by (subst leaf; by case_match).
  pose proof Hl as (b & k & Hb & Ho & Hk & _)%typed_leaf_kind.
  destruct (guarded_leaf_returns r (or_dict leaf) (w_queue w)) as [d Hd].
  { rewrite Ho. by rewrite <- Hb. }
  unfold apply_binding_action. destruct (guarded_dispatch _ _ _ _ _) as [res q].
  cbn in Hd. subst res. rewrite Ho. cbn [jget]. by eexists _, _, _.
Qed.

Lemma fire_returns (r : rule) now (w : world S) :
  typed_leaf (rc_action r) -> is_Some (as_dict (or_dict (rc_escalation r))) ->
  exists b r' w', fire_rule scenes py_repr esc r now w = (Ret b, r', w').
Proof.
  intros Hl He. unfold fire_rule. destruct (guarded_leaf_returns r _ (w_queue w) Hl) as [d Hd].
  unfold fire_action. destruct (guarded_dispatch _ _ _ _ _) as [res q]. cbn in Hd. subst res.
  match goal with |- context [run_escalation_and_emit esc ?r2 ?f ?w2] =>
    destruct (escalation_returns esc r2 f w2) as (w1 & Hw & Hq); [by destruct r|] end.
  rewrite Hw. by eexists _, _, _.
Qed.

Lemma update_returns (r : rule) oc details now (w : world S) :
  typed_action (rc_action r) -> is_Some (as_dict (or_dict (rc_escalation r))) ->
  exists b r' w', update_state_and_maybe_fire scenes py_repr esc r oc details now w = (Ret b, r', w').
Proof.
  intros [Hl|(a & Ha & Hk & H1 & H2)] He; unfold update_state_and_maybe_fire.
  - pose proof Hl as (a & k & Ha & Ho & Hk & Hin & _)%typed_leaf_kind. rewrite Ho. cbn [jget].
    assert (jeqs (dget a "kind") "binding" = false) as ->.
    { rewrite Hk. apply String.eqb_neq. intros ->. by apply in_strs_spec in Hin. }
    cbv zeta. repeat case_match; try by eexists _, _, _.
    destruct r as [c rt]. by apply fire_returns.
  - assert (or_dict (rc_action r) = JObj a) as Ho.
    { rewrite Ha. apply (or_dict_obj _ "kind"). by rewrite Hk. }
    rewrite Ho. cbn [jget]. rewrite Hk. cbn [jeqs String.eqb Ascii.eqb Bool.eqb].
    unfold binding_tick. cbv zeta.
    destruct (String.eqb oc "success"); [|destruct (String.eqb oc "failure")];
      [..|by eexists _, _, _]; apply (settle_returns _ _ _ _ a); by try destruct r.
Qed.

Lemma tick_rule_returns probe (r : rule) now (w : world S) st :
  typed_action (rc_action r) -> readable r ->
  exists st' r' w', tick_rule scenes py_repr esc probe r now w st = (Ret st', r', w').
Proof.
  intros Ht [He Hw]. unfold tick_rule. destruct st as [c p f e i].
  destruct (negb _); [by eexists _, _, _|].
  unfold in_maintenance_window.
  assert (exists b, (if truthy (rc_maintenance_windows r)
    then ws ← py_iter (rc_maintenance_windows r); Ret (existsb (window_covers now) ws)
    else Ret false) = Ret b) as [b Hb].
  { destruct (truthy _); [|by exists false]. specialize (Hw eq_refl).
    destruct (py_iter _); [by eexists|done]. }
  rewrite Hb. destruct b; [by eexists _, _, _|].
  destruct (match probe r with Ret _ => _ | Raise _ => _ end) as [[[oc d] p'] e'].
  destruct (update_returns r oc d now (record_event r oc d now w) Ht He) as (b & r' & w' & ->).
  by eexists _, _, _.
Qed.

Lemma tick_loop_returns probe rules now : forall (w : world S) st,
  Forall (fun r : rule => typed_action (rc_action r) /\ readable r) rules ->
  exists st' rules' w', tick_loop scenes py_repr esc probe rules now w st = (Ret st', rules', w').
Proof.
  induction rules as [|r rest IH]; intros w st Hf; cbn [tick_loop]; [by eexists _, _, _|].
  inversion Hf as [|? ? [Ht Hr] Hrest]; subst. destruct (selected r).
  - destruct (tick_rule_returns probe r now w st Ht Hr) as (st1 & r1 & w1 & ->).
    destruct (IH w1 st1 Hrest) as (st2 & rs & w2 & ->). by eexists _, _, _.
  - destruct (IH w st Hrest) as (st2 & rs & w2 & ->). by eexists _, _, _.
Qed.
End soundness.

(** ** The table over time *)

Section table.
Context {S : Type} `{CQ : CommandQueue S} `{Clock : IsoClock}.
Context (py_repr : json -> string) (ulid : nat -> string) (db_accepts : rule_row -> bool).

Definition set_rule (r : rule) (row : rule_row) : rule_row :=
  RuleRow r (rr_description row) (rr_max_retries row) (rr_retry_delay_seconds row)
          (rr_created_by_user_id row) (rr_created_at row) (rr_updated_at row).

(** One operation on the table: the four of [_mutations.py], accepted or
    refused, or a tick over the rows in some order, whatever it observes. *)
Inductive rule_op : rule_db -> rule_db -> Prop :=
  | op_create f user now d :
      rule_op d (create_rule py_repr ulid db_accepts f user now d).2
  | op_update id f now d : rule_op d (update_rule py_repr db_accepts id f now d).2
  | op_delete id d : rule_op d (delete_rule id d).2
  | op_enable id b now d : rule_op d (set_enabled id b now d).2
  | op_tick scenes esc probe disabled flags now d rows (w : world S) o rules' w' :
      rows ≡ₚ map_to_list (rd_rules d) ->
      tick scenes py_repr esc probe disabled flags now (rr_rule <$> rows.*2) w = (o, rules', w') ->
      rule_op d (RuleDb (list_to_map (zip_with (fun kv r => (kv.1, set_rule r kv.2)) rows rules'))
                        (rd_next d)).

Definition typed_db (d : rule_db) : Prop :=
  map_Forall (fun _ row => typed_config (rr_rule row)) (rd_rules d).

Lemma enable_typed b c : typed_config c -> typed_config (enable_config b c).
Proof. by intros []. Qed.

Lemma tick_configs scenes esc probe disabled flags now rules (w : world S) o rules' w' :
  tick scenes py_repr esc probe disabled flags now rules w = (o, rules', w') ->
  r_config <$> rules' = r_config <$> rules.
Proof.
  unfold tick. destruct disabled; [by intros; simplify_eq|].
  destruct (is_maintenance_mode_active _); [by intros; simplify_eq|].
  destruct (tick_loop _ _ _ _ _ _ _ _) as [[[st|e] rs] w1] eqn:E; intros; simplify_eq; [|done].
  by apply tick_loop_frame in E as [Hc _].
Qed.

Lemma rule_op_typed d d' : rule_op d d' -> typed_db d -> typed_db d'.
Proof.
  intros Hop Ht. destruct Hop as [f user now d|id f now d|id d|id b now d|
    scenes esc probe disabled flags now d rows w o rules' w' Hrows Htick].
  - unfold create_rule. destruct (v ← _; _) as [[[v a] b]|e] eqn:E; [|done].
    peel E. peel E. peel E. simplify_eq. unfold session_scope.
    destruct (db_accepts _); cbn; [|done]. apply map_Forall_insert_2; [|done].
    by eapply form_config_typed.
  - unfold update_rule. destruct (validate_rule_inputs _ f) as [v|e] eqn:E; [|done].
    unfold session_scope. destruct (rd_rules d !! id) as [row|] eqn:El; [|done].
    destruct (retries ← _; _) as [[a b]|]; [|done]. destruct (db_accepts _); cbn; [|done].
    apply map_Forall_insert_2; [|done]. by eapply form_config_typed.
  - unfold delete_rule. destruct (rd_rules d !! id); [|done]. by apply map_Forall_delete.
  - unfold set_enabled. destruct (rd_rules d !! id) as [row|] eqn:El; [|done].
    apply map_Forall_insert_2; [|done]. apply enable_typed. exact (Ht _ _ El).
  - apply tick_configs in Htick. intros i row Hi. cbn in Hi.
    apply elem_of_list_to_map_2 in Hi. apply list_elem_of_lookup in Hi as [n Hn].
    rewrite lookup_zip_with in Hn. apply bind_Some in Hn as ([k row0] & Hr & Hn).
    apply fmap_Some in Hn as (r' & Hr' & [= -> ->]). cbn.
    assert (r_config r' = r_config (rr_rule row0)) as ->.
    { assert ((r_config <$> rules') !! n = (r_config <$> (rr_rule <$> rows.*2)) !! n) as E
        by (by rewrite Htick). rewrite !list_lookup_fmap, Hr, Hr' in E. by injection E. }
    apply (Ht k). apply elem_of_map_to_list. rewrite <- Hrows. by eapply list_elem_of_lookup_2.
Qed.

(** C5. Type soundness of the rule table.  Start from no rule.  After any
    history of creations, edits, deletions, switches and ticks, every stored rule
    is well typed: a known probe kind, a complete target, an action of supported
    leaves, thresholds in their ranges.  A tick over such rules, when their
    escalation and windows can be read, never raises, whatever the probes, the
    queue and the clock do; and the action of a plain rule is one
    [_dispatch_one] supports. *)
Theorem well_typed_rules_do_not_go_wrong (d : rule_db) :
  rtc rule_op (RuleDb ∅ 0) d ->
  typed_db d /\
  forall scenes esc probe disabled flags now (w : world S) (rules : list rule),
    Forall (fun r : rule => r ∈ rr_rule <$> rows (rd_rules d) /\ readable r) rules ->
    (exists res rules' w',
       tick scenes py_repr esc probe disabled flags now rules w = (Ret res, rules', w')) /\
    Forall (fun r : rule => is_binding r = false -> forall target (s : S) k,
      (dispatch_one scenes py_repr r (rc_action r) target s).1 <>
        Ret (JObj [("action", k); ("error", JStr "unsupported action")])) rules.
Proof.
  intros Hh. assert (typed_db d) as Ht.
  { assert (typed_db (RuleDb ∅ 0)) as H0 by apply map_Forall_empty.
    revert H0. induction Hh as [|x y z Hop _ IH]; [done|]. intros H0.
    by apply IH, (rule_op_typed _ _ Hop). }
  split; [done|]. intros scenes esc probe disabled flags now w rules Hr.
  assert (Forall (fun r : rule => typed_config r /\ readable r) rules) as Hall.
  { eapply Forall_impl; [exact Hr|]. intros r [Hin Hread]. split; [|done].
    apply list_elem_of_fmap in Hin as (row & -> & Hin).
    apply elem_of_rows in Hin as [k Hk]. exact (Ht _ _ Hk). }
  split.
  - unfold tick. destruct disabled; [by eexists _, _, _|].
    destruct (is_maintenance_mode_active _); [by eexists _, _, _|].
    destruct (tick_loop_returns scenes py_repr esc probe rules now w no_stats) as (st & rs & w' & ->).
    { eapply Forall_impl; [exact Hall|]. intros r [[] Hread]. by split. }
    by eexists _, _, _.
  - eapply Forall_impl; [exact Hall|]. intros r [[] _] Hb target s k.
    apply leaf_is_supported. destruct tc_action0 as [Hl|(a & Ha & Hk & _)]; [done|].
    exfalso. revert Hb. unfold is_binding. rewrite Ha, (or_dict_obj _ "kind") by (by rewrite Hk).
    cbn. by rewrite Hk.
Qed.
End table.

(** ** Edits *)

Section edits.
Context (py_repr : json -> string) (db_accepts : rule_row -> bool).

(** An edit, on every branch.  Invalid input and a refused flush raise and
    change nothing; an unknown id answers [None] and changes nothing; otherwise
    only that row changes: its configuration is the form's, its id, switch,
    author and creation time stay, both streaks are zero, the last probe, action
    and outcome stay, and it is armed exactly when it is enabled and was not
    disabled. *)
Theorem update_rule_exact (id : string) (f : rule_form) (now : time) (d : rule_db) :
  match update_rule py_repr db_accepts id f now d with
  | (Raise _, d') => d' = d
  | (Ret None, d') => d' = d /\ rd_rules d !! id = None
  | (Ret (Some row'), d') =>
    exists row v, rd_rules d !! id = Some row /\ validate_rule_inputs py_repr f = Ret v /\
      rd_rules d' = <[id := row']> (rd_rules d) /\
      r_config (rr_rule row') = form_config (rc_id (rr_rule row)) (rc_enabled (rr_rule row)) f v /\
      rr_created_by_user_id row' = rr_created_by_user_id row /\
      rr_created_at row' = rr_created_at row /\ rr_updated_at row' = now /\
      rt_failure_streak (rr_rule row') = 0 /\ rt_recovery_streak (rr_rule row') = 0 /\
      rt_last_probed_at (rr_rule row') = rt_last_probed_at (rr_rule row) /\
      rt_last_action_at (rr_rule row') = rt_last_action_at (rr_rule row) /\
      rt_last_outcome (rr_rule row') = rt_last_outcome (rr_rule row) /\
      (rt_status (rr_rule row') = Armed <->
         rt_status (rr_rule row) = Armed \/
         (rc_enabled (rr_rule row) = true /\ rt_status (rr_rule row) <> Disabled))
  end.
Proof.
  unfold update_rule. destruct (validate_rule_inputs _ f) as [v|e] eqn:E; [|done].
  unfold session_scope. destruct (rd_rules d !! id) as [row|] eqn:El; [|done].
  destruct (retries ← _; _) as [[a b]|]; [|done]. destruct (db_accepts _); [|done].
  exists row, v. split_and!; try done. cbn. unfold reset_runtime. cbn.
  destruct (rc_enabled (rr_rule row)); cbn; [|naive_solver].
  case_bool_decide as Hd; cbn; [rewrite Hd; naive_solver|naive_solver].
Qed.

(** The edit of a binding at rest is not applied.  The code documents that
    the edit resets the runtime so that the change takes effect; it keeps the
    marker of the edge.  A binding at rest on [active], edited to any other
    binding with a recovery threshold of one, never queues its new [on_active]
    action while the condition holds, however long that is. *)
Theorem edited_binding_is_not_applied id f now d row row' d' ts
    {S} `{CQ : CommandQueue S} `{Clock : IsoClock} scenes esc (w : world S) :
  rd_rules d !! id = Some row ->
  rt_last_outcome (rr_rule row) = Some "binding:active" ->
  update_rule py_repr db_accepts id f now d = (Ret (Some row'), d') ->
  binding_rule (rr_rule row') -> rc_recovery_threshold (rr_rule row') = 1 ->
  exists r', evaluate scenes py_repr esc (rr_rule row') (pair "success" <$> ts) w = (Ret tt, r', w).
Proof.
  intros Hrow Hm Hu Hb Ht. unfold update_rule in Hu.
  destruct (validate_rule_inputs _ f) as [v|e]; [|done]. unfold session_scope in Hu.
  rewrite Hrow in Hu. destruct (retries ← _; _) as [[a b]|]; [|done].
  destruct (db_accepts _); [|done]. simplify_eq.
  destruct (binding_quiet scenes py_repr esc
    (Rule (form_config (rc_id (rr_rule row)) (rc_enabled (rr_rule row)) f v)
       (reset_runtime (rc_enabled (rr_rule row)) (rr_rule row))) "success" "binding:active" ts w)
    as (r' & H & _); [done| |done|by exists r'].
  constructor. cbn in *. lia.
Qed.

(** A NaN threshold is accepted and never crossed.  The range check is two
    comparisons, which NaN passes; the rule is stored, and then every numeric
    reading, however extreme, is a success. *)
Theorem nan_threshold_is_never_crossed (p : pydict) (above : bool)
    (iso : time -> string) (env : probe_env) oc kvs v :
  dget p "kind" = JStr (if above then "ha_numeric_above" else "ha_numeric_below") ->
  require_all p ["source_id"; "entity_id"] = Ret tt ->
  dget p "threshold" <> JNull -> py_float (dget p "threshold") = Ret FNan ->
  validate_probe py_repr (JObj p) = Ret tt /\
  (probe_ha_numeric iso env p above = Ret (oc, JObj kvs) -> dict_get kvs "value" = Some v ->
   oc = "success").
Proof.
  intros Hk Hr Hn Hf. assert (try_float (dget p "threshold") = Ret (Some FNan)) as Ht
    by (unfold try_float; by rewrite Hf).
  split.
  - assert (require_numeric p "threshold" (-1000000) 1000000 = Ret tt) as Hq.
    { unfold require_numeric. destruct (dget p "threshold"); [done|by rewrite Ht..]. }
    unfold validate_probe. rewrite Hk.
    destruct above; cbn -[require_all require_numeric]; rewrite Hr; cbn -[require_numeric]; exact Hq.
  - assert (forall k, fails k = Ret (oc, JObj kvs) -> dict_get k "value" = None ->
              dict_get kvs "value" = Some v -> oc = "success") as Hno.
    { intros k [= <- <-]. congruence. }
    unfold probe_ha_numeric, stale, entity_not_found. intros H Hv.
    do 2 peel H. case_match; [by apply (Hno _ H)|].
    do 2 peel H. rewrite Ht in Hx2. simplify_eq. do 2 peel H.
    case_match; [|by apply (Hno _ H)]. case_match; try by apply (Hno _ H).
    do 2 peel H. case_match; [|by apply (Hno _ H)]. unfold answers in H. simplify_eq.
    match goal with |- context [past _ ?v FNan] => by destruct above, v end.
Qed.
End edits.

(** ** Witnesses *)

Module Example.

#[local] Instance clk : IsoClock := binary_clock.
#[local] Instance q : CommandQueue clocked := clocked_queue pretty.
Definition no_repr (_ : json) : string := empty_str.
Definition ulid (n : nat) : string := pretty n.
Definition accepts (_ : rule_row) : bool := true.

(** A form, given its probe and its action. *)
Definition form (probe : pydict) (action : json) : rule_form :=
  RuleForm (JStr " router ") (JObj probe) (JObj [("kind", JStr "group"); ("id", JStr "grp")])
    action None None (JInt 3) (JInt 1) (JInt 60) (JInt 300) (JInt 0) (JInt 0) JNull JNull.
Definition cycle : json := JObj [("kind", JStr "cycle")].
Definition bind_to (active : string) : json :=
  JObj [("kind", JStr "binding"); ("on_active", JObj [("kind", JStr active)]);
        ("on_clear", JObj [("kind", JStr "notify_only")])].
Definition ping : pydict := [("kind", JStr "ping"); ("host", JStr "10.0.0.1")].

(** One rule created, from an empty table. *)
Definition db1 : rule_db :=
  (create_rule no_repr ulid accepts (form ping cycle) None 0 (RuleDb ∅ 0)).2.

Lemma well_typed_rules_do_not_go_wrong_witness :
  rtc (rule_op no_repr ulid accepts) (RuleDb ∅ 0) db1 /\
  (fun r : rule => rc_name r) <$> (rr_rule <$> rows (rd_rules db1)) = ["router"] /\ typed_db db1.
Proof.
  assert (rtc (rule_op no_repr ulid accepts) (RuleDb ∅ 0) db1) as H
    by (apply rtc_once, op_create).
  split; [exact H|split; [vm_compute; reflexivity|]].
  exact (proj1 (well_typed_rules_do_not_go_wrong no_repr ulid accepts db1 H)).
Defined.

(** A stored binding, at rest on [active]. *)
Definition resting : rule_row :=
  RuleRow (Rule (RuleConfig "wdr_b" "binding" None true (JObj ping) 1 1 60 0
                   (JObj [("kind", JStr "group"); ("id", JStr "grp")]) (bind_to "relay_on")
                   (JObj [("kind", JStr "stop")]) JNull)
             (RuleRuntime Firing 0 1 (Some 0) (Some 0) (Some "binding:active")))
          None 0 0 None 0 0.
Definition db2 : rule_db := RuleDb {["wdr_b" := resting]} 0.
Definition edited := update_rule no_repr accepts "wdr_b" (form ping (bind_to "relay_off")) 7 db2.
Definition edited_row : rule_row :=
  match edited.1 with Ret (Some row) => row | _ => resting end.

Lemma edited_binding_is_not_applied_witness :
  dict_get (dict_or_empty (rc_action (r_config (rr_rule edited_row)))) "on_active"
    = Some (JObj [("kind", JStr "relay_off")]) /\
  exists r', evaluate ∅ no_repr WatchdogTheorems.Example.never (rr_rule edited_row)
               (pair "success" <$> [minutes 1; minutes 2; minutes 3]) WatchdogTheorems.Example.w0
             = (Ret tt, r', WatchdogTheorems.Example.w0).
Proof.
  split; [vm_compute; reflexivity|].
  refine (edited_binding_is_not_applied no_repr accepts "wdr_b" (form ping (bind_to "relay_off")) 7
            db2 resting edited_row edited.2 [minutes 1; minutes 2; minutes 3] ∅
            WatchdogTheorems.Example.never WatchdogTheorems.Example.w0 _ _ _ _ _).
  - reflexivity.
  - reflexivity.
  - vm_compute. reflexivity.
  - exists (JStr "binding"). split; vm_compute; reflexivity.
  - vm_compute. reflexivity.
Defined.

Definition nan_probe : pydict :=
  [("kind", JStr "ha_numeric_above"); ("source_id", JStr "ext_1"); ("entity_id", JStr "sensor.t");
   ("threshold", JStr "nan")].
(** The sensor reads two million, over any threshold an operator may store. *)
Definition hot : probe_env :=
  ProbeEnv (seconds 100) (seconds 100)
    (Sensors ∅ [Sample "ext_1" (seconds 99)
       (JObj [("entities", JObj [("sensor.t", JObj [("state", JStr "2000000")])])])] 0)
    [] [] ∅ [].

Lemma nan_threshold_is_never_crossed_witness :
  validate_probe no_repr (JObj nan_probe) = Ret tt /\
  exists d f, probe_ha_numeric binary_isoformat hot nan_probe true = Ret ("success", JObj d) /\
    dict_get d "value" = Some (JFloat f) /\ fcompare f (fint 2000000) = Some Eq.
Proof.
  destruct (nan_threshold_is_never_crossed no_repr nan_probe true binary_isoformat hot "success"
              [] JNull) as [H _]; [reflexivity|vm_compute; reflexivity|discriminate|
              vm_compute; reflexivity|].
  split; [exact H|]. eexists _, _. split_and!; vm_compute; reflexivity.
Defined.
End Example.
