(* ===== verification/Schedules.v ===== *)
(** * Schedules ([app/services/schedules.py])

    Validation and normalisation of a new schedule, and the computation of the
    next instant it is due. *)

From Stdlib Require Import Ascii.
From stdpp Require Import pretty.
From S2P Require Import Prelude.
Local Open Scope string_scope.
Local Open Scope list_scope.
Local Open Scope Z_scope.

(** The row of [schedules] ([app/models/schedules.py]). *)
Record schedule := Schedule {
  sc_id : string;
  sc_name : string;
  sc_enabled : bool;
  sc_kind : string;
  sc_recurrence : string;
  sc_at_time_utc : option string;
  sc_weekdays : json;
  sc_start_at : option time;
  sc_duration_seconds : Z;
  sc_target : json;
  sc_power_off_seconds : Z;
  sc_post_reboot_holdoff_seconds : Z;
  sc_last_run_at : option time;
  sc_next_run_at : option time;
  sc_last_outcome : option string
}.

Definition KNOWN_KINDS : list string := ["power_cycle"; "maintenance"].
Definition KNOWN_RECURRENCES : list string := ["once"; "daily"; "weekly"].

(** ** Calendar

    Days start at multiples of [DAY]; 1970-01-01 was a Thursday. *)
Definition day_start (t : time) : time := t / DAY * DAY.
(** [t.weekday()]: Monday is 0. *)
Definition weekday (t : time) : Z := (t / DAY + 3) mod 7.

(** [t.replace(hour=hh, minute=mm, second=0, microsecond=0)]. *)
Definition replace_hm (t : time) (hh mm : Z) : outcome time :=
  if (0 <=? hh) && (hh <=? 23) && (0 <=? mm) && (mm <=? 59)
  then Ret (day_start t + hours hh + minutes mm)
  else Raise (ValueError "hour/minute out of range").

(** [s.split(":")]. *)
Fixpoint split_colon (s : string) : list string :=
  match s with
  | EmptyString => [EmptyString]
  | String a r =>
    if Ascii.eqb a ":"%char then EmptyString :: split_colon r
    else match split_colon r with
         | [] => [String a EmptyString]
         | x :: xs => String a x :: xs
         end
  end.

(** [hh, mm = [int(x) for x in s.split(":")]], [None] when it raises. *)
Definition parse_hm (s : string) : option (Z * Z) :=
  match split_colon s with
  | [a; b] => hh ← parse_int a; mm ← parse_int b; Some (hh, mm)
  | _ => None
  end.

(** The loop [for _ in range(7)]. *)
Fixpoint walk_to_weekday (n : nat) (candidate : time) (ws : list Z) : option time :=
  match n with
  | O => None
  | S n => if bool_decide (weekday candidate ∈ ws) then Some candidate
           else walk_to_weekday n (candidate + DAY) ws
  end.

(** [[int(d) for d in (s.weekdays or [])]]; the order is of no consequence. *)
Definition read_weekdays (s : schedule) : outcome (list Z) :=
  days ← py_iter (jor (sc_weekdays s) (JList [])); mapM py_int days.

(** [compute_next_run_at]. *)
Definition compute_next_run_at (s : schedule) (now : time) : outcome (option time) :=
  if String.eqb (sc_recurrence s) "once" then
    match sc_start_at s, sc_last_run_at s with
    | None, _ => Ret None
    | Some _, Some _ => Ret None
    | Some start_at, None => Ret (if now <? start_at then Some start_at else None)
    end
  else if in_strs (sc_recurrence s) ["daily"; "weekly"] then
    match sc_at_time_utc s with
    | None => Ret None
    | Some at_ =>
      if is_empty at_ then Ret None
      else match parse_hm at_ with
      | None => Ret None
      | Some (hh, mm) =>
        candidate ← replace_hm now hh mm;
        let candidate := if candidate <=? now then candidate + DAY else candidate in
        if String.eqb (sc_recurrence s) "daily" then Ret (Some candidate)
        else
          weekdays ← read_weekdays s;
          match weekdays with
          | [] => Ret None
          | _ => Ret (walk_to_weekday 7 candidate weekdays)
          end
      end
    end
  else Ret None.

(** ** Creation *)

(** [re.fullmatch(r"(\d{1,2}):(\d{2})", s)] and the range tests: the hour and
    the text of the minutes. *)
Definition is_digit (a : Ascii.ascii) : bool := match digit_of a with Some _ => true | None => false end.
Definition digit_val (a : Ascii.ascii) : Z := default 0 (digit_of a).

Definition match_hm (s : string) : option (Z * string) :=
  let ok hh c d :=
    if is_digit c && is_digit d && (hh <=? 23) && (digit_val c * 10 + digit_val d <=? 59)
    then Some (hh, String c (String d EmptyString)) else None in
  match s with
  | String a (String x (String c (String d EmptyString))) =>
    if is_digit a && Ascii.eqb x ":"%char then ok (digit_val a) c d else None
  | String a (String b (String x (String c (String d EmptyString)))) =>
    if is_digit a && is_digit b && Ascii.eqb x ":"%char then ok (digit_val a * 10 + digit_val b) c d
    else None
  | _ => None
  end.

(** [f"{n:02d}"] for [n] up to 99. *)
Definition digit_char (n : Z) : Ascii.ascii := Ascii.ascii_of_nat (Z.to_nat n + 48).
Definition pad2 (n : Z) : string :=
  String (digit_char (n / 10)) (String (digit_char (n mod 10)) EmptyString).

(** Normal form of [at_time_utc]: zero-padded [HH:MM]. *)
Definition normalize_at (s : string) : outcome string :=
  match match_hm (strip s) with
  | Some (hh, mm) => Ret (String.append (pad2 hh) (String ":"%char mm))
  | None => Raise (AppError "ScheduleValidationError" "at_time_utc must be HH:MM (00:00 to 23:59)")
  end.

(** [sorted({int(d) for d in weekdays})]. *)
Definition clean_weekdays (w : json) : outcome (list Z) :=
  days ← py_iter w;
  ds ← mapM py_int days;
  Ret (merge_sort Z.le (remove_dups ds)).

Definition invalid {A} (msg : string) : outcome A := Raise (AppError "ScheduleValidationError" msg).

Definition in_json (v : json) (l : list string) : bool :=
  match v with JStr s => in_strs s l | _ => false end.

(** The validation of [create], up to the construction of the row: the
    normalised name, time of day and weekdays. *)
Definition validate_schedule (name : option string) (kind recurrence : string) (target : json)
    (at_time_utc : option string) (weekdays : json) (start_at : option time)
    (duration_seconds : Z) : outcome (string * option string * json) :=
  let name := strip (or_str name empty_str) in
  if is_empty name then invalid "name is required"
  else if Nat.ltb 120 (String.length name) then invalid "name must be 120 characters or fewer"
  else if negb (in_strs kind KNOWN_KINDS) then invalid "kind must be one of KNOWN_KINDS"
  else if negb (in_strs recurrence KNOWN_RECURRENCES)
  then invalid "recurrence must be one of KNOWN_RECURRENCES"
  else
    at_ ← (if in_strs recurrence ["daily"; "weekly"] then
             if negb (truthy_str at_time_utc) then invalid "at_time_utc is required for daily/weekly"
             else Some <$> normalize_at (or_str at_time_utc empty_str)
           else Ret at_time_utc);
    days ← (if String.eqb recurrence "weekly" then
              if negb (truthy weekdays) then invalid "weekdays is required for weekly"
              else cleaned ← clean_weekdays weekdays;
                   if existsb (fun d => (d <? 0) || (6 <? d)) cleaned
                   then invalid "weekdays must be integers 0 (Mon) to 6 (Sun)"
                   else Ret (JList (JInt <$> cleaned))
            else Ret weekdays);
    if String.eqb recurrence "once" && bool_decide (start_at = None)
    then invalid "start_at is required for once"
    else
      target_ok ← (if String.eqb kind "power_cycle" then
                     if negb (truthy target) then Ret false
                     else k ← jget target "kind"; Ret (in_json k ["device"; "group"; "tag"])
                   else Ret true);
      if negb target_ok then invalid "power_cycle requires target.kind in {device,group,tag}"
      else if String.eqb kind "maintenance" && (duration_seconds <=? 0)
      then invalid "maintenance schedule needs duration_seconds > 0"
      else Ret (name, at_, jor days (JList [])).

Definition with_next (s : schedule) (n : option time) : schedule :=
  Schedule (sc_id s) (sc_name s) (sc_enabled s) (sc_kind s) (sc_recurrence s) (sc_at_time_utc s)
    (sc_weekdays s) (sc_start_at s) (sc_duration_seconds s) (sc_target s)
    (sc_power_off_seconds s) (sc_post_reboot_holdoff_seconds s) (sc_last_run_at s) n
    (sc_last_outcome s).

(** The table, in insertion order.  [new_id] draws an id not in use. *)
Abbreviation schedules := (list schedule).

(** [create]: [Ret] gives the row that was added. *)
Definition create (new_id : string) (name : option string) (kind recurrence : string)
    (target : json) (at_time_utc : option string) (weekdays : json) (start_at : option time)
    (duration_seconds power_off_seconds post_reboot_holdoff_seconds : Z) (now : time)
    (t : schedules) : outcome schedule * schedules :=
  match validate_schedule name kind recurrence target at_time_utc weekdays start_at
                          duration_seconds with
  | Raise e => (Raise e, t)
  | Ret (name, at_, days) =>
    let s := Schedule new_id name true kind recurrence at_ days start_at duration_seconds
               (jor target (JObj [])) power_off_seconds post_reboot_holdoff_seconds
               None None None in
    session_scope (fun t =>
      match compute_next_run_at s now with
      | Raise e => (Raise e, t ++ [s])
      | Ret n => (Ret (with_next s n), t ++ [with_next s n])
      end) t
  end.

(** [delete] and [set_enabled]. *)
Definition get_schedule (id : string) (t : schedules) : option schedule :=
  find (fun s => String.eqb (sc_id s) id) t.

Definition delete (id : string) (t : schedules) : bool * schedules :=
  match get_schedule id t with
  | None => (false, t)
  | Some _ => (true, List.filter (fun s => negb (String.eqb (sc_id s) id)) t)
  end.

Definition with_enabled (s : schedule) (b : bool) : schedule :=
  Schedule (sc_id s) (sc_name s) b (sc_kind s) (sc_recurrence s) (sc_at_time_utc s)
    (sc_weekdays s) (sc_start_at s) (sc_duration_seconds s) (sc_target s)
    (sc_power_off_seconds s) (sc_post_reboot_holdoff_seconds s) (sc_last_run_at s)
    (sc_next_run_at s) (sc_last_outcome s).

Definition update_schedule (id : string) (s' : schedule) (t : schedules) : schedules :=
  (fun s => if String.eqb (sc_id s) id then s' else s) <$> t.

Definition set_enabled (id : string) (enabled : bool) (now : time) (t : schedules)
    : outcome bool * schedules :=
  session_scope (fun t =>
    match get_schedule id t with
    | None => (Ret false, t)
    | Some s =>
      let s := with_enabled s enabled in
      if enabled then
        match compute_next_run_at s now with
        | Raise e => (Raise e, update_schedule id s t)
        | Ret n => (Ret true, update_schedule id (with_next s n) t)
        end
      else (Ret true, update_schedule id s t)
    end) t.

(** ** When a recurrence is due *)

(** [u] is an instant at which the recurrence is due. *)
Definition due_at (s : schedule) (hh mm : Z) (ws : list Z) (u : time) : Prop :=
  u mod DAY = hours hh + minutes mm /\
  (sc_recurrence s = "weekly" -> weekday u ∈ ws).

Lemma DAY_pos : 0 < DAY.
Proof. reflexivity. Qed.

(** The first candidate: the least instant after [now] at that time of day. *)
Lemma replace_hm_range now hh mm c :
  replace_hm now hh mm = Ret c ->
  0 <= hours hh + minutes mm < DAY /\ c = day_start now + (hours hh + minutes mm).
Proof.
  unfold replace_hm. case_match; [|done]. intros [= <-]. bool_to_prop.
  unfold hours, minutes, DAY, MICRO. lia.
Qed.

Lemma mod_add_day u k : (u + k * DAY) mod DAY = u mod DAY.
Proof. apply Z_mod_plus_full. Qed.

Lemma first_candidate now hh mm c :
  replace_hm now hh mm = Ret c ->
  let c' := if c <=? now then c + DAY else c in
  now < c' <= now + DAY /\ c' mod DAY = hours hh + minutes mm.
Proof.
  intros Hc. apply replace_hm_range in Hc as [Hr ->]. unfold day_start. cbv zeta.
  pose proof (Z.div_mod now DAY ltac:(done)) as Hd.
  pose proof (Z.mod_pos_bound now DAY DAY_pos) as Hm.
  assert (Hmod : forall k, (now / DAY * DAY + (hours hh + minutes mm) + k * DAY) mod DAY =
                           hours hh + minutes mm).
  { intros k. rewrite mod_add_day, Z.add_comm, mod_add_day. by apply Z.mod_small. }
  destruct (Z.leb_spec (now / DAY * DAY + (hours hh + minutes mm)) now); split; try lia.
  - etransitivity; [|apply (Hmod 1)]. apply (f_equal (fun z => z mod DAY)). lia.
  - etransitivity; [|apply (Hmod 0)]. apply (f_equal (fun z => z mod DAY)). lia.
Qed.

(** Two instants at the same time of day differ by whole days. *)
Lemma same_time_of_day u v :
  u mod DAY = v mod DAY -> exists k, u = v + k * DAY.
Proof.
  intros H. exists (u / DAY - v / DAY).
  pose proof (Z.div_mod u DAY ltac:(done)). pose proof (Z.div_mod v DAY ltac:(done)). lia.
Qed.

Lemma weekday_add t k : weekday (t + k * DAY) = (weekday t + k) mod 7.
Proof.
  unfold weekday. rewrite Z.div_add by done. rewrite Zplus_mod_idemp_l. f_equal. lia.
Qed.

Lemma walk_spec n : forall c ws,
  match walk_to_weekday n c ws with
  | Some t => exists k, 0 <= k < Z.of_nat n /\ t = c + k * DAY /\ weekday t ∈ ws /\
                forall j, 0 <= j < k -> weekday (c + j * DAY) ∉ ws
  | None => forall j, 0 <= j < Z.of_nat n -> weekday (c + j * DAY) ∉ ws
  end.
Proof.
  induction n as [|n IH]; intros c ws; cbn [walk_to_weekday]; [intros j; lia|].
  case_bool_decide as Hin.
  { exists 0. split_and!; [lia|lia|lia|by rewrite ?Z.add_0_r|intros j; lia]. }
  specialize (IH (c + DAY) ws).
  assert (Hshift : forall j, c + DAY + j * DAY = c + (j + 1) * DAY) by (intros; lia).
  destruct (walk_to_weekday n (c + DAY) ws) as [t|].
  - destruct IH as (k & Hk & -> & Hw & Hno). rewrite Hshift in Hw |- *.
    exists (k + 1). split_and!; [lia|lia|lia|done|].
    intros j Hj. destruct (decide (j = 0)) as [->|]; [by rewrite Z.add_0_r|].
    specialize (Hno (j - 1) ltac:(lia)). rewrite Hshift in Hno. by replace (j - 1 + 1) with j in Hno by lia.
  - intros j Hj. destruct (decide (j = 0)) as [->|]; [by rewrite Z.add_0_r|].
    specialize (IH (j - 1) ltac:(lia)). rewrite Hshift in IH. by replace (j - 1 + 1) with j in IH by lia.
Qed.

(** The text [HH:MM] that [create] stores reads back as the same numbers. *)
Definition all_hm : list (Z * Z) :=
  List.flat_map (fun h => (fun m => (Z.of_nat h, Z.of_nat m)) <$> seq 0 60) (seq 0 24).

Lemma hm_roundtrip hh mm : 0 <= hh <= 23 -> 0 <= mm <= 59 ->
  parse_hm (String.append (pad2 hh) (String ":" (pad2 mm))) = Some (hh, mm).
Proof.
  intros Hh Hm.
  assert (Hall : forallb (fun x : Z * Z => bool_decide
    (parse_hm (String.append (pad2 x.1) (String ":" (pad2 x.2))) = Some x)) all_hm = true)
    by (vm_compute; reflexivity).
  rewrite forallb_forall in Hall. specialize (Hall (hh, mm)). cbn [fst snd] in Hall.
  apply bool_decide_eq_true in Hall; [done|]. apply in_flat_map.
  exists (Z.to_nat hh). split; [apply in_seq; lia|].
  apply list_elem_of_In, list_elem_of_fmap. exists (Z.to_nat mm).
  rewrite !Z2Nat.id by lia. split; [done|]. apply elem_of_seq. lia.
Qed.

Lemma is_digit_spec c : is_digit c = true -> 0 <= digit_val c <= 9 /\ c = digit_char (digit_val c).
Proof.
  unfold is_digit, digit_val, digit_of, digit_char. cbv zeta.
  destruct (_ && _) eqn:E; [|done]. cbn. intros _. apply andb_prop in E as [H1 H2]. apply Nat.leb_le in H1, H2. split; [lia|].
  rewrite Nat2Z.id, Nat.sub_add by lia. by rewrite Ascii.ascii_nat_embedding.
Qed.

Lemma two_digits c d : is_digit c = true -> is_digit d = true ->
  String c (String d EmptyString) = pad2 (digit_val c * 10 + digit_val d).
Proof.
  intros Hc Hd. destruct (is_digit_spec c Hc) as [Hcr Hce], (is_digit_spec d Hd) as [Hdr Hde].
  unfold pad2. rewrite Hce at 1. rewrite Hde at 1.
  replace ((digit_val c * 10 + digit_val d) / 10) with (digit_val c) by (Z.div_mod_to_equations; lia).
  by replace ((digit_val c * 10 + digit_val d) mod 10) with (digit_val d) by (Z.div_mod_to_equations; lia).
Qed.

Lemma match_hm_spec s hh m : match_hm s = Some (hh, m) ->
  0 <= hh <= 23 /\ exists mm, 0 <= mm <= 59 /\ m = pad2 mm.
Proof.
  assert (Hok : forall h c d,
    (if is_digit c && is_digit d && (h <=? 23) && (digit_val c * 10 + digit_val d <=? 59)
     then Some (h, String c (String d EmptyString)) else None) = Some (hh, m) ->
    0 <= h -> 0 <= hh <= 23 /\ exists mm, 0 <= mm <= 59 /\ m = pad2 mm).
  { intros h c d H Hh. destruct (_ && _) eqn:E; [|done]. simplify_eq. bool_to_prop.
    split; [done|]. exists (digit_val c * 10 + digit_val d).
    destruct (is_digit_spec c), (is_digit_spec d); [done..|]. split; [lia|by apply two_digits]. }
  unfold match_hm. destruct s as [|a [|b [|c [|d [|e [|f s]]]]]]; try done.
  - destruct (is_digit a && Ascii.eqb b ":"%char) eqn:E; [|done]. bool_to_prop.
    intros Hm. eapply Hok; [exact Hm|]. by apply is_digit_spec.
  - destruct (is_digit a && is_digit b && Ascii.eqb c ":"%char) eqn:E; [|done]. bool_to_prop.
    intros Hm. eapply Hok; [exact Hm|]. destruct (is_digit_spec a), (is_digit_spec b); [done..|lia].
Qed.

Lemma normalize_at_spec s a : normalize_at s = Ret a ->
  exists hh mm, 0 <= hh <= 23 /\ 0 <= mm <= 59 /\ parse_hm a = Some (hh, mm) /\ is_empty a = false.
Proof.
  unfold normalize_at. destruct (match_hm (strip s)) as [[hh m]|] eqn:E; [|done].
  intros [= <-]. apply match_hm_spec in E as (Hh & mm & Hm & ->).
  exists hh, mm. split_and!; try lia; [by apply hm_roundtrip|done].
Qed.

(** No week without the weekday: either [walk] finds it or no instant has it. *)
Lemma walk_complete c ws hh mm u :
  walk_to_weekday 7 c ws = None -> c mod DAY = hours hh + minutes mm ->
  u mod DAY = hours hh + minutes mm -> weekday u ∉ ws.
Proof.
  intros Hw Hc Hu. pose proof (walk_spec 7 c ws) as H. rewrite Hw in H.
  destruct (same_time_of_day u c) as [k ->]; [congruence|].
  rewrite weekday_add.
  rewrite <- Zplus_mod_idemp_r.
  pose proof (Z.mod_pos_bound k 7 ltac:(lia)).
  specialize (H (k mod 7) ltac:(lia)). by rewrite weekday_add in H.
Qed.

(** What the recurring branch of [compute_next_run_at] returns. *)
Lemma recurring_next s now a hh mm ws :
  sc_recurrence s = "daily" \/ (sc_recurrence s = "weekly" /\ read_weekdays s = Ret ws) ->
  sc_at_time_utc s = Some a -> is_empty a = false -> parse_hm a = Some (hh, mm) ->
  0 <= hh <= 23 -> 0 <= mm <= 59 ->
  match compute_next_run_at s now with
  | Ret (Some t) => now < t <= now + 7 * DAY /\ due_at s hh mm ws t /\
                    forall u, now < u < t -> ~ due_at s hh mm ws u
  | Ret None => sc_recurrence s = "weekly" /\ forall u, ~ due_at s hh mm ws u
  | Raise _ => False
  end.
Proof.
  intros Hrec Ha He Hp Hh Hm. unfold compute_next_run_at.
  assert (String.eqb (sc_recurrence s) "once" = false) as -> by (destruct Hrec as [->|[-> _]]; done).
  assert (in_strs (sc_recurrence s) ["daily"; "weekly"] = true) as ->
    by (destruct Hrec as [->|[-> _]]; done).
  rewrite Ha, He, Hp. destruct (replace_hm now hh mm) as [c|e] eqn:Ec.
  2: { unfold replace_hm in Ec. rewrite !(proj2 (Z.leb_le _ _)) in Ec by lia. done. }
  cbn [mbind outcome_bind]. apply first_candidate in Ec as [Hr Hmod]. cbv zeta in *.
  set (c' := if c <=? now then c + DAY else c) in *. clearbody c'.
  assert (Hfirst : forall u, now < u -> u mod DAY = hours hh + minutes mm ->
            exists k, u = c' + k * DAY /\ 0 <= k).
  { intros u Hu Hum. destruct (same_time_of_day u c') as [k Hk]; [congruence|].
    exists k. pose proof DAY_pos. split; [done|]. nia. }
  pose proof DAY_pos as HD.
  destruct Hrec as [Hd|[Hw Hws]].
  - rewrite Hd. cbn. split; [lia|]. split; [split; [done|by rewrite Hd]|].
    intros u Hu [Hum _]. destruct (Hfirst u) as (k & -> & Hk); [lia|done|]. nia.
  - rewrite Hw, Hws. cbn [String.eqb Ascii.eqb Bool.eqb mbind outcome_bind].
    destruct ws as [|x ws]; [split; [done|]; intros u [_ H]; by apply not_elem_of_nil in H|].
    pose proof (walk_spec 7 c' (x :: ws)) as Hs.
    destruct (walk_to_weekday 7 c' (x :: ws)) as [t|] eqn:Et.
    + destruct Hs as (k & Hk & -> & Hin & Hno). assert (0 <= k <= 6) by lia. split; [nia|].
      split; [split; [by rewrite mod_add_day|done]|].
      intros u Hu [Hum Huw]. destruct (Hfirst u) as (j & -> & Hj); [lia|done|].
      apply (Hno j); [nia|by apply Huw].
    + split; [done|]. intros u [Hum Huw]. apply (walk_complete c' (x :: ws) hh mm u Et Hmod Hum), Huw, Hw.
Qed.

(** The weekdays [create] stores: some, all in range. *)
Lemma clean_weekdays_nonempty wd ds :
  truthy wd = true -> clean_weekdays wd = Ret ds -> ds <> [].
Proof.
  intros Ht Hc. unfold clean_weekdays in Hc. destruct (py_iter wd) as [l|e] eqn:Hi; [|done].
  cbn [mbind outcome_bind] in Hc.
  destruct (mapM py_int l) as [k|e] eqn:Hm; [|done]. cbn in Hc. simplify_eq.
  apply (truthy_iter _ _ Ht) in Hi. apply mapM_ret, Forall2_length in Hm.
  intros Hnil. pose proof (merge_sort_Permutation Z.le (remove_dups k)) as Hperm.
  rewrite Hnil in Hperm. apply Permutation_nil_l in Hperm.
  destruct k as [|x k]; [by destruct l|].
  assert (x ∈ remove_dups (x :: k)) as Hx by (apply elem_of_remove_dups; left).
  rewrite <- Hperm in Hx. by apply not_elem_of_nil in Hx.
Qed.

Lemma weekdays_in_range ds :
  existsb (fun d => (d <? 0) || (6 <? d)) ds = false -> Forall (fun d => 0 <= d <= 6) ds.
Proof.
  induction ds as [|d ds IH]; cbn; [constructor|]. intros H. bool_to_prop.
  constructor; [lia|auto].
Qed.

(** The tail of the validation returns the fields it was given. *)
Lemma validate_tail {A} (c1 c3 : bool) m1 m2 m3 (t : outcome bool) (x y : A) :
  (if c1 then invalid m1 else ok ← t;
   if negb ok then invalid m2 else if c3 then invalid m3 else Ret x) = Ret y -> x = y.
Proof. destruct c1; [done|]. destruct t as [[]|]; [|done..]. destruct c3; [done|]. by intros [= ->]. Qed.

(** The normalised fields of an accepted recurring schedule. *)
Lemma validate_recurring name kind rec tgt at_ wd start dur name' at' days :
  validate_schedule name kind rec tgt at_ wd start dur = Ret (name', at', days) ->
  rec <> "once" ->
  (exists a hh mm, at' = Some a /\ is_empty a = false /\ parse_hm a = Some (hh, mm) /\
     0 <= hh <= 23 /\ 0 <= mm <= 59) /\
  (rec = "daily" \/ rec = "weekly" /\ exists ds, days = JList (JInt <$> ds) /\ ds <> [] /\
     Forall (fun d => 0 <= d <= 6) ds).
Proof.
  unfold validate_schedule. cbv zeta.
  destruct (is_empty _); [done|]. destruct (Nat.ltb _ _); [done|].
  destruct (negb (in_strs kind _)); [done|].
  destruct (in_strs rec KNOWN_RECURRENCES) eqn:Hk; cbn [negb]; [|done].
  intros H Hrec. assert (in_strs rec ["daily"; "weekly"] = true) as Hdw.
  { apply in_strs_spec in Hk. apply in_strs_spec. unfold KNOWN_RECURRENCES in Hk. set_solver. }
  rewrite Hdw in H. destruct (truthy_str at_) eqn:Hat; cbn [negb] in H; [|done].
  destruct (normalize_at _) as [a|e] eqn:Hn; cbn [fmap outcome_fmap mbind outcome_bind] in H; [|done].
  apply normalize_at_spec in Hn as (hh & mm & Hh & Hm & Hp & He).
  destruct (String.eqb_spec rec "weekly") as [->|Hw].
  - destruct (truthy wd) eqn:Htw; cbn [negb] in H; [|done].
    destruct (clean_weekdays wd) as [ds|e] eqn:Hc; cbn [mbind outcome_bind] in H; [|done].
    destruct (existsb _ ds) eqn:Hex; [done|]. cbn [mbind outcome_bind] in H.
    apply validate_tail in H. simplify_eq. split; [by exists a, hh, mm|]. right.
    split; [done|]. exists ds. apply clean_weekdays_nonempty in Hc; [|done].
    split; [by destruct ds|]. split; [done|by apply weekdays_in_range].
  - cbn [mbind outcome_bind] in H. apply validate_tail in H. simplify_eq.
    split; [by exists a, hh, mm|]. left. apply in_strs_spec in Hdw. set_solver.
Qed.

(** ** Theorems *)

(** C9. Next run.  For a daily or weekly schedule with a readable time of day,
    [compute_next_run_at] returns [t] exactly when [t] is the first instant
    strictly after [now] at which the recurrence is due (right time of day, right
    weekday), returns nothing exactly when no instant at all is due, and never
    raises. *)
Theorem next_run_is_the_first_due_instant s now a hh mm ws :
  sc_recurrence s = "daily" \/ (sc_recurrence s = "weekly" /\ read_weekdays s = Ret ws) ->
  sc_at_time_utc s = Some a -> is_empty a = false -> parse_hm a = Some (hh, mm) ->
  0 <= hh <= 23 -> 0 <= mm <= 59 ->
  returns (compute_next_run_at s now) = true /\
  (forall t, compute_next_run_at s now = Ret (Some t) <->
     now < t /\ due_at s hh mm ws t /\ forall u, now < u < t -> ~ due_at s hh mm ws u) /\
  (compute_next_run_at s now = Ret None <-> forall u, ~ due_at s hh mm ws u).
Proof.
  intros Hrec Ha He Hp Hh Hm.
  pose proof (recurring_next s now a hh mm ws Hrec Ha He Hp Hh Hm) as H.
  destruct (compute_next_run_at s now) as [[t|]|e]; [| |done].
  - destruct H as (Hr & Hd & Hno). split_and!; [done| |].
    + intros t'. split; [intros [= <-]; split_and!; [lia|done..]|].
      intros (Hlt & Hd' & Hno'). destruct (Z.lt_total t t') as [Hc|[->|Hc]]; [|done|].
      * exfalso. apply (Hno' t); [lia|done].
      * exfalso. apply (Hno t'); [lia|done].
    + split; [done|]. intros Hn. exfalso. by apply (Hn t).
  - destruct H as [_ Hn]. split_and!; [done| |done].
    intros t. split; [done|]. intros (_ & Hd & _). exfalso. by apply (Hn t).
Qed.

(** What [create] accepts, runs.  A refused schedule leaves the table as it
    was.  An accepted one is appended enabled and, if it recurs, then at any later
    moment its next run exists, lies strictly ahead and at most a week away: the
    tick can never fail on it or park it. *)
Theorem created_schedule_always_runs id name kind rec tgt at_ wd start dur off hold now t o t' :
  create id name kind rec tgt at_ wd start dur off hold now t = (o, t') ->
  match o with
  | Raise _ => t' = t
  | Ret s => t' = t ++ [s] /\ sc_enabled s = true /\ sc_last_run_at s = None /\
             compute_next_run_at s now = Ret (sc_next_run_at s) /\
             (rec <> "once" -> forall now', exists n,
                compute_next_run_at s now' = Ret (Some n) /\ now' < n <= now' + 7 * DAY)
  end.
Proof.
  unfold create. destruct (validate_schedule _ _ _ _ _ _ _ _) as [[[nm at'] days]|e] eqn:Hv;
    [|by intros [= <- <-]].
  unfold session_scope. set (s0 := Schedule _ _ _ _ _ _ _ _ _ _ _ _ _ _ _).
  destruct (compute_next_run_at s0 now) as [n|e] eqn:Hc; intros [= <- <-]; [|done].
  split_and!; [done|done|done|exact Hc|]. intros Hrec now'.
  apply validate_recurring in Hv as [(a & hh & mm & -> & He & Hp & Hh & Hm) Hd]; [|done].
  destruct Hd as [->|(-> & ds & -> & Hne & Hds)].
  - pose proof (recurring_next s0 now' a hh mm []) as H.
    specialize (H (or_introl eq_refl) eq_refl He Hp Hh Hm).
    change (compute_next_run_at (with_next s0 n) now') with (compute_next_run_at s0 now').
    destruct (compute_next_run_at s0 now') as [[x|]|e]; [|by destruct H|done].
    exists x. by destruct H.
  - assert (read_weekdays s0 = Ret ds) as Hw.
    { unfold read_weekdays. cbn. destruct ds as [|d ds]; [done|]. cbn [jor truthy].
      cbn [fmap list_fmap jor truthy py_iter mbind outcome_bind].
      apply (mapM_JInt (d :: ds)). }
    pose proof (recurring_next s0 now' a hh mm ds) as H.
    specialize (H (or_intror (conj eq_refl Hw)) eq_refl He Hp Hh Hm).
    change (compute_next_run_at (with_next s0 n) now') with (compute_next_run_at s0 now').
    destruct (compute_next_run_at s0 now') as [[x|]|e]; [exists x; by destruct H| |done].
    exfalso. destruct H as [_ Hno]. destruct ds as [|d ds]; [done|].
    apply Forall_cons in Hds as [Hd _].
    assert (0 <= hours hh + minutes mm < DAY) as Hr
      by (unfold hours, minutes, DAY, MICRO; lia).
    apply (Hno (hours hh + minutes mm + (d + 4) * DAY)). split.
    + rewrite mod_add_day. by apply Z.mod_small.
    + intros _. rewrite weekday_add. unfold weekday.
      rewrite Z.div_small by done. rewrite Zplus_mod_idemp_l.
      replace (0 + 3 + (d + 4)) with (d + 1 * 7) by lia. rewrite Z_mod_plus_full, Z.mod_small by lia.
      left.
Qed.

(** ** Witnesses *)
Module Example.

Definition weekly : schedule :=
  Schedule "sch_1" "nightly" true "power_cycle" "weekly" (Some "03:30")
    (JList [JInt 0; JInt 5]) None 0 JNull 5 180 None None None.

(** From Thursday 1970-01-01 00:00 the first due instant is Saturday 03:30. *)
Lemma next_run_is_the_first_due_instant_witness :
  compute_next_run_at weekly 0 = Ret (Some (2 * DAY + hours 3 + minutes 30)) /\
  returns (compute_next_run_at weekly 0) = true.
Proof.
  split; [vm_compute; reflexivity|].
  apply (next_run_is_the_first_due_instant weekly 0 "03:30" 3 30 [0; 5]);
    [right; split; reflexivity|reflexivity|reflexivity|reflexivity|split; discriminate|split; discriminate].
Defined.

Definition created : outcome schedule * schedules :=
  create "sch_1" (Some " nightly ") "power_cycle" "weekly" (JObj [("kind", JStr "device")])
    (Some "3:30") (JList [JInt 5; JInt 0; JInt 5]) None 0 5 180 0 [].

Lemma created_schedule_always_runs_witness :
  exists s, created = (Ret s, [s]) /\ sc_at_time_utc s = Some "03:30" /\
    sc_weekdays s = JList [JInt 0; JInt 5] /\
    exists n, compute_next_run_at s (hours 10) = Ret (Some n).
Proof.
  eexists. split; [vm_compute; reflexivity|]. split; [reflexivity|]. split; [reflexivity|].
  pose proof (created_schedule_always_runs "sch_1" (Some " nightly ") "power_cycle" "weekly"
    (JObj [("kind", JStr "device")]) (Some "3:30") (JList [JInt 5; JInt 0; JInt 5]) None 0 5 180 0 []
    created.1 created.2 eq_refl) as H.
  change created.1 with (Ret (default weekly (head created.2))) in H.
  destruct H as (_ & _ & _ & _ & H). destruct (H ltac:(discriminate) (hours 10)) as (n & Hn & _).
  exists n. exact Hn.
Defined.
End Example.
