(* ===== verification/ScheduleRuntime.v ===== *)
(** * Schedule runtime ([app/services/schedule_runtime.py])

    The tick fires the schedules that are due, re-arms them, and reconciles the
    portal-wide maintenance flag with the maintenance windows. *)

From stdpp Require Import pretty.
From S2P Require Import Prelude EventBus Commands QueueInterface RuntimeFlags.
From S2P Require Import WatchdogActions Schedules.
Local Open Scope string_scope.
Local Open Scope list_scope.
Local Open Scope Z_scope.

Definition with_run (s : schedule) (outcome_ : option string) (last next : option time) : schedule :=
  Schedule (sc_id s) (sc_name s) (sc_enabled s) (sc_kind s) (sc_recurrence s) (sc_at_time_utc s)
    (sc_weekdays s) (sc_start_at s) (sc_duration_seconds s) (sc_target s)
    (sc_power_off_seconds s) (sc_post_reboot_holdoff_seconds s) last next outcome_.

Section runtime.
Context {S : Type} `{CQ : CommandQueue S} `{Clock : IsoClock}.

(** The loop of [_fire_power_cycle]: a failure is counted, not raised. *)
Fixpoint cycle_each (payload : pydict) (ids : list json) (s : S) : nat * nat * S :=
  match ids with
  | [] => (0, 0, s)%nat
  | did :: rest =>
    let '(o, s1) := enqueue_id did "relay_cycle" (Some payload) false s in
    let '(enqueued, failed, s2) := cycle_each payload rest s1 in
    match o with
    | Ret _ => (Datatypes.S enqueued, failed, s2)
    | Raise _ => (enqueued, Datatypes.S failed, s2)
    end
  end.

(** [f"enqueued:{n} failed:{m}"]. *)
Definition cycle_outcome (enqueued failed : nat) : string :=
  let head := String.append "enqueued:" (pretty enqueued) in
  if Nat.eqb failed 0 then head
  else String.append head (String.append " failed:" (pretty failed)).

(** [_fire_power_cycle]. *)
Definition fire_power_cycle (sc : schedule) (s : S) : outcome string * S :=
  match resolve_target_devices (or_dict (sc_target sc)) s with
  | Raise e => (Raise e, s)
  | Ret [] => (Ret "no_target_devices", s)
  | Ret ids =>
    let payload := [("power_off_seconds", JInt (sc_power_off_seconds sc));
                    ("post_reboot_holdoff_seconds", JInt (sc_post_reboot_holdoff_seconds sc))] in
    let '(enqueued, failed, s') := cycle_each payload ids s in
    (Ret (cycle_outcome enqueued failed), s')
  end.

(** [_fire_schedule]. *)
Definition fire_schedule (sc : schedule) (s : S) : outcome string * S :=
  if String.eqb (sc_kind sc) "power_cycle" then fire_power_cycle sc s
  else if String.eqb (sc_kind sc) "maintenance" then (Ret "maintenance_window_open", s)
  else (Ret (String.append "unsupported_kind:" (sc_kind sc)), s).

(** [type(e).__name__]. *)
Definition exn_name (e : exn) : string :=
  match e with
  | ValueError _ => "ValueError" | LookupError _ => "LookupError" | TypeError _ => "TypeError"
  | AttributeError _ => "AttributeError" | KeyError _ => "KeyError"
  | RuntimeError _ => "RuntimeError" | OverflowError => "OverflowError" | DBError _ => "DBAPIError"
  | AppError cls _ => cls
  end.

Record tick_stats := TickStats { st_fired : nat; st_errors : nat; st_considered : nat }.

Definition is_due (sc : schedule) (now : time) : bool :=
  match sc_next_run_at sc with Some n => n <=? now | None => false end.

(** The loop body for one enabled row.  [compute_next_run_at] is outside the
    [try]. *)
Definition tick_schedule (sc : schedule) (now : time) (s : S) (st : tick_stats)
    : outcome tick_stats * schedule * S :=
  let st := TickStats (st_fired st) (st_errors st) (Datatypes.S (st_considered st)) in
  match sc_next_run_at sc with
  | None =>
    match compute_next_run_at sc now with
    | Raise e => (Raise e, sc, s)
    | Ret n => (Ret st, with_next sc n, s)
    end
  | Some next =>
    if now <? next then (Ret st, sc, s)
    else
      let '(o, s) := fire_schedule sc s in
      let '(out, st) :=
        match o with
        | Ret out => (out, TickStats (Datatypes.S (st_fired st)) (st_errors st) (st_considered st))
        | Raise e => (String.append "error: " (exn_name e),
                      TickStats (st_fired st) (Datatypes.S (st_errors st)) (st_considered st))
        end in
      let sc := with_run sc (Some out) (Some now) (sc_next_run_at sc) in
      match compute_next_run_at sc now with
      | Raise e => (Raise e, sc, s)
      | Ret n => (Ret st, with_next sc n, s)
      end
  end.

(** The loop; rows that are not enabled are not selected. *)
Fixpoint tick_loop (t : schedules) (now : time) (s : S) (st : tick_stats)
    : outcome tick_stats * schedules * S :=
  match t with
  | [] => (Ret st, [], s)
  | sc :: rest =>
    if sc_enabled sc then
      match tick_schedule sc now s st with
      | (Raise e, sc, s) => (Raise e, sc :: rest, s)
      | (Ret st, sc, s) => let '(o, rest, s) := tick_loop rest now s st in (o, sc :: rest, s)
      end
    else let '(o, rest, s) := tick_loop rest now s st in (o, sc :: rest, s)
  end.

(** The maintenance window a schedule holds open at [now]. *)
Definition open_window (now : time) (sc : schedule) : option time :=
  if String.eqb (sc_kind sc) "maintenance" && sc_enabled sc then
    match sc_last_run_at sc with
    | Some l => if (l <=? now) && (now <=? l + seconds (sc_duration_seconds sc))
                then Some l else None
    | None => None
    end
  else None.

(** The [for ... break]: the first open window in the order of the query. *)
Fixpoint active_window_start (now : time) (t : schedules) : option time :=
  match t with
  | [] => None
  | sc :: rest => match open_window now sc with
                  | Some l => Some l
                  | None => active_window_start now rest
                  end
  end.

(** Did the operator toggle the flag since [start]?  A stamp that is not a text
    makes [fromisoformat] raise [TypeError], which is not caught. *)
Definition operator_overrode (start : time) (stamp : json) : outcome bool :=
  if truthy stamp then
    match stamp with
    | JStr i => Ret (match fromisoformat i with Some t => start <=? t | None => false end)
    | _ => Raise (TypeError "fromisoformat: argument must be str")
    end
  else Ret false.

(** [_reconcile_maintenance_flag]. *)
Definition reconcile_maintenance_flag (t : schedules) (now clock1 clock2 : time) (fs : flag_table)
    : outcome unit * flag_table :=
  let current := is_maintenance_mode_active fs in
  let details := maintenance_mode_details fs in
  match active_window_start now t with
  | Some start =>
    match operator_overrode start (dget details "operator_override_at") with
    | Raise e => (Raise e, fs)
    | Ret overrode =>
      (Ret tt, if negb current && negb overrode
               then set_maintenance_mode true None (Some "schedule") clock1 clock2 fs else fs)
    end
  | None =>
    (Ret tt, if current && jeqs (dget details "reason") "schedule"
             then set_maintenance_mode false None (Some "schedule_window_ended") clock1 clock2 fs
             else fs)
  end.

Definition enabled_rows (t : schedules) : schedules := List.filter sc_enabled t.

(** [tick].  The schedule rows live in the tick's session; queued commands and
    the flag are committed by sessions of their own. *)
Definition tick (disabled : bool) (now clock1 clock2 : time) (t : schedules) (s : S)
    (fs : flag_table) : outcome (option tick_stats) * schedules * S * flag_table :=
  if disabled then (Ret None, t, s, fs)
  else
    match tick_loop t now s (TickStats 0 0 0) with
    | (Raise e, _, s') => (Raise e, t, s', fs)
    | (Ret st, t', s') =>
      match reconcile_maintenance_flag (enabled_rows t') now clock1 clock2 fs with
      | (Raise e, fs') => (Raise e, t, s', fs')
      | (Ret _, fs') => (Ret (Some st), t', s', fs')
      end
    end.

(** ** Facts *)

Lemma cycle_each_soft p ids : forall s : S, soft s (cycle_each p ids s).2.
Proof.
  induction ids as [|did ids IH]; intros s; cbn [cycle_each]; [apply soft_refl|].
  pose proof (enqueue_id_soft did "relay_cycle" (Some p) false s) as H1.
  destruct (enqueue_id did "relay_cycle" (Some p) false s) as [o s1]. specialize (IH s1).
  destruct (cycle_each p ids s1) as [[en fl] s2]. destruct o; eauto using soft_trans.
Qed.

Lemma fire_schedule_soft sc (s : S) : soft s (fire_schedule sc s).2.
Proof.
  unfold fire_schedule, fire_power_cycle. repeat (case_match; try apply soft_refl).
  match goal with H : cycle_each ?p ?l ?s = _ |- _ =>
    pose proof (cycle_each_soft p l s) as Hc; rewrite H in Hc; exact Hc end.
Qed.

(** One row, seen as a step: what changes and what it does to the queue. *)
Lemma tick_schedule_cases sc now (s : S) st st' sc' s' :
  tick_schedule sc now s st = (Ret st', sc', s') ->
  (is_due sc now = false /\ s' = s /\
   (sc' = sc \/ exists n, sc_next_run_at sc = None /\ compute_next_run_at sc now = Ret n /\
                          sc' = with_next sc n)) \/
  (is_due sc now = true /\ s' = (fire_schedule sc s).2 /\ exists out n,
     sc' = with_run sc (Some out) (Some now) n /\
     compute_next_run_at (with_run sc (Some out) (Some now) None) now = Ret n).
Proof.
  unfold tick_schedule, is_due. destruct (sc_next_run_at sc) as [next|] eqn:En.
  - destruct (Z.ltb_spec now next).
    { intros; simplify_eq. left. rewrite (proj2 (Z.leb_gt _ _)) by done. auto. }
    destruct (fire_schedule sc s) as [o s1] eqn:Ef. destruct (match o with Ret _ => _ | Raise _ => _ end)
      as [out st1]. cbv zeta.
    change (compute_next_run_at (with_run sc (Some out) (Some now) (Some next)) now)
      with (compute_next_run_at (with_run sc (Some out) (Some now) None) now).
    destruct (compute_next_run_at _ _) as [n|e] eqn:Ec; intros; simplify_eq.
    right. split; [by apply Z.leb_le|]. split; [done|]. by exists out, n.
  - destruct (compute_next_run_at sc now) as [n|e] eqn:Ec; intros; simplify_eq.
    left. split_and!; [done|done|]. right. by exists n.
Qed.

Lemma tick_loop_rel (R : schedule -> schedule -> Prop) now :
  (forall sc (s : S) st st' sc' s',
     tick_schedule sc now s st = (Ret st', sc', s') -> R sc sc') ->
  (forall sc, sc_enabled sc = false -> R sc sc) ->
  forall t (s : S) st st' t' s', tick_loop t now s st = (Ret st', t', s') -> Forall2 R t t'.
Proof.
  intros Hrow Hskip. induction t as [|sc t IH]; intros s st st' t' s'; cbn [tick_loop].
  { intros; simplify_eq. constructor. }
  destruct (sc_enabled sc) eqn:He.
  - destruct (tick_schedule sc now s st) as [[[st1|e] sc1] s1] eqn:E1; [|done].
    destruct (tick_loop t now s1 st1) as [[o t1] s2] eqn:E2. intros; simplify_eq.
    constructor; eauto.
  - destruct (tick_loop t now s st) as [[o t1] s2] eqn:E2. intros; simplify_eq.
    constructor; eauto.
Qed.

Lemma schedules_soft t now : forall (s : S) st o t' s',
  tick_loop t now s st = (o, t', s') -> soft s s'.
Proof.
  induction t as [|sc t IH]; intros s st o t' s'; cbn [tick_loop].
  { intros; simplify_eq. apply soft_refl. }
  destruct (sc_enabled sc).
  - destruct (tick_schedule sc now s st) as [[o1 sc1] s1] eqn:E1.
    assert (soft s s1) as H1.
    { unfold tick_schedule in E1. pose proof (fire_schedule_soft sc s) as Hf.
      destruct (fire_schedule sc s) as [o2 s2].
      repeat case_match; simplify_eq/=; auto using soft_refl. }
    destruct o1 as [st1|e]; [|by intros; simplify_eq].
    destruct (tick_loop t now s1 st1) as [[o2 t2] s2] eqn:E2. apply IH in E2.
    intros; simplify_eq. by eapply soft_trans.
  - destruct (tick_loop t now s st) as [[o2 t2] s2] eqn:E2. apply IH in E2. by intros; simplify_eq.
Qed.
End runtime.

(** The next run is never in the past. *)
Lemma compute_next_future sc now n : compute_next_run_at sc now = Ret (Some n) -> now < n.
Proof.
  unfold compute_next_run_at. destruct (String.eqb (sc_recurrence sc) "once").
  { destruct (sc_start_at sc) as [start|], (sc_last_run_at sc); try done.
    destruct (Z.ltb_spec now start); [by intros [= <-]|done]. }
  destruct (in_strs _ _); [|done]. destruct (sc_at_time_utc sc) as [a|]; [|done].
  destruct (is_empty a); [done|]. destruct (parse_hm a) as [[hh mm]|]; [|done].
  destruct (replace_hm now hh mm) as [c|e] eqn:Ec; [|done]. cbn [mbind outcome_bind].
  apply first_candidate in Ec as [Hr _]. cbv zeta in *.
  set (c' := if c <=? now then c + DAY else c) in *. clearbody c'.
  destruct (String.eqb (sc_recurrence sc) "daily"); [intros [= <-]; lia|].
  destruct (read_weekdays sc) as [ws|e]; [|done]. cbn [mbind outcome_bind].
  destruct ws as [|x ws]; [done|].
  pose proof (walk_spec 7 c' (x :: ws)) as Hs.
  destruct (walk_to_weekday 7 c' (x :: ws)) as [r|]; [|done].
  intros Hx. assert (n = r) as -> by congruence.
  destruct Hs as (k & Hk & -> & _). pose proof DAY_pos. nia.
Qed.

(** A one-shot schedule that has run. *)
Definition spent (sc : schedule) : Prop :=
  sc_recurrence sc = "once" /\ sc_last_run_at sc <> None /\ sc_next_run_at sc = None.

Section theorems.
Context {S : Type} `{CQ : CommandQueue S} `{Clock : IsoClock}.

Lemma tick_loop_not_due t now : forall (s : S) st st' t' s',
  tick_loop t now s st = (Ret st', t', s') ->
  Forall2 (fun sc sc' => sc_enabled sc' = sc_enabled sc /\
                         (sc_enabled sc = true -> is_due sc' now = false)) t t'.
Proof.
  assert (Hn : forall sc n, compute_next_run_at sc now = Ret n ->
    match n with Some n => n <=? now | None => false end = false).
  { intros sc [n|] H; [|done]. apply compute_next_future in H. by apply Z.leb_gt. }
  apply tick_loop_rel; [|by intros sc ->].
  intros sc s st st' sc' s' H.
  apply tick_schedule_cases in H as [(Hd & _ & [->|(n & _ & Hc & ->)])|(_ & _ & out & n & -> & Hc)];
    (split; [done|]); intros _; unfold is_due; cbn; eauto.
Qed.

Lemma schedules_idle t now : forall (s : S) st o t' s',
  Forall (fun sc => sc_enabled sc = true -> is_due sc now = false) t ->
  tick_loop t now s st = (o, t', s') -> s' = s.
Proof.
  induction t as [|sc t IH]; intros s st o t' s' Hf; cbn [tick_loop]; [by intros; simplify_eq|].
  apply Forall_cons in Hf as [Hd Hf]. destruct (sc_enabled sc).
  - destruct (tick_schedule sc now s st) as [[o1 sc1] s1] eqn:E1.
    assert (s1 = s) as ->.
    { unfold tick_schedule in E1. unfold is_due in Hd. destruct (sc_next_run_at sc) as [n|].
      - specialize (Hd eq_refl). bool_to_prop. rewrite (proj2 (Z.ltb_lt _ _)) in E1 by done.
        by simplify_eq.
      - destruct (compute_next_run_at sc now); by simplify_eq. }
    destruct o1 as [st1|e]; [|by intros; simplify_eq].
    destruct (tick_loop t now s st1) as [[o2 t2] s2] eqn:E2. intros; simplify_eq. eauto.
  - destruct (tick_loop t now s st) as [[o2 t2] s2] eqn:E2. intros; simplify_eq. eauto.
Qed.

(** One firing per due instant.  After a tick that completes, no enabled
    schedule is due any more at that instant, so a second tick at the same
    instant (or a repeated job run) leaves the queue alone; and no tick, completed
    or not, gives a protected device a power command. *)
Theorem tick_fires_due_schedules_once now c1 c2 t (s : S) fs o t' s' fs' :
  cq_ok s -> tick false now c1 c2 t s fs = (o, t', s', fs') ->
  (forall d ty, cq_protected s d = true -> ty ∈ POWER_TYPES -> cq_count s' d ty = cq_count s d ty) /\
  (returns o = true ->
     Forall (fun sc => sc_enabled sc = true -> is_due sc now = false) t' /\
     forall c1' c2' fs0, (tick false now c1' c2' t' s' fs0).1.2 = s').
Proof.
  intros Hok. unfold tick. destruct (tick_loop t now s (TickStats 0 0 0)) as [[o1 t1] s1] eqn:E.
  pose proof (schedules_soft _ _ _ _ _ _ _ E Hok) as (_ & _ & _ & _ & Hsoft).
  destruct o1 as [st|e]; [|by intros [= <- <- <- <-]].
  assert (Forall (fun sc => sc_enabled sc = true -> is_due sc now = false) t1) as Hidle.
  { apply tick_loop_not_due in E. clear Hsoft.
    induction E as [|sc sc1 t0 t1 [He Hd] _ IH]; constructor; [by rewrite He|auto]. }
  destruct (reconcile_maintenance_flag _ _ _ _ _) as [[u|e] fs1]; intros [= <- <- <- <-]; [|done].
  split; [done|]. intros _. split; [done|]. intros c1' c2' fs0.
  destruct (tick_loop t1 now s1 _) as [[o2 t2] s2] eqn:E2. apply schedules_idle in E2; [|done].
  subst s2. destruct o2; [|done]. by destruct (reconcile_maintenance_flag _ _ _ _ _) as [[]].
Qed.

(** A one-shot schedule fires at most once.  When it is due and the tick
    completes, it is spent; a spent schedule is left untouched, with the queue, by
    every later tick whatever the clock says, and re-enabling it does not revive
    it. *)
Theorem one_shot_fires_at_most_once sc (s : S) now st st' sc' s' :
  sc_recurrence sc = "once" -> is_due sc now = true ->
  tick_schedule sc now s st = (Ret st', sc', s') ->
  spent sc' /\
  (forall now2 (s2 : S) st2, exists st3, tick_schedule sc' now2 s2 st2 = (Ret st3, sc', s2)) /\
  (forall now2 t o t', set_enabled (sc_id sc') true now2 (sc' :: t) = (o, t') ->
     exists x rest, t' = x :: rest /\ spent x).
Proof.
  intros Hr Hd H. apply tick_schedule_cases in H as [(Hd' & _)|(_ & _ & out & n & -> & Hc)].
  { by rewrite Hd in Hd'. }
  assert (n = None) as ->.
  { unfold compute_next_run_at in Hc. cbn in Hc. rewrite Hr in Hc. cbn in Hc.
    destruct (sc_start_at sc); by simplify_eq. }
  assert (Hnone : forall now2 x, sc_recurrence x = "once" -> sc_last_run_at x <> None ->
            compute_next_run_at x now2 = Ret None).
  { intros now2 x Hx Hl. unfold compute_next_run_at. rewrite Hx. cbn.
    destruct (sc_start_at x), (sc_last_run_at x); done. }
  split; [by split_and!|]. split.
  - intros now2 s2 st2. eexists. unfold tick_schedule. cbn [with_run sc_next_run_at].
    by rewrite Hnone.
  - intros now2 t o t'. unfold set_enabled, session_scope, get_schedule. cbn [find].
    rewrite String.eqb_refl. cbn. rewrite Hnone by done. rewrite String.eqb_refl.
    intros [= <- <-]. eexists _, _. split; [done|]. by split_and!.
Qed.

(** The maintenance flag follows the windows and the operator.  With an open
    window that began at [start]: the flag ends up on, by the schedule, unless the
    operator toggled it at or after [start], in which case nothing is written.
    Without one: a flag the schedule raised ends up off, and any other flag is
    left alone.  Reconciling again at the same instant changes nothing. *)
Theorem reconcile_follows_windows_and_operator t now c1 c2 fs fs' :
  reconcile_maintenance_flag t now c1 c2 fs = (Ret tt, fs') ->
  (match active_window_start now t with
   | Some start =>
     if is_maintenance_mode_active fs then fs' = fs
     else match operator_overrode start
                  (dget (maintenance_mode_details fs) "operator_override_at") with
          | Ret true => fs' = fs
          | _ => is_maintenance_mode_active fs' = true /\
                 dget (maintenance_mode_details fs') "reason" = JStr "schedule"
          end
   | None =>
     if is_maintenance_mode_active fs &&
        jeqs (dget (maintenance_mode_details fs) "reason") "schedule"
     then is_maintenance_mode_active fs' = false
     else fs' = fs
   end) /\
  (forall c1' c2', reconcile_maintenance_flag t now c1' c2' fs' = (Ret tt, fs')).
Proof.
  unfold reconcile_maintenance_flag.
  destruct (active_window_start now t) as [start|].
  - destruct (operator_overrode start _) as [ov|e] eqn:Eo; [|done]. intros [= <-].
    destruct (is_maintenance_mode_active fs) eqn:Ea; cbn [negb andb].
    { split; [done|]. intros c1' c2'. by rewrite Eo, Ea. }
    destruct ov; cbn [negb andb].
    { split; [done|]. intros c1' c2'. by rewrite Eo, Ea. }
    destruct (set_maintenance_reads true None (Some "schedule") c1 c2 fs) as (H1 & H2 & H3).
    split; [done|]. intros c1' c2'. rewrite H1, H3. done.
  - intros [= <-]. destruct (is_maintenance_mode_active fs && _) eqn:E.
    + destruct (set_maintenance_reads false None (Some "schedule_window_ended") c1 c2 fs)
        as (H1 & H2 & H3). split; [done|]. intros c1' c2'. by rewrite H1.
    + split; [done|]. intros c1' c2'. by rewrite E.
Qed.
End theorems.

(** ** Witnesses *)
Module Example.

#[local] Instance q : CommandQueue clocked := clocked_queue pretty.
#[local] Instance clk : IsoClock := binary_clock.
Definition s0 : clocked := WatchdogActions.Example.s0.
Definition no_flags : flag_table := ∅.

Definition group : json := JObj [("kind", JStr "group"); ("id", JStr "grp")].
Definition nightly : schedule :=
  Schedule "sch_1" "nightly" true "power_cycle" "daily" (Some "03:30") JNull None 0 group 5 180
           None (Some (hours 3 + minutes 30)) None.
Definition once : schedule :=
  Schedule "sch_2" "once" true "power_cycle" "once" None JNull (Some 100) 0 group 5 180
           None (Some 100) None.
Definition window : schedule :=
  Schedule "sch_3" "window" true "maintenance" "daily" (Some "01:00") JNull None 3600 JNull 5 180
           (Some (hours 1)) (Some (hours 25)) None.

Definition first := tick false (hours 4) 1 2 [nightly] s0 no_flags.

(** The due schedule reboots the free device once; ticking again adds nothing. *)
Lemma tick_fires_due_schedules_once_witness :
  cq_count first.1.2 "dev_a" "relay_cycle" = 1%nat /\
  cq_count first.1.2 "dev_b" "relay_cycle" = 0%nat /\
  (tick false (hours 4) 3 4 first.1.1.2 first.1.2 no_flags).1.2 = first.1.2.
Proof.
  destruct (tick_fires_due_schedules_once (CQ:=q) (hours 4) 1 2 [nightly] s0 no_flags
              first.1.1.1 first.1.1.2 first.1.2 first.2) as [Hp Hr].
  - exact Commands.Example.h0_wf.
  - unfold first. destruct (tick false (hours 4) 1 2 [nightly] s0 no_flags) as [[[? ?] ?] ?].
    reflexivity.
  - split; [vm_compute; reflexivity|]. split.
    + rewrite (Hp "dev_b" "relay_cycle"); [vm_compute; reflexivity|reflexivity|].
      apply in_strs_spec. reflexivity.
    + destruct (Hr ltac:(vm_compute; reflexivity)) as [_ H]. apply H.
Defined.

Lemma one_shot_fires_at_most_once_witness :
  exists st' sc' s', tick_schedule once 150 s0 (TickStats 0 0 0) = (Ret st', sc', s') /\
    cq_count s' "dev_a" "relay_cycle" = 1%nat /\ spent sc'.
Proof.
  destruct (tick_schedule once 150 s0 (TickStats 0 0 0)) as [[o sc'] s'] eqn:E.
  assert (o = Ret (TickStats 1 0 1)) as ->.
  { change o with (o, sc', s').1.1. rewrite <- E. vm_compute. reflexivity. }
  destruct (one_shot_fires_at_most_once once s0 150 (TickStats 0 0 0) _ sc' s' eq_refl eq_refl E)
    as (Hs & _).
  exists (TickStats 1 0 1), sc', s'. split; [reflexivity|]. split; [|exact Hs].
  change s' with (Ret (TickStats 1 0 1), sc', s').2. rewrite <- E. vm_compute. reflexivity.
Defined.

(** In the window, with the operator's override of the same window on record. *)
Definition overridden : flag_table :=
  set_maintenance_mode false (Some "usr_1") (Some "not tonight") (hours 1 + 5) (hours 1 + 6) no_flags.

Lemma reconcile_follows_windows_and_operator_witness :
  reconcile_maintenance_flag [window] (hours 1 + 60) 7 8 overridden = (Ret tt, overridden) /\
  is_maintenance_mode_active (reconcile_maintenance_flag [window] (hours 1 + 60) 7 8 no_flags).2 = true.
Proof.
  split.
  - destruct (reconcile_follows_windows_and_operator [window] (hours 1 + 60) 7 8 overridden
                (reconcile_maintenance_flag [window] (hours 1 + 60) 7 8 overridden).2) as [H _].
    + vm_compute; reflexivity.
    + vm_compute in H. vm_compute. reflexivity.
  - destruct (reconcile_follows_windows_and_operator [window] (hours 1 + 60) 7 8 no_flags
                (reconcile_maintenance_flag [window] (hours 1 + 60) 7 8 no_flags).2) as [H _].
    + reflexivity.
    + exact (proj1 H).
Defined.
End Example.
