(* ===== verification/RuntimeSettings.v ===== *)
(** * Runtime settings ([app/services/runtime_settings.py])

    Database row, then environment variable, then default; and the callbacks a
    write fires so that a consumer can drop what it cached. *)

From S2P Require Import Prelude.
Local Open Scope string_scope.
Local Open Scope list_scope.

(** The row of [runtime_settings]: its JSON [value] column. *)
Record setting_row := SettingRow {
  se_value : json;
  se_updated_at : time;
  se_updated_by : option string
}.
Abbreviation settings := (gmap string setting_row).

Section settings.
(** [os.environ]. *)
Context (environ : string -> option string).

(** [_resolve]: a stored value that is a non-empty non-object has no [get]. *)
Definition resolve (row : option setting_row) (env_var : option string) (default : json)
    : outcome json :=
  let fallback :=
    match env_var with
    | Some e => if is_empty e then default
                else match environ e with Some v => JStr v | None => default end
    | None => default
    end in
  match row with
  | None => Ret fallback
  | Some r =>
    match jor (se_value r) (JObj []) with
    | JObj d => Ret (match dict_get d "v" with Some v => v | None => fallback end)
    | _ => Raise (AttributeError "get")
    end
  end.

(** [get] and [get_on_session]: the rows the session sees. *)
Definition setting_get (name : string) (env_var : option string) (default : json) (t : settings)
    : outcome json := resolve (t !! name) env_var default.

(** [has_db_value]. *)
Definition has_db_value (name : string) (t : settings) : bool :=
  match t !! name with Some _ => true | None => false end.
End settings.

(** [set_] and [delete], without the callbacks. *)
Definition setting_set (name : string) (value : json) (user_id : option string) (now : time)
    (t : settings) : settings :=
  <[name := SettingRow (JObj [("v", value)]) now user_id]> t.
Definition setting_delete (name : string) (t : settings) : bool * settings :=
  match t !! name with
  | None => (false, t)
  | Some _ => (true, base.delete name t)
  end.

(** [set_]/[delete] with the callbacks of the key: [fire] is what the registered
    callbacks do to the state of their owners.  [delete] of a missing row
    returns before them. *)
Definition set_and_notify {A} (fire : string -> A -> A) (name : string) (value : json)
    (user_id : option string) (now : time) (ta : settings * A) : settings * A :=
  (setting_set name value user_id now ta.1, fire name ta.2).
Definition delete_and_notify {A} (fire : string -> A -> A) (name : string) (ta : settings * A)
    : bool * (settings * A) :=
  match setting_delete name ta.1 with
  | (false, t) => (false, (t, ta.2))
  | (true, t) => (true, (t, fire name ta.2))
  end.

(** The resolution order. *)
Lemma setting_get_set environ name value u now t env d :
  setting_get environ name env d (setting_set name value u now t) = Ret value.
Proof. unfold setting_get, setting_set. by rewrite lookup_insert_eq. Qed.

Lemma setting_get_other environ name name' value u now t env d :
  name <> name' ->
  setting_get environ name' env d (setting_set name value u now t) = setting_get environ name' env d t.
Proof. intros H. unfold setting_get, setting_set. by rewrite lookup_insert_ne. Qed.

Lemma setting_get_deleted environ name t e d :
  is_empty e = false ->
  setting_get environ name (Some e) d (setting_delete name t).2 =
  Ret match environ e with Some v => JStr v | None => d end.
Proof.
  intros He. unfold setting_get, setting_delete.
  destruct (t !! name) eqn:E; cbn [snd]; [rewrite lookup_delete_eq|rewrite E];
    unfold resolve; by rewrite He.
Qed.
