(* ===== verification/Devices.v ===== *)
(** * Devices ([app/services/devices])

    The write operations of [_mutations.py] (edits with a validator per field,
    deletion, merging of duplicates), the online/offline state and the status
    chip of [_serialize.py], and [find_by_mac] of [_query.py].  A device is one
    row of the hub of [Commands]; the sites are the only other table read.

    The power topology is the graph of [power_source_device_id]: it stays a
    forest under every operation. *)

From Stdlib Require Import Ascii.
From stdpp Require Import pretty.
From S2P Require Import Prelude PyFloat EventBus Commands.
Local Open Scope string_scope.
Local Open Scope list_scope.

(** ** Columns by name *)

Definition col (d : device) (k : string) : json := default JNull (dev_cols d !! k).
Definition set_col (k : string) (v : json) (d : device) : device :=
  Device (dev_is_protected d) (dev_is_held_off d) (dev_local_ip d) (<[k := v]> (dev_cols d)).
Definition set_protected (b : bool) (d : device) : device :=
  Device b (dev_is_held_off d) (dev_local_ip d) (dev_cols d).
Definition set_local_ip (ip : option string) (d : device) : device :=
  Device (dev_is_protected d) (dev_is_held_off d) ip (dev_cols d).

(** [getattr(d, k)] and [setattr(d, k, v)] of a patchable column.  The flush
    refuses a value of another type. *)
Definition get_field (d : device) (k : string) : json :=
  if String.eqb k "is_protected" then JBool (dev_is_protected d) else col d k.
Definition set_field (k : string) (v : json) (d : device) : outcome device :=
  if String.eqb k "is_protected"
  then match v with JBool b => Ret (set_protected b d) | _ => Raise (DBError k) end
  else Ret (set_col k v d).

Record fleet := Fleet { fl_hub : hub; fl_sites : gset string }.
Definition put_device (id : string) (d : device) (f : fleet) : fleet :=
  Fleet (with_devices (insert id d) (fl_hub f)) (fl_sites f).
(** [session.get(Device, id)]. *)
Definition get_device (id : string) (f : fleet) : option device := hub_devices (fl_hub f) !! id.

(** ** Validators of the patchable fields *)

Definition SiteScopeError (subtype : string) : exn := AppError "SiteScopeError" subtype.
Definition PowerTopologyError (subtype : string) : exn := AppError "PowerTopologyError" subtype.
Definition UnknownPatchFieldError : exn := AppError "UnknownPatchFieldError" "unsupported PATCH fields".
Definition MergeRetireError {A} (code : string) : outcome A :=
  Raise (AppError "MergeRetireError" code).

(** [_validate_site_id]; the primary key is a string. *)
Definition validate_site_id (f : fleet) (v : json) : outcome json :=
  match v with
  | JNull => Ret JNull
  | JStr s =>
    if is_empty s then Ret JNull
    else if decide (s ∈ fl_sites f) then Ret v else Raise (SiteScopeError "missing")
  | _ => Raise (DBError "sites.id")
  end.

(** [cur.power_source_device_id]. *)
Definition power_source (d : device) : option string := as_str (col d "power_source_device_id").

(** [for _ in range(50): ... else: raise], from [cur] up. *)
Fixpoint power_walk (hops : nat) (f : fleet) (id cur : string) : outcome unit :=
  match hops with
  | O => Raise (PowerTopologyError "cycle")
  | S hops =>
    if String.eqb cur id then Raise (PowerTopologyError "cycle")
    else
      match get_device cur f with
      | None => Ret tt
      | Some d =>
        match power_source d with
        | None => Ret tt
        | Some parent => power_walk hops f id parent
        end
      end
  end.

Definition POWER_HOPS : nat := 50.

(** [_validate_power_source_device_id]. *)
Definition validate_power_source (f : fleet) (id : string) (v : json) : outcome json :=
  match v with
  | JNull => Ret JNull
  | JStr parent =>
    if String.eqb parent id then Raise (PowerTopologyError "self_parent")
    else
      match get_device parent f with
      | None => Raise (PowerTopologyError "parent_missing")
      | Some _ => _ ← power_walk POWER_HOPS f id parent; Ret v
      end
  | _ => Raise (DBError "devices.id")
  end.

(** [_PATCHABLE]. *)
Definition PATCHABLE : list string :=
  ["display_name"; "site_id"; "notes"; "central_management_enabled"; "is_protected";
   "power_source_device_id"].
Definition validate_field (f : fleet) (id k : string) (v : json) : outcome json :=
  if String.eqb k "site_id" then validate_site_id f v
  else if String.eqb k "power_source_device_id" then validate_power_source f id v
  else Ret v.

(** ** Serialization and status ([_serialize.py]) *)

Section serialize.
(** [strftime("%Y-%m-%dT%H:%M:%SZ")]. *)
Context (strftime : time -> string).

(** [_iso] of a time column. *)
Definition iso (v : json) : json :=
  match v with JInt t => JStr (strftime t) | _ => JNull end.

(** [serialize_device]. *)
Definition serialize_device (id : string) (d : device) (include_secret_status : bool) : pydict :=
  let same k := (k, col d k) in
  [("id", JStr id); same "display_name"; same "hardware_model"; same "hardware_revision";
   same "firmware_version"; same "mac_address"; same "serial_number";
   ("local_ip", ojson (dev_local_ip d)); same "site_id"; same "registration_state";
   same "central_management_enabled";
   ("capabilities", jor (col d "capabilities") (JObj [])); same "notes";
   ("last_heartbeat_at", iso (col d "last_heartbeat_at"));
   ("last_seen_at", iso (col d "last_seen_at"));
   ("is_qa_fixture", JBool (truthy (col d "is_qa_fixture")));
   ("is_protected", JBool (dev_is_protected d)); ("is_held_off", JBool (dev_is_held_off d));
   ("created_at", iso (col d "created_at")); ("updated_at", iso (col d "updated_at"));
   same "reported_recovery_mode"; same "reported_auto_recovery_triggered";
   same "reported_last_known_good_restored"; same "reported_consecutive_unhealthy_boots";
   same "reported_in_captive_portal"; same "reported_central_enabled";
   same "reported_central_registered"; same "reported_central_state"] ++
  (if include_secret_status then [("device_secret_status", JStr "issued")] else []).
End serialize.

(** [effective_last_contact] and [_heartbeat_state_for]. *)
Definition effective_last_contact (last_heartbeat_at last_seen_at : option time) : option time :=
  match last_heartbeat_at, last_seen_at with
  | Some a, Some b => Some (Z.max a b)
  | Some a, None => Some a
  | None, o => o
  end.
Definition heartbeat_state_for (last_heartbeat_at last_seen_at : option time) (now : time)
    (offline_threshold_seconds : Z) : string :=
  match effective_last_contact last_heartbeat_at last_seen_at with
  | None => "never"
  | Some t => if (now - t <? seconds offline_threshold_seconds)%Z then "online" else "offline"
  end.

Definition REBIND_CENTRAL_STATES : list string :=
  ["registered_no_token"; "awaiting_register_no_token"; "reauth_required"].
Definition TRANSPORT_FAIL_CENTRAL_STATES : list string :=
  ["announce_transport_failed"; "register_transport_failed"; "heartbeat_transport_failed";
   "poll_transport_failed"; "firmware_check_transport_failed"].

(** [(v or "").strip() or None] of a string column. *)
Definition version_of (v : json) : option string :=
  match v with
  | JStr s => if is_empty (strip s) then None else Some (strip s)
  | _ => None
  end.
Definition column_in (v : json) (l : list string) : bool :=
  match v with JStr s => in_strs s l | _ => false end.

(** [_derive_central_status]: the code and the badge class; the label and the
    reason only word them. *)
Definition derive_central_status (d : device) (heartbeat_state : string)
    (latest_health_state : option string) (assignment : option (string * option string))
    : string * string :=
  let state := col d "reported_central_state" in
  let current := version_of (col d "firmware_version") in
  let target := version_of (ojson (match assignment with Some a => a.2 | None => None end)) in
  if negb (truthy (col d "central_management_enabled")) then ("local_only", empty_str)
  else if bool_decide (col d "reported_central_enabled" = JBool false)
  then ("central_disabled", "amber")
  else if bool_decide (col d "reported_recovery_mode" = JBool true) then ("recovery_mode", "amber")
  else if column_in state REBIND_CENTRAL_STATES then ("rebind_needed", "amber")
  else if bool_decide (is_Some target /\ current <> target) then
    if String.eqb heartbeat_state "offline" then ("transport_stale", "amber")
    else ("upgrade_pending", "amber")
  else if String.eqb heartbeat_state "never" then ("awaiting_first_heartbeat", empty_str)
  else if String.eqb heartbeat_state "offline" then
    if column_in state TRANSPORT_FAIL_CENTRAL_STATES then ("transport_stale", "amber")
    else ("central_stale", "red")
  else if truthy_str latest_health_state &&
          negb (in_strs (or_str latest_health_state empty_str) ["healthy"; "ok"])
  then ("attention", "red")
  else if match assignment with Some a => in_strs a.1 ["pending"; "delivered"] | None => false end
          && bool_decide (is_Some target)
  then ("upgrade_pending", "amber")
  else ("central_ok", "green").

(** ** [find_by_mac] ([_query.py])

    SQL's [TRIM] removes spaces only. *)
Fixpoint ltrim (s : string) : string :=
  match s with
  | String " "%char r => ltrim r
  | _ => s
  end.
Definition sql_trim (s : string) : string := rev_str (ltrim (rev_str (ltrim s))).

(** The ids of the matching rows. *)
Definition find_by_mac (mac_address : string) (f : fleet) : list string :=
  let mac := upper (strip mac_address) in
  if is_empty mac then []
  else (filter (fun kd : string * device =>
          (match col kd.2 "mac_address" with
           | JStr m => String.eqb (upper (sql_trim m)) mac
           | _ => false
           end && negb (bool_decide (col kd.2 "registration_state" = JStr "decommissioned"))) = true)
        (map_to_list (hub_devices (fl_hub f)))).*1.

(** ** Write operations ([_mutations.py]) *)

Section mutations.
Context (ulid : nat -> string) (strftime : time -> string) (db_accepts : device -> bool).

(** The rows and columns [ON DELETE] reaches when a device goes: its commands,
    their results, its memberships; the devices it powers lose their source. *)
Definition orphan (id : string) (d : device) : device :=
  if decide (power_source d = Some id) then set_col "power_source_device_id" JNull d else d.
Definition drop_device (id : string) (f : fleet) : fleet :=
  let h := fl_hub f in
  Fleet (Hub (orphan id <$> delete id (hub_devices h))
             (filter (fun kc : string * command => cmd_device_id kc.2 <> id) (hub_commands h))
             (filter (fun r => cr_device_id r <> id) (hub_results h))
             (filter (fun m : string * string => m.2 <> id) (hub_members h))
             (hub_bus h) (hub_next h))
        (fl_sites f).

(** [delete_device]. *)
Definition delete_device (id : string) (f : fleet) : bool * fleet :=
  match get_device id f with
  | None => (false, f)
  | Some _ => (true, drop_device id f)
  end.

(** [delete_device_with_audit_context]: the ids of the devices it powered. *)
Definition delete_device_with_audit_context (id : string) (f : fleet)
    : option (list string) * fleet :=
  match get_device id f with
  | None => (None, f)
  | Some _ =>
    (Some (filter (fun kd : string * device => power_source kd.2 = Some id)
             (map_to_list (hub_devices (fl_hub f)))).*1, drop_device id f)
  end.

(** [delete_devices_bulk]: deleted, skipped as protected, unknown.  Both callers
    pass each id once. *)
Definition bulk_step (override : bool)
    (acc : list string * list string * list string * fleet) (id : string)
    : list string * list string * list string * fleet :=
  let '(deleted, protected, unknown, f) := acc in
  match get_device id f with
  | None => (deleted, protected, unknown ++ [id], f)
  | Some d =>
    if dev_is_protected d && negb override then (deleted, protected ++ [id], unknown, f)
    else (deleted ++ [id], protected, unknown, drop_device id f)
  end.
Definition delete_devices_bulk (ids : list string) (override : bool) (f : fleet)
    : list string * list string * list string * fleet :=
  foldl (bulk_step override) ([], [], [], f) ids.

(** [normalized[k] = _PATCHABLE[k](v, ...)] for every field. *)
Definition normalize_patch (f : fleet) (id : string) (patch : pydict) : outcome pydict :=
  mapM (fun kv : string * json => v ← validate_field f id kv.1 kv.2; Ret (kv.1, v)) patch.

(** [if getattr(d, k) != v: setattr(d, k, v); changed = True]. *)
Definition write_field (acc : outcome (device * bool)) (kv : string * json)
    : outcome (device * bool) :=
  dc ← acc;
  if py_eq (get_field dc.1 kv.1) kv.2 then Ret dc
  else d ← set_field kv.1 kv.2 dc.1; Ret (d, true).

(** [diff]: the fields whose stored value changed, with both values. *)
Definition patch_diff (old : device) (normalized : pydict) : list (string * (json * json)) :=
  omap (fun kv : string * json =>
    if py_eq (get_field old kv.1) kv.2 then None
    else Some (kv.1, (get_field old kv.1, kv.2))) normalized.

(** [_apply_patch]. *)
Definition apply_patch (id : string) (d : device) (patch : pydict) (now : time) (f : fleet)
    : outcome (pydict * list (string * (json * json))) * fleet :=
  match normalized ← normalize_patch f id patch;
        dc ← foldl write_field (Ret (d, false)) normalized;
        Ret (normalized, if (dc : device * bool).2 then set_col "updated_at" (JInt now) dc.1 else dc.1)
  with
  | Raise e => (Raise e, f)
  | Ret (normalized, d') =>
    if db_accepts d'
    then (Ret (serialize_device strftime id d' true, patch_diff d normalized), put_device id d' f)
    else (Raise (DBError "devices"), f)
  end.

(** [update_device_with_diff]; [update_device] returns its first component. *)
Definition update_device_with_diff (id : string) (patch : pydict) (now : time) (f : fleet)
    : outcome (option pydict * list (string * (json * json))) * fleet :=
  if negb (forallb (fun k => in_strs k PATCHABLE) (dict_keys patch))
  then (Raise UnknownPatchFieldError, f)
  else
    session_scope (fun f =>
      match get_device id f with
      | None => (Ret (None, []), f)
      | Some d =>
        let '(r, f') := apply_patch id d patch now f in
        (sd ← r; Ret (Some sd.1, sd.2), f')
      end) f.
Definition update_device (id : string) (patch : pydict) (now : time) (f : fleet)
    : outcome (option pydict) * fleet :=
  let '(r, f') := update_device_with_diff id patch now f in (fst <$> r, f').

Definition decommissioned (d : device) : bool :=
  bool_decide (col d "registration_state" = JStr "decommissioned").
(** [(d.mac_address or "").strip()]. *)
Definition mac_of (d : device) : string :=
  match col d "mac_address" with JStr s => strip s | _ => empty_str end.

(** [merge_retire_device]: the guards in order, then one row is retired. *)
Definition merge_retire_device (keep_id retire_id : string) (now : time) (f : fleet)
    : outcome unit * fleet :=
  if is_empty keep_id || is_empty retire_id then (MergeRetireError "validation_failed", f)
  else if String.eqb keep_id retire_id then (MergeRetireError "validation_failed", f)
  else
    match get_device keep_id f, get_device retire_id f with
    | None, _ => (MergeRetireError "not_found", f)
    | _, None => (MergeRetireError "not_found", f)
    | Some keep, Some retire =>
      if decommissioned keep then (MergeRetireError "validation_failed", f)
      else if decommissioned retire then (MergeRetireError "already_retired", f)
      else if is_empty (mac_of keep) || is_empty (mac_of retire)
      then (MergeRetireError "mac_mismatch", f)
      else
        let matches := find_by_mac (mac_of keep) f in
        if negb (in_strs retire_id matches) || negb (in_strs keep_id matches)
        then (MergeRetireError "mac_mismatch", f)
        else
          (Ret tt, put_device retire_id
             (set_col "updated_at" (JInt now)
                (set_col "registration_state" (JStr "decommissioned") retire)) f)
    end.

(** [enqueue_display_name_sync]: every failure of the queue is swallowed. *)
Definition enqueue_display_name_sync (id : string) (display_name : option string)
    (issued_by : option string) (n1 n2 : time) (f : fleet) : bool * fleet :=
  if is_empty id || negb (truthy_str display_name) then (false, f)
  else
    match get_device id f with
    | None => (false, f)
    | Some d =>
      if negb (truthy (col d "central_management_enabled")) then (false, f)
      else
        let '(r, h) := enqueue_for_device ulid id "apply_config"
                         (Some [("device_name", ojson display_name)]) issued_by (Some 600%Z) None
                         false false n1 n2 (fl_hub f) in
        (returns r, Fleet h (fl_sites f))
    end.
End mutations.

(** ** The power topology *)

(** [feeds h p c]: the row of [c] names [p] as its power source. *)
Definition feeds (h : hub) (p c : string) : Prop :=
  exists d, hub_devices h !! c = Some d /\ power_source d = Some p.
(** No device is, through any chain, powered by itself. *)
Definition forest (h : hub) : Prop := well_founded (feeds h).

Section topology.
Context (ulid : nat -> string) (strftime : time -> string) (db_accepts : device -> bool).

(** One change of the fleet: a device registered, an operation of
    [_mutations.py] accepted or refused, or any step of the command queue. *)
Inductive fleet_step : fleet -> fleet -> Prop :=
  | fs_register id d f : get_device id f = None -> power_source d = None ->
      fleet_step f (put_device id d f)
  | fs_site s f : fleet_step f (Fleet (fl_hub f) (s ∪ fl_sites f))
  | fs_update id patch now f :
      fleet_step f (update_device_with_diff strftime db_accepts id patch now f).2
  | fs_delete id f : fleet_step f (delete_device id f).2
  | fs_bulk ids override f : fleet_step f (delete_devices_bulk ids override f).2
  | fs_merge k r now f : fleet_step f (merge_retire_device k r now f).2
  | fs_queue f h : hub_step ulid (fl_hub f) h -> fleet_step f (Fleet h (fl_sites f)).

(** The graph depends on the sources only. *)
Definition sources (h : hub) : gmap string (option string) := power_source <$> hub_devices h.

Lemma feeds_sources h h' p c : sources h' = sources h -> feeds h' p c -> feeds h p c.
Proof.
  intros E (d & Hd & Hp). assert (sources h !! c = Some (Some p)) as Hs.
  { rewrite <- E. unfold sources. by rewrite lookup_fmap, Hd, <- Hp. }
  unfold sources in Hs. rewrite lookup_fmap in Hs.
  destruct (hub_devices h !! c) as [d'|] eqn:E'; [|done]. exists d'. by simplify_eq/=.
Qed.

(** Removing edges keeps a forest. *)
Lemma forest_sub h h' : (forall p c, feeds h' p c -> feeds h p c) -> forest h -> forest h'.
Proof.
  intros Hsub Hf x. induction (Hf x) as [x _ IH]. constructor. intros y Hy. by apply IH, Hsub.
Qed.

Lemma set_col_source k v d : k <> "power_source_device_id" ->
  power_source (set_col k v d) = power_source d.
Proof. intros H. unfold power_source, col; cbn. by rewrite lookup_insert_ne. Qed.

Lemma sources_insert h id d d' : hub_devices h !! id = Some d -> power_source d' = power_source d ->
  sources (with_devices (insert id d') h) = sources h.
Proof.
  intros Hd Hs. unfold sources; cbn. rewrite fmap_insert, Hs. apply insert_id.
  by rewrite lookup_fmap, Hd.
Qed.

Lemma hold_off_effect_source ct ho d : power_source (hold_off_effect ct ho d) = power_source d.
Proof. unfold hold_off_effect. by repeat case_match. Qed.

Lemma group_loop_sources gid ct p u ov e t dids : forall acc,
  sources (foldl (group_step ulid gid ct p u ov e t) acc dids).2 = sources acc.2.
Proof.
  induction dids as [|did dids IH]; intros [[cr sk] h]; cbn [foldl]; [done|].
  rewrite IH. unfold group_step. destruct (hub_devices h !! did) as [d|] eqn:E; [|done].
  case_match; [done|]. case_match; [|done]. by apply (sources_insert _ _ d).
Qed.

Lemma enqueue_sources did ct p u ttl g ov ho n1 n2 h :
  sources (enqueue_for_device ulid did ct p u ttl g ov ho n1 n2 h).2 = sources h.
Proof.
  unfold enqueue_for_device, session_scope, enqueue_txn.
  case_match; [done|]. case_match; [|done].
  destruct (hub_devices h !! did) as [d|] eqn:E; [|done].
  destruct (locked_out ct ov d); [done|]. by apply (sources_insert _ _ d), hold_off_effect_source.
Qed.

Lemma hub_step_sources h h' : hub_step ulid h h' -> sources h' = sources h.
Proof.
  destruct 1; [apply enqueue_sources| |unfold cancel_pending_command, list_pending_for_device,
    record_result, expire_overdue_commands; by cases..].
  unfold enqueue_for_group. case_match; [done|]. case_match; [|done].
  match goal with |- context [foldl ?st ?acc ?l] =>
    assert (sources (foldl st acc l).2 = sources acc.2) as E by apply group_loop_sources;
    destruct (foldl st acc l) as [[cr sk] h'] end.
  exact E.
Qed.

(** ** A new edge *)

(** The walk that accepts [cur] has climbed to the top without meeting [id]: the
    chain of [cur] ends, whatever [id] is given. *)
Lemma walk_ends f h' id hops : forall cur,
  (forall p c, c <> id -> feeds h' p c -> feeds (fl_hub f) p c) ->
  power_walk hops f id cur = Ret tt -> Acc (feeds h') cur.
Proof.
  induction hops as [|hops IH]; intros cur Hsub H; cbn in H; [done|].
  destruct (String.eqb_spec cur id) as [|Hne]; [done|]. constructor. intros p Hp.
  apply (Hsub _ _ Hne) in Hp as (d & Hd & Hs). unfold get_device in H. rewrite Hd, Hs in H.
  by apply IH.
Qed.

(** Powering [id] from a device whose chain ends keeps a forest. *)
Lemma forest_edge h h' id :
  (forall p c, c <> id -> feeds h' p c -> feeds h p c) ->
  (forall p, feeds h' p id -> Acc (feeds h') p) -> forest h -> forest h'.
Proof.
  intros Hsub Hid Hf x. induction (Hf x) as [x _ IH]. constructor. intros y Hy.
  destruct (decide (x = id)) as [->|Hne]; [by apply Hid|]. by apply IH, Hsub.
Qed.

(** What a validated patch may leave in the column: the old source, none, or
    one whose chain was walked. *)
Definition sound_source (f : fleet) (id : string) (old new : option string) : Prop :=
  new = old \/ new = None \/ exists p, new = Some p /\ power_walk POWER_HOPS f id p = Ret tt.

Lemma validated_source f id v v' : validate_power_source f id v = Ret v' ->
  as_str v' = None \/ exists p, as_str v' = Some p /\ power_walk POWER_HOPS f id p = Ret tt.
Proof.
  unfold validate_power_source. destruct v as [| | | |p| |]; try done.
  - intros [= <-]. by left.
  - destruct (String.eqb p id); [done|]. destruct (get_device p f); [|done]. intros H. peel H.
    simplify_eq. destruct x. right. by exists p.
Qed.

Lemma write_sound f id old normalized : forall d b d' b',
  Forall (fun kv : string * json => kv.1 = "power_source_device_id" ->
            exists v, validate_power_source f id v = Ret kv.2) normalized ->
  foldl write_field (Ret (d, b)) normalized = Ret (d', b') ->
  sound_source f id old (power_source d) -> sound_source f id old (power_source d').
Proof.
  induction normalized as [|[k v] rest IH]; intros d b d' b' Hn H Hd; cbn [foldl] in H.
  { by simplify_eq. }
  inversion Hn as [|? ? Hkv Hrest]; subst. destruct (write_field _ _) as [[d1 b1]|e] eqn:E.
  2:{ exfalso. clear -H. induction rest; [done|]. cbn in *. auto. }
  apply (IH _ _ _ _ Hrest H). clear IH H. unfold write_field in E. cbn in E.
  case_match; [by simplify_eq|]. peel E. simplify_eq. unfold set_field in Hx.
  destruct (String.eqb_spec k "is_protected") as [->|].
  { destruct v; simplify_eq. done. }
  simplify_eq. destruct (decide (k = "power_source_device_id")) as [->|Hne].
  - destruct (Hkv eq_refl) as (v0 & Hv). apply validated_source in Hv.
    right. unfold power_source, col; cbn. by rewrite lookup_insert_eq.
  - by rewrite set_col_source.
Qed.

Lemma normalize_power f id patch normalized : normalize_patch f id patch = Ret normalized ->
  Forall (fun kv : string * json => kv.1 = "power_source_device_id" ->
            exists v, validate_power_source f id v = Ret kv.2) normalized.
Proof.
  unfold normalize_patch. rewrite mapM_ret. induction 1 as [|[k v] [k' v'] l l' H _ IH]; constructor.
  - peel H. simplify_eq. cbn. intros ->. by exists v.
  - exact IH.
Qed.

Lemma put_forest f id d d' :
  get_device id f = Some d -> sound_source f id (power_source d) (power_source d') ->
  forest (fl_hub f) -> forest (fl_hub (put_device id d' f)).
Proof.
  intros Hd Hs Hf.
  assert (forall p c, c <> id -> feeds (fl_hub (put_device id d' f)) p c -> feeds (fl_hub f) p c) as Hsub.
  { intros p c Hne (x & Hx & Hp). cbn in Hx. rewrite lookup_insert_ne in Hx by done. by exists x. }
  destruct Hs as [Hs|[Hs|(q & Hs & Hw)]].
  - apply (forest_sub (fl_hub f)); [|done]. intros p c. apply feeds_sources.
    symmetry. symmetry. by apply (sources_insert _ _ d).
  - apply (forest_edge (fl_hub f) _ id Hsub); [|done]. intros p (x & Hx & Hp). cbn in Hx.
    rewrite lookup_insert_eq in Hx. congruence.
  - apply (forest_edge (fl_hub f) _ id Hsub); [|done]. intros p (x & Hx & Hp). cbn in Hx.
    rewrite lookup_insert_eq in Hx. assert (p = q) as -> by congruence. by eapply walk_ends.
Qed.

Lemma update_forest id patch now f :
  forest (fl_hub f) -> forest (fl_hub (update_device_with_diff strftime db_accepts id patch now f).2).
Proof.
  intros Hf. unfold update_device_with_diff, session_scope. case_match; [done|].
  destruct (get_device id f) as [d|] eqn:Hd; [|done]. unfold apply_patch.
  destruct (normalized ← _; _) as [[n d']|e] eqn:E; [|done].
  peel E. peel E. destruct x0 as [d1 b]. simplify_eq. destruct (db_accepts _); [|done]. cbn.
  apply (put_forest f id d); [done| |done].
  assert (sound_source f id (power_source d) (power_source d1)) as Hs.
  { eapply write_sound; [by eapply normalize_power|exact Hx0|by left]. }
  by destruct b; [rewrite set_col_source|].
Qed.

Lemma drop_forest id f : forest (fl_hub f) -> forest (fl_hub (drop_device id f)).
Proof.
  apply forest_sub. intros p c (d & Hd & Hp). cbn in Hd. rewrite lookup_fmap in Hd.
  destruct (decide (id = c)) as [->|Hne]; [by rewrite lookup_delete_eq in Hd|].
  rewrite lookup_delete_ne in Hd by done. apply fmap_Some in Hd as (d0 & Hd0 & ->).
  exists d0. split; [done|]. unfold orphan in Hp. case_decide; [|done].
  unfold power_source, col in Hp; cbn in Hp. by rewrite lookup_insert_eq in Hp.
Qed.

Lemma bulk_forest override ids : forall acc,
  forest (fl_hub acc.2) -> forest (fl_hub (foldl (bulk_step override) acc ids).2).
Proof.
  induction ids as [|id ids IH]; intros acc Hf; [done|]. cbn [foldl]. apply IH.
  destruct acc as [[[dl pr] un] f]. unfold bulk_step. case_match; [|done].
  case_match; [done|]. by apply drop_forest.
Qed.

Lemma merge_forest k r now f : forest (fl_hub f) -> forest (fl_hub (merge_retire_device k r now f).2).
Proof.
  intros Hf. unfold merge_retire_device. destruct (_ || _); [done|]. destruct (String.eqb _ _); [done|].
  destruct (get_device k f) as [dk|]; [|done]. destruct (get_device r f) as [dr|] eqn:Hr; [|done].
  do 4 (case_match; [done|]). cbn. apply (put_forest f r dr); [done| |done].
  left. by rewrite !set_col_source.
Qed.

Lemma fleet_step_forest f f' : fleet_step f f' -> forest (fl_hub f) -> forest (fl_hub f').
Proof.
  destruct 1 as [id d f Hn Hs|s f|id patch now f|id f|ids o f|k r now f|f h Hq]; intros Hf.
  - apply (forest_edge (fl_hub f) _ id); [| |done].
    + intros p c Hne (x & Hx & Hp). cbn in Hx. rewrite lookup_insert_ne in Hx by done. by exists x.
    + intros p (x & Hx & Hp). cbn in Hx. rewrite lookup_insert_eq in Hx. congruence.
  - done.
  - by apply update_forest.
  - unfold delete_device. case_match; [by apply drop_forest|done].
  - by apply (bulk_forest o ids ([], [], [], f)).
  - by apply merge_forest.
  - apply (forest_sub (fl_hub f)); [|done]. intros p c. by apply feeds_sources, hub_step_sources.
Qed.

(** C11. The power topology stays a forest.  Start from no device; register,
    edit, merge and delete devices and run the command queue in any order.  No
    device is ever powered, through any chain of sources, by itself: the walk of
    50 hops that guards an edit is enough, although a chain may grow longer. *)
Theorem power_topology_stays_a_forest (f f' : fleet) :
  hub_devices (fl_hub f) = ∅ -> rtc fleet_step f f' -> forest (fl_hub f').
Proof.
  intros He Hr. assert (forest (fl_hub f)) as Hf.
  { intros x. constructor. intros p (d & Hd & _). by rewrite He, lookup_empty in Hd. }
  revert Hf. clear He. induction Hr as [|f f1 f2 Hs _ IH]; [done|].
  intros Hf. by apply IH, (fleet_step_forest f).
Qed.
End topology.

(** ** Witness *)

Module Example.

Definition row (ip : option string) : device := Device false false ip ∅.
Definition accepts (_ : device) : bool := true.
Definition f0 : fleet := Fleet (Hub ∅ ∅ [] [] empty_bus 0) ∅.
Definition powered_by (p : string) : pydict := [("power_source_device_id", JStr p)].
Definition update := update_device_with_diff (fun _ => empty_str) accepts.
Definition f1 : fleet := put_device "dev_b" (row None) (put_device "dev_a" (row None) f0).
(** [dev_a] is plugged into [dev_b]. *)
Definition f2 : fleet := (update "dev_a" (powered_by "dev_b") 1 f1).2.

Lemma power_topology_stays_a_forest_witness :
  (power_source <$> get_device "dev_a" f2) = Some (Some "dev_b") /\
  (update "dev_b" (powered_by "dev_a") 2 f2).1 = Raise (PowerTopologyError "cycle") /\
  forest (fl_hub f2).
Proof.
  split; [vm_compute; reflexivity|split; [vm_compute; reflexivity|]].
  refine (power_topology_stays_a_forest pretty (fun _ => empty_str) accepts f0 f2 eq_refl _).
  eapply rtc_l; [apply (fs_register _ _ _ "dev_a" (row None)); reflexivity|].
  eapply rtc_l; [apply (fs_register _ _ _ "dev_b" (row None)); reflexivity|].
  apply rtc_once. apply (fs_update _ _ _ "dev_a").
Defined.
End Example.
