(* ===== verification/Deployments.v ===== *)
(** * Firmware deployments ([app/services/deployments.py])

    A deployment assigns a release to the devices of its target and supersedes
    what they were assigned before; a device fetches its assignment
    ([/device/firmware]) and completes it by a heartbeat that reports the target
    version.  A device never has two active assignments. *)

From stdpp Require Import pretty.
From S2P Require Import Prelude EventBus Commands Devices.
Local Open Scope string_scope.
Local Open Scope list_scope.

(** ** Data ([app/models/firmware.py]) *)

Inductive assignment_state := ToDeliver | Delivered | Done | GaveUp | Superseded.
#[export] Instance assignment_state_eq_dec : EqDecision assignment_state.
Proof. solve_decision. Defined.
(** The strings of [ASSIGNMENT_STATES]. *)
Definition state_name (s : assignment_state) : string :=
  match s with
  | ToDeliver => "pending" | Delivered => "delivered" | Done => "completed"
  | GaveUp => "failed" | Superseded => "superseded"
  end.

Record release := Release {
  rl_version : string;
  rl_channel : string;
  rl_download_url : string;
  rl_sha256 : string
}.
Record deployment := Deployment {
  dp_release_id : string;
  dp_target_type : string;
  dp_target_id : option string;
  dp_channel : string;
  dp_force : bool;
  dp_issued_by : option string;
  dp_created_at : time
}.
Record assignment := Assignment {
  as_id : string;
  as_deployment_id : string;
  as_release_id : string;
  as_device_id : string;
  as_state : assignment_state;
  as_last_reported_version : option string;
  as_error_message : json;
  as_created_at : time;
  as_updated_at : time
}.
Record firmware := Firmware {
  fw_releases : gmap string release;
  fw_deployments : gmap string deployment;
  fw_assignments : list assignment;       (* in the order of insertion *)
  fw_next : nat
}.
Definition with_assignments (g : list assignment -> list assignment) (w : firmware) : firmware :=
  Firmware (fw_releases w) (fw_deployments w) (g (fw_assignments w)) (fw_next w).

Definition set_as_state (s : assignment_state) (now : time) (a : assignment) : assignment :=
  Assignment (as_id a) (as_deployment_id a) (as_release_id a) (as_device_id a) s
    (as_last_reported_version a) (as_error_message a) (as_created_at a) now.

(** [state.in_(("pending", "delivered"))]. *)
Definition active (a : assignment) : bool :=
  match as_state a with ToDeliver | Delivered => true | _ => false end.
Definition active_for (device_id : string) (a : assignment) : bool :=
  String.eqb (as_device_id a) device_id && active a.

(** [ORDER BY created_at DESC LIMIT 1]. *)
Definition latest_where (p : assignment -> bool) (w : firmware) : option assignment :=
  head (order_by_desc as_created_at (filter (fun a => p a = true) (fw_assignments w))).
Definition update_assignment (a : assignment) : list assignment -> list assignment :=
  fmap (fun b => if String.eqb (as_id b) (as_id a) then a else b).

(** ** Operations *)

Definition ALLOWED_TARGET_TYPES : list string := ["device"; "group"; "site"; "all_devices"].

Section deployments.
Context (ulid : nat -> string).

(** The devices a target names. *)
Definition target_devices (target_type : string) (target_id : option string) (f : fleet)
    : outcome (list string) :=
  let devices := map_to_list (hub_devices (fl_hub f)) in
  if String.eqb target_type "device" then
    match target_id with
    | Some id => match get_device id f with Some _ => Ret [id] | None => Raise (LookupError id) end
    | None => Ret []
    end
  else if String.eqb target_type "group" then
    Ret (match target_id with Some g => group_device_ids g (fl_hub f) | None => [] end)
  else if String.eqb target_type "site" then
    Ret (filter (fun kd : string * device => col kd.2 "site_id" = ojson target_id) devices).*1
  else Ret devices.*1.

(** [UPDATE ... SET state='superseded' WHERE device_id IN (...) AND active]. *)
Definition supersede (ids : list string) (now : time) (a : assignment) : assignment :=
  if in_strs (as_device_id a) ids && active a then set_as_state Superseded now a else a.

(** The new rows, one per device, as flushed at [created]. *)
Fixpoint new_assignments (n : nat) (deployment_id release_id : string) (created : time)
    (ids : list string) : list assignment :=
  match ids with
  | [] => []
  | did :: ids =>
    Assignment (new_id ulid "fda" n) deployment_id release_id did ToDeliver None JNull created created
    :: new_assignments (S n) deployment_id release_id created ids
  end.

(** [create_deployment]: the id of the deployment and its target count. *)
Definition create_deployment (release_id target_type : string) (target_id : option string)
    (channel : option string) (force : bool) (issued_by : option string) (now flush_at : time)
    (f : fleet) (w : firmware) : outcome (string * nat) * firmware :=
  if negb (in_strs target_type ALLOWED_TARGET_TYPES)
  then (Raise (ValueError "target_type must be one of"), w)
  else if negb (String.eqb target_type "all_devices") && negb (truthy_str target_id)
  then (Raise (ValueError "target_id is required for target_type other than all_devices"), w)
  else
    match fw_releases w !! release_id with
    | None => (Raise (LookupError release_id), w)
    | Some r =>
      match target_devices target_type target_id f with
      | Raise e => (Raise e, w)
      | Ret ids =>
        let did := new_id ulid "fwd" (fw_next w) in
        let d := Deployment release_id target_type target_id (or_str channel (rl_channel r)) force
                   issued_by flush_at in
        (Ret (did, length ids),
         Firmware (fw_releases w) (<[did := d]> (fw_deployments w))
           ((supersede ids now <$> fw_assignments w) ++
            new_assignments (S (fw_next w)) did release_id flush_at ids)
           (S (fw_next w) + length ids))
      end
    end.

(** What [assignment_for_device] answers. *)
Record offer := Offer {
  of_assignment_id : string;
  of_deployment_id : string;
  of_channel : string;
  of_target_version : string;
  of_download_url : string;
  of_sha256 : string;
  of_force : bool
}.
Definition assignment_for_device (device_id : string) (w : firmware) : option offer :=
  a ← latest_where (active_for device_id) w;
  r ← fw_releases w !! as_release_id a;
  d ← fw_deployments w !! as_deployment_id a;
  Some (Offer (as_id a) (as_deployment_id a) (dp_channel d) (rl_version r) (rl_download_url r)
          (rl_sha256 r) (dp_force d)).

(** [mark_assignment_delivered]. *)
Definition mark_assignment_delivered (device_id : string) (now : time) (w : firmware) : firmware :=
  match latest_where (fun a => String.eqb (as_device_id a) device_id &&
                               bool_decide (as_state a = ToDeliver)) w with
  | None => w
  | Some a => with_assignments (update_assignment (set_as_state Delivered now a)) w
  end.

(** The assignment after one report of [reconcile_assignment_reported_version];
    [updated_at] moves only when a column changed. *)
Definition reconciled (reported : option string) (error_message : json) (target : string)
    (now : time) (a : assignment) : assignment :=
  let done := match reported with
              | Some v => negb (is_empty target) && String.eqb v target
              | None => false
              end in
  let err := if truthy error_message then error_message else as_error_message a in
  let a' := Assignment (as_id a) (as_deployment_id a) (as_release_id a) (as_device_id a)
              (if done then Done else as_state a) reported (if done then JNull else err)
              (as_created_at a) (as_updated_at a) in
  let changed := bool_decide (as_last_reported_version a <> reported) ||
                 bool_decide (as_error_message a <> err) || done in
  if changed then set_as_state (as_state a') now a' else a'.

(** [reconcile_assignment_reported_version]. *)
Definition reconcile_assignment_reported_version (device_id : string) (reported_version : json)
    (error_message : json) (now : time) (w : firmware) : outcome firmware :=
  v ← strip_or_empty reported_version;
  let reported := if is_empty v then None else Some v in
  if is_empty device_id then Ret w
  else
    match latest_where (active_for device_id) w with
    | None => Ret w
    | Some a =>
      let target := match fw_releases w !! as_release_id a with
                    | Some r => strip (rl_version r)
                    | None => empty_str
                    end in
      Ret (with_assignments (update_assignment (reconciled reported error_message target now a)) w)
    end.

(** [GET /device/firmware] ([device_api.py]). *)
Definition firmware_assignment (device_id : string) (now : time) (w : firmware)
    : option offer * firmware :=
  match assignment_for_device device_id w with
  | None => (None, w)
  | Some o => (Some o, mark_assignment_delivered device_id now w)
  end.
End deployments.

(** [list_deployments]: the counts of one deployment. *)
Definition deployment_counts (deployment_id : string) (w : firmware) : list (string * nat) :=
  let l := filter (fun a => as_deployment_id a = deployment_id) (fw_assignments w) in
  ("total", length l) ::
  ((fun s => (state_name s, length (filter (fun a => as_state a = s) l))) <$>
     [ToDeliver; Delivered; Done; GaveUp; Superseded]).

(** ** One active assignment per device *)

Lemma filter_fmap_le {A} (p : A -> bool) (g : A -> A) l :
  Forall (fun b => p (g b) = true -> p b = true) l ->
  length (filter (fun b => p b = true) (g <$> l)) <= length (filter (fun b => p b = true) l).
Proof.
  induction 1 as [|b l Hb _ IH]; [done|]. rewrite fmap_cons, !filter_cons.
  repeat case_decide; cbn [length]; try lia. exfalso. auto.
Qed.

Section invariant.
Context (ulid : nat -> string) `{!Inj (=) (=) ulid}.

(** One change of the firmware tables: a release added, a device gone, or an
    operation of the module.  The memberships a group deployment reads are
    distinct, as the table's constraint demands. *)
Inductive fw_step : firmware -> firmware -> Prop :=
  | fws_release id r w : fw_step w (Firmware (<[id := r]> (fw_releases w)) (fw_deployments w)
                                             (fw_assignments w) (fw_next w))
  | fws_device id w : fw_step w (with_assignments (filter (fun a => as_device_id a <> id)) w)
  | fws_create rid tt tid ch force by_ now flush f w : NoDup (hub_members (fl_hub f)) ->
      fw_step w (create_deployment ulid rid tt tid ch force by_ now flush f w).2
  | fws_fetch id now w : fw_step w (firmware_assignment id now w).2
  | fws_report id v err now w w' :
      reconcile_assignment_reported_version id v err now w = Ret w' -> fw_step w w'.

Record fw_ok (w : firmware) : Prop := FwOk {
  fo_ids : NoDup (as_id <$> fw_assignments w);
  fo_drawn : forall a, a ∈ fw_assignments w ->
               exists n, n < fw_next w /\ as_id a = new_id ulid "fda" n;
  fo_active : forall d, length (filter (fun a => active_for d a = true) (fw_assignments w)) <= 1
}.

(** A map over the rows that keeps ids and devices and wakes nobody up. *)
Definition quiet (g : assignment -> assignment) (l : list assignment) : Prop :=
  Forall (fun b => as_id (g b) = as_id b /\ as_device_id (g b) = as_device_id b /\
                   (active (g b) = true -> active b = true)) l.

Lemma quiet_active g l d : quiet g l ->
  length (filter (fun a => active_for d a = true) (g <$> l)) <=
  length (filter (fun a => active_for d a = true) l).
Proof.
  intros Hq. apply filter_fmap_le. eapply Forall_impl; [exact Hq|]. intros b (_ & Hd & Ha) H.
  unfold active_for in *. bool_to_prop. rewrite <- Hd. by rewrite (proj2 (String.eqb_eq _ _)), Ha.
Qed.

Lemma quiet_ids g l : quiet g l -> as_id <$> (g <$> l) = as_id <$> l.
Proof.
  induction 1 as [|b l (Hb & _) _ IH]; cbn; [done|]. by rewrite Hb, <- IH.
Qed.

Lemma quiet_ok g w : quiet g (fw_assignments w) -> fw_ok w -> fw_ok (with_assignments (fmap g) w).
Proof.
  intros Hq [Hi Hn Ha]. constructor; cbn.
  - by rewrite quiet_ids.
  - intros a (b & -> & Hb)%list_elem_of_fmap. destruct (Hn b Hb) as (n & Hlt & Hid).
    exists n. split; [done|]. unfold quiet in Hq. rewrite Forall_forall in Hq.
    rewrite <- Hid. apply (Hq b Hb).
  - intros d. etrans; [by apply quiet_active|apply Ha].
Qed.

(** Replacing one row by a row of the same id and device. *)
Lemma update_quiet a a' w : fw_ok w -> a ∈ fw_assignments w ->
  as_id a' = as_id a -> as_device_id a' = as_device_id a -> (active a' = true -> active a = true) ->
  quiet (fun b => if String.eqb (as_id b) (as_id a') then a' else b) (fw_assignments w).
Proof.
  intros [Hi _ _] Ha Hid Hd Hact. apply Forall_forall. intros b Hb.
  destruct (String.eqb_spec (as_id b) (as_id a')) as [E|]; [|done].
  assert (b = a) as ->; [|done]. rewrite Hid in E.
  apply list_elem_of_lookup in Ha as [i Hx], Hb as [j Hy].
  assert (i = j) as ->; [|congruence].
  apply (NoDup_lookup _ _ _ (as_id a) Hi); rewrite list_lookup_fmap; [by rewrite Hx|].
  rewrite Hy; cbn. by rewrite E.
Qed.

Lemma latest_where_elem p w a : latest_where p w = Some a -> a ∈ fw_assignments w /\ p a = true.
Proof. intros [H _]%order_by_desc_head. by apply list_elem_of_filter in H as [? ?]. Qed.

Lemma mark_ok id now w : fw_ok w -> fw_ok (mark_assignment_delivered id now w).
Proof.
  intros Hok. unfold mark_assignment_delivered. destruct (latest_where _ w) as [a|] eqn:E; [|done].
  apply latest_where_elem in E as [Ha Hp]. apply quiet_ok; [|done].
  apply (update_quiet a); [done..|]. intros _. bool_to_prop. unfold active.
  apply bool_decide_eq_true in H0. by rewrite H0.
Qed.

Lemma reconciled_frame reported err target now a :
  as_id (reconciled reported err target now a) = as_id a /\
  as_device_id (reconciled reported err target now a) = as_device_id a /\
  (active (reconciled reported err target now a) = true -> active a = true).
Proof.
  unfold reconciled. destruct (match reported with Some _ => _ | None => _ end);
    destruct (_ || _); done.
Qed.

Lemma report_ok id v err now w w' :
  reconcile_assignment_reported_version id v err now w = Ret w' -> fw_ok w -> fw_ok w'.
Proof.
  unfold reconcile_assignment_reported_version. intros H Hok. peel H. cbv zeta in H.
  destruct (is_empty id); [by simplify_eq|].
  destruct (latest_where _ w) as [a|] eqn:E; simplify_eq; [|done].
  apply latest_where_elem in E as [Ha _]. apply quiet_ok; [|done].
  apply (update_quiet a); [done..|apply reconciled_frame| |]; apply reconciled_frame.
Qed.

Lemma new_assignments_ids n did rid t ids :
  as_id <$> new_assignments ulid n did rid t ids = new_id ulid "fda" <$> seq n (length ids).
Proof. revert n. induction ids as [|id ids IH]; intros n; cbn; [done|]. by rewrite IH. Qed.

Lemma new_assignments_active n did rid t ids d :
  length (filter (fun a => active_for d a = true) (new_assignments ulid n did rid t ids)) =
  length (filter (fun i => i = d) ids).
Proof.
  revert n. induction ids as [|id ids IH]; intros n; [done|].
  cbn [new_assignments]. rewrite !filter_cons. destruct (decide (id = d)) as [->|Hne].
  - rewrite decide_True; [cbn [length]; by rewrite IH|].
    unfold active_for; cbn. by rewrite String.eqb_refl.
  - rewrite decide_False; [apply IH|]. apply String.eqb_neq in Hne.
    unfold active_for; cbn. by rewrite Hne.
Qed.

Lemma nodup_count (l : list string) d : NoDup l ->
  length (filter (fun i => i = d) l) = if decide (d ∈ l) then 1 else 0.
Proof.
  induction 1 as [|x l Hx _ IH]; [done|]. rewrite filter_cons. destruct (decide (x = d)) as [->|Hne].
  - rewrite (decide_True _ _ (list_elem_of_here _ _)). cbn. rewrite IH, decide_False by done. done.
  - rewrite IH. repeat case_decide; set_solver.
Qed.

Lemma superseded_none ids now l d : d ∈ ids ->
  filter (fun a => active_for d a = true) (supersede ids now <$> l) = [].
Proof.
  intros Hd. induction l as [|b l IH]; [done|]. rewrite fmap_cons, filter_cons.
  rewrite decide_False; [exact IH|]. unfold supersede, active_for. intros H.
  destruct (in_strs (as_device_id b) ids) eqn:E; cbn in H.
  - destruct (active b) eqn:Eb; cbn in H; bool_to_prop; [done|congruence].
  - bool_to_prop. subst. rewrite (proj2 (in_strs_spec _ _) Hd) in E. done.
Qed.

Lemma supersede_quiet ids now l : quiet (supersede ids now) l.
Proof.
  apply Forall_forall. intros b _. unfold supersede. by destruct (in_strs _ _ && active b) eqn:E.
Qed.

Lemma target_devices_nodup tt tid f ids : NoDup (hub_members (fl_hub f)) ->
  target_devices tt tid f = Ret ids -> NoDup ids.
Proof.
  intros Hm. unfold target_devices.
  assert (NoDup (map_to_list (hub_devices (fl_hub f))).*1) as Hd by apply NoDup_fst_map_to_list.
  destruct (String.eqb tt "device").
  { destruct tid as [id|]; [|intros [= <-]; constructor].
    destruct (get_device id f); intros; simplify_eq. apply NoDup_singleton. }
  destruct (String.eqb tt "group").
  { intros [= <-]. destruct tid as [g|]; [|constructor]. unfold group_device_ids.
    apply NoDup_fmap_2_strong; [|by apply NoDup_filter].
    intros [a b] [c e] [Ha _]%list_elem_of_filter [Hc _]%list_elem_of_filter Hbe. cbn in *. congruence. }
  destruct (String.eqb tt "site"); intros [= <-]; [|done].
  eapply sublist_NoDup; [exact Hd|]. apply fmap_sublist, sublist_filter.
Qed.

Lemma create_ok rid tt tid ch force by_ now flush f w : NoDup (hub_members (fl_hub f)) ->
  fw_ok w -> fw_ok (create_deployment ulid rid tt tid ch force by_ now flush f w).2.
Proof.
  intros Hm Hok. unfold create_deployment. destruct (negb _); [done|]. destruct (_ && _); [done|].
  destruct (fw_releases w !! rid) as [r|]; [|done].
  destruct (target_devices tt tid f) as [ids|e] eqn:E; [|done].
  apply target_devices_nodup in E; [|done].
  pose proof (quiet_ok _ _ (supersede_quiet ids now (fw_assignments w)) Hok) as [Hi Hn Ha].
  cbn in *. constructor; cbn.
  - rewrite fmap_app. apply NoDup_app. split_and!; [done| |].
    + intros x (a & -> & Hx)%list_elem_of_fmap Hin. destruct (Hn _ Hx) as (n & Hlt & Hid).
      rewrite new_assignments_ids, Hid in Hin. apply list_elem_of_fmap in Hin as (m & Hnm & Hm').
      apply (new_id_inj ulid) in Hnm as ->. apply elem_of_seq in Hm'. lia.
    + rewrite new_assignments_ids. apply NoDup_fmap_2_strong; [|apply NoDup_seq].
      intros x y _ _. apply (new_id_inj ulid).
  - intros a [Hx|Hx]%elem_of_app.
    + destruct (Hn _ Hx) as (n & Hlt & Hid). exists n. split; [lia|done].
    + assert (as_id a ∈ as_id <$> new_assignments ulid (S (fw_next w)) (new_id ulid "fwd" (fw_next w))
        rid flush ids) as Hin by (by apply list_elem_of_fmap_2).
      rewrite new_assignments_ids in Hin. apply list_elem_of_fmap in Hin as (m & Hid & Hm').
      apply elem_of_seq in Hm'. exists m. split; [lia|done].
  - intros d. rewrite filter_app, length_app, new_assignments_active, nodup_count by done.
    case_decide; [rewrite superseded_none by done; cbn; lia|]. specialize (Ha d). lia.
Qed.

(** Rows that go. *)
Lemma filter_ok (P : assignment -> Prop) `{!forall a, Decision (P a)} w :
  fw_ok w -> fw_ok (with_assignments (filter P) w).
Proof.
  intros [Hi Hn Ha]. constructor; cbn.
  - eapply sublist_NoDup; [exact Hi|]. apply fmap_sublist, sublist_filter.
  - intros a [_ Hin]%list_elem_of_filter. by apply Hn.
  - intros d. etrans; [|apply (Ha d)]. generalize (fw_assignments w). intros l.
    induction l as [|b l IH]; [done|]. rewrite !filter_cons. repeat case_decide;
      rewrite ?filter_cons; repeat case_decide; cbn [length]; try done; lia.
Qed.

Lemma fw_step_ok w w' : fw_step w w' -> fw_ok w -> fw_ok w'.
Proof.
  destruct 1 as [id r w|id w|rid tt tid ch force by_ now flush f w Hm|id now w|id v err now w w' H];
    intros Hok.
  - by destruct Hok.
  - by apply filter_ok.
  - by apply create_ok.
  - unfold firmware_assignment. case_match; [by apply mark_ok|done].
  - by eapply report_ok.
Qed.

Lemma history_ok r w : rtc fw_step (Firmware r ∅ [] 0) w -> fw_ok w.
Proof.
  intros Hr. assert (fw_ok (Firmware r ∅ [] 0)) as H0.
  { constructor; cbn; [constructor|set_solver|lia]. }
  revert H0. induction Hr as [|x y z Hs _ IH]; [done|]. intros H. by apply IH, (fw_step_ok x).
Qed.

(** A device has at most one active assignment, after any history of
    deployments to devices, groups, sites or the whole fleet, fetches and
    reports: a new deployment supersedes whatever was still open. *)
Theorem one_active_assignment (releases : gmap string release) (w : firmware) (d : string) :
  rtc fw_step (Firmware releases ∅ [] 0) w ->
  length (filter (fun a => active_for d a = true) (fw_assignments w)) <= 1.
Proof. intros Hr. apply history_ok in Hr. apply Hr. Qed.

(** ** The life of one assignment *)

Lemma the_active w d a b : fw_ok w -> a ∈ fw_assignments w -> b ∈ fw_assignments w ->
  active_for d a = true -> active_for d b = true -> a = b.
Proof.
  intros [_ _ Hact] Ha Hb H1 H2. specialize (Hact d).
  assert (a ∈ filter (fun a => active_for d a = true) (fw_assignments w)) as Hfa
    by (by apply list_elem_of_filter).
  assert (b ∈ filter (fun a => active_for d a = true) (fw_assignments w)) as Hfb
    by (by apply list_elem_of_filter).
  destruct (filter _ _) as [|x [|y l]]; cbn in Hact; [set_solver| |lia].
  apply list_elem_of_singleton in Hfa as ->. by apply list_elem_of_singleton in Hfb as ->.
Qed.

Lemma latest_active w d a : fw_ok w -> a ∈ fw_assignments w -> active_for d a = true ->
  latest_where (active_for d) w = Some a.
Proof.
  intros Hok Ha Hp. destruct (latest_where _ w) as [b|] eqn:E.
  - apply latest_where_elem in E as [Hb Hpb]. f_equal. by apply (the_active w d b a).
  - apply order_by_desc_nil in E.
    assert (a ∈ filter (fun a => active_for d a = true) (fw_assignments w)) as Hin
      by (by apply list_elem_of_filter). rewrite E in Hin. set_solver.
Qed.

Lemma update_elem a a' w : a ∈ fw_assignments w -> as_id a' = as_id a ->
  a' ∈ fw_assignments (with_assignments (update_assignment a') w).
Proof.
  intros Ha Hid. cbn. unfold update_assignment. apply list_elem_of_fmap. exists a. split; [|done].
  by rewrite Hid, String.eqb_refl.
Qed.

Lemma offer_row w d o : assignment_for_device d w = Some o ->
  exists a r dp, a ∈ fw_assignments w /\ active_for d a = true /\
    fw_releases w !! as_release_id a = Some r /\ fw_deployments w !! as_deployment_id a = Some dp /\
    o = Offer (as_id a) (as_deployment_id a) (dp_channel dp) (rl_version r) (rl_download_url r)
          (rl_sha256 r) (dp_force dp).
Proof.
  unfold assignment_for_device. intros (a & Ha & (r & Hr & (dp & Hd & [= <-])%bind_Some)%bind_Some)%bind_Some.
  apply latest_where_elem in Ha as [Ha Hp]. by exists a, r, dp.
Qed.

(** The offer of a device depends on its active row and the two tables. *)
Lemma offer_of w w' d o a' :
  fw_ok w' -> fw_releases w' = fw_releases w -> fw_deployments w' = fw_deployments w ->
  assignment_for_device d w = Some o -> a' ∈ fw_assignments w' -> active_for d a' = true ->
  (forall a, a ∈ fw_assignments w -> active_for d a = true -> as_id a' = as_id a /\
     as_release_id a' = as_release_id a /\ as_deployment_id a' = as_deployment_id a) ->
  assignment_for_device d w' = Some o.
Proof.
  intros Hok Hr Hd (a & r & dp & Ha & Hp & Er & Ed & ->)%offer_row Ha' Hp' Hsame.
  destruct (Hsame a Ha Hp) as (Hi & Hrel & Hdep). unfold assignment_for_device.
  rewrite (latest_active w' d a' Hok Ha' Hp'). cbn. rewrite Hr, Hd, Hrel, Hdep, Er, Ed, Hi. done.
Qed.

Lemma mark_delivers w d a now : fw_ok w -> a ∈ fw_assignments w -> active_for d a = true ->
  exists a', a' ∈ fw_assignments (mark_assignment_delivered d now w) /\ as_state a' = Delivered /\
    active_for d a' = true /\ as_id a' = as_id a /\ as_release_id a' = as_release_id a /\
    as_deployment_id a' = as_deployment_id a.
Proof.
  intros Hok Ha Hp. unfold mark_assignment_delivered.
  destruct (latest_where _ w) as [b|] eqn:E.
  - apply latest_where_elem in E as [Hb Hpb]. bool_to_prop. apply bool_decide_eq_true in H0.
    assert (b = a) as ->.
    { apply (the_active w d); try done. unfold active_for, active. rewrite H0.
      by rewrite (proj2 (String.eqb_eq _ _)). }
    exists (set_as_state Delivered now a). split_and!; try done; [by apply (update_elem a)|].
    unfold active_for; cbn. by rewrite (proj2 (String.eqb_eq _ _)).
  - exists a. apply order_by_desc_nil in E. split_and!; try done.
    unfold active_for, active in Hp. destruct (as_state a) eqn:Es; bool_to_prop; try done.
    exfalso. assert (a ∈ ([] : list assignment)) as Hin; [|set_solver]. rewrite <- E.
    apply list_elem_of_filter. split; [|done]. rewrite Es. by rewrite (proj2 (String.eqb_eq _ _)).
Qed.

(** One report of a device with an active row. *)
Lemma report_row w d a v err now : fw_ok w -> a ∈ fw_assignments w -> active_for d a = true ->
  is_empty d = false ->
  let reported := if is_empty (strip v) then None else Some (strip v) in
  let target := match fw_releases w !! as_release_id a with
                | Some r => strip (rl_version r) | None => empty_str end in
  reconcile_assignment_reported_version d (JStr v) err now w =
  Ret (with_assignments (update_assignment (reconciled reported err target now a)) w).
Proof.
  intros Hok Ha Hp Hd. unfold reconcile_assignment_reported_version, strip_or_empty, jor. cbn [truthy].
  destruct (is_empty v) eqn:Ev; cbn; [destruct v; [|done]; cbn|];
    by rewrite Hd, (latest_active w d a).
Qed.

Lemma reconciled_state reported err target now a : active a = true ->
  active (reconciled reported err target now a) =
  negb (match reported with Some v => negb (is_empty target) && String.eqb v target | None => false end).
Proof.
  unfold reconciled. intros Ha.
  destruct (match reported with Some _ => _ | None => _ end); destruct (_ || _); done.
Qed.

Lemma with_update_ok w a a' : fw_ok w -> a ∈ fw_assignments w ->
  as_id a' = as_id a -> as_device_id a' = as_device_id a -> (active a' = true -> active a = true) ->
  fw_ok (with_assignments (update_assignment a') w).
Proof. intros. apply quiet_ok; [by apply (update_quiet a)|done]. Qed.

Lemma closed_none w d a a' : fw_ok w -> a ∈ fw_assignments w -> active_for d a = true ->
  as_id a' = as_id a -> active a' = false ->
  assignment_for_device d (with_assignments (update_assignment a') w) = None.
Proof.
  intros Hok Ha Hp Hid Hact.
  destruct (assignment_for_device d (with_assignments (update_assignment a') w)) as [o|] eqn:E; [|done].
  apply offer_row in E as (b & ? & ? & Hb & Hpb & _). exfalso.
  apply list_elem_of_fmap in Hb as (b0 & -> & Hb0).
  destruct (String.eqb_spec (as_id b0) (as_id a')) as [Ei|Ei].
  - unfold active_for in Hpb. rewrite Hact, andb_false_r in Hpb. done.
  - by rewrite (the_active w d b0 a Hok Hb0 Ha Hpb Hp) in Ei.
Qed.

(** C29. A rollout ends with the report of its version, and only then.  In any
    reachable state, a device that is offered a release fetches exactly that
    offer; a heartbeat that reports another version keeps the offer as it is; a
    heartbeat that reports the offered version (up to surrounding spaces)
    closes the assignment without an error, and nothing is offered any more. *)
Theorem rollout_ends_on_target_version (releases : gmap string release) (w : firmware)
    (d v : string) (o : offer) (err : json) (now now' : time) :
  rtc fw_step (Firmware releases ∅ [] 0) w -> is_empty d = false ->
  assignment_for_device d w = Some o ->
  let w1 := (firmware_assignment d now w).2 in
  (firmware_assignment d now w).1 = Some o /\ assignment_for_device d w1 = Some o /\
  exists w2, reconcile_assignment_reported_version d (JStr v) err now' w1 = Ret w2 /\
    if decide (strip v = strip (of_target_version o) /\ is_empty (strip v) = false)
    then assignment_for_device d w2 = None /\
         exists a, a ∈ fw_assignments w2 /\ as_id a = of_assignment_id o /\ as_state a = Done /\
                   as_error_message a = JNull
    else assignment_for_device d w2 = Some o.
Proof.
  intros Hr Hne Ho w1. apply history_ok in Hr as Hok. clear Hr.
  pose proof Ho as (a & r & dp & Ha & Hp & Er & Ed & Heq)%offer_row.
  assert (w1 = mark_assignment_delivered d now w /\ (firmware_assignment d now w).1 = Some o)
    as [Hw1 Hfst] by (subst w1; unfold firmware_assignment; by rewrite Ho).
  clearbody w1. subst w1. split; [done|]. pose proof (mark_ok d now w Hok) as Hok1.
  destruct (mark_delivers w d a now Hok Ha Hp) as (a1 & Ha1 & Hs1 & Hp1 & Hi1 & Hrel1 & Hdep1).
  set (w1 := mark_assignment_delivered d now w) in *.
  assert (fw_releases w1 = fw_releases w /\ fw_deployments w1 = fw_deployments w) as [Hrl Hdp]
    by (subst w1; unfold mark_assignment_delivered; by case_match).
  assert (assignment_for_device d w1 = Some o) as Ho1.
  { apply (offer_of w w1 d o a1); try done. intros b Hb Hpb.
    by rewrite (the_active w d b a Hok Hb Ha Hpb Hp). }
  split; [done|]. rewrite (report_row w1 d a1 v err now' Hok1 Ha1 Hp1 Hne), Hrl, Hrel1, Er.
  eexists. split; [reflexivity|].
  set (rep := if is_empty (strip v) then None else Some (strip v)).
  destruct (reconciled_frame rep err (strip (rl_version r)) now' a1) as (Fi & Fd & Fa).
  assert (active a1 = true) as Hact1 by (unfold active_for in Hp1; by bool_to_prop).
  pose proof (reconciled_state rep err (strip (rl_version r)) now' a1 Hact1) as Fs.
  pose proof (with_update_ok w1 a1 _ Hok1 Ha1 Fi Fd Fa) as Hok2.
  pose proof (update_elem a1 _ w1 Ha1 Fi) as Ha2.
  subst o. cbn [of_target_version of_assignment_id]. case_decide as Hv.
  - destruct Hv as [Hv He]. subst rep. rewrite He, <- Hv in *. rewrite He, String.eqb_refl in Fs.
    split; [by apply (closed_none w1 d a1); rewrite ?Fs|].
    exists (reconciled (Some (strip v)) err (strip v) now' a1). split_and!; [done|congruence|..];
      unfold reconciled; rewrite He, String.eqb_refl; cbn; by destruct (_ || _).
  - apply (offer_of w1 _ d _ _ Hok2 eq_refl eq_refl Ho1 Ha2).
    + unfold active_for in *. rewrite Fs, Fd. bool_to_prop. rewrite (proj2 (String.eqb_eq _ _)) by done.
      subst rep. destruct (is_empty (strip v)) eqn:He; [done|]. cbn.
      destruct (String.eqb_spec (strip v) (strip (rl_version r))); [naive_solver|].
      by rewrite andb_false_r.
    + intros b Hb Hpb. rewrite (the_active w1 d b a1 Hok1 Hb Ha1 Hpb Hp1).
      unfold reconciled. split; [done|]. by destruct (_ || _).
Qed.
End invariant.

(** ** Witnesses *)

Module Example.

Definition releases : gmap string release :=
  {["fwr_1" := Release "0.2.14" "stable" "/fw/0.2.14.bin" "ab"]}.
Definition w0 : firmware := Firmware releases ∅ [] 0.
Definition deploy (w : firmware) : firmware :=
  (create_deployment pretty "fwr_1" "all_devices" None None false None 5 5 Devices.Example.f1 w).2.
(** Deployed twice: the second supersedes the first. *)
Definition w1 : firmware := deploy (deploy w0).

Lemma deploy_steps : rtc (fw_step pretty) w0 w1.
Proof.
  assert (NoDup (hub_members (fl_hub Devices.Example.f1))) as H by constructor.
  eapply rtc_l; [by apply fws_create|]. by apply rtc_once, fws_create.
Qed.

Lemma one_active_assignment_witness :
  length (filter (fun a => as_device_id a = "dev_a") (fw_assignments w1)) = 2 /\
  length (filter (fun a => active_for "dev_a" a = true) (fw_assignments w1)) <= 1.
Proof.
  split; [vm_compute; reflexivity|].
  exact (one_active_assignment pretty releases w1 "dev_a" deploy_steps).
Defined.

Lemma rollout_ends_on_target_version_witness :
  exists o, assignment_for_device "dev_a" w1 = Some o /\
    (firmware_assignment "dev_a" 6 w1).1 = Some o /\
    exists w2, reconcile_assignment_reported_version "dev_a" (JStr " 0.2.14 ") (JStr "healthy") 7
                 (firmware_assignment "dev_a" 6 w1).2 = Ret w2 /\
      assignment_for_device "dev_a" w2 = None.
Proof.
  destruct (assignment_for_device "dev_a" w1) as [o|] eqn:E; [|vm_compute in E; discriminate].
  exists o. split; [reflexivity|].
  destruct (rollout_ends_on_target_version pretty releases w1 "dev_a" " 0.2.14 " o (JStr "healthy") 6 7
              deploy_steps eq_refl E) as (H1 & _ & w2 & H2 & H3).
  split; [exact H1|]. exists w2. split; [exact H2|].
  destruct (decide _) as [_|Hn]; [exact (proj1 H3)|].
  exfalso. apply Hn. vm_compute in E. injection E as <-. split; vm_compute; reflexivity.
Defined.
End Example.
