(* ===== verification/DeviceConfig.v ===== *)
(** * Desired configuration ([app/services/device_config.py])

    The configuration an operator intends for a device, the drift against what
    the device reports, and the pushes: by hand, after a restore, and after a
    device came through a recovery. *)

From stdpp Require Import pretty sorting.
From S2P Require Import Prelude PyFloat EventBus Commands RuntimeSettings PowerSamples.
From S2P Require Import Devices Deployments.
Local Open Scope string_scope.
Local Open Scope list_scope.

(** The tables the device endpoints read and write. *)
Record heartbeat := Heartbeat {
  hb_device_id : string;
  hb_received_at : time;
  hb_cols : pydict
}.
Record device_event := DeviceEvent {
  de_device_id : string;
  de_type : string;
  de_at : time;
  de_details : pydict
}.
Record audit_entry := AuditEntry {
  ae_action : string;
  ae_target_id : string;
  ae_details : pydict
}.
Record plant := Plant {
  pl_fleet : fleet;
  pl_firmware : firmware;
  pl_heartbeats : list heartbeat;
  pl_samples : list power_sample;
  pl_events : list device_event;
  pl_settings : settings;
  pl_audit : list audit_entry
}.
Definition with_fleet (g : fleet -> fleet) (p : plant) : plant :=
  Plant (g (pl_fleet p)) (pl_firmware p) (pl_heartbeats p) (pl_samples p) (pl_events p)
    (pl_settings p) (pl_audit p).
Definition with_audit (a : audit_entry) (p : plant) : plant :=
  Plant (pl_fleet p) (pl_firmware p) (pl_heartbeats p) (pl_samples p) (pl_events p)
    (pl_settings p) (pl_audit p ++ [a]).
Definition plant_hub (p : plant) : hub := fl_hub (pl_fleet p).
Definition with_hub (h : hub) : plant -> plant := with_fleet (fun f => Fleet h (fl_sites f)).
Definition plant_device (id : string) (p : plant) : option device := get_device id (pl_fleet p).

(** [sorted(keys)]. *)
Definition str_le (a b : string) : Prop := String.leb a b = true.
#[export] Instance str_le_dec : RelDecision str_le.
Proof. intros a b. unfold str_le. apply _. Defined.
Definition sorted (l : list string) : list string := merge_sort str_le l.

(** ** The intent *)

Definition ALLOWED_DESIRED_CONFIG_KEYS : list string :=
  ["device_name"; "relay_restore_behavior"; "monitor_interval_seconds"; "boot_warmup_seconds";
   "manual_button_enabled"; "internet"; "device"; "notifications"; "power"].
Definition DesiredConfigError {A} (m : string) : outcome A := Raise (AppError "DesiredConfigError" m).
Definition DESIRED_MODES : list string := ["smart_plug"; "internet_watchdog"; "device_watchdog"].

(** A JSON column that holds an object, when it holds a non-empty one. *)
Definition object_col (d : device) (k : string) : option pydict :=
  match col d k with JObj (kv :: r) => Some (kv :: r) | _ => None end.

(** [get_desired_config]. *)
Definition get_desired_config (id : string) (f : fleet) : option pydict :=
  d ← get_device id f; object_col d "desired_config".

(** The checks of [set_desired_config]. *)
Definition validate_desired_config (payload : json) (desired_mode : option string) : outcome pydict :=
  match payload with
  | JObj d =>
    if negb (forallb (fun k => in_strs k ALLOWED_DESIRED_CONFIG_KEYS) (dict_keys d))
    then DesiredConfigError "unsupported keys in desired_config"
    else
      match dict_get d "device_name" with
      | None | Some JNull | Some (JStr _) =>
        if match dict_get d "device_name" with
           | Some (JStr s) => Nat.ltb 120 (String.length s)
           | _ => false
           end
        then DesiredConfigError "device_name must be 120 characters or fewer"
        else
          match desired_mode with
          | Some m => if in_strs m DESIRED_MODES then Ret d
                      else DesiredConfigError "desired_mode must be one of"
          | None => Ret d
          end
      | Some _ => DesiredConfigError "device_name must be a string"
      end
  | _ => DesiredConfigError "desired_config must be a JSON object"
  end.

(** [set_desired_config]: the stored configuration and mode, or [None] for an
    unknown device. *)
Definition set_desired_config (id : string) (payload : json) (desired_mode : option string)
    (now : time) (f : fleet) : outcome (option (pydict * json)) * fleet :=
  match validate_desired_config payload desired_mode with
  | Raise e => (Raise e, f)
  | Ret p =>
    match get_device id f with
    | None => (Ret None, f)
    | Some d =>
      let d := set_col "desired_config" (match p with [] => JNull | _ => JObj p end) d in
      let d := match desired_mode with
               | Some m => set_col "desired_mode" (if is_empty m then JNull else JStr m) d
               | None => d
               end in
      let d := set_col "updated_at" (JInt now) (set_col "desired_config_updated_at" (JInt now) d) in
      (Ret (Some (p, col d "desired_mode")), put_device id d f)
    end
  end.

(** [record_reported_config]: an empty report or one that is not an object is
    dropped, and no failure leaves the call. *)
Definition record_reported_config (id : string) (reported : json) (f : fleet) : fleet :=
  match reported with
  | JObj (_ :: _) =>
    match get_device id f with
    | None => f
    | Some d => put_device id (set_col "last_reported_config" reported d) f
    end
  | _ => f
  end.

(** ** Drift *)

Record drift := Drift {
  dr_in_sync : bool;
  dr_missing : list string;
  dr_mismatch : list (string * json * json);       (* field, desired, actual *)
  dr_extra : list string
}.

(** The comparison of two non-empty configurations. *)
Definition diff_config (desired reported : pydict) : drift :=
  let missing := filter (fun k => dict_has reported k = false) (dict_keys desired) in
  let mismatch := omap (fun kv : string * json =>
    match dict_get reported kv.1 with
    | Some got => if py_eq got kv.2 then None else Some (kv.1, kv.2, got)
    | None => None
    end) desired in
  let extra := filter (fun k => dict_has desired k = false) (dict_keys reported) in
  Drift (match missing, mismatch with [], [] => true | _, _ => false end)
    (sorted missing) mismatch (sorted extra).

(** [compute_drift]. *)
Definition compute_drift (id : string) (f : fleet) : drift :=
  match get_device id f with
  | None => Drift false [] [] []
  | Some d =>
    match object_col d "desired_config", object_col d "last_reported_config" with
    | None, _ => Drift true [] [] []
    | Some desired, None => Drift false (sorted (dict_keys desired)) [] []
    | Some desired, Some reported => diff_config desired reported
    end
  end.

(** ** Pushes *)

Inductive push_result :=
  | NotEnqueued (reason : string)
  | Enqueued (command_id : string).

Definition PUSH_SOURCES : list string := ["restore"; "manual"; "drift_repair"].

Section push.
Context (ulid : nat -> string) (environ : string -> option string) (py_repr : json -> string).

(** [push_desired_config]: [n1], [n2] are the readings of the queue and [n3]
    that of the stamp. *)
Definition push_desired_config (id source : string) (issued_by : option string)
    (n1 n2 n3 : time) (p : plant) : outcome push_result * plant :=
  if negb (in_strs source PUSH_SOURCES) then (DesiredConfigError "source must be one of", p)
  else
    match plant_device id p with
    | None => (Ret (NotEnqueued "device not found"), p)
    | Some d =>
      if negb (truthy (col d "central_management_enabled"))
      then (Ret (NotEnqueued "central management disabled"), p)
      else
        match object_col d "desired_config" with
        | None => (Ret (NotEnqueued "no desired_config set"), p)
        | Some payload =>
          let '(r, h) := enqueue_for_device ulid id "apply_config" (Some payload) issued_by
                           (Some 600%Z) None false false n1 n2 (plant_hub p) in
          let p := with_hub h p in
          match r with
          | Raise e => (Ret (NotEnqueued (exn_str e)), p)
          | Ret cmd =>
            (Ret (Enqueued (cmd_id cmd)),
             match plant_device id p with
             | Some d => with_fleet (put_device id (set_col "last_config_pushed_at" (JInt n3) d)) p
             | None => p
             end)
          end
        end
    end.

(** [is_feature_enabled]. *)
Definition is_feature_enabled (t : settings) : outcome bool :=
  v ← setting_get environ "desired_config.enabled" None JNull t;
  Ret (in_strs (lower (strip (py_str py_repr (jor v (JStr empty_str))))) ["1"; "true"; "yes"; "on"]).

(** [maybe_push_after_recovery]: whether a command was queued; no failure
    leaves the call. *)
Definition maybe_push_after_recovery (id trigger : string) (n1 n2 n3 : time) (p : plant)
    : bool * plant :=
  match get_desired_config id (pl_fleet p) with
  | None => (false, p)
  | Some cfg =>
    match is_feature_enabled (pl_settings p) with
    | Ret true =>
      match push_desired_config id "restore" None n1 n2 n3 p with
      | (Ret (Enqueued cid), p') =>
        (true, with_audit (AuditEntry "device.recovery_config_pushed" id
                 [("trigger", JStr trigger); ("command_id", JStr cid);
                  ("pushed_fields", JList (JStr <$> sorted (dict_keys cfg)))]) p')
      | (_, p') => (false, p')
      end
    | _ => (false, p)
    end
  end.
End push.
