(* ===== verification/Heartbeats.v ===== *)
(** * Heartbeats ([app/services/heartbeats.py])

    What one heartbeat does: contact and hot columns of the device, the history
    row, a reboot event, the firmware report, the power summary, the state event
    of the browsers, and the configuration pushed again after a recovery. *)

From stdpp Require Import pretty.
From S2P Require Import Prelude PyFloat EventBus Commands RuntimeSettings PowerSamples.
From S2P Require Import Devices Deployments DeviceConfig.
Local Open Scope string_scope.
Local Open Scope list_scope.

Definition HEARTBEAT_STATUS_FIELDS : list string :=
  ["wifi_rssi_dbm"; "recovery_mode"; "auto_recovery_triggered"; "last_known_good_restored";
   "consecutive_unhealthy_boots"; "in_captive_portal"; "holdoff_remaining_seconds";
   "cooldown_remaining_seconds"; "central_enabled"; "central_registered"; "central_state";
   "central_device_id"; "central_heartbeat_age_seconds"; "power_analytics_enabled";
   "power_chip_type"; "power_sample_rate_hz"; "power_batch_seconds"].
Definition DEVICE_HOT_FIELDS : list string :=
  ["recovery_mode"; "auto_recovery_triggered"; "last_known_good_restored";
   "consecutive_unhealthy_boots"; "in_captive_portal"; "central_enabled"; "central_registered";
   "central_state"].
(** The fields [DeviceHeartbeat(...)] copies. *)
Definition HEARTBEAT_BASE_FIELDS : list string :=
  ["firmware_version"; "local_ip"; "mode"; "relay_on"; "wifi_connected"; "health_state";
   "uptime_seconds"; "incident_cycles"; "hour_cycles"; "last_event_type"].

Definition reported (k : string) : string := String.append "reported_" k.

(** A non-empty list. *)
Definition full_list (v : json) : option (list json) :=
  match v with JList (x :: r) => Some (x :: r) | _ => None end.

Section heartbeats.
Context `{Clock : IsoClock}.
Context (ulid : nat -> string) (environ : string -> option string) (py_repr : json -> string).
(** What the flush accepts: a row of each table with its column types. *)
Context (db_accepts : device -> bool) (hb_accepts : heartbeat -> bool)
        (sample_accepts : power_sample -> bool).

(** [last_event_at]: an unreadable text is dropped, a value without [replace]
    raises. *)
Definition last_event_dt (payload : pydict) : outcome (option time) :=
  match dget payload "last_event_at" with
  | JStr s => Ret (if is_empty s then None else fromisoformat (replace_z s))
  | v => if truthy v then Raise (AttributeError "replace") else Ret None
  end.

(** [device.local_ip = payload["local_ip"]]; the flush refuses another type. *)
Definition report_ip (payload : pydict) (d : device) : outcome device :=
  match dget payload "local_ip" with
  | JStr s => Ret (if is_empty s then d else set_local_ip (Some s) d)
  | v => if truthy v then Raise (DBError "local_ip") else Ret d
  end.

(** The columns every heartbeat touches, before the reports. *)
Definition contact (payload : pydict) (now : time) (d : device) : device :=
  let d := set_col "last_seen_at" (JInt now) (set_col "last_heartbeat_at" (JInt now) d) in
  let d := set_col "last_known_relay_on" JNull d in
  let d := if truthy (dget payload "firmware_version")
           then set_col "firmware_version" (dget payload "firmware_version") d else d in
  match full_list (dget payload "wifi_scan") with
  | Some _ => set_col "last_wifi_scan_at" (JInt now)
                (set_col "last_wifi_scan" (dget payload "wifi_scan") d)
  | None => d
  end.

(** The history row. *)
Definition heartbeat_row (id : string) (payload : pydict) (last_event : option time) (now : time)
    : heartbeat :=
  Heartbeat id now
    (((fun k => (k, dget payload k)) <$> HEARTBEAT_BASE_FIELDS) ++
     [("last_event_at", match last_event with Some t => JInt t | None => JNull end)] ++
     omap (fun k => (fun v => (k, v)) <$> dict_get payload k) HEARTBEAT_STATUS_FIELDS ++
     match full_list (dget payload "heap_trajectory") with
     | Some l => [("heap_trajectory", JList l)]
     | None => []
     end).

(** [traj[-1].get(k)]. *)
Definition last_heap (payload : pydict) (k : string) : json :=
  match full_list (dget payload "heap_trajectory") with
  | Some l => match last l with Some (JObj d) => dget d k | _ => JNull end
  | None => JNull
  end.

(** [_state_event]. *)
Definition state_event (id : string) (payload : pydict) (d : device) (now : time) : hub_event :=
  DeviceStateChanged id
    [("kind", JStr "device_state_changed"); ("device_id", JStr id);
     ("local_ip", ojson (dev_local_ip d));
     ("latest_relay_on", if dict_has payload "relay_on"
                         then JBool (truthy (dget payload "relay_on")) else JNull);
     ("uptime_seconds", dget payload "uptime_seconds");
     ("health_state", dget payload "health_state");
     ("wifi_rssi_dbm", dget payload "wifi_rssi_dbm");
     ("free_heap", last_heap payload "fh"); ("max_free_block", last_heap payload "mfb");
     ("heap_fragmentation_pct", last_heap payload "fp");
     ("source", JStr "heartbeat"); ("ts", JStr (isoformat now))].

(** [latest_heartbeat]. *)
Definition latest_heartbeat (id : string) (p : plant) : option heartbeat :=
  head (order_by_desc hb_received_at (filter (fun h => hb_device_id h = id) (pl_heartbeats p))).

(** The uptime of the previous heartbeat. *)
Definition prior_uptime (id : string) (p : plant) : option Z :=
  h ← latest_heartbeat id p; as_int (dget (hb_cols h) "uptime_seconds").

(** The [device.rebooted] event, when the uptime went backwards. *)
Definition reboot_events (id : string) (payload : pydict) (now : time) (p : plant)
    : list device_event :=
  match prior_uptime id p, as_int (dget payload "uptime_seconds") with
  | Some prior, Some uptime =>
    if (uptime <? prior)%Z then
      [DeviceEvent id "device.rebooted" now
         [("prior_uptime_seconds", JInt prior); ("new_uptime_seconds", JInt uptime);
          ("reset_reason", jor (dget payload "reset_reason") (JStr "unknown"));
          ("last_planned_restart_reason",
             jor (dget payload "last_planned_restart_reason") (JStr empty_str))]]
    else []
  | _, _ => []
  end.

(** [if field in payload: setattr(device, "reported_" + field, ...)]. *)
Definition refresh_hot (payload : pydict) (d : device) : device :=
  foldl (fun d k => match dict_get payload k with
                    | Some v => set_col (reported k) v d
                    | None => d
                    end) d DEVICE_HOT_FIELDS.

Definition is_true (v : json) : bool := bool_decide (v = JBool true).
Definition is_false (v : json) : bool := bool_decide (v = JBool false).

(** [recovery_trigger], from the columns before and after. *)
Definition recovery_trigger (before after : device) : option string :=
  if negb (is_true (col before "reported_last_known_good_restored")) &&
     is_true (col after "reported_last_known_good_restored")
  then Some "last_known_good_restored"
  else if is_true (col before "reported_recovery_mode") &&
          is_false (col after "reported_recovery_mode")
  then Some "recovery_exit"
  else None.

(** The echoed configuration. *)
Definition echo_config (payload : pydict) (d : device) : device :=
  match dget payload "reported_config" with
  | JObj c => set_col "last_reported_config" (JObj c) d
  | _ => d
  end.

(** [ingest_power_summary]: its exceptions are caught, a refused row is not. *)
Definition power_rows (id : string) (payload : pydict) (now : time) : list power_sample :=
  match dget payload "power" with
  | JObj s => match power_summary_row py_repr id (JObj s) now with Ret (Some r) => [r] | _ => [] end
  | _ => []
  end.

(** The transaction: the trigger and the event for after the commit. *)
Definition heartbeat_txn (id : string) (payload : pydict) (last_event : option time) (now : time)
    (p : plant) : outcome (option string * hub_event) * plant :=
  match plant_device id p with
  | None => (Raise (LookupError id), p)
  | Some d =>
    let hb := heartbeat_row id payload last_event now in
    let rows := power_rows id payload now in
    match d1 ← report_ip payload (contact payload now d);
          fw ← reconcile_assignment_reported_version id (dget payload "firmware_version")
                 (dget payload "health_state") now (pl_firmware p);
          Ret (d1, fw) with
    | Raise e => (Raise e, p)
    | Ret (d1, fw) =>
      let d2 := refresh_hot payload d1 in
      let d3 := echo_config payload d2 in
      if db_accepts d3 && hb_accepts hb && forallb sample_accepts rows then
        (Ret (recovery_trigger d1 d2, state_event id payload d1 now),
         Plant (put_device id d3 (pl_fleet p)) fw (pl_heartbeats p ++ [hb]) (pl_samples p ++ rows)
           (pl_events p ++ reboot_events id payload now p) (pl_settings p) (pl_audit p))
      else (Raise (DBError "heartbeat"), p)
    end
  end.

(** [record_heartbeat]. *)
Definition record_heartbeat (id : string) (payload : pydict) (now n1 n2 n3 : time) (p : plant)
    : outcome unit * plant :=
  match last_event_dt payload with
  | Raise e => (Raise e, p)
  | Ret last_event =>
    match session_scope (heartbeat_txn id payload last_event now) p with
    | (Raise e, p) => (Raise e, p)
    | (Ret (trigger, ev), p) =>
      let p := match trigger with
               | Some t => (maybe_push_after_recovery ulid environ py_repr id t n1 n2 n3 p).2
               | None => p
               end in
      (Ret tt, with_hub (with_bus (publish ev) (plant_hub p)) p)
    end
  end.
End heartbeats.
