(* ===== verification/DeviceApi.v ===== *)
(** * The device endpoints ([app/blueprints/device_api.py])

    [/device/heartbeat], [/device/commands] with its long poll,
    [/device/command-result] and [/device/firmware], over the services they
    call.  The authenticated device's id is an argument.

    Then what a device can rely on: a long poll ends, and early when a command appears; a
    heartbeat changes its own device only and never forgets what a device reported before; a
    device that leaves its recovery is handed the operator's configuration in the answer of
    the same heartbeat. *)

From Stdlib Require Import Ascii.
From stdpp Require Import pretty.
From S2P Require Import Prelude PyFloat EventBus Commands PowerSamples RuntimeSettings Devices Deployments DeviceConfig.
From S2P Require Import Heartbeats.
Local Open Scope string_scope.
Local Open Scope list_scope.

Definition LONG_POLL_MAX_WAIT_SECONDS : Z := 30.
Definition LONG_POLL_CHECK_INTERVAL : Z := seconds 1.
Definition POST_PIGGYBACK_GRACE_S : Z := 10.

(** ** [Prefer: wait=n] *)

(** [s.strip(q)] of the quote character. *)
Definition quote_char : ascii := Ascii.ascii_of_nat 34.
Fixpoint lstrip_quotes (s : string) : string :=
  match s with
  | String a r => if Ascii.eqb a quote_char then lstrip_quotes r else s
  | EmptyString => EmptyString
  end.
Definition strip_quotes (s : string) : string :=
  rev_str (lstrip_quotes (rev_str (lstrip_quotes s))).

(** The value of the first [wait=] preference. *)
Fixpoint first_wait (tokens : list string) : Z :=
  match tokens with
  | [] => 0
  | t :: rest =>
    let t := lower (strip t) in
    if startswith "wait=" t then
      let value := strip_quotes (strip (String.substring 5 (String.length t - 5) t)) in
      match parse_int value with
      | None => 0
      | Some n => if (n <? 0)%Z then 0%Z else Z.min n LONG_POLL_MAX_WAIT_SECONDS
      end
    else first_wait rest
  end.
(** [_parse_prefer_wait]. *)
Definition parse_prefer_wait (header : option string) : Z :=
  match header with
  | None => 0
  | Some h => if is_empty h then 0%Z else first_wait (split_on ","%char h)
  end.

(** ** [GET /device/commands] *)

(** The commands of the answer and the [Preference-Applied] header. *)
Record poll_answer := PollAnswer {
  pa_commands : list command;
  pa_applied : option Z
}.
Definition applied_header (wait : Z) : option Z := if (wait <=? 0)%Z then None else Some wait.

Section poll.
(** [mono k] is the monotonic clock when the [k]-th test of the loop reads it,
    [wall k] the wall clock of the [k]-th query, and [others k] what other
    requests do to the hub during the [k]-th sleep. *)
Context (mono wall : nat -> Z) (others : nat -> hub -> hub).

Definition poll_query (id : string) (k : nat) (h : hub) : list command * hub :=
  list_pending_for_device id true (Some POST_PIGGYBACK_GRACE_S) (wall k) h.

(** [while time.monotonic() < deadline]: the commands found, the hub and the
    number of sleeps.  [None] is a loop that has not ended with this fuel. *)
Fixpoint poll_loop (fuel : nat) (k : nat) (id : string) (deadline : Z) (h : hub)
    : option (list command * hub * nat) :=
  match fuel with
  | O => None
  | S fuel =>
    if (mono k <? deadline)%Z then
      let '(cmds, h) := poll_query id (S k) (others k h) in
      match cmds with
      | [] => poll_loop fuel (S k) id deadline h
      | _ => Some (cmds, h, S k)
      end
    else Some ([], h, k)
  end.

(** [poll_commands]; [start] is the clock when the deadline is computed. *)
Definition poll_commands (fuel : nat) (id : string) (body_id : option string)
    (long_poll_disabled : bool) (prefer : option string) (start : Z) (h : hub)
    : option (outcome poll_answer * hub) :=
  if truthy_str body_id && negb (bool_decide (body_id = Some id))
  then Some (Raise (AppError "device_mismatch" "400"), h)
  else
    let wait := if long_poll_disabled then 0%Z else parse_prefer_wait prefer in
    let '(cmds, h) := poll_query id 0 h in
    match cmds with
    | _ :: _ => Some (Ret (PollAnswer cmds (applied_header wait)), h)
    | [] =>
      if (wait <=? 0)%Z then Some (Ret (PollAnswer [] None), h)
      else
        '(cmds, h, _) ← poll_loop fuel 0 id (start + seconds wait) h;
        Some (Ret (PollAnswer cmds (applied_header wait)), h)
    end.
End poll.

(** ** [POST /device/heartbeat] *)

Section heartbeat.
Context `{Clock : IsoClock}.
Context (ulid : nat -> string) (environ : string -> option string) (py_repr : json -> string).
Context (db_accepts : device -> bool) (hb_accepts : heartbeat -> bool)
        (sample_accepts : power_sample -> bool).

Record heartbeat_answer := HeartbeatAnswer {
  ha_next_poll : Z;
  ha_next_heartbeat : Z;
  ha_commands : list command
}.

(** [body_id and body_id != device.id]. *)
Definition mismatched (id : string) (payload : pydict) : bool :=
  let v := dget payload "device_id" in truthy v && negb (jeqs v id).

(** [idle_poll] of the configured interval. *)
Definition next_poll (configured : Z) (cmds : list command) : Z :=
  match cmds with
  | [] => if (configured =? 30)%Z then 300%Z else configured
  | _ => 2%Z
  end.

(** [heartbeat]: [n4] is the clock of the piggyback query. *)
Definition heartbeat_route (id : string) (payload : pydict) (poll_interval heartbeat_interval : Z)
    (now n1 n2 n3 n4 : time) (p : plant) : outcome heartbeat_answer * plant :=
  if mismatched id payload then (Raise (AppError "device_mismatch" "400"), p)
  else
    match record_heartbeat ulid environ py_repr db_accepts hb_accepts sample_accepts id payload
            now n1 n2 n3 p with
    | (Raise (LookupError _), p) => (Raise (AppError "device_unknown" "404"), p)
    | (Raise e, p) => (Raise e, p)
    | (Ret _, p) =>
      let '(cmds, h) := list_pending_for_device id true (Some POST_PIGGYBACK_GRACE_S) n4 (plant_hub p) in
      (Ret (HeartbeatAnswer (next_poll poll_interval cmds) heartbeat_interval cmds), with_hub h p)
    end.
End heartbeat.

(** ** [POST /device/command-result] *)

(** [command_result]: an unreadable [completed_at] counts as absent.  The fields
    are read as the columns want them: a result that is not an object is outside
    this model. *)
Definition command_result_route `{IsoClock} (ulid : nat -> string) (id : string) (body : pydict)
    (now now2 now3 : time) (h : hub) : outcome command_result * hub :=
  let cid := dget body "command_id" in
  let st := dget body "status" in
  if mismatched id body then (Raise (AppError "device_mismatch" "400"), h)
  else if negb (truthy cid && truthy st) then (Raise (AppError "validation_failed" "400"), h)
  else
    match last_event_dt [("last_event_at", dget body "completed_at")] with
    | Raise e => (Raise e, h)
    | Ret completed =>
      match st, cid with
      | JStr st, JStr cid =>
        match record_result ulid id cid st (as_str (dget body "message"))
                (as_dict (dget body "result")) completed now now2 now3 h with
        | (Raise (LookupError _), h) => (Raise (AppError "command_unknown" "404"), h)
        | (Raise (ValueError _), h) => (Raise (AppError "validation_failed" "400"), h)
        | r => r
        end
      | (JList _ | JObj _), _ => (Raise (TypeError "unhashable type"), h)
      | JStr s, _ => if bool_decide (is_Some (result_status s)) then (Raise (DBError "commands.id"), h)
                     else (Raise (AppError "validation_failed" "400"), h)
      | _, _ => (Raise (AppError "validation_failed" "400"), h)
      end
    end.

(** ** The long poll *)

Lemma first_wait_bounds tokens : (0 <= first_wait tokens <= LONG_POLL_MAX_WAIT_SECONDS)%Z.
Proof.
  induction tokens as [|t r IH]; cbn; [unfold LONG_POLL_MAX_WAIT_SECONDS; lia|].
  destruct (startswith _ _); [|done]. destruct (parse_int _) as [n|].
  - destruct (Z.ltb_spec n 0); unfold LONG_POLL_MAX_WAIT_SECONDS; lia.
  - unfold LONG_POLL_MAX_WAIT_SECONDS; lia.
Qed.
Lemma prefer_wait_bounds header :
  (0 <= parse_prefer_wait header <= LONG_POLL_MAX_WAIT_SECONDS)%Z.
Proof.
  unfold parse_prefer_wait. destruct header as [h|]; [|unfold LONG_POLL_MAX_WAIT_SECONDS; lia].
  destruct (is_empty h); [unfold LONG_POLL_MAX_WAIT_SECONDS; lia|]. apply first_wait_bounds.
Qed.

(** A command handed to [id]: it is addressed to it, live and marked. *)
Definition handed_to (id : string) (c : command) : Prop :=
  cmd_device_id c = id /\ live_status (cmd_state c) = true /\ cmd_state c <> Pending.

Lemma listed_handed id grace now h c :
  c ∈ (list_pending_for_device id true grace now h).1 -> handed_to id c.
Proof.
  unfold list_pending_for_device. cbn. intros (c0 & -> & Hin)%list_elem_of_fmap.
  rewrite order_by_perm in Hin. apply list_elem_of_filter in Hin as [Hd _].
  unfold deliverable in Hd. bool_to_prop. unfold handed_to, mark_delivered. by case_decide.
Qed.

Section poll.
Context (mono wall : nat -> Z) (others : nat -> hub -> hub).
(** [time.sleep(1.0)] lasts a second at least and the clock is monotonic. *)
Hypothesis sleeps : forall k, (mono k + LONG_POLL_CHECK_INTERVAL <= mono (S k))%Z.

Lemma poll_loop_ends id deadline f : forall fuel k h,
  S f <= fuel -> (deadline <= mono k + seconds (Z.of_nat f))%Z ->
  exists cmds h' n, poll_loop mono wall others fuel k id deadline h = Some (cmds, h', n) /\
    n <= k + f /\ Forall (handed_to id) cmds /\
    (cmds = [] -> (deadline <= mono n)%Z).
Proof.
  induction f as [|f IH]; intros [|fuel] k h Hf Hd; try lia; cbn [poll_loop].
  - destruct (Z.ltb_spec (mono k) deadline); [unfold seconds in Hd; lia|].
    exists [], h, k. split_and!; [done|lia|done|done].
  - destruct (Z.ltb_spec (mono k) deadline).
    2:{ exists [], h, k. split_and!; [done|lia|done|done]. }
    unfold poll_query.
    destruct (list_pending_for_device _ _ _ _ _) as [[|c cmds] h'] eqn:E.
    + destruct (IH fuel (S k) h') as (cs & h2 & n & Hl & Hn & Hc & Hnil); [lia| |].
      { specialize (sleeps k). unfold LONG_POLL_CHECK_INTERVAL, seconds in *. lia. }
      exists cs, h2, n. split_and!; [done|lia|done|done].
    + exists (c :: cmds), h', (S k). split_and!; [done|lia| |done].
      apply Forall_forall. intros x Hx. apply (listed_handed id (Some POST_PIGGYBACK_GRACE_S)
        (wall (S k)) (others k h)). by rewrite E.
Qed.

(** C36. A long poll ends.  Whatever the header asks for, 31 tests of the loop
    are enough (the wait is clamped to 30 seconds and a sleep lasts one), so a
    worker thread is never held longer.  The only error is the mismatched id,
    which leaves the queue alone; the commands of the answer are the device's
    own, live and marked as delivered; and an empty answer to a wait of [n]
    seconds comes only when [n] seconds have passed. *)
Theorem long_poll_terminates (fuel : nat) (id : string) (body_id : option string) (disabled : bool)
    (prefer : option string) (start : Z) (h : hub) :
  31 <= fuel -> (start <= mono 0)%Z ->
  exists r h', poll_commands mono wall others fuel id body_id disabled prefer start h = Some (r, h') /\
    match r with
    | Raise _ => h' = h /\ truthy_str body_id = true /\ body_id <> Some id
    | Ret a => Forall (handed_to id) (pa_commands a) /\
        (forall n, pa_applied a = Some n -> (1 <= n <= 30)%Z /\
           (pa_commands a = [] -> exists k, k <= 30 /\ (start + seconds n <= mono k)%Z))
    end.
Proof.
  intros Hf Hs. unfold poll_commands. destruct (truthy_str body_id && _) eqn:E.
  { exists (Raise (AppError "device_mismatch" "400")), h. bool_to_prop.
    apply bool_decide_eq_false in H0. done. }
  set (wait := if disabled then 0%Z else parse_prefer_wait prefer).
  assert (0 <= wait <= 30)%Z as Hw.
  { subst wait. pose proof (prefer_wait_bounds prefer). unfold LONG_POLL_MAX_WAIT_SECONDS in *.
    destruct disabled; lia. }
  clearbody wait. clear E. unfold poll_query.
  destruct (list_pending_for_device _ _ _ _ _) as [[|c cmds] h'] eqn:E.
  - destruct (Z.leb_spec wait 0).
    { exists (Ret (PollAnswer [] None)), h'. split; [done|]. split; [constructor|done]. }
    destruct (poll_loop_ends id (start + seconds wait) (Z.to_nat wait) fuel 0 h')
      as (cs & h2 & n & -> & Hn & Hc & Hnil).
    { lia. } { rewrite Z2Nat.id by lia. lia. }
    eexists _, h2. split; [done|]. cbn. split; [done|]. intros m Hm.
    unfold applied_header in Hm. destruct (Z.leb_spec wait 0); simplify_eq.
    split; [lia|]. intros Hnil'. exists n. split; [lia|auto].
  - eexists _, h'. split; [done|]. cbn [pa_commands pa_applied]. split.
    + apply Forall_forall. intros x Hx. apply (listed_handed id (Some POST_PIGGYBACK_GRACE_S)
        (wall 0) h). by rewrite E.
    + intros m Hm. unfold applied_header in Hm. destruct (Z.leb_spec wait 0); simplify_eq.
      split; [lia|done].
Qed.
End poll.

(** ** Columns a heartbeat writes *)

Lemma col_set k v d : col (set_col k v d) k = v.
Proof. unfold col; cbn. by rewrite lookup_insert_eq. Qed.
Lemma col_set_ne k k' v d : k <> k' -> col (set_col k v d) k' = col d k'.
Proof. intros H. unfold col; cbn. by rewrite lookup_insert_ne. Qed.
Lemma reported_inj a b : reported a = reported b -> a = b.
Proof. unfold reported. cbn. by intros [=]. Qed.

(** The fold over the hot fields: each is what the payload says, or what it was. *)
Lemma refresh_fold payload l : forall d k, NoDup l -> k ∈ l ->
  col (foldl (fun d k => match dict_get payload k with
                         | Some v => set_col (reported k) v d
                         | None => d
                         end) d l) (reported k) =
  default (col d (reported k)) (dict_get payload k).
Proof.
  assert (forall l d k, k ∉ l ->
    col (foldl (fun d k => match dict_get payload k with
                           | Some v => set_col (reported k) v d
                           | None => d
                           end) d l) (reported k) = col d (reported k)) as Hout.
  { clear l. induction l as [|x l IH]; intros d k Hk; [done|]. cbn [foldl].
    rewrite IH by set_solver. case_match; [|done]. apply col_set_ne.
    intros ->%reported_inj. set_solver. }
  induction l as [|x l IH]; intros d k Hnd Hk; [set_solver|]. inversion Hnd; subst. cbn [foldl].
  apply elem_of_cons in Hk as [->|Hk].
  - rewrite Hout by done. destruct (dict_get payload x) eqn:E; cbn; [apply col_set|done].
  - rewrite IH by done. assert (x <> k) by (by intros ->).
    destruct (dict_get payload x); [|done]. rewrite col_set_ne; [done|]. by intros ?%reported_inj.
Qed.

Lemma hot_fields_nodup : NoDup DEVICE_HOT_FIELDS.
Proof. apply (bool_decide_unpack _). vm_compute. exact I. Qed.

(** Nothing else of the row moves. *)
Lemma refresh_other payload d k : (forall f, k <> reported f) -> col (refresh_hot payload d) k = col d k.
Proof.
  intros Hk. unfold refresh_hot. generalize DEVICE_HOT_FIELDS. intros l. revert d.
  induction l as [|x l IH]; intros d; [done|]. cbn [foldl]. rewrite IH. case_match; [|done].
  by rewrite col_set_ne.
Qed.

Lemma contact_reported payload now d k : col (contact payload now d) (reported k) = col d (reported k).
Proof.
  unfold contact. repeat case_match; rewrite ?col_set_ne by done; done.
Qed.
(** The columns [contact] writes. *)
Definition CONTACT_COLUMNS : list string :=
  ["last_seen_at"; "last_heartbeat_at"; "last_known_relay_on"; "firmware_version";
   "last_wifi_scan"; "last_wifi_scan_at"].
Lemma contact_col payload now d k : in_strs k CONTACT_COLUMNS = false ->
  col (contact payload now d) k = col d k.
Proof.
  intros Hk. assert (k ∉ CONTACT_COLUMNS) as Hn by (by rewrite <- in_strs_spec, Hk).
  unfold CONTACT_COLUMNS in Hn. unfold contact.
  repeat case_match; rewrite ?col_set_ne by set_solver; done.
Qed.
Lemma contact_seen payload now d :
  col (contact payload now d) "last_seen_at" = JInt now /\
  col (contact payload now d) "last_heartbeat_at" = JInt now.
Proof.
  unfold contact. repeat case_match; rewrite ?col_set_ne by done; split;
    rewrite ?col_set, ?col_set_ne by done; rewrite ?col_set; done.
Qed.

Lemma report_ip_col payload d d' k : report_ip payload d = Ret d' -> col d' k = col d k.
Proof.
  unfold report_ip. intros H. repeat case_match; simplify_eq; done.
Qed.
Lemma echo_col payload d k : k <> "last_reported_config" -> col (echo_config payload d) k = col d k.
Proof. intros H. unfold echo_config. case_match; rewrite ?col_set_ne by done; done. Qed.

(** ** The push *)

Section push.
Context `{Clock : IsoClock} (ulid : nat -> string) `{!Inj (=) (=) ulid}.
Context (environ : string -> option string) (py_repr : json -> string).

(** An accepted [apply_config] call, spelled out. *)
Lemma apply_config_ret id cfg pl u n1 n2 h d :
  validate_payload "apply_config" (Some cfg) = Ret pl -> hub_devices h !! id = Some d ->
  let cmd := fresh_command ulid (hub_next h) id None u "apply_config" pl (n1 + seconds 600)%Z n2 in
  enqueue_for_device ulid id "apply_config" (Some cfg) u (Some 600%Z) None false false n1 n2 h =
  (Ret cmd, with_bus (publish (CommandQueued (cmd_id cmd) id (dev_local_ip d) "apply_config" pl n2))
              (insert_command cmd (with_devices (insert id d) h))).
Proof.
  intros Hv Hd. unfold enqueue_for_device, session_scope, enqueue_txn.
  rewrite Hv, Hd. reflexivity.
Qed.

(** A push stamps the pushed device and touches the queue; the other tables stay. *)
Definition stamped (d d' : device) : Prop := d' = d \/ exists t, d' = set_col "last_config_pushed_at" (JInt t) d.
Definition pushed_from (id : string) (d : device) (p p' : plant) : Prop :=
  (exists d', plant_device id p' = Some d' /\ stamped d d') /\
  (forall id', id' <> id -> plant_device id' p' = plant_device id' p) /\
  pl_heartbeats p' = pl_heartbeats p /\ pl_samples p' = pl_samples p /\ pl_events p' = pl_events p /\
  pl_firmware p' = pl_firmware p.
Lemma pushed_from_refl id d p : plant_device id p = Some d -> pushed_from id d p p.
Proof. intros Hd. split_and!; try done. exists d. split; [done|by left]. Qed.
Lemma push_frame id source u n1 n2 n3 p d :
  plant_device id p = Some d -> pushed_from id d p (push_desired_config ulid id source u n1 n2 n3 p).2.
Proof.
  intros Hd. pose proof (pushed_from_refl id d p Hd) as Hsame.
  unfold push_desired_config. destruct (negb _); [done|]. rewrite Hd. destruct (negb _); [done|].
  destruct (object_col d _) as [cfg|]; [|done].
  destruct (validate_payload "apply_config" (Some cfg)) as [pl|e] eqn:Hv.
  2:{ unfold enqueue_for_device. rewrite Hv. cbn. split_and!; try done. exists d. split; [done|by left]. }
  unfold plant_hub. rewrite (apply_config_ret id cfg pl u n1 n2 _ d Hv Hd). cbn.
  unfold plant_device, get_device in *. cbn. rewrite lookup_insert_eq. cbn.
  unfold pushed_from, plant_device, get_device; cbn. split_and!; try done.
  - exists (set_col "last_config_pushed_at" (JInt n3) d). rewrite lookup_insert_eq. split; [done|]. right. by exists n3.
  - intros id' Hne. by rewrite !lookup_insert_ne by done.
Qed.

Lemma maybe_push_frame id t n1 n2 n3 p d :
  plant_device id p = Some d ->
  pushed_from id d p (maybe_push_after_recovery ulid environ py_repr id t n1 n2 n3 p).2.
Proof.
  intros Hd. pose proof (push_frame id "restore" None n1 n2 n3 p d Hd) as Hp.
  pose proof (pushed_from_refl id d p Hd) as Hsame. unfold maybe_push_after_recovery.
  destruct (get_desired_config _ _); [|done]. destruct (is_feature_enabled _ _ _) as [[]|]; [|done..].
  destruct (push_desired_config _ _ _ _ _ _ _ _) as [[[]|] p']; exact Hp.
Qed.
End push.

(** ** One heartbeat *)

Section heartbeat.
Context `{Clock : IsoClock} (ulid : nat -> string) `{!Inj (=) (=) ulid}.
Context (environ : string -> option string) (py_repr : json -> string).
Context (db_accepts : device -> bool) (hb_accepts : heartbeat -> bool)
        (sample_accepts : power_sample -> bool).

(** What a committed heartbeat transaction did. *)
Lemma heartbeat_txn_ret id payload le now p t ev p1 :
  heartbeat_txn py_repr db_accepts hb_accepts sample_accepts id payload le now p = (Ret (t, ev), p1) ->
  exists d d1 fw, plant_device id p = Some d /\ report_ip payload (contact payload now d) = Ret d1 /\
    reconcile_assignment_reported_version id (dget payload "firmware_version") (dget payload "health_state") now
      (pl_firmware p) = Ret fw /\
    let d2 := refresh_hot payload d1 in
    t = recovery_trigger d1 d2 /\ ev = state_event id payload d1 now /\
    p1 = Plant (put_device id (echo_config payload d2) (pl_fleet p)) fw
           (pl_heartbeats p ++ [heartbeat_row id payload le now])
           (pl_samples p ++ power_rows py_repr id payload now)
           (pl_events p ++ reboot_events id payload now p) (pl_settings p) (pl_audit p).
Proof.
  unfold heartbeat_txn. destruct (plant_device id p) as [d|]; [|done].
  destruct (d1 ← _; _) as [[d1 fw]|e] eqn:E; [|done].
  apply bind_ret in E as (x & Hx & E). apply bind_ret in E as (y & Hy & E). simplify_eq.
  destruct (_ && _); [|done]. intros; simplify_eq. by exists d, d1, fw.
Qed.

(** The row a heartbeat leaves, column by column. *)
Lemma final_col payload now d d1 k :
  report_ip payload (contact payload now d) = Ret d1 -> k <> "last_reported_config" ->
  (forall f, k <> reported f) ->
  col (echo_config payload (refresh_hot payload d1)) k = col (contact payload now d) k.
Proof. intros H1 H2 H3. by rewrite echo_col, refresh_other, (report_ip_col payload _ d1 k H1). Qed.

Lemma final_hot payload now d d1 k :
  report_ip payload (contact payload now d) = Ret d1 -> k ∈ DEVICE_HOT_FIELDS ->
  col (refresh_hot payload d1) (reported k) = default (col d (reported k)) (dict_get payload k) /\
  col d1 (reported k) = col d (reported k).
Proof.
  intros H Hk. assert (col d1 (reported k) = col d (reported k)) as E
    by (by rewrite (report_ip_col payload _ d1 _ H), contact_reported).
  split; [|done]. unfold refresh_hot. by rewrite (refresh_fold payload _ d1 k hot_fields_nodup Hk), E.
Qed.

(** The two edges of a recovery, between what was known and what is reported. *)
Definition recovery_edge (payload : pydict) (d : device) : Prop :=
  (col d "reported_last_known_good_restored" <> JBool true /\
   dict_get payload "last_known_good_restored" = Some (JBool true)) \/
  (col d "reported_recovery_mode" = JBool true /\
   dict_get payload "recovery_mode" = Some (JBool false)).

Lemma trigger_edge payload now d d1 : report_ip payload (contact payload now d) = Ret d1 ->
  (recovery_trigger d1 (refresh_hot payload d1) <> None <-> recovery_edge payload d).
Proof.
  intros H. unfold recovery_trigger, recovery_edge, is_true, is_false.
  destruct (final_hot payload now d d1 "last_known_good_restored" H) as [E1 E2];
    [apply (bool_decide_unpack _); vm_compute; exact I|].
  destruct (final_hot payload now d d1 "recovery_mode" H) as [E3 E4];
    [apply (bool_decide_unpack _); vm_compute; exact I|].
  change (reported "last_known_good_restored") with "reported_last_known_good_restored" in *.
  change (reported "recovery_mode") with "reported_recovery_mode" in *.
  rewrite E1, E2, E3, E4. clear.
  set (a := col d "reported_last_known_good_restored"). set (b := col d "reported_recovery_mode").
  destruct (dict_get payload "last_known_good_restored") as [x|];
    destruct (dict_get payload "recovery_mode") as [y|]; cbn;
    repeat case_bool_decide; cbn; first [congruence|naive_solver].
Qed.

(** A heartbeat that returns: its transaction led to [q], a plant that differs
    from [p] in this device's row and in the appended rows; the push follows. *)
Lemma record_heartbeat_ret id payload now n1 n2 n3 p p' :
  record_heartbeat ulid environ py_repr db_accepts hb_accepts sample_accepts id payload
    now n1 n2 n3 p = (Ret tt, p') ->
  exists d d1 le q ev, plant_device id p = Some d /\ last_event_dt payload = Ret le /\
    report_ip payload (contact payload now d) = Ret d1 /\
    plant_device id q = Some (echo_config payload (refresh_hot payload d1)) /\
    (forall id', id' <> id -> plant_device id' q = plant_device id' p) /\
    hub_commands (plant_hub q) = hub_commands (plant_hub p) /\ pl_settings q = pl_settings p /\
    (pl_heartbeats q = pl_heartbeats p ++ [heartbeat_row id payload le now] /\
     pl_samples q = pl_samples p ++ power_rows py_repr id payload now /\
     pl_events q = pl_events p ++ reboot_events id payload now p /\
     reconcile_assignment_reported_version id (dget payload "firmware_version") (dget payload "health_state") now
       (pl_firmware p) = Ret (pl_firmware q)) /\
    let p2 := match recovery_trigger d1 (refresh_hot payload d1) with
              | Some t => (maybe_push_after_recovery ulid environ py_repr id t n1 n2 n3 q).2
              | None => q
              end in
    p' = with_hub (with_bus (publish ev) (plant_hub p2)) p2.
Proof.
  unfold record_heartbeat, session_scope. destruct (last_event_dt payload) as [le|e]; [|done].
  destruct (heartbeat_txn _ _ _ _ _ _ _ _ _) as [[[t ev]|e] p1] eqn:E; [|done].
  apply heartbeat_txn_ret in E as (d & d1 & fw & Hd & H1 & Hfw & -> & -> & ->). intros [= <-].
  eexists d, d1, le, _, _. split; [done|]. split; [done|]. split; [done|].
  split; [|split; [|split; [|split; [|split; [|reflexivity]]]]]; try done.
  - unfold plant_device, get_device; cbn. by rewrite lookup_insert_eq.
  - intros id' Hne. unfold plant_device, get_device; cbn. by rewrite lookup_insert_ne.
Qed.

Lemma record_heartbeat_raise id payload now n1 n2 n3 p e p' :
  record_heartbeat ulid environ py_repr db_accepts hb_accepts sample_accepts id payload
    now n1 n2 n3 p = (Raise e, p') -> p' = p.
Proof.
  unfold record_heartbeat. destruct (last_event_dt payload); [|by intros [= _ ->]].
  destruct (session_scope _ p) as [[[t ev]|e'] q] eqn:E; [done|]. intros [= _ <-].
  by apply session_scope_raise in E.
Qed.

(** What a heartbeat makes of a column: the contact times are now, the relay hint is cleared,
    a version or a scan is taken when it is reported and not empty, a status column when its
    field is in the payload, the echoed configuration when it is an object; everything else
    is as it was. *)
Definition column_after (payload : pydict) (now : time) (d : device) (k : string) : json :=
  if in_strs k ["last_seen_at"; "last_heartbeat_at"] then JInt now
  else if String.eqb k "last_known_relay_on" then JNull
  else if String.eqb k "firmware_version"
  then if truthy (dget payload "firmware_version") then dget payload "firmware_version" else col d k
  else if in_strs k ["last_wifi_scan"; "last_wifi_scan_at"] then
    match dget payload "wifi_scan" with
    | JList (_ :: _) => if String.eqb k "last_wifi_scan" then dget payload "wifi_scan" else JInt now
    | _ => col d k
    end
  else if String.eqb k "last_reported_config"
  then match dget payload "reported_config" with JObj c => JObj c | _ => col d k end
  else match find (fun f => String.eqb k (reported f)) DEVICE_HOT_FIELDS with
       | Some f => default (col d k) (dict_get payload f)
       | None => col d k
       end.
Definition address_after (payload : pydict) (d : device) : option string :=
  match dget payload "local_ip" with
  | JStr s => if is_empty s then dev_local_ip d else Some s
  | _ => dev_local_ip d
  end.

Lemma contact_after payload now d k :
  in_strs k CONTACT_COLUMNS = true -> col (contact payload now d) k = column_after payload now d k.
Proof.
  unfold CONTACT_COLUMNS, contact, column_after, full_list. intros Hk. apply in_strs_spec in Hk.
  rewrite !elem_of_cons, elem_of_nil in Hk. cbv zeta.
  destruct Hk as [->|[->|[->|[->|[->|[->|[]]]]]]]; cbn [in_strs existsb String.eqb Ascii.eqb Bool.eqb orb];
    repeat case_match; subst; rewrite ?col_set_ne by done; rewrite ?col_set; rewrite ?col_set_ne by done;
    rewrite ?col_set; done.
Qed.
Lemma contact_fixed payload now d :
  dev_is_protected (contact payload now d) = dev_is_protected d /\
  dev_is_held_off (contact payload now d) = dev_is_held_off d /\ dev_local_ip (contact payload now d) = dev_local_ip d.
Proof. unfold contact. by repeat case_match. Qed.
Lemma refresh_fixed payload d :
  dev_is_protected (refresh_hot payload d) = dev_is_protected d /\
  dev_is_held_off (refresh_hot payload d) = dev_is_held_off d /\ dev_local_ip (refresh_hot payload d) = dev_local_ip d.
Proof.
  unfold refresh_hot. generalize DEVICE_HOT_FIELDS. intros l. revert d. induction l as [|x l IH]; intros d; [done|].
  cbn [foldl]. destruct (IH (match dict_get payload x with Some v => set_col (reported x) v d | None => d end)) as (-> & -> & ->).
  by destruct (dict_get payload x).
Qed.
Lemma echo_fixed payload d :
  dev_is_protected (echo_config payload d) = dev_is_protected d /\
  dev_is_held_off (echo_config payload d) = dev_is_held_off d /\ dev_local_ip (echo_config payload d) = dev_local_ip d.
Proof. unfold echo_config. by case_match. Qed.

(** The whole row, before a push. *)
Lemma row_after payload now d d1 :
  report_ip payload (contact payload now d) = Ret d1 ->
  let d' := echo_config payload (refresh_hot payload d1) in
  (forall k, col d' k = column_after payload now d k) /\ dev_local_ip d' = address_after payload d /\
  dev_is_protected d' = dev_is_protected d /\ dev_is_held_off d' = dev_is_held_off d.
Proof.
  intros H1. cbv zeta.
  destruct (echo_fixed payload (refresh_hot payload d1)) as (E1 & E2 & E3).
  destruct (refresh_fixed payload d1) as (R1 & R2 & R3). destruct (contact_fixed payload now d) as (C1 & C2 & C3).
  split.
  - intros k. destruct (in_strs k CONTACT_COLUMNS) eqn:Ec.
    + rewrite (final_col payload now d d1 k H1); [by apply contact_after| |].
      * intros ->. discriminate Ec.
      * intros f ->. apply in_strs_spec in Ec. revert Ec. unfold CONTACT_COLUMNS, reported.
        rewrite !elem_of_cons, elem_of_nil. cbn. naive_solver.
    + assert (Hn : forall x, in_strs x CONTACT_COLUMNS = true -> String.eqb k x = false).
      { intros x Hx. destruct (String.eqb_spec k x) as [->|]; congruence. }
      unfold column_after, in_strs. cbn [existsb].
      rewrite !(Hn "last_seen_at"), !(Hn "last_heartbeat_at"), !(Hn "last_known_relay_on"), !(Hn "firmware_version"),
        !(Hn "last_wifi_scan"), !(Hn "last_wifi_scan_at") by reflexivity. cbn [orb].
      assert (Hb : col d1 k = col d k) by (rewrite (report_ip_col payload _ d1 k H1); by apply contact_col).
      destruct (String.eqb_spec k "last_reported_config") as [->|Hk].
      * unfold echo_config. rewrite <- Hb. case_match; rewrite ?col_set; try done; apply refresh_other; by intros ? [=].
      * rewrite echo_col by done. destruct (find _ DEVICE_HOT_FIELDS) as [f|] eqn:Ef.
        -- apply find_some in Ef as [Hin ->%String.eqb_eq]. apply list_elem_of_In in Hin.
           by apply (final_hot payload now d d1 f H1).
        -- rewrite <- Hb. unfold refresh_hot.
           assert (Hnone : forall l d, (forall f, f ∈ l -> k <> reported f) ->
             col (foldl (fun d k => match dict_get payload k with Some v => set_col (reported k) v d | None => d end) d l) k = col d k).
           { clear. induction l as [|x l IH]; intros d Hl; [done|]. cbn [foldl]. rewrite IH by (intros f Hf; apply Hl; by right).
             case_match; [|done]. apply col_set_ne. intros E. symmetry in E. revert E. apply Hl. by left. }
           apply Hnone. intros f Hf ->. apply list_elem_of_In in Hf. pose proof (find_none _ _ Ef _ Hf) as Hx. cbv beta in Hx.
           by rewrite String.eqb_refl in Hx.
  - rewrite E1, E2, E3, R1, R2, R3. unfold report_ip in H1. unfold address_after.
    repeat case_match; simplify_eq; cbn; by rewrite ?C1, ?C2, ?C3.
Qed.

(** C38. A heartbeat, on every branch.  One that raises changes nothing.  One that returns
    changes the row of its device column by column as [column_after] says, keeps its
    protection and its hold-off, and takes the address that is reported; no other row changes.
    One history row is added, the power summary as a sample and a reboot as an event; the
    version is reported to the deployments.  Only on the edge of a recovery is a command queued,
    and the device stamped with the push of its configuration. *)
Theorem heartbeat_is_exact id payload now n1 n2 n3 p :
  match record_heartbeat ulid environ py_repr db_accepts hb_accepts sample_accepts id payload
          now n1 n2 n3 p with
  | (Raise _, p') => p' = p
  | (Ret _, p') =>
    exists d d' le, plant_device id p = Some d /\ plant_device id p' = Some d' /\
      (forall k, k <> "last_config_pushed_at" -> col d' k = column_after payload now d k) /\
      dev_local_ip d' = address_after payload d /\
      dev_is_protected d' = dev_is_protected d /\ dev_is_held_off d' = dev_is_held_off d /\
      (forall id', id' <> id -> plant_device id' p' = plant_device id' p) /\
      last_event_dt payload = Ret le /\
      pl_heartbeats p' = pl_heartbeats p ++ [heartbeat_row id payload le now] /\
      pl_samples p' = pl_samples p ++ power_rows py_repr id payload now /\
      pl_events p' = pl_events p ++ reboot_events id payload now p /\
      reconcile_assignment_reported_version id (dget payload "firmware_version") (dget payload "health_state") now
        (pl_firmware p) = Ret (pl_firmware p') /\
      (~ recovery_edge payload d -> hub_commands (plant_hub p') = hub_commands (plant_hub p) /\
         col d' "last_config_pushed_at" = col d "last_config_pushed_at")
  end.
Proof.
  destruct (record_heartbeat _ _ _ _ _ _ _ _ _ _ _ _ _) as [[[]|e] p'] eqn:E;
    [|by apply record_heartbeat_raise in E].
  apply record_heartbeat_ret in E as
    (d & d1 & le & q & ev & Hd & Hle & H1 & Hq & Ho & Hcm & _ & (Hhb & Hsm & Hev & Hfw) & ->).
  destruct (row_after payload now d d1 H1) as (Hcol & Hip & Hpr & Hho).
  set (d3 := echo_config payload (refresh_hot payload d1)) in *.
  exists d. destruct (recovery_trigger d1 (refresh_hot payload d1)) as [t|] eqn:Et.
  - destruct (maybe_push_frame ulid environ py_repr id t n1 n2 n3 q d3 Hq)
      as ((d' & Hd' & Hst) & Hoth & Hhb' & Hsm' & Hev' & Hfw').
    assert (Hrow : (forall k, k <> "last_config_pushed_at" -> col d' k = col d3 k) /\ dev_local_ip d' = dev_local_ip d3 /\
              dev_is_protected d' = dev_is_protected d3 /\ dev_is_held_off d' = dev_is_held_off d3).
    { destruct Hst as [->|[x ->]]; split_and!; try done. intros k Hk. by apply col_set_ne. }
    destruct Hrow as (Rc & Ri & Rp & Rh).
    exists d', le. split_and!; try (done || congruence).
    + intros k Hk. by rewrite Rc.
    + intros id' Hne. rewrite <- (Ho id' Hne). by apply Hoth.
    + by rewrite <- Hhb.
    + by rewrite <- Hsm.
    + by rewrite <- Hev.
    + rewrite Hfw. by f_equal.
    + intros Hno. destruct Hno. apply (trigger_edge payload now d d1 H1). by rewrite Et.
  - exists d3, le. split_and!; try done.
Qed.

(** A queued, unexpired command is handed over by the next delivery. *)
Lemma delivers_fresh id cmd n h :
  hub_commands h !! cmd_id cmd = Some cmd -> cmd_device_id cmd = id -> cmd_state cmd = Pending ->
  cmd_delivered_at cmd = None -> (n < cmd_expires_at cmd)%Z ->
  set_delivered n (set_state Accepted cmd) ∈
    (list_pending_for_device id true (Some POST_PIGGYBACK_GRACE_S) n h).1.
Proof.
  intros Hc Hi Hs Hd He. unfold list_pending_for_device; cbn.
  apply list_elem_of_fmap. exists cmd. split.
  { unfold mark_delivered. by rewrite decide_True. }
  rewrite order_by_perm. apply list_elem_of_filter. split; [|apply elem_of_rows; by eexists].
  unfold deliverable. rewrite Hs, Hd, (proj2 (String.eqb_eq _ _)) by done. cbn.
  by rewrite (proj2 (Z.ltb_lt _ _)).
Qed.

(** The push of a known device that is managed, with a valid configuration. *)
Lemma push_queues id t cfg pl n1 n2 n3 p d :
  plant_device id p = Some d -> object_col d "desired_config" = Some cfg ->
  truthy (col d "central_management_enabled") = true ->
  validate_payload "apply_config" (Some cfg) = Ret pl ->
  is_feature_enabled environ py_repr (pl_settings p) = Ret true ->
  let cmd := fresh_command ulid (hub_next (plant_hub p)) id None None "apply_config" pl
               (n1 + seconds 600)%Z n2 in
  hub_commands (plant_hub (maybe_push_after_recovery ulid environ py_repr id t n1 n2 n3 p).2)
    = <[cmd_id cmd := cmd]> (hub_commands (plant_hub p)).
Proof.
  intros Hd Hc Ht Hv Hf cmd. unfold maybe_push_after_recovery, get_desired_config, push_desired_config.
  unfold plant_device in *. rewrite Hd. cbn [mbind option_bind]. rewrite Hc, Hf. cbn [negb].
  rewrite Ht. cbn. unfold plant_hub.
  rewrite (apply_config_ret ulid id cfg pl None n1 n2 _ d Hv Hd). cbn.
  unfold plant_device, get_device; cbn. by rewrite lookup_insert_eq.
Qed.

(** C28. A recovery is answered with the configuration.  The device was in
    recovery mode and reports that it no longer is; an operator's configuration
    is stored and valid, the device is managed and the feature is on.  Then the
    answer of that very heartbeat carries the [apply_config] command with that
    configuration, marked as delivered, and asks for the next poll in two
    seconds. *)
Theorem recovery_is_answered_with_the_config id payload pi hi now n1 n2 n3 n4 p d cfg pl a p' :
  plant_device id p = Some d ->
  col d "reported_recovery_mode" = JBool true ->
  dict_get payload "recovery_mode" = Some (JBool false) ->
  object_col d "desired_config" = Some cfg -> validate_payload "apply_config" (Some cfg) = Ret pl ->
  truthy (col d "central_management_enabled") = true ->
  is_feature_enabled environ py_repr (pl_settings p) = Ret true ->
  (n4 < n1 + seconds 600)%Z ->
  heartbeat_route ulid environ py_repr db_accepts hb_accepts sample_accepts id payload pi hi
    now n1 n2 n3 n4 p = (Ret a, p') ->
  ha_next_poll a = 2%Z /\
  exists c, c ∈ ha_commands a /\ cmd_device_id c = id /\ cmd_type c = "apply_config" /\
            cmd_payload c = pl /\ cmd_state c = Accepted /\ cmd_delivered_at c = Some n4.
Proof.
  intros Hd Hrec Hpay Hcfg Hv Hct Hf Hn4. unfold heartbeat_route.
  destruct (mismatched id payload); [done|].
  destruct (record_heartbeat _ _ _ _ _ _ _ _ _ _ _ _ _) as [[[]|e] p1] eqn:E; [|by destruct e].
  apply record_heartbeat_ret in E as
    (d' & d1 & le & q & ev & Hd' & _ & H1 & Hq & _ & _ & Hst & _ & ->).
  rewrite Hd in Hd'. injection Hd' as <-.
  set (d3 := echo_config payload (refresh_hot payload d1)) in *.
  assert (forall k, k <> "last_reported_config" -> (forall f, k <> reported f) ->
            in_strs k CONTACT_COLUMNS = false -> col d3 k = col d k) as Hc.
  { intros k ? ? Hk. rewrite <- (contact_col payload now d k Hk). by apply final_col. }
  destruct (recovery_trigger d1 (refresh_hot payload d1)) as [t|] eqn:Et.
  2:{ exfalso. apply (trigger_edge payload now d d1 H1); [|exact Et]. by right. }
  assert (object_col d3 "desired_config" = Some cfg) as Hcfg3
    by (unfold object_col; by rewrite Hc).
  assert (truthy (col d3 "central_management_enabled") = true) as Hct3 by (by rewrite Hc).
  rewrite <- Hst in Hf.
  pose proof (push_queues id t cfg pl n1 n2 n3 q d3 Hq Hcfg3 Hct3 Hv Hf) as Hcmd.
  cbv zeta in Hcmd. set (p2 := (maybe_push_after_recovery _ _ _ _ _ _ _ _ _).2) in *.
  set (cmd := fresh_command _ _ _ _ _ _ _ _ _) in Hcmd.
  match goal with |- context [list_pending_for_device _ _ _ _ ?h] =>
    pose proof (delivers_fresh id cmd n4 h) as Hin;
    destruct (list_pending_for_device id true (Some POST_PIGGYBACK_GRACE_S) n4 h) as [cmds h2] end.
  intros [= <- <-]. cbn [ha_next_poll ha_commands]. cbn [fst] in Hin.
  assert (set_delivered n4 (set_state Accepted cmd) ∈ cmds) as Hc2.
  { apply Hin; try done. cbn. rewrite Hcmd. by rewrite lookup_insert_eq. }
  split; [by destruct cmds; [set_solver|]|].
  by exists (set_delivered n4 (set_state Accepted cmd)).
Qed.
End heartbeat.

(** ** Witnesses *)

Module Example.

#[local] Instance clk : IsoClock := binary_clock.
Definition no_repr (_ : json) : string := empty_str.
Definition no_env (_ : string) : option string := None.
Definition any {A} (_ : A) : bool := true.

(** A loop whose sleeps last exactly a second, while nobody queues anything. *)
Definition mono (k : nat) : Z := seconds (Z.of_nat k).
Definition idle (_ : nat) (h : hub) : hub := h.
Definition h0 : hub := Hub ∅ ∅ [] [] empty_bus 0.

Lemma long_poll_terminates_witness :
  poll_commands mono mono idle 31 "dev_a" None false (Some "Wait=5") 0 h0 =
    Some (Ret (PollAnswer [] (Some 5%Z)), h0) /\
  exists r h', poll_commands mono mono idle 31 "dev_a" None false (Some "Wait=5") 0 h0 = Some (r, h').
Proof.
  split; [vm_compute; reflexivity|].
  destruct (long_poll_terminates mono mono idle
    ltac:(intros k; unfold mono, LONG_POLL_CHECK_INTERVAL, seconds, MICRO; lia)
    31 "dev_a" None false (Some "Wait=5") 0 h0) as (r & h' & H & _).
  - lia.
  - vm_compute. discriminate.
  - exists r, h'. exact H.
Defined.

(** A device in recovery mode, with an operator's configuration. *)
Definition ailing : device :=
  Device false false None
    {["reported_recovery_mode" := JBool true; "central_management_enabled" := JBool true;
      "desired_config" := JObj [("device_name", JStr "router")]]}.
Definition p0 : plant :=
  Plant (Fleet (Hub {["dev_a" := ailing]} ∅ [] [] empty_bus 0) ∅) (Firmware ∅ ∅ [] 0) [] [] []
    {["desired_config.enabled" := SettingRow (JObj [("v", JStr "on")]) 0 None]} [].
Definition report : pydict := [("uptime_seconds", JInt 7); ("recovery_mode", JBool false)].
Definition answer := heartbeat_route pretty no_env no_repr any any any "dev_a" report 30 60 1 2 3 4 5 p0.

Lemma recovery_is_answered_with_the_config_witness :
  exists a p', answer = (Ret a, p') /\ ha_next_poll a = 2%Z /\
    exists c, c ∈ ha_commands a /\ cmd_payload c = [("device_name", JStr "router")].
Proof.
  destruct answer as [[a|e] p'] eqn:E; [|vm_compute in E; discriminate].
  exists a, p'. split; [reflexivity|].
  destruct (recovery_is_answered_with_the_config pretty no_env no_repr any any any "dev_a" report
    30 60 1 2 3 4 5 p0 ailing [("device_name", JStr "router")] [("device_name", JStr "router")] a p')
    as (Hp & c & Hc & _ & _ & Hpl & _).
  - reflexivity.
  - reflexivity.
  - reflexivity.
  - reflexivity.
  - reflexivity.
  - reflexivity.
  - vm_compute. reflexivity.
  - vm_compute. reflexivity.
  - exact E.
  - split; [exact Hp|]. exists c. split; [exact Hc|exact Hpl].
Defined.
End Example.
