(* ===== verification/TenantScope.v ===== *)
(** * The tenant boundary ([app/services/tenant_scope.py])

    The active organisation and the bypass of the current context, the cached
    shadow/enforce toggle, the filter added to every tenant-scoped SELECT, and
    the guard that stamps and checks every flushed row. *)

From S2P Require Import Prelude RuntimeSettings.
Local Open Scope string_scope.
Local Open Scope list_scope.
Local Open Scope Z_scope.

Inductive enforce := Shadow | Enforce.
#[export] Instance enforce_eq_dec : EqDecision enforce.
Proof. solve_decision. Defined.

Definition ORG_ENFORCE_MODE_KEY : string := "org_isolation.enforce".
Definition ORG_ENFORCE_MODE_ENV : string := "REBOOTER_ORG_ISOLATION_ENFORCE".
(** Five seconds of the monotonic clock (in microseconds). *)
Definition ENFORCE_CACHE_TTL : Z := seconds 5.

(** The ContextVars. *)
Record tenant_ctx := TenantCtx {
  tc_org : option string;
  tc_bypass : bool;
  tc_in_filter : bool
}.
Definition set_org (o : option string) (c : tenant_ctx) : tenant_ctx :=
  TenantCtx o (tc_bypass c) (tc_in_filter c).
Definition set_bypass (b : bool) (c : tenant_ctx) : tenant_ctx :=
  TenantCtx (tc_org c) b (tc_in_filter c).
Definition set_in_filter (b : bool) (c : tenant_ctx) : tenant_ctx :=
  TenantCtx (tc_org c) (tc_bypass c) b.

(** [reset()] without a token. *)
Definition reset (c : tenant_ctx) : tenant_ctx := set_org None c.

(** [system()] and [org_context(org)]: the block runs in the changed context,
    and the two variables are restored however it ends. *)
Definition restoring {S A} (before : tenant_ctx)
    (r : outcome A * (tenant_ctx * S)) : outcome A * (tenant_ctx * S) :=
  let '(o, (c, s)) := r in
  (o, (TenantCtx (tc_org before) (tc_bypass before) (tc_in_filter c), s)).
Definition system {S A} (body : tenant_ctx * S -> outcome A * (tenant_ctx * S))
    (x : tenant_ctx * S) : outcome A * (tenant_ctx * S) :=
  restoring x.1 (body (set_org None (set_bypass true x.1), x.2)).
Definition org_context {S A} (org : string) (body : tenant_ctx * S -> outcome A * (tenant_ctx * S))
    (x : tenant_ctx * S) : outcome A * (tenant_ctx * S) :=
  restoring x.1 (body (set_bypass false (set_org (Some org) x.1), x.2)).

(** ** The cached toggle *)

(** The process-wide cache: the value and when it expires. *)
Record mode_cache := ModeCache { mc_value : option enforce; mc_expires : Z }.
Definition empty_cache : mode_cache := ModeCache None 0.

(** [invalidate_enforce_mode_cache]. *)
Definition invalidate_enforce_mode_cache (_ : mode_cache) : mode_cache := empty_cache.

(** The callback of [ORG_ENFORCE_MODE_KEY]. *)
Definition on_setting_change (name : string) (c : mode_cache) : mode_cache :=
  if String.eqb name ORG_ENFORCE_MODE_KEY then invalidate_enforce_mode_cache c else c.

Section mode.
Context (environ : string -> option string).
(** [str(v)] of a value that is not a string. *)
Context (py_repr : json -> string).

Definition mode_of (raw : json) : enforce :=
  let s := match raw with JStr s => s | v => py_repr v end in
  if String.eqb (lower (strip s)) "enforce" then Enforce else Shadow.

(** What a read of the setting resolves to; a failing read means shadow. *)
Definition setting_mode (t : settings) : outcome enforce :=
  mode_of <$> setting_get environ ORG_ENFORCE_MODE_KEY (Some ORG_ENFORCE_MODE_ENV)
                (JStr "shadow") t.

(** [enforce_mode]: [view] is the table the session sees, [now] the monotonic
    clock. *)
Definition enforce_mode (view : settings) (cacheable : bool) (now : Z) (c : mode_cache)
    : enforce * mode_cache :=
  match mc_value c with
  | Some m =>
    if now <? mc_expires c then (m, c)
    else match setting_mode view with
         | Raise _ => (Shadow, c)
         | Ret m => (m, if cacheable then ModeCache (Some m) (now + ENFORCE_CACHE_TTL) else c)
         end
  | None =>
    match setting_mode view with
    | Raise _ => (Shadow, c)
    | Ret m => (m, if cacheable then ModeCache (Some m) (now + ENFORCE_CACHE_TTL) else c)
    end
  end.

(** ** The read filter *)

(** Audit rows the module emits. *)
Inductive tenant_audit :=
  | UnscopedRead
  | UnscopedWrite (entity : string) (is_insert : bool)
  | CrossOrgWrite (entity : string) (is_insert : bool) (row_org active_org : string)
      (mode : enforce).

(** What the [do_orm_execute] hook decides about one statement. *)
Inductive read_decision := Unfiltered | Filtered (org : string).

(** [_add_tenant_filter] on a SELECT. *)
Definition add_tenant_filter (touches_tenant_scoped : bool) (ctx : tenant_ctx) (view : settings)
    (now : Z) (cache : mode_cache) (audit : list tenant_audit)
    : read_decision * mode_cache * list tenant_audit :=
  if tc_in_filter ctx then (Unfiltered, cache, audit)
  else if negb touches_tenant_scoped then (Unfiltered, cache, audit)
  else if tc_bypass ctx then (Unfiltered, cache, audit)
  else match tc_org ctx with
       | None => (Unfiltered, cache, audit ++ [UnscopedRead])
       | Some org =>
         let '(mode, cache) := enforce_mode view true now cache in
         match mode with
         | Enforce => (Filtered org, cache, audit)
         | Shadow => (Unfiltered, cache, audit)
         end
       end.

(** The rows a SELECT returns: SQLAlchemy's [with_loader_criteria] adds
    [organization_id = :org] to the WHERE; NULL never compares equal. *)
Definition apply_decision {A} (org_of : A -> option string) (d : read_decision) (rows : list A)
    : list A :=
  match d with
  | Unfiltered => rows
  | Filtered org => List.filter (fun r => bool_decide (org_of r = Some org)) rows
  end.

(** ** The write guard *)

(** A row in the session at flush time: a tenant-scoped entity, whether it is an
    audit event, and whether it has net changes ([is_modified]). *)
Record flushed := Flushed {
  fl_entity : string;
  fl_scoped : bool;
  fl_audit_event : bool;
  fl_modified : bool;
  fl_org : option string
}.
Definition stamp (org : string) (r : flushed) : flushed :=
  Flushed (fl_entity r) (fl_scoped r) (fl_audit_event r) (fl_modified r) (Some org).

Definition CrossOrgWriteError : exn := AppError "CrossOrgWriteError" "cross-org write".

(** [_guard_one]. *)
Definition guard_one (active : option string) (mode : enforce) (is_insert : bool) (r : flushed)
    (audit : list tenant_audit) : outcome flushed * list tenant_audit :=
  match active with
  | None =>
    match fl_org r with
    | None => (Ret r, audit ++ [UnscopedWrite (fl_entity r) is_insert])
    | Some _ => (Ret r, audit)
    end
  | Some org =>
    match fl_org r with
    | None => (Ret (stamp org r), audit)
    | Some o =>
      if String.eqb o org then (Ret r, audit)
      else
        let audit := audit ++ [CrossOrgWrite (fl_entity r) is_insert o org mode] in
        match mode with
        | Enforce => (Raise CrossOrgWriteError, audit)
        | Shadow => (Ret r, audit)
        end
    end
  end.

(** Is the row guarded at all? *)
Definition guarded (is_insert : bool) (r : flushed) : bool :=
  fl_scoped r && negb (fl_audit_event r) && (is_insert || fl_modified r).

Fixpoint guard_all (active : option string) (mode : enforce) (is_insert : bool)
    (rows : list flushed) (audit : list tenant_audit) : outcome (list flushed) * list tenant_audit :=
  match rows with
  | [] => (Ret [], audit)
  | r :: rest =>
    let '(o, audit) := if guarded is_insert r then guard_one active mode is_insert r audit
                       else (Ret r, audit) in
    match o with
    | Raise e => (Raise e, audit)
    | Ret r =>
      let '(o, audit) := guard_all active mode is_insert rest audit in
      (match o with Ret rest => Ret (r :: rest) | Raise e => Raise e end, audit)
    end
  end.

(** [_stamp_and_guard_tenant_writes]: [session.new], then [session.dirty].  The
    mode is read without filling the cache.  The audit rows are added to the session that is
    flushed: when the flush raises they are rolled back with it. *)
Definition stamp_and_guard (ctx : tenant_ctx) (view : settings) (now : Z) (cache : mode_cache)
    (new dirty : list flushed) (audit : list tenant_audit)
    : outcome (list flushed * list flushed) * list tenant_audit :=
  if tc_bypass ctx then (Ret (new, dirty), audit)
  else
    let mode := (enforce_mode view false now cache).1 in
    match guard_all (tc_org ctx) mode true new audit with
    | (Raise e, audit) => (Raise e, audit)
    | (Ret new, audit) =>
      match guard_all (tc_org ctx) mode false dirty audit with
      | (Raise e, audit) => (Raise e, audit)
      | (Ret dirty, audit) => (Ret (new, dirty), audit)
      end
    end.
End mode.

(** ** One process over time

    [settings_at t] is the committed settings table at instant [t], whoever
    writes it.  A process reads the mode in SELECT hooks (cacheable), in flush
    hooks (on any view, not cacheable), and drops its cache when it writes the
    key itself. *)
Section process.
Context (environ : string -> option string) (py_repr : json -> string).
Context (settings_at : Z -> settings).

#[local] Abbreviation mode_read := (enforce_mode environ py_repr).
#[local] Abbreviation setting_mode_at t := (setting_mode environ py_repr (settings_at t)).

Inductive process_step : Z * mode_cache -> Z * mode_cache -> Prop :=
  | ps_select now t c : now <= t ->
      process_step (now, c) (t, (mode_read (settings_at t) true t c).2)
  | ps_flush now t view c : now <= t ->
      process_step (now, c) (t, (mode_read view false t c).2)
  | ps_write now t name c : now <= t ->
      process_step (now, c) (t, on_setting_change name c).

(** The cached value was read at some instant since [t0]. *)
Definition cache_inv (t0 : Z) (x : Z * mode_cache) : Prop :=
  t0 <= x.1 /\
  match mc_value x.2 with
  | None => True
  | Some m => exists t, t0 <= t <= x.1 /\ mc_expires x.2 = t + ENFORCE_CACHE_TTL /\
                        setting_mode_at t = Ret m
  end.

Lemma cache_inv_later t0 now t c : cache_inv t0 (now, c) -> now <= t -> cache_inv t0 (t, c).
Proof.
  intros [H1 H2] Hle. split; cbn in *; [lia|]. destruct (mc_value c); [|done].
  destruct H2 as (t' & ? & ? & ?). exists t'. split_and!; [lia|lia|done|done].
Qed.

Lemma select_inv t0 t c : cache_inv t0 (t, c) ->
  cache_inv t0 (t, (mode_read (settings_at t) true t c).2).
Proof.
  intros H. pose proof H as [Hle Hc]. cbn in Hle, Hc. unfold enforce_mode.
  assert (Hnew : forall m, setting_mode_at t = Ret m ->
            cache_inv t0 (t, ModeCache (Some m) (t + ENFORCE_CACHE_TTL))).
  { intros m Hm. split; [done|]. cbn. exists t. split_and!; [lia|lia|done|done]. }
  repeat case_match; cbn; auto.
Qed.

Lemma process_inv t0 x y : rtc process_step x y -> cache_inv t0 x -> cache_inv t0 y.
Proof.
  induction 1 as [|x y z Hs _ IH]; [done|]. intros Hi. apply IH.
  destruct Hs as [now t c Hle|now t view c Hle|now t name c Hle].
  - apply select_inv. by eapply cache_inv_later.
  - assert ((mode_read view false t c).2 = c) as -> by (unfold enforce_mode; by repeat case_match).
    by eapply cache_inv_later.
  - unfold on_setting_change. case_match; [|by eapply cache_inv_later].
    split; [|done]. destruct Hi. cbn in *. lia.
Qed.

Definition recent (t0 t : Z) (m : enforce) : Prop :=
  (exists t', t0 <= t' <= t /\ t < t' + ENFORCE_CACHE_TTL /\ setting_mode_at t' = Ret m) \/
  (m = Shadow /\ exists e, setting_mode_at t = Raise e).

Lemma read_recent t0 now c t : cache_inv t0 (now, c) -> now <= t ->
  recent t0 t (mode_read (settings_at t) true t c).1.
Proof.
  intros Hi Hle. pose proof (cache_inv_later _ _ _ _ Hi Hle) as [H0 Hc]. cbn in H0, Hc.
  assert (Hfresh : forall m, setting_mode_at t = Ret m -> recent t0 t m).
  { intros m Hm. left. exists t. unfold ENFORCE_CACHE_TTL, seconds, MICRO. split_and!; [lia|lia|lia|done]. }
  assert (Hfail : forall e, setting_mode_at t = Raise e -> recent t0 t Shadow) by (right; eauto).
  unfold enforce_mode. destruct (mc_value c) as [m|].
  - destruct Hc as (t' & Ht' & He & Hm). destruct (Z.ltb_spec t (mc_expires c)); cbn.
    + left. exists t'. split_and!; [lia|lia|lia|done].
    + destruct (setting_mode_at t) eqn:E; cbn; eauto.
  - destruct (setting_mode_at t) eqn:E; cbn; eauto.
Qed.
End process.

(** ** Theorems *)
Section theorems.
Context (environ : string -> option string) (py_repr : json -> string).

(** Read isolation.  Under an organisation and enforcement, a tenant-scoped
    SELECT returns exactly the rows of that organisation (rows without one are
    hidden too).  In every other situation (shadow mode, [system()], no
    organisation bound, a statement without scoped entities, a read made by the
    hook itself) it returns every row, and an audit row is written exactly when
    scoped rows are read with neither an organisation nor a bypass. *)
Theorem tenant_reads_are_isolated {A} (org_of : A -> option string) (rows : list A)
    touches ctx view now cache audit :
  let '(d, cache', audit') := add_tenant_filter environ py_repr touches ctx view now cache audit in
  let live := touches && negb (tc_in_filter ctx) && negb (tc_bypass ctx) in
  (forall org, live = true -> tc_org ctx = Some org ->
     (enforce_mode environ py_repr view true now cache).1 = Enforce ->
     forall r, r ∈ apply_decision org_of d rows <-> r ∈ rows /\ org_of r = Some org) /\
  (live = false \/ tc_org ctx = None \/
   (enforce_mode environ py_repr view true now cache).1 = Shadow ->
     apply_decision org_of d rows = rows) /\
  audit' = audit ++ (if live && bool_decide (tc_org ctx = None) then [UnscopedRead] else []).
Proof.
  unfold add_tenant_filter.
  destruct (tc_in_filter ctx), touches, (tc_bypass ctx); cbn;
    try (rewrite app_nil_r; split_and!; [done|done|done]).
  destruct (tc_org ctx) as [org|] eqn:Ho; cbn; [|by split_and!].
  destruct (enforce_mode environ py_repr view true now cache) as [[] c]; cbn.
  - rewrite app_nil_r. by split_and!.
  - rewrite app_nil_r. split_and!; [|by intros [|[|]]|done].
    intros org' _ [= <-] _ r. rewrite !list_elem_of_In, filter_In, bool_decide_eq_true. done.
Qed.

(** A row of another organisation than the active one, which the guard looks at. *)
Definition foreign (active : option string) (is_insert : bool) (r : flushed) : Prop :=
  guarded is_insert r = true /\ exists org o, active = Some org /\ fl_org r = Some o /\ o <> org.
(** A row as it leaves the flush: one without an organisation gets the active one. *)
Definition settled (active : option string) (is_insert : bool) (r : flushed) : flushed :=
  match guarded is_insert r, active, fl_org r with
  | true, Some org, None => stamp org r
  | _, _, _ => r
  end.
(** What the guard records of a row: that it could not be stamped, or whose it is. *)
Definition noted (active : option string) (mode : enforce) (is_insert : bool) (r : flushed) : list tenant_audit :=
  match guarded is_insert r, active, fl_org r with
  | true, None, None => [UnscopedWrite (fl_entity r) is_insert]
  | true, Some org, Some o => if String.eqb o org then [] else [CrossOrgWrite (fl_entity r) is_insert o org mode]
  | _, _, _ => []
  end.

Lemma guard_one_spec active mode is_insert r audit :
  guarded is_insert r = true ->
  match guard_one active mode is_insert r audit with
  | (Ret r', audit') => r' = settled active is_insert r /\ audit' = audit ++ noted active mode is_insert r /\
      (mode = Enforce -> ~ foreign active is_insert r)
  | (Raise e, _) => e = CrossOrgWriteError /\ mode = Enforce /\ foreign active is_insert r
  end.
Proof.
  intros Hg. unfold guard_one, settled, noted, foreign. rewrite Hg.
  destruct active as [org|], (fl_org r) as [o|].
  - destruct (String.eqb_spec o org) as [->|Hne].
    + rewrite app_nil_r. split_and!; try done. by intros _ (_ & ? & ? & ? & ? & ?); simplify_eq.
    + destruct mode; [|split_and!; naive_solver]. by split_and!.
  - rewrite app_nil_r. split_and!; try done. by intros _ (_ & ? & ? & ? & ? & ?).
  - rewrite app_nil_r. split_and!; try done. by intros _ (_ & ? & ? & ? & ? & ?).
  - split_and!; try done. by intros _ (_ & ? & ? & ? & ? & ?).
Qed.
Lemma unguarded_row active mode is_insert r : guarded is_insert r = false ->
  settled active is_insert r = r /\ noted active mode is_insert r = [] /\ ~ foreign active is_insert r.
Proof. intros Hg. unfold settled, noted, foreign. rewrite Hg. split_and!; [done..|]. by intros [? _]. Qed.

Lemma guard_all_spec active mode is_insert rows : forall audit,
  match guard_all active mode is_insert rows audit with
  | (Ret rows', audit') => rows' = settled active is_insert <$> rows /\
      audit' = audit ++ concat (noted active mode is_insert <$> rows) /\
      (mode = Enforce -> Forall (fun r => ~ foreign active is_insert r) rows)
  | (Raise e, _) => e = CrossOrgWriteError /\ mode = Enforce /\ Exists (foreign active is_insert) rows
  end.
Proof.
  induction rows as [|r rows IH]; intros audit; cbn [guard_all fmap list_fmap concat]; [by rewrite app_nil_r|].
  assert (Hr : match (if guarded is_insert r then guard_one active mode is_insert r audit else (Ret r, audit)) with
    | (Ret r', audit') => r' = settled active is_insert r /\ audit' = audit ++ noted active mode is_insert r /\
        (mode = Enforce -> ~ foreign active is_insert r)
    | (Raise e, _) => e = CrossOrgWriteError /\ mode = Enforce /\ foreign active is_insert r
    end).
  { destruct (guarded is_insert r) eqn:Hg; [by apply guard_one_spec|].
    destruct (unguarded_row active mode is_insert r Hg) as (-> & -> & Hn). by rewrite app_nil_r. }
  destruct (if guarded is_insert r then _ else _) as [[r'|e] audit1].
  - destruct Hr as (-> & -> & Hn). specialize (IH (audit ++ noted active mode is_insert r)).
    destruct (guard_all _ _ _ rows _) as [[rs|e] a].
    + destruct IH as (-> & -> & Hf). rewrite <- app_assoc. split_and!; [done..|]. intros Hm. constructor; auto.
    + destruct IH as (-> & -> & He). split_and!; [done..|]. by right.
  - destruct Hr as (-> & -> & He). split_and!; [done..|]. by left.
Qed.

(** C3. The write guard, in every situation.  Under a bypass a flush changes nothing and records
    nothing.  Otherwise it goes through unless enforcement is on and one of the rows it guards
    (new, or dirty with net changes; audit events apart) belongs to another organisation than
    the active one, and then it raises [CrossOrgWriteError].  When it goes through, every guarded
    row without an organisation leaves with the active one, in shadow mode too, and every other
    row as it came; one audit row is added for each foreign row that shadow mode lets through and
    for each guarded row that nothing could stamp, because no organisation is active. *)
Theorem tenant_writes_are_guarded ctx view now cache new dirty audit :
  let mode := (enforce_mode environ py_repr view false now cache).1 in
  let active := tc_org ctx in
  match stamp_and_guard environ py_repr ctx view now cache new dirty audit with
  | (Ret rows, audit') =>
    if tc_bypass ctx then rows = (new, dirty) /\ audit' = audit
    else rows = (settled active true <$> new, settled active false <$> dirty) /\
         audit' = audit ++ concat (noted active mode true <$> new) ++ concat (noted active mode false <$> dirty) /\
         (mode = Enforce -> Forall (fun r => ~ foreign active true r) new /\ Forall (fun r => ~ foreign active false r) dirty)
  | (Raise e, _) =>
    e = CrossOrgWriteError /\ tc_bypass ctx = false /\ mode = Enforce /\
    (Exists (foreign active true) new \/ Exists (foreign active false) dirty)
  end.
Proof.
  cbv zeta. unfold stamp_and_guard. destruct (tc_bypass ctx); [done|]. cbv zeta.
  set (mode := (enforce_mode environ py_repr view false now cache).1).
  pose proof (guard_all_spec (tc_org ctx) mode true new audit) as Hn.
  destruct (guard_all (tc_org ctx) mode true new audit) as [[new1|e] a1].
  - destruct Hn as (-> & -> & Hn). match goal with |- context [guard_all _ _ false dirty ?a] =>
      pose proof (guard_all_spec (tc_org ctx) mode false dirty a) as Hd;
      destruct (guard_all (tc_org ctx) mode false dirty a) as [[dirty1|e] a2] end.
    + destruct Hd as (-> & -> & Hd). rewrite <- app_assoc. split_and!; auto.
    + destruct Hd as (-> & -> & Hd). split_and!; auto.
  - destruct Hn as (-> & -> & Hn). split_and!; auto.
Qed.

(** The toggle converges.  After any activity of a process since [t0], when
    its cache was empty (it started, or it has just written the key itself), the
    mode a SELECT sees at [t] is the mode of the settings at some instant not
    before [t0] and less than five seconds ago, or shadow because reading the
    settings failed.  A toggle in another process is therefore seen within the
    TTL, and one in the same process at once. *)
Theorem enforce_mode_is_recent settings_at t0 now c t :
  rtc (process_step environ py_repr settings_at) (t0, empty_cache) (now, c) -> now <= t ->
  let m := (enforce_mode environ py_repr (settings_at t) true t c).1 in
  (exists t', t0 <= t' <= t /\ t < t' + seconds 5 /\
     setting_mode environ py_repr (settings_at t') = Ret m) \/
  (m = Shadow /\ exists e, setting_mode environ py_repr (settings_at t) = Raise e).
Proof.
  intros Hs Hle. apply (read_recent environ py_repr settings_at t0 now c t); [|done].
  eapply process_inv; [exact Hs|]. split; [cbn; lia|done].
Qed.
End theorems.

(** ** Witnesses *)
Module Example.

Definition no_env (_ : string) : option string := None.
Definition no_repr (_ : json) : string := empty_str.
Definition enforcing : settings :=
  setting_set ORG_ENFORCE_MODE_KEY (JStr " Enforce ") None 0 ∅.
Definition in_a : tenant_ctx := TenantCtx (Some "org_a") false false.

(** Two sites; organisation A sees its own. *)
Lemma tenant_reads_are_isolated_witness :
  let rows := [("site_1", Some "org_a"); ("site_2", Some "org_b"); ("site_3", None)] in
  let d := (add_tenant_filter no_env no_repr true in_a enforcing 0 empty_cache []).1.1 in
  ("site_1", Some "org_a") ∈ apply_decision snd d rows.
Proof.
  intros rows d.
  pose proof (tenant_reads_are_isolated no_env no_repr snd rows true in_a enforcing 0 empty_cache []) as H.
  destruct (add_tenant_filter no_env no_repr true in_a enforcing 0 empty_cache []) as [[d' c] a] eqn:E.
  destruct H as [H _].
  apply (H "org_a" eq_refl eq_refl ltac:(vm_compute; reflexivity)). split; [left|reflexivity].
Defined.

(** A new site without an organisation is stamped, in shadow mode too; one of another
    organisation passes in shadow mode and is noted, and is refused under enforcement. *)
Lemma tenant_writes_are_guarded_witness :
  let site o := Flushed "Site" true false true o in
  let flush view := stamp_and_guard no_env no_repr in_a view 0 empty_cache [site None] [site (Some "org_b")] [] in
  flush ∅ = (Ret ([site (Some "org_a")], [site (Some "org_b")]), [CrossOrgWrite "Site" false "org_b" "org_a" Shadow]) /\
  (flush enforcing).1 = Raise CrossOrgWriteError /\ foreign (Some "org_a") false (site (Some "org_b")).
Proof.
  intros site flush. split; [|split].
  - pose proof (tenant_writes_are_guarded no_env no_repr in_a ∅ 0 empty_cache [site None] [site (Some "org_b")] []) as H.
    cbv zeta in H. fold (flush ∅) in H. destruct (flush ∅) as [[rows|e] a] eqn:E; [|vm_compute in E; discriminate E].
    destruct H as (-> & -> & _). reflexivity.
  - vm_compute. reflexivity.
  - split; [reflexivity|]. by exists "org_a", "org_b".
Defined.

(** The toggle is flipped elsewhere at second 3; a process that cached the old
    value at second 0 sees it at second 6. *)
Definition flipped (t : Z) : settings := if t <? seconds 3 then ∅ else enforcing.

Lemma enforce_mode_is_recent_witness :
  let c := (enforce_mode no_env no_repr (flipped 0) true 0 empty_cache).2 in
  (enforce_mode no_env no_repr (flipped (seconds 4)) true (seconds 4) c).1 = Shadow /\
  exists t', seconds 1 < t' /\ setting_mode no_env no_repr (flipped t') =
    Ret (enforce_mode no_env no_repr (flipped (seconds 6)) true (seconds 6) c).1.
Proof.
  intros c. split; [vm_compute; reflexivity|].
  destruct (enforce_mode_is_recent no_env no_repr flipped 0 0 c (seconds 6))
    as [(t' & _ & H & Hm)|[_ [e He]]].
  - apply rtc_once. apply ps_select. reflexivity.
  - discriminate.
  - exists t'. split; [unfold seconds, MICRO in *; lia|exact Hm].
  - vm_compute in He. discriminate He.
Defined.
End Example.
