(* ===== verification/Enrollment.v ===== *)
(** * Enrollment and device credentials ([app/services/enrollment.py],
    [app/middleware/device_auth.py])

    Enrollment tokens are minted, revoked and exchanged once for a device and its
    bearer token: a new device row, or - for a token that names a target - the
    existing row, whose credential is rotated.  A device request is authenticated
    by the hash of its bearer token.  The secrets drawn ([secrets.token_urlsafe])
    and the clock readings are arguments; SHA-256 is a parameter. *)

From S2P Require Import Prelude PyFloat RuntimeSettings EventBus Commands TenantScope.
From S2P Require Import PowerSamples Devices Deployments DeviceConfig.
Local Open Scope string_scope.
Local Open Scope list_scope.
Local Open Scope Z_scope.

(** ** Data *)

Record site_row := SiteRow { st_name : string; st_org : string }.

Record enroll_token := EnrollToken {
  et_hash : string;
  et_issuer : option string;
  et_site : option string;
  et_org : string;
  et_hint : option string;
  et_note : option string;
  et_expires_at : time;
  et_target : option string;
  et_created_at : time;
  et_consumed_at : option time;
  et_consumed_by : option string
}.
Definition consume_row (t : time) (device : string) (et : enroll_token) : enroll_token :=
  EnrollToken (et_hash et) (et_issuer et) (et_site et) (et_org et) (et_hint et) (et_note et)
    (et_expires_at et) (et_target et) (et_created_at et) (Some t) (Some device).

(** The one row of [device_credentials] of a device ([device_id] is unique). *)
Record credential := Credential {
  dc_hash : string; dc_revoked : bool; dc_issued_at : time; dc_last_used_at : option time
}.

(** A row of [device_announcements]; [an_claims] holds the [claimed_*] columns. *)
Record announcement := Announcement {
  an_mac : string;
  an_claims : gmap string string;
  an_source_ip : option string;
  an_user_agent : option string;
  an_first_seen_at : time;
  an_last_seen_at : time;
  an_count : Z;
  an_org : option string;
  an_adopted_at : option time;
  an_adopted_by : option string;
  an_secret : option string;
  an_token_id : option string;
  an_delivered_at : option time;
  an_consumed_at : option time;
  an_rejected_at : option time
}.

(** [rg_orgs] maps an organisation to its slug; [rg_next] counts the ULIDs drawn. *)
Record registry := Registry {
  rg_plant : plant;
  rg_sites : gmap string site_row;
  rg_orgs : gmap string string;
  rg_tokens : gmap string enroll_token;
  rg_creds : gmap string credential;
  rg_anns : gmap string announcement;
  rg_next : nat
}.
Definition with_plant (p : plant) (g : registry) : registry :=
  Registry p (rg_sites g) (rg_orgs g) (rg_tokens g) (rg_creds g) (rg_anns g) (rg_next g).
Definition with_tokens (f : gmap string enroll_token -> gmap string enroll_token) (g : registry)
    : registry :=
  Registry (rg_plant g) (rg_sites g) (rg_orgs g) (f (rg_tokens g)) (rg_creds g) (rg_anns g) (rg_next g).
Definition with_creds (f : gmap string credential -> gmap string credential) (g : registry)
    : registry :=
  Registry (rg_plant g) (rg_sites g) (rg_orgs g) (rg_tokens g) (f (rg_creds g)) (rg_anns g) (rg_next g).
Definition with_anns (f : gmap string announcement -> gmap string announcement) (g : registry)
    : registry :=
  Registry (rg_plant g) (rg_sites g) (rg_orgs g) (rg_tokens g) (rg_creds g) (f (rg_anns g)) (rg_next g).
Definition draw (g : registry) : registry :=
  Registry (rg_plant g) (rg_sites g) (rg_orgs g) (rg_tokens g) (rg_creds g) (rg_anns g) (S (rg_next g)).
Definition reg_devices (g : registry) : gmap string device := hub_devices (plant_hub (rg_plant g)).
Definition put_dev (id : string) (d : device) (g : registry) : registry :=
  with_plant (with_fleet (put_device id d) (rg_plant g)) g.

(** [EnrollmentError(code, message)]. *)
Definition EnrollmentError {A} (code : string) : outcome A := Raise (AppError "EnrollmentError" code).

(** The tenant context of a call: the bound organisation, the isolation mode. *)
Record caller := Caller { ca_org : option string; ca_mode : enforce }.
(** An unauthenticated device request binds none. *)
Definition device_caller (m : enforce) : caller := Caller None m.
Definition reads (c : caller) : read_decision :=
  match ca_org c, ca_mode c with Some o, Enforce => Filtered o | _, _ => Unfiltered end.
(** The row of a tenant-scoped table is returned to the caller. *)
Definition sees (c : caller) (org : option string) : bool :=
  match reads c with Unfiltered => true | Filtered o => bool_decide (org = Some o) end.
(** [organization_id] of an inserted row, after the flush hook. *)
Definition stamped (c : caller) (org : option string) : option string :=
  match org with Some o => Some o | None => ca_org c end.

(** ** Minting *)

Definition MAX_TTL : Z := 60 * 60 * 24 * 30.
(** The range of [datetime]. *)
Definition MIN_TIME : time := -62135596800 * MICRO.
Definition MAX_TIME : time := 253402300800 * MICRO - 1.

Section enrollment.
Context (ulid : nat -> string) (sha256 : string -> string).
Context (environ : string -> option string) (py_repr : json -> string).
Context (db_accepts : device -> bool).
(** [settings.enrollment_token_ttl_seconds]. *)
Context (default_ttl : Z).

(** The lifetime in seconds. *)
Definition token_ttl (ttl_seconds : option Z) (t : settings) : Z :=
  let fallback :=
    match setting_get environ "system.enrollment_token_ttl_seconds"
            (Some "REBOOTER_ENROLLMENT_TOKEN_TTL_SECONDS") JNull t with
    | Ret JNull => default_ttl
    | Ret v => match py_int v with Ret n => n | Raise _ => default_ttl end
    | Raise _ => default_ttl
    end in
  match ttl_seconds with
  | Some n => if n <=? 0 then fallback else Z.min n MAX_TTL
  | None => fallback
  end.

(** [Site.organization_id] of a site the caller sees. *)
Definition site_org (c : caller) (site_id : option string) (g : registry) : option string :=
  match site_id with
  | Some s => if is_empty s then None
              else match rg_sites g !! s with
                   | Some r => if sees c (Some (st_org r)) then Some (st_org r) else None
                   | None => None
                   end
  | None => None
  end.

(** The constraints of [enrollment_tokens]: the two foreign keys, the unique hash. *)
Definition token_accepted (et : enroll_token) (g : registry) : bool :=
  match et_site et with Some s => bool_decide (rg_sites g !! s <> None) | None => true end &&
  match et_target et with Some d => bool_decide (reg_devices g !! d <> None) | None => true end &&
  forallb (fun kt : string * enroll_token => negb (String.eqb (et_hash kt.2) (et_hash et)))
    (map_to_list (rg_tokens g)).

(** [_mint_enrollment_token_in_session]: the row's id and the secret. *)
Definition mint_in_session (c : caller) (issuer site_id hint note : option string)
    (ttl_seconds : option Z) (target : option string) (random : string) (now : time) (g : registry)
    : outcome (string * string) * registry :=
  let expires := now + seconds (token_ttl ttl_seconds (pl_settings (rg_plant g))) in
  let secret := String.append "et_" random in
  if (expires <? MIN_TIME) || (MAX_TIME <? expires) then (Raise OverflowError, g)
  else match stamped c (site_org c site_id g) with
  | None => (Raise (DBError "NOT NULL enrollment_tokens.organization_id"), g)
  | Some org =>
    let et := EnrollToken (sha256 secret) issuer site_id org hint note expires target now None None in
    if token_accepted et g then
      let id := new_id ulid "et" (rg_next g) in
      (Ret (id, secret), with_tokens (insert id et) (draw g))
    else (Raise (DBError "enrollment_tokens"), g)
  end.

(** [mint_enrollment_token]. *)
Definition mint_enrollment_token (c : caller) (issuer site_id hint note : option string)
    (ttl_seconds : option Z) (target : option string) (random : string) (now : time)
    : registry -> outcome (string * string) * registry :=
  session_scope (mint_in_session c issuer site_id hint note ttl_seconds target random now).

(** A row of [enrollment_tokens] as the caller gets it. *)
Definition get_token (c : caller) (id : string) (g : registry) : option enroll_token :=
  match rg_tokens g !! id with
  | Some et => if sees c (Some (et_org et)) then Some et else None
  | None => None
  end.
Definition consumed (et : enroll_token) : bool :=
  match et_consumed_at et with Some _ => true | None => false end.

(** Deleting a token: the announcements that name it lose the reference ([SET NULL]). *)
Definition forget_token (id : string) (a : announcement) : announcement :=
  if bool_decide (an_token_id a = Some id) then
    Announcement (an_mac a) (an_claims a) (an_source_ip a) (an_user_agent a) (an_first_seen_at a)
      (an_last_seen_at a) (an_count a) (an_org a) (an_adopted_at a) (an_adopted_by a) (an_secret a)
      None (an_delivered_at a) (an_consumed_at a) (an_rejected_at a)
  else a.
Definition delete_token (id : string) (g : registry) : registry :=
  with_anns (fmap (forget_token id)) (with_tokens (base.delete id) g).

(** [revoke_enrollment_token]. *)
Definition revoke_enrollment_token (c : caller) (id : string) (g : registry) : bool * registry :=
  match get_token c id g with
  | None => (false, g)
  | Some et => if consumed et then (false, g) else (true, delete_token id g)
  end.

(** [revoke_enrollment_tokens_bulk]: revoked, unknown, consumed.  The caller passes
    each id once. *)
Definition revoke_step (c : caller) (acc : list string * list string * list string * registry)
    (id : string) : list string * list string * list string * registry :=
  let '(revoked, unknown, used, g) := acc in
  match get_token c id g with
  | None => (revoked, unknown ++ [id], used, g)
  | Some et => if consumed et then (revoked, unknown, used ++ [id], g)
               else (revoked ++ [id], unknown, used, delete_token id g)
  end.
Definition revoke_enrollment_tokens_bulk (c : caller) (ids : list string) (g : registry)
    : list string * list string * list string * registry :=
  foldl (revoke_step c) ([], [], [], g) ids.

(** ** Redemption *)

(** The caller-supplied fields and the width of their columns. *)
Definition FIELD_WIDTHS : list (string * Z) :=
  [("display_name", 120); ("hardware_model", 80); ("hardware_revision", 40);
   ("firmware_version", 40); ("mac_address", 40); ("serial_number", 80); ("local_ip", 64)].
Definition field_ok (p : pydict) (fw : string * Z) : bool :=
  match dget p fw.1 with
  | JNull => true
  | JStr s => Z.of_nat (String.length s) <=? fw.2
  | _ => false
  end.
(** [[0-9A-Fa-f:.\-\s]], one character. *)
Definition mac_char (a : Ascii.ascii) : bool :=
  let n := Ascii.nat_of_ascii a in
  ((48 <=? n)%nat && (n <=? 58)%nat) || ((65 <=? n)%nat && (n <=? 70)%nat)
  || ((97 <=? n)%nat && (n <=? 102)%nat) || (n =? 46)%nat || (n =? 45)%nat || is_space a.
Definition mac_chars : string -> bool :=
  fix go s := match s with EmptyString => true | String a r => mac_char a && go r end.

Definition validate_registration (p : pydict) : outcome unit :=
  if negb (forallb (field_ok p) FIELD_WIDTHS) then EnrollmentError "validation_failed"
  else match dget p "mac_address" with
       | JStr m => if mac_chars m then Ret tt else EnrollmentError "validation_failed"
       | _ => Ret tt
       end.

Definition QA_PREFIXES : list string := ["qa "; "qa-"; "qa_"; "test-"; "playwright"].
(** [_looks_like_qa]. *)
Definition looks_like_qa (candidates : list (option string)) : bool :=
  existsb (fun c => match c with
                    | Some s => negb (is_empty s) &&
                                existsb (fun p => startswith p (lower (strip s))) QA_PREFIXES
                    | None => false
                    end) candidates.

(** [(payload.get("mac_address") or "").strip().upper()] and its column counterpart. *)
Definition mac_key (v : json) : string :=
  match v with JStr s => upper (strip s) | _ => empty_str end.

(** The token of a hash (the column is unique). *)
Definition token_by_hash (h : string) (g : registry) : option (string * enroll_token) :=
  head (filter (fun kt : string * enroll_token => et_hash kt.2 = h) (map_to_list (rg_tokens g))).

(** [resolve_default_org_id] ([bootstrap.py]), over the organisations. *)
Definition default_org (orgs : gmap string string) : option string :=
  match head (map_to_list (filter (fun x : string * string => x.2 = "default") orgs)) with
  | Some (o, _) => Some o
  | None => match map_to_list orgs with [(o, _)] => Some o | _ => None end
  end.
(** [resolve_default_site_id] ([sites.py]), without a bound organisation. *)
Definition DEFAULT_SITE_NAME : string := "Default".
Definition default_site_id (g : registry) : outcome string * registry :=
  match head (map_to_list (filter (fun x : string * site_row => st_name x.2 = DEFAULT_SITE_NAME)
                             (rg_sites g))) with
  | Some (s, _) => (Ret s, g)
  | None =>
    match map_to_list (rg_sites g) with
    | [(s, _)] => (Ret s, g)
    | _ =>
      match default_org (rg_orgs g) with
      | None => (Raise (RuntimeError "resolve_default_site_id"), g)
      | Some o =>
        let s := new_id ulid "site" (rg_next g) in
        (Ret s,
         Registry (with_fleet (fun f => Fleet (fl_hub f) ({[s]} ∪ fl_sites f)) (rg_plant g))
           (<[s := SiteRow DEFAULT_SITE_NAME o]> (rg_sites g)) (rg_orgs g) (rg_tokens g)
           (rg_creds g) (rg_anns g) (S (rg_next g)))
      end
    end
  end.

(** The unique constraint on the hash of a credential. *)
Definition hash_free (h : string) (creds : gmap string credential) : bool :=
  forallb (fun kc : string * credential => negb (String.eqb (dc_hash kc.2) h)) (map_to_list creds).
(** The credential of a device, replaced. *)
Definition issue_credential (dev h : string) (now : time) (g : registry) : outcome unit * registry :=
  let others := base.delete dev (rg_creds g) in
  if hash_free h others
  then (Ret tt, with_creds (fun _ => <[dev := Credential h false now None]> others) g)
  else (Raise (DBError "device_credentials"), g).

(** The restore branch: the row updated in place. *)
Definition restored (p : pydict) (now : time) (d : device) : device :=
  let keep k d := set_col k (jor (dget p k) (col d k)) d in
  let d := keep "hardware_revision" (keep "firmware_version" d) in
  let d := match dget p "local_ip" with
           | JStr s => if is_empty s then d else set_local_ip (Some s) d | _ => d end in
  let d := if negb (is_empty (mac_key (dget p "mac_address"))) && is_empty (mac_key (col d "mac_address"))
           then set_col "mac_address" (dget p "mac_address") d else d in
  let d := set_col "registration_state" (JStr "active") d in
  let d := set_col "capabilities" (jor (jor (dget p "capabilities") (col d "capabilities")) (JObj [])) d in
  set_col "updated_at" (JInt now) (set_col "last_heartbeat_at" JNull d).
Definition restore_device (target h : string) (p : pydict) (now : time) (g : registry)
    : outcome string * registry :=
  match reg_devices g !! target with
  | None => (EnrollmentError "enrollment_invalid", g)
  | Some d =>
    if decommissioned d then (EnrollmentError "enrollment_invalid", g)
    else
      let incoming := mac_key (dget p "mac_address") in
      let existing := mac_key (col d "mac_address") in
      if negb (is_empty incoming) && negb (is_empty existing) && negb (String.eqb incoming existing)
      then (EnrollmentError "device_mismatch", g)
      else if negb (db_accepts (restored p now d)) then (Raise (DBError "devices"), g)
      else
        let '(r, g) := issue_credential target h now (put_dev target (restored p now d) g) in
        (_ ← r; Ret target, g)
  end.

(** The fresh branch: an active device with the same key refuses, then a new row. *)
Definition active_with_mac (key : string) (g : registry) : option string :=
  fst <$> head (filter (fun kd : string * device =>
            col kd.2 "registration_state" = JStr "active" /\ mac_key (col kd.2 "mac_address") = key)
            (map_to_list (reg_devices g))).
Definition new_device (p : pydict) (name site : string) (is_qa : bool) (now : time) : device :=
  Device false false (as_str (dget p "local_ip"))
    (list_to_map
      [("display_name", JStr name); ("hardware_model", dget p "hardware_model");
       ("hardware_revision", dget p "hardware_revision"); ("firmware_version", dget p "firmware_version");
       ("mac_address", dget p "mac_address"); ("serial_number", dget p "serial_number");
       ("site_id", JStr site); ("central_management_enabled", JBool true);
       ("registration_state", JStr "active");
       ("capabilities", jor (dget p "capabilities") (JObj [])); ("is_qa_fixture", JBool is_qa);
       ("created_at", JInt now); ("updated_at", JInt now)]).
Definition adopt_device (et : enroll_token) (h name : string) (is_qa : bool) (p : pydict) (now : time)
    (g : registry) : outcome string * registry :=
  let key := mac_key (dget p "mac_address") in
  if negb (is_empty key) && bool_decide (active_with_mac key g <> None)
  then (EnrollmentError "device_already_registered", g)
  else
    let '(site, g) := match et_site et with
                      | Some s => if is_empty s then default_site_id g else (Ret s, g)
                      | None => default_site_id g
                      end in
    match site with
    | Raise e => (Raise e, g)
    | Ret site =>
      let d := new_device p name site is_qa now in
      let dev := new_id ulid "dev" (rg_next g) in
      if negb (db_accepts d) || bool_decide (reg_devices g !! dev <> None)
      then (Raise (DBError "devices"), g)
      else
        let '(r, g) := issue_credential dev h now (draw (put_dev dev d g)) in
        (_ ← r; Ret dev, g)
    end.

(** The transaction of [consume_enrollment_token], under the row lock of its token. *)
Definition consume_txn (token : string) (p : pydict) (random : string) (now : time) (g : registry)
    : outcome (string * string * enroll_token) * registry :=
  match token_by_hash (sha256 token) g with
  | None => (EnrollmentError "enrollment_invalid", g)
  | Some (tid, et) =>
    if consumed et then (EnrollmentError "enrollment_consumed", g)
    else if et_expires_at et <=? now then (EnrollmentError "enrollment_expired", g)
    else
      let name := or_str (as_str (dget p "display_name")) (or_str (et_hint et) empty_str) in
      let is_qa := truthy (dget p "qa_fixture") || looks_like_qa [Some name; et_hint et; et_note et] in
      let secret := String.append "dt_" random in
      let '(r, g) := match et_target et with
                     | Some target => if is_empty target
                                      then adopt_device et (sha256 secret) name is_qa p now g
                                      else restore_device target (sha256 secret) p now g
                     | None => adopt_device et (sha256 secret) name is_qa p now g
                     end in
      match r with
      | Raise e => (Raise e, g)
      | Ret dev => (Ret (dev, secret, et), with_tokens (insert tid (consume_row now dev et)) g)
      end
  end.

(** ** After the commit *)

(** [_normalize_mac]. *)
Definition separator (a : Ascii.ascii) : bool :=
  let n := Ascii.nat_of_ascii a in
  ((n =? 58) || (n =? 45) || (n =? 46) || (n =? 32) || (n =? 9) || (n =? 13) || (n =? 10))%nat.
Fixpoint drop_separators (s : string) : string :=
  match s with
  | EmptyString => EmptyString
  | String a r => if separator a then drop_separators r else String a (drop_separators r)
  end.
Definition normalize_mac (s : string) : string := drop_separators (upper (strip s)).
Definition column_mac (d : device) : string :=
  match col d "mac_address" with JStr s => normalize_mac s | _ => empty_str end.

(** [mark_consumed]: the announcement with the MAC, else the first whose MAC
    normalises to it. *)
Definition settle_announcement (now : time) (a : announcement) : announcement :=
  match an_consumed_at a with
  | Some _ => a
  | None => Announcement (an_mac a) (an_claims a) (an_source_ip a) (an_user_agent a)
              (an_first_seen_at a) (an_last_seen_at a) (an_count a) (an_org a) (an_adopted_at a)
              (an_adopted_by a) None (an_token_id a) (an_delivered_at a) (Some now) (an_rejected_at a)
  end.
Definition ann_where (p : announcement -> bool) (g : registry) : option string :=
  fst <$> head (filter (fun ka : string * announcement => p ka.2 = true) (map_to_list (rg_anns g))).
Definition mark_consumed (mac : string) (now : time) (g : registry) : registry :=
  let target := normalize_mac mac in
  if is_empty target then g else
  match match ann_where (fun a => String.eqb (an_mac a) target) g with
        | Some id => Some id
        | None => ann_where (fun a => String.eqb (normalize_mac (an_mac a)) target) g
        end with
  | Some id => with_anns (alter (settle_announcement now) id) g
  | None => g
  end.

(** [_push_restore_config]: the whole intent when it can be pushed, else the name;
    no failure leaves the call.  [n1], [n2], [n3] are clock readings. *)
Definition push_name (dev name : string) (issuer : option string) (n1 n2 : time) (g : registry)
    : registry :=
  let p := rg_plant g in
  match enqueue_for_device ulid dev "apply_config" (Some [("device_name", JStr name)]) issuer
          (Some 600) None false false n1 n2 (plant_hub p) with
  | (Raise _, h) => with_plant (with_hub h p) g
  | (Ret _, h) =>
    with_plant (with_audit (AuditEntry "device.restore_config_pushed" dev
      [("trigger", JStr "restore_after_reflash"); ("via", JStr "display_name_only");
       ("pushed_fields", JList [JStr "device_name"]); ("device_name", JStr name)]) (with_hub h p)) g
  end.
Definition push_restore_config (dev : string) (name issuer : option string) (n1 n2 n3 : time)
    (g : registry) : registry :=
  let p := rg_plant g in
  let desired := default [] (get_desired_config dev (pl_fleet p)) in
  match is_feature_enabled environ py_repr (pl_settings p) with
  | Raise _ => g
  | Ret feature_on =>
    let fall_back g := match name with
                       | Some n => if is_empty n then g else push_name dev n issuer n1 n2 g
                       | None => g
                       end in
    if negb (bool_decide (desired = [])) && feature_on then
      match push_desired_config ulid dev "restore" issuer n1 n2 n3 p with
      | (Raise _, _) => g
      | (Ret (Enqueued cid), p') =>
        with_plant (with_audit (AuditEntry "device.restore_config_pushed" dev
          [("trigger", JStr "restore_after_reflash"); ("via", JStr "desired_config_blob");
           ("command_id", JStr cid); ("pushed_keys", JList (JStr <$> sorted (dict_keys desired)))]) p') g
      | (Ret (NotEnqueued _), p') => fall_back (with_plant p' g)
      end
    else fall_back g
  end.

(** [consume_enrollment_token]: the device and its bearer token. *)
Definition consume_enrollment_token (token : json) (p : pydict) (random : string)
    (now n1 n2 n3 : time) (g : registry) : outcome (string * string) * registry :=
  match _ ← validate_registration p;
        match token with JStr s => Ret s | _ => Raise (AttributeError "encode") end with
  | Raise e => (Raise e, g)
  | Ret token =>
    match session_scope (consume_txn token p random now) g with
    | (Raise e, g) => (Raise e, g)
    | (Ret (dev, secret, et), g) =>
      let d := default (Device false false None ∅) (reg_devices g !! dev) in
      let g := mark_consumed (match col d "mac_address" with JStr m => m | _ => empty_str end) n1 g in
      (Ret (dev, secret),
       if truthy_str (et_target et)
       then push_restore_config dev (as_str (col d "display_name")) (et_issuer et) n1 n2 n3 g
       else g)
    end
  end.

(** [register] ([device_api.py]): the status, with the device and its token. *)
Definition register (body : pydict) (random : string) (now n1 n2 n3 : time) (g : registry)
    : outcome (Z * option (string * string)) * registry :=
  let token := dget body "enrollment_token" in
  if negb (truthy token) then (Ret (400, None), g)
  else
    match consume_enrollment_token token body random now n1 n2 n3 g with
    | (Ret ds, g) => (Ret (201, Some ds), g)
    | (Raise (AppError "EnrollmentError" code), g) =>
      (Ret (if String.eqb code "enrollment_expired" then 410
            else if in_strs code ["enrollment_consumed"; "device_already_registered"] then 409
            else 400, None), g)
    | (Raise e, g) => (Raise e, g)
    end.

(** ** Authentication ([device_auth.py]) *)

(** [_resolve_device]: the device and its organisation, with the contact stamped. *)
Definition resolve_device (authorization : string) (now : time) (g : registry)
    : option (string * option string) * registry :=
  if negb (startswith "Bearer " authorization) then (None, g)
  else
    let h := sha256 (String.substring 7 (String.length authorization - 7) authorization) in
    match head (filter (fun kc : string * credential => dc_hash kc.2 = h /\ dc_revoked kc.2 = false)
                  (map_to_list (rg_creds g))) with
    | None => (None, g)
    | Some (dev, c) =>
      match reg_devices g !! dev with
      | None => (None, g)
      | Some d =>
        if negb (bool_decide (col d "registration_state" = JStr "active")) then (None, g)
        else
          let org := match col d "site_id" with
                     | JStr s => if is_empty s then None else st_org <$> rg_sites g !! s
                     | _ => None
                     end in
          (Some (dev, org),
           with_creds (insert dev (Credential (dc_hash c) (dc_revoked c) (dc_issued_at c) (Some now)))
             (put_dev dev (set_col "last_seen_at" (JInt now) d) g))
      end
    end.
End enrollment.
