(* ===== verification/Announcements.v ===== *)
(** * Announcements and adoption ([app/services/announcements.py])

    A device without a token announces itself; an operator adopts, restores or
    rejects it; the next poll hands the device an enrollment token.  With the two
    repairs of [/device/announce]: the automatic rebind of a known device and the
    recovery of a stranded pickup. *)

From Stdlib Require Import Ascii.
From stdpp Require Import pretty.
From S2P Require Import Prelude PyFloat RuntimeSettings EventBus Commands TenantScope.
From S2P Require Import PowerSamples Devices Deployments DeviceConfig Enrollment.
Local Open Scope string_scope.
Local Open Scope list_scope.
Local Open Scope Z_scope.

(** [AnnouncementError(code, message)]. *)
Definition AnnouncementError {A} (code : string) : outcome A :=
  Raise (AppError "AnnouncementError" code).

Definition FIELD_CAPS : list (string * Z) :=
  [("claimed_hardware_model", 80); ("claimed_hardware_revision", 40);
   ("claimed_firmware_version", 40); ("claimed_local_ip", 64); ("claimed_serial_number", 80);
   ("claimed_display_name_hint", 120)].

(** A row with its lifecycle columns replaced. *)
Definition relife (adopted_at : option time) (adopted_by secret token_id : option string)
    (delivered_at consumed_at : option time) (a : announcement) : announcement :=
  Announcement (an_mac a) (an_claims a) (an_source_ip a) (an_user_agent a) (an_first_seen_at a)
    (an_last_seen_at a) (an_count a) (an_org a) adopted_at adopted_by secret token_id delivered_at
    consumed_at (an_rejected_at a).
Definition set_rejected (t : option time) (by_user : option string) (a : announcement)
    : announcement :=
  Announcement (an_mac a) (an_claims a) (an_source_ip a) (an_user_agent a) (an_first_seen_at a)
    (an_last_seen_at a) (an_count a) (an_org a) (an_adopted_at a) by_user (an_secret a)
    (an_token_id a) (an_delivered_at a) (an_consumed_at a) t.
(** The flush of a changed row stamps the caller's organisation. *)
Definition set_ann_org (o : option string) (a : announcement) : announcement :=
  Announcement (an_mac a) (an_claims a) (an_source_ip a) (an_user_agent a) (an_first_seen_at a)
    (an_last_seen_at a) (an_count a) o (an_adopted_at a) (an_adopted_by a) (an_secret a)
    (an_token_id a) (an_delivered_at a) (an_consumed_at a) (an_rejected_at a).
Definition put_ann (id : string) (a : announcement) : registry -> registry :=
  with_anns (insert id a).

(** ** The states *)

(** [state] of [serialize]. *)
Definition ann_state (a : announcement) : string :=
  match an_rejected_at a, an_consumed_at a, an_delivered_at a, an_adopted_at a with
  | Some _, _, _, _ => "rejected"
  | None, Some _, _, _ => "registered"
  | None, None, Some _, _ => "awaiting_register"
  | None, None, None, Some _ => "awaiting_pickup"
  | None, None, None, None => "pending"
  end.
Definition ANNOUNCEMENT_STALE_AFTER_SECONDS : Z := 3600.
Definition seconds_since (now t : time) : Z := Z.max 0 (Z.quot (now - t) MICRO).
Definition is_stale (now : time) (a : announcement) : bool :=
  in_strs (ann_state a) ["pending"; "awaiting_pickup"; "awaiting_register"] &&
  (ANNOUNCEMENT_STALE_AFTER_SECONDS <=? seconds_since now (an_last_seen_at a)).
(** [_humanize_age]. *)
Definition humanize_age (s : Z) : string :=
  let s := Z.max 0 s in
  if s <? 90 then String.append (pretty s) " s"
  else let m := s / 60 in
  if m <? 90 then String.append (pretty m) " m"
  else let h := m / 60 in
  if h <? 48 then String.append (pretty h) " h" else String.append (pretty (h / 24)) " d".

(** [list_announcements], without its order: the rows the caller sees. *)
Definition list_announcements (c : caller) (include_consumed : bool) (g : registry)
    : list (string * announcement) :=
  filter (fun ka : string * announcement =>
    (sees c (an_org ka.2) &&
     (include_consumed || in_strs (ann_state ka.2) ["pending"; "awaiting_pickup"; "awaiting_register"]))
    = true) (map_to_list (rg_anns g)).
Definition get_ann (c : caller) (id : string) (g : registry) : option announcement :=
  match rg_anns g !! id with
  | Some a => if sees c (an_org a) then Some a else None
  | None => None
  end.

Section announcements.
Context (ulid : nat -> string) (sha256 : string -> string).
Context (environ : string -> option string) (py_repr : json -> string).
(** [settings.enrollment_token_ttl_seconds], [.announce_pending_retry_after_seconds],
    [.public_base_url]. *)
Context (default_ttl pending_retry : Z) (public_base_url : string).
Notation mint_in_session := (mint_in_session ulid sha256 environ default_ttl).
Notation mint_enrollment_token := (mint_enrollment_token ulid sha256 environ default_ttl).

(** ** What the device reports *)

Definition validate_claims (claims : pydict) : outcome (gmap string string) :=
  if forallb (fun fw : string * Z => match dget claims fw.1 with
                                     | JNull => true
                                     | JStr s => Z.of_nat (String.length s) <=? fw.2
                                     | _ => false
                                     end) FIELD_CAPS
  then Ret (list_to_map (omap (fun fw : string * Z =>
              match dget claims fw.1 with
              | JStr s => if is_empty s then None else Some (fw.1, s)
              | _ => None
              end) FIELD_CAPS))
  else AnnouncementError "validation_failed".

(** The canonical MAC of a report. *)
Definition validate_mac (mac_address : json) : outcome string :=
  raw ← strip_or_empty mac_address;
  if is_empty raw || (40 <? Z.of_nat (String.length raw)) || negb (mac_chars raw)
  then AnnouncementError "validation_failed" else Ret (normalize_mac raw).

(** The row of a report: a new one, or the old one refreshed. *)
Definition first_report (mac : string) (claims : gmap string string) (source_ip : string)
    (user_agent : option string) (now : time) : announcement :=
  Announcement mac claims (Some source_ip)
    (match user_agent with
     | Some u => if is_empty u then None else Some (str_take 200 u) | None => None end)
    now now 1 None None None None None None None None.
Definition next_report (claims : gmap string string) (source_ip : string)
    (user_agent : option string) (now : time) (a : announcement) : announcement :=
  Announcement (an_mac a) (claims ∪ an_claims a) (Some source_ip)
    (match user_agent with
     | Some u => if is_empty u then an_user_agent a else Some (str_take 200 u)
     | None => an_user_agent a
     end)
    (an_first_seen_at a) now (an_count a + 1) (an_org a) (an_adopted_at a) (an_adopted_by a)
    (an_secret a) (an_token_id a) (an_delivered_at a) (an_consumed_at a) (an_rejected_at a).

(** The column widths the flush checks ([source_ip] is not capped before). *)
Definition row_fits (a : announcement) : bool :=
  match an_source_ip a with Some s => Z.of_nat (String.length s) <=? 64 | None => true end.

Definition device_where (p : device -> bool) (g : registry) : option string :=
  fst <$> head (filter (fun kd : string * device => p kd.2 = true) (map_to_list (reg_devices g))).
(** The first device that is not decommissioned and carries the MAC was in contact. *)
Definition stamp_contact (mac : string) (now : time) (g : registry) : registry :=
  match device_where (fun d => negb (decommissioned d) && String.eqb (column_mac d) mac) g with
  | Some dev => match reg_devices g !! dev with
                | Some d => put_dev dev (set_col "last_seen_at" (JInt now) d) g
                | None => g
                end
  | None => g
  end.

(** [f"device-{mac[-5:].replace(':','')}"]. *)
Fixpoint drop_colons (s : string) : string :=
  match s with
  | EmptyString => EmptyString
  | String a r => if Ascii.eqb a ":"%char then drop_colons r else String a (drop_colons r)
  end.
Definition mac_name (mac : string) : string :=
  String.append "device-" (drop_colons (String.substring (String.length mac - 5) 5 mac)).

(** ** The repairs *)

Definition claim (a : announcement) (k : string) : option string := an_claims a !! k.
Definition some_str (v : json) : option string :=
  match v with JStr s => if is_empty s then None else Some s | _ => None end.

(** [_maybe_prepare_auto_rebind]: whether the row was re-armed for the known device. *)
Definition known_address (d : device) (a : announcement) : bool :=
  let known := strip (or_str (dev_local_ip d) empty_str) in
  let claimed := strip (or_str (claim a "claimed_local_ip") empty_str) in
  let source := strip (or_str (an_source_ip a) empty_str) in
  negb (is_empty known) && (String.eqb claimed known || String.eqb source known).
Definition prepare_auto_rebind (c : caller) (id : string) (random : string) (now : time)
    (g : registry) : outcome bool * registry :=
  match rg_anns g !! id with
  | None => (Ret false, g)
  | Some a =>
    if match an_consumed_at a with None => true | Some _ => false end || truthy_str (an_secret a)
    then (Ret false, g)
    else
      let target := normalize_mac (an_mac a) in
      match device_where (fun d => negb (decommissioned d) && truthy (col d "central_management_enabled")
                                   && String.eqb (column_mac d) target) g with
      | None => (Ret false, g)
      | Some dev =>
        match reg_devices g !! dev with
        | None => (Ret false, g)
        | Some d =>
          if negb (known_address d a) then (Ret false, g)
          else
            let hint := or_str (claim a "claimed_display_name_hint")
                          (or_str (some_str (col d "display_name")) (mac_name (an_mac a))) in
            let '(r, g) := mint_in_session c None (as_str (col d "site_id")) (Some hint)
                             (Some "Auto-rebind after device-side token loss") (Some 86400) (Some dev)
                             random now g in
            match r with
            | Raise e => (Raise e, g)
            | Ret (tid, secret) =>
              (Ret true, put_ann id (relife (Some now) None (Some secret) (Some tid) None None a) g)
            end
        end
      end
  end.

(** The re-mint, with the context of the lost token; the lost token is deleted. *)
Definition recover_with (c : caller) (id : string) (a : announcement)
    (site target hint : option string) (old : option (string * enroll_token)) (random : string)
    (now : time) (g : registry) : outcome bool * registry :=
  let hint := or_str hint (or_str (claim a "claimed_display_name_hint") (mac_name (an_mac a))) in
  let '(r, g) := mint_in_session c None site (Some hint)
                   (Some "Re-mint after stranded awaiting_register") (Some (86400 * 7)) target
                   random now g in
  match r with
  | Raise e => (Raise e, g)
  | Ret (tid, secret) =>
    let g := put_ann id (relife (an_adopted_at a) (an_adopted_by a) (Some secret) (Some tid) None
                           (an_consumed_at a) a) g in
    (Ret true, match old with Some (t, _) => delete_token t g | None => g end)
  end.

(** [_maybe_recover_stranded_pickup]. *)
Definition stranded (a : announcement) : bool :=
  match an_adopted_at a, an_rejected_at a, an_consumed_at a, an_delivered_at a with
  | Some _, None, None, Some _ => negb (truthy_str (an_secret a))
  | _, _, _, _ => false
  end.
Definition recover_stranded_pickup (c : caller) (id : string) (random : string) (now : time)
    (g : registry) : outcome bool * registry :=
  match rg_anns g !! id with
  | None => (Ret false, g)
  | Some a =>
    if negb (stranded a) then (Ret false, g)
    else
      let old := match an_token_id a with
                 | Some t => if is_empty t then None else (pair t) <$> get_token c t g
                 | None => None
                 end in
      match old with
      | Some (_, et) =>
        match et_consumed_at et with
        | Some t => (Ret false, put_ann id (relife (an_adopted_at a) (an_adopted_by a) (an_secret a)
                                   (an_token_id a) (an_delivered_at a) (Some t) a) g)
        | None => recover_with c id a (et_site et) (et_target et) (et_hint et) old random now g
        end
      | None => recover_with c id a None None None old random now g
      end
  end.

(** ** [upsert_announcement] *)

Inductive announce_answer :=
  | Rejected                                   (* retry after an hour *)
  | AwaitingAdoption (retry_after : Z)
  | Adopted (enrollment_token central_register_url : string)
  | Registered
  | AwaitingRegister.

(** [resolve_public_base_url], and [rstrip("/")]. *)
Definition resolve_public_base_url (t : settings) : outcome string :=
  v ← setting_get environ "network.public_base_url" (Some "REBOOTER_PUBLIC_BASE_URL") JNull t;
  Ret (if truthy v then py_str py_repr v else public_base_url).
Fixpoint lstrip_slashes (s : string) : string :=
  match s with
  | String a r => if Ascii.eqb a "/"%char then lstrip_slashes r else s
  | EmptyString => EmptyString
  end.
Definition rstrip_slashes (s : string) : string := rev_str (lstrip_slashes (rev_str s)).

(** The answer, from the lifecycle of the row; a first delivery is stamped. *)
Definition announce_reply (id : string) (now : time) (g : registry)
    : outcome announce_answer * registry :=
  match rg_anns g !! id with
  | None => (Raise (LookupError id), g)
  | Some a =>
    match an_rejected_at a, an_adopted_at a with
    | Some _, _ => (Ret Rejected, g)
    | None, None => (Ret (AwaitingAdoption pending_retry), g)
    | None, Some _ =>
      if truthy_str (an_secret a) then
        let delivered := match an_delivered_at a with Some t => t | None => now end in
        let g := put_ann id (relife (an_adopted_at a) (an_adopted_by a) (an_secret a) (an_token_id a)
                               (Some delivered) (an_consumed_at a) a) g in
        match resolve_public_base_url (pl_settings (rg_plant g)) with
        | Raise e => (Raise e, g)
        | Ret base =>
          (Ret (Adopted (or_str (an_secret a) empty_str)
                  (String.append (rstrip_slashes base) "/api/v1/device/register")), g)
        end
      else match an_consumed_at a with
           | Some _ => (Ret Registered, g)
           | None => (Ret AwaitingRegister, g)
           end
    end
  end.

(** The transaction: [random] is drawn by whichever repair mints. *)
Definition announce_txn (c : caller) (mac : string) (claims : gmap string string)
    (source_ip : string) (user_agent : option string) (random : string) (now : time) (g : registry)
    : outcome announce_answer * registry :=
  let '(id, g) :=
    match ann_where (fun a => String.eqb (an_mac a) mac && sees c (an_org a)) g with
    | Some id => (id, with_anns (alter (next_report claims source_ip user_agent now) id) g)
    | None => (new_id ulid "ann" (rg_next g),
               put_ann (new_id ulid "ann" (rg_next g))
                 (set_ann_org (ca_org c) (first_report mac claims source_ip user_agent now)) (draw g))
    end in
  if negb (match rg_anns g !! id with Some a => row_fits a | None => false end)
  then (Raise (DBError "device_announcements"), g)
  else
    let g := stamp_contact mac now g in
    match prepare_auto_rebind c id random now g with
    | (Raise e, g) => (Raise e, g)
    | (Ret _, g) =>
      match recover_stranded_pickup c id random now g with
      | (Raise e, g) => (Raise e, g)
      | (Ret _, g) => announce_reply id now g
      end
    end.
Definition upsert_announcement (c : caller) (mac_address : json) (claims : pydict)
    (source_ip : string) (user_agent : option string) (random : string) (now : time) (g : registry)
    : outcome announce_answer * registry :=
  match mac ← validate_mac mac_address; cl ← validate_claims claims; Ret (mac, cl) with
  | Raise e => (Raise e, g)
  | Ret (mac, cl) => session_scope (announce_txn c mac cl source_ip user_agent random now) g
  end.

(** ** The operator *)

(** A row changed by the operator, as flushed. *)
Definition flush_ann (c : caller) (id : string) (a : announcement) : registry -> registry :=
  put_ann id (set_ann_org (stamped c (an_org a)) a).

(** [adopt]: the row is adopted (again).  [mint_enrollment_token] commits its own
    transaction. *)
Definition restore_target_ok (target : string) (a : announcement) (g : registry) : outcome unit :=
  match reg_devices g !! target with
  | None => AnnouncementError "not_found"
  | Some d =>
    if decommissioned d then AnnouncementError "validation_failed"
    else
      let ann_mac := upper (strip (an_mac a)) in
      let dev_mac := mac_key (col d "mac_address") in
      if negb (is_empty ann_mac) && negb (is_empty dev_mac) && negb (String.eqb ann_mac dev_mac)
      then AnnouncementError "validation_failed" else Ret tt
  end.
Definition adopt (c : caller) (id : string) (by_user display_name : option string) (mode : string)
    (target : option string) (random : string) (now : time) (g : registry)
    : outcome announcement * registry :=
  if negb (in_strs mode ["fresh"; "restore"]) then (AnnouncementError "validation_failed", g)
  else if String.eqb mode "restore" && negb (truthy_str target)
  then (AnnouncementError "validation_failed", g)
  else match get_ann c id g with
  | None => (AnnouncementError "not_found", g)
  | Some a =>
    match an_rejected_at a, an_adopted_at a with
    | Some _, _ => (AnnouncementError "rejected", g)
    | None, Some _ => (Ret a, g)
    | None, None =>
      match (if String.eqb mode "restore" then restore_target_ok (or_str target empty_str) a g
             else Ret tt) with
      | Raise e => (Raise e, g)
      | Ret _ =>
        let hint := or_str display_name (or_str (claim a "claimed_display_name_hint") (mac_name (an_mac a))) in
        match mint_enrollment_token c by_user None (Some hint) (Some "Adopted via /app/pending-adoption")
                (Some (86400 * 7)) (if String.eqb mode "restore" then target else None) random now g with
        | (Raise e, g) => (Raise e, g)
        | (Ret (tid, secret), g) =>
          let a := relife (Some now) by_user (Some secret) (Some tid) (an_delivered_at a) (an_consumed_at a) a in
          (Ret a, flush_ann c id a g)
        end
      end
    end
  end.

(** [reject]. *)
Definition reject (c : caller) (id : string) (by_user : option string) (now : time) (g : registry)
    : option announcement * registry :=
  match get_ann c id g with
  | None => (None, g)
  | Some a =>
    let at_ := match an_rejected_at a with Some t => Some t | None => Some now end in
    let by_ := if truthy_str by_user && bool_decide (an_adopted_by a = None) then by_user
               else an_adopted_by a in
    let a := set_rejected at_ by_ a in
    (Some a, flush_ann c id a g)
  end.

(** [force_adopt_reconcile]: the active device the row is settled against. *)
Definition force_adopt_reconcile (c : caller) (id : string) (now : time) (g : registry)
    : outcome string * registry :=
  match get_ann c id g with
  | None => (AnnouncementError "not_found", g)
  | Some a =>
    match an_consumed_at a with
    | Some _ => (AnnouncementError "already_consumed", g)
    | None =>
      let target := normalize_mac (an_mac a) in
      match (if is_empty target then None
             else device_where (fun d => bool_decide (col d "registration_state" = JStr "active")
                                         && String.eqb (column_mac d) target) g) with
      | None => (AnnouncementError "no_active_device", g)
      | Some dev =>
        (Ret dev, flush_ann c id (relife (an_adopted_at a) (an_adopted_by a) None (an_token_id a)
                                    (an_delivered_at a) (Some now) a) g)
      end
    end
  end.

(** [delete]. *)
Definition delete_announcement (c : caller) (id : string) (g : registry) : bool * registry :=
  match get_ann c id g with
  | None => (false, g)
  | Some _ => (true, with_anns (base.delete id) g)
  end.
End announcements.
