(* ===== verification/EnrollmentTheorems.v ===== *)
(** * Enrollment: single use, restore, adoption

    The history of the registry, and what redemption, restore, the rebind of a
    known device and the recovery of a stranded pickup do. *)

From Stdlib Require Import Ascii.
From stdpp Require Import pretty.
From S2P Require Import Prelude PyFloat RuntimeSettings EventBus Commands TenantScope.
From S2P Require Import PowerSamples Devices Deployments DeviceConfig Enrollment Announcements.
Local Open Scope string_scope.
Local Open Scope list_scope.
Local Open Scope Z_scope.

(** ** Tokens evolve *)

Section tokens.
Context (ulid : nat -> string) `{!Inj (=) (=) ulid} (sha256 : string -> string).
Context (environ : string -> option string) (py_repr : json -> string).
Context (db_accepts : device -> bool) (default_ttl pending_retry : Z) (public_base_url : string).
Notation mint_in_session := (mint_in_session ulid sha256 environ default_ttl).
Notation consume_txn := (consume_txn ulid sha256 db_accepts).
Notation consume_enrollment_token := (consume_enrollment_token ulid sha256 environ py_repr db_accepts).

(** The token ids were drawn, and a hash names one row. *)
Definition wf_tokens (g : registry) : Prop :=
  (forall id et, rg_tokens g !! id = Some et -> exists n, (n < rg_next g)%nat /\ id = new_id ulid "et" n) /\
  (forall i j a b, rg_tokens g !! i = Some a -> rg_tokens g !! j = Some b -> et_hash a = et_hash b -> i = j).

(** A consumed row stays, consumed, with its hash. *)
Definition spent_stays (g g' : registry) : Prop :=
  forall id et, rg_tokens g !! id = Some et -> consumed et = true ->
    exists et', rg_tokens g' !! id = Some et' /\ consumed et' = true /\ et_hash et' = et_hash et.
Definition good (g g' : registry) : Prop :=
  wf_tokens g -> wf_tokens g' /\ spent_stays g g'.

Lemma good_refl g : good g g.
Proof. intros H. split; [done|]. intros id et; eauto. Qed.
Lemma good_trans g1 g2 g3 : good g1 g2 -> good g2 g3 -> good g1 g3.
Proof.
  intros H1 H2 Hw. destruct (H1 Hw) as [Hw2 S1]. destruct (H2 Hw2) as [Hw3 S2]. split; [done|].
  intros id et Hi Hc. destruct (S1 id et Hi Hc) as (et' & Hi' & Hc' & Hh).
  destruct (S2 id et' Hi' Hc') as (et'' & ? & ? & ?). exists et''. split_and!; congruence.
Qed.

(** Steps that leave the tokens alone and draw no fewer identifiers. *)
Lemma good_same g g' : rg_tokens g' = rg_tokens g -> (rg_next g <= rg_next g')%nat -> good g g'.
Proof.
  intros Ht Hn [Hid Hu]. split; [split|].
  - rewrite Ht. intros id et Hi. destruct (Hid id et Hi) as (n & ? & ?). exists n. split; [lia|done].
  - by rewrite Ht.
  - intros id et. rewrite Ht. eauto.
Qed.

Lemma good_put id a g : good g (put_ann id a g).
Proof. by apply good_same. Qed.

Lemma good_delete_token id g : (forall et, rg_tokens g !! id = Some et -> consumed et = false) ->
  good g (delete_token id g).
Proof.
  intros Hn [Hid Hu]. split; [split|]; cbn.
  - intros i et [_ Hi]%lookup_delete_Some. eauto.
  - intros i j a b [_ Hi]%lookup_delete_Some [_ Hj]%lookup_delete_Some. eauto.
  - intros i et Hi Hc. exists et. split; [|done]. apply lookup_delete_Some. split; [|done].
    intros ->. rewrite (Hn et Hi) in Hc. done.
Qed.

Lemma mint_good c u s h n ttl t r now g : good g (mint_in_session c u s h n ttl t r now g).2.
Proof.
  unfold Enrollment.mint_in_session. destruct (_ || _); [apply good_refl|].
  destruct (stamped _ _) as [org|]; [|apply good_refl].
  set (et := EnrollToken _ _ _ _ _ _ _ _ _ _ _).
  destruct (token_accepted et g) eqn:E; [|apply good_refl]. cbn [snd].
  intros [Hid Hu]. unfold token_accepted in E. apply andb_prop in E as [_ E].
  rewrite forallb_forall in E.
  assert (Hfree : forall i b, rg_tokens g !! i = Some b -> et_hash b <> et_hash et).
  { intros i b Hb Heq. specialize (E (i, b)). cbn in E.
    rewrite Heq, String.eqb_refl in E. by discriminate E; apply list_elem_of_In, elem_of_map_to_list. }
  assert (Hnew : rg_tokens g !! new_id ulid "et" (rg_next g) = None).
  { destruct (rg_tokens g !! _) as [b|] eqn:Eb; [|done].
    destruct (Hid _ _ Eb) as (m & Hm & Heq). apply new_id_inj in Heq; [lia|done]. }
  split; [split|]; cbn.
  - intros i b [[<- <-]|[_ Hb]]%lookup_insert_Some; [exists (rg_next g); split; [lia|done]|].
    destruct (Hid i b Hb) as (m & ? & ?). exists m. split; [lia|done].
  - intros i j a b [[<- <-]|[Hi Ha]]%lookup_insert_Some [[<- <-]|[Hj Hb]]%lookup_insert_Some Heq.
    + done.
    + by destruct (Hfree j b Hb).
    + by destruct (Hfree i a Ha).
    + by apply (Hu i j a b).
  - intros i b Hb Hc. exists b. split; [|done]. cbn. rewrite lookup_insert_ne; [done|congruence].
Qed.

(** Operations that leave the tokens alone. *)
Definition quiet (g g' : registry) : Prop :=
  rg_tokens g' = rg_tokens g /\ (rg_next g <= rg_next g')%nat.
Lemma quiet_refl g : quiet g g.
Proof. by split. Qed.
Lemma quiet_trans g1 g2 g3 : quiet g1 g2 -> quiet g2 g3 -> quiet g1 g3.
Proof. intros [? ?] [? ?]. split; [congruence|lia]. Qed.
Lemma quiet_good g g' : quiet g g' -> good g g'.
Proof. intros [? ?]. by apply good_same. Qed.

Lemma issue_quiet dev h now g : quiet g (issue_credential dev h now g).2.
Proof. unfold issue_credential. by destruct (hash_free _ _). Qed.

Lemma default_site_quiet g : quiet g (default_site_id ulid g).2.
Proof.
  unfold default_site_id. destruct (head _) as [[? ?]|]; [apply quiet_refl|].
  destruct (map_to_list (rg_sites g)) as [|[? ?] [|]]; try apply quiet_refl;
    (destruct (default_org _); [split; cbn; [done|lia]|apply quiet_refl]).
Qed.

Lemma restore_quiet target h p now g :
  quiet g (restore_device db_accepts target h p now g).2.
Proof.
  unfold restore_device. destruct (reg_devices g !! target) as [d|]; [|apply quiet_refl].
  destruct (decommissioned d); [apply quiet_refl|]. destruct (_ && _); [apply quiet_refl|].
  destruct (negb _); [apply quiet_refl|].
  pose proof (issue_quiet target h now (put_dev target (restored p now d) g)) as Hi.
  by destruct (issue_credential _ _ _ _).
Qed.

Lemma adopt_quiet et h name qa p now g :
  quiet g (adopt_device ulid db_accepts et h name qa p now g).2.
Proof.
  unfold adopt_device. destruct (_ && _); [apply quiet_refl|].
  destruct (match et_site et with Some s => _ | None => _ end) as [site g1] eqn:E.
  assert (H1 : quiet g g1).
  { pose proof (default_site_quiet g) as Hd.
    destruct (et_site et) as [s|]; [destruct (is_empty s)|]; rewrite ?E in Hd; try done.
    injection E as _ <-. apply quiet_refl. }
  destruct site as [site|]; [|done]. destruct (_ || _); [done|].
  set (dev := new_id _ _ _). set (d := new_device _ _ _ _ _).
  pose proof (issue_quiet dev h now (draw (put_dev dev d g1))) as Hi.
  destruct (issue_credential _ _ _ _) as [r g2]. cbn in Hi |- *.
  eapply quiet_trans; [exact H1|]. destruct Hi as [? Hn]. split; [done|]. cbn in Hn. lia.
Qed.

(** *** The row of a hash *)
Lemma token_by_hash_some h g id et : token_by_hash h g = Some (id, et) ->
  rg_tokens g !! id = Some et /\ et_hash et = h.
Proof.
  unfold token_by_hash. intros H. apply head_Some_elem_of in H.
  apply list_elem_of_filter in H as [Hh Hi]. by apply elem_of_map_to_list in Hi.
Qed.
Lemma token_by_hash_unique h g id et : wf_tokens g -> rg_tokens g !! id = Some et -> et_hash et = h ->
  token_by_hash h g = Some (id, et).
Proof.
  intros [_ Hu] Hi Hh. destruct (token_by_hash h g) as [[i a]|] eqn:E.
  - apply token_by_hash_some in E as [Ha Hb].
    assert (i = id) as -> by (apply (Hu i id a et); congruence). congruence.
  - unfold token_by_hash in E. apply head_None in E.
    assert (Hin : (id, et) ∈ filter (fun kt : string * enroll_token => et_hash kt.2 = h)
              (map_to_list (rg_tokens g))).
    { apply list_elem_of_filter. split; [done|]. by apply elem_of_map_to_list. }
    rewrite E in Hin. by apply elem_of_nil in Hin.
Qed.

(** A successful redemption consumes the row of its hash. *)
Lemma consume_txn_facts token p r now g dev secret et g' :
  consume_txn token p r now g = (Ret (dev, secret, et), g') ->
  exists id g1, token_by_hash (sha256 token) g = Some (id, et) /\ consumed et = false /\
    quiet g g1 /\ g' = with_tokens (insert id (consume_row now dev et)) g1.
Proof.
  unfold Enrollment.consume_txn.
  destruct (token_by_hash (sha256 token) g) as [[id a]|] eqn:E; [|done].
  destruct (consumed a) eqn:Ec; [done|]. destruct (et_expires_at a <=? now); [done|].
  set (name := or_str _ _). set (qa := _ || _).
  destruct (match et_target a with Some t => _ | None => _ end) as [res g1] eqn:Eb.
  assert (Hq : quiet g g1).
  { pose proof (adopt_quiet a (sha256 (String.append "dt_" r)) name qa p now g) as Ha.
    destruct (et_target a) as [t|]; [|by rewrite Eb in Ha].
    destruct (is_empty t); [by rewrite Eb in Ha|].
    pose proof (restore_quiet t (sha256 (String.append "dt_" r)) p now g) as Hr.
    by rewrite Eb in Hr. }
  destruct res as [d|e]; [|done]. intros [= <- <- <- <-]. eauto 10.
Qed.

Lemma consume_txn_good token p r now g : good g (session_scope (consume_txn token p r now) g).2.
Proof.
  unfold session_scope. destruct (consume_txn token p r now g) as [[[[dev secret] et]|e] g'] eqn:E;
    [|apply good_refl].
  apply consume_txn_facts in E as (id & g1 & Hh & Hc & [Ht Hn] & ->).
  apply token_by_hash_some in Hh as [Hid Hh].
  intros [Hw Hu]. split; [split|]; cbn; rewrite ?Ht.
  - intros i b [[<- <-]|[_ Hb]]%lookup_insert_Some.
    + destruct (Hw id et Hid) as (n & ? & ?). exists n. split; [lia|done].
    + destruct (Hw i b Hb) as (n & ? & ?). exists n. split; [lia|done].
  - intros i j a b [[<- <-]|[Hi Ha]]%lookup_insert_Some [[<- <-]|[Hj Hb]]%lookup_insert_Some Heq.
    + done.
    + by apply (Hu id j et b).
    + by apply (Hu i id a et).
    + by apply (Hu i j a b).
  - intros i b Hb Hcb. exists b. split; [|done]. cbn. rewrite Ht.
    rewrite lookup_insert_ne; [done|]. intros ->. congruence.
Qed.

(** *** The rest of the calls *)
Lemma mark_consumed_quiet mac now g : quiet g (mark_consumed mac now g).
Proof. unfold mark_consumed. destruct (is_empty _); [apply quiet_refl|]. by repeat case_match. Qed.

Lemma push_name_quiet dev n u n1 n2 g : quiet g (push_name ulid dev n u n1 n2 g).
Proof. unfold push_name. by destruct (enqueue_for_device _ _ _ _ _ _ _ _ _ _ _ _) as [[?|?] ?]. Qed.

Lemma push_restore_quiet dev n u n1 n2 n3 g :
  quiet g (push_restore_config ulid environ py_repr dev n u n1 n2 n3 g).
Proof.
  unfold push_restore_config.
  assert (F : forall g', quiet g g' -> quiet g (match n with
    | Some x => if is_empty x then g' else push_name ulid dev x u n1 n2 g' | None => g' end)).
  { intros g' H. destruct n as [x|]; [|done]. destruct (is_empty x); [done|].
    eapply quiet_trans; [exact H|apply push_name_quiet]. }
  destruct (is_feature_enabled _ _ _) as [on|]; [|apply quiet_refl].
  destruct (_ && on); [|apply F, quiet_refl].
  destruct (push_desired_config _ _ _ _ _ _ _ _) as [[[reason|cid]|e] p']; [|done|apply quiet_refl].
  by apply F.
Qed.

Lemma consume_good token p r t n1 n2 n3 g : good g (consume_enrollment_token token p r t n1 n2 n3 g).2.
Proof.
  unfold Enrollment.consume_enrollment_token. destruct (_ ≫= _) as [tok|]; [|apply good_refl].
  pose proof (consume_txn_good tok p r t g) as H.
  destruct (session_scope _ g) as [[[[dev secret] et]|e] g1]; [|done]. cbn in H |- *.
  eapply good_trans; [exact H|]. apply quiet_good.
  set (m := match _ with JStr m => m | _ => _ end).
  destruct (truthy_str _); [eapply quiet_trans; [|apply push_restore_quiet]|]; apply mark_consumed_quiet.
Qed.

Lemma get_token_row c id g et : get_token c id g = Some et -> rg_tokens g !! id = Some et.
Proof. unfold get_token. destruct (rg_tokens g !! id) as [e|]; [|done]. by destruct (sees _ _); intros [= ->]. Qed.

Lemma delete_unconsumed_good c id g et : get_token c id g = Some et -> consumed et = false ->
  good g (delete_token id g).
Proof.
  intros H%get_token_row Hc. apply good_delete_token. intros et' H'. by simplify_eq.
Qed.

Lemma revoke_good c id g : good g (revoke_enrollment_token c id g).2.
Proof.
  unfold revoke_enrollment_token. destruct (get_token c id g) as [et|] eqn:E; [|apply good_refl].
  destruct (consumed et) eqn:Ec; [apply good_refl|]. by eapply delete_unconsumed_good.
Qed.

Lemma revoke_bulk_good c ids g : good g (revoke_enrollment_tokens_bulk c ids g).2.
Proof.
  unfold revoke_enrollment_tokens_bulk.
  assert (G : forall acc, good acc.2 (foldl (revoke_step c) acc ids).2); [|apply (G ([], [], [], g))].
  induction ids as [|id ids IH]; intros [[[rv un] us] g']; [apply good_refl|]. cbn [foldl].
  eapply good_trans; [|apply IH]. unfold revoke_step.
  destruct (get_token c id g') as [et|] eqn:E; [|apply good_refl].
  destruct (consumed et) eqn:Ec; [apply good_refl|]. by eapply delete_unconsumed_good.
Qed.

Notation prepare_auto_rebind := (prepare_auto_rebind ulid sha256 environ default_ttl).
Notation recover_with := (recover_with ulid sha256 environ default_ttl).
Notation recover_stranded_pickup := (recover_stranded_pickup ulid sha256 environ default_ttl).
Notation announce_txn := (announce_txn ulid sha256 environ py_repr default_ttl pending_retry public_base_url).
Notation upsert_announcement :=
  (upsert_announcement ulid sha256 environ py_repr default_ttl pending_retry public_base_url).
Notation adopt := (adopt ulid sha256 environ default_ttl).

Lemma rebind_good c id r now g : good g (prepare_auto_rebind c id r now g).2.
Proof.
  unfold Announcements.prepare_auto_rebind. destruct (rg_anns g !! id) as [a|]; [|apply good_refl].
  destruct (_ || _); [apply good_refl|]. destruct (device_where _ g) as [dev|]; [|apply good_refl].
  destruct (reg_devices g !! dev) as [d|]; [|apply good_refl]. destruct (negb _); [apply good_refl|].
  set (hint := or_str _ _).
  pose proof (mint_good c None (as_str (col d "site_id")) (Some hint)
    (Some "Auto-rebind after device-side token loss") (Some 86400) (Some dev) r now g) as H.
  destruct (mint_in_session _ _ _ _ _ _ _ _ _ g) as [[[tid secret]|e] g1]; [|done].
  eapply good_trans; [exact H|apply good_put].
Qed.

Lemma recover_with_good c id a s t h old r now g :
  (forall x et, old = Some (x, et) -> get_token c x g = Some et /\ consumed et = false) ->
  good g (recover_with c id a s t h old r now g).2.
Proof.
  intros Hold. unfold Announcements.recover_with. set (hint := or_str _ _).
  pose proof (mint_good c None s (Some hint) (Some "Re-mint after stranded awaiting_register")
    (Some (86400 * 7)) t r now g) as H.
  destruct (mint_in_session _ _ _ _ _ _ _ _ _ g) as [[[tid secret]|e] g1] eqn:Em; [|done].
  cbn [snd] in H |- *. destruct old as [[x et]|]; [|eapply good_trans; [exact H|apply good_put]].
  destruct (Hold x et eq_refl) as [Hx%get_token_row Hc].
  intros Hw. destruct (H Hw) as [Hw1 _].
  eapply (good_trans g g1); [exact H| |exact Hw].
  eapply good_trans; [apply good_put|]. apply good_delete_token. cbn. intros et' He'.
  unfold Enrollment.mint_in_session in Em. destruct (_ || _); [done|].
  destruct (stamped _ _); [|done]. destruct (token_accepted _ _); [|done].
  injection Em as _ _ <-. cbn in He'.
  apply lookup_insert_Some in He' as [[_ <-]|[_ He']]; [done|]. by simplify_eq.
Qed.

Lemma recover_good c id r now g : good g (recover_stranded_pickup c id r now g).2.
Proof.
  unfold Announcements.recover_stranded_pickup.
  destruct (rg_anns g !! id) as [a|]; [|apply good_refl].
  destruct (negb _); [apply good_refl|].
  destruct (an_token_id a) as [t|]; [|by apply recover_with_good].
  destruct (is_empty t); [by apply recover_with_good|].
  destruct (get_token c t g) as [et|] eqn:E; cbn [fmap option_fmap option_map];
    [|by apply recover_with_good].
  destruct (et_consumed_at et) eqn:Ec; [apply good_put|].
  apply recover_with_good. intros x e [= <- <-]. split; [done|]. unfold consumed. by rewrite Ec.
Qed.

Lemma reply_good id now g : good g (announce_reply environ py_repr pending_retry public_base_url id now g).2.
Proof.
  unfold announce_reply. destruct (rg_anns g !! id) as [a|]; [|apply good_refl].
  destruct (an_rejected_at a); [apply good_refl|]. destruct (an_adopted_at a); [|apply good_refl].
  destruct (truthy_str _); [|by destruct (an_consumed_at a); apply good_refl].
  set (g1 := put_ann _ _ _). assert (good g g1) by apply good_put.
  by destruct (resolve_public_base_url _ _ _ _).
Qed.

Lemma contact_good mac now g : good g (stamp_contact mac now g).
Proof.
  unfold stamp_contact. destruct (device_where _ g) as [dev|]; [|apply good_refl].
  destruct (reg_devices g !! dev); [by apply good_same|apply good_refl].
Qed.

Lemma announce_good c mac cl ip ua r now g : good g (announce_txn c mac cl ip ua r now g).2.
Proof.
  unfold Announcements.announce_txn.
  destruct (match ann_where _ g with Some id => _ | None => _ end) as [id g1] eqn:E.
  assert (H1 : good g g1).
  { destruct (ann_where _ g); injection E as _ <-; apply good_same; cbn; done || lia. }
  destruct (negb _); [done|].
  assert (H2 : good g (stamp_contact mac now g1)) by (eapply good_trans; [exact H1|apply contact_good]).
  set (g2 := stamp_contact mac now g1) in *.
  pose proof (rebind_good c id r now g2) as H3.
  destruct (prepare_auto_rebind c id r now g2) as [[b|e] g3]; cbn in H3 |- *;
    [|by eapply good_trans].
  pose proof (recover_good c id r now g3) as H4.
  destruct (recover_stranded_pickup c id r now g3) as [[b'|e] g4]; cbn in H4 |- *.
  - eapply good_trans; [exact H2|]. eapply good_trans; [exact H3|].
    eapply good_trans; [exact H4|apply reply_good].
  - eapply good_trans; [exact H2|]. by eapply good_trans.
Qed.

Lemma upsert_good c m cl ip ua r now g : good g (upsert_announcement c m cl ip ua r now g).2.
Proof.
  unfold Announcements.upsert_announcement. destruct (_ ≫= _) as [[mac claims]|]; [|apply good_refl].
  pose proof (announce_good c mac claims ip ua r now g) as H. unfold session_scope.
  destruct (announce_txn _ _ _ _ _ _ _ g) as [[?|?] ?]; [done|apply good_refl].
Qed.

Lemma adopt_good c id u n m t r now g : good g (adopt c id u n m t r now g).2.
Proof.
  unfold Announcements.adopt. destruct (negb _); [apply good_refl|].
  destruct (_ && _); [apply good_refl|]. destruct (get_ann c id g) as [a|]; [|apply good_refl].
  destruct (an_rejected_at a); [apply good_refl|]. destruct (an_adopted_at a); [apply good_refl|].
  destruct (if String.eqb m "restore" then _ else _); [|apply good_refl].
  set (hint := or_str _ _). set (tgt := if String.eqb m "restore" then t else None).
  unfold mint_enrollment_token, session_scope.
  pose proof (mint_good c u None (Some hint) (Some "Adopted via /app/pending-adoption")
    (Some (86400 * 7)) tgt r now g) as H.
  destruct (mint_in_session _ _ _ _ _ _ _ _ _ g) as [[[tid secret]|e] g1]; [|apply good_refl].
  eapply good_trans; [exact H|apply good_put].
Qed.

Lemma resolve_quiet auth now g : quiet g (resolve_device sha256 auth now g).2.
Proof. unfold resolve_device. repeat case_match; simplify_eq/=; by split. Qed.

(** ** Histories

    Every call of the two services and of the authentication, by any caller; a
    device deleted, with what [ON DELETE] reaches; and any other change that leaves the
    tokens alone. *)
Definition unlink_device (id : string) (et : enroll_token) : enroll_token :=
  EnrollToken (et_hash et) (et_issuer et) (et_site et) (et_org et) (et_hint et) (et_note et)
    (et_expires_at et) (if bool_decide (et_target et = Some id) then None else et_target et)
    (et_created_at et) (et_consumed_at et)
    (if bool_decide (et_consumed_by et = Some id) then None else et_consumed_by et).
Definition delete_device_row (id : string) (g : registry) : registry :=
  with_creds (base.delete id) (with_tokens (fmap (unlink_device id))
    (with_plant (with_fleet (drop_device id) (rg_plant g)) g)).

Inductive reg_step : registry -> registry -> Prop :=
  | rs_mint c u s h n ttl t r now g :
      reg_step g (mint_enrollment_token ulid sha256 environ default_ttl c u s h n ttl t r now g).2
  | rs_revoke c id g : reg_step g (revoke_enrollment_token c id g).2
  | rs_bulk c ids g : reg_step g (revoke_enrollment_tokens_bulk c ids g).2
  | rs_consume token p r t n1 n2 n3 g :
      reg_step g (consume_enrollment_token token p r t n1 n2 n3 g).2
  | rs_announce c m cl ip ua r now g : reg_step g (upsert_announcement c m cl ip ua r now g).2
  | rs_adopt c id u n m t r now g : reg_step g (adopt c id u n m t r now g).2
  | rs_reject c id u now g : reg_step g (reject c id u now g).2
  | rs_reconcile c id now g : reg_step g (force_adopt_reconcile c id now g).2
  | rs_delete_announcement c id g : reg_step g (delete_announcement c id g).2
  | rs_authenticate auth now g : reg_step g (resolve_device sha256 auth now g).2
  | rs_delete_device id g : reg_step g (delete_device_row id g)
  | rs_other g g' : quiet g g' -> reg_step g g'.

Lemma delete_device_good id g : good g (delete_device_row id g).
Proof.
  intros [Hid Hu]. split; [split|]; cbn.
  - intros i et. rewrite lookup_fmap_Some. intros (b & <- & Hb). eauto.
  - intros i j a b. rewrite !lookup_fmap_Some. intros (a' & <- & Ha) (b' & <- & Hb). eauto.
  - intros i et Hi Hc. exists (unlink_device id et). cbn. by rewrite lookup_fmap, Hi.
Qed.

Lemma step_good g g' : reg_step g g' -> good g g'.
Proof.
  destruct 1.
  - pose proof (mint_good c u s h n ttl t r now g) as H.
    unfold mint_enrollment_token, session_scope.
    destruct (mint_in_session _ _ _ _ _ _ _ _ _ g) as [[?|?] ?]; [done|apply good_refl].
  - apply revoke_good.
  - apply revoke_bulk_good.
  - apply consume_good.
  - apply upsert_good.
  - apply adopt_good.
  - unfold reject. destruct (get_ann c id g); [apply good_put|apply good_refl].
  - unfold force_adopt_reconcile. repeat case_match; try apply good_refl; apply good_put.
  - unfold delete_announcement. destruct (get_ann c id g); [by apply good_same|apply good_refl].
  - apply quiet_good, resolve_quiet.
  - apply delete_device_good.
  - by apply quiet_good.
Qed.

Lemma steps_good g g' : rtc reg_step g g' -> good g g'.
Proof.
  induction 1 as [g|g1 g2 g3 H _ IH]; [apply good_refl|].
  eapply good_trans; [by apply step_good|exact IH].
Qed.

(** An enrollment token is exchanged once.  After a redemption that gave out a device,
    whatever happens next - other mints, revocations, adoptions, announcements, re-mints,
    requests, deletions of devices, the device itself included - presenting the same token
    again, with any payload, is refused and changes nothing. *)
Theorem enrollment_token_is_single_use token p r t n1 n2 n3 g dev secret g1 g2 p' r' t' m1 m2 m3 :
  wf_tokens g ->
  consume_enrollment_token (JStr token) p r t n1 n2 n3 g = (Ret (dev, secret), g1) ->
  rtc reg_step g1 g2 ->
  exists e, consume_enrollment_token (JStr token) p' r' t' m1 m2 m3 g2 = (Raise e, g2).
Proof.
  intros Hw Hc Hsteps.
  assert (Hspent : exists id et, rg_tokens g1 !! id = Some et /\ consumed et = true /\
    et_hash et = sha256 token).
  { unfold Enrollment.consume_enrollment_token in Hc.
    destruct (_ ≫= _) as [tok|] eqn:Ev; [|done].
    assert (tok = token) as ->.
    { apply bind_ret in Ev as (? & _ & Ev). by injection Ev. }
    destruct (session_scope _ g) as [[[[d s] et]|e] ga] eqn:Es; [|done].
    apply (proj1 (session_scope_ret _ _ _ _)) in Es. apply consume_txn_facts in Es as (id & gb & Hh & _ & _ & ->).
    apply token_by_hash_some in Hh as [_ Hh].
    injection Hc as _ _ <-.
    set (m := match _ with JStr m => m | _ => _ end).
    set (ga := with_tokens _ gb). assert (Hq : quiet ga (mark_consumed m n1 ga)) by apply mark_consumed_quiet.
    exists id, (consume_row t d et). split; [|done].
    destruct (truthy_str _).
    - destruct (push_restore_quiet d (as_str (col (default (Device false false None ∅) (reg_devices ga !! d))
        "display_name")) (et_issuer et) n1 n2 n3 (mark_consumed m n1 ga)) as [-> _].
      destruct Hq as [-> _]. apply lookup_insert_eq.
    - destruct Hq as [-> _]. apply lookup_insert_eq. }
  destruct Hspent as (id & et & Hi & Hcs & Hh).
  assert (Hw1 : wf_tokens g1).
  { pose proof (consume_good (JStr token) p r t n1 n2 n3 g) as H. rewrite Hc in H. by apply H. }
  destruct (steps_good _ _ Hsteps Hw1) as [Hw2 Hst].
  destruct (Hst id et Hi Hcs) as (et' & Hi' & Hc' & Hh').
  unfold Enrollment.consume_enrollment_token. destruct (validate_registration p') as [[]|e]; [|by eexists].
  cbn. unfold session_scope, Enrollment.consume_txn.
  rewrite (token_by_hash_unique (sha256 token) g2 id et'), Hc' by (done || congruence).
  by eexists.
Qed.
End tokens.
