(* ===== verification/AdoptionTheorems.v ===== *)
(** * Restore, rebind and recovery

    What a redemption with a target does to the device and its credential, when the
    announce endpoint re-arms a known device, and the two adoption paths that cannot
    complete. *)

From Stdlib Require Import Ascii.
From stdpp Require Import pretty.
From S2P Require Import Prelude PyFloat RuntimeSettings EventBus Commands TenantScope.
From S2P Require Import PowerSamples Devices Deployments DeviceConfig Enrollment Announcements.
From S2P Require Import EnrollmentTheorems.
Local Open Scope string_scope.
Local Open Scope list_scope.
Local Open Scope Z_scope.

Section credentials.
Context (sha256 : string -> string).
Notation resolve_device := (resolve_device sha256).

(** The credential a bearer token selects. *)
Definition selected (t : string) (g : registry) : option (string * credential) :=
  head (filter (fun kc : string * credential => dc_hash kc.2 = sha256 t /\ dc_revoked kc.2 = false)
          (map_to_list (rg_creds g))).
Lemma selected_some t g dev c : selected t g = Some (dev, c) ->
  rg_creds g !! dev = Some c /\ dc_hash c = sha256 t.
Proof.
  unfold selected. intros H%head_Some_elem_of.
  apply list_elem_of_filter in H as [[Hh _] Hi]. by apply elem_of_map_to_list in Hi.
Qed.
Lemma selected_none t g dev c : rg_creds g !! dev = Some c -> dc_hash c = sha256 t ->
  dc_revoked c = false -> selected t g <> None.
Proof.
  unfold selected. intros Hi Hh Hr [=E]. apply head_None in E.
  assert (Hin : (dev, c) ∈ filter (fun kc : string * credential =>
    dc_hash kc.2 = sha256 t /\ dc_revoked kc.2 = false) (map_to_list (rg_creds g))).
  { apply list_elem_of_filter. split; [done|]. by apply elem_of_map_to_list. }
  rewrite E in Hin. by apply elem_of_nil in Hin.
Qed.

Lemma resolve_selected t now g dev org : (resolve_device (String.append "Bearer " t) now g).1 = Some (dev, org) ->
  exists c, selected t g = Some (dev, c).
Proof.
  unfold Enrollment.resolve_device. rewrite bearer_rest. fold (selected t g).
  destruct (negb _); [done|]. destruct (selected t g) as [[dev' c]|]; [|done].
  destruct (reg_devices g !! dev'); [|done]. destruct (negb _); [done|]. intros [= -> _]. by exists c.
Qed.
Lemma resolve_active t now g dev c d : selected t g = Some (dev, c) -> reg_devices g !! dev = Some d ->
  col d "registration_state" = JStr "active" ->
  exists org, (resolve_device (String.append "Bearer " t) now g).1 = Some (dev, org).
Proof.
  intros Hs Hd Ha. unfold Enrollment.resolve_device. rewrite bearer_rest. fold (selected t g).
  rewrite bearer_prefix.
  cbn [negb].
  rewrite Hs, Hd, Ha, bool_decide_eq_true_2 by done. cbn [negb fst]. by eexists.
Qed.

Lemma hash_free_spec h creds : hash_free h creds = true ->
  forall dev c, creds !! dev = Some c -> dc_hash c <> h.
Proof.
  unfold hash_free. rewrite forallb_forall. intros H dev c Hc Heq.
  specialize (H (dev, c)). cbn in H. rewrite Heq, String.eqb_refl in H.
  by discriminate H; apply list_elem_of_In, elem_of_map_to_list.
Qed.

(** After an issue, the device is reached by the new secret and by no other. *)
Lemma issue_facts dev secret now g g' : issue_credential dev (sha256 secret) now g = (Ret tt, g') ->
  g' = with_creds (fun _ => <[dev := Credential (sha256 secret) false now None]>
                              (base.delete dev (rg_creds g))) g /\
  selected secret g' = Some (dev, Credential (sha256 secret) false now None) /\
  (forall t c, sha256 t <> sha256 secret -> selected t g' <> Some (dev, c)).
Proof.
  unfold issue_credential. destruct (hash_free _ _) eqn:E; [|done]. intros [= <-].
  pose proof (hash_free_spec _ _ E) as Hf. split; [done|].
  set (g' := with_creds _ g).
  assert (Hnew : rg_creds g' !! dev = Some (Credential (sha256 secret) false now None))
    by apply lookup_insert_eq.
  split.
  - destruct (selected secret g') as [[d c]|] eqn:Es.
    + apply selected_some in Es as [Hi Hh]. cbn in Hi.
      apply lookup_insert_Some in Hi as [[<- <-]|[_ Hi]]; [done|]. by destruct (Hf d c Hi).
    + by destruct (selected_none secret g' dev _ Hnew eq_refl eq_refl).
  - intros t c Ht [Hi Hh]%selected_some. rewrite Hnew in Hi. by simplify_eq.
Qed.
End credentials.

(** The columns a restore may write. *)
Definition RESTORED_COLUMNS : list string :=
  ["firmware_version"; "hardware_revision"; "mac_address"; "registration_state"; "capabilities";
   "last_heartbeat_at"; "updated_at"].
Lemma col_written_ne k k' v d : k <> k' -> col (set_col k' v d) k = col d k.
Proof. intros H. unfold col, set_col. cbn. by rewrite lookup_insert_ne. Qed.
Lemma col_written_eq k v d : col (set_col k v d) k = v.
Proof. unfold col, set_col. cbn. by rewrite lookup_insert_eq. Qed.
Lemma col_set_ip k ip d : col (set_local_ip ip d) k = col d k.
Proof. done. Qed.

Lemma restored_keeps p now d :
  dev_is_protected (restored p now d) = dev_is_protected d /\
  dev_is_held_off (restored p now d) = dev_is_held_off d /\
  (forall k, ~ k ∈ RESTORED_COLUMNS -> col (restored p now d) k = col d k) /\
  col (restored p now d) "registration_state" = JStr "active".
Proof.
  unfold restored. split_and!.
  - by repeat case_match.
  - by repeat case_match.
  - intros k Hk. unfold RESTORED_COLUMNS in Hk. rewrite !not_elem_of_cons in Hk.
    destruct Hk as (?&?&?&?&?&?&?&_). rewrite !col_written_ne by done.
    destruct (_ && _); rewrite ?col_written_ne by done;
      (destruct (dget p "local_ip"); try (by rewrite !col_written_ne));
      destruct (is_empty s); rewrite ?col_set_ip, !col_written_ne by done; done.
  - rewrite !col_written_ne, col_written_eq by done. done.
Qed.

(** ** Separators *)

(** The text has a colon, a dash or a dot. *)
Definition mark (a : ascii) : bool := Ascii.eqb a ":" || Ascii.eqb a "-" || Ascii.eqb a ".".
Fixpoint marked (s : string) : bool :=
  match s with EmptyString => false | String a r => mark a || marked r end.

Lemma mark_upper a : mark (ascii_upper a) = mark a.
Proof. by destruct a as [[] [] [] [] [] [] [] []]. Qed.
Lemma mark_not_space a : is_space a = true -> mark a = false.
Proof. by destruct a as [[] [] [] [] [] [] [] []]. Qed.
Lemma mark_separator a : separator a = false -> mark a = false.
Proof. by destruct a as [[] [] [] [] [] [] [] []]. Qed.

Lemma marked_upper s : marked (upper s) = marked s.
Proof.
  induction s as [|a s IH]; [done|].
  change (mark (ascii_upper a) || marked (upper s) = mark a || marked s). by rewrite mark_upper, IH.
Qed.
Lemma marked_lstrip s : marked (lstrip s) = marked s.
Proof.
  induction s as [|a s IH]; cbn; [done|]. destruct (is_space a) eqn:E; [|done].
  by rewrite IH, (mark_not_space a E).
Qed.
Lemma marked_ltrim s : marked (ltrim s) = marked s.
Proof. induction s as [|a s IH]; [done|]. destruct a as [[] [] [] [] [] [] [] []]; cbn; auto. Qed.
Lemma marked_rev_onto s : forall acc, marked (rev_string_onto s acc) = marked s || marked acc.
Proof.
  induction s as [|a s IH]; intros acc; cbn; [done|]. rewrite IH. cbn.
  by destruct (marked s), (mark a), (marked acc).
Qed.
Lemma marked_rev s : marked (rev_str s) = marked s.
Proof. unfold rev_str. by rewrite marked_rev_onto, orb_false_r. Qed.
Lemma marked_strip s : marked (strip s) = marked s.
Proof. unfold strip. by rewrite marked_rev, marked_lstrip, marked_rev, marked_lstrip. Qed.
Lemma marked_trim s : marked (sql_trim s) = marked s.
Proof. unfold sql_trim. by rewrite marked_rev, marked_ltrim, marked_rev, marked_ltrim. Qed.
Lemma marked_drop s : marked (drop_separators s) = false.
Proof.
  induction s as [|a s IH]; cbn; [done|]. destruct (separator a) eqn:E; [done|].
  cbn. by rewrite (mark_separator a E), IH.
Qed.
Lemma marked_normalize s : marked (normalize_mac s) = false.
Proof. apply marked_drop. Qed.
Create Rewrite HintDb macs.
#[export] Hint Rewrite marked_upper marked_strip marked_trim marked_normalize : macs.

(** ** Restore *)

Section adoption.
Context (ulid : nat -> string) (sha256 : string -> string).
Context (environ : string -> option string) (py_repr : json -> string).
Context (db_accepts : device -> bool) (default_ttl pending_retry : Z) (public_base_url : string).
Notation mint_in_session := (mint_in_session ulid sha256 environ default_ttl).
Notation consume_txn := (consume_txn ulid sha256 db_accepts).
Notation resolve_device := (resolve_device sha256).
Notation prepare_auto_rebind := (prepare_auto_rebind ulid sha256 environ default_ttl).
Notation recover_stranded_pickup := (recover_stranded_pickup ulid sha256 environ default_ttl).
Notation announce_txn := (announce_txn ulid sha256 environ py_repr default_ttl pending_retry public_base_url).
Notation upsert_announcement :=
  (upsert_announcement ulid sha256 environ py_repr default_ttl pending_retry public_base_url).
Notation adopt := (adopt ulid sha256 environ default_ttl).

Lemma keys_agree m m' : negb (is_empty m) && (negb (is_empty m') && negb (String.eqb m m')) = false ->
  m = empty_str \/ m' = empty_str \/ m = m'.
Proof.
  destruct (String.eqb_spec m m') as [->|]; [auto|]. destruct m, m'; cbn; auto; done.
Qed.

Lemma restore_device_facts target secret p now g dev g' :
  restore_device db_accepts target (sha256 secret) p now g = (Ret dev, g') ->
  exists d, reg_devices g !! target = Some d /\ decommissioned d = false /\ dev = target /\
    (mac_key (dget p "mac_address") = empty_str \/ mac_key (col d "mac_address") = empty_str \/
     mac_key (dget p "mac_address") = mac_key (col d "mac_address")) /\
    issue_credential target (sha256 secret) now (put_dev target (restored p now d) g) = (Ret tt, g').
Proof.
  unfold restore_device. destruct (reg_devices g !! target) as [d|] eqn:Ed; [|done].
  destruct (decommissioned d) eqn:Edc; [done|].
  destruct (_ && _) eqn:Em; [done|]. destruct (negb (db_accepts _)); [by intros [=]|].
  destruct (issue_credential _ _ _ _) as [[[]|e] g1] eqn:Ei; [|done]. intros [= <- <-].
  exists d. split_and!; try done. apply keys_agree.
  by rewrite <- andb_assoc in Em.
Qed.

(** A restore rebinds the device in place.  Redeeming a token that names a target gives back
    that device, which exists, is not decommissioned and does not contradict the reported MAC;
    its row keeps every column but the reported ones and becomes active, and no other row of the
    plant changes.  Its credential is replaced: the new bearer token authenticates the device,
    no token with another hash does, and the credentials of the other devices stay. *)
Theorem restore_rotates_the_credential token p random now g dev secret et g' target tid :
  token_by_hash (sha256 token) g = Some (tid, et) -> et_target et = Some target ->
  is_empty target = false ->
  consume_txn token p random now g = (Ret (dev, secret, et), g') ->
  exists d, reg_devices g !! target = Some d /\ decommissioned d = false /\ dev = target /\
    (mac_key (dget p "mac_address") = empty_str \/ mac_key (col d "mac_address") = empty_str \/
     mac_key (dget p "mac_address") = mac_key (col d "mac_address")) /\
    rg_plant g' = with_fleet (put_device target (restored p now d)) (rg_plant g) /\
    (forall k, ~ k ∈ RESTORED_COLUMNS -> col (restored p now d) k = col d k) /\
    (forall other, other <> target -> rg_creds g' !! other = rg_creds g !! other) /\
    (forall t, exists org, (resolve_device (String.append "Bearer " secret) t g').1 = Some (target, org)) /\
    (forall bearer t org, sha256 bearer <> sha256 secret ->
       (resolve_device (String.append "Bearer " bearer) t g').1 <> Some (target, org)).
Proof.
  intros Htok Ht He. unfold Enrollment.consume_txn. rewrite Htok, Ht, He.
  destruct (consumed et); [done|]. destruct (_ <=? now); [done|].
  set (s := String.append "dt_" random).
  destruct (restore_device _ _ _ _ _ _) as [[r|e] g1] eqn:Er; [|done]. intros [= <- <- <-].
  apply restore_device_facts in Er as (d & Hd & Hdc & -> & Hm & Hi).
  exists d. apply issue_facts in Hi as (Hg & Hsel & Hno). subst g1.
  set (g1 := with_creds _ _) in *. set (g2 := with_tokens _ _).
  assert (Hst : forall t, selected sha256 t g2 = selected sha256 t g1) by done.
  destruct (restored_keeps p now d) as (_ & _ & Hk & Ha).
  split_and!; try done.
  - intros other Hne. cbn. by rewrite lookup_insert_ne, lookup_delete_ne.
  - intros t. apply (resolve_active _ _ _ _ _ _ (restored p now d)
      (eq_trans (Hst s) Hsel)); [|done]. cbn. apply lookup_insert_eq.
  - intros bearer t org Hne [c Hc]%resolve_selected. rewrite Hst in Hc. by eapply Hno.
Qed.

(** ** Restoring by MAC *)

(** The restore path refuses the devices it is for.  An announcement stores its MAC without
    separators; the check of [adopt] and the search behind the pending-adoption page compare it
    with the MAC of the device as the firmware wrote it, only stripped and upper-cased.  So a
    device whose stored MAC has a colon, a dash or a dot is never offered as the existing device
    of an announcement, and restoring it is refused as a mismatch - whatever the two MACs are,
    and in particular when they are the same. *)
Theorem separated_macs_cannot_be_restored c id a raw target d m by_user name random now g :
  get_ann c id g = Some a -> an_mac a = normalize_mac raw -> is_empty (upper (strip (an_mac a))) = false ->
  an_rejected_at a = None -> an_adopted_at a = None ->
  is_empty target = false -> reg_devices g !! target = Some d ->
  col d "mac_address" = JStr m -> marked m = true ->
  ~ target ∈ find_by_mac (an_mac a) (pl_fleet (rg_plant g)) /\
  adopt c id by_user name "restore" (Some target) random now g =
    (AnnouncementError "validation_failed", g).
Proof.
  intros Ha Hm Hne Hr Had Ht Hd Hmac Hmark. split.
  - unfold find_by_mac. destruct (is_empty (upper (strip (an_mac a)))); [done|].
    intros ([i d'] & -> & [Hf Hi]%list_elem_of_filter)%list_elem_of_fmap.
    apply elem_of_map_to_list in Hi. cbn in Hi, Hf, Hd. unfold reg_devices, plant_hub in Hd.
    rewrite Hd in Hi. injection Hi as <-. rewrite Hmac in Hf.
    apply andb_prop in Hf as [Hf _]. apply String.eqb_eq in Hf. apply (f_equal marked) in Hf.
    rewrite Hm in Hf. autorewrite with macs in Hf. congruence.
  - unfold Announcements.adopt. rewrite Ha, Hr, Had. cbn [in_strs existsb negb truthy_str andb].
    change (in_strs "restore" ["fresh"; "restore"]) with true. cbn [negb].
    change (String.eqb "restore" "restore") with true. rewrite Ht. cbn [negb andb or_str].
    rewrite Ht. unfold restore_target_ok. rewrite Hd.
    destruct (decommissioned d); [done|]. rewrite Hne, Hmac. cbn [mac_key negb andb].
    assert (Hd2 : marked (upper (strip m)) = true) by (by autorewrite with macs).
    assert (Ha2 : marked (upper (strip (an_mac a))) = false) by (rewrite Hm; by autorewrite with macs).
    destruct (upper (strip m)) as [|x y] eqn:E; [done|]. cbn [is_empty negb andb].
    destruct (String.eqb_spec (upper (strip (an_mac a))) (String x y)) as [Heq|]; [|done].
    by rewrite Heq, Hd2 in Ha2.
Qed.

(** ** A stranded pickup *)

(** A token without a site cannot be minted on an unauthenticated request. *)
Lemma siteless_mint_raises m u h n ttl t r now g :
  exists e, (mint_in_session (device_caller m) u None h n ttl t r now g) = (Raise e, g).
Proof.
  unfold Enrollment.mint_in_session. destruct (_ || _); [by eexists|]. cbn. by eexists.
Qed.

Lemma stranded_next cl ip ua now a : stranded (next_report cl ip ua now a) = stranded a.
Proof. done. Qed.

Lemma stranded_facts a : stranded a = true ->
  an_consumed_at a = None /\ an_rejected_at a = None /\ truthy_str (an_secret a) = false.
Proof.
  unfold stranded. destruct (an_adopted_at a), (an_rejected_at a), (an_consumed_at a), (an_delivered_at a);
    try done. intros H. by apply negb_true_iff in H.
Qed.

(** The search by MAC finds the one row that has it. *)
Lemma ann_where_unique m g id a :
  rg_anns g !! id = Some a -> (forall j b, rg_anns g !! j = Some b -> an_mac b = an_mac a -> j = id) ->
  ann_where (fun b => String.eqb (an_mac b) (an_mac a) && sees (device_caller m) (an_org b)) g = Some id.
Proof.
  intros Ha Huniq. unfold ann_where. set (l := filter _ _).
  assert (Hin : (id, a) ∈ l).
  { apply list_elem_of_filter. cbn. rewrite String.eqb_refl. split; [done|]. by apply elem_of_map_to_list. }
  destruct l as [|[j b] r] eqn:El; [by apply elem_of_nil in Hin|]. cbn. f_equal.
  assert (Hj : (j, b) ∈ l) by (rewrite El; by left). subst l.
  apply list_elem_of_filter in Hj as [Hf Hi]. apply elem_of_map_to_list in Hi.
  apply andb_prop in Hf as [Hf _]. apply String.eqb_eq in Hf. by apply (Huniq j b).
Qed.

(** What the MAC check answers is the normal form of the stripped string. *)
Lemma validated_mac raw mac : validate_mac (JStr raw) = Ret mac -> mac = normalize_mac (strip raw).
Proof.
  unfold validate_mac, strip_or_empty, jor. cbn [truthy].
  destruct raw as [|x y]; cbn [is_empty negb]; intros (s & Hs & Em)%bind_ret;
    injection Hs as <-; (destruct (_ || _) in Em; [done|]); by injection Em.
Qed.

(** The recovery of a stranded pickup whose token names no site raises. *)
Lemma siteless_recovery_raises m id a random now g :
  rg_anns g !! id = Some a -> stranded a = true ->
  (forall t et, an_token_id a = Some t -> rg_tokens g !! t = Some et ->
     et_consumed_at et = None /\ et_site et = None) ->
  exists e, recover_stranded_pickup (device_caller m) id random now g = (Raise e, g).
Proof.
  intros Ha Hst Hlost. unfold Announcements.recover_stranded_pickup. rewrite Ha, Hst. cbn [negb].
  assert (R : forall t h old, exists e, recover_with ulid sha256 environ default_ttl (device_caller m) id
    a None t h old random now g = (Raise e, g)).
  { intros t h old. unfold recover_with. set (hint := or_str _ _).
    destruct (siteless_mint_raises m None (Some hint) (Some "Re-mint after stranded awaiting_register")
      (Some (86400 * 7)) t random now g) as [e ->]. by eexists. }
  destruct (an_token_id a) as [t|] eqn:Et; [|apply R]. destruct (is_empty t); [apply R|].
  unfold get_token. destruct (rg_tokens g !! t) as [et|] eqn:Eet; [|apply R].
  destruct (Hlost t et eq_refl Eet) as [Hcons Hsite]. cbn. rewrite Hcons, Hsite. apply R.
Qed.

(** A stranded pickup is never recovered.  For an announcement that was adopted and
    delivered, whose secret is gone and whose token - unconsumed, or deleted - names no site (every
    token [adopt] mints), the repair of the announce endpoint tries to mint a token with
    no site and no bound organisation, which the NOT NULL organisation refuses: every poll of
    that device, whatever it reports, raises and leaves the registry as it was. *)
Theorem stranded_pickup_is_never_recovered m raw claims ip ua random now g id a :
  rg_anns g !! id = Some a -> stranded a = true ->
  (forall t et, an_token_id a = Some t -> rg_tokens g !! t = Some et ->
     et_consumed_at et = None /\ et_site et = None) ->
  (forall j b, rg_anns g !! j = Some b -> an_mac b = an_mac a -> j = id) ->
  normalize_mac (strip raw) = an_mac a ->
  exists e, upsert_announcement (device_caller m) (JStr raw) claims ip ua random now g = (Raise e, g).
Proof.
  intros Ha Hst Hlost Huniq Hraw. unfold Announcements.upsert_announcement.
  destruct (validate_mac (JStr raw)) as [mac|e] eqn:Em; [|by eexists].
  apply validated_mac in Em. rewrite Hraw in Em. subst mac.
  destruct (validate_claims claims) as [cl|e]; [|by eexists]. cbn [mbind outcome_bind].
  enough (exists e g', announce_txn (device_caller m) (an_mac a) cl ip ua random now g = (Raise e, g'))
    as (e & g' & E) by (exists e; unfold session_scope; by rewrite E).
  unfold Announcements.announce_txn. rewrite (ann_where_unique m g id a Ha Huniq).
  set (a' := next_report cl ip ua now a). set (g1 := with_anns _ g).
  assert (H1 : rg_anns g1 !! id = Some a') by (cbn; by rewrite lookup_alter_eq, Ha).
  rewrite H1. destruct (negb (row_fits a')); [by eexists _, _|].
  set (g2 := stamp_contact _ _ _).
  assert (H2 : rg_anns g2 !! id = Some a' /\ rg_tokens g2 = rg_tokens g).
  { subst g2. unfold stamp_contact. destruct (device_where _ g1); [|done].
    by destruct (reg_devices g1 !! _). }
  destruct H2 as [H2 Ht2]. destruct (stranded_facts a Hst) as (Hc & _ & _).
  assert (prepare_auto_rebind (device_caller m) id random now g2 = (Ret false, g2)) as ->.
  { unfold Announcements.prepare_auto_rebind. rewrite H2. cbn. by rewrite Hc. }
  destruct (siteless_recovery_raises m id a' random now g2 H2) as [e ->];
    [exact Hst | by rewrite Ht2 | by eexists _, _].
Qed.

(** ** The rebind of a known device *)

(** When the announce endpoint prepares a rebind.  A token that takes over a device is minted
    only for an announcement that was consumed and holds no secret, and only for a
    device that is not decommissioned, is centrally managed, has the announced MAC and has
    a known address equal to the address the report claims or the one it came from; the token
    then targets that device, and the row carries its secret for the next answer. *)
Theorem rebind_needs_a_known_device c id random now g g' :
  prepare_auto_rebind c id random now g = (Ret true, g') ->
  exists a d dev tid et,
    rg_anns g !! id = Some a /\ an_consumed_at a <> None /\ truthy_str (an_secret a) = false /\
    reg_devices g !! dev = Some d /\ decommissioned d = false /\
    truthy (col d "central_management_enabled") = true /\
    column_mac d = normalize_mac (an_mac a) /\ known_address d a = true /\
    rg_plant g' = rg_plant g /\ rg_creds g' = rg_creds g /\
    rg_tokens g' = <[tid := et]> (rg_tokens g) /\ et_target et = Some dev /\ et_consumed_at et = None /\
    et_hash et = sha256 (String.append "et_" random) /\ et_expires_at et = now + seconds 86400 /\
    an_secret <$> rg_anns g' !! id = Some (Some (String.append "et_" random)).
Proof.
  unfold Announcements.prepare_auto_rebind. destruct (rg_anns g !! id) as [a|] eqn:Ea; [|done].
  destruct (_ || _) eqn:Eg; [done|]. apply orb_false_elim in Eg as [Eg Es].
  destruct (device_where _ g) as [dev|] eqn:Ew; [|done].
  destruct (reg_devices g !! dev) as [d|] eqn:Ed; [|done].
  destruct (known_address d a) eqn:Ek; [|done]. cbn [negb].
  set (hint := or_str _ _).
  unfold Enrollment.mint_in_session. destruct (_ || _); [done|].
  destruct (stamped _ _) as [org|]; [|done]. set (et := EnrollToken _ _ _ _ _ _ _ _ _ _ _).
  destruct (token_accepted et g); [|done]. intros [= <-].
  unfold device_where in Ew. apply fmap_Some in Ew as ([dev' d'] & Hh & ->).
  apply head_Some_elem_of in Hh. apply list_elem_of_filter in Hh as [Hf Hi].
  apply elem_of_map_to_list in Hi. cbn in Hi, Hf, Ed. rewrite Ed in Hi. injection Hi as <-.
  apply andb_prop in Hf as [Hf Hmac]. apply andb_prop in Hf as [Hdc Hcm].
  apply negb_true_iff in Hdc. apply String.eqb_eq in Hmac.
  exists a, d, dev', (new_id ulid "et" (rg_next g)), et.
  split_and!; try done.
  - intros E. by rewrite E in Eg.
  - cbn. by rewrite lookup_insert_eq.
Qed.

(** ** Announcements have no organisation *)

(** Each row is an old one with the same organisation, or has none. *)
Definition orgs_kept (g g' : registry) : Prop :=
  forall id a', rg_anns g' !! id = Some a' ->
    an_org a' = None \/ exists a, rg_anns g !! id = Some a /\ an_org a = an_org a'.
Lemma orgs_kept_same g g' : rg_anns g' = rg_anns g -> orgs_kept g g'.
Proof. intros E id a' H. rewrite E in H. eauto. Qed.
Lemma orgs_kept_trans g1 g2 g3 : orgs_kept g1 g2 -> orgs_kept g2 g3 -> orgs_kept g1 g3.
Proof.
  intros H1 H2 id a' H. destruct (H2 id a' H) as [?|(a & Ha & <-)]; [by left|]. by apply H1.
Qed.
Lemma orgs_kept_put id a a' g : rg_anns g !! id = Some a -> an_org a' = an_org a ->
  orgs_kept g (put_ann id a' g).
Proof.
  intros Ha Ho j b. cbn. intros [[<- <-]|[_ Hb]]%lookup_insert_Some; eauto.
Qed.

Lemma mint_anns c u s h n ttl t r now g : rg_anns (mint_in_session c u s h n ttl t r now g).2 = rg_anns g.
Proof.
  unfold Enrollment.mint_in_session. destruct (_ || _); [done|]. destruct (stamped _ _); [|done].
  by destruct (token_accepted _ _).
Qed.

Lemma rebind_orgs c id r now g : orgs_kept g (prepare_auto_rebind c id r now g).2.
Proof.
  unfold Announcements.prepare_auto_rebind. destruct (rg_anns g !! id) as [a|] eqn:Ea; [|by apply orgs_kept_same].
  destruct (_ || _); [by apply orgs_kept_same|]. destruct (device_where _ g) as [dev|]; [|by apply orgs_kept_same].
  destruct (reg_devices g !! dev) as [d|]; [|by apply orgs_kept_same].
  destruct (negb _); [by apply orgs_kept_same|]. set (hint := or_str _ _).
  pose proof (mint_anns c None (as_str (col d "site_id")) (Some hint)
    (Some "Auto-rebind after device-side token loss") (Some 86400) (Some dev) r now g) as H.
  destruct (mint_in_session _ _ _ _ _ _ _ _ _ g) as [[[tid secret]|e] g1]; [|by apply orgs_kept_same].
  eapply orgs_kept_trans; [by apply orgs_kept_same|].
  cbn in H. apply (orgs_kept_put id a); [by rewrite H|done].
Qed.

Lemma delete_token_orgs id g : orgs_kept g (delete_token id g).
Proof.
  intros j b. cbn. rewrite lookup_fmap_Some. intros (a & <- & Ha). right. exists a. split; [done|].
  unfold forget_token. by destruct (bool_decide _).
Qed.

Lemma recover_orgs c id r now g : orgs_kept g (recover_stranded_pickup c id r now g).2.
Proof.
  unfold Announcements.recover_stranded_pickup.
  destruct (rg_anns g !! id) as [a|] eqn:Ea; [|by apply orgs_kept_same].
  destruct (negb _); [by apply orgs_kept_same|].
  assert (R : forall s t h old, orgs_kept g
    (recover_with ulid sha256 environ default_ttl c id a s t h old r now g).2).
  { intros s t h old. unfold recover_with. set (hint := or_str _ _).
    pose proof (mint_anns c None s (Some hint) (Some "Re-mint after stranded awaiting_register")
      (Some (86400 * 7)) t r now g) as H.
    destruct (mint_in_session _ _ _ _ _ _ _ _ _ g) as [[[tid secret]|e] g1]; cbn [snd] in H |- *;
      [|by apply orgs_kept_same].
    assert (K : orgs_kept g (put_ann id (relife (an_adopted_at a) (an_adopted_by a) (Some secret)
      (Some tid) None (an_consumed_at a) a) g1)).
    { eapply orgs_kept_trans; [by apply orgs_kept_same|]. apply (orgs_kept_put id a); [by rewrite H|done]. }
    destruct old as [[x et]|]; [eapply orgs_kept_trans; [exact K|apply delete_token_orgs]|exact K]. }
  destruct (an_token_id a) as [t|]; [|apply R]. destruct (is_empty t); [apply R|].
  destruct (get_token c t g) as [et|]; [|apply R]. cbn [fmap option_fmap option_map].
  destruct (et_consumed_at et); [by apply (orgs_kept_put id a)|apply R].
Qed.

Lemma reply_orgs id now g : orgs_kept g (announce_reply environ py_repr pending_retry public_base_url id now g).2.
Proof.
  unfold announce_reply. destruct (rg_anns g !! id) as [a|] eqn:Ea; [|by apply orgs_kept_same].
  destruct (an_rejected_at a); [by apply orgs_kept_same|].
  destruct (an_adopted_at a); [|by apply orgs_kept_same].
  destruct (truthy_str _); [|by destruct (an_consumed_at a); apply orgs_kept_same].
  set (g1 := put_ann _ _ _). assert (orgs_kept g g1) by (by apply (orgs_kept_put id a)).
  by destruct (resolve_public_base_url _ _ _ _).
Qed.

Lemma upsert_orgs m raw cl ip ua r now g : orgs_kept g (upsert_announcement (device_caller m) raw cl ip ua r now g).2.
Proof.
  unfold Announcements.upsert_announcement.
  destruct (_ ≫= _) as [[mac claims]|]; [|by apply orgs_kept_same].
  unfold session_scope. destruct (announce_txn _ _ _ _ _ _ _ g) as [[ans|e] g'] eqn:E;
    [|by apply orgs_kept_same]. cbn [snd].
  unfold Announcements.announce_txn in E.
  destruct (match ann_where _ g with Some id => _ | None => _ end) as [id g1] eqn:E1.
  assert (H1 : orgs_kept g g1).
  { destruct (ann_where _ g) as [j|]; injection E1 as <- <-; intros k b; cbn.
    - intros [(-> & a & Ha & ->)|[_ Hb]]%lookup_alter_Some; [right; by exists a|eauto].
    - intros [[<- <-]|[_ Hb]]%lookup_insert_Some; [by left|eauto]. }
  destruct (negb _); [done|]. set (g2 := stamp_contact mac now g1) in *.
  assert (H2 : orgs_kept g g2).
  { eapply orgs_kept_trans; [exact H1|]. apply orgs_kept_same. subst g2. unfold stamp_contact.
    destruct (device_where _ g1); [|done]. by destruct (reg_devices g1 !! _). }
  pose proof (rebind_orgs (device_caller m) id r now g2) as H3.
  destruct (prepare_auto_rebind _ id r now g2) as [[b|] g3]; [|done].
  pose proof (recover_orgs (device_caller m) id r now g3) as H4.
  destruct (recover_stranded_pickup _ id r now g3) as [[b'|] g4]; [|done].
  pose proof (reply_orgs id now g4) as H5. rewrite E in H5.
  eapply orgs_kept_trans; [exact H2|]. eapply orgs_kept_trans; [exact H3|].
  by eapply orgs_kept_trans.
Qed.

(** Under enforced isolation no operator can adopt.  The announce endpoint, which runs without an
    organisation, leaves every row it writes without one (or with the one an operator's
    change gave it); and a row without an organisation is neither listed for, nor
    adopted, restored, rejected, reconciled or deleted by, an operator of any
    organisation once the tenant filter is enforced. *)
Theorem announcements_are_hidden_when_enforced o m raw cl ip ua r now g id a :
  let g' := (upsert_announcement (device_caller m) raw cl ip ua r now g).2 in
  let c := Caller (Some o) Enforce in
  rg_anns g' !! id = Some a ->
  (forall a0, rg_anns g !! id = Some a0 -> an_org a0 = None) ->
  an_org a = None /\ ~ (id, a) ∈ list_announcements c true g' /\
  (forall u n mode t s now', exists code, adopt c id u n mode t s now' g' = (AnnouncementError code, g')) /\
  (forall u now', reject c id u now' g' = (None, g')) /\
  (forall now', force_adopt_reconcile c id now' g' = (AnnouncementError "not_found", g')) /\
  delete_announcement c id g' = (false, g').
Proof.
  intros g' c Ha Hown.
  assert (Ho : an_org a = None).
  { destruct (upsert_orgs m raw cl ip ua r now g id a Ha) as [?|(a0 & Ha0 & <-)]; [done|]. by apply Hown. }
  assert (Hget : get_ann c id g' = None) by (unfold get_ann; by rewrite Ha, Ho).
  split; [done|]. split_and!.
  - intros [Hf _]%list_elem_of_filter. cbn in Hf. by rewrite Ho in Hf.
  - intros u n mode t s now'. unfold Announcements.adopt. rewrite Hget.
    destruct (negb _); [by eexists|]. destruct (_ && _); by eexists.
  - intros u now'. unfold reject. by rewrite Hget.
  - intros now'. unfold force_adopt_reconcile. by rewrite Hget.
  - unfold delete_announcement. by rewrite Hget.
Qed.
End adoption.

(** ** Examples *)
Module Example.

Definition hash (s : string) : string := String.append "h:" s.
Definition no_env (_ : string) : option string := None.
Definition no_repr (_ : json) : string := empty_str.
Definition accepts (_ : device) : bool := true.
Definition no_hub : hub := Hub ∅ ∅ [] [] empty_bus 0.
Definition plant0 : plant := Plant (Fleet no_hub {["site_1"]}) (Firmware ∅ ∅ [] 0) [] [] [] ∅ [].
Definition g0 : registry :=
  Registry plant0 {["site_1" := SiteRow "Default" "org_1"]} {["org_1" := "default"]} ∅ ∅ ∅ 0.
Definition admin : caller := Caller (Some "org_1") Shadow.
Definition anyone : caller := device_caller Shadow.

Notation announce := (upsert_announcement pretty hash no_env no_repr 86400 5 "https://hub.example").
Notation adopt_row := (adopt pretty hash no_env 86400).
Notation redeem := (consume_enrollment_token pretty hash no_env no_repr accepts).

Definition mac : string := "AA:BB:CC:DD:EE:FF".
Definition report : pydict := [("claimed_local_ip", JStr "192.168.1.20")].
Definition payload : pydict := [("mac_address", JStr mac); ("local_ip", JStr "192.168.1.20")].

(** A device announces itself, is adopted, fetches its token and registers. *)
Definition g1 := (announce anyone (JStr mac) report "192.168.1.20" None "a" 10 g0).2.
Definition row : string := new_id pretty "ann" 0.
Definition g2 := (adopt_row admin row (Some "usr_1") None "fresh" None "b" 20 g1).2.
Definition g3 := (announce anyone (JStr mac) report "192.168.1.20" None "c" 30 g2).2.
Definition registered := redeem (JStr "et_b") payload "first" 40 41 42 43 g3.
Definition g4 := registered.2.
Definition dev : string := new_id pretty "dev" 2.

Example adoption :
  (announce anyone (JStr mac) report "192.168.1.20" None "c" 30 g2).1 =
    Ret (Adopted "et_b" "https://hub.example/api/v1/device/register") /\
  registered.1 = Ret (dev, "dt_first") /\
  (resolve_device hash "Bearer dt_first" 50 g4).1 = Some (dev, Some "org_1").
Proof. vm_compute. auto. Qed.

(** Somebody else, from another address, reports the MAC and the local address of the
    device: the answer is a token for that device, and redeeming it locks the device out. *)
Definition stranger := announce anyone (JStr mac) report "203.0.113.9" None "d" 60 g4.
Definition taken := redeem (JStr "et_d") [] "second" 70 71 72 73 stranger.2.
Example takeover :
  stranger.1 = Ret (Adopted "et_d" "https://hub.example/api/v1/device/register") /\
  taken.1 = Ret (dev, "dt_second") /\
  (resolve_device hash "Bearer dt_second" 80 taken.2).1 = Some (dev, Some "org_1") /\
  (resolve_device hash "Bearer dt_first" 80 taken.2).1 = None.
Proof. vm_compute. auto. Qed.

Lemma wf_start : wf_tokens pretty g0.
Proof. split; intros; set_solver. Qed.

Lemma enrollment_token_is_single_use_witness :
  exists e, redeem (JStr "et_b") payload "third" 90 91 92 93 taken.2 = (Raise e, taken.2).
Proof.
  assert (Hs : forall g g', good pretty g g' -> wf_tokens pretty g -> wf_tokens pretty g')
    by (intros g g' H Hw; by apply H).
  eapply (enrollment_token_is_single_use pretty hash no_env no_repr accepts 86400 5
    "https://hub.example" "et_b" payload "first" 40 41 42 43 g3 dev "dt_first" g4).
  - eapply Hs; [|eapply Hs; [|eapply Hs; [|exact wf_start]]].
    + apply upsert_good; apply _.
    + apply adopt_good; apply _.
    + apply upsert_good; apply _.
  - vm_compute. reflexivity.
  - apply (rtc_l _ g4 stranger.2 taken.2).
    + exact (rs_announce pretty hash no_env no_repr accepts 86400 5 "https://hub.example"
        anyone (JStr mac) report "203.0.113.9" None "d" 60 g4).
    + apply rtc_once. exact (rs_consume pretty hash no_env no_repr accepts 86400 5
        "https://hub.example" (JStr "et_d") [] "second" 70 71 72 73 stranger.2).
Defined.

(** The rebind of the stranger's report, on the registry it finds. *)
Definition no_token : enroll_token := EnrollToken "" None None "" None None 0 None 0 None None.
Definition token3 : string := new_id pretty "et" 3.
Definition token1 : string := new_id pretty "et" 1.
Definition rebind_token : enroll_token := default no_token (rg_tokens stranger.2 !! token3).
Lemma restore_rotates_the_credential_witness :
  (resolve_device hash "Bearer dt_first" 80
     (consume_txn pretty hash accepts "et_d" [] "second" 70 stranger.2).2).1 <> Some (dev, Some "org_1").
Proof.
  assert (E : consume_txn pretty hash accepts "et_d" [] "second" 70 stranger.2 =
    (Ret (dev, "dt_second", rebind_token),
     (consume_txn pretty hash accepts "et_d" [] "second" 70 stranger.2).2))
    by (vm_compute; reflexivity).
  destruct (restore_rotates_the_credential pretty hash accepts "et_d" [] "second" 70 stranger.2
    dev "dt_second" rebind_token _ dev token3
    ltac:(vm_compute; reflexivity) ltac:(vm_compute; reflexivity) eq_refl E)
    as (d & _ & _ & _ & _ & _ & _ & _ & _ & H).
  apply (H "dt_first" 80 (Some "org_1")). vm_compute. discriminate.
Defined.

Lemma rebind_needs_a_known_device_witness :
  exists a d dev, known_address d a = true /\ reg_devices g4 !! dev = Some d /\
    an_mac a = "AABBCCDDEEFF".
Proof.
  assert (E : prepare_auto_rebind pretty hash no_env 86400 anyone row "d" 60 g4 =
    (Ret true, (prepare_auto_rebind pretty hash no_env 86400 anyone row "d" 60 g4).2))
    by (vm_compute; reflexivity).
  assert (Hrow : an_mac <$> rg_anns g4 !! row = Some "AABBCCDDEEFF") by (vm_compute; reflexivity).
  destruct (rebind_needs_a_known_device pretty hash no_env 86400 anyone row "d" 60 g4 _ E)
    as (a & d & dv & tid & et & Ha & _ & _ & Hd & _ & _ & _ & Hk & _).
  exists a, d, dv. split; [exact Hk|]. split; [exact Hd|].
  rewrite Ha in Hrow. injection Hrow as Hrow. exact Hrow.
Defined.

(** The device is flashed anew and announces itself: a row with its own MAC. *)
Definition g5 := (announce anyone (JStr mac) report "192.168.1.20" None "e" 90
  (delete_announcement admin row g4).2).2.
Definition row5 : string := new_id pretty "ann" 3.
Definition ann5 : announcement := default (first_report "" ∅ "" None 0) (rg_anns g5 !! row5).
Definition device5 : device := default (Device false false None ∅) (reg_devices g5 !! dev).
Lemma separated_macs_cannot_be_restored_witness :
  adopt_row admin row5 (Some "usr_1") None "restore" (Some dev) "f" 100 g5 =
    (AnnouncementError "validation_failed", g5) /\ an_mac ann5 = normalize_mac mac.
Proof.
  assert (Hm : an_mac ann5 = normalize_mac mac) by (vm_compute; reflexivity).
  split; [|exact Hm].
  refine (proj2 (separated_macs_cannot_be_restored pretty hash no_env 86400 admin row5 ann5 mac dev
    device5 mac (Some "usr_1") None "f" 100 g5 _ Hm _ _ _ _ _ _ _)); vm_compute; reflexivity.
Defined.

(** A pickup stranded by the release that cleared the secret on delivery. *)
Definition g_lost : registry := with_anns (alter (fun a =>
  relife (an_adopted_at a) (an_adopted_by a) None (an_token_id a) (an_delivered_at a) None a) row) g3.
Definition ann_lost : announcement := default (first_report "" ∅ "" None 0) (rg_anns g_lost !! row).
Lemma stranded_pickup_is_never_recovered_witness :
  exists e, announce anyone (JStr mac) report "192.168.1.20" None "z" 200 g_lost = (Raise e, g_lost).
Proof.
  assert (Ha : rg_anns g_lost !! row = Some ann_lost) by (vm_compute; reflexivity).
  apply (stranded_pickup_is_never_recovered pretty hash no_env no_repr 86400 5 "https://hub.example"
    Shadow mac report "192.168.1.20" None "z" 200 g_lost row ann_lost Ha).
  - vm_compute. reflexivity.
  - intros t et Ht Het.
    assert (E : an_token_id ann_lost = Some token1) by (vm_compute; reflexivity).
    rewrite E in Ht. injection Ht as <-.
    assert (E2 : (fun x => (et_consumed_at x, et_site x)) <$> rg_tokens g_lost !! token1 =
      Some (None, None)) by (vm_compute; reflexivity).
    rewrite Het in E2. injection E2 as E3 E4. split; [exact E3|exact E4].
  - intros j b Hj _.
    assert (E : map_to_list (an_mac <$> rg_anns g_lost) = [(row, "AABBCCDDEEFF")])
      by (vm_compute; reflexivity).
    assert (Hin : (j, an_mac b) ∈ map_to_list (an_mac <$> rg_anns g_lost))
      by (apply elem_of_map_to_list; rewrite lookup_fmap, Hj; reflexivity).
    rewrite E in Hin. apply list_elem_of_singleton in Hin. injection Hin as Hj' _. exact Hj'.
  - vm_compute. reflexivity.
Defined.

Lemma announcements_are_hidden_when_enforced_witness :
  exists code, adopt_row (Caller (Some "org_1") Enforce) row (Some "usr_1") None "fresh" None "b" 20 g1 =
    (AnnouncementError code, g1).
Proof.
  assert (Ha : rg_anns g1 !! row = Some (default (first_report "" ∅ "" None 0) (rg_anns g1 !! row)))
    by (vm_compute; reflexivity).
  destruct (announcements_are_hidden_when_enforced pretty hash no_env no_repr 86400 5
    "https://hub.example" "org_1" Shadow (JStr mac) report "192.168.1.20" None "a" 10 g0 row _ Ha)
    as (_ & _ & H & _).
  - intros a0 H. vm_compute in H. discriminate H.
  - apply H.
Defined.
End Example.
