(* ===== verification/RoleBindings.v ===== *)
(** * Role bindings and list filtering ([app/services/role_bindings.py],
    [app/services/rbac_filter.py])

    Who may act on what: bindings grant a role on everything, a site, a group or
    a device; the resolvers turn them into sets of ids, the gates and the list
    filters apply those sets in shadow or enforce mode.  Bindings are a
    tenant-scoped table: every query on them goes through the tenant filter's
    decision [dec] ([TenantScope]). *)

From S2P Require Import Prelude RuntimeSettings TenantScope.
Local Open Scope string_scope.
Local Open Scope list_scope.

(** The row of [role_bindings]. *)
Record binding := Binding {
  rb_id : string;
  rb_org : option string;
  rb_user : string;
  rb_scope_type : string;
  rb_scope_id : option string;
  rb_role : string;
  rb_created_at : time;
  rb_updated_at : time;
  rb_created_by : option string
}.

(** The tables the resolvers read. *)
Record rbac_db := RbacDb {
  rd_bindings : list binding;
  rd_sites : gmap string (option string);        (* id -> organization_id *)
  rd_groups : gmap string (option string);       (* id -> organization_id *)
  rd_devices : gmap string (option string);      (* id -> site_id *)
  rd_members : list (string * string)            (* (group_id, device_id) *)
}.
Definition with_bindings (l : list binding) (db : rbac_db) : rbac_db :=
  RbacDb l (rd_sites db) (rd_groups db) (rd_devices db) (rd_members db).

Definition ALL_SCOPE_TYPES : list string := ["global"; "site"; "group"; "device"].

(** [_ROLE_RANK] and [.get(role, 0)]. *)
Definition ROLE_RANK : list (string * nat) :=
  [("super_admin", 4); ("admin", 3); ("operator", 2); ("viewer", 1)]%nat.
Definition role_rank (r : string) : nat :=
  match find (fun p => String.eqb p.1 r) ROLE_RANK with Some p => p.2 | None => 0 end.

(** [_role_satisfies]. *)
Definition role_satisfies (have need : string) : bool := Nat.leb (role_rank need) (role_rank have).

(** ** CRUD *)

Definition same_key (user st : string) (sid : option string) (b : binding) : bool :=
  String.eqb (rb_user b) user && String.eqb (rb_scope_type b) st &&
  bool_decide (rb_scope_id b = sid).

(** The validation of [grant]. *)
Definition validate_grant (scope_type : string) (scope_id : option string) (role : string)
    : outcome unit :=
  if negb (in_strs scope_type ALL_SCOPE_TYPES) then Raise (ValueError "unknown scope_type")
  else if String.eqb scope_type "global" && bool_decide (scope_id <> None)
  then Raise (ValueError "scope_id must be NULL for scope_type='global'")
  else if negb (String.eqb scope_type "global") && negb (truthy_str scope_id)
  then Raise (ValueError "scope_id required for scope_type")
  else if negb (in_strs role (ROLE_RANK.*1)) then Raise (ValueError "unknown role")
  else Ret tt.

Definition set_role (role : string) (now : time) (b : binding) : binding :=
  Binding (rb_id b) (rb_org b) (rb_user b) (rb_scope_type b) (rb_scope_id b) role
          (rb_created_at b) now (rb_created_by b).

(** Update the first row that satisfies [p] among those the session sees. *)
Fixpoint update_first (p : binding -> bool) (f : binding -> binding) (l : list binding) : list binding :=
  match l with
  | [] => []
  | b :: l => if p b then f b :: l else b :: update_first p f l
  end.
Fixpoint delete_first (p : binding -> bool) (l : list binding) : list binding :=
  match l with
  | [] => []
  | b :: l => if p b then l else b :: delete_first p l
  end.

(** The rows a decision leaves visible. *)
Definition visible (dec : read_decision) (b : binding) : bool :=
  match dec with Unfiltered => true | Filtered org => bool_decide (rb_org b = Some org) end.

(** The organisation the flush stamps on a new row: none under a bypass or
    without an active one, and then the NOT NULL column refuses the row. *)
Definition stamped_org (ctx : tenant_ctx) : option string :=
  if tc_bypass ctx then None else tc_org ctx.

(** [grant]. *)
Definition grant (dec : read_decision) (ctx : tenant_ctx) (new_id : string)
    (user_id scope_type : string) (scope_id : option string) (role : string)
    (granted_by : option string) (now : time) (db : rbac_db) : outcome binding * rbac_db :=
  match validate_grant scope_type scope_id role with
  | Raise e => (Raise e, db)
  | Ret _ =>
    let hit b := visible dec b && same_key user_id scope_type scope_id b in
    match find hit (rd_bindings db) with
    | Some b => (Ret (set_role role now b),
                 with_bindings (update_first hit (set_role role now) (rd_bindings db)) db)
    | None =>
      match stamped_org ctx with
      | None => (Raise (DBError "organization_id NOT NULL"), db)
      | Some org =>
        let b := Binding new_id (Some org) user_id scope_type scope_id role now now granted_by in
        (Ret b, with_bindings (rd_bindings db ++ [b]) db)
      end
    end
  end.

(** [revoke]. *)
Definition revoke (dec : read_decision) (user_id scope_type : string) (scope_id : option string)
    (db : rbac_db) : bool * rbac_db :=
  let hit b := visible dec b && same_key user_id scope_type scope_id b in
  match find hit (rd_bindings db) with
  | None => (false, db)
  | Some _ => (true, with_bindings (delete_first hit (rd_bindings db)) db)
  end.

(** ** Resolvers *)

(** [select(RoleBinding).where(user_id == ...)]. *)
Definition user_bindings (dec : read_decision) (user_id : string) (db : rbac_db) : list binding :=
  List.filter (fun b => visible dec b && String.eqb (rb_user b) user_id) (rd_bindings db).
Definition list_for_user := user_bindings.

(** [has_global_role]. *)
Definition global_at (need : string) (b : binding) : bool :=
  String.eqb (rb_scope_type b) "global" && role_satisfies (rb_role b) need.
Definition has_global_role (dec : read_decision) (user_id need : string) (db : rbac_db) : bool :=
  existsb (global_at need) (user_bindings dec user_id db).

(** ["ALL"] or a set of ids. *)
Inductive scope := All | Only (ids : gset string).
Definition in_scope (x : string) (s : scope) : bool :=
  match s with All => true | Only ids => bool_decide (x ∈ ids) end.

(** [{b.scope_id for b in bindings if b.scope_type == st and ...}]. *)
Definition ids_of (st need : string) (bs : list binding) : gset string :=
  list_to_set (omap (fun b => if String.eqb (rb_scope_type b) st && role_satisfies (rb_role b) need
                              then rb_scope_id b else None) bs).

(** [effective_site_ids] and [effective_group_ids]. *)
Definition effective_ids (st : string) (dec : read_decision) (user_id need : string) (db : rbac_db)
    : scope :=
  let bs := user_bindings dec user_id db in
  if existsb (global_at need) bs then All else Only (ids_of st need bs).
Definition effective_site_ids := effective_ids "site".
Definition effective_group_ids := effective_ids "group".

(** [effective_device_ids]. *)
Definition effective_device_ids (dec : read_decision) (user_id need : string) (db : rbac_db) : scope :=
  let bs := user_bindings dec user_id db in
  if existsb (global_at need) bs then All
  else
    let site_ids := ids_of "site" need bs in
    let group_ids := ids_of "group" need bs in
    let in_sites : gset string := list_to_set
      (omap (fun p : string * option string =>
               match p.2 with
               | Some s => if bool_decide (s ∈ site_ids) then Some p.1 else None
               | None => None
               end) (map_to_list (rd_devices db))) in
    let in_groups : gset string := list_to_set
      (omap (fun m : string * string => if bool_decide (m.1 ∈ group_ids) then Some m.2 else None)
            (rd_members db)) in
    Only (ids_of "device" need bs ∪ in_sites ∪ in_groups).

Definition can_act_on_device dec user_id device_id need db : bool :=
  in_scope device_id (effective_device_ids dec user_id need db).
Definition can_act_on_site dec user_id site_id need db : bool :=
  in_scope site_id (effective_site_ids dec user_id need db).
Definition can_act_on_group dec user_id group_id need db : bool :=
  in_scope group_id (effective_group_ids dec user_id need db).

(** [binding_scope_belongs_to_org]: queries under [system()]. *)
Definition binding_scope_belongs_to_org (scope_type : string) (scope_id : option string)
    (org : string) (db : rbac_db) : bool :=
  if String.eqb scope_type "global" || negb (truthy_str scope_id)
  then String.eqb scope_type "global"
  else match scope_id with
  | None => false
  | Some i =>
    if String.eqb scope_type "site" then bool_decide (rd_sites db !! i = Some (Some org))
    else if String.eqb scope_type "group" then bool_decide (rd_groups db !! i = Some (Some org))
    else if String.eqb scope_type "device" then
      match rd_devices db !! i with
      | Some (Some s) => if is_empty s then false else bool_decide (rd_sites db !! s = Some (Some org))
      | _ => false
      end
    else true
  end.

(** ** Gates *)

(** What reaches [_is_super_admin]: a user object, or, from the list filters, the
    bare id (a [str] has neither [role] nor [id]). *)
Record user := User { u_id : string; u_role : option string; u_email : option string }.
Inductive principal := UserObject (u : user) | UserId (id : string).

(** [_is_super_admin]. *)
Definition is_super_admin (dec : read_decision) (p : option principal) (db : rbac_db) : bool :=
  match p with
  | None => false
  | Some (UserId _) => false
  | Some (UserObject u) =>
    if bool_decide (u_role u = Some "super_admin") then true
    else negb (is_empty (u_id u)) && has_global_role dec (u_id u) "super_admin" db
  end.

(** Audit rows of the gates and the list filters. *)
Inductive rbac_audit :=
  | ScopeDeny (mode : enforce) (actor scope_type scope_id role_needed : string)
  | ShadowDiff (actor resource_type role_needed : string) (total scoped hidden : nat).

Definition RbacScopeDenied : exn := AppError "RbacScopeDenied" "out_of_scope".

Section gates.
Context (environ : string -> option string) (py_repr : json -> string).

(** [enforce_mode] of RBAC: read from the settings at each call; a failing read
    propagates. *)
Definition rbac_enforce_mode (t : settings) : outcome enforce :=
  mode_of py_repr <$> setting_get environ "rbac.enforce_mode" (Some "REBOOTER_RBAC_ENFORCE_MODE")
                        (JStr "shadow") t.

(** [_scope_gate]. *)
Definition scope_gate (t : settings) (u : user) (allowed : bool) (st sid need : string)
    (audit : list rbac_audit) : outcome unit * list rbac_audit :=
  if allowed then (Ret tt, audit)
  else match rbac_enforce_mode t with
  | Raise e => (Raise e, audit)
  | Ret mode =>
    let audit := audit ++ [ScopeDeny mode (u_id u) st sid need] in
    (match mode with Enforce => Raise RbacScopeDenied | Shadow => Ret tt end, audit)
  end.

(** [require_can_act_on_device], [_site] and [_group]: one body, three
    resolvers. *)
Definition require_can_act (st : string)
    (can_act : read_decision -> string -> string -> string -> rbac_db -> bool)
    (dec : read_decision) (t : settings) (u : option user) (sid need : string) (db : rbac_db)
    (audit : list rbac_audit) : outcome unit * list rbac_audit :=
  match u with
  | None => (Ret tt, audit)
  | Some u =>
    if is_super_admin dec (Some (UserObject u)) db then (Ret tt, audit)
    else scope_gate t u (can_act dec (u_id u) sid need db) st sid need audit
  end.
Definition require_can_act_on_device := require_can_act "device" can_act_on_device.
Definition require_can_act_on_site := require_can_act "site" can_act_on_site.
Definition require_can_act_on_group := require_can_act "group" can_act_on_group.

(** ** List filters ([rbac_filter.py]) *)

(** The rows of [base_stmt] are given; [key] is the id column.  [user_id] is the
    argument or the current user's id. *)
Section filters.
Context {A : Type} (key : A -> string).

Definition distinct (l : list string) : gset string := list_to_set l.

(** [filter_devices_with_shadow_logging], [filter_groups_...] and
    [filter_sites_...]; [role_needed or ROLE_VIEWER]. *)
Definition filter_with_shadow_logging (resource : string)
    (effective : read_decision -> string -> string -> rbac_db -> scope)
    (dec : read_decision) (t : settings) (user_id : option string) (role_needed : string)
    (db : rbac_db) (rows : list A) (audit : list rbac_audit)
    : outcome (list A) * list rbac_audit :=
  if negb (truthy_str user_id) then (Ret rows, audit)
  else
    let uid := or_str user_id empty_str in
    if is_super_admin dec (Some (UserId uid)) db then (Ret rows, audit)
    else match rbac_enforce_mode t with
    | Raise e => (Raise e, audit)
    | Ret mode =>
      match effective dec uid (or_str (Some role_needed) "viewer") db with
      | All => (Ret rows, audit)
      | Only ids =>
        let filtered := List.filter (fun r => bool_decide (key r ∈ ids)) rows in
        match mode with
        | Enforce => (Ret filtered, audit)
        | Shadow =>
          let unfiltered_ids := distinct (key <$> rows) in
          let hidden := unfiltered_ids ∖ distinct (key <$> filtered) in
          (Ret rows,
           if bool_decide (hidden = ∅) then audit
           else audit ++ [ShadowDiff uid resource role_needed (size unfiltered_ids)
                            (size (distinct (key <$> filtered))) (size hidden)])
        end
      end
    end.
End filters.

(** The columns of an audit event the filter looks at. *)
Record audit_event := AuditEvent {
  ae_id : string;
  ae_target_type : option string;
  ae_target_id : option string
}.

(** One disjunct: [target_type == st AND target_id IN scope] (NULL is in no
    set), or the type alone when everything is visible. *)
Definition target_visible (st : string) (sc : scope) (e : audit_event) : bool :=
  bool_decide (ae_target_type e = Some st) &&
  match sc with
  | All => true
  | Only ids => match ae_target_id e with Some i => bool_decide (i ∈ ids) | None => false end
  end.

(** The WHERE of [filter_audit_with_shadow_logging]. *)
Definition audit_visible (dev site grp : scope) (e : audit_event) : bool :=
  bool_decide (ae_target_type e = None) ||
  target_visible "device" dev e || target_visible "site" site e || target_visible "group" grp e ||
  match ae_target_type e with
  | Some t => negb (in_strs t ["device"; "site"; "group"])
  | None => false
  end.

Definition is_all (s : scope) : bool := match s with All => true | Only _ => false end.

(** [filter_audit_with_shadow_logging]. *)
Definition filter_audit_with_shadow_logging (dec : read_decision) (t : settings)
    (user_id : option string) (role_needed : string) (db : rbac_db) (rows : list audit_event)
    (audit : list rbac_audit) : outcome (list audit_event) * list rbac_audit :=
  if negb (truthy_str user_id) then (Ret rows, audit)
  else
    let uid := or_str user_id empty_str in
    if is_super_admin dec (Some (UserId uid)) db then (Ret rows, audit)
    else match rbac_enforce_mode t with
    | Raise e => (Raise e, audit)
    | Ret mode =>
      let need := or_str (Some role_needed) "viewer" in
      let dev := effective_device_ids dec uid need db in
      let site := effective_site_ids dec uid need db in
      let grp := effective_group_ids dec uid need db in
      if is_all dev && is_all site && is_all grp then (Ret rows, audit)
      else
        let filtered := List.filter (audit_visible dev site grp) rows in
        match mode with
        | Enforce => (Ret filtered, audit)
        | Shadow =>
          let unfiltered_ids := distinct (ae_id <$> rows) in
          let hidden := unfiltered_ids ∖ distinct (ae_id <$> filtered) in
          (Ret rows,
           if bool_decide (hidden = ∅) then audit
           else audit ++ [ShadowDiff uid "audit_event" role_needed (size unfiltered_ids)
                            (size (distinct (ae_id <$> filtered))) (size hidden)])
        end
    end.
End gates.

(** ** What a binding covers *)

(** [b] lets its user act on device [dev] at tier [need]: the union of the four
    sources. *)
Definition covers (db : rbac_db) (need dev : string) (b : binding) : Prop :=
  role_satisfies (rb_role b) need = true /\
  (rb_scope_type b = "global" \/
   (rb_scope_type b = "device" /\ rb_scope_id b = Some dev) \/
   (exists s, rb_scope_type b = "site" /\ rb_scope_id b = Some s /\
              rd_devices db !! dev = Some (Some s)) \/
   (exists g, rb_scope_type b = "group" /\ rb_scope_id b = Some g /\ (g, dev) ∈ rd_members db)).

(** The user has a visible covering binding. *)
Definition covered (dec : read_decision) (db : rbac_db) (user need dev : string) : Prop :=
  exists b, b ∈ rd_bindings db /\ visible dec b = true /\ rb_user b = user /\ covers db need dev b.

Lemma elem_of_user_bindings dec user db b :
  b ∈ user_bindings dec user db <-> b ∈ rd_bindings db /\ visible dec b = true /\ rb_user b = user.
Proof.
  unfold user_bindings. rewrite !list_elem_of_In, filter_In, andb_true_iff, String.eqb_eq. tauto.
Qed.

Lemma elem_of_ids_of st need bs i :
  i ∈ ids_of st need bs <->
  exists b, b ∈ bs /\ rb_scope_type b = st /\ role_satisfies (rb_role b) need = true /\
            rb_scope_id b = Some i.
Proof.
  unfold ids_of. rewrite elem_of_list_to_set, list_elem_of_omap. apply exist_proper. intros b.
  destruct (String.eqb_spec (rb_scope_type b) st), (role_satisfies (rb_role b) need); cbn;
    naive_solver.
Qed.

Lemma existsb_global need bs :
  existsb (global_at need) bs = true <->
  exists b, b ∈ bs /\ rb_scope_type b = "global" /\ role_satisfies (rb_role b) need = true.
Proof.
  rewrite existsb_exists. apply exist_proper. intros b. unfold global_at.
  rewrite andb_true_iff, String.eqb_eq, list_elem_of_In. done.
Qed.

Lemma device_scope_spec dec user need dev db :
  in_scope dev (effective_device_ids dec user need db) = true <-> covered dec db user need dev.
Proof.
  unfold effective_device_ids, covered. cbv zeta.
  destruct (existsb _ _) eqn:Hg; cbn [in_scope].
  { split; [intros _|done]. apply existsb_global in Hg as (b & Hb & Ht & Hr).
    apply elem_of_user_bindings in Hb as (? & ? & ?). exists b. unfold covers. tauto. }
  assert (forall b, b ∈ user_bindings dec user db -> role_satisfies (rb_role b) need = true ->
            rb_scope_type b <> "global") as Hng.
  { intros b Hb Hr Ht. rewrite <- not_true_iff_false, existsb_global in Hg. eauto. }
  rewrite bool_decide_eq_true, !elem_of_union, !elem_of_list_to_set, !list_elem_of_omap.
  rewrite elem_of_ids_of. unfold covers. split.
  - intros [[(b & Hb & Ht & Hr & Hi)|([d [s|]] & Hp & Hs)]|([g d] & Hm & Hs)]; cbn in *; try done.
    + apply elem_of_user_bindings in Hb as (? & ? & ?). exists b. tauto.
    + case_bool_decide as Hin; simplify_eq. apply elem_of_map_to_list in Hp.
      apply elem_of_ids_of in Hin as (b & Hb & Ht & Hr & Hi).
      apply elem_of_user_bindings in Hb as (? & ? & ?). exists b. split_and!; eauto 10.
    + case_bool_decide as Hin; simplify_eq.
      apply elem_of_ids_of in Hin as (b & Hb & Ht & Hr & Hi).
      apply elem_of_user_bindings in Hb as (? & ? & ?). exists b. split_and!; eauto 10.
  - intros (b & Hb & Hv & Hu & Hr & Hc).
    assert (b ∈ user_bindings dec user db) as Hin by (by apply elem_of_user_bindings).
    destruct Hc as [Hc|[[Ht Hi]|[(s & Ht & Hi & Hd)|(g & Ht & Hi & Hm)]]].
    + by destruct (Hng b Hin Hr).
    + left; left. eauto 10.
    + left; right. exists (dev, Some s). split; [by apply elem_of_map_to_list|]. cbn.
      rewrite bool_decide_true; [done|]. apply elem_of_ids_of. eauto 10.
    + right. exists (g, dev). split; [done|]. cbn.
      rewrite bool_decide_true; [done|]. apply elem_of_ids_of. eauto 10.
Qed.

(** ** Lists of rows edited in place *)

Lemma find_none_filter {A} (p : A -> bool) l : find p l = None -> List.filter p l = [].
Proof.
  induction l as [|a l IH]; cbn; [done|]. destruct (p a); [done|]. auto.
Qed.
Lemma find_some_filter {A} (p : A -> bool) l x :
  find p l = Some x -> exists r, List.filter p l = x :: r.
Proof.
  induction l as [|a l IH]; cbn; [done|]. destruct (p a); [intros [= ->]; eauto|auto].
Qed.
Lemma filter_update_first p f l :
  (forall x, p x = true -> p (f x) = true) ->
  List.filter p (update_first p f l) =
    match List.filter p l with [] => [] | x :: r => f x :: r end /\
  List.filter (fun x => negb (p x)) (update_first p f l) = List.filter (fun x => negb (p x)) l.
Proof.
  intros Hf. induction l as [|a l [IH1 IH2]]; cbn; [done|].
  destruct (p a) eqn:Hp; cbn.
  - by rewrite Hf by done.
  - rewrite Hp. cbn. by rewrite IH1, IH2.
Qed.
Lemma filter_delete_first p l :
  List.filter p (delete_first p l) = tail (List.filter p l) /\
  List.filter (fun x => negb (p x)) (delete_first p l) = List.filter (fun x => negb (p x)) l.
Proof.
  induction l as [|a l [IH1 IH2]]; cbn; [done|].
  destruct (p a) eqn:Hp; cbn; [done|]. rewrite Hp. cbn. by rewrite IH1, IH2.
Qed.

(** The unique key of a binding. *)
Definition binding_key (b : binding) : option string * string * string * option string :=
  (rb_org b, rb_user b, rb_scope_type b, rb_scope_id b).
Definition keys_unique (l : list binding) : Prop := NoDup (binding_key <$> l).

(** The rows that [grant] and [revoke] look for under organisation [org]. *)
Definition hits (org user st : string) (sid : option string) (b : binding) : bool :=
  visible (Filtered org) b && same_key user st sid b.

Lemma hits_key org user st sid b :
  hits org user st sid b = true <-> binding_key b = (Some org, user, st, sid).
Proof.
  unfold hits, same_key, binding_key. cbn.
  rewrite !andb_true_iff, !bool_decide_eq_true, !String.eqb_eq.
  split; [intros [? [[? ?] ?]]; congruence|intros [=]; tauto].
Qed.

Lemma hits_unique org user st sid l :
  keys_unique l -> length (List.filter (hits org user st sid) l) <= 1.
Proof.
  unfold keys_unique. induction l as [|b l IH]; cbn; [lia|]. intros [Hb Hl]%NoDup_cons.
  destruct (hits org user st sid b) eqn:Hh; [|auto]. cbn.
  assert (List.filter (hits org user st sid) l = []) as ->; [|cbn; lia].
  destruct (List.filter _ l) as [|x r] eqn:E; [done|]. exfalso. apply Hb.
  assert (In x (x :: r)) as Hx by (by left). rewrite <- E in Hx. apply filter_In in Hx as [Hin Hx].
  apply hits_key in Hh, Hx. rewrite Hh, <- Hx. apply list_elem_of_fmap_2. by apply list_elem_of_In.
Qed.

Lemma keys_update_first p role now l :
  binding_key <$> update_first p (set_role role now) l = binding_key <$> l.
Proof. induction l as [|b l IH]; cbn; [done|]. destruct (p b); cbn; [done|by rewrite IH]. Qed.

(** ** Theorems *)
Section theorems.
Context (environ : string -> option string) (py_repr : json -> string).

Lemma role_rank_top r : (role_rank r <= 4)%nat.
Proof.
  unfold role_rank. destruct (find _ ROLE_RANK) as [p|] eqn:E; [|lia]. apply find_some in E as [Hin _].
  unfold ROLE_RANK in Hin. cbn [In] in Hin. destruct Hin as [<-|[<-|[<-|[<-|[]]]]]; cbn; lia.
Qed.
(** A global super administrator is covered everywhere, whatever role is asked for. *)
Lemma super_binding_covers dec u db need dev :
  has_global_role dec u "super_admin" db = true -> covered dec db u need dev.
Proof.
  intros H. apply device_scope_spec. unfold effective_device_ids.
  assert (existsb (global_at need) (user_bindings dec u db) = true) as ->; [|done].
  unfold has_global_role in H. apply existsb_exists in H as (b & Hb & H). apply existsb_exists. exists b. split; [done|].
  unfold global_at, role_satisfies in H |- *. apply andb_true_iff in H as [-> H]. cbn [andb].
  apply Nat.leb_le in H. apply Nat.leb_le. change (role_rank "super_admin") with 4%nat in H. pose proof (role_rank_top need). lia.
Qed.

(** C6. The device gate decides by the union of the user's bindings.  A user passes silently
    exactly when the account has the legacy role of super administrator, which needs no binding,
    or when a visible binding of a sufficient role is global or names the device, its site or
    one of its groups.  For everybody else the answer is the mode's: in shadow mode the user
    passes too, with one denial recorded; under enforcement the denial is recorded and the call
    raises [RbacScopeDenied]; and it fails with the setting when that cannot be read. *)
Theorem device_gate_is_the_union dec t u dev need db audit :
  let passes := u_role u = Some "super_admin" \/ covered dec db (u_id u) need dev in
  match require_can_act_on_device environ py_repr dec t (Some u) dev need db audit with
  | (Ret _, audit') =>
      (passes /\ audit' = audit) \/
      (~ passes /\ rbac_enforce_mode environ py_repr t = Ret Shadow /\
       audit' = audit ++ [ScopeDeny Shadow (u_id u) "device" dev need])
  | (Raise e, audit') =>
      ~ passes /\
      ((rbac_enforce_mode environ py_repr t = Ret Enforce /\ e = RbacScopeDenied /\
        audit' = audit ++ [ScopeDeny Enforce (u_id u) "device" dev need]) \/
       (rbac_enforce_mode environ py_repr t = Raise e /\ audit' = audit))
  end.
Proof.
  cbv zeta. unfold require_can_act_on_device, require_can_act, scope_gate, can_act_on_device, is_super_admin.
  case_bool_decide as Hr; [left; auto|].
  destruct (negb _ && _) eqn:Hs.
  { apply andb_true_iff in Hs as [_ Hs]. left. split; [right; by apply super_binding_covers|done]. }
  destruct (in_scope dev _) eqn:Hi.
  { left. split; [right; by apply device_scope_spec|done]. }
  assert (~ (u_role u = Some "super_admin" \/ covered dec db (u_id u) need dev)) as Hno.
  { intros [|H]; [done|]. apply device_scope_spec in H. congruence. }
  destruct (rbac_enforce_mode _ _ t) as [[]|e]; cbn; auto 10.
Qed.

(** What one grant does to the table. *)
Lemma grant_step org ctx id user st sid role by_ now db b db' :
  stamped_org ctx = Some org -> keys_unique (rd_bindings db) ->
  grant (Filtered org) ctx id user st sid role by_ now db = (Ret b, db') ->
  keys_unique (rd_bindings db') /\ rb_role b = role /\
  List.filter (hits org user st sid) (rd_bindings db') = [b] /\
  List.filter (fun x => negb (hits org user st sid x)) (rd_bindings db') =
  List.filter (fun x => negb (hits org user st sid x)) (rd_bindings db).
Proof.
  intros Hc Hu Hg. unfold grant in Hg. destruct (validate_grant st sid role); [|done].
  fold (hits org user st sid) in Hg. pose proof (hits_unique org user st sid _ Hu) as Hlen.
  destruct (find (hits org user st sid) (rd_bindings db)) as [x|] eqn:Hf.
  - simplify_eq. cbn [rd_bindings with_bindings]. split.
    { unfold keys_unique. by rewrite keys_update_first. }
    split; [done|]. destruct (filter_update_first (hits org user st sid) (set_role role now)
      (rd_bindings db)) as [-> ->].
    { intros y Hy. apply hits_key. by apply hits_key in Hy. }
    apply find_some_filter in Hf as [r Hr]. rewrite Hr in *. destruct r; [done|cbn in Hlen; lia].
  - rewrite Hc in Hg. simplify_eq. cbn [rd_bindings with_bindings]. apply find_none_filter in Hf.
    set (b := Binding id (Some org) user st sid role now now by_).
    assert (hits org user st sid b = true) as Hb by (by apply hits_key).
    rewrite !List.filter_app. cbn [List.filter]. rewrite Hb, Hf, app_nil_r. cbn [negb]. split_and!; try done.
    unfold keys_unique. rewrite fmap_app. apply NoDup_app. split_and!; [done| |by apply NoDup_singleton].
    intros k Hk Hin. apply list_elem_of_singleton in Hin as ->.
    apply list_elem_of_fmap in Hk as (y & Hy & Hin). cbn in Hy.
    assert (y ∈ List.filter (hits org user st sid) (rd_bindings db)) as Hy'.
    { apply list_elem_of_In, filter_In. split; [by apply list_elem_of_In|by apply hits_key]. }
    rewrite Hf in Hy'. by apply not_elem_of_nil in Hy'.
Qed.

(** Granting and revoking.  Under organisation [org], a grant keeps the keys
    unique, leaves exactly one binding of that user and scope in the organisation
    (the one it returns, with the granted role) and touches no other row: granting
    again only changes the role of that same row.  Revoking then removes it and
    nothing else. *)
Theorem grant_then_revoke org ctx id user st sid role by_ now db b db' :
  stamped_org ctx = Some org -> keys_unique (rd_bindings db) ->
  grant (Filtered org) ctx id user st sid role by_ now db = (Ret b, db') ->
  let hit := hits org user st sid in
  let others l := List.filter (fun x => negb (hit x)) l in
  keys_unique (rd_bindings db') /\ rb_role b = role /\
  List.filter hit (rd_bindings db') = [b] /\
  others (rd_bindings db') = others (rd_bindings db) /\
  (forall id2 role2 by2 now2 b2 db2,
     grant (Filtered org) ctx id2 user st sid role2 by2 now2 db' = (Ret b2, db2) ->
     b2 = set_role role2 now2 b /\ length (rd_bindings db2) = length (rd_bindings db')) /\
  exists db'', revoke (Filtered org) user st sid db' = (true, db'') /\
    List.filter hit (rd_bindings db'') = [] /\ others (rd_bindings db'') = others (rd_bindings db).
Proof.
  intros Hc Hu Hg. cbv zeta.
  destruct (grant_step _ _ _ _ _ _ _ _ _ _ _ _ Hc Hu Hg) as (Hu' & Hr & Hone & Hoth). split_and!; [done..| |].
  - intros id2 role2 by2 now2 b2 db2 H2. unfold grant in H2.
    destruct (validate_grant st sid role2); [|done]. fold (hits org user st sid) in H2.
    destruct (find (hits org user st sid) (rd_bindings db')) as [x|] eqn:Hf.
    + apply find_some_filter in Hf as [r Hf]. rewrite Hone in Hf. simplify_eq. split; [done|].
      cbn [rd_bindings with_bindings]. by rewrite <- (length_fmap binding_key),
        keys_update_first, length_fmap.
    + apply find_none_filter in Hf. by rewrite Hone in Hf.
  - unfold revoke. fold (hits org user st sid).
    destruct (find (hits org user st sid) (rd_bindings db')) as [x|] eqn:Hf.
    + eexists. split; [done|]. cbn [rd_bindings with_bindings].
      destruct (filter_delete_first (hits org user st sid) (rd_bindings db')) as [-> ->].
      by rewrite Hone.
    + apply find_none_filter in Hf. by rewrite Hone in Hf.
Qed.

Lemma filter_with_enforced {A} (key : A -> string) s (rows : list A) r :
  r ∈ List.filter (fun r => bool_decide (key r ∈ s)) rows <-> r ∈ rows /\ key r ∈ (s : gset string).
Proof. rewrite !list_elem_of_In, filter_In, bool_decide_eq_true. done. Qed.

(** List filtering.  For an identified caller, enforce mode returns exactly the
    rows whose id is in the caller's effective scope; shadow mode returns every row
    and logs one diff exactly when enforcement would have hidden some. *)
Theorem list_filter_exact {A} (key : A -> string) resource effective dec t uid need db rows audit :
  is_empty uid = false ->
  let eff := effective dec uid (or_str (Some need) "viewer") db in
  let hidden := exists r, r ∈ rows /\ in_scope (key r) eff = false in
  match rbac_enforce_mode environ py_repr t,
        filter_with_shadow_logging environ py_repr key resource effective dec t (Some uid) need db
          rows audit with
  | Ret Enforce, (Ret out, audit') =>
      (forall r, r ∈ out <-> r ∈ rows /\ in_scope (key r) eff = true) /\ audit' = audit
  | Ret Shadow, (Ret out, audit') =>
      out = rows /\ (audit' = audit /\ ~ hidden \/
                     hidden /\ exists a b c, audit' = audit ++ [ShadowDiff uid resource need a b c])
  | Raise e, (Raise e', audit') => e = e' /\ audit' = audit
  | _, _ => False
  end.
Proof.
  intros Hu. cbv zeta. unfold filter_with_shadow_logging. cbn [truthy_str or_str].
  rewrite Hu. cbn [negb is_super_admin].
  destruct (rbac_enforce_mode environ py_repr t) as [mode|e]; [|done].
  destruct (effective dec uid _ db) as [|ids]; cbn [in_scope].
  { destruct mode.
    - split; [done|]. left. split; [done|]. by intros (r & _ & ?).
    - split; [|done]. intros r. tauto. }
  destruct mode.
  - split; [done|]. case_bool_decide as Hh.
    + left. split; [done|]. intros (r & Hr & Hk). apply bool_decide_eq_false in Hk.
      apply (not_elem_of_empty (C := gset string) (key r)). rewrite <- Hh.
      apply elem_of_difference. unfold distinct. rewrite !elem_of_list_to_set. split.
      * by apply list_elem_of_fmap_2.
      * intros Hin. apply list_elem_of_fmap in Hin as (r' & He & Hin).
        apply filter_with_enforced in Hin as [_ Hin]. congruence.
    + right. split; [|by eexists _, _, _]. apply set_choose_L in Hh as [x Hx].
      apply elem_of_difference in Hx as [H1 H2]. unfold distinct in *.
      rewrite elem_of_list_to_set in H1, H2. apply list_elem_of_fmap in H1 as (r & -> & Hr).
      exists r. split; [done|]. apply bool_decide_eq_false. intros Hk. apply H2.
      apply list_elem_of_fmap_2. by apply filter_with_enforced.
  - split; [|done]. intros r. rewrite filter_with_enforced, bool_decide_eq_true. done.
Qed.

(** The super-admin escape hatch does not work in lists.  A user whose role
    column is [super_admin] and who has no binding passes every gate; but the
    filters hand [_is_super_admin] the bare id, which has no role, so under
    enforcement that user's device, group and site lists are empty. *)
Theorem legacy_super_admin_sees_no_rows {A} (key : A -> string) resource dec t u need db rows audit sid :
  u_role u = Some "super_admin" -> is_empty (u_id u) = false ->
  user_bindings dec (u_id u) db = [] -> rbac_enforce_mode environ py_repr t = Ret Enforce ->
  (require_can_act_on_device environ py_repr dec t (Some u) sid need db audit = (Ret tt, audit)) /\
  Forall (fun eff =>
    filter_with_shadow_logging environ py_repr key resource eff dec t (Some (u_id u)) need db rows
      audit = (Ret [], audit))
    [effective_device_ids; effective_group_ids; effective_site_ids].
Proof.
  intros Hr Hu Hb Hm. split.
  { unfold require_can_act_on_device, require_can_act, is_super_admin.
    by rewrite bool_decide_true. }
  assert (Hnil : forall s : gset string, s = ∅ ->
            List.filter (fun r => bool_decide (key r ∈ s)) rows = []).
  { intros s ->. induction rows as [|r l IH]; [done|]. cbn.
    by rewrite bool_decide_false by set_solver. }
  repeat (constructor; [|try done]); try done;
    unfold filter_with_shadow_logging, effective_device_ids, effective_group_ids,
      effective_site_ids, effective_ids; cbn [truthy_str or_str]; rewrite Hu; cbn [negb is_super_admin];
    rewrite Hm, Hb; cbn [existsb]; rewrite Hnil; try done.
  apply set_eq. intros x. rewrite !elem_of_union, !elem_of_list_to_set, !list_elem_of_omap.
  split; [|by intros ?%not_elem_of_empty]. intros [[H|([d [s|]] & _ & H)]|([g d] & _ & H)]; try done.
Qed.
End theorems.

(** ** Witnesses *)
Module Example.

Definition no_env (_ : string) : option string := None.
Definition no_repr (_ : json) : string := empty_str.
Definition in_a : tenant_ctx := TenantScope.Example.in_a.
Definition enforcing : settings := setting_set "rbac.enforce_mode" (JStr "enforce") None 0 ∅.

Definition site_op : binding :=
  Binding "rb_1" (Some "org_a") "usr_1" "site" (Some "site_1") "operator" 0 0 None.
Definition db0 : rbac_db :=
  RbacDb [site_op] {[ "site_1" := Some "org_a" ]} ∅
         {[ "dev_1" := Some "site_1"; "dev_2" := None ]} [("grp_1", "dev_2")].
Definition u1 : user := User "usr_1" (Some "operator") None.
Definition root : user := User "usr_0" (Some "super_admin") None.

Lemma device_gate_is_the_union_witness :
  covered (Filtered "org_a") db0 "usr_1" "viewer" "dev_1" /\
  require_can_act_on_device no_env no_repr (Filtered "org_a") enforcing (Some u1) "dev_2" "viewer" db0 []
    = (Raise RbacScopeDenied, [ScopeDeny Enforce "usr_1" "device" "dev_2" "viewer"]).
Proof.
  split.
  - pose proof (device_gate_is_the_union no_env no_repr (Filtered "org_a") enforcing u1 "dev_1" "viewer"
                  db0 []) as H.
    destruct (require_can_act_on_device no_env no_repr (Filtered "org_a") enforcing (Some u1) "dev_1"
                "viewer" db0 []) as [o a] eqn:E.
    vm_compute in E. injection E as <- <-.
    destruct H as [[[Hs|Hc] _]|(_ & Hm & _)]; [discriminate Hs|exact Hc|vm_compute in Hm; discriminate Hm].
  - vm_compute. reflexivity.
Defined.

Lemma grant_then_revoke_witness :
  exists b db', grant (Filtered "org_a") in_a "rb_2" "usr_1" "group" (Some "grp_1") "admin" None 5 db0
                  = (Ret b, db') /\ rb_role b = "admin" /\
    (revoke (Filtered "org_a") "usr_1" "group" (Some "grp_1") db').1 = true.
Proof.
  eexists _, _. split; [reflexivity|].
  edestruct (grant_then_revoke "org_a" in_a "rb_2" "usr_1" "group" (Some "grp_1") "admin" None 5 db0)
    as (_ & Hr & _ & _ & _ & db'' & Hv & _).
  - reflexivity.
  - apply NoDup_singleton.
  - reflexivity.
  - split; [exact Hr|]. rewrite Hv. reflexivity.
Defined.

Lemma list_filter_exact_witness :
  "dev_1" ∈ ["dev_1"; "dev_2"] /\
  in_scope "dev_1" (effective_device_ids (Filtered "org_a") "usr_1" "viewer" db0) = true.
Proof.
  pose proof (list_filter_exact no_env no_repr id "device" effective_device_ids (Filtered "org_a")
    enforcing "usr_1" "viewer" db0 ["dev_1"; "dev_2"] [] eq_refl) as H. cbv zeta in H.
  assert (E1 : rbac_enforce_mode no_env no_repr enforcing = Ret Enforce) by (vm_compute; reflexivity).
  assert (E2 : filter_with_shadow_logging no_env no_repr id "device" effective_device_ids
                 (Filtered "org_a") enforcing (Some "usr_1") "viewer" db0 ["dev_1"; "dev_2"] []
               = (Ret ["dev_1"], [])) by (vm_compute; reflexivity).
  rewrite E1, E2 in H. apply (proj1 H). left.
Defined.

Lemma legacy_super_admin_sees_no_rows_witness :
  (filter_with_shadow_logging no_env no_repr id "device" effective_device_ids Unfiltered
     enforcing (Some "usr_0") "viewer" db0 ["dev_1"; "dev_2"] []) = (Ret [], []).
Proof.
  destruct (legacy_super_admin_sees_no_rows no_env no_repr id "device" Unfiltered enforcing root "viewer"
    db0 ["dev_1"; "dev_2"] [] "dev_1" eq_refl eq_refl eq_refl ltac:(vm_compute; reflexivity)) as [_ H].
  exact (Forall_inv H).
Defined.
End Example.
