(* ===== verification/Identity.v ===== *)
(** * The identity tables ([app/models/users.py], [sessions.py], [password_resets.py],
    [invitations.py], [signup_requests.py], [api_tokens.py], [organizations.py])

    The rows behind who may sign in: users, server-side sessions, reset tokens,
    invitations, signup requests, API tokens, organisations and memberships, with the
    role bindings and the settings the same services read.  A row is keyed by its id;
    [id_next] counts the ULIDs drawn.  The clock readings that fill one row (defaults of a
    flush included) are one instant, the [now] of the call. *)

From S2P Require Import Prelude RuntimeSettings Commands TenantScope Enrollment RoleBindings.
Local Open Scope string_scope.
Local Open Scope list_scope.
Local Open Scope Z_scope.

(** ** Rows *)

(** [User]. *)
Record account := Account {
  us_email : string;
  us_password : string;
  us_name : string;
  us_active : bool;
  us_admin : bool;
  us_super : bool;
  us_role : string;
  us_valid_after : time;
  us_created : time;
  us_updated : time;
  us_last_login : option time
}.
Definition set_password (h : string) (u : account) : account :=
  Account (us_email u) h (us_name u) (us_active u) (us_admin u) (us_super u) (us_role u)
    (us_valid_after u) (us_created u) (us_updated u) (us_last_login u).
Definition set_name (n : string) (u : account) : account :=
  Account (us_email u) (us_password u) n (us_active u) (us_admin u) (us_super u) (us_role u)
    (us_valid_after u) (us_created u) (us_updated u) (us_last_login u).
Definition set_active (b : bool) (u : account) : account :=
  Account (us_email u) (us_password u) (us_name u) b (us_admin u) (us_super u) (us_role u)
    (us_valid_after u) (us_created u) (us_updated u) (us_last_login u).
(** The role with the two flags that follow it. *)
Definition set_role_flags (r : string) (adm sup : bool) (u : account) : account :=
  Account (us_email u) (us_password u) (us_name u) (us_active u) adm sup r
    (us_valid_after u) (us_created u) (us_updated u) (us_last_login u).
Definition set_valid_after (t : time) (u : account) : account :=
  Account (us_email u) (us_password u) (us_name u) (us_active u) (us_admin u) (us_super u) (us_role u)
    t (us_created u) (us_updated u) (us_last_login u).
Definition touch (t : time) (u : account) : account :=
  Account (us_email u) (us_password u) (us_name u) (us_active u) (us_admin u) (us_super u) (us_role u)
    (us_valid_after u) (us_created u) t (us_last_login u).
Definition set_last_login (t : time) (u : account) : account :=
  Account (us_email u) (us_password u) (us_name u) (us_active u) (us_admin u) (us_super u) (us_role u)
    (us_valid_after u) (us_created u) (us_updated u) (Some t).

(** [Session]. *)
Record session_row := SessionRow {
  ss_user : string;
  ss_kind : string;
  ss_jti : string;
  ss_issued : time;
  ss_last_seen : time;
  ss_expires : time;
  ss_revoked : option time;
  ss_agent : option string;
  ss_ip : option string
}.
Definition revoke_session (t : time) (r : session_row) : session_row :=
  SessionRow (ss_user r) (ss_kind r) (ss_jti r) (ss_issued r) (ss_last_seen r) (ss_expires r)
    (Some t) (ss_agent r) (ss_ip r).

(** [PasswordReset]. *)
Record reset_row := ResetRow {
  pr_user : string;
  pr_email : string;
  pr_hash : string;
  pr_expires : time;
  pr_consumed : option time;
  pr_ip : option string;
  pr_consumed_ip : option string;
  pr_created : time
}.

(** [Invitation]; [iv_scope] is the JSON column [scope_payload]. *)
Record invitation := Invitation {
  iv_email : string;
  iv_role : string;
  iv_hash : string;
  iv_issuer : option string;
  iv_note : option string;
  iv_scope : json;
  iv_org : string;
  iv_expires : time;
  iv_consumed : option time;
  iv_consumed_by : option string;
  iv_created : time
}.

(** [SignupRequest]. *)
Record signup_row := SignupRow {
  sr_email : string;
  sr_name : string;
  sr_message : option string;
  sr_status : string;
  sr_reviewer : option string;
  sr_reviewed_at : option time;
  sr_invitation : option string;
  sr_created : time
}.

(** [ApiToken]. *)
Record api_token := ApiToken {
  ap_name : string;
  ap_hash : string;
  ap_prefix : string;
  ap_scopes : list string;
  ap_site : option string;
  ap_org : option string;
  ap_creator : option string;
  ap_expires : option time;
  ap_last_used : option time;
  ap_revoked : bool;
  ap_created : time
}.

(** [Organization] and [OrganizationMembership]. *)
Record org_row := OrgRow {
  og_name : string;
  og_slug : string;
  og_status : string;
  og_plan : string;
  og_owner : option string
}.
Record member_row := MemberRow { om_org : string; om_user : string; om_role : string }.

(** ** State *)

Record idb := Idb {
  id_users : gmap string account;
  id_sessions : gmap string session_row;
  id_resets : gmap string reset_row;
  id_invites : gmap string invitation;
  id_signups : gmap string signup_row;
  id_tokens : gmap string api_token;
  id_orgs : gmap string org_row;
  id_members : gmap string member_row;
  id_rbac : rbac_db;
  id_settings : settings;
  id_next : nat
}.
Definition on_users (f : gmap string account -> gmap string account) (g : idb) : idb :=
  Idb (f (id_users g)) (id_sessions g) (id_resets g) (id_invites g) (id_signups g) (id_tokens g)
    (id_orgs g) (id_members g) (id_rbac g) (id_settings g) (id_next g).
Definition on_sessions (f : gmap string session_row -> gmap string session_row) (g : idb) : idb :=
  Idb (id_users g) (f (id_sessions g)) (id_resets g) (id_invites g) (id_signups g) (id_tokens g)
    (id_orgs g) (id_members g) (id_rbac g) (id_settings g) (id_next g).
Definition on_resets (f : gmap string reset_row -> gmap string reset_row) (g : idb) : idb :=
  Idb (id_users g) (id_sessions g) (f (id_resets g)) (id_invites g) (id_signups g) (id_tokens g)
    (id_orgs g) (id_members g) (id_rbac g) (id_settings g) (id_next g).
Definition on_invites (f : gmap string invitation -> gmap string invitation) (g : idb) : idb :=
  Idb (id_users g) (id_sessions g) (id_resets g) (f (id_invites g)) (id_signups g) (id_tokens g)
    (id_orgs g) (id_members g) (id_rbac g) (id_settings g) (id_next g).
Definition on_signups (f : gmap string signup_row -> gmap string signup_row) (g : idb) : idb :=
  Idb (id_users g) (id_sessions g) (id_resets g) (id_invites g) (f (id_signups g)) (id_tokens g)
    (id_orgs g) (id_members g) (id_rbac g) (id_settings g) (id_next g).
Definition on_tokens (f : gmap string api_token -> gmap string api_token) (g : idb) : idb :=
  Idb (id_users g) (id_sessions g) (id_resets g) (id_invites g) (id_signups g) (f (id_tokens g))
    (id_orgs g) (id_members g) (id_rbac g) (id_settings g) (id_next g).
Definition on_orgs (f : gmap string org_row -> gmap string org_row) (g : idb) : idb :=
  Idb (id_users g) (id_sessions g) (id_resets g) (id_invites g) (id_signups g) (id_tokens g)
    (f (id_orgs g)) (id_members g) (id_rbac g) (id_settings g) (id_next g).
Definition on_members (f : gmap string member_row -> gmap string member_row) (g : idb) : idb :=
  Idb (id_users g) (id_sessions g) (id_resets g) (id_invites g) (id_signups g) (id_tokens g)
    (id_orgs g) (f (id_members g)) (id_rbac g) (id_settings g) (id_next g).
Definition on_rbac (f : rbac_db -> rbac_db) (g : idb) : idb :=
  Idb (id_users g) (id_sessions g) (id_resets g) (id_invites g) (id_signups g) (id_tokens g)
    (id_orgs g) (id_members g) (f (id_rbac g)) (id_settings g) (id_next g).
Definition on_settings (f : settings -> settings) (g : idb) : idb :=
  Idb (id_users g) (id_sessions g) (id_resets g) (id_invites g) (id_signups g) (id_tokens g)
    (id_orgs g) (id_members g) (id_rbac g) (f (id_settings g)) (id_next g).
Definition draw_id (g : idb) : idb :=
  Idb (id_users g) (id_sessions g) (id_resets g) (id_invites g) (id_signups g) (id_tokens g)
    (id_orgs g) (id_members g) (id_rbac g) (id_settings g) (S (id_next g)).

(** ** Roles and column widths *)

Definition ROLE_SUPER_ADMIN : string := "super_admin".
Definition ROLE_ADMIN : string := "admin".
Definition ROLE_OPERATOR : string := "operator".
Definition ROLE_VIEWER : string := "viewer".
Definition ALL_ROLES : list string := [ROLE_SUPER_ADMIN; ROLE_ADMIN; ROLE_OPERATOR; ROLE_VIEWER].

(** A [String(n)] column holds at most [n] characters. *)
Definition fits (n : Z) (s : string) : bool := Z.of_nat (String.length s) <=? n.
Definition ofits (n : Z) (s : option string) : bool :=
  match s with Some s => fits n s | None => true end.

Definition account_fits (u : account) : bool :=
  fits 254 (us_email u) && fits 255 (us_password u) && fits 120 (us_name u) && fits 20 (us_role u).

(** [datetime + timedelta]: outside the range of [datetime] it raises. *)
Definition in_calendar (t : time) : bool := (MIN_TIME <=? t) && (t <=? MAX_TIME).

(** [except Cls as e]: the code of an exception of the application's class [cls]. *)
Definition caught (cls : string) (e : exn) : option string :=
  match e with AppError c code => if String.eqb c cls then Some code else None | _ => None end.

(** The row with a given value in a unique column, and whether the value is free. *)
Definition row_where {A} (p : A -> bool) (t : gmap string A) : option (string * A) :=
  head (filter (fun kr : string * A => p kr.2 = true) (map_to_list t)).
Definition free_in {A} (p : A -> bool) (t : gmap string A) : bool :=
  forallb (fun kr : string * A => negb (p kr.2)) (map_to_list t).

Lemma row_where_some {A} (p : A -> bool) (t : gmap string A) k r :
  row_where p t = Some (k, r) -> t !! k = Some r /\ p r = true.
Proof.
  unfold row_where. intros H%head_Some_elem_of. apply list_elem_of_filter in H as [Hp H].
  by apply elem_of_map_to_list in H.
Qed.

Lemma row_where_none {A} (p : A -> bool) (t : gmap string A) k r :
  row_where p t = None -> t !! k = Some r -> p r = false.
Proof.
  unfold row_where. intros Hn Hk. apply not_true_iff_false. intros Hp. apply head_None in Hn.
  assert (Hin : (k, r) ∈ filter (fun kr : string * A => p kr.2 = true) (map_to_list t)).
  { apply list_elem_of_filter. split; [done|]. by apply elem_of_map_to_list. }
  rewrite Hn in Hin. by apply elem_of_nil in Hin.
Qed.

(** A column is unique. *)
Definition unique_by {A} (f : A -> string) (t : gmap string A) : Prop :=
  forall i j a b, t !! i = Some a -> t !! j = Some b -> f a = f b -> i = j.

Lemma row_where_unique {A} (f : A -> string) (t : gmap string A) k r :
  unique_by f t -> t !! k = Some r -> row_where (fun a => String.eqb (f a) (f r)) t = Some (k, r).
Proof.
  intros Hu Hk. destruct (row_where _ t) as [[j b]|] eqn:E.
  - apply row_where_some in E as [Hj Hp]. apply String.eqb_eq in Hp.
    assert (j = k) as -> by (by eapply Hu). congruence.
  - apply (row_where_none _ _ k r) in E; [|done]. cbv beta in E. by rewrite String.eqb_refl in E.
Qed.

Lemma free_in_spec {A} (p : A -> bool) (t : gmap string A) :
  free_in p t = true <-> forall k r, t !! k = Some r -> p r = false.
Proof.
  unfold free_in. rewrite forallb_forall. split.
  - intros H k r Hk. apply negb_true_iff. apply (H (k, r)). apply list_elem_of_In.
    by apply elem_of_map_to_list.
  - intros H [k r] Hin%list_elem_of_In%elem_of_map_to_list. apply negb_true_iff. by apply (H k).
Qed.

Lemma unique_insert {A} (f : A -> string) (t : gmap string A) k r :
  unique_by f t -> (forall j b, t !! j = Some b -> f b = f r -> j = k) -> unique_by f (<[k := r]> t).
Proof.
  intros Hu Hfree i j a b. rewrite !lookup_insert_Some.
  intros [[<- <-]|[Hi Ha]] [[<- <-]|[Hj Hb]] He; [done| | |by eapply Hu].
  - symmetry. by eapply Hfree.
  - by eapply Hfree.
Qed.

Lemma unique_alter {A} (f : A -> string) (h : A -> A) (t : gmap string A) k :
  (forall a, f (h a) = f a) -> unique_by f t -> unique_by f (alter h k t).
Proof.
  intros Hh Hu i j a b. rewrite !lookup_alter_Some.
  intros [(<- & a' & Ha & ->)|[Hi Ha]] [(<- & b' & Hb & ->)|[Hj Hb]]; rewrite ?Hh; try done;
    intros; by eapply Hu.
Qed.

Lemma unique_delete {A} (f : A -> string) (t : gmap string A) k :
  unique_by f t -> unique_by f (base.delete k t).
Proof. intros Hu i j a b [_ Ha]%lookup_delete_Some [_ Hb]%lookup_delete_Some. by eapply Hu. Qed.

Lemma unique_fmap {A} (f : A -> string) (h : A -> A) (t : gmap string A) :
  (forall a, f (h a) = f a) -> unique_by f t -> unique_by f (h <$> t).
Proof.
  intros Hh Hu i j a b. rewrite !lookup_fmap, !fmap_Some.
  intros (a' & Ha & ->) (b' & Hb & ->). rewrite !Hh. by eapply Hu.
Qed.
