(* ===== verification/Accounts.v ===== *)
(** * Users, sessions and sign-in ([app/services/users.py], [sessions.py], [auth.py],
    [password_resets.py]; [app/middleware/admin_auth.py]; [app/blueprints/auth.py],
    [admin/auth_ui.py])

    Account edits, the server-side session table, password and JWT sign-in, password
    resets, and the gate every human request passes.  Argon2 ([argon_hash],
    [argon_verify]), SHA-256, and PyJWT with the hub's key, algorithm and audience
    ([jwt_encode], [jwt_decode]) are parameters; the secrets drawn are arguments. *)

From S2P Require Import Prelude RuntimeSettings Commands TenantScope Enrollment RoleBindings Identity.
From Stdlib Require Import Ascii.
Local Open Scope string_scope.
Local Open Scope list_scope.
Local Open Scope Z_scope.

Definition UserError {A} (msg : string) : outcome A := Raise (AppError "UserError" msg).

(** [s.split(c, 1)[0]]. *)
Definition before (c : Ascii.ascii) (s : string) : string :=
  match split_on c s with x :: _ => x | [] => s end.

(** SQL [LIKE] (PostgreSQL): [%] any characters, [_] one, a backslash quotes. *)
Fixpoint like (p : string) : string -> bool :=
  match p with
  | EmptyString => is_empty
  | String "%"%char p =>
    fix any (s : string) : bool :=
      like p s || match s with EmptyString => false | String _ r => any r end
  | String "\"%char (String c p) =>
    fun s => match s with String a r => Ascii.eqb a c && like p r | EmptyString => false end
  | String c p =>
    fun s => match s with
             | String a r => (Ascii.eqb c "_"%char || Ascii.eqb a c) && like p r
             | EmptyString => false
             end
  end.

(** ** Lookup *)

Definition get_account (id : string) (g : idb) : option account := id_users g !! id.
Definition by_email (e : string) (g : idb) : option (string * account) :=
  row_where (fun u => String.eqb (us_email u) e) (id_users g).

(** [list_users]: newest first; [serialize_user] drops the password and renders. *)
Definition list_users (g : idb) : list (string * account) :=
  order_by_desc (fun x => us_created x.2) (map_to_list (id_users g)).

Section accounts.
Context (ulid : nat -> string).
(** [PasswordHasher.hash] with its random salt, and [verify], which raises on a mismatch. *)
Context (argon_hash : string -> string -> string) (argon_verify : string -> string -> outcome unit).

Definition hash_password (salt plain : string) : string := argon_hash salt plain.
Definition verify_password (stored candidate : string) : bool :=
  match argon_verify stored candidate with Ret _ => true | Raise _ => false end.

(** ** [users.py] *)

Definition new_account (email h name role : string) (now : time) : account :=
  Account email h name true (negb (String.eqb role ROLE_VIEWER)) (String.eqb role ROLE_SUPER_ADMIN)
    role now now now None.

Definition create_user (email password display_name role salt : string) (now : time) (g : idb)
    : outcome (string * account) * idb :=
  if negb (in_strs role ALL_ROLES) then (UserError "role must be one of", g)
  else
    let email := strip (lower email) in
    session_scope (fun g =>
      match by_email email g with
      | Some _ => (UserError "a user with email already exists", g)
      | None =>
        let name := or_str (Some display_name) (before "@"%char email) in
        let u := new_account email (hash_password salt password) name role now in
        let id := new_id ulid "usr" (id_next g) in
        if account_fits u then (Ret (id, u), on_users (insert id u) (draw_id g))
        else (Raise (DBError "users"), g)
      end) g.

(** One row changed by id in a transaction; an unknown id is [None], [False]. *)
Definition edit_account (id : string) (f : account -> account) (g : idb)
    : outcome (option account) * idb :=
  match id_users g !! id with
  | None => (Ret None, g)
  | Some u => if account_fits (f u) then (Ret (Some (f u)), on_users (insert id (f u)) g)
              else (Raise (DBError "users"), g)
  end.

Definition update_user_role (id role : string) (now : time) (g : idb)
    : outcome (option account) * idb :=
  if negb (in_strs role ALL_ROLES) then (UserError "role must be one of", g)
  else session_scope (edit_account id (fun u =>
         touch now (set_role_flags role (negb (String.eqb role ROLE_VIEWER))
                      (String.eqb role ROLE_SUPER_ADMIN) u))) g.

Definition deactivate_user (id : string) (now : time) (g : idb) : outcome (option account) * idb :=
  session_scope (edit_account id (fun u => touch now (set_valid_after now (set_active false u)))) g.

Definition update_user_display_name (id display_name : string) (now : time) (g : idb)
    : outcome (option account) * idb :=
  let name := strip display_name in
  if is_empty name then (UserError "display_name is required", g)
  else session_scope (edit_account id (fun u => touch now (set_name name u))) g.

Definition change_own_display_name := update_user_display_name.

Definition change_own_password (id current new salt : string) (now : time) (g : idb)
    : outcome unit * idb :=
  if (String.length new <? 8)%nat then (UserError "new password must be at least 8 characters", g)
  else if String.eqb current new then (UserError "new password must differ from current password", g)
  else session_scope (fun g =>
    match id_users g !! id with
    | None => (UserError "user not found", g)
    | Some u =>
      if negb (verify_password (us_password u) current)
      then (UserError "current password is incorrect", g)
      else
        let '(r, g) := edit_account id (fun u =>
          set_valid_after now (touch now (set_password (hash_password salt new) u))) g in
        (_ ← r; Ret tt, g)
    end) g.

(** ** [sessions.py] *)

Definition KIND_COOKIE : string := "cookie".
Definition KIND_ACCESS : string := "access".
Definition KIND_REFRESH : string := "refresh".

(** The constraints of [user_sessions]. *)
Definition session_accepted (r : session_row) (g : idb) : bool :=
  bool_decide (is_Some (id_users g !! ss_user r)) &&
  fits 16 (ss_kind r) && fits 64 (ss_jti r) && ofits 64 (ss_ip r) &&
  free_in (fun s => String.eqb (ss_jti s) (ss_jti r)) (id_sessions g).

(** [record]: best effort, a failure is swallowed. [ua] and [ip] are those of the request. *)
Definition record_session (user kind jti : string) (ttl : Z) (ua ip : option string) (now : time)
    (g : idb) : option string * idb :=
  let ua := match ua with
            | Some s => if is_empty (str_take 255 s) then None else Some (str_take 255 s)
            | None => None end in
  let row := SessionRow user kind jti now now (now + seconds ttl) None ua ip in
  if session_accepted row g then
    let id := new_id ulid "sess" (id_next g) in
    (Some id, on_sessions (insert id row) (draw_id g))
  else (None, g).

Definition live (p : session_row -> bool) (r : session_row) : bool :=
  p r && bool_decide (ss_revoked r = None).
(** [UPDATE ... SET revoked_at]: how many rows it changed. *)
Definition revoke_where (p : session_row -> bool) (now : time) (g : idb) : nat * idb :=
  (size (filter (fun kr : string * session_row => live p kr.2 = true) (id_sessions g)),
   on_sessions (fmap (fun r => if live p r then revoke_session now r else r)) g).
Definition revoke_one (jti : string) (now : time) (g : idb) : bool * idb :=
  let '(n, g) := revoke_where (fun r => String.eqb (ss_jti r) jti) now g in ((0 <? n)%nat, g).
Definition revoke_all_for_user (user : string) (now : time) (g : idb) : nat * idb :=
  revoke_where (fun r => String.eqb (ss_user r) user) now g.

Definition list_active_for_user (user : string) (g : idb) : list (string * session_row) :=
  order_by_desc (fun x => ss_issued x.2)
    (filter (fun kr : string * session_row => live (fun r => String.eqb (ss_user r) user) kr.2 = true)
       (map_to_list (id_sessions g))).

(** [users.revoke_all_tokens]; the rows are revoked at a later reading of the clock. *)
Definition revoke_all_tokens (id : string) (now later : time) (g : idb) : outcome bool * idb :=
  match session_scope (edit_account id (fun u => touch now (set_valid_after now u))) g with
  | (Raise e, g) => (Raise e, g)
  | (Ret None, g) => (Ret false, g)
  | (Ret (Some _), g) => (Ret true, (revoke_all_for_user id later g).2)
  end.

(** ** [auth.py] *)

(** The account an identifier names: the whole e-mail, or the only one with the local part. *)
Definition identify (identifier : string) (g : idb) : option (string * account) :=
  match by_email identifier g with
  | Some x => Some x
  | None =>
    if str_in "@" identifier then None
    else match filter (fun kr : string * account =>
                 like (String.append identifier "@%") (us_email kr.2) = true)
               (map_to_list (id_users g)) with
         | [x] => Some x
         | _ => None
         end
  end.

Definition authenticate (email password : string) (now : time) (g : idb)
    : option (string * account) * idb :=
  match identify (strip (lower email)) g with
  | None => (None, g)
  | Some (id, u) =>
    if negb (us_active u) then (None, g)
    else if negb (verify_password (us_password u) password) then (None, g)
    else (Some (id, set_last_login now u), on_users (insert id (set_last_login now u)) g)
  end.

Definition load_user (id : string) (g : idb) : option (string * account) :=
  u ← id_users g !! id; Some (id, u).

Definition JWT_AUDIENCE : string := "rebooter-droids".
Definition ACCESS_TOKEN_TTL_SECONDS : Z := 60 * 60 * 8.
Definition REFRESH_TOKEN_TTL_SECONDS : Z := 60 * 60 * 24 * 14.

(** [int(dt.timestamp())]. *)
Definition epoch (t : time) : Z := Z.quot t MICRO.

(** PyJWT: decoding checks signature, audience and expiry at an instant. *)
Context (jwt_encode : pydict -> string) (jwt_decode : time -> string -> outcome pydict).

Definition token_payload (user kind jti : string) (ttl : Z) (now : time) : pydict :=
  [("sub", JStr user); ("kind", JStr kind); ("aud", JStr JWT_AUDIENCE);
   ("iat", JInt (epoch now)); ("exp", JInt (epoch (now + seconds ttl))); ("jti", JStr jti)].

(** [_issue_token]; the session row is written at a later reading of the clock. *)
Definition issue_token (user kind jti : string) (ttl : Z) (ua ip : option string) (now later : time)
    (g : idb) : string * idb :=
  let token := jwt_encode (token_payload user kind jti ttl now) in
  (token, (record_session user (if String.eqb kind "access" then KIND_ACCESS else KIND_REFRESH)
             jti ttl ua ip later g).2).
Definition issue_access_token (user jti : string) :=
  issue_token user "access" jti ACCESS_TOKEN_TTL_SECONDS.
Definition issue_refresh_token (user jti : string) :=
  issue_token user "refresh" jti REFRESH_TOKEN_TTL_SECONDS.

Definition InvalidTokenError {A} : outcome A := Raise (AppError "InvalidTokenError" "kind").
Definition decode_token (token expected_kind : string) (now : time) : outcome pydict :=
  p ← jwt_decode now token;
  if jeqs (dget p "kind") expected_kind then Ret p else InvalidTokenError.

(** ** [password_resets.py] *)

Context (sha256 : string -> string) (environ : string -> option string).
(** [settings.password_reset_ttl_seconds]. *)
Context (reset_ttl : Z).

Definition mask_email (email : string) : string :=
  if negb (str_in "@" email) then email
  else
    let user := before "@"%char email in
    let domain := String.substring (S (String.length user)) (String.length email) email in
    String.append (str_take (if (String.length user <=? 3)%nat then 1 else 3) user)
      (String.append "***@" domain).

(** The runtime setting, or the configuration when it is absent or unusable. *)
Definition setting_ttl (name env : string) (default : Z) (t : settings) : Z :=
  match setting_get environ name (Some env) JNull t with
  | Ret JNull => default
  | Ret v => match py_int v with Ret n => n | Raise _ => default end
  | Raise _ => default
  end.
Definition reset_lifetime (t : settings) : Z :=
  setting_ttl "system.password_reset_ttl_seconds" "REBOOTER_PASSWORD_RESET_TTL_SECONDS" reset_ttl t.

Definition reset_accepted (r : reset_row) (g : idb) : bool :=
  fits 254 (pr_email r) && ofits 64 (pr_ip r) &&
  free_in (fun x => String.eqb (pr_hash x) (pr_hash r)) (id_resets g).

(** The secret and the masked address. *)
Definition request_reset (email : string) (ip : option string) (random : string) (now : time) (g : idb)
    : outcome (option string * string) * idb :=
  let email := lower (strip email) in
  if is_empty email || negb (str_in "@" email) then (Ret (None, mask_email email), g)
  else session_scope (fun g =>
    match by_email email g with
    | None => (Ret (None, mask_email email), g)
    | Some (id, u) =>
      if negb (us_active u) then (Ret (None, mask_email email), g)
      else
        let expires := now + seconds (reset_lifetime (id_settings g)) in
        let secret := String.append "pwr_" random in
        let r := ResetRow id email (sha256 secret) expires None ip None now in
        if negb (in_calendar expires) then (Raise OverflowError, g)
        else if reset_accepted r g then
          (Ret (Some secret, mask_email email),
           on_resets (insert (new_id ulid "pwr" (id_next g)) r) (draw_id g))
        else (Raise (DBError "password_resets"), g)
    end) g.

Definition reset_by_hash (h : string) (g : idb) : option (string * reset_row) :=
  row_where (fun r => String.eqb (pr_hash r) h) (id_resets g).
Definition reset_usable (now : time) (r : reset_row) : bool :=
  bool_decide (pr_consumed r = None) && negb (pr_expires r <=? now).
Definition consume_reset_row (now : time) (ip : option string) (r : reset_row) : reset_row :=
  ResetRow (pr_user r) (pr_email r) (pr_hash r) (pr_expires r) (Some now) (pr_ip r) ip (pr_created r).
Definition with_new_password (h : string) (now : time) (u : account) : account :=
  set_valid_after now (touch now (set_password h u)).

Definition consume_reset (token new_password : string) (ip : option string) (salt : string)
    (now : time) (g : idb) : outcome (option (string * account)) * idb :=
  if is_empty token || is_empty new_password || (String.length new_password <? 8)%nat
  then (Ret None, g)
  else session_scope (fun g =>
    match reset_by_hash (sha256 token) g with
    | None => (Ret None, g)
    | Some (rid, r) =>
      if negb (reset_usable now r) then (Ret None, g)
      else match id_users g !! pr_user r with
      | None => (Ret None, g)
      | Some u =>
        if negb (us_active u) then (Ret None, g)
        else
          let u := with_new_password (hash_password salt new_password) now u in
          if account_fits u && ofits 64 ip then
            (Ret (Some (pr_user r, u)),
             on_resets (insert rid (consume_reset_row now ip r)) (on_users (insert (pr_user r) u) g))
          else (Raise (DBError "users"), g)
      end
    end) g.

(** [expire_old]: the unused rows a week past their expiry are deleted. *)
Definition stale_reset (now : time) (r : reset_row) : bool :=
  (pr_expires r <? now - 7 * DAY) && bool_decide (pr_consumed r = None).
Definition expire_old (now : time) (g : idb) : nat * idb :=
  (size (filter (fun kr : string * reset_row => stale_reset now kr.2 = true) (id_resets g)),
   on_resets (filter (fun kr : string * reset_row => stale_reset now kr.2 = false)) g).

(** ** The gate of a human request ([admin_auth.py]) *)

(** The signed Flask session; [cookie0] is the cleared one. *)
Record cookie := Cookie {
  ck_user : option string;
  ck_iat : option Z;
  ck_sid : option string;
  ck_org : option string
}.
Definition cookie0 : cookie := Cookie None None None None.
Record request := Request { rq_cookie : cookie; rq_authorization : string }.

Definition is_jti_revoked (jti : option string) (g : idb) : bool :=
  match jti with
  | None => false
  | Some j =>
    if is_empty j then false
    else match row_where (fun r => String.eqb (ss_jti r) j) (id_sessions g) with
         | Some (_, r) => bool_decide (ss_revoked r <> None)
         | None => false
         end
  end.

(** [_resolve_user_and_iat]. *)
Definition resolve_user_and_iat (rq : request) (now : time) (g : idb)
    : option ((string * account) * option Z) :=
  let c := rq_cookie rq in
  if truthy_str (ck_user c) then
    x ← load_user (or_str (ck_user c) "") g;
    if is_jti_revoked (ck_sid c) g then None else Some (x, ck_iat c)
  else if startswith "Bearer " (rq_authorization rq) then
    match decode_token (String.substring 7 (String.length (rq_authorization rq) - 7) (rq_authorization rq))
            "access" now with
    | Raise _ => None
    | Ret p =>
      x ← load_user (default "" (as_str (dget p "sub"))) g;
      if is_jti_revoked (as_str (dget p "jti")) g then None else Some (x, as_int (dget p "iat"))
    end
  else None.

(** [_resolve_user]: the user, and the cookie as it is left. *)
Definition fresh_for (u : account) (iat : option Z) : bool :=
  match iat with Some i => negb (i <? epoch (us_valid_after u)) | None => true end.
Definition resolve_user (rq : request) (now : time) (g : idb) : option (string * account) * cookie :=
  let cleared := if truthy_str (ck_user (rq_cookie rq)) then cookie0 else rq_cookie rq in
  match resolve_user_and_iat rq now g with
  | None => (None, cleared)
  | Some ((id, u), iat) =>
    if us_active u && fresh_for u iat then (Some (id, u), rq_cookie rq) else (None, cleared)
  end.

Definition ANY_AUTHENTICATED : list string := ALL_ROLES.
Definition WRITE_ROLES : list string := [ROLE_SUPER_ADMIN; ROLE_ADMIN; ROLE_OPERATOR].
Definition ADMIN_AND_UP : list string := [ROLE_SUPER_ADMIN; ROLE_ADMIN].
Definition SUPER_ADMIN_ONLY : list string := [ROLE_SUPER_ADMIN].

(** [role_required_api] and [role_required_ui] (whose refusals are a redirect to the
    login page and the 403 page): what the wrapped handler is entered with. *)
Inductive gate := AuthRequired | Forbidden | Enter (id : string) (u : account).
Definition role_required (allowed : list string) (rq : request) (now : time) (g : idb)
    : gate * cookie :=
  match resolve_user rq now g with
  | (None, c) => (AuthRequired, c)
  | (Some (id, u), c) => (if in_strs (us_role u) allowed then Enter id u else Forbidden, c)
  end.
Definition role_required_api (allowed : list string) :=
  role_required (match allowed with [] => ADMIN_AND_UP | _ => allowed end).
Definition role_required_ui (allowed : list string) :=
  role_required (match allowed with [] => ANY_AUTHENTICATED | _ => allowed end).
Definition admin_required_api := role_required_api (ADMIN_AND_UP ++ [ROLE_OPERATOR; ROLE_VIEWER]).
Definition admin_required_ui := role_required_ui ANY_AUTHENTICATED.

(** ** The sign-in endpoints *)

(** What a client holds of the requests it makes. *)
Record client_meta := Meta { cm_agent : option string; cm_ip : option string }.

Definition COOKIE_TTL : Z := 60 * 60 * 24 * 31.
(** [session.clear()], the three values, and the row of the cookie. *)
Definition open_cookie (id jti : string) (cm : client_meta) (now later : time) (g : idb)
    : cookie * idb :=
  (Cookie (Some id) (Some (epoch now)) (Some jti) None,
   (record_session id KIND_COOKIE jti COOKIE_TTL (cm_agent cm) (cm_ip cm) later g).2).

(** [POST /api/v1/auth/login] with a parsed body of strings; the four clock readings after
    the password check are [t1] to [t4]. *)
Inductive answer := Refused (status : Z) (code : string) | Tokens (access refresh : string).
Definition login (email password jc ja jr : string) (cm : client_meta) (now t1 t2 t3 : time)
    (c : cookie) (g : idb) : answer * cookie * idb :=
  let email := strip email in
  if is_empty email || is_empty password then (Refused 400 "validation_failed", c, g)
  else match authenticate email password now g with
  | (None, g) => (Refused 401 "auth_invalid", c, g)
  | (Some (id, _), g) =>
    let '(c, g) := open_cookie id jc cm t1 t1 g in
    let '(access, g) := issue_access_token id ja (cm_agent cm) (cm_ip cm) t2 t2 g in
    let '(refresh, g) := issue_refresh_token id jr (cm_agent cm) (cm_ip cm) t3 t3 g in
    (Tokens access refresh, c, g)
  end.

(** [POST /app/login]. *)
Definition login_submit (email password jc : string) (cm : client_meta) (now t1 : time)
    (c : cookie) (g : idb) : bool * cookie * idb :=
  match authenticate (strip email) password now g with
  | (None, g) => (false, c, g)
  | (Some (id, _), g) => let '(c, g) := open_cookie id jc cm t1 t1 g in (true, c, g)
  end.

(** [POST /api/v1/auth/logout]: every token of the user, then the cookie's row. *)
Definition logout (c : cookie) (now later : time) (g : idb) : cookie * idb :=
  let g := if truthy_str (ck_user c)
           then (revoke_all_tokens (or_str (ck_user c) "") now later g).2 else g in
  let g := if truthy_str (ck_sid c) then (revoke_one (or_str (ck_sid c) "") later g).2 else g in
  (cookie0, g).

(** [GET /app/logout]: this browser's row only. *)
Definition logout_ui (c : cookie) (now : time) (g : idb) : cookie * idb :=
  (cookie0, if truthy_str (ck_sid c) then (revoke_one (or_str (ck_sid c) "") now g).2 else g).

(** [POST /api/v1/auth/refresh] with the body's token. *)
Definition refresh (token ja jr : string) (cm : client_meta) (now t1 t2 : time) (g : idb)
    : answer * idb :=
  if is_empty token then (Refused 400 "validation_failed", g)
  else match decode_token token "refresh" now with
  | Raise _ => (Refused 401 "auth_invalid", g)
  | Ret p =>
    match load_user (default "" (as_str (dget p "sub"))) g with
    | None => (Refused 401 "auth_invalid", g)
    | Some (id, u) =>
      if negb (us_active u) then (Refused 401 "auth_invalid", g)
      else
        let '(access, g) := issue_access_token id ja (cm_agent cm) (cm_ip cm) t1 t1 g in
        let '(refresh, g) := issue_refresh_token id jr (cm_agent cm) (cm_ip cm) t2 t2 g in
        (Tokens access refresh, g)
    end
  end.

(** [POST /app/reset-password]: the answer of the page (an error, or done). *)
Definition reset_password_submit (token pw pw2 : string) (forwarded : option string) (remote salt : string)
    (now : time) (g : idb) : outcome (option string) * idb :=
  let token := strip token in
  let ip := strip (before ","%char (default remote forwarded)) in
  if is_empty pw || negb (String.eqb pw pw2) then (Ret (Some "Passwords don't match or are empty."), g)
  else if (String.length pw <? 8)%nat then (Ret (Some "Password must be at least 8 characters."), g)
  else match consume_reset token pw (Some ip) salt now g with
  | (Raise e, g) => (Raise e, g)
  | (Ret None, g) => (Ret (Some "This reset link is invalid or has expired. Request a new one."), g)
  | (Ret (Some _), g) => (Ret None, g)
  end.
End accounts.
