(* ===== verification/Invitations.v ===== *)
(** * Invitations, signup requests and memberships ([app/services/invitations.py],
    [signup_requests.py], [org_membership.py], the organisation backfill of [bootstrap.py];
    [app/blueprints/admin/invitations.py], [public_invite.py], [signup_requests.py])

    How an account comes to exist, with which role, which bindings and in which
    organisation.  [c] is the tenant context of the request: an operator's endpoint has the
    organisation bound at the gate, the public pages have none. *)

From S2P Require Import Prelude RuntimeSettings Commands TenantScope Enrollment RoleBindings Identity.
From S2P Require Import Accounts.
From Stdlib Require Import Ascii.
Local Open Scope string_scope.
Local Open Scope list_scope.
Local Open Scope Z_scope.

Definition InvitationError {A} (code : string) : outcome A := Raise (AppError "InvitationError" code).
Definition SignupRequestError {A} (code : string) : outcome A :=
  Raise (AppError "SignupRequestError" code).

(** ** Invitations *)

Definition BINDING_TYPES : list string := ["site"; "group"; "device"].
(** One element of [scope_payload.bindings]. *)
Definition binding_ok (b : json) : bool :=
  match b with
  | JObj d => dict_has d "scope_type" && dict_has d "scope_id" &&
              match dget d "scope_type" with JStr s => in_strs s BINDING_TYPES | _ => false end
  | _ => false
  end.
(** The shape of [scope_payload] when it is given. *)
Definition validate_scope_payload (v : json) : outcome unit :=
  match v with
  | JNull => Ret tt
  | JObj d =>
    match dict_get d "bindings" with
    | Some (JList l) => if forallb binding_ok l then Ret tt else InvitationError "validation_failed"
    | _ => InvitationError "validation_failed"
    end
  | _ => InvitationError "validation_failed"
  end.

(** The row a caller gets by hash or by id. *)
Definition sees_invite (c : caller) (iv : invitation) : bool := sees c (Some (iv_org iv)).
Definition get_invite (c : caller) (id : string) (g : idb) : option invitation :=
  match id_invites g !! id with
  | Some iv => if sees_invite c iv then Some iv else None
  | None => None
  end.
Definition invite_by_hash (c : caller) (h : string) (g : idb) : option (string * invitation) :=
  row_where (fun iv => String.eqb (iv_hash iv) h && sees_invite c iv) (id_invites g).
Definition invite_pending (now : time) (iv : invitation) : bool :=
  bool_decide (iv_consumed iv = None) && negb (iv_expires iv <=? now).

Section invitations.
Context (ulid : nat -> string) (argon_hash : string -> string -> string).
Context (sha256 : string -> string) (environ : string -> option string).
(** [settings.invitation_ttl_seconds]. *)
Context (invite_ttl : Z).

(** [_invitation_ttl]. *)
Definition invitation_ttl (t : settings) : Z :=
  setting_ttl environ "system.invitation_ttl_seconds" "REBOOTER_INVITATION_TTL_SECONDS" invite_ttl t.

(** The constraints of [invitations]. *)
Definition invite_accepted (iv : invitation) (g : idb) : bool :=
  fits 254 (iv_email iv) &&
  match iv_issuer iv with Some u => bool_decide (is_Some (id_users g !! u)) | None => true end &&
  free_in (fun x => String.eqb (iv_hash x) (iv_hash iv)) (id_invites g).

(** [mint_invitation]: the row's id and the secret.  [role] is what the caller passed. *)
Definition mint_invitation (c : caller) (email : string) (role : json) (issuer note : option string)
    (scope : json) (random : string) (now : time) (g : idb) : outcome (string * string) * idb :=
  let email := strip (lower email) in
  if is_empty email || negb (str_in "@" email) then (InvitationError "validation_failed", g)
  else match role with
  | JStr role =>
    if negb (in_strs role ALL_ROLES) then (InvitationError "validation_failed", g)
    else match validate_scope_payload scope with
    | Raise e => (Raise e, g)
    | Ret _ =>
      let secret := String.append "inv_" random in
      let expires := now + seconds (invitation_ttl (id_settings g)) in
      if negb (in_calendar expires) then (Raise OverflowError, g)
      else match stamped c None with
      | None => (Raise (DBError "NOT NULL invitations.organization_id"), g)
      | Some org =>
        let iv := Invitation email role (sha256 secret) issuer note scope org expires None None now in
        if invite_accepted iv g then
          let id := new_id ulid "inv" (id_next g) in
          (Ret (id, secret), on_invites (insert id iv) (draw_id g))
        else (Raise (DBError "invitations"), g)
      end
    end
  | _ => (InvitationError "validation_failed", g)
  end.

(** [cancel_invitation], and its bulk form: cancelled, unknown, consumed. *)
Definition cancel_invitation (c : caller) (id : string) (g : idb) : bool * idb :=
  match get_invite c id g with
  | None => (false, g)
  | Some iv => if bool_decide (iv_consumed iv = None) then (true, on_invites (base.delete id) g)
               else (false, g)
  end.
Definition cancel_step (c : caller) (acc : list string * list string * list string * idb)
    (id : string) : list string * list string * list string * idb :=
  let '(cancelled, unknown, used, g) := acc in
  match get_invite c id g with
  | None => (cancelled, unknown ++ [id], used, g)
  | Some iv => if bool_decide (iv_consumed iv = None)
               then (cancelled ++ [id], unknown, used, on_invites (base.delete id) g)
               else (cancelled, unknown, used ++ [id], g)
  end.
Definition cancel_invitations_bulk (c : caller) (ids : list string) (g : idb)
    : list string * list string * list string * idb :=
  foldl (cancel_step c) ([], [], [], g) ids.

(** [lookup_pending]. *)
Definition lookup_pending (c : caller) (token : string) (now : time) (g : idb)
    : option (string * invitation) :=
  match invite_by_hash c (sha256 token) g with
  | Some (id, iv) => if invite_pending now iv then Some (id, iv) else None
  | None => None
  end.

(** One iteration of the grant loop: the binding's values, [role_bindings.grant] in its own
    transaction, any failure swallowed. *)
Definition grant_binding (c : caller) (user role : string) (now : time) (g : idb) (b : json) : idb :=
  match b with
  | JObj d =>
    match dict_get d "scope_type", dict_get d "scope_id" with
    | Some (JStr st), Some (JStr sid) =>
      match grant (reads c) (TenantCtx (ca_org c) false false) (new_id ulid "rb" (id_next g))
              user st (Some sid) role None now (id_rbac g) with
      | (Ret _, db) => on_rbac (fun _ => db) (draw_id g)
      | (Raise _, _) => g
      end
    | _, _ => g
    end
  | _ => g
  end.
Definition grant_bindings (c : caller) (user role : string) (scope : json) (now : time) (g : idb)
    : idb :=
  if truthy scope then
    match scope with
    | JObj d => match dget_default d "bindings" (JList []) with
                | JList l => foldl (grant_binding c user role now) g l
                | _ => g
                end
    | _ => g
    end
  else g.

Definition consume_invite (now : time) (user : string) (iv : invitation) : invitation :=
  Invitation (iv_email iv) (iv_role iv) (iv_hash iv) (iv_issuer iv) (iv_note iv) (iv_scope iv)
    (iv_org iv) (iv_expires iv) (Some now) (Some user) (iv_created iv).

(** [redeem_invitation]: the account is committed by its own transaction, then the
    bindings, then the row.  [t1] is the clock of the nested calls. *)
Definition redeem_invitation (c : caller) (token password display_name salt : string)
    (now t1 : time) (g : idb) : outcome (string * account) * idb :=
  if (String.length password <? 8)%nat then (InvitationError "validation_failed", g)
  else match invite_by_hash c (sha256 token) g with
  | None => (InvitationError "invitation_invalid", g)
  | Some (id, iv) =>
    if bool_decide (iv_consumed iv <> None) then (InvitationError "invitation_consumed", g)
    else if iv_expires iv <=? now then (InvitationError "invitation_expired", g)
    else match create_user ulid argon_hash (iv_email iv) password display_name (iv_role iv) salt t1 g with
    | (Raise e, g) =>
      (match caught "UserError" e with
       | Some _ => InvitationError "validation_failed" | None => Raise e end, g)
    | (Ret (user, u), g) =>
      let g := grant_bindings c user (iv_role iv) (iv_scope iv) t1 g in
      (Ret (user, u), on_invites (insert id (consume_invite now user iv)) g)
    end
  end.

(** ** The invitation endpoints *)

(** [POST /api/v1/admin/invitations] for the operator [me] with a role. *)
Inductive invite_answer :=
  | InviteRefused (status : Z) (code : string)
  | InviteMade (id secret : string).
Definition create_invitation (c : caller) (me my_role : string) (body : pydict) (random : string)
    (now : time) (g : idb) : outcome invite_answer * idb :=
  match strip_or_empty (dget body "email") with
  | Raise e => (Raise e, g)
  | Ret email =>
    let role := jor (dget body "role") (JStr ROLE_ADMIN) in
    if jeqs role ROLE_SUPER_ADMIN && negb (String.eqb my_role ROLE_SUPER_ADMIN)
    then (Ret (InviteRefused 403 "forbidden"), g)
    else match mint_invitation c email role (Some me) (as_str (dget body "note"))
                 (dget body "scope_payload") random now g with
    | (Ret (id, secret), g) => (Ret (InviteMade id secret), g)
    | (Raise e, g) =>
      (match caught "InvitationError" e with
       | Some code => Ret (InviteRefused 400 code) | None => Raise e end, g)
    end
  end.

(** [POST /app/invitations]: the form's ids become bindings. *)
Definition form_bindings (st : string) (ids : list string) : list json :=
  (fun i => JObj [("scope_type", JStr st); ("scope_id", JStr i)]) <$>
    filter (fun i => is_empty i = false) ids.
Definition invitations_create_submit (c : caller) (me my_role email role note : string)
    (sites groups devices : list string) (random : string) (now : time) (g : idb)
    : outcome invite_answer * idb :=
  let role := if is_empty role then ROLE_ADMIN else role in
  if String.eqb role ROLE_SUPER_ADMIN && negb (String.eqb my_role ROLE_SUPER_ADMIN)
  then (Ret (InviteRefused 403 "forbidden"), g)
  else
    let bindings := form_bindings "site" sites ++ form_bindings "group" groups
                    ++ form_bindings "device" devices in
    let scope := match bindings with [] => JNull | _ => JObj [("bindings", JList bindings)] end in
    match mint_invitation c (strip email) (JStr role) (Some me)
            (as_str (none_if_empty (strip note))) scope random now g with
    | (Ret (id, secret), g) => (Ret (InviteMade id secret), g)
    | (Raise e, g) =>
      (match caught "InvitationError" e with
       | Some code => Ret (InviteRefused 400 code) | None => Raise e end, g)
    end.

(** [POST /app/invite/<token>] on the public page: the account, and the cookie that signs
    it in (without a session row). *)
Definition invite_redeem_submit (c : caller) (token password confirm display_name salt : string)
    (now t1 t2 : time) (ck : cookie) (g : idb) : outcome (option (string * account)) * cookie * idb :=
  if negb (String.eqb password confirm) then (Ret None, ck, g)
  else match redeem_invitation c token password (strip display_name) salt now t1 g with
  | (Ret (user, u), g) => (Ret (Some (user, u)), Cookie (Some user) (Some (epoch t2)) None None, g)
  | (Raise e, g) =>
    (match caught "InvitationError" e with Some _ => Ret None | None => Raise e end, ck, g)
  end.

(** ** Signup requests *)

Definition signup_fits (r : signup_row) : bool := fits 254 (sr_email r) && fits 200 (sr_name r).
Definition create_signup_request (email display_name : string) (message : option string) (now : time)
    (g : idb) : outcome string * idb :=
  let email := strip (lower email) in
  let name := strip display_name in
  if is_empty email || negb (str_in "@" email) then (SignupRequestError "validation_failed", g)
  else if is_empty name then (SignupRequestError "validation_failed", g)
  else match row_where (fun r => String.eqb (sr_email r) email && String.eqb (sr_status r) "pending")
               (id_signups g) with
  | Some _ => (SignupRequestError "duplicate_request", g)
  | None =>
    let r := SignupRow email name message "pending" None None None now in
    if signup_fits r then
      let id := new_id ulid "sreq" (id_next g) in
      (Ret id, on_signups (insert id r) (draw_id g))
    else (Raise (DBError "signup_requests"), g)
  end.

Definition review (status : string) (reviewer : string) (inv : option string) (now : time)
    (r : signup_row) : signup_row :=
  SignupRow (sr_email r) (sr_name r) (sr_message r) status (Some reviewer) (Some now)
    (match inv with Some i => Some i | None => sr_invitation r end) (sr_created r).
(** [approve_signup_request] and [reject_signup_request]. *)
Definition close_signup (status id reviewer : string) (inv : option string) (now : time) (g : idb)
    : outcome (option signup_row) * idb :=
  match id_signups g !! id with
  | None => (Ret None, g)
  | Some r =>
    if negb (String.eqb (sr_status r) "pending") then (SignupRequestError "already_reviewed", g)
    else (Ret (Some (review status reviewer inv now r)),
          on_signups (insert id (review status reviewer inv now r)) g)
  end.
Definition approve_signup_request (id reviewer inv : string) := close_signup "approved" id reviewer (Some inv).
Definition reject_signup_request (id reviewer : string) := close_signup "rejected" id reviewer None.
Definition count_pending_requests (g : idb) : nat :=
  size (filter (fun kr : string * signup_row => sr_status kr.2 = "pending") (id_signups g)).

(** The approve endpoints: an invitation with the role the reviewer asks for (a JSON
    value, [viewer] by default), then the request is closed. *)
Definition approve_signup (c : caller) (me id : string) (role : json) (random : string)
    (now t1 : time) (g : idb) : outcome invite_answer * idb :=
  match id_signups g !! id with
  | None => (Ret (InviteRefused 404 "not_found"), g)
  | Some r =>
    if negb (String.eqb (sr_status r) "pending") then (Ret (InviteRefused 400 "already_reviewed"), g)
    else match mint_invitation c (sr_email r) role (Some me)
                 (Some (String.append "Approved signup request from " (sr_name r))) JNull random now g with
    | (Raise e, g) =>
      (match caught "InvitationError" e with
       | Some code => Ret (InviteRefused 400 code) | None => Raise e end, g)
    | (Ret (inv, secret), g) =>
      match approve_signup_request id me inv t1 g with
      | (Raise e, g) =>
        (match caught "SignupRequestError" e with
         | Some code => Ret (InviteRefused 400 code) | None => Raise e end, g)
      | (Ret _, g) => (Ret (InviteMade inv secret), g)
      end
    end
  end.
Definition approve_signup_request_api (c : caller) (me id : string) (body : pydict) :=
  approve_signup c me id (dget_default body "role" (JStr ROLE_VIEWER)).
Definition signup_request_approve_submit (c : caller) (me id : string) (role : option string) :=
  approve_signup c me id (JStr (default ROLE_VIEWER role)).

(** The reject endpoints. *)
Definition reject_signup (me id : string) (now : time) (g : idb) : outcome (option string) * idb :=
  match id_signups g !! id with
  | None => (Ret (Some "not_found"), g)
  | Some r =>
    if negb (String.eqb (sr_status r) "pending") then (Ret (Some "already_reviewed"), g)
    else match reject_signup_request id me now g with
         | (Raise e, g) =>
           (match caught "SignupRequestError" e with Some code => Ret (Some code) | None => Raise e end, g)
         | (Ret _, g) => (Ret None, g)
         end
  end.
End invitations.

(** ** Memberships ([org_membership.py]) *)

Definition ORG_ROLE_OWNER : string := "owner".
Definition ORG_ROLE_ADMIN : string := "admin".
Definition ORG_ROLE_MEMBER : string := "member".

(** A membership joined with its organisation. *)
Record membership := Membership {
  mb_id : string; mb_org : string; mb_role : string; mb_slug : string; mb_name : string; mb_status : string
}.
Definition joined (user : string) (g : idb) (km : string * member_row) : option membership :=
  if String.eqb (om_user km.2) user then
    o ← id_orgs g !! om_org km.2;
    Some (Membership km.1 (om_org km.2) (om_role km.2) (og_slug o) (og_name o) (og_status o))
  else None.
(** [(org_role != "owner", name)], as tuples compare. *)
Definition not_owner (m : membership) : bool := negb (String.eqb (mb_role m) ORG_ROLE_OWNER).
Definition primary_le (a b : membership) : Prop :=
  (not_owner a = false /\ not_owner b = true) \/
  (not_owner a = not_owner b /\ String.leb (mb_name a) (mb_name b) = true).
#[export] Instance primary_le_dec : RelDecision primary_le.
Proof. intros a b. unfold primary_le. apply _. Defined.

(** [memberships_for_user]. *)
Definition memberships_for_user (user : string) (g : idb) : list membership :=
  if is_empty user then []
  else merge_sort primary_le (omap (joined user g) (map_to_list (id_members g))).

(** [is_member]. *)
Definition is_member (user org : string) (g : idb) : bool :=
  negb (is_empty user) && negb (is_empty org) &&
  match row_where (fun m => String.eqb (om_user m) user && String.eqb (om_org m) org) (id_members g) with
  | Some _ => true | None => false end.

(** [resolve_active_org]. *)
Definition resolve_active_org (user : string) (session_org : option string) (g : idb) : option string :=
  match memberships_for_user user g with
  | [] => None
  | m0 :: _ =>
    let ms := memberships_for_user user g in
    match session_org with
    | Some o =>
      if negb (is_empty o) && existsb (fun m => String.eqb (mb_org m) o) ms then
        match List.find (fun m => String.eqb (mb_org m) o) ms with
        | Some m => if String.eqb (mb_status m) "closed" then Some (mb_org m0) else Some o
        | None => Some o
        end
      else Some (mb_org m0)
    | None => Some (mb_org m0)
    end
  end.

(** [_bind_tenant_scope]: the context of the request and the cookie. *)
Definition bind_tenant_scope (user : string) (ck : cookie) (g : idb) : tenant_ctx * cookie :=
  let org := resolve_active_org user (ck_org ck) g in
  (set_org org (TenantCtx None false false),
   match org with Some o => Cookie (ck_user ck) (ck_iat ck) (ck_sid ck) (Some o) | None => ck end).

(** A JSON endpoint behind [role_required_api]: refused, or run as the user with the
    organisation bound for the request. *)
Definition operator_call {A} (jwt_decode : time -> string -> outcome pydict) (mode : enforce)
    (allowed : list string) (refuse : Z -> A)
    (handler : caller -> string -> account -> idb -> outcome A * idb) (rq : request) (now : time)
    (g : idb) : outcome A * idb :=
  match (role_required_api jwt_decode allowed rq now g).1 with
  | AuthRequired => (Ret (refuse 401), g)
  | Forbidden => (Ret (refuse 403), g)
  | Enter me u =>
    handler (Caller (tc_org (bind_tenant_scope me (rq_cookie rq) g).1) mode) me u g
  end.

(** ** Start-up ([bootstrap.py]) *)

Section bootstrap.
Context (ulid : nat -> string) (argon_hash : string -> string -> string) (iso : time -> string).

(** [ensure_bootstrap_admin] with the configured address and password. *)
Definition reconcile_admin (force : bool) (h : string) (u : account) : account :=
  set_role_flags ROLE_SUPER_ADMIN true true (set_active true (if force then set_password h u else u)).
Definition ensure_bootstrap_admin (email password : option string) (force : bool) (salt : string)
    (now : time) (g : idb) : outcome unit * idb :=
  if negb (truthy_str email && truthy_str password) then (Ret tt, g)
  else
    let email := or_str email "" in
    let h := argon_hash salt (or_str password "") in
    session_scope (fun g =>
      match by_email email g with
      | Some (id, u) => (Ret tt, on_users (insert id (reconcile_admin force h u)) g)
      | None =>
        let u := Account email h (before "@"%char email) true true true ROLE_SUPER_ADMIN now now now None in
        if account_fits u then (Ret tt, on_users (insert (new_id ulid "usr" (id_next g)) u) (draw_id g))
        else (Raise (DBError "users"), g)
      end) g.

Definition ORG_BACKFILL_KEY : string := "organization.default_backfilled_at".
(** Step 2: the first super administrator. *)
Definition backfill_owner (g : idb) : option string :=
  fst <$> head (order_by (fun x => us_created x.2)
    (filter (fun kr : string * account => us_super kr.2 = true) (map_to_list (id_users g)))).
(** Step 4: one membership per user. *)
Definition member_role (owner : option string) (id : string) (u : account) : string :=
  if bool_decide (owner = Some id) then ORG_ROLE_OWNER
  else if in_strs (us_role u) [ROLE_ADMIN; ROLE_SUPER_ADMIN] || us_super u then ORG_ROLE_ADMIN
  else ORG_ROLE_MEMBER.
Definition add_member (org : string) (owner : option string) (g : idb) (x : string * account) : idb :=
  on_members (insert (new_id ulid "om" (id_next g)) (MemberRow org x.1 (member_role owner x.1 x.2)))
    (draw_id g).
(** Step 3 on [role_bindings], the Tier-A table of this state. *)
Definition stamp_binding (org : string) (b : binding) : binding :=
  match rb_org b with
  | Some _ => b
  | None => Binding (rb_id b) (Some org) (rb_user b) (rb_scope_type b) (rb_scope_id b) (rb_role b)
              (rb_created_at b) (rb_updated_at b) (rb_created_by b)
  end.
Definition ensure_default_organization_backfill (now : time) (g : idb) : idb :=
  if has_db_value ORG_BACKFILL_KEY (id_settings g) then g
  else
    let mark := on_settings (setting_set ORG_BACKFILL_KEY (JStr (iso now)) None now) in
    if bool_decide (id_orgs g <> ∅) then mark g
    else
      let owner := backfill_owner g in
      let org := new_id ulid "org" (id_next g) in
      let g := on_orgs (insert org (OrgRow "Default Organization" "default" "active" "legacy" owner))
                 (draw_id g) in
      let g := on_rbac (fun db => with_bindings (stamp_binding org <$> rd_bindings db) db) g in
      mark (foldl (add_member org owner) g (map_to_list (id_users g))).
End bootstrap.
