(* ===== verification/ApiTokens.v ===== *)
(** * API tokens ([app/services/api_tokens.py], [app/middleware/token_auth.py], the service
    endpoints of [app/blueprints/admin/devices_api.py])

    Scoped bearer tokens for machine clients: minting, revocation, verification, and the
    endpoints a token opens on the command queue.  [py_repr] is the text of a value that is
    neither a string nor a number ([str(v)]). *)

From S2P Require Import Prelude EventBus Commands TenantScope Enrollment RoleBindings Identity Accounts.
From S2P Require Import Devices.
Local Open Scope string_scope.
Local Open Scope list_scope.
Local Open Scope Z_scope.

Definition ApiTokenError {A} : outcome A := Raise (AppError "ApiTokenError" "validation_failed").

Definition TOKEN_STRING_PREFIX : string := "rbt_".
Definition SCOPE_READ : string := "read".
Definition SCOPE_WRITE : string := "write".
Definition KNOWN_SCOPES : list string := [SCOPE_READ; SCOPE_WRITE].
Definition DEFAULT_EXPIRY_DAYS : Z := 90.
Definition MAX_EXPIRY_DAYS : Z := 365.
Definition MAX_NAME_LEN : nat := 120.

(** A verified token, as the views see it. *)
Record token_principal := TokenPrincipal {
  tp_id : string;
  tp_name : string;
  tp_scopes : list string;
  tp_site : option string;
  tp_org : option string;
  tp_creator : option string
}.

Section tokens.
Context (ulid : nat -> string) (sha256 : string -> string) (py_repr : json -> string).

(** [_clean_scopes]. *)
Definition clean_scope (v : json) : outcome string :=
  let s := lower (strip (py_str py_repr v)) in
  if in_strs s KNOWN_SCOPES then Ret s else ApiTokenError.
Definition clean_scopes (scopes : json) : outcome (list string) :=
  if negb (truthy scopes) then Ret [SCOPE_READ]
  else
    l ← py_iter scopes;
    out ← mapM clean_scope l;
    let out := if in_strs SCOPE_WRITE out then SCOPE_READ :: out else out in
    Ret (filter (fun s => in_strs s out = true) [SCOPE_READ; SCOPE_WRITE]).

(** [_resolve_expiry]. *)
Definition resolve_expiry (v : json) (now : time) : outcome (option time) :=
  match v with
  | JNull => Ret (Some (now + DEFAULT_EXPIRY_DAYS * DAY))
  | _ =>
    days ← py_int v;
    if days <? 0 then ApiTokenError
    else if days =? 0 then Ret None
    else if MAX_EXPIRY_DAYS <? days then ApiTokenError
    else Ret (Some (now + days * DAY))
  end.

(** [is_expired]. *)
Definition is_expired (now : time) (t : api_token) : bool :=
  match ap_expires t with None => false | Some e => e <? now end.

(** The constraints of [api_tokens]. *)
Definition api_token_accepted (t : api_token) (g : idb) : bool :=
  match ap_creator t with Some u => bool_decide (is_Some (id_users g !! u)) | None => true end &&
  match ap_site t with Some s => bool_decide (is_Some (rd_sites (id_rbac g) !! s)) | None => true end &&
  free_in (fun x => String.eqb (ap_hash x) (ap_hash t)) (id_tokens g).

(** [mint]: the id and the plaintext. *)
Definition mint (c : caller) (name scopes : json) (site : option string) (expires_in_days : json)
    (creator : option string) (random : string) (now : time) (g : idb)
    : outcome (string * string) * idb :=
  match (name ← strip_or_empty name;
         if is_empty name then ApiTokenError
         else if (MAX_NAME_LEN <? String.length name)%nat then ApiTokenError
         else scopes ← clean_scopes scopes;
              expires ← resolve_expiry expires_in_days now;
              Ret (name, scopes, expires)) with
  | Raise e => (Raise e, g)
  | Ret (name, scopes, expires) =>
    let plaintext := String.append TOKEN_STRING_PREFIX random in
    let site := if truthy_str site then site else None in
    let t := ApiToken name (sha256 plaintext) (str_take 12 plaintext) scopes site (stamped c None)
               creator expires None false now in
    if negb (match expires with Some e => in_calendar e | None => true end) then (Raise OverflowError, g)
    else if api_token_accepted t g then
      let id := new_id ulid "apt" (id_next g) in
      (Ret (id, plaintext), on_tokens (insert id t) (draw_id g))
    else (Raise (DBError "api_tokens"), g)
  end.

Definition sees_token (c : caller) (t : api_token) : bool := sees c (ap_org t).
(** [list_tokens]: newest first. *)
Definition list_tokens (c : caller) (include_revoked : bool) (g : idb) : list (string * api_token) :=
  order_by_desc (fun x => ap_created x.2)
    (filter (fun kt : string * api_token =>
       sees_token c kt.2 && (include_revoked || negb (ap_revoked kt.2)) = true)
       (map_to_list (id_tokens g))).
Definition get_api_token (c : caller) (id : string) (g : idb) : option api_token :=
  match id_tokens g !! id with
  | Some t => if sees_token c t then Some t else None
  | None => None
  end.

(** [revoke]. *)
Definition mark_revoked (t : api_token) : api_token :=
  ApiToken (ap_name t) (ap_hash t) (ap_prefix t) (ap_scopes t) (ap_site t) (ap_org t) (ap_creator t)
    (ap_expires t) (ap_last_used t) true (ap_created t).
Definition revoke_token (c : caller) (id : string) (g : idb) : bool * idb :=
  match get_api_token c id g with
  | None => (false, g)
  | Some t => (true, on_tokens (insert id (mark_revoked t)) g)
  end.

(** [verify]; a used token is stamped at the second reading of the clock. *)
Definition mark_used (now : time) (t : api_token) : api_token :=
  ApiToken (ap_name t) (ap_hash t) (ap_prefix t) (ap_scopes t) (ap_site t) (ap_org t) (ap_creator t)
    (ap_expires t) (Some now) (ap_revoked t) (ap_created t).
Definition token_by_hash (c : caller) (h : string) (g : idb) : option (string * api_token) :=
  row_where (fun t => String.eqb (ap_hash t) h && sees_token c t) (id_tokens g).
Definition principal_of (id : string) (t : api_token) : token_principal :=
  TokenPrincipal id (ap_name t) (ap_scopes t) (ap_site t) (ap_org t) (ap_creator t).
Definition verify (c : caller) (presented : string) (now later : time) (g : idb)
    : option token_principal * idb :=
  let presented := strip presented in
  if negb (startswith TOKEN_STRING_PREFIX presented) then (None, g)
  else match token_by_hash c (sha256 presented) g with
  | None => (None, g)
  | Some (id, t) =>
    if ap_revoked t then (None, g)
    else if is_expired now t then (None, g)
    else (Some (principal_of id t), on_tokens (insert id (mark_used later t)) g)
  end.

(** [has_scope]. *)
Definition has_scope (p : option token_principal) (scope : string) : bool :=
  match p with
  | None => false
  | Some p => in_strs scope (tp_scopes p) ||
              (String.eqb scope SCOPE_READ && in_strs SCOPE_WRITE (tp_scopes p))
  end.

(** ** [token_auth.py] *)

Definition presented_token (authorization : string) : option string :=
  if startswith "Bearer " authorization then
    let candidate := strip (String.substring 7 (String.length authorization - 7) authorization) in
    if startswith TOKEN_STRING_PREFIX candidate then Some candidate else None
  else None.
Definition resolve_api_token_principal (c : caller) (authorization : string) (now later : time)
    (g : idb) : option token_principal * idb :=
  match presented_token authorization with
  | None => (None, g)
  | Some t => verify c t now later g
  end.

(** [api_token_required(scope)]: the refusal, or the principal and the bound organisation. *)
Inductive token_gate := TokenRefused (status : Z) | TokenEnter (p : token_principal) (ctx : tenant_ctx).
Definition api_token_required (scope : string) (c : caller) (ctx : tenant_ctx) (authorization : string)
    (now later : time) (g : idb) : token_gate * idb :=
  match resolve_api_token_principal c authorization now later g with
  | (None, g) => (TokenRefused 401, g)
  | (Some p, g) =>
    if negb (has_scope (Some p) scope) then (TokenRefused 403, g)
    else (TokenEnter p (match tp_org p with Some o => set_org (Some o) ctx | None => ctx end), g)
  end.

(** ** The service endpoints *)

(** The gate both endpoints repeat: a principal with the write scope. *)
Definition service_gate (c : caller) (authorization : string) (now later : time) (g : idb)
    : option Z * idb :=
  match resolve_api_token_principal c authorization now later g with
  | (None, g) => (Some 401, g)
  | (Some p, g) => (if in_strs SCOPE_WRITE (tp_scopes p) then None else Some 403, g)
  end.

(** [POST /services/devices/<id>/enqueue]: the body's type and override, its payload (an
    object, or nothing) and its lifetime (an integer, or nothing). *)
Inductive service_answer := ServiceRefused (status : Z) | ServiceQueued (command_id : string).
Definition services_enqueue (c : caller) (authorization device_id : string) (type : json)
    (payload : pydict) (ttl : option Z) (override : json) (t0 t1 now flush_at : time) (g : idb) (h : hub)
    : outcome service_answer * idb * hub :=
  match service_gate c authorization t0 t1 g with
  | (Some status, g) => (Ret (ServiceRefused status), g, h)
  | (None, g) =>
    if negb (truthy type) then (Ret (ServiceRefused 400), g, h)
    else match type with
    | JStr ty =>
      match enqueue_for_device ulid device_id ty (Some payload) None ttl None
              (truthy override) false now flush_at h with
      | (Ret cmd, h) => (Ret (ServiceQueued (cmd_id cmd)), g, h)
      | (Raise e, h) =>
        (match e with
         | LookupError _ | KeyError _ => Ret (ServiceRefused 404)
         | ValueError _ => Ret (ServiceRefused 400)
         | e => match caught "DeviceLockedError" e with
                | Some _ => Ret (ServiceRefused 409) | None => Raise e end
         end, g, h)
      end
    | JList _ | JObj _ => (Raise (TypeError "unhashable type"), g, h)
    | _ => (Ret (ServiceRefused 400), g, h)
    end
  end.

(** [POST /services/devices/<id>/state-confirmed]; [iso] is the text of the instant. *)
Definition confirmed_event (device_id : string) (d : device) (relay_on : bool) (command_id : json)
    (ts : string) : hub_event :=
  DeviceStateChanged device_id
    [("local_ip", ojson (dev_local_ip d)); ("latest_relay_on", JBool relay_on);
     ("source", JStr "agent_ack"); ("command_id", command_id); ("ts", JStr ts)].
Definition services_state_confirmed (c : caller) (authorization device_id : string) (body : pydict)
    (t0 t1 : time) (ts : string) (g : idb) (h : hub) : Z * idb * hub :=
  match service_gate c authorization t0 t1 g with
  | (Some status, g) => (status, g, h)
  | (None, g) =>
    if negb (dict_has body "relay_on") then (400, g, h)
    else match hub_devices h !! device_id with
    | None => (404, g, h)
    | Some d =>
      let on := truthy (dget body "relay_on") in
      let h := with_devices (insert device_id (set_col "last_known_relay_on" (JBool on) d)) h in
      (200, g, with_bus (publish (confirmed_event device_id d on (dget body "command_id") ts)) h)
    end
  end.
End tokens.
