(* ===== verification/IdentityHistory.v ===== *)
(** * The history of the identity tables

    What every operation of [Accounts], [Invitations] and [ApiTokens] keeps: unique
    columns, fresh identifiers, role flags that follow the role; revocations, consumed
    rows and minted tokens persist.  [id_step] is the step relation of the state, over
    a clock that does not go back. *)

From S2P Require Import Prelude RuntimeSettings Commands TenantScope Enrollment RoleBindings Identity.
From S2P Require Import Accounts Invitations ApiTokens.
Local Open Scope string_scope.
Local Open Scope list_scope.
Local Open Scope Z_scope.

(** ** One table *)

Section table.
Context (ulid : nat -> string) `{!Inj (=) (=) ulid}.
Context {A : Type} (pre : string) (f : A -> string) (kept : A -> Prop) (R : A -> A -> Prop).
Context `{!Reflexive R}.

(** The column [f] is unique, and the identifiers still to be drawn are not keys. *)
Definition tab_ok (n : nat) (t : gmap string A) : Prop :=
  unique_by f t /\ forall m, (n <= m)%nat -> t !! new_id ulid pre m = None.
(** Rows that satisfy [kept] stay, related by [R]. *)
Definition evo (t t' : gmap string A) : Prop :=
  forall k r, t !! k = Some r -> kept r -> exists r', t' !! k = Some r' /\ R r r'.
Definition tab_good (n n' : nat) (t t' : gmap string A) : Prop :=
  tab_ok n t -> tab_ok n' t' /\ evo t t'.

Lemma evo_refl t : evo t t.
Proof. intros k r H _. eauto. Qed.

Lemma tab_same n n' t : (n <= n')%nat -> tab_good n n' t t.
Proof. intros Hn [Hu Hf]. split; [split; [done|]|apply evo_refl]. intros m Hm. apply Hf. lia. Qed.

Lemma tab_new n t r : (forall k b, t !! k = Some b -> f b <> f r) ->
  tab_good n (S n) t (<[new_id ulid pre n := r]> t).
Proof.
  intros Hfree [Hu Hf]. split; [split|].
  - apply unique_insert; [done|]. intros j b Hj He. by destruct (Hfree j b Hj).
  - intros m Hm. rewrite lookup_insert_ne; [apply Hf; lia|]. intros H. apply new_id_inj in H; [lia|done].
  - intros k b Hk _. exists b. split; [|done]. rewrite lookup_insert_ne; [done|].
    intros <-. rewrite Hf in Hk by lia. done.
Qed.

Lemma tab_edit n n' t k r r' : (n <= n')%nat -> t !! k = Some r -> f r' = f r -> R r r' ->
  tab_good n n' t (<[k := r']> t).
Proof.
  intros Hn Hk He HR [Hu Hf]. split; [split|].
  - apply unique_insert; [done|]. intros j b Hj Hb. rewrite He in Hb. by eapply Hu.
  - intros m Hm. rewrite lookup_insert_ne; [apply Hf; lia|]. intros ->. rewrite Hf in Hk; [done|lia].
  - intros j b Hj _. destruct (decide (k = j)) as [<-|Hne].
    + rewrite Hk in Hj. injection Hj as <-. exists r'. by rewrite lookup_insert_eq.
    + exists b. by rewrite lookup_insert_ne.
Qed.

Lemma tab_map n n' t h : (n <= n')%nat -> (forall r, f (h r) = f r /\ R r (h r)) ->
  tab_good n n' t (h <$> t).
Proof.
  intros Hn Hh [Hu Hf]. split; [split|].
  - apply unique_fmap; [apply Hh|done].
  - intros m Hm. rewrite lookup_fmap, Hf; [done|lia].
  - intros k r Hk _. exists (h r). rewrite lookup_fmap, Hk. split; [done|apply Hh].
Qed.

Lemma tab_drop n n' t k : (n <= n')%nat -> (forall r, t !! k = Some r -> ~ kept r) ->
  tab_good n n' t (base.delete k t).
Proof.
  intros Hn Hk [Hu Hf]. split; [split|].
  - by apply unique_delete.
  - intros m Hm. apply lookup_delete_None. right. apply Hf. lia.
  - intros j r Hj Hr. exists r. split; [|done]. rewrite lookup_delete_ne; [done|].
    intros ->. by apply (Hk r).
Qed.

Lemma tab_filter n n' t (p : A -> bool) : (n <= n')%nat -> (forall r, p r = true -> ~ kept r) ->
  tab_good n n' t (filter (fun kr : string * A => p kr.2 = false) t).
Proof.
  intros Hn Hp [Hu Hf]. split; [split|].
  - intros i j a b [Ha _]%map_lookup_filter_Some [Hb _]%map_lookup_filter_Some. by eapply Hu.
  - intros m Hm. apply map_lookup_filter_None. left. apply Hf. lia.
  - intros k r Hk Hr. exists r. split; [|done]. apply map_lookup_filter_Some. split; [done|]. cbn.
    destruct (p r) eqn:E; [|done]. by destruct (Hp r E).
Qed.
End table.

Lemma evo_trans {A} (kept : A -> Prop) (R : A -> A -> Prop) `{!Transitive R} t1 t2 t3 :
  (forall a b, kept a -> R a b -> kept b) -> evo kept R t1 t2 -> evo kept R t2 t3 -> evo kept R t1 t3.
Proof.
  intros Hk H1 H2 k r Hr Hkept. destruct (H1 k r Hr Hkept) as (r2 & H & HR).
  destruct (H2 k r2 H) as (r3 & ? & ?); [by eapply Hk|]. exists r3. split; [done|]. by etrans.
Qed.

(** ** What persists *)

Definition set_stays {A} (a b : option A) : Prop := a <> None -> b <> None.
#[export] Instance set_stays_refl {A} : Reflexive (@set_stays A).
Proof. by intros a H. Qed.
#[export] Instance set_stays_trans {A} : Transitive (@set_stays A).
Proof. unfold set_stays. intros a b c; auto. Qed.

(** A cutoff only grows, and the address of a user stays. *)
Definition user_evo (u u' : account) : Prop :=
  us_email u' = us_email u /\ us_valid_after u <= us_valid_after u'.
Definition session_evo (r r' : session_row) : Prop :=
  ss_jti r' = ss_jti r /\ ss_user r' = ss_user r /\ set_stays (ss_revoked r) (ss_revoked r').
Definition reset_evo (r r' : reset_row) : Prop :=
  pr_hash r' = pr_hash r /\ set_stays (pr_consumed r) (pr_consumed r').
Definition invite_evo (r r' : invitation) : Prop :=
  iv_hash r' = iv_hash r /\ set_stays (iv_consumed r) (iv_consumed r').
Definition token_evo (t t' : api_token) : Prop :=
  ap_name t' = ap_name t /\ ap_hash t' = ap_hash t /\ ap_scopes t' = ap_scopes t /\
  ap_site t' = ap_site t /\ ap_org t' = ap_org t /\ ap_creator t' = ap_creator t /\
  ap_expires t' = ap_expires t /\ (ap_revoked t = true -> ap_revoked t' = true).

#[export] Instance user_evo_refl : Reflexive user_evo.
Proof. intros u. split; [done|lia]. Qed.
#[export] Instance user_evo_trans : Transitive user_evo.
Proof. intros a b c [? ?] [? ?]. split; [congruence|lia]. Qed.
#[export] Instance session_evo_refl : Reflexive session_evo.
Proof. by intros u. Qed.
#[export] Instance session_evo_trans : Transitive session_evo.
Proof. intros a b c (? & ? & ?) (? & ? & ?). split_and!; [congruence|congruence|by etrans]. Qed.
#[export] Instance reset_evo_refl : Reflexive reset_evo.
Proof. by intros u. Qed.
#[export] Instance reset_evo_trans : Transitive reset_evo.
Proof. intros a b c [? ?] [? ?]. split; [congruence|by etrans]. Qed.
#[export] Instance invite_evo_refl : Reflexive invite_evo.
Proof. by intros u. Qed.
#[export] Instance invite_evo_trans : Transitive invite_evo.
Proof. intros a b c [? ?] [? ?]. split; [congruence|by etrans]. Qed.
#[export] Instance token_evo_refl : Reflexive token_evo.
Proof. by intros u. Qed.
#[export] Instance token_evo_trans : Transitive token_evo.
Proof. intros a b c (?&?&?&?&?&?&?&?) (?&?&?&?&?&?&?&?). split_and!; try congruence. auto. Qed.

Definition reset_kept (r : reset_row) : Prop := pr_consumed r <> None.
Definition invite_kept (r : invitation) : Prop := iv_consumed r <> None.
Definition always {A} (_ : A) : Prop := True.

(** The two flags of an account are functions of its role, and its cutoff is not ahead of
    the clock. *)
Definition sound (t : time) (u : account) : Prop :=
  us_role u ∈ ALL_ROLES /\ us_super u = String.eqb (us_role u) ROLE_SUPER_ADMIN /\
  us_admin u = negb (String.eqb (us_role u) ROLE_VIEWER) /\ us_valid_after u <= t.

Section history.
Context (ulid : nat -> string) `{!Inj (=) (=) ulid}.

Record wf (t : time) (g : idb) : Prop := Wf {
  wf_users : tab_ok ulid "usr" us_email (id_next g) (id_users g);
  wf_sound : forall k u, id_users g !! k = Some u -> sound t u;
  wf_sessions : tab_ok ulid "sess" ss_jti (id_next g) (id_sessions g);
  wf_resets : tab_ok ulid "pwr" pr_hash (id_next g) (id_resets g);
  wf_invites : tab_ok ulid "inv" iv_hash (id_next g) (id_invites g);
  wf_tokens : tab_ok ulid "apt" ap_hash (id_next g) (id_tokens g)
}.

Record evolves (g g' : idb) : Prop := Evolves {
  ev_users : evo always user_evo (id_users g) (id_users g');
  ev_sessions : evo always session_evo (id_sessions g) (id_sessions g');
  ev_resets : evo reset_kept reset_evo (id_resets g) (id_resets g');
  ev_invites : evo invite_kept invite_evo (id_invites g) (id_invites g');
  ev_tokens : evo always token_evo (id_tokens g) (id_tokens g');
  ev_members : has_db_value ORG_BACKFILL_KEY (id_settings g) = true ->
    id_members g' = id_members g /\ has_db_value ORG_BACKFILL_KEY (id_settings g') = true
}.

Definition good (t t' : time) (g g' : idb) : Prop := wf t g -> wf t' g' /\ evolves g g'.

Lemma evolves_refl g : evolves g g.
Proof. split; try apply evo_refl; apply _ || done. Qed.
Lemma evolves_trans g1 g2 g3 : evolves g1 g2 -> evolves g2 g3 -> evolves g1 g3.
Proof.
  intros [] []. split; try (eapply evo_trans; try apply _; try done).
  - unfold reset_kept. intros a b Ha [_ H]. auto.
  - unfold invite_kept. intros a b Ha [_ H]. auto.
  - intros H. destruct ev_members0 as [E1 H1]; [done|]. destruct ev_members1 as [E2 H2]; [done|].
    split; [congruence|done].
Qed.

Lemma sound_later t t' u : t <= t' -> sound t u -> sound t' u.
Proof. intros Hle (?&?&?&?). unfold sound. split_and!; [done..|lia]. Qed.

Lemma id_good_trans t1 t2 t3 g1 g2 g3 : good t1 t2 g1 g2 -> good t2 t3 g2 g3 -> good t1 t3 g1 g3.
Proof.
  intros H1 H2 Hw. destruct (H1 Hw) as [Hw2 E1]. destruct (H2 Hw2) as [Hw3 E2].
  split; [done|by eapply evolves_trans].
Qed.

(** A step changes the tables it names, each in a good way. *)
Lemma good_by t t' g g' :
  t <= t' ->
  tab_good ulid "usr" us_email always user_evo (id_next g) (id_next g') (id_users g) (id_users g') ->
  (forall k u, id_users g' !! k = Some u -> id_users g !! k = Some u \/ sound t' u) ->
  tab_good ulid "sess" ss_jti always session_evo (id_next g) (id_next g') (id_sessions g) (id_sessions g') ->
  tab_good ulid "pwr" pr_hash reset_kept reset_evo (id_next g) (id_next g') (id_resets g) (id_resets g') ->
  tab_good ulid "inv" iv_hash invite_kept invite_evo (id_next g) (id_next g') (id_invites g) (id_invites g') ->
  tab_good ulid "apt" ap_hash always token_evo (id_next g) (id_next g') (id_tokens g) (id_tokens g') ->
  (has_db_value ORG_BACKFILL_KEY (id_settings g) = true ->
   id_members g' = id_members g /\ has_db_value ORG_BACKFILL_KEY (id_settings g') = true) ->
  good t t' g g'.
Proof.
  intros Ht Hu Hs Hse Hr Hi Hto Hm []. destruct Hu as [Hu1 Hu2]; [done|]. destruct Hse as [? ?]; [done|].
  destruct Hr as [? ?]; [done|]. destruct Hi as [? ?]; [done|]. destruct Hto as [? ?]; [done|].
  split; [split; try done|by split].
  intros k u Hk. destruct (Hs k u Hk) as [Hk'|]; [|done]. eapply sound_later; [done|by eapply wf_sound0].
Qed.

Ltac quiet := first [done | apply tab_same; [apply _|cbn; lia] | by left | intros; by left | by intros ?].

Lemma id_good_refl t t' g : t <= t' -> good t t' g g.
Proof. intros. apply good_by; quiet. Qed.

(** Tables outside the invariant change freely, as long as a started hub stays started. *)
Lemma good_rbac t t' f g : t <= t' -> good t t' g (on_rbac f (draw_id g)).
Proof. intros. apply good_by; quiet. Qed.
Lemma good_signups t t' f g : t <= t' -> good t t' g (on_signups f g).
Proof. intros. apply good_by; quiet. Qed.
Lemma good_draw t t' g : t <= t' -> good t t' g (draw_id g).
Proof. intros. apply good_by; quiet. Qed.

(** ** Users *)

Lemma good_new_user t t' g u : t <= t' -> sound t' u ->
  (forall k b, id_users g !! k = Some b -> us_email b <> us_email u) ->
  good t t' g (on_users (insert (new_id ulid "usr" (id_next g)) u) (draw_id g)).
Proof.
  intros Ht Hs Hf. apply good_by; try quiet; cbn.
  - apply tab_new; [apply _|apply _|done].
  - intros k b [[<- <-]|[_ Hk]]%lookup_insert_Some; auto.
Qed.

Lemma good_edit_user t t' g k u u' : t <= t' -> id_users g !! k = Some u ->
  (sound t' u -> us_valid_after u <= t -> sound t' u' /\ user_evo u u') ->
  good t t' g (on_users (insert k u') g).
Proof.
  intros Ht Hk Hu Hw. destruct (wf_sound _ _ Hw k u Hk) as (?&?&?&?).
  destruct Hu as [Hs He]; [unfold sound; split_and!; [done..|lia]|done|].
  revert Hw. apply good_by; try quiet; cbn.
  - eapply tab_edit; [apply _|lia|done|apply He|done].
  - intros j b [[<- <-]|[_ Hj]]%lookup_insert_Some; auto.
Qed.

Lemma by_email_none e g : by_email e g = None ->
  forall k b, id_users g !! k = Some b -> us_email b <> e.
Proof.
  intros Hn k b Hk He. apply (row_where_none _ _ _ _ Hn) in Hk. cbn in Hk.
  by rewrite He, String.eqb_refl in Hk.
Qed.
Lemma by_email_some e g k u : by_email e g = Some (k, u) ->
  id_users g !! k = Some u /\ us_email u = e.
Proof. intros [H1 H2]%row_where_some. split; [done|]. by apply String.eqb_eq. Qed.

Lemma edit_account_good t t' id f g : t <= t' ->
  (forall u, sound t' u -> us_valid_after u <= t -> sound t' (f u) /\ user_evo u (f u)) ->
  good t t' g (edit_account id f g).2.
Proof.
  intros Ht Hf. unfold edit_account. destruct (id_users g !! id) as [u|] eqn:E; [|by apply id_good_refl].
  destruct (account_fits (f u)); [|by apply id_good_refl]. cbn. eapply good_edit_user; eauto.
Qed.

Lemma scope_good {A} t t' (body : idb -> outcome A * idb) g :
  t <= t' -> good t t' g (body g).2 -> good t t' g (session_scope body g).2.
Proof.
  intros Ht Hb. unfold session_scope. destruct (body g) as [[a|e] g']; [done|]. by apply id_good_refl.
Qed.

(** The edits of one row: roles, cutoffs, and the rest. *)
Lemma sound_role t r u : in_strs r ALL_ROLES = true -> sound t u ->
  sound t (set_role_flags r (negb (String.eqb r ROLE_VIEWER)) (String.eqb r ROLE_SUPER_ADMIN) u).
Proof. intros Hr%in_strs_spec (_&_&_&?). by unfold sound. Qed.
Lemma sound_cut t u : sound t u -> sound t (set_valid_after t u).
Proof. intros (?&?&?&_). unfold sound. cbn. split_and!; [done..|lia]. Qed.

(** ** Sessions *)

Lemma record_good t t' u k j ttl ua ip now g : t <= t' ->
  good t t' g (record_session ulid u k j ttl ua ip now g).2.
Proof.
  intros Ht. unfold record_session. set (row := SessionRow _ _ _ _ _ _ _ _ _).
  destruct (session_accepted row g) eqn:E; [|by apply id_good_refl]. cbn.
  unfold session_accepted in E. apply andb_prop in E as [_ E].
  apply good_by; try quiet; cbn. apply tab_new; [apply _|apply _|].
  intros i b Hb Hj. rewrite free_in_spec in E. specialize (E i b Hb). cbn in E.
  rewrite Hj, String.eqb_refl in E. done.
Qed.

Lemma revoke_where_good t t' p now g : t <= t' -> good t t' g (revoke_where p now g).2.
Proof.
  intros Ht. apply good_by; try quiet; cbn. apply tab_map; [lia|].
  intros r. unfold live. destruct (p r && _); [|done]. split; [done|]. by split_and!.
Qed.
Lemma revoke_one_good t t' j now g : t <= t' -> good t t' g (revoke_one j now g).2.
Proof. apply revoke_where_good. Qed.

Lemma issue_good enc t t' u k j ttl ua ip now later g : t <= t' ->
  good t t' g (issue_token ulid enc u k j ttl ua ip now later g).2.
Proof. apply record_good. Qed.
Lemma open_cookie_good t t' id j cm now later g : t <= t' ->
  good t t' g (open_cookie ulid id j cm now later g).2.
Proof. apply record_good. Qed.

(** ** The operations of [Accounts] *)

Context (argon_hash : string -> string -> string) (argon_verify : string -> string -> outcome unit).
Context (jwt_encode : pydict -> string) (jwt_decode : time -> string -> outcome pydict).
Context (sha256 : string -> string) (environ : string -> option string) (py_repr : json -> string).
Context (reset_ttl invite_ttl : Z) (iso : time -> string).

Lemma create_user_good t e p n r salt now g : t <= now ->
  good t now g (create_user ulid argon_hash e p n r salt now g).2.
Proof.
  intros Ht. unfold create_user. destruct (in_strs r ALL_ROLES) eqn:Er; [|by apply id_good_refl]. cbn.
  apply scope_good; [done|]. destruct (by_email _ g) as [[k u]|] eqn:E; [by apply id_good_refl|].
  destruct (account_fits _); [|by apply id_good_refl]. apply good_new_user; [done| |by apply by_email_none].
  apply in_strs_spec in Er. unfold sound; cbn. split_and!; [done..|lia].
Qed.

Lemma update_role_good t id r now g : t <= now -> good t now g (update_user_role id r now g).2.
Proof.
  intros Ht. unfold update_user_role. destruct (in_strs r ALL_ROLES) eqn:Er; [|by apply id_good_refl]. cbn.
  apply scope_good; [done|]. apply edit_account_good; [done|]. intros u Hs Hv.
  split; [by apply sound_role|split; cbn; [done|lia]].
Qed.

Lemma cut_good t id f now g : t <= now -> (forall u, us_email (f u) = us_email u) ->
  (forall u, sound now u -> sound now (f u) /\ us_valid_after (f u) = now) ->
  good t now g (session_scope (edit_account id f) g).2.
Proof.
  intros Ht He Hf. apply scope_good; [done|]. apply edit_account_good; [done|]. intros u Hs Hv.
  destruct (Hf u Hs) as [? ->%eq_sym]. split; [done|split; [done|]].
  destruct (Hf u Hs) as [_ E]. lia.
Qed.

Lemma deactivate_good t id now g : t <= now -> good t now g (deactivate_user id now g).2.
Proof. intros Ht. apply cut_good; [done..|]. intros u Hs. split; [by apply sound_cut|done]. Qed.

Lemma display_name_good t id n now g : t <= now ->
  good t now g (update_user_display_name id n now g).2.
Proof.
  intros Ht. unfold update_user_display_name. destruct (is_empty _); [by apply id_good_refl|].
  apply scope_good; [done|]. apply edit_account_good; [done|]. intros u Hs Hv. split; [done|split; cbn; [done|lia]].
Qed.

Lemma change_password_good t id cur new salt now g : t <= now ->
  good t now g (change_own_password argon_hash argon_verify id cur new salt now g).2.
Proof.
  intros Ht. unfold change_own_password. destruct (_ <? _)%nat; [by apply id_good_refl|].
  destruct (String.eqb _ _); [by apply id_good_refl|]. apply scope_good; [done|].
  destruct (id_users g !! id) as [u|]; [|by apply id_good_refl].
  destruct (negb _); [by apply id_good_refl|].
  set (f := fun u => set_valid_after now _).
  assert (H : good t now g (edit_account id f g).2).
  { apply edit_account_good; [done|]. intros v Hs Hv. split; [by apply sound_cut|split; cbn; [done|lia]]. }
  destruct (edit_account id f g) as [r g']. done.
Qed.

Lemma revoke_all_good t id now later g : t <= now <= later ->
  good t later g (revoke_all_tokens id now later g).2.
Proof.
  intros [Ht Hl]. unfold revoke_all_tokens.
  pose proof (cut_good t id (fun u => touch now (set_valid_after now u)) now g Ht) as H.
  destruct (session_scope _ g) as [[[u|]|e] g'];
    (apply id_good_trans with now g'; [apply H; [done|]; intros v Hs; split; [by apply sound_cut|done]|]).
  - by apply revoke_where_good.
  - by apply id_good_refl.
  - by apply id_good_refl.
Qed.

Lemma identify_some i g k u : identify i g = Some (k, u) -> id_users g !! k = Some u.
Proof.
  unfold identify. destruct (by_email i g) as [[k' u']|] eqn:E.
  { intros [= <- <-]. by apply by_email_some in E as []. }
  destruct (str_in _ _); [done|].
  destruct (filter _ _) as [|x [|]] eqn:Ef; try done. intros [= ->].
  assert (Hin : (k, u) ∈ filter (fun kr : string * account =>
    like (String.append i "@%") (us_email kr.2) = true) (map_to_list (id_users g))) by (rewrite Ef; by left).
  apply list_elem_of_filter in Hin as [_ Hin]. by apply elem_of_map_to_list in Hin.
Qed.

Lemma authenticate_good t e p now g : t <= now -> good t now g (authenticate argon_verify e p now g).2.
Proof.
  intros Ht. unfold authenticate. destruct (identify _ g) as [[k u]|] eqn:E; [|by apply id_good_refl].
  destruct (negb _); [by apply id_good_refl|]. destruct (negb _); [by apply id_good_refl|].
  eapply good_edit_user; [done|by eapply identify_some|]. intros Hs Hv. split; [done|split; cbn; [done|lia]].
Qed.

Lemma login_submit_good t e p j cm now t1 c g : t <= now <= t1 ->
  good t t1 g (login_submit ulid argon_verify e p j cm now t1 c g).2.
Proof.
  intros [Ht H1]. unfold login_submit. pose proof (authenticate_good t (strip e) p now g Ht) as H.
  destruct (authenticate _ _ _ now g) as [[[id u]|] g'].
  - pose proof (open_cookie_good now t1 id j cm t1 t1 g' H1) as Ho. destruct (open_cookie _ _ _ _ _ _ g').
    by eapply id_good_trans.
  - eapply id_good_trans; [done|by apply id_good_refl].
Qed.

Lemma login_good t e p jc ja jr cm now t1 t2 t3 c g : t <= now <= t1 -> t1 <= t2 <= t3 ->
  good t t3 g (login ulid argon_verify jwt_encode e p jc ja jr cm now t1 t2 t3 c g).2.
Proof.
  intros [Ht H1] [H2 H3]. unfold login. destruct (_ || _); [apply id_good_refl; lia|].
  pose proof (authenticate_good t (strip e) p now g Ht) as H.
  destruct (authenticate _ _ _ now g) as [[[id u]|] g1];
    [|eapply id_good_trans; [done|apply id_good_refl; lia]].
  pose proof (open_cookie_good now t1 id jc cm t1 t1 g1 H1) as Ho. destruct (open_cookie _ _ _ _ _ _ g1) as [c' g2].
  pose proof (issue_good jwt_encode t1 t2 id "access" ja ACCESS_TOKEN_TTL_SECONDS (cm_agent cm) (cm_ip cm)
    t2 t2 g2 H2) as Ha.
  unfold issue_access_token. destruct (issue_token _ _ _ "access" _ _ _ _ _ _ g2) as [tka g3].
  pose proof (issue_good jwt_encode t2 t3 id "refresh" jr REFRESH_TOKEN_TTL_SECONDS (cm_agent cm) (cm_ip cm)
    t3 t3 g3 H3) as Hr.
  unfold issue_refresh_token. destruct (issue_token _ _ _ "refresh" _ _ _ _ _ _ g3) as [tkr g4].
  eapply id_good_trans; [exact H|]. eapply id_good_trans; [exact Ho|]. by eapply id_good_trans.
Qed.

Lemma refresh_good t tok ja jr cm now t1 t2 g : t <= now <= t1 -> t1 <= t2 ->
  good t t2 g (refresh ulid jwt_encode jwt_decode tok ja jr cm now t1 t2 g).2.
Proof.
  intros [Ht H1] H2. unfold refresh. destruct (is_empty tok); [apply id_good_refl; lia|].
  destruct (decode_token _ _ _ _); [|apply id_good_refl; lia].
  destruct (load_user _ g) as [[id u]|]; [|apply id_good_refl; lia].
  destruct (negb _); [apply id_good_refl; lia|].
  pose proof (issue_good jwt_encode t t1 id "access" ja ACCESS_TOKEN_TTL_SECONDS (cm_agent cm) (cm_ip cm)
    t1 t1 g ltac:(lia)) as Ha.
  unfold issue_access_token. destruct (issue_token _ _ _ "access" _ _ _ _ _ _ g) as [tka g1].
  pose proof (issue_good jwt_encode t1 t2 id "refresh" jr REFRESH_TOKEN_TTL_SECONDS (cm_agent cm) (cm_ip cm)
    t2 t2 g1 H2) as Hr.
  unfold issue_refresh_token. destruct (issue_token _ _ _ "refresh" _ _ _ _ _ _ g1) as [tkr g2].
  by eapply id_good_trans.
Qed.

Lemma logout_good t c now later g : t <= now <= later -> good t later g (logout c now later g).2.
Proof.
  intros [Ht Hl]. unfold logout. cbn [snd]. set (g1 := if truthy_str (ck_user c) then _ else g).
  apply id_good_trans with later g1; subst g1.
  - destruct (truthy_str (ck_user c)); [by apply revoke_all_good|apply id_good_refl; lia].
  - destruct (truthy_str (ck_sid c)); [by apply revoke_one_good|by apply id_good_refl].
Qed.

Lemma logout_ui_good t c now g : t <= now -> good t now g (logout_ui c now g).2.
Proof.
  intros Ht. unfold logout_ui. cbn [snd].
  destruct (truthy_str (ck_sid c)); [by apply revoke_one_good|by apply id_good_refl].
Qed.

Lemma request_reset_good t e ip random now g : t <= now ->
  good t now g (request_reset ulid sha256 environ reset_ttl e ip random now g).2.
Proof.
  intros Ht. unfold request_reset. destruct (_ || _); [by apply id_good_refl|].
  apply scope_good; [done|]. destruct (by_email _ g) as [[k u]|]; [|by apply id_good_refl].
  destruct (negb _); [by apply id_good_refl|]. destruct (negb _); [by apply id_good_refl|].
  set (r := ResetRow _ _ _ _ _ _ _ _). destruct (reset_accepted r g) eqn:E; [|by apply id_good_refl].
  apply andb_prop in E as [_ E]. apply good_by; try quiet; cbn. apply tab_new; [apply _|apply _|].
  intros i b Hb Hj. rewrite free_in_spec in E. specialize (E i b Hb). cbn in E.
  rewrite Hj, String.eqb_refl in E. done.
Qed.

Lemma consume_reset_good t tok pw ip salt now g : t <= now ->
  good t now g (consume_reset argon_hash sha256 tok pw ip salt now g).2.
Proof.
  intros Ht. unfold consume_reset. destruct (_ || _); [by apply id_good_refl|].
  apply scope_good; [done|]. destruct (reset_by_hash _ g) as [[rid r]|] eqn:E; [|by apply id_good_refl].
  apply row_where_some in E as [Er _].
  destruct (negb _); [by apply id_good_refl|]. destruct (id_users g !! pr_user r) as [u|] eqn:Eu; [|by apply id_good_refl].
  destruct (negb _); [by apply id_good_refl|]. destruct (_ && _); [|by apply id_good_refl].
  eapply id_good_trans with (t2 := now).
  - eapply good_edit_user with (u' := with_new_password (hash_password argon_hash salt pw) now u);
      [done|exact Eu|]. intros Hs Hv. split; [by apply sound_cut|split; cbn; [done|lia]].
  - apply good_by; try quiet; cbn. eapply tab_edit; [apply _|lia|exact Er|done|done].
Qed.

Lemma expire_old_good t now g : t <= now -> good t now g (expire_old now g).2.
Proof.
  intros Ht. apply good_by; try quiet; cbn. apply tab_filter; [apply _|lia|].
  intros r [_ Hr]%andb_prop Hk. by apply bool_decide_eq_true in Hr.
Qed.

(** ** The operations of [Invitations] *)

Lemma mint_invitation_good t c e r i n sc random now g : t <= now ->
  good t now g (mint_invitation ulid sha256 environ invite_ttl c e r i n sc random now g).2.
Proof.
  intros Ht. unfold mint_invitation. destruct (_ || _); [by apply id_good_refl|].
  destruct r as [| | | |r| |]; try by apply id_good_refl. destruct (negb _); [by apply id_good_refl|].
  destruct (validate_scope_payload sc); [|by apply id_good_refl]. destruct (negb _); [by apply id_good_refl|].
  destruct (stamped c None) as [org|]; [|by apply id_good_refl].
  set (iv := Invitation _ _ _ _ _ _ _ _ _ _ _). destruct (invite_accepted iv g) eqn:E; [|by apply id_good_refl].
  apply andb_prop in E as [_ E]. apply good_by; try quiet; cbn. apply tab_new; [apply _|apply _|].
  intros j b Hb Hj. rewrite free_in_spec in E. specialize (E j b Hb). cbn in E.
  rewrite Hj, String.eqb_refl in E. done.
Qed.

Lemma get_invite_some c id g iv : get_invite c id g = Some iv -> id_invites g !! id = Some iv.
Proof. unfold get_invite. destruct (id_invites g !! id); [|done]. by destruct (sees_invite _ _). Qed.

Lemma drop_invite_good t t' id g : t <= t' -> (forall iv, id_invites g !! id = Some iv -> iv_consumed iv = None) ->
  good t t' g (on_invites (base.delete id) g).
Proof.
  intros Ht Hn. apply good_by; try quiet; cbn. apply tab_drop; [apply _|lia|].
  intros iv Hi Hk. by apply Hk, Hn.
Qed.

Lemma id_cancel_good t c id now g : t <= now -> good t now g (cancel_invitation c id g).2.
Proof.
  intros Ht. unfold cancel_invitation. destruct (get_invite c id g) as [iv|] eqn:E; [|by apply id_good_refl].
  case_bool_decide; [|by apply id_good_refl]. apply drop_invite_good; [done|].
  intros b Hb. apply get_invite_some in E. congruence.
Qed.

Lemma cancel_bulk_good t c ids now g : t <= now -> good t now g (cancel_invitations_bulk c ids g).2.
Proof.
  intros Ht. unfold cancel_invitations_bulk.
  enough (forall acc, good t now g acc.2 -> good t now g (foldl (cancel_step c) acc ids).2)
    as H by (apply H; by apply id_good_refl).
  induction ids as [|id ids IH]; intros [[[l1 l2] l3] g1] H; [done|]. cbn [foldl]. apply IH.
  cbn in H |- *. destruct (get_invite c id g1) as [iv|] eqn:E; [|done].
  case_bool_decide; [|done]. cbn. eapply id_good_trans; [exact H|]. apply drop_invite_good; [lia|].
  intros b Hb. apply get_invite_some in E. congruence.
Qed.

Lemma grant_binding_good t c u r now g b : good t t g (grant_binding ulid c u r now g b).
Proof.
  unfold grant_binding. destruct b; try (apply id_good_refl; lia).
  destruct (dict_get _ "scope_type") as [[]|]; try (apply id_good_refl; lia).
  destruct (dict_get _ "scope_id") as [[]|]; try (apply id_good_refl; lia).
  destruct (grant _ _ _ _ _ _ _ _ _ _) as [[]]; [apply good_rbac; lia|apply id_good_refl; lia].
Qed.
Lemma grant_bindings_good t c u r sc now g : good t t g (grant_bindings ulid c u r sc now g).
Proof.
  unfold grant_bindings. destruct (truthy sc); [|apply id_good_refl; lia].
  destruct sc; try (apply id_good_refl; lia). destruct (dget_default _ _ _) as [| | | | |l|];
    try (apply id_good_refl; lia).
  revert g. induction l as [|b l IH]; intros g; cbn; [apply id_good_refl; lia|].
  eapply id_good_trans; [apply grant_binding_good|apply IH].
Qed.

(** Grants write bindings only. *)
Definition beside_rbac (g g' : idb) : Prop :=
  id_users g' = id_users g /\ id_invites g' = id_invites g /\ id_members g' = id_members g /\
  id_settings g' = id_settings g.
Lemma grant_binding_frame c u r now g b : beside_rbac g (grant_binding ulid c u r now g b).
Proof.
  unfold grant_binding. destruct b; try done. destruct (dict_get _ "scope_type") as [[]|]; try done.
  destruct (dict_get _ "scope_id") as [[]|]; try done. by destruct (grant _ _ _ _ _ _ _ _ _ _) as [[]].
Qed.
Lemma grant_bindings_frame c u r sc now g : beside_rbac g (grant_bindings ulid c u r sc now g).
Proof.
  unfold grant_bindings. destruct (truthy sc); [|done]. destruct sc; try done.
  destruct (dget_default _ _ _) as [| | | | |l|]; try done.
  revert g. induction l as [|b l IH]; intros g; cbn; [done|].
  destruct (IH (grant_binding ulid c u r now g b)) as (?&?&?&?).
  destruct (grant_binding_frame c u r now g b) as (?&?&?&?). unfold beside_rbac. split_and!; congruence.
Qed.
Lemma create_user_frame e p n r salt now g :
  id_invites (create_user ulid argon_hash e p n r salt now g).2 = id_invites g.
Proof.
  unfold create_user, session_scope. destruct (negb _); [done|]. destruct (by_email _ g); [done|].
  by destruct (account_fits _).
Qed.

Lemma redeem_good t c tok pw n salt now t1 g : t <= now <= t1 ->
  good t t1 g (redeem_invitation ulid argon_hash sha256 c tok pw n salt now t1 g).2.
Proof.
  intros [Ht H1]. unfold redeem_invitation. destruct (_ <? _)%nat; [apply id_good_refl; lia|].
  destruct (invite_by_hash c _ g) as [[id iv]|] eqn:E; [|apply id_good_refl; lia].
  apply row_where_some in E as [E _].
  destruct (bool_decide _); [apply id_good_refl; lia|]. destruct (_ <=? _); [apply id_good_refl; lia|].
  pose proof (create_user_good t (iv_email iv) pw n (iv_role iv) salt t1 g ltac:(lia)) as Hc.
  pose proof (create_user_frame (iv_email iv) pw n (iv_role iv) salt t1 g) as Hf.
  destruct (create_user _ _ _ _ _ _ _ _ g) as [[[k u]|e] g1];
    [|by destruct (caught _ e)].
  cbn [snd] in *. eapply id_good_trans; [exact Hc|]. eapply id_good_trans; [apply grant_bindings_good|].
  apply good_by; try quiet; cbn. eapply tab_edit with (r := iv); [apply _|lia| |done|done].
  destruct (grant_bindings_frame c k (iv_role iv) (iv_scope iv) t1 g1) as (_ & -> & _).
  rewrite Hf. exact E.
Qed.

Lemma create_signup_good t e n m now g : t <= now -> good t now g (create_signup_request ulid e n m now g).2.
Proof.
  intros Ht. unfold create_signup_request. destruct (_ || _); [by apply id_good_refl|].
  destruct (is_empty _); [by apply id_good_refl|]. destruct (row_where _ _) as [[]|]; [by apply id_good_refl|].
  destruct (signup_fits _); [|by apply id_good_refl]. cbn.
  eapply id_good_trans with (t2 := now); [by apply good_draw|apply good_signups; lia].
Qed.
Lemma close_signup_good t st id who inv now g : t <= now -> good t now g (close_signup st id who inv now g).2.
Proof.
  intros Ht. unfold close_signup. destruct (id_signups g !! id); [|by apply id_good_refl].
  destruct (negb _); [by apply id_good_refl|by apply good_signups].
Qed.

Lemma approve_good t c me id role random now t1 g : t <= now <= t1 ->
  good t t1 g (approve_signup ulid sha256 environ invite_ttl c me id role random now t1 g).2.
Proof.
  intros [Ht H1]. unfold approve_signup. destruct (id_signups g !! id) as [r|]; [|apply id_good_refl; lia].
  destruct (negb _); [apply id_good_refl; lia|].
  pose proof (mint_invitation_good t c (sr_email r) role (Some me)
    (Some (String.append "Approved signup request from " (sr_name r))) JNull random now g Ht) as Hm.
  destruct (mint_invitation _ _ _ _ _ _ _ _ _ _ _ _ g) as [[[inv sec]|e] g1]; cbn [snd] in Hm.
  - pose proof (close_signup_good now "approved" id me (Some inv) t1 g1 H1) as Hc.
    unfold approve_signup_request. destruct (close_signup _ _ _ _ _ g1) as [[|e] g2]; cbn [snd] in Hc.
    + by eapply id_good_trans.
    + destruct (caught _ e); by eapply id_good_trans.
  - destruct (caught _ e); (eapply id_good_trans; [done|by apply id_good_refl]).
Qed.

(** ** The operations of [ApiTokens] *)

Lemma id_mint_good t c n sc site ex who random now g : t <= now ->
  good t now g (mint ulid sha256 py_repr c n sc site ex who random now g).2.
Proof.
  intros Ht. unfold mint. destruct (_ ← strip_or_empty n; _) as [[[nm ss] e]|]; [|by apply id_good_refl].
  destruct (negb _); [by apply id_good_refl|]. set (tk := ApiToken _ _ _ _ _ _ _ _ _ _ _).
  destruct (api_token_accepted tk g) eqn:E; [|by apply id_good_refl].
  apply andb_prop in E as [_ E]. apply good_by; try quiet; cbn. apply tab_new; [apply _|apply _|].
  intros j b Hb Hj. rewrite free_in_spec in E. specialize (E j b Hb). cbn in E.
  rewrite Hj, String.eqb_refl in E. done.
Qed.

Lemma edit_token_good t t' id tk tk' g : t <= t' -> id_tokens g !! id = Some tk -> token_evo tk tk' ->
  good t t' g (on_tokens (insert id tk') g).
Proof.
  intros Ht Hk He. apply good_by; try quiet; cbn. eapply tab_edit; [apply _|lia|exact Hk|apply He|done].
Qed.

Lemma get_token_some c id g tk : get_api_token c id g = Some tk -> id_tokens g !! id = Some tk.
Proof. unfold get_api_token. destruct (id_tokens g !! id); [|done]. by destruct (sees_token _ _). Qed.

Lemma revoke_token_good t c id now g : t <= now -> good t now g (revoke_token c id g).2.
Proof.
  intros Ht. unfold revoke_token. destruct (get_api_token c id g) as [tk|] eqn:E; [|by apply id_good_refl].
  eapply edit_token_good; [done|by eapply get_token_some|]. by split_and!.
Qed.

Lemma verify_good t c p now later g : t <= now <= later -> good t later g (verify sha256 c p now later g).2.
Proof.
  intros [Ht Hl]. unfold verify. destruct (negb _); [apply id_good_refl; lia|].
  destruct (token_by_hash c _ g) as [[id tk]|] eqn:E; [|apply id_good_refl; lia].
  apply row_where_some in E as [E _].
  destruct (ap_revoked tk) eqn:Er; [apply id_good_refl; lia|]. destruct (is_expired _ _); [apply id_good_refl; lia|].
  eapply edit_token_good; [lia|exact E|]. by split_and!.
Qed.

(** ** Start-up *)

Lemma bootstrap_admin_good t e p force salt now g : t <= now ->
  good t now g (ensure_bootstrap_admin ulid argon_hash e p force salt now g).2.
Proof.
  intros Ht. unfold ensure_bootstrap_admin. destruct (negb _); [by apply id_good_refl|].
  apply scope_good; [done|]. destruct (by_email _ g) as [[k u]|] eqn:E.
  - apply by_email_some in E as [E _]. cbn. eapply good_edit_user; [done|exact E|].
    intros (?&?&?&?) Hv. unfold sound, user_evo, reconcile_admin. destruct force; cbn;
      (split_and!; [by apply in_strs_spec|done..|lia]).
  - destruct (account_fits _); [|by apply id_good_refl]. cbn. apply good_new_user; [done| |by apply by_email_none].
    unfold sound. cbn. split_and!; [by apply in_strs_spec|done..|lia].
Qed.

Lemma add_members_good t org owner l g : has_db_value ORG_BACKFILL_KEY (id_settings g) = false ->
  good t t g (foldl (add_member ulid org owner) g l).
Proof.
  revert g. induction l as [|x l IH]; intros g Hk; cbn; [apply id_good_refl; lia|].
  eapply id_good_trans; [|by apply IH]. apply good_by; try quiet. by rewrite Hk.
Qed.
Lemma add_members_settings org owner l g :
  id_settings (foldl (add_member ulid org owner) g l) = id_settings g.
Proof. revert g. induction l as [|x l IH]; intros g; cbn; [done|]. by rewrite IH. Qed.

Lemma mark_good t t' key v who now g : t <= t' ->
  good t t' g (on_settings (setting_set key v who now) g).
Proof.
  intros Ht. apply good_by; try quiet. intros H. split; [done|]. revert H. cbn.
  unfold has_db_value, setting_set. destruct (decide (key = ORG_BACKFILL_KEY)) as [->|Hne].
  - by rewrite lookup_insert_eq.
  - by rewrite lookup_insert_ne.
Qed.

Lemma backfill_good t now g : t <= now -> good t now g (ensure_default_organization_backfill ulid iso now g).
Proof.
  intros Ht. unfold ensure_default_organization_backfill.
  destruct (has_db_value _ _) eqn:Ek; [by apply id_good_refl|]. case_bool_decide; [by apply mark_good|].
  cbv zeta. eapply id_good_trans with (t2 := now); [|apply mark_good; lia].
  eapply id_good_trans with (t2 := now); [|apply add_members_good; done].
  apply good_by; quiet.
Qed.

(** ** Histories *)

(** One call of an operation, at clock readings after those of the calls before it. *)
Inductive id_step : time * idb -> time * idb -> Prop :=
  | is_create t g e p n r salt now : t <= now ->
      id_step (t, g) (now, (create_user ulid argon_hash e p n r salt now g).2)
  | is_role t g id r now : t <= now -> id_step (t, g) (now, (update_user_role id r now g).2)
  | is_deactivate t g id now : t <= now -> id_step (t, g) (now, (deactivate_user id now g).2)
  | is_name t g id n now : t <= now -> id_step (t, g) (now, (update_user_display_name id n now g).2)
  | is_password t g id cur new salt now : t <= now ->
      id_step (t, g) (now, (change_own_password argon_hash argon_verify id cur new salt now g).2)
  | is_revoke_all t g id now later : t <= now <= later ->
      id_step (t, g) (later, (revoke_all_tokens id now later g).2)
  | is_login t g e p jc ja jr cm now t1 t2 t3 c : t <= now <= t1 -> t1 <= t2 <= t3 ->
      id_step (t, g) (t3, (login ulid argon_verify jwt_encode e p jc ja jr cm now t1 t2 t3 c g).2)
  | is_login_page t g e p j cm now t1 c : t <= now <= t1 ->
      id_step (t, g) (t1, (login_submit ulid argon_verify e p j cm now t1 c g).2)
  | is_refresh t g tok ja jr cm now t1 t2 : t <= now <= t1 -> t1 <= t2 ->
      id_step (t, g) (t2, (refresh ulid jwt_encode jwt_decode tok ja jr cm now t1 t2 g).2)
  | is_logout t g c now later : t <= now <= later -> id_step (t, g) (later, (logout c now later g).2)
  | is_logout_page t g c now : t <= now -> id_step (t, g) (now, (logout_ui c now g).2)
  | is_request_reset t g e ip random now : t <= now ->
      id_step (t, g) (now, (request_reset ulid sha256 environ reset_ttl e ip random now g).2)
  | is_consume_reset t g tok pw ip salt now : t <= now ->
      id_step (t, g) (now, (consume_reset argon_hash sha256 tok pw ip salt now g).2)
  | is_expire t g now : t <= now -> id_step (t, g) (now, (expire_old now g).2)
  | is_invite t g c e r i n sc random now : t <= now ->
      id_step (t, g) (now, (mint_invitation ulid sha256 environ invite_ttl c e r i n sc random now g).2)
  | is_cancel t g c id now : t <= now -> id_step (t, g) (now, (cancel_invitation c id g).2)
  | is_cancel_bulk t g c ids now : t <= now -> id_step (t, g) (now, (cancel_invitations_bulk c ids g).2)
  | is_redeem t g c tok pw n salt now t1 : t <= now <= t1 ->
      id_step (t, g) (t1, (redeem_invitation ulid argon_hash sha256 c tok pw n salt now t1 g).2)
  | is_signup t g e n m now : t <= now -> id_step (t, g) (now, (create_signup_request ulid e n m now g).2)
  | is_approve t g c me id role random now t1 : t <= now <= t1 ->
      id_step (t, g) (t1, (approve_signup ulid sha256 environ invite_ttl c me id role random now t1 g).2)
  | is_reject t g id me now : t <= now -> id_step (t, g) (now, (reject_signup_request id me now g).2)
  | is_mint t g c n sc site ex who random now : t <= now ->
      id_step (t, g) (now, (mint ulid sha256 py_repr c n sc site ex who random now g).2)
  | is_revoke_token t g c id now : t <= now -> id_step (t, g) (now, (revoke_token c id g).2)
  | is_verify t g c p now later : t <= now <= later ->
      id_step (t, g) (later, (verify sha256 c p now later g).2)
  | is_bootstrap t g e p force salt now : t <= now ->
      id_step (t, g) (now, (ensure_bootstrap_admin ulid argon_hash e p force salt now g).2)
  | is_backfill t g now : t <= now ->
      id_step (t, g) (now, ensure_default_organization_backfill ulid iso now g).

Lemma id_step_good x y : id_step x y -> good x.1 y.1 x.2 y.2 /\ x.1 <= y.1.
Proof.
  intros H. destruct H; cbn [fst snd]; (split; [|lia]).
  - by apply create_user_good.
  - by apply update_role_good.
  - by apply deactivate_good.
  - by apply display_name_good.
  - by apply change_password_good.
  - by apply revoke_all_good.
  - by apply login_good.
  - by apply login_submit_good.
  - by apply refresh_good.
  - by apply logout_good.
  - by apply logout_ui_good.
  - by apply request_reset_good.
  - by apply consume_reset_good.
  - by apply expire_old_good.
  - by apply mint_invitation_good.
  - by apply id_cancel_good.
  - by apply cancel_bulk_good.
  - by apply redeem_good.
  - by apply create_signup_good.
  - by apply approve_good.
  - by apply close_signup_good.
  - by apply id_mint_good.
  - by apply revoke_token_good.
  - by apply verify_good.
  - by apply bootstrap_admin_good.
  - by apply backfill_good.
Qed.

Lemma history_good x y : rtc id_step x y -> good x.1 y.1 x.2 y.2 /\ x.1 <= y.1.
Proof.
  induction 1 as [x|x y z Hs _ [IH IHt]]; [split; [apply id_good_refl; lia|lia]|].
  destruct (id_step_good x y Hs). split; [by eapply id_good_trans|lia].
Qed.

Lemma history_wf t g t' g' : wf t g -> rtc id_step (t, g) (t', g') -> wf t' g'.
Proof. intros Hw H. destruct (history_good _ _ H) as [Hg _]. by apply Hg. Qed.
End history.
