(* ===== verification/AccountTheorems.v ===== *)
(** * Sign-in: what the gate admits, what a logout ends

    The gate of a human request, exactly; accounts stay consistent; a reset token works
    once; the events that log a user out everywhere, and the refresh token they leave. *)

From stdpp Require Import pretty countable.
From S2P Require Import Prelude RuntimeSettings Commands TenantScope Enrollment RoleBindings Identity.
From S2P Require Import Accounts Invitations ApiTokens IdentityHistory.
Local Open Scope string_scope.
Local Open Scope list_scope.
Local Open Scope Z_scope.

(** ** The gate *)

Section gate.
Context (jwt_decode : time -> string -> outcome pydict).

(** The request carries a credential of user [id] that was not revoked by itself, issued
    at second [iat] when it says so: a cookie that names the user, or, without one, an
    access token. *)
Definition presents (rq : request) (now : time) (g : idb) (id : string) (iat : option Z) : Prop :=
  (ck_user (rq_cookie rq) = Some id /\ id <> "" /\
   is_jti_revoked (ck_sid (rq_cookie rq)) g = false /\ iat = ck_iat (rq_cookie rq)) \/
  (truthy_str (ck_user (rq_cookie rq)) = false /\ startswith "Bearer " (rq_authorization rq) = true /\
   exists p, decode_token jwt_decode
       (String.substring 7 (String.length (rq_authorization rq) - 7) (rq_authorization rq)) "access" now = Ret p /\
     id = default "" (as_str (dget p "sub")) /\ is_jti_revoked (as_str (dget p "jti")) g = false /\
     iat = as_int (dget p "iat")).

Lemma load_user_spec id g k u : load_user id g = Some (k, u) <-> k = id /\ id_users g !! id = Some u.
Proof. unfold load_user. destruct (id_users g !! id); cbn; naive_solver. Qed.

Lemma truthy_some o : truthy_str o = true <-> exists s, o = Some s /\ s <> "".
Proof.
  destruct o as [s|]; cbn; [|naive_solver]. destruct s; cbn; naive_solver.
Qed.

Lemma resolve_and_iat_spec rq now g id u iat :
  resolve_user_and_iat jwt_decode rq now g = Some ((id, u), iat) <->
  id_users g !! id = Some u /\ presents rq now g id iat.
Proof.
  unfold resolve_user_and_iat, presents. destruct (truthy_str (ck_user (rq_cookie rq))) eqn:Et.
  - apply truthy_some in Et as (s & Hs & Hne). rewrite Hs. cbn [or_str].
    destruct s as [|a s]; [done|]. cbn [is_empty]. split.
    + intros H. destruct (load_user _ g) as [[k v]|] eqn:El; [|done]. cbn in H.
      apply load_user_spec in El as [-> El]. destruct (is_jti_revoked _ g) eqn:Ej; [done|].
      injection H as <- <- <-. naive_solver.
    + intros [Hu [(Hi & _ & Hj & ->)|[Hf _]]]; [|done]. injection Hi as ->.
      unfold load_user. rewrite Hu. cbn. by rewrite Hj.
  - destruct (startswith "Bearer " (rq_authorization rq)) eqn:Eb; [|split; [done|]].
    2:{ intros [_ [(Hi & Hne & _)|(_ & ? & _)]]; [|done]. rewrite Hi in Et. by destruct id. }
    destruct (decode_token _ _ _ _) as [p|e] eqn:Ed; [|split; [done|]].
    2:{ intros [_ [(Hi & Hne & _)|(_ & _ & p & ? & _)]]; [|done]. rewrite Hi in Et. by destruct id. }
    split.
    + intros H. destruct (load_user _ g) as [[k v]|] eqn:El; [|done]. cbn in H.
      apply load_user_spec in El as [-> El]. destruct (is_jti_revoked _ g) eqn:Ej; [done|].
      injection H as <- <- <-. split; [done|]. right. eauto 10.
    + intros [Hu [(Hi & Hne & _)|(_ & _ & p' & [= <-] & -> & Hj & ->)]];
        [rewrite Hi in Et; by destruct id|].
      unfold load_user. rewrite Hu. cbn. by rewrite Hj.
Qed.

(** The account is active and the credential is not older than its cutoff, in seconds. *)
Definition admits (u : account) (iat : option Z) : Prop :=
  us_active u = true /\ forall i, iat = Some i -> epoch (us_valid_after u) <= i.

Lemma admits_spec u iat : us_active u && fresh_for u iat = true <-> admits u iat.
Proof.
  unfold admits, fresh_for. rewrite andb_true_iff. destruct iat as [i|].
  - rewrite negb_true_iff, Z.ltb_ge. naive_solver.
  - naive_solver.
Qed.

Lemma resolve_user_spec rq now g id u :
  (resolve_user jwt_decode rq now g).1 = Some (id, u) <->
  id_users g !! id = Some u /\ exists iat, presents rq now g id iat /\ admits u iat.
Proof.
  unfold resolve_user. split.
  - destruct (resolve_user_and_iat jwt_decode rq now g) as [[[k v] iat]|] eqn:E; [|done].
    destruct (us_active v && fresh_for v iat) eqn:Ea; [|done]. intros [= -> ->].
    apply resolve_and_iat_spec in E as [Hu Hp]. apply admits_spec in Ea. eauto.
  - intros [Hu (iat & Hp & Ha)]. assert (E : resolve_user_and_iat jwt_decode rq now g = Some ((id, u), iat))
      by (by apply resolve_and_iat_spec). rewrite E. apply admits_spec in Ha. by rewrite Ha.
Qed.

(** C8. The gate of a human request, exactly.  A handler that requires one of [allowed] is
    entered as [id] exactly when the request presents a credential of [id] (a cookie, else an
    access token) that is not revoked by itself, the account exists and is active, the
    credential's second is not before the account's cutoff, and the account's role is one of
    [allowed]; with any other role the answer is the 403, and a request that presents no such
    credential is sent to sign in, its cookie cleared when it names a user. *)
Theorem gate_is_exact allowed rq now g :
  let r := role_required jwt_decode allowed rq now g in
  let signed id u := id_users g !! id = Some u /\ exists iat, presents rq now g id iat /\ admits u iat in
  (forall id u, r.1 = Enter id u <-> signed id u /\ us_role u ∈ allowed) /\
  (r.1 = Forbidden <-> exists id u, signed id u /\ us_role u ∉ allowed) /\
  (r.1 = AuthRequired <-> forall id u, ~ signed id u) /\
  r.2 = match r.1 with
        | AuthRequired => if truthy_str (ck_user (rq_cookie rq)) then cookie0 else rq_cookie rq
        | _ => rq_cookie rq
        end.
Proof.
  cbv zeta. setoid_rewrite <- (resolve_user_spec rq now g). unfold role_required.
  assert (Hc : (resolve_user jwt_decode rq now g).2 =
    match (resolve_user jwt_decode rq now g).1 with
    | Some _ => rq_cookie rq
    | None => if truthy_str (ck_user (rq_cookie rq)) then cookie0 else rq_cookie rq end).
  { unfold resolve_user. destruct (resolve_user_and_iat _ _ _ _) as [[[? ?] ?]|]; [|done]. by destruct (_ && _). }
  destruct (resolve_user jwt_decode rq now g) as [[[id u]|] c]; cbn [fst snd] in *; subst c.
  - destruct (in_strs (us_role u) allowed) eqn:Er.
    + apply in_strs_spec in Er. split_and!; [|naive_solver..].
      intros id' u'. naive_solver.
    + assert (Hn : us_role u ∉ allowed) by (rewrite <- in_strs_spec; by rewrite Er).
      split_and!; naive_solver.
  - split_and!; naive_solver.
Qed.
End gate.

(** ** Logging a user out everywhere *)

Lemma epoch_mono a b : a <= b -> epoch a <= epoch b.
Proof. intros H. unfold epoch. apply Z.quot_le_mono; [done|]. unfold MICRO. lia. Qed.

Section logout.
Context (ulid : nat -> string) `{!Inj (=) (=) ulid}.
Context (argon_hash : string -> string -> string) (argon_verify : string -> string -> outcome unit).
Context (jwt_encode : pydict -> string) (jwt_decode : time -> string -> outcome pydict).
Context (sha256 : string -> string) (environ : string -> option string) (py_repr : json -> string).
Context (reset_ttl invite_ttl : Z) (iso : time -> string).

#[local] Abbreviation history := (rtc (id_step ulid argon_hash argon_verify jwt_encode jwt_decode
  sha256 environ py_repr reset_ttl invite_ttl iso)).
#[local] Abbreviation consume := (consume_reset argon_hash sha256).

(** The calls that end every sign-in of user [id], at [now]; they return at [fin]. *)
Inductive logs_out (id : string) (now : time) (g : idb) : time -> idb -> Prop :=
  | lo_reset tok pw ip salt u g' : consume tok pw ip salt now g = (Ret (Some (id, u)), g') ->
      logs_out id now g now g'
  | lo_password cur new salt g' :
      change_own_password argon_hash argon_verify id cur new salt now g = (Ret tt, g') ->
      logs_out id now g now g'
  | lo_deactivate u g' : deactivate_user id now g = (Ret (Some u), g') -> logs_out id now g now g'
  | lo_revoke later g' : now <= later -> revoke_all_tokens id now later g = (Ret true, g') ->
      logs_out id now g later g'
  | lo_logout later c u : now <= later -> ck_user c = Some id -> id <> "" ->
      id_users g !! id = Some u -> account_fits u = true ->
      logs_out id now g later (logout c now later g).2.

(** The user's cutoff is at [now] afterwards. *)
Definition cut_at (id : string) (now : time) (g : idb) : Prop :=
  exists u, id_users g !! id = Some u /\ now <= us_valid_after u.

Lemma edit_cut id f now g u g' : us_valid_after (f u) = now ->
  id_users g !! id = Some u -> session_scope (edit_account id f) g = (Ret (Some (f u)), g') ->
  id_users g' !! id = Some (f u).
Proof.
  intros Hf Hu. unfold session_scope, edit_account. rewrite Hu. destruct (account_fits (f u)); [|done].
  cbn. intros [= <-]. cbn. by rewrite lookup_insert_eq.
Qed.

Lemma edit_scope id f g u : id_users g !! id = Some u ->
  session_scope (edit_account id f) g =
    if account_fits (f u) then (Ret (Some (f u)), on_users (insert id (f u)) g)
    else (Raise (DBError "users"), g).
Proof. intros Hu. unfold session_scope, edit_account. rewrite Hu. by destruct (account_fits (f u)). Qed.

Lemma revoke_all_cut id now later g g' : revoke_all_tokens id now later g = (Ret true, g') ->
  cut_at id now g'.
Proof.
  unfold revoke_all_tokens. destruct (id_users g !! id) as [u|] eqn:Eu.
  - rewrite (edit_scope _ _ _ _ Eu). destruct (account_fits _); [|done]. intros [= <-].
    exists (touch now (set_valid_after now u)). cbn. rewrite lookup_insert_eq. split; [done|lia].
  - unfold session_scope, edit_account. by rewrite Eu.
Qed.

Lemma revoke_one_users j now g : id_users (revoke_one j now g).2 = id_users g.
Proof. done. Qed.

Lemma logs_out_cut id now g fin g' : logs_out id now g fin g' -> now <= fin /\ cut_at id now g'.
Proof.
  intros [tok pw ip salt u g1 H|cur new salt g1 H|u g1 H|later g1 Hl H|later c u Hl Hc Hne Hu Hf].
  - split; [lia|]. unfold consume_reset in H. destruct (_ || _); [done|].
    apply (proj1 (session_scope_ret _ _ _ _)) in H; cbv beta in H. destruct (reset_by_hash _ g) as [[rid r]|]; [|done].
    destruct (negb _); [done|]. destruct (id_users g !! pr_user r) as [v|]; [|done].
    destruct (negb _); [done|]. destruct (_ && _); [|done]. injection H as E <- <-. rewrite E.
    eexists. cbn. rewrite lookup_insert_eq. split; [done|cbn; lia].
  - split; [lia|]. unfold change_own_password in H. destruct (_ <? _)%nat; [done|].
    destruct (String.eqb _ _); [done|]. apply (proj1 (session_scope_ret _ _ _ _)) in H; cbv beta in H.
    destruct (id_users g !! id) as [u|] eqn:Eu; [|done]. destruct (negb _); [done|].
    unfold edit_account in H. rewrite Eu in H. destruct (account_fits _); [|done].
    injection H as <-. eexists. cbn. rewrite lookup_insert_eq. split; [done|cbn; lia].
  - split; [lia|]. unfold deactivate_user in H. destruct (id_users g !! id) as [v|] eqn:Eu.
    + rewrite (edit_scope _ _ _ _ Eu) in H. destruct (account_fits _); [|done]. injection H as _ <-.
      eexists. cbn. rewrite lookup_insert_eq. split; [done|cbn; lia].
    + unfold session_scope, edit_account in H. by rewrite Eu in H.
  - split; [done|by eapply revoke_all_cut].
  - split; [done|]. unfold logout. rewrite Hc. destruct id as [|a id]; [done|]. cbn [truthy_str is_empty negb or_str].
    assert (E : exists g1, revoke_all_tokens (String a id) now later g = (Ret true, g1)).
    { unfold revoke_all_tokens. rewrite (edit_scope _ _ _ _ Hu).
      assert (Hf2 : account_fits (touch now (set_valid_after now u)) = true) by exact Hf.
      rewrite Hf2. by eexists. }
    destruct E as [g1 E]. rewrite E. cbn [snd]. apply revoke_all_cut in E.
    by destruct (truthy_str (ck_sid c)).
Qed.

Lemma cut_persists id now t g t' g' : wf ulid t g -> cut_at id now g -> history (t, g) (t', g') ->
  exists u, id_users g' !! id = Some u /\ now <= us_valid_after u <= t'.
Proof.
  intros Hw (u & Hu & Hc) H. apply history_good in H as [Hg _]; [|done]. cbn in Hg.
  destruct (Hg Hw) as [Hw' He]. destruct (ev_users _ _ He id u Hu I) as (u' & Hu' & _ & Hv).
  exists u'. destruct (wf_sound _ _ _ Hw' id u' Hu') as (_&_&_&?). split; [done|lia].
Qed.

Lemma logs_out_good t id now g fin g' : t <= now -> logs_out id now g fin g' -> good ulid t fin g g'.
Proof.
  intros Ht [tok pw ip salt u g1 H|cur new salt g1 H|u g1 H|later g1 Hl H|later c u Hl _ _ _ _].
  - pose proof (consume_reset_good ulid argon_hash sha256 t tok pw ip salt now g Ht). by rewrite H in *.
  - pose proof (change_password_good ulid argon_hash argon_verify t id cur new salt now g Ht). by rewrite H in *.
  - pose proof (deactivate_good ulid t id now g Ht). by rewrite H in *.
  - pose proof (revoke_all_good ulid t id now later g (conj Ht Hl)). by rewrite H in *.
  - by apply logout_good.
Qed.

(** C7. Logging out everywhere.  After a password reset, a password change, a deactivation, a
    revocation of all tokens or a sign-out by the API, no request with a cookie or an access
    token issued to the user in an earlier second is admitted, after any later history of the
    identity operations of this hub.  A row of the account that sync writes is not in that
    history: the applier of [SyncApply] replaces the cutoff with the other columns
    ([SyncExamples.Example.peer_edit_lowers_the_cutoff]). *)
Theorem logout_ends_earlier_sessions id t now g fin g' t2 g2 rq n i :
  wf ulid t g -> t <= now -> logs_out id now g fin g' -> history (fin, g') (t2, g2) ->
  presents jwt_decode rq n g2 id (Some i) -> i < epoch now ->
  (resolve_user jwt_decode rq n g2).1 = None.
Proof.
  intros Hw Ht Hl Hh Hp Hi. destruct (resolve_user jwt_decode rq n g2).1 as [[id' u']|] eqn:E; [|done].
  apply resolve_user_spec in E as [Hu' (iat & Hp' & _ & Ha)]. exfalso.
  assert (id' = id /\ iat = Some i) as [-> ->].
  { unfold presents in Hp, Hp'. destruct Hp as [(H1 & H2 & _ & H3)|(H1 & _ & p & H2 & H3 & _ & H4)],
      Hp' as [(K1 & K2 & _ & K3)|(K1 & _ & p' & K2 & K3 & _ & K4)].
    - split; congruence.
    - rewrite H1 in K1. by destruct id.
    - rewrite K1 in H1. by destruct id'.
    - assert (p' = p) as -> by congruence. split; congruence. }
  destruct (logs_out_cut _ _ _ _ _ Hl) as [_ Hc].
  destruct (logs_out_good t _ _ _ _ _ Ht Hl Hw) as [Hw' _].
  destruct (cut_persists id now fin g' t2 g2 Hw' Hc Hh) as (u & Hu & Hv & _).
  assert (u' = u) as -> by congruence. specialize (Ha i eq_refl).
  pose proof (epoch_mono _ _ Hv). lia.
Qed.

(** ** The refresh token *)

(** No revoked session carries the identifier [j]. *)
Definition unrevoked (j : string) (g : idb) : Prop :=
  forall k r, id_sessions g !! k = Some r -> ss_jti r = j -> ss_revoked r = None.

Lemma unused_unrevoked j g :
  free_in (fun r => String.eqb (ss_jti r) j) (id_sessions g) = true -> unrevoked j g.
Proof.
  intros H k r Hk Hj. rewrite free_in_spec in H. specialize (H k r Hk). cbn in H.
  by rewrite Hj, String.eqb_refl in H.
Qed.

Lemma record_unrevoked j u k i ttl ua ip now g :
  unrevoked j g -> unrevoked j (record_session ulid u k i ttl ua ip now g).2.
Proof.
  intros H. unfold record_session. destruct (session_accepted _ g); [|done]. cbn.
  intros n r Hr Hj. cbn in Hr. revert Hr Hj. intros [[_ <-]|[_ Hr]]%lookup_insert_Some; [done|by eapply H].
Qed.
Lemma record_users u k i ttl ua ip now g :
  id_users (record_session ulid u k i ttl ua ip now g).2 = id_users g.
Proof. unfold record_session. by destruct (session_accepted _ g). Qed.

Lemma unrevoked_jti j g : unrevoked j g -> is_jti_revoked (Some j) g = false.
Proof.
  intros H. unfold is_jti_revoked. destruct (is_empty j); [done|].
  destruct (row_where _ _) as [[k r]|] eqn:E; [|done].
  apply row_where_some in E as [Hk Hj]. apply String.eqb_eq in Hj. by rewrite (H k r Hk Hj).
Qed.

(** PyJWT: a token the hub wrote decodes until it expires. *)
Definition jwt_roundtrip : Prop := forall user kind jti ttl t n,
  epoch n < epoch (t + seconds ttl) ->
  jwt_decode n (jwt_encode (token_payload user kind jti ttl t)) = Ret (token_payload user kind jti ttl t).

(** A refresh token outlives the log-out.  After any of the calls that log a user out
    everywhere, while the account is active, [/refresh] still accepts a refresh token of the
    user that decodes - neither the cutoff nor the revocation of its session row is read -
    and the access token it answers with passes the gate. *)
Theorem refresh_outlives_logout id t now g fin g' t2 g2 u tok p ja jr cm n t3 t4 n' :
  jwt_roundtrip -> wf ulid t g -> t <= now -> logs_out id now g fin g' -> history (fin, g') (t2, g2) ->
  id_users g2 !! id = Some u -> us_active u = true ->
  is_empty tok = false -> decode_token jwt_decode tok "refresh" n = Ret p -> dget p "sub" = JStr id ->
  t2 <= t3 -> unrevoked ja g2 -> epoch n' < epoch (t3 + seconds ACCESS_TOKEN_TTL_SECONDS) ->
  exists access renewed g3,
    refresh ulid jwt_encode jwt_decode tok ja jr cm n t3 t4 g2 = (Tokens access renewed, g3) /\
    (resolve_user jwt_decode (Request cookie0 (String.append "Bearer " access)) n' g3).1 = Some (id, u).
Proof.
  intros Hjwt Hw Ht Hl Hh Hu Ha Hne Hd Hs H3 Hj Hexp.
  destruct (logs_out_cut _ _ _ _ _ Hl) as [_ Hc]. destruct (logs_out_good t _ _ _ _ _ Ht Hl Hw) as [Hw' _].
  destruct (cut_persists id now fin g' t2 g2 Hw' Hc Hh) as (u' & Hu' & Hv).
  assert (u' = u) as -> by congruence.
  unfold refresh. rewrite Hne, Hd, Hs. change (default "" (as_str (JStr id))) with id.
  unfold load_user at 1. rewrite Hu. cbn [mbind option_bind]. rewrite Ha. cbn [negb]. unfold issue_refresh_token, issue_access_token, issue_token. cbv zeta.
  eexists _, _, _. split; [reflexivity|].
  set (g3 := (record_session _ _ _ _ _ _ _ _ (record_session _ _ _ _ _ _ _ _ g2).2).2).
  assert (E : id_users g3 = id_users g2) by (by unfold g3; rewrite !record_users).
  apply resolve_user_spec. rewrite E. split; [done|]. exists (Some (epoch t3)). split.
  - right. cbn [rq_cookie rq_authorization]. split; [done|]. split; [apply bearer_prefix|].
    exists (token_payload id "access" ja ACCESS_TOKEN_TTL_SECONDS t3). rewrite bearer_rest. split_and!.
    + unfold decode_token. by rewrite Hjwt.
    + done.
    + apply unrevoked_jti. unfold g3. by do 2 apply record_unrevoked.
    + done.
  - split; [done|]. intros i [= <-]. apply epoch_mono. lia.
Qed.

(** ** Password resets *)

Lemma reset_by_hash_unique t g k r : wf ulid t g -> id_resets g !! k = Some r ->
  reset_by_hash (pr_hash r) g = Some (k, r).
Proof. intros Hw Hk. apply (row_where_unique pr_hash); [apply (wf_resets _ _ _ Hw)|done]. Qed.

(** A reset token works once.  A reset that succeeds names an active user whose token was
    not used and not expired, gives exactly that account the new password and the cutoff, and
    leaves every other account alone; after it, over any history, the same token is refused
    and changes nothing. *)
Theorem reset_token_is_single_use t g tok pw ip salt now id u g' :
  wf ulid t g -> t <= now -> consume tok pw ip salt now g = (Ret (Some (id, u)), g') ->
  (exists k r u0, id_resets g !! k = Some r /\ pr_hash r = sha256 tok /\ pr_user r = id /\
     pr_consumed r = None /\ now < pr_expires r /\ id_users g !! id = Some u0 /\ us_active u0 = true /\
     (8 <= String.length pw)%nat /\
     u = with_new_password (hash_password argon_hash salt pw) now u0 /\ id_users g' = <[id := u]> (id_users g)) /\
  forall t2 g2 pw2 ip2 salt2 n, history (now, g') (t2, g2) ->
    consume tok pw2 ip2 salt2 n g2 = (Ret None, g2).
Proof.
  intros Hw Ht H. pose proof (consume_reset_good ulid argon_hash sha256 t tok pw ip salt now g Ht Hw) as [Hw' _].
  rewrite H in Hw'. cbn [snd] in Hw'. unfold consume_reset in H.
  destruct (_ || _) eqn:Ev; [done|]. apply (proj1 (session_scope_ret _ _ _ _)) in H; cbv beta in H.
  destruct (reset_by_hash _ g) as [[rid r]|] eqn:Er; [|done]. apply row_where_some in Er as [Er Hh].
  apply String.eqb_eq in Hh. destruct (reset_usable now r) eqn:Eu; [|done].
  unfold reset_usable in Eu. bool_to_prop. cbn [negb] in H.
  destruct (id_users g !! pr_user r) as [u0|] eqn:Eu0; [|done].
  destruct (us_active u0) eqn:Ea; [|done]. cbn [negb] in H.
  destruct (_ && _) eqn:Ef; [|done]. injection H as <- <- <-. split.
  - exists rid, r, u0. split_and!; try done; try lia; [by eapply bool_decide_eq_true|].
    match goal with H : (_ <? _)%nat = false |- _ => by apply Nat.ltb_ge in H end.
  - intros t2 g2 pw2 ip2 salt2 n Hhist. apply history_good in Hhist as [Hg _]; [|done]. cbn in Hg.
    destruct (Hg Hw') as [Hw2 He].
    destruct (ev_resets _ _ He rid (consume_reset_row now ip r)) as (r2 & Hr2 & Hh2 & Hc2).
    { cbn. by rewrite lookup_insert_eq. }
    { done. }
    unfold consume_reset. destruct (_ || _ || _); [done|].
    assert (Hb : reset_by_hash (sha256 tok) g2 = Some (rid, r2)).
    { rewrite <- Hh. cbn in Hh2. rewrite <- Hh2. by eapply reset_by_hash_unique. }
    unfold session_scope. rewrite Hb.
    assert (Hs2 : pr_consumed r2 <> None) by (by apply Hc2).
    unfold reset_usable. by rewrite bool_decide_false.
Qed.

(** ** Accounts *)

(** C33. Accounts stay consistent.  Over any history of the identity operations of this hub (rows
    written by sync are outside it) from a consistent state, no two accounts
    share an e-mail, every account has one of the four roles, its two flags follow from it,
    and its cutoff is not ahead of the clock. *)
Theorem accounts_stay_consistent t g t2 g2 :
  wf ulid t g -> history (t, g) (t2, g2) ->
  (forall i j a b, id_users g2 !! i = Some a -> id_users g2 !! j = Some b -> us_email a = us_email b -> i = j) /\
  forall id u, id_users g2 !! id = Some u ->
    us_role u ∈ ALL_ROLES /\ us_super u = String.eqb (us_role u) ROLE_SUPER_ADMIN /\
    us_admin u = negb (String.eqb (us_role u) ROLE_VIEWER) /\ us_valid_after u <= t2.
Proof.
  intros Hw [Hg _]%history_good; [|done]. destruct (Hg Hw) as [Hw2 _]. split.
  - apply (wf_users _ _ _ Hw2).
  - apply (wf_sound _ _ _ Hw2).
Qed.
End logout.

(** ** A hub to try the theorems on *)

Module Example.

Definition argon_hash (salt p : string) : string := String.append salt (String.append "$" p).
Definition argon_verify (h p : string) : outcome unit :=
  if like (String.append "%$" p) h then Ret tt else Raise (AppError "VerifyMismatchError" "").
Definition sha (s : string) : string := String.append "sha:" s.
Definition no_env (_ : string) : option string := None.
Definition no_repr (_ : json) : string := "".
Definition iso (_ : time) : string := "now".

(** A signing library: the claims the hub writes, as the digits of one number. *)
Definition claims (p : pydict) : string * string * string * Z * Z :=
  (default "" (as_str (dget p "sub")), default "" (as_str (dget p "kind")),
   default "" (as_str (dget p "jti")), default 0 (as_int (dget p "iat")), default 0 (as_int (dget p "exp"))).
Definition jwt_encode (p : pydict) : string := pos_digits (encode (claims p)).
Definition jwt_decode (n : time) (s : string) : outcome pydict :=
  match decode (pos_of_digits s) with
  | Some (sub, kind, jti, iat, exp) =>
    if epoch n <? exp
    then Ret [("sub", JStr sub); ("kind", JStr kind); ("aud", JStr JWT_AUDIENCE); ("iat", JInt iat);
              ("exp", JInt exp); ("jti", JStr jti)]
    else Raise (AppError "ExpiredSignatureError" "")
  | None => Raise (AppError "DecodeError" "")
  end.
Lemma roundtrip : jwt_roundtrip jwt_encode jwt_decode.
Proof.
  intros u k j ttl t n H. unfold jwt_decode, jwt_encode. rewrite pos_of_digits_digits, decode_encode.
  change (claims (token_payload u k j ttl t)) with (u, k, j, epoch t, epoch (t + seconds ttl)).
  cbv beta iota. apply Z.ltb_lt in H. by rewrite H.
Qed.

Definition empty_idb : idb := Idb ∅ ∅ ∅ ∅ ∅ ∅ ∅ ∅ (RbacDb [] ∅ ∅ ∅ []) ∅ 0.
Lemma wf_empty t : wf pretty t empty_idb.
Proof.
  assert (H : forall A pre (f : A -> string), tab_ok pretty pre f 0 ∅)
    by (split; [intros i j a b Hi; by rewrite lookup_empty in Hi|done]).
  split; try apply H. intros k u Hk. cbn in Hk. by rewrite lookup_empty in Hk.
Qed.

Notation step := (id_step pretty argon_hash argon_verify jwt_encode jwt_decode sha no_env no_repr
  3600 86400 iso).
Definition at_s (n : Z) : time := seconds n.
Definition cm : client_meta := Meta (Some "browser") (Some "192.0.2.1").

(** An operator signs in, and later revokes every token. *)
Definition g1 := (create_user pretty argon_hash "Ann@Example.org " "first password" "" ROLE_OPERATOR
  "s1" (at_s 10) empty_idb).2.
Definition ann : string := new_id pretty "usr" 0.
Definition signed_in := login pretty argon_verify jwt_encode " ann" "first password" "jc" "ja" "jr" cm
  (at_s 20) (at_s 21) (at_s 22) (at_s 23) cookie0 g1.
Definition g2 : idb := signed_in.2.
Definition ann_cookie : cookie := signed_in.1.2.
Definition access_of (a : answer) : string := match a with Tokens t _ => t | _ => "" end.
Definition refresh_of (a : answer) : string := match a with Tokens _ t => t | _ => "" end.
Definition bearer (t : string) : request := Request cookie0 (String.append "Bearer " t).
Definition g3 : idb := (revoke_all_tokens ann (at_s 30) (at_s 31) g2).2.
Definition renewed := refresh pretty jwt_encode jwt_decode (refresh_of signed_in.1.1) "ja2" "jr2" cm
  (at_s 40) (at_s 41) (at_s 42) g3.
Definition who (x : option (string * account)) : option string := fst <$> x.

Example sign_in_and_out :
  who (resolve_user jwt_decode (Request ann_cookie "") (at_s 25) g2).1 = Some ann /\
  who (resolve_user jwt_decode (bearer (access_of signed_in.1.1)) (at_s 25) g2).1 = Some ann /\
  who (resolve_user jwt_decode (Request ann_cookie "") (at_s 35) g3).1 = None /\
  who (resolve_user jwt_decode (bearer (access_of signed_in.1.1)) (at_s 35) g3).1 = None /\
  who (resolve_user jwt_decode (bearer (access_of renewed.1)) (at_s 50) renewed.2).1 = Some ann.
Proof. vm_compute. auto. Qed.

Lemma history_g1 : rtc step (0, empty_idb) (at_s 10, g1).
Proof. apply rtc_once. by apply is_create. Qed.
Lemma history_g2 : rtc step (0, empty_idb) (at_s 23, g2).
Proof.
  apply rtc_r with (at_s 10, g1); [exact history_g1|].
  by apply is_login.
Qed.
Lemma wf_g2 : wf pretty (at_s 23) g2.
Proof. eapply history_wf; [apply _|exact (wf_empty 0)|exact history_g2]. Qed.

Lemma revoked : logs_out argon_hash argon_verify sha ann (at_s 30) g2 (at_s 31) g3.
Proof. apply lo_revoke; [vm_compute; discriminate|]. vm_compute. reflexivity. Qed.

(** Or changes the password. *)
Definition g3p : idb :=
  (change_own_password argon_hash argon_verify ann "first password" "second password" "s2" (at_s 30) g2).2.
Lemma changed : logs_out argon_hash argon_verify sha ann (at_s 30) g2 (at_s 30) g3p.
Proof. eapply lo_password with (cur := "first password") (new := "second password") (salt := "s2").
  vm_compute. reflexivity. Qed.

Lemma logout_ends_earlier_sessions_witness :
  (resolve_user jwt_decode (Request ann_cookie "") (at_s 35) g3p).1 = None.
Proof.
  apply (logout_ends_earlier_sessions pretty argon_hash argon_verify jwt_encode jwt_decode sha no_env
    no_repr 3600 86400 iso ann (at_s 23) (at_s 30) g2 (at_s 30) g3p (at_s 30) g3p
    (Request ann_cookie "") (at_s 35) 21).
  - exact wf_g2.
  - vm_compute. discriminate.
  - exact changed.
  - apply rtc_refl.
  - left. vm_compute. split_and!; done.
  - vm_compute. reflexivity.
Defined.

Lemma refresh_outlives_logout_witness :
  exists access renewed g,
    refresh pretty jwt_encode jwt_decode (refresh_of signed_in.1.1) "ja2" "jr2" cm (at_s 40) (at_s 41)
      (at_s 42) g3 = (Tokens access renewed, g) /\
    who (resolve_user jwt_decode (bearer access) (at_s 50) g).1 = Some ann.
Proof.
  destruct (refresh_outlives_logout pretty argon_hash argon_verify jwt_encode jwt_decode sha no_env
    no_repr 3600 86400 iso ann (at_s 23) (at_s 30) g2 (at_s 31) g3 (at_s 31) g3
    (default (Account "" "" "" true true true "" 0 0 0 None) (id_users g3 !! ann))
    (refresh_of signed_in.1.1) (token_payload ann "refresh" "jr" REFRESH_TOKEN_TTL_SECONDS (at_s 23))
    "ja2" "jr2" cm (at_s 40) (at_s 41) (at_s 42) (at_s 50) roundtrip wf_g2)
    as (a & r & g & H1 & H2).
  - vm_compute. discriminate.
  - exact revoked.
  - apply rtc_refl.
  - vm_compute. reflexivity.
  - vm_compute. reflexivity.
  - vm_compute. reflexivity.
  - vm_compute. reflexivity.
  - vm_compute. reflexivity.
  - vm_compute. discriminate.
  - apply unused_unrevoked. vm_compute. reflexivity.
  - vm_compute. reflexivity.
  - exists a, r, g. split; [exact H1|]. unfold bearer, who. rewrite H2. reflexivity.
Defined.

(** She forgets the password, and resets it with the token of the mail. *)
Definition asked := request_reset pretty sha no_env 3600 "ann@example.org" (Some "192.0.2.1") "r" (at_s 50) g2.
Definition g5 : idb := asked.2.
Definition reset_done := consume_reset argon_hash sha "pwr_r" "third password" None "s3" (at_s 60) g5.
Lemma reset_token_is_single_use_witness :
  consume_reset argon_hash sha "pwr_r" "fourth password" None "s4" (at_s 70) reset_done.2 =
    (Ret None, reset_done.2).
Proof.
  assert (Hw : wf pretty (at_s 50) g5).
  { eapply history_wf; [apply _|exact wf_g2|]. apply rtc_once.
    exact (is_request_reset pretty argon_hash argon_verify jwt_encode jwt_decode sha no_env no_repr 3600
      86400 iso (at_s 23) g2 "ann@example.org" (Some "192.0.2.1") "r" (at_s 50)
      ltac:(vm_compute; discriminate)). }
  refine (proj2 (reset_token_is_single_use pretty argon_hash argon_verify jwt_encode jwt_decode sha no_env
    no_repr 3600 86400 iso (at_s 50) g5 "pwr_r" "third password" None "s3" (at_s 60) ann
    (default (Account "" "" "" true true true "" 0 0 0 None) (id_users reset_done.2 !! ann)) reset_done.2
    Hw _ _) (at_s 60) reset_done.2 "fourth password" None "s4" (at_s 70) (rtc_refl _ _)).
  - vm_compute. discriminate.
  - vm_compute. reflexivity.
Defined.

Lemma accounts_stay_consistent_witness :
  exists u, id_users g2 !! ann = Some u /\ us_super u = false /\ us_admin u = true.
Proof.
  assert (Ha : (fun u => us_role u) <$> id_users g2 !! ann = Some ROLE_OPERATOR)
    by (vm_compute; reflexivity).
  destruct (id_users g2 !! ann) as [u|] eqn:Hu; [|discriminate Ha]. injection Ha as Hr.
  destruct (proj2 (accounts_stay_consistent pretty argon_hash argon_verify jwt_encode
    jwt_decode sha no_env no_repr 3600 86400 iso 0 empty_idb (at_s 23) g2 (wf_empty 0) history_g2) ann u Hu)
    as (_ & Hs & Had & _).
  exists u. rewrite Hs, Had, Hr. auto.
Defined.
End Example.
