(* ===== verification/InvitationTheorems.v ===== *)
(** * Invitations, memberships and machine tokens: what they grant

    An invitation makes one account; the account it makes belongs to no organisation; who
    can make an administrator; the organisation a request is bound to; what an API token
    opens. *)

From stdpp Require Import pretty.
From Stdlib Require Import Ascii.
From S2P Require Import Prelude RuntimeSettings EventBus Commands TenantScope Enrollment RoleBindings.
From S2P Require Import Identity Accounts Invitations ApiTokens IdentityHistory AccountTheorems.
Local Open Scope string_scope.
Local Open Scope list_scope.
Local Open Scope Z_scope.

Section invitations.
Context (ulid : nat -> string) `{!Inj (=) (=) ulid}.
Context (argon_hash : string -> string -> string) (argon_verify : string -> string -> outcome unit).
Context (jwt_encode : pydict -> string) (jwt_decode : time -> string -> outcome pydict).
Context (sha256 : string -> string) (environ : string -> option string) (py_repr : json -> string).
Context (reset_ttl invite_ttl : Z) (iso : time -> string).

#[local] Abbreviation history := (rtc (id_step ulid argon_hash argon_verify jwt_encode jwt_decode
  sha256 environ py_repr reset_ttl invite_ttl iso)).
#[local] Abbreviation redeem := (redeem_invitation ulid argon_hash sha256).

(** ** Redeeming *)

Lemma create_user_ret e p n r salt now g id u g' :
  create_user ulid argon_hash e p n r salt now g = (Ret (id, u), g') ->
  in_strs r ALL_ROLES = true /\ by_email (strip (lower e)) g = None /\ id = new_id ulid "usr" (id_next g) /\
  u = new_account (strip (lower e)) (hash_password argon_hash salt p)
        (or_str (Some n) (before "@"%char (strip (lower e)))) r now /\
  g' = on_users (insert id u) (draw_id g).
Proof.
  unfold create_user. destruct (in_strs r ALL_ROLES); [|done]. cbn [negb]. intros H.
  apply (proj1 (session_scope_ret _ _ _ _)) in H; cbv beta in H. destruct (by_email _ g) as [[]|]; [done|].
  destruct (account_fits _); [|done]. by injection H as <- <- <-.
Qed.

(** What a successful redemption saw, and the state it leaves. *)
Lemma redeem_ret c tok pw n salt now t1 g id u g' :
  redeem c tok pw n salt now t1 g = (Ret (id, u), g') ->
  exists k iv g1, (8 <= String.length pw)%nat /\ id_invites g !! k = Some iv /\ iv_hash iv = sha256 tok /\
    sees_invite c iv = true /\ iv_consumed iv = None /\ now < iv_expires iv /\
    create_user ulid argon_hash (iv_email iv) pw n (iv_role iv) salt t1 g = (Ret (id, u), g1) /\
    g' = on_invites (insert k (consume_invite now id iv))
           (grant_bindings ulid c id (iv_role iv) (iv_scope iv) t1 g1).
Proof.
  unfold redeem_invitation. destruct (_ <? _)%nat eqn:El; [done|].
  destruct (invite_by_hash c _ g) as [[k iv]|] eqn:E; [|done].
  apply row_where_some in E as [E Hh]. apply andb_prop in Hh as [Hh Hs]. apply String.eqb_eq in Hh.
  case_bool_decide as Hc; [done|]. destruct (_ <=? _) eqn:Ex; [done|]. apply Z.leb_gt in Ex.
  destruct (create_user _ _ _ _ _ _ _ _ g) as [[[j v]|e] g1] eqn:Ec;
    [|destruct (caught _ e); done].
  intros [= <- <- <-]. exists k, iv, g1. apply Nat.ltb_ge in El.
  split_and!; try done. all: by destruct (iv_consumed iv); [destruct Hc|].
Qed.

(** C32. An invitation makes one account.  A successful redemption found a pending invitation
    with the token's hash, and adds exactly one account: new, active, with the invited address
    and role and the given password.  After it, over any history, the same token is refused
    and no call with it changes anything. *)
Theorem invitation_is_redeemed_once t g c tok pw n salt now t1 id u g' :
  wf ulid t g -> t <= now <= t1 -> redeem c tok pw n salt now t1 g = (Ret (id, u), g') ->
  (exists k iv, id_invites g !! k = Some iv /\ iv_hash iv = sha256 tok /\ iv_consumed iv = None /\
     now < iv_expires iv /\ us_email u = strip (lower (iv_email iv)) /\ us_role u = iv_role iv /\
     us_active u = true /\ us_password u = argon_hash salt pw /\
     id_users g !! id = None /\ id_users g' = <[id := u]> (id_users g)) /\
  forall t2 g2 c2 pw2 n2 salt2 n' t3, history (t1, g') (t2, g2) ->
    exists e, redeem c2 tok pw2 n2 salt2 n' t3 g2 = (Raise e, g2).
Proof.
  intros Hw Ht H. pose proof (redeem_good ulid argon_hash sha256 t c tok pw n salt now t1 g Ht Hw) as [Hw' _].
  rewrite H in Hw'. cbn [snd] in Hw'.
  apply redeem_ret in H as (k & iv & g1 & _ & Hk & Hh & _ & Hc & Hx & Hcr & ->).
  apply create_user_ret in Hcr as (_ & _ & -> & Hu & ->).
  set (id := new_id ulid "usr" (id_next g)) in *.
  set (g2 := on_users _ _) in *. destruct (grant_bindings_frame ulid c id (iv_role iv) (iv_scope iv) t1 g2)
    as (Eu & Ei & _ & _). split.
  - exists k, iv. split_and!; [done|done|done|done|by rewrite Hu..| |].
    + apply (wf_users _ _ _ Hw). lia.
    + cbn [id_users on_invites]. by rewrite Eu.
  - intros t2 g3 c2 pw2 n2 salt2 n' t3 Hhist. apply history_good in Hhist as [Hg _]; [|done]. cbn in Hg.
    destruct (Hg Hw') as [Hw3 He].
    destruct (ev_invites _ _ He k (consume_invite now id iv)) as (iv3 & Hk3 & Hh3 & Hc3).
    { cbn. by rewrite lookup_insert_eq. }
    { done. }
    unfold redeem_invitation. destruct (_ <? _)%nat; [by eexists|].
    destruct (invite_by_hash c2 (sha256 tok) g3) as [[k' iv']|] eqn:E; [|by eexists].
    apply row_where_some in E as [E Hp]. apply andb_prop in Hp as [Hp _]. apply String.eqb_eq in Hp.
    assert (k' = k) as ->.
    { apply (proj1 (wf_invites _ _ _ Hw3) k' k iv' iv3 E Hk3). cbn in Hh3. congruence. }
    rewrite Hk3 in E. injection E as <-. rewrite bool_decide_true; [by eexists|]. by apply Hc3.
Qed.

(** ** No membership, no binding *)

(** Foreign keys: a binding or a membership names a user. *)
Definition references (g : idb) : Prop :=
  (forall b, b ∈ rd_bindings (id_rbac g) -> is_Some (id_users g !! rb_user b)) /\
  (forall k m, id_members g !! k = Some m -> is_Some (id_users g !! om_user m)).

Lemma grant_public_nothing m user role now g b :
  (forall x, x ∈ rd_bindings (id_rbac g) -> rb_user x <> user) ->
  id_rbac (grant_binding ulid (device_caller m) user role now g b) = id_rbac g.
Proof.
  intros Hn. unfold grant_binding. destruct b; try done.
  destruct (dict_get _ "scope_type") as [[| | | |st| |]|]; try done.
  destruct (dict_get _ "scope_id") as [[| | | |sid| |]|]; try done.
  unfold grant. destruct (validate_grant _ _ _); [|done].
  destruct (find _ _) as [x|] eqn:E; [|done]. exfalso.
  apply find_some in E as [Hin Hx]. apply andb_prop in Hx as [_ Hx]. unfold same_key in Hx.
  bool_to_prop. apply (Hn x); [by apply list_elem_of_In|done].
Qed.

Lemma grants_public_nothing m user role sc now g :
  (forall x, x ∈ rd_bindings (id_rbac g) -> rb_user x <> user) ->
  id_rbac (grant_bindings ulid (device_caller m) user role sc now g) = id_rbac g.
Proof.
  intros Hn. unfold grant_bindings. destruct (truthy sc); [|done]. destruct sc; try done.
  destruct (dget_default _ _ _) as [| | | | |l|]; try done.
  revert g Hn. induction l as [|b l IH]; intros g Hn; cbn; [done|].
  rewrite IH; [by apply grant_public_nothing|]. by rewrite grant_public_nothing.
Qed.

Lemma no_membership user g : (forall k m, id_members g !! k = Some m -> om_user m <> user) ->
  memberships_for_user user g = [].
Proof.
  intros Hn. unfold memberships_for_user. destruct (is_empty user); [done|].
  assert (E : omap (joined user g) (map_to_list (id_members g)) = []).
  { apply elem_of_nil_inv. intros x ([k m] & Hin & Hj)%list_elem_of_omap.
    apply elem_of_map_to_list in Hin. unfold joined in Hj. cbn in Hj.
    destruct (String.eqb_spec (om_user m) user); [|done]. by destruct (Hn k m). }
  by rewrite E.
Qed.

(** An invited account is bound to nothing.  The public redemption page has no organisation,
    so none of the bindings the invitation lists is stored, whatever they are; and on a hub
    whose one-shot backfill ran, no later call gives the account a membership: over any
    history its requests are bound to no organisation, and their reads of tenant tables are
    unfiltered, in enforce mode too. *)
Theorem invited_account_is_unbound t g m tok pw n salt now t1 id u g' :
  wf ulid t g -> t <= now <= t1 -> references g -> has_db_value ORG_BACKFILL_KEY (id_settings g) = true ->
  redeem (device_caller m) tok pw n salt now t1 g = (Ret (id, u), g') ->
  id_rbac g' = id_rbac g /\
  forall t2 g2 ck, history (t1, g') (t2, g2) ->
    (bind_tenant_scope id ck g2).1 = TenantCtx None false false /\
    forall view n' cache audit, (add_tenant_filter environ py_repr true (bind_tenant_scope id ck g2).1
      view n' cache audit).1.1 = Unfiltered.
Proof.
  intros Hw Ht [Hb Hm] Hkey H.
  pose proof (redeem_good ulid argon_hash sha256 t (device_caller m) tok pw n salt now t1 g Ht Hw) as [Hw' He'].
  rewrite H in Hw', He'. cbn [snd] in Hw', He'.
  apply redeem_ret in H as (k & iv & g1 & _ & _ & _ & _ & _ & _ & Hcr & Hg').
  apply create_user_ret in Hcr as (_ & _ & Hid & _ & Hg1).
  assert (Hnew : id_users g !! id = None) by (rewrite Hid; apply (wf_users _ _ _ Hw); lia).
  split.
  - rewrite Hg'. cbn [id_rbac on_invites]. rewrite grants_public_nothing; [by rewrite Hg1|].
    rewrite Hg1. cbn. intros x Hx E. destruct (Hb x Hx) as [v Hv]. congruence.
  - intros t2 g2 ck Hhist. apply history_good in Hhist as [Hg2 _]; [|done]. cbn in Hg2.
    destruct (Hg2 Hw') as [_ He2]. destruct (ev_members _ _ He' Hkey) as [E1 Hk1].
    destruct (ev_members _ _ He2 Hk1) as [E2 _].
    assert (E : memberships_for_user id g2 = []).
    { apply no_membership. intros j r. rewrite E2, E1. intros Hj E. destruct (Hm j r Hj). congruence. }
    assert (Hbind : (bind_tenant_scope id ck g2).1 = TenantCtx None false false)
      by (unfold bind_tenant_scope, resolve_active_org; by rewrite E).
    split; [done|]. intros view n' cache audit. by rewrite Hbind.
Qed.

(** ** Who can make a super administrator *)

Lemma mint_invitation_role c e r i n sc random now g k secret g' :
  mint_invitation ulid sha256 environ invite_ttl c e r i n sc random now g = (Ret (k, secret), g') ->
  exists iv, id_invites g' !! k = Some iv /\ r = JStr (iv_role iv) /\ secret = String.append "inv_" random.
Proof.
  unfold mint_invitation. destruct (_ || _); [done|]. destruct r as [| | | |r| |]; try done.
  destruct (negb _); [done|]. destruct (validate_scope_payload sc); [|done]. destruct (negb _); [done|].
  destruct (stamped c None); [|done]. destruct (invite_accepted _ _); [|done].
  intros [= <- <- <-]. eexists. cbn. by rewrite lookup_insert_eq.
Qed.

#[local] Abbreviation create := (create_invitation ulid sha256 environ invite_ttl).
#[local] Abbreviation approve := (approve_signup_request_api ulid sha256 environ invite_ttl).

Lemma mint_succeeds c org e role i n random now g :
  ca_org c = Some org -> strip (lower e) = e -> is_empty e = false -> str_in "@" e = true ->
  fits 254 e = true -> in_strs role ALL_ROLES = true ->
  match i with Some u => is_Some (id_users g !! u) | None => True end ->
  in_calendar (now + seconds (invitation_ttl environ invite_ttl (id_settings g))) = true ->
  free_in (fun x => String.eqb (iv_hash x) (sha256 (String.append "inv_" random))) (id_invites g) = true ->
  mint_invitation ulid sha256 environ invite_ttl c e (JStr role) i n JNull random now g =
    (Ret (new_id ulid "inv" (id_next g), String.append "inv_" random),
     on_invites (insert (new_id ulid "inv" (id_next g))
       (Invitation e role (sha256 (String.append "inv_" random)) i n JNull org
          (now + seconds (invitation_ttl environ invite_ttl (id_settings g))) None None now)) (draw_id g)).
Proof.
  intros Hc He Hne Hat Hf Hr Hi Hcal Hfree. unfold mint_invitation. rewrite He, Hne, Hat. cbn [negb orb].
  rewrite Hr. cbn [negb validate_scope_payload]. rewrite Hcal. cbn [negb].
  unfold stamped. rewrite Hc. unfold invite_accepted. cbn [iv_email iv_issuer iv_hash].
  rewrite Hf, Hfree. destruct i as [u|]; [|done]. by rewrite bool_decide_true.
Qed.

(** The role guard of invitations is not on signup reviews.  An invitation that an operator
    below super administrator makes never has that role.  But the endpoint that approves a
    signup request asks no more than an administrator: it mints an invitation with the role
    of the request body, and redeeming the secret it answers with makes a super
    administrator. *)
Theorem signup_review_makes_super_admins g rq now me mu org r id random pw n salt t1 t2 t3 m :
  (forall body e g' k secret c who,
     us_role mu <> ROLE_SUPER_ADMIN ->
     create c who (us_role mu) body random now e = (Ret (InviteMade k secret), g') ->
     exists iv, id_invites g' !! k = Some iv /\ iv_role iv <> ROLE_SUPER_ADMIN) /\
  (role_required_api jwt_decode ADMIN_AND_UP rq now g = (Enter me mu, rq_cookie rq) ->
   us_role mu = ROLE_ADMIN -> is_Some (id_users g !! me) ->
   resolve_active_org me (ck_org (rq_cookie rq)) g = Some org ->
   id_signups g !! id = Some r -> sr_status r = "pending" ->
   strip (lower (sr_email r)) = sr_email r -> is_empty (sr_email r) = false ->
   str_in "@" (sr_email r) = true -> fits 254 (sr_email r) = true -> by_email (sr_email r) g = None ->
   in_calendar (now + seconds (invitation_ttl environ invite_ttl (id_settings g))) = true ->
   free_in (fun x => String.eqb (iv_hash x) (sha256 (String.append "inv_" random))) (id_invites g) = true ->
   t2 < now + seconds (invitation_ttl environ invite_ttl (id_settings g)) ->
   (8 <= String.length pw)%nat ->
   fits 255 (argon_hash salt pw) = true -> is_empty n = false -> fits 120 n = true ->
   exists k secret g1 user u g2,
     operator_call jwt_decode m ADMIN_AND_UP (fun s => InviteRefused s "")
       (fun c me _ g => approve c me id [("role", JStr ROLE_SUPER_ADMIN)] random now t1 g) rq now g =
       (Ret (InviteMade k secret), g1) /\
     redeem (device_caller m) secret pw n salt t2 t3 g1 = (Ret (user, u), g2) /\
     id_users g2 !! user = Some u /\ us_role u = ROLE_SUPER_ADMIN /\ us_super u = true /\
     us_email u = sr_email r).
Proof.
  split.
  - intros body e g' k secret c who Hme. unfold create_invitation.
    destruct (strip_or_empty _) as [email|]; [|done]. cbv zeta.
    set (role := jor _ _). destruct (jeqs role ROLE_SUPER_ADMIN && _) eqn:Eg; [done|].
    destruct (mint_invitation _ _ _ _ _ _ _ _ _ _ _ _ e) as [[[k' s']|ex] g1] eqn:Em;
      [|destruct (caught _ ex); done].
    intros [= <- <- <-]. apply mint_invitation_role in Em as (iv & Hk & Hr & _).
    exists iv. split; [done|]. intros Hs. rewrite Hr, Hs in Eg. cbn in Eg.
    apply negb_false_iff, String.eqb_eq in Eg. done.
  - intros Hgate Hadm Hme Horg Hid Hp He Hne Hat Hf Hby Hcal Hfree Ht2 Hpw Hh Hn Hnf.
    unfold operator_call. rewrite Hgate. cbn [fst]. unfold bind_tenant_scope. rewrite Horg. cbn [fst tc_org set_org].
    unfold approve_signup_request_api, approve_signup. rewrite Hid, Hp. cbn [negb String.eqb].
    change (String.eqb "pending" "pending") with true. cbn [negb].
    change (dget_default [("role", JStr ROLE_SUPER_ADMIN)] "role" (JStr ROLE_VIEWER)) with (JStr ROLE_SUPER_ADMIN).
    rewrite (mint_succeeds _ org); [|done..].
    set (iv := Invitation _ _ _ _ _ _ _ _ _ _ _). set (k := new_id ulid "inv" _).
    unfold approve_signup_request, close_signup. cbn [id_signups on_invites draw_id]. rewrite Hid, Hp.
    change (String.eqb "pending" "pending") with true. cbn [negb].
    set (g1 := on_signups _ _). set (secret := String.append "inv_" random).
    assert (Hfind : invite_by_hash (device_caller m) (sha256 secret) g1 = Some (k, iv)).
    { destruct (invite_by_hash (device_caller m) (sha256 secret) g1) as [[j x]|] eqn:E.
      - apply row_where_some in E as [E Hx]. apply andb_prop in Hx as [Hx _].
        change (id_invites g1) with (<[k := iv]> (id_invites g)) in E.
        apply lookup_insert_Some in E as [[<- <-]|[_ E]]; [done|].
        rewrite free_in_spec in Hfree. specialize (Hfree j x E). cbv beta in Hfree.
        subst secret. congruence.
      - apply (row_where_none _ _ k iv) in E; [|apply lookup_insert_eq].
        cbv beta in E. change (iv_hash iv) with (sha256 secret) in E. by rewrite String.eqb_refl in E. }
    eexists k, secret, g1, _, _, _. split; [done|]. split.
    + unfold redeem_invitation. apply Nat.ltb_ge in Hpw. rewrite Hpw, Hfind. change (iv_consumed iv) with (@None time).
      rewrite bool_decide_false by (by intros []).
      change (iv_expires iv) with (now + seconds (invitation_ttl environ invite_ttl (id_settings g))).
      apply Z.leb_gt in Ht2. rewrite Ht2. change (iv_email iv) with (sr_email r).
      change (iv_role iv) with ROLE_SUPER_ADMIN. change (iv_scope iv) with JNull.
      unfold create_user. change (in_strs ROLE_SUPER_ADMIN ALL_ROLES) with true. cbn [negb].
      rewrite He. unfold session_scope. change (by_email (sr_email r) g1) with (by_email (sr_email r) g).
      rewrite Hby. unfold account_fits. cbn [new_account us_email us_password us_name us_role or_str].
      rewrite Hn, Hf, Hnf. unfold hash_password. rewrite Hh. cbn. reflexivity.
    + cbn. by rewrite lookup_insert_eq.
Qed.

End invitations.

(** ** The organisation of a request *)

Lemma elem_of_memberships user g x : x ∈ memberships_for_user user g <->
  user <> "" /\ exists k r o, id_members g !! k = Some r /\ om_user r = user /\ id_orgs g !! om_org r = Some o /\
    x = Membership k (om_org r) (om_role r) (og_slug o) (og_name o) (og_status o).
Proof.
  unfold memberships_for_user. destruct user as [|a user]; cbn [is_empty].
  { split; [by intros ?%elem_of_nil|by intros []]. }
  rewrite merge_sort_Permutation, list_elem_of_omap. split.
  - intros ([k r] & Hin & Hj). apply elem_of_map_to_list in Hin. unfold joined in Hj. cbn in Hj.
    destruct (String.eqb_spec (om_user r) (String a user)); [|done].
    destruct (id_orgs g !! om_org r) as [o|] eqn:Eo; [|done]. injection Hj as <-. split; [done|]. eauto 10.
  - intros [_ (k & r & o & Hk & Hu & Ho & ->)]. exists (k, r). split; [by apply elem_of_map_to_list|].
    unfold joined. cbn. rewrite Hu, String.eqb_refl, Ho. done.
Qed.

(** The organisation of a request is a live membership.  Whatever the session says, a request
    is bound only to an organisation its user is a member of; a session value is honoured
    exactly when it names one that is not closed; and a user with a membership is always
    bound - the fallback is the first membership, whose organisation may itself be closed. *)
Theorem bound_org_is_a_membership user session_org g :
  (forall o, resolve_active_org user session_org g = Some o ->
     exists x, x ∈ memberships_for_user user g /\ mb_org x = o) /\
  (forall o, session_org = Some o -> o <> "" ->
     (exists x, x ∈ memberships_for_user user g /\ mb_org x = o) ->
     (forall x, x ∈ memberships_for_user user g -> mb_org x = o -> mb_status x <> "closed") ->
     resolve_active_org user session_org g = Some o) /\
  (resolve_active_org user session_org g = None <-> memberships_for_user user g = []) /\
  (forall x, memberships_for_user user g = [x] ->
     resolve_active_org user session_org g = Some (mb_org x)).
Proof.
  unfold resolve_active_org. set (ms := memberships_for_user user g).
  assert (Hex : forall o, existsb (fun m => String.eqb (mb_org m) o) ms = true <->
    exists x, x ∈ ms /\ mb_org x = o).
  { intros o. rewrite existsb_exists. setoid_rewrite String.eqb_eq. by setoid_rewrite <- list_elem_of_In. }
  assert (Hfind : forall o x, List.find (fun m => String.eqb (mb_org m) o) ms = Some x -> x ∈ ms /\ mb_org x = o).
  { intros o x [H1 H2]%find_some. by rewrite list_elem_of_In, <- String.eqb_eq. }
  clearbody ms. destruct ms as [|m0 r]; [naive_solver|]. cbv zeta. split_and!.
  - intros o. destruct session_org as [s|]; [|intros [= <-]; exists m0; split; [by left|done]].
    destruct (negb (is_empty s) && _) eqn:E; [|intros [= <-]; exists m0; split; [by left|done]].
    apply andb_prop in E as [_ E].
    destruct (List.find _ _) as [x|]; [destruct (String.eqb _ _)|]; intros [= <-];
      first [by apply Hex | exists m0; split; [by left|done]].
  - intros o -> Hne Hin Hopen. apply Hex in Hin. rewrite Hin. destruct o as [|a o]; [done|]. cbn [is_empty negb andb].
    destruct (List.find _ _) as [x|] eqn:E; [|done]. apply Hfind in E as [E1 E2].
    destruct (String.eqb_spec (mb_status x) "closed"); [|done]. by destruct (Hopen x E1 E2).
  - destruct session_org as [s|]; [|done]. destruct (_ && _); [|done].
    destruct (List.find _ _); [destruct (String.eqb _ _)|]; done.
  - intros x [= -> ->]. destruct session_org as [s|]; [|done].
    destruct (negb (is_empty s) && _) eqn:E; [|done]. apply andb_prop in E as [_ E].
    apply Hex in E as (y & Hy & <-). apply list_elem_of_singleton in Hy as ->. cbn.
    rewrite String.eqb_refl. by destruct (String.eqb _ _).
Qed.
(** ** A hub to try the theorems on *)

Module Example.
Import AccountTheorems.Example.

Lemma references_checked g : rd_bindings (id_rbac g) = [] ->
  forallb (fun km : string * member_row => bool_decide (is_Some (id_users g !! om_user km.2)))
    (map_to_list (id_members g)) = true -> references g.
Proof.
  intros Hb Hm. split; [intros b; rewrite Hb; by intros ?%elem_of_nil|]. intros k m Hk.
  rewrite forallb_forall in Hm. specialize (Hm (k, m)). cbn in Hm. apply bool_decide_eq_true in Hm; [done|].
  by apply list_elem_of_In, elem_of_map_to_list.
Qed.

(** The first start of a hub with one administrator, its organisation, a signup request. *)
Definition s1 := (ensure_bootstrap_admin pretty argon_hash (Some "root@example.org") (Some "root password")
  false "s" (at_s 1) empty_idb).2.
Definition s2 := (create_user pretty argon_hash "adm@example.org" "adm password" "" ROLE_ADMIN "s" (at_s 2) s1).2.
Definition s3 := ensure_default_organization_backfill pretty iso (at_s 3) s2.
Definition s4 := (create_signup_request pretty "eve@example.org" "Eve" None (at_s 4) s3).2.
Definition login_adm := login_submit pretty argon_verify "adm" "adm password" "jc" cm (at_s 5) (at_s 6) cookie0 s4.
Definition s5 : idb := login_adm.2.
Definition adm : string := new_id pretty "usr" 1.
Definition org : string := new_id pretty "org" 2.
Definition rq : request := Request login_adm.1.2 "".
Definition nobody : account := Account "" "" "" true true true "" 0 0 0 None.
Definition adm_row : account := default nobody (id_users s5 !! adm).

(** An operator is invited to one site, and redeems. *)
Definition binding_json : json := JObj [("scope_type", JStr "site"); ("scope_id", JStr "site_1")].
Definition invited := mint_invitation pretty sha no_env 86400 (Caller (Some org) Enforce) "Bob@Example.org"
  (JStr ROLE_OPERATOR) (Some adm) None (JObj [("bindings", JList [binding_json])]) "x" (at_s 7) s5.
Definition s6 : idb := invited.2.
Definition redeemed := redeem_invitation pretty argon_hash sha (device_caller Enforce) "inv_x" "bob password"
  "Bob" "s" (at_s 8) (at_s 9) s6.
Definition s7 : idb := redeemed.2.
Definition bob : string := new_id pretty "usr" (id_next s6).
Definition bob_row : account := default nobody (id_users s7 !! bob).

Lemma history_s6 : rtc step (0, empty_idb) (at_s 7, s6).
Proof.
  apply rtc_r with (at_s 6, s5); [apply rtc_r with (at_s 4, s4); [apply rtc_r with (at_s 3, s3);
    [apply rtc_r with (at_s 2, s2); [apply rtc_r with (at_s 1, s1); [apply rtc_once|]|]|]|]|].
  - by apply is_bootstrap.
  - by apply is_create.
  - by apply is_backfill.
  - by apply is_signup.
  - by apply is_login_page.
  - by apply is_invite.
Qed.
Lemma wf_s6 : wf pretty (at_s 7) s6.
Proof. eapply history_wf; [apply _|exact (wf_empty 0)|exact history_s6]. Qed.

Lemma invitation_is_redeemed_once_witness :
  exists e, redeem_invitation pretty argon_hash sha (device_caller Enforce) "inv_x" "mallory password" "M" "s"
    (at_s 20) (at_s 21) s7 = (Raise e, s7).
Proof.
  apply (proj2 (invitation_is_redeemed_once pretty argon_hash argon_verify jwt_encode jwt_decode sha no_env
    no_repr 3600 86400 iso (at_s 7) s6 (device_caller Enforce) "inv_x" "bob password" "Bob" "s" (at_s 8)
    (at_s 9) bob bob_row s7 wf_s6 ltac:(vm_compute; split; discriminate) ltac:(vm_compute; reflexivity))
    (at_s 9) s7 (device_caller Enforce) "mallory password" "M" "s" (at_s 20) (at_s 21) (rtc_refl _ _)).
Defined.

Lemma invited_account_is_unbound_witness :
  id_rbac s7 = id_rbac s6 /\ (bind_tenant_scope bob cookie0 s7).1 = TenantCtx None false false.
Proof.
  destruct (invited_account_is_unbound pretty argon_hash argon_verify jwt_encode jwt_decode sha no_env
    no_repr 3600 86400 iso (at_s 7) s6 Enforce "inv_x" "bob password" "Bob" "s" (at_s 8)
    (at_s 9) bob bob_row s7 wf_s6) as [H1 H2].
  - vm_compute. split; discriminate.
  - apply references_checked; vm_compute; reflexivity.
  - vm_compute. reflexivity.
  - vm_compute. reflexivity.
  - split; [exact H1|]. exact (proj1 (H2 (at_s 9) s7 cookie0 (rtc_refl _ _))).
Defined.

(** The administrator approves the request as a super administrator. *)
Definition eve_request : signup_row :=
  default (SignupRow "" "" None "" None None None 0) (id_signups s5 !! new_id pretty "sreq" 5).
Lemma signup_review_makes_super_admins_witness :
  exists user g u, id_users g !! user = Some u /\ us_super u = true /\ us_email u = "eve@example.org".
Proof.
  destruct (proj2 (signup_review_makes_super_admins pretty argon_hash jwt_decode sha no_env 86400 s5 rq (at_s 7)
    adm adm_row org eve_request (new_id pretty "sreq" 5) "y" "eve password" "Eve" "s" (at_s 8) (at_s 9)
    (at_s 10) Enforce)) as (k & secret & g1 & user & u & g2 & _ & _ & Hu & _ & Hs & He);
    try (vm_compute; reflexivity).
  - vm_compute. eexists. reflexivity.
  - vm_compute. repeat constructor.
  - exists user, g2, u. split; [exact Hu|]. split; [exact Hs|]. rewrite He. vm_compute. reflexivity.
Defined.

(** The administrator is a member of the organisation the backfill made. *)
Lemma bound_org_is_a_membership_witness : resolve_active_org adm (Some org) s5 = Some org.
Proof.
  apply (proj1 (proj2 (bound_org_is_a_membership adm (Some org) s5)) org).
  - reflexivity.
  - vm_compute. discriminate.
  - vm_compute. eexists. split; [by left|]. reflexivity.
  - vm_compute. intros x [->|[]%elem_of_nil]%elem_of_cons _. discriminate.
Defined.
End Example.
