(* ===== verification/TokenTheorems.v ===== *)
(** * API tokens: the life of a token, and how far it reaches *)

From stdpp Require Import pretty.
From S2P Require Import Prelude RuntimeSettings EventBus Commands TenantScope Enrollment RoleBindings.
From S2P Require Import Identity Accounts Invitations ApiTokens IdentityHistory AccountTheorems.
Local Open Scope string_scope.
Local Open Scope list_scope.
Local Open Scope Z_scope.

Section tokens.
Context (ulid : nat -> string) `{!Inj (=) (=) ulid}.
Context (argon_hash : string -> string -> string) (argon_verify : string -> string -> outcome unit).
Context (jwt_encode : pydict -> string) (jwt_decode : time -> string -> outcome pydict).
Context (sha256 : string -> string) (environ : string -> option string) (py_repr : json -> string).
Context (reset_ttl invite_ttl : Z) (iso : time -> string).

#[local] Abbreviation history := (rtc (id_step ulid argon_hash argon_verify jwt_encode jwt_decode
  sha256 environ py_repr reset_ttl invite_ttl iso)).
#[local] Abbreviation mint := (mint ulid sha256 py_repr).
#[local] Abbreviation verify := (verify sha256).

(** ** Minting *)

Lemma clean_scopes_ret v l : clean_scopes py_repr v = Ret l ->
  l = [SCOPE_READ] \/ l = [SCOPE_READ; SCOPE_WRITE].
Proof.
  unfold clean_scopes. destruct (truthy v) eqn:Et; [|intros [= <-]; by left]. cbn [negb].
  intros (xs & Hi & (out & Hm & H)%bind_ret)%bind_ret. injection H as <-.
  apply mapM_ret in Hm.
  assert (Hout : forall s, s ∈ out -> s = SCOPE_READ \/ s = SCOPE_WRITE).
  { intros s Hs. apply list_elem_of_lookup in Hs as [i Hs].
    destruct (Forall2_lookup_r _ _ _ _ _ Hm Hs) as (x & _ & Hx). unfold clean_scope in Hx.
    destruct (in_strs _ KNOWN_SCOPES) eqn:E; [|done]. injection Hx as <-.
    apply in_strs_spec in E. unfold KNOWN_SCOPES in E. set_solver. }
  assert (Hne : out <> []).
  { intros ->. inversion Hm; subst. by destruct (truthy_iter v [] Et Hi). }
  destruct (in_strs SCOPE_WRITE out) eqn:Ew.
  - right. cbn [filter list_filter]. rewrite !in_strs_cons, Ew. cbn. done.
  - left. assert (Er : in_strs SCOPE_READ out = true).
    { destruct out as [|s out]; [done|]. destruct (Hout s) as [->| ->]; [by left| |].
      - by apply in_strs_spec; left.
      - rewrite (proj2 (in_strs_spec SCOPE_WRITE (SCOPE_WRITE :: out))) in Ew; [done|by left]. }
    cbn [filter list_filter]. rewrite Er, Ew. done.
Qed.

Lemma resolve_expiry_ret v now e : resolve_expiry v now = Ret (Some e) ->
  now < e <= now + MAX_EXPIRY_DAYS * DAY.
Proof.
  assert (Hd : forall d, (d <? 0) = false -> (d =? 0) = false -> (MAX_EXPIRY_DAYS <? d) = false ->
    now < now + d * DAY <= now + MAX_EXPIRY_DAYS * DAY).
  { intros d ?%Z.ltb_ge ?%Z.eqb_neq ?%Z.ltb_ge. unfold DAY, MAX_EXPIRY_DAYS, MICRO in *. lia. }
  assert (Hb : (days ← py_int v; if days <? 0 then ApiTokenError else if days =? 0 then Ret None
      else if MAX_EXPIRY_DAYS <? days then ApiTokenError else Ret (Some (now + days * DAY))) = Ret (Some e) ->
    now < e <= now + MAX_EXPIRY_DAYS * DAY).
  { intros (d & _ & H)%bind_ret. destruct (d <? 0) eqn:E1; [done|]. destruct (d =? 0) eqn:E2; [done|].
    destruct (MAX_EXPIRY_DAYS <? d) eqn:E3; [done|]. injection H as <-. by apply Hd. }
  unfold resolve_expiry. destruct v; try exact Hb. intros [= <-].
  unfold DAY, MAX_EXPIRY_DAYS, DEFAULT_EXPIRY_DAYS, MICRO. lia.
Qed.

(** What a successful mint stores. *)
Lemma mint_ret c n sc site ex who random now g id plain g1 :
  mint c n sc site ex who random now g = (Ret (id, plain), g1) ->
  plain = String.append TOKEN_STRING_PREFIX random /\
  exists tk, id_tokens g1 !! id = Some tk /\ ap_hash tk = sha256 plain /\ ap_revoked tk = false /\
    (ap_scopes tk = [SCOPE_READ] \/ ap_scopes tk = [SCOPE_READ; SCOPE_WRITE]) /\ ap_org tk = ca_org c /\
    (forall e, ap_expires tk = Some e -> now < e <= now + MAX_EXPIRY_DAYS * DAY).
Proof.
  unfold ApiTokens.mint. destruct (_ ← strip_or_empty n; _) as [[[nm ss] e]|] eqn:E; [|done].
  apply bind_ret in E as (nm' & _ & E). destruct (is_empty nm'); [done|]. destruct (_ <? _)%nat; [done|].
  apply bind_ret in E as (ss' & Hs & E). apply bind_ret in E as (e' & He & E). injection E as <- <- <-.
  destruct (negb _); [done|]. destruct (api_token_accepted _ _); [|done]. intros [= <- <- <-].
  split; [done|]. eexists. cbn [id_tokens on_tokens]. rewrite lookup_insert_eq. split; [done|]. cbn.
  split_and!; try done; [by eapply clean_scopes_ret|]. intros x ->. by eapply resolve_expiry_ret.
Qed.

(** ** Verification *)

Lemma verify_spec m t g id tk plain random n later :
  wf ulid t g -> plain = String.append TOKEN_STRING_PREFIX random -> strip plain = plain ->
  id_tokens g !! id = Some tk -> ap_hash tk = sha256 plain ->
  (verify (device_caller m) plain n later g).1 =
    if ap_revoked tk || is_expired n tk then None else Some (principal_of id tk).
Proof.
  intros Hw Hp Hs Hk Hh. unfold ApiTokens.verify. rewrite Hs, Hp, startswith_app, <- Hp. cbn [negb].
  assert (E : token_by_hash (device_caller m) (sha256 plain) g = Some (id, tk)).
  { unfold token_by_hash. destruct (row_where _ _) as [[j x]|] eqn:E.
    - apply row_where_some in E as [Hj Hx]. apply andb_prop in Hx as [Hx _]. apply String.eqb_eq in Hx.
      assert (j = id) as -> by (eapply (proj1 (wf_tokens _ _ _ Hw)); [exact Hj|exact Hk|congruence]).
      congruence.
    - apply (row_where_none _ _ id tk) in E; [|done]. cbv beta in E.
      by rewrite Hh, String.eqb_refl in E. }
  rewrite E. destruct (ap_revoked tk); [done|]. by destruct (is_expired n tk).
Qed.

(** C34. The life of an API token.  A minted token carries read, or read and write, the caller's
    organisation and an expiry of at most a year, or none.  Over any history its row stays and
    keeps what was granted; its plaintext verifies as that row exactly until it is revoked or
    past its expiry; and after a revocation it is refused in every later state. *)
Theorem api_token_lifecycle t g c name scopes site ex who random now id plain g1 :
  wf ulid t g -> t <= now -> mint c name scopes site ex who random now g = (Ret (id, plain), g1) ->
  strip plain = plain ->
  exists tk, id_tokens g1 !! id = Some tk /\ ap_revoked tk = false /\ ap_org tk = ca_org c /\
    (ap_scopes tk = [SCOPE_READ] \/ ap_scopes tk = [SCOPE_READ; SCOPE_WRITE]) /\
    (forall e, ap_expires tk = Some e -> now < e <= now + MAX_EXPIRY_DAYS * DAY) /\
    forall t2 g2 m, history (now, g1) (t2, g2) ->
      exists tk2, id_tokens g2 !! id = Some tk2 /\ token_evo tk tk2 /\
        (forall n later, (verify (device_caller m) plain n later g2).1 =
           if ap_revoked tk2 || is_expired n tk then None else Some (principal_of id tk2)) /\
        (forall c', is_Some (get_api_token c' id g2) -> (revoke_token c' id g2).1 = true /\
           forall t3 g3 n later, history (t2, (revoke_token c' id g2).2) (t3, g3) ->
             (verify (device_caller m) plain n later g3).1 = None).
Proof.
  intros Hw Ht H Hs. pose proof (id_mint_good ulid sha256 py_repr t c name scopes site ex who random now g Ht Hw)
    as [Hw1 _]. rewrite H in Hw1. cbn [snd] in Hw1.
  apply mint_ret in H as (Hp & tk & Hk & Hh & Hr & Hsc & Ho & He).
  exists tk. split_and!; try done. intros t2 g2 m Hhist.
  pose proof (history_wf _ _ _ _ _ _ _ _ _ _ _ _ _ _ _ Hw1 Hhist) as Hw2.
  apply history_good in Hhist as [Hg _]; [|done]. destruct (Hg Hw1) as [_ Hev]. cbn in Hev.
  destruct (ev_tokens _ _ Hev id tk Hk I) as (tk2 & Hk2 & Ht2). exists tk2.
  assert (Hh2 : ap_hash tk2 = sha256 plain) by (destruct Ht2 as (_ & -> & _); done).
  assert (Hx2 : forall n, is_expired n tk2 = is_expired n tk)
    by (intros n; unfold is_expired; destruct Ht2 as (_&_&_&_&_&_&->&_); done).
  split_and!; try done.
  - intros n later. rewrite (verify_spec m t2 g2 id tk2 plain random n later); try done. by rewrite Hx2.
  - intros c' [x Hx]. unfold revoke_token. rewrite Hx. apply get_token_some in Hx.
    assert (x = tk2) as -> by congruence. split; [done|]. cbn [snd].
    intros t3 g3 n later Hhist.
    assert (Hw2' : wf ulid t2 (on_tokens (insert id (mark_revoked tk2)) g2)).
    { eapply (edit_token_good ulid t2 t2); [lia|exact Hk2|by split_and!|done]. }
    pose proof (history_wf _ _ _ _ _ _ _ _ _ _ _ _ _ _ _ Hw2' Hhist) as Hw3.
    apply history_good in Hhist as [Hg3 _]; [|done]. destruct (Hg3 Hw2') as [_ Hev3]. cbn in Hev3.
    destruct (ev_tokens _ _ Hev3 id (mark_revoked tk2)) as (tk3 & Hk3 & Ht3);
      [cbn; by rewrite lookup_insert_eq|done|].
    assert (Hr3 : ap_revoked tk3 = true) by (by apply Ht3).
    assert (Hh3 : ap_hash tk3 = sha256 plain) by (destruct Ht3 as (_ & -> & _); done).
    rewrite (verify_spec m t3 g3 id tk3 plain random n later); try done. by rewrite Hr3.
Qed.

(** ** Reach *)

(** A service token reaches every tenant.  Whatever organisation a token with the write scope
    belongs to, [/services/devices/<id>/enqueue] with it queues a power command for any device
    of the hub - one whose site belongs to another organisation included - and the body's
    [override_lockout] opens protected devices. *)
Theorem service_token_reaches_every_tenant c auth t0 t1 g p g1 h dev d site org other now flush :
  resolve_api_token_principal sha256 c auth t0 t1 g = (Some p, g1) ->
  SCOPE_WRITE ∈ tp_scopes p -> tp_org p = Some org ->
  hub_devices h !! dev = Some d -> Devices.col d "site_id" = JStr site ->
  rd_sites (id_rbac g) !! site = Some (Some other) -> other <> org ->
  exists cid h' cmd,
    services_enqueue ulid sha256 c auth dev (JStr "relay_off") [] None (JBool true) t0 t1 now flush g h =
      (Ret (ServiceQueued cid), g1, h') /\
    hub_commands h' !! cid = Some cmd /\ cmd_device_id cmd = dev /\ cmd_type cmd = "relay_off" /\
    cmd_state cmd = Pending.
Proof.
  intros Hp Hw Ho Hd _ _ _. unfold services_enqueue, service_gate. rewrite Hp.
  apply in_strs_spec in Hw. rewrite Hw. cbn [truthy is_empty negb].
  unfold enqueue_for_device. change (in_strs "relay_off" ALLOWED_TYPES) with true. cbn [negb].
  change (validate_payload "relay_off" (Some [])) with (@Ret pydict []). cbv iota beta zeta.
  unfold session_scope, enqueue_txn. rewrite Hd. unfold locked_out. rewrite andb_false_r. cbv iota.
  eexists _, _, _. split; [reflexivity|]. cbn. by rewrite lookup_insert_eq.
Qed.
End tokens.

(** ** A hub to try the theorems on *)

Module Example.
Import AccountTheorems.Example.

Definition org : string := "org_1".
Definition minted := mint pretty sha no_repr (Caller (Some org) Shadow) (JStr "bot") (JList [JStr "write"])
  None (JInt 30) None "abc" (at_s 10) empty_idb.
Definition a1 : idb := minted.2.
Definition bot : string := new_id pretty "apt" 0.
Definition a2 : idb := (revoke_token (Caller (Some org) Shadow) bot a1).2.

Definition verifies (n : time) (g : idb) : option string :=
  tp_id <$> (verify sha (device_caller Enforce) "rbt_abc" n n g).1.

Example bot_life :
  minted.1 = Ret (bot, "rbt_abc") /\ verifies (at_s 20) a1 = Some bot /\
  verifies (at_s 10 + 30 * DAY + 1) a1 = None /\ verifies (at_s 20) a2 = None.
Proof. vm_compute. auto. Qed.

Lemma api_token_lifecycle_witness :
  (verify sha (device_caller Enforce) "rbt_abc" (at_s 20) (at_s 20) a2).1 = None.
Proof.
  destruct (api_token_lifecycle pretty argon_hash argon_verify jwt_encode jwt_decode sha no_env no_repr
    3600 86400 iso 0 empty_idb (Caller (Some org) Shadow) (JStr "bot") (JList [JStr "write"]) None (JInt 30)
    None "abc" (at_s 10) bot "rbt_abc" a1 (wf_empty 0)) as (tk & _ & _ & _ & _ & _ & H).
  - vm_compute. discriminate.
  - vm_compute. reflexivity.
  - vm_compute. reflexivity.
  - destruct (H (at_s 10) a1 Enforce (rtc_refl _ _)) as (tk2 & _ & _ & _ & Hrev).
    destruct (Hrev (Caller (Some org) Shadow)) as [_ Hr]; [vm_compute; eexists; reflexivity|].
    apply (Hr (at_s 10) a2 (at_s 20) (at_s 20)). apply rtc_refl.
Defined.

(** The token of [org_1], a protected device on a site of [org_9]. *)
Definition with_site (g : idb) : idb := on_rbac (fun _ => RbacDb [] {["site_9" := Some "org_9"]} ∅ ∅ []) g.
Definition far_hub : hub :=
  Hub {["dev_x" := Device true false None {["site_id" := JStr "site_9"]}]} ∅ [] [] empty_bus 0.
Definition resolved := resolve_api_token_principal sha (Caller None Enforce) "Bearer rbt_abc" (at_s 20)
  (at_s 20) (with_site a1).

Lemma service_token_reaches_every_tenant_witness :
  exists cid h' cmd, hub_commands h' !! cid = Some cmd /\ cmd_device_id cmd = "dev_x" /\
    services_enqueue pretty sha (Caller None Enforce) "Bearer rbt_abc" "dev_x" (JStr "relay_off") [] None
      (JBool true) (at_s 20) (at_s 20) (at_s 21) (at_s 21) (with_site a1) far_hub =
      (Ret (ServiceQueued cid), resolved.2, h').
Proof.
  destruct (service_token_reaches_every_tenant pretty sha (Caller None Enforce) "Bearer rbt_abc" (at_s 20)
    (at_s 20) (with_site a1) (TokenPrincipal bot "bot" [SCOPE_READ; SCOPE_WRITE] None (Some org) None) resolved.2 far_hub
    "dev_x" (Device true false None {["site_id" := JStr "site_9"]}) "site_9" org "org_9" (at_s 21) (at_s 21))
    as (cid & h' & cmd & H1 & H2 & H3 & _); try (vm_compute; reflexivity).
  - right. left.
  - vm_compute. discriminate.
  - exists cid, h', cmd. split_and!; [exact H2|exact H3|exact H1].
Defined.
End Example.
