(* ===== verification/Notifications.v ===== *)
(** * Outbound notifications ([app/services/notifications.py],
    [app/services/webhook_delivery.py])

    [emit] queues one delivery per matching subscription; the worker sends the due
    deliveries, retries with growing delays and gives up after five attempts.  The
    HTTP exchange behind the SSRF guard is an input of each send. *)

From Stdlib Require Import Ascii.
From S2P Require Import Prelude RuntimeSettings TenantScope.
Local Open Scope string_scope.
Local Open Scope list_scope.

(** ** Tables ([app/models/notifications.py]) *)

Inductive delivery_status := DELIVERY_PENDING | DELIVERY_SENT | DELIVERY_FAILED | DELIVERY_DEAD.
#[export] Instance delivery_status_eq_dec : EqDecision delivery_status.
Proof. solve_decision. Defined.

Definition CHANNEL_KIND_WEBHOOK : string := "webhook_generic".
Definition EVENT_TYPES : list string :=
  ["watchdog.rule_fired"; "watchdog.rule_escalated"; "device.went_offline"; "device.recovered";
   "device.failsafe"; "firmware.deployment_completed"].

Record channel := Channel {
  ch_kind : string; ch_config : json; ch_signing_secret : option string;
  ch_enabled : bool; ch_org : option string
}.
Record subscription := Subscription {
  su_event_type : string; su_channel_id : string; su_site_id : option string;
  su_enabled : bool; su_org : option string
}.
Record delivery := Delivery {
  de_channel_id : string; de_event_type : string; de_payload : json;
  de_status : delivery_status; de_attempts : Z; de_http_status : option Z;
  de_response_snippet : option string; de_next_attempt_at : option time;
  de_updated_at : time; de_org : option string
}.

(** [ob_next_id] is the autoincrement of [webhook_deliveries]. *)
Record outbound := Outbound {
  ob_channels : gmap string channel;
  ob_subs : list subscription;
  ob_deliveries : gmap Z delivery;
  ob_next_id : Z
}.
Definition with_delivery (i : Z) (d : delivery) (s : outbound) : outbound :=
  Outbound (ob_channels s) (ob_subs s) (<[i := d]> (ob_deliveries s)) (ob_next_id s).

(** ** [emit] *)

(** A row of organisation [o] under the tenant filter's decision. *)
Definition seen (dec : read_decision) (o : option string) : bool :=
  match dec with Unfiltered => true | Filtered org => bool_decide (o = Some org) end.

(** The channel a subscription queues for, if it takes part. *)
Definition target_of (dec : read_decision) (event_type : string) (site : option string)
    (s : outbound) (u : subscription) : option (string * channel) :=
  if String.eqb (su_event_type u) event_type && su_enabled u && seen dec (su_org u) then
    if truthy_str (su_site_id u) && truthy_str site && negb (bool_decide (su_site_id u = site))
    then None
    else match ob_channels s !! su_channel_id u with
         | Some c => if seen dec (ch_org c) && ch_enabled c then Some (su_channel_id u, c) else None
         | None => None
         end
  else None.

(** [_queue_for_channel]. *)
Definition queue_for_channel (event_type : string) (payload : json) (now : time) (s : outbound)
    (c : string * channel) : outbound :=
  Outbound (ob_channels s) (ob_subs s)
    (<[ob_next_id s := Delivery c.1 event_type (jor payload (JObj [])) DELIVERY_PENDING 0 None None
                         (Some now) now (ch_org c.2)]> (ob_deliveries s))
    (ob_next_id s + 1).

Definition emit (dec : read_decision) (event_type : string) (payload : json) (site : option string)
    (now : time) (s : outbound) : nat * outbound :=
  if negb (in_strs event_type EVENT_TYPES) then (0, s)
  else
    let targets := omap (target_of dec event_type site s) (ob_subs s) in
    (length targets, foldl (queue_for_channel event_type payload now) s targets).

(** ** Formatting and sending *)

(** [s.replace(a, b)] for single characters. *)
Definition replace_char (a b : ascii) : string -> string :=
  map_ascii (fun x => if Ascii.eqb x a then b else x).

(** [d[k] = v]. *)
Fixpoint dict_set (d : pydict) (k : string) (v : json) : pydict :=
  match d with
  | [] => [(k, v)]
  | (k', v') :: r => if String.eqb k k' then (k, v) :: r else (k', v') :: dict_set r k v
  end.

(** [d.update(v)]: a dict, or pairs; other values raise. *)
Definition pair_of (v : json) : option (string * json) :=
  match v with
  | JList [JStr k; x] => Some (k, x)
  | JStr (String a (String b EmptyString)) =>
      Some (String a EmptyString, JStr (String b EmptyString))
  | _ => None
  end.
Definition dict_update (d : pydict) (v : json) : outcome pydict :=
  match v with
  | JObj kvs => Ret (foldl (fun d kv => dict_set d kv.1 kv.2) d kvs)
  | JList l => match mapM pair_of l with
               | Some kvs => Ret (foldl (fun d kv => dict_set d kv.1 kv.2) d kvs)
               | None => Raise (ValueError "dictionary update sequence")
               end
  | _ => Raise (TypeError "not iterable")
  end.

Record request := Request {
  rq_method : string; rq_url : json; rq_headers : pydict; rq_body : string
}.

(** What [safe_request] does: an answer, a refusal of the SSRF guard, or any other
    failure. *)
Inductive response :=
  | Answer (status_code : Z) (text : option string)
  | SSRFBlocked (reason : string)
  | Failure (msg : string).

Definition MAX_ATTEMPTS : Z := 5.
Definition BATCH_SIZE : nat := 20.

(** [_backoff_delay]. *)
Definition backoff_delay (attempts : Z) : Z := minutes (attempts * attempts).

Fixpoint str_take (n : nat) (s : string) : string :=
  match n, s with
  | S n, String a r => String a (str_take n r)
  | _, _ => EmptyString
  end.
Definition snippet (s : string) : option string := Some (str_take 500 s).

(** A log of the attempts: which delivery, when. *)
Abbreviation attempt_log := (list (Z * time)).

Section sending.
(** [json.dumps], [urlencode], [str()], HMAC-SHA256 in hexadecimal. *)
Context (dumps : json -> string) (urlencode : pydict -> string) (py_str : json -> string)
        (hmac_hex : string -> string -> string).

(** [sign_body]. *)
Definition sign_body (secret body : string) : string := String.append "sha256=" (hmac_hex secret body).

(** [_human_summary]. *)
Definition human_summary (event_type : string) (payload : json) : outcome string :=
  let payload := jor payload (JObj []) in
  a ← jget payload "name"; b ← jget payload "device_name"; c ← jget payload "rule_name";
  let name := jor (jor a b) c in
  let base := replace_char "_"%char " "%char (replace_char "."%char " "%char event_type) in
  let text := String.append "Rebooter: " base in
  Ret (if truthy name then String.append text (String.append " — " (py_str name)) else text).

Definition json_header : pydict := [("Content-Type", JStr "application/json")].

(** [_format_generic]. *)
Definition format_generic (config : json) (event_type : string) (payload : json) (now : time)
    (sent_at : time -> string) : outcome request :=
  url ← jget config "url";
  m ← jget config "method";
  method ← match jor m (JStr "POST") with
           | JStr m => Ret (upper m) | _ => Raise (AttributeError "upper") end;
  h ← jget config "headers";
  headers ← dict_update json_header (jor h (JObj []));
  Ret (Request method url headers
    (dumps (JObj [("event", JStr event_type); ("payload", jor payload (JObj []));
                  ("sent_at", JStr (sent_at now))]))).

(** [_format_slack] and [_format_discord]: the key of the text differs. *)
Definition format_text (key : string) (config : json) (event_type : string) (payload : json)
    : outcome request :=
  text ← human_summary event_type payload;
  url ← jget config "url";
  Ret (Request "POST" url json_header (dumps (JObj [(key, JStr text)]))).

(** [_format_pushover]. *)
Definition format_pushover (config : json) (event_type : string) (payload : json)
    : outcome request :=
  _ ← jget config "app_token";
  text ← human_summary event_type payload;
  let get k := match config with JObj d => dget_default d k (JStr empty_str) | _ => JNull end in
  Ret (Request "POST" (JStr "https://api.pushover.net/1/messages.json")
    [("Content-Type", JStr "application/x-www-form-urlencoded")]
    (urlencode [("token", get "app_token"); ("user", get "user_key");
                ("title", JStr "Rebooter Hub"); ("message", JStr text)])).

(** [strftime] of the generic body. *)
Context (sent_at : time -> string).

(** [format_delivery]. *)
Definition format_delivery (c : channel) (event_type : string) (payload : json) (now : time)
    : outcome request :=
  let config := jor (ch_config c) (JObj []) in
  if String.eqb (ch_kind c) CHANNEL_KIND_WEBHOOK then format_generic config event_type payload now sent_at
  else if String.eqb (ch_kind c) "slack" then format_text "text" config event_type payload
  else if String.eqb (ch_kind c) "discord" then format_text "content" config event_type payload
  else if String.eqb (ch_kind c) "pushover" then format_pushover config event_type payload
  else Raise (ValueError "no formatter for channel kind").

(** The signed request. *)
Definition signed_request (c : channel) (d : delivery) (now : time) : outcome request :=
  r ← format_delivery c (de_event_type d) (jor (de_payload d) (JObj [])) now;
  Ret (match ch_signing_secret c with
       | Some k => if is_empty k then r
                   else Request (rq_method r) (rq_url r)
                          (dict_set (rq_headers r) "X-Rebooter-Signature" (JStr (sign_body k (rq_body r))))
                          (rq_body r)
       | None => r
       end).

(** [_schedule_retry_or_dead]; [t] is its clock reading. *)
Definition schedule_retry_or_dead (error : string) (t : time) (d : delivery) : delivery :=
  if (MAX_ATTEMPTS <=? de_attempts d)%Z
  then Delivery (de_channel_id d) (de_event_type d) (de_payload d) DELIVERY_DEAD (de_attempts d)
         (de_http_status d) (snippet error) None (de_updated_at d) (de_org d)
  else Delivery (de_channel_id d) (de_event_type d) (de_payload d) DELIVERY_FAILED (de_attempts d)
         (de_http_status d) (snippet error) (Some (t + backoff_delay (de_attempts d))%Z)
         (de_updated_at d) (de_org d).

Definition set_status (st : delivery_status) (next : option time) (http : option Z)
    (snip : option string) (d : delivery) : delivery :=
  Delivery (de_channel_id d) (de_event_type d) (de_payload d) st (de_attempts d) http snip next
    (de_updated_at d) (de_org d).
Definition touch (t : time) (d : delivery) : delivery :=
  Delivery (de_channel_id d) (de_event_type d) (de_payload d) (de_status d) (de_attempts d)
    (de_http_status d) (de_response_snippet d) (de_next_attempt_at d) t (de_org d).
Definition begin_attempt (t : time) (d : delivery) : delivery :=
  Delivery (de_channel_id d) (de_event_type d) (de_payload d) (de_status d) (de_attempts d + 1)
    (de_http_status d) (de_response_snippet d) (de_next_attempt_at d) t (de_org d).

(** The [try] of [send_one], on the row whose attempt has begun. *)
Definition attempt (net : request -> response) (c : channel) (t0 t1 : time) (d : delivery)
    : delivery :=
  match signed_request c d t0 with
  | Raise x => schedule_retry_or_dead (exn_str x) t1 d
  | Ret r =>
    match net r with
    | Answer code text =>
      let d := set_status (de_status d) (de_next_attempt_at d) (Some code)
                 (snippet (or_str text empty_str)) d in
      if (200 <=? code)%Z && (code <? 300)%Z
      then set_status DELIVERY_SENT None (de_http_status d) (de_response_snippet d) d
      else schedule_retry_or_dead "HTTP" t1 d
    | SSRFBlocked reason =>
      set_status DELIVERY_DEAD None (de_http_status d)
        (snippet (String.append "blocked by SSRF guard: " reason)) d
    | Failure msg => schedule_retry_or_dead msg t1 d
    end
  end.

(** [send_one]: [t0] and [t1] are the clock before and after the exchange.  The
    result is the status it reports, [None] when the row is gone. *)
Definition send_one (net : request -> response) (t0 t1 : time) (i : Z) (s : outbound)
    (log : attempt_log) : option delivery_status * outbound * attempt_log :=
  match ob_deliveries s !! i with
  | None => (None, s, log)
  | Some d =>
    match ob_channels s !! de_channel_id d with
    | None =>
      let d := touch t0 (set_status DELIVERY_DEAD (de_next_attempt_at d) (de_http_status d)
                          (Some "channel deleted") d) in
      (Some DELIVERY_DEAD, with_delivery i d s, log)
    | Some c =>
      let d := touch t1 (attempt net c t0 t1 (begin_attempt t0 d)) in
      (Some (de_status d), with_delivery i d s, log ++ [(i, t0)])
    end
  end.

(** ** The worker *)

(** The rows the query selects: due, earliest first, at most [BATCH_SIZE]. *)
Definition is_due (now : time) (d : delivery) : bool :=
  match de_status d, de_next_attempt_at d with
  | (DELIVERY_PENDING | DELIVERY_FAILED), Some n => (n <=? now)%Z
  | _, _ => false
  end.
Definition next_key (x : Z * delivery) : Z := default 0%Z (de_next_attempt_at x.2).
Definition due_ids (now : time) (s : outbound) : list Z :=
  (take BATCH_SIZE (order_by next_key
     (List.filter (fun x => is_due now x.2) (map_to_list (ob_deliveries s))))).*1.

Record tick_stats := TickStats { ts_considered : nat; ts_sent : nat; ts_failed : nat; ts_dead : nat }.
Definition count_status (r : option delivery_status) (t : tick_stats) : tick_stats :=
  let n (b : bool) := if b then 1 else 0 in
  TickStats (S (ts_considered t))
    (ts_sent t + n (bool_decide (r = Some DELIVERY_SENT)))
    (ts_failed t + n (bool_decide (r = Some DELIVERY_FAILED)))
    (ts_dead t + n (bool_decide (r = Some DELIVERY_DEAD))).

(** The exchange and the clock readings of each delivery of a tick. *)
Record sends := Sends { sn_net : Z -> request -> response; sn_t0 : Z -> time; sn_t1 : Z -> time }.

Fixpoint tick_loop (e : sends) (ids : list Z) (t : tick_stats) (s : outbound) (log : attempt_log)
    : tick_stats * outbound * attempt_log :=
  match ids with
  | [] => (t, s, log)
  | i :: ids =>
    let '(r, s, log) := send_one (sn_net e i) (sn_t0 e i) (sn_t1 e i) i s log in
    tick_loop e ids (count_status r t) s log
  end.

(** [tick]. *)
Definition tick (e : sends) (now : time) (s : outbound) (log : attempt_log)
    : tick_stats * outbound * attempt_log :=
  tick_loop e (due_ids now s) (TickStats 0 0 0 0) s log.
End sending.

(** ** Lemmas *)
Section facts.
Context (dumps : json -> string) (urlencode : pydict -> string) (py_str : json -> string)
        (hmac_hex : string -> string -> string) (sent_at : time -> string).
Notation send_one := (send_one dumps urlencode py_str hmac_hex sent_at).
Notation tick_loop := (tick_loop dumps urlencode py_str hmac_hex sent_at).
Notation tick := (tick dumps urlencode py_str hmac_hex sent_at).
Notation attempt := (attempt dumps urlencode py_str hmac_hex sent_at).

(** What one attempt makes of a row: done, given up, or scheduled again. *)
Definition settled (st : delivery_status) : Prop := st = DELIVERY_SENT \/ st = DELIVERY_DEAD.
Lemma retry_spec error t d :
  let d' := schedule_retry_or_dead error t d in
  de_attempts d' = de_attempts d /\
  (settled (de_status d') \/
   de_status d' = DELIVERY_FAILED /\ (de_attempts d < MAX_ATTEMPTS)%Z /\
   de_next_attempt_at d' = Some (t + backoff_delay (de_attempts d))%Z).
Proof.
  unfold schedule_retry_or_dead, settled.
  destruct (MAX_ATTEMPTS <=? de_attempts d)%Z eqn:E; cbn; bool_to_prop; auto.
Qed.

Lemma attempt_spec net c t0 t1 d :
  let d' := attempt net c t0 t1 d in
  de_attempts d' = de_attempts d /\
  (settled (de_status d') \/
   de_status d' = DELIVERY_FAILED /\ (de_attempts d < MAX_ATTEMPTS)%Z /\
   de_next_attempt_at d' = Some (t1 + backoff_delay (de_attempts d))%Z).
Proof.
  unfold attempt. destruct (signed_request _ _ _ _ _ _ _ _) as [r|x]; [|apply retry_spec].
  destruct (net r) as [code text|reason|msg]; [|unfold settled; cbn; auto|apply retry_spec].
  destruct (_ && _); [unfold settled; cbn; auto|]. apply (retry_spec _ _ (set_status _ _ _ _ _)).
Qed.

(** The attempts at one delivery, oldest first. *)
Definition attempts_of (i : Z) (log : attempt_log) : list time :=
  (List.filter (fun x => (x.1 =? i)%Z) log).*2.

Lemma attempts_of_app i l1 l2 : attempts_of i (l1 ++ l2) = attempts_of i l1 ++ attempts_of i l2.
Proof. unfold attempts_of. by rewrite List.filter_app, fmap_app. Qed.
Lemma attempts_of_one i j t : attempts_of i [(j, t)] = if (j =? i)%Z then [t] else [].
Proof. unfold attempts_of. cbn. by destruct (j =? i)%Z. Qed.

(** One send touches its own row and log only. *)
Lemma send_one_other net t0 t1 i s log r s' log' j :
  send_one net t0 t1 i s log = (r, s', log') -> j <> i ->
  ob_deliveries s' !! j = ob_deliveries s !! j /\ attempts_of j log' = attempts_of j log.
Proof.
  unfold send_one. intros H Hj. cases; simplify_eq/=; rewrite ?lookup_insert_ne by done; split; try done.
  rewrite attempts_of_app, attempts_of_one.
  by rewrite (proj2 (Z.eqb_neq i j)), app_nil_r by done.
Qed.

Lemma send_one_frame net t0 t1 i s log r s' log' :
  send_one net t0 t1 i s log = (r, s', log') ->
  ob_channels s' = ob_channels s /\ ob_subs s' = ob_subs s /\ ob_next_id s' = ob_next_id s /\
  (forall j, is_Some (ob_deliveries s' !! j) <-> is_Some (ob_deliveries s !! j)).
Proof.
  unfold send_one. intros H.
  assert (Hk : forall d d' j, ob_deliveries s !! i = Some d ->
            is_Some (<[i := d']> (ob_deliveries s) !! j) <-> is_Some (ob_deliveries s !! j)).
  { intros d d' j Hd. destruct (decide (i = j)) as [<-|]; [|by rewrite lookup_insert_ne].
    rewrite lookup_insert_eq, Hd. by split; eauto. }
  destruct (ob_deliveries s !! i) as [d|] eqn:Hd; [|by simplify_eq].
  destruct (ob_channels s !! de_channel_id d); simplify_eq/=; split_and!; try done; intros j;
    by apply (Hk d).
Qed.

(** What one send does to its row. *)
Lemma send_one_own net t0 t1 i s log r s' log' d :
  send_one net t0 t1 i s log = (r, s', log') -> ob_deliveries s !! i = Some d ->
  exists d', ob_deliveries s' !! i = Some d' /\ r = Some (de_status d') /\
    ((ob_channels s !! de_channel_id d = None /\ log' = log /\ de_status d' = DELIVERY_DEAD /\
      de_attempts d' = de_attempts d) \/
     (is_Some (ob_channels s !! de_channel_id d) /\ log' = log ++ [(i, t0)] /\
      de_attempts d' = (de_attempts d + 1)%Z /\
      (settled (de_status d') \/
       de_status d' = DELIVERY_FAILED /\ (de_attempts d' < MAX_ATTEMPTS)%Z /\
       de_next_attempt_at d' = Some (t1 + backoff_delay (de_attempts d'))%Z))).
Proof.
  unfold send_one. intros H Hd. rewrite Hd in H.
  destruct (ob_channels s !! de_channel_id d) as [c|] eqn:Hc; simplify_eq/=;
    rewrite lookup_insert_eq; eexists; (split; [done|]); (split; [done|]).
  - right. pose proof (attempt_spec net c t0 t1 (begin_attempt t0 d)) as (Ha & Hs).
    cbn in *. rewrite Ha. eauto.
  - left. done.
Qed.

(** The loop visits each delivery of the list once, and no other. *)
Lemma tick_loop_other e ids t s log t' s' log' j :
  tick_loop e ids t s log = (t', s', log') -> j ∉ ids ->
  ob_deliveries s' !! j = ob_deliveries s !! j /\ attempts_of j log' = attempts_of j log.
Proof.
  revert t s log. induction ids as [|i ids IH]; intros t s log; cbn; [by intros [= <- <- <-]|].
  destruct (send_one _ _ _ i s log) as [[r s1] log1] eqn:E. intros H Hj.
  apply not_elem_of_cons in Hj as [Hji Hj]. apply IH in H as [H1 H2]; [|done].
  destruct (send_one_other _ _ _ _ _ _ _ _ _ _ E Hji). by rewrite H1, H2.
Qed.

Lemma send_loop_frame e ids t s log t' s' log' :
  tick_loop e ids t s log = (t', s', log') ->
  ob_channels s' = ob_channels s /\ ob_subs s' = ob_subs s /\ ob_next_id s' = ob_next_id s /\
  (forall j, is_Some (ob_deliveries s' !! j) <-> is_Some (ob_deliveries s !! j)).
Proof.
  revert t s log. induction ids as [|i ids IH]; intros t s log; cbn; [by intros [= <- <- <-]|].
  destruct (send_one _ _ _ i s log) as [[r s1] log1] eqn:E. intros H.
  apply IH in H as (-> & -> & -> & H). apply send_one_frame in E as (-> & -> & -> & H').
  split_and!; try done. intros j. by rewrite H, H'.
Qed.

(** The due rows. *)
Lemma due_ids_spec now s i :
  i ∈ due_ids now s -> exists d, ob_deliveries s !! i = Some d /\ is_due now d = true.
Proof.
  unfold due_ids. intros ([j d] & -> & Hin)%list_elem_of_fmap.
  apply elem_of_take in Hin as (k & Hk & _). apply list_elem_of_lookup_2 in Hk.
  rewrite (order_by_perm next_key) in Hk. rewrite list_elem_of_In, filter_In in Hk.
  destruct Hk as [Hk Hd]. exists d. split; [|done].
  by apply elem_of_map_to_list, list_elem_of_In.
Qed.

Lemma filter_sublist {A} (f : A -> bool) l : List.filter f l `sublist_of` l.
Proof. induction l as [|a l IH]; cbn; [constructor|]. destruct (f a); by constructor. Qed.

Lemma due_ids_nodup now s : NoDup (due_ids now s).
Proof.
  unfold due_ids. rewrite fmap_take. eapply sublist_NoDup; [|apply sublist_take].
  rewrite (order_by_perm next_key). eapply sublist_NoDup; [apply (NoDup_fst_map_to_list (ob_deliveries s))|].
  apply fmap_sublist, filter_sublist.
Qed.

(** ** Histories *)

(** What can happen to the outbound tables: an event is emitted in some context, a
    tick of the worker runs (each exchange at its own instants, not before the
    tick), the channels and subscriptions are edited. *)
Inductive outbound_step : outbound * attempt_log -> outbound * attempt_log -> Prop :=
  | os_emit dec event_type payload site now s log :
      outbound_step (s, log) ((emit dec event_type payload site now s).2, log)
  | os_tick e now s log st s' log' :
      (forall i, now <= sn_t0 e i <= sn_t1 e i)%Z ->
      tick e now s log = (st, s', log') -> outbound_step (s, log) (s', log')
  | os_edit channels subs s log :
      outbound_step (s, log) (Outbound channels subs (ob_deliveries s) (ob_next_id s), log).

(** Successive attempts are at least the back-off apart. *)
Definition paced (l : list time) : Prop :=
  forall k t t', l !! k = Some t -> l !! S k = Some t' ->
    (t + backoff_delay (Z.of_nat (S k)) <= t')%Z.

Lemma paced_snoc l t :
  paced l -> (forall t0, last l = Some t0 -> t0 + backoff_delay (Z.of_nat (length l)) <= t)%Z ->
  paced (l ++ [t]).
Proof.
  intros Hp Hl k a b Ha Hb. destruct (decide (S k < length l)) as [Hk|Hk].
  - rewrite lookup_app_l in Ha by lia. rewrite lookup_app_l in Hb by lia. by apply (Hp k).
  - pose proof (lookup_lt_Some _ _ _ Hb) as Hb'. rewrite length_app in Hb'. cbn in Hb'.
    assert (length l = S k) as Hlen by lia. rewrite lookup_app_l in Ha by lia.
    rewrite list_lookup_middle in Hb by done. simplify_eq.
    rewrite <- Hlen. apply Hl. rewrite last_lookup, Hlen. done.
Qed.

(** The row of a delivery agrees with its attempts. *)
Definition row_ok (d : delivery) (l : list time) : Prop :=
  de_attempts d = Z.of_nat (length l) /\ (de_attempts d <= MAX_ATTEMPTS)%Z /\ paced l /\
  (de_status d = DELIVERY_PENDING -> l = []) /\
  (de_status d = DELIVERY_FAILED -> (de_attempts d < MAX_ATTEMPTS)%Z /\
     exists t n, last l = Some t /\ de_next_attempt_at d = Some n /\
       (t + backoff_delay (de_attempts d) <= n)%Z).
Definition outbound_ok (x : outbound * attempt_log) : Prop :=
  (forall i d, ob_deliveries x.1 !! i = Some d ->
     (i < ob_next_id x.1)%Z /\ row_ok d (attempts_of i x.2)) /\
  (forall i, ob_deliveries x.1 !! i = None -> attempts_of i x.2 = []).

Lemma queue_ok ev payload now c s log :
  outbound_ok (s, log) -> outbound_ok (queue_for_channel ev payload now s c, log).
Proof.
  intros [H1 H2]. split; cbn in *.
  - intros i d Hd. destruct (decide (ob_next_id s = i)) as [<-|Hne].
    + rewrite lookup_insert_eq in Hd. simplify_eq. split; [lia|].
      destruct (ob_deliveries s !! ob_next_id s) as [d|] eqn:E; [apply H1 in E as [? _]; lia|].
      rewrite (H2 _ E). by split_and!.
    + rewrite lookup_insert_ne in Hd by done. apply H1 in Hd as [? ?]. split; [lia|done].
  - intros i Hi. apply lookup_insert_None in Hi as [Hi _]. by apply H2.
Qed.

Lemma emit_ok dec ev payload site now s log :
  outbound_ok (s, log) -> outbound_ok ((emit dec ev payload site now s).2, log).
Proof.
  unfold emit. destruct (negb _); [done|]. cbn.
  generalize (omap (target_of dec ev site s) (ob_subs s)). intros l. revert s.
  induction l as [|c l IH]; intros s H; cbn; [done|]. by apply IH, queue_ok.
Qed.

(** A due row after its send. *)
Lemma sent_row_ok now net t0 t1 i s log r s' log' d :
  row_ok d (attempts_of i log) -> is_due now d = true -> (now <= t0 <= t1)%Z ->
  send_one net t0 t1 i s log = (r, s', log') -> ob_deliveries s !! i = Some d ->
  exists d', ob_deliveries s' !! i = Some d' /\ row_ok d' (attempts_of i log').
Proof.
  intros (Hn & Hmax & Hp & Hpend & Hfail) Hdue Ht H Hd.
  destruct (send_one_own _ _ _ _ _ _ _ _ _ _ H Hd) as (d' & Hd' & _ & Hc). exists d'. split; [done|].
  destruct Hc as [(_ & -> & Hst & Ha)|(_ & -> & Ha & Hst)].
  { unfold row_ok. rewrite Hst, Ha. split_and!; try done. }
  rewrite attempts_of_app, attempts_of_one, Z.eqb_refl.
  assert (Hlt : (de_attempts d < MAX_ATTEMPTS)%Z).
  { unfold is_due in Hdue. destruct (de_status d); try done; [|by apply Hfail].
    rewrite Hn, (Hpend eq_refl). done. }
  assert (Hlen : Z.of_nat (length (attempts_of i log ++ [t0])) = de_attempts d')
    by (rewrite length_app, Ha, Hn; cbn; lia).
  unfold row_ok. split_and!; [done|lia| | |].
  - apply paced_snoc; [done|]. intros t Hl. unfold is_due in Hdue.
    destruct (de_status d); try done; [by rewrite (Hpend eq_refl) in Hl|].
    destruct (Hfail eq_refl) as (_ & t2 & n & Hl2 & Hnx & Hle). simplify_eq.
    rewrite Hnx in Hdue. bool_to_prop. rewrite <- Hn. lia.
  - intros Hs. destruct Hst as [[Hst|Hst]|(Hst & _)]; congruence.
  - intros Hs. destruct Hst as [[Hst|Hst]|(_ & Hlt' & Hnx)]; [congruence..|].
    split; [done|]. eexists t0, _. rewrite last_snoc. split_and!; [done|exact Hnx|lia].
Qed.

Lemma tick_loop_ok now e ids t s log t' s' log' :
  outbound_ok (s, log) -> NoDup ids -> (forall i, now <= sn_t0 e i <= sn_t1 e i)%Z ->
  (forall i, i ∈ ids -> exists d, ob_deliveries s !! i = Some d /\ is_due now d = true) ->
  tick_loop e ids t s log = (t', s', log') -> outbound_ok (s', log').
Proof.
  intros Hok Hnd Ht. revert t s log Hok. induction Hnd as [|i ids Hi _ IH]; intros t s log Hok Hdue;
    cbn; [by intros [= <- <- <-]|].
  destruct (send_one _ _ _ i s log) as [[r s1] log1] eqn:E. apply IH.
  - destruct Hok as [H1 H2]. cbn in H1, H2.
    destruct (Hdue i ltac:(left)) as (d & Hd & Hdd).
    pose proof (send_one_frame _ _ _ _ _ _ _ _ _ E) as (_ & _ & Hnext & Hdom).
    split; cbn [fst snd]; intros j.
    + intros d' Hj. rewrite Hnext. destruct (decide (j = i)) as [->|Hne].
      * pose proof (H1 i d Hd) as [Hlt Hrow]. split; [done|].
        destruct (sent_row_ok _ _ _ _ _ _ _ _ _ _ _ Hrow Hdd (Ht i) E Hd) as (d2 & Hd2 & Hr).
        by simplify_eq.
      * destruct (send_one_other _ _ _ _ _ _ _ _ _ j E Hne) as [Ho ->]. rewrite Ho in Hj. by apply H1.
    + intros Hj. assert (Hnone : ob_deliveries s !! j = None).
      { apply eq_None_not_Some. rewrite <- Hdom, Hj. by intros [? ?]. }
      destruct (decide (j = i)) as [->|Hne]; [congruence|].
      destruct (send_one_other _ _ _ _ _ _ _ _ _ j E Hne) as [_ ->]. by apply H2.
  - intros j Hj. destruct (Hdue j ltac:(by right)) as (d & Hd & Hdd). exists d. split; [|done].
    destruct (send_one_other _ _ _ _ _ _ _ _ _ j E) as [-> _]; [by intros ->|done].
Qed.

Lemma step_ok x y : outbound_step x y -> outbound_ok x -> outbound_ok y.
Proof.
  intros [dec ev payload site now s log|e now s log st s' log' Ht H|ch su s log] Hok.
  - by apply emit_ok.
  - eapply tick_loop_ok; [exact Hok|apply due_ids_nodup|exact Ht|apply due_ids_spec|exact H].
  - done.
Qed.

(** A settled row is final. *)
Lemma step_settled x y i d :
  outbound_step x y -> outbound_ok x -> ob_deliveries x.1 !! i = Some d -> settled (de_status d) ->
  ob_deliveries y.1 !! i = Some d /\ attempts_of i y.2 = attempts_of i x.2.
Proof.
  intros [dec ev payload site now s log|e now s log st s' log' Ht H|ch su s log] Hok Hd Hs; cbn [fst snd] in *.
  - split; [|done]. destruct Hok as [H1 _]. cbn [fst snd] in H1. apply H1 in Hd as Hlt. destruct Hlt as [Hlt _].
    unfold emit. destruct (negb _); [done|]. cbn [snd].
    generalize (omap (target_of dec ev site s) (ob_subs s)). intros l.
    assert (Hx : (i < ob_next_id s)%Z) by done. clear H1 Hlt. revert s Hd Hx.
    induction l as [|c l IH]; intros s Hd Hx; cbn; [done|]. apply IH; cbn; [|lia].
    rewrite lookup_insert_ne by lia. done.
  - destruct (tick_loop_other _ _ _ _ _ _ _ _ i H) as [-> ->]; [|done].
    intros (d' & Hd' & Hdue)%due_ids_spec. simplify_eq. unfold is_due in Hdue.
    destruct Hs as [E|E]; by rewrite E in Hdue.
  - done.
Qed.

Lemma outbound_ok_reachable channels subs n0 x :
  rtc outbound_step (Outbound channels subs ∅ n0, []) x -> outbound_ok x.
Proof.
  intros H. eapply rtc_ind_r with (P := outbound_ok); [|by intros; eapply step_ok|exact H].
  split; cbn; [|done]. intros i d Hd. by rewrite lookup_empty in Hd.
Qed.

Lemma settled_forever x y i d :
  rtc outbound_step x y -> outbound_ok x -> ob_deliveries x.1 !! i = Some d -> settled (de_status d) ->
  ob_deliveries y.1 !! i = Some d /\ attempts_of i y.2 = attempts_of i x.2.
Proof.
  induction 1 as [x|x y z Hxy _ IH]; intros Hok Hd Hs; [done|].
  destruct (step_settled _ _ _ _ Hxy Hok Hd Hs) as [Hd' Ha].
  destruct (IH (step_ok _ _ Hxy Hok) Hd' Hs) as [-> ->]. done.
Qed.

(** The counters of a loop over existing rows. *)
Lemma tick_loop_counts e ids t s log t' s' log' :
  (forall i, i ∈ ids -> is_Some (ob_deliveries s !! i)) ->
  tick_loop e ids t s log = (t', s', log') ->
  ts_considered t' = ts_considered t + length ids /\
  ts_sent t' + ts_failed t' + ts_dead t' = ts_sent t + ts_failed t + ts_dead t + length ids.
Proof.
  revert t s log. induction ids as [|i ids IH]; intros t s log Hex; cbn.
  { intros [= <- <- <-]. lia. }
  destruct (send_one _ _ _ i s log) as [[r s1] log1] eqn:E. intros H.
  destruct (Hex i ltac:(left)) as [d Hd].
  destruct (send_one_own _ _ _ _ _ _ _ _ _ _ E Hd) as (d' & _ & -> & Hc).
  apply IH in H as [-> ->].
  - assert (Hst : settled (de_status d') \/ de_status d' = DELIVERY_FAILED).
    { unfold settled. destruct Hc as [(_ & _ & -> & _)|(_ & _ & _ & [H|(-> & _)])]; auto. }
    unfold count_status, settled in *. cbn. destruct Hst as [[->| ->]| ->];
      repeat (case_bool_decide; try congruence); lia.
  - intros j Hj. apply send_one_frame in E as (_ & _ & _ & Hdom). rewrite Hdom. apply Hex. by right.
Qed.

(** A visited row is no longer due. *)
Lemma tick_loop_visited now e ids t s log t' s' log' i d :
  NoDup ids -> (now <= sn_t0 e i <= sn_t1 e i)%Z ->
  tick_loop e ids t s log = (t', s', log') -> i ∈ ids ->
  ob_deliveries s !! i = Some d -> (0 <= de_attempts d)%Z ->
  exists d', ob_deliveries s' !! i = Some d' /\ is_due now d' = false.
Proof.
  intros Hnd Ht. revert t s log. induction Hnd as [|j ids Hj _ IH]; intros t s log; cbn.
  { intros _ Hi%elem_of_nil. done. }
  destruct (send_one _ _ _ j s log) as [[r s1] log1] eqn:E. intros H Hi Hd Ha.
  apply elem_of_cons in Hi as [->|Hi].
  - destruct (tick_loop_other _ _ _ _ _ _ _ _ j H Hj) as [-> _].
    destruct (send_one_own _ _ _ _ _ _ _ _ _ _ E Hd) as (d' & Hd' & _ & Hc). exists d'. split; [done|].
    unfold is_due. destruct Hc as [(_ & _ & -> & _)|(_ & _ & Hn & [[Hs|Hs]|(-> & _ & ->)])]; [done|..].
    1-2: by rewrite Hs.
    apply Z.leb_gt. unfold backoff_delay, minutes, MICRO. rewrite Hn. nia.
  - apply (IH _ _ _ H Hi); [|done]. destruct (send_one_other _ _ _ _ _ _ _ _ _ i E) as [-> _]; [|done].
    by intros ->.
Qed.

(** The selection is the earliest due rows. *)
Lemma due_ids_earliest now s i d :
  ob_deliveries s !! i = Some d -> is_due now d = true -> i ∉ due_ids now s ->
  length (due_ids now s) = BATCH_SIZE /\
  forall j dj, j ∈ due_ids now s -> ob_deliveries s !! j = Some dj -> (next_key (j, dj) <= next_key (i, d))%Z.
Proof.
  intros Hd Hdue Hn. unfold due_ids in *.
  set (l := List.filter (fun x => is_due now x.2) (map_to_list (ob_deliveries s))) in *.
  assert (Hmem : forall x, x ∈ l -> ob_deliveries s !! x.1 = Some x.2).
  { intros [j dj] Hx. unfold l in Hx. rewrite list_elem_of_In, filter_In in Hx.
    destruct Hx as [Hx _]. by apply elem_of_map_to_list, list_elem_of_In. }
  assert (Hin : (i, d) ∈ order_by next_key l).
  { rewrite (order_by_perm next_key l). unfold l. rewrite list_elem_of_In, filter_In. split; [|done].
    by apply list_elem_of_In, elem_of_map_to_list. }
  pose proof (order_by_sorted next_key l) as Hs.
  rewrite <- (take_drop BATCH_SIZE (order_by next_key l)) in Hin, Hs.
  apply elem_of_app in Hin as [Hin|Hin].
  { destruct Hn. apply list_elem_of_fmap. by exists (i, d). }
  split.
  - rewrite length_fmap, length_take. destruct (decide (length (order_by next_key l) <= BATCH_SIZE)); [|lia].
    rewrite drop_ge in Hin by done. by apply elem_of_nil in Hin.
  - intros j dj (x & -> & Hx)%list_elem_of_fmap Hj.
    apply (StronglySorted_app_1_elem_of _ _ _ _ _ Hs Hx) in Hin. unfold key_le in Hin.
    assert (Hxl : x ∈ l).
    { rewrite <- (order_by_perm next_key l). apply elem_of_take in Hx as (k & Hk & _).
      by eapply list_elem_of_lookup_2. }
    apply Hmem in Hxl. rewrite Hj in Hxl. simplify_eq. by destruct x.
Qed.

(** What the loop of [emit] leaves. *)
Lemma queue_all ev payload now l s :
  (forall i, ob_next_id s <= i -> ob_deliveries s !! i = None)%Z ->
  let s' := foldl (queue_for_channel ev payload now) s l in
  ob_next_id s' = (ob_next_id s + Z.of_nat (length l))%Z /\
  (forall i, i < ob_next_id s -> ob_deliveries s' !! i = ob_deliveries s !! i)%Z /\
  (forall k c, l !! k = Some c -> ob_deliveries s' !! (ob_next_id s + Z.of_nat k)%Z =
     Some (Delivery c.1 ev (jor payload (JObj [])) DELIVERY_PENDING 0 None None (Some now) now (ch_org c.2))).
Proof.
  revert s. induction l as [|c l IH]; intros s Hf; cbn; [split_and!; [lia|done|done]|].
  destruct (IH (queue_for_channel ev payload now s c)) as (Hn & Ho & Hk).
  { cbn. intros i Hi. rewrite lookup_insert_ne by lia. apply Hf. lia. }
  cbn in Hn, Ho, Hk. split_and!.
  - rewrite Hn. lia.
  - intros i Hi. rewrite Ho by lia. by rewrite lookup_insert_ne by lia.
  - intros [|k] c' Hc; cbn in Hc.
    + simplify_eq. rewrite Z.add_0_r, Ho by lia. by rewrite lookup_insert_eq.
    + apply Hk in Hc. rewrite <- Hc. f_equal. lia.
Qed.

(** ** Theorems *)

(** The retry discipline.  Whatever happens -- events emitted, ticks with any
    answers of the receivers, channels edited or removed -- a delivery is attempted
    at most five times, attempt [k + 1] at least [k * k] minutes after attempt [k],
    its row counts its attempts exactly, and once it is sent or dead the row never
    changes and nothing is sent for it again. *)
Theorem delivery_retry_discipline channels subs n0 s log i :
  rtc outbound_step (Outbound channels subs ∅ n0, []) (s, log) ->
  length (attempts_of i log) <= 5 /\ paced (attempts_of i log) /\
  forall d, ob_deliveries s !! i = Some d ->
    de_attempts d = Z.of_nat (length (attempts_of i log)) /\
    (settled (de_status d) -> forall s' log', rtc outbound_step (s, log) (s', log') ->
       ob_deliveries s' !! i = Some d /\ attempts_of i log' = attempts_of i log).
Proof.
  intros H%outbound_ok_reachable. pose proof H as [H1 H2]. cbn [fst snd] in H1, H2.
  destruct (ob_deliveries s !! i) as [d|] eqn:Hd.
  - destruct (H1 i d Hd) as (_ & Hn & Hmax & Hp & _). split_and!; [unfold MAX_ATTEMPTS in *; lia|done|].
    intros d' [= <-]. split; [done|]. intros Hs s' log' Hr.
    exact (settled_forever (s, log) (s', log') i d Hr H Hd Hs).
  - rewrite (H2 i Hd). split_and!; [cbn; lia|done|done].
Qed.

(** One tick of the worker.  It sends exactly the rows its query selects, each once
    and counted once; none of them is due any more afterwards; every other row is
    untouched; and a due row is left waiting only when twenty rows that were due no
    later have been sent. *)
Theorem tick_sends_the_earliest_due e now s log st s' log' :
  (forall i, now <= sn_t0 e i <= sn_t1 e i)%Z ->
  (forall i d, ob_deliveries s !! i = Some d -> 0 <= de_attempts d)%Z ->
  tick e now s log = (st, s', log') ->
  let ids := due_ids now s in
  (ts_considered st = length ids /\ ts_sent st + ts_failed st + ts_dead st = length ids) /\
  (forall i, i ∈ ids -> exists d d', ob_deliveries s !! i = Some d /\ is_due now d = true /\
     ob_deliveries s' !! i = Some d' /\ is_due now d' = false) /\
  (forall i, i ∉ ids -> ob_deliveries s' !! i = ob_deliveries s !! i) /\
  (forall i d, ob_deliveries s !! i = Some d -> is_due now d = true -> i ∉ ids ->
     length ids = 20 /\
     forall j dj, j ∈ ids -> ob_deliveries s !! j = Some dj -> (next_key (j, dj) <= next_key (i, d))%Z).
Proof.
  intros Ht Ha H ids. unfold tick in H. split_and!.
  1-2: apply tick_loop_counts in H as [H1 H2]; [cbn in *; lia|];
    intros i (d & Hd & _)%due_ids_spec; by exists d.
  - intros i Hi. apply due_ids_spec in Hi as Hd. destruct Hd as (d & Hd & Hdue).
    destruct (tick_loop_visited now _ _ _ _ _ _ _ _ i d (due_ids_nodup now s) (Ht i) H Hi Hd (Ha _ _ Hd))
      as (d' & Hd' & Hn). by exists d, d'.
  - intros i Hi. by apply (tick_loop_other _ _ _ _ _ _ _ _ i H).
  - intros i d. apply due_ids_earliest.
Qed.

(** Emission.  A known event queues one delivery, due at once, for every enabled
    subscription to it whose site filter does not exclude it and whose channel is
    enabled -- and no other row changes.  In an organisation's context under
    enforcement all of them belong to that organisation.  But the context decides:
    under [system()], where the watchdog and the other jobs emit, the subscriptions
    of every tenant are served, whatever the organisation of the rule. *)
Theorem emit_queues_exactly dec event_type payload site now s :
  in_strs event_type EVENT_TYPES = true ->
  (forall i, ob_next_id s <= i -> ob_deliveries s !! i = None)%Z ->
  let targets := omap (target_of dec event_type site s) (ob_subs s) in
  let '(n, s') := emit dec event_type payload site now s in
  n = length targets /\
  (forall i, i < ob_next_id s -> ob_deliveries s' !! i = ob_deliveries s !! i)%Z /\
  (forall k c, targets !! k = Some c -> ob_deliveries s' !! (ob_next_id s + Z.of_nat k)%Z =
     Some (Delivery c.1 event_type (jor payload (JObj [])) DELIVERY_PENDING 0 None None (Some now) now
             (ch_org c.2))) /\
  (forall o c, dec = Filtered o -> c ∈ targets -> ch_org c.2 = Some o) /\
  (forall u c, dec = Unfiltered -> u ∈ ob_subs s -> su_event_type u = event_type ->
     su_enabled u = true -> (truthy_str (su_site_id u) = false \/ truthy_str site = false) ->
     ob_channels s !! su_channel_id u = Some c -> ch_enabled c = true ->
     (su_channel_id u, c) ∈ targets).
Proof.
  intros Hk Hf targets. unfold emit. rewrite Hk. cbn [negb].
  destruct (queue_all event_type payload now targets s Hf) as (_ & Ho & Hq).
  split_and!; [done|exact Ho|exact Hq| |].
  - intros o c -> (u & _ & Hu)%list_elem_of_omap. unfold target_of in Hu. cases. bool_to_prop.
    match goal with H : seen _ (ch_org _) = true |- _ => by apply bool_decide_eq_true in H end.
  - intros u c -> Hu <- He Hs Hc Hce. apply list_elem_of_omap. exists u. split; [done|].
    unfold target_of. rewrite String.eqb_refl, He, Hc, Hce. cbn.
    destruct Hs as [->| ->]; [done|]. by rewrite andb_false_r.
Qed.
End facts.

(** ** Witnesses *)
Module Example.
Definition dumps (_ : json) : string := "{}".
Definition urlenc (_ : pydict) : string := "a=b".
Definition py_str (_ : json) : string := "x".
Definition mac (_ _ : string) : string := "00".
Definition fmt (_ : time) : string := "now".

Definition slack (org : string) : channel :=
  Channel "slack" (JObj [("url", JStr "https://hooks.example")]) (Some "k") true (Some org).
Definition sub (org ch : string) : subscription :=
  Subscription "watchdog.rule_fired" ch None true (Some org).
Definition tables : outbound :=
  Outbound {["whc_a" := slack "org_a"; "whc_b" := slack "org_b"]}
    [sub "org_a" "whc_a"; sub "org_b" "whc_b"] ∅ 1.
Definition queued : outbound := (emit Unfiltered "watchdog.rule_fired" (JObj []) None 0 tables).2.
Definition failing : sends := Sends (fun _ _ => Answer 503 None) (fun _ => 10%Z) (fun _ => 11%Z).
Definition run := tick dumps urlenc py_str mac fmt failing 5 queued [].

(** Two tenants subscribe to a rule's event; the watchdog's emission serves both,
    and a failing receiver is tried once and rescheduled. *)
Lemma emit_queues_exactly_witness :
  ("whc_b", slack "org_b") ∈
    omap (target_of Unfiltered "watchdog.rule_fired" None tables) (ob_subs tables).
Proof.
  pose proof (emit_queues_exactly Unfiltered "watchdog.rule_fired" (JObj []) None 0 tables
    eq_refl ltac:(intros i _; reflexivity)) as H. cbv zeta in H.
  destruct (emit Unfiltered "watchdog.rule_fired" (JObj []) None 0 tables) as [n s'].
  destruct H as (_ & _ & _ & _ & H).
  apply (H (sub "org_b" "whc_b") (slack "org_b") eq_refl); try reflexivity.
  - right. left.
  - by left.
Defined.

Lemma delivery_retry_discipline_witness :
  length (attempts_of 1 run.2) <= 5.
Proof.
  apply (delivery_retry_discipline dumps urlenc py_str mac fmt (ob_channels tables) (ob_subs tables) 1
           run.1.2 run.2 1).
  eapply rtc_l; [apply (os_emit _ _ _ _ _ Unfiltered "watchdog.rule_fired" (JObj []) None 0)|].
  apply rtc_once. apply (os_tick _ _ _ _ _ failing 5 queued [] run.1.1).
  - intros i. cbn. lia.
  - reflexivity.
Defined.

Lemma tick_sends_the_earliest_due_witness :
  ts_considered run.1.1 = 2 /\ ts_failed run.1.1 = 2 /\
  exists d', ob_deliveries run.1.2 !! 1%Z = Some d' /\ is_due 5 d' = false.
Proof.
  destruct run as [[st s'] log'] eqn:E. cbn [fst snd].
  destruct (tick_sends_the_earliest_due dumps urlenc py_str mac fmt failing 5 queued [] st s' log')
    as ([H1 H2] & Hin & _).
  - intros i. cbn. lia.
  - assert (Hall : map_Forall (fun _ d => 0 <= de_attempts d)%Z (ob_deliveries queued))
      by (apply (bool_decide_unpack _); vm_compute; exact I).
    intros i d Hd. exact (Hall i d Hd).
  - exact E.
  - assert (Hids : due_ids 5 queued = [2; 1]%Z) by (vm_compute; reflexivity).
    rewrite Hids in H1, Hin. split; [exact H1|]. split.
    + assert (Hf : ts_failed run.1.1 = 2) by (vm_compute; reflexivity). by rewrite E in Hf.
    + destruct (Hin 1%Z ltac:(right; left)) as (d & d' & _ & _ & Hd' & Hn). by exists d'.
Defined.
End Example.
