(* ===== verification/ConfigBackup.v ===== *)
(** * Configuration backup ([app/services/config_backup.py])

    The export of the operator-managed tables as one document, its encryption, and the
    dry-run plan of an import.  State [hub_config] is those tables; a row of a
    tenant-scoped table carries its organisation ([owned]) and the caller sees the rows
    [sees] lets through (the write guard then passes, as every edited row is visible).
    [json.dumps]/[json.loads], scrypt and AES-GCM are parameters; a byte string is a
    string of 8-bit characters.  [now] is the clock of one call. *)

From S2P Require Import Prelude PyFloat Commands QueueInterface WatchdogActions WatchdogRules Schedules.
From S2P Require Import ExternalSensors RuntimeSettings Devices TenantScope Enrollment RoleBindings.
From S2P Require Import Identity Accounts Invitations.
From S2P Require Notifications.
Local Open Scope string_scope.
Local Open Scope list_scope.
Local Open Scope Z_scope.

(** ** Constants *)

Definition FORMAT_NAME : string := "rebooter-hub-config".
Definition FORMAT_VERSION : Z := 1.
Definition REDACTED_SENTINEL : string := "__redacted__".
Definition SECTION_RUNTIME_SETTINGS : string := "runtime_settings".
Definition SECTION_WATCHDOG_RULES : string := "watchdog_rules".
Definition SECTION_SCHEDULES : string := "schedules".
Definition SECTION_SCENES : string := "scenes".
Definition SECTION_SITES : string := "sites".
Definition SECTION_GROUPS : string := "groups".
Definition SECTION_GROUP_MEMBERSHIPS : string := "group_memberships".
Definition SECTION_EXTERNAL_SOURCES : string := "external_sensor_sources".
Definition SECTION_DEVICE_CONFIG : string := "device_config".
Definition SECRET_KEY_TOKENS : list string := ["password"; "secret"; "token"; "api_key"; "hmac"].
Definition NETWORK_KEY_PREFIX : string := "network.".
Definition EXT_SECRET_SUBKEYS : list string :=
  ["token"; "api_key"; "jwt"; "community"; "password"; "secret"].

Definition ConfigBackupError {A} (msg : string) : outcome A := Raise (AppError "ConfigBackupError" msg).

(** [_is_secret_key]. *)
Definition is_secret_key (name : string) : bool :=
  existsb (fun tok => str_in tok (lower name)) SECRET_KEY_TOKENS.
Definition is_secret_subkey (k : string) : bool :=
  existsb (fun tok => str_in tok (lower k)) EXT_SECRET_SUBKEYS.
(** [_redact_ext_config]: the column holds a dict or nothing. *)
Definition redact_pair (kv : string * json) : string * json :=
  if is_secret_subkey kv.1 then (kv.1, JStr REDACTED_SENTINEL) else kv.
Definition redact_ext_config (config : json) : json :=
  match config with JObj d => JObj (redact_pair <$> d) | v => v end.

(** ** Tables *)

Record owned (A : Type) := Owned { ow_org : string; ow_row : A }.
Arguments Owned {A}.
Arguments ow_org {A}.
Arguments ow_row {A}.

Record site_cols := SiteCols { si_name : string; si_description : option string }.
Record group_cols := GroupCols {
  gp_name : string; gp_description : option string; gp_site : option string
}.
Record scene_cols := SceneCols {
  scn_name : string; scn_description : option string; scn_items : json; scn_updated_at : time
}.
Record schedule_cols := ScheduleCols {
  sd_schedule : schedule; sd_description : option string; sd_updated_at : time
}.
Definition rule_name (r : rule_row) : string := rc_name (rr_rule r).
Definition sched_name (s : schedule_cols) : string := sc_name (sd_schedule s).

Abbreviation table A := (gmap string (owned A)).
Record hub_config := HubConfig {
  hc_settings : settings;
  hc_sites : table site_cols;
  hc_groups : table group_cols;
  hc_members : list (string * string);
  hc_rules : table rule_row;
  hc_schedules : table schedule_cols;
  hc_scenes : table scene_cols;
  hc_sources : table source;
  hc_devices : gmap string device;
  hc_next : nat
}.

(** The rows a [select] returns, the dict comprehensions over them ([{r.name: r}]: a later
    row replaces an earlier one), and [ORDER BY] on a text column. *)
Definition visible {A} (c : caller) (t : table A) : list (string * A) :=
  (fun kr : string * owned A => (kr.1, ow_row kr.2)) <$>
    filter (fun kr : string * owned A => sees c (Some (ow_org kr.2)) = true) (map_to_list t).
Definition index {A} (key : A -> string) (rows : list (string * A)) : gmap string string :=
  list_to_map (reverse ((fun x => (key x.2, x.1)) <$> rows)).
Definition names_by_id {A} (key : A -> string) (rows : list (string * A)) : gmap string string :=
  list_to_map (reverse ((fun x => (x.1, key x.2)) <$> rows)).
Definition name_le {A} (key : A -> string) (a b : A) : Prop := String.leb (key a) (key b) = true.
#[export] Instance name_le_dec {A} (key : A -> string) : RelDecision (name_le key).
Proof. intros a b. unfold name_le. apply _. Defined.
Definition sorted_by {A} (key : A -> string) (l : list A) : list A := merge_sort (name_le key) l.

Definition device_mac (d : device) : option string :=
  match as_str (col d "mac_address") with
  | Some m => if is_empty m then None else Some m
  | None => None
  end.
Definition device_by_mac (t : gmap string device) : gmap string string :=
  list_to_map (reverse (omap (fun kd : string * device => m ← device_mac kd.2; Some (m, kd.1))
                          (map_to_list t))).

(** ** Export *)

Definition export_setting (secrets : bool) (x : string * setting_row) : outcome json :=
  match jor (se_value x.2) (JObj []) with
  | JObj d => Ret (JObj [("name", JStr x.1);
                ("value", if negb secrets && is_secret_key x.1 then JStr REDACTED_SENTINEL
                          else dget d "v")])
  | _ => Raise (AttributeError "get")
  end.
Definition export_site (s : site_cols) : json :=
  JObj [("name", JStr (si_name s)); ("description", ojson (si_description s))].
(** [site_name_by_id.get(x.site_id)]. *)
Definition site_name (sites : gmap string string) (id : option string) : json :=
  ojson (i ← id; sites !! i).
Definition export_group (sites : gmap string string) (g : group_cols) : json :=
  JObj [("name", JStr (gp_name g)); ("description", ojson (gp_description g));
        ("site_name", site_name sites (gp_site g))].
Definition export_members (c : caller) (h : hub_config) : list json :=
  let groups := names_by_id gp_name (visible c (hc_groups h)) in
  omap (fun m : string * string =>
    g ← groups !! m.1;
    mac ← hc_devices h !! m.2 ≫= device_mac;
    if is_empty g then None
    else Some (JObj [("group_name", JStr g); ("device_mac", JStr mac)])) (hc_members h).
Definition export_rule (sites : gmap string string) (x : rule_row) : json :=
  let r := rr_rule x in
  JObj [("name", JStr (rc_name r)); ("description", ojson (rr_description x));
        ("enabled", JBool (rc_enabled r)); ("probe", or_dict (rc_probe r));
        ("target", or_dict (rc_target r)); ("action", or_dict (rc_action r));
        ("escalation", or_dict (rc_escalation r));
        ("maintenance_windows", jor (rc_maintenance_windows r) (JList []));
        ("failure_threshold", JInt (rc_failure_threshold r));
        ("recovery_threshold", JInt (rc_recovery_threshold r));
        ("window_seconds", JInt (rc_window_seconds r));
        ("cooldown_seconds", JInt (rc_cooldown_seconds r));
        ("max_retries", JInt (rr_max_retries x));
        ("retry_delay_seconds", JInt (rr_retry_delay_seconds x));
        ("site_name", site_name sites (rc_site_id r))].
Definition export_schedule (x : schedule_cols) : json :=
  let s := sd_schedule x in
  JObj [("name", JStr (sc_name s)); ("description", ojson (sd_description x));
        ("enabled", JBool (sc_enabled s)); ("kind", JStr (sc_kind s));
        ("recurrence", JStr (sc_recurrence s)); ("at_time_utc", ojson (sc_at_time_utc s));
        ("weekdays", jor (sc_weekdays s) (JList []));
        ("duration_seconds", JInt (sc_duration_seconds s)); ("target", or_dict (sc_target s));
        ("power_off_seconds", JInt (sc_power_off_seconds s));
        ("post_reboot_holdoff_seconds", JInt (sc_post_reboot_holdoff_seconds s))].
Definition export_scene (s : scene_cols) : json :=
  JObj [("name", JStr (scn_name s)); ("description", ojson (scn_description s));
        ("items", jor (scn_items s) (JList []))].
Definition export_source (secrets : bool) (s : source) : json :=
  JObj [("display_name", JStr (src_display_name s)); ("kind", JStr (src_kind s));
        ("host", JStr (src_host s)); ("port", JInt (src_port s));
        ("enabled", JBool (src_enabled s));
        ("poll_interval_seconds", JInt (src_poll_interval_seconds s));
        ("config", if secrets then src_config s else redact_ext_config (src_config s))].
Definition export_device (d : device) : option json :=
  m ← device_mac d;
  if bool_decide (col d "desired_config" = JNull) && bool_decide (col d "desired_mode" = JNull) then None
  else Some (JObj [("mac_address", JStr m); ("desired_config", col d "desired_config");
                   ("desired_mode", col d "desired_mode")]).

Definition export_rows {A} (key : A -> string) (print : A -> json) (c : caller) (t : table A) : list json :=
  print <$> sorted_by key ((visible c t).*2).

(** [_collect_sections]. *)
Definition collect_sections (c : caller) (secrets : bool) (h : hub_config) : outcome pydict :=
  rs ← mapM (export_setting secrets) (sorted_by fst (map_to_list (hc_settings h)));
  let sites := names_by_id si_name (visible c (hc_sites h)) in
  Ret [(SECTION_RUNTIME_SETTINGS, JList rs);
       (SECTION_SITES, JList (export_rows si_name export_site c (hc_sites h)));
       (SECTION_GROUPS, JList (export_rows gp_name (export_group sites) c (hc_groups h)));
       (SECTION_GROUP_MEMBERSHIPS, JList (export_members c h));
       (SECTION_WATCHDOG_RULES, JList (export_rows rule_name (export_rule sites) c (hc_rules h)));
       (SECTION_SCHEDULES, JList (export_rows sched_name export_schedule c (hc_schedules h)));
       (SECTION_SCENES, JList (export_rows scn_name export_scene c (hc_scenes h)));
       (SECTION_EXTERNAL_SOURCES,
          JList (export_rows src_display_name (export_source secrets) c (hc_sources h)));
       (SECTION_DEVICE_CONFIG,
          JList (omap export_device
                   (sorted_by (fun d => default "" (as_str (col d "mac_address")))
                      ((map_to_list (hc_devices h)).*2))))].

(** ** Encryption *)

(** [bytes.hex()], and [bytes.fromhex], which skips blanks between the bytes. *)
Definition hex_char (n : nat) : Ascii.ascii :=
  Ascii.ascii_of_nat (if (n <? 10)%nat then 48 + n else 87 + n).
Fixpoint hex (s : string) : string :=
  match s with
  | EmptyString => EmptyString
  | String a r => String (hex_char (Ascii.nat_of_ascii a / 16))
                    (String (hex_char (Ascii.nat_of_ascii a mod 16)) (hex r))
  end.
Definition hex_val (a : Ascii.ascii) : option nat :=
  let n := Ascii.nat_of_ascii a in
  if (48 <=? n)%nat && (n <=? 57)%nat then Some (n - 48)%nat
  else if (97 <=? n)%nat && (n <=? 102)%nat then Some (n - 87)%nat
  else if (65 <=? n)%nat && (n <=? 70)%nat then Some (n - 55)%nat
  else None.
Fixpoint fromhex (s : string) : outcome string :=
  match s with
  | EmptyString => Ret EmptyString
  | String a r =>
    if is_space a then fromhex r
    else match r with
    | String b r =>
      match hex_val a, hex_val b with
      | Some x, Some y => t ← fromhex r; Ret (String (Ascii.ascii_of_nat (x * 16 + y)) t)
      | _, _ => Raise (ValueError "non-hexadecimal number found")
      end
    | EmptyString => Raise (ValueError "non-hexadecimal number found")
    end
  end.

Section backup.
(** [json.dumps], [json.loads] (which decodes UTF-8), scrypt, AES-GCM. *)
Context (json_dumps : json -> string) (json_loads : string -> outcome json).
Context (scrypt : string -> string -> string).
Context (aes_encrypt : string -> string -> string -> string)
        (aes_decrypt : string -> string -> string -> outcome string).

Definition envelope (salt nonce ciphertext ts : string) : pydict :=
  [("format", JStr FORMAT_NAME); ("format_version", JInt FORMAT_VERSION); ("encrypted", JBool true);
   ("kdf", JStr "scrypt"); ("cipher", JStr "AES-256-GCM"); ("salt", JStr (hex salt));
   ("nonce", JStr (hex nonce)); ("ciphertext", JStr (hex ciphertext)); ("exported_at", JStr ts)].
(** [encrypt_document]; [salt] and [nonce] are the bytes drawn, [ts] the text of the time. *)
Definition encrypt_document (doc : json) (passphrase salt nonce ts : string) : outcome string :=
  if is_empty passphrase then ConfigBackupError "a passphrase is required for an encrypted export"
  else
    Ret (json_dumps (JObj (envelope salt nonce
           (aes_encrypt (scrypt passphrase salt) nonce (json_dumps doc)) ts))).

(** One hexadecimal field of the envelope. *)
Definition envelope_bytes (envelope : pydict) (k : string) : outcome string :=
  match dict_get envelope k with
  | None => Raise (KeyError k)
  | Some (JStr s) => fromhex s
  | Some _ => Raise (TypeError "fromhex")
  end.
Definition decrypt_document (envelope : pydict) (passphrase : string) : outcome json :=
  if is_empty passphrase
  then ConfigBackupError "this file is encrypted - a passphrase is required"
  else match (salt ← envelope_bytes envelope "salt";
              nonce ← envelope_bytes envelope "nonce";
              ciphertext ← envelope_bytes envelope "ciphertext";
              Ret (salt, nonce, ciphertext)) with
  | Raise (KeyError _) | Raise (ValueError _) => ConfigBackupError "malformed encrypted backup envelope"
  | Raise e => Raise e
  | Ret (salt, nonce, ciphertext) =>
    match aes_decrypt (scrypt passphrase salt) nonce ciphertext with
    | Raise e => match caught "InvalidTag" e with
                 | Some _ => ConfigBackupError "could not decrypt - wrong passphrase or the file was modified"
                 | None => Raise e end
    | Ret plaintext =>
      match json_loads plaintext with
      | Raise (ValueError _) => ConfigBackupError "decrypted payload is not valid JSON"
      | o => o
      end
    end
  end.

(** [export_config]. *)
Definition backup_document (c : caller) (secrets : bool) (ts : string) (h : hub_config) : outcome json :=
  sections ← collect_sections c secrets h;
  Ret (JObj [("format", JStr FORMAT_NAME); ("format_version", JInt FORMAT_VERSION);
             ("exported_at", JStr ts); ("include_secrets", JBool secrets); ("sections", JObj sections)]).
Definition export_config (c : caller) (secrets : bool) (passphrase salt nonce ts : string)
    (h : hub_config) : outcome string :=
  if secrets && is_empty passphrase
  then ConfigBackupError "including secrets requires a passphrase to encrypt the file"
  else
    doc ← backup_document c secrets ts h;
    if secrets then encrypt_document doc passphrase salt nonce ts else Ret (json_dumps doc).

(** ** The dry-run plan *)

Inductive disposition := ToCreate | ToUpdate | ToSkip | InConflict.
Record plan_item := PlanItem {
  it_key : string; it_disposition : disposition; it_note : string; it_record : pydict
}.
Record section_plan := SectionPlan { sp_section : string; sp_items : list plan_item }.
Record import_plan := ImportPlan {
  ip_sections : list section_plan; ip_warnings : list string; ip_document : pydict
}.
Definition writeable (it : plan_item) : bool :=
  match it_disposition it with ToCreate | ToUpdate => true | _ => false end.
(** [total_writes]: the sums of [counts]. *)
Definition total_writes (p : import_plan) : nat :=
  length (filter (fun it => writeable it = true) (p.(ip_sections) ≫= sp_items)).

(** A record of a section is a dict, or its [get] raises; [for rec in records or []]. *)
Definition as_record (v : json) : outcome pydict :=
  match v with JObj d => Ret d | _ => Raise (AttributeError "get") end.
Definition records_of (v : json) : outcome (list json) := if truthy v then py_iter v else Ret [].

(** [_plan_runtime_settings]: nothing for a record without a name. *)
Definition plan_setting (existing : settings) (v : json) : outcome (list plan_item) :=
  rec ← as_record v;
  name ← strip_or_empty (dget rec "name");
  if is_empty name then Ret []
  else if jeqs (dget rec "value") REDACTED_SENTINEL
  then Ret [PlanItem name ToSkip "redacted secret - not importable" rec]
  else if startswith NETWORK_KEY_PREFIX name
  then Ret [PlanItem name ToSkip "network key - host-specific, skipped to protect this hub" rec]
  else if bool_decide (is_Some (existing !! name))
  then Ret [PlanItem name ToUpdate "overwrites the current value" rec]
  else Ret [PlanItem name ToCreate "" rec].
Definition NETWORK_WARNING : string := "Network settings (network.*) were found in the backup".
Definition plan_runtime_settings (existing : settings) (v : json)
    : outcome (section_plan * list string) :=
  l ← records_of v;
  items ← mapM (plan_setting existing) l;
  let items := List.concat items in
  Ret (SectionPlan SECTION_RUNTIME_SETTINGS items,
       if existsb (fun it => startswith "network key" (it_note it)) items then [NETWORK_WARNING] else []).

(** [_plan_named] and [_plan_external_sources]: one item per record; [note] is that of a
    write, given whether the row exists. *)
Fixpoint plan_named_loop (field : string) (existing : gmap string string)
    (note : bool -> pydict -> outcome string) (seen : list string) (l : list json)
    : outcome (list plan_item) :=
  match l with
  | [] => Ret []
  | v :: r =>
    rec ← as_record v;
    name ← strip_or_empty (dget rec field);
    if is_empty name then
      rest ← plan_named_loop field existing note seen r;
      Ret (PlanItem "(unnamed)" ToSkip (String.append "record has no " field) rec :: rest)
    else if in_strs name seen then
      rest ← plan_named_loop field existing note seen r;
      Ret (PlanItem name InConflict "duplicate within the backup" rec :: rest)
    else
      let known := bool_decide (is_Some (existing !! name)) in
      n ← note known rec;
      rest ← plan_named_loop field existing note (name :: seen) r;
      Ret (PlanItem name (if known then ToUpdate else ToCreate) n rec :: rest)
  end.
Definition plan_named (section : string) (existing : gmap string string) (v : json)
    : outcome section_plan :=
  l ← records_of v;
  items ← plan_named_loop "name" existing
            (fun known _ => Ret (if known then "updates the existing record" else "")) [] l;
  Ret (SectionPlan section items).

(** The note on redacted values; a [config] that is not a dict has no [values]. *)
Definition source_config (rec : pydict) : outcome pydict :=
  match jor (dget rec "config") (JObj []) with
  | JObj d => Ret d
  | _ => Raise (AttributeError "values")
  end.
Definition source_note (known : bool) (rec : pydict) : outcome string :=
  cfg ← source_config rec;
  Ret (if existsb (fun kv : string * json => jeqs kv.2 REDACTED_SENTINEL) cfg
       then "config has redacted secrets - re-enter them after import"
       else if known then "updates the existing source" else "").
Definition plan_external_sources (existing : gmap string string) (v : json) : outcome section_plan :=
  l ← records_of v;
  items ← plan_named_loop "display_name" existing source_note [] l;
  Ret (SectionPlan SECTION_EXTERNAL_SOURCES items).

(** [_plan_group_memberships]. *)
Definition plan_membership (groups macs : gmap string string) (members : list (string * string))
    (v : json) : outcome plan_item :=
  rec ← as_record v;
  gname ← strip_or_empty (dget rec "group_name");
  mac ← strip_or_empty (dget rec "device_mac");
  let key := String.append gname (String.append " / " mac) in
  match macs !! mac with
  | None => Ret (PlanItem key ToSkip "device not enrolled here (MAC not found)" rec)
  | Some d =>
    match groups !! gname with
    | Some g => if bool_decide ((g, d) ∈ members)
                then Ret (PlanItem key ToSkip "membership already exists" rec)
                else Ret (PlanItem key ToCreate "" rec)
    | None => Ret (PlanItem key ToCreate "" rec)
    end
  end.
Definition plan_group_memberships (groups macs : gmap string string) (members : list (string * string))
    (v : json) : outcome section_plan :=
  l ← records_of v;
  items ← mapM (plan_membership groups macs members) l;
  Ret (SectionPlan SECTION_GROUP_MEMBERSHIPS items).

(** [_plan_device_config]. *)
Definition plan_device (macs : gmap string string) (v : json) : outcome plan_item :=
  rec ← as_record v;
  mac ← strip_or_empty (dget rec "mac_address");
  if is_empty mac then Ret (PlanItem "(no mac)" ToSkip "record has no mac_address" rec)
  else if bool_decide (is_Some (macs !! mac))
  then Ret (PlanItem mac ToUpdate "re-attaches desired_config to this device" rec)
  else Ret (PlanItem mac ToSkip "device not enrolled here" rec).
Definition plan_device_config (macs : gmap string string) (v : json) : outcome section_plan :=
  l ← records_of v;
  items ← mapM (plan_device macs) l;
  Ret (SectionPlan SECTION_DEVICE_CONFIG items).

(** [parse_and_plan]: the document of a file, then its plan against the hub. *)
Definition parse_document (file : string) (passphrase : string) : outcome pydict :=
  match json_loads file with
  | Raise (ValueError _) => ConfigBackupError "file is not valid JSON"
  | Raise e => Raise e
  | Ret (JObj raw) =>
    if negb (jeqs (dget raw "format") FORMAT_NAME)
    then ConfigBackupError "not a Rebooter hub config backup"
    else
      doc ← (if truthy (dget raw "encrypted") then decrypt_document raw passphrase else Ret (JObj raw));
      doc ← as_record doc;
      if negb (py_eq (dget doc "format_version") (JInt FORMAT_VERSION))
      then ConfigBackupError "unsupported backup format_version"
      else Ret doc
  | Ret _ => ConfigBackupError "backup file must be a JSON object"
  end.
Definition plan_sections (c : caller) (doc sections : pydict) (h : hub_config) : outcome import_plan :=
  let sect k := dget_default sections k (JList []) in
  let macs := device_by_mac (hc_devices h) in
  let groups := index gp_name (visible c (hc_groups h)) in
  rs ← plan_runtime_settings (hc_settings h) (sect SECTION_RUNTIME_SETTINGS);
  si ← plan_named SECTION_SITES (index si_name (visible c (hc_sites h))) (sect SECTION_SITES);
  gr ← plan_named SECTION_GROUPS groups (sect SECTION_GROUPS);
  me ← plan_group_memberships groups macs (hc_members h) (sect SECTION_GROUP_MEMBERSHIPS);
  ru ← plan_named SECTION_WATCHDOG_RULES (index rule_name (visible c (hc_rules h)))
         (sect SECTION_WATCHDOG_RULES);
  sc ← plan_named SECTION_SCHEDULES (index sched_name (visible c (hc_schedules h)))
         (sect SECTION_SCHEDULES);
  sn ← plan_named SECTION_SCENES (index scn_name (visible c (hc_scenes h))) (sect SECTION_SCENES);
  ex ← plan_external_sources (index src_display_name (visible c (hc_sources h)))
         (sect SECTION_EXTERNAL_SOURCES);
  de ← plan_device_config macs (sect SECTION_DEVICE_CONFIG);
  Ret (ImportPlan [rs.1; si; gr; me; ru; sc; sn; ex; de] rs.2 doc).
Definition parse_and_plan (c : caller) (file passphrase : string) (h : hub_config) : outcome import_plan :=
  doc ← parse_document file passphrase;
  match dget doc "sections" with
  | JObj sections => plan_sections c doc sections h
  | _ => ConfigBackupError "backup document has no sections object"
  end.
End backup.
