(* ===== verification/ConfigRestore.v ===== *)
(** * Restoring a configuration ([app/services/config_backup.py], [app/services/mass_action.py],
    [app/blueprints/admin/backup.py])

    The application of an import plan, section by section in one transaction, with what the
    columns take at the flush that ends each section; the confirmation gate; the endpoints. *)

From S2P Require Import Prelude PyFloat Commands QueueInterface WatchdogActions WatchdogRules Schedules.
From S2P Require Import ExternalSensors RuntimeSettings Devices TenantScope Enrollment RoleBindings.
From S2P Require Import Identity Accounts Invitations ConfigBackup.
From S2P Require Notifications.
Local Open Scope string_scope.
Local Open Scope list_scope.
Local Open Scope Z_scope.

(** The counts of an import. *)
Record import_result := ImportResult {
  ir_created : gmap string nat; ir_updated : gmap string nat; ir_skipped : gmap string nat
}.
(** One section of named rows being written: the table, the ULIDs drawn, whether the flush
    at the end of the section accepts, the counts. *)
Record loading (A : Type) := Loading {
  ld_table : table A; ld_next : nat; ld_accepted : bool; ld_result : import_result
}.
Arguments Loading {A}.
Arguments ld_table {A}.
Arguments ld_next {A}.
Arguments ld_accepted {A}.
Arguments ld_result {A}.

Section backup.
Context (ulid : nat -> string).
Context (json_dumps : json -> string) (json_loads : string -> outcome json).
Context (scrypt : string -> string -> string).
Context (aes_encrypt : string -> string -> string -> string)
        (aes_decrypt : string -> string -> string -> outcome string).
#[local] Abbreviation export_config := (export_config json_dumps scrypt aes_encrypt).
#[local] Abbreviation parse_and_plan := (parse_and_plan json_loads scrypt aes_decrypt).

(** ** The import *)

Definition incr (section : string) (d : gmap string nat) : gmap string nat :=
  <[section := S (default 0%nat (d !! section))]> d.
Definition bump_created (s : string) (r : import_result) : import_result :=
  ImportResult (incr s (ir_created r)) (ir_updated r) (ir_skipped r).
Definition bump_updated (s : string) (r : import_result) : import_result :=
  ImportResult (ir_created r) (incr s (ir_updated r)) (ir_skipped r).
Definition bump_skipped (s : string) (r : import_result) : import_result :=
  ImportResult (ir_created r) (ir_updated r) (incr s (ir_skipped r)).
(** [_count_skips] and [_writeable]. *)
Definition count_skips (sp : section_plan) (r : import_result) : import_result :=
  foldl (fun r it => if writeable it then r else bump_skipped (sp_section sp) r) r (sp_items sp).
Definition writes (sp : section_plan) : list plan_item := filter (fun it => writeable it = true) (sp_items sp).

(** What a column takes at flush ([None]: the database refuses the value). *)
Definition text_col (v : json) : option (option string) :=
  match v with JNull => Some None | JStr s => Some (Some s) | _ => None end.
Definition string_col (n : Z) (v : json) : option (option string) :=
  o ← text_col v; if ofits n o then Some o else None.
Definition required_col (n : Z) (v : json) : option string :=
  match v with JStr s => if fits n s then Some s else None | _ => None end.
Definition integer_col (z : Z) : option Z :=
  if (-2147483648 <=? z) && (z <=? 2147483647) then Some z else None.

(** [rec["name"]] (text: the plan stripped it) and [by_name.get(v)]. *)
Definition key_of (rec : pydict) (field : string) : outcome string :=
  match dict_get rec field with
  | Some (JStr s) => Ret s
  | Some _ => Raise (TypeError "key")
  | None => Raise (KeyError field)
  end.
Definition find_key (by_name : gmap string string) (v : json) : outcome (option string) :=
  match v with
  | JStr s => Ret (by_name !! s)
  | JList _ | JObj _ => Raise (TypeError "unhashable type")
  | _ => Ret None
  end.
Definition int_field (rec : pydict) (k : string) (default : Z) : outcome Z :=
  py_int (dget_default rec k (JInt default)).

Section named.
Context {A : Type} (c : caller) (pre field section : string) (unique : bool) (key : A -> string).
(** The row a record makes under an id, new or over an old row; [None] when the database
    refuses a value. *)
Context (make : string -> pydict -> option A -> outcome (option A)).

Definition name_free (org name : string) (t : table A) : bool :=
  forallb (fun kr : string * owned A =>
    negb (String.eqb (ow_org kr.2) org && String.eqb (key (ow_row kr.2)) name)) (map_to_list t).
Definition apply_row (existing : gmap string string) (s : loading A) (it : plan_item)
    : outcome (loading A) :=
  let rec := it_record it in
  name ← key_of rec field;
  match existing !! name with
  | None =>
    let id := new_id ulid pre (ld_next s) in
    r ← make id rec None;
    Ret (let res := bump_created section (ld_result s) in
         match r, ca_org c with
         | Some a, Some org =>
           Loading (<[id := Owned org a]> (ld_table s)) (S (ld_next s))
             (ld_accepted s && (negb unique || name_free org name (ld_table s))) res
         | _, _ => Loading (ld_table s) (ld_next s) false res
         end)
  | Some id =>
    match ld_table s !! id with
    | None => Ret s
    | Some o =>
      r ← make id rec (Some (ow_row o));
      Ret (let res := bump_updated section (ld_result s) in
           match r with
           | Some a => Loading (<[id := Owned (ow_org o) a]> (ld_table s)) (ld_next s) (ld_accepted s) res
           | None => Loading (ld_table s) (ld_next s) false res
           end)
    end
  end.
Fixpoint apply_rows (existing : gmap string string) (l : list plan_item) (s : loading A)
    : outcome (loading A) :=
  match l with
  | [] => Ret s
  | it :: r => s ← apply_row existing s it; apply_rows existing r s
  end.
Definition apply_named (sp : section_plan) (t : table A) (next : nat) (res : import_result)
    : outcome (loading A) :=
  apply_rows (index key (visible c t)) (writes sp) (Loading t next true (count_skips sp res)).
End named.

(** [_apply_runtime_settings]: a name added twice is refused at flush. *)
Fixpoint apply_settings (existing : settings) (now : time) (l : list plan_item)
    (t : settings) (res : import_result) : outcome (bool * settings * import_result) :=
  match l with
  | [] => Ret (true, t, res)
  | it :: r =>
    name ← key_of (it_record it) "name";
    let v := JObj [("v", dget (it_record it) "value")] in
    match existing !! name with
    | Some old =>
      apply_settings existing now r (<[name := SettingRow v now (se_updated_by old)]> t)
        (bump_updated SECTION_RUNTIME_SETTINGS res)
    | None =>
      x ← apply_settings existing now r (<[name := SettingRow v now None]> t)
            (bump_created SECTION_RUNTIME_SETTINGS res);
      Ret (bool_decide (t !! name = None) && fits 80 name && x.1.1, x.1.2, x.2)
    end
  end.
Definition apply_runtime_settings (sp : section_plan) (now : time) (t : settings) (res : import_result)
    : outcome (bool * settings * import_result) :=
  apply_settings t now (writes sp) t (count_skips sp res).

(** The rows of the named sections. *)
Definition make_site (id : string) (rec : pydict) (old : option site_cols) : outcome (option site_cols) :=
  Ret (d ← text_col (dget rec "description");
       match old with
       | Some s => Some (SiteCols (si_name s) d)
       | None => n ← required_col 120 (dget rec "name"); Some (SiteCols n d)
       end).
Definition make_group (sites : gmap string string) (id : string) (rec : pydict) (old : option group_cols)
    : outcome (option group_cols) :=
  site ← find_key sites (dget rec "site_name");
  Ret (d ← text_col (dget rec "description");
       match old with
       | Some g => Some (GroupCols (gp_name g) d site)
       | None => n ← required_col 120 (dget rec "name"); Some (GroupCols n d site)
       end).
Definition make_rule (sites : gmap string string) (now : time) (id : string) (rec : pydict)
    (old : option rule_row) : outcome (option rule_row) :=
  site ← find_key sites (dget rec "site_name");
  ft ← int_field rec "failure_threshold" 3;
  rt ← int_field rec "recovery_threshold" 2;
  ws ← int_field rec "window_seconds" 60;
  cs ← int_field rec "cooldown_seconds" 300;
  mr ← int_field rec "max_retries" 3;
  rd ← int_field rec "retry_delay_seconds" 60;
  Ret (d ← string_col 500 (dget rec "description");
       ft ← integer_col ft; rt ← integer_col rt; ws ← integer_col ws; cs ← integer_col cs;
       mr ← integer_col mr; rd ← integer_col rd;
       let config i n := RuleConfig i n site (truthy (dget_default rec "enabled" (JBool true)))
         (or_dict (dget rec "probe")) ft rt ws cs (or_dict (dget rec "target"))
         (or_dict (dget rec "action")) (jor (dget rec "escalation") (JObj [("kind", JStr "stop")]))
         (jor (dget rec "maintenance_windows") (JList [])) in
       match old with
       | Some r => Some (RuleRow (Rule (config (rc_id (rr_rule r)) (rc_name (rr_rule r))) (rr_rule r))
                           d mr rd (rr_created_by_user_id r) (rr_created_at r) now)
       | None => n ← required_col 120 (dget rec "name");
                 Some (RuleRow (Rule (config id n) (RuleRuntime Armed 0 0 None None None)) d mr rd None now now)
       end).
Definition make_schedule (now : time) (id : string) (rec : pydict) (old : option schedule_cols)
    : outcome (option schedule_cols) :=
  du ← int_field rec "duration_seconds" 0;
  po ← int_field rec "power_off_seconds" 5;
  ho ← int_field rec "post_reboot_holdoff_seconds" 180;
  Ret (d ← string_col 500 (dget rec "description");
       kind ← required_col 40 (dget rec "kind");
       recur ← required_col 20 (dget rec "recurrence");
       at_ ← string_col 5 (dget rec "at_time_utc");
       du ← integer_col du; po ← integer_col po; ho ← integer_col ho;
       let cols i n start last next out :=
         Schedule i n (truthy (dget_default rec "enabled" (JBool true))) kind recur at_
           (jor (dget rec "weekdays") (JList [])) start du (or_dict (dget rec "target")) po ho last next out in
       match old with
       | Some s => let s := sd_schedule s in
                   Some (ScheduleCols (cols (sc_id s) (sc_name s) (sc_start_at s) (sc_last_run_at s)
                                         (sc_next_run_at s) (sc_last_outcome s)) d now)
       | None => n ← required_col 120 (dget rec "name");
                 Some (ScheduleCols (cols id n None None None None) d now)
       end).
Definition make_scene (now : time) (id : string) (rec : pydict) (old : option scene_cols)
    : outcome (option scene_cols) :=
  Ret (d ← string_col 500 (dget rec "description");
       let items := jor (dget rec "items") (JList []) in
       match old with
       | Some s => Some (SceneCols (scn_name s) d items now)
       | None => n ← required_col 120 (dget rec "name"); Some (SceneCols n d items now)
       end).
(** [dict(a)] of a column, [a.update(b)], [d or None]. *)
Definition dict_of_col (v : json) : outcome pydict :=
  match jor v (JObj []) with JObj d => Ret d | _ => Raise (TypeError "dict") end.
Definition overlay (a b : pydict) : pydict :=
  foldl (fun d kv => Notifications.dict_set d kv.1 kv.2) a b.
Definition dict_or_none (d : pydict) : json := match d with [] => JNull | _ => JObj d end.
Definition imported_config (rec : pydict) : outcome pydict :=
  cfg ← source_config rec;
  Ret (filter (fun kv : string * json => jeqs kv.2 REDACTED_SENTINEL = false) cfg).
Definition make_source (now : time) (id : string) (rec : pydict) (old : option source)
    : outcome (option source) :=
  cfg ← imported_config rec;
  port ← int_field rec "port" 8060;
  poll ← int_field rec "poll_interval_seconds" 30;
  merged ← (match old with Some s => base ← dict_of_col (src_config s); Ret (overlay base cfg)
                         | None => Ret cfg end);
  Ret (kind ← required_col 40 (dget rec "kind");
       host ← required_col 200 (jor (dget rec "host") (JStr EmptyString));
       port ← integer_col port; poll ← integer_col poll;
       let enabled := truthy (dget_default rec "enabled" (JBool true)) in
       match old with
       | Some s => Some (Source (src_id s) kind (src_display_name s) host port enabled poll
                           (src_last_polled_at s) (src_last_success_at s) (src_last_error s)
                           (dict_or_none merged) (src_created_at s) now)
       | None => n ← required_col 200 (dget rec "display_name");
                 Some (Source id kind n host port enabled poll None None None (dict_or_none merged) now now)
       end).

(** [_apply_group_memberships]: [existing_pairs] grows with the list. *)
Fixpoint apply_members (groups macs : gmap string string) (l : list plan_item)
    (members : list (string * string)) (res : import_result)
    : outcome (list (string * string) * import_result) :=
  match l with
  | [] => Ret (members, res)
  | it :: r =>
    g ← find_key groups (dget (it_record it) "group_name");
    d ← find_key macs (dget (it_record it) "device_mac");
    match g, d with
    | Some g, Some d =>
      if bool_decide ((g, d) ∈ members)
      then apply_members groups macs r members (bump_skipped SECTION_GROUP_MEMBERSHIPS res)
      else apply_members groups macs r (members ++ [(g, d)]) (bump_created SECTION_GROUP_MEMBERSHIPS res)
    | _, _ => apply_members groups macs r members (bump_skipped SECTION_GROUP_MEMBERSHIPS res)
    end
  end.
(** [_apply_device_config]. *)
Definition restore_device (now : time) (rec : pydict) (d : device) : device :=
  set_col "desired_config_updated_at" (JInt now)
    (set_col "desired_mode" (dget rec "desired_mode")
       (set_col "desired_config" (dget rec "desired_config") d)).
Fixpoint apply_devices (macs : gmap string string) (now : time) (l : list plan_item)
    (t : gmap string device) (res : import_result) : outcome (bool * gmap string device * import_result) :=
  match l with
  | [] => Ret (true, t, res)
  | it :: r =>
    let rec := it_record it in
    d ← find_key macs (dget rec "mac_address");
    match d with
    | None => apply_devices macs now r t (bump_skipped SECTION_DEVICE_CONFIG res)
    | Some id =>
      x ← apply_devices macs now r (alter (restore_device now rec) id t)
            (bump_updated SECTION_DEVICE_CONFIG res);
      Ret (bool_decide (is_Some (string_col 40 (dget rec "desired_mode"))) && x.1.1, x.1.2, x.2)
    end
  end.

(** [apply_plan]: the nine sections of [parse_and_plan], in one transaction.  The session does
    not flush by itself: what the database refuses is raised at the flush behind the groups or
    at the commit, and the groups look their sites up among those stored before the import. *)
Definition flush {A} (accepted : bool) (k : outcome A) : outcome A :=
  if accepted then k else Raise (DBError "import").
Definition apply_sections (c : caller) (now : time) (rs si gr me ru sc sn ex de : section_plan)
    (h : hub_config) : outcome (import_result * hub_config) :=
  x ← apply_runtime_settings rs now (hc_settings h) (ImportResult ∅ ∅ ∅);
  a ← apply_named c "site" "name" SECTION_SITES true si_name make_site si (hc_sites h) (hc_next h) x.2;
  b ← apply_named c "grp" "name" SECTION_GROUPS true gp_name
        (make_group (index si_name (visible c (hc_sites h)))) gr (hc_groups h) (ld_next a) (ld_result a);
  flush (x.1.1 && ld_accepted a && ld_accepted b) (
  let sites := index si_name (visible c (ld_table a)) in
  let macs := device_by_mac (hc_devices h) in
  m ← apply_members (index gp_name (visible c (ld_table b))) macs (writes me) (hc_members h)
        (count_skips me (ld_result b));
  r ← apply_named c "wdr" "name" SECTION_WATCHDOG_RULES false rule_name (make_rule sites now) ru
        (hc_rules h) (ld_next b) m.2;
  s ← apply_named c "sch" "name" SECTION_SCHEDULES false sched_name (make_schedule now) sc
        (hc_schedules h) (ld_next r) (ld_result r);
  n ← apply_named c "scn" "name" SECTION_SCENES true scn_name (make_scene now) sn
        (hc_scenes h) (ld_next s) (ld_result s);
  e ← apply_named c "ext" "display_name" SECTION_EXTERNAL_SOURCES false src_display_name (make_source now)
        ex (hc_sources h) (ld_next n) (ld_result n);
  d ← apply_devices macs now (writes de) (hc_devices h) (count_skips de (ld_result e));
  flush (ld_accepted r && ld_accepted s && ld_accepted n && ld_accepted e && d.1.1) (
  Ret (d.2, HubConfig x.1.2 (ld_table a) (ld_table b) m.1 (ld_table r) (ld_table s) (ld_table n)
              (ld_table e) d.1.2 (ld_next e)))).
Definition apply_plan (c : caller) (now : time) (p : import_plan) (h : hub_config)
    : outcome import_result * hub_config :=
  match ip_sections p with
  | [rs; si; gr; me; ru; sc; sn; ex; de] =>
    match apply_sections c now rs si gr me ru sc sn ex de h with
    | Ret (res, h') => (Ret res, h')
    | Raise e => (Raise e, h)
    end
  | _ => (Raise (KeyError "section"), h)
  end.

(** ** The endpoints *)

(** [mass_action.required_level] and [validate]. *)
Definition SIMPLE_THRESHOLD : nat := 5.
Definition TYPED_THRESHOLD : nat := 20.
Definition required_level (target_count : nat) : string :=
  if (TYPED_THRESHOLD <? target_count)%nat then "typed"
  else if (SIMPLE_THRESHOLD <? target_count)%nat then "simple" else "none".
Definition mass_validate (target_count : nat) (expected : string) (level typed : option string) : bool :=
  let needed := required_level target_count in
  if String.eqb needed "none" then true
  else if String.eqb needed "simple"
  then bool_decide (level = Some "simple") || bool_decide (level = Some "typed")
  else bool_decide (level = Some "typed") && bool_decide (typed = Some expected).

Inductive backup_answer :=
  | BackupRefused (status : Z)
  | BackupFile (payload : string)
  | BackupPreview (p : import_plan)
  | BackupDone (r : import_result).
Definition backup_failure (status : Z) (e : exn) : outcome backup_answer :=
  match caught "ConfigBackupError" e with Some _ => Ret (BackupRefused status) | None => Raise e end.

(** [POST /api/v1/admin/backup/export] and [POST /app/settings/backup/export], after their
    gates: the requester's role decides on the secrets; the page redirects where the API
    refuses. *)
Definition export_submit (answer : Z -> Z) (secrets : bool) (passphrase salt nonce ts : string) (h : hub_config)
    (c : caller) (role : string) : outcome backup_answer :=
  if secrets && negb (String.eqb role ROLE_SUPER_ADMIN) then Ret (BackupRefused (answer 403))
  else match export_config c secrets passphrase salt nonce ts h with
       | Ret payload => Ret (BackupFile payload)
       | Raise e => backup_failure (answer 400) e
       end.
Definition backup_export_api (jwt_decode : time -> string -> outcome pydict) (mode : enforce)
    (secrets : bool) (passphrase salt nonce ts : string) (h : hub_config) (rq : request) (now : time)
    (g : idb) : outcome backup_answer * idb :=
  operator_call jwt_decode mode (ADMIN_AND_UP ++ [ROLE_OPERATOR; ROLE_VIEWER]) BackupRefused
    (fun c _ u g => (export_submit (fun s => s) secrets passphrase salt nonce ts h c (us_role u), g)) rq now g.
Definition settings_backup_export_submit (jwt_decode : time -> string -> outcome pydict) (mode : enforce)
    (secrets : bool) (passphrase salt nonce ts : string) (h : hub_config) (rq : request) (now : time)
    (g : idb) : outcome backup_answer * idb :=
  operator_call jwt_decode mode [ROLE_SUPER_ADMIN; ROLE_ADMIN]
    (fun s => BackupRefused (if s =? 401 then 302 else s))
    (fun c _ u g => (export_submit (fun _ => 302) secrets passphrase salt nonce ts h c (us_role u), g)) rq now g.

(** After the gate (super-administrators): the preview keeps the number of writes and the
    document in the browser's session. *)
Definition stash := (nat * pydict)%type.
Definition settings_backup_import_preview_submit (c : caller) (file passphrase : string) (h : hub_config)
    (kept : option stash) : outcome backup_answer * option stash :=
  match parse_and_plan c file passphrase h with
  | Ret p => (Ret (BackupPreview p), Some (total_writes p, ip_document p))
  | Raise e => (backup_failure 400 e, kept)
  end.
(** The apply step plans the kept document anew ([_plan_from_dict], outside the [try]). *)
Definition settings_backup_import_apply_submit (c : caller) (level typed : option string) (now : time)
    (kept : option stash) (h : hub_config) : outcome backup_answer * option stash * hub_config :=
  match kept with
  | None => (Ret (BackupRefused 302), None, h)
  | Some (n, doc) =>
    if negb (mass_validate n "import_config" level typed) then (Ret (BackupRefused 400), kept, h)
    else match parse_and_plan c (json_dumps (JObj doc)) EmptyString h with
    | Raise e => (Raise e, kept, h)
    | Ret p =>
      match apply_plan c now p h with
      | (Ret r, h) => (Ret (BackupDone r), None, h)
      | (Raise e, h) => (backup_failure 400 e, kept, h)
      end
    end
  end.
End backup.
