(* ===== verification/ConfigFacts.v ===== *)
(** * Lemmas on the backup: indexes by name, and the loop that writes a section

    [grows] says what a loop over named records may do to a table; the class [Makes] is what
    the rows of a section promise it. *)

From S2P Require Import Prelude PyFloat Commands QueueInterface WatchdogActions WatchdogRules Schedules.
From S2P Require Import ExternalSensors RuntimeSettings Devices TenantScope Enrollment RoleBindings.
From S2P Require Import Identity ConfigBackup ConfigRestore.
From S2P Require Notifications.
Local Open Scope string_scope.
Local Open Scope list_scope.
Local Open Scope Z_scope.

(** ** Indexes *)

Lemma elem_of_visible {A} c (t : table A) id a :
  (id, a) ∈ visible c t <-> exists o, t !! id = Some o /\ sees c (Some (ow_org o)) = true /\ ow_row o = a.
Proof.
  unfold visible. rewrite list_elem_of_fmap. setoid_rewrite list_elem_of_filter.
  setoid_rewrite elem_of_map_to_list'. split.
  - intros ([k o] & [= -> ->] & Hs & Hk). exists o. done.
  - intros (o & Ho & Hs & <-). exists (id, o). done.
Qed.

Lemma visible_nodup {A} c (t : table A) : NoDup ((visible c t).*1).
Proof.
  unfold visible. rewrite <- list_fmap_compose.
  apply (sublist_NoDup _ _ (NoDup_fst_map_to_list t)). apply (fmap_sublist fst), sublist_filter.
Qed.

Lemma index_some {A} (key : A -> string) rows n id :
  index key rows !! n = Some id -> exists a, (id, a) ∈ rows /\ key a = n.
Proof.
  unfold index. intros H%elem_of_list_to_map_2. apply elem_of_reverse, list_elem_of_fmap in H.
  destruct H as ([j a] & [= -> ->] & H). eauto.
Qed.

Lemma index_none {A} (key : A -> string) rows n :
  index key rows !! n = None <-> forall id a, (id, a) ∈ rows -> key a <> n.
Proof.
  unfold index. rewrite <- not_elem_of_list_to_map, fmap_reverse, elem_of_reverse, <- list_fmap_compose.
  rewrite list_elem_of_fmap. split.
  - intros H id a Hin <-. apply H. by exists (id, a).
  - intros H ([id a] & -> & Hin). by eapply H.
Qed.

Lemma index_visible {A} (key : A -> string) c (t : table A) n id :
  index key (visible c t) !! n = Some id ->
  exists o, t !! id = Some o /\ sees c (Some (ow_org o)) = true /\ key (ow_row o) = n.
Proof.
  intros (a & (o & Ho & Hs & <-)%elem_of_visible & Hk)%index_some. eauto.
Qed.

Lemma names_by_id_some {A} (key : A -> string) c (t : table A) id n :
  names_by_id key (visible c t) !! id = Some n <->
  exists a, (id, a) ∈ visible c t /\ key a = n.
Proof.
  unfold names_by_id. rewrite <- elem_of_list_to_map.
  - rewrite elem_of_reverse, list_elem_of_fmap. split.
    + intros ([j a] & [= -> ->] & H). eauto.
    + intros (a & H & <-). exists (id, a). done.
  - rewrite reverse_Permutation, <- list_fmap_compose. apply visible_nodup.
Qed.

Lemma sees_own c org : ca_org c = Some org -> sees c (Some org) = true.
Proof.
  unfold sees, reads. intros ->. destruct (ca_mode c); try done. by apply bool_decide_eq_true.
Qed.

(** ** The loop over a section *)

(** The rows a section writes carry the name of their record, or keep their own. *)
Class Makes {A} (field : string) (key : A -> string)
    (make : string -> pydict -> option A -> outcome (option A)) : Prop := {
  makes_new id rec a : make id rec None = Ret (Some a) -> key_of rec field = Ret (key a);
  makes_old id rec o a : make id rec (Some o) = Ret (Some a) -> key a = key o
}.

Section cases.
Context (ulid : nat -> string) {A : Type} (c : caller) (pre field section : string) (uniq : bool).
Context (key : A -> string) (make : string -> pydict -> option A -> outcome (option A)).

(** What one record does to the table: nothing (a refused value, counted), a row rewritten, a
    row added. *)
Inductive row_step (ex : gmap string string) (rec : pydict) (name : string) (t : table A) (n : nat) :
    table A -> nat -> Prop :=
  | rs_same : row_step ex rec name t n t n
  | rs_old id o a : ex !! name = Some id -> t !! id = Some o ->
      make id rec (Some (ow_row o)) = Ret (Some a) ->
      row_step ex rec name t n (<[id := Owned (ow_org o) a]> t) n
  | rs_new org a : ex !! name = None -> ca_org c = Some org ->
      make (new_id ulid pre n) rec None = Ret (Some a) ->
      row_step ex rec name t n (<[new_id ulid pre n := Owned org a]> t) (S n).

Lemma apply_row_step ex s it s' :
  apply_row ulid c pre field section uniq key make ex s it = Ret s' ->
  exists name, key_of (it_record it) field = Ret name /\
    row_step ex (it_record it) name (ld_table s) (ld_next s) (ld_table s') (ld_next s').
Proof.
  unfold apply_row. intros (name & Hk & H)%bind_ret. exists name. split; [done|].
  destruct (ex !! name) as [id|] eqn:Ei.
  - destruct (ld_table s !! id) as [o|] eqn:Eo; [|injection H as <-; constructor].
    apply bind_ret in H as (r & Hr & H). injection H as <-. destruct r as [a|]; cbn.
    + by econstructor.
    + constructor.
  - apply bind_ret in H as (r & Hr & H). injection H as <-.
    destruct r as [a|]; [|constructor].
    destruct (ca_org c) as [org|] eqn:Ec; [|constructor]. cbn. by apply rs_new.
Qed.

(** A property of tables that every step keeps. *)
Lemma apply_rows_inv ex (P : table A -> nat -> Prop) l : forall s s',
  (forall it name t n t' n', it ∈ l -> key_of (it_record it) field = Ret name ->
     row_step ex (it_record it) name t n t' n' -> P t n -> P t' n') ->
  apply_rows ulid c pre field section uniq key make ex l s = Ret s' ->
  P (ld_table s) (ld_next s) -> P (ld_table s') (ld_next s').
Proof.
  induction l as [|it l IH]; intros s s' Hstep; cbn [apply_rows]; [by intros [= <-]|].
  intros (s1 & H1 & H)%bind_ret HP. apply apply_row_step in H1 as (name & Hk & Hs).
  apply (IH s1 s'); [|done|].
  - intros it' nm t n t' n' Hin. apply Hstep. by right.
  - eapply Hstep; [by left|done|done|done].
Qed.

Lemma apply_named_inv (P : table A -> nat -> Prop) sp t n r s :
  (forall it name t1 n1 t2 n2, it ∈ writes sp -> key_of (it_record it) field = Ret name ->
     row_step (index key (visible c t)) (it_record it) name t1 n1 t2 n2 -> P t1 n1 -> P t2 n2) ->
  apply_named ulid c pre field section uniq key make sp t n r = Ret s -> P t n ->
  P (ld_table s) (ld_next s).
Proof. intros Hstep H HP. by apply (apply_rows_inv _ P _ _ _ Hstep H HP). Qed.

Lemma apply_named_next sp t n r s :
  apply_named ulid c pre field section uniq key make sp t n r = Ret s -> (n <= ld_next s)%nat.
Proof.
  intros H. apply (apply_named_inv (fun _ m => (n <= m)%nat) sp t n r s); [|done|done].
  intros it name t1 n1 t2 n2 _ _ Hs Hle. destruct Hs; lia.
Qed.

(** The identifiers from the [n]-th on are free. *)
Definition fresh_ids (n : nat) (t : table A) : Prop :=
  forall i, (n <= i)%nat -> t !! new_id ulid pre i = None.

Lemma row_step_fresh `{!Inj (=) (=) ulid} ex rec name t n t' n' :
  row_step ex rec name t n t' n' -> fresh_ids n t -> fresh_ids n' t'.
Proof.
  intros [|id o a _ Ho _|org a _ _ _] Hf i Hi; [by apply Hf| |].
  - rewrite lookup_insert_ne; [by apply Hf|]. intros ->. by rewrite Hf in Ho.
  - rewrite lookup_insert_ne; [apply Hf; lia|]. intros E%new_id_inj; [lia|done].
Qed.
End cases.

Section rows.
Context (ulid : nat -> string) `{!Inj (=) (=) ulid}.
Context {A : Type} (c : caller) (pre field section : string) (uniq : bool) (key : A -> string).
Context (make : string -> pydict -> option A -> outcome (option A)).
#[local] Abbreviation apply_named := (apply_named ulid c pre field section uniq key make).
#[local] Abbreviation fresh_ids := (fresh_ids ulid pre).

(** From [t0] to [t], with the names [P] written: every row keeps its organisation and name
    and, unless it is visible and named in [P], is the same; the new rows are the caller's,
    with names of [P]. *)
Record grows (t0 : table A) (P : string -> Prop) (n : nat) (t : table A) : Prop := {
  gr_fresh : fresh_ids n t;
  gr_old id o : t0 !! id = Some o -> exists o', t !! id = Some o' /\ ow_org o' = ow_org o /\
    key (ow_row o') = key (ow_row o) /\
    (o' = o \/ sees c (Some (ow_org o)) = true /\ P (key (ow_row o)));
  gr_new id o : t !! id = Some o -> t0 !! id = None ->
    P (key (ow_row o)) /\ ca_org c = Some (ow_org o)
}.

Lemma row_step_grows `{!Makes field key make} t0 (P : string -> Prop) rec name t n t' n' :
  row_step ulid c pre make (index key (visible c t0)) rec name t n t' n' ->
  key_of rec field = Ret name -> P name -> grows t0 P n t -> grows t0 P n' t'.
Proof.
  intros Hs Hk HP Hg. destruct Hg as [G1 G3 G4].
  assert (Hf : fresh_ids n' t') by (eapply row_step_fresh; [done|exact Hs|exact G1]). destruct Hs as [|id o a Ei Ho Hr|org a Ei Ec Hr]; split; try done.
  - intros j x Hx. apply index_visible in Ei as (o0 & Ho0 & Hs & Hn). apply makes_old in Hr.
    destruct (G3 id o0 Ho0) as (o' & Ho' & Horg & Hkey & _). assert (o' = o) as -> by congruence.
    destruct (decide (j = id)) as [->|Hne].
    + rewrite lookup_insert_eq. assert (x = o0) as -> by congruence. eexists. split; [done|]. cbn.
      split_and!; [done|congruence|]. right. by rewrite Hn.
    + rewrite lookup_insert_ne by done. by apply G3.
  - intros j x. rewrite lookup_insert_Some. intros [[<- _]|[_ Hx]] Hj; [|by apply (G4 j)].
    apply index_visible in Ei as (o0 & Ho0 & _). congruence.
  - intros j x Hx. destruct (G3 j x Hx) as (o' & Ho' & ? & ? & Hc). exists o'.
    rewrite lookup_insert_ne; [done|]. intros <-.
    by rewrite G1 in Ho'.
  - intros j x. rewrite lookup_insert_Some. intros [[<- <-]|[_ Hx]] Hj; [|by apply (G4 j)]. cbn.
    apply makes_new in Hr. rewrite Hk in Hr. injection Hr as <-. done.
Qed.

(** The names a list of items writes. *)
Definition written (l : list plan_item) (name : string) : Prop :=
  exists it, it ∈ l /\ key_of (it_record it) field = Ret name.

Lemma apply_named_grows `{!Makes field key make} sp t n res s :
  fresh_ids n t -> apply_named sp t n res = Ret s ->
  grows t (written (writes sp)) (ld_next s) (ld_table s).
Proof.
  intros Hf H. eapply (apply_named_inv _ _ _ _ _ _ _ _
    (fun t' n' => grows t (written (writes sp)) n' t')); [|exact H|].
  - intros it name t1 n1 t2 n2 Hin Hk Hs. eapply row_step_grows; [done|done|]. by exists it.
  - split; [done|naive_solver|]. intros id o Hi. by rewrite Hi.
Qed.

(** What every written row has over the row it replaced holds of the section. *)
Lemma apply_named_rel (R : option A -> A -> Prop) sp t n r s :
  (forall o a b, R o a -> R (Some a) b -> R o b) -> (forall a, R (Some a) a) ->
  (forall id rec old a, make id rec old = Ret (Some a) -> R old a) ->
  apply_named sp t n r = Ret s -> fresh_ids n t ->
  forall id o, ld_table s !! id = Some o -> R (ow_row <$> t !! id) (ow_row o).
Proof.
  intros Htr Hre Hm H Hf.
  destruct (apply_named_inv ulid c pre field section uniq key make (fun t' n' => (n <= n')%nat /\
    forall id o, t' !! id = Some o -> R (ow_row <$> t !! id) (ow_row o)) sp t n r s) as [_ HR];
    [|done| |exact HR].
  - intros it name t1 n1 t2 n2 _ _ Hs [Hn HR].
    destruct Hs as [|id o a Ei Ho Hr|org a Ei Ec Hr]; (split; [lia|]); intros j x; try by apply HR.
    + rewrite lookup_insert_Some. intros [[<- <-]|[_ Hx]]; [|by apply HR]. cbn.
      eapply Htr; [by apply HR|]. by eapply Hm.
    + rewrite lookup_insert_Some. intros [[<- <-]|[_ Hx]]; [|by apply HR]. cbn.
      rewrite (Hf n1 Hn). by eapply Hm.
  - split; [done|]. intros id o Ho. rewrite Ho. apply Hre.
Qed.
End rows.
Arguments gr_old {ulid A c pre key t0 P n t}.
Arguments gr_new {ulid A c pre key t0 P n t}.
Arguments gr_fresh {ulid A c pre key t0 P n t}.

(** ** The six sections *)

Lemma required_key rec field n s : required_col n (dget rec field) = Some s -> key_of rec field = Ret s.
Proof.
  unfold required_col, dget, key_of. destruct (dict_get rec field) as [[]|]; try done.
  destruct (fits n s0); [by intros [= <-]|done].
Qed.

(** Inverts a chain of calls and column checks that made a row. *)
Ltac made :=
  repeat match goal with
  | H : mbind _ _ = Ret _ |- _ => apply bind_ret in H as (? & ? & H)
  | H : Ret _ = Ret _ |- _ => injection H as H
  | H : mbind _ _ = Some _ |- _ => apply bind_Some in H as (? & ? & H)
  | H : Some _ = Some _ |- _ => injection H as H
  end.

#[export] Instance makes_site : Makes "name" si_name make_site.
Proof.
  split.
  - intros id rec a H. unfold make_site in H. made. subst. by eapply required_key.
  - intros id rec o a H. unfold make_site in H. made. by subst.
Qed.
#[export] Instance makes_group sites : Makes "name" gp_name (make_group sites).
Proof.
  split.
  - intros id rec a H. unfold make_group in H. made. subst. by eapply required_key.
  - intros id rec o a H. unfold make_group in H. made. by subst.
Qed.
#[export] Instance makes_rule sites now : Makes "name" rule_name (make_rule sites now).
Proof.
  split.
  - intros id rec a H. unfold make_rule in H. made. cbv zeta in H. made. subst. by eapply required_key.
  - intros id rec o a H. unfold make_rule in H. made. cbv zeta in H. made. by subst.
Qed.
#[export] Instance makes_schedule now : Makes "name" sched_name (make_schedule now).
Proof.
  split.
  - intros id rec a H. unfold make_schedule in H. made. cbv zeta in H. made. subst. by eapply required_key.
  - intros id rec o a H. unfold make_schedule in H. made. cbv zeta in H. made. by subst.
Qed.
#[export] Instance makes_scene now : Makes "name" scn_name (make_scene now).
Proof.
  split.
  - intros id rec a H. unfold make_scene in H. made. cbv zeta in H. made. subst. by eapply required_key.
  - intros id rec o a H. unfold make_scene in H. made. cbv zeta in H. made. by subst.
Qed.
#[export] Instance makes_source now : Makes "display_name" src_display_name (make_source now).
Proof.
  split.
  - intros id rec a H. unfold make_source in H. made. cbv zeta in H. made. subst. by eapply required_key.
  - intros id rec o a H. unfold make_source in H. made. cbv zeta in H. made. by subst.
Qed.

(** ** Blanks *)

Lemma cons_app a s t : String.append (String a s) t = String a (String.append s t).
Proof. done. Qed.
Lemma app_nil s : String.append s EmptyString = s.
Proof. induction s as [|a s IH]; [done|]. by rewrite cons_app, IH. Qed.
Lemma str_app_assoc s t u : String.append s (String.append t u) = String.append (String.append s t) u.
Proof. induction s as [|a s IH]; [done|]. by rewrite !cons_app, IH. Qed.
Lemma rev_onto_app s : forall acc, rev_string_onto s acc = String.append (rev_str s) acc.
Proof.
  unfold rev_str. induction s as [|a s IH]; intros acc; [done|]. cbn [rev_string_onto].
  rewrite (IH (String a acc)), (IH (String a EmptyString)), <- str_app_assoc. done.
Qed.
Lemma rev_str_cons a s : rev_str (String a s) = String.append (rev_str s) (String a EmptyString).
Proof. unfold rev_str at 1. cbn [rev_string_onto]. apply rev_onto_app. Qed.
Lemma rev_str_app s t : rev_str (String.append s t) = String.append (rev_str t) (rev_str s).
Proof.
  induction s as [|a s IH]; [by rewrite app_nil|].
  rewrite cons_app, !rev_str_cons, IH. by rewrite str_app_assoc.
Qed.
Lemma rev_rev_str s : rev_str (rev_str s) = s.
Proof. induction s as [|a s IH]; [done|]. by rewrite rev_str_cons, rev_str_app, IH. Qed.

Fixpoint blank (s : string) : bool :=
  match s with EmptyString => true | String a r => is_space a && blank r end.
Lemma blank_app s t : blank (String.append s t) = blank s && blank t.
Proof. induction s as [|a s IH]; [done|]. rewrite cons_app. cbn [blank]. by rewrite IH, andb_assoc. Qed.
Lemma blank_rev s : blank (rev_str s) = blank s.
Proof.
  induction s as [|a s IH]; [done|]. rewrite rev_str_cons, blank_app, IH. cbn. by rewrite andb_true_r, andb_comm.
Qed.
Lemma lstrip_split s : exists a, blank a = true /\ s = String.append a (lstrip s).
Proof.
  induction s as [|x s (a & Ha & IH)]; [by exists EmptyString|]. cbn [lstrip].
  destruct (is_space x) eqn:E; [|by exists EmptyString].
  exists (String x a). cbn [blank]. rewrite E, Ha, cons_app. split; [done|]. by rewrite <- IH.
Qed.
(** [strip] takes blanks off both ends. *)
Lemma strip_split s : exists a b, blank a = true /\ blank b = true /\ s = String.append a (String.append (strip s) b).
Proof.
  destruct (lstrip_split s) as (a & Ha & E). destruct (lstrip_split (rev_str (lstrip s))) as (b & Hb & E').
  exists a, (rev_str b). rewrite blank_rev. split_and!; [done|done|]. unfold strip.
  rewrite <- rev_str_app, <- E', rev_rev_str. exact E.
Qed.

Lemma lstrip_head s : lstrip s = EmptyString \/ exists a r, lstrip s = String a r /\ is_space a = false.
Proof.
  induction s as [|a s IH]; [by left|]. cbn. destruct (is_space a) eqn:E; [done|]. right. eauto.
Qed.
Lemma lstrip_idemp s : lstrip (lstrip s) = lstrip s.
Proof. destruct (lstrip_head s) as [->|(a & r & -> & Ha)]; [done|]. cbn. by rewrite Ha. Qed.
Lemma strip_idemp s : strip (strip s) = strip s.
Proof.
  assert (Hl : lstrip (strip s) = strip s).
  { unfold strip. set (t := lstrip s). destruct (lstrip_split (rev_str t)) as (b & _ & E).
    assert (Ht : t = String.append (rev_str (lstrip (rev_str t))) (rev_str b)).
    { rewrite <- rev_str_app, <- E. by rewrite rev_rev_str. }
    destruct (rev_str (lstrip (rev_str t))) as [|a r]; [done|]. rewrite cons_app in Ht.
    destruct (lstrip_head s) as [H0|(x & y & Hx & Hsp)]; unfold t in Ht at 1; [congruence|].
    rewrite Hx in Ht. injection Ht as -> _. cbn. by rewrite Hsp. }
  unfold strip at 1. rewrite Hl. unfold strip at 1. rewrite rev_rev_str, lstrip_idemp. done.
Qed.

Lemma startswith_cons x p y s : startswith (String x p) (String y s) = true <-> x = y /\ startswith p s = true.
Proof. unfold startswith. cbn. destruct (Ascii.ascii_dec x y); naive_solver. Qed.
Fixpoint solid (s : string) : bool :=
  match s with EmptyString => true | String a r => negb (is_space a) && solid r end.
Lemma prefix_before_blanks p t b : solid p = true -> blank b = true ->
  startswith p (String.append t b) = true -> startswith p t = true.
Proof.
  revert p. induction t as [|x t IH]; intros p Hp Hb H.
  - destruct p as [|y p]; [done|]. cbn in Hp, H. destruct b as [|z b]; [done|].
    apply startswith_cons in H as [-> _]. cbn in Hb. apply andb_prop in Hb as [Hb _]. by rewrite Hb in Hp.
  - destruct p as [|y p]; [done|]. rewrite cons_app in H. apply startswith_cons in H as [-> H].
    cbn in Hp. apply andb_prop in Hp as [_ Hp]. apply startswith_cons. auto.
Qed.
(** A solid prefix of a text is one of the stripped text. *)
Lemma startswith_strip p s : is_empty p = false -> solid p = true ->
  startswith p s = true -> startswith p (strip s) = true.
Proof.
  intros Hne Hp H. destruct (strip_split s) as (a & b & Ha & Hb & E). rewrite E in H.
  destruct a as [|x a]; [by eapply prefix_before_blanks|]. destruct p as [|y p]; [done|].
  rewrite cons_app in H. apply startswith_cons in H as [-> _].
  cbn in Ha, Hp. apply andb_prop in Ha as [Ha _]. by rewrite Ha in Hp.
Qed.

(** ** Dictionaries *)

Lemma dict_get_set d k v k' :
  dict_get (Notifications.dict_set d k v) k' = if String.eqb k' k then Some v else dict_get d k'.
Proof.
  induction d as [|[j w] d IH]; cbn.
  - destruct (String.eqb_spec k' k); done.
  - destruct (String.eqb_spec k j) as [->|Hj]; cbn.
    + by destruct (String.eqb_spec k' j).
    + destruct (String.eqb_spec k' j) as [->|]; [|exact IH]. by destruct (String.eqb_spec j k).
Qed.

Lemma dict_get_in d k v : dict_get d k = Some v -> (k, v) ∈ d.
Proof.
  induction d as [|[j w] d IH]; cbn; [done|]. destruct (String.eqb_spec k j) as [->|].
  - intros [= ->]. by left.
  - intros H. right. auto.
Qed.

(** ** The whole import *)

Section import.
Context (ulid : nat -> string).

Lemma flush_ret {A} ok (k : outcome A) v : flush ok k = Ret v -> ok = true /\ k = Ret v.
Proof. unfold flush. by destruct ok. Qed.

(** A successful import, section by section. *)
Record imported (c : caller) (now : time) (p : import_plan) (h h' : hub_config) : Prop := Imported {
  im_settings : exists rs rest x, ip_sections p = rs :: rest /\
    apply_runtime_settings rs now (hc_settings h) (ImportResult ∅ ∅ ∅) = Ret x /\
    hc_settings h' = x.1.2;
  im_sites : exists si r s, ip_sections p !! 1%nat = Some si /\
    apply_named ulid c "site" "name" SECTION_SITES true si_name make_site si (hc_sites h) (hc_next h) r = Ret s /\
    hc_sites h' = ld_table s /\ (hc_next h <= ld_next s)%nat;
  im_groups : exists gr n r s, ip_sections p !! 2%nat = Some gr /\ (hc_next h <= n)%nat /\
    apply_named ulid c "grp" "name" SECTION_GROUPS true gp_name
      (make_group (index si_name (visible c (hc_sites h)))) gr (hc_groups h) n r = Ret s /\
    hc_groups h' = ld_table s;
  im_members : exists me r x, ip_sections p !! 3%nat = Some me /\
    apply_members (index gp_name (visible c (hc_groups h'))) (device_by_mac (hc_devices h)) (writes me)
      (hc_members h) r = Ret x /\ hc_members h' = x.1;
  im_rules : exists ru n r s, ip_sections p !! 4%nat = Some ru /\ (hc_next h <= n)%nat /\
    apply_named ulid c "wdr" "name" SECTION_WATCHDOG_RULES false rule_name
      (make_rule (index si_name (visible c (hc_sites h'))) now) ru (hc_rules h) n r = Ret s /\
    hc_rules h' = ld_table s;
  im_schedules : exists sc n r s, ip_sections p !! 5%nat = Some sc /\ (hc_next h <= n)%nat /\
    apply_named ulid c "sch" "name" SECTION_SCHEDULES false sched_name (make_schedule now) sc
      (hc_schedules h) n r = Ret s /\ hc_schedules h' = ld_table s;
  im_scenes : exists sn n r s, ip_sections p !! 6%nat = Some sn /\ (hc_next h <= n)%nat /\
    apply_named ulid c "scn" "name" SECTION_SCENES true scn_name (make_scene now) sn
      (hc_scenes h) n r = Ret s /\ hc_scenes h' = ld_table s;
  im_sources : exists ex n r s, ip_sections p !! 7%nat = Some ex /\ (hc_next h <= n)%nat /\
    apply_named ulid c "ext" "display_name" SECTION_EXTERNAL_SOURCES false src_display_name
      (make_source now) ex (hc_sources h) n r = Ret s /\ hc_sources h' = ld_table s;
  im_devices : exists de r x, ip_sections p !! 8%nat = Some de /\
    apply_devices (device_by_mac (hc_devices h)) now (writes de) (hc_devices h) r = Ret x /\
    hc_devices h' = x.1.2
}.

Lemma apply_plan_ret c now p h r h' : apply_plan ulid c now p h = (Ret r, h') -> imported c now p h h'.
Proof.
  unfold apply_plan.
  destruct (ip_sections p) as [|rs [|si [|gr [|me [|ru [|sc [|sn [|ex [|de [|? ?]]]]]]]]]] eqn:E; try done.
  destruct (apply_sections _ _ _ _ _ _ _ _ _ _ _ _ _) as [[res h1]|] eqn:H; [|done].
  intros [= <- <-]. unfold apply_sections in H.
  apply bind_ret in H as (x & Hx & H). apply bind_ret in H as (a & Ha & H).
  apply bind_ret in H as (b & Hb & H). apply flush_ret in H as [_ H]. cbv zeta in H.
  apply bind_ret in H as (m & Hm & H).
  apply bind_ret in H as (ru' & Hru & H). apply bind_ret in H as (s & Hs & H).
  apply bind_ret in H as (n & Hn & H). apply bind_ret in H as (e & He & H).
  apply bind_ret in H as (d & Hd & H). apply flush_ret in H as [_ H]. injection H as _ <-.
  pose proof (apply_named_next _ _ _ _ _ _ _ _ _ _ _ _ _ Ha). pose proof (apply_named_next _ _ _ _ _ _ _ _ _ _ _ _ _ Hb).
  pose proof (apply_named_next _ _ _ _ _ _ _ _ _ _ _ _ _ Hru). pose proof (apply_named_next _ _ _ _ _ _ _ _ _ _ _ _ _ Hs).
  pose proof (apply_named_next _ _ _ _ _ _ _ _ _ _ _ _ _ Hn).
  split; rewrite ?E; cbn; [exists rs; eauto 10|eauto 10|exists gr, (ld_next a)|exists me|
    exists ru, (ld_next b)|exists sc, (ld_next ru')|exists sn, (ld_next s)|exists ex, (ld_next n)|exists de];
    repeat eexists; cbn; eauto; lia.
Qed.
End import.
