(* ===== verification/ConfigTheorems.v ===== *)
(** * Backup and restore: what an import may touch, and what it brings back *)

From stdpp Require Import pretty.
From S2P Require Import Prelude PyFloat Commands QueueInterface WatchdogActions WatchdogRules Schedules.
From S2P Require Import ExternalSensors RuntimeSettings Devices TenantScope Enrollment RoleBindings.
From S2P Require Import Identity Accounts Invitations ConfigBackup ConfigRestore ConfigFacts.
From S2P Require Notifications.
Local Open Scope string_scope.
Local Open Scope list_scope.
Local Open Scope Z_scope.

(** ** Secrets *)

(** The configuration of a source holds the redaction mark under [k]. *)
Definition sentinel_at (k : string) (v : json) : Prop :=
  exists d, v = JObj d /\ dict_get d k = Some (JStr REDACTED_SENTINEL).

Lemma overlay_sentinel cfg k : forall base,
  (forall kv, kv ∈ cfg -> jeqs kv.2 REDACTED_SENTINEL = false) ->
  dict_get (overlay base cfg) k = Some (JStr REDACTED_SENTINEL) ->
  dict_get base k = Some (JStr REDACTED_SENTINEL).
Proof.
  unfold overlay. induction cfg as [|[j v] cfg IH]; intros base Hc; [done|]. cbn [foldl].
  intros H. apply IH in H; [|intros kv Hkv; apply Hc; by right]. rewrite dict_get_set in H. cbn in H.
  destruct (String.eqb k j); [|done]. specialize (Hc (j, v) ltac:(by left)). cbn in Hc.
  injection H as ->. done.
Qed.

Lemma imported_clean rec cfg : imported_config rec = Ret cfg ->
  forall kv, kv ∈ cfg -> jeqs kv.2 REDACTED_SENTINEL = false.
Proof. unfold imported_config. intros (d & _ & [= <-])%bind_ret kv [H _]%list_elem_of_filter. exact H. Qed.

Lemma dict_or_none_sentinel d k : sentinel_at k (dict_or_none d) ->
  dict_get d k = Some (JStr REDACTED_SENTINEL).
Proof. intros (d' & Hd & H). destruct d; [done|]. injection Hd as <-. exact H. Qed.

(** A written source row holds the mark only where the old row did. *)
Lemma make_source_clean now id rec old a k : make_source now id rec old = Ret (Some a) ->
  sentinel_at k (src_config a) -> exists o, old = Some o /\ sentinel_at k (src_config o).
Proof.
  intros H Hk. unfold make_source in H.
  apply bind_ret in H as (cfg & Hc & H). apply bind_ret in H as (po & _ & H).
  apply bind_ret in H as (pl & _ & H). apply bind_ret in H as (merged & Hm & H).
  assert (Hcfg : src_config a = dict_or_none merged).
  { cbv zeta in H. made. destruct old; made; by subst. }
  rewrite Hcfg in Hk. apply dict_or_none_sentinel in Hk.
  pose proof (imported_clean _ _ Hc) as Hclean. destruct old as [o|].
  - exists o. split; [done|]. apply bind_ret in Hm as (base & Hb & [= <-]).
    apply overlay_sentinel in Hk; [|done]. unfold dict_of_col in Hb.
    destruct (jor (src_config o) (JObj [])) as [| | | | | |d] eqn:E; try done. injection Hb as ->.
    exists base. split; [|done]. unfold jor in E. destruct (truthy (src_config o)); [done|].
    injection E as <-. done.
  - injection Hm as <-. by apply dict_get_in, Hclean in Hk.
Qed.

(** ** Runtime settings *)

Lemma plan_setting_writes existing v items it : plan_setting existing v = Ret items ->
  it ∈ items -> writeable it = true ->
  jeqs (dget (it_record it) "value") REDACTED_SENTINEL = false /\
  forall name, key_of (it_record it) "name" = Ret name -> startswith NETWORK_KEY_PREFIX name = false.
Proof.
  unfold plan_setting. intros (rec & _ & (n & Hn & H)%bind_ret)%bind_ret Hin Hw.
  destruct (is_empty n) eqn:En; [injection H as <-; by apply elem_of_nil in Hin|].
  destruct (jeqs _ _) eqn:Ej; [injection H as <-; by apply list_elem_of_singleton in Hin as ->|].
  destruct (startswith _ n) eqn:Es; [injection H as <-; by apply list_elem_of_singleton in Hin as ->|].
  assert (it_record it = rec) as ->
    by (destruct (bool_decide _); injection H as <-; by apply list_elem_of_singleton in Hin as ->).
  split; [done|]. intros name Hk. apply not_true_is_false. intros Hs.
  unfold key_of in Hk. destruct (dict_get rec "name") as [[]|] eqn:E; try done. injection Hk as ->.
  unfold dget in Hn. rewrite E in Hn. unfold strip_or_empty, jor in Hn.
  destruct (truthy (JStr name)) eqn:Et; [|cbn in Hn; injection Hn as <-; done].
  injection Hn as <-. apply startswith_strip in Hs; [|done|done]. congruence.
Qed.

Lemma apply_settings_frame existing now l : forall t res ok t' res',
  apply_settings existing now l t res = Ret (ok, t', res') ->
  forall name, t' !! name = t !! name \/
    exists it row, it ∈ l /\ key_of (it_record it) "name" = Ret name /\ t' !! name = Some row /\
      se_value row = JObj [("v", dget (it_record it) "value")].
Proof.
  induction l as [|it l IH]; intros t res ok t' res'; cbn [apply_settings].
  { intros [= <- <- <-]. by left. }
  intros (n & Hk & H)%bind_ret name. cbv zeta in H.
  assert (Hstep : forall row, se_value row = JObj [("v", dget (it_record it) "value")] ->
    (t' !! name = <[n := row]> t !! name \/
     exists it' row', it' ∈ l /\ key_of (it_record it') "name" = Ret name /\ t' !! name = Some row' /\
       se_value row' = JObj [("v", dget (it_record it') "value")]) ->
    t' !! name = t !! name \/ exists it' row', it' ∈ it :: l /\ key_of (it_record it') "name" = Ret name /\
      t' !! name = Some row' /\ se_value row' = JObj [("v", dget (it_record it') "value")]).
  { intros row Hv [E|(it' & row' & Hin & Hr)]; [|right; exists it', row'; split; [by right|done]].
    destruct (decide (n = name)) as [->|Hne].
    - right. exists it, row. rewrite E, lookup_insert_eq. split_and!; [by left|done..].
    - left. by rewrite E, lookup_insert_ne. }
  destruct (existing !! n) as [old|].
  - eapply Hstep; [|eapply IH; exact H]. done.
  - apply bind_ret in H as ([[ok1 t1] res1] & H & [= _ <- _]). eapply Hstep; [|eapply IH; exact H]. done.
Qed.

Lemma mapM_in {A B} (f : A -> outcome B) l k y : mapM f l = Ret k -> y ∈ k -> exists x, x ∈ l /\ f x = Ret y.
Proof.
  intros H%mapM_ret (i & Hy)%list_elem_of_lookup.
  destruct (Forall2_lookup_r _ _ _ _ _ H Hy) as (x & Hx & Hf). eauto using list_elem_of_lookup_2.
Qed.

Lemma plan_settings_writes existing v sp w it : plan_runtime_settings existing v = Ret (sp, w) ->
  it ∈ writes sp ->
  jeqs (dget (it_record it) "value") REDACTED_SENTINEL = false /\
  forall name, key_of (it_record it) "name" = Ret name -> startswith NETWORK_KEY_PREFIX name = false.
Proof.
  unfold plan_runtime_settings, writes.
  intros (l & _ & (items & Hm & [= <- _])%bind_ret)%bind_ret [Hw Hin]%list_elem_of_filter.
  cbn in Hin. apply list_elem_of_In, in_concat in Hin as (k & Hk & Hin).
  apply list_elem_of_In in Hk, Hin. destruct (mapM_in _ _ _ _ Hm Hk) as (x & _ & Hx).
  by eapply plan_setting_writes.
Qed.

Lemma plan_settings_planned json_loads scrypt aes_decrypt c file pw h p :
  parse_and_plan json_loads scrypt aes_decrypt c file pw h = Ret p ->
  exists w v rs rest, ip_sections p = rs :: rest /\ plan_runtime_settings (hc_settings h) v = Ret (rs, w).
Proof.
  unfold parse_and_plan. intros (doc & _ & H)%bind_ret. destruct (dget doc "sections") as [| | | | | |sections]; try done.
  unfold plan_sections in H. cbv zeta in H.
  apply bind_ret in H as ([rs w] & Hrs & H). exists w, (dget_default sections SECTION_RUNTIME_SETTINGS (JList [])), rs.
  do 8 apply bind_ret in H as (? & _ & H). injection H as <-. eauto.
Qed.

Section import.
Context (ulid : nat -> string) `{!Inj (=) (=) ulid}.
Context (json_loads : string -> outcome json) (scrypt : string -> string -> string).
Context (aes_decrypt : string -> string -> string -> outcome string).
#[local] Abbreviation parse_and_plan := (parse_and_plan json_loads scrypt aes_decrypt).
#[local] Abbreviation apply_plan := (apply_plan ulid).

(** The ULIDs not drawn yet name no row. *)
Definition undrawn (h : hub_config) : Prop :=
  fresh_ids ulid "site" (hc_next h) (hc_sites h) /\ fresh_ids ulid "grp" (hc_next h) (hc_groups h) /\
  fresh_ids ulid "wdr" (hc_next h) (hc_rules h) /\ fresh_ids ulid "sch" (hc_next h) (hc_schedules h) /\
  fresh_ids ulid "scn" (hc_next h) (hc_scenes h) /\ fresh_ids ulid "ext" (hc_next h) (hc_sources h).
Lemma fresh_later {A} pre n m (t : table A) : fresh_ids ulid pre n t -> (n <= m)%nat -> fresh_ids ulid pre m t.
Proof. intros H Hm i Hi. apply H. lia. Qed.

(** The rows of a tenant-scoped table after an import: all are kept, with organisation and
    name; those the caller does not see are the same; a new one is the caller's. *)
Definition kept {A} (c : caller) (key : A -> string) (t t' : table A) : Prop :=
  (forall id o, t !! id = Some o -> exists o', t' !! id = Some o' /\ ow_org o' = ow_org o /\
     key (ow_row o') = key (ow_row o) /\ (sees c (Some (ow_org o)) = false -> o' = o)) /\
  (forall id o, t' !! id = Some o -> t !! id = None -> ca_org c = Some (ow_org o)).

Lemma import_keeps {A} c pre field section uniq (key : A -> string) make `{!Makes field key make} sp t n r s :
  fresh_ids ulid pre n t -> apply_named ulid c pre field section uniq key make sp t n r = Ret s ->
  kept c key t (ld_table s).
Proof.
  intros Hf H. assert (Hg : grows ulid c pre key t (written field (writes sp)) (ld_next s) (ld_table s))
    by (by eapply apply_named_grows). split.
  - intros id o Ho. destruct (gr_old Hg id o Ho) as (o' & ? & ? & ? & Hc). exists o'.
      split_and!; try done. destruct Hc as [->|[? _]]; [done|congruence].
  - intros id o Ho Hn. by destruct (gr_new Hg id o Ho Hn).
Qed.

Lemma sources_stay_clean c field section uniq now sp t n r s id o k :
  fresh_ids ulid "ext" n t ->
  apply_named ulid c "ext" field section uniq src_display_name (make_source now) sp t n r = Ret s ->
  ld_table s !! id = Some o -> sentinel_at k (src_config (ow_row o)) ->
  exists o0, t !! id = Some o0 /\ sentinel_at k (src_config (ow_row o0)).
Proof.
  intros Hf H Ho Hk.
  pose proof (apply_named_rel ulid c "ext" field section uniq src_display_name (make_source now)
    (fun old a => sentinel_at k (src_config a) -> exists b, old = Some b /\ sentinel_at k (src_config b))
    sp t n r s) as HR. cbv beta in HR.
  destruct (HR ltac:(intros o1 a b Hoa Hab Hb; destruct (Hab Hb) as (? & [= <-] & ?); auto)
    ltac:(eauto) (fun i rec old a Hm => make_source_clean now i rec old a k Hm) H Hf id o Ho Hk) as (b & Hb & Hkb).
  apply fmap_Some in Hb as (o0 & Ho0 & ->). eauto.
Qed.

(** C13. What an import may touch.  Whatever the file is - written by anybody, planned on any state
    of the hub - applying it never changes a [network.] setting, never writes the redaction
    mark over a setting or into the configuration of a source, and keeps every site, group,
    rule, schedule, scene and source under its organisation and name, those the caller does
    not see unchanged. *)
Theorem import_touches_only_its_own c now file pw h0 p h r h' :
  undrawn h -> parse_and_plan c file pw h0 = Ret p -> apply_plan c now p h = (Ret r, h') ->
  (forall name, startswith NETWORK_KEY_PREFIX name = true -> hc_settings h' !! name = hc_settings h !! name) /\
  (forall name row, hc_settings h' !! name = Some row -> hc_settings h !! name = Some row \/
     exists v, se_value row = JObj [("v", v)] /\ jeqs v REDACTED_SENTINEL = false) /\
  (forall id o k, hc_sources h' !! id = Some o -> sentinel_at k (src_config (ow_row o)) ->
     exists o0, hc_sources h !! id = Some o0 /\ sentinel_at k (src_config (ow_row o0))) /\
  kept c si_name (hc_sites h) (hc_sites h') /\ kept c gp_name (hc_groups h) (hc_groups h') /\
  kept c rule_name (hc_rules h) (hc_rules h') /\ kept c sched_name (hc_schedules h) (hc_schedules h') /\
  kept c scn_name (hc_scenes h) (hc_scenes h') /\ kept c src_display_name (hc_sources h) (hc_sources h').
Proof.
  intros (F1 & F2 & F3 & F4 & F5 & F6) Hp Ha. apply apply_plan_ret in Ha as [Hset Hsi Hgr _ Hru Hsc Hsn Hso _].
  destruct Hset as (rs & rest & x & Hrs & Hx & ->).
  assert (Hw : forall it, it ∈ writes rs -> jeqs (dget (it_record it) "value") REDACTED_SENTINEL = false /\
    forall name, key_of (it_record it) "name" = Ret name -> startswith NETWORK_KEY_PREFIX name = false).
  { apply plan_settings_planned in Hp as (w & v & rs' & rest' & E & Hp). rewrite E in Hrs. injection Hrs as -> ->.
    intros it. by eapply plan_settings_writes. }
  unfold apply_runtime_settings in Hx. destruct x as [[ok t] res].
  pose proof (apply_settings_frame _ _ _ _ _ _ _ _ Hx) as Hfr. cbn [fst snd]. refine (conj _ (conj _ (conj _ (conj _ (conj _ (conj _ (conj _ (conj _ _)))))))).
  - intros name Hn. destruct (Hfr name) as [|(it & row & Hin & Hk & _)]; [done|].
    destruct (Hw it Hin) as [_ Hnet]. specialize (Hnet name Hk). congruence.
  - intros name row Hrow. destruct (Hfr name) as [E|(it & row' & Hin & _ & E & Hv)]; [left; congruence|].
    assert (row' = row) as -> by congruence. right. eexists. split; [exact Hv|]. by apply Hw.
  - destruct Hso as (ex & n & r0 & s & _ & Hn & Hs & ->). intros id o k Ho Hk.
    eapply sources_stay_clean; [by eapply fresh_later|exact Hs|done|done].
  - destruct Hsi as (? & ? & s & _ & Hs & -> & _). exact (import_keeps _ _ _ _ _ _ _ _ _ _ _ _ F1 Hs).
  - destruct Hgr as (? & n & ? & s & _ & Hn & Hs & ->).
    exact (import_keeps _ _ _ _ _ _ _ _ _ _ _ _ (fresh_later _ _ _ _ F2 Hn) Hs).
  - destruct Hru as (? & n & ? & s & _ & Hn & Hs & ->).
    exact (import_keeps _ _ _ _ _ _ _ _ _ _ _ _ (fresh_later _ _ _ _ F3 Hn) Hs).
  - destruct Hsc as (? & n & ? & s & _ & Hn & Hs & ->).
    exact (import_keeps _ _ _ _ _ _ _ _ _ _ _ _ (fresh_later _ _ _ _ F4 Hn) Hs).
  - destruct Hsn as (? & n & ? & s & _ & Hn & Hs & ->).
    exact (import_keeps _ _ _ _ _ _ _ _ _ _ _ _ (fresh_later _ _ _ _ F5 Hn) Hs).
  - destruct Hso as (? & n & ? & s & _ & Hn & Hs & ->).
    exact (import_keeps _ _ _ _ _ _ _ _ _ _ _ _ (fresh_later _ _ _ _ F6 Hn) Hs).
Qed.
End import.

Module Example.

(** A hub of two organisations, and a document written by hand: it names a network setting,
    a redacted one, a site both organisations have, a source with a redacted token. *)
Definition a_site (d : string) : site_cols := SiteCols "Lab" (Some d).
Definition a_source : source :=
  Source "a2" "ecowitt" "Roof" "10.0.0.9" 80 true 60 None None None
    (JObj [("token", JStr "hunter2"); ("unit", JStr "C")]) 0 0.
Definition hub : hub_config :=
  HubConfig {[ "network.host" := SettingRow (JObj [("v", JStr "hub-a")]) 0 None;
               "ui.theme" := SettingRow (JObj [("v", JStr "light")]) 0 None ]}
    {[ "a1" := Owned "org_a" (a_site "ours"); "b1" := Owned "org_b" (a_site "theirs") ]}
    ∅ [] ∅ ∅ ∅ {[ "a2" := Owned "org_a" a_source ]} ∅ 0.
Definition setting (n : string) (v : json) : json := JObj [("name", JStr n); ("value", v)].
Definition document : json :=
  JObj [("format", JStr FORMAT_NAME); ("format_version", JInt FORMAT_VERSION);
    ("sections", JObj [
      (SECTION_RUNTIME_SETTINGS, JList [setting "network.host" (JStr "evil"); setting "ui.theme" (JStr "dark");
                                        setting "smtp.password" (JStr REDACTED_SENTINEL)]);
      (SECTION_SITES, JList [JObj [("name", JStr "Lab"); ("description", JStr "mine now")];
                             JObj [("name", JStr "New"); ("description", JNull)]]);
      (SECTION_EXTERNAL_SOURCES, JList [JObj [("display_name", JStr "Roof"); ("kind", JStr "ecowitt");
         ("host", JStr "10.0.0.10"); ("config", JObj [("token", JStr REDACTED_SENTINEL); ("unit", JStr "F")])]])])].
Definition loads (_ : string) : outcome json := Ret document.
Definition no_scrypt (_ s : string) : string := s.
Definition no_aes (_ _ s : string) : outcome string := Ret s.
Definition admin_a : caller := Caller (Some "org_a") Enforce.
Definition the_plan : import_plan :=
  match parse_and_plan loads no_scrypt no_aes admin_a "file" "" hub with
  | Ret p => p | Raise _ => ImportPlan [] [] [] end.
Definition after : hub_config := (apply_plan pretty admin_a 7 the_plan hub).2.

Lemma no_id_fresh {A} pre n (t : table A) :
  (forall m, t !! new_id pretty pre m = None) -> fresh_ids pretty pre n t.
Proof. intros H i _. apply H. Qed.
Lemma hub_undrawn : undrawn pretty hub.
Proof.
  unfold undrawn. split_and!; apply no_id_fresh; intros m; cbn [hub hc_sites hc_groups hc_rules hc_schedules hc_scenes hc_sources];
    rewrite ?lookup_insert_ne, ?lookup_singleton_ne by (intros E; discriminate E); apply lookup_empty || done.
Qed.

(** The hub keeps its address and its token; the other organisation's site of the same name
    keeps its text; the names it asked for are written. *)
Lemma import_touches_only_its_own_witness :
  parse_and_plan loads no_scrypt no_aes admin_a "file" "" hub = Ret the_plan /\
  (hc_settings after !! "network.host" = hc_settings hub !! "network.host" /\
   hc_sites after !! "b1" = hc_sites hub !! "b1") /\
  (se_value <$> hc_settings after !! "ui.theme" = Some (JObj [("v", JStr "dark")]) /\
   (fun o => (si_name (ow_row o), si_description (ow_row o))) <$> hc_sites after !! "a1" = Some ("Lab", Some "mine now") /\
   (fun o => src_config (ow_row o)) <$> hc_sources after !! "a2" =
     Some (JObj [("token", JStr "hunter2"); ("unit", JStr "F")])).
Proof.
  assert (Hp : parse_and_plan loads no_scrypt no_aes admin_a "file" "" hub = Ret the_plan) by (vm_compute; reflexivity).
  split; [exact Hp|]. split; [|split_and!; vm_compute; reflexivity].
  destruct (apply_plan pretty admin_a 7 the_plan hub) as [[r|e] h'] eqn:E; [|vm_compute in E; discriminate E].
  assert (Hafter : after = h') by (unfold after; rewrite E; reflexivity). rewrite Hafter.
  destruct (import_touches_only_its_own pretty loads no_scrypt no_aes admin_a 7 "file" "" hub the_plan hub r h'
    hub_undrawn Hp E) as (Hn & _ & _ & [Hs _] & _). split; [by apply Hn|].
  destruct (Hs "b1" (Owned "org_b" (a_site "theirs")) ltac:(reflexivity)) as (o & Ho & _ & _ & Hsame).
  rewrite Ho, (Hsame ltac:(reflexivity)). reflexivity.
Defined.
End Example.
