(* ===== verification/ConfigRoundtrip.v ===== *)
(** * Backup and restore: a restored section agrees with the exported one *)

From S2P Require Import Prelude PyFloat Commands QueueInterface WatchdogActions WatchdogRules Schedules.
From S2P Require Import ExternalSensors RuntimeSettings Devices TenantScope Enrollment RoleBindings.
From S2P Require Import Identity Accounts ConfigBackup ConfigRestore ConfigFacts.
From S2P Require Notifications.
Local Open Scope string_scope.
Local Open Scope list_scope.
Local Open Scope Z_scope.

(** ** Sorting and names *)

Lemma sorted_by_perm {A} (key : A -> string) l : sorted_by key l ≡ₚ l.
Proof. apply merge_sort_Permutation. Qed.

(** A name the plan recognises as it is. *)
Definition plain_name (n : string) : Prop := is_empty n = false /\ strip n = n.

Lemma strip_or_empty_plain n : plain_name n -> strip_or_empty (JStr n) = Ret n.
Proof. intros [Hn Hs]. unfold strip_or_empty, jor. cbn. rewrite Hn. cbn. by rewrite Hs. Qed.
Lemma key_of_dget rec field n : key_of rec field = Ret n -> dget rec field = JStr n.
Proof. unfold key_of, dget. by destruct (dict_get rec field) as [[]|]; intros [= ->]. Qed.

(** ** A named section *)

Section planned.
Context {A : Type} (field : string) (key : A -> string) (note : bool -> pydict -> outcome string).
Context (rec : A -> pydict).
(** The items of a plan that writes the rows [l], in order. *)
Definition planned (l : list A) (items : list plan_item) : Prop :=
  it_record <$> items = rec <$> l /\ Forall (fun it => writeable it = true) items.

Lemma plan_named_all existing (l : list A) : forall seen,
  (forall a, a ∈ l -> plain_name (key a) /\ key_of (rec a) field = Ret (key a)) ->
  (forall a known, a ∈ l -> exists n, note known (rec a) = Ret n) ->
  NoDup (key <$> l) -> (forall a, a ∈ l -> key a ∉ seen) ->
  exists items, plan_named_loop field existing note seen ((fun a => JObj (rec a)) <$> l) = Ret items /\
    planned l items.
Proof.
  unfold planned. induction l as [|a l IH]; intros seen Hl Hnt Hnd Hseen; [by exists []|].
  cbn in Hnd. apply NoDup_cons in Hnd as [Hna Hnd].
  destruct (Hl a ltac:(by left)) as [[He Hs] Hk].
  destruct (IH (key a :: seen)) as (items & Hp & Hrec & Hw);
    [intros; apply Hl; by right|intros; apply Hnt; by right|done| |].
  { intros b Hb [E|Hb']%elem_of_cons; [apply Hna; rewrite <- E; by apply list_elem_of_fmap_2|].
    eapply Hseen; [by right|done]. }
  destruct (Hnt a (bool_decide (is_Some (existing !! key a))) ltac:(by left)) as [n Hnote].
  exists (PlanItem (key a) (if bool_decide (is_Some (existing !! key a)) then ToUpdate else ToCreate) n (rec a)
    :: items). cbn [fmap list_fmap plan_named_loop as_record]. split_and!.
  - cbn [mbind outcome_bind]. rewrite (key_of_dget _ _ _ Hk), strip_or_empty_plain by done.
    cbn [mbind outcome_bind]. rewrite He.
    assert (in_strs (key a) seen = false) as ->.
    { apply not_true_is_false. rewrite in_strs_spec. apply Hseen. by left. }
    cbv zeta. rewrite Hnote. cbn [mbind outcome_bind]. by rewrite Hp.
  - by rewrite Hrec.
  - constructor; [by destruct (bool_decide _)|done].
Qed.
End planned.

Section named.
Context (ulid : nat -> string) `{!Inj (=) (=) ulid}.
Context {A : Type} (c : caller) (pre field section : string) (uniq : bool) (key : A -> string).
Context (make : string -> pydict -> option A -> outcome (option A)) `{!Makes field key make}.
(** The record of an exported row, and what restoring it over an old row promises. *)
Context (rec : A -> pydict) (agrees : A -> option A -> A -> Prop) (old_ok : A -> Prop).

Class Restores (a : A) : Prop := {
  re_key : key_of (rec a) field = Ret (key a);
  re_new id : exists b, make id (rec a) None = Ret (Some b) /\ agrees a None b;
  re_old id o : old_ok o -> key o = key a -> exists b, make id (rec a) (Some o) = Ret (Some b) /\ agrees a (Some o) b
}.

(** The state of the loop after the rows [done]. *)
Definition restored_rows (t0 : table A) (done : list A) (t : table A) : Prop :=
  forall a, a ∈ done -> exists id o, t !! id = Some o /\ sees c (Some (ow_org o)) = true /\
    key (ow_row o) = key a /\ agrees a (ow_row <$> t0 !! id) (ow_row o).

Lemma restored_insert t0 done t id o a : (forall b, b ∈ done -> key b <> key a) ->
  (forall x, t !! id = Some x -> key (ow_row x) = key a) ->
  restored_rows t0 done t -> sees c (Some (ow_org o)) = true -> key (ow_row o) = key a ->
  agrees a (ow_row <$> t0 !! id) (ow_row o) -> restored_rows t0 (a :: done) (<[id := o]> t).
Proof.
  intros Hd Hid Hr Hs Hk Ha b [->|Hb]%elem_of_cons.
  - exists id, o. by rewrite lookup_insert_eq.
  - destruct (Hr b Hb) as (j & x & Hx & ?). exists j, x. rewrite lookup_insert_ne; [done|].
    intros <-. destruct (Hd b Hb). rewrite <- (Hid x Hx). symmetry. tauto.
Qed.

Lemma no_such_name org t0 (done : list A) n t a : ca_org c = Some org ->
  index key (visible c t0) !! key a = None -> (forall b, b ∈ done -> key b <> key a) ->
  grows ulid c pre key t0 (fun x => exists b, b ∈ done /\ x = key b) n t -> name_free key org (key a) t = true.
Proof.
  intros Hc Hi Hd Hg. unfold name_free. apply forallb_forall. intros [id x] Hin.
  apply list_elem_of_In, elem_of_map_to_list in Hin. cbn [fst snd]. apply negb_true_iff, andb_false_iff.
  destruct (String.eqb_spec (ow_org x) org) as [Eo|]; [|by left]. right.
  apply String.eqb_neq. intros Ek. destruct (t0 !! id) as [x0|] eqn:E0.
  - destruct (gr_old Hg id x0 E0) as (x' & Hx' & Ho & Hkk & _). assert (x' = x) as -> by congruence.
    eapply (proj1 (index_none _ _ _) Hi id (ow_row x0)); [|congruence].
    apply elem_of_visible. exists x0. split_and!; [done| |done]. rewrite <- Ho, Eo. by apply sees_own.
  - destruct (gr_new Hg id x Hin E0) as [(b & Hb & E) _]. eapply Hd; [exact Hb|congruence].
Qed.

Lemma apply_rows_restore org t0 l : forall dn items s,
  ca_org c = Some org -> (forall id x, (id, x) ∈ visible c t0 -> old_ok x) ->
  (forall a, a ∈ l -> Restores a) -> NoDup (key <$> (l ++ dn)) -> it_record <$> items = rec <$> l ->
  grows ulid c pre key t0 (fun x => exists b, b ∈ dn /\ x = key b) (ld_next s) (ld_table s) ->
  restored_rows t0 dn (ld_table s) -> ld_accepted s = true ->
  exists s', apply_rows ulid c pre field section uniq key make (index key (visible c t0)) items s = Ret s' /\
    ld_accepted s' = true /\ restored_rows t0 (rev l ++ dn) (ld_table s').
Proof.
  intros dn items s Hc Hok. revert dn items s.
  induction l as [|a l IH]; intros dn items s Hl Hnd Hit Hg Hr Ha.
  { destruct items; [|done]. exists s. by split_and!. }
  destruct items as [|it items]; [done|]. injection Hit as Hrec Hit. cbn [apply_rows].
  destruct (Hl a ltac:(by left)) as [Hk Hnew Hold].
  change (NoDup (key a :: (key <$> l ++ dn))) in Hnd. apply NoDup_cons in Hnd as [Hna Hnd].
  assert (Hd : forall b, b ∈ dn -> key b <> key a).
  { intros b Hb E. apply Hna. rewrite <- E. apply list_elem_of_fmap_2, elem_of_app. by right. }
  assert (Hnd' : NoDup (key <$> l ++ a :: dn)).
  { rewrite fmap_app in Hnd, Hna |- *. apply NoDup_app in Hnd as (N1 & N2 & N3).
    rewrite not_elem_of_app in Hna. destruct Hna as [Na1 Na2]. apply NoDup_app. split_and!; [done| |].
    - intros x Hx [->|Hx']%elem_of_cons; [done|]. by eapply N2.
    - by constructor. }
  assert (Hstep : exists s1, apply_row ulid c pre field section uniq key make (index key (visible c t0)) s it = Ret s1 /\
    ld_accepted s1 = true /\ restored_rows t0 (a :: dn) (ld_table s1)).
  { unfold apply_row. rewrite Hrec, Hk. cbn [mbind outcome_bind].
    destruct (index key (visible c t0) !! key a) as [id|] eqn:Ei.
    - pose proof Ei as (o0 & Ho0 & Hs & Hkey)%index_visible.
      destruct (gr_old Hg id o0 Ho0) as (o & Ho & Horg & _ & [->|[_ (b & Hb & E)]]);
        [|destruct (Hd b Hb); congruence].
      rewrite Ho. destruct (Hold id (ow_row o0)) as (b & Hb & Hag).
      { apply (Hok id), elem_of_visible. eauto. }
      { done. }
      rewrite Hb. eexists. split; [reflexivity|]. cbn. split; [done|].
      apply restored_insert; try done.
      + intros x Hx. by assert (x = o0) as -> by congruence.
      + cbn. apply makes_old in Hb. congruence.
      + by rewrite Ho0.
    - destruct (Hnew (new_id ulid pre (ld_next s))) as (b & Hb & Hag). rewrite Hb, Hc.
      eexists. split; [reflexivity|]. cbn. rewrite Ha. split.
      + destruct uniq; [|done]. by eapply no_such_name.
      + assert (Hfr : ld_table s !! new_id ulid pre (ld_next s) = None) by (by apply (gr_fresh Hg)).
        apply restored_insert; try done.
        * intros x Hx. congruence.
        * cbn. by apply sees_own.
        * cbn. apply makes_new in Hb. congruence.
        * destruct (t0 !! new_id ulid pre (ld_next s)) eqn:E0; [|done].
          destruct (gr_old Hg _ _ E0) as (? & ? & _). congruence. }
  destruct Hstep as (s1 & H1 & Ha1 & Hr1). rewrite H1. cbn [mbind outcome_bind].
  destruct (IH (a :: dn) items s1) as (s' & Hs' & Ha' & Hr'); try done.
  - intros b Hb. apply Hl. by right.
  - apply apply_row_step in H1 as (name & Hname & Hst). rewrite Hrec, Hk in Hname. injection Hname as <-.
    eapply (row_step_grows ulid c pre field key make); [exact Hst|by rewrite Hrec|exists a; split; [by left|done]|].
    destruct Hg as [G1 G2 G3]. split; [done| |].
    + intros id o Ho. destruct (G2 id o Ho) as (o' & ? & ? & ? & [?|[? (b & Hb & ?)]]); exists o'; split_and!; auto.
      right. split; [done|]. exists b. split; [by right|done].
    + intros id o Ho Hn. destruct (G3 id o Ho Hn) as [(b & Hb & ?) ?]. split; [|done]. exists b. split; [by right|done].
  - exists s'. split_and!; [done|done|]. cbn [rev]. by rewrite <- app_assoc.
Qed.
End named.

Lemma records_of_list l : records_of (JList l) = Ret l.
Proof. by destruct l. Qed.

Lemma writes_all section items : Forall (fun it => writeable it = true) items ->
  writes (SectionPlan section items) = items.
Proof.
  unfold writes. cbn [sp_items]. induction 1 as [|it l Hit Hl IH]; [done|].
  rewrite filter_cons_True by done. by rewrite IH.
Qed.

Section section.
Context (ulid : nat -> string) `{!Inj (=) (=) ulid}.
Context {A : Type} (c : caller) (pre field section : string) (uniq : bool) (key : A -> string).
Context (make : string -> pydict -> option A -> outcome (option A)) `{!Makes field key make}.
Context (rec : A -> pydict) (agrees : A -> option A -> A -> Prop) (old_ok : A -> Prop).

(** The rows [rows] are back in [t2], over the table [t]. *)
Definition comes_back (rows : list A) (t t2 : table A) : Prop :=
  forall a, a ∈ rows -> exists id o, t2 !! id = Some o /\ sees c (Some (ow_org o)) = true /\
    key (ow_row o) = key a /\ agrees a (ow_row <$> t !! id) (ow_row o).

Lemma named_restored (l rows : list A) org items t n res :
  (forall a, a ∈ l -> Restores field key make rec agrees old_ok a) -> NoDup (key <$> l) ->
  ca_org c = Some org -> planned rec l items -> fresh_ids ulid pre n t ->
  (forall id x, (id, x) ∈ visible c t -> old_ok x) -> l ≡ₚ rows ->
  exists s, apply_named ulid c pre field section uniq key make (SectionPlan section items) t n res = Ret s /\
    ld_accepted s = true /\ comes_back rows t (ld_table s).
Proof.
  intros Hl Hnd Hc [Hrec Hw] Hf Hok Hperm.
  destruct (apply_rows_restore ulid c pre field section uniq key make rec agrees old_ok org t l [] items
    (Loading t n true (count_skips (SectionPlan section items) res))) as (s & Hs & Ha & Hr); try done.
  - by rewrite app_nil_r.
  - split; [done|naive_solver|]. cbn. intros id o Hi. by rewrite Hi.
  - by intros a ?%elem_of_nil.
  - exists s. unfold apply_named. rewrite writes_all by done. split_and!; [done..|]. intros a Hin. apply Hr. rewrite app_nil_r. rewrite <- Hperm in Hin.
    by apply list_elem_of_In, in_rev, list_elem_of_In; rewrite rev_involutive.
Qed.
End section.

(** ** The rows of the six sections *)

Definition is_int32 (z : Z) : bool := bool_decide (integer_col z = Some z).
Lemma int32_col z : is_int32 z = true -> integer_col z = Some z.
Proof. apply bool_decide_eq_true. Qed.
Lemma text_ojson o : text_col (ojson o) = Some o.
Proof. by destruct o. Qed.
Lemma string_ojson n o : ofits n o = true -> string_col n (ojson o) = Some o.
Proof. unfold string_col. rewrite text_ojson. cbn. by intros ->. Qed.
Lemma required_str n s : fits n s = true -> required_col n (JStr s) = Some s.
Proof. cbn. by intros ->. Qed.
Lemma or_dict_idem v : or_dict (or_dict v) = or_dict v.
Proof. unfold or_dict, jor. destruct (truthy v) eqn:E; [by rewrite E|done]. Qed.
Lemma or_list_idem v : jor (jor v (JList [])) (JList []) = jor v (JList []).
Proof. unfold jor. destruct (truthy v) eqn:E; [by rewrite E|done]. Qed.

Definition dict_of (v : json) : pydict := match v with JObj d => d | _ => [] end.

(** Sites. *)
Definition site_stored (s : site_cols) : bool := fits 120 (si_name s).
Lemma restores_site s : site_stored s = true ->
  Restores "name" si_name make_site (fun s => dict_of (export_site s))
    (fun a _ b => export_site b = export_site a) (fun _ => True) s.
Proof.
  intros Hf. split; [done| |].
  - intros id. unfold make_site. cbn. rewrite text_ojson. cbn. unfold site_stored in Hf. rewrite Hf. by eexists.
  - intros id o _ E. unfold make_site. cbn. rewrite text_ojson. cbn. eexists. split; [done|].
    unfold export_site. cbn. by rewrite E.
Qed.

(** Scenes. *)
Definition scene_stored (s : scene_cols) : bool := fits 120 (scn_name s) && ofits 500 (scn_description s).
Lemma restores_scene now s : scene_stored s = true ->
  Restores "name" scn_name (make_scene now) (fun s => dict_of (export_scene s))
    (fun a _ b => export_scene b = export_scene a) (fun _ => True) s.
Proof.
  intros [Hf Hd]%andb_prop. split; [done| |].
  - intros id. unfold make_scene. cbn. rewrite string_ojson by done. cbn. rewrite Hf. eexists. split; [done|].
    unfold export_scene. cbn. by rewrite !or_list_idem.
  - intros id o _ E. unfold make_scene. cbn. rewrite string_ojson by done. cbn. eexists. split; [done|].
    unfold export_scene. cbn. by rewrite E, !or_list_idem.
Qed.

(** Schedules. *)
Definition schedule_stored (x : schedule_cols) : bool :=
  let s := sd_schedule x in
  fits 120 (sc_name s) && ofits 500 (sd_description x) && fits 40 (sc_kind s) && fits 20 (sc_recurrence s) &&
  ofits 5 (sc_at_time_utc s) && is_int32 (sc_duration_seconds s) && is_int32 (sc_power_off_seconds s) &&
  is_int32 (sc_post_reboot_holdoff_seconds s).
Lemma restores_schedule now s : schedule_stored s = true ->
  Restores "name" sched_name (make_schedule now) (fun s => dict_of (export_schedule s))
    (fun a _ b => export_schedule b = export_schedule a) (fun _ => True) s.
Proof.
  intros Hf. unfold schedule_stored in Hf. cbv zeta in Hf. bool_to_prop. destruct s as [s d u].
  cbn [sd_schedule sd_description] in *.
  split; [done| |]; [intros id|intros id o _ E]; unfold make_schedule; cbn -[integer_col string_col];
    rewrite !string_ojson by done; cbn -[integer_col];
    repeat match goal with H : fits _ _ = true |- _ => rewrite H; clear H end; cbn -[integer_col];
    rewrite !int32_col by done; cbn; eexists; (split; [reflexivity|]);
    unfold export_schedule; cbn; rewrite ?or_dict_idem, ?or_list_idem; [by destruct (sc_enabled s)|].
  unfold sched_name in E. cbn in E. rewrite E. by destruct (sc_enabled s).
Qed.

(** Groups and rules refer to sites by name: [S], [S2] name the sites of the two hubs, [I2]
    finds a site for the second, [left_of] is what is left of a name. *)
Section refers.
Context (S I2 S2 : gmap string string) (left_of : json -> json).
Definition finds_sites : Prop := forall o : option string,
  exists x, find_key I2 (site_name S o) = Ret x /\ site_name S2 x = left_of (site_name S o).
Context (Hsites : finds_sites).

(** The record of an exported group, with what is left of its site's name. *)
Definition regrouped (g : group_cols) : json :=
  JObj [("name", JStr (gp_name g)); ("description", ojson (gp_description g));
        ("site_name", left_of (site_name S (gp_site g)))].
Definition group_stored (g : group_cols) : bool := fits 120 (gp_name g).
Lemma restores_group g : group_stored g = true ->
  Restores "name" gp_name (make_group I2) (fun g => dict_of (export_group S g))
    (fun a _ b => export_group S2 b = regrouped a) (fun _ => True) g.
Proof.
  intros Hf. destruct (Hsites (gp_site g)) as (x & Hx & Hxs).
  split; [done| |]; [intros id|intros id o _ E]; unfold make_group, dget; cbn;
    rewrite Hx; cbn; rewrite text_ojson; cbn; unfold group_stored in Hf; rewrite ?Hf; cbn;
    (eexists; split; [reflexivity|]); unfold export_group; cbn; rewrite ?Hxs, ?E; done.
Qed.

Definition rule_stored (x : rule_row) : bool :=
  let r := rr_rule x in
  fits 120 (rc_name r) && ofits 500 (rr_description x) && is_int32 (rc_failure_threshold r) &&
  is_int32 (rc_recovery_threshold r) && is_int32 (rc_window_seconds r) && is_int32 (rc_cooldown_seconds r) &&
  is_int32 (rr_max_retries x) && is_int32 (rr_retry_delay_seconds x).
(** The escalation an import puts where none is stored. *)
Definition with_stop (x : rule_row) : rule_row :=
  let r := rr_rule x in
  RuleRow (Rule (RuleConfig (rc_id r) (rc_name r) (rc_site_id r) (rc_enabled r) (rc_probe r)
     (rc_failure_threshold r) (rc_recovery_threshold r) (rc_window_seconds r) (rc_cooldown_seconds r)
     (rc_target r) (rc_action r) (jor (rc_escalation r) (JObj [("kind", JStr "stop")]))
     (rc_maintenance_windows r)) (r_runtime r))
    (rr_description x) (rr_max_retries x) (rr_retry_delay_seconds x) (rr_created_by_user_id x)
    (rr_created_at x) (rr_updated_at x).
Lemma stop_idem v d : truthy d = true -> or_dict (jor (or_dict v) d) = or_dict (jor v d).
Proof.
  intros Hd. unfold or_dict, jor. destruct (truthy v) eqn:E; cbn; rewrite ?E; cbn; by rewrite ?E, ?Hd.
Qed.
Lemma restores_rule now x : (forall v, left_of v = v) -> rule_stored x = true ->
  Restores "name" rule_name (make_rule I2 now) (fun x => dict_of (export_rule S x))
    (fun a _ b => export_rule S2 b = export_rule S (with_stop a)) (fun _ => True) x.
Proof.
  intros Hl Hf. unfold rule_stored in Hf. cbv zeta in Hf. bool_to_prop. destruct x as [[cfg rt] d mr rd cb ca ua].
  cbn [rr_rule rr_description rr_max_retries rr_retry_delay_seconds r_config] in *.
  destruct (Hsites (rc_site_id cfg)) as (x & Hx & Hxs). rewrite Hl in Hxs.
  split; [done| |]; [intros id|intros id o _ E]; unfold make_rule, dget;
    cbn -[integer_col string_col site_name]; rewrite Hx; cbn -[integer_col string_col site_name];
    rewrite !string_ojson by done; cbn -[integer_col site_name]; rewrite !int32_col by done; cbn -[site_name];
    repeat match goal with H : fits _ _ = true |- _ => rewrite H; clear H end; cbn -[site_name];
    (eexists; split; [reflexivity|]); unfold export_rule, with_stop; cbn -[site_name or_dict];
    rewrite ?or_dict_idem, ?or_list_idem, ?stop_idem by done; rewrite ?Hxs; [by destruct (rc_enabled cfg)|].
  unfold rule_name in E. cbn in E. rewrite E. by destruct (rc_enabled cfg).
Qed.
End refers.

(** Sources: a redacted value is the one the target had. *)
Definition cfg_get (v : json) (k : string) : option json := dict_get (dict_of v) k.
Definition carried (secrets : bool) (a : source) (k : string) : option json :=
  match cfg_get (if secrets then src_config a else redact_ext_config (src_config a)) k with
  | Some v => if jeqs v REDACTED_SENTINEL then None else Some v
  | None => None
  end.
Definition source_agrees (secrets : bool) (a : source) (old : option source) (b : source) : Prop :=
  src_kind b = src_kind a /\ src_host b = src_host a /\ src_port b = src_port a /\
  src_enabled b = src_enabled a /\ src_poll_interval_seconds b = src_poll_interval_seconds a /\
  forall k, cfg_get (src_config b) k =
    match carried secrets a k with
    | Some v => Some v
    | None => match old with Some o => cfg_get (src_config o) k | None => None end
    end.
(** The configuration column holds a dict, or nothing. *)
Definition config_ok (s : source) : Prop :=
  src_config s = JNull \/ exists d, src_config s = JObj d /\ NoDup d.*1.
Definition source_stored (s : source) : bool :=
  fits 200 (src_display_name s) && fits 40 (src_kind s) && fits 200 (src_host s) && is_int32 (src_port s) &&
  is_int32 (src_poll_interval_seconds s).

Lemma overlay_get cfg k : forall base, NoDup cfg.*1 ->
  dict_get (overlay base cfg) k = match dict_get cfg k with Some v => Some v | None => dict_get base k end.
Proof.
  unfold overlay. induction cfg as [|[j v] cfg IH]; intros base Hnd; [done|].
  cbn [fmap list_fmap fst] in Hnd. apply NoDup_cons in Hnd as [Hj Hnd]. cbn [foldl]. rewrite IH by done.
  cbn [fst snd dict_get]. rewrite dict_get_set. destruct (String.eqb_spec k j) as [->|]; [|done].
  destruct (dict_get cfg j) as [w|] eqn:E; [|done]. exfalso. apply Hj.
  apply dict_get_in in E. apply list_elem_of_fmap. by exists (j, w).
Qed.

Lemma filter_get (P : json -> bool) d k : NoDup d.*1 ->
  dict_get (filter (fun kv : string * json => P kv.2 = false) d) k =
    match dict_get d k with Some v => if P v then None else Some v | None => None end.
Proof.
  induction d as [|[j v] d IH]; intros Hnd; [done|].
  cbn [fmap list_fmap fst] in Hnd. apply NoDup_cons in Hnd as [Hj Hnd]. cbn [dict_get].
  destruct (P v) eqn:Ep.
  - rewrite filter_cons_False by (cbn; congruence). rewrite IH by done.
    destruct (String.eqb_spec k j) as [->|]; [|done]. rewrite Ep.
    destruct (dict_get d j) as [w|] eqn:E; [|done]. exfalso. apply Hj.
    apply dict_get_in in E. apply list_elem_of_fmap. by exists (j, w).
  - rewrite filter_cons_True by done. cbn [dict_get].
    destruct (String.eqb_spec k j); [by rewrite Ep|]. by apply IH.
Qed.

Lemma redact_keys d : (redact_pair <$> d).*1 = d.*1.
Proof.
  rewrite <- list_fmap_compose. apply list_fmap_ext. intros _ [k v] _. unfold compose, redact_pair. cbn [fst].
  by destruct (is_secret_subkey k).
Qed.

Definition exported_config (secrets : bool) (s : source) : json :=
  if secrets then src_config s else redact_ext_config (src_config s).
Lemma exported_dict secrets s : config_ok s ->
  NoDup (dict_of (exported_config secrets s)).*1 /\
  jor (exported_config secrets s) (JObj []) = JObj (dict_of (exported_config secrets s)).
Proof.
  unfold exported_config. intros [E|(d & E & Hd)]; rewrite E; destruct secrets; cbn; try (by split; [constructor|]).
  - split; [done|]. by destruct d.
  - split; [by rewrite redact_keys|]. by destruct d.
Qed.
Lemma cfg_get_or_none d k : cfg_get (dict_or_none d) k = dict_get d k.
Proof. by destruct d. Qed.

Lemma host_col h : fits 200 h = true -> required_col 200 (jor (JStr h) (JStr EmptyString)) = Some h.
Proof. intros H. by destruct h; cbn; [|rewrite H]. Qed.

Lemma restores_source now secrets s : source_stored s = true -> config_ok s ->
  Restores "display_name" src_display_name (make_source now)
    (fun s => dict_of (export_source secrets s)) (source_agrees secrets) config_ok s.
Proof.
  intros Hf Hc. destruct (exported_dict secrets s Hc) as [Hnd Hj].
  assert (Hsc : source_config (dict_of (export_source secrets s)) = Ret (dict_of (exported_config secrets s))).
  { unfold source_config. change (dget (dict_of (export_source secrets s)) "config") with (exported_config secrets s).
    by rewrite Hj. }
  unfold source_stored in Hf. bool_to_prop. set (cfg := dict_of (exported_config secrets s)) in *.
  assert (Hget : forall k, dict_get (filter (fun kv : string * json => jeqs kv.2 REDACTED_SENTINEL = false) cfg) k =
    carried secrets s k).
  { intros k. rewrite (filter_get (fun v => jeqs v REDACTED_SENTINEL)) by done. reflexivity. }
  assert (Hfn : NoDup (filter (fun kv : string * json => jeqs kv.2 REDACTED_SENTINEL = false) cfg).*1).
  { apply (sublist_NoDup _ _ Hnd), (fmap_sublist fst), sublist_filter. }
  split; [done| |].
  - intros id. unfold make_source, imported_config. rewrite Hsc. cbn -[integer_col].
    rewrite host_col, !int32_col by done.
    repeat match goal with H : fits _ _ = true |- _ => rewrite H; clear H end. cbn.
    eexists. split; [reflexivity|]. split_and!; try done.
    intros k. cbn [src_config]. rewrite cfg_get_or_none, Hget. by destruct (carried secrets s k).
  - intros id o Ho E. unfold make_source, imported_config. rewrite Hsc. cbn -[integer_col].
    destruct (exported_dict true o Ho) as [_ Hjo]. cbn [exported_config] in Hjo. unfold dict_of_col. rewrite Hjo.
    cbn -[integer_col]. rewrite host_col, !int32_col by done.
    repeat match goal with H : fits _ _ = true |- _ => rewrite H; clear H end. cbn.
    eexists. split; [reflexivity|]. split_and!; try done.
    intros k. cbn [src_config]. by rewrite cfg_get_or_none, overlay_get, Hget.
Qed.

(** ** Runtime settings *)

Definition setting_value (secrets : bool) (x : string * setting_row) : json :=
  if negb secrets && is_secret_key x.1 then JStr REDACTED_SENTINEL
  else dget (dict_of (jor (se_value x.2) (JObj []))) "v".
Definition setting_record (secrets : bool) (x : string * setting_row) : pydict :=
  [("name", JStr x.1); ("value", setting_value secrets x)].
Definition setting_stored (x : string * setting_row) : Prop :=
  plain_name x.1 /\ fits 80 x.1 = true /\ exists d, jor (se_value x.2) (JObj []) = JObj d.
(** The settings an import writes. *)
Definition setting_restored (secrets : bool) (x : string * setting_row) : bool :=
  negb (jeqs (setting_value secrets x) REDACTED_SENTINEL) && negb (startswith NETWORK_KEY_PREFIX x.1).

Lemma mapM_all {A B} (f : A -> outcome B) (g : A -> B) l : (forall a, a ∈ l -> f a = Ret (g a)) ->
  mapM f l = Ret (g <$> l).
Proof.
  induction l as [|a l IH]; intros H; [done|]. cbn [mapM]. rewrite (H a) by (by left).
  cbn [mbind outcome_bind]. rewrite IH; [done|]. intros b Hb. apply H. by right.
Qed.

Lemma export_settings_all secrets l : (forall x, x ∈ l -> setting_stored x) ->
  mapM (export_setting secrets) l = Ret ((fun x => JObj (setting_record secrets x)) <$> l).
Proof.
  intros H. apply mapM_all. intros x Hx. destruct (H x Hx) as (_ & _ & d & E).
  unfold export_setting, setting_record, setting_value. by rewrite E.
Qed.

Lemma plan_settings_all secrets existing l : (forall x, x ∈ l -> setting_stored x) ->
  exists items w, plan_runtime_settings existing (JList ((fun x => JObj (setting_record secrets x)) <$> l)) =
      Ret (SectionPlan SECTION_RUNTIME_SETTINGS items, w) /\
    it_record <$> writes (SectionPlan SECTION_RUNTIME_SETTINGS items) =
      setting_record secrets <$> filter (fun x => setting_restored secrets x = true) l.
Proof.
  intros Hl. unfold plan_runtime_settings. rewrite records_of_list. cbn [mbind outcome_bind].
  assert (Hp : forall x, setting_stored x -> exists it,
    plan_setting existing (JObj (setting_record secrets x)) = Ret [it] /\ it_record it = setting_record secrets x /\
    writeable it = setting_restored secrets x).
  { intros x ([Hn Hs] & _ & _). unfold plan_setting, setting_record, setting_restored. cbn [as_record mbind outcome_bind].
    change (dget [("name", JStr x.1); ("value", setting_value secrets x)] "name") with (JStr x.1).
    change (dget [("name", JStr x.1); ("value", setting_value secrets x)] "value") with (setting_value secrets x).
    rewrite strip_or_empty_plain by done. cbn [mbind outcome_bind]. rewrite Hn.
    destruct (jeqs _ _); [by eexists|]. destruct (startswith _ _); [by eexists|].
    destruct (bool_decide _); by eexists. }
  assert (Hm : exists items, (mapM (plan_setting existing) ((fun x => JObj (setting_record secrets x)) <$> l)) =
      Ret ((fun it => [it]) <$> items) /\
    it_record <$> filter (fun it => writeable it = true) items =
      setting_record secrets <$> filter (fun x => setting_restored secrets x = true) l).
  { induction l as [|x l IH]; [by exists []|]. destruct (Hp x (Hl x ltac:(by left))) as (it & Hit & Hr & Hw).
    destruct IH as (items & Hi & Hri); [intros y Hy; apply Hl; by right|].
    exists (it :: items). cbn [fmap list_fmap mapM]. rewrite Hit. cbn [mbind outcome_bind].
    split; [change (list_fmap _ _ (fun x => JObj (setting_record secrets x)) l) with
              ((fun x => JObj (setting_record secrets x)) <$> l); by rewrite Hi|].
    destruct (setting_restored secrets x) eqn:E.
    - rewrite filter_cons_True, (filter_cons_True _ x) by done. cbn. by rewrite Hr, Hri.
    - rewrite filter_cons_False, (filter_cons_False _ x) by congruence. done. }
  destruct Hm as (items & Hi & Hr). rewrite Hi. cbn [mbind outcome_bind]. eexists items, _. split.
  - do 2 f_equal. f_equal. clear. induction items as [|i l IH]; [done|]. cbn. by rewrite IH.
  - exact Hr.
Qed.

Lemma apply_settings_all secrets existing now l : forall items t res,
  NoDup l.*1 -> (forall x, x ∈ l -> t !! x.1 = existing !! x.1) -> (forall x, x ∈ l -> fits 80 x.1 = true) ->
  it_record <$> items = setting_record secrets <$> l ->
  exists t' res', apply_settings existing now items t res = Ret (true, t', res') /\
    (forall x, x ∈ l -> exists row, t' !! x.1 = Some row /\ se_value row = JObj [("v", setting_value secrets x)]) /\
    (forall n, n ∉ l.*1 -> t' !! n = t !! n).
Proof.
  induction l as [|x l IH]; intros items t res Hnd Hex Hfit Hit.
  { destruct items; [|done]. exists t, res. split_and!; [done|by intros x ?%elem_of_nil|done]. }
  destruct items as [|it items]; [done|]. injection Hit as Hr Hit.
  change (NoDup (x.1 :: l.*1)) in Hnd. apply NoDup_cons in Hnd as [Hx Hnd].
  assert (Hne : forall y, y ∈ l -> y.1 <> x.1).
  { intros y Hy E. apply Hx. rewrite <- E. by apply list_elem_of_fmap_2. }
  cbn [apply_settings]. rewrite Hr. change (key_of (setting_record secrets x) "name") with (Ret x.1).
  change (dget (setting_record secrets x) "value") with (setting_value secrets x). cbn [mbind outcome_bind].
  assert (Hgo : forall row res0, se_value row = JObj [("v", setting_value secrets x)] ->
    exists t' res', apply_settings existing now items (<[x.1 := row]> t) res0 = Ret (true, t', res') /\
    (forall y, y ∈ x :: l -> exists row, t' !! y.1 = Some row /\ se_value row = JObj [("v", setting_value secrets y)]) /\
    (forall n, n ∉ (x :: l).*1 -> t' !! n = t !! n)).
  { intros row res0 Hrow. destruct (IH items (<[x.1 := row]> t) res0) as (t' & res' & Ha & Hin & Hout); try done.
    - intros y Hy. rewrite lookup_insert_ne by (by apply not_eq_sym, Hne). apply Hex. by right.
    - intros y Hy. apply Hfit. by right.
    - exists t', res'. split_and!; [done| |].
      + intros y [->|Hy]%elem_of_cons; [|by apply Hin]. exists row. by rewrite (Hout x.1 Hx), lookup_insert_eq.
      + intros n. change ((x :: l).*1) with (x.1 :: l.*1). rewrite not_elem_of_cons. intros [Hn1 Hn2].
        rewrite (Hout n Hn2). by apply lookup_insert_ne. }
  destruct (existing !! x.1) as [old|] eqn:Eo.
  - by apply Hgo.
  - destruct (Hgo (SettingRow (JObj [("v", setting_value secrets x)]) now None)
      (bump_created SECTION_RUNTIME_SETTINGS res)) as (t' & res' & Ha & Hrest); [done|].
    rewrite Ha. cbn [mbind outcome_bind fst snd]. exists t', res'. split; [|done].
    rewrite (Hex x) by (by left). rewrite Eo, (Hfit x) by (by left). by rewrite bool_decide_true.
Qed.

(** ** Memberships and devices *)

Lemma macs_some t m id : device_by_mac t !! m = Some id -> exists d, t !! id = Some d /\ device_mac d = Some m.
Proof.
  unfold device_by_mac. intros H%elem_of_list_to_map_2. apply elem_of_reverse, list_elem_of_omap in H.
  destruct H as ([j d] & Hin & H). apply elem_of_map_to_list in Hin. cbn in H.
  destruct (device_mac d) as [m'|] eqn:E; [|done]. cbn in H. injection H as <- <-. eauto.
Qed.
Lemma mac_nonempty d m : device_mac d = Some m -> is_empty m = false.
Proof. unfold device_mac. destruct (as_str _) as [s|]; [|done]. destruct (is_empty s) eqn:E; [done|]. by intros [= <-]. Qed.

Definition member_record (g mac : string) : pydict := [("group_name", JStr g); ("device_mac", JStr mac)].

Lemma apply_members_grow groups macs l : forall members res x,
  apply_members groups macs l members res = Ret x -> forall m, m ∈ members -> m ∈ x.1.
Proof.
  induction l as [|it l IH]; intros members res x; cbn [apply_members]; [by intros [= <-]|].
  intros (g & _ & (d & _ & H)%bind_ret)%bind_ret m Hm.
  destruct g as [g|]; [|by eapply IH]. destruct d as [d|]; [|by eapply IH].
  destruct (bool_decide _); eapply IH; try exact H; [done|]. apply elem_of_app. by left.
Qed.

Lemma apply_members_all groups macs l : forall members res,
  Forall (fun it => exists g mac, it_record it = member_record g mac) l ->
  exists x, apply_members groups macs l members res = Ret x /\
    forall it g mac gid d, it ∈ l -> it_record it = member_record g mac -> groups !! g = Some gid ->
      macs !! mac = Some d -> (gid, d) ∈ x.1.
Proof.
  induction l as [|it l IH]; intros members res; intros Hl.
  { eexists. split; [reflexivity|]. by intros it g mac gid d ?%elem_of_nil. }
  apply Forall_cons in Hl as [(g & mac & Hr) Hl]. cbn [apply_members]. rewrite Hr.
  change (dget (member_record g mac) "group_name") with (JStr g).
  change (dget (member_record g mac) "device_mac") with (JStr mac). cbn [find_key mbind outcome_bind].
  assert (Hgo : forall mem res0, (forall gid d, groups !! g = Some gid -> macs !! mac = Some d -> (gid, d) ∈ mem) ->
    exists x, apply_members groups macs l mem res0 = Ret x /\
      forall it' g' mac' gid d, it' ∈ it :: l -> it_record it' = member_record g' mac' -> groups !! g' = Some gid ->
        macs !! mac' = Some d -> (gid, d) ∈ x.1).
  { intros mem res0 Hmem. destruct (IH mem res0 Hl) as (x & Hx & Hall). exists x. split; [done|].
    intros it' g' mac' gid d [->|Hin]%elem_of_cons Hr' Hg Hd; [|by eapply Hall].
    rewrite Hr in Hr'. injection Hr' as <- <-. eapply apply_members_grow; [exact Hx|]. by apply Hmem. }
  destruct (groups !! g) as [gid|] eqn:Eg; [|apply Hgo; congruence].
  destruct (macs !! mac) as [d|] eqn:Ed; [|apply Hgo; congruence].
  destruct (bool_decide _) eqn:Eb; apply Hgo; intros gid' d' [= <-] [= <-].
  - by apply bool_decide_eq_true in Eb.
  - apply elem_of_app. right. by left.
Qed.

(** The plan of exported memberships: one whose device is enrolled is written, or exists. *)
Lemma plan_members_all groups macs members (l : list (string * string)) :
  (forall x, x ∈ l -> plain_name x.1 /\ plain_name x.2) ->
  exists sp, plan_group_memberships groups macs members (JList ((fun x => JObj (member_record x.1 x.2)) <$> l)) = Ret sp /\
    Forall (fun it => exists g mac, it_record it = member_record g mac) (writes sp) /\
    forall x d, x ∈ l -> macs !! x.2 = Some d ->
      (exists it, it ∈ writes sp /\ it_record it = member_record x.1 x.2) \/
      (exists gid, groups !! x.1 = Some gid /\ (gid, d) ∈ members).
Proof.
  intros Hl. unfold plan_group_memberships. rewrite records_of_list. cbn [mbind outcome_bind].
  set (item := fun x : string * string => match plan_membership groups macs members (JObj (member_record x.1 x.2)) with
    | Ret it => it | Raise _ => PlanItem "" ToSkip "" [] end).
  assert (Hitem : forall x, x ∈ l -> plan_membership groups macs members (JObj (member_record x.1 x.2)) = Ret (item x) /\
    it_record (item x) = member_record x.1 x.2 /\
    forall d, macs !! x.2 = Some d -> writeable (item x) = true \/
      exists gid, groups !! x.1 = Some gid /\ (gid, d) ∈ members).
  { intros [g mac] Hx. destruct (Hl _ Hx) as [Hg Hm]. cbn [fst snd] in *. unfold item. cbn [fst snd].
    unfold plan_membership. cbn [as_record mbind outcome_bind].
    change (dget (member_record g mac) "group_name") with (JStr g).
    change (dget (member_record g mac) "device_mac") with (JStr mac).
    rewrite !strip_or_empty_plain by done. cbn [mbind outcome_bind].
    destruct (macs !! mac) as [d|]; [|by split_and!].
    destruct (groups !! g) as [gid|]; [|split_and!; [done|done|by left]].
    destruct (bool_decide _) eqn:Eb; split_and!; try done; intros d' [= <-]; [right|by left].
    apply bool_decide_eq_true in Eb. eauto. }
  assert (Hm : mapM (plan_membership groups macs members) ((fun x => JObj (member_record x.1 x.2)) <$> l) = Ret (item <$> l)).
  { clear Hl. induction l as [|x l IH]; [done|]. cbn [fmap list_fmap mapM].
    rewrite (proj1 (Hitem x ltac:(by left))). cbn [mbind outcome_bind].
    change (list_fmap _ _ (fun x => JObj (member_record x.1 x.2)) l) with ((fun x => JObj (member_record x.1 x.2)) <$> l).
    rewrite IH; [done|]. intros y Hy. apply Hitem. by right. }
  rewrite Hm. cbn [mbind outcome_bind]. eexists. split; [reflexivity|]. unfold writes. cbn [sp_items]. split.
  - apply Forall_forall. intros it [_ Hin]%list_elem_of_filter. apply list_elem_of_fmap in Hin as (x & -> & Hx).
    destruct (Hitem x Hx) as (_ & Hr & _). eauto.
  - intros x d Hx Hd. destruct (Hitem x Hx) as (_ & Hr & Hw). destruct (Hw d Hd) as [Hw'|?]; [left|by right].
    exists (item x). split; [|done]. apply list_elem_of_filter. split; [done|]. by apply list_elem_of_fmap_2.
Qed.

(** A device record: MAC, configuration, mode. *)
Definition device_record (x : string * json * json) : pydict :=
  [("mac_address", JStr x.1.1); ("desired_config", x.1.2); ("desired_mode", x.2)].
Definition exported_device (d : device) : option (string * json * json) :=
  m ← device_mac d;
  if bool_decide (col d "desired_config" = JNull) && bool_decide (col d "desired_mode" = JNull) then None
  else Some (m, col d "desired_config", col d "desired_mode").
Lemma export_devices_all (l : list device) :
  omap export_device l = (fun x => JObj (device_record x)) <$> omap exported_device l.
Proof.
  induction l as [|d l IH]; [done|]. cbn. unfold export_device at 1, exported_device at 1.
  destruct (device_mac d) as [m|]; [|done]. cbn. destruct (_ && _); [done|]. cbn. by rewrite <- IH.
Qed.

Lemma plan_devices_all macs (l : list (string * json * json)) : (forall x, x ∈ l -> plain_name x.1.1) ->
  exists sp, plan_device_config macs (JList ((fun x => JObj (device_record x)) <$> l)) = Ret sp /\
    it_record <$> writes sp = device_record <$> filter (fun x => is_Some (macs !! x.1.1)) l.
Proof.
  intros Hl. unfold plan_device_config. rewrite records_of_list. cbn [mbind outcome_bind].
  set (item := fun x : string * json * json => match plan_device macs (JObj (device_record x)) with
    | Ret it => it | Raise _ => PlanItem "" ToSkip "" [] end).
  assert (Hitem : forall x, plain_name x.1.1 -> plan_device macs (JObj (device_record x)) = Ret (item x) /\
    it_record (item x) = device_record x /\ (writeable (item x) = true <-> is_Some (macs !! x.1.1))).
  { intros [[m cfg] mode] Hm. cbn [fst] in *. unfold item. unfold plan_device. cbn [as_record mbind outcome_bind].
    change (dget (device_record (m, cfg, mode)) "mac_address") with (JStr m).
    rewrite strip_or_empty_plain by done. cbn [mbind outcome_bind]. rewrite (proj1 Hm).
    destruct (bool_decide _) eqn:Eb; split_and!; try done.
    - apply bool_decide_eq_true in Eb. done.
    - apply bool_decide_eq_false in Eb. done. }
  assert (Hm : mapM (plan_device macs) ((fun x => JObj (device_record x)) <$> l) = Ret (item <$> l)).
  { induction l as [|x l IH]; [done|]. cbn [fmap list_fmap mapM].
    rewrite (proj1 (Hitem x (Hl x ltac:(by left)))). cbn [mbind outcome_bind].
    change (list_fmap _ _ (fun x => JObj (device_record x)) l) with ((fun x => JObj (device_record x)) <$> l).
    rewrite IH; [done|]. intros y Hy. apply Hl. by right. }
  rewrite Hm. cbn [mbind outcome_bind]. eexists. split; [reflexivity|]. unfold writes. cbn [sp_items]. clear Hm.
  induction l as [|x l IH]; [done|]. destruct (Hitem x (Hl x ltac:(by left))) as (_ & Hr & Hw).
  specialize (IH (fun y Hy => Hl y ltac:(by right))). cbn [fmap list_fmap].
  change (list_fmap _ _ item l) with (item <$> l). destruct (decide (is_Some (macs !! x.1.1))) as [E|E].
  - rewrite filter_cons_True, (filter_cons_True _ x) by tauto. cbn. by rewrite Hr, IH.
  - rewrite filter_cons_False, (filter_cons_False _ x) by tauto. done.
Qed.

Lemma apply_devices_all macs now l : forall items t res,
  NoDup (l.*1.*1) -> (forall m m' id, macs !! m = Some id -> macs !! m' = Some id -> m = m') ->
  (forall x, x ∈ l -> is_Some (string_col 40 x.2)) -> it_record <$> items = device_record <$> l ->
  exists t' res', apply_devices macs now items t res = Ret (true, t', res') /\
    (forall x id d, x ∈ l -> macs !! x.1.1 = Some id -> t !! id = Some d ->
       t' !! id = Some (restore_device now (device_record x) d)) /\
    (forall id, (forall m, macs !! m = Some id -> m ∉ l.*1.*1) -> t' !! id = t !! id).
Proof.
  induction l as [|x l IH]; intros items t res Hnd Hinj Hmode Hit.
  { destruct items; [|done]. exists t, res. split_and!; [done|by intros ? ? ? ?%elem_of_nil|done]. }
  destruct items as [|it items]; [done|]. injection Hit as Hr Hit.
  change (NoDup (x.1.1 :: l.*1.*1)) in Hnd. apply NoDup_cons in Hnd as [Hx Hnd].
  assert (Hml : forall y, y ∈ l -> is_Some (string_col 40 y.2)) by (intros y Hy; apply Hmode; by right).
  cbn [apply_devices]. rewrite Hr. change (dget (device_record x) "mac_address") with (JStr x.1.1).
  change (dget (device_record x) "desired_mode") with x.2. cbn [find_key mbind outcome_bind].
  destruct (macs !! x.1.1) as [id0|] eqn:Em.
  - destruct (IH items (alter (restore_device now (device_record x)) id0 t)
      (bump_updated SECTION_DEVICE_CONFIG res) Hnd Hinj Hml Hit) as (t' & res' & Ha & Hin & Hout).
    rewrite Ha. cbn [mbind outcome_bind fst snd]. rewrite bool_decide_true by (apply Hmode; by left).
    exists t', res'. split_and!; [done| |].
    + intros y id d [->|Hy]%elem_of_cons Hm Hd.
      * assert (id0 = id) as -> by congruence. rewrite Hout.
        -- by rewrite lookup_alter_eq, Hd.
        -- intros m Hm'. by rewrite (Hinj m x.1.1 id Hm' Em).
      * apply Hin; [done|done|]. rewrite lookup_alter_ne; [done|]. intros ->. apply Hx.
        rewrite (Hinj _ _ _ Em Hm). by do 2 apply list_elem_of_fmap_2.
    + intros id Hid. change ((x :: l).*1.*1) with (x.1.1 :: l.*1.*1) in Hid. rewrite Hout.
      * apply lookup_alter_ne. intros ->. specialize (Hid _ Em). rewrite not_elem_of_cons in Hid. tauto.
      * intros m Hm. specialize (Hid m Hm). rewrite not_elem_of_cons in Hid. tauto.
  - destruct (IH items t (bump_skipped SECTION_DEVICE_CONFIG res) Hnd Hinj Hml Hit) as (t' & res' & Ha & Hin & Hout).
    exists t', res'. split_and!; [done| |].
    + intros y id d [->|Hy]%elem_of_cons Hm Hd; [congruence|by apply Hin].
    + intros id Hid. apply Hout. intros m Hm. specialize (Hid m Hm).
      change ((x :: l).*1.*1) with (x.1.1 :: l.*1.*1) in Hid. rewrite not_elem_of_cons in Hid. tauto.
Qed.
