(* ===== verification/RestoreTheorems.v ===== *)
(** * A backup restores: export, encryption, plan and import composed *)

From stdpp Require Import pretty.
From S2P Require Import Prelude PyFloat Commands QueueInterface WatchdogActions WatchdogRules Schedules.
From S2P Require Import ExternalSensors RuntimeSettings Devices TenantScope Enrollment RoleBindings.
From S2P Require Import Identity Accounts ConfigBackup ConfigRestore ConfigFacts ConfigTheorems ConfigRoundtrip.
From S2P Require Notifications.
Local Open Scope string_scope.
Local Open Scope list_scope.
Local Open Scope Z_scope.

(** ** The file *)

Lemma hex_byte a : is_space (hex_char (Ascii.nat_of_ascii a / 16)) = false /\
  exists x y, hex_val (hex_char (Ascii.nat_of_ascii a / 16)) = Some x /\
    hex_val (hex_char (Ascii.nat_of_ascii a mod 16)) = Some y /\ Ascii.ascii_of_nat (x * 16 + y) = a.
Proof.
  destruct a as [[] [] [] [] [] [] [] []]; (split; [vm_compute; reflexivity|]);
    eexists _, _; (split; [vm_compute; reflexivity|split; vm_compute; reflexivity]).
Qed.
Lemma fromhex_hex s : fromhex (hex s) = Ret s.
Proof.
  induction s as [|a s IH]; [done|]. destruct (hex_byte a) as (Hs & x & y & Hx & Hy & Ha).
  cbn [hex fromhex]. rewrite Hs, Hx, Hy, IH. cbn [mbind outcome_bind]. by rewrite Ha.
Qed.

Section file.
Context (json_dumps : json -> string) (json_loads : string -> outcome json).
Context (scrypt : string -> string -> string).
Context (aes_encrypt : string -> string -> string -> string)
        (aes_decrypt : string -> string -> string -> outcome string).

(** The document of an exported file, whatever the encryption. *)
Lemma parse_exported c secrets pw salt nonce ts h doc file :
  backup_document c secrets ts h = Ret doc ->
  export_config json_dumps scrypt aes_encrypt c secrets pw salt nonce ts h = Ret file ->
  json_loads (json_dumps doc) = Ret doc ->
  (forall ct, let e := JObj (envelope salt nonce ct ts) in json_loads (json_dumps e) = Ret e) ->
  (forall key plain, aes_decrypt key nonce (aes_encrypt key nonce plain) = Ret plain) ->
  exists d, doc = JObj d /\ parse_document json_loads scrypt aes_decrypt file pw = Ret d.
Proof.
  intros Hdoc Hexp Hlaw Henv Haes. unfold export_config in Hexp. rewrite Hdoc in Hexp. cbn [mbind outcome_bind] in Hexp.
  unfold backup_document in Hdoc. apply bind_ret in Hdoc as (sections & _ & [= <-]).
  eexists. split; [reflexivity|]. unfold parse_document. destruct secrets; cbn [andb] in Hexp.
  - destruct (is_empty pw) eqn:Epw; [done|]. unfold encrypt_document in Hexp. rewrite Epw in Hexp.
    injection Hexp as <-. rewrite Henv.
    change (jeqs (dget (envelope salt nonce _ ts) "format") FORMAT_NAME) with true.
    change (truthy (dget (envelope salt nonce _ ts) "encrypted")) with true. cbn [negb].
    unfold decrypt_document. rewrite Epw. unfold envelope_bytes. cbn [dict_get envelope String.eqb Ascii.eqb Bool.eqb].
    rewrite !fromhex_hex. cbn [mbind outcome_bind]. rewrite Haes, Hlaw. cbn [as_record mbind outcome_bind]. reflexivity.
  - injection Hexp as <-. rewrite Hlaw. cbn [as_record mbind outcome_bind]. reflexivity.
Qed.
End file.

(** ** What can be backed up, and what is back *)

Definition rows {A} (c : caller) (t : table A) : list A := (visible c t).*2.
Definition site_names (c : caller) (h : hub_config) : gmap string string :=
  names_by_id si_name (visible c (hc_sites h)).
Definition group_names (c : caller) (h : hub_config) : gmap string string :=
  names_by_id gp_name (visible c (hc_groups h)).

(** The rows of a section: names the plan reads back, distinct, and columns in their bounds. *)
Record backed {A} (key : A -> string) (stored : A -> Prop) (c : caller) (t : table A) : Prop := {
  bk_row a : a ∈ rows c t -> plain_name (key a) /\ stored a;
  bk_names : NoDup (key <$> rows c t)
}.
Arguments bk_row {A key stored c t}.
Arguments bk_names {A key stored c t}.
Record exportable (c : caller) (h : hub_config) : Prop := {
  xp_settings n row : hc_settings h !! n = Some row -> setting_stored (n, row);
  xp_sites : backed si_name (fun s => site_stored s = true) c (hc_sites h);
  xp_groups : backed gp_name (fun g => group_stored g = true) c (hc_groups h);
  xp_rules : backed rule_name (fun r => rule_stored r = true) c (hc_rules h);
  xp_schedules : backed sched_name (fun s => schedule_stored s = true) c (hc_schedules h);
  xp_scenes : backed scn_name (fun s => scene_stored s = true) c (hc_scenes h);
  xp_sources : backed src_display_name (fun s => source_stored s = true /\ config_ok s) c (hc_sources h);
  xp_macs i d m : hc_devices h !! i = Some d -> device_mac d = Some m ->
    plain_name m /\ is_Some (string_col 40 (col d "desired_mode"));
  xp_distinct i j d e m : hc_devices h !! i = Some d -> hc_devices h !! j = Some e ->
    device_mac d = Some m -> device_mac e = Some m -> i = j
}.
(** The hub the backup is restored to: its caller has an organisation to create rows in. *)
Record importable (ulid : nat -> string) (c : caller) (h : hub_config) : Prop := {
  im_undrawn : undrawn ulid h;
  im_org : is_Some (ca_org c);
  im_sources_ok id s : (id, s) ∈ visible c (hc_sources h) -> config_ok s
}.

(** A group finds its site among those the hub had before the import, or gets none. *)
Definition site_before (before : gmap string string) (name : json) : json :=
  match name with JStr n => if bool_decide (is_Some (before !! n)) then name else JNull | _ => JNull end.

(** The backup of [h] is back in [h2], over [h1]. *)
Record brought_back (c c1 : caller) (secrets : bool) (h h1 h2 : hub_config) : Prop := {
  bb_settings n row : hc_settings h !! n = Some row -> setting_restored secrets (n, row) = true ->
    exists row2, hc_settings h2 !! n = Some row2 /\
      se_value row2 = JObj [("v", setting_value secrets (n, row))];
  bb_sites : comes_back c1 si_name (fun a _ b => export_site b = export_site a)
    (rows c (hc_sites h)) (hc_sites h1) (hc_sites h2);
  bb_groups : comes_back c1 gp_name
    (fun a _ b => export_group (site_names c1 h2) b =
       regrouped (site_names c h) (site_before (index si_name (visible c1 (hc_sites h1)))) a)
    (rows c (hc_groups h)) (hc_groups h1) (hc_groups h2);
  bb_rules : comes_back c1 rule_name
    (fun a _ b => export_rule (site_names c1 h2) b = export_rule (site_names c h) (with_stop a))
    (rows c (hc_rules h)) (hc_rules h1) (hc_rules h2);
  bb_schedules : comes_back c1 sched_name (fun a _ b => export_schedule b = export_schedule a)
    (rows c (hc_schedules h)) (hc_schedules h1) (hc_schedules h2);
  bb_scenes : comes_back c1 scn_name (fun a _ b => export_scene b = export_scene a)
    (rows c (hc_scenes h)) (hc_scenes h1) (hc_scenes h2);
  bb_sources : comes_back c1 src_display_name (source_agrees secrets)
    (rows c (hc_sources h)) (hc_sources h1) (hc_sources h2);
  bb_members g i name d m j : (g, i) ∈ hc_members h -> group_names c h !! g = Some name ->
    hc_devices h !! i = Some d -> device_mac d = Some m -> device_by_mac (hc_devices h1) !! m = Some j ->
    exists g2, (g2, j) ∈ hc_members h2 /\ group_names c1 h2 !! g2 = Some name;
  bb_devices i d m j : hc_devices h !! i = Some d -> device_mac d = Some m ->
    device_by_mac (hc_devices h1) !! m = Some j ->
    col d "desired_config" <> JNull \/ col d "desired_mode" <> JNull ->
    exists d2, hc_devices h2 !! j = Some d2 /\ col d2 "desired_config" = col d "desired_config" /\
      col d2 "desired_mode" = col d "desired_mode"
}.

(** ** The plan of a backup *)

Lemma elem_of_visible_rows {A} c (t : table A) a : a ∈ rows c t <-> exists id, (id, a) ∈ visible c t.
Proof.
  unfold rows. rewrite list_elem_of_fmap. split.
  - intros ([id x] & -> & H). eauto.
  - intros [id H]. by exists (id, a).
Qed.
Lemma index_known {A} (key : A -> string) c (t : table A) id o : t !! id = Some o ->
  sees c (Some (ow_org o)) = true -> exists j, index key (visible c t) !! key (ow_row o) = Some j.
Proof.
  intros Ho Hs. destruct (index key (visible c t) !! key (ow_row o)) as [j|] eqn:E; [eauto|].
  exfalso. eapply index_none; [exact E| |reflexivity]. apply elem_of_visible. eauto.
Qed.

Section plan_section.
Context {A : Type} (key : A -> string) (stored : A -> Prop) (print : A -> json) (c : caller) (t : table A).
Context (Hprint : forall a, print a = JObj (dict_of (print a))).
Context (Hb : backed key stored c t).

Lemma plan_rows field existing note :
  (forall a, key_of (dict_of (print a)) field = Ret (key a)) ->
  (forall a known, stored a -> exists n, note known (dict_of (print a)) = Ret n) ->
  exists items, plan_named_loop field existing note [] (export_rows key print c t) = Ret items /\
    planned (fun a => dict_of (print a)) (sorted_by key (rows c t)) items.
Proof.
  intros Hk Hnote. set (l := sorted_by key (rows c t)).
  assert (Hp : l ≡ₚ rows c t) by apply sorted_by_perm.
  assert (Hex : export_rows key print c t = (fun a => JObj (dict_of (print a))) <$> l).
  { unfold export_rows. apply list_fmap_ext. intros _ a _. apply Hprint. }
  destruct (plan_named_all field key note (fun a => dict_of (print a)) existing l []) as (items & Hi & Hpl).
  - intros a Ha. rewrite Hp in Ha. split; [by apply (bk_row Hb)|apply Hk].
  - intros a known Ha. rewrite Hp in Ha. by apply Hnote, (bk_row Hb).
  - rewrite Hp. apply (bk_names Hb).
  - by intros a _ ?%elem_of_nil.
  - exists items. by rewrite Hex.
Qed.
End plan_section.

(** The exported memberships: group name and MAC. *)
Definition exported_member (c : caller) (h : hub_config) (m : string * string) : option (string * string) :=
  g ← group_names c h !! m.1;
  mac ← hc_devices h !! m.2 ≫= device_mac;
  if is_empty g then None else Some (g, mac).
Lemma omap_fmap_ext {A B C} (f : A -> option B) (g : A -> option C) (k : C -> B) (l : list A) :
  (forall a, f a = k <$> g a) -> omap f l = k <$> omap g l.
Proof.
  intros H. induction l as [|a l IH]; [done|]. cbn. rewrite (H a), IH. by destruct (g a).
Qed.
Lemma export_members_all c h : export_members c h =
  (fun x => JObj (member_record x.1 x.2)) <$> omap (exported_member c h) (hc_members h).
Proof.
  unfold export_members. cbv zeta. apply omap_fmap_ext. intros m. unfold exported_member, group_names.
  destruct (names_by_id _ _ !! m.1) as [g|]; [|done]. cbn [mbind option_bind].
  destruct (_ ≫= device_mac) as [mac|]; [|done]. cbn [mbind option_bind]. by destruct (is_empty g).
Qed.
Definition device_rows (h : hub_config) : list device :=
  sorted_by (fun d => default "" (as_str (col d "mac_address"))) ((map_to_list (hc_devices h)).*2).
Definition setting_rows (h : hub_config) : list (string * setting_row) :=
  sorted_by fst (map_to_list (hc_settings h)).

Lemma elem_of_setting_rows h n row : (n, row) ∈ setting_rows h <-> hc_settings h !! n = Some row.
Proof. unfold setting_rows. rewrite sorted_by_perm. apply elem_of_map_to_list. Qed.
Lemma elem_of_device_rows h d : d ∈ device_rows h <-> exists i, hc_devices h !! i = Some d.
Proof.
  unfold device_rows. rewrite sorted_by_perm, list_elem_of_fmap. split.
  - intros ([i x] & -> & H%elem_of_map_to_list). eauto.
  - intros [i H]. exists (i, d). by rewrite elem_of_map_to_list.
Qed.

(** The plan of a whole backup: every record of the file, section by section. *)
Record backup_plan (c c1 : caller) (secrets : bool) (h h1 : hub_config) (p : import_plan) : Prop := {
  bp_plan : exists rs si gr me ru sc sn ex de,
    ip_sections p = [SectionPlan SECTION_RUNTIME_SETTINGS rs; SectionPlan SECTION_SITES si;
      SectionPlan SECTION_GROUPS gr; me; SectionPlan SECTION_WATCHDOG_RULES ru;
      SectionPlan SECTION_SCHEDULES sc; SectionPlan SECTION_SCENES sn;
      SectionPlan SECTION_EXTERNAL_SOURCES ex; de] /\
    it_record <$> writes (SectionPlan SECTION_RUNTIME_SETTINGS rs) =
      setting_record secrets <$> filter (fun x => setting_restored secrets x = true) (setting_rows h) /\
    planned (fun s => dict_of (export_site s)) (sorted_by si_name (rows c (hc_sites h))) si /\
    planned (fun g => dict_of (export_group (site_names c h) g)) (sorted_by gp_name (rows c (hc_groups h))) gr /\
    (Forall (fun it => exists g mac, it_record it = member_record g mac) (writes me) /\
     forall x d, x ∈ omap (exported_member c h) (hc_members h) -> device_by_mac (hc_devices h1) !! x.2 = Some d ->
      (exists it, it ∈ writes me /\ it_record it = member_record x.1 x.2) \/
      (exists g, index gp_name (visible c1 (hc_groups h1)) !! x.1 = Some g /\ (g, d) ∈ hc_members h1)) /\
    planned (fun r => dict_of (export_rule (site_names c h) r)) (sorted_by rule_name (rows c (hc_rules h))) ru /\
    planned (fun s => dict_of (export_schedule s)) (sorted_by sched_name (rows c (hc_schedules h))) sc /\
    planned (fun s => dict_of (export_scene s)) (sorted_by scn_name (rows c (hc_scenes h))) sn /\
    planned (fun s => dict_of (export_source secrets s)) (sorted_by src_display_name (rows c (hc_sources h))) ex /\
    it_record <$> writes de = device_record <$>
      filter (fun x => is_Some (device_by_mac (hc_devices h1) !! x.1.1)) (omap exported_device (device_rows h))
}.

Lemma source_noted secrets s : config_ok s -> forall known,
  exists n, source_note known (dict_of (export_source secrets s)) = Ret n.
Proof.
  intros Hc known. unfold source_note, source_config.
  change (dget (dict_of (export_source secrets s)) "config") with (exported_config secrets s).
  rewrite (proj2 (exported_dict secrets s Hc)). cbn [mbind outcome_bind]. eauto.
Qed.

Lemma exported_macs_plain c h : exportable c h -> forall x,
  x ∈ omap exported_device (device_rows h) -> plain_name x.1.1 /\ is_Some (string_col 40 x.2).
Proof.
  intros Hx x Hin. apply list_elem_of_omap in Hin as (d & [i Hd]%elem_of_device_rows & E).
  unfold exported_device in E. destruct (device_mac d) as [m|] eqn:Em; [|done]. cbn [mbind option_bind] in E.
  destruct (_ && _); [done|]. injection E as <-. cbn. by eapply (xp_macs c h Hx).
Qed.
Lemma exported_members_plain c h : exportable c h -> forall x,
  x ∈ omap (exported_member c h) (hc_members h) -> plain_name x.1 /\ plain_name x.2.
Proof.
  intros Hx x Hin. apply list_elem_of_omap in Hin as (m & _ & E). unfold exported_member in E.
  destruct (group_names c h !! m.1) as [g|] eqn:Eg; [|done]. cbn [mbind option_bind] in E.
  destruct (hc_devices h !! m.2) as [d|] eqn:Ed; [|done]. cbn [mbind option_bind] in E.
  destruct (device_mac d) as [mac|] eqn:Em; [|done]. cbn [mbind option_bind] in E.
  destruct (is_empty g); [done|]. injection E as <-. cbn [fst snd]. split.
  - apply names_by_id_some in Eg as (a & Ha & <-). apply (bk_row (xp_groups c h Hx)), elem_of_visible_rows. eauto.
  - by apply (xp_macs c h Hx m.2 d).
Qed.

Lemma plan_named_backed {A} (key : A -> string) (stored : A -> Prop) (print : A -> json) section existing c t :
  backed key stored c t -> (forall a, print a = JObj (dict_of (print a))) ->
  (forall a, key_of (dict_of (print a)) "name" = Ret (key a)) ->
  exists items, plan_named section existing (JList (export_rows key print c t)) = Ret (SectionPlan section items) /\
    planned (fun a => dict_of (print a)) (sorted_by key (rows c t)) items.
Proof.
  intros Hb Hp Hk. unfold plan_named. rewrite records_of_list. cbn [mbind outcome_bind].
  destruct (plan_rows key stored print c t Hp Hb "name" existing
    (fun known _ => Ret (if known then "updates the existing record" else "")) Hk) as (items & Hi & Hpl); [eauto|].
  rewrite Hi. cbn [mbind outcome_bind]. eauto.
Qed.
Lemma plan_sources_backed secrets existing c t :
  backed src_display_name (fun s => source_stored s = true /\ config_ok s) c t ->
  exists items, plan_external_sources existing
      (JList (export_rows src_display_name (export_source secrets) c t)) =
      Ret (SectionPlan SECTION_EXTERNAL_SOURCES items) /\
    planned (fun s => dict_of (export_source secrets s)) (sorted_by src_display_name (rows c t)) items.
Proof.
  intros Hb. unfold plan_external_sources. rewrite records_of_list. cbn [mbind outcome_bind].
  destruct (plan_rows src_display_name (fun s => source_stored s = true /\ config_ok s) (export_source secrets)
    c t (fun _ => eq_refl) Hb "display_name" existing source_note (fun _ => eq_refl)) as (items & Hi & Hpl).
  { intros a known [_ Hc]. by apply source_noted. }
  rewrite Hi. cbn [mbind outcome_bind]. eauto.
Qed.

Lemma plan_backup c c1 secrets h h1 sections doc : exportable c h ->
  collect_sections c secrets h = Ret sections ->
  exists p, plan_sections c1 doc sections h1 = Ret p /\ backup_plan c c1 secrets h h1 p.
Proof.
  intros Hx Hs. unfold collect_sections in Hs.
  assert (Hset : forall x, x ∈ setting_rows h -> setting_stored x).
  { intros [n row] Hin. by apply (xp_settings c h Hx), elem_of_setting_rows. }
  fold (setting_rows h) in Hs. rewrite (export_settings_all secrets _ Hset) in Hs.
  cbn [mbind outcome_bind] in Hs. cbv zeta in Hs. fold (site_names c h) in Hs. fold (device_rows h) in Hs.
  rewrite export_members_all, export_devices_all in Hs. injection Hs as <-.
  destruct (plan_settings_all secrets (hc_settings h1) _ Hset) as (rs & w & Hrs & Rrs).
  destruct (plan_named_backed si_name _ export_site SECTION_SITES
    (index si_name (visible c1 (hc_sites h1))) _ _ (xp_sites c h Hx)) as (si & Hsi & Psi); [done|done|].
  destruct (plan_named_backed gp_name _ (export_group (site_names c h)) SECTION_GROUPS
    (index gp_name (visible c1 (hc_groups h1))) _ _ (xp_groups c h Hx)) as (gr & Hgr & Pgr); [done|done|].
  destruct (plan_members_all (index gp_name (visible c1 (hc_groups h1))) (device_by_mac (hc_devices h1))
    (hc_members h1) _ (exported_members_plain c h Hx)) as (me & Hme & Pme).
  destruct (plan_named_backed rule_name _ (export_rule (site_names c h)) SECTION_WATCHDOG_RULES
    (index rule_name (visible c1 (hc_rules h1))) _ _ (xp_rules c h Hx)) as (ru & Hru & Pru); [done|done|].
  destruct (plan_named_backed sched_name _ export_schedule SECTION_SCHEDULES
    (index sched_name (visible c1 (hc_schedules h1))) _ _ (xp_schedules c h Hx)) as (sc & Hsc & Psc); [done|done|].
  destruct (plan_named_backed scn_name _ export_scene SECTION_SCENES
    (index scn_name (visible c1 (hc_scenes h1))) _ _ (xp_scenes c h Hx)) as (sn & Hsn & Psn); [done|done|].
  destruct (plan_sources_backed secrets (index src_display_name (visible c1 (hc_sources h1))) _ _
    (xp_sources c h Hx)) as (ex & Hex & Pex).
  destruct (plan_devices_all (device_by_mac (hc_devices h1)) _
    (fun x Hin => proj1 (exported_macs_plain c h Hx x Hin))) as (de & Hde & Pde).
  eexists. split.
  - unfold plan_sections. cbv zeta.
    repeat match goal with
    | H : ?f ?a (JList ?l) = Ret _ |- context [?f ?a (dget_default ?s ?k ?d)] =>
      change (dget_default s k d) with (JList l); rewrite H; cbn [mbind outcome_bind fst snd]
    end. reflexivity.
  - constructor. exists rs, si, gr, me, ru, sc, sn, ex, de. cbn [ip_sections].
    refine (conj eq_refl (conj Rrs (conj Psi (conj Pgr (conj Pme (conj Pru (conj Psc (conj Psn (conj Pex _))))))))).
    exact Pde.
Qed.

(** ** The import of a backup *)

Lemma index_uniq {A} (key : A -> string) c (t : table A) n : (exists o id, t !! id = Some o /\
    sees c (Some (ow_org o)) = true /\ key (ow_row o) = n) ->
  exists j, index key (visible c t) !! n = Some j /\ names_by_id key (visible c t) !! j = Some n.
Proof.
  intros (o & id & Ho & Hs & <-). destruct (index_known key c t id o Ho Hs) as [j Hj]. exists j.
  split; [done|]. apply index_some in Hj as (a & Ha & E). apply names_by_id_some. eauto.
Qed.

(** A restored name leads to a site of that name. *)
Lemma sites_back c c1 h (t1 t2 : table site_cols) :
  comes_back c1 si_name (fun a _ b => export_site b = export_site a) (rows c (hc_sites h)) t1 t2 ->
  finds_sites (site_names c h) (index si_name (visible c1 t2)) (names_by_id si_name (visible c1 t2)) (fun v => v).
Proof.
  intros Hb [i|]; [|by exists None]. unfold site_name. cbn [mbind option_bind].
  destruct (site_names c h !! i) as [n|] eqn:E; [|by exists None]. cbn [ojson].
  apply names_by_id_some in E as (a & Ha & <-).
  destruct (Hb a) as (id & o & Ho & Hs & Hk & _); [by apply elem_of_visible_rows; exists i|].
  destruct (index_uniq si_name c1 t2 (si_name a)) as (j & Hj & Hn); [eauto|].
  exists (Some j). cbn. by rewrite Hj, Hn.
Qed.

(** A group's site is found before the import, and named the same after it. *)
Lemma sites_before c c1 h (t1 t2 : table site_cols) : kept c1 si_name t1 t2 ->
  finds_sites (site_names c h) (index si_name (visible c1 t1)) (names_by_id si_name (visible c1 t2))
    (site_before (index si_name (visible c1 t1))).
Proof.
  intros [Hk _] o. unfold site_name. destruct (o ≫= _) as [n|]; [|by exists None]. cbn [ojson find_key site_before].
  eexists. split; [reflexivity|]. destruct (index si_name (visible c1 t1) !! n) as [j|] eqn:E; [|done].
  rewrite bool_decide_true by eauto. apply index_visible in E as (x & Hx & Hs & <-).
  destruct (Hk j x Hx) as (x' & Hx' & Ho & Hn & _). cbn [mbind option_bind].
  rewrite (proj2 (names_by_id_some si_name c1 t2 j (si_name (ow_row x)))); [done|].
  exists (ow_row x'). split; [|done]. apply elem_of_visible. exists x'. by rewrite Ho.
Qed.

Section restore.
Context (ulid : nat -> string) `{!Inj (=) (=) ulid}.
Context (c c1 : caller) (now : time) (secrets : bool) (h h1 : hub_config).
Context (Hx : exportable c h) (Hi : importable ulid c1 h1).

Lemma apply_settings_back rs :
  it_record <$> writes rs =
    setting_record secrets <$> filter (fun x => setting_restored secrets x = true) (setting_rows h) ->
  exists t res, apply_runtime_settings rs now (hc_settings h1) (ImportResult ∅ ∅ ∅) = Ret (true, t, res) /\
    forall n row, hc_settings h !! n = Some row -> setting_restored secrets (n, row) = true ->
      exists row2, t !! n = Some row2 /\ se_value row2 = JObj [("v", setting_value secrets (n, row))].
Proof.
  intros Hrec. unfold apply_runtime_settings.
  assert (Hnd : NoDup (filter (fun x => setting_restored secrets x = true) (setting_rows h)).*1).
  { apply (sublist_NoDup _ (setting_rows h).*1).
    - unfold setting_rows. rewrite sorted_by_perm. apply NoDup_fst_map_to_list.
    - apply (fmap_sublist fst), sublist_filter. }
  destruct (apply_settings_all secrets (hc_settings h1) now _ (writes rs) (hc_settings h1)
    (count_skips rs (ImportResult ∅ ∅ ∅)) Hnd) as (t' & res' & Ha & Hin & _); [done| |done|].
  - intros [n row] [_ Hr]%list_elem_of_filter. apply elem_of_setting_rows in Hr.
    by apply (xp_settings c h Hx).
  - exists t', res'. split; [exact Ha|]. intros n row Hr Hre. apply (Hin (n, row)), list_elem_of_filter. by rewrite elem_of_setting_rows.
Qed.

(** One section of named rows. *)
Lemma section_back {A} pre field section uniq (key : A -> string) make `{!Makes field key make}
    (print : A -> json) agrees old_ok (stored : A -> Prop) items t t1 n res :
  backed key stored c t ->
  (forall a, stored a -> Restores field key make (fun a => dict_of (print a)) agrees old_ok a) ->
  planned (fun a => dict_of (print a)) (sorted_by key (rows c t)) items ->
  fresh_ids ulid pre (hc_next h1) t1 -> (hc_next h1 <= n)%nat ->
  (forall id x, (id, x) ∈ visible c1 t1 -> old_ok x) ->
  exists s, apply_named ulid c1 pre field section uniq key make (SectionPlan section items) t1 n res = Ret s /\
    ld_accepted s = true /\ comes_back c1 key agrees (rows c t) t1 (ld_table s).
Proof.
  intros Hb Hre Hp Hf Hn Hok. destruct (im_org ulid c1 h1 Hi) as [org Hc].
  pose proof (sorted_by_perm key (rows c t)) as Hperm.
  apply (named_restored ulid c1 pre field section uniq key make (fun a => dict_of (print a)) agrees old_ok
    (sorted_by key (rows c t)) (rows c t) org); try done.
  - intros a Ha. rewrite Hperm in Ha. by apply Hre, (bk_row Hb).
  - rewrite Hperm. apply (bk_names Hb).
  - by eapply fresh_later.
Qed.

(** Memberships: those the target had keep their group, whose name is the same. *)
Lemma members_back me t2 res :
  Forall (fun it => exists g mac, it_record it = member_record g mac) (writes me) ->
  (forall x d, x ∈ omap (exported_member c h) (hc_members h) -> device_by_mac (hc_devices h1) !! x.2 = Some d ->
    (exists it, it ∈ writes me /\ it_record it = member_record x.1 x.2) \/
    (exists g, index gp_name (visible c1 (hc_groups h1)) !! x.1 = Some g /\ (g, d) ∈ hc_members h1)) ->
  comes_back c1 gp_name (fun _ _ _ => True) (rows c (hc_groups h)) (hc_groups h1) t2 ->
  kept c1 gp_name (hc_groups h1) t2 ->
  exists x, apply_members (index gp_name (visible c1 t2)) (device_by_mac (hc_devices h1)) (writes me)
      (hc_members h1) res = Ret x /\
    forall g i name d m j, (g, i) ∈ hc_members h -> group_names c h !! g = Some name ->
      hc_devices h !! i = Some d -> device_mac d = Some m -> device_by_mac (hc_devices h1) !! m = Some j ->
      exists g2, (g2, j) ∈ x.1 /\ names_by_id gp_name (visible c1 t2) !! g2 = Some name.
Proof.
  intros Hall Hplan Hback [Hkept _].
  destruct (apply_members_all (index gp_name (visible c1 t2)) (device_by_mac (hc_devices h1)) (writes me)
    (hc_members h1) res Hall) as (x & Hax & Hin). exists x. split; [done|].
  intros g i name d m j Hm Hg Hd Hmac Hj. pose proof Hg as (a & Ha & <-)%names_by_id_some.
  assert (Hrow : a ∈ rows c (hc_groups h)) by (apply elem_of_visible_rows; eauto).
  destruct (bk_row (xp_groups c h Hx) a Hrow) as [[Hne _] _].
  destruct (Hplan (gp_name a, m) j) as [(it & Hit & Hr)|(g1 & Hg1 & Hmem)]; [|done| |].
  - apply list_elem_of_omap. exists (g, i). split; [done|]. unfold exported_member. cbn [fst snd].
    rewrite Hg, Hd. cbn [mbind option_bind]. rewrite Hmac. cbn [mbind option_bind]. by rewrite Hne.
  - destruct (Hback a Hrow) as (id & o & Ho & Hs & Hk & _).
    destruct (index_uniq gp_name c1 t2 (gp_name a)) as (g2 & Hg2 & Hn2); [eauto|].
    exists g2. split; [by eapply Hin|done].
  - exists g1. split; [by eapply apply_members_grow|]. cbn [fst] in Hg1.
    apply index_visible in Hg1 as (o & Ho & Hs & Hk). destruct (Hkept g1 o Ho) as (o' & Ho' & Horg & Hk' & _).
    apply names_by_id_some. exists (ow_row o'). split; [|congruence]. apply elem_of_visible. exists o'.
    by rewrite Horg.
Qed.

Lemma exported_macs_distinct : NoDup ((omap exported_device (device_rows h)).*1.*1).
Proof.
  assert (Hp : omap exported_device (device_rows h) ≡ₚ omap exported_device ((map_to_list (hc_devices h)).*2))
    by (unfold device_rows; by rewrite sorted_by_perm).
  rewrite Hp. clear Hp.
  assert (Hd : forall i j d e m, (i, d) ∈ map_to_list (hc_devices h) -> (j, e) ∈ map_to_list (hc_devices h) ->
    device_mac d = Some m -> device_mac e = Some m -> i = j).
  { intros i j d e m Hi' Hj'. apply elem_of_map_to_list in Hi', Hj'. by eapply (xp_distinct c h Hx). }
  pose proof (NoDup_fst_map_to_list (hc_devices h)) as Hnd. revert Hd Hnd.
  generalize (map_to_list (hc_devices h)). induction l as [|[i d] l IH]; intros Hd Hnd; [constructor|].
  change (NoDup (i :: l.*1)) in Hnd. apply NoDup_cons in Hnd as [Hni Hnd].
  specialize (IH (fun i' j' d' e' m Hi' Hj' => Hd i' j' d' e' m (list_elem_of_further _ _ _ Hi') (list_elem_of_further _ _ _ Hj')) Hnd).
  cbn [fmap list_fmap omap list_omap snd]. destruct (exported_device d) as [x|] eqn:E; [|exact IH].
  change (NoDup (x.1.1 :: (omap exported_device l.*2).*1.*1)). constructor; [|exact IH].
  intros Hin. apply list_elem_of_fmap in Hin as (y & Ey & Hin). apply list_elem_of_fmap in Hin as (z & -> & Hin).
  apply list_elem_of_omap in Hin as (e & Hin & E'). apply list_elem_of_fmap in Hin as ([j e'] & -> & Hin).
  unfold exported_device in E, E'. cbn [snd] in *.
  destruct (device_mac d) as [m|] eqn:Em; [|done]. destruct (device_mac e') as [m'|] eqn:Em'; [|done].
  cbn [mbind option_bind] in E, E'. destruct (_ && _); [done|]. injection E as <-.
  destruct (_ && _) in E'; [done|]. injection E' as <-. cbn in Ey. subst m'. apply Hni.
  rewrite (Hd i j d e' m); [|by left|by right|done|done]. apply list_elem_of_fmap. by exists (j, e').
Qed.

Lemma col_restored now' rec d : col (restore_device now' rec d) "desired_config" = dget rec "desired_config" /\
  col (restore_device now' rec d) "desired_mode" = dget rec "desired_mode".
Proof.
  unfold restore_device, col, set_col. cbn.
  split; rewrite !lookup_insert_ne by done; by rewrite lookup_insert_eq.
Qed.

Lemma devices_back de res :
  it_record <$> writes de = device_record <$>
    filter (fun x => is_Some (device_by_mac (hc_devices h1) !! x.1.1)) (omap exported_device (device_rows h)) ->
  exists t' res', apply_devices (device_by_mac (hc_devices h1)) now (writes de) (hc_devices h1) res =
      Ret (true, t', res') /\
    forall i d m j, hc_devices h !! i = Some d -> device_mac d = Some m ->
      device_by_mac (hc_devices h1) !! m = Some j ->
      col d "desired_config" <> JNull \/ col d "desired_mode" <> JNull ->
      exists d2, t' !! j = Some d2 /\ col d2 "desired_config" = col d "desired_config" /\
        col d2 "desired_mode" = col d "desired_mode".
Proof.
  intros Hrec. set (l := filter _ _) in Hrec.
  destruct (apply_devices_all (device_by_mac (hc_devices h1)) now l (writes de) (hc_devices h1) res)
    as (t' & res' & Ha & Hin & _); [| | |exact Hrec|].
  - apply (sublist_NoDup _ _ exported_macs_distinct). subst l. apply (fmap_sublist fst), (fmap_sublist fst), sublist_filter.
  - intros m m' j Hm Hm'. apply macs_some in Hm as (d & Hd & E), Hm' as (d' & Hd' & E'). congruence.
  - intros x [_ Hin]%list_elem_of_filter. by apply (exported_macs_plain c h Hx).
  - exists t', res'. split; [done|]. intros i d m j Hd Hm Hj Hne.
    pose proof (macs_some _ _ _ Hj) as (e & He & _).
    assert (Hl : (m, col d "desired_config", col d "desired_mode") ∈ l).
    { subst l. apply list_elem_of_filter. split; [by exists j|]. apply list_elem_of_omap. exists d.
      split; [apply elem_of_device_rows; eauto|]. unfold exported_device. rewrite Hm. cbn [mbind option_bind].
      destruct (bool_decide_reflect (col d "desired_config" = JNull)); [|done].
      destruct (bool_decide_reflect (col d "desired_mode" = JNull)); [tauto|done]. }
    pose proof (Hin _ j e Hl Hj He) as Ht. eexists. split; [exact Ht|].
    destruct (col_restored now (device_record (m, col d "desired_config", col d "desired_mode")) e) as [-> ->].
    by split.
Qed.

(** The six named sections and what follows them. *)
Lemma apply_backup p : backup_plan c c1 secrets h h1 p ->
  exists r h2, apply_plan ulid c1 now p h1 = (Ret r, h2) /\ brought_back c c1 secrets h h1 h2.
Proof.
  intros [(rs & si & gr & me & ru & sc & sn & ex & de & Hp & Prs & Psi & Pgr & [Pme1 Pme2] & Pru & Psc & Psn & Pex & Pde)].
  destruct (im_undrawn _ _ _ Hi) as (F1 & F2 & F3 & F4 & F5 & F6).
  destruct (apply_settings_back _ Prs) as (ts & xs & Hax & Rset).
  destruct (section_back "site" "name" SECTION_SITES true si_name make_site export_site _ _ _ si _ _ (hc_next h1) xs
    (xp_sites c h Hx) restores_site Psi F1 (le_n _) (fun _ _ _ => I)) as (a & Ha & Aa & Rsi).
  pose proof (apply_named_next _ _ _ _ _ _ _ _ _ _ _ _ _ Ha) as La.
  pose proof (sites_back _ _ _ _ _ Rsi) as Hsites.
  pose proof (sites_before c c1 h _ _ (import_keeps _ _ _ _ _ _ _ _ _ _ _ _ _ F1 Ha)) as Hbefore.
  destruct (section_back "grp" "name" SECTION_GROUPS true gp_name _ (export_group (site_names c h)) _ _ _ gr _ _
    (ld_next a) (ld_result a) (xp_groups c h Hx) (restores_group _ _ _ _ Hbefore) Pgr F2 La
    (fun _ _ _ => I)) as (b & Hb & Ab & Rgr).
  pose proof (apply_named_next _ _ _ _ _ _ _ _ _ _ _ _ _ Hb) as Lb.
  destruct (members_back me (ld_table b) (count_skips me (ld_result b)) Pme1 Pme2) as (m & Hm & Rme).
  { intros y Hy. destruct (Rgr y Hy) as (id & o & ? & ? & ? & _). eauto 6. }
  { exact (import_keeps _ _ _ _ _ _ _ _ _ _ _ _ _ (fresh_later _ _ _ _ _ F2 La) Hb). }
  destruct (section_back "wdr" "name" SECTION_WATCHDOG_RULES false rule_name _ (export_rule (site_names c h)) _ _ _ ru _ _
    (ld_next b) m.2 (xp_rules c h Hx) (fun y => restores_rule _ _ _ _ Hsites now y (fun _ => eq_refl)) Pru F3 ltac:(lia)
    (fun _ _ _ => I)) as (r & Hr & Ar & Rru).
  pose proof (apply_named_next _ _ _ _ _ _ _ _ _ _ _ _ _ Hr) as Lr.
  destruct (section_back "sch" "name" SECTION_SCHEDULES false sched_name (make_schedule now) export_schedule _ _ _ sc _ _
    (ld_next r) (ld_result r) (xp_schedules c h Hx) (restores_schedule now) Psc F4 ltac:(lia)
    (fun _ _ _ => I)) as (s & Hs & As & Rsc).
  pose proof (apply_named_next _ _ _ _ _ _ _ _ _ _ _ _ _ Hs) as Ls.
  destruct (section_back "scn" "name" SECTION_SCENES true scn_name (make_scene now) export_scene _ _ _ sn _ _
    (ld_next s) (ld_result s) (xp_scenes c h Hx) (restores_scene now) Psn F5 ltac:(lia)
    (fun _ _ _ => I)) as (n & Hn & An & Rsn).
  pose proof (apply_named_next _ _ _ _ _ _ _ _ _ _ _ _ _ Hn) as Ln.
  destruct (section_back "ext" "display_name" SECTION_EXTERNAL_SOURCES false src_display_name (make_source now)
    (export_source secrets) _ _ _ ex _ _ (ld_next n) (ld_result n) (xp_sources c h Hx)
    (fun y Hy => restores_source now secrets y (proj1 Hy) (proj2 Hy)) Pex F6 ltac:(lia)
    (im_sources_ok _ _ _ Hi)) as (e & He & Ae & Rex).
  destruct (devices_back de (count_skips de (ld_result e)) Pde) as (td & rd & Hd & Rde).
  unfold apply_plan. rewrite Hp. unfold apply_sections.
  rewrite Hax. cbn [mbind outcome_bind fst snd]. rewrite Ha. cbn [mbind outcome_bind].
  rewrite Hb. cbn [mbind outcome_bind]. rewrite Aa, Ab. cbn [andb flush]. cbv zeta. rewrite Hm. cbn [mbind outcome_bind]. rewrite Hr. cbn [mbind outcome_bind].
  rewrite Hs. cbn [mbind outcome_bind]. rewrite Hn. cbn [mbind outcome_bind]. rewrite He. cbn [mbind outcome_bind].
  rewrite Hd. cbn [mbind outcome_bind fst snd]. rewrite Ar, As, An, Ae. cbn [andb flush]. eexists _, _. split; [reflexivity|]. by split.
Qed.
End restore.

(** C12. A backup restores.  Take any hub whose rows fit their columns and are named apart, export it
    - redacted, or with its secrets under a passphrase - and import the file on any other hub
    (or the same one, later): the file parses and plans, every section applies, and everything
    exported is back - each setting that is not redacted nor the target's own network setting,
    each site, group, rule, schedule, scene and source, equal to the exported one up to what
    the redaction kept out, each membership and each configuration of a device enrolled
    there.  One thing is not: a group is at its site only if that hub had a site of that name
    before the import, the groups being linked before the new sites are flushed; otherwise it
    is at none.  The rules, linked after the flush, are at theirs. *)
Theorem restore_brings_the_backup_back json_dumps json_loads scrypt aes_encrypt aes_decrypt ulid
    c c1 secrets pw salt nonce ts now h h1 doc file :
  Inj (=) (=) ulid ->
  (forall ct, let e := JObj (envelope salt nonce ct ts) in json_loads (json_dumps e) = Ret e) ->
  (forall key plain, aes_decrypt key nonce (aes_encrypt key nonce plain) = Ret plain) ->
  exportable c h -> importable ulid c1 h1 ->
  backup_document c secrets ts h = Ret doc -> json_loads (json_dumps doc) = Ret doc ->
  export_config json_dumps scrypt aes_encrypt c secrets pw salt nonce ts h = Ret file ->
  exists p r h2, parse_and_plan json_loads scrypt aes_decrypt c1 file pw h1 = Ret p /\
    apply_plan ulid c1 now p h1 = (Ret r, h2) /\ brought_back c c1 secrets h h1 h2.
Proof.
  intros Hinj Henv Haes Hx Hi Hdoc Hlaw Hexp.
  destruct (parse_exported json_dumps json_loads scrypt aes_encrypt aes_decrypt c secrets pw salt nonce ts h
    doc file Hdoc Hexp Hlaw Henv Haes) as (d & -> & Hparse).
  unfold backup_document in Hdoc. apply bind_ret in Hdoc as (sections & Hsec & [= <-]).
  destruct (plan_backup c c1 secrets h h1 sections [("format", JStr FORMAT_NAME); ("format_version", JInt FORMAT_VERSION);
     ("exported_at", JStr ts); ("include_secrets", JBool secrets); ("sections", JObj sections)] Hx Hsec) as (p & Hp & Hb).
  destruct (apply_backup ulid c c1 now secrets h h1 Hx Hi p Hb) as (r & h2 & Ha & Hr).
  exists p, r, h2. split; [|done]. unfold parse_and_plan. rewrite Hparse. exact Hp.
Qed.

(** ** A hub with a row of every kind, restored on a replacement *)

#[export] Instance plain_name_dec n : Decision (plain_name n).
Proof. unfold plain_name. apply _. Defined.
Definition config_ok_b (v : json) : bool :=
  match v with JNull => true | JObj d => bool_decide (NoDup d.*1) | _ => false end.
Lemma config_ok_check s : config_ok_b (src_config s) = true -> config_ok s.
Proof.
  unfold config_ok, config_ok_b. destruct (src_config s); try done; [by left|].
  intros H%bool_decide_eq_true. right. eauto.
Qed.
(** A table whose rows pass a boolean check is [backed]. *)
Lemma backed_check {A} (key : A -> string) (stored : A -> Prop) (test : A -> bool) c t :
  (forall a, test a = true -> stored a) ->
  bool_decide (Forall (fun a => plain_name (key a) /\ test a = true) (rows c t)) = true ->
  bool_decide (NoDup (key <$> rows c t)) = true -> backed key stored c t.
Proof.
  intros Ht H1%bool_decide_eq_true H2%bool_decide_eq_true. split; [|done].
  intros a Ha. rewrite Forall_forall in H1. destruct (H1 a Ha). auto.
Qed.

Module Example.
Import ConfigTheorems.Example.

Definition rule_a : rule_row :=
  RuleRow (Rule (RuleConfig "r1" "Ping modem" (Some "a1") true (JObj [("kind", JStr "icmp")]) 3 2 60 300
     (JObj [("scope", JStr "all")]) (JObj [("kind", JStr "power_cycle")]) JNull JNull)
     (RuleRuntime Armed 0 0 None None None)) None 3 60 None 0 0.
Definition schedule_a : schedule_cols :=
  ScheduleCols (Schedule "s1" "Nightly" true "power_cycle" "daily" (Some "03:00") JNull None 0
    (JObj [("scope", JStr "all")]) 5 180 None None None) None 0.
Definition device_a : device :=
  Device false false None {[ "mac_address" := JStr "AA:BB"; "desired_config" := JObj [("led", JBool false)];
                             "desired_mode" := JStr "armed" ]}.
(** The hub of [ConfigTheorems.Example], with the other sections filled. *)
Definition full : hub_config :=
  HubConfig (hc_settings hub) (hc_sites hub) {[ "g1" := Owned "org_a" (GroupCols "Rack" None (Some "a1")) ]}
    [("g1", "d1")] {[ "r1" := Owned "org_a" rule_a ]} {[ "s1" := Owned "org_a" schedule_a ]}
    {[ "n1" := Owned "org_a" (SceneCols "Evening" None JNull 0) ]} (hc_sources hub) {[ "d1" := device_a ]} 0.
(** A new hub, with the device enrolled under another identifier. *)
Definition blank_hub : hub_config :=
  HubConfig ∅ ∅ ∅ [] ∅ ∅ ∅ ∅ {[ "d9" := Device false false None {[ "mac_address" := JStr "AA:BB" ]} ]} 0.

Definition the_document : json :=
  match backup_document admin_a true "now" full with Ret d => d | Raise _ => JNull end.
(** A codec of the two texts met here; an encryption that keeps the text. *)
Definition dumps (v : json) : string :=
  match v with
  | JObj d => match dict_get d "ciphertext" with Some (JStr x) => String.append "E" x | _ => "D" end
  | _ => ""
  end.
Definition loads2 (s : string) : outcome json :=
  match s with
  | String (Ascii.Ascii true false true false false false true false) x =>
    Ret (JObj [("format", JStr FORMAT_NAME); ("format_version", JInt FORMAT_VERSION); ("encrypted", JBool true);
      ("kdf", JStr "scrypt"); ("cipher", JStr "AES-256-GCM"); ("salt", JStr (hex "salt"));
      ("nonce", JStr (hex "nonce")); ("ciphertext", JStr x); ("exported_at", JStr "now")])
  | _ => Ret the_document
  end.
Definition seal (_ _ s : string) : string := s.
Definition the_file : string :=
  match export_config dumps no_scrypt seal admin_a true "pw" "salt" "nonce" "now" full with
  | Ret s => s | Raise _ => "" end.

Lemma full_exportable : exportable admin_a full.
Proof.
  split.
  - intros n row. cbn [full hc_settings hub]. intros [[<- <-]|[_ [<- <-]%lookup_singleton_Some]]%lookup_insert_Some;
      (split_and!; [by vm_compute|by vm_compute|by eexists]).
  - apply (backed_check _ _ site_stored); [done|vm_compute; reflexivity..].
  - apply (backed_check _ _ group_stored); [done|vm_compute; reflexivity..].
  - apply (backed_check _ _ rule_stored); [done|vm_compute; reflexivity..].
  - apply (backed_check _ _ schedule_stored); [done|vm_compute; reflexivity..].
  - apply (backed_check _ _ scene_stored); [done|vm_compute; reflexivity..].
  - apply (backed_check _ _ (fun s => source_stored s && config_ok_b (src_config s))); [|vm_compute; reflexivity..].
    intros a [? ?%config_ok_check]%andb_prop. done.
  - intros i d m. cbn [full hc_devices]. intros [<- <-]%lookup_singleton_Some. vm_compute. intros [= <-].
    split; [by split|by eexists].
  - intros i j d e m. cbn [full hc_devices]. intros [<- _]%lookup_singleton_Some [<- _]%lookup_singleton_Some. done.
Qed.
Lemma blank_importable : importable pretty admin_a blank_hub.
Proof.
  split; [|by eexists|].
  - unfold undrawn. split_and!; apply no_id_fresh; intros m; apply lookup_empty.
  - intros id s (o & Ho & _)%elem_of_visible. cbn [blank_hub hc_sources] in Ho. by apply lookup_empty_Some in Ho.
Qed.

(** On the new hub the group is restored without its site, the rule with it; a second import
    of the same file finds the site and links the group. *)
Definition imported_again (h : hub_config) : hub_config :=
  match parse_and_plan loads2 no_scrypt no_aes admin_a the_file "pw" h with
  | Ret p => (apply_plan pretty admin_a 9 p h).2 | Raise _ => h end.
Definition group_sites (h : hub_config) : list (string * option string) :=
  (fun x : string * group_cols => (gp_name x.2, gp_site x.2)) <$> visible admin_a (hc_groups h).
Definition rule_sites (h : hub_config) : list (option string) :=
  (fun x : string * rule_row => rc_site_id (rr_rule x.2)) <$> visible admin_a (hc_rules h).
Lemma restored_group_loses_its_site :
  let site := new_id pretty "site" 0 in
  let h2 := imported_again blank_hub in
  (si_name ∘ ow_row <$> hc_sites h2 !! site) = Some "Lab" /\
  group_sites h2 = [("Rack", None)] /\ rule_sites h2 = [Some site] /\
  group_sites (imported_again h2) = [("Rack", Some site)].
Proof. cbv zeta. split_and!; vm_compute; reflexivity. Qed.

(** The secret of the source and the device's membership are back. *)
Lemma restore_brings_the_backup_back_witness :
  exists p r h2, parse_and_plan loads2 no_scrypt no_aes admin_a the_file "pw" blank_hub = Ret p /\
    apply_plan pretty admin_a 9 p blank_hub = (Ret r, h2) /\ brought_back admin_a admin_a true full blank_hub h2.
Proof.
  apply (restore_brings_the_backup_back dumps loads2 no_scrypt seal no_aes pretty admin_a admin_a true "pw"
    "salt" "nonce" "now" 9 full blank_hub the_document the_file).
  - apply _.
  - intros ct. reflexivity.
  - intros key plain. reflexivity.
  - exact full_exportable.
  - exact blank_importable.
  - vm_compute. reflexivity.
  - vm_compute. reflexivity.
  - vm_compute. reflexivity.
Defined.
End Example.
