(* ===== verification/ConflictDetection.v ===== *)
(** * Conflicts between rules and schedules ([app/services/conflict_detection.py])

    The deterministic checks a proposed rule passes before the structured form saves it.
    The rules and schedules are the rows the two list services return, in their order; a
    target resolves through the interface of the queue, as at run time.  A Python set is a
    list without repetitions, iterated in its order.  The text of a finding is left out. *)

From S2P Require Import Prelude PyFloat Commands QueueInterface WatchdogActions WatchdogRules Schedules Devices.
Local Open Scope string_scope.
Local Open Scope list_scope.
Local Open Scope Z_scope.

(** ** Findings *)

Inductive severity := SEVERITY_BLOCK | SEVERITY_WARN | SEVERITY_INFO.
Inductive conflict_kind :=
  | KIND_CONTRADICTORY_ACTIONS | KIND_WATCHDOG_VS_SCHEDULE | KIND_OVERLAPPING_SCHEDULES
  | KIND_DUPLICATE_RULE | KIND_POWER_CYCLE_LOOP | KIND_MODE_RULE_MISMATCH.
#[export] Instance severity_eq_dec : EqDecision severity.
Proof. solve_decision. Defined.
Record ConflictFinding := Finding {
  cf_severity : severity; cf_kind : conflict_kind; cf_related_ids : list json
}.

(** ** What an action does to the power *)

Definition KEEP_ON_ACTIONS : list string := ["relay_on"].
Definition KEEP_OFF_ACTIONS : list string := ["hold_off"; "relay_off"].
Definition CYCLE_ACTIONS : list string := ["cycle"].

(** [(v or {}).get]: a falsy value is the empty dict. *)
Definition or_empty_dict (v : json) : outcome pydict :=
  match or_dict v with JObj d => Ret d | _ => Raise (AttributeError "get") end.
(** [{k} if k else set()]. *)
Definition kind_set (k : json) : outcome (list json) :=
  if truthy k then if hashable k then Ret [k] else Raise (TypeError "unhashable type") else Ret [].
(** [_leaf_action_kinds]: a binding counts both edges. *)
Definition leaf_action_kinds (action : json) : outcome (list json) :=
  a ← or_empty_dict action;
  if jeqs (dget a "kind") "binding" then
    on ← or_empty_dict (dget a "on_active"); k ← kind_set (dget on "kind");
    off ← or_empty_dict (dget a "on_clear"); k' ← kind_set (dget off "kind");
    Ret (k ++ k')
  else kind_set (dget a "kind").

Definition any_of (kinds : list json) (l : list string) : bool := existsb (fun k => jin k l) kinds.
(** [_action_drives_power] and [_power_intents]. *)
Definition action_drives_power (action : json) : outcome bool :=
  kinds ← leaf_action_kinds action;
  Ret (any_of kinds (KEEP_ON_ACTIONS ++ KEEP_OFF_ACTIONS ++ CYCLE_ACTIONS)).
Record intents := Intents { in_on : bool; in_off : bool; in_cycle : bool }.
Definition power_intents (action : json) : outcome intents :=
  kinds ← leaf_action_kinds action;
  Ret (Intents (any_of kinds KEEP_ON_ACTIONS) (any_of kinds KEEP_OFF_ACTIONS) (any_of kinds CYCLE_ACTIONS)).
Definition contradiction (a b : intents) : bool := in_on a && in_off b || in_off a && in_on b.

(** ** Signatures

    A tuple is a list; [==] on tuples compares the items. *)
Definition tuple_eq (a b : list json) : bool := py_eq (JList a) (JList b).

Section detect.
Context (py_repr : json -> string) (iso : time -> string).

(** The sorted pairs of an internet probe. *)
Definition pair_le (a b : string * Z) : Prop :=
  negb (String.eqb a.1 b.1) && String.leb a.1 b.1 || String.eqb a.1 b.1 && (a.2 <=? b.2) = true.
#[export] Instance pair_le_dec : RelDecision pair_le.
Proof. intros a b. unfold pair_le. apply _. Defined.
Definition internet_pair (t : json) : outcome (list (string * Z)) :=
  match t with
  | JObj d =>
    port ← py_int (jor (dget_default d "port" (JInt 0)) (JInt 0));
    Ret [(py_str py_repr (dget_default d "host" (JStr EmptyString)), port)]
  | _ => Ret []
  end.
(** [_probe_signature]. *)
Definition probe_signature (probe : json) : outcome (list json) :=
  p ← or_empty_dict probe;
  let kind := dget p "kind" in
  if jeqs kind "internet" then
    targets ← py_iter (jor (dget p "targets") (JList []));
    pairs ← mapM internet_pair targets;
    Ret [JStr "internet";
         JList ((fun hp : string * Z => JList [JStr hp.1; JInt hp.2]) <$> merge_sort pair_le (List.concat pairs))]
  else if jeqs kind "ping" then Ret [JStr "ping"; dget p "host"]
  else if jeqs kind "tcp" then Ret [JStr "tcp"; dget p "host"; dget p "port"]
  else if jeqs kind "http" then Ret [JStr "http"; dget p "url"]
  else if jeqs kind "dns" then Ret [JStr "dns"; dget p "hostname"]
  else if jeqs kind "gateway" then Ret [JStr "gateway"]
  else if jin kind ["power_above"; "power_below"; "power_zero_while_on"] then
    Ret [kind; dget p "device_id"; dget p "threshold_w"; dget p "near_zero_threshold_w"]
  else Ret [kind; dget p "source_id"; dget p "entity_id"; dget p "app_name"; dget p "topic";
            dget p "field"; dget p "interface"; dget p "show"].
(** [_action_signature]. *)
Definition action_signature (action : json) : outcome (list json) :=
  a ← or_empty_dict action;
  let kind := dget a "kind" in
  if jeqs kind "cycle" then Ret [JStr "cycle"; dget a "power_off_seconds"]
  else if jeqs kind "binding" then
    on ← or_empty_dict (dget a "on_active");
    off ← or_empty_dict (dget a "on_clear");
    Ret [JStr "binding"; dget on "kind"; dget on "scene_id"; dget off "kind"; dget off "scene_id"]
  else if jeqs kind "apply_scene" then Ret [JStr "apply_scene"; dget a "scene_id"]
  else Ret [kind].
(** [_holdoff_seconds]. *)
Definition holdoff_seconds (action : json) : outcome (option Z) :=
  a ← or_empty_dict action;
  if negb (jeqs (dget a "kind") "cycle") then Ret None
  else match dget a "post_reboot_holdoff_seconds" with JNull => Ret None | raw => try_int raw end.
(** [int(x) if x is not None else None], with the errors caught. *)
Definition given_int (v : json) : outcome (option Z) :=
  match v with JNull => Ret None | v => try_int v end.

(** ** The checks *)

Context {S : Type} `{CommandQueue S}.

(** [_resolve_devices]: whatever goes wrong, no device. *)
Definition resolve_devices (target : json) (s : S) : list json :=
  match resolve_target_devices (or_dict target) s with
  | Ret l => if forallb hashable l then remove_dups l else []
  | Raise _ => []
  end.
(** [a & b], and [sorted] of device ids. *)
Definition shared (a b : list json) : list json := filter (fun x => existsb (py_eq x) b = true) a.
Definition id_le (x y : json) : Prop :=
  String.leb (default EmptyString (as_str x)) (default EmptyString (as_str y)) = true.
#[export] Instance id_le_dec : RelDecision id_le.
Proof. intros x y. unfold id_le. apply _. Defined.
Definition sorted_ids (l : list json) : list json := merge_sort id_le l.

(** A rule-shaped dict. *)
Record proposal := Proposal {
  pr_probe : json; pr_target : json; pr_action : json;
  pr_failure_threshold : json; pr_window_seconds : json; pr_cooldown_seconds : json
}.

(** Check 1. *)
Definition check_contradictory (devices : list json) (mine : intents) (s : S) (r : rule_row)
    : outcome (list ConflictFinding) :=
  let common := shared devices (resolve_devices (rc_target (rr_rule r)) s) in
  match common with
  | [] => Ret []
  | _ =>
    theirs ← power_intents (rc_action (rr_rule r));
    Ret (if contradiction mine theirs
         then [Finding SEVERITY_BLOCK KIND_CONTRADICTORY_ACTIONS
                 (JStr (rc_id (rr_rule r)) :: sorted_ids common)]
         else [])
  end.
(** Check 2. *)
Definition check_schedule (devices : list json) (mine : intents) (s : S) (x : schedule)
    : list ConflictFinding :=
  if negb (String.eqb (sc_kind x) "power_cycle") then []
  else
    match shared devices (resolve_devices (sc_target x) s) with
    | [] => []
    | common => [Finding (if in_off mine then SEVERITY_BLOCK else SEVERITY_WARN) KIND_WATCHDOG_VS_SCHEDULE
                   (JStr (sc_id x) :: sorted_ids common)]
    end.
(** Check 3: the schedules by device and time, in the order they appear. *)
Abbreviation slots := (list (json * string * list schedule)).
Fixpoint slot_add (dev : json) (at_ : string) (x : schedule) (l : slots) : slots :=
  match l with
  | [] => [(dev, at_, [x])]
  | (d, a, xs) :: r => if py_eq d dev && String.eqb a at_ then (d, a, xs ++ [x]) :: r
                       else (d, a, xs) :: slot_add dev at_ x r
  end.
Definition fires_at (x : schedule) : string :=
  match sc_at_time_utc x with
  | Some t => if is_empty t then from_option iso EmptyString (sc_start_at x) else t
  | None => from_option iso EmptyString (sc_start_at x)
  end.
Definition slot_schedule (devices : list json) (s : S) (l : slots) (x : schedule) : slots :=
  if negb (String.eqb (sc_kind x) "power_cycle") || is_empty (fires_at x) then l
  else foldl (fun l dev => slot_add dev (fires_at x) x l) l
         (shared devices (resolve_devices (sc_target x) s)).
Definition check_overlaps (devices : list json) (s : S) (scheds : list schedule) : list ConflictFinding :=
  omap (fun slot : json * string * list schedule =>
    if (1 <? length slot.2)%nat
    then Some (Finding SEVERITY_WARN KIND_OVERLAPPING_SCHEDULES ((JStr ∘ sc_id <$> slot.2) ++ [slot.1.1]))
    else None) (foldl (slot_schedule devices s) [] scheds).
(** Check 4. *)
Definition target_signature (target : json) : outcome (list json) :=
  t ← or_empty_dict target;
  Ret [dget t "kind"; jor (dget t "id") (dget t "tag")].
Definition rule_signature (probe action target : json) : outcome (list json) :=
  p ← probe_signature probe; a ← action_signature action; t ← target_signature target;
  Ret (JList p :: JList a :: t).
Definition check_duplicate (sig : list json) (r : rule_row) : outcome (list ConflictFinding) :=
  let c := rr_rule r in
  other ← rule_signature (rc_probe c) (rc_action c) (rc_target c);
  Ret (if tuple_eq other sig
       then [Finding SEVERITY_INFO KIND_DUPLICATE_RULE [JStr (rc_id c)]] else []).
(** Check 5. *)
Definition loop_finding : ConflictFinding := Finding SEVERITY_WARN KIND_POWER_CYCLE_LOOP [].
Definition check_loop (p : proposal) : outcome (list ConflictFinding) :=
  holdoff ← holdoff_seconds (pr_action p);
  cooldown ← given_int (pr_cooldown_seconds p);
  match holdoff with
  | None => Ret []
  | Some h =>
    ft ← given_int (pr_failure_threshold p);
    ws ← (match pr_failure_threshold p, ft with
          | JNull, _ | _, Some _ => given_int (pr_window_seconds p)
          | _, None => Ret None end);
    Ret ((match cooldown with Some c => if c <? h then [loop_finding] else [] | None => [] end) ++
         (match ft, ws with
          | Some f, Some w => if negb (f =? 0) && negb (w =? 0) && (f * w <? h) then [loop_finding] else []
          | _, _ => [] end))
  end.
(** Check 6: [session.get(Device, id)]. *)
Definition check_mode (t : gmap string device) (dev : json) : outcome (list ConflictFinding) :=
  match dev with
  | JStr id =>
    Ret (match t !! id with
         | Some d => if jeqs (col d "desired_mode") "smart_plug"
                     then [Finding SEVERITY_WARN KIND_MODE_RULE_MISMATCH [dev]] else []
         | None => [] end)
  | _ => Raise (DBError "devices.id")
  end.

(** A stable sort on three values. *)
Definition most_severe_first (l : list ConflictFinding) : list ConflictFinding :=
  filter (fun f => cf_severity f = SEVERITY_BLOCK) l ++
  filter (fun f => cf_severity f = SEVERITY_WARN) l ++
  filter (fun f => cf_severity f = SEVERITY_INFO) l.
(** [detect_conflicts]. *)
Definition detect_conflicts (rules : list rule_row) (scheds : list schedule) (t : gmap string device)
    (p : proposal) (exclude : option string) (s : S) : outcome (list ConflictFinding) :=
  let devices := resolve_devices (pr_target p) s in
  let others := filter (fun r => Some (rc_id (rr_rule r)) <> exclude) rules in
  mine ← power_intents (pr_action p);
  drives ← action_drives_power (pr_action p);
  let acts := drives && negb (bool_decide (devices = [])) in
  c1 ← (if acts then mapM (check_contradictory devices mine s) others else Ret []);
  let c2 := if acts then scheds ≫= check_schedule devices mine s else [] in
  let c3 := check_overlaps devices s scheds in
  sig ← rule_signature (pr_probe p) (pr_action p) (pr_target p);
  c4 ← mapM (check_duplicate sig) others;
  c5 ← check_loop p;
  c6 ← (if acts then mapM (check_mode t) (sorted_ids devices) else Ret []);
  Ret (most_severe_first (List.concat c1 ++ c2 ++ c3 ++ List.concat c4 ++ c5 ++ List.concat c6)).

(** [has_blocking]. *)
Definition has_blocking (l : list ConflictFinding) : bool :=
  existsb (fun f => bool_decide (cf_severity f = SEVERITY_BLOCK)) l.
End detect.
