(* ===== verification/RuleForms.v ===== *)
(** * The rule form ([blueprints/admin/_rules_forms.py], [_common.py], [picker_scope.py])

    The flat fields of the structured form as the JSON shapes the watchdog service takes.
    A form is its fields in order; a name may come several times. *)

From Stdlib Require Import Ascii.
From S2P Require Import Prelude PyFloat PyNet Commands QueueInterface WatchdogActions WatchdogRules.
From S2P Require Notifications.
Local Open Scope string_scope.
Local Open Scope list_scope.
Local Open Scope Z_scope.

Abbreviation form := (list (string * string)).
Definition RuleFormError {A} (m : string) : outcome A := Raise (AppError "RuleFormError" m).
Definition FormValidationError {A} (m : string) : outcome A := Raise (AppError "FormValidationError" m).
Definition PickerScopeError {A} (m : string) : outcome A := Raise (AppError "PickerScopeError" m).

(** [form.get(k)], [form.getlist(k)], [(form.get(k) or "").strip()]. *)
Fixpoint form_get (f : form) (k : string) : option string :=
  match f with
  | [] => None
  | (j, v) :: r => if String.eqb k j then Some v else form_get r k
  end.
Definition form_getlist (f : form) (k : string) : list string :=
  (filter (fun kv : string * string => kv.1 = k) f).*2.
Definition field (f : form) (k : string) : string := strip (default EmptyString (form_get f k)).
(** [(form.get(k) or '').strip() or None]. *)
Definition opt_field (f : form) (k : string) : option string :=
  let v := field f k in if is_empty v then None else Some v.
(** [form.get(k) or n]. *)
Definition text_or (f : form) (k : string) (n : Z) : json :=
  match form_get f k with Some s => if is_empty s then JInt n else JStr s | None => JInt n end.
Definition add_if (b : bool) (k : string) (v : json) (d : pydict) : pydict := if b then d ++ [(k, v)] else d.
(** [try: d[k] = int(form.get(name) or n)], nothing or a default on [ValueError]. *)
Definition add_int (f : form) (k name : string) (n : Z) (d : pydict) : pydict :=
  match py_int (text_or f name n) with Ret z => d ++ [(k, JInt z)] | Raise _ => d end.
Definition add_int_or (f : form) (k name : string) (n : Z) (d : pydict) : pydict :=
  match py_int (text_or f name n) with Ret z => d ++ [(k, JInt z)] | Raise _ => d ++ [(k, JInt n)] end.

(** One pair of an internet probe: blank rows are dropped, a bad port is 0. *)
Definition internet_target (hp : string * string) : option json :=
  let host := strip hp.1 in
  let port_s := strip hp.2 in
  if is_empty host && is_empty port_s then None
  else
    let port := if is_empty port_s then 0
                else match py_int (JStr port_s) with Ret z => z | Raise _ => 0 end in
    Some (JObj [("host", JStr host); ("port", JInt port)]).

(** [build_probe_from_form]. *)
Definition build_probe_from_form (f : form) : outcome pydict :=
  let kind := field f "probe_kind" in
  let arg := field f "probe_arg" in
  let kd k := String.eqb kind k in
  if kd "internet" then
    let targets := omap internet_target
      (zip (form_getlist f "internet_target_host[]") (form_getlist f "internet_target_port[]")) in
    Ret (add_if (negb (bool_decide (targets = []))) "targets" (JList targets) [("kind", JStr "internet")])
  else if kd "ping" then Ret [("kind", JStr "ping"); ("host", JStr arg)]
  else if kd "tcp" then
    let '(host, _, port) := partition ":"%char arg in
    p ← py_int (if is_empty port then JInt 0 else JStr port);
    Ret [("kind", JStr "tcp"); ("host", JStr host); ("port", JInt p)]
  else if kd "http" then Ret [("kind", JStr "http"); ("url", JStr arg)]
  else if kd "dns" then Ret [("kind", JStr "dns"); ("hostname", JStr arg)]
  else if kd "gateway" then Ret [("kind", JStr "gateway")]
  else if kd "roku_app_active" then
    Ret (add_int f "max_sample_age_seconds" "roku_max_sample_age_seconds" 120
           [("kind", JStr kind); ("source_id", JStr (field f "roku_source_id"));
            ("app_name", JStr (field f "roku_app_name"))])
  else if kd "ha_state_is" then
    Ret (add_int f "max_sample_age_seconds" "ha_max_sample_age_seconds" 60
           [("kind", JStr kind); ("source_id", JStr (field f "ha_source_id"));
            ("entity_id", JStr (field f "ha_entity_id")); ("expected_state", JStr (field f "ha_expected_state"))])
  else if kd "weather_alert_active" then
    let ev := field f "weather_event_contains" in
    let sev := field f "weather_min_severity" in
    Ret (add_int f "max_sample_age_seconds" "weather_max_sample_age_seconds" 600
           (add_if (negb (is_empty sev)) "min_severity" (JStr sev)
              (add_if (negb (is_empty ev)) "event_contains" (JStr ev)
                 [("kind", JStr kind); ("source_id", JStr (field f "weather_source_id"))])))
  else if kd "ical_event_active" then
    let summary := field f "ical_summary_contains" in
    Ret (add_int f "max_sample_age_seconds" "ical_max_sample_age_seconds" 1800
           (add_if (negb (is_empty summary)) "summary_contains" (JStr summary)
              [("kind", JStr kind); ("source_id", JStr (field f "ical_source_id"))]))
  else if kd "epg_show_airing" then
    let network := field f "epg_network" in
    Ret (add_if (negb (is_empty network)) "network" (JStr network)
           [("kind", JStr kind); ("show", JStr (field f "epg_show"))])
  else if kd "power_above" || kd "power_below" then
    match py_float (text_or f "power_threshold_w" 0) with
    | Raise _ => RuleFormError "threshold_w must be a number"
    | Ret w =>
      Ret (add_int f "max_sample_age_seconds" "power_max_sample_age_seconds" 600
             (add_int_or f "window_seconds" "power_window_seconds" 300
                [("kind", JStr kind); ("device_id", JStr (field f "power_device_id")); ("threshold_w", JFloat w)]))
    end
  else if kd "power_zero_while_on" then
    let w := match form_get f "power_near_zero_threshold_w" with
             | Some s => if is_empty s then FFinite 1 (-1)
                         else match py_float (JStr s) with Ret w => w | Raise _ => FFinite 1 (-1) end
             | None => FFinite 1 (-1) end in
    Ret (add_int f "max_sample_age_seconds" "power_max_sample_age_seconds" 600
           (add_int_or f "window_seconds" "power_window_seconds" 300
              [("kind", JStr kind); ("device_id", JStr (field f "power_device_id"));
               ("near_zero_threshold_w", JFloat w)]))
  else RuleFormError "Unsupported probe kind.".

(** [build_target_from_form]. *)
Definition build_target_from_form (f : form) : outcome pydict :=
  let kind := field f "target_kind" in
  let id := field f "target_id" in
  if in_strs kind ["device"; "group"] then Ret [("kind", JStr kind); ("id", JStr id)]
  else if String.eqb kind "tag" then Ret [("kind", JStr "tag"); ("tag", JStr id)]
  else RuleFormError "Pick a target.".

(** [build_action_from_form]: [int] of a bad number is a plain [ValueError]. *)
Definition build_action_from_form (f : form) : outcome pydict :=
  let kind := strip (match form_get f "action_kind" with
                     | Some s => if is_empty s then "cycle" else s | None => "cycle" end) in
  let kd k := String.eqb kind k in
  if kd "cycle" then
    off ← py_int (text_or f "power_off_seconds" 5);
    hold ← py_int (text_or f "post_reboot_holdoff_seconds" 180);
    Ret [("kind", JStr "cycle"); ("power_off_seconds", JInt off); ("post_reboot_holdoff_seconds", JInt hold)]
  else if in_strs kind ["hold_off"; "notify_only"; "relay_on"; "relay_off"] then Ret [("kind", JStr kind)]
  else if kd "apply_scene" then
    let scene := field f "scene_id" in
    if is_empty scene then RuleFormError "Pick a scene for the apply_scene action."
    else Ret [("kind", JStr "apply_scene"); ("scene_id", JStr scene)]
  else if kd "binding" then
    let active := field f "binding_active_scene_id" in
    let clear := field f "binding_clear_scene_id" in
    if is_empty active || is_empty clear
    then RuleFormError "A binding needs a scene for both the active and cleared states."
    else
      let leaf s := JObj [("kind", JStr "apply_scene"); ("scene_id", JStr s)] in
      Ret [("kind", JStr "binding"); ("on_active", leaf active); ("on_clear", leaf clear)]
  else RuleFormError "Unsupported action.".

(** [build_maintenance_windows_from_form]. *)
Definition utc_tagged (s : string) : string :=
  if (String.length s =? 16)%nat then String.append s ":00+00:00" else s.
Definition build_maintenance_windows_from_form (f : form) : json :=
  let start := field f "maint_start" in
  let end_ := field f "maint_end" in
  if is_empty start || is_empty end_ then JNull
  else JList [JObj [("start", JStr (utc_tagged start)); ("end", JStr (utc_tagged end_))]].

(** [_int_field] without bounds: [source.get(name)] is [raw]. *)
Definition checked_int (py_repr : json -> string) (raw : json) (name : string) (dflt : Z) : outcome Z :=
  match raw with
  | JNull => Ret dflt
  | _ =>
    let text := strip (py_str py_repr raw) in
    if is_empty text then Ret dflt
    else match py_int (JStr text) with
         | Raise (ValueError _) | Raise (TypeError _) => FormValidationError name
         | o => o
         end
  end.

(** [validate_picker_id] and [_scope_rule_target]: the visible ids of the picker. *)
Definition validate_picker_id (value : string) (visible : list string) (scope_label : string)
    (required : bool) : outcome (option string) :=
  let value := strip value in
  if is_empty value then if required then PickerScopeError scope_label else Ret None
  else if in_strs value visible then Ret (Some value) else PickerScopeError scope_label.
Definition scope_rule_target (device_ids group_ids : list string) (target : pydict) : outcome pydict :=
  let kind := dget target "kind" in
  if negb (jin kind ["device"; "group"]) then Ret target
  else
    let visible := if jeqs kind "device" then device_ids else group_ids in
    id ← validate_picker_id (match dget target "id" with JStr s => s | _ => EmptyString end) visible "Rule" true;
    Ret (Notifications.dict_set target "id" (from_option JStr JNull id)).
