(* ===== verification/RuleEndpoints.v ===== *)
(** * The rule endpoints ([blueprints/admin/rules.py])

    The handlers behind their role gates, over the rows of the rule table the caller sees
    and the tables conflict detection reads.  The audit row of a change is left out. *)

From S2P Require Import Prelude PyFloat Commands QueueInterface WatchdogActions WatchdogRules Schedules.
From S2P Require Import Identity ConflictDetection RuleForms.
Local Open Scope string_scope.
Local Open Scope list_scope.
Local Open Scope Z_scope.

Inductive rule_answer :=
  | RedirectBack
  | ConflictPage (found : list ConflictFinding) (edit_rule_id : option string)
  | EditorError
  | Saved (row : rule_row) (found : list ConflictFinding)
  | Toggled (known : bool)
  | RuleRefused (status : Z).

(** [list_rules]. *)
Definition list_rules (d : rule_db) : list rule_row :=
  order_by_desc rr_created_at ((map_to_list (rd_rules d)).*2).

(** [_conflicts_acknowledged]. *)
Definition CONFLICTS_ACK_FIELD : string := "conflicts_acknowledged".
Definition flag_on (o : option string) : bool := in_strs (lower (default EmptyString o)) ["1"; "true"; "on"].
Definition conflicts_acknowledged (f : form) : bool := flag_on (form_get f CONFLICTS_ACK_FIELD).

Section endpoints.
Context {S : Type} `{CommandQueue S}.
Context (py_repr : json -> string) (iso : time -> string) (json_loads : string -> outcome json).
Context (ulid : nat -> string) (db_accepts : rule_row -> bool).
(** What the pickers show; the schedules, the devices and the memberships detection reads. *)
Context (device_ids group_ids : list string) (scheds : list schedule) (t : gmap string device) (s : S).
#[local] Abbreviation create := (create_rule py_repr ulid).
#[local] Abbreviation update := (update_rule py_repr).

(** The part of a submission both structured handlers share. *)
Record structured := Structured {
  sf_name : string; sf_probe : json; sf_target : json; sf_action : json; sf_windows : json;
  sf_failure : Z; sf_recovery : Z; sf_window : Z; sf_cooldown : Z
}.
Definition form_raw (f : form) (k : string) : json := from_option JStr JNull (form_get f k).
Definition read_form (f : form) : outcome structured :=
  probe ← build_probe_from_form f;
  target ← build_target_from_form f;
  target ← scope_rule_target device_ids group_ids target;
  action ← build_action_from_form f;
  ft ← checked_int py_repr (form_raw f "failure_threshold") "failure_threshold" 3;
  rt ← checked_int py_repr (form_raw f "recovery_threshold") "recovery_threshold" 2;
  ws ← checked_int py_repr (form_raw f "window_seconds") "window_seconds" 60;
  cd ← checked_int py_repr (form_raw f "cooldown_seconds") "cooldown_seconds" 300;
  Ret (Structured (field f "name") (JObj probe) (JObj target) (JObj action)
         (build_maintenance_windows_from_form f) ft rt ws cd).
(** [except (RuleFormError, FormValidationError, PickerScopeError)]. *)
Definition form_refused (e : exn) : bool :=
  match e with
  | AppError c _ => in_strs c ["RuleFormError"; "FormValidationError"; "PickerScopeError"]
  | _ => false
  end.
Definition proposal_of (x : structured) : proposal :=
  Proposal (sf_probe x) (sf_target x) (sf_action x) (JInt (sf_failure x)) (JInt (sf_window x)) (JInt (sf_cooldown x)).
Definition form_of (x : structured) (site description : option string) (retries delay : Z)
    (escalation : json) : rule_form :=
  RuleForm (JStr (sf_name x)) (sf_probe x) (sf_target x) (sf_action x) site description
    (JInt (sf_failure x)) (JInt (sf_recovery x)) (JInt (sf_window x)) (JInt (sf_cooldown x))
    (JInt retries) (JInt delay) escalation (sf_windows x).
(** [except WatchdogValidationError]. *)
Definition invalid_rule (e : exn) : bool := bool_decide (is_Some (caught "WatchdogValidationError" e)).
Definition detect (d : rule_db) (x : structured) (exclude : option string) :=
  detect_conflicts py_repr iso (list_rules d) scheds t (proposal_of x) exclude s.

(** [POST /app/rules]. *)
Definition rules_create_submit (f : form) (user : option string) (now : time) (d : rule_db)
    : outcome rule_answer * rule_db :=
  match read_form f with
  | Raise e => (if form_refused e then Ret RedirectBack else Raise e, d)
  | Ret x =>
    match detect d x None with
    | Raise e => (Raise e, d)
    | Ret found =>
      if has_blocking found && negb (conflicts_acknowledged f) then (Ret (ConflictPage found None), d)
      else match create db_accepts (form_of x None None 3 60 JNull) user now d with
           | (Ret row, d) => (Ret (Saved row found), d)
           | (Raise e, d) => (if invalid_rule e then Ret RedirectBack else Raise e, d)
           end
    end
  end.
(** [POST /app/rules/<id>/edit-form]: what the form does not show is carried over. *)
Definition rules_edit_form_submit (rule_id : string) (f : form) (now : time) (d : rule_db)
    : outcome rule_answer * rule_db :=
  match rd_rules d !! rule_id with
  | None => (Ret (RuleRefused 404), d)
  | Some old =>
    match read_form f with
    | Raise e => (if form_refused e then Ret RedirectBack else Raise e, d)
    | Ret x =>
      match detect d x (Some rule_id) with
      | Raise e => (Raise e, d)
      | Ret found =>
        if has_blocking found && negb (conflicts_acknowledged f)
        then (Ret (ConflictPage found (Some rule_id)), d)
        else
          let carried := form_of x (rc_site_id (rr_rule old)) (rr_description old) (rr_max_retries old)
                           (rr_retry_delay_seconds old) (or_dict (rc_escalation (rr_rule old))) in
          match update db_accepts rule_id carried now d with
          | (Ret (Some row), d) => (Ret (Saved row found), d)
          | (Ret None, d) => (Ret (RuleRefused 404), d)
          | (Raise e, d) => (if invalid_rule e then Ret RedirectBack else Raise e, d)
          end
      end
    end
  end.

(** ** JSON bodies *)

(** A text column given a JSON value: whether it takes it. *)
Definition column_text (v : json) : option string * bool :=
  match v with JNull => (None, true) | JStr s => (Some s, true) | _ => (None, false) end.
Definition body_form (b : pydict) (ft rt ws cd mr rd : json) : rule_form * bool :=
  let description := column_text (jor (dget b "description") JNull) in
  let site := column_text (dget b "site_id") in
  (RuleForm (dget_default b "name" (JStr EmptyString)) (or_dict (dget b "probe")) (or_dict (dget b "target"))
     (or_dict (dget b "action")) site.1 description.1 ft rt ws cd mr rd (dget b "escalation")
     (dget b "maintenance_windows"), site.2 && description.2).
Definition stores (ok : bool) (row : rule_row) : bool := ok && db_accepts row.
(** The JSON editor reads its numbers with [_int_field], the API hands them on. *)
Definition editor_form (b : pydict) : outcome (rule_form * bool) :=
  let num k n := JInt <$> checked_int py_repr (dget b k) k n in
  ft ← num "failure_threshold" 3; rt ← num "recovery_threshold" 2; ws ← num "window_seconds" 60;
  cd ← num "cooldown_seconds" 300; mr ← num "max_retries" 3; rd ← num "retry_delay_seconds" 60;
  Ret (body_form b ft rt ws cd mr rd).
Definition api_form (b : pydict) : rule_form * bool :=
  let num k n := dget_default b k (JInt n) in
  body_form b (num "failure_threshold" 3) (num "recovery_threshold" 2) (num "window_seconds" 60)
    (num "cooldown_seconds" 300) (num "max_retries" 3) (num "retry_delay_seconds" 60).

(** The text of the editor as a body; [None]: the page again with an error. *)
Definition editor_body (f : form) : outcome (option pydict) :=
  let raw := field f "rule_json" in
  if is_empty raw then Ret None
  else match json_loads raw with
       | Ret (JObj b) => Ret (Some b)
       | Ret _ | Raise (ValueError _) => Ret None
       | Raise e => Raise e
       end.
Definition editor_refused (e : exn) : bool :=
  invalid_rule e || bool_decide (is_Some (caught "FormValidationError" e)).

(** [POST /app/rules/json] and [POST /app/rules/<id>/edit]. *)
Definition rules_create_json_submit (f : form) (user : option string) (now : time) (d : rule_db)
    : outcome rule_answer * rule_db :=
  match editor_body f with
  | Raise e => (Raise e, d)
  | Ret None => (Ret EditorError, d)
  | Ret (Some b) =>
    match editor_form b with
    | Raise e => (if editor_refused e then Ret EditorError else Raise e, d)
    | Ret (rf, ok) =>
      match create (stores ok) rf user now d with
      | (Ret row, d) => (Ret (Saved row []), d)
      | (Raise e, d) => (if editor_refused e then Ret EditorError else Raise e, d)
      end
    end
  end.
Definition rules_edit_submit (rule_id : string) (f : form) (now : time) (d : rule_db)
    : outcome rule_answer * rule_db :=
  let editor_error := match rd_rules d !! rule_id with Some _ => EditorError | None => RuleRefused 404 end in
  match editor_body f with
  | Raise e => (Raise e, d)
  | Ret None => (Ret editor_error, d)
  | Ret (Some b) =>
    match editor_form b with
    | Raise e => (if editor_refused e then Ret editor_error else Raise e, d)
    | Ret (rf, ok) =>
      match update (stores ok) rule_id rf now d with
      | (Ret (Some row), d) => (Ret (Saved row []), d)
      | (Ret None, d) => (Ret (RuleRefused 404), d)
      | (Raise e, d) => (if editor_refused e then Ret editor_error else Raise e, d)
      end
    end
  end.
(** [POST /api/v1/admin/rules], [PATCH .../<id>], [DELETE .../<id>]. *)
Definition create_rule_api (b : pydict) (user : option string) (now : time) (d : rule_db)
    : outcome rule_answer * rule_db :=
  match create (stores (api_form b).2) (api_form b).1 user now d with
  | (Ret row, d) => (Ret (Saved row []), d)
  | (Raise e, d) => (if invalid_rule e then Ret (RuleRefused 400) else Raise e, d)
  end.
Definition update_rule_api (rule_id : string) (b : pydict) (now : time) (d : rule_db)
    : outcome rule_answer * rule_db :=
  match update (stores (api_form b).2) rule_id (api_form b).1 now d with
  | (Ret (Some row), d) => (Ret (Saved row []), d)
  | (Ret None, d) => (Ret (RuleRefused 404), d)
  | (Raise e, d) => (if invalid_rule e then Ret (RuleRefused 400) else Raise e, d)
  end.
Definition delete_rule_api (rule_id : string) (d : rule_db) : rule_answer * rule_db :=
  let '(known, d) := delete_rule rule_id d in (if known then Toggled true else RuleRefused 404, d).
(** [POST /app/rules/<id>/delete] and [.../toggle]. *)
Definition rules_delete_submit (rule_id : string) (d : rule_db) : rule_answer * rule_db :=
  (RedirectBack, (delete_rule rule_id d).2).
Definition rules_set_enabled_submit (rule_id : string) (f : form) (now : time) (d : rule_db)
    : rule_answer * rule_db :=
  let '(_, d) := WatchdogRules.set_enabled rule_id (flag_on (form_get f "enabled")) now d in (RedirectBack, d).
End endpoints.

(** ** What the edit page offers *)

Definition STRUCTURED_PROBE_KINDS : list string :=
  ["internet"; "ping"; "tcp"; "http"; "dns"; "gateway"; "roku_app_active"; "ha_state_is";
   "weather_alert_active"; "ical_event_active"; "epg_show_airing"; "power_above"; "power_below";
   "power_zero_while_on"].
(** [_action_form_supported]. *)
Definition action_form_supported (action : json) : outcome bool :=
  a ← or_empty_dict action;
  let kind := dget a "kind" in
  if jin kind ["cycle"; "hold_off"; "notify_only"; "relay_on"; "relay_off"] then Ret true
  else if jeqs kind "apply_scene" then Ret (truthy (dget a "scene_id"))
  else if jeqs kind "binding" then
    let edge (v : json) : outcome bool := e ← or_empty_dict v; Ret (jeqs (dget e "kind") "apply_scene" && truthy (dget e "scene_id")) in
    on ← edge (dget a "on_active");
    if (on : bool) then edge (dget a "on_clear") else Ret false
  else Ret false.
