(* ===== verification/ConflictTheorems.v ===== *)
(** * Conflict detection and the rule form: properties

    When detection blocks, stated on rules and devices ([fights]); and what the confirmation
    step keeps true of the table over any history of the structured form. *)

From stdpp Require Import pretty.
From S2P Require Import Prelude PyFloat Commands QueueInterface WatchdogActions WatchdogRules Schedules.
From S2P Require Import WatchdogRuleTheorems Devices Identity ConflictDetection RuleForms RuleEndpoints.
From S2P Require Notifications ConfigFacts.
Local Open Scope string_scope.
Local Open Scope list_scope.
Local Open Scope Z_scope.

(** ** What fights *)

(** The leaves of an action: itself, or both edges of a binding. *)
Inductive leaf_of : json -> string -> Prop :=
  | leaf_self a k : dget a "kind" = JStr k -> k <> "binding" -> leaf_of (JObj a) k
  | leaf_edge a edge b k : dget a "kind" = JStr "binding" -> edge = "on_active" \/ edge = "on_clear" ->
      dget a edge = JObj b -> dget b "kind" = JStr k -> leaf_of (JObj a) k.
Definition wants_on (action : json) : Prop := leaf_of action "relay_on".
Definition wants_off (action : json) : Prop := leaf_of action "hold_off" \/ leaf_of action "relay_off".
(** One keeps the power on, the other off. *)
Definition opposed (a b : json) : Prop := wants_on a /\ wants_off b \/ wants_off a /\ wants_on b.

Section fights.
Context {S : Type} `{CommandQueue S} (s : S).

(** The devices a target stands for. *)
Inductive acts_on : json -> string -> Prop :=
  | on_device t d : dget t "kind" = JStr "device" -> dget t "id" = JStr d -> is_empty d = false ->
      acts_on (JObj t) d
  | on_group t g d : dget t "kind" = JStr "group" -> dget t "id" = JStr g -> is_empty g = false ->
      d ∈ cq_members s g -> is_empty d = false -> acts_on (JObj t) d.
Definition share_device (t u : json) : Prop := exists d, acts_on t d /\ acts_on u d.
Definition fights (t a t' a' : json) : Prop := share_device t t' /\ opposed a a'.
(** Holding a device off that a schedule power-cycles. *)
Definition fights_schedule (t a : json) (x : schedule) : Prop :=
  sc_kind x = "power_cycle" /\ share_device t (sc_target x) /\ wants_off a.
End fights.

(** ** Actions *)

Lemma in_leaf_kinds k : k ∈ LEAF_ACTION_KINDS -> k <> "binding" /\ is_empty k = false.
Proof.
  intros Hk. assert (Forall (fun k => k <> "binding" /\ is_empty k = false) LEAF_ACTION_KINDS) as Hf
    by (repeat constructor; done). rewrite Forall_forall in Hf. by apply Hf.
Qed.
Lemma kind_set_leaf k : k ∈ LEAF_ACTION_KINDS -> kind_set (JStr k) = Ret [JStr k].
Proof. intros [_ He]%in_leaf_kinds. unfold kind_set. cbn. by rewrite He. Qed.
Lemma or_empty_obj d : or_empty_dict (JObj d) = Ret d.
Proof. unfold or_empty_dict, or_dict, jor. by destruct d. Qed.

(** The kinds computed for a typed action are its leaves. *)
Lemma typed_leaf_kinds a : typed_action a ->
  exists kinds, leaf_action_kinds a = Ret kinds /\ forall k, JStr k ∈ kinds <-> leaf_of a k.
Proof.
  intros [(d & k & -> & Hk & Hin)|(d & -> & Hb & (x & kx & Hx & Hkx & Hix) & (y & ky & Hy & Hky & Hiy))];
    unfold leaf_action_kinds; rewrite or_empty_obj; cbn [mbind outcome_bind].
  - pose proof (in_leaf_kinds _ Hin) as [Hnb _]. exists [JStr k]. rewrite Hk. cbn [jeqs].
    apply String.eqb_neq in Hnb as E. rewrite E, kind_set_leaf by done. split; [done|].
    intros j. rewrite list_elem_of_singleton. split.
    + intros [= ->]. by apply leaf_self.
    + intros Hl. inversion Hl; simplify_eq; congruence.
  - exists ([JStr kx] ++ [JStr ky]). rewrite Hb. cbn [jeqs String.eqb Ascii.eqb Bool.eqb].
    rewrite Hx, Hy, !or_empty_obj. cbn [mbind outcome_bind]. rewrite Hkx, Hky, !kind_set_leaf by done.
    split; [done|]. intros j. cbn [app]. rewrite !elem_of_cons, elem_of_nil. split.
    + intros [[= ->]|[[= ->]|[]]]; [by eapply (leaf_edge d "on_active" x); auto|by eapply (leaf_edge d "on_clear" y); auto].
    + intros Hl. inversion Hl as [? ? E1 E2|? edge b ? E1 [-> | ->] E3 E4]; simplify_eq;
        [congruence|left; congruence|right; left; congruence].
Qed.

Lemma any_of_spec kinds l : any_of kinds l = true <-> exists k, JStr k ∈ kinds /\ k ∈ l.
Proof.
  unfold any_of. rewrite existsb_exists. split.
  - intros (v & Hv%list_elem_of_In & (k & -> & Hk)%jin_spec). eauto.
  - intros (k & Hv & Hk). exists (JStr k). split; [by apply list_elem_of_In|]. apply jin_spec. eauto.
Qed.

Lemma typed_intents a : typed_action a ->
  exists i, power_intents a = Ret i /\ (in_on i = true <-> wants_on a) /\ (in_off i = true <-> wants_off a).
Proof.
  intros (kinds & Hk & Hl)%typed_leaf_kinds. unfold power_intents. rewrite Hk. cbn [mbind outcome_bind].
  eexists. split; [reflexivity|]. cbn [in_on in_off]. unfold wants_on, wants_off. rewrite !any_of_spec, <- !Hl.
  unfold KEEP_ON_ACTIONS, KEEP_OFF_ACTIONS. split; set_solver.
Qed.

Lemma typed_drives a : typed_action a ->
  exists b, action_drives_power a = Ret b /\ (wants_on a \/ wants_off a -> b = true).
Proof.
  intros (kinds & Hk & Hl)%typed_leaf_kinds. unfold action_drives_power. rewrite Hk. cbn [mbind outcome_bind].
  eexists. split; [reflexivity|]. intros Hw. apply any_of_spec. unfold wants_on, wants_off in Hw. rewrite <- !Hl in Hw.
  unfold KEEP_ON_ACTIONS, KEEP_OFF_ACTIONS. set_solver.
Qed.

Lemma contradiction_spec a b i j : (in_on i = true <-> wants_on a) -> (in_off i = true <-> wants_off a) ->
  (in_on j = true <-> wants_on b) -> (in_off j = true <-> wants_off b) ->
  contradiction i j = true <-> opposed a b.
Proof. unfold contradiction, opposed. intros <- <- <- <-. by rewrite orb_true_iff, !andb_true_iff. Qed.

(** ** Targets *)

Section targets.
Context {S : Type} `{CommandQueue S} (s : S).

(** A typed target resolves to the ids of its devices. *)
Lemma resolve_spec t : typed_target t ->
  (forall v, v ∈ resolve_devices t s -> exists d, v = JStr d) /\
  (forall d, JStr d ∈ resolve_devices t s <-> acts_on s t d).
Proof.
  intros (o & k & key & x & -> & Hk & Hcase & Hx & Hne). unfold resolve_devices, resolve_target_devices.
  assert (or_dict (JObj o) = JObj o) as -> by (unfold or_dict, jor; by destruct o). cbn [jget mbind outcome_bind].
  rewrite Hk. assert (Hx0 : is_empty x = false) by (destruct x; done).
  destruct Hcase as [[[-> | ->] ->]|[-> ->]]; cbn [jeqs String.eqb Ascii.eqb Bool.eqb mbind outcome_bind].
  - rewrite Hx. cbn [truthy]. rewrite Hx0. cbn [negb forallb hashable andb]. split.
    + intros v ->%elem_of_remove_dups%list_elem_of_singleton. eauto.
    + intros d. rewrite elem_of_remove_dups, list_elem_of_singleton. split.
      * intros [= ->]. by apply on_device.
      * intros Hd. inversion Hd; simplify_eq; congruence.
  - rewrite Hx. cbn [truthy]. rewrite Hx0. cbn [negb].
    assert (forallb hashable (JStr <$> filter (fun r => is_empty r = false) (cq_members s x)) = true) as ->.
    { apply forallb_forall. by intros v (r & -> & _)%list_elem_of_In%list_elem_of_fmap. }
    split.
    + intros v (r & -> & _)%elem_of_remove_dups%list_elem_of_fmap. eauto.
    + intros d. rewrite elem_of_remove_dups, list_elem_of_fmap. split.
      * intros (r & [= <-] & [He Hr]%list_elem_of_filter). by eapply on_group.
      * intros Hd. inversion Hd; simplify_eq; [congruence|]. eexists. split; [done|].
        apply list_elem_of_filter. assert (g = x) as -> by congruence. done.
  - split; [by intros v ?%elem_of_nil|]. intros d. rewrite elem_of_nil. split; [done|].
    intros Hd. inversion Hd; simplify_eq; congruence.
Qed.

Lemma shared_spec t u : typed_target t -> typed_target u ->
  (forall v, v ∈ shared (resolve_devices t s) (resolve_devices u s) -> exists d, v = JStr d /\ acts_on s t d /\ acts_on s u d) /\
  (share_device s t u -> shared (resolve_devices t s) (resolve_devices u s) <> []).
Proof.
  intros Ht Hu. destruct (resolve_spec t Ht) as [Ht1 Ht2], (resolve_spec u Hu) as [Hu1 Hu2]. unfold shared. split.
  - intros v [Hv Hin]%list_elem_of_filter. apply existsb_exists in Hv as (w & Hw%list_elem_of_In & Heq).
    destruct (Ht1 v Hin) as [d ->], (Hu1 w Hw) as [e ->]. apply String.eqb_eq in Heq as <-.
    exists d. by rewrite <- Ht2, <- Hu2.
  - intros (d & Hd & He) E. rewrite <- Ht2 in Hd. rewrite <- Hu2 in He.
    apply (not_elem_of_nil (JStr d)). rewrite <- E. apply list_elem_of_filter. split; [|done].
    apply existsb_exists. exists (JStr d). split; [by apply list_elem_of_In|]. apply String.eqb_refl.
Qed.
Lemma shared_empty t u : typed_target t -> typed_target u ->
  shared (resolve_devices t s) (resolve_devices u s) = [] <-> ~ share_device s t u.
Proof.
  intros Ht Hu. destruct (shared_spec t u Ht Hu) as [H1 H2]. split; [intros E Hs; by apply H2 in Hs|].
  intros Hn. destruct (shared _ _) as [|v l]; [done|]. destruct (H1 v ltac:(by left)) as (d & _ & ? & ?).
  destruct Hn. by exists d.
Qed.
End targets.

(** ** Blocking findings *)

Lemma has_blocking_app l k : has_blocking (l ++ k) = has_blocking l || has_blocking k.
Proof. apply existsb_app. Qed.
Lemma has_blocking_spec l : has_blocking l = true <-> exists f, f ∈ l /\ cf_severity f = SEVERITY_BLOCK.
Proof.
  unfold has_blocking. rewrite existsb_exists. setoid_rewrite bool_decide_eq_true.
  by setoid_rewrite list_elem_of_In.
Qed.
Lemma has_blocking_concat ls : has_blocking (List.concat ls) = true <-> exists l, l ∈ ls /\ has_blocking l = true.
Proof.
  induction ls as [|l ls IH]; cbn [List.concat]; [split; [done|by intros (? & ?%elem_of_nil & _)]|].
  rewrite has_blocking_app, orb_true_iff, IH. setoid_rewrite elem_of_cons. naive_solver.
Qed.
Lemma has_blocking_first l : has_blocking (most_severe_first l) = has_blocking l.
Proof.
  apply eq_true_iff_eq. rewrite !has_blocking_spec. unfold most_severe_first.
  setoid_rewrite elem_of_app. setoid_rewrite elem_of_app. setoid_rewrite list_elem_of_filter.
  naive_solver congruence.
Qed.

Lemma mapM_blocking {A} (f : A -> outcome (list ConflictFinding)) l ks : mapM f l = Ret ks ->
  has_blocking (List.concat ks) = true <-> exists a k, a ∈ l /\ f a = Ret k /\ has_blocking k = true.
Proof.
  intros Hm. apply mapM_ret in Hm. rewrite has_blocking_concat. induction Hm as [|a k l ks Ha Hm IH].
  - split; [by intros (? & ?%elem_of_nil & _)|by intros (? & ? & ?%elem_of_nil & _)].
  - setoid_rewrite elem_of_cons. split.
    + intros (x & [-> |Hx] & Hb); [by exists a, k; auto|]. destruct IH as [IH _].
      destruct IH as (b & y & Hb' & ?); [eauto|]. exists b, y. auto.
    + intros (b & y & [-> |Hb] & Hf & Hy); [exists k; split; [by left|congruence]|].
      destruct IH as [_ IH]. destruct IH as (x & Hx & ?); [eauto|]. exists x. auto.
Qed.
Lemma mapM_blocks {A} (f : A -> outcome (list ConflictFinding)) (P : A -> Prop) l ks :
  (forall a k, a ∈ l -> f a = Ret k -> has_blocking k = true <-> P a) -> mapM f l = Ret ks ->
  has_blocking (List.concat ks) = true <-> exists a, a ∈ l /\ P a.
Proof.
  intros Hf Hm. rewrite (mapM_blocking f l ks Hm). split.
  - intros (a & k & Ha & Hk & Hb). exists a. split; [done|]. by apply (Hf a k).
  - intros (a & Ha & HP). apply mapM_ret in Hm. pose proof Ha as [n Hn]%list_elem_of_lookup.
    destruct (Forall2_lookup_l _ _ _ _ _ Hm Hn) as (k & _ & Hk). exists a, k. by rewrite (Hf a k).
Qed.
Lemma bind_blocking {A} (f : A -> list ConflictFinding) l :
  has_blocking (l ≫= f) = true <-> exists a, a ∈ l /\ has_blocking (f a) = true.
Proof.
  rewrite has_blocking_spec. setoid_rewrite list_elem_of_bind. setoid_rewrite has_blocking_spec. naive_solver.
Qed.

Section detect.
Context {S : Type} `{CommandQueue S} (py_repr : json -> string) (iso : time -> string) (s : S).

(** The lines of a table the checks read: rules well typed, power cycles with a target. *)
Definition typed_schedule (x : schedule) : Prop := sc_kind x = "power_cycle" -> typed_target (sc_target x).

Lemma check_contradictory_spec t a mine r k : typed_target t -> typed_action a ->
  power_intents a = Ret mine -> typed_config (rr_rule r) ->
  check_contradictory (resolve_devices t s) mine s r = Ret k ->
  has_blocking k = true <-> fights s t a (rc_target (rr_rule r)) (rc_action (rr_rule r)).
Proof.
  intros Ht Ha Hm Hr. destruct Hr as [_ _ Hrt Hra _ _ _ _]. unfold check_contradictory, fights.
  destruct (typed_intents a Ha) as (i & Hi & I1 & I2). assert (i = mine) as -> by congruence.
  destruct (typed_intents _ Hra) as (j & Hj & J1 & J2). rewrite Hj.
  pose proof (shared_empty s t _ Ht Hrt) as He.
  destruct (shared _ _) as [|v l] eqn:E; cbn [mbind outcome_bind]; intros [= <-].
  - split; [done|]. intros [Hs _]. by apply He in Hs.
  - pose proof (contradiction_spec a (rc_action (rr_rule r)) mine j I1 I2 J1 J2) as Hc.
    destruct (contradiction mine j) eqn:Ec.
    + split; [intros _|done]. split; [|by apply Hc].
      destruct (shared_spec s t _ Ht Hrt) as [H1 _]. destruct (H1 v) as (d & _ & ? & ?); [rewrite E; by left|].
      by exists d.
    + split; [done|]. intros [_ Ho]. by apply Hc in Ho.
Qed.

Lemma check_schedule_spec t a mine x : typed_target t -> typed_action a -> power_intents a = Ret mine ->
  typed_schedule x -> has_blocking (check_schedule (resolve_devices t s) mine s x) = true <-> fights_schedule s t a x.
Proof.
  intros Ht Ha Hm Hx. destruct (typed_intents a Ha) as (i & Hi & _ & I2). assert (i = mine) as -> by congruence.
  unfold check_schedule, fights_schedule. rewrite <- I2.
  destruct (String.eqb_spec (sc_kind x) "power_cycle") as [Hk|]; cbn [negb]; [|naive_solver].
  specialize (Hx Hk). pose proof (shared_empty s t _ Ht Hx) as He.
  destruct (shared_spec s t _ Ht Hx) as [H1 _].
  destruct (shared _ _) as [|v l] eqn:E.
  - split; [done|]. intros (_ & Hs & _). by apply He in Hs.
  - destruct (H1 v ltac:(by left)) as (d & _ & ? & ?). unfold has_blocking. cbn [existsb cf_severity].
    destruct (in_off mine); [|naive_solver]. split; [|done]. intros _. split_and!; [done|by exists d|done].
Qed.

(** The other checks never block. *)
Lemma check_duplicate_mild sig r k : check_duplicate py_repr sig r = Ret k -> has_blocking k = false.
Proof.
  unfold check_duplicate. intros (o & _ & [= <-])%bind_ret. by destruct (tuple_eq _ _).
Qed.
Lemma check_loop_mild p k : check_loop p = Ret k -> has_blocking k = false.
Proof.
  unfold check_loop. intros (h & _ & (c & _ & Hk)%bind_ret)%bind_ret.
  destruct h as [h|]; [|by injection Hk as <-]. apply bind_ret in Hk as (ft & _ & (ws & _ & [= <-])%bind_ret).
  rewrite has_blocking_app. apply orb_false_iff. split; repeat case_match; done.
Qed.
Lemma check_mode_mild t v k : check_mode t v = Ret k -> has_blocking k = false.
Proof. unfold check_mode. destruct v; intros [= <-]. by repeat case_match. Qed.
Lemma check_overlaps_mild devices scheds : has_blocking (check_overlaps iso devices s scheds) = false.
Proof.
  apply not_true_is_false. rewrite has_blocking_spec. intros (f & Hf & Hs).
  apply list_elem_of_omap in Hf as (x & _ & Hf). destruct (_ <? _)%nat; [|done]. by injection Hf as <-.
Qed.
Lemma mapM_mild {A} (f : A -> outcome (list ConflictFinding)) l ks : (forall a k, f a = Ret k -> has_blocking k = false) ->
  mapM f l = Ret ks -> has_blocking (List.concat ks) = false.
Proof.
  intros Hf Hm. apply not_true_is_false. rewrite (mapM_blocking f l ks Hm). intros (a & k & _ & Ha & Hk).
  specialize (Hf a k Ha). congruence.
Qed.

(** *** Detection returns *)

Lemma mapM_returns {A B} (f : A -> outcome B) l : (forall a, a ∈ l -> exists b, f a = Ret b) ->
  exists k, mapM f l = Ret k.
Proof.
  induction l as [|a l IH]; intros Hl; [by exists []|]. destruct (Hl a) as [b Hb]; [by left|].
  destruct IH as [k Hk]; [intros; apply Hl; by right|]. exists (b :: k). cbn [mapM]. rewrite Hb.
  cbn [mbind outcome_bind]. by rewrite Hk.
Qed.

(** A validated probe has a signature. *)
Lemma validated_entry v : validate_target_entry py_repr v = Ret tt -> exists l, internet_pair py_repr v = Ret l.
Proof.
  unfold validate_target_entry, internet_pair. destruct v as [| | | | | |d]; try done.
  destruct (is_empty _); [done|]. unfold dget, dget_default.
  assert (Hp : jor match dict_get d "port" with Some w => w | None => JInt 0 end (JInt 0) =
               jor match dict_get d "port" with Some w => w | None => JNull end (JInt 0))
    by (by destruct (dict_get d "port")).
  rewrite Hp. unfold try_int. destruct (py_int _) as [z|[]]; cbn [mbind outcome_bind]; eauto; done.
Qed.
Lemma validated_entries l : validate_entries (validate_target_entry py_repr) l = Ret tt ->
  exists ks, mapM (internet_pair py_repr) l = Ret ks.
Proof.
  intros Hv. apply mapM_returns. induction l as [|v l IH]; intros a Ha; [by apply elem_of_nil in Ha|].
  cbn [validate_entries] in Hv. apply bind_ret in Hv as ([] & Hv & Hl).
  apply elem_of_cons in Ha as [-> |Ha]; [by apply validated_entry|by apply IH].
Qed.
Lemma validated_signature v : validate_probe py_repr v = Ret tt -> exists sig, probe_signature py_repr v = Ret sig.
Proof.
  unfold validate_probe, probe_signature. destruct v as [| | | | | |p]; try done.
  rewrite or_empty_obj. cbn [mbind outcome_bind]. cbv zeta. intros Hv.
  destruct (jeqs (dget p "kind") "internet"); [|repeat case_match; eauto].
  unfold validate_internet in Hv. destruct (dget p "targets") as [| | | | |l|]; try done.
  - cbn. eauto.
  - destruct (Nat.ltb 10 _); [done|]. apply validated_entries in Hv as [ks Hks].
    assert (jor (JList l) (JList []) = JList l) as -> by (by destruct l). cbn [py_iter mbind outcome_bind].
    rewrite Hks. cbn [mbind outcome_bind]. eauto.
Qed.

Lemma typed_leaf_obj v : typed_leaf v -> exists d, v = JObj d.
Proof. intros (d & _ & -> & _). eauto. Qed.
Lemma typed_action_signature a : typed_action a -> exists sig, action_signature a = Ret sig.
Proof.
  intros [(d & k & -> & Hk & Hin)|(d & -> & Hk & [x Hx]%typed_leaf_obj & [y Hy]%typed_leaf_obj)];
    unfold action_signature; rewrite or_empty_obj; cbn [mbind outcome_bind]; rewrite Hk.
  - destruct (in_leaf_kinds k Hin) as [Hb%String.eqb_neq _]. cbn [jeqs]. rewrite Hb. repeat case_match; eauto.
  - cbn [jeqs String.eqb Ascii.eqb Bool.eqb]. rewrite Hx, Hy, !or_empty_obj. cbn [mbind outcome_bind]. eauto.
Qed.
Lemma rule_signature_returns p a t : (exists sig, probe_signature py_repr p = Ret sig) -> typed_action a ->
  typed_target t -> exists sig, rule_signature py_repr p a t = Ret sig.
Proof.
  intros [sp Hp] [sa Ha]%typed_action_signature (o & _ & _ & _ & -> & _). unfold rule_signature, target_signature.
  rewrite Hp, Ha, or_empty_obj. cbn [mbind outcome_bind]. eauto.
Qed.

(** A stored rule: well typed, its probe validated. *)
Definition stored_ok (r : rule_row) : Prop :=
  typed_config (rr_rule r) /\ validate_probe py_repr (rc_probe (rr_rule r)) = Ret tt.
(** What a proposal must be for the checks to be made; [form_proposal_ok]: the structured form
    builds such, if a tag is not blank. *)
Record proposed_ok (p : proposal) : Prop := {
  po_probe : exists sig, probe_signature py_repr (pr_probe p) = Ret sig;
  po_target : typed_target (pr_target p);
  po_action : typed_action (pr_action p);
  po_holdoff : exists h, holdoff_seconds (pr_action p) = Ret h;
  po_numbers : exists f w c, pr_failure_threshold p = JInt f /\ pr_window_seconds p = JInt w /\
    pr_cooldown_seconds p = JInt c
}.

Lemma check_loop_returns p : proposed_ok p -> exists k, check_loop p = Ret k.
Proof.
  intros [_ _ _ [h Hh] (f & w & c & Hf & Hw & Hc)]. unfold check_loop. rewrite Hh, Hf, Hw, Hc.
  cbn [mbind outcome_bind given_int try_int py_int]. destruct h; [|eauto]. cbn [mbind outcome_bind]. eauto.
Qed.
Lemma check_mode_returns t target : typed_target target ->
  exists k, mapM (check_mode t) (sorted_ids (resolve_devices target s)) = Ret k.
Proof.
  intros [Ht _]%(resolve_spec s). apply mapM_returns. intros v Hv.
  assert (Hp : sorted_ids (resolve_devices target s) ≡ₚ resolve_devices target s) by apply merge_sort_Permutation.
  rewrite Hp in Hv. destruct (Ht v Hv) as [d ->]. cbn. eauto.
Qed.
Lemma check_contradictory_returns devices mine rules : Forall stored_ok rules ->
  exists k, mapM (check_contradictory devices mine s) rules = Ret k.
Proof.
  intros Hr. rewrite Forall_forall in Hr. apply mapM_returns. intros r Hin.
  destruct (Hr r Hin) as [[_ _ _ Ha _ _ _ _] _]. destruct (typed_intents _ Ha) as (i & Hi & _).
  unfold check_contradictory. destruct (shared _ _); [eauto|]. rewrite Hi. cbn [mbind outcome_bind]. eauto.
Qed.

Lemma detect_returns rules scheds t p exclude : Forall stored_ok rules -> proposed_ok p ->
  exists found, detect_conflicts py_repr iso rules scheds t p exclude s = Ret found.
Proof.
  intros Hr Hp. destruct Hp as [Hsig Ht Ha Hh Hn]. unfold detect_conflicts. cbv zeta.
  set (others := filter _ rules).
  assert (Ho : Forall stored_ok others).
  { rewrite Forall_forall in Hr |- *. intros r [_ Hin]%list_elem_of_filter. by apply Hr. }
  destruct (typed_intents _ Ha) as (i & -> & _). destruct (typed_drives _ Ha) as (b & -> & _). cbn [mbind outcome_bind].
  set (acts := b && _).
  assert (exists c1, (if acts then mapM (check_contradictory (resolve_devices (pr_target p) s) i s) others
                      else Ret []) = Ret c1) as [c1 ->] by (destruct acts; [by apply check_contradictory_returns|eauto]).
  cbn [mbind outcome_bind]. destruct (rule_signature_returns _ _ _ Hsig Ha Ht) as [sig ->]. cbn [mbind outcome_bind].
  destruct (mapM_returns (check_duplicate py_repr sig) others) as [c4 ->].
  { intros r Hin. rewrite Forall_forall in Ho. destruct (Ho r Hin) as [[_ _ Hrt Hra _ _ _ _] Hv%validated_signature].
    destruct (rule_signature_returns _ _ _ Hv Hra Hrt) as [o Hs]. unfold check_duplicate. rewrite Hs.
    cbn [mbind outcome_bind]. eauto. }
  cbn [mbind outcome_bind]. destruct (check_loop_returns p) as [c5 ->]; [by split|]. cbn [mbind outcome_bind].
  assert (exists c6, (if acts then mapM (check_mode t) (sorted_ids (resolve_devices (pr_target p) s))
                      else Ret []) = Ret c6) as [c6 ->] by (destruct acts; [by apply check_mode_returns|eauto]).
  cbn [mbind outcome_bind]. eauto.
Qed.

(** *** When it blocks *)

Lemma no_devices_no_share target u : typed_target target -> resolve_devices target s = [] ->
  ~ share_device s target u.
Proof.
  intros Ht E (d & Hd & _). apply (proj2 (resolve_spec s _ Ht)) in Hd. rewrite E in Hd. by apply elem_of_nil in Hd.
Qed.

Lemma detect_blocks rules scheds t p exclude found :
  typed_target (pr_target p) -> typed_action (pr_action p) ->
  Forall (fun r => typed_config (rr_rule r)) rules -> Forall typed_schedule scheds ->
  detect_conflicts py_repr iso rules scheds t p exclude s = Ret found ->
  has_blocking found = true <->
    (exists r, r ∈ rules /\ Some (rc_id (rr_rule r)) <> exclude /\
       fights s (pr_target p) (pr_action p) (rc_target (rr_rule r)) (rc_action (rr_rule r))) \/
    (exists x, x ∈ scheds /\ fights_schedule s (pr_target p) (pr_action p) x).
Proof.
  intros Ht Ha Hr Hs. rewrite Forall_forall in Hr. rewrite Forall_forall in Hs. unfold detect_conflicts. cbv zeta.
  destruct (typed_drives _ Ha) as (b & -> & Hb). intros (mine & Hm & Hd)%bind_ret. cbn [mbind outcome_bind] in Hd.
  set (acts := b && _) in Hd. apply bind_ret in Hd as (c1 & H1 & Hd). apply bind_ret in Hd as (sig & _ & Hd).
  apply bind_ret in Hd as (c4 & H4 & Hd). apply bind_ret in Hd as (c5 & H5 & Hd).
  apply bind_ret in Hd as (c6 & H6 & [= <-]).
  assert (E6 : has_blocking (List.concat c6) = false).
  { destruct acts; [|by injection H6 as <-]. eapply mapM_mild; [apply check_mode_mild|exact H6]. }
  rewrite has_blocking_first, !has_blocking_app, check_overlaps_mild, E6.
  rewrite (mapM_mild _ _ _ (check_duplicate_mild sig) H4), (check_loop_mild _ _ H5).
  rewrite !orb_false_r, orb_true_iff. destruct acts eqn:Ea.
  - assert (E1 : has_blocking (List.concat c1) = true <-> exists r,
      r ∈ filter (fun r => Some (rc_id (rr_rule r)) <> exclude) rules /\
      fights s (pr_target p) (pr_action p) (rc_target (rr_rule r)) (rc_action (rr_rule r))).
    { eapply mapM_blocks; [|exact H1]. intros r k [_ Hin]%list_elem_of_filter Hk.
      eapply check_contradictory_spec; eauto. }
    rewrite E1, bind_blocking.
    f_equiv.
    + setoid_rewrite list_elem_of_filter. naive_solver.
    + split; intros (x & Hin & Hf); exists x; (split; [done|]); by apply (check_schedule_spec _ _ _ x Ht Ha Hm (Hs x Hin)).
  - injection H1 as <-. split; [by intros [?|?]|]. apply andb_false_iff in Ea.
    intros [(r & _ & _ & Hsh & Ho)|(x & _ & _ & Hsh & Ho)]; exfalso; destruct Ea as [-> |Ea].
    1, 3: assert (false = true) by (apply Hb; unfold opposed in Ho; tauto); done.
    all: apply negb_false_iff, bool_decide_eq_true in Ea; by eapply no_devices_no_share.
Qed.
End detect.

(** C26. Conflict detection is exact.  On rules the service validated and schedules with a target,
    for any proposal the structured form builds without a blank tag ([form_proposal_ok]),
    [detect_conflicts] returns; its findings come most severe first; and one blocks exactly when the proposal and another rule want the
    power of one device on and off, or the proposal holds off a device that a schedule
    power-cycles. *)
Theorem detection_blocks_exactly_fights {S} `{CommandQueue S} py_repr iso (s : S) rules scheds t p exclude :
  Forall (stored_ok py_repr) rules -> Forall typed_schedule scheds -> proposed_ok py_repr p ->
  exists found, detect_conflicts py_repr iso rules scheds t p exclude s = Ret found /\
    (exists b w i, found = b ++ w ++ i /\ Forall (fun f => cf_severity f = SEVERITY_BLOCK) b /\
       Forall (fun f => cf_severity f = SEVERITY_WARN) w /\ Forall (fun f => cf_severity f = SEVERITY_INFO) i) /\
    (has_blocking found = true <->
      (exists r, r ∈ rules /\ Some (rc_id (rr_rule r)) <> exclude /\
         fights s (pr_target p) (pr_action p) (rc_target (rr_rule r)) (rc_action (rr_rule r))) \/
      (exists x, x ∈ scheds /\ fights_schedule s (pr_target p) (pr_action p) x)).
Proof.
  intros Hr Hs Hp. destruct (detect_returns py_repr iso s rules scheds t p exclude Hr Hp) as [found Hf].
  exists found. split; [done|]. split.
  - unfold detect_conflicts in Hf. cbv zeta in Hf.
    repeat (apply bind_ret in Hf as (? & _ & Hf)). injection Hf as <-. unfold most_severe_first.
    eexists _, _, _. split; [reflexivity|]. split_and!; apply Forall_forall; by intros f [? _]%list_elem_of_filter.
  - destruct Hp as [_ Ht Ha _ _]. apply (detect_blocks py_repr iso s rules scheds t p exclude found Ht Ha); [|done..].
    eapply Forall_impl; [exact Hr|]. by intros r [? _].
Qed.

(** ** What the structured form proposes *)

Lemma add_if_kind b k v e d : exists r, add_if b k v (e :: d) = e :: r.
Proof. destruct b; cbn; eauto. Qed.
Lemma add_int_kind f k name n e d : exists r, add_int f k name n (e :: d) = e :: r.
Proof. unfold add_int. case_match; cbn; eauto. Qed.
Lemma add_int_or_kind f k name n e d : exists r, add_int_or f k name n (e :: d) = e :: r.
Proof. unfold add_int_or. case_match; cbn; eauto. Qed.

(** A probe the form builds begins with its kind; the targets of an internet probe are built. *)
Lemma build_probe_shape f p : build_probe_from_form f = Ret p -> exists k rest, p = ("kind", JStr k) :: rest /\
  (k = "internet" -> rest = [] \/ exists l, rest = [("targets", JList (omap internet_target l))]).
Proof.
  unfold build_probe_from_form. cbv zeta. generalize (field f "probe_kind"). intros kind H.
  destruct (String.eqb_spec kind "internet") as [Hk|Hk].
  { injection H as <-. unfold add_if. case_match; eexists "internet", _; (split; [reflexivity|eauto]). }
  repeat match type of H with
  | (if String.eqb ?k ?b then _ else _) = _ => destruct (String.eqb_spec k b) as [?|]
  | (if orb (String.eqb ?k ?a) (String.eqb ?k ?b) then _ else _) = _ =>
    destruct (String.eqb_spec k a) as [?|], (String.eqb_spec k b) as [?|]; cbn [orb] in H
  | (let '(_, _) := ?x in _) = _ => destruct x
  | match py_float ?x with _ => _ end = _ => destruct (py_float x)
  | mbind _ _ = Ret _ => apply bind_ret in H as (? & _ & H)
  | Ret _ = Ret _ => injection H as <-
  end; try discriminate H.
  all: repeat match goal with
  | |- context [add_if ?b ?k ?v (?e :: ?d)] => destruct (add_if_kind b k v e d) as [? ->]
  | |- context [add_int ?f ?k ?x ?n (?e :: ?d)] => destruct (add_int_kind f k x n e d) as [? ->]
  | |- context [add_int_or ?f ?k ?x ?n (?e :: ?d)] => destruct (add_int_or_kind f k x n e d) as [? ->]
  end.
  all: eexists _, _; split; [reflexivity|]; try (intros ->); try done.
Qed.

Lemma built_targets py_repr l : exists pairs, mapM (internet_pair py_repr) (omap internet_target l) = Ret pairs.
Proof.
  induction l as [|hp l [pairs IH]]; [by eexists|]. cbn [omap list_omap].
  destruct (internet_target hp) as [v|] eqn:E; [|eauto]. unfold internet_target in E. cbv zeta in E.
  case_match; [done|]. injection E as <-. cbn [mapM].
  assert (Hp : forall h z, exists ps, internet_pair py_repr (JObj [("host", JStr h); ("port", JInt z)]) = Ret ps)
    by (intros h z; cbn; unfold jor; case_match; cbn; eauto).
  edestruct Hp as [ps Hps]. rewrite Hps. cbn [mbind outcome_bind]. rewrite IH. cbn [mbind outcome_bind]. eauto.
Qed.
Lemma built_signature py_repr f p : build_probe_from_form f = Ret p ->
  exists sig, probe_signature py_repr (JObj p) = Ret sig.
Proof.
  intros (k & rest & -> & Hi)%build_probe_shape. unfold probe_signature. rewrite or_empty_obj.
  cbn [mbind outcome_bind]. cbv zeta. change (dget (("kind", JStr k) :: rest) "kind") with (JStr k).
  destruct (String.eqb_spec k "internet") as [->|Hk].
  - destruct (Hi eq_refl) as [->|[l ->]]; [by eexists|].
    change (dget _ "targets") with (JList (omap internet_target l)).
    assert (jor (JList (omap internet_target l)) (JList []) = JList (omap internet_target l)) as ->
      by (by destruct (omap _ _)).
    cbn [jeqs String.eqb Ascii.eqb Bool.eqb py_iter mbind outcome_bind].
    destruct (built_targets py_repr l) as [pairs ->]. cbn [mbind outcome_bind]. eauto.
  - cbn [jeqs]. apply String.eqb_neq in Hk. rewrite Hk. repeat case_match; eauto.
Qed.

Lemma built_target devs groups f t t' : build_target_from_form f = Ret t -> scope_rule_target devs groups t = Ret t' ->
  (dget t' "kind" = JStr "tag" -> dget t' "tag" <> JStr EmptyString) -> typed_target (JObj t').
Proof.
  unfold build_target_from_form, scope_rule_target. cbv zeta.
  destruct (in_strs (field f "target_kind") _) eqn:Ek; [|destruct (String.eqb_spec (field f "target_kind") "tag"); [|done]].
  - intros [= <-]. change (dget [("kind", ?k); ?i] "kind") with k. cbn [jin]. rewrite Ek. cbn [negb].
    intros (id & Hid & [= <-])%bind_ret _. unfold validate_picker_id in Hid.
    change (dget _ "id") with (JStr (field f "target_id")) in Hid. cbv zeta in Hid. cbn [negb] in Hid.
    destruct (is_empty (strip (field f "target_id"))) eqn:Ee; [done|].
    destruct (in_strs _ _) in Hid; [|done]. injection Hid as <-.
    eexists _, (field f "target_kind"), "id", (strip (field f "target_id")). split; [reflexivity|].
    split; [done|]. split; [left; split; [|done]|].
    + apply in_strs_spec in Ek. set_solver.
    + split; [done|]. by rewrite ConfigFacts.strip_idemp.
  - intros [= <-]. change (dget [("kind", ?k); ?i] "kind") with k. cbn. intros [= <-] Ht.
    eexists _, "tag", "tag", (field f "target_id"). split; [reflexivity|]. split_and!; [done|by right|done|].
    unfold field. rewrite ConfigFacts.strip_idemp. specialize (Ht eq_refl). unfold field in Ht. cbn in Ht.
    destruct (strip _); [by destruct Ht|done].
Qed.

Lemma built_action f a : build_action_from_form f = Ret a ->
  typed_action (JObj a) /\ exists h, holdoff_seconds (JObj a) = Ret h.
Proof.
  unfold build_action_from_form. cbv zeta. set (kind := strip _). clearbody kind. intros H.
  assert (Hleaf : forall d k, dget d "kind" = JStr k -> k ∈ LEAF_ACTION_KINDS -> typed_leaf (JObj d))
    by (intros d k ? ?; by exists d, k).
  destruct (String.eqb_spec kind "cycle") as [E|_].
  { apply bind_ret in H as (off & _ & H). apply bind_ret in H as (hold & _ & H). injection H as <-.
    split; [|by eexists]. left. eapply Hleaf; [reflexivity|by left]. }
  destruct (in_strs kind _) eqn:Ei.
  { injection H as <-. apply in_strs_spec in Ei. split.
    - left. eapply Hleaf; [reflexivity|]. unfold LEAF_ACTION_KINDS. set_solver.
    - unfold holdoff_seconds. cbn. case_match; eauto. }
  destruct (String.eqb kind "apply_scene").
  { case_match; [done|]. injection H as <-. split; [|by eexists]. left. eapply Hleaf; [reflexivity|].
    apply in_strs_spec. reflexivity. }
  destruct (String.eqb kind "binding"); [|done]. case_match; [done|]. injection H as <-. split; [|by eexists].
  right. eexists. split_and!; [reflexivity..| |]; (eapply Hleaf; [reflexivity|apply in_strs_spec; reflexivity]).
Qed.

(** The structured form's proposals are such as the exactness theorem asks for, a blank tag
    apart. *)
Lemma form_proposal_ok py_repr devs groups f x : read_form py_repr devs groups f = Ret x ->
  (forall t, sf_target x = JObj t -> dget t "kind" = JStr "tag" -> dget t "tag" <> JStr EmptyString) ->
  proposed_ok py_repr (proposal_of x).
Proof.
  unfold read_form. intros H Htag.
  apply bind_ret in H as (p & Hp & H). apply bind_ret in H as (t & Ht & H). apply bind_ret in H as (t' & Ht' & H).
  apply bind_ret in H as (a & Ha & H). repeat (apply bind_ret in H as (? & _ & H)). injection H as <-.
  apply built_action in Ha as [Ha Hh]. split; cbn.
  - by eapply built_signature.
  - eapply built_target; [exact Ht|exact Ht'|]. by apply Htag.
  - done.
  - done.
  - eauto 6.
Qed.

(** ** The form keeps the peace *)

Lemma fights_sym {S} `{CommandQueue S} (s : S) t a u b : fights s t a u b -> fights s u b t a.
Proof. intros [(d & ? & ?) Ho]. split; [by exists d|]. unfold opposed in *. tauto. Qed.
Lemma elem_of_list_rules d r : r ∈ list_rules d <-> exists i, rd_rules d !! i = Some r.
Proof.
  unfold list_rules. rewrite order_by_desc_perm, list_elem_of_fmap. split.
  - intros ([i x] & -> & Hi%elem_of_map_to_list). eauto.
  - intros [i Hi]. exists (i, r). by rewrite elem_of_map_to_list.
Qed.

Section peace.
Context {S : Type} `{CommandQueue S} (py_repr : json -> string) (iso : time -> string).
Context (ulid : nat -> string) (db_accepts : rule_row -> bool) (scheds : list schedule) (s : S).

(** What an accepted write stores. *)
Definition writes_form (d d' : rule_db) (f : rule_form) (id : string) : Prop :=
  exists row, rd_rules d' = <[id := row]> (rd_rules d) /\ typed_config (rr_rule row) /\
    rc_target (rr_rule row) = rf_target f /\ rc_action (rr_rule row) = rf_action f /\
    (rc_id (rr_rule row) = id \/ exists old, rd_rules d !! id = Some old /\ rc_id (rr_rule row) = rc_id (rr_rule old)).

Lemma create_rule_writes ok f user now d :
  (create_rule py_repr ulid ok f user now d).2 = d \/
  writes_form d (create_rule py_repr ulid ok f user now d).2 f (String.append "wdr_" (ulid (rd_next d))).
Proof.
  unfold create_rule. destruct (v ← _; _) as [[[v mr] rd]|e] eqn:E; [|by left].
  apply bind_ret in E as (v' & Hv & E). apply bind_ret in E as (? & _ & E). apply bind_ret in E as (? & _ & [= -> _ _]).
  unfold session_scope. cbv zeta. destruct (ok _); [right|by left]. cbn [snd].
  eexists. split; [reflexivity|]. pose proof (form_config_typed py_repr (String.append "wdr_" (ulid (rd_next d))) true f v Hv) as Ht.
  destruct v as [[[[n ft] rt] ws] cd]. split; [exact Ht|]. cbn. auto.
Qed.
Lemma update_rule_writes ok id f now d :
  (update_rule py_repr ok id f now d).2 = d \/ writes_form d (update_rule py_repr ok id f now d).2 f id.
Proof.
  unfold update_rule. destruct (validate_rule_inputs py_repr f) as [v|e] eqn:Hv; [|by left].
  unfold session_scope. destruct (rd_rules d !! id) as [old|] eqn:Eo; [|by left].
  destruct (retries ← _; _) as [[mr rd]|e]; [|by left]. cbv zeta. destruct (ok _); [right|by left]. cbn [snd].
  eexists. split; [reflexivity|].
  pose proof (form_config_typed py_repr (rc_id (rr_rule old)) (rc_enabled (rr_rule old)) f v Hv) as Ht.
  destruct v as [[[[n ft] rt] ws] cd]. split; [exact Ht|]. cbn. split_and!; [done|done|]. right. by exists old.
Qed.

(** No two rules fight, and none fights a schedule. *)
Record peaceful (d : rule_db) : Prop := {
  pc_typed : typed_db d;
  pc_keys i r : rd_rules d !! i = Some r -> rc_id (rr_rule r) = i;
  pc_rules i j r x : i <> j -> rd_rules d !! i = Some r -> rd_rules d !! j = Some x ->
    ~ fights s (rc_target (rr_rule r)) (rc_action (rr_rule r)) (rc_target (rr_rule x)) (rc_action (rr_rule x));
  pc_schedules i r x : rd_rules d !! i = Some r -> x ∈ scheds ->
    ~ fights_schedule s (rc_target (rr_rule r)) (rc_action (rr_rule r)) x
}.

Lemma peaceful_write d d' f id t p found exclude :
  Forall typed_schedule scheds -> peaceful d -> writes_form d d' f id ->
  pr_target p = rf_target f -> pr_action p = rf_action f -> (exclude = None \/ exclude = Some id) ->
  detect_conflicts py_repr iso (list_rules d) scheds t p exclude s = Ret found ->
  has_blocking found = false -> peaceful d'.
Proof.
  intros Hs [P1 P2 P3 P4] (row & Hd & Ht & Htar & Hact & Hid) Ep Ea Hex Hdet Hnb.
  assert (Hk : rc_id (rr_rule row) = id) by (destruct Hid as [?|(old & Ho & ->)]; eauto).
  pose proof (detect_blocks py_repr iso s (list_rules d) scheds t p exclude found) as Hb.
  rewrite Ep, Ea, <- Htar, <- Hact in Hb. destruct Ht as [? ? Hrt Hra ? ? ? ?] eqn:Etc. clear Etc.
  destruct (Hb Hrt Hra) as [_ Hno]; [|done|done|].
  { apply Forall_forall. intros r [i Hi]%elem_of_list_rules. exact (P1 i r Hi). }
  assert (Hfree : forall j x, j <> id -> rd_rules d !! j = Some x ->
    ~ fights s (rc_target (rr_rule row)) (rc_action (rr_rule row)) (rc_target (rr_rule x)) (rc_action (rr_rule x))).
  { intros j x Hj Hx Hf. rewrite Hno in Hnb; [done|]. left. exists x. split_and!; [apply elem_of_list_rules; eauto| |done].
    rewrite (P2 j x Hx). by destruct Hex as [-> | ->]; [|intros [= ->]]. }
  split; unfold typed_db; rewrite Hd.
  - by apply map_Forall_insert_2.
  - intros i r [[<- <-]|[_ Hi]]%lookup_insert_Some; [done|by apply P2].
  - intros i j r x Hij [[<- <-]|[Hi Hr]]%lookup_insert_Some [[<- <-]|[Hj Hx]]%lookup_insert_Some; [done| | |exact (P3 i j r x Hij Hr Hx)].
    + by eapply Hfree.
    + intros Hf. eapply (Hfree i r); [done|done|by apply fights_sym].
  - intros i r x [[<- <-]|[_ Hi]]%lookup_insert_Some Hin; [|by eapply P4]. intros Hf.
    rewrite Hno in Hnb; [done|]. right. by exists x.
Qed.

(** One request to the structured pages, without the acknowledgement. *)
Inductive form_step : rule_db -> rule_db -> Prop :=
  | form_create devices groups t f user now d : conflicts_acknowledged f = false ->
      form_step d (rules_create_submit py_repr iso ulid db_accepts devices groups scheds t s f user now d).2
  | form_edit devices groups t id f now d : conflicts_acknowledged f = false ->
      form_step d (rules_edit_form_submit py_repr iso db_accepts devices groups scheds t s id f now d).2
  | form_delete id d : form_step d (rules_delete_submit id d).2
  | form_toggle id f now d : form_step d (rules_set_enabled_submit id f now d).2.

Lemma form_step_peaceful d d' : Forall typed_schedule scheds -> form_step d d' -> peaceful d -> peaceful d'.
Proof.
  intros Hs [devices groups t f user now d0 Hack|devices groups t id f now d0 Hack|id d0|id f now d0] Hp.
  - unfold rules_create_submit. destruct (read_form _ _ _ f) as [x|e]; [|done].
    destruct (detect _ _ _ _ _ _ _ _) as [found|e] eqn:Ed; [|done]. rewrite Hack, andb_true_r.
    destruct (has_blocking found) eqn:Eb; [done|].
    pose proof (create_rule_writes db_accepts (form_of x None None 3 60 JNull) user now d0) as Hc.
    destruct (create_rule _ _ _ _ _ _ _) as [[row|e] d1]; cbn [snd] in *;
      (destruct Hc as [-> |Hc]; [done|]; by eapply (peaceful_write d0 d1 _ _ t (proposal_of x) found None); eauto).
  - unfold rules_edit_form_submit. destruct (rd_rules d0 !! id) as [old|]; [|done].
    destruct (read_form _ _ _ f) as [x|e]; [|done].
    destruct (detect _ _ _ _ _ _ _ _) as [found|e] eqn:Ed; [|done]. rewrite Hack, andb_true_r.
    destruct (has_blocking found) eqn:Eb; [done|]. cbv zeta.
    pose proof (update_rule_writes db_accepts id (form_of x (rc_site_id (rr_rule old)) (rr_description old) (rr_max_retries old)
      (rr_retry_delay_seconds old) (or_dict (rc_escalation (rr_rule old)))) now d0) as Hc.
    destruct (update_rule _ _ _ _ _ _) as [[[row|]|e] d1]; cbn [snd] in *;
      (destruct Hc as [-> |Hc]; [done|]; by eapply (peaceful_write d0 d1 _ _ t (proposal_of x) found (Some id)); eauto).
  - unfold rules_delete_submit, delete_rule. cbn [snd]. destruct (rd_rules d0 !! id) as [old|]; [|done]. cbn [snd].
    destruct Hp as [P1 P2 P3 P4]. split; cbn [rd_rules].
    + by apply map_Forall_delete.
    + intros i r [_ Hi]%lookup_delete_Some. by apply P2.
    + intros i j r x Hij [_ Hi]%lookup_delete_Some [_ Hj]%lookup_delete_Some. exact (P3 i j r x Hij Hi Hj).
    + intros i r x [_ Hi]%lookup_delete_Some. by eapply P4.
  - unfold rules_set_enabled_submit, WatchdogRules.set_enabled.
    destruct (rd_rules d0 !! id) as [old|] eqn:Eo; [|done]. cbn [snd].
    destruct Hp as [P1 P2 P3 P4]. pose proof (P1 id old Eo) as Ht. split; cbn [rd_rules].
    + apply map_Forall_insert_2; [|done]. by apply enable_typed.
    + intros i r [[<- <-]|[_ Hi]]%lookup_insert_Some; [exact (P2 id old Eo)|by apply P2].
    + intros i j r x Hij [[<- <-]|[Hi Hr]]%lookup_insert_Some [[<- <-]|[Hj Hx]]%lookup_insert_Some;
        [done|exact (P3 _ j old x Hij Eo Hx)|exact (P3 i _ r old Hij Hr Eo)|exact (P3 i j r x Hij Hr Hx)].
    + intros i r x [[<- <-]|[_ Hi]]%lookup_insert_Some Hin; [exact (P4 id old x Eo Hin)|exact (P4 i r x Hi Hin)].
Qed.
End peace.

(** C25. The confirmation step keeps the peace.  Over any history of the structured form - rules
    created and edited, whatever the fields, never with the acknowledgement ticked; deleted;
    switched on and off - under given group memberships and schedules, no two rules of the
    table want the power of one device on and off, and no rule holds off a device that a
    schedule power-cycles. *)
Theorem unacknowledged_saves_keep_the_peace {S} `{CommandQueue S} py_repr iso ulid db_accepts
    (scheds : list schedule) (s : S) d :
  Forall typed_schedule scheds -> rtc (form_step py_repr iso ulid db_accepts scheds s) (RuleDb ∅ 0) d ->
  peaceful scheds s d.
Proof.
  intros Hs Hh. assert (H0 : peaceful scheds s (RuleDb ∅ 0)) by (split; [by apply map_Forall_empty|done..]).
  revert H0. induction Hh as [|x y z Hxy _ IH]; [done|]. intros Hx. by eapply IH, form_step_peaceful.
Qed.

Module Example.

#[local] Instance q : CommandQueue clocked := clocked_queue pretty.
Definition no_repr (_ : json) : string := empty_str.
Definition no_iso (_ : time) : string := empty_str.
Definition ulid (n : nat) : string := pretty n.
Definition accepts (_ : rule_row) : bool := true.
(** The hub of the queue's example: [dev_a] is in the group [grp]. *)
Definition s0 : clocked := WatchdogActions.Example.s0.

(** A nightly power cycle of the group. *)
Definition nightly : schedule :=
  Schedule "sch_1" "Nightly" true "power_cycle" "daily" (Some "03:00") JNull None 0
    (JObj [("kind", JStr "group"); ("id", JStr "grp")]) 5 180 None None None.
(** The structured form, for one action on one target. *)
Definition the_form (name kind id action : string) : form :=
  [("name", name); ("probe_kind", "ping"); ("probe_arg", "10.0.0.1"); ("target_kind", kind);
   ("target_id", id); ("action_kind", action)].
Definition submit (scheds : list schedule) (f : form) (d : rule_db) :=
  rules_create_submit no_repr no_iso ulid accepts ["dev_a"; "dev_b"] ["grp"] scheds ∅ s0 f None 0 d.

(** The first rule keeps the group on; a rule that holds [dev_a] off gets the conflict page. *)
Definition db1 : rule_db := (submit [nightly] (the_form "keep on" "group" "grp" "relay_on") (RuleDb ∅ 0)).2.
Definition off_form : form := the_form "off" "device" "dev_a" "hold_off".
Definition db2 : rule_db := (submit [nightly] off_form db1).2.

Lemma typed_nightly : typed_schedule nightly.
Proof. intros _. exists [("kind", JStr "group"); ("id", JStr "grp")], "group", "id", "grp". repeat split; auto. Qed.

Lemma unacknowledged_saves_keep_the_peace_witness :
  (rc_name ∘ rr_rule <$> list_rules db1 = ["keep on"]) /\
  (exists found, (submit [nightly] off_form db1).1 = Ret (ConflictPage found None)) /\
  rtc (form_step no_repr no_iso ulid accepts [nightly] s0) (RuleDb ∅ 0) db2 /\ peaceful [nightly] s0 db2.
Proof.
  split; [vm_compute; reflexivity|]. split; [eexists; vm_compute; reflexivity|].
  assert (Hs : rtc (form_step no_repr no_iso ulid accepts [nightly] s0) (RuleDb ∅ 0) db2).
  { apply (rtc_l _ _ db1); [|apply rtc_once]; apply form_create; reflexivity. }
  split; [exact Hs|].
  apply (unacknowledged_saves_keep_the_peace no_repr no_iso ulid accepts [nightly] s0 db2); [|exact Hs].
  apply Forall_singleton, typed_nightly.
Defined.

Definition keep_on : rule_row := default WatchdogRuleTheorems.Example.resting (head (list_rules db1)).
Definition off_proposal : proposal :=
  Proposal (JObj [("kind", JStr "ping"); ("host", JStr "10.0.0.1")])
    (JObj [("kind", JStr "device"); ("id", JStr "dev_a")]) (JObj [("kind", JStr "hold_off")])
    (JInt 3) (JInt 60) (JInt 300).
Lemma keep_on_stored : stored_ok no_repr keep_on.
Proof.
  split; [|vm_compute; reflexivity]. split; try (vm_compute; split; [reflexivity || discriminate|lia || discriminate]).
  all: try (split; [reflexivity|vm_compute; lia]).
  - exists [("kind", JStr "ping"); ("host", JStr "10.0.0.1")], "ping". split; [vm_compute; reflexivity|].
    split; [reflexivity|]. apply in_strs_spec. reflexivity.
  - exists [("kind", JStr "group"); ("id", JStr "grp")], "group", "id", "grp". split; [vm_compute; reflexivity|].
    repeat split; auto.
  - left. exists [("kind", JStr "relay_on")], "relay_on". split; [vm_compute; reflexivity|].
    split; [reflexivity|]. apply in_strs_spec. reflexivity.
Qed.

(** The proposal and the stored rule share [dev_a] and want it off and on. *)
Lemma detection_blocks_exactly_fights_witness :
  exists found, detect_conflicts no_repr no_iso [keep_on] [nightly] ∅ off_proposal None s0 = Ret found /\
    has_blocking found = true.
Proof.
  destruct (detection_blocks_exactly_fights no_repr no_iso s0 [keep_on] [nightly] ∅ off_proposal None) as
    (found & Hf & _ & Hb).
  - apply Forall_singleton, keep_on_stored.
  - apply Forall_singleton, typed_nightly.
  - split.
    + eexists. vm_compute. reflexivity.
    + exists [("kind", JStr "device"); ("id", JStr "dev_a")], "device", "id", "dev_a". repeat split; auto.
    + left. exists [("kind", JStr "hold_off")], "hold_off". split; [reflexivity|]. split; [reflexivity|].
      apply in_strs_spec. reflexivity.
    + eexists. vm_compute. reflexivity.
    + exists 3, 60, 300. auto.
  - exists found. split; [exact Hf|]. apply Hb. left. exists keep_on. split; [left|]. split; [discriminate|].
    assert (Hk : rc_action (rr_rule keep_on) = JObj [("kind", JStr "relay_on")] /\
      rc_target (rr_rule keep_on) = JObj [("kind", JStr "group"); ("id", JStr "grp")])
      by (split; vm_compute; reflexivity).
    destruct Hk as [-> ->]. split.
    + exists "dev_a". split; [by apply on_device|]. apply (on_group s0 _ "grp"); try reflexivity.
      apply in_strs_spec. vm_compute. reflexivity.
    + right. split; [left|]; by apply leaf_self.
Defined.
End Example.
