(* ===== verification/AuditLog.v ===== *)
(** * The audit log ([app/services/audit.py])

    Append-only: a row is built from the call, stamped with the organisation bound to the
    request, and added in a transaction of its own; what the database refuses is logged and
    dropped, the caller never sees an exception.  [query] reads the rows back, newest first. *)

From S2P Require Import Prelude TenantScope Enrollment Accounts.
Local Open Scope string_scope.
Local Open Scope list_scope.
Local Open Scope Z_scope.

(** The row of [audit_events]; the table is in the order of its serial key. *)
Record audit_row := AuditRow {
  au_at : time;
  au_org : option string;
  au_actor : option string;
  au_email : option string;
  au_action : string;
  au_target_type : option string;
  au_target_id : option string;
  au_details : json;
  au_ip : option string
}.
Definition audit_log := list audit_row.

(** Who acts, from where: [actor_user_id], [actor_email_snapshot], [_client_ip()]. *)
Record actor := Actor { ac_id : option string; ac_email : option string; ac_ip : option string }.

Section audit.
(** The constraints of the table at flush; the organisation the request has bound. *)
Context (accepts : audit_row -> bool) (c : caller).

(** [_build_event]. *)
Definition build_event (action : string) (who : actor) (target_type target_id : option string)
    (details : pydict) (now : time) : audit_row :=
  AuditRow now (ca_org c) (ac_id who) (ac_email who) action target_type target_id (JObj details) (ac_ip who).

Definition record (action : string) (who : actor) (target_type target_id : option string)
    (details : pydict) (now : time) (log : audit_log) : audit_log :=
  let evt := build_event action who target_type target_id details now in
  if accepts evt then log ++ [evt] else log.

(** [merged["scope_claim"] = scope_claim]. *)
Definition record_scoped (action : string) (who : actor) (target_type target_id : option string)
    (scope_claim : option pydict) (details : pydict) (now : time) : audit_log -> audit_log :=
  record action who target_type target_id
    (match scope_claim with
     | Some claim => filter (fun kv : string * json => kv.1 <> "scope_claim") details ++ [("scope_claim", JObj claim)]
     | None => details
     end) now.

(** [record_per_device] without [details_for], which no caller passes; the rows attempted. *)
Definition record_per_device (action : string) (who : actor) (device_ids : list string)
    (base_details : pydict) (now : time) (log : audit_log) : nat * audit_log :=
  foldl (fun acc did => (S acc.1, record action who (Some "device") (Some did) base_details now acc.2))
    (0%nat, log) device_ids.

(** [query]: an empty filter selects everything; the rows of other tenants are filtered out. *)
Record audit_filter := AuditFilter {
  qf_actor : option string; qf_action : option string; qf_prefix : option string;
  qf_target_type : option string; qf_target_id : option string
}.
Definition asks (wanted : option string) (p : string -> bool) : bool :=
  match wanted with Some w => is_empty w || p w | None => true end.
Definition matches (f : audit_filter) (e : audit_row) : bool :=
  asks (qf_actor f) (fun w => bool_decide (au_actor e = Some w)) &&
  asks (qf_action f) (String.eqb (au_action e)) &&
  asks (qf_prefix f) (fun w => like (w ++ ".%")%string (au_action e)) &&
  asks (qf_target_type f) (fun w => bool_decide (au_target_type e = Some w)) &&
  asks (qf_target_id f) (fun w => bool_decide (au_target_id e = Some w)).
Definition query_limit (limit : Z) : nat := Z.to_nat (Z.max 1 (Z.min limit 1000)).
Definition query (f : audit_filter) (limit : Z) (log : audit_log) : list audit_row :=
  take (query_limit limit)
    (order_by_desc au_at (filter (fun e => sees c (au_org e) = true /\ matches f e = true) log)).
End audit.

(** ** Facts *)

Section facts.
Context (accepts : audit_row -> bool) (c : caller).

Lemma record_rows action who tt ti d now log :
  record accepts c action who tt ti d now log =
  log ++ filter (fun e => accepts e = true) [build_event c action who tt ti d now].
Proof. unfold record. rewrite filter_cons. destruct (accepts _) eqn:E; case_decide; try congruence; by rewrite ?app_nil_r. Qed.

Lemma record_per_device_rows action who ids d now log :
  record_per_device accepts c action who ids d now log =
  (length ids, log ++ filter (fun e => accepts e = true)
     ((fun did => build_event c action who (Some "device") (Some did) d now) <$> ids)).
Proof.
  unfold record_per_device.
  assert (H : forall n l, foldl (fun acc did => (S acc.1, record accepts c action who (Some "device") (Some did) d now acc.2))
                (n, l) ids = ((n + length ids)%nat, l ++ filter (fun e => accepts e = true)
     ((fun did => build_event c action who (Some "device") (Some did) d now) <$> ids))).
  { induction ids as [|i ids IH]; intros n l; [cbn; by rewrite Nat.add_0_r, app_nil_r|].
    cbn [foldl fst snd]. rewrite IH, record_rows, <- app_assoc, <- filter_app. cbn [length fmap list_fmap app].
    f_equal; lia. }
  apply (H 0%nat).
Qed.

Lemma query_sound f limit log e :
  e ∈ query c f limit log -> e ∈ log /\ sees c (au_org e) = true /\ matches f e = true.
Proof.
  unfold query. intros He. apply (subseteq_take _ _) in He.
  rewrite order_by_desc_perm in He. apply list_elem_of_filter in He. tauto.
Qed.

(** Nothing older is returned in place of something newer. *)
Lemma query_newest f limit log e e' :
  e ∈ query c f limit log -> e' ∈ log -> sees c (au_org e') = true -> matches f e' = true ->
  e' ∉ query c f limit log -> au_at e' <= au_at e.
Proof.
  unfold query. set (l := filter _ log). set (s := order_by_desc au_at l). intros He Hin Hs Hm Hno.
  assert (Hin' : e' ∈ s). { unfold s. rewrite order_by_desc_perm. unfold l. by apply list_elem_of_filter. }
  pose proof (order_by_desc_sorted au_at l) as Hsort. fold s in Hsort.
  rewrite <- (take_drop (query_limit limit) s) in Hin', Hsort.
  apply elem_of_app in Hin' as [?|Hd]; [done|].
  exact (StronglySorted_app_1_elem_of _ _ _ _ _ Hsort He Hd).
Qed.

(** Reading the audit log is exact.  A query returns rows of the log that its filters and
    the tenant of the caller let through, newest first, at most 1000 and at most as many as
    asked for (one at least); a row it leaves out is not newer than one it returns, and it
    leaves out none while there is room. *)
Theorem audit_query_is_exact f limit log :
  let found := query c f limit log in
  let eligible e := e ∈ log /\ sees c (au_org e) = true /\ matches f e = true in
  (forall e, e ∈ found -> eligible e) /\
  StronglySorted (fun a b => au_at b <= au_at a) found /\
  Z.of_nat (length found) <= Z.max 1 (Z.min limit 1000) /\
  (forall e e', e ∈ found -> eligible e' -> e' ∉ found -> au_at e' <= au_at e) /\
  (Z.of_nat (length found) < Z.max 1 (Z.min limit 1000) -> forall e, eligible e -> e ∈ found).
Proof.
  cbv zeta. split_and!.
  - apply query_sound.
  - unfold query. pose proof (order_by_desc_sorted au_at
      (filter (fun e => sees c (au_org e) = true /\ matches f e = true) log)) as Hs.
    rewrite <- (take_drop (query_limit limit)) in Hs. by apply StronglySorted_app_1_l in Hs.
  - unfold query, query_limit. rewrite length_take. lia.
  - intros e e' He (Hin & Hs & Hm). by apply query_newest.
  - unfold query, query_limit. intros Hl e (Hin & Hs & Hm). rewrite length_take in Hl.
    rewrite take_ge by lia. rewrite order_by_desc_perm. by apply list_elem_of_filter.
Qed.
End facts.
