(* ===== verification/Estate.v ===== *)
(** * Sites, groups and scenes ([app/services/sites.py], [groups.py], [scenes.py])

    The tables the operators arrange their devices with, and every write to them.  A
    tenant-scoped table carries its organisation ([owned]); the constraints of the tables
    ([models/sites.py], [groups.py], [scenes.py]) are written out: names unique in the
    organisation, foreign keys with what a deletion does to the rows that refer to it.
    [updated_at] of sites and groups, which nothing here reads, is left out; the foreign
    keys of rules, tokens and subscriptions on a site belong to their own components. *)

From S2P Require Import Prelude EventBus Commands Devices WatchdogRules TenantScope Enrollment.
From S2P Require Import RuntimeSettings RoleBindings Identity ConfigBackup ConfigRestore AuditLog.
Local Open Scope string_scope.
Local Open Scope list_scope.
Local Open Scope Z_scope.

(** ** Tables *)

(** A row with its [created_at]. *)
Record dated (A : Type) := Dated { dt_created_at : time; dt_row : A }.
Arguments Dated {A}.
Arguments dt_created_at {A}.
Arguments dt_row {A}.

Record estate := Estate {
  es_hub : hub;                          (* devices, [group_memberships], the queue *)
  es_orgs : gset string;
  es_sites : table (dated site_cols);
  es_groups : table (dated group_cols);
  es_scenes : table (dated scene_cols);
  es_bindings : list binding;
  es_settings : settings;
  es_audit : audit_log;
  es_scopes : list rbac_audit            (* the audit rows of the scope checks *)
}.
Section updates.
#[local] Abbreviation tenant_table A := (table (dated A)).
Definition with_hub (f : hub -> hub) (e : estate) : estate :=
  Estate (f (es_hub e)) (es_orgs e) (es_sites e) (es_groups e) (es_scenes e)
    (es_bindings e) (es_settings e) (es_audit e) (es_scopes e).
Definition with_sites (f : tenant_table site_cols -> tenant_table site_cols) (e : estate) : estate :=
  Estate (es_hub e) (es_orgs e) (f (es_sites e)) (es_groups e) (es_scenes e)
    (es_bindings e) (es_settings e) (es_audit e) (es_scopes e).
Definition with_groups (f : tenant_table group_cols -> tenant_table group_cols) (e : estate) : estate :=
  Estate (es_hub e) (es_orgs e) (es_sites e) (f (es_groups e)) (es_scenes e)
    (es_bindings e) (es_settings e) (es_audit e) (es_scopes e).
Definition with_scenes (f : tenant_table scene_cols -> tenant_table scene_cols) (e : estate) : estate :=
  Estate (es_hub e) (es_orgs e) (es_sites e) (es_groups e) (f (es_scenes e))
    (es_bindings e) (es_settings e) (es_audit e) (es_scopes e).
Definition with_audit (f : audit_log -> audit_log) (e : estate) : estate :=
  Estate (es_hub e) (es_orgs e) (es_sites e) (es_groups e) (es_scenes e)
    (es_bindings e) (es_settings e) (f (es_audit e)) (es_scopes e).
Definition with_scopes (l : list rbac_audit) (e : estate) : estate :=
  Estate (es_hub e) (es_orgs e) (es_sites e) (es_groups e) (es_scenes e)
    (es_bindings e) (es_settings e) (es_audit e) l.
End updates.
Definition with_members (f : list (string * string) -> list (string * string)) (h : hub) : hub :=
  Hub (hub_devices h) (hub_commands h) (hub_results h) (f (hub_members h)) (hub_bus h) (hub_next h).
(** A [new_id] default evaluated at flush. *)
Definition drawn (e : estate) : estate := with_hub bump e.

Definition row_of {A} (o : owned (dated A)) : A := dt_row (ow_row o).
Definition edit_row {A} (f : A -> A) (o : owned (dated A)) : owned (dated A) :=
  Owned (ow_org o) (Dated (dt_created_at (ow_row o)) (f (row_of o))).
Definition site_key (r : dated site_cols) : string := si_name (dt_row r).
Definition group_key (r : dated group_cols) : string := gp_name (dt_row r).
Definition scene_key (r : dated scene_cols) : string := scn_name (dt_row r).

(** [session.get] on a tenant-scoped table. *)
Definition get {A} (c : caller) (id : string) (t : table A) : option A :=
  match t !! id with
  | Some o => if sees c (Some (ow_org o)) then Some (ow_row o) else None
  | None => None
  end.
(** What the flush of a new row checks: its organisation, from the one bound; the unique name. *)
Definition owner_of_new {A} (key : A -> string) (c : caller) (name : string) (orgs : gset string)
    (t : table A) : option string :=
  org ← ca_org c;
  if bool_decide (org ∈ orgs) && name_free key org name t then Some org else None.

(** The sites, as the device routes see them. *)
Definition fleet_of (c : caller) (e : estate) : fleet :=
  Fleet (es_hub e) (list_to_set (visible c (es_sites e)).*1).
(** The tables the role resolvers read. *)
Definition device_site (d : device) : option string := as_str (col d "site_id").
Definition rbac_of (e : estate) : rbac_db :=
  RbacDb (es_bindings e) ((fun o => Some (ow_org o)) <$> es_sites e) ((fun o => Some (ow_org o)) <$> es_groups e)
    (device_site <$> hub_devices (es_hub e)) (hub_members (es_hub e)).

(** [DuplicateNameError] of either module. *)
Definition DuplicateNameError {A} : outcome A := Raise (AppError "DuplicateNameError" "name").

Section services.
Context (ulid : nat -> string) (strftime : time -> string) (environ : string -> option string)
        (py_repr : json -> string).
#[local] Abbreviation iso_text t := (JStr (strftime t)).

(** The lists are filtered by the role bindings of the request's user. *)
Definition scoped {A} (resource : string) (effective : read_decision -> string -> string -> rbac_db -> scope)
    (c : caller) (user : option string) (rows : list (string * A)) (e : estate)
    : outcome (list (string * A)) * list rbac_audit :=
  filter_with_shadow_logging environ py_repr fst resource effective (reads c) (es_settings e) user
    "viewer" (rbac_of e) rows (es_scopes e).

(** ** Sites *)

Definition serialize_site (x : string * dated site_cols) : json :=
  JObj [("id", JStr x.1); ("name", JStr (site_key x.2)); ("description", ojson (si_description (dt_row x.2)));
        ("created_at", iso_text (dt_created_at x.2))].
Definition list_sites (c : caller) (user : option string) (e : estate) : outcome (list json) * estate :=
  let '(rows, log) := scoped "site" effective_site_ids c user
    (sorted_by (fun x : string * dated site_cols => site_key x.2) (visible c (es_sites e))) e in
  (List.map serialize_site <$> rows, with_scopes log e).

(** An [IntegrityError] of the flush, whatever its cause, is taken for a duplicate name. *)
Definition create_site (c : caller) (name : string) (description : json) (now : time) (e : estate)
    : outcome json * estate :=
  match text_col description with
  | None => (Raise (DBError "sites"), e)
  | Some d =>
    if negb (fits 120 name) then (Raise (DBError "sites"), e)
    else match owner_of_new site_key c name (es_orgs e) (es_sites e) with
    | None => (DuplicateNameError, e)
    | Some org =>
      let id := new_id ulid "site" (hub_next (es_hub e)) in
      let row := Dated now (SiteCols name d) in
      (Ret (serialize_site (id, row)), with_sites (insert id (Owned org row)) (drawn e))
    end
  end.

(** [ON DELETE SET NULL] of [groups.site_id] and [devices.site_id]. *)
Definition unsite_group (id : string) (g : group_cols) : group_cols :=
  if decide (gp_site g = Some id) then GroupCols (gp_name g) (gp_description g) None else g.
Definition unsite_device (id : string) (d : device) : device :=
  if decide (device_site d = Some id) then set_col "site_id" JNull d else d.
Definition delete_site (c : caller) (id : string) (e : estate) : bool * estate :=
  match get c id (es_sites e) with
  | None => (false, e)
  | Some _ =>
    (true, with_hub (with_devices (fmap (unsite_device id)))
             (with_groups (fmap (edit_row (unsite_group id))) (with_sites (delete id) e)))
  end.

(** ** Groups *)

Definition serialize_group (x : string * dated group_cols) (member_count : nat) : pydict :=
  [("id", JStr x.1); ("name", JStr (group_key x.2)); ("description", ojson (gp_description (dt_row x.2)));
   ("site_id", ojson (gp_site (dt_row x.2))); ("member_count", JInt (Z.of_nat member_count));
   ("created_at", iso_text (dt_created_at x.2))].
(** [count_group_members] of [mass_action.py]; the membership table has no organisation. *)
Definition count_group_members (group_id : string) (e : estate) : nat :=
  length (group_device_ids group_id (es_hub e)).
Definition count_all_active_devices (e : estate) : nat :=
  length (filter (fun kd : string * device => col kd.2 "registration_state" = JStr "active")
            (map_to_list (hub_devices (es_hub e)))).

Definition list_groups (c : caller) (user : option string) (e : estate) : outcome (list json) * estate :=
  let '(rows, log) := scoped "group" effective_group_ids c user
    (order_by_desc (fun x : string * dated group_cols => dt_created_at x.2) (visible c (es_groups e))) e in
  (List.map (fun x => JObj (serialize_group x (count_group_members x.1 e))) <$> rows, with_scopes log e).
(** The ids [list_devices] of [devices/_query.py] returns without a filter. *)
Definition listed_devices (c : caller) (user : option string) (e : estate) : outcome (list string) * estate :=
  let '(rows, log) := scoped "device" effective_device_ids c user
    (map_to_list (hub_devices (es_hub e))) e in
  (List.map fst <$> rows, with_scopes log e).

Definition create_group (c : caller) (name : string) (description site_id : json) (now : time) (e : estate)
    : outcome pydict * estate :=
  match text_col description, string_col 40 site_id with
  | Some d, Some site =>
    if negb (fits 120 name) then (Raise (DBError "groups"), e)
    else match owner_of_new group_key c name (es_orgs e) (es_groups e) with
    | None => (DuplicateNameError, e)
    | Some org =>
      if match site with Some s => bool_decide (is_Some (es_sites e !! s)) | None => true end
      then
        let id := new_id ulid "grp" (hub_next (es_hub e)) in
        let row := Dated now (GroupCols name d site) in
        (Ret (serialize_group (id, row) 0), with_groups (insert id (Owned org row)) (drawn e))
      else (DuplicateNameError, e)
    end
  | _, _ => (Raise (DBError "groups"), e)
  end.

(** The members with their devices, by display name. *)
Definition display_name (d : device) : string :=
  match col d "display_name" with JStr s => s | _ => EmptyString end.
Definition group_members (group_id : string) (e : estate) : list (string * device) :=
  sorted_by (fun x : string * device => display_name x.2)
    (omap (fun did => d ← hub_devices (es_hub e) !! did; Some (did, d)) (group_device_ids group_id (es_hub e))).
Definition serialize_member (x : string * device) : json :=
  JObj [("id", JStr x.1); ("display_name", col x.2 "display_name");
        ("registration_state", col x.2 "registration_state");
        ("last_heartbeat_at", iso strftime (col x.2 "last_heartbeat_at"))].
Record group_detail := GroupDetail {
  gd_group : pydict; gd_members : list (string * device); gd_audit : list audit_row
}.
Definition get_group_detail (c : caller) (group_id : string) (e : estate) : option group_detail :=
  g ← get c group_id (es_groups e);
  let members := group_members group_id e in
  let history := query c (AuditFilter None None None (Some "group") (Some group_id)) 25 (es_audit e) in
  Some (GroupDetail (serialize_group (group_id, g) (length members) ++ [("members", JList (serialize_member <$> members))])
          members history).

(** [add_members]: an id that is not text is refused by the database; [None] names no device.
    The query for the membership sees the stored rows only, the session not flushing by itself:
    an id given twice is added twice, and the flush refuses the second row. *)
Definition member_step (group_id : string) (members : list (string * string)) (devices : gmap string device)
    (added : outcome (list (string * string))) (did : json) : outcome (list (string * string)) :=
  added ← added;
  match did with
  | JNull => Ret added
  | JStr did =>
    if bool_decide (is_Some (devices !! did)) && negb (bool_decide ((group_id, did) ∈ members))
    then Ret (added ++ [(group_id, did)]) else Ret added
  | _ => Raise (DBError "devices.id")
  end.
Definition add_members (c : caller) (group_id : string) (device_ids : list json) (e : estate)
    : outcome nat * estate :=
  let members := hub_members (es_hub e) in
  match get c group_id (es_groups e) with
  | None => (Raise (LookupError group_id), e)
  | Some _ =>
    match foldl (member_step group_id members (hub_devices (es_hub e))) (Ret []) device_ids with
    | Raise x => (Raise x, e)
    | Ret added =>
      if bool_decide (NoDup added)
      then (Ret (length added), with_hub (with_members (fun _ => members ++ added)) e)
      else (Raise (DBError "group_memberships"), e)
    end
  end.
Definition remove_member (group_id device_id : string) (e : estate) : bool * estate :=
  if bool_decide ((group_id, device_id) ∈ hub_members (es_hub e))
  then (true, with_hub (with_members (filter (fun m => m <> (group_id, device_id)))) e)
  else (false, e).

(** [session.delete(g)], with [ON DELETE CASCADE] of the memberships. *)
Definition drop_group (id : string) (e : estate) : estate :=
  with_hub (with_members (filter (fun m : string * string => m.1 <> id))) (with_groups (delete id) e).
Definition delete_group (c : caller) (id : string) (e : estate) : bool * estate :=
  match get c id (es_groups e) with
  | None => (false, e)
  | Some _ => (true, drop_group id e)
  end.
(** The ids deleted, the unknown ones; the handler passes each id once. *)
Definition delete_groups_bulk (c : caller) (ids : list string) (e : estate)
    : list string * list string * estate :=
  foldl (fun acc id => let '(deleted, unknown, e) := acc in
           match get c id (es_groups e) with
           | None => (deleted, unknown ++ [id], e)
           | Some _ => (deleted ++ [id], unknown, drop_group id e)
           end) ([], [], e) ids.

(** ** Scenes *)

Definition MAX_ITEMS : nat := 50.
Definition RELAY_STATES : list string := ["on"; "off"; "cycle"].
Definition SceneError {A} (code : string) : outcome A := Raise (AppError "SceneError" code).
Definition scene_invalid {A} : outcome A := SceneError "validation_failed".

Definition is_null (v : json) : bool := match v with JNull => true | _ => false end.
Definition validate_scene_item (item : json) : outcome json :=
  match item with
  | JObj item =>
    let device_id := strip (py_str py_repr (jor (dget item "device_id") (JStr EmptyString))) in
    if is_empty device_id then scene_invalid
    else
      let relay := dget item "relay" in
      let config := dget item "config" in
      if negb (is_null relay) && negb (jin relay RELAY_STATES) then scene_invalid
      else if negb (is_null config) && negb (match config with JObj _ => true | _ => false end)
      then scene_invalid
      else if is_null relay && negb (truthy config) then scene_invalid
      else Ret (JObj ([("device_id", JStr device_id)] ++
                      (if is_null relay then [] else [("relay", relay)]) ++
                      (if truthy config then [("config", config)] else [])))
  | _ => scene_invalid
  end.
Definition validate_scene_items (items : json) : outcome (list json) :=
  match items with
  | JList (i :: r) =>
    if (MAX_ITEMS <? length (i :: r))%nat then scene_invalid else mapM validate_scene_item (i :: r)
  | _ => scene_invalid
  end.

Definition serialize_scene (x : string * dated scene_cols) : json :=
  let items := jor (scn_items (dt_row x.2)) (JList []) in
  JObj [("id", JStr x.1); ("name", JStr (scene_key x.2)); ("description", ojson (scn_description (dt_row x.2)));
        ("items", items); ("device_count", JInt (match items with JList l => Z.of_nat (length l) | _ => 0 end));
        ("created_at", iso_text (dt_created_at x.2)); ("updated_at", iso_text (scn_updated_at (dt_row x.2)))].
Definition list_scenes (c : caller) (e : estate) : list json :=
  serialize_scene <$> sorted_by (fun x : string * dated scene_cols => scene_key x.2) (visible c (es_scenes e)).
Definition get_scene (c : caller) (id : string) (e : estate) : option json :=
  s ← get c id (es_scenes e); Some (serialize_scene (id, s)).

(** [_clean_name]; [(description or "").strip() or None]. *)
Definition clean_name (name : json) : outcome string :=
  n ← strip_or_empty name;
  if is_empty n then scene_invalid else if negb (fits 120 n) then scene_invalid else Ret n.
Definition clean_description (v : json) : outcome (option string) :=
  d ← strip_or_empty v; Ret (if is_empty d then None else Some d).
Definition scene_input (name description items : json) : outcome (string * option string * list json) :=
  n ← clean_name name;
  cleaned ← validate_scene_items items;
  d ← clean_description description;
  Ret (n, d, cleaned).

Definition create_scene (c : caller) (name description items : json) (now : time) (e : estate)
    : outcome json * estate :=
  match scene_input name description items with
  | Raise x => (Raise x, e)
  | Ret (n, d, cleaned) =>
    if negb (ofits 500 d) then (Raise (DBError "scenes"), e)
    else match owner_of_new scene_key c n (es_orgs e) (es_scenes e) with
    | None => (SceneError "name_conflict", e)
    | Some org =>
      let id := new_id ulid "scn" (hub_next (es_hub e)) in
      let row := Dated now (SceneCols n d (JList cleaned) now) in
      (Ret (serialize_scene (id, row)), with_scenes (insert id (Owned org row)) (drawn e))
    end
  end.

(** The edit leaves [updated_at] as it was. *)
Definition update_scene (c : caller) (id : string) (name description items : json) (e : estate)
    : outcome (option json) * estate :=
  match scene_input name description items with
  | Raise x => (Raise x, e)
  | Ret (n, d, cleaned) =>
    match es_scenes e !! id with
    | Some o =>
      if negb (sees c (Some (ow_org o))) then (Ret None, e)
      else if negb (ofits 500 d) then (Raise (DBError "scenes"), e)
      else if negb (name_free scene_key (ow_org o) n (delete id (es_scenes e)))
      then (SceneError "name_conflict", e)
      else
        let o := edit_row (fun s => SceneCols n d (JList cleaned) (scn_updated_at s)) o in
        (Ret (Some (serialize_scene (id, ow_row o))), with_scenes (insert id o) e)
    | None => (Ret None, e)
    end
  end.
Definition delete_scene (c : caller) (id : string) (e : estate) : bool * estate :=
  match get c id (es_scenes e) with
  | None => (false, e)
  | Some _ => (true, with_scenes (delete id) e)
  end.
End services.
