(* ===== verification/EstateEndpoints.v ===== *)
(** * The operators' endpoints over sites, groups, scenes and devices
    ([blueprints/admin/groups.py], [sites.py], [scenes.py], the writes of [devices_api.py])

    A handler is a function of the caller's tenant context, the acting user and the body;
    [estate_request] lists the routes, [roles] the gate of each, [serve] runs one.  A page
    that answers with a redirect or re-renders itself answers [Back] or [Refused]: the prose
    of a flash message is left out.  One reading of the clock stands for all the audit rows
    of a request. *)

From S2P Require Import Prelude PyFloat EventBus Commands Devices WatchdogRules RuntimeSettings TenantScope Enrollment.
From S2P Require Import RoleBindings Identity Accounts Invitations ConfigBackup ConfigRestore RuleForms.
From S2P Require Import AuditLog Estate.
Local Open Scope string_scope.
Local Open Scope list_scope.
Local Open Scope Z_scope.

Inductive estate_answer :=
  | Refused (status : Z)
  | Unconfirmed (target_count : nat) (required : string)
  | Back
  | Answered (status : Z) (body : json).

(** The user behind the gate. *)
Record operator := Operator { op_caller : caller; op_id : string; op_role : string; op_email : string }.

(** The body of a command request: its payload an object or nothing, its lifetime an integer
    or nothing, the rest any value. *)
Record command_body := CommandBody {
  cb_type : json; cb_payload : option pydict; cb_ttl : option Z; cb_override : json;
  cb_hold_off : json; cb_level : json; cb_typed : json
}.

Definition jstrs (l : list string) : json := JList (JStr <$> l).
Definition jcount (n : nat) : json := JInt (Z.of_nat n).
(** [mass_action.validate], whatever values the body carries. *)
Definition confirmed (n : nat) (expected level typed : json) : bool :=
  mass_validate n EmptyString (as_str level) (if py_eq typed expected then Some EmptyString else None).
Definition confirmed_form (n : nat) (expected : string) (f : form) : bool :=
  mass_validate n expected (form_get f "confirmation_level") (form_get f "confirmation_typed_value").

(** [list(dict.fromkeys(i for i in ids if i))]. *)
Definition fromkeys {A} (same : A -> A -> bool) (l : list A) : list A :=
  foldl (fun acc i => if existsb (same i) acc then acc else acc ++ [i]) [] l.
Definition distinct_ids (l : list json) : outcome (list json) :=
  let l := List.filter truthy l in
  if forallb hashable l then Ret (fromkeys py_eq l) else Raise (TypeError "unhashable type").
Definition text_id (v : json) : outcome string :=
  match v with JStr s => Ret s | _ => Raise (DBError "devices.id") end.

(** [except <cls>]: a refusal; any other exception is the server's failure. *)
Definition refused_if (cls : string) (status : Z) (e : exn) : outcome estate_answer :=
  match caught cls e with Some _ => Ret (Refused status) | None => Raise e end.
Definition answered {A} (cls : string) (status : Z) (ok : A -> estate_answer) (r : outcome A)
    : outcome estate_answer :=
  match r with Ret a => Ret (ok a) | Raise e => refused_if cls status e end.
(** [except SceneError as e: err(e.code, ..., 409 if e.code == "name_conflict" else 400)]. *)
Definition scene_refused (e : exn) : outcome estate_answer :=
  match caught "SceneError" e with
  | Some code => Ret (Refused (if String.eqb code "name_conflict" then 409 else 400))
  | None => Raise e
  end.

Section endpoints.
Context (ulid : nat -> string) (strftime : time -> string) (environ : string -> option string)
        (py_repr : json -> string) (json_loads : string -> outcome json).
Context (audit_accepts : audit_row -> bool) (device_accepts : device -> bool).
(** [request.remote_addr]. *)
Context (remote_addr : option string).

Definition acting (o : operator) : actor := Actor (Some (op_id o)) (Some (op_email o)) remote_addr.
Definition audited (o : operator) (action type id : string) (details : pydict) (now : time) : estate -> estate :=
  with_audit (record audit_accepts (op_caller o) action (acting o) (Some type)
                (if is_empty id then None else Some id) details now).
Definition audited_each (o : operator) (action : string) (ids : list string) (details : pydict) (now : time)
    : estate -> estate :=
  with_audit (fun log => (record_per_device audit_accepts (op_caller o) action (acting o) ids details now log).2).

(** ** Sites *)

Definition create_site_submit (o : operator) (f : form) (now : time) (e : estate) : outcome estate_answer * estate :=
  let name := field f "name" in
  if is_empty name then (Ret (Refused 400), e)
  else let '(r, e') := create_site ulid strftime (op_caller o) name (none_if_empty (field f "description")) now e in
       match r with
       | Ret _ => (Ret Back, e')
       | Raise x => match caught "DuplicateNameError" x with
                    | None => (Raise x, e')
                    | Some _ => let '(page, e') := list_sites strftime environ py_repr (op_caller o) (Some (op_id o)) e' in
                                ((fun _ => Refused 409) <$> page, e')
                    end
       end.
Definition delete_site_submit (o : operator) (id : string) (e : estate) : outcome estate_answer * estate :=
  (Ret Back, (delete_site (op_caller o) id e).2).
Definition create_site_api (o : operator) (b : pydict) (now : time) (e : estate) : outcome estate_answer * estate :=
  match strip_or_empty (dget b "name") with
  | Raise x => (Raise x, e)
  | Ret name =>
    if is_empty name then (Ret (Refused 400), e)
    else let '(r, e') := create_site ulid strftime (op_caller o) name (dget b "description") now e in
         (answered "DuplicateNameError" 409 (Answered 201) r, e')
  end.
Definition delete_site_api (o : operator) (id : string) (e : estate) : outcome estate_answer * estate :=
  let '(known, e') := delete_site (op_caller o) id e in
  (Ret (if known then Answered 200 (JObj [("deleted", JBool true)]) else Refused 404), e').

(** ** Scenes *)

Definition create_scene_submit (o : operator) (f : form) (now : time) (e : estate) : outcome estate_answer * estate :=
  let raw := field f "items" in
  match (if is_empty raw then Ret JNull else json_loads raw) with
  | Raise x => (match x with ValueError _ => Ret (Refused 400) | _ => Raise x end, e)
  | Ret items =>
    let '(r, e') := create_scene ulid strftime py_repr (op_caller o) (JStr (field f "name"))
                      (none_if_empty (field f "description")) items now e in
    (answered "SceneError" 400 (fun _ => Back) r, e')
  end.
Definition delete_scene_submit (o : operator) (id : string) (e : estate) : outcome estate_answer * estate :=
  (Ret Back, (delete_scene (op_caller o) id e).2).
Definition create_scene_api (o : operator) (b : pydict) (now : time) (e : estate) : outcome estate_answer * estate :=
  let '(r, e') := create_scene ulid strftime py_repr (op_caller o) (dget_default b "name" (JStr EmptyString))
                    (dget b "description") (dget b "items") now e in
  (match r with Ret s => Ret (Answered 201 s) | Raise x => scene_refused x end, e').
Definition update_scene_api (o : operator) (id : string) (b : pydict) (e : estate) : outcome estate_answer * estate :=
  let '(r, e') := update_scene strftime py_repr (op_caller o) id (dget_default b "name" (JStr EmptyString))
                    (dget b "description") (dget b "items") e in
  (match r with
   | Ret (Some s) => Ret (Answered 200 s) | Ret None => Ret (Refused 404) | Raise x => scene_refused x
   end, e').
Definition delete_scene_api (o : operator) (id : string) (e : estate) : outcome estate_answer * estate :=
  let '(known, e') := delete_scene (op_caller o) id e in
  (Ret (if known then Answered 200 (JObj [("deleted", JBool true)]) else Refused 404), e').

(** ** Groups *)

Definition create_group_submit (o : operator) (f : form) (now : time) (e : estate) : outcome estate_answer * estate :=
  let name := field f "name" in
  if is_empty name then (Ret (Refused 400), e)
  else let '(r, e') := create_group ulid strftime (op_caller o) name (none_if_empty (field f "description"))
                         JNull now e in
       match r with
       | Ret _ => (Ret Back, e')
       | Raise x => match caught "DuplicateNameError" x with
                    | None => (Raise x, e')
                    | Some _ => let '(page, e') := list_groups strftime environ py_repr (op_caller o) (Some (op_id o)) e' in
                                ((fun _ => Refused 409) <$> page, e')
                    end
       end.
Definition create_group_api (o : operator) (b : pydict) (now : time) (e : estate) : outcome estate_answer * estate :=
  match strip_or_empty (dget b "name") with
  | Raise x => (Raise x, e)
  | Ret name =>
    if is_empty name then (Ret (Refused 400), e)
    else let '(r, e') := create_group ulid strftime (op_caller o) name (dget b "description") (dget b "site_id") now e in
         (answered "DuplicateNameError" 409 (fun g => Answered 201 (JObj g)) r, e')
  end.

(** The picker shows the listed devices that are not members yet. *)
Definition group_add_member_submit (o : operator) (group_id : string) (f : form) (e : estate)
    : outcome estate_answer * estate :=
  match get_group_detail strftime (op_caller o) group_id e with
  | None => (Ret (Refused 404), e)
  | Some detail =>
    let '(listed, e) := listed_devices environ py_repr (op_caller o) (Some (op_id o)) e in
    match listed with
    | Raise x => (Raise x, e)
    | Ret ids =>
      let shown := List.filter (fun i => negb (in_strs i (gd_members detail).*1)) ids in
      match validate_picker_id (default EmptyString (form_get f "device_id")) shown "Group member" true with
      | Raise x => (match caught "PickerScopeError" x with Some _ => Ret Back | None => Raise x end, e)
      | Ret id =>
        let '(r, e') := add_members (op_caller o) group_id [ojson id] e in
        (match r with Ret _ => Ret Back | Raise (LookupError _) => Ret (Refused 404) | Raise x => Raise x end, e')
      end
    end
  end.
Definition group_remove_member_submit (group_id device_id : string) (e : estate) : outcome estate_answer * estate :=
  (Ret Back, (remove_member group_id device_id e).2).
Definition add_group_members (o : operator) (group_id : string) (b : pydict) (e : estate)
    : outcome estate_answer * estate :=
  match jor (dget b "device_ids") (JList []) with
  | JList ids =>
    let '(r, e') := add_members (op_caller o) group_id ids e in
    (match r with
     | Ret n => Ret (Answered 200 (JObj [("added", jcount n)]))
     | Raise (LookupError _) => Ret (Refused 404)
     | Raise x => Raise x
     end, e')
  | _ => (Ret (Refused 400), e)
  end.
Definition remove_group_member (o : operator) (group_id device_id : string) (now : time) (e : estate)
    : outcome estate_answer * estate :=
  let '(known, e') := remove_member group_id device_id e in
  if known
  then (Ret (Answered 200 (JObj [("removed", JBool true)])),
        audited o "group.member_removed" "group" group_id [("device_id", JStr device_id)] now e')
  else (Ret (Refused 404), e').

Definition group_delete_submit (o : operator) (id : string) (now : time) (e : estate) : outcome estate_answer * estate :=
  let '(known, e') := delete_group (op_caller o) id e in
  (Ret Back, if known then audited o "group.deleted" "group" id [] now e' else e').
Definition delete_group_api (o : operator) (id : string) (now : time) (e : estate) : outcome estate_answer * estate :=
  let '(known, e') := delete_group (op_caller o) id e in
  if known then (Ret (Answered 200 (JObj [("deleted", JBool true)])), audited o "group.deleted" "group" id [] now e')
  else (Ret (Refused 404), e').
Definition groups_bulk_delete_submit (o : operator) (f : form) (now : time) (e : estate)
    : outcome estate_answer * estate :=
  let ids := fromkeys String.eqb (List.filter (fun i => negb (is_empty i)) (form_getlist f "group_id")) in
  if bool_decide (ids = []) then (Ret Back, e)
  else if negb (confirmed_form (length ids) "delete" f)
  then (Ret (Unconfirmed (length ids) (required_level (length ids))), e)
  else
    let '(deleted, unknown, e') := delete_groups_bulk (op_caller o) ids e in
    (Ret Back,
     audited o "group.bulk_deleted" "group" EmptyString
       [("deleted_count", jcount (length deleted)); ("skipped_unknown", jcount (length unknown));
        ("deleted_ids", jstrs deleted); ("confirmation_level", JStr (required_level (length ids)));
        ("reason", JStr "operator")] now e').

(** ** Commands to a group *)

(** The audit rows of a fan-out: one for the group, one for each device reached, one for
    each device left out. *)
Definition audit_fan_out (o : operator) (group_id cmd_type : string) (target_count : nat) (override : bool)
    (cmds : list command) (skipped : list string) (now : time) (e : estate) : estate :=
  let base := [("via", JStr "group_mass_command"); ("group_id", JStr group_id); ("type", JStr cmd_type)] in
  let e := audited o "group.mass_command_issued" "group" group_id
    [("type", JStr cmd_type); ("target_count", jcount target_count); ("fan_out_count", jcount (length cmds));
     ("skipped_protected", jcount (length skipped)); ("override_lockout", JBool override);
     ("reason", JStr "operator"); ("confirmation_level", JStr (required_level target_count))] now e in
  let e := audited_each o "device.mass_command_issued_per_device" (cmd_device_id <$> cmds) base now e in
  audited_each o "device.mass_command_skipped_per_device" skipped (base ++ [("reason", JStr "is_protected")]) now e.

Definition send_group_command (o : operator) (group_id : string) (b : command_body) (now flush_at : time) (e : estate)
    : outcome estate_answer * estate :=
  if negb (truthy (cb_type b)) then (Ret (Refused 400), e)
  else
    let n := count_group_members group_id e in
    if negb (confirmed n (cb_type b) (cb_level b) (cb_typed b)) then (Ret (Unconfirmed n (required_level n)), e)
    else match cb_type b with
    | JStr ty =>
      let override := truthy (cb_override b) in
      let '(r, h) := enqueue_for_group ulid group_id ty (cb_payload b) (Some (op_id o)) (cb_ttl b) override
                       now flush_at (es_hub e) in
      match r with
      | Raise (ValueError _) => (Ret (Refused 400), e)
      | Raise x => (Raise x, e)
      | Ret (cmds, skipped) =>
        (Ret (Answered 201 (JObj [("fan_out_count", jcount (length cmds)); ("target_count", jcount n);
                                  ("command_ids", jstrs (cmd_id <$> cmds));
                                  ("skipped_protected_device_ids", jstrs skipped)])),
         audit_fan_out o group_id ty n override cmds skipped flush_at (with_hub (fun _ => h) e))
      end
    | JList _ | JObj _ => (Raise (TypeError "unhashable type"), e)
    | _ => (Ret (Refused 400), e)
    end.

Definition group_send_command_submit (o : operator) (group_id : string) (f : form) (now flush_at : time) (e : estate)
    : outcome estate_answer * estate :=
  let ty := field f "type" in
  if is_empty ty then (Ret (Refused 400), e)
  else
    let payload :=
      if String.eqb ty "relay_cycle"
      then [("power_off_seconds", JInt (match py_int (text_or f "power_off_seconds" 5) with Ret n => n | Raise _ => 5 end))]
      else [] in
    let n := count_group_members group_id e in
    if negb (confirmed_form n ty f) then (Ret (Unconfirmed n (required_level n)), e)
    else
      let override := in_strs (lower (default EmptyString (form_get f "override_lockout"))) ["1"; "true"; "yes"] in
      let '(r, h) := enqueue_for_group ulid group_id ty (Some payload) (Some (op_id o)) None override
                       now flush_at (es_hub e) in
      match r with
      | Raise (ValueError _) => (Ret (Refused 400), e)
      | Raise x => (Raise x, e)
      | Ret (cmds, skipped) =>
        (Ret Back, audit_fan_out o group_id ty n override cmds skipped flush_at (with_hub (fun _ => h) e))
      end.

(** ** Devices *)

Definition into (f : fleet) : estate -> estate := with_hub (fun _ => fl_hub f).

(** [n1], [n2]: the clock in the name sync. *)
Definition patch_device (o : operator) (id : string) (b : pydict) (now n1 n2 : time) (e : estate)
    : outcome estate_answer * estate :=
  match get_device id (fleet_of (op_caller o) e) with
  | None => (Ret (Refused 404), e)
  | Some before =>
    let '(r, f) := update_device strftime device_accepts id b now (fleet_of (op_caller o) e) in
    match r with
    | Raise x => (refused_if "UnknownPatchFieldError" 400 x, e)
    | Ret None => (Ret (Refused 404), e)
    | Ret (Some updated) =>
      let renamed := negb (py_eq (col before "display_name") (dget updated "display_name")) in
      let '(synced, f) :=
        if renamed then enqueue_display_name_sync ulid id (as_str (dget updated "display_name"))
                          (Some (op_id o)) n1 n2 f
        else (false, f) in
      (Ret (Answered 200 (JObj updated)),
       audited o "device.updated" "device" id
         [("fields", jstrs (sorted_by (fun k => k) (dict_keys b)));
          ("display_name_sync_enqueued", JBool synced)] now (into f e))
    end
  end.

(** Below the role gate, the scope gate of the device. *)
Definition scope_required (need : string) (o : operator) (id : string)
    (handler : estate -> outcome estate_answer * estate) (e : estate) : outcome estate_answer * estate :=
  let '(r, log) := require_can_act_on_device environ py_repr (reads (op_caller o)) (es_settings e)
    (Some (User (op_id o) (Some (op_role o)) (Some (op_email o)))) id need (rbac_of e) (es_scopes e) in
  let e := with_scopes log e in
  match r with Ret _ => handler e | Raise x => (refused_if "RbacScopeDenied" 403 x, e) end.

Definition send_device_command (o : operator) (id : string) (b : command_body) (now flush_at : time) (e : estate)
    : outcome estate_answer * estate :=
  scope_required "operator" o id (fun e =>
    if negb (truthy (cb_type b)) then (Ret (Refused 400), e)
    else match cb_type b with
    | JStr ty =>
      let override := truthy (cb_override b) in
      let hold_off := truthy (cb_hold_off b) in
      let '(r, h) := enqueue_for_device ulid id ty (cb_payload b) (Some (op_id o)) (cb_ttl b) None
                       override hold_off now flush_at (es_hub e) in
      match r with
      | Ret cmd =>
        (Ret (Answered 201 (JObj [("command_id", JStr (cmd_id cmd)); ("type", JStr (cmd_type cmd)); ("status", JStr "pending");
                                  ("expires_at", JStr (strftime (cmd_expires_at cmd)))])),
         with_audit (record_scoped audit_accepts (op_caller o) "device.command_issued" (acting o) (Some "device")
           (Some id) (Some [("scope_type", JStr "device"); ("scope_id", JStr id)])
           [("type", JStr ty); ("command_id", JStr (cmd_id cmd)); ("reason", JStr "operator");
            ("override_lockout", JBool override); ("set_hold_off", JBool hold_off)] flush_at)
           (with_hub (fun _ => h) e))
      | Raise (LookupError _) | Raise (KeyError _) => (Ret (Refused 404), e)
      | Raise (ValueError _) => (Ret (Refused 400), e)
      | Raise x => (refused_if "DeviceLockedError" 423 x, e)
      end
    | JList _ | JObj _ => (Raise (TypeError "unhashable type"), e)
    | _ => (Ret (Refused 400), e)
    end) e.

Definition delete_device_api (o : operator) (id : string) (now : time) (e : estate) : outcome estate_answer * estate :=
  let '(known, f) := delete_device id (fleet_of (op_caller o) e) in
  if known then (Ret (Answered 200 (JObj [("deleted", JBool true)])), audited o "device.deleted" "device" id [] now (into f e))
  else (Ret (Refused 404), e).

Definition devices_bulk_delete_api (o : operator) (b : pydict) (now : time) (e : estate)
    : outcome estate_answer * estate :=
  match jor (dget b "device_ids") (JList []) with
  | JList (i :: l) =>
    match distinct_ids (i :: l) with
    | Raise x => (Raise x, e)
    | Ret ids =>
      let n := length ids in
      let override := truthy (dget b "override_lockout") in
      if negb (confirmed n (JStr "delete") (dget b "confirmation_level") (dget b "confirmation_typed_value"))
      then (Ret (Unconfirmed n (required_level n)), e)
      else match mapM text_id ids with
      | Raise x => (Raise x, e)
      | Ret ids =>
        let '(deleted, protected, unknown, f) := delete_devices_bulk ids override (fleet_of (op_caller o) e) in
        let e := audited o "device.bulk_deleted" "device" EmptyString
          [("deleted_count", jcount (length deleted)); ("skipped_protected", jcount (length protected));
           ("skipped_unknown", jcount (length unknown)); ("deleted_ids", jstrs deleted);
           ("skipped_protected_ids", jstrs protected); ("override_lockout", JBool override);
           ("confirmation_level", JStr (required_level n)); ("reason", JStr "operator")] now (into f e) in
        let e := audited_each o "device.bulk_deleted_per_device" deleted
          [("via", JStr "bulk_delete"); ("override_lockout", JBool override); ("outcome", JStr "deleted")] now e in
        (Ret (Answered 200 (JObj [("deleted", jstrs deleted); ("skipped_protected", jstrs protected);
                                  ("skipped_unknown", jstrs unknown)])),
         audited_each o "device.bulk_delete_skipped_per_device" protected
           [("via", JStr "bulk_delete"); ("outcome", JStr "skipped"); ("reason", JStr "is_protected")] now e)
      end
    end
  | _ => (Ret (Refused 400), e)
  end.

Definition devices_merge_retire_api (o : operator) (b : pydict) (now : time) (e : estate)
    : outcome estate_answer * estate :=
  match keep ← strip_or_empty (dget b "keep_device_id");
        retire ← strip_or_empty (dget b "retire_device_id"); Ret (keep, retire) with
  | Raise x => (Raise x, e)
  | Ret (keep, retire) =>
    let f := fleet_of (op_caller o) e in
    let '(r, f') := merge_retire_device keep retire now f in
    match r with
    | Raise x => (match caught "MergeRetireError" x with
                  | Some code => Ret (Refused (if String.eqb code "not_found" then 404 else 409))
                  | None => Raise x
                  end, e)
    | Ret _ =>
      let name id k := (k, from_option (fun d => col d "display_name") JNull (get_device id f)) in
      let result :=
        [("keep_device_id", JStr keep); ("retire_device_id", JStr retire);
         ("mac_address", JStr (from_option mac_of EmptyString (get_device keep f)));
         name keep "keep_display_name"; name retire "retired_display_name"] in
      (Ret (Answered 200 (JObj result)),
       audited o "device.merge_retired" "device" retire (result ++ [("via", JStr "api")]) now (into f' e))
    end
  end.

(** The device of the path is only written to the audit row. *)
Definition cancel_device_command_api (o : operator) (device_id command_id : string) (now : time) (e : estate)
    : outcome estate_answer * estate :=
  let '(known, h) := cancel_pending_command command_id now (es_hub e) in
  if known
  then (Ret (Answered 200 (JObj [("cancelled", JBool true); ("command_id", JStr command_id)])),
        audited o "device.command_cancelled" "device" device_id
          [("command_id", JStr command_id); ("reason", JStr "operator")] now (with_hub (fun _ => h) e))
  else (Ret (Refused 409), e).

(** ** The routes *)

Inductive estate_request :=
  | CreateSiteForm (f : form) | CreateSiteApi (b : pydict)
  | DeleteSiteForm (id : string) | DeleteSiteApi (id : string)
  | CreateSceneForm (f : form) | CreateSceneApi (b : pydict) | UpdateSceneApi (id : string) (b : pydict)
  | DeleteSceneForm (id : string) | DeleteSceneApi (id : string)
  | CreateGroupForm (f : form) | CreateGroupApi (b : pydict)
  | AddMemberForm (group_id : string) (f : form) | AddMembersApi (group_id : string) (b : pydict)
  | RemoveMemberForm (group_id device_id : string) | RemoveMemberApi (group_id device_id : string)
  | DeleteGroupForm (id : string) | DeleteGroupApi (id : string) | DeleteGroupsForm (f : form)
  | GroupCommandForm (group_id : string) (f : form) | GroupCommandApi (group_id : string) (b : command_body)
  | PatchDevice (id : string) (b : pydict) | DeviceCommand (id : string) (b : command_body)
  | DeleteDevice (id : string) | DeleteDevices (b : pydict) | MergeDevices (b : pydict)
  | CancelCommand (device_id command_id : string).

(** [admin_required_api] and [admin_required_ui] admit every role. *)
Definition ANY_ROLE : list string := ADMIN_AND_UP ++ [ROLE_OPERATOR; ROLE_VIEWER].
Definition roles (q : estate_request) : list string :=
  match q with
  | DeleteGroupForm _ | DeleteGroupApi _ | DeleteGroupsForm _ | PatchDevice _ _ | DeleteDevice _
  | DeleteDevices _ | MergeDevices _ => ADMIN_AND_UP
  | DeviceCommand _ _ | CancelCommand _ _ => WRITE_ROLES
  | _ => ANY_ROLE
  end.

(** [now], [later]: the clock when the handler starts and at its flush. *)
Definition handle (q : estate_request) (o : operator) (now later : time) : estate -> outcome estate_answer * estate :=
  match q with
  | CreateSiteForm f => create_site_submit o f now
  | CreateSiteApi b => create_site_api o b now
  | DeleteSiteForm id => delete_site_submit o id
  | DeleteSiteApi id => delete_site_api o id
  | CreateSceneForm f => create_scene_submit o f now
  | CreateSceneApi b => create_scene_api o b now
  | UpdateSceneApi id b => update_scene_api o id b
  | DeleteSceneForm id => delete_scene_submit o id
  | DeleteSceneApi id => delete_scene_api o id
  | CreateGroupForm f => create_group_submit o f now
  | CreateGroupApi b => create_group_api o b now
  | AddMemberForm gid f => group_add_member_submit o gid f
  | AddMembersApi gid b => add_group_members o gid b
  | RemoveMemberForm gid did => group_remove_member_submit gid did
  | RemoveMemberApi gid did => remove_group_member o gid did now
  | DeleteGroupForm id => group_delete_submit o id now
  | DeleteGroupApi id => delete_group_api o id now
  | DeleteGroupsForm f => groups_bulk_delete_submit o f now
  | GroupCommandForm gid f => group_send_command_submit o gid f now later
  | GroupCommandApi gid b => send_group_command o gid b now later
  | PatchDevice id b => patch_device o id b now now later
  | DeviceCommand id b => send_device_command o id b now later
  | DeleteDevice id => delete_device_api o id now
  | DeleteDevices b => devices_bulk_delete_api o b now
  | MergeDevices b => devices_merge_retire_api o b now
  | CancelCommand did cid => cancel_device_command_api o did cid now
  end.

(** The role gate, then the handler; an exception nothing catches is the server's failure. *)
Definition serve (jwt_decode : time -> string -> outcome pydict) (mode : enforce) (q : estate_request)
    (rq : request) (now later : time) (g : idb) (e : estate) : outcome estate_answer * estate :=
  match (operator_call jwt_decode mode (roles q) (fun status => (Ret (Refused status), e))
           (fun c me u g => (Ret (handle q (Operator c me (us_role u) (us_email u)) now later e), g)) rq now g).1 with
  | Ret answer => answer
  | Raise x => (Raise x, e)
  end.
End endpoints.
