(* ===== verification/EstateFacts.v ===== *)
(** * The tables of an estate stay consistent

    [hub_ok]: memberships name devices that exist, once each, and devices stand at sites that
    exist.  [names_ok]: names are unique in an organisation.  [estate_ok] adds the groups and
    the scenes.  Every service call, every device operation and every step of the queue
    preserves it.

    Then facts about text: [strip] and what it leaves, numbers printed and read back, lines
    joined and split: what the form and page components share. *)

From Stdlib Require Import Ascii.
From stdpp Require Import pretty.
From S2P Require Import Prelude PyFloat EventBus Commands WatchdogRules RuntimeSettings Devices TenantScope Enrollment.
From S2P Require Import RoleBindings Identity ConfigBackup ConfigRestore ConfigFacts AuditLog Estate.
Local Open Scope string_scope.
Local Open Scope list_scope.
Local Open Scope Z_scope.

(** ** The devices and the memberships *)

Record hub_ok (site : string -> Prop) (h : hub) : Prop := {
  ho_nodup : NoDup (hub_members h);
  ho_members g d : (g, d) ∈ hub_members h -> is_Some (hub_devices h !! d);
  ho_sites i d s : hub_devices h !! i = Some d -> device_site d = Some s -> site s
}.

(** What the queue never touches. *)
Definition same_tables (h h' : hub) : Prop :=
  dev_cols <$> hub_devices h' = dev_cols <$> hub_devices h /\ hub_members h' = hub_members h.

Lemma same_tables_refl h : same_tables h h.
Proof. done. Qed.

Lemma same_tables_trans h1 h2 h3 : same_tables h1 h2 -> same_tables h2 h3 -> same_tables h1 h3.
Proof. intros [E1 E2] [E3 E4]. split; congruence. Qed.

Lemma same_tables_lookup h h' i d' : same_tables h h' -> hub_devices h' !! i = Some d' ->
  exists d, hub_devices h !! i = Some d /\ dev_cols d = dev_cols d'.
Proof.
  intros [E _] Hd. assert (Hl : (dev_cols <$> hub_devices h') !! i = Some (dev_cols d')) by (by rewrite lookup_fmap, Hd).
  rewrite E, lookup_fmap in Hl. by apply fmap_Some in Hl as (d & Hd0 & Ec); exists d.
Qed.

Lemma same_tables_sym h h' : same_tables h h' -> same_tables h' h.
Proof. by intros []. Qed.

Lemma same_tables_hub_ok P h h' : same_tables h h' -> hub_ok P h -> hub_ok P h'.
Proof.
  intros Hs [H1 H2 H3]. split.
  - by rewrite (proj2 Hs).
  - rewrite (proj2 Hs). intros g d [x Hx]%H2.
    apply (same_tables_lookup h' h d x (same_tables_sym _ _ Hs)) in Hx as (y & Hy & _). by exists y.
  - intros i d s Hd Hsite. destruct (same_tables_lookup h h' i d Hs Hd) as (x & Hx & Ec).
    apply (H3 i x s Hx). unfold device_site, col. by rewrite Ec.
Qed.

Lemma same_tables_insert h id d d' : hub_devices h !! id = Some d -> dev_cols d' = dev_cols d ->
  same_tables h (with_devices (insert id d') h).
Proof.
  intros Hd Hc. split; [|done]. cbn. rewrite fmap_insert, Hc. apply insert_id.
  by rewrite lookup_fmap, Hd.
Qed.

(** An operation loses no membership's device and no device's site, and adds no membership. *)
Definition keeps (P : string -> Prop) (h h' : hub) : Prop :=
  (forall m, m ∈ hub_members h' -> m ∈ hub_members h) /\ (hub_ok P h -> hub_ok P h').

Lemma keeps_refl P h : keeps P h h.
Proof. done. Qed.

Lemma keeps_trans P h1 h2 h3 : keeps P h1 h2 -> keeps P h2 h3 -> keeps P h1 h3.
Proof. intros [A1 B1] [A2 B2]. split; auto. Qed.

Lemma same_tables_keeps P h h' : same_tables h h' -> keeps P h h'.
Proof. intros Hs. split; [by rewrite (proj2 Hs)|by apply same_tables_hub_ok]. Qed.

Section queue.
Context (ulid : nat -> string).

Lemma hold_off_effect_cols ct ho d : dev_cols (hold_off_effect ct ho d) = dev_cols d.
Proof. unfold hold_off_effect. by repeat case_match. Qed.

Lemma enqueue_same_tables did ct p u ttl g ov ho n1 n2 h :
  same_tables h (enqueue_for_device ulid did ct p u ttl g ov ho n1 n2 h).2.
Proof.
  unfold enqueue_for_device, session_scope, enqueue_txn.
  case_match; [done|]. case_match; [|done].
  destruct (hub_devices h !! did) as [d|] eqn:E; [|done].
  destruct (locked_out ct ov d); [done|].
  split; [|done]. by apply (same_tables_insert h did d _ E), hold_off_effect_cols.
Qed.

Lemma group_loop_same_tables gid ct p u ov e t dids : forall acc,
  same_tables acc.2 (foldl (group_step ulid gid ct p u ov e t) acc dids).2.
Proof.
  induction dids as [|did dids IH]; intros acc; cbn [foldl]; [done|].
  eapply same_tables_trans; [|apply IH]. destruct acc as [[cr sk] h]. unfold group_step.
  destruct (hub_devices h !! did) as [d|] eqn:E; [|done].
  case_match; [done|]. split; [|by case_match]. case_match; [|done].
  by apply (same_tables_insert h did d _ E).
Qed.

Lemma enqueue_group_same_tables gid ct p u ttl ov n1 n2 h :
  same_tables h (enqueue_for_group ulid gid ct p u ttl ov n1 n2 h).2.
Proof.
  unfold enqueue_for_group. case_match; [done|]. case_match; [|done].
  match goal with |- context [foldl ?st ?acc ?l] =>
    assert (same_tables acc.2 (foldl st acc l).2) as E by apply group_loop_same_tables;
    destruct (foldl st acc l) as [[cr sk] h'] end.
  exact E.
Qed.

Lemma hub_step_same_tables h h' : hub_step ulid h h' -> same_tables h h'.
Proof.
  destruct 1; [apply enqueue_same_tables|apply enqueue_group_same_tables|
    unfold cancel_pending_command, list_pending_for_device, record_result, expire_overdue_commands; by cases..].
Qed.
End queue.

(** ** Operations on devices *)

Definition known (f : fleet) (s : string) : Prop := s ∈ fl_sites f.

Lemma write_fields_col k normalized : k <> "is_protected" -> forall d b d' b',
  foldl write_field (Ret (d, b)) normalized = Ret (d', b') ->
  col d' k = col d k \/ exists v, (k, v) ∈ normalized /\ col d' k = v.
Proof.
  intros Hk. induction normalized as [|[j v] rest IH]; intros d b d' b' H; cbn [foldl] in H.
  { simplify_eq. by left. }
  destruct (write_field _ _) as [[d1 b1]|e] eqn:E.
  2:{ exfalso. clear -H. induction rest; [done|]. cbn in *. auto. }
  destruct (IH _ _ _ _ H) as [Hc|(w & Hw & Hc)].
  2:{ right. exists w. split; [by right|done]. }
  unfold write_field in E. cbn in E. case_match; [simplify_eq; by left|]. peel E. simplify_eq.
  unfold set_field in Hx. destruct (String.eqb_spec j "is_protected") as [->|].
  { left. destruct v; simplify_eq. done. }
  simplify_eq. destruct (decide (j = k)) as [->|Hne].
  - right. exists v. split; [left|]. rewrite Hc. unfold col; cbn. by rewrite lookup_insert_eq.
  - left. rewrite Hc. unfold col; cbn. by rewrite lookup_insert_ne.
Qed.

Lemma normalize_site f id patch normalized v : normalize_patch f id patch = Ret normalized ->
  ("site_id", v) ∈ normalized -> as_str v = None \/ exists s, as_str v = Some s /\ known f s.
Proof.
  unfold normalize_patch. rewrite mapM_ret. intros Hn Hin.
  apply list_elem_of_lookup in Hin as [i Hi].
  destruct (Forall2_lookup_r _ _ _ _ _ Hn Hi) as ([k w] & _ & H). peel H. simplify_eq. cbn in Hx.
  unfold validate_field in Hx. cbn in Hx. unfold validate_site_id in Hx.
  destruct w; try done; [simplify_eq; by left|]. case_match; [simplify_eq; by left|]. case_match; [|done]. simplify_eq. right. eauto.
Qed.

Lemma set_col_site k v d : k <> "site_id" -> device_site (set_col k v d) = device_site d.
Proof. intros H. unfold device_site, col; cbn. by rewrite lookup_insert_ne. Qed.

Section fleet.
Context (P : string -> Prop).

Lemma put_keeps f id d d' : (forall s, known f s -> P s) ->
  get_device id f = Some d ->
  (forall s, device_site d' = Some s -> device_site d = Some s \/ known f s) ->
  keeps P (fl_hub f) (fl_hub (put_device id d' f)).
Proof.
  intros Hk Hd Hs. split; [done|]. intros [H1 H2 H3]. split; cbn.
  - done.
  - intros g i [x Hx]%H2. destruct (decide (id = i)) as [->|]; [rewrite lookup_insert_eq; eauto|].
    rewrite lookup_insert_ne by done. by exists x.
  - intros i x s [[<- <-]|[_ Hx]]%lookup_insert_Some Hsx; [|by eapply H3].
    destruct (Hs s Hsx) as [Hold|]; [|auto]. by apply (H3 id d s).
Qed.

Lemma update_keeps strftime accepts id patch now f : (forall s, known f s -> P s) ->
  keeps P (fl_hub f) (fl_hub (update_device strftime accepts id patch now f).2).
Proof.
  intros Hk. unfold update_device.
  assert (H : keeps P (fl_hub f) (fl_hub (update_device_with_diff strftime accepts id patch now f).2));
    [|by destruct (update_device_with_diff _ _ _ _ _ _)].
  unfold update_device_with_diff, session_scope. case_match; [done|].
  destruct (get_device id f) as [d|] eqn:Hd; [|done]. unfold apply_patch.
  destruct (normalized ← _; _) as [[n d']|e] eqn:E; [|done].
  peel E. peel E. destruct x0 as [d1 b]. simplify_eq. destruct (accepts _); [|done]. cbn.
  apply (put_keeps f id d); [done|done|]. intros s Hs.
  assert (Hs1 : device_site d1 = Some s) by (by destruct b; [rewrite set_col_site in Hs|]).
  destruct (write_fields_col "site_id" n ltac:(done) _ _ _ _ Hx0) as [Hc|(v & Hv & Hc)].
  - left. unfold device_site in *. by rewrite <- Hc.
  - right. destruct (normalize_site f id patch n v Hx Hv) as [Hno|(s' & Hs' & Hn)];
      unfold device_site in Hs1; rewrite Hc in Hs1; congruence.
Qed.

Lemma drop_keeps id f : keeps P (fl_hub f) (fl_hub (drop_device id f)).
Proof.
  split; [by intros m [_ ?]%list_elem_of_filter|]. intros [H1 H2 H3]. split; cbn.
  - by apply NoDup_filter.
  - intros g d [Hne Hin]%list_elem_of_filter. cbn in Hne.
    rewrite lookup_fmap, lookup_delete_ne by done. destruct (H2 g d Hin) as [x ->]. by eexists.
  - intros i d s. rewrite lookup_fmap. intros (x & Hx & ->)%fmap_Some Hs.
    apply lookup_delete_Some in Hx as [_ Hx]. apply (H3 i x s Hx). revert Hs. unfold orphan.
    case_decide; [|done]. by rewrite set_col_site.
Qed.

Lemma bulk_keeps override ids : forall acc,
  keeps P (fl_hub acc.2) (fl_hub (foldl (bulk_step override) acc ids).2).
Proof.
  induction ids as [|id ids IH]; intros acc; [done|]. cbn [foldl]. eapply keeps_trans; [|apply IH].
  destruct acc as [[[dl pr] un] f]. unfold bulk_step. case_match; [|done].
  case_match; [done|]. by apply drop_keeps.
Qed.

Lemma merge_keeps k r now f : (forall s, known f s -> P s) ->
  keeps P (fl_hub f) (fl_hub (merge_retire_device k r now f).2).
Proof.
  intros Hk. unfold merge_retire_device. destruct (_ || _); [done|]. destruct (String.eqb _ _); [done|].
  destruct (get_device k f) as [dk|]; [|done]. destruct (get_device r f) as [dr|] eqn:Hr; [|done].
  do 4 (case_match; [done|]). cbn. apply (put_keeps f r dr); [done|done|].
  intros s Hs. left. by rewrite !set_col_site in Hs.
Qed.
End fleet.

Lemma name_sync_same_tables ulid id n u n1 n2 f :
  same_tables (fl_hub f) (fl_hub (enqueue_display_name_sync ulid id n u n1 n2 f).2).
Proof.
  unfold enqueue_display_name_sync. case_match; [done|]. case_match; [|done]. case_match; [done|].
  pose proof (enqueue_same_tables ulid id "apply_config" (Some [("device_name", ojson n)]) u (Some 600)
    None false false n1 n2 (fl_hub f)) as Hs. by destruct (enqueue_for_device _ _ _ _ _ _ _ _ _ _ _ _).
Qed.

(** ** Names *)

Section names.
Context {A : Type} (key : A -> string).
Implicit Types t : table A.

Definition names_ok t : Prop := forall i j x y, t !! i = Some x -> t !! j = Some y ->
  ow_org x = ow_org y -> key (ow_row x) = key (ow_row y) -> i = j.

Lemma name_free_spec org name t : name_free key org name t = true <->
  forall i x, t !! i = Some x -> ow_org x = org -> key (ow_row x) <> name.
Proof.
  unfold name_free. rewrite forallb_forall. setoid_rewrite <- list_elem_of_In. split.
  - intros H i x Hx Ho Hk. specialize (H (i, x)). rewrite elem_of_map_to_list' in H. specialize (H Hx).
    cbn in H. rewrite Ho, Hk, !String.eqb_refl in H. done.
  - intros H [i x] Hx%elem_of_map_to_list'. cbn in *.
    destruct (String.eqb_spec (ow_org x) org) as [<-|]; [|done].
    destruct (String.eqb_spec (key (ow_row x)) name) as [<-|]; [|done]. by destruct (H i x Hx).
Qed.

Lemma names_ok_insert t id org a :
  name_free key org (key a) (delete id t) = true -> names_ok t -> names_ok (<[id := Owned org a]> t).
Proof.
  rewrite name_free_spec. intros Hf Ht i j x y.
  intros [[<- <-]|[Hi Hx]]%lookup_insert_Some [[<- <-]|[Hj Hy]]%lookup_insert_Some; cbn; intros Ho Hk.
  - done.
  - destruct (Hf j y); [by rewrite lookup_delete_ne|done|done].
  - destruct (Hf i x); [by rewrite lookup_delete_ne|done|done].
  - by apply (Ht i j x y).
Qed.

Lemma name_free_delete org name id t : name_free key org name t = true -> name_free key org name (delete id t) = true.
Proof. rewrite !name_free_spec. intros H i x [_ Hx]%lookup_delete_Some. by apply (H i). Qed.

Lemma names_ok_delete t id : names_ok t -> names_ok (delete id t).
Proof. intros Ht i j x y [_ Hx]%lookup_delete_Some [_ Hy]%lookup_delete_Some. by apply (Ht i j). Qed.

Lemma names_ok_fmap (f : owned A -> owned A) t :
  (forall o, ow_org (f o) = ow_org o /\ key (ow_row (f o)) = key (ow_row o)) -> names_ok t -> names_ok (f <$> t).
Proof.
  intros Hf Ht i j x y. rewrite !lookup_fmap. intros (a & Ha & ->)%fmap_Some (b & Hb & ->)%fmap_Some.
  destruct (Hf a) as [-> ->], (Hf b) as [-> ->]. by apply (Ht i j).
Qed.

Lemma owner_of_new_some c name orgs t org :
  owner_of_new key c name orgs t = Some org ->
  ca_org c = Some org /\ org ∈ orgs /\ name_free key org name t = true.
Proof.
  unfold owner_of_new. destruct (ca_org c) as [o|]; cbn; [|done]. case_match eqn:E; [|done].
  intros [= ->]. apply andb_true_iff in E as [E1%bool_decide_eq_true E2]. done.
Qed.
End names.

(** ** The whole estate *)

Section estate.
Context (py_repr : json -> string).

Definition items_ok (s : scene_cols) : Prop := exists l, validate_scene_items py_repr (JList l) = Ret l /\ scn_items s = JList l.

Record estate_ok (e : estate) : Prop := {
  eo_hub : hub_ok (fun s => is_Some (es_sites e !! s)) (es_hub e);
  eo_groups g d : (g, d) ∈ hub_members (es_hub e) -> is_Some (es_groups e !! g);
  eo_group_sites i o s : es_groups e !! i = Some o -> gp_site (row_of o) = Some s -> is_Some (es_sites e !! s);
  eo_site_names : names_ok site_key (es_sites e);
  eo_group_names : names_ok group_key (es_groups e);
  eo_scene_names : names_ok scene_key (es_scenes e);
  eo_scene_items : map_Forall (fun _ o => items_ok (row_of o)) (es_scenes e)
}.

(** The audit log and the log of the scope checks play no part. *)
Lemma estate_ok_same e e' : es_hub e' = es_hub e -> es_sites e' = es_sites e -> es_groups e' = es_groups e ->
  es_scenes e' = es_scenes e -> estate_ok e -> estate_ok e'.
Proof. intros E1 E2 E3 E4 []. split; rewrite ?E1, ?E2, ?E3, ?E4; done. Qed.

Lemma hub_ok_weaken (P Q : string -> Prop) h : (forall s, P s -> Q s) -> hub_ok P h -> hub_ok Q h.
Proof. intros Hpq [H1 H2 H3]. split; [done..|]. intros i d s Hd Hs. eapply Hpq, H3; eauto. Qed.

(** A change of the devices and the queue. *)
Lemma with_hub_ok e f : hub_ok (fun s => is_Some (es_sites e !! s)) (f (es_hub e)) ->
  (forall m, m ∈ hub_members (f (es_hub e)) -> m ∈ hub_members (es_hub e)) ->
  estate_ok e -> estate_ok (with_hub f e).
Proof. intros Hh Hm []. split; cbn; try done. intros g d Hin%Hm. eauto. Qed.

Lemma same_tables_estate_ok e f : same_tables (es_hub e) (f (es_hub e)) -> estate_ok e -> estate_ok (with_hub f e).
Proof.
  intros Hs He. apply with_hub_ok; [|by rewrite (proj2 Hs)|done].
  by apply (same_tables_hub_ok _ (es_hub e)), eo_hub.
Qed.

(** What the device routes see of the sites are sites. *)
Lemma known_site c e s : known (fleet_of c e) s -> is_Some (es_sites e !! s).
Proof.
  unfold known, fleet_of. cbn. rewrite elem_of_list_to_set, list_elem_of_fmap.
  intros ([i a] & -> & (o & Ho & _)%elem_of_visible). by exists o.
Qed.

Lemma keeps_estate_ok e h :
  keeps (fun s => is_Some (es_sites e !! s)) (es_hub e) h -> estate_ok e -> estate_ok (with_hub (fun _ => h) e).
Proof. intros [Hm Hh] He. apply with_hub_ok; [apply Hh, eo_hub, He|done|done]. Qed.

(** ** The services *)

Section services.
Context (ulid : nat -> string) (strftime : time -> string).

Lemma drawn_ok e : estate_ok e -> estate_ok (drawn e).
Proof. by apply same_tables_estate_ok. Qed.

Lemma create_site_ok c name d now e : estate_ok e -> estate_ok (create_site ulid strftime c name d now e).2.
Proof.
  intros He. unfold create_site. destruct (text_col d); [|done]. case_match; [done|].
  destruct (owner_of_new _ _ _ _ _) as [org|] eqn:Eo; [|done].
  apply owner_of_new_some in Eo as (_ & _ & Hf). apply drawn_ok in He. destruct He as [H1 H2 H3 H4 H5 H6 H7].
  assert (Hmono : forall id a s, is_Some (es_sites e !! s) -> is_Some (<[id := a]> (es_sites e) !! s)).
  { intros id a s Hs. destruct (decide (id = s)) as [->|]; [rewrite lookup_insert_eq; eauto|by rewrite lookup_insert_ne]. }
  split; cbn; try done.
  - eapply hub_ok_weaken; [|exact H1]. cbn. auto.
  - intros i x s Hx Hs. by eapply Hmono, H3.
  - apply names_ok_insert; [|done]. by apply name_free_delete.
Qed.

Lemma delete_site_ok c id e : estate_ok e -> estate_ok (delete_site c id e).2.
Proof.
  intros [[H1 H1' H1''] H2 H3 H4 H5 H6 H7]. unfold delete_site.
  destruct (get _ _ _) as [row|]; [|done]. cbn. split; [split|..]; cbn; try done.
  - intros g d [x Hx]%H1'. rewrite lookup_fmap, Hx. by eexists.
  - intros i d s. rewrite lookup_fmap. intros (x & Hx & ->)%fmap_Some Hs. unfold unsite_device in Hs.
    case_decide as Hd; [unfold device_site, col in Hs; cbn in Hs; by rewrite lookup_insert_eq in Hs|].
    rewrite lookup_delete_ne by congruence. by eapply H1''.
  - intros g d [x Hx]%H2. rewrite lookup_fmap, Hx. by eexists.
  - intros i y s. rewrite lookup_fmap. intros (x & Hx & ->)%fmap_Some Hs. unfold row_of, edit_row, unsite_group in Hs.
    cbn in Hs. case_decide as Hd; [done|]. rewrite lookup_delete_ne by congruence. by eapply H3.
  - by apply names_ok_delete.
  - apply names_ok_fmap; [|done]. intros o. split; [done|]. unfold group_key, edit_row, unsite_group. cbn.
    by case_decide.
Qed.

Lemma create_group_ok c name d site now e : estate_ok e -> estate_ok (create_group ulid strftime c name d site now e).2.
Proof.
  intros He. unfold create_group. destruct (text_col d); [|done]. destruct (string_col 40 site) as [s|]; [|done].
  case_match; [done|]. destruct (owner_of_new _ _ _ _ _) as [org|] eqn:Eo; [|done].
  apply owner_of_new_some in Eo as (_ & _ & Hf). destruct (match s with Some _ => _ | None => _ end) eqn:Es; [|done].
  apply drawn_ok in He. destruct He as [H1 H2 H3 H4 H5 H6 H7]. split; cbn; try done.
  - intros g x [y Hy]%H2. cbn in Hy. set (k := new_id _ _ _).
    destruct (decide (k = g)) as [->|]; [rewrite lookup_insert_eq; eauto|].
    rewrite lookup_insert_ne by done. by exists y.
  - intros i x y [[<- <-]|[_ Hx]]%lookup_insert_Some Hy; [|by eapply H3]. cbn in Hy. subst s.
    by apply bool_decide_eq_true in Es.
  - apply names_ok_insert; [|done]. by apply name_free_delete.
Qed.

(** The rows the loop adds: the known devices named that are not members yet, as often as named. *)
Definition new_members (group_id : string) (members : list (string * string)) (devices : gmap string device)
    (l : list json) : list (string * string) :=
  pair group_id <$> List.filter (fun did => bool_decide (is_Some (devices !! did)) &&
    negb (bool_decide ((group_id, did) ∈ members))) (omap as_str l).

Lemma member_steps_spec group_id members devices l : forall added added',
  foldl (member_step group_id members devices) (Ret added) l = Ret added' ->
  added' = added ++ new_members group_id members devices l.
Proof.
  induction l as [|v l IH]; intros added added' H; cbn [foldl] in H.
  { injection H as <-. by rewrite app_nil_r. }
  destruct (member_step group_id members devices (Ret added) v) as [added1|x] eqn:E.
  2:{ exfalso. clear -H. induction l; [done|]. cbn in *. auto. }
  apply IH in H as ->. unfold member_step in E. cbn in E. unfold new_members.
  destruct v as [| | | |did| |]; try done; cbn [omap list_omap as_str mbind option_bind]; [by injection E as <-|].
  cbn [List.filter]. destruct (_ && _) in *; injection E as <-; [|done]. cbn [fmap list_fmap].
  by rewrite <- app_assoc.
Qed.

Lemma elem_of_new_members group_id members devices l m : m ∈ new_members group_id members devices l ->
  m.1 = group_id /\ is_Some (devices !! m.2) /\ (m ∉ members) /\ JStr m.2 ∈ l.
Proof.
  unfold new_members. intros (did & -> & Hin)%list_elem_of_fmap.
  apply list_elem_of_In, List.filter_In in Hin as [Hin H]. apply andb_prop in H as [Hd Hm].
  apply bool_decide_eq_true in Hd. apply negb_true_iff, bool_decide_eq_false in Hm.
  apply list_elem_of_In, list_elem_of_omap in Hin as (v & Hv & Hs). cbn. split_and!; try done.
  by destruct v; cbn in Hs; simplify_eq.
Qed.

(** The answer of [add_members], and the members after it. *)
Lemma add_members_ret c group_id ids e n e' : add_members c group_id ids e = (Ret n, e') ->
  let added := new_members group_id (hub_members (es_hub e)) (hub_devices (es_hub e)) ids in
  is_Some (get c group_id (es_groups e)) /\ NoDup added /\ n = length added /\
  e' = with_hub (with_members (fun _ => hub_members (es_hub e) ++ added)) e.
Proof.
  unfold add_members. cbv zeta. destruct (get _ _ _) as [row|]; [|done].
  destruct (foldl _ _ _) as [added|x] eqn:E; [|done]. apply member_steps_spec in E. cbn in E. subst added.
  case_bool_decide as Hn; [|done]. intros [= <- <-]. eauto.
Qed.

Lemma add_members_ok c group_id ids e : estate_ok e -> estate_ok (add_members c group_id ids e).2.
Proof.
  intros He. destruct (add_members c group_id ids e) as [[n|x] e'] eqn:E.
  - apply add_members_ret in E as ([row Hg] & Hn & _ & ->).
    destruct He as [[H1 H1' H1''] H2 H3 H4 H5 H6 H7]. split; [split|..]; cbn; try done.
    + apply NoDup_app. split_and!; [done| |done]. intros m Hm Hm'%elem_of_new_members. by destruct Hm' as (_ & _ & ? & _).
    + intros g d [Hin|(_ & Hd & _)%elem_of_new_members]%elem_of_app; [by eapply H1'|done].
    + intros g d [Hin|(Hg' & _)%elem_of_new_members]%elem_of_app; [by eapply H2|]. cbn in Hg'. subst g. unfold get in Hg.
      destruct (es_groups e !! group_id); [by eexists|done].
  - unfold add_members in E. repeat case_match; by simplify_eq/=.
Qed.

Lemma filter_members_ok (p : string * string -> Prop) `{forall m, Decision (p m)} e :
  estate_ok e -> estate_ok (with_hub (with_members (filter p)) e).
Proof.
  intros [[H1 H1' H1''] H2 H3 H4 H5 H6 H7]. split; [split|..]; cbn; try done.
  - by apply NoDup_filter.
  - intros g d [_ Hin]%list_elem_of_filter. eauto.
  - intros g d [_ Hin]%list_elem_of_filter. eauto.
Qed.

Lemma remove_member_ok group_id device_id e : estate_ok e -> estate_ok (remove_member group_id device_id e).2.
Proof. intros He. unfold remove_member. case_match; [|done]. by apply filter_members_ok. Qed.

Lemma drop_group_ok id e : estate_ok e -> estate_ok (drop_group id e).
Proof.
  intros [[H1 H1' H1''] H2 H3 H4 H5 H6 H7]. split; [split|..]; cbn; try done.
  - by apply NoDup_filter.
  - intros g d [_ Hin]%list_elem_of_filter. eauto.
  - intros g d [Hne Hin]%list_elem_of_filter. cbn in Hne. rewrite lookup_delete_ne by done. eauto.
  - intros i o s [_ Ho]%lookup_delete_Some. eauto.
  - by apply names_ok_delete.
Qed.

Lemma delete_group_ok c id e : estate_ok e -> estate_ok (delete_group c id e).2.
Proof. intros He. unfold delete_group. case_match; [|done]. by apply drop_group_ok. Qed.

Lemma delete_groups_bulk_ok c ids e : estate_ok e -> estate_ok (delete_groups_bulk c ids e).2.
Proof.
  unfold delete_groups_bulk. change e with (([], [], e) : list string * list string * estate).2 at 1.
  generalize (([], [], e) : list string * list string * estate).
  induction ids as [|id ids IH]; intros [[dl un] e0] He; [done|]. cbn [foldl]. apply IH.
  case_match; [|done]. by apply drop_group_ok.
Qed.

(** ** Scenes *)

Lemma valid_item_again item v : validate_scene_item py_repr item = Ret v -> validate_scene_item py_repr v = Ret v.
Proof.
  destruct item as [| | | | | |item]; try done. cbn [validate_scene_item].
  set (did := strip _). set (relay := dget item "relay"). set (config := dget item "config").
  destruct (is_empty did) eqn:Ed; [done|]. destruct (negb (is_null relay) && _) eqn:Er; [done|].
  destruct (negb (is_null config) && _) eqn:Ec; [done|]. destruct (is_null relay && _) eqn:En; [done|]. intros [= <-].
  assert (Hs : strip did = did) by apply strip_idemp. assert (Hd : jor (JStr did) (JStr EmptyString) = JStr did).
  { unfold jor. cbn. by rewrite Ed. }
  assert (Hv : forall l, dget (("device_id", JStr did) :: l) "device_id" = JStr did) by done.
  destruct (is_null relay) eqn:Enr, (truthy config) eqn:Etc; cbn in En, Er; try done;
    cbn [app validate_scene_item]; rewrite Hv, Hd; cbn [py_str]; rewrite Hs, Ed; cbn;
    rewrite ?Enr, ?Etc; cbn; rewrite ?Er, ?Ec; try done.
Qed.

Lemma valid_items_again items l : validate_scene_items py_repr items = Ret l ->
  validate_scene_items py_repr (JList l) = Ret l /\ (1 <= length l <= MAX_ITEMS)%nat.
Proof.
  unfold validate_scene_items. destruct items as [| | | | |[|i r]|]; try done. case_match eqn:El; [done|].
  intros Hm%mapM_ret. apply Nat.ltb_ge in El. pose proof (Forall2_length _ _ _ Hm) as Hlen.
  destruct l as [|v l]; [done|]. rewrite <- Hlen, (proj2 (Nat.ltb_ge _ _) El).
  split; [|split; [cbn; lia|done]]. apply mapM_ret.
  assert (Ha : Forall (fun v => validate_scene_item py_repr v = Ret v) (v :: l)).
  { eapply Forall2_Forall_r; [exact Hm|]. apply Forall_forall. intros x _ y. apply valid_item_again. }
  revert Ha. generalize (v :: l). induction 1; constructor; done.
Qed.

Lemma scene_input_items name d items n d' l : scene_input py_repr name d items = Ret (n, d', l) ->
  validate_scene_items py_repr (JList l) = Ret l.
Proof.
  unfold scene_input. intros H. peel H. peel H. peel H. simplify_eq. by eapply valid_items_again.
Qed.

Lemma create_scene_ok c name d items now e : estate_ok e -> estate_ok (create_scene ulid strftime py_repr c name d items now e).2.
Proof.
  intros He. unfold create_scene. destruct (scene_input _ _ _ _) as [[[n d'] l]|x] eqn:Ei; [|done].
  case_match; [done|]. destruct (owner_of_new _ _ _ _ _) as [org|] eqn:Eo; [|done].
  apply owner_of_new_some in Eo as (_ & _ & Hf). apply drawn_ok in He. destruct He as [H1 H2 H3 H4 H5 H6 H7].
  split; cbn; try done.
  - apply names_ok_insert; [|done]. by apply name_free_delete.
  - apply map_Forall_insert_2; [|done]. exists l. split; [by eapply scene_input_items|done].
Qed.

Lemma update_scene_ok c id name d items e : estate_ok e -> estate_ok (update_scene strftime py_repr c id name d items e).2.
Proof.
  intros He. unfold update_scene. destruct (scene_input _ _ _ _) as [[[n d'] l]|x] eqn:Ei; [|done].
  destruct (es_scenes e !! id) as [o|] eqn:Eo; [|done]. case_match; [done|]. case_match; [done|].
  destruct (name_free _ _ _ _) eqn:Hf; [|done]. destruct He as [H1 H2 H3 H4 H5 H6 H7].
  split; cbn; try done.
  - by apply names_ok_insert.
  - apply map_Forall_insert_2; [|done]. exists l. split; [by eapply scene_input_items|done].
Qed.

Lemma delete_scene_ok c id e : estate_ok e -> estate_ok (delete_scene c id e).2.
Proof.
  intros [H1 H2 H3 H4 H5 H6 H7]. unfold delete_scene. case_match; [|done]. split; cbn; try done.
  - by apply names_ok_delete.
  - by apply map_Forall_delete.
Qed.

End services.
End estate.

(** ** Blanks *)

Definition clean (s : string) : Prop := strip s = s /\ is_empty s = false.
Lemma strip_clean s : is_empty (strip s) = false -> clean (strip s).
Proof. split; [apply strip_idemp|done]. Qed.
Lemma clean_stripped s : clean s -> strip_or_empty (JStr s) = Ret s.
Proof. intros [E1 E2]. destruct s as [|c s]; [done|]. change (Ret (strip (String c s)) = Ret (String c s)). by rewrite E1. Qed.
Lemma lstrip_length s : (String.length (lstrip s) <= String.length s)%nat.
Proof. induction s as [|a s IH]; cbn; [done|]. destruct (is_space a); cbn; lia. Qed.
Lemma rev_str_length s : String.length (rev_str s) = String.length s.
Proof.
  unfold rev_str. match goal with |- String.length (?f s EmptyString) = _ =>
    enough (H : forall acc, String.length (f s acc) = (String.length s + String.length acc)%nat) by (rewrite H; cbn; lia) end.
  induction s as [|a s IH]; intros acc; cbn; [done|]. rewrite IH. cbn. lia.
Qed.
Lemma strip_length s : (String.length (strip s) <= String.length s)%nat.
Proof.
  unfold strip. rewrite rev_str_length. etransitivity; [apply lstrip_length|]. rewrite rev_str_length. apply lstrip_length.
Qed.
Lemma strip_nonblank a s : is_space a = false -> is_empty (strip (String a s)) = false.
Proof.
  intros Ha. destruct (strip (String a s)) eqn:E; [|done]. destruct (strip_split (String a s)) as (x & y & Hx & Hy & Es).
  assert (Hb : blank (String a s) = true) by (by rewrite Es, !blank_app, E, Hx, Hy).
  cbn [blank] in Hb. by rewrite Ha in Hb.
Qed.

Lemma append_length s t : String.length (String.append s t) = (String.length s + String.length t)%nat.
Proof. induction s as [|a s IH]; [done|]. rewrite cons_app. cbn [String.length]. by rewrite IH. Qed.
Lemma lstrip_fixed s : String.length (lstrip s) = String.length s -> lstrip s = s.
Proof.
  intros H. destruct (lstrip_split s) as (a & _ & E). apply (f_equal String.length) in E as El. rewrite append_length in El.
  destruct a; [done|]. cbn in El. lia.
Qed.
Lemma strip_fixed s : strip s = s -> lstrip s = s /\ lstrip (rev_str s) = rev_str s.
Proof.
  intros E. pose proof (f_equal String.length E) as El. unfold strip in El. rewrite rev_str_length in El.
  pose proof (lstrip_length s) as H1. pose proof (lstrip_length (rev_str (lstrip s))) as H2. rewrite rev_str_length in H2.
  assert (Hs : lstrip s = s) by (apply lstrip_fixed; lia). split; [done|]. apply lstrip_fixed. rewrite Hs in El. by rewrite rev_str_length.
Qed.
Lemma lstrip_app s t : lstrip s = s -> is_empty s = false -> lstrip (String.append s t) = String.append s t.
Proof.
  destruct s as [|c s]; [done|]. intros H _. rewrite cons_app. cbn [lstrip] in *. destruct (is_space c) eqn:E; [|done].
  pose proof (lstrip_length s) as Hl. rewrite H in Hl. cbn in Hl. lia.
Qed.
Lemma strip_append c p s : is_space c = false -> clean s -> strip (String c (String.append p s)) = String c (String.append p s).
Proof.
  intros Hc [Hs He]. apply strip_fixed in Hs as [_ Hr]. unfold strip. cbn [lstrip]. rewrite Hc.
  assert (E : rev_str (String c (String.append p s)) = String.append (rev_str s) (rev_str (String c p))) by (rewrite <- cons_app; apply rev_str_app).
  rewrite E, lstrip_app, <- E; [apply rev_rev_str|done|]. destruct s; [done|]. rewrite rev_str_cons. by destruct (rev_str s).
Qed.


(** Text without blanks is left alone. *)
Lemma solid_lstrip s : solid s = true -> lstrip s = s.
Proof. destruct s as [|a s]; [done|]. cbn [solid lstrip]. intros [Ha _]%andb_true_iff. apply negb_true_iff in Ha. by rewrite Ha. Qed.
Lemma solid_app s t : solid (String.append s t) = solid s && solid t.
Proof. induction s as [|a s IH]; [done|]. rewrite cons_app. cbn [solid]. by rewrite IH, andb_assoc. Qed.
Lemma solid_rev s : solid (rev_str s) = solid s.
Proof. induction s as [|a s IH]; [done|]. rewrite rev_str_cons, solid_app, IH. cbn. by rewrite andb_true_r, andb_comm. Qed.
Lemma solid_clean s : solid s = true -> is_empty s = false -> clean s.
Proof.
  intros H He. split; [|done]. unfold strip. rewrite (solid_lstrip s H), solid_lstrip by (by rewrite solid_rev). apply rev_rev_str.
Qed.

(** ** Numbers *)

Local Open Scope Z_scope.
Lemma digit_char n : (n < 10)%N -> digit_of (pretty_N_char n) = Some (Z.of_N n) /\ is_space (pretty_N_char n) = false.
Proof.
  intros H. replace n with (N.of_nat (N.to_nat n)) by lia. assert (Hk : (N.to_nat n < 10)%nat) by lia.
  revert Hk. generalize (N.to_nat n). intros k Hk. do 10 (destruct k as [|k]; [done|]). lia.
Qed.
Lemma pretty_go_spec x : (0 < x)%N -> forall s, digits_from (pretty_N_go x s) 0 false = digits_from s (Z.of_N x) true /\
  solid (pretty_N_go x s) = solid s /\ exists d r, (d < 10)%N /\ pretty_N_go x s = String (pretty_N_char d) r.
Proof.
  induction (N.lt_wf_0 x) as [x _ IH]. intros Hx s. rewrite pretty_N_go_step by done.
  pose proof (N.mod_lt x 10 ltac:(done)) as Hd. destruct (digit_char _ Hd) as [E1 E2].
  destruct (decide (x < 10)%N) as [Hs|Hs].
  - rewrite N.div_small, N.mod_small, pretty_N_go_0 by done. rewrite N.mod_small in E1, E2 by done.
    split_and!; [cbn [digits_from]; by rewrite E1|cbn [solid]; by rewrite E2|eauto].
  - assert (Hq : (0 < x `div` 10)%N) by (apply N.div_str_pos; lia).
    destruct (IH (x `div` 10)%N (N.div_lt x 10 Hx ltac:(done)) Hq (String (pretty_N_char (x `mod` 10)) s)) as (I1 & I2 & I3).
    rewrite I1, I2. split_and!; [|cbn [solid]; by rewrite E2|exact I3]. cbn [digits_from]. rewrite E1. f_equal.
    pose proof (N.div_mod' x 10). lia.
Qed.
Lemma pretty_N_spec x : digits_from (pretty x) 0 false = Some (Z.of_N x) /\ solid (pretty x) = true /\
  exists d r, (d < 10)%N /\ pretty x = String (pretty_N_char d) r.
Proof.
  unfold pretty, pretty_N. destruct (decide (x = 0)%N) as [->|Hx]; [split_and!; [done|done|by exists 0%N, EmptyString]|].
  apply pretty_go_spec. lia.
Qed.
(** A printed integer is read back. *)
Lemma parse_int_pretty z : clean (pretty z) /\ parse_int (pretty z) = Some z.
Proof.
  assert (Hsolid : solid (pretty z) = true /\ is_empty (pretty z) = false).
  { destruct z as [|p|p]; [done| |].
    - destruct (pretty_N_spec (Npos p)) as (_ & H & d & r & _ & E). change (pretty (Z.pos p)) with (pretty (Npos p)). by rewrite H, E.
    - destruct (pretty_N_spec (Npos p)) as (_ & H & d & r & _ & E). change (pretty (Z.neg p)) with (String "-" (pretty (Npos p))).
      by cbn [solid]; rewrite H. }
  destruct Hsolid as [Hs He]. pose proof (solid_clean _ Hs He) as Hc. split; [done|]. unfold parse_int. destruct Hc as [-> _].
  destruct z as [|p|p]; [done| |].
  - destruct (pretty_N_spec (Npos p)) as (H & _ & d & r & Hd & E). change (pretty (Z.pos p)) with (pretty (Npos p)).
    change (Some (Z.pos p)) with (Some (Z.of_N (Npos p))). rewrite <- H, E. assert (d = 0 \/ d = 1 \/ d = 2 \/ d = 3 \/ d = 4 \/ d = 5 \/ d = 6 \/ d = 7 \/ d = 8 \/ d = 9)%N as Hn by lia.
    repeat destruct Hn as [->|Hn]; [..|subst d]; done.
  - destruct (pretty_N_spec (Npos p)) as (H & _ & _). change (Z.opp <$> digits_from (pretty (Npos p)) 0 false = Some (Z.neg p)). by rewrite H.
Qed.

(** ** Lines *)

Fixpoint unbroken (s : string) : bool :=
  match s with EmptyString => true | String a r => negb (is_line_break a) && unbroken r end.
Lemma split_line s acc rest : unbroken s = true ->
  split_lines_from (String.append s (String "010"%char rest)) acc = String.append (rev_str acc) s :: split_lines_from rest EmptyString.
Proof.
  revert acc. induction s as [|a s IH]; intros acc H; [cbn; by rewrite app_nil|]. cbn [unbroken] in H. apply andb_true_iff in H as [H1 H2]. rewrite cons_app. cbn [split_lines_from]. apply negb_true_iff in H1. rewrite H1.
  rewrite IH by done. f_equal. by rewrite rev_str_cons, <- str_app_assoc, cons_app.
Qed.
Lemma last_line s acc : unbroken s = true -> is_empty s = false \/ is_empty acc = false ->
  split_lines_from s acc = [String.append (rev_str acc) s].
Proof.
  revert acc. induction s as [|a s IH]; intros acc H He.
  - cbn [split_lines_from]. destruct He as [He|He]; [done|]. by rewrite He, app_nil.
  - cbn [unbroken] in H. apply andb_true_iff in H as [H1 H2].
    cbn [split_lines_from]. apply negb_true_iff in H1. rewrite H1, IH by auto. by rewrite rev_str_cons, <- str_app_assoc, cons_app.
Qed.
