(* ===== verification/EstateTheorems.v ===== *)
(** * The estate: consistency over histories, the reach of a group command

    [handle_ok]: every endpoint preserves [estate_ok]; [estate_step] is the step relation of
    the tables.  Then the commands of a group: what one call does, whom it asks for. *)

From stdpp Require Import pretty.
From S2P Require Import Prelude PyFloat EventBus Commands Devices WatchdogRules RuntimeSettings TenantScope Enrollment.
From S2P Require Import RoleBindings Identity Accounts Invitations ConfigBackup ConfigRestore ConfigFacts RuleForms.
From S2P Require Import AuditLog Estate EstateEndpoints EstateFacts.
Local Open Scope string_scope.
Local Open Scope list_scope.
Local Open Scope Z_scope.

Create HintDb estate.
#[local] Hint Resolve create_site_ok delete_site_ok create_group_ok add_members_ok remove_member_ok
  delete_group_ok delete_groups_bulk_ok create_scene_ok update_scene_ok delete_scene_ok : estate.

(** A call inside a handler: what it returns, and that its state is consistent. *)
Ltac consistent :=
  match goal with
  | |- context [let '(_, _) := ?x in _] =>
    let H := fresh "Hok" in assert (H : estate_ok _ x.2) by eauto with estate;
    destruct x; cbn [fst snd] in H
  end.
Ltac answers := repeat (case_match; simplify_eq; cbn [fst snd]; try done); eauto with estate.

(** A viewer is let in by the gate of every role, and by no other that leaves viewers out. *)
Lemma viewer_is_forbidden jwt_decode roles rq now g me u :
  (role_required_api jwt_decode ANY_ROLE rq now g).1 = Enter me u -> us_role u = ROLE_VIEWER ->
  in_strs ROLE_VIEWER roles = false -> roles <> [] -> (role_required_api jwt_decode roles rq now g).1 = Forbidden.
Proof.
  unfold role_required_api, role_required, ANY_ROLE, ADMIN_AND_UP. cbn [app].
  destruct (resolve_user jwt_decode rq now g) as [[[i v]|] ck]; [|done]. cbn [fst].
  case_match; [|done]. intros [= -> ->] Hr Hin Hne. rewrite Hr. destruct roles; [done|]. by rewrite Hin.
Qed.

Section estate.
Context (ulid : nat -> string) (strftime : time -> string) (environ : string -> option string)
        (py_repr : json -> string) (json_loads : string -> outcome json).
Context (audit_accepts : audit_row -> bool) (device_accepts : device -> bool) (remote_addr : option string).
#[local] Abbreviation estate_ok := (estate_ok py_repr).
#[local] Abbreviation handle := (handle ulid strftime environ py_repr json_loads audit_accepts device_accepts remote_addr).

Lemma audited_ok o a t i d now e : estate_ok e -> estate_ok (audited audit_accepts remote_addr o a t i d now e).
Proof. by apply estate_ok_same. Qed.
Lemma audited_each_ok o a ids d now e : estate_ok e -> estate_ok (audited_each audit_accepts remote_addr o a ids d now e).
Proof. by apply estate_ok_same. Qed.
Lemma with_audit_ok f e : estate_ok e -> estate_ok (with_audit f e).
Proof. by apply estate_ok_same. Qed.
Lemma with_scopes_ok l e : estate_ok e -> estate_ok (with_scopes l e).
Proof. by apply estate_ok_same. Qed.
#[local] Hint Resolve audited_ok audited_each_ok with_audit_ok with_scopes_ok : estate.

Lemma list_sites_ok c u e : estate_ok e -> estate_ok (list_sites strftime environ py_repr c u e).2.
Proof. intros He. unfold list_sites. destruct (scoped _ _ _ _ _ _ _ _) as [r l]. eauto with estate. Qed.
Lemma list_groups_ok c u e : estate_ok e -> estate_ok (list_groups strftime environ py_repr c u e).2.
Proof. intros He. unfold list_groups. destruct (scoped _ _ _ _ _ _ _ _) as [r l]. eauto with estate. Qed.
Lemma listed_devices_ok c u e : estate_ok e -> estate_ok (listed_devices environ py_repr c u e).2.
Proof. intros He. unfold listed_devices. destruct (scoped _ _ _ _ _ _ _ _) as [r l]. eauto with estate. Qed.
#[local] Hint Resolve list_sites_ok list_groups_ok listed_devices_ok : estate.

Lemma site_handlers_ok o e : estate_ok e ->
  (forall f now, estate_ok (create_site_submit ulid strftime environ py_repr o f now e).2) /\
  (forall b now, estate_ok (create_site_api ulid strftime o b now e).2) /\
  (forall id, estate_ok (delete_site_submit o id e).2) /\ (forall id, estate_ok (delete_site_api o id e).2).
Proof.
  intros He. split_and!; intros.
  - unfold create_site_submit. case_match; [done|]. consistent. case_match; [done|]. case_match; [|done].
    consistent. done.
  - unfold create_site_api. case_match; [|done]. case_match; [done|]. by consistent.
  - unfold delete_site_submit. cbn [snd]. eauto with estate.
  - unfold delete_site_api. by consistent.
Qed.

Lemma scene_handlers_ok o e : estate_ok e ->
  (forall f now, estate_ok (create_scene_submit ulid strftime py_repr json_loads o f now e).2) /\
  (forall b now, estate_ok (create_scene_api ulid strftime py_repr o b now e).2) /\
  (forall id b, estate_ok (update_scene_api strftime py_repr o id b e).2) /\
  (forall id, estate_ok (delete_scene_submit o id e).2) /\ (forall id, estate_ok (delete_scene_api o id e).2).
Proof.
  intros He. split_and!; intros.
  - unfold create_scene_submit. cbv zeta. destruct (if is_empty _ then _ else _); [|done]. by consistent.
  - unfold create_scene_api. by consistent.
  - unfold update_scene_api. by consistent.
  - unfold delete_scene_submit. cbn [snd]. eauto with estate.
  - unfold delete_scene_api. by consistent.
Qed.

Lemma group_handlers_ok o e : estate_ok e ->
  (forall f now, estate_ok (create_group_submit ulid strftime environ py_repr o f now e).2) /\
  (forall b now, estate_ok (create_group_api ulid strftime o b now e).2) /\
  (forall gid f, estate_ok (group_add_member_submit strftime environ py_repr o gid f e).2) /\
  (forall gid b, estate_ok (add_group_members o gid b e).2) /\
  (forall gid did, estate_ok (group_remove_member_submit gid did e).2) /\
  (forall gid did now, estate_ok (remove_group_member audit_accepts remote_addr o gid did now e).2) /\
  (forall id now, estate_ok (group_delete_submit audit_accepts remote_addr o id now e).2) /\
  (forall id now, estate_ok (delete_group_api audit_accepts remote_addr o id now e).2) /\
  (forall f now, estate_ok (groups_bulk_delete_submit audit_accepts remote_addr o f now e).2).
Proof.
  intros He. split_and!; intros.
  - unfold create_group_submit. case_match; [done|]. consistent. case_match; [done|]. case_match; [|done].
    by consistent.
  - unfold create_group_api. case_match; [|done]. case_match; [done|]. by consistent.
  - unfold group_add_member_submit. case_match; [|done]. consistent. case_match; [|done]. case_match; [|done].
    by consistent.
  - unfold add_group_members. case_match; try done. by consistent.
  - unfold group_remove_member_submit. cbn [snd]. eauto with estate.
  - unfold remove_group_member. consistent. case_match; [cbn [snd]; eauto with estate|done].
  - unfold group_delete_submit. consistent. cbn [snd]. case_match; eauto with estate.
  - unfold delete_group_api. consistent. case_match; [cbn [snd]; eauto with estate|done].
  - unfold groups_bulk_delete_submit. cbv zeta. case_match; [done|]. case_match; [done|].
    match goal with |- context [delete_groups_bulk ?c ?l ?e] =>
      assert (Hok : estate_ok (delete_groups_bulk c l e).2) by eauto with estate;
      destruct (delete_groups_bulk c l e) as [[dl un] e'] end.
    cbn [snd] in *. eauto with estate.
Qed.

(** ** Commands *)

Lemma queue_estate_ok e h : same_tables (es_hub e) h -> estate_ok e -> estate_ok (with_hub (fun _ => h) e).
Proof. by apply (same_tables_estate_ok _ e (fun _ => h)). Qed.

Lemma audit_fan_out_ok o gid ty n ov cmds sk now e : estate_ok e ->
  estate_ok (audit_fan_out audit_accepts remote_addr o gid ty n ov cmds sk now e).
Proof. intros He. unfold audit_fan_out. eauto with estate. Qed.
#[local] Hint Resolve queue_estate_ok audit_fan_out_ok : estate.

Lemma command_handlers_ok o e : estate_ok e ->
  (forall gid b now at_, estate_ok (send_group_command ulid audit_accepts remote_addr o gid b now at_ e).2) /\
  (forall gid f now at_, estate_ok (group_send_command_submit ulid audit_accepts remote_addr o gid f now at_ e).2) /\
  (forall id b now at_, estate_ok (send_device_command ulid strftime environ py_repr audit_accepts remote_addr o id b now at_ e).2) /\
  (forall did cid now, estate_ok (cancel_device_command_api audit_accepts remote_addr o did cid now e).2).
Proof.
  intros He.
  assert (Hg : forall gid ct p u ttl ov n1 n2 cr h, enqueue_for_group ulid gid ct p u ttl ov n1 n2 (es_hub e) = (cr, h) ->
    same_tables (es_hub e) h) by (intros; change h with (cr, h).2; rewrite <- H; apply enqueue_group_same_tables).
  split_and!; intros.
  - unfold send_group_command. case_match; [done|]. cbv zeta. case_match; [done|]. case_match; try done.
    destruct (enqueue_for_group _ _ _ _ _ _ _ _ _ _) as [r h] eqn:E. apply Hg in E.
    destruct r as [[cr sk]|[]]; cbn [snd]; eauto with estate.
  - unfold group_send_command_submit. cbv zeta. case_match; [done|]. case_match; [done|].
    destruct (enqueue_for_group _ _ _ _ _ _ _ _ _ _) as [r h] eqn:E. apply Hg in E.
    destruct r as [[cr sk]|[]]; cbn [snd]; eauto with estate.
  - unfold send_device_command, scope_required.
    destruct (require_can_act_on_device _ _ _ _ _ _ _ _ _) as [r l].
    assert (Hl : estate_ok (with_scopes l e)) by eauto with estate. destruct r; [|done]. case_match; [done|].
    case_match; try done. cbv zeta.
    match goal with |- context [enqueue_for_device ?a ?b ?c ?d ?f ?g ?h ?i ?j ?k ?l ?m] =>
      pose proof (enqueue_same_tables a b c d f g h i j k l m) as Hs;
      destruct (enqueue_for_device a b c d f g h i j k l m) as [r h0] end.
    destruct r as [cmd|[]]; cbn [snd] in *; eauto with estate.
  - unfold cancel_device_command_api.
    pose proof (hub_step_same_tables ulid _ _ (step_cancel ulid cid now (es_hub e))) as Hs.
    destruct (cancel_pending_command cid now (es_hub e)) as [k h]. cbn [snd] in Hs.
    destruct k; cbn [snd]; eauto with estate.
Qed.

(** ** Devices *)

Lemma into_ok f e : keeps (fun s => is_Some (es_sites e !! s)) (es_hub e) (fl_hub f) -> estate_ok e -> estate_ok (into f e).
Proof. by apply keeps_estate_ok. Qed.

Lemma device_handlers_ok o e : estate_ok e ->
  (forall id b now n1 n2, estate_ok (patch_device ulid strftime audit_accepts device_accepts remote_addr o id b now n1 n2 e).2) /\
  (forall id now, estate_ok (delete_device_api audit_accepts remote_addr o id now e).2) /\
  (forall b now, estate_ok (devices_bulk_delete_api audit_accepts remote_addr o b now e).2) /\
  (forall b now, estate_ok (devices_merge_retire_api audit_accepts remote_addr o b now e).2).
Proof.
  intros He. set (f := fleet_of (op_caller o) e).
  assert (Hk : forall s, known f s -> is_Some (es_sites e !! s)) by (intros s; apply known_site).
  split_and!; intros.
  - unfold patch_device. fold f. case_match; [|done].
    pose proof (update_keeps _ strftime device_accepts id b now f Hk) as Hu.
    destruct (update_device _ _ _ _ _ _) as [r f1]. cbn [snd] in Hu. destruct r as [[updated|]|]; try done.
    cbv zeta.
    match goal with |- context [if ?b then enqueue_display_name_sync ?u ?i ?n ?w ?x ?y ?z else (false, ?z)] =>
      assert (Hs : same_tables (fl_hub f1) (fl_hub (if b then enqueue_display_name_sync u i n w x y z else (false, z)).2))
        by (destruct b; [apply name_sync_same_tables|done]);
      destruct (if b then enqueue_display_name_sync u i n w x y z else (false, z)) as [synced f2] end.
    cbn [snd] in *. apply audited_ok, into_ok; [|done]. eapply keeps_trans; [exact Hu|by apply same_tables_keeps].
  - unfold delete_device_api, delete_device. fold f. destruct (get_device id f); [|done].
    cbn [snd]. apply audited_ok, into_ok; [|done]. apply (drop_keeps _ id f).
  - unfold devices_bulk_delete_api. case_match; try done. case_match; [done|]. case_match; [|done]. cbv zeta.
    case_match; [done|]. case_match; [|done]. unfold delete_devices_bulk.
    match goal with |- context [foldl (bulk_step ?ov) ?acc ?ids] =>
      pose proof (bulk_keeps (fun s => is_Some (es_sites e !! s)) ov ids acc) as Hb;
      destruct (foldl (bulk_step ov) acc ids) as [[[dl pr] un] f1] end.
    cbn [snd] in *. apply audited_each_ok, audited_each_ok, audited_ok, into_ok; done.
  - unfold devices_merge_retire_api.
    destruct (keep ← strip_or_empty (dget b "keep_device_id"); _) as [[k r]|]; [|done]. cbv zeta. fold f.
    pose proof (merge_keeps _ k r now f Hk) as Hm. destruct (merge_retire_device k r now f) as [res f1].
    cbn [snd] in Hm. destruct res; [|done]. cbn [snd]. by apply audited_ok, into_ok.
Qed.

Lemma handle_ok q o now later e : estate_ok e -> estate_ok (handle q o now later e).2.
Proof.
  intros He. pose proof (site_handlers_ok o e He). pose proof (scene_handlers_ok o e He).
  pose proof (group_handlers_ok o e He). pose proof (command_handlers_ok o e He).
  pose proof (device_handlers_ok o e He). destruct_and!. destruct q; cbn [EstateEndpoints.handle]; auto.
Qed.

(** ** Histories *)

(** A request of any operator; a step of the queue; a device enrolled, with no site or one
    that exists. *)
Inductive estate_step : estate -> estate -> Prop :=
  | es_request q o now later e : estate_step e (handle q o now later e).2
  | es_queue e h : hub_step ulid (es_hub e) h -> estate_step e (with_hub (fun _ => h) e)
  | es_enroll id d e : hub_devices (es_hub e) !! id = None ->
      (forall s, device_site d = Some s -> is_Some (es_sites e !! s)) ->
      estate_step e (with_hub (with_devices (insert id d)) e).

Lemma estate_step_ok e e' : estate_step e e' -> estate_ok e -> estate_ok e'.
Proof.
  destruct 1 as [q o now later e|e h Hq|id d e Hn Hs]; intros He.
  - by apply handle_ok.
  - by apply queue_estate_ok, He; eapply hub_step_same_tables.
  - apply with_hub_ok; [|done|done]. destruct (eo_hub _ e He) as [H1 H2 H3]. split; cbn; [done|..].
    + intros g i [x Hx]%H2. destruct (decide (id = i)) as [->|]; [by rewrite Hx in Hn|].
      rewrite lookup_insert_ne by done. by exists x.
    + intros i x s [[<- <-]|[_ Hx]]%lookup_insert_Some Hsx; [by apply Hs|by eapply H3].
Qed.

(** An estate nobody has used. *)
Record bare (e : estate) : Prop := {
  ba_devices : hub_devices (es_hub e) = ∅; ba_members : hub_members (es_hub e) = [];
  ba_sites : es_sites e = ∅; ba_groups : es_groups e = ∅; ba_scenes : es_scenes e = ∅
}.
Lemma bare_ok e : bare e -> estate_ok e.
Proof.
  intros [E1 E2 E3 E4 E5]. split; [split|..]; rewrite ?E1, ?E2, ?E3, ?E4, ?E5.
  - constructor.
  - by intros g d []%not_elem_of_nil.
  - intros i d s. by rewrite lookup_empty.
  - by intros g d []%not_elem_of_nil.
  - intros i o s. by rewrite lookup_empty.
  - intros i j x y. by rewrite lookup_empty.
  - intros i j x y. by rewrite lookup_empty.
  - intros i j x y. by rewrite lookup_empty.
  - apply map_Forall_empty.
Qed.


(** ** The commands of a group *)

(** The confirmation the size of the group demands: none up to 5 devices, either kind up to
    20, beyond that the verb typed out. *)
Definition confirmed_enough (n : nat) (verb level typed : json) : Prop :=
  (n <= 5)%nat \/ (n <= 20)%nat /\ (level = JStr "simple" \/ level = JStr "typed") \/
  level = JStr "typed" /\ py_eq typed verb = true.

Lemma as_str_eq v t : bool_decide (as_str v = Some t) = true <-> v = JStr t.
Proof. rewrite bool_decide_eq_true. destruct v; naive_solver. Qed.

Lemma confirmed_spec n verb level typed : confirmed n verb level typed = true <-> confirmed_enough n verb level typed.
Proof.
  unfold confirmed, confirmed_enough, mass_validate, required_level, SIMPLE_THRESHOLD, TYPED_THRESHOLD. cbv zeta.
  assert (Ht : bool_decide ((if py_eq typed verb then Some EmptyString else None) = Some EmptyString) = py_eq typed verb)
    by (by destruct (py_eq typed verb)).
  destruct (Nat.ltb_spec 20 n), (Nat.ltb_spec 5 n); cbn;
    rewrite ?andb_true_iff, ?orb_true_iff, ?as_str_eq, ?Ht; intuition lia.
Qed.

Definition store (t : gmap string command) (cmds : list command) : gmap string command :=
  foldl (fun t c => <[cmd_id c := c]> t) t cmds.

Lemma group_loop_stores gid ct p u ov e t dids : forall cr sk h,
  match foldl (group_step ulid gid ct p u ov e t) (cr, sk, h) dids with
  | (cr', sk', h') => exists new, cr' = cr ++ new /\ hub_commands h' = store (hub_commands h) new /\
      Forall (fun c => cmd_type c = ct /\ cmd_group_id c = Some gid /\ cmd_issued_by c = u /\ cmd_state c = Pending) new /\
      (forall i, i ∉ cmd_device_id <$> new -> hub_devices h' !! i = hub_devices h !! i)
  end.
Proof.
  induction dids as [|did dids IH]; intros cr sk h; cbn [foldl].
  { exists []. by rewrite app_nil_r. }
  destruct (group_step ulid gid ct p u ov e t (cr, sk, h) did) as [[cr1 sk1] h1] eqn:E.
  assert (Hstep : exists new, cr1 = cr ++ new /\ hub_commands h1 = store (hub_commands h) new /\
      Forall (fun c => cmd_type c = ct /\ cmd_group_id c = Some gid /\ cmd_issued_by c = u /\ cmd_state c = Pending) new /\
      (forall i, i ∉ cmd_device_id <$> new -> hub_devices h1 !! i = hub_devices h !! i)).
  { unfold group_step in E. destruct (hub_devices h !! did) as [d|] eqn:Ed;
      [|exists []; simplify_eq; by rewrite app_nil_r].
    destruct (locked_out ct ov d); simplify_eq; [exists []; by rewrite app_nil_r|].
    eexists [_]. split; [reflexivity|]. split; [by case_match|]. split; [by apply Forall_singleton|].
    intros i Hi. cbn in Hi. rewrite list_elem_of_singleton in Hi. case_match; cbn; [|done]. by rewrite lookup_insert_ne by congruence. }
  destruct Hstep as (n1 & -> & C1 & F1 & D1). specialize (IH (cr ++ n1) sk1 h1).
  destruct (foldl _ _ dids) as [[cr2 sk2] h2]. destruct IH as (n2 & -> & C2 & F2 & D2).
  exists (n1 ++ n2). rewrite <- app_assoc. split; [done|]. split; [rewrite C2, C1; unfold store; by rewrite foldl_app|].
  split; [by apply Forall_app|]. intros i. rewrite fmap_app, not_elem_of_app. intros [I1 I2]. rewrite D2, D1; done.
Qed.

Lemma enqueue_group_stores gid ct p u ttl ov n1 n2 h cmds sk h' :
  enqueue_for_group ulid gid ct p u ttl ov n1 n2 h = (Ret (cmds, sk), h') ->
  in_strs ct ALLOWED_TYPES = true /\ hub_commands h' = store (hub_commands h) cmds /\
  Forall (fun c => cmd_type c = ct /\ cmd_group_id c = Some gid /\ cmd_issued_by c = u /\ cmd_state c = Pending) cmds /\
  (forall i, i ∉ cmd_device_id <$> cmds -> hub_devices h' !! i = hub_devices h !! i).
Proof.
  unfold enqueue_for_group. destruct (in_strs ct ALLOWED_TYPES); [|done]. cbn [negb].
  destruct (validate_payload ct p) as [p'|x]; [|done].
  pose proof (group_loop_stores gid ct p' u ov (n1 + seconds (ttl_or_default ttl)) n2 (group_device_ids gid h) [] [] h) as Hl.
  destruct (foldl _ _ _) as [[c1 s1] h1]. destruct Hl as (new & -> & Hc & Hf & Hd). intros [= <- <- <-]. done.
Qed.

#[local] Abbreviation send_group_command := (send_group_command ulid audit_accepts remote_addr).

(** The devices of a group a command reaches, and those it leaves out as protected. *)
Definition reached (gid ty : string) (override : bool) (e : estate) : list string :=
  filter (fun d => fanout_target ty override (es_hub e) d = true) (group_device_ids gid (es_hub e)).
Definition left_out (gid ty : string) (override : bool) (e : estate) : list string :=
  filter (fun d => fanout_skip ty override (es_hub e) d = true) (group_device_ids gid (es_hub e)).

(** C15. A group command, on every branch.  An answer that is not a success leaves the devices,
    the queue and the log as they were.  A success has a type the queue knows and the
    confirmation the number of members demands; it queues one pending command, in the
    operator's name, for each member that exists and is not protected (or any, with the
    override), in order; it reports the protected ones it left out; no other device row
    changes; and it logs one row for the group and one for each device of either kind. *)
Theorem group_command_is_exact o gid b now at_ e :
  match send_group_command o gid b now at_ e with
  | (Ret (Answered status body), e') =>
    exists ty cmds, status = 201 /\ cb_type b = JStr ty /\ ty ∈ ALLOWED_TYPES /\
      confirmed_enough (count_group_members gid e) (cb_type b) (cb_level b) (cb_typed b) /\
      cmd_device_id <$> cmds = reached gid ty (truthy (cb_override b)) e /\
      Forall (fun c => cmd_type c = ty /\ cmd_group_id c = Some gid /\
                       cmd_issued_by c = Some (op_id o) /\ cmd_state c = Pending) cmds /\
      hub_commands (es_hub e') = store (hub_commands (es_hub e)) cmds /\
      (forall i, i ∉ reached gid ty (truthy (cb_override b)) e ->
         hub_devices (es_hub e') !! i = hub_devices (es_hub e) !! i) /\
      body = JObj [("fan_out_count", jcount (length cmds)); ("target_count", jcount (count_group_members gid e));
                   ("command_ids", jstrs (cmd_id <$> cmds));
                   ("skipped_protected_device_ids", jstrs (left_out gid ty (truthy (cb_override b)) e))] /\
      exists rows, es_audit e' = es_audit e ++ filter (fun r => audit_accepts r = true) rows /\
        (fun r => (au_action r, au_target_id r)) <$> rows =
          ("group.mass_command_issued", if is_empty gid then None else Some gid) ::
          ((fun d => ("device.mass_command_issued_per_device", Some d)) <$> reached gid ty (truthy (cb_override b)) e) ++
          ((fun d => ("device.mass_command_skipped_per_device", Some d)) <$> left_out gid ty (truthy (cb_override b)) e)
  | (_, e') => e' = e
  end.
Proof.
  unfold EstateEndpoints.send_group_command. destruct (truthy (cb_type b)); [|done]. cbn [negb]. cbv zeta.
  destruct (confirmed _ _ _ _) eqn:Ec; [|done]. apply confirmed_spec in Ec. cbn [negb].
  destruct (cb_type b) as [| | | |ty| |] eqn:Et; try done.
  destruct (enqueue_for_group _ _ _ _ _ _ _ _ _ _) as [[[cmds sk]|x] h] eqn:E; [|by destruct x].
  destruct (enqueue_for_group_partition _ _ _ _ _ _ _ _ _ _ _ _ _ E) as [Hc Hs].
  apply enqueue_group_stores in E as (Hty & Hst & Hf & Hd).
  exists ty, cmds. apply in_strs_spec in Hty. split_and!; try done.
  - intros i Hi. apply Hd. by rewrite Hc.
  - by rewrite Hs.
  - unfold audit_fan_out, audited_each, audited, with_audit. cbn [es_audit with_hub].
    rewrite (record_per_device_rows audit_accepts (op_caller o) _ _ sk). cbn [snd].
    rewrite (record_per_device_rows audit_accepts (op_caller o) _ _ (cmd_device_id <$> cmds)). cbn [snd].
    rewrite record_rows, <- !app_assoc, <- !filter_app. eexists. split; [reflexivity|].
    cbn. f_equal. unfold reached, left_out. rewrite <- Hc, <- Hs, fmap_app. f_equal; by rewrite <- list_fmap_compose.
Qed.

(** Viewers power protected devices of any tenant.  Whoever the gate admits as a viewer
    can have every device of any group of up to five power-cycled, the protected ones too, by
    naming the group: neither the organisation of the group nor a role binding is asked for.
    The same command sent to the device itself is refused. *)
Theorem viewers_command_every_group jwt_decode mode rq now later g e me u gid b did :
  (role_required_api jwt_decode ANY_ROLE rq now g).1 = Enter me u -> us_role u = ROLE_VIEWER ->
  (gid, did) ∈ hub_members (es_hub e) -> is_Some (hub_devices (es_hub e) !! did) ->
  (count_group_members gid e <= 5)%nat ->
  cb_type b = JStr "relay_cycle" -> cb_payload b = None -> truthy (cb_override b) = true ->
  let serve := serve ulid strftime environ py_repr json_loads audit_accepts device_accepts remote_addr jwt_decode mode in
  (exists body e' cmds, serve (GroupCommandApi gid b) rq now later g e = (Ret (Answered 201 body), e') /\
     did ∈ cmd_device_id <$> cmds /\ Forall (fun c => cmd_type c = "relay_cycle" /\ cmd_state c = Pending) cmds /\
     hub_commands (es_hub e') = store (hub_commands (es_hub e)) cmds) /\
  serve (DeviceCommand did b) rq now later g e = (Ret (Refused 403), e).
Proof.
  intros Hg Hr Hm [d Hd] Hn Ht Hp Ho serve. split.
  - set (o := Operator (Caller (tc_org (bind_tenant_scope me (rq_cookie rq) g).1) mode) me (us_role u) (us_email u)).
    assert (Hserve : serve (GroupCommandApi gid b) rq now later g e = send_group_command o gid b now later e).
    { unfold serve, EstateEndpoints.serve, operator_call. cbn [roles]. by rewrite Hg. }
    rewrite Hserve. pose proof (group_command_is_exact o gid b now later e) as Hx.
    destruct (send_group_command o gid b now later e) as [[[]|] e'] eqn:E.
    4: { destruct Hx as (ty & cmds & -> & Hty & _ & _ & Hc & Hf & Hs & _). rewrite Ht in Hty. injection Hty as <-.
      exists body, e', cmds. split_and!; [done| |by eapply Forall_impl; [exact Hf|naive_solver]|done].
      rewrite Hc. unfold reached. apply list_elem_of_filter. split.
      - unfold fanout_target, locked_out. by rewrite Hd, Ho, andb_false_r.
      - unfold group_device_ids. apply list_elem_of_fmap. exists (gid, did). split; [done|]. by apply list_elem_of_filter. }
    all: exfalso; revert E; unfold EstateEndpoints.send_group_command; rewrite Ht; cbn [truthy is_empty negb]; cbv zeta;
      rewrite (proj2 (confirmed_spec _ _ _ _)) by (by left); cbn [negb]; unfold enqueue_for_group; rewrite Hp; cbn;
      by destruct (foldl _ _ _) as [[? ?] ?].
  - unfold serve, EstateEndpoints.serve, operator_call. cbn [roles].
    by rewrite (viewer_is_forbidden _ WRITE_ROLES _ _ _ _ _ Hg Hr eq_refl).
Qed.
End estate.

Module Example.

Definition no_text (_ : time) : string := EmptyString.
Definition no_env (_ : string) : option string := None.
Definition no_repr (_ : json) : string := EmptyString.
Definition no_json (_ : string) : outcome json := Raise (ValueError "json").
Definition accepts (_ : audit_row) : bool := true.
Definition device_accepts (_ : device) : bool := true.
Definition no_jwt (_ : time) (_ : string) : outcome pydict := Raise (ValueError "jwt").
Definition handle := handle pretty no_text no_env no_repr no_json accepts device_accepts (Some "192.0.2.1").
Definition estate_step := estate_step pretty no_text no_env no_repr no_json accepts device_accepts (Some "192.0.2.1").

(** Two tenants; an administrator of the first. *)
Definition e0 : estate :=
  Estate (Hub ∅ ∅ [] [] empty_bus 0) {["org_a"; "org_b"]} ∅ ∅ ∅ [] ∅ [] [].
Definition admin_a : operator := Operator (Caller (Some "org_a") Enforce) "usr_a" ROLE_ADMIN "a@example.org".
Definition site : string := new_id pretty "site" 0.
Definition group : string := new_id pretty "grp" 1.
Definition e1 : estate := (handle (CreateSiteApi [("name", JStr " Attic ")]) admin_a 1 1 e0).2.
Definition e2 : estate := (handle (CreateGroupApi [("name", JStr "Lamps"); ("site_id", JStr site)]) admin_a 2 2 e1).2.
Definition lamp : device := Device true false None (<["site_id" := JStr site]> ∅).
Definition e3 : estate := with_hub (with_devices (insert "dev_1" lamp)) e2.
Definition e4 : estate := (handle (AddMembersApi group [("device_ids", JList [JStr "dev_1"; JStr "dev_9"; JNull])])
                             admin_a 3 3 e3).2.
Definition e5 : estate := (handle (CreateSceneApi [("name", JStr "Night");
  ("items", JList [JObj [("device_id", JStr " dev_1 "); ("relay", JStr "off")]])]) admin_a 4 4 e4).2.

Example rows : (dt_row ∘ ow_row <$> es_sites e5) !! site = Some (SiteCols "Attic" None) /\
  hub_members (es_hub e5) = [(group, "dev_1")] /\
  (group_key ∘ ow_row <$> es_groups e5) !! group = Some "Lamps" /\
  (scn_items ∘ dt_row ∘ ow_row <$> es_scenes e5) !! new_id pretty "scn" 2 =
    Some (JList [JObj [("device_id", JStr "dev_1"); ("relay", JStr "off")]]) /\
  (handle (CreateSiteApi [("name", JStr "Attic")]) admin_a 5 5 e5).1 = Ret (Refused 409) /\
  (* A device named twice: the second row is refused with the first. *)
  handle (AddMembersApi group [("device_ids", JList [JStr "dev_1"; JStr "dev_1"])]) admin_a 3 3 e3 =
    (Raise (DBError "group_memberships"), e3) /\
  (* A site that does not exist is reported as a duplicate name. *)
  (handle (CreateGroupApi [("name", JStr "Pumps"); ("site_id", JStr "site_9")]) admin_a 5 5 e5).1 = Ret (Refused 409) /\
  (* Deleting the site leaves the group and the lamp without one. *)
  (gp_site ∘ dt_row ∘ ow_row <$> es_groups (handle (DeleteSiteApi site) admin_a 6 6 e5).2) !! group = Some None.
Proof. split_and!; vm_compute; reflexivity. Qed.


(** A viewer of the other tenant. *)
Definition viewer : account := Account "v@example.org" "h" "V" true false false ROLE_VIEWER 0 0 0 None.
Definition people : idb := Idb {["usr_v" := viewer]} ∅ ∅ ∅ ∅ ∅ ∅ ∅ (RbacDb [] ∅ ∅ ∅ []) ∅ 0.
Definition rq : request := Request (Cookie (Some "usr_v") None None None) EmptyString.
Definition cycle : command_body := CommandBody (JStr "relay_cycle") None None (JBool true) JNull JNull JNull.
Lemma viewers_command_every_group_witness :
  let serve := serve pretty no_text no_env no_repr no_json accepts device_accepts None no_jwt Enforce in
  (exists body e' cmds, serve (GroupCommandApi group cycle) rq 9 9 people e5 = (Ret (Answered 201 body), e') /\
     "dev_1" ∈ cmd_device_id <$> cmds /\ Forall (fun c => cmd_type c = "relay_cycle" /\ cmd_state c = Pending) cmds /\
     hub_commands (es_hub e') = store (hub_commands (es_hub e5)) cmds) /\
  serve (DeviceCommand "dev_1" cycle) rq 9 9 people e5 = (Ret (Refused 403), e5).
Proof.
  apply (viewers_command_every_group pretty no_text no_env no_repr no_json accepts device_accepts None
           no_jwt Enforce rq 9 9 people e5 "usr_v" viewer group cycle "dev_1");
    [vm_compute; reflexivity..| | | | | | ].
  - replace (hub_members (es_hub e5)) with [(group, "dev_1")] by (vm_compute; reflexivity). left.
  - eexists. vm_compute. reflexivity.
  - apply Nat.leb_le. vm_compute. reflexivity.
  - reflexivity.
  - reflexivity.
  - reflexivity.
Defined.
End Example.
