(* ===== verification/FirmwareStore.v ===== *)
(** * Firmware releases ([app/services/firmware.py], [blueprints/firmware_public.py])

    An uploaded image is hashed, moved to the firmware directory under a name made from its
    version and channel, copied to the directory of the channel and registered; a scan
    registers images placed in the channel directories by hand and re-hashes the registered
    ones; deleting a release unlinks its files.  The directory is a map from (subdirectory,
    file name) to contents: the upload is staged under a name no other call uses, and read,
    rename and unlink succeed ([copy_ok] says whether the copy does, and [fs_accepts] which
    names the file system takes).  Deployments and assignments are those of [Deployments]. *)

From S2P Require Import Prelude Commands Devices Deployments Identity Announcements.
From S2P Require Import TenantScope Enrollment.
Local Open Scope string_scope.
Local Open Scope list_scope.
Local Open Scope Z_scope.

Record firmware_release := FirmwareRelease {
  fr_version : string;
  fr_channel : string;
  fr_filename : string;
  fr_url : string;
  fr_sha256 : string;
  fr_size : Z;
  fr_notes : option string;
  fr_by : option string;
  fr_created_at : time
}.
Record mirror := Mirror {
  mi_id : string;
  mi_release : string;
  mi_kind : string;
  mi_url : string;
  mi_status : string;
  mi_sha256 : option string;
  mi_probed_at : option time;
  mi_error : option string;
  mi_created_at : time
}.
(** The directory (the empty subdirectory is the root) and the tables. *)
Abbreviation files := (gmap (string * string) string).
Record depot := Depot {
  de_disk : files;
  de_releases : gmap string firmware_release;
  de_mirrors : list mirror;
  de_deployments : gmap string deployment;
  de_assignments : list assignment;
  de_next : nat
}.
Definition with_disk (f : files -> files) (d : depot) : depot :=
  Depot (f (de_disk d)) (de_releases d) (de_mirrors d) (de_deployments d) (de_assignments d) (de_next d).

(** The releases as a rollout reads them. *)
Definition release_of (r : firmware_release) : release :=
  Release (fr_version r) (fr_channel r) (fr_url r) (fr_sha256 r).
Definition firmware_of (d : depot) : firmware :=
  Firmware (release_of <$> de_releases d) (de_deployments d) (de_assignments d) (de_next d).
Definition with_rollouts (w : firmware) (d : depot) : depot :=
  Depot (de_disk d) (de_releases d) (de_mirrors d) (fw_deployments w) (fw_assignments w) (fw_next w).

Definition ALLOWED_CHANNELS : list string := ["dev"; "beta"; "stable"].
Definition CHANNEL_POINTER_FILENAME : string := "latest.bin".
Definition MIRROR_KIND_LOCAL : string := "local".
Definition MIRROR_STATUS_LIVE : string := "live".

(** [s[:-len(suffix)]] after [s.endswith(suffix)]. *)
Definition chop (suffix s : string) : option string :=
  let n := (String.length s - String.length suffix)%nat in
  if (String.length suffix <=? String.length s)%nat
     && String.eqb (String.substring n (String.length suffix) s) suffix
  then Some (str_take n s) else None.

Section firmware.
Context (ulid : nat -> string) (sha256 : string -> string) (strftime : time -> string).
Context (fs_accepts : string -> bool).
(** [settings.firmware_public_base]. *)
Context (public_base : string).

Definition base : string := rstrip_slashes public_base.
Definition api_root : string :=
  match chop "/firmware" base with Some root => (root ++ "/api/v1/firmware")%string | None => base end.
Definition root_url (name : string) : string := (base ++ "/" ++ name)%string.
Definition channel_url (channel name : string) : string := (base ++ "/" ++ channel ++ "/" ++ name)%string.
Definition pointer_url (channel : string) : string := (api_root ++ "/" ++ channel ++ "/latest")%string.
Definition size_of (content : string) : Z := Z.of_nat (String.length content).

(** ** Serialization *)

Definition serialize_mirror (m : mirror) : json :=
  JObj [("id", JStr (mi_id m)); ("kind", JStr (mi_kind m)); ("url", JStr (mi_url m)); ("status", JStr (mi_status m));
        ("verified_sha256", ojson (mi_sha256 m));
        ("last_probed_at", from_option (fun t => JStr (strftime t)) JNull (mi_probed_at m));
        ("last_error", ojson (mi_error m)); ("created_at", JStr (strftime (mi_created_at m)))].
Definition serialize_release (id : string) (r : firmware_release) (mirrors : list mirror) : json :=
  JObj [("id", JStr id); ("version", JStr (fr_version r)); ("channel", JStr (fr_channel r));
        ("filename", JStr (fr_filename r)); ("download_url", JStr (fr_url r)); ("sha256", JStr (fr_sha256 r));
        ("size_bytes", JInt (fr_size r)); ("release_notes", ojson (fr_notes r));
        ("created_at", JStr (strftime (fr_created_at r))); ("mirrors", JList (serialize_mirror <$> mirrors))].
Definition mirrors_of (id : string) (l : list mirror) : list mirror := filter (fun m => mi_release m = id) l.
Definition list_releases (d : depot) : list json :=
  (fun x : string * firmware_release => serialize_release x.1 x.2 (mirrors_of x.1 (de_mirrors d))) <$>
    order_by_desc (fun x : string * firmware_release => fr_created_at x.2) (map_to_list (de_releases d)).

(** ** Registration *)

(** The flush: a column that is too short raises [DataError], a second row of a version and
    channel [IntegrityError]. *)
Definition release_fits (r : firmware_release) : bool :=
  fits 40 (fr_version r) && fits 255 (fr_filename r) && fits 512 (fr_url r) && (fr_size r <=? 2147483647).
Definition version_free (version channel : string) (t : gmap string firmware_release) : bool :=
  free_in (fun r => String.eqb (fr_version r) version && String.eqb (fr_channel r) channel) t.
Fixpoint new_mirrors (n : nat) (id sha : string) (now : time) (urls : list (string * string)) : list mirror :=
  match urls with
  | [] => []
  | (kind, url) :: urls =>
    Mirror (new_id ulid "fmir" n) id kind url MIRROR_STATUS_LIVE (Some sha) (Some now) None now
      :: new_mirrors (S n) id sha now urls
  end.
Inductive registered := Registered (id : string) (d : depot) | Duplicate | Refused (e : exn).
Definition register_release (r : firmware_release) (urls : list (string * string)) (now : time) (d : depot) : registered :=
  if negb (release_fits r && forallb (fun ku => fits 500 ku.2) urls) then Refused (DBError "firmware_releases")
  else if negb (version_free (fr_version r) (fr_channel r) (de_releases d)) then Duplicate
  else
    let id := new_id ulid "fwr" (de_next d) in
    Registered id
      (Depot (de_disk d) (<[id := r]> (de_releases d))
         (de_mirrors d ++ new_mirrors (S (de_next d)) id (fr_sha256 r) now urls)
         (de_deployments d) (de_assignments d) (S (de_next d) + length urls)).

(** ** Upload *)

Definition final_name (version channel : string) : string :=
  if String.eqb channel "stable" then ("rebooter-" ++ version ++ ".bin")%string
  else ("rebooter-" ++ version ++ "-" ++ channel ++ ".bin")%string.
Definition file_exists (p : string * string) (d : depot) : bool := bool_decide (is_Some (de_disk d !! p)).

Definition upload_release (content version channel : string) (expected_sha256 notes by_ : option string)
    (copy_ok : bool) (created now : time) (d : depot) : outcome json * depot :=
  if negb (in_strs channel ALLOWED_CHANNELS) then (Raise (ValueError "channel must be one of"), d)
  else
    let version := strip version in
    if is_empty version then (Raise (ValueError "version is required"), d)
    else
      let sha := sha256 content in
      if truthy_str expected_sha256 && negb (String.eqb (lower (or_str expected_sha256 EmptyString)) sha)
      then (Raise (ValueError "sha256 mismatch"), d)
      else if size_of content =? 0 then (Raise (ValueError "uploaded firmware is empty (0 bytes)"), d)
      else
        let name := final_name version channel in
        if file_exists ("", name) d then (Raise (ValueError "firmware already exists"), d)
        else if negb (fs_accepts name) then (Raise (AppError "OSError" "rename"), d)
        else
          let d := with_disk (insert ("", name) content) d in
          let d := if copy_ok then with_disk (insert (channel, name) content) d else d in
          let r := FirmwareRelease version channel name (root_url name) sha (size_of content) notes by_ created in
          match register_release r
                  [(MIRROR_KIND_LOCAL, root_url name);
                   ((MIRROR_KIND_LOCAL ++ "_per_channel")%string, channel_url channel name);
                   ((MIRROR_KIND_LOCAL ++ "_channel_pointer")%string, pointer_url channel)] now d with
          | Registered id d => (Ret (serialize_release id r (mirrors_of id (de_mirrors d))), d)
          | Duplicate =>
            (Raise (ValueError "firmware already exists"),
             with_disk (fun t => delete (channel, name) (delete ("", name) t)) d)
          | Refused e => (Raise e, d)
          end.

(** ** The scan *)

(** A registered file whose contents changed, and what the row said before. *)
Record rehashed := Rehashed {
  rh_id : string; rh_filename : string; rh_channel : string;
  rh_old_sha256 : string; rh_new_sha256 : string; rh_old_size : Z; rh_new_size : Z
}.
Record scan := Scan {
  sn_discovered : list (string * firmware_release);
  sn_updated : list rehashed;
  sn_skipped_existing : nat;
  sn_skipped_pointer : nat;
  sn_errors : list (string * string)                   (* the file; the texts are left out *)
}.
Definition scan0 : scan := Scan [] [] 0 0 [].
Definition skip_existing (s : scan) : scan :=
  Scan (sn_discovered s) (sn_updated s) (S (sn_skipped_existing s)) (sn_skipped_pointer s) (sn_errors s).

(** [{r.filename: ...}] as it was when the scan began: of two rows, the later. *)
Definition existing_index (t : gmap string firmware_release) : gmap string (string * firmware_release) :=
  list_to_map (reverse ((fun x : string * firmware_release => (fr_filename x.2, x)) <$> map_to_list t)).

(** The version a file name carries. *)
Definition scanned_version (name channel : string) : string :=
  let stem := default name (chop ".bin" name) in
  let version := if startswith "rebooter-" stem then String.substring 9 (String.length stem - 9) stem else stem in
  default version (chop ("-" ++ channel)%string version).

(** A registered file whose contents changed: the row and its mirrors take the new hash. *)
Definition rehash_mirror (id sha : string) (now : time) (m : mirror) : mirror :=
  if String.eqb (mi_release m) id
  then Mirror (mi_id m) (mi_release m) (mi_kind m) (mi_url m) MIRROR_STATUS_LIVE (Some sha) (Some now) None (mi_created_at m)
  else m.
Definition rehash (r : firmware_release) (sha : string) (size : Z) : firmware_release :=
  FirmwareRelease (fr_version r) (fr_channel r) (fr_filename r) (fr_url r) sha size (fr_notes r) (fr_by r) (fr_created_at r).

Definition scan_file (existing : gmap string (string * firmware_release)) (by_ : option string) (now : time)
    (channel name content : string) (acc : scan * depot) : scan * depot :=
  let '(s, d) := acc in
  if String.eqb name CHANNEL_POINTER_FILENAME
  then (Scan (sn_discovered s) (sn_updated s) (sn_skipped_existing s) (S (sn_skipped_pointer s)) (sn_errors s), d)
  else if negb (bool_decide (is_Some (chop ".bin" name))) then acc
  else
    let sha := sha256 content in
    let size := size_of content in
    match existing !! name with
    | Some (id, old) =>
      if String.eqb sha (fr_sha256 old) && (size =? fr_size old) then (skip_existing s, d)
      else match de_releases d !! id with
      | None => (skip_existing s, d)
      | Some r =>
        if size <=? 2147483647 then
          (Scan (sn_discovered s) (sn_updated s ++ [Rehashed id name (fr_channel old) (fr_sha256 old) sha (fr_size old) size]) (sn_skipped_existing s)
                (sn_skipped_pointer s) (sn_errors s),
           Depot (de_disk d) (<[id := rehash r sha size]> (de_releases d)) (rehash_mirror id sha now <$> de_mirrors d)
                 (de_deployments d) (de_assignments d) (de_next d))
        else (Scan (sn_discovered s) (sn_updated s) (sn_skipped_existing s) (sn_skipped_pointer s)
                   (sn_errors s ++ [(channel, name)]), d)
      end
    | None =>
      let r := FirmwareRelease (scanned_version name channel) channel name (channel_url channel name) sha size
                 (Some "discovered by on-disk scan") by_ now in
      match register_release r
              [((MIRROR_KIND_LOCAL ++ "_per_channel")%string, channel_url channel name);
               ((MIRROR_KIND_LOCAL ++ "_channel_pointer")%string, pointer_url channel)] now d with
      | Registered id d =>
        (Scan (sn_discovered s ++ [(id, r)]) (sn_updated s) (sn_skipped_existing s) (sn_skipped_pointer s) (sn_errors s), d)
      | Duplicate => (skip_existing s, d)
      | Refused _ => (Scan (sn_discovered s) (sn_updated s) (sn_skipped_existing s) (sn_skipped_pointer s)
                          (sn_errors s ++ [(channel, name)]), d)
      end
    end.

(** [sorted(channel_dir.iterdir())]: the files of a channel, by name. *)
Definition name_before (a b : string * string) : Prop := String.leb a.1 b.1 = true.
#[local] Instance name_before_dec : RelDecision name_before.
Proof. intros a b. unfold name_before. apply _. Defined.
Definition channel_files (channel : string) (t : files) : list (string * string) :=
  merge_sort name_before
    (omap (fun kv : (string * string) * string =>
             if String.eqb kv.1.1 channel then Some (kv.1.2, kv.2) else None) (map_to_list t)).
Definition discover_on_disk_releases (by_ : option string) (now : time) (d : depot) : scan * depot :=
  let existing := existing_index (de_releases d) in
  foldl (fun acc ch =>
    foldl (fun acc nc => scan_file existing by_ now ch nc.1 nc.2 acc) acc (channel_files ch (de_disk d)))
    (scan0, d) ALLOWED_CHANNELS.

(** ** Deletion and the channel pointer *)

(** The files are unlinked and the row goes, with its mirrors, deployments and assignments
    ([ON DELETE CASCADE]). *)
Definition delete_release (id : string) (d : depot) : bool * depot :=
  match de_releases d !! id with
  | None => (false, d)
  | Some r =>
    (true,
     Depot (delete (fr_channel r, fr_filename r) (delete ("", fr_filename r) (de_disk d)))
       (delete id (de_releases d)) (filter (fun m => mi_release m <> id) (de_mirrors d))
       (filter (fun x : string * deployment => dp_release_id x.2 <> id) (de_deployments d))
       (filter (fun a => as_release_id a <> id /\
                         dp_release_id <$> de_deployments d !! as_deployment_id a <> Some id) (de_assignments d))
       (de_next d))
  end.

Definition latest_in_channel (channel : string) (d : depot) : option firmware_release :=
  if in_strs channel ALLOWED_CHANNELS
  then head (order_by_desc fr_created_at
         (filter (fun r => fr_channel r = channel) ((map_to_list (de_releases d)).*2)))
  else None.
(** [GET /api/v1/firmware/<channel>/latest]. *)
Inductive pointer_answer := PointerRefused (status : Z) | RedirectTo (url : string).
Definition channel_latest_redirect (channel : string) (d : depot) : pointer_answer :=
  if negb (in_strs channel ALLOWED_CHANNELS) then PointerRefused 400
  else match latest_in_channel channel d with
       | None => PointerRefused 404
       | Some r => RedirectTo (channel_url channel (fr_filename r))
       end.
End firmware.
