(* ===== verification/FirmwareEndpoints.v ===== *)
(** * The firmware pages and API ([blueprints/admin/firmware.py])

    Uploads, scans, deletions and deployments over the release tables ([FirmwareStore]) and
    the estate, whose devices a deployment reaches and whose log it writes.  The notes a page
    keeps in the browser's session are left out. *)

From S2P Require Import Prelude PyFloat Commands Devices Deployments RuntimeSettings TenantScope Enrollment.
From S2P Require Import RoleBindings Identity Accounts Invitations ConfigBackup ConfigRestore RuleForms.
From S2P Require Import AuditLog Estate EstateEndpoints FirmwareStore.
Local Open Scope string_scope.
Local Open Scope list_scope.
Local Open Scope Z_scope.

(** A multipart upload: the file part, if there is one, the fields, the version of the query
    string. *)
Record upload := Upload { ul_file : option string; ul_form : form; ul_query : option string; ul_copy_ok : bool }.
(** The body of a deployment: text where the service takes text. *)
Record deployment_body := DeploymentBody {
  db_release_id : json; db_version : json; db_target_type : json; db_target_id : option string;
  db_channel : option string; db_force : json; db_level : json; db_typed : json
}.
Definition works := (depot * estate)%type.

Section endpoints.
Context (ulid : nat -> string) (sha256 : string -> string) (strftime : time -> string) (fs_accepts : string -> bool).
Context (public_base : string) (audit_accepts : audit_row -> bool) (remote_addr : option string).
#[local] Abbreviation upload_release := (upload_release ulid sha256 strftime fs_accepts public_base).
#[local] Abbreviation audited := (audited audit_accepts remote_addr).

(** [(form.get("channel") or "dev").strip()]. *)
Definition upload_channel (f : form) : string := strip (or_str (form_get f "channel") "dev").

(** ** Uploads *)

Definition firmware_upload_submit (o : operator) (u : upload) (created now : time) (w : works)
    : outcome estate_answer * works :=
  match ul_file u with
  | None => (Ret (EstateEndpoints.Refused 400), w)
  | Some content =>
    let f := ul_form u in
    let '(r, d) := upload_release content (field f "version") (upload_channel f) (opt_field f "sha256")
                     (opt_field f "release_notes") (Some (op_id o)) (ul_copy_ok u) created now w.1 in
    (match r with Ret _ | Raise (ValueError _) => Ret Back | Raise x => Raise x end, (d, w.2))
  end.
Definition create_firmware_release (o : operator) (u : upload) (created now : time) (w : works)
    : outcome estate_answer * works :=
  match ul_file u with
  | None => (Ret (EstateEndpoints.Refused 400), w)
  | Some content =>
    let f := ul_form u in
    let notes := match form_get f "release_notes" with Some s => if is_empty s then None else Some s | None => None end in
    let version := strip (or_str (form_get f "version") (or_str (ul_query u) EmptyString)) in
    let '(r, d) := upload_release content version (upload_channel f) (opt_field f "sha256")
                     notes (Some (op_id o)) (ul_copy_ok u) created now w.1 in
    (match r with
     | Ret out => Ret (Answered 201 out)
     | Raise (ValueError _) => Ret (EstateEndpoints.Refused 400)
     | Raise x => Raise x
     end, (d, w.2))
  end.

(** ** Scans *)

Definition rehashed_details (x : rehashed) : pydict :=
  [("filename", JStr (rh_filename x)); ("channel", JStr (rh_channel x)); ("old_sha256", JStr (rh_old_sha256 x));
   ("new_sha256", JStr (rh_new_sha256 x)); ("old_size_bytes", JInt (rh_old_size x)); ("new_size_bytes", JInt (rh_new_size x))].
Definition audit_updates (o : operator) (via : string) (l : list rehashed) (now : time) (e : estate) : estate :=
  foldl (fun e x => audited o "firmware.content_updated" "firmware_release" (rh_id x)
                      (rehashed_details x ++ [("via", JStr via)]) now e) e l.
Definition scan_with (o : operator) (via : string) (details : scan -> pydict) (now : time) (w : works) : scan * works :=
  let '(s, d) := discover_on_disk_releases ulid sha256 public_base (Some (op_id o)) now w.1 in
  (s, (d, audit_updates o via (sn_updated s) now (audited o "firmware.scanned" "firmware_release" EmptyString (details s) now w.2))).
Definition firmware_scan_submit (o : operator) (now : time) (w : works) : outcome estate_answer * works :=
  let '(s, w) := scan_with o "ui" (fun s =>
    [("discovered_count", jcount (length (sn_discovered s)));
     ("discovered_versions", jstrs ((fun x : string * firmware_release => fr_version x.2) <$> sn_discovered s));
     ("updated_count", jcount (length (sn_updated s))); ("updated_filenames", jstrs (rh_filename <$> sn_updated s));
     ("skipped_existing", jcount (sn_skipped_existing s)); ("errors", jcount (length (sn_errors s)))]) now w in
  (Ret Back, w).
Definition firmware_scan_api (o : operator) (now : time) (w : works) : outcome estate_answer * works :=
  let '(s, w) := scan_with o "api" (fun s =>
    [("discovered_count", jcount (length (sn_discovered s))); ("updated_count", jcount (length (sn_updated s)));
     ("via", JStr "api")]) now w in
  (Ret (Answered 200 (JObj
    [("discovered", JList ((fun x : string * firmware_release =>
        JObj [("id", JStr x.1); ("version", JStr (fr_version x.2)); ("channel", JStr (fr_channel x.2));
              ("filename", JStr (fr_filename x.2)); ("size_bytes", JInt (fr_size x.2)); ("sha256", JStr (fr_sha256 x.2))])
        <$> sn_discovered s));
     ("updated", JList ((fun x => JObj (("id", JStr (rh_id x)) :: rehashed_details x)) <$> sn_updated s));
     ("skipped_existing", jcount (sn_skipped_existing s)); ("skipped_pointer", jcount (sn_skipped_pointer s));
     ("errors", JList ((fun x : string * string => JObj [("path", JStr (x.1 ++ "/" ++ x.2))]) <$> sn_errors s))])), w).

(** ** Deletion *)

Definition firmware_delete_submit (id : string) (w : works) : outcome estate_answer * works :=
  (Ret Back, ((delete_release id w.1).2, w.2)).
Definition delete_firmware_release (id : string) (w : works) : outcome estate_answer * works :=
  let '(known, d) := delete_release id w.1 in
  (Ret (if known then Answered 200 (JObj [("deleted", JBool true)]) else EstateEndpoints.Refused 404), (d, w.2)).

(** ** Deployments *)

(** The devices the confirmation is asked for: one, but for a group and for all devices. *)
Definition deployment_count (target_type : string) (target_id : option string) (e : estate) : nat :=
  if String.eqb target_type "all_devices" then count_all_active_devices e
  else if String.eqb target_type "group" && truthy_str target_id then count_group_members (or_str target_id EmptyString) e
  else 1.
Definition audit_deployment (o : operator) (release_id target_type : string) (target_id : option string) (n : nat)
    (force : bool) (now : time) : estate -> estate :=
  audited o "firmware.mass_deployment_issued" "firmware_deployment" release_id
    [("release_id", JStr release_id); ("target_type", JStr target_type); ("target_id", ojson target_id);
     ("target_count", jcount n); ("force", JBool force); ("confirmation_level", JStr (required_level n))] now.
Definition deploy (o : operator) (release_id target_type : string) (target_id channel : option string) (force : bool)
    (now flush_at : time) (w : works) : outcome (string * nat) * works :=
  let '(r, fw) := create_deployment ulid release_id target_type target_id channel force (Some (op_id o)) now flush_at
                    (fleet_of (op_caller o) w.2) (firmware_of w.1) in
  match r with
  | Raise x => (Raise x, w)
  | Ret (id, targets) =>
    (Ret (id, targets), (with_rollouts fw w.1,
       audit_deployment o release_id target_type target_id (deployment_count target_type target_id w.2) force flush_at w.2))
  end.

Definition firmware_deploy_submit (o : operator) (f : form) (now flush_at : time) (w : works) : outcome estate_answer * works :=
  let release_id := field f "release_id" in
  let target_type := field f "target_type" in
  let target_id := if String.eqb target_type "all_devices" then None else opt_field f "target_id" in
  if is_empty release_id || is_empty target_type then (Ret (EstateEndpoints.Refused 400), w)
  else
    let n := deployment_count target_type target_id w.2 in
    if negb (confirmed_form n "deploy_firmware" f) then (Ret (Unconfirmed n (required_level n)), w)
    else
      let '(r, w) := deploy o release_id target_type target_id None
                       (bool_decide (is_Some (form_get f "force"))) now flush_at w in
      (match r with
       | Ret _ => Ret Back
       | Raise (LookupError _) | Raise (ValueError _) => Ret (EstateEndpoints.Refused 400)
       | Raise x => Raise x
       end, w).

Definition create_firmware_deployment (o : operator) (b : deployment_body) (now flush_at : time) (w : works)
    : outcome estate_answer * works :=
  match release_id ← strip_or_empty (jor (db_release_id b) (db_version b)); Ret release_id with
  | Raise x => (Raise x, w)
  | Ret release_id =>
    if is_empty release_id then (Ret (EstateEndpoints.Refused 400), w)
    else match strip_or_empty (db_target_type b) with
    | Raise x => (Raise x, w)
    | Ret target_type =>
      let n := deployment_count target_type (db_target_id b) w.2 in
      if negb (confirmed n (JStr "deploy_firmware") (db_level b) (db_typed b)) then (Ret (Unconfirmed n (required_level n)), w)
      else
        let '(r, w) := deploy o release_id target_type (db_target_id b) (db_channel b) (truthy (db_force b)) now flush_at w in
        (match r with
         | Ret (id, targets) =>
           Ret (Answered 201 (JObj [("id", JStr id); ("counts", JObj [("target_devices", jcount targets)]); ("target_count", jcount n)]))
         | Raise (LookupError _) => Ret (EstateEndpoints.Refused 404)
         | Raise (ValueError _) => Ret (EstateEndpoints.Refused 400)
         | Raise x => Raise x
         end, w)
    end
  end.

(** ** The routes *)

Inductive firmware_request :=
  | UploadForm (u : upload) | UploadApi (u : upload) | ScanForm | ScanApi
  | DeleteReleaseForm (id : string) | DeleteReleaseApi (id : string)
  | DeployForm (f : form) | DeployApi (b : deployment_body).
Definition firmware_roles (q : firmware_request) : list string :=
  match q with
  | UploadApi _ | DeleteReleaseApi _ | DeployApi _ => ADMIN_AND_UP
  | _ => ANY_ROLE
  end.
Definition handle_firmware (q : firmware_request) (o : operator) (now later : time) : works -> outcome estate_answer * works :=
  match q with
  | UploadForm u => firmware_upload_submit o u now later
  | UploadApi u => create_firmware_release o u now later
  | ScanForm => firmware_scan_submit o now
  | ScanApi => firmware_scan_api o now
  | DeleteReleaseForm id => firmware_delete_submit id
  | DeleteReleaseApi id => delete_firmware_release id
  | DeployForm f => firmware_deploy_submit o f now later
  | DeployApi b => create_firmware_deployment o b now later
  end.
Definition serve_firmware (jwt_decode : time -> string -> outcome pydict) (mode : enforce) (q : firmware_request)
    (rq : request) (now later : time) (g : idb) (w : works) : outcome estate_answer * works :=
  match (operator_call jwt_decode mode (firmware_roles q) (fun status => (Ret (EstateEndpoints.Refused status), w))
           (fun c me u g => (Ret (handle_firmware q (Operator c me (us_role u) (us_email u)) now later w), g)) rq now g).1 with
  | Ret answer => answer
  | Raise x => (Raise x, w)
  end.
End endpoints.
