(* ===== verification/FirmwareFacts.v ===== *)
(** * The firmware tables and the directory

    [depot_ok]: versions are unique in a channel; mirrors, deployments and assignments belong
    to releases that exist, a mirror carrying its release's hash; a device has one active
    assignment.  [images_ok]: every release names a file of the directory that has its hash
    and size.  Each operation of [FirmwareStore] preserves the first whatever happens to the
    directory; the second holds while only the program writes there. *)

From S2P Require Import Prelude Commands Devices Deployments Identity Announcements Enrollment FirmwareStore.
Local Open Scope string_scope.
Local Open Scope list_scope.
Local Open Scope Z_scope.

Section tables.
Context (ulid : nat -> string) `{!Inj (=) (=) ulid} (sha256 : string -> string) (strftime : time -> string).
Context (fs_accepts : string -> bool) (public_base : string).

Record depot_ok (d : depot) : Prop := {
  do_drawn i r : de_releases d !! i = Some r -> exists n, (n < de_next d)%nat /\ i = new_id ulid "fwr" n;
  do_unique i j r s : de_releases d !! i = Some r -> de_releases d !! j = Some s ->
    fr_version r = fr_version s -> fr_channel r = fr_channel s -> i = j;
  do_mirrors m : m ∈ de_mirrors d ->
    exists r, de_releases d !! mi_release m = Some r /\ mi_sha256 m = Some (fr_sha256 r);
  do_deployments i p : de_deployments d !! i = Some p ->
    is_Some (de_releases d !! dp_release_id p) /\ exists n, (n < de_next d)%nat /\ i = new_id ulid "fwd" n;
  do_assignments a : a ∈ de_assignments d ->
    exists p, de_deployments d !! as_deployment_id a = Some p /\ dp_release_id p = as_release_id a;
  do_rollouts : fw_ok ulid (firmware_of d)
}.

(** A release's id is drawn after every id in the table. *)
Lemma release_id_fresh d : depot_ok d -> de_releases d !! new_id ulid "fwr" (de_next d) = None.
Proof.
  intros Hd. destruct (de_releases d !! _) as [r|] eqn:E; [|done].
  apply (do_drawn _ Hd) in E as (n & Hn & E). apply (new_id_inj ulid) in E. lia.
Qed.

Lemma new_mirrors_elem n id sha now urls m : m ∈ new_mirrors ulid n id sha now urls ->
  mi_release m = id /\ mi_sha256 m = Some sha.
Proof.
  revert n. induction urls as [|[k u] urls IH]; intros n; [by intros []%not_elem_of_nil|].
  cbn. intros [->|Hm]%elem_of_cons; [done|by eapply IH].
Qed.

Lemma fw_ok_next w n : (fw_next w <= n)%nat -> fw_ok ulid w ->
  fw_ok ulid (Firmware (fw_releases w) (fw_deployments w) (fw_assignments w) n).
Proof.
  intros Hn [H1 H2 H3]. split; cbn; [done| |done]. intros a (k & Hk & E)%H2. exists k. split; [lia|done].
Qed.

Lemma fw_ok_same w w' : fw_assignments w = fw_assignments w' -> fw_next w = fw_next w' -> fw_ok ulid w -> fw_ok ulid w'.
Proof. intros E1 E2 [H1 H2 H3]. split; rewrite <- ?E1, <- ?E2; done. Qed.

Lemma register_depot_ok r urls now d id d' :
  register_release ulid r urls now d = Registered id d' -> depot_ok d -> depot_ok d'.
Proof.
  unfold register_release. destruct (negb (release_fits r && _)); [done|].
  destruct (version_free _ _ _) eqn:Ev; [|done]. intros [= <- <-] Hd.
  unfold version_free in Ev. rewrite free_in_spec in Ev.
  assert (Hv : forall j s, de_releases d !! j = Some s -> fr_version s = fr_version r -> fr_channel s = fr_channel r -> False).
  { intros j s Hs E1 E2. apply Ev in Hs. by rewrite E1, E2, !String.eqb_refl in Hs. }
  pose proof (release_id_fresh d Hd) as Hf. pose proof Hd as [H1 H2 H3 H4 H5 H6].
  assert (Hin : forall j s, de_releases d !! j = Some s -> <[new_id ulid "fwr" (de_next d) := r]> (de_releases d) !! j = Some s).
  { intros j s Hs. rewrite lookup_insert_ne; [done|congruence]. }
  split; cbn.
  - intros i s [[<- <-]|[_ Hs]]%lookup_insert_Some; [exists (de_next d); split; [lia|done]|].
    apply H1 in Hs as (n & ? & ?). exists n. split; [lia|done].
  - intros i j x y [[<- <-]|[_ Hx]]%lookup_insert_Some [[<- <-]|[_ Hy]]%lookup_insert_Some; eauto.
    + intros. exfalso. eauto.
    + intros. exfalso. eauto.
  - intros m [Hm|Hm]%elem_of_app.
    + apply H3 in Hm as (s & Hs & ?). eauto.
    + apply new_mirrors_elem in Hm as [-> ->]. exists r. by rewrite lookup_insert_eq.
  - intros i p Hp. apply H4 in Hp as [[s Hs] (n & ? & ?)]. split; [eauto|]. exists n. split; [lia|done].
  - intros a Ha. by apply H5.
  - eapply fw_ok_same, fw_ok_next, H6; cbn; [done|reflexivity|lia].
Qed.

Lemma with_disk_depot_ok f d : depot_ok d -> depot_ok (with_disk f d).
Proof. intros [H1 H2 H3 H4 H5 H6]. split; done. Qed.

Lemma upload_depot_ok content version channel sha notes by_ copy_ok created now d : depot_ok d ->
  depot_ok (upload_release ulid sha256 strftime fs_accepts public_base content version channel sha notes by_ copy_ok created now d).2.
Proof.
  intros Hd. unfold upload_release. do 2 (case_match; [done|]). cbv zeta.
  do 4 (case_match; [done|]).
  assert (Hd1 : depot_ok (let d := with_disk (insert ("", final_name (strip version) channel) content) d in
    if copy_ok then with_disk (insert (channel, final_name (strip version) channel) content) d else d))
    by (destruct copy_ok; by repeat apply with_disk_depot_ok).
  destruct (register_release _ _ _ _ _) as [id d1| |x] eqn:E; cbn [snd]; [|by apply with_disk_depot_ok|done].
  by eapply register_depot_ok.
Qed.

Lemma rehash_depot_ok id r sha size now d : de_releases d !! id = Some r -> depot_ok d ->
  depot_ok (Depot (de_disk d) (<[id := rehash r sha size]> (de_releases d)) (rehash_mirror id sha now <$> de_mirrors d)
              (de_deployments d) (de_assignments d) (de_next d)).
Proof.
  intros Hr [H1 H2 H3 H4 H5 H6].
  assert (Hback : forall j s, <[id := rehash r sha size]> (de_releases d) !! j = Some s ->
    exists s', de_releases d !! j = Some s' /\ fr_version s' = fr_version s /\ fr_channel s' = fr_channel s).
  { intros j s [[<- <-]|[_ Hs]]%lookup_insert_Some; eauto. }
  assert (Hin : forall j, is_Some (de_releases d !! j) -> is_Some (<[id := rehash r sha size]> (de_releases d) !! j)).
  { intros j [s Hs]. destruct (decide (id = j)) as [->|]; [rewrite lookup_insert_eq|rewrite lookup_insert_ne by done]; eauto. }
  split; cbn.
  - intros i s (s' & Hs & _)%Hback. by eapply H1.
  - intros i j x y (x' & Hx & Ex & Fx)%Hback (y' & Hy & Ey & Fy)%Hback E F.
    eapply H2; [exact Hx|exact Hy|by rewrite Ex, Ey|by rewrite Fx, Fy].
  - intros m (m' & -> & Hm)%list_elem_of_fmap. unfold rehash_mirror. destruct (String.eqb_spec (mi_release m') id) as [<-|Hn]; cbn.
    + exists (rehash r sha size). by rewrite lookup_insert_eq.
    + rewrite lookup_insert_ne by done. by apply H3.
  - intros i p Hp. apply H4 in Hp as [? ?]. auto.
  - done.
  - eapply fw_ok_same, H6; done.
Qed.

Lemma scan_file_depot_ok existing by_ now channel name content s d : depot_ok d ->
  depot_ok (scan_file ulid sha256 public_base existing by_ now channel name content (s, d)).2.
Proof.
  intros Hd. unfold scan_file. destruct (String.eqb name _); [done|]. destruct (negb _); [done|]. cbv zeta.
  destruct (existing !! name) as [[id old]|].
  - destruct (_ && _); [done|]. destruct (de_releases d !! id) as [r|] eqn:E; [|done].
    destruct (_ <=? _); [|done]. by apply rehash_depot_ok.
  - destruct (register_release _ _ _ _ _) as [id d1| |x] eqn:E; try done. by eapply register_depot_ok.
Qed.

(** A property of the depot that the scan of each file keeps. *)
Lemma discover_ind (P : depot -> Prop) by_ now d :
  P d ->
  (forall ch name content s d1, ch ∈ ALLOWED_CHANNELS -> de_disk d !! (ch, name) = Some content -> P d1 ->
     P (scan_file ulid sha256 public_base (existing_index (de_releases d)) by_ now ch name content (s, d1)).2) ->
  P (discover_on_disk_releases ulid sha256 public_base by_ now d).2.
Proof.
  intros H0 Hstep. unfold discover_on_disk_releases. cbv zeta.
  assert (Hin : forall ch l acc, ch ∈ ALLOWED_CHANNELS -> (forall nc, nc ∈ l -> de_disk d !! (ch, nc.1) = Some nc.2) -> P acc.2 ->
    P (foldl (fun acc (nc : string * string) => scan_file ulid sha256 public_base (existing_index (de_releases d)) by_ now ch nc.1 nc.2 acc) acc l).2).
  { intros ch l. induction l as [|[nm c] l IH]; intros [s d1] Hch Hl Hacc; [done|]. cbn [foldl].
    apply IH; [done|intros; apply Hl; by right|]. apply Hstep; [done|apply (Hl (nm, c)); left|done]. }
  assert (Hout : forall chs acc, (forall ch, ch ∈ chs -> ch ∈ ALLOWED_CHANNELS) -> P acc.2 ->
    P (foldl (fun acc ch => foldl (fun acc (nc : string * string) =>
         scan_file ulid sha256 public_base (existing_index (de_releases d)) by_ now ch nc.1 nc.2 acc) acc (channel_files ch (de_disk d))) acc chs).2).
  { intros chs. induction chs as [|ch chs IH]; intros acc Hchs Hacc; [done|]. cbn [foldl].
    apply IH; [intros; apply Hchs; by right|]. apply Hin; [apply Hchs; left| |done].
    intros nc Hnc. unfold channel_files in Hnc. rewrite merge_sort_Permutation in Hnc.
    apply list_elem_of_omap in Hnc as ([[sub nm] c] & Hk%elem_of_map_to_list & E). cbn in E.
    destruct (String.eqb_spec sub ch) as [->|]; [|done]. by injection E as <-. }
  apply Hout; done.
Qed.

Lemma discover_depot_ok by_ now d : depot_ok d ->
  depot_ok (discover_on_disk_releases ulid sha256 public_base by_ now d).2.
Proof. intros Hd. apply discover_ind; [done|]. intros. by apply scan_file_depot_ok. Qed.

Lemma delete_depot_ok id d : depot_ok d -> depot_ok (delete_release id d).2.
Proof.
  intros Hd. unfold delete_release. destruct (de_releases d !! id) as [r|] eqn:E; [|done]. cbn [snd].
  destruct Hd as [H1 H2 H3 H4 H5 H6].
  assert (Hne : forall j s, j <> id -> de_releases d !! j = Some s -> delete id (de_releases d) !! j = Some s)
    by (intros; by rewrite lookup_delete_ne).
  split; cbn.
  - intros i s [_ Hs]%lookup_delete_Some. by eapply H1.
  - intros i j x y [_ Hx]%lookup_delete_Some [_ Hy]%lookup_delete_Some. by eapply H2.
  - intros m [Hm Hin]%list_elem_of_filter. apply H3 in Hin as (s & Hs & ?). eauto.
  - intros i p [Hp Hne']%map_lookup_filter_Some. cbn in Hne'. apply H4 in Hp as [[s Hs] ?]. eauto.
  - intros a [[Ha1 Ha2] Hin]%list_elem_of_filter. apply H5 in Hin as (p & Hp & E2). exists p. split; [|done].
    apply map_lookup_filter_Some. split; [done|]. cbn. congruence.
  - match goal with |- context [filter ?P (de_assignments d)] => pose proof (filter_ok ulid P _ H6) as Hf end.
    eapply fw_ok_same; [| |exact Hf]; reflexivity.
Qed.

(** ** Operations on the rollouts *)

(** Deployments and assignments after an operation of [Deployments], over the same releases. *)
Record rollout_ok (d : depot) (w : firmware) : Prop := {
  ro_next : (de_next d <= fw_next w)%nat;
  ro_deployments i p : fw_deployments w !! i = Some p ->
    is_Some (de_releases d !! dp_release_id p) /\ exists n, (n < fw_next w)%nat /\ i = new_id ulid "fwd" n;
  ro_assignments a : a ∈ fw_assignments w ->
    exists p, fw_deployments w !! as_deployment_id a = Some p /\ dp_release_id p = as_release_id a;
  ro_ok : fw_ok ulid w
}.
Lemma with_rollouts_depot_ok d w : rollout_ok d w -> depot_ok d -> depot_ok (with_rollouts w d).
Proof.
  intros [R1 R2 R3 R4] [H1 H2 H3 H4 H5 H6]. split; cbn; [|done..|by eapply fw_ok_same, R4].
  intros i r Hr. apply H1 in Hr as (n & ? & ?). exists n. split; [lia|done].
Qed.

(** The assignments changed row by row, each keeping what it refers to. *)
Lemma same_references_ok d w : depot_ok d -> fw_deployments w = de_deployments d -> fw_next w = de_next d ->
  (forall a, a ∈ fw_assignments w -> exists b, b ∈ de_assignments d /\
     as_deployment_id a = as_deployment_id b /\ as_release_id a = as_release_id b) ->
  fw_ok ulid w -> depot_ok (with_rollouts w d).
Proof.
  intros Hd E1 E2 Ha Hw. apply with_rollouts_depot_ok; [|done]. split; rewrite ?E1, ?E2; [done| |..|done].
  - intros i p Hp. by apply (do_deployments _ Hd).
  - intros a (b & Hb & -> & ->)%Ha. by apply (do_assignments _ Hd).
Qed.

Lemma updated_references a b l : a ∈ l -> as_deployment_id b = as_deployment_id a -> as_release_id b = as_release_id a ->
  forall x, x ∈ update_assignment b l -> exists y, y ∈ l /\ as_deployment_id x = as_deployment_id y /\ as_release_id x = as_release_id y.
Proof.
  intros Ha E1 E2 x (y & -> & Hy)%list_elem_of_fmap. destruct (String.eqb _ _); [exists a|exists y]; done.
Qed.

Lemma fetch_depot_ok id now d : depot_ok d -> depot_ok (with_rollouts (firmware_assignment id now (firmware_of d)).2 d).
Proof.
  intros Hd. pose proof (fw_step_ok ulid _ _ (fws_fetch ulid id now (firmware_of d)) (do_rollouts _ Hd)) as Hok.
  apply same_references_ok; [done|..|done].
  - unfold firmware_assignment, mark_assignment_delivered. by repeat case_match.
  - unfold firmware_assignment, mark_assignment_delivered. by repeat case_match.
  - unfold firmware_assignment, mark_assignment_delivered. case_match; cbn [snd]; [|eauto].
    destruct (latest_where _ _) as [a|] eqn:E; [|eauto]. apply latest_where_elem in E as [E _].
    by apply (updated_references a).
Qed.

Lemma report_depot_ok id v err now d w : reconcile_assignment_reported_version id v err now (firmware_of d) = Ret w ->
  depot_ok d -> depot_ok (with_rollouts w d).
Proof.
  intros E Hd. pose proof (fw_step_ok ulid _ _ (fws_report ulid id v err now _ _ E) (do_rollouts _ Hd)) as Hok.
  unfold reconcile_assignment_reported_version in E. peel E. cbv zeta in E.
  assert (Hsame : depot_ok (with_rollouts (firmware_of d) d)).
  { apply same_references_ok; [done..|cbn; eauto|apply (do_rollouts _ Hd)]. }
  destruct (is_empty id); [by simplify_eq|].
  destruct (latest_where _ _) as [a|] eqn:El; simplify_eq; [|done].
  apply latest_where_elem in El as [El _]. apply same_references_ok; [done..| |done].
  apply (updated_references a); [done|..]; unfold reconciled; by destruct (_ || _).
Qed.

(** A device that goes takes its assignments along. *)
Definition drop_device_rollouts (id : string) (d : depot) : depot :=
  with_rollouts (with_assignments (filter (fun a => as_device_id a <> id)) (firmware_of d)) d.
Lemma drop_device_depot_ok id d : depot_ok d -> depot_ok (drop_device_rollouts id d).
Proof.
  intros Hd. apply same_references_ok; [done..| |apply filter_ok, (do_rollouts _ Hd)].
  intros a [_ Ha]%list_elem_of_filter. by exists a.
Qed.

Lemma new_assignments_refs n did rid t ids a : a ∈ new_assignments ulid n did rid t ids ->
  as_deployment_id a = did /\ as_release_id a = rid.
Proof.
  revert n. induction ids as [|i ids IH]; intros n; [by intros []%not_elem_of_nil|].
  cbn. intros [->|Ha]%elem_of_cons; [done|by eapply IH].
Qed.

Lemma create_depot_ok rid tt tid ch force by_ now at_ f d : NoDup (hub_members (fl_hub f)) -> depot_ok d ->
  depot_ok (with_rollouts (create_deployment ulid rid tt tid ch force by_ now at_ f (firmware_of d)).2 d).
Proof.
  intros Hm Hd. pose proof (create_ok ulid rid tt tid ch force by_ now at_ f _ Hm (do_rollouts _ Hd)) as Hok.
  assert (Hsame : depot_ok (with_rollouts (firmware_of d) d)).
  { apply same_references_ok; [done..|cbn; eauto|apply (do_rollouts _ Hd)]. }
  unfold create_deployment in *. destruct (negb _); [done|]. destruct (_ && _); [done|].
  destruct (fw_releases (firmware_of d) !! rid) as [r|] eqn:Er; [|done].
  destruct (target_devices tt tid f) as [ids|]; [|done]. cbn [snd] in *.
  cbn in Er. rewrite lookup_fmap in Er. apply fmap_Some in Er as (r' & Er & _).
  assert (Hfresh : de_deployments d !! new_id ulid "fwd" (de_next d) = None).
  { destruct (de_deployments d !! _) as [p|] eqn:E; [|done].
    apply (do_deployments _ Hd) in E as [_ (n & ? & E)]. apply (new_id_inj ulid) in E. lia. }
  apply with_rollouts_depot_ok; [|done]. split; [cbn; lia| | |done]; cbn.
  - intros i p [[<- <-]|[_ Hp]]%lookup_insert_Some.
    + cbn. split; [by exists r'|]. exists (de_next d). split; [lia|done].
    + apply (do_deployments _ Hd) in Hp as [? (n & ? & ?)]. split; [done|]. exists n. split; [lia|done].
  - intros a [(b & -> & Hb)%list_elem_of_fmap|Ha]%elem_of_app.
    + destruct (do_assignments _ Hd _ Hb) as (p & Hp & E). exists p.
      assert (as_deployment_id (supersede ids now b) = as_deployment_id b /\
              as_release_id (supersede ids now b) = as_release_id b) as [-> ->]
        by (unfold supersede; by destruct (_ && _)).
      split; [|done]. rewrite lookup_insert_ne; [done|congruence].
    + apply new_assignments_refs in Ha as [-> ->]. eexists. by rewrite lookup_insert_eq.
Qed.
End tables.

(** ** The images *)

Section images.
Context (ulid : nat -> string) (sha256 : string -> string) (strftime : time -> string).
Context (fs_accepts : string -> bool) (public_base : string).

(** Where a file of the directory is served. *)
Definition file_url (sub name : string) : string :=
  if is_empty sub then root_url public_base name else channel_url public_base sub name.
(** A release names a file that has its hash and size; a copy of its file is in its channel. *)
Record on_disk (t : files) (r : firmware_release) : Prop := {
  od_file : exists sub content, fr_url r = file_url sub (fr_filename r) /\ t !! (sub, fr_filename r) = Some content /\
    content <> EmptyString /\ fr_sha256 r = sha256 content /\ fr_size r = size_of content;
  od_channel ch : ch <> EmptyString -> is_Some (t !! (ch, fr_filename r)) -> ch = fr_channel r
}.
Record images_ok (d : depot) : Prop := {
  io_release i r : de_releases d !! i = Some r -> on_disk (de_disk d) r;
  io_names i j r s : de_releases d !! i = Some r -> de_releases d !! j = Some s -> fr_filename r = fr_filename s -> i = j;
  io_copy ch name content : de_disk d !! (ch, name) = Some content -> de_disk d !! ("", name) = Some content;
  io_once ch ch' name : ch <> EmptyString -> ch' <> EmptyString ->
    is_Some (de_disk d !! (ch, name)) -> is_Some (de_disk d !! (ch', name)) -> ch = ch';
  io_nonempty k content : de_disk d !! k = Some content -> content <> EmptyString
}.

Lemma images_same d d' : de_disk d = de_disk d' -> de_releases d = de_releases d' -> images_ok d -> images_ok d'.
Proof. intros E1 E2 [H1 H2 H3 H4 H5]. split; by rewrite <- ?E1, <- ?E2. Qed.

Lemma no_root_no_file d ch name : images_ok d -> de_disk d !! ("", name) = None -> de_disk d !! (ch, name) = None.
Proof. intros Hd Hn. destruct (de_disk d !! (ch, name)) eqn:E; [|done]. apply (io_copy _ Hd) in E. congruence. Qed.

Lemma no_root_no_release d i r : images_ok d -> de_releases d !! i = Some r -> de_disk d !! ("", fr_filename r) <> None.
Proof. intros Hd Hr E. destruct (io_release _ Hd _ _ Hr) as [(sub & c & _ & Hc & _) _]. by rewrite (no_root_no_file d) in Hc. Qed.

(** The disk once an image is written: the file and, when the copy succeeds, its copy. *)
Definition published (copy_ok : bool) (channel name content : string) (d : depot) : depot :=
  let d := with_disk (insert ("", name) content) d in
  if copy_ok then with_disk (insert (channel, name) content) d else d.

Lemma published_lookup copy_ok channel name content d k :
  de_disk (published copy_ok channel name content d) !! k =
    if decide (k = ("", name) \/ copy_ok = true /\ k = (channel, name)) then Some content else de_disk d !! k.
Proof.
  unfold published. destruct copy_ok; cbn; rewrite ?lookup_insert; repeat case_decide; try done; exfalso; intuition congruence.
Qed.
Lemma published_releases copy_ok channel name content d : de_releases (published copy_ok channel name content d) = de_releases d.
Proof. by destruct copy_ok. Qed.

Lemma published_ok copy_ok channel name content d : channel <> EmptyString -> content <> EmptyString -> de_disk d !! ("", name) = None ->
  images_ok d -> images_ok (published copy_ok channel name content d).
Proof.
  intros Hc Hne Hn Hd. pose proof Hd as [H1 H2 H3 H4 H5].
  assert (Hnew : forall ch, de_disk d !! (ch, name) = None) by (intros; by apply no_root_no_file).
  split; rewrite ?published_releases; [|exact H2|..].
  - intros i r Hr. pose proof (no_root_no_release d i r Hd Hr) as Hroot.
    assert (Hf : fr_filename r <> name) by congruence.
    assert (E : forall ch, de_disk (published copy_ok channel name content d) !! (ch, fr_filename r) = de_disk d !! (ch, fr_filename r))
      by (intros; rewrite published_lookup, decide_False; [done|naive_solver]).
    destruct (H1 i r Hr) as [(sub & c & ? & ? & ?) Hch]. split; [exists sub, c; by rewrite E|intros ch; rewrite E; apply Hch].
  - intros ch nm c. rewrite !published_lookup. destruct (decide (nm = name)) as [->|Hnm].
    + rewrite Hnew. rewrite (decide_True (P := ("", name) = ("", name) \/ _)) by (by left). by case_decide.
    + rewrite !decide_False by naive_solver. apply H3.
  - intros ch ch' nm E1 E2. rewrite !published_lookup. destruct (decide (nm = name)) as [->|Hnm].
    + rewrite !Hnew. do 2 case_decide; naive_solver.
    + rewrite !decide_False by naive_solver. by apply H4.
  - intros k c. rewrite published_lookup. case_decide; [by intros [= <-]|apply H5].
Qed.

Lemma registered_is r urls now d id d' : register_release ulid r urls now d = Registered id d' ->
  de_disk d' = de_disk d /\ de_releases d' = <[id := r]> (de_releases d) /\
  version_free (fr_version r) (fr_channel r) (de_releases d) = true.
Proof.
  unfold register_release. destruct (negb (release_fits r && _)); [done|].
  destruct (version_free _ _ _); [|done]. by intros [= <- <-].
Qed.

Lemma register_images r urls now d id d' : register_release ulid r urls now d = Registered id d' ->
  on_disk (de_disk d) r -> (forall j s, de_releases d !! j = Some s -> fr_filename s <> fr_filename r) ->
  images_ok d -> images_ok d'.
Proof.
  intros (E1 & E2 & _)%registered_is Hr Hfree [H1 H2 H3 H4 H5]. split; rewrite ?E1, ?E2; [| |done..].
  - intros i s [[<- <-]|[_ Hs]]%lookup_insert_Some; eauto.
  - intros i j x y [[<- <-]|[_ Hx]]%lookup_insert_Some [[<- <-]|[_ Hy]]%lookup_insert_Some E; [done|..|eauto].
    + by destruct (Hfree j y Hy).
    + by destruct (Hfree i x Hx).
Qed.

Lemma size_nonempty s : (size_of s =? 0) = false -> s <> EmptyString.
Proof. by intros H ->. Qed.

Lemma allowed_nonempty ch : ch ∈ ALLOWED_CHANNELS -> ch <> EmptyString.
Proof. unfold ALLOWED_CHANNELS. intros H ->. rewrite !elem_of_cons in H. naive_solver (by eapply not_elem_of_nil). Qed.

Lemma upload_images content version channel sha notes by_ copy_ok created now d : images_ok d ->
  images_ok (upload_release ulid sha256 strftime fs_accepts public_base content version channel sha notes by_ copy_ok created now d).2.
Proof.
  intros Hd. unfold upload_release. destruct (in_strs channel ALLOWED_CHANNELS) eqn:Ech; [|done].
  apply in_strs_spec, allowed_nonempty in Ech. cbn [negb]. do 2 (case_match; [done|]). destruct (Z.eqb (size_of content) 0) eqn:Esz; [done|].
  destruct (file_exists _ d) eqn:Ef; [done|]. case_match; [done|]. cbv zeta. set (name := final_name (strip version) channel).
  apply bool_decide_eq_false, eq_None_not_Some in Ef. change (de_disk d !! ("", name) = None) in Ef.
  assert (Hp : images_ok (published copy_ok channel name content d)) by (apply published_ok; [done|by apply size_nonempty|done..]).
  destruct (register_release _ _ _ _ _) as [id d1| |x] eqn:E; cbn [snd].
  - eapply register_images; [exact E| | |exact Hp].
    + split; cbn.
      * exists "", content. change (de_disk (if copy_ok then _ else _)) with (de_disk (published copy_ok channel name content d)).
        rewrite published_lookup, decide_True by (by left). split_and!; try done. by apply size_nonempty.
      * intros ch Hch. change (de_disk (if copy_ok then _ else _)) with (de_disk (published copy_ok channel name content d)).
        rewrite published_lookup, (no_root_no_file d) by done. case_decide; [naive_solver|by intros []].
    + intros j s. change (de_releases (if copy_ok then _ else _)) with (de_releases (published copy_ok channel name content d)).
      rewrite published_releases. intros Hs. pose proof (no_root_no_release d j s Hd Hs). cbn. congruence.
  - eapply images_same; [| |exact Hd]; [|by destruct copy_ok].
    change (if copy_ok then _ else _) with (published copy_ok channel name content d). cbn.
    apply map_eq. intros [ch nm]. rewrite !lookup_delete, published_lookup.
    repeat case_decide; simplify_eq; try done; try (by apply no_root_no_file). exfalso; intuition congruence.
  - exact Hp.
Qed.

(** Within a scan that began at [d0]: the rows it added carry the version of their file. *)
Record scanning (d0 d : depot) : Prop := {
  sg_ok : images_ok d;
  sg_disk : de_disk d = de_disk d0;
  sg_new i r : de_releases d !! i = Some r ->
    de_releases d0 !! i = Some r \/ fr_version r = scanned_version (fr_filename r) (fr_channel r)
}.

Lemma existing_some t name id r : existing_index t !! name = Some (id, r) -> t !! id = Some r /\ fr_filename r = name.
Proof.
  unfold existing_index. intros H%elem_of_list_to_map_2. apply elem_of_reverse, list_elem_of_fmap in H as ([i x] & E & H).
  apply elem_of_map_to_list in H. by simplify_eq.
Qed.
Lemma existing_none t name i r : existing_index t !! name = None -> t !! i = Some r -> fr_filename r <> name.
Proof.
  unfold existing_index. intros H%not_elem_of_list_to_map Hr E. apply H. apply list_elem_of_fmap.
  exists (name, (i, r)). split; [done|]. apply elem_of_reverse, list_elem_of_fmap. exists (i, r).
  split; [by rewrite <- E|]. by apply elem_of_map_to_list.
Qed.

Lemma file_content d i r sub content : images_ok d -> de_releases d !! i = Some r ->
  de_disk d !! (sub, fr_filename r) = Some content -> fr_sha256 r = sha256 content /\ fr_size r = size_of content.
Proof.
  intros Hd Hr Hc. destruct (io_release _ Hd _ _ Hr) as [(sub' & c & _ & Hc' & _ & H) _].
  apply (io_copy _ Hd) in Hc, Hc'. by simplify_eq.
Qed.

Lemma scan_file_images d0 by_ now ch name content s d : images_ok d0 ->
  ch ∈ ALLOWED_CHANNELS -> de_disk d0 !! (ch, name) = Some content -> scanning d0 d ->
  scanning d0 (scan_file ulid sha256 public_base (existing_index (de_releases d0)) by_ now ch name content (s, d)).2.
Proof.
  intros H0 Hch%allowed_nonempty Hc Hd. unfold scan_file. destruct (String.eqb name _); [done|].
  destruct (negb _); [done|]. cbv zeta. destruct (existing_index (de_releases d0) !! name) as [[id old]|] eqn:Ex.
  - apply existing_some in Ex as [Hold <-]. destruct (file_content d0 id old ch content H0 Hold Hc) as [-> ->].
    by rewrite String.eqb_refl, Z.eqb_refl.
  - destruct (register_release _ _ _ _ _) as [id d1| |x] eqn:E; try done. cbn [snd].
    pose proof Hd as [S1 S2 S3].
    pose proof (registered_is _ _ _ _ _ _ E) as (E1 & E2 & Hfree). cbn [fr_version fr_channel] in Hfree.
    unfold version_free in Hfree. rewrite free_in_spec in Hfree.
    assert (Hnames : forall j r, de_releases d !! j = Some r -> fr_filename r <> name).
    { intros j r Hj <-. destruct (S3 j r Hj) as [Hj0|Hv]; [by eapply existing_none|].
      assert (Ec : ch = fr_channel r).
      { apply (io_release _ S1 j r Hj); [done|]. rewrite S2. by exists content. }
      specialize (Hfree j r Hj). cbv beta in Hfree. by rewrite Hv, Ec, !String.eqb_refl in Hfree. }
    split.
    + eapply register_images; [exact E| |exact Hnames|done]. rewrite S2. split; cbn.
      * exists ch, content. unfold file_url. destruct ch; [done|]. split_and!; try done. by eapply H0.
      * intros ch' Hch' Hs. apply (io_once _ H0 ch' ch name); [done|done|done|by exists content].
    + by rewrite E1.
    + rewrite E2. intros i r [[<- <-]|[_ Hr]]%lookup_insert_Some; [by right|by apply S3].
Qed.

Lemma delete_images id d : images_ok d -> images_ok (delete_release id d).2.
Proof.
  intros Hd. unfold delete_release. destruct (de_releases d !! id) as [r|] eqn:Er; [|done]. cbn [snd].
  pose proof Hd as [H1 H2 H3 H4 H5]. set (t := delete (fr_channel r, fr_filename r) (delete ("", fr_filename r) (de_disk d))).
  assert (Hother : forall ch nm, nm <> fr_filename r -> t !! (ch, nm) = de_disk d !! (ch, nm))
    by (intros; unfold t; rewrite !lookup_delete_ne; naive_solver).
  assert (Hgone : forall ch, t !! (ch, fr_filename r) = None).
  { intros ch. unfold t. rewrite !lookup_delete. repeat case_decide; try done.
    destruct (de_disk d !! (ch, fr_filename r)) as [c|] eqn:E; [|done]. exfalso.
    destruct (decide (ch = "")) as [->|Hn]; [naive_solver|].
    assert (ch = fr_channel r) as -> by (apply (H1 id r Er); [done|by exists c]). naive_solver. }
  split; cbn; fold t.
  - intros i s [Hi Hs]%lookup_delete_Some. assert (Hf : fr_filename s <> fr_filename r) by (intros E; apply Hi; by eapply H2).
    destruct (H1 i s Hs) as [(sub & c & ? & ? & ?) Hch].
    split; [exists sub, c; by rewrite Hother|intros ch; rewrite Hother by done; apply Hch].
  - intros i j x y [_ Hx]%lookup_delete_Some [_ Hy]%lookup_delete_Some. by eapply H2.
  - intros ch nm c. destruct (decide (nm = fr_filename r)) as [->|]; [by rewrite Hgone|]. rewrite !Hother by done. apply H3.
  - intros ch ch' nm E1 E2. destruct (decide (nm = fr_filename r)) as [->|]; [rewrite !Hgone; by intros []|].
    rewrite !Hother by done. by apply H4.
  - intros k c [_ [_ Hk]%lookup_delete_Some]%lookup_delete_Some. by apply H5 in Hk.
Qed.

Lemma discover_images by_ now d : images_ok d ->
  images_ok (discover_on_disk_releases ulid sha256 public_base by_ now d).2.
Proof.
  intros Hd. apply (sg_ok d), discover_ind.
  - split; [done|done|by left].
  - intros. by apply scan_file_images.
Qed.
End images.
