(* ===== verification/FirmwareTheorems.v ===== *)
(** * Firmware: consistent tables, intact images, who may roll out

    [firmware_step] is the step relation of the firmware tables and the directory: the
    operators' requests, the devices' fetches and reports, devices that go, and, where
    [outside] allows it, writes to the directory by others. *)

From stdpp Require Import pretty.
From S2P Require Import Prelude PyFloat EventBus Commands Devices Deployments RuntimeSettings TenantScope Enrollment.
From S2P Require Import RoleBindings Identity Accounts Invitations ConfigBackup ConfigRestore RuleForms Announcements.
From S2P Require Import AuditLog Estate EstateEndpoints EstateTheorems FirmwareStore FirmwareEndpoints FirmwareFacts.
Local Open Scope string_scope.
Local Open Scope list_scope.
Local Open Scope Z_scope.

Section firmware.
Context (ulid : nat -> string) `{!Inj (=) (=) ulid} (sha256 : string -> string) (strftime : time -> string).
Context (fs_accepts : string -> bool) (public_base : string).
Context (audit_accepts : audit_row -> bool) (remote_addr : option string).
#[local] Abbreviation handle_firmware := (handle_firmware ulid sha256 strftime fs_accepts public_base audit_accepts remote_addr).
#[local] Abbreviation discover := (discover_on_disk_releases ulid sha256 public_base).
#[local] Abbreviation upload_release := (upload_release ulid sha256 strftime fs_accepts public_base).

Inductive firmware_step (outside : Prop) : depot -> depot -> Prop :=
  | fw_request q o now later d e : NoDup (hub_members (es_hub e)) ->
      firmware_step outside d (handle_firmware q o now later (d, e)).2.1
  | fw_fetch id now d : firmware_step outside d (with_rollouts (firmware_assignment id now (firmware_of d)).2 d)
  | fw_report id v err now d w : reconcile_assignment_reported_version id v err now (firmware_of d) = Ret w ->
      firmware_step outside d (with_rollouts w d)
  | fw_drop_device id d : firmware_step outside d (drop_device_rollouts id d)
  | fw_files f d : outside -> firmware_step outside d (with_disk f d).

(** What every operation a request runs keeps, the request keeps. *)
Lemma handle_keeps (P : depot -> Prop) q o now later d e : P d ->
  (forall content version channel sha notes by_ ok, P (upload_release content version channel sha notes by_ ok now later d).2) ->
  (forall by_, P (discover by_ now d).2) -> (forall id, P (delete_release id d).2) ->
  (forall rid tt tid ch force by_, P (with_rollouts
     (create_deployment ulid rid tt tid ch force by_ now later (fleet_of (op_caller o) e) (firmware_of d)).2 d)) ->
  P (handle_firmware q o now later (d, e)).2.1.
Proof.
  intros H0 Hup Hscan Hdel Hdep.
  assert (Hd : forall rid tt tid ch force, P (deploy ulid audit_accepts remote_addr o rid tt tid ch force now later (d, e)).2.1).
  { intros. unfold deploy. cbn [fst snd]. specialize (Hdep rid tt tid ch force (Some (op_id o))).
    destruct (create_deployment _ _ _ _ _ _ _ _ _ _ _) as [[[]|] fw]; [exact Hdep|done]. }
  destruct q; cbn [FirmwareEndpoints.handle_firmware].
  - unfold firmware_upload_submit. case_match; [|done]. cbv zeta. cbn [fst].
    match goal with |- context [FirmwareStore.upload_release _ _ _ _ _ ?c ?v ?ch ?s ?n ?b ?ok _ _ _] =>
      specialize (Hup c v ch s n b ok); destruct (upload_release c v ch s n b ok now later d) end. done.
  - unfold create_firmware_release. case_match; [|done]. cbv zeta. cbn [fst].
    match goal with |- context [FirmwareStore.upload_release _ _ _ _ _ ?c ?v ?ch ?s ?n ?b ?ok _ _ _] =>
      specialize (Hup c v ch s n b ok); destruct (upload_release c v ch s n b ok now later d) end. done.
  - unfold firmware_scan_submit, scan_with. cbn [fst snd]. specialize (Hscan (Some (op_id o))). by destruct (discover _ _ _).
  - unfold firmware_scan_api, scan_with. cbn [fst snd]. specialize (Hscan (Some (op_id o))). by destruct (discover _ _ _).
  - apply Hdel.
  - unfold delete_firmware_release. cbn [fst]. specialize (Hdel id). by destruct (delete_release id d).
  - unfold firmware_deploy_submit. cbv zeta. case_match; [done|]. case_match; [done|].
    match goal with |- context [deploy _ _ _ _ ?rid ?tt ?tid ?ch ?force _ _ _] =>
      specialize (Hd rid tt tid ch force); destruct (deploy ulid audit_accepts remote_addr o rid tt tid ch force now later (d, e)) end.
    done.
  - unfold create_firmware_deployment. case_match; [|done]. case_match; [done|]. case_match; [|done]. cbv zeta.
    case_match; [done|].
    match goal with |- context [deploy _ _ _ _ ?rid ?tt ?tid ?ch ?force _ _ _] =>
      specialize (Hd rid tt tid ch force); destruct (deploy ulid audit_accepts remote_addr o rid tt tid ch force now later (d, e)) end.
    done.
Qed.

Lemma firmware_step_depot_ok outside d d' : firmware_step outside d d' -> depot_ok ulid d -> depot_ok ulid d'.
Proof.
  destruct 1 as [q o now later d e Hm|id now d|id v err now d w E|id d|f d _]; intros Hd.
  - apply handle_keeps; [done|..]; intros.
    + by apply upload_depot_ok.
    + by apply discover_depot_ok.
    + by apply delete_depot_ok.
    + by apply create_depot_ok.
  - by apply fetch_depot_ok.
  - by eapply report_depot_ok.
  - by apply drop_device_depot_ok.
  - by apply with_disk_depot_ok.
Qed.

Lemma with_rollouts_images w d : images_ok sha256 public_base d -> images_ok sha256 public_base (with_rollouts w d).
Proof. by apply images_same. Qed.

Lemma firmware_step_images d d' : firmware_step False d d' -> images_ok sha256 public_base d -> images_ok sha256 public_base d'.
Proof.
  destruct 1 as [q o now later d e Hm|id now d|id v err now d w E|id d|f d []]; intros Hd; try by apply with_rollouts_images.
  apply handle_keeps; [done|..]; intros.
  - by apply upload_images.
  - by apply discover_images.
  - by apply delete_images.
  - by apply with_rollouts_images.
Qed.

(** ** Histories *)

Definition bare_depot : depot := Depot ∅ ∅ [] ∅ [] 0.
Lemma bare_depot_ok : depot_ok ulid bare_depot.
Proof.
  split; cbn.
  - intros i r. by rewrite lookup_empty.
  - intros i j r s. by rewrite lookup_empty.
  - by intros m []%not_elem_of_nil.
  - intros i p. by rewrite lookup_empty.
  - by intros a []%not_elem_of_nil.
  - split; cbn; [constructor|by intros a []%not_elem_of_nil|lia].
Qed.
Lemma bare_depot_images : images_ok sha256 public_base bare_depot.
Proof.
  split; cbn.
  - intros i r. by rewrite lookup_empty.
  - intros i j r s. by rewrite lookup_empty.
  - intros c n x. by rewrite lookup_empty.
  - intros c c' n _ _ [x Hx]. by rewrite lookup_empty in Hx.
  - intros k x. by rewrite lookup_empty.
Qed.

Lemma history_depot_ok outside d : rtc (firmware_step outside) bare_depot d -> depot_ok ulid d.
Proof.
  intros Hr. pose proof bare_depot_ok as H0. revert H0.
  induction Hr as [|x y z Hxy _ IH]; [done|]. intros Hx. by eapply IH, firmware_step_depot_ok.
Qed.
Lemma history_images d : rtc (firmware_step False) bare_depot d -> images_ok sha256 public_base d.
Proof.
  intros Hr. pose proof bare_depot_images as H0. revert H0.
  induction Hr as [|x y z Hxy _ IH]; [done|]. intros Hx. by eapply IH, firmware_step_images.
Qed.

(** C17. The firmware tables stay consistent, whatever is written to the directory.  Over any
    history of requests of operators, fetches and reports of devices, devices deleted and
    files placed, changed or removed by others: a version occurs once in a channel; each
    mirror belongs to a release that exists and carries its hash, after a re-scan and after
    a deletion too; each deployment is of a release that exists and each assignment of its
    deployment's release; a device has at most one assignment in force. *)
Theorem firmware_tables_stay_consistent d : rtc (firmware_step True) bare_depot d -> depot_ok ulid d.
Proof. apply history_depot_ok. Qed.

Lemma offer_release did w o : assignment_for_device did w = Some o ->
  exists rid r, fw_releases w !! rid = Some r /\ of_download_url o = rl_download_url r /\ of_sha256 o = rl_sha256 r.
Proof.
  unfold assignment_for_device. destruct (latest_where _ _) as [a|]; [|done]. cbn.
  destruct (fw_releases w !! as_release_id a) as [r|] eqn:Er; [|done]. cbn.
  destruct (fw_deployments w !! as_deployment_id a) as [p|]; [|done]. cbn. intros [= <-].
  by exists (as_release_id a), r.
Qed.

(** C16. Offered images are intact.  While only the program writes in the firmware directory, at
    any point of any history of uploads (with failed copies and refused registrations),
    scans, deletions, deployments, fetches and reports: whatever a device is offered names a
    file that is there, that is not empty and that has the hash the device will check. *)
Theorem offered_images_are_intact d did o :
  rtc (firmware_step False) bare_depot d -> assignment_for_device did (firmware_of d) = Some o ->
  exists sub name content, of_download_url o = file_url public_base sub name /\
    de_disk d !! (sub, name) = Some content /\ content <> EmptyString /\ of_sha256 o = sha256 content.
Proof.
  intros Hd%history_images (rid & r & Hr & -> & ->)%offer_release. cbn in Hr. rewrite lookup_fmap in Hr.
  apply fmap_Some in Hr as (r' & Hr & ->). destruct (io_release _ _ _ Hd _ _ Hr) as [(sub & c & ? & ? & ? & ? & _) _].
  by exists sub, (fr_filename r'), c.
Qed.

(** ** Who may roll out *)

Lemma deployment_reaches gid rid ch force by_ now at_ f r d did :
  de_releases d !! rid = Some r -> is_empty gid = false -> did ∈ group_device_ids gid (fl_hub f) ->
  exists fid n fw, create_deployment ulid rid "group" (Some gid) ch force by_ now at_ f (firmware_of d) = (Ret (fid, n), fw) /\
    exists o, assignment_for_device did (firmware_of (with_rollouts fw d)) = Some o /\
      of_deployment_id o = fid /\ of_target_version o = fr_version r /\ of_sha256 o = fr_sha256 r /\ of_force o = force.
Proof.
  intros Hr Hg Hin. unfold create_deployment. cbn [in_strs existsb String.eqb negb andb orb truthy_str]. rewrite Hg.
  cbn. rewrite lookup_fmap, Hr. cbn. do 3 eexists. split; [reflexivity|].
  set (news := new_assignments _ _ _ _ _ _). set (W := firmware_of _).
  assert (Hw : filter (fun a => active_for did a = true) (fw_assignments W) = filter (fun a => active_for did a = true) news)
    by (cbn; by rewrite filter_app, superseded_none).
  unfold assignment_for_device. destruct (latest_where (active_for did) W) as [a|] eqn:El;
    unfold latest_where in El; rewrite Hw in El.
  - apply order_by_desc_head in El as [Ha _]. apply list_elem_of_filter in Ha as [_ Ha].
    apply new_assignments_refs in Ha as [E1 E2]. cbn. rewrite E2, lookup_fmap, Hr. cbn.
    rewrite E1, lookup_insert_eq. cbn. by eexists.
  - exfalso. apply order_by_desc_nil in El.
    pose proof (new_assignments_active ulid (S (de_next d)) (new_id ulid "fwd" (de_next d)) rid at_ (group_device_ids gid (fl_hub f)) did) as Hn.
    fold news in Hn. rewrite El in Hn. cbn in Hn.
    assert (Hd : did ∈ filter (fun i => i = did) (group_device_ids gid (fl_hub f))) by (by apply list_elem_of_filter).
    destruct (filter _ (group_device_ids gid (fl_hub f))); [by apply not_elem_of_nil in Hd|done].
Qed.

(** Viewers roll out firmware.  Whoever the gate admits as a viewer can, from the firmware
    page, put any registered release on every device of any group of up to five: each is
    offered that release from then on.  Through the API the same deployment is refused. *)
Theorem viewers_roll_out_firmware jwt_decode mode rq now later g d e me u f rid gid did r b :
  (role_required_api jwt_decode ANY_ROLE rq now g).1 = Enter me u -> us_role u = ROLE_VIEWER ->
  de_releases d !! rid = Some r -> (gid, did) ∈ hub_members (es_hub e) -> (count_group_members gid e <= 5)%nat ->
  field f "release_id" = rid -> field f "target_type" = "group" -> field f "target_id" = gid ->
  is_empty rid = false -> is_empty gid = false ->
  let serve := serve_firmware ulid sha256 strftime fs_accepts public_base audit_accepts remote_addr jwt_decode mode in
  (exists d' e' o, serve (DeployForm f) rq now later g (d, e) = (Ret Back, (d', e')) /\
     assignment_for_device did (firmware_of d') = Some o /\
     of_target_version o = fr_version r /\ of_sha256 o = fr_sha256 r) /\
  serve (DeployApi b) rq now later g (d, e) = (Ret (EstateEndpoints.Refused 403), (d, e)).
Proof.
  intros Hg Hrole Hr Hm Hn Hf1 Hf2 Hf3 Hrid Hgid serve. split.
  - set (o := Operator (Caller (tc_org (bind_tenant_scope me (rq_cookie rq) g).1) mode) me (us_role u) (us_email u)).
    assert (Hserve : serve (DeployForm f) rq now later g (d, e) =
      firmware_deploy_submit ulid audit_accepts remote_addr o f now later (d, e)).
    { unfold serve, serve_firmware, operator_call. cbn [firmware_roles]. by rewrite Hg. }
    rewrite Hserve. unfold firmware_deploy_submit. rewrite Hf1, Hf2, Hrid. cbv zeta.
    change (String.eqb "group" "all_devices") with false. unfold opt_field. rewrite Hf3, Hgid. cbv zeta iota.
    change (false || is_empty "group") with false. cbv iota.
    assert (Hcount : deployment_count "group" (Some gid) (d, e).2 = count_group_members gid e)
      by (unfold deployment_count; cbn; by rewrite Hgid).
    rewrite Hcount. assert (Hc : forall v, confirmed_form (count_group_members gid e) v f = true).
    { intros v. unfold confirmed_form, mass_validate, required_level, SIMPLE_THRESHOLD, TYPED_THRESHOLD. cbv zeta.
      destruct (Nat.ltb_spec 20 (count_group_members gid e)); [lia|].
      destruct (Nat.ltb_spec 5 (count_group_members gid e)); [lia|done]. }
    rewrite Hc. cbn [negb]. unfold deploy. cbn [fst snd].
    assert (Hin : did ∈ group_device_ids gid (fl_hub (fleet_of (op_caller o) e))).
    { unfold group_device_ids. apply list_elem_of_fmap. exists (gid, did). split; [done|]. by apply list_elem_of_filter. }
    destruct (deployment_reaches gid rid None (bool_decide (is_Some (form_get f "force"))) (Some (op_id o)) now later
                (fleet_of (op_caller o) e) r d did Hr Hgid Hin) as (fid & n & fw & E & off & Hoff & _ & Hv & Hs & _).
    rewrite E. do 3 eexists. split; [reflexivity|]. by split_and!.
  - unfold serve, serve_firmware, operator_call. cbn [firmware_roles].
    by rewrite (viewer_is_forbidden _ ADMIN_AND_UP _ _ _ _ _ Hg Hrole eq_refl).
Qed.
End firmware.

Module Example.

(** A toy hash: the number of characters. *)
Definition sha (s : string) : string := pretty (String.length s).
Definition no_text (_ : time) : string := EmptyString.
Definition any_name (_ : string) : bool := true.
Definition accepts (_ : audit_row) : bool := true.
Definition no_jwt (_ : time) (_ : string) : outcome pydict := Raise (ValueError "jwt").
Definition public : string := "https://hub.example/rebooter/firmware/".
Definition handle_it := handle_firmware pretty sha no_text any_name public accepts (Some "192.0.2.1").
Definition step := firmware_step pretty sha no_text any_name public accepts (Some "192.0.2.1").

(** A group with one device, an administrator, a viewer. *)
Definition e0 : estate :=
  Estate (Hub {["dev_1" := Device true true None ∅]} ∅ [] [("grp_1", "dev_1")] empty_bus 0) ∅ ∅ ∅ ∅ [] ∅ [] [].
Definition admin : operator := Operator (Caller (Some "org_a") Enforce) "usr_a" ROLE_ADMIN "a@example.org".
Definition viewer : account := Account "v@example.org" "h" "V" true false false ROLE_VIEWER 0 0 0 None.
Definition people : idb := Idb {["usr_v" := viewer]} ∅ ∅ ∅ ∅ ∅ ∅ ∅ (RbacDb [] ∅ ∅ ∅ []) ∅ 0.
Definition rq : request := Request (Cookie (Some "usr_v") None None None) EmptyString.

Definition image (version channel : string) (content : string) (copy_ok : bool) : firmware_request :=
  UploadApi (Upload (Some content) [("version", version); ("channel", channel)] None copy_ok).
Definition rollout (rid : string) : form := [("release_id", rid); ("target_type", "group"); ("target_id", "grp_1")].
Definition after (q : firmware_request) (d : depot) : depot := (handle_it q admin 5 6 (d, e0)).2.1.
Definition fwr (n : nat) : string := new_id pretty "fwr" n.
(** An upload, a scan, a roll-out. *)
Definition d1 : depot := after (image "1.4.0" "beta" "code" true) bare_depot.
Definition d2 : depot := after ScanApi d1.
Definition d3 : depot := after (DeployForm (rollout (fwr 0))) d2.
(** The other team replaces the copy in the channel's directory; a scan. *)
Definition d4 : depot := with_disk (insert ("beta", "rebooter-1.4.0-beta.bin") "longer code") d3.
Definition d5 : depot := after ScanForm d4.

Lemma firmware_tables_stay_consistent_witness : depot_ok pretty d5.
Proof.
  apply (firmware_tables_stay_consistent pretty sha no_text any_name public accepts (Some "192.0.2.1") d5).
  assert (Hm : NoDup (hub_members (es_hub e0))) by apply NoDup_singleton.
  apply (rtc_l _ _ d1); [by apply fw_request|]. apply (rtc_l _ _ d2); [by apply fw_request|].
  apply (rtc_l _ _ d3); [by apply fw_request|]. apply (rtc_l _ _ d4); [by apply fw_files|].
  by apply rtc_once, fw_request.
Defined.

Definition offer_of (d : depot) : option offer := assignment_for_device "dev_1" (firmware_of d).
Lemma offered_images_are_intact_witness : exists o, offer_of d3 = Some o /\
  exists sub name content, of_download_url o = file_url public sub name /\
    de_disk d3 !! (sub, name) = Some content /\ content <> EmptyString /\ of_sha256 o = sha content.
Proof.
  eexists. split; [vm_compute; reflexivity|].
  apply (offered_images_are_intact pretty sha no_text any_name public accepts (Some "192.0.2.1") d3 "dev_1");
    [|vm_compute; reflexivity].
  assert (Hm : NoDup (hub_members (es_hub e0))) by apply NoDup_singleton.
  apply (rtc_l _ _ d1); [by apply fw_request|]. apply (rtc_l _ _ d2); [by apply fw_request|].
  by apply rtc_once, fw_request.
Defined.

Lemma viewers_roll_out_firmware_witness :
  let serve := serve_firmware pretty sha no_text any_name public accepts None no_jwt Enforce in
  (exists d' e' o, serve (DeployForm (rollout (fwr 0))) rq 7 8 people (d2, e0) = (Ret Back, (d', e')) /\
     assignment_for_device "dev_1" (firmware_of d') = Some o /\
     of_target_version o = "1.4.0" /\ of_sha256 o = sha "code") /\
  serve (DeployApi (DeploymentBody (JStr (fwr 0)) JNull (JStr "all_devices") None None JNull JNull JNull))
    rq 7 8 people (d2, e0) = (Ret (EstateEndpoints.Refused 403), (d2, e0)).
Proof.
  apply (viewers_roll_out_firmware pretty sha no_text any_name public accepts None no_jwt Enforce rq 7 8 people d2 e0
           "usr_v" viewer (rollout (fwr 0)) (fwr 0) "grp_1" "dev_1"
           (FirmwareRelease "1.4.0" "beta" "rebooter-1.4.0-beta.bin" (root_url public "rebooter-1.4.0-beta.bin") (sha "code") 4
              None (Some "usr_a") 5)); try (vm_compute; reflexivity).
  - apply list_elem_of_singleton. reflexivity.
  - apply Nat.leb_le. vm_compute. reflexivity.
Defined.

(** Others do write in the directory, and then the rows mislead: the re-scan gave the row the
    hash of the channel's copy, while the device is sent to the file in the root. *)
Definition served (d : depot) (name : string) : option string := sha <$> de_disk d !! ("", name).
Example rehash_breaks_the_root_url :
  (of_sha256 <$> offer_of d5, of_download_url <$> offer_of d5, served d5 "rebooter-1.4.0-beta.bin") =
    (Some (sha "longer code"), Some "https://hub.example/rebooter/firmware/rebooter-1.4.0-beta.bin", Some (sha "code")).
Proof. vm_compute. reflexivity. Qed.

(** An image placed by hand and scanned; then an upload of the same version: it is refused as a
    duplicate, and the clean-up unlinks the scanned image itself. *)
Definition s1 : depot := after ScanApi (with_disk (insert ("dev", "rebooter-2.0.0-dev.bin") "scanned") bare_depot).
Definition s2 : outcome estate_answer * works := handle_it (image "2.0.0" "dev" "other" true) admin 5 6 (s1, e0).
Example refused_upload_destroys_a_scanned_image :
  (fr_url <$> de_releases s1 !! fwr 0) = Some "https://hub.example/rebooter/firmware/dev/rebooter-2.0.0-dev.bin" /\
  s2.1 = Ret (EstateEndpoints.Refused 400) /\ de_releases s2.2.1 = de_releases s1 /\
  de_disk s1 !! ("dev", "rebooter-2.0.0-dev.bin") = Some "scanned" /\ de_disk s2.2.1 !! ("dev", "rebooter-2.0.0-dev.bin") = None.
Proof. split_and!; vm_compute; reflexivity. Qed.

(** The copy for the channel failed: the pointer of the channel redirects to a file that is not
    there, which the mirrors call live. *)
Definition c1 : depot := after (image "3.0.0" "stable" "code" false) bare_depot.
Example pointer_to_a_missing_copy :
  channel_latest_redirect public "stable" c1 = RedirectTo "https://hub.example/rebooter/firmware/stable/rebooter-3.0.0.bin" /\
  de_disk c1 !! ("stable", "rebooter-3.0.0.bin") = None /\ (mi_status <$> de_mirrors c1) = [MIRROR_STATUS_LIVE; MIRROR_STATUS_LIVE; MIRROR_STATUS_LIVE].
Proof. split_and!; vm_compute; reflexivity. Qed.

(** One name in two channels: the scan of the second channel gives the row of the first the
    hash of the other's image. *)
Definition two_channels : files := {[("beta", "custom.bin") := "b"; ("dev", "custom.bin") := "dd"]}.
Definition t1 : depot := after ScanApi (with_disk (fun _ => {[("beta", "custom.bin") := "b"]}) bare_depot).
Definition t2 : depot := after ScanApi (with_disk (fun _ => two_channels) t1).
Example names_collide_across_channels :
  (fr_channel <$> de_releases t2 !! fwr 0, fr_sha256 <$> de_releases t2 !! fwr 0, size (de_releases t2)) =
    (Some "beta", Some (sha "dd"), 1%nat).
Proof. vm_compute. reflexivity. Qed.
End Example.
