(* ===== verification/Attention.v ===== *)
(** * What asks for attention ([app/services/attention_acks.py], [failsafe.py], [unregistered.py])

    The acknowledgements of the items of the status page, the reports of devices that fell
    back to their previous firmware, the requests of devices whose token was refused; with
    the endpoint that takes a report ([/device/failsafe]) and the recording of a refused
    request ([middleware/device_auth.py]).  The diagnostic blob of a report is kept as the
    object it was: writing it as JSON and reading it back is the identity. *)

From S2P Require Import Prelude Commands Identity.
Local Open Scope string_scope.
Local Open Scope list_scope.
Local Open Scope Z_scope.

Record ack_row := AckRow {
  ak_id : string;
  ak_by : option string;
  ak_at : time;
  ak_snooze_until : option time;
  ak_reason : option string
}.
Record failsafe_row := FailsafeRow {
  fs_id : string;
  fs_device_id : string;
  fs_received_at : time;
  fs_failed_version : option string;
  fs_fallback_to_version : option string;
  fs_reason : string;
  fs_details : option pydict
}.
Record attempt := Attempt {
  un_id : nat;
  un_claimed_device_id : option string;
  un_source_ip : string;
  un_endpoint : string;
  un_user_agent : option string;
  un_auth_present : bool;
  un_first_seen_at : time;
  un_last_seen_at : time;
  un_hit_count : Z
}.
(** The acknowledgements by their unique [attention_id]. *)
Record attention := Attention {
  at_acks : gmap string ack_row;
  at_failsafes : list failsafe_row;
  at_attempts : list attempt;
  at_next : nat
}.
Definition with_acks (f : gmap string ack_row -> gmap string ack_row) (s : attention) : attention :=
  Attention (f (at_acks s)) (at_failsafes s) (at_attempts s) (at_next s).
Definition with_failsafes (f : list failsafe_row -> list failsafe_row) (s : attention) : attention :=
  Attention (at_acks s) (f (at_failsafes s)) (at_attempts s) (at_next s).
Definition with_attempts (f : list attempt -> list attempt) (s : attention) : attention :=
  Attention (at_acks s) (at_failsafes s) (f (at_attempts s)) (at_next s).
Definition drawn_id (s : attention) : attention :=
  Attention (at_acks s) (at_failsafes s) (at_attempts s) (S (at_next s)).

(** [max(1, min(limit, most))]. *)
Definition clamp (most limit : Z) : nat := Z.to_nat (Z.max 1 (Z.min limit most)).

Section attention.
Context (ulid : nat -> string) (strftime : time -> string) (py_repr : json -> string).
#[local] Abbreviation iso_text t := (JStr (strftime t)).

(** ** Acknowledgements *)

Definition ack_live (now : time) (r : ack_row) : bool :=
  match ak_snooze_until r with None => true | Some t => now <? t end.
Definition acked_ids (now : time) (s : attention) : gset string :=
  dom (filter (fun x : string * ack_row => ack_live now x.2 = true) (at_acks s)).
Definition is_acked (attention_id : string) (now : time) (s : attention) : bool :=
  bool_decide (attention_id ∈ acked_ids now s).

Definition ack (attention_id : string) (by_user_id : option string) (snooze_seconds : option Z)
    (reason : option string) (now : time) (s : attention) : outcome json * attention :=
  let snooze := n ← snooze_seconds; if 0 <? n then Some (now + seconds n) else None in
  if negb (match snooze with Some t => in_calendar t | None => true end) then (Raise OverflowError, s)
  else
    let '(row, s) := match at_acks s !! attention_id with
      | None => (AckRow (new_id ulid "ack" (at_next s)) by_user_id now snooze reason, drawn_id s)
      | Some r => (AckRow (ak_id r) by_user_id now snooze (if truthy_str reason then reason else ak_reason r), s)
      end in
    if negb (fits 120 attention_id) then (Raise (DBError "attention_acks"), s)
    else
      (Ret (JObj [("id", JStr (ak_id row)); ("attention_id", JStr attention_id); ("acked_at", iso_text now);
                  ("snooze_until", from_option (fun t => iso_text t) JNull snooze)]),
       with_acks (insert attention_id row) s).
Definition unack (attention_id : string) (s : attention) : bool * attention :=
  match at_acks s !! attention_id with
  | None => (false, s)
  | Some _ => (true, with_acks (delete attention_id) s)
  end.
Definition outdated (cutoff : time) (r : ack_row) : bool :=
  match ak_snooze_until r with Some t => t <? cutoff | None => false end.
Definition expire_old_acks (now : time) (s : attention) : nat * attention :=
  let cutoff := now - hours 24 in
  (size (filter (fun x : string * ack_row => outdated cutoff x.2 = true) (at_acks s)),
   with_acks (filter (fun x : string * ack_row => outdated cutoff x.2 = false)) s).

(** ** Failsafe reports *)

(** The flush: the lengths of the columns; the device exists, as it has just authenticated. *)
Definition failsafe_fits (r : failsafe_row) : bool :=
  ofits 40 (fs_failed_version r) && ofits 40 (fs_fallback_to_version r) && fits 40 (fs_reason r).
Definition none_if_blank (s : option string) : option string := if truthy_str s then s else None.
Definition record_failsafe (device_id : string) (failed_version fallback_to_version : option string)
    (reason : string) (details : option pydict) (now : time) (s : attention) : json * attention :=
  let reason := str_take 40 (lower (strip (if is_empty reason then "other" else reason))) in
  let answer id := JObj [("id", ojson id); ("received_at", iso_text now); ("reason", JStr reason)] in
  let id := new_id ulid "fse" (at_next s) in
  let row := FailsafeRow id device_id now (none_if_blank failed_version) (none_if_blank fallback_to_version)
               reason (match details with Some [] => None | d => d end) in
  if failsafe_fits row then (answer (Some id), with_failsafes (fun l => l ++ [row]) (drawn_id s))
  else (answer None, s).

Definition serialize_failsafe (r : failsafe_row) : json :=
  JObj [("id", JStr (fs_id r)); ("device_id", JStr (fs_device_id r)); ("received_at", iso_text (fs_received_at r));
        ("failed_version", ojson (fs_failed_version r)); ("fallback_to_version", ojson (fs_fallback_to_version r));
        ("reason", JStr (fs_reason r)); ("details", from_option JObj JNull (fs_details r))].
Definition failsafes_of (device_id : string) (limit : Z) (s : attention) : list failsafe_row :=
  take (clamp 200 limit) (order_by_desc fs_received_at (filter (fun r => fs_device_id r = device_id) (at_failsafes s))).
Definition since (cutoff : time) (r : failsafe_row) : bool := cutoff <=? fs_received_at r.
Definition recent_failsafes (limit since_hours : Z) (now : time) (s : attention) : list failsafe_row :=
  take (clamp 500 limit)
    (order_by_desc fs_received_at (filter (fun r => since (now - hours since_hours) r = true) (at_failsafes s))).
Definition count_recent_failsafes (since_hours : Z) (now : time) (s : attention) : nat :=
  length (filter (fun r => since (now - hours since_hours) r = true) (at_failsafes s)).

(** [POST /device/failsafe], the device behind the gate. *)
Definition failsafe_report (device_id : string) (body : json) (now : time) (s : attention) : outcome json * attention :=
  match jor body (JObj []) with
  | JObj b =>
    match failed ← strip_or_empty (dget b "failed_version");
          fallback ← strip_or_empty (dget b "fallback_to_version");
          reason ← strip_or_empty (jor (dget b "reason") (JStr "other"));
          Ret (failed, fallback, reason) with
    | Raise x => (Raise x, s)
    | Ret (failed, fallback, reason) =>
      let details := match dget b "details" with JObj d => Some d | _ => None end in
      let '(out, s) := record_failsafe device_id (Some failed) (Some fallback) reason details now s in
      (Ret out, s)
    end
  | _ => (Raise (AttributeError "get"), s)
  end.

(** ** Refused requests *)

Definition MAX_DEVICE_ID_LEN : nat := 80.
Definition MAX_USER_AGENT_LEN : nat := 200.
Definition MAX_ROWS_KEPT : nat := 5000.

Definition sanitize (value : json) (max_len : nat) : option string :=
  match value with
  | JNull => None
  | _ => let s := strip (py_str py_repr value) in
         if is_empty s then None else Some (str_take max_len s)
  end.

(** The conflict target: a row with no claimed id conflicts with none, as NULLs are distinct. *)
Definition same_caller (claimed : option string) (ip endpoint : string) (r : attempt) : bool :=
  match claimed, un_claimed_device_id r with
  | Some a, Some b => String.eqb a b && String.eqb (un_source_ip r) ip && String.eqb (un_endpoint r) endpoint
  | _, _ => false
  end.
Definition seen_again (agent : option string) (auth : bool) (now : time) (r : attempt) : attempt :=
  Attempt (un_id r) (un_claimed_device_id r) (un_source_ip r) (un_endpoint r) agent auth
    (un_first_seen_at r) now (un_hit_count r + 1).
Definition upsert (claimed : option string) (ip endpoint : string) (agent : option string) (auth : bool)
    (now : time) (s : attention) : attention :=
  if existsb (same_caller claimed ip endpoint) (at_attempts s)
  then with_attempts (fmap (fun r => if same_caller claimed ip endpoint r then seen_again agent auth now r else r)) s
  else drawn_id (with_attempts (fun l => l ++ [Attempt (at_next s) claimed ip endpoint agent auth now now 1]) s).
(** The rolling cap: the tenth of the rows that were seen first goes. *)
Definition prune (s : attention) : attention :=
  if (MAX_ROWS_KEPT <? length (at_attempts s))%nat then
    let oldest := un_id <$> take (Nat.max 1 (MAX_ROWS_KEPT / 10)) (order_by un_last_seen_at (at_attempts s)) in
    with_attempts (filter (fun r => un_id r ∉ oldest)) s
  else s.
Definition record_attempt (claimed : json) (ip : option string) (endpoint : string) (agent : option string)
    (auth_present : bool) (now : time) (s : attention) : attention :=
  let cdi := sanitize claimed MAX_DEVICE_ID_LEN in
  let ip := default "unknown" (sanitize (ojson ip) 64) in
  let ep := default "unknown" (sanitize (JStr endpoint) 80) in
  prune (upsert cdi ip ep (sanitize (ojson agent) MAX_USER_AGENT_LEN) auth_present now s).

Definition recently_seen (cutoff : option time) (r : attempt) : bool :=
  match cutoff with Some t => t <=? un_last_seen_at r | None => true end.
Definition recent_attempts (limit : Z) (since_minutes : option Z) (now : time) (s : attention) : list attempt :=
  let cutoff := m ← since_minutes; if m =? 0 then None else Some (now - minutes m) in
  take (clamp 1000 limit)
    (order_by_desc un_last_seen_at (filter (fun r => recently_seen cutoff r = true) (at_attempts s))).
Definition count_active (since_minutes : Z) (now : time) (s : attention) : nat :=
  length (filter (fun r => recently_seen (Some (now - minutes since_minutes)) r = true) (at_attempts s)).
Definition serialize_attempt (r : attempt) : json :=
  JObj [("id", JInt (Z.of_nat (un_id r))); ("claimed_device_id", ojson (un_claimed_device_id r));
        ("source_ip", JStr (un_source_ip r)); ("endpoint", JStr (un_endpoint r)); ("user_agent", ojson (un_user_agent r));
        ("auth_present", JBool (un_auth_present r)); ("hit_count", JInt (un_hit_count r));
        ("first_seen_at", iso_text (un_first_seen_at r)); ("last_seen_at", iso_text (un_last_seen_at r))].

(** [_claimed_device_id_from_request] and the 401 of [device_auth_required]. *)
Definition claimed_device_id (query : option string) (body : json) : json :=
  if truthy_str query then ojson query
  else match jor body (JObj []) with JObj b => dget b "device_id" | _ => JNull end.
Definition auth_refused (query : option string) (body : json) (ip : option string) (path : string)
    (agent authorization : option string) (now : time) (s : attention) : Z * attention :=
  (401, record_attempt (claimed_device_id query body) ip path agent
          (startswith "Bearer " (default EmptyString authorization)) now s).

(** [GET /unregistered-devices]. *)
Definition list_unregistered_attempts_api (since_minutes limit : option string) (now now2 : time) (s : attention)
    : Z * json :=
  match (m ← (match since_minutes with
              | Some t => if is_empty t then Ret None else n ← py_int (JStr t); Ret (Some n)
              | None => Ret None end);
         n ← (match limit with
              | Some t => if is_empty t then Ret 200 else py_int (JStr t)
              | None => Ret 200 end);
         Ret (m, n) : outcome (option Z * Z)) with
  | Ret (m, n) =>
    (200, JObj [("attempts", JList (serialize_attempt <$> recent_attempts n m now s));
                ("active_60min", JInt (Z.of_nat (count_active 60 now2 s)))])
  | Raise _ => (400, JNull)
  end.
End attention.
