(* ===== verification/Inbox.v ===== *)
(** * The status page ([app/services/inbox.py], [dashboard.py])

    The health verdict and the feed of items that need attention, computed from the devices,
    the refused requests, the failsafe reports and the watchdog; the counters of the
    dashboard and its merged activity feed.  The prose of titles, hints, labels and
    summaries is left out.  Each service reads the clock for itself. *)

From S2P Require Import Prelude PyFloat EventBus Commands Devices DeviceConfig WatchdogActions WatchdogState WatchdogRules.
From S2P Require Import RuntimeSettings TenantScope Enrollment RoleBindings Identity ConfigBackup AuditLog Estate Attention.
Local Open Scope string_scope.
Local Open Scope list_scope.
Local Open Scope Z_scope.

Definition SHORT_OFFLINE_SECONDS : Z := 3 * 60.
Definition LONG_OFFLINE_SECONDS : Z := 24 * 60 * 60.
Definition NEVER_HEARTBEATED_GRACE_SECONDS : Z := 30 * 60.
Definition ENROLLMENT_PENDING_WINDOW_SECONDS : Z := 60 * 60.
Definition DEVICE_AUTH_REJECTED_LOOKBACK_MINUTES : Z := 60.
Definition DEVICE_AUTH_REJECTED_MIN_HITS : Z := 3.
Definition DEVICE_FAILSAFE_LOOKBACK_HOURS : Z := 24.
Definition NEVER_REAL_DEVICE_IPS : list string := ["127.0.0.1"; "::1"; "192.168.18.1"].
Definition QA_AUTH_REJECTED_PREFIXES : list string :=
  ["qa "; "qa-"; "qa_"; "test-"; "test_"; "playwright"; "dev_qa_"; "dev_test"].

Record item := Item {
  it_kind : string;
  it_id : string;
  it_severity : string;
  it_device_id : string;
  it_device_name : string;
  it_since : option string;
  it_rank : Z
}.
Record totals := Totals {
  to_attention : nat;
  to_devices : nat; to_online : nat; to_short : nat; to_long : nat; to_never : nat; to_pending : nat;
  to_rejected : nat; to_failsafe : nat; to_firing : nat
}.
Record health := Health { he_verdict : string; he_attention : list item; he_totals : totals }.

(** The tables the page reads, beside those of the estate and of [Attention]. *)
Record board := Board {
  bo_estate : estate;
  bo_attention : attention;
  bo_rules : table rule_row;
  bo_events : list probe_event;
  bo_device_events : list device_event;
  bo_releases : nat
}.

Definition col_at (d : device) (k : string) : option time := as_int (col d k).
(** [d.display_name or d.id]. *)
Definition device_name (id : string) (d : device) : string :=
  if is_empty (display_name d) then id else display_name d.
Definition item_id (kind target : string) : string := (kind ++ ":" ++ target)%string.

Section inbox.
Context (strftime : time -> string).
#[local] Abbreviation iso := (fmap strftime).

(** ** The devices *)

(** What the silence of a device says. *)
Inductive contact_state := Online | OfflineShort | OfflineLong | NeverSeen | Pending | TooEarly.
#[export] Instance contact_state_eq_dec : EqDecision contact_state.
Proof. solve_decision. Defined.
Definition contact_of (now : time) (d : device) : contact_state :=
  let created := default 0 (col_at d "created_at") in
  match col_at d "last_heartbeat_at" with
  | None =>
    if now - seconds ENROLLMENT_PENDING_WINDOW_SECONDS <=? created then Pending
    else if created <? now - seconds NEVER_HEARTBEATED_GRACE_SECONDS then NeverSeen
    else TooEarly
  | Some hb =>
    if hb <? now - seconds LONG_OFFLINE_SECONDS then OfflineLong
    else if hb <? now - seconds SHORT_OFFLINE_SECONDS then OfflineShort
    else Online
  end.
Definition contact_items (id : string) (d : device) (st : contact_state) : list item :=
  let about kind severity since rank := [Item kind (item_id kind id) severity id (device_name id d) (iso since) rank] in
  match st with
  | Pending => about "enrollment_pending" "info" (col_at d "created_at") 30
  | NeverSeen => about "device_never" "warn" (col_at d "created_at") 50
  | OfflineLong => about "device_offline_long" "warn" (col_at d "last_heartbeat_at") 60
  | OfflineShort => about "device_offline_short" "warn" (col_at d "last_heartbeat_at") 40
  | Online | TooEarly => []
  end.

(** The fields of the desired configuration that the device reports otherwise, or not at all. *)
Definition drifted (desired reported : pydict) : bool :=
  existsb (fun kv : string * json =>
    match dict_get reported kv.1 with None => true | Some got => negb (py_eq got kv.2) end) desired.
Definition config_items (id : string) (d : device) : list item :=
  let about kind severity rank :=
    [Item kind (item_id kind id) severity id (device_name id d) (iso (col_at d "desired_config_updated_at")) rank] in
  if truthy (col d "central_management_enabled") then
    match object_col d "desired_config", object_col d "last_reported_config" with
    | None, _ => []
    | Some _, None => about "desired_config_unconfirmed" "info" 35
    | Some desired, Some reported => if drifted desired reported then about "desired_config_drifted" "warn" 70 else []
    end
  else [].
Definition device_items (now : time) (x : string * device) : list item :=
  contact_items x.1 x.2 (contact_of now x.2) ++ config_items x.1 x.2.
Definition real_devices (h : hub) : list (string * device) :=
  filter (fun x : string * device => truthy (col x.2 "is_qa_fixture") = false) (map_to_list (hub_devices h)).
Definition count_contact (st : contact_state) (now : time) (l : list (string * device)) : nat :=
  length (filter (fun x : string * device => contact_of now x.2 = st) l).

(** ** Refused requests, failsafe reports, the watchdog *)

Definition noise (r : attempt) : bool :=
  in_strs (un_source_ip r) NEVER_REAL_DEVICE_IPS ||
  existsb (fun p => startswith p (lower (or_str (un_claimed_device_id r) "(no device_id)"))) QA_AUTH_REJECTED_PREFIXES.
Definition rejected_item (r : attempt) : option item :=
  if un_hit_count r <? DEVICE_AUTH_REJECTED_MIN_HITS then None
  else if noise r then None
  else
    let ip := if is_empty (un_source_ip r) then "?" else un_source_ip r in
    let cdi := or_str (un_claimed_device_id r) "(no device_id)" in
    Some (Item "device_auth_rejected" (item_id "device_auth_rejected" (cdi ++ ":" ++ ip ++ ":" ++ un_endpoint r))
            "warn" cdi cdi (Some (strftime (un_last_seen_at r))) 35).
Definition rejected_items (now : time) (s : attention) : list item :=
  omap rejected_item (recent_attempts 50 (Some DEVICE_AUTH_REJECTED_LOOKBACK_MINUTES) now s).

Definition failsafe_item (h : hub) (r : failsafe_row) : item :=
  Item "device_failsafe" (item_id "device_failsafe" (fs_id r)) "critical" (fs_device_id r)
    (default (fs_device_id r) (device_name (fs_device_id r) <$> hub_devices h !! fs_device_id r))
    (Some (strftime (fs_received_at r))) 80.
Definition failsafe_items (now : time) (h : hub) (s : attention) : list item :=
  failsafe_item h <$> recent_failsafes 20 DEVICE_FAILSAFE_LOOKBACK_HOURS now s.

Definition fired_since (cutoff : time) (id : string) (events : list probe_event) : bool :=
  existsb (fun e => String.eqb (pe_rule_id e) id && String.eqb (pe_outcome e) "action_fired" && (cutoff <=? pe_at e)) events.
Definition firing (now : time) (events : list probe_event) (id : string) (r : rule) : bool :=
  rc_enabled r && (bool_decide (rt_status r = Firing) || fired_since (now - hours 1) id events).
(** The items, and how many were counted: a target that is no object ends the section, after
    its rule was counted. *)
Fixpoint firing_items (now : time) (events : list probe_event) (rules : list (string * rule)) : nat * list item :=
  match rules with
  | [] => (0%nat, [])
  | (id, r) :: rules =>
    if negb (firing now events id r) then firing_items now events rules
    else match or_dict (rc_target r) with
         | JObj _ =>
           let '(n, l) := firing_items now events rules in
           (S n, Item "watchdog_firing" (item_id "watchdog_firing" id) "warn" id (rc_name r)
                   (iso (rt_last_action_at r)) 70 :: l)
         | _ => (1%nat, [])
         end
  end.
Definition rules_of (c : caller) (b : board) : list (string * rule) :=
  (fun x : string * rule_row => (x.1, rr_rule x.2)) <$> visible c (bo_rules b).

(** ** Verdict and feed *)

Definition verdict (t : totals) : string :=
  if (to_devices t =? 0)%nat then "all-clear"
  else if (to_devices t <? (to_short t + to_long t) * 4)%nat then "degraded"
  else if (0 <? to_attention t)%nat then "attention"
  else "all-clear".

(** [key=lambda x: (-x["rank"], x.get("since") or "")]. *)
Definition item_before (a b : item) : Prop :=
  it_rank b < it_rank a \/
  it_rank a = it_rank b /\ strings.String.le (or_str (it_since a) EmptyString) (or_str (it_since b) EmptyString).
#[export] Instance item_before_dec : RelDecision item_before.
Proof. intros a b. unfold item_before. apply _. Defined.
(** [attention[:limit]]. *)
Definition py_take {A} (n : Z) (l : list A) : list A :=
  if 0 <=? n then take (Z.to_nat n) l else take (length l - Z.to_nat (- n)) l.
Definition feed (limit : Z) (acked : gset string) (items : list item) : list item :=
  py_take limit (merge_sort item_before (filter (fun i => it_id i ∉ acked) items)).

(** Every item before acknowledgements and the limit. *)
Definition all_items (c : caller) (now n1 n2 : time) (b : board) : list item :=
  let h := es_hub (bo_estate b) in
  (x ← real_devices h; device_items now x) ++ rejected_items n1 (bo_attention b) ++
  failsafe_items n2 h (bo_attention b) ++ (firing_items now (bo_events b) (rules_of c b)).2.
Definition totals_of (c : caller) (now n1 n2 : time) (b : board) : totals :=
  let l := real_devices (es_hub (bo_estate b)) in
  let n st := count_contact st now l in
  let rejected := length (rejected_items n1 (bo_attention b)) in
  let failsafe := length (failsafe_items n2 (es_hub (bo_estate b)) (bo_attention b)) in
  let firing := (firing_items now (bo_events b) (rules_of c b)).1 in
  Totals (n OfflineShort + n OfflineLong + n NeverSeen + n Pending + rejected + failsafe + firing)
    (length l) (n Online) (n OfflineShort) (n OfflineLong) (n NeverSeen) (n Pending) rejected failsafe firing.

(** [now] is read first, then the clock of each of the services. *)
Definition health_and_attention (limit : Z) (c : caller) (now n1 n2 n3 : time) (b : board) : health :=
  let t := totals_of c now n1 n2 b in
  Health (verdict t) (feed limit (acked_ids n3 (bo_attention b)) (all_items c now n1 n2 b)) t.

(** ** The counters of the dashboard *)

Definition count_devices (p : device -> bool) (b : board) : nat :=
  length (filter (fun x : string * device => p x.2 = true) (map_to_list (hub_devices (es_hub (bo_estate b))))).
Definition heard_since (cutoff : time) (d : device) : bool :=
  match col_at d "last_heartbeat_at" with Some t => cutoff <=? t | None => false end.
Definition never_heard (d : device) : bool := bool_decide (col_at d "last_heartbeat_at" = None).
Definition in_flight (c : command) : bool :=
  match cmd_state c with Commands.Pending | Accepted | Running => true | _ => false end.
Record stats_payload := Stats {
  st_total : nat; st_online : nat; st_offline_with_history : nat; st_never : nat; st_active : nat;
  st_with_pending : nat; st_groups : nat; st_sites : nat; st_firmware : nat; st_events_24h : nat;
  st_commands_24h : nat; st_rules_total : nat; st_rules_active : nat
}.
Definition stats (online_threshold_seconds : Z) (c : caller) (now : time) (b : board) : stats_payload :=
  let e := bo_estate b in
  let commands := (map_to_list (hub_commands (es_hub e))).*2 in
  let total := count_devices (fun _ => true) b in
  let online := count_devices (heard_since (now - seconds online_threshold_seconds)) b in
  let never := count_devices never_heard b in
  Stats total online (total - online - never) never
    (count_devices (fun d => py_eq (col d "registration_state") (JStr "active")) b)
    (size (list_to_set (cmd_device_id <$> filter (fun k => in_flight k = true) commands) : gset string))
    (length (visible c (es_groups e))) (length (visible c (es_sites e))) (bo_releases b)
    (length (filter (fun v => (now - hours 24 <=? de_at v) = true) (bo_device_events b)))
    (length (filter (fun k => (now - hours 24 <=? cmd_created_at k) = true) commands))
    (length (rules_of c b)) (length (filter (fun x : string * rule => rc_enabled x.2 = true) (rules_of c b))).

Record summary := Summary { su_key : string; su_count : nat; su_severity : string }.
Definition SEVERITY_RANK (s : string) : Z :=
  if String.eqb s "critical" then 0 else if String.eqb s "warn" then 1 else if String.eqb s "info" then 2 else 9.
Definition derive_attention_items (s : stats_payload) (unregistered_active : nat) : list summary :=
  let about key n severity := if (0 <? n)%nat then [Summary key n severity] else [] in
  order_by (fun x => SEVERITY_RANK (su_severity x))
    (about "devices_offline" (st_offline_with_history s) "warn" ++
     about "devices_never_heartbeated" (st_never s) "warn" ++
     about "unregistered_active" unregistered_active "info").

(** The activity feed: kind, instant, actor, target. *)
Record activity := Activity { ay_kind : string; ay_at : time; ay_actor : string; ay_target : option string }.
Definition activity_later (a b : activity) : Prop := String.leb (strftime (ay_at b)) (strftime (ay_at a)) = true.
#[export] Instance activity_later_dec : RelDecision activity_later.
Proof. intros a b. unfold activity_later. apply _. Defined.
Definition recent_activity (limit : Z) (c : caller) (b : board) : list activity :=
  let n := clamp 200 limit in
  let e := bo_estate b in
  take n (merge_sort activity_later
    (((fun a => Activity "admin" (au_at a) (or_str (au_email a) "system") (au_target_id a)) <$>
        take n (order_by_desc au_at (filter (fun a => sees c (au_org a) = true) (es_audit e)))) ++
     ((fun v => Activity "device" (de_at v) (de_device_id v) (Some (de_device_id v))) <$>
        take n (order_by_desc de_at (bo_device_events b))) ++
     ((fun k => Activity "command" (cmd_created_at k) (or_str (cmd_issued_by k) "system") (Some (cmd_id k))) <$>
        take n (order_by_desc cmd_created_at ((map_to_list (hub_commands (es_hub e))).*2))))).
End inbox.
