(* ===== verification/InboxEndpoints.v ===== *)
(** * The writes of the status page ([blueprints/admin/dashboard.py])

    Acknowledging and clearing items, the maintenance switch, page and API, behind their
    role gates.  A maintenance reason of the API is text or nothing. *)

From Stdlib Require Import Ascii.
From S2P Require Import Prelude Commands RuntimeFlags RuntimeSettings TenantScope Enrollment RoleBindings Identity Accounts Invitations.
From S2P Require Import ConfigBackup ConfigRestore RuleForms AuditLog Estate EstateEndpoints Attention Inbox.
Local Open Scope string_scope.
Local Open Scope list_scope.
Local Open Scope Z_scope.

Definition status_page := (flag_table * board)%type.
Definition with_estate (f : estate -> estate) (b : board) : board :=
  Board (f (bo_estate b)) (bo_attention b) (bo_rules b) (bo_events b) (bo_device_events b) (bo_releases b).
Definition with_attention (s : attention) (b : board) : board :=
  Board (bo_estate b) s (bo_rules b) (bo_events b) (bo_device_events b) (bo_releases b).

Section endpoints.
Context `{IsoClock}.
Context (ulid : nat -> string) (strftime : time -> string).
Context (audit_accepts : audit_row -> bool) (remote_addr : option string).
#[local] Abbreviation audited := (audited audit_accepts remote_addr).

(** ** Acknowledgements *)

(** [s.isdigit()], of ASCII text. *)
Fixpoint all_digits (s : string) : bool :=
  match s with String a r => match digit_of a with Some _ => all_digits r | None => false end | EmptyString => true end.
Definition snooze_field (f : form) : option Z :=
  let raw := field f "snooze_seconds" in
  if negb (is_empty raw) && all_digits raw then parse_int raw else None.
Definition ack_attention_submit (o : operator) (attention_id : string) (f : form) (now at_ : time) (p : status_page)
    : outcome estate_answer * status_page :=
  let '(fs, b) := p in
  let snooze := snooze_field f in
  let reason := opt_field f "reason" in
  let '(r, s) := ack ulid strftime attention_id (Some (op_id o)) snooze reason now (bo_attention b) in
  match r with
  | Raise x => (Raise x, (fs, with_attention s b))
  | Ret out =>
    let id := match out with JObj d => dget d "id" | _ => JNull end in
    (Ret Back, (fs, with_estate (audited o "attention.acked" "attention" attention_id
       [("snooze_seconds", from_option JInt JNull snooze); ("reason", ojson reason); ("ack_id", id)] at_)
       (with_attention s b)))
  end.

(** [int(snooze)], a value it refuses being no snooze. *)
Definition snooze_of (v : json) : outcome (option Z) :=
  match v with
  | JNull => Ret None
  | _ => match py_int v with
         | Ret n => Ret (Some n)
         | Raise (TypeError _) | Raise (ValueError _) => Ret None
         | Raise x => Raise x
         end
  end.
(** What of the reason reaches the column: a false value is not copied to a row that exists, and
    a value that is not text is refused by the flush. *)
Definition reason_of (v : json) (known : bool) : outcome (option string) :=
  match v with
  | JNull => Ret None
  | JStr s => Ret (Some s)
  | _ => if known && negb (truthy v) then Ret None else Raise (DBError "attention_acks")
  end.
Definition ack_attention_api (o : operator) (attention_id : string) (body : pydict) (now at_ : time) (p : status_page)
    : outcome estate_answer * status_page :=
  let '(fs, b) := p in
  match snooze ← snooze_of (dget body "snooze_seconds");
        reason ← reason_of (dget body "reason") (bool_decide (is_Some (at_acks (bo_attention b) !! attention_id)));
        Ret (snooze, reason) with
  | Raise x => (Raise x, p)
  | Ret (snooze, reason) =>
    let '(r, s) := ack ulid strftime attention_id (Some (op_id o)) snooze reason now (bo_attention b) in
    match r with
    | Raise x => (Raise x, (fs, with_attention s b))
    | Ret out =>
      (Ret (Answered 200 out), (fs, with_estate (audited o "attention.acked" "attention" attention_id
         [("snooze_seconds", from_option JInt JNull snooze); ("reason", dget body "reason"); ("via", JStr "api")] at_)
         (with_attention s b)))
    end
  end.
Definition unack_with (o : operator) (attention_id : string) (details : pydict) (at_ : time) (b : board) : bool * board :=
  let '(known, s) := unack attention_id (bo_attention b) in
  (known, if known then with_estate (audited o "attention.unacked" "attention" attention_id details at_) (with_attention s b) else b).
Definition unack_attention_submit (o : operator) (attention_id : string) (at_ : time) (p : status_page)
    : outcome estate_answer * status_page :=
  (Ret Back, (p.1, (unack_with o attention_id [] at_ p.2).2)).
Definition unack_attention_api (o : operator) (attention_id : string) (at_ : time) (p : status_page)
    : outcome estate_answer * status_page :=
  let '(known, b) := unack_with o attention_id [("via", JStr "api")] at_ p.2 in
  (Ret (if known then Answered 200 (JObj [("unacked", JBool true)]) else Refused 404), (p.1, b)).

(** ** The maintenance switch *)

Definition toggle (o : operator) (on : bool) (reason : option string) (details : pydict) (n1 n2 at_ : time)
    (p : status_page) : status_page :=
  (set_maintenance_mode on (Some (op_id o)) reason n1 n2 p.1,
   with_estate (audited o "maintenance_mode.toggled" "runtime_flag" "maintenance_mode_active"
     ([("on", JBool on); ("reason", ojson reason)] ++ details) at_) p.2).
Definition toggle_maintenance_submit (o : operator) (f : form) (n1 n2 at_ : time) (p : status_page)
    : outcome estate_answer * status_page :=
  let on := in_strs (lower (default EmptyString (form_get f "on"))) ["1"; "true"; "on"] in
  (Ret Back, toggle o on (opt_field f "reason") [] n1 n2 at_ p).
Definition toggle_maintenance_api (o : operator) (body : pydict) (reason : option string) (n1 n2 at_ : time)
    (p : status_page) : outcome estate_answer * status_page :=
  if negb (dict_has body "on") then (Ret (Refused 400), p)
  else
    let p := toggle o (truthy (dget body "on")) reason [("via", JStr "api")] n1 n2 at_ p in
    (Ret (Answered 200 (JObj (maintenance_mode_details p.1))), p).
Definition get_maintenance_api (p : status_page) : outcome estate_answer * status_page :=
  (Ret (Answered 200 (JObj (maintenance_mode_details p.1))), p).

(** ** The routes *)

Inductive status_request :=
  | AckForm (attention_id : string) (f : form) | AckApi (attention_id : string) (body : pydict)
  | UnackForm (attention_id : string) | UnackApi (attention_id : string)
  | ToggleForm (f : form) | ToggleApi (body : pydict) (reason : option string) | GetMaintenance.
Definition status_roles (q : status_request) : list string :=
  match q with ToggleForm _ | ToggleApi _ _ => [ROLE_SUPER_ADMIN] | _ => ADMIN_AND_UP end.
Definition handle_status (q : status_request) (o : operator) (now n1 n2 : time)
    : status_page -> outcome estate_answer * status_page :=
  match q with
  | AckForm id f => ack_attention_submit o id f now n1
  | AckApi id b => ack_attention_api o id b now n1
  | UnackForm id => unack_attention_submit o id n1
  | UnackApi id => unack_attention_api o id n1
  | ToggleForm f => toggle_maintenance_submit o f now n1 n2
  | ToggleApi b r => toggle_maintenance_api o b r now n1 n2
  | GetMaintenance => get_maintenance_api
  end.
Definition serve_status (jwt_decode : time -> string -> outcome pydict) (mode : enforce) (q : status_request)
    (rq : request) (now n1 n2 : time) (g : idb) (p : status_page) : outcome estate_answer * status_page :=
  match (operator_call jwt_decode mode (status_roles q) (fun status => (Ret (Refused status), p))
           (fun c me u g => (Ret (handle_status q (Operator c me (us_role u) (us_email u)) now n1 n2 p), g)) rq now g).1 with
  | Ret answer => answer
  | Raise x => (Raise x, p)
  end.
End endpoints.
