(* ===== verification/InboxTheorems.v ===== *)
(** * The status page: an exact verdict, a faithful feed, bounded tables

    The verdict as a statement about the devices; what the feed shows and leaves out; how
    long an acknowledgement hides an item ([attention_step]); the table of refused requests
    over any history ([attempt_step]). *)

From stdpp Require Import pretty.
From S2P Require Import Prelude PyFloat EventBus Commands Devices DeviceConfig WatchdogActions WatchdogState WatchdogRules.
From S2P Require Import RuntimeSettings TenantScope Enrollment RoleBindings Identity ConfigBackup AuditLog Estate Attention Inbox.
Local Open Scope string_scope.
Local Open Scope list_scope.
Local Open Scope Z_scope.

(** ** The devices *)

Lemma no_device_is_too_early now d : contact_of now d <> TooEarly.
Proof.
  unfold contact_of, ENROLLMENT_PENDING_WINDOW_SECONDS, NEVER_HEARTBEATED_GRACE_SECONDS, seconds, MICRO.
  repeat case_match; try done. rewrite Z.leb_gt in *. rewrite Z.ltb_ge in *. lia.
Qed.

Lemma online_iff now d : contact_of now d = Online <->
  exists hb, col_at d "last_heartbeat_at" = Some hb /\ now - seconds SHORT_OFFLINE_SECONDS <= hb.
Proof.
  unfold contact_of, LONG_OFFLINE_SECONDS, SHORT_OFFLINE_SECONDS, seconds, MICRO.
  destruct (col_at d "last_heartbeat_at") as [hb|]; [|repeat case_match; naive_solver].
  destruct (Z.ltb_spec hb (now - 24 * 60 * 60 * 1000000)), (Z.ltb_spec hb (now - 3 * 60 * 1000000)); split; try done.
  all: try (intros (x & [= <-] & Hx); lia). intros _. by exists hb.
Qed.

(** Counting by a state. *)
Lemma count_partition now l :
  length l = (count_contact Online now l + count_contact OfflineShort now l + count_contact OfflineLong now l +
              count_contact NeverSeen now l + count_contact Pending now l)%nat.
Proof.
  unfold count_contact. induction l as [|x l IH]; [done|]. rewrite !filter_cons. pose proof (no_device_is_too_early now x.2).
  destruct (contact_of now x.2); repeat case_decide; try done; cbn [length]; lia.
Qed.

Lemma count_zero st now l : count_contact st now l = 0%nat <-> forall x, x ∈ l -> contact_of now x.2 <> st.
Proof.
  unfold count_contact. rewrite length_zero_iff_nil. split.
  - intros E x Hx Hst. assert (Hin : x ∈ filter (fun x : string * device => contact_of now x.2 = st) l) by (by apply list_elem_of_filter).
    rewrite E in Hin. by apply not_elem_of_nil in Hin.
  - intros H. destruct (filter _ l) as [|x r] eqn:E; [done|]. exfalso.
    assert (Hx : x ∈ filter (fun x : string * device => contact_of now x.2 = st) l) by (rewrite E; left).
    apply list_elem_of_filter in Hx as [Hst Hx]. by apply (H x Hx).
Qed.

Lemma all_online now l : count_contact OfflineShort now l = 0%nat -> count_contact OfflineLong now l = 0%nat ->
  count_contact NeverSeen now l = 0%nat -> count_contact Pending now l = 0%nat ->
  forall x, x ∈ l -> contact_of now x.2 = Online.
Proof.
  rewrite !count_zero. intros H1 H2 H3 H4 x Hx. specialize (H1 x Hx). specialize (H2 x Hx). specialize (H3 x Hx).
  specialize (H4 x Hx). pose proof (no_device_is_too_early now x.2). by destruct (contact_of now x.2).
Qed.

Section inbox.
Context (ulid : nat -> string) (strftime : time -> string) (py_repr : json -> string).
#[local] Abbreviation health_and_attention := (health_and_attention strftime).

Lemma verdict_cases t : let offline := (to_short t + to_long t)%nat in
  (verdict t = "all-clear" <-> to_devices t = 0%nat \/ (offline * 4 <= to_devices t /\ to_attention t = 0)%nat) /\
  (verdict t = "degraded" <-> (0 < to_devices t < offline * 4)%nat) /\
  (verdict t = "attention" <-> (0 < to_devices t /\ offline * 4 <= to_devices t /\ 0 < to_attention t)%nat).
Proof.
  cbv zeta. unfold verdict.
  destruct (Nat.eqb_spec (to_devices t) 0), (Nat.ltb_spec (to_devices t) ((to_short t + to_long t) * 4)),
    (Nat.ltb_spec 0 (to_attention t)); split_and!; split; intros; try done; lia.
Qed.

(** C18. The verdict is exact, whatever is acknowledged.  The devices that are no fixtures are
    online, offline for three minutes, offline for a day, never seen, or pending, each in one
    of the five.  With no device at all the verdict is all-clear.  Otherwise it is degraded
    exactly when more than a quarter is offline; all-clear exactly when every device sent a
    heartbeat within three minutes and no device was refused, none fell back and no rule is
    firing; and attention in every other case.  Acknowledging items changes none of it. *)
Theorem verdict_is_exact limit c now n1 n2 n3 b :
  let h := health_and_attention limit c now n1 n2 n3 b in
  let t := he_totals h in
  let real := real_devices (es_hub (bo_estate b)) in
  let quiet := rejected_items strftime n1 (bo_attention b) = [] /\
               failsafe_items strftime n2 (es_hub (bo_estate b)) (bo_attention b) = [] /\
               (firing_items strftime now (bo_events b) (rules_of c b)).1 = 0%nat in
  to_devices t = length real /\
  to_devices t = (to_online t + to_short t + to_long t + to_never t + to_pending t)%nat /\
  (he_verdict h = "degraded" <-> (0 < length real < (to_short t + to_long t) * 4)%nat) /\
  (he_verdict h = "all-clear" <-> real = [] \/ quiet /\ forall x, x ∈ real ->
     exists hb, col_at x.2 "last_heartbeat_at" = Some hb /\ now - seconds SHORT_OFFLINE_SECONDS <= hb) /\
  (he_verdict h = "degraded" \/ he_verdict h = "all-clear" \/ he_verdict h = "attention") /\
  forall acks, let b' := Board (bo_estate b) (with_acks (fun _ => acks) (bo_attention b)) (bo_rules b) (bo_events b)
                           (bo_device_events b) (bo_releases b) in
    let h' := health_and_attention limit c now n1 n2 n3 b' in he_verdict h' = he_verdict h /\ he_totals h' = t.
Proof.
  cbv zeta. unfold Inbox.health_and_attention. cbn [he_totals he_verdict]. set (t := totals_of _ _ _ _ _ _).
  set (real := real_devices _). destruct (verdict_cases t) as (Hc & Hd & Ha). cbv zeta in Hc, Hd, Ha.
  pose proof (count_partition now real) as Hp.
  assert (Ed : to_devices t = length real) by done. rewrite <- Ed in Hp. split_and!; try done.
  - rewrite Hc, Ed. split.
    + intros [H0|[H4 H0]]; [left; by apply length_zero_iff_nil|right]. unfold t, totals_of in H0. cbn [to_attention] in H0.
      fold real in H0. split.
      * split_and!; [apply length_zero_iff_nil; lia|apply length_zero_iff_nil; lia|lia].
      * intros x Hx. apply online_iff. apply (all_online now real); [lia..|done].
    + intros [->|[(E1 & E2 & E3) Ho]]; [by left|right].
      assert (Hz : forall st, st <> Online -> count_contact st now real = 0%nat).
      { intros st Hst. apply count_zero. intros x Hx%Ho%online_iff. congruence. }
      unfold t, totals_of. cbn [to_short to_long to_attention]. fold real. rewrite E1, E2, E3, !Hz by done. cbn. lia.
  - destruct (Nat.eq_dec (to_devices t) 0); [right; left; apply Hc; by left|].
    destruct (le_lt_dec ((to_short t + to_long t) * 4) (to_devices t)); [|left; apply Hd; lia].
    destruct (Nat.eq_dec (to_attention t) 0); [right; left; apply Hc; by right|right; right; apply Ha; lia].
Qed.

(** ** The feed *)

#[local] Instance item_before_total : Total item_before.
Proof.
  intros a b. unfold item_before. destruct (Z.lt_total (it_rank a) (it_rank b)) as [H|[E|H]]; [by right; left| |by left; left].
  destruct (total strings.String.le (or_str (it_since a) EmptyString) (or_str (it_since b) EmptyString)); [left|right]; by right.
Qed.
#[local] Instance item_before_trans : Transitive item_before.
Proof.
  intros a b c [H1|[E1 H1]] [H2|[E2 H2]]; unfold item_before; [left; lia..|right]. split; [lia|by etrans].
Qed.

(** The feed shows the items that are not acknowledged, the highest ranks first, and leaves out
    only items that come after every item it shows. *)
Lemma feed_is_exact limit acked items : 0 <= limit ->
  let shown := feed limit acked items in
  let open := filter (fun i => it_id i ∉ acked) items in
  StronglySorted item_before shown /\ length shown = Nat.min (Z.to_nat limit) (length open) /\
  exists rest, shown ++ rest ≡ₚ open /\ forall i j, i ∈ shown -> j ∈ rest -> item_before i j.
Proof.
  intros Hl. cbv zeta. unfold feed, py_take. rewrite (proj2 (Z.leb_le 0 limit) Hl).
  set (open := filter _ items). set (n := Z.to_nat limit).
  assert (Hs : StronglySorted item_before (merge_sort item_before open)) by (apply StronglySorted_merge_sort; apply _).
  rewrite <- (take_drop n (merge_sort item_before open)) in Hs.
  assert (Hperm : merge_sort item_before open ≡ₚ open) by apply merge_sort_Permutation.
  split_and!.
  - by apply StronglySorted_app_1_l in Hs.
  - rewrite length_take, Hperm. done.
  - exists (drop n (merge_sort item_before open)). rewrite take_drop. split; [done|].
    intros i j. by apply StronglySorted_app_1_elem_of.
Qed.

(** ** Acknowledgements *)

(** A step of the tables during which [id] is neither cleared nor snoozed. *)
Inductive attention_step (id : string) : attention -> attention -> Prop :=
  | st_ack i by_ snooze reason now s : i <> id \/ snooze = None -> attention_step id s (ack ulid strftime i by_ snooze reason now s).2
  | st_unack i s : i <> id -> attention_step id s (unack i s).2
  | st_expire now s : attention_step id s (expire_old_acks now s).2
  | st_failsafe did body now s : attention_step id s (failsafe_report ulid strftime did body now s).2
  | st_refused q body ip path agent auth now s :
      attention_step id s (auth_refused py_repr q body ip path agent auth now s).2.

Definition muted (id : string) (s : attention) : Prop := exists r, at_acks s !! id = Some r /\ ak_snooze_until r = None.

Lemma ack_writes id by_ snooze reason now s :
  match ack ulid strftime id by_ snooze reason now s with
  | (Ret _, s') => exists r, at_acks s' = <[id := r]> (at_acks s) /\ (snooze = None -> ak_snooze_until r = None)
  | (Raise _, s') => at_acks s' = at_acks s
  end.
Proof.
  unfold ack. set (u := snooze ≫= _).
  assert (Hu : snooze = None -> u = None) by (by intros ->). destruct (negb (match u with _ => _ end)); [done|].
  destruct (at_acks s !! id); destruct (negb (fits 120 id)); try done; by eexists.
Qed.

Lemma ack_mutes id by_ reason now s out s' : ack ulid strftime id by_ None reason now s = (Ret out, s') -> muted id s'.
Proof.
  intros E. pose proof (ack_writes id by_ None reason now s) as H. rewrite E in H. destruct H as (r & Hr & Hn).
  exists r. rewrite Hr. split; [apply lookup_insert_eq|by apply Hn].
Qed.

Lemma ack_elsewhere id i by_ snooze reason now s : i <> id -> at_acks (ack ulid strftime i by_ snooze reason now s).2 !! id = at_acks s !! id.
Proof.
  intros Hi. pose proof (ack_writes i by_ snooze reason now s) as H. destruct (ack _ _ _ _ _ _ _ _) as [[] s']; cbn [snd].
  - destruct H as (r & -> & _). by apply lookup_insert_ne.
  - by rewrite H.
Qed.

Lemma ack_keeps_muted id by_ reason now s : muted id s -> muted id (ack ulid strftime id by_ None reason now s).2.
Proof.
  intros Hm. pose proof (ack_mutes id by_ reason now s) as Ha. pose proof (ack_writes id by_ None reason now s) as H.
  destruct (ack _ _ _ _ _ _ _ _) as [[out|x] s']; cbn [snd]; [by eapply Ha|]. unfold muted. by rewrite H.
Qed.

Lemma record_attempt_acks cdi ip ep agent auth now s : at_acks (record_attempt py_repr cdi ip ep agent auth now s) = at_acks s.
Proof. unfold record_attempt, prune, upsert. by repeat case_match. Qed.

Lemma failsafe_report_acks did body now s : at_acks (failsafe_report ulid strftime did body now s).2 = at_acks s.
Proof.
  unfold failsafe_report. destruct (jor body (JObj [])); try done.
  destruct (failed ← _; _) as [[[failed fallback] reason]|]; [|done]. unfold record_failsafe. cbv zeta.
  by match goal with |- context [failsafe_fits ?r] => destruct (failsafe_fits r) end.
Qed.

Lemma step_keeps_muted id s s' : attention_step id s s' -> muted id s -> muted id s'.
Proof.
  destruct 1 as [i by_ snooze reason now s Hi|i s Hi|now s|did body now s|q body ip path agent auth now s]; intros Hm.
  - destruct (decide (i = id)) as [->|Hne]; [destruct Hi as [Hi| ->]; [done|by apply ack_keeps_muted]|].
    unfold muted. by rewrite ack_elsewhere.
  - unfold unack. case_match; [|done]. destruct Hm as (r & Hr & Hn). exists r. cbn. by rewrite lookup_delete_ne.
  - destruct Hm as (r & Hr & Hn). exists r. split; [|done]. apply map_lookup_filter_Some. split; [done|].
    unfold outdated. cbn. by rewrite Hn.
  - unfold muted. by rewrite failsafe_report_acks.
  - unfold auth_refused. cbn [snd]. unfold muted. by rewrite record_attempt_acks.
Qed.

Lemma muted_acked id now s : muted id s -> id ∈ acked_ids now s.
Proof.
  intros (r & Hr & Hn). apply elem_of_dom. exists r. apply map_lookup_filter_Some. split; [done|].
  unfold ack_live. cbn. by rewrite Hn.
Qed.

(** An acknowledgement hides every later occurrence.  Once an item was acknowledged
    without a snooze, no item of that id is shown again, whatever happens to the device
    meanwhile: through any history of acknowledgements, clean-ups, failsafe reports and
    refused requests in which nobody clears that id, and whatever the board shows otherwise. *)
Theorem acknowledged_items_stay_hidden id by_ reason at_ s out s0 s' limit c now n1 n2 n3 b i :
  ack ulid strftime id by_ None reason at_ s = (Ret out, s0) -> rtc (attention_step id) s0 s' ->
  bo_attention b = s' -> i ∈ he_attention (health_and_attention limit c now n1 n2 n3 b) -> it_id i <> id.
Proof.
  intros Hm%ack_mutes Hr Hb Hi.
  assert (Hs : muted id s') by (clear Hb; induction Hr as [|x y z Hxy _ IH]; [done|]; by eapply IH, step_keeps_muted).
  cbn in Hi. unfold feed, py_take in Hi.
  assert (Hin : i ∈ filter (fun i => it_id i ∉ acked_ids n3 (bo_attention b)) (all_items strftime c now n1 n2 b)).
  { rewrite <- (merge_sort_Permutation item_before). case_match; by apply elem_of_take in Hi as (? & ? & _); eapply list_elem_of_lookup_2. }
  apply list_elem_of_filter in Hin as [Hn _]. intros E. apply Hn. rewrite E, Hb. by apply muted_acked.
Qed.

(** ** Refused requests *)

(** What identifies a row: nothing, when the caller claimed no device. *)
Definition caller_key (r : attempt) : option (string * string * string) :=
  d ← un_claimed_device_id r; Some (d, un_source_ip r, un_endpoint r).
Record attempts_ok (s : attention) : Prop := {
  ao_bounded : (length (at_attempts s) <= MAX_ROWS_KEPT)%nat;
  ao_keys : NoDup (omap caller_key (at_attempts s));
  ao_nameless r : r ∈ at_attempts s -> un_claimed_device_id r = None -> un_hit_count r = 1
}.

Lemma same_caller_spec d ip ep r : same_caller (Some d) ip ep r = true <-> caller_key r = Some (d, ip, ep).
Proof.
  unfold same_caller, caller_key. destruct (un_claimed_device_id r) as [d'|]; cbn; [|done].
  rewrite !andb_true_iff, !String.eqb_eq. naive_solver.
Qed.
Lemma same_caller_none ip ep r : same_caller None ip ep r = false.
Proof. done. Qed.

Lemma seen_again_keys cdi ip ep agent auth now (l : list attempt) :
  omap caller_key ((fun r => if same_caller cdi ip ep r then seen_again agent auth now r else r) <$> l) = omap caller_key l.
Proof.
  induction l as [|r l IH]; [done|]. cbn. rewrite IH. by destruct (same_caller cdi ip ep r).
Qed.

Lemma upsert_ok cdi ip ep agent auth now s : attempts_ok s ->
  (length (at_attempts (upsert cdi ip ep agent auth now s)) <= S MAX_ROWS_KEPT)%nat /\
  NoDup (omap caller_key (at_attempts (upsert cdi ip ep agent auth now s))) /\
  forall r, r ∈ at_attempts (upsert cdi ip ep agent auth now s) -> un_claimed_device_id r = None -> un_hit_count r = 1.
Proof.
  intros [H1 H2 H3]. unfold upsert. destruct (existsb (same_caller cdi ip ep) (at_attempts s)) eqn:E.
  - cbn [with_attempts at_attempts]. rewrite length_fmap, seen_again_keys. split_and!; [lia|done|].
    intros r (r' & -> & Hr)%list_elem_of_fmap. destruct (same_caller cdi ip ep r') eqn:Es; [|by apply H3].
    destruct cdi as [d|]; [|done]. apply same_caller_spec in Es. unfold caller_key in Es. intros Hn. cbn in Hn. by rewrite Hn in Es.
  - cbn [with_attempts drawn_id at_attempts]. rewrite length_app. cbn [length].
    split_and!; [lia| |].
    + rewrite omap_app. apply NoDup_app. split_and!; [done| |].
      * intros k Hk Hin. destruct cdi as [d|]; cbn in Hin; [|by apply not_elem_of_nil in Hin].
        apply list_elem_of_singleton in Hin as ->. apply list_elem_of_omap in Hk as (r & Hr & Hk).
        apply same_caller_spec in Hk. assert (Ht : existsb (same_caller (Some d) ip ep) (at_attempts s) = true); [|congruence].
        apply existsb_exists. exists r. by split; [apply list_elem_of_In|].
      * destruct cdi; cbn; [apply NoDup_singleton|constructor].
    + intros r [Hr|Hr]%elem_of_app; [by apply H3|]. by apply list_elem_of_singleton in Hr as ->.
Qed.

Lemma prune_bounded s : (length (at_attempts s) <= S MAX_ROWS_KEPT)%nat -> (length (at_attempts (prune s)) <= MAX_ROWS_KEPT)%nat.
Proof.
  intros H. unfold prune. destruct (Nat.ltb_spec MAX_ROWS_KEPT (length (at_attempts s))) as [Hlt|Hle]; [|done].
  cbv zeta. cbn [with_attempts at_attempts]. set (l := at_attempts s) in *.
  assert (Hperm : order_by un_last_seen_at l ≡ₚ l) by apply order_by_perm.
  destruct (order_by un_last_seen_at l) as [|r q] eqn:Eo.
  { clearbody l. apply Permutation_nil_l in Hperm. rewrite <- Hperm in Hlt. by apply Nat.nlt_0_r in Hlt. }
  assert (Hr : r ∈ l) by (rewrite <- Hperm; left).
  assert (Hlen : (length (filter (fun a => un_id a ∉ un_id <$> take (Nat.max 1 (MAX_ROWS_KEPT / 10)) (r :: q)) l) < length l)%nat); [|lia].
  apply list_elem_of_split in Hr as (l1 & l2 & ->). rewrite filter_app, filter_cons, decide_False.
  - rewrite !length_app. cbn [length]. pose proof (length_filter (fun a => un_id a ∉ un_id <$> take (Nat.max 1 (MAX_ROWS_KEPT / 10)) (r :: q)) l1).
    pose proof (length_filter (fun a => un_id a ∉ un_id <$> take (Nat.max 1 (MAX_ROWS_KEPT / 10)) (r :: q)) l2). lia.
  - intros Hn. apply Hn. apply list_elem_of_fmap_2. destruct (Nat.max 1 (MAX_ROWS_KEPT / 10)) as [|k] eqn:Ek; [lia|]. left.
Qed.

Lemma sublist_omap {A B} (f : A -> option B) (l k : list A) : l `sublist_of` k -> omap f l `sublist_of` omap f k.
Proof.
  induction 1 as [|x l k _ IH|x l k _ IH]; cbn; [done|..].
  - destruct (f x); [by constructor|done].
  - destruct (f x); [by constructor|done].
Qed.

Lemma prune_sublist s : at_attempts (prune s) `sublist_of` at_attempts s.
Proof. unfold prune. case_match; [apply sublist_filter|done]. Qed.

Lemma record_attempt_ok cdi ip ep agent auth now s : attempts_ok s -> attempts_ok (record_attempt py_repr cdi ip ep agent auth now s).
Proof.
  intros Hs. unfold record_attempt. cbv zeta.
  destruct (upsert_ok (sanitize py_repr cdi MAX_DEVICE_ID_LEN) (default "unknown" (sanitize py_repr (ojson ip) 64))
    (default "unknown" (sanitize py_repr (JStr ep) 80)) (sanitize py_repr (ojson agent) MAX_USER_AGENT_LEN) auth now s Hs)
    as (H1 & H2 & H3). set (u := upsert _ _ _ _ _ _ _) in *. split.
  - by apply prune_bounded.
  - eapply sublist_NoDup; [exact H2|]. apply sublist_omap, prune_sublist.
  - intros r Hr. apply H3. eapply elem_of_sublist; [exact Hr|apply prune_sublist].
Qed.

Lemma nodup_omap_lookup {A B} (f : A -> option B) (l : list A) i j a b k :
  NoDup (omap f l) -> l !! i = Some a -> l !! j = Some b -> f a = Some k -> f b = Some k -> i = j.
Proof.
  revert i j. induction l as [|x l IH]; intros i j Hn Ha Hb Ea Eb; [done|]. cbn in Hn.
  assert (Hin : forall n y, l !! n = Some y -> f y = Some k -> k ∈ omap f l).
  { intros n y Hy Ey. apply list_elem_of_omap. exists y. split; [by eapply list_elem_of_lookup_2|done]. }
  destruct i as [|i], j as [|j]; cbn in Ha, Hb; simplify_eq; [done|..].
  - rewrite Ea in Hn. apply NoDup_cons in Hn as [Hk _]. destruct Hk. by eapply Hin.
  - rewrite Eb in Hn. apply NoDup_cons in Hn as [Hk _]. destruct Hk. by eapply Hin.
  - f_equal. apply (IH i j); try done. destruct (f x); [by apply NoDup_cons in Hn as [_ ?]|done].
Qed.

Lemma ack_attempts id by_ snooze reason now s : at_attempts (ack ulid strftime id by_ snooze reason now s).2 = at_attempts s.
Proof.
  unfold ack. set (u := snooze ≫= _). destruct (negb (match u with _ => _ end)); [done|].
  destruct (at_acks s !! id); by destruct (negb (fits 120 id)).
Qed.
Lemma failsafe_report_attempts did body now s : at_attempts (failsafe_report ulid strftime did body now s).2 = at_attempts s.
Proof.
  unfold failsafe_report. destruct (jor body (JObj [])); try done.
  destruct (failed ← _; _) as [[[failed fallback] reason]|]; [|done]. unfold record_failsafe. cbv zeta.
  by match goal with |- context [failsafe_fits ?r] => destruct (failsafe_fits r) end.
Qed.
Lemma attempts_same s s' : at_attempts s' = at_attempts s -> attempts_ok s -> attempts_ok s'.
Proof. intros E [H1 H2 H3]. split; by rewrite E. Qed.

Lemma step_keeps_attempts id s s' : attention_step id s s' -> attempts_ok s -> attempts_ok s'.
Proof.
  destruct 1 as [i by_ snooze reason now s _|i s _|now s|did body now s|q body ip path agent auth now s].
  - apply attempts_same, ack_attempts.
  - apply attempts_same. unfold unack. by case_match.
  - by apply attempts_same.
  - apply attempts_same, failsafe_report_attempts.
  - apply record_attempt_ok.
Qed.

(** C39. The table of refused requests is bounded, and what it says of a caller.  Over any history
    of refused requests, acknowledgements and reports, from an empty table: it never holds
    more than 5000 rows; a device id, an address and an endpoint have one row; and a row of a
    caller that claimed no device was hit once, so such callers never reach the status page,
    however often they try. *)
Theorem refused_requests_are_bounded s0 s : at_attempts s0 = [] ->
  rtc (fun s s' => exists id, attention_step id s s') s0 s ->
  (length (at_attempts s) <= 5000)%nat /\
  (forall a b i j d, at_attempts s !! i = Some a -> at_attempts s !! j = Some b -> un_claimed_device_id a = Some d ->
     un_claimed_device_id b = Some d -> un_source_ip a = un_source_ip b -> un_endpoint a = un_endpoint b -> i = j) /\
  (forall r, r ∈ at_attempts s -> un_claimed_device_id r = None -> rejected_item strftime r = None).
Proof.
  intros H0 Hr.
  assert (Hs : attempts_ok s).
  { assert (Hok : attempts_ok s0) by (split; rewrite H0; [apply Nat.le_0_l|constructor|by intros r []%not_elem_of_nil]).
    clear H0. induction Hr as [|x y z [id Hxy] _ IH]; [done|]. by eapply IH, step_keeps_attempts. }
  destruct Hs as [H1 H2 H3]. split_and!; [done| |].
  - intros a b i j d Ha Hb Ed Ed' Ei Ee. apply (nodup_omap_lookup caller_key (at_attempts s) i j a b (d, un_source_ip a, un_endpoint a)); try done.
    + unfold caller_key. by rewrite Ed.
    + unfold caller_key. by rewrite Ed', Ei, Ee.
  - intros r Hin Hn. unfold rejected_item. by rewrite (H3 r Hin Hn).
Qed.
End inbox.

Module Example.

Definition no_text (_ : time) : string := EmptyString.
Definition no_repr (_ : json) : string := EmptyString.
Definition all : caller := Caller None Shadow.
(** An hour into the second day: a plug silent for ten minutes, one that never called. *)
Definition now : time := hours 25.
Definition plug : device := Device true true None
  {["created_at" := JInt 0; "last_heartbeat_at" := JInt (now - minutes 10); "display_name" := JStr "Pump"]}.
Definition fresh : device := Device true true None {["created_at" := JInt (now - minutes 45)]}.
Definition e0 : estate := Estate (Hub {["dev_1" := plug; "dev_2" := fresh]} ∅ [] [] empty_bus 0) ∅ ∅ ∅ ∅ [] ∅ [] [].
Definition s0 : attention := Attention ∅ [] [] 0.
Definition board_of (s : attention) : board := Board e0 s ∅ [] [] 0.
Definition page (s : attention) : health := health_and_attention no_text 50 all now now now now (board_of s).

Definition offline_id : string := "device_offline_short:dev_1".
Definition s1 : attention := (ack pretty no_text offline_id (Some "usr_1") None None (now - hours 3) s0).2.
Definition s2 : attention := (failsafe_report pretty no_text "dev_2" (JObj [("failed_version", JStr "2.0")]) (now - hours 1) s1).2.

(** The acknowledgement of three hours ago hides the silence of ten minutes; the verdict is
    degraded all the same. *)
Example acknowledged_yet_degraded :
  (it_id <$> he_attention (page s0)) = [offline_id; "enrollment_pending:dev_2"] /\
  (it_kind <$> he_attention (page s2)) = ["device_failsafe"; "enrollment_pending"] /\
  he_verdict (page s2) = "degraded".
Proof. split_and!; vm_compute; reflexivity. Qed.

Lemma acknowledged_items_stay_hidden_witness :
  exists i, i ∈ he_attention (page s2) /\ it_id i <> offline_id.
Proof.
  exists (Item "enrollment_pending" "enrollment_pending:dev_2" "info" "dev_2" "dev_2" (Some EmptyString) 30).
  assert (Hin : Item "enrollment_pending" "enrollment_pending:dev_2" "info" "dev_2" "dev_2" (Some EmptyString) 30 ∈ he_attention (page s2))
    by (vm_compute; right; left).
  split; [exact Hin|].
  apply (acknowledged_items_stay_hidden pretty no_text no_repr offline_id (Some "usr_1") None (now - hours 3) s0
           (match (ack pretty no_text offline_id (Some "usr_1") None None (now - hours 3) s0).1 with Ret out => out | _ => JNull end)
           s1 s2 50 all now now now now (board_of s2)); [vm_compute; reflexivity| |reflexivity|exact Hin].
  apply rtc_once. apply st_failsafe.
Defined.

(** A named caller is shown from its third refusal; one without a name never is. *)
Definition refuse (name : option string) (s : attention) : attention :=
  (auth_refused no_repr name JNull (Some "192.0.2.7") "/api/v1/device/heartbeat" None None now s).2.
Example refusals :
  length (rejected_items no_text now (refuse (Some "dev_9") (refuse (Some "dev_9") (refuse (Some "dev_9") s0)))) = 1%nat /\
  length (at_attempts (refuse None (refuse None (refuse None (refuse None s0))))) = 4%nat /\
  rejected_items no_text now (refuse None (refuse None (refuse None (refuse None s0)))) = [].
Proof. split_and!; vm_compute; reflexivity. Qed.

Lemma refused_requests_are_bounded_witness : (length (at_attempts (refuse (Some "dev_9") s2)) <= 5000)%nat.
Proof.
  apply (refused_requests_are_bounded pretty no_text no_repr s0 (refuse (Some "dev_9") s2)); [reflexivity|].
  apply (rtc_l _ _ s1); [exists "x"; apply st_ack; by right|].
  apply (rtc_l _ _ s2); [exists "x"; apply st_failsafe|]. apply rtc_once. exists "x". apply st_refused.
Defined.
End Example.
