(* ===== verification/UserEndpoints.v ===== *)
(** * The users page and API ([blueprints/admin/users.py])

    Roles, deactivation, revocation of tokens, display names and role bindings of the users,
    for super administrators.  The state is the identity tables and the estate, whose log the
    endpoints write.  [role_bindings.revoke] takes the scope of a binding and not its id: the
    two routes that revoke pass it the id, and Python refuses the call.

    Then what a request can change: [user_step] is the step relation of the identity tables
    under the routes; each request edits one account at most, in the columns it is about, and
    none takes a role binding away. *)

From stdpp Require Import pretty.
From S2P Require Import Prelude EventBus Commands RuntimeSettings TenantScope Enrollment RoleBindings Identity.
From S2P Require Import Accounts Invitations ConfigBackup ConfigRestore RuleForms AuditLog Estate EstateEndpoints.
Local Open Scope string_scope.
Local Open Scope list_scope.
Local Open Scope Z_scope.

Definition people := (idb * estate)%type.
(** What the browser is answered: an answer, or the sign-in page with an empty session. *)
Inductive user_answer := Shown (a : estate_answer) | SignedOut.
Definition refuse (status : Z) : outcome user_answer := Ret (Shown (EstateEndpoints.Refused status)).
Definition redirected : outcome user_answer := Ret (Shown Back).

Section endpoints.
Context (ulid : nat -> string) (strftime : time -> string).
Context (audit_accepts : audit_row -> bool) (remote_addr : option string).
#[local] Abbreviation audited := (audited audit_accepts remote_addr).
#[local] Abbreviation iso_text t := (JStr (strftime t)).

Definition user_audit (o : operator) (action user_id : string) (details : pydict) (at_ : time) (e : estate) : estate :=
  audited o action "user" user_id details at_ e.
Definition serialize_user (id : string) (u : account) : json :=
  JObj [("id", JStr id); ("email", JStr (us_email u)); ("display_name", JStr (us_name u)); ("role", JStr (us_role u));
        ("is_active", JBool (us_active u)); ("is_super_admin", JBool (us_super u)); ("created_at", iso_text (us_created u));
        ("last_login_at", from_option (fun t => iso_text t) JNull (us_last_login u))].
(** [except UserError]. *)
Definition is_user_error (x : exn) : bool := bool_decide (is_Some (caught "UserError" x)).

(** ** Roles and names *)

Definition change_user_role_submit (o : operator) (user_id : string) (f : form) (now at_ : time) (p : people)
    : outcome user_answer * people :=
  let role := default EmptyString (form_get f "role") in
  if negb (in_strs role ALL_ROLES) then (refuse 400, p)
  else
    let '(r, g) := update_user_role user_id role now p.1 in
    match r with
    | Raise x => ((if is_user_error x then refuse 400 else Raise x), (g, p.2))
    | Ret _ => (redirected, (g, user_audit o "user.role_changed" user_id [("new_role", JStr role)] at_ p.2))
    end.
Definition change_user_role (o : operator) (user_id : string) (body : pydict) (now at_ : time) (p : people)
    : outcome user_answer * people :=
  match jor (dget body "role") (JStr EmptyString) with
  | JStr role =>
    if negb (in_strs role ALL_ROLES) then (refuse 400, p)
    else
      let '(r, g) := update_user_role user_id role now p.1 in
      match r with
      | Raise x => ((if is_user_error x then refuse 400 else Raise x), (g, p.2))
      | Ret None => (refuse 404, (g, p.2))
      | Ret (Some u) =>
        (Ret (Shown (Answered 200 (serialize_user user_id u))),
         (g, user_audit o "user.role_changed" user_id [("new_role", JStr role)] at_ p.2))
      end
  | _ => (refuse 400, p)
  end.

Definition change_display_name_submit (o : operator) (user_id : string) (f : form) (now at_ : time) (p : people)
    : outcome user_answer * people :=
  let name := field f "display_name" in
  if is_empty name then (refuse 400, p)
  else
    let '(r, g) := update_user_display_name user_id name now p.1 in
    match r with
    | Raise x => ((if is_user_error x then refuse 400 else Raise x), (g, p.2))
    | Ret _ => (redirected, (g, user_audit o "user.display_name_changed" user_id [("new_display_name", JStr name)] at_ p.2))
    end.
Definition change_user_display_name_api (o : operator) (user_id : string) (body : pydict) (now at_ : time) (p : people)
    : outcome user_answer * people :=
  match strip_or_empty (dget body "display_name") with
  | Raise x => (Raise x, p)
  | Ret name =>
    if is_empty name then (refuse 400, p)
    else
      let '(r, g) := update_user_display_name user_id name now p.1 in
      match r with
      | Raise x => ((if is_user_error x then refuse 400 else Raise x), (g, p.2))
      | Ret None => (refuse 404, (g, p.2))
      | Ret (Some u) =>
        (Ret (Shown (Answered 200 (serialize_user user_id u))),
         (g, user_audit o "user.display_name_changed" user_id [("new_display_name", JStr name)] at_ p.2))
      end
  end.

(** ** Deactivation and revocation *)

Definition deactivate_user_submit (o : operator) (user_id : string) (now at_ : time) (p : people)
    : outcome user_answer * people :=
  if String.eqb user_id (op_id o) then (refuse 403, p)
  else
    let '(r, g) := deactivate_user user_id now p.1 in
    match r with
    | Raise x => (Raise x, (g, p.2))
    | Ret _ => (redirected, (g, user_audit o "user.deactivated" user_id [] at_ p.2))
    end.
Definition deactivate_user_api (o : operator) (user_id : string) (now at_ : time) (p : people)
    : outcome user_answer * people :=
  if String.eqb user_id (op_id o) then (refuse 403, p)
  else
    let '(r, g) := deactivate_user user_id now p.1 in
    match r with
    | Raise x => (Raise x, (g, p.2))
    | Ret None => (refuse 404, (g, p.2))
    | Ret (Some _) =>
      (Ret (Shown (Answered 200 (JObj [("deactivated", JBool true)]))), (g, user_audit o "user.deactivated" user_id [] at_ p.2))
    end.

Definition revoke_tokens_submit (o : operator) (user_id : string) (now later at_ : time) (p : people)
    : outcome user_answer * people :=
  let '(r, g) := revoke_all_tokens user_id now later p.1 in
  match r with
  | Raise x => (Raise x, (g, p.2))
  | Ret _ =>
    ((if String.eqb user_id (op_id o) then Ret SignedOut else redirected),
     (g, user_audit o "user.tokens_revoked" user_id [] at_ p.2))
  end.
Definition revoke_tokens_api (o : operator) (user_id : string) (now later at_ : time) (p : people)
    : outcome user_answer * people :=
  let '(r, g) := revoke_all_tokens user_id now later p.1 in
  match r with
  | Raise x => (Raise x, (g, p.2))
  | Ret false => (refuse 404, (g, p.2))
  | Ret true =>
    (Ret (Shown (Answered 200 (JObj [("revoked", JBool true)]))), (g, user_audit o "user.tokens_revoked" user_id [] at_ p.2))
  end.

(** ** Role bindings *)

(** [rb.grant(...)] under [except Exception]: the validation, the flush (the user exists, the
    columns are long enough) and the row. *)
Definition grant_binding (o : operator) (user_id scope_type : string) (scope_id : option string) (role : string)
    (now : time) (g : idb) : option binding * idb :=
  let c := op_caller o in
  match grant (reads c) (TenantCtx (ca_org c) false false) (new_id ulid "rb" (id_next g)) user_id scope_type scope_id role
          None now (id_rbac g) with
  | (Ret b, db) =>
    if bool_decide (is_Some (id_users g !! user_id)) && ofits 40 scope_id
    then (Some b, on_rbac (fun _ => db) (draw_id g)) else (None, g)
  | (Raise _, _) => (None, g)
  end.
Definition binding_details (b : binding) (scope_type : string) (scope_id : option string) (role : string) : pydict :=
  [("binding_id", JStr (rb_id b)); ("scope_type", JStr scope_type); ("scope_id", ojson scope_id); ("role", JStr role)].
(** What both routes do once the body was read. *)
Definition grant_with (o : operator) (user_id scope_type : string) (scope_id : option string) (role : string)
    (ok : binding -> outcome user_answer) (now at_ : time) (p : people) : outcome user_answer * people :=
  if is_empty scope_type || is_empty role then (refuse 400, p)
  else if negb (String.eqb scope_type "global") && negb (truthy_str scope_id) then (refuse 400, p)
  else
    match grant_binding o user_id scope_type scope_id role now p.1 with
    | (None, g) => (refuse 400, (g, p.2))
    | (Some b, g) =>
      (ok b, (g, user_audit o "user.binding_granted" user_id (binding_details b scope_type scope_id role) at_ p.2))
    end.
Definition grant_user_binding_ui (o : operator) (user_id : string) (f : form) (now at_ : time) (p : people)
    : outcome user_answer * people :=
  grant_with o user_id (default EmptyString (form_get f "scope_type")) (form_get f "scope_id")
    (default EmptyString (form_get f "role")) (fun _ => redirected) now at_ p.
(** A value of another type than text is refused, by one check or the other. *)
Definition grant_user_binding (o : operator) (user_id : string) (body : pydict) (now at_ : time) (p : people)
    : outcome user_answer * people :=
  match dget body "scope_type", dget body "role",
        (match dget body "scope_id" with JNull => Some None | JStr s => Some (Some s) | _ => None end) with
  | JStr scope_type, JStr role, Some scope_id =>
    grant_with o user_id scope_type scope_id role (fun b => Ret (Shown (Answered 201 (JObj [("binding", JObj
      [("id", JStr (rb_id b)); ("scope_type", JStr (rb_scope_type b)); ("scope_id", ojson (rb_scope_id b));
       ("role", JStr (rb_role b)); ("created_at", iso_text (rb_created_at b))])])))) now at_ p
  | _, _, _ => (refuse 400, p)
  end.

(** [rb.revoke(user_id=..., binding_id=...)]. *)
Definition revoke_by_id (user_id binding_id : string) (g : idb) : outcome bool * idb :=
  (Raise (TypeError "unexpected keyword argument"), g).
Definition revoke_binding_with (o : operator) (user_id binding_id : string) (ok : outcome user_answer) (at_ : time) (p : people)
    : outcome user_answer * people :=
  match revoke_by_id user_id binding_id p.1 with
  | (Raise _, g) => (refuse 400, (g, p.2))
  | (Ret false, g) => (refuse 404, (g, p.2))
  | (Ret true, g) => (ok, (g, user_audit o "user.binding_revoked" user_id [("binding_id", JStr binding_id)] at_ p.2))
  end.
Definition revoke_user_binding_ui (o : operator) (user_id binding_id : string) (at_ : time) (p : people)
    : outcome user_answer * people :=
  revoke_binding_with o user_id binding_id redirected at_ p.
Definition revoke_user_binding (o : operator) (user_id binding_id : string) (at_ : time) (p : people)
    : outcome user_answer * people :=
  revoke_binding_with o user_id binding_id (Ret (Shown (Answered 200 (JObj [("revoked", JBool true)])))) at_ p.
(** The rows of [list_for_user] are dicts, whose [.id] does not exist. *)
Definition get_user_bindings (o : operator) (user_id : string) (p : people) : outcome user_answer * people :=
  (match list_for_user (reads (op_caller o)) user_id (id_rbac p.1) with
   | [] => Ret (Shown (Answered 200 (JObj [("user_id", JStr user_id); ("bindings", JList [])])))
   | _ :: _ => Raise (AttributeError "id")
   end, p).
Definition list_users_api (p : people) : outcome user_answer * people :=
  (Ret (Shown (Answered 200 (JObj [("users", JList ((fun x : string * account => serialize_user x.1 x.2) <$> list_users p.1))]))), p).

(** ** The routes *)

Inductive user_request :=
  | ListUsers | RoleForm (id : string) (f : form) | RoleApi (id : string) (body : pydict)
  | NameForm (id : string) (f : form) | NameApi (id : string) (body : pydict)
  | DeactivateForm (id : string) | DeactivateApi (id : string)
  | RevokeTokensForm (id : string) | RevokeTokensApi (id : string)
  | GetBindings (id : string) | GrantForm (id : string) (f : form) | GrantApi (id : string) (body : pydict)
  | RevokeBindingForm (id binding_id : string) | RevokeBindingApi (id binding_id : string).
Definition user_roles (q : user_request) : list string :=
  match q with ListUsers => ADMIN_AND_UP | _ => SUPER_ADMIN_ONLY end.
Definition handle_users (q : user_request) (o : operator) (now later at_ : time) (p : people) : outcome user_answer * people :=
  match q with
  | ListUsers => list_users_api p
  | RoleForm id f => change_user_role_submit o id f now at_ p
  | RoleApi id b => change_user_role o id b now at_ p
  | NameForm id f => change_display_name_submit o id f now at_ p
  | NameApi id b => change_user_display_name_api o id b now at_ p
  | DeactivateForm id => deactivate_user_submit o id now at_ p
  | DeactivateApi id => deactivate_user_api o id now at_ p
  | RevokeTokensForm id => revoke_tokens_submit o id now later at_ p
  | RevokeTokensApi id => revoke_tokens_api o id now later at_ p
  | GetBindings id => get_user_bindings o id p
  | GrantForm id f => grant_user_binding_ui o id f now at_ p
  | GrantApi id b => grant_user_binding o id b now at_ p
  | RevokeBindingForm id b => revoke_user_binding_ui o id b at_ p
  | RevokeBindingApi id b => revoke_user_binding o id b at_ p
  end.
Definition serve_users (jwt_decode : time -> string -> outcome pydict) (mode : enforce) (q : user_request)
    (rq : request) (now later at_ : time) (p : people) : outcome user_answer * people :=
  match (role_required_api jwt_decode (user_roles q) rq now p.1).1 with
  | AuthRequired => (refuse 401, p)
  | Forbidden => (refuse 403, p)
  | Enter me u =>
    let c := Caller (tc_org (bind_tenant_scope me (rq_cookie rq) p.1).1) mode in
    handle_users q (Operator c me (us_role u) (us_email u)) now later at_ p
  end.
End endpoints.

(** ** Bindings *)

Definition same_grant (b b' : binding) : Prop :=
  rb_id b' = rb_id b /\ rb_org b' = rb_org b /\ rb_user b' = rb_user b /\ rb_scope_type b' = rb_scope_type b /\
  rb_scope_id b' = rb_scope_id b.
(** Every binding is still there, perhaps with another role. *)
Definition bindings_kept (g g' : idb) : Prop :=
  forall b, b ∈ rd_bindings (id_rbac g) -> exists b', b' ∈ rd_bindings (id_rbac g') /\ same_grant b b'.

Lemma bindings_kept_refl g : bindings_kept g g.
Proof. intros b Hb. by exists b. Qed.
Lemma bindings_kept_same g g' : id_rbac g' = id_rbac g -> bindings_kept g g'.
Proof. intros E b Hb. exists b. by rewrite E. Qed.
Lemma bindings_kept_trans g1 g2 g3 : bindings_kept g1 g2 -> bindings_kept g2 g3 -> bindings_kept g1 g3.
Proof.
  intros H1 H2 b (b1 & Hb1 & (E1 & E2 & E3 & E4 & E5))%H1. apply H2 in Hb1 as (b2 & Hb2 & (F1 & F2 & F3 & F4 & F5)).
  exists b2. split; [done|]. split_and!; congruence.
Qed.

Lemma update_first_kept p role now l b : b ∈ l -> exists b', b' ∈ update_first p (set_role role now) l /\ same_grant b b'.
Proof.
  induction l as [|x l IH]; [by intros []%not_elem_of_nil|]. cbn. intros [->|Hb]%elem_of_cons.
  - destruct (p x); eexists; (split; [left|done]).
  - destruct (p x); [exists b; by split; [right|]|]. apply IH in Hb as (b' & Hb' & E). exists b'. by split; [right|].
Qed.

Lemma grant_binding_kept ulid o id st sid role now g : bindings_kept g (UserEndpoints.grant_binding ulid o id st sid role now g).2.
Proof.
  unfold UserEndpoints.grant_binding, grant. destruct (validate_grant st sid role); [|apply bindings_kept_refl].
  destruct (find _ _) as [b0|].
  - destruct (bool_decide _ && _); [|apply bindings_kept_refl]. intros b Hb. cbn. by apply update_first_kept.
  - destruct (stamped_org _) as [org|]; [|apply bindings_kept_refl].
    destruct (bool_decide _ && _); [|apply bindings_kept_refl]. intros b Hb. cbn. exists b.
    split; [by apply elem_of_app; left|done].
Qed.

(** ** Accounts *)

(** The account a request names. *)
Definition named (q : user_request) : option string :=
  match q with
  | RoleForm id _ | RoleApi id _ | NameForm id _ | NameApi id _ | DeactivateForm id | DeactivateApi id
  | RevokeTokensForm id | RevokeTokensApi id => Some id
  | _ => None
  end.
Definition deactivates (q : user_request) : bool :=
  match q with DeactivateForm _ | DeactivateApi _ => true | _ => false end.
(** What no request edits; only a deactivation touches the active flag. *)
Record same_person (off : bool) (u u' : account) : Prop := {
  sp_email : us_email u' = us_email u;
  sp_password : us_password u' = us_password u;
  sp_created : us_created u' = us_created u;
  sp_last_login : us_last_login u' = us_last_login u;
  sp_active : off = false -> us_active u' = us_active u
}.
Lemma same_person_refl off u : same_person off u u.
Proof. by split. Qed.

(** One account edited, the rest of the tables as they were. *)
Record confined (who : option string) (off : bool) (g g' : idb) : Prop := {
  cf_others k : Some k <> who -> id_users g' !! k = id_users g !! k;
  cf_named k u : id_users g !! k = Some u -> exists u', id_users g' !! k = Some u' /\ same_person off u u';
  cf_bindings : bindings_kept g g'
}.
Lemma confined_same who off g g' : id_users g' = id_users g -> bindings_kept g g' -> confined who off g g'.
Proof. intros E H. split; [by rewrite E| |done]. intros k u Hu. exists u. rewrite E. by split; [|apply same_person_refl]. Qed.
Lemma confined_refl who off g : confined who off g g.
Proof. by apply confined_same, bindings_kept_refl. Qed.

Lemma edit_confined off id f g : (forall u, same_person off u (f u)) -> confined (Some id) off g (session_scope (edit_account id f) g).2.
Proof.
  intros Hf. unfold session_scope, edit_account. destruct (id_users g !! id) as [u|] eqn:E; [|apply confined_refl].
  destruct (account_fits (f u)); [|apply confined_refl]. cbn. split; cbn.
  - intros k Hk. rewrite lookup_insert_ne; [done|congruence].
  - intros k v Hv. destruct (decide (id = k)) as [->|Hne].
    + rewrite lookup_insert_eq. simplify_eq. eexists. by split; [|apply Hf].
    + rewrite lookup_insert_ne by done. exists v. by split; [|apply same_person_refl].
  - by apply bindings_kept_same.
Qed.

Lemma role_confined id role now g : confined (Some id) false g (update_user_role id role now g).2.
Proof. unfold update_user_role. destruct (negb _); [apply confined_refl|]. by apply edit_confined. Qed.
Lemma name_confined id n now g : confined (Some id) false g (update_user_display_name id n now g).2.
Proof. unfold update_user_display_name. destruct (is_empty _); [apply confined_refl|]. by apply edit_confined. Qed.
Lemma deactivate_confined id now g : confined (Some id) true g (deactivate_user id now g).2.
Proof. by apply edit_confined. Qed.
Lemma revoke_tokens_confined id now later g : confined (Some id) false g (revoke_all_tokens id now later g).2.
Proof.
  unfold revoke_all_tokens. pose proof (edit_confined false id (fun u => touch now (set_valid_after now u)) g (fun u => ltac:(by split))) as H.
  destruct (session_scope _ g) as [[[u|]|] g']; [|done..]. cbn [snd] in *. by destruct H as [H1 H2 H3].
Qed.

Section users.
Context (ulid : nat -> string) (strftime : time -> string).
Context (audit_accepts : audit_row -> bool) (remote_addr : option string).
#[local] Abbreviation handle_users := (handle_users ulid strftime audit_accepts remote_addr).

Lemma grant_with_confined o id st sid role ok now at_ p who off :
  confined who off p.1 (grant_with ulid audit_accepts remote_addr o id st sid role ok now at_ p).2.1.
Proof.
  unfold grant_with. destruct (is_empty st || is_empty role); [apply confined_refl|]. destruct (_ && _); [apply confined_refl|].
  pose proof (grant_binding_kept ulid o id st sid role now p.1) as H.
  assert (E : id_users (UserEndpoints.grant_binding ulid o id st sid role now p.1).2 = id_users p.1).
  { unfold UserEndpoints.grant_binding. destruct (grant _ _ _ _ _ _ _ _ _ _) as [[b|] db]; [|done]. by destruct (_ && _). }
  destruct (UserEndpoints.grant_binding _ _ _ _ _ _ _ _) as [[b|] g]; cbn [fst snd] in *; by apply confined_same.
Qed.

(** The edit a handler makes, whatever it then answers. *)
Ltac edited H :=
  let K := fresh "Hedit" in pose proof H as K;
  match type of K with confined _ _ _ ?x.2 => destruct x as [[]?] end; cbn [snd] in K; repeat case_match; exact K.

Lemma handle_confined q o now later at_ p : confined (named q) (deactivates q) p.1 (handle_users q o now later at_ p).2.1.
Proof.
  destruct q as [|id f|id b|id f|id b|id|id|id|id|id|id f|id b|id b|id b];
    cbn [UserEndpoints.handle_users named deactivates]; try apply confined_refl; try apply grant_with_confined.
  - unfold change_user_role_submit. destruct (negb _); [apply confined_refl|].
    edited (role_confined id (default EmptyString (form_get f "role")) now p.1).
  - unfold change_user_role. destruct (jor _ _) as [| | | |role| |]; try apply confined_refl.
    destruct (negb _); [apply confined_refl|]. edited (role_confined id role now p.1).
  - unfold change_display_name_submit. cbv zeta. destruct (is_empty _); [apply confined_refl|].
    edited (name_confined id (field f "display_name") now p.1).
  - unfold change_user_display_name_api. destruct (strip_or_empty _) as [name|]; [|apply confined_refl].
    destruct (is_empty _); [apply confined_refl|]. edited (name_confined id name now p.1).
  - unfold deactivate_user_submit. destruct (String.eqb _ _); [apply confined_refl|]. edited (deactivate_confined id now p.1).
  - unfold deactivate_user_api. destruct (String.eqb _ _); [apply confined_refl|]. edited (deactivate_confined id now p.1).
  - unfold revoke_tokens_submit. edited (revoke_tokens_confined id now later p.1).
  - unfold revoke_tokens_api. edited (revoke_tokens_confined id now later p.1).
  - unfold grant_user_binding. destruct (dget b "scope_type"), (dget b "role"); try apply confined_refl.
    destruct (dget b "scope_id"); first [apply grant_with_confined|apply confined_refl].
Qed.

(** ** Who may, and what happens *)

#[local] Abbreviation serve_users := (serve_users ulid strftime audit_accepts remote_addr).

(** C23. A request to the users page or API is confined.  Nobody but a super administrator
    changes anything.  A request changes no account but the one it names, and there neither
    the e-mail, the password, the creation nor the last sign-in; only a deactivation touches
    the active flag, and never that of the operator; and no role binding is taken away,
    whatever is asked for. *)
Theorem user_requests_are_confined jwt_decode mode q rq now later at_ p :
  let p' := (serve_users jwt_decode mode q rq now later at_ p).2 in
  match (role_required_api jwt_decode (user_roles q) rq now p.1).1 with
  | Enter me u =>
    (q <> ListUsers -> us_role u = ROLE_SUPER_ADMIN) /\
    (forall k, Some k <> named q -> id_users p'.1 !! k = id_users p.1 !! k) /\
    (forall k v, id_users p.1 !! k = Some v -> exists v', id_users p'.1 !! k = Some v' /\
       same_person (deactivates q && negb (String.eqb k me)) v v') /\
    bindings_kept p.1 p'.1
  | _ => p' = p
  end.
Proof.
  cbv zeta. unfold UserEndpoints.serve_users. destruct (role_required_api _ _ _ _ _).1 as [| |me u] eqn:Eg; [done..|].
  set (o := Operator _ _ _ _). pose proof (handle_confined q o now later at_ p) as [H1 H2 H3]. split_and!; [|exact H1| |exact H3].
  - intros Hq. revert Eg. unfold role_required_api, role_required.
    assert (Er : user_roles q = SUPER_ADMIN_ONLY) by (by destruct q). rewrite Er.
    destruct (resolve_user _ _ _ _) as [[[i v]|] ck]; [|done].
    unfold SUPER_ADMIN_ONLY. cbn [fst]. destruct (in_strs (us_role v) [ROLE_SUPER_ADMIN]) eqn:Ei; [|done].
    intros [= _ <-]. apply in_strs_spec in Ei. by apply list_elem_of_singleton in Ei.
  - intros k v Hv. destruct (String.eqb_spec k me) as [->|Hne]; [|rewrite andb_true_r; by apply H2].
    rewrite andb_false_r. destruct (deactivates q) eqn:Ed; [|by apply H2].
    destruct (decide (Some me = named q)) as [En|Hn]; [|exists v; split; [by rewrite H1|apply same_person_refl]].
    exists v. split; [|apply same_person_refl].
    destruct q as [| | | | |id|id| | | | | | |]; try done; injection En as <-; cbn [UserEndpoints.handle_users];
      unfold deactivate_user_submit, deactivate_user_api; by rewrite String.eqb_refl.
Qed.

(** Role bindings are never revoked.  Both routes that exist to revoke one answer 400 and
    change nothing, so over any history of requests, of any operators, every binding that was
    granted is still in force. *)
Theorem bindings_are_never_revoked p p' :
  rtc (fun p p' => exists q o now later at_, p' = (handle_users q o now later at_ p).2) p p' ->
  bindings_kept p.1 p'.1 /\
  forall o id binding_id at_, revoke_user_binding_ui audit_accepts remote_addr o id binding_id at_ p' = (refuse 400, p') /\
    revoke_user_binding audit_accepts remote_addr o id binding_id at_ p' = (refuse 400, p').
Proof.
  intros Hr. split.
  - induction Hr as [x|x y z (q & o & now & later & at_ & ->) _ IH]; [apply bindings_kept_refl|].
    eapply bindings_kept_trans; [apply (handle_confined q o now later at_ x)|exact IH].
  - intros. unfold revoke_user_binding_ui, revoke_user_binding, revoke_binding_with. cbn. by destruct p'.
Qed.
End users.

Module Example.

Definition no_text (_ : time) : string := EmptyString.
Definition accepts (_ : audit_row) : bool := true.
Definition no_jwt (_ : time) (_ : string) : outcome pydict := Raise (ValueError "jwt").
Definition root : account := Account "r@example.org" "h" "R" true true true ROLE_SUPER_ADMIN 0 0 0 None.
Definition guest : account := Account "g@example.org" "h" "G" true false false ROLE_VIEWER 0 0 0 None.
Definition g0 : idb := Idb {["usr_r" := root; "usr_g" := guest]} ∅ ∅ ∅ ∅ ∅ ∅ ∅ (RbacDb [] ∅ ∅ ∅ []) ∅ 0.
Definition e0 : estate := Estate (Hub ∅ ∅ [] [] empty_bus 0) ∅ ∅ ∅ ∅ [] ∅ [] [].
Definition me : operator := Operator (Caller (Some "org_a") Enforce) "usr_r" ROLE_SUPER_ADMIN "r@example.org".
Definition handle := handle_users pretty no_text accepts None.
Definition site_grant : user_request :=
  GrantApi "usr_g" [("scope_type", JStr "site"); ("scope_id", JStr "site_1"); ("role", JStr "admin")].
Definition p1 : people := (handle site_grant me 5 5 5 (g0, e0)).2.

Lemma bindings_are_never_revoked_witness :
  bindings_kept g0 p1.1 /\ revoke_user_binding accepts None me "usr_g" (new_id pretty "rb" 0) 7 p1 = (refuse 400, p1).
Proof.
  destruct (bindings_are_never_revoked pretty no_text accepts None (g0, e0) p1) as [H1 H2].
  - apply rtc_once. exists site_grant, me, 5, 5, 5. reflexivity.
  - split; [exact H1|apply H2].
Defined.

(** The binding of the guest cannot be listed, the global one of the form cannot be granted, and the
    last super administrator may demote himself. *)
Example lockouts :
  (rb_role <$> rd_bindings (id_rbac p1.1)) = ["admin"] /\
  (handle (GetBindings "usr_g") me 6 6 6 p1).1 = Raise (AttributeError "id") /\
  (handle (GrantForm "usr_g" [("scope_type", "global"); ("scope_id", EmptyString); ("role", "viewer")]) me 6 6 6 p1).1 = refuse 400 /\
  (us_role <$> rows (id_users (handle (RoleApi "usr_r" [("role", JStr ROLE_VIEWER)]) me 6 6 6 p1).2.1)) = [ROLE_VIEWER; ROLE_VIEWER].
Proof. split_and!; vm_compute; reflexivity. Qed.
End Example.
