(* ===== verification/DeviceQueries.v ===== *)
(** * Device lists and details ([devices/_query.py], [_versions.py])

    What the device pages read: the filtered list with the state of each device, the detail
    of one, the firmware cohorts, the newest stable release.  Lists pass the role-binding
    filter.  Labels and reasons (prose) are left out of the rows; the detail is a record of its
    parts before they are rendered.

    Then what they show: the list has the selected devices in the scope of the reader, each
    once, the newest first; the upgrade the pages offer is the highest stable version and moves
    forward only; the firmware cohorts split the fleet. *)

From Stdlib Require Import Ascii.
From Stdlib Require Import OrdersEx.
From stdpp Require Import pretty.
From S2P Require Import Prelude PyFloat EventBus Commands PowerSamples RuntimeSettings Devices Deployments DeviceConfig.
From S2P Require Import Heartbeats TenantScope Enrollment RoleBindings Identity Accounts ConfigBackup AuditLog.
From S2P Require Import Estate FirmwareStore Attention Inbox.
Local Open Scope string_scope.
Local Open Scope list_scope.
Local Open Scope Z_scope.

(** ** Versions *)

(** [v.partition(c)]: what stands before and after the first [c]. *)
Fixpoint partition_at (c : Ascii.ascii) (s : string) : string * string :=
  match s with
  | EmptyString => (EmptyString, EmptyString)
  | String a r => if Ascii.eqb a c then (EmptyString, r) else let '(h, t) := partition_at c r in (String a h, t)
  end.
Definition version_key := (list Z * string)%type.
Definition version_sort_key (v : option string) : version_key :=
  match v with
  | None | Some EmptyString => ([-1], EmptyString)
  | Some v =>
    let '(head, tail) := partition_at "-"%char v in
    ((fun p => default 0 (parse_int p)) <$> split_on "."%char head, tail)
  end.
(** [<] on tuples of integers. *)
Fixpoint zs_lt (a b : list Z) : bool :=
  match a, b with
  | _, [] => false
  | [], _ :: _ => true
  | x :: a, y :: b => (x <? y) || (x =? y) && zs_lt a b
  end.
Definition is_upgrade (target_version current_version : option string) : bool :=
  if negb (truthy_str target_version) || negb (truthy_str current_version) then false
  else zs_lt (version_sort_key current_version).1 (version_sort_key target_version).1.
(** [<] on the whole keys. *)
Definition key_lt (a b : version_key) : bool :=
  zs_lt a.1 b.1 || bool_decide (a.1 = b.1) && String.ltb a.2 b.2.
(** [max(rows, key=...)]: the first of the greatest. *)
Definition max_by {A} (lt : A -> A -> bool) (l : list A) : option A :=
  match l with [] => None | x :: l => Some (foldl (fun best y => if lt best y then y else best) x l) end.
Definition older_release (a b : string * firmware_release) : bool :=
  key_lt (version_sort_key (Some (fr_version a.2))) (version_sort_key (Some (fr_version b.2))).
(** The stable releases the query reads: the 200 last uploaded. *)
Definition stable_releases (t : gmap string firmware_release) : list (string * firmware_release) :=
  take 200 (order_by_desc (fun x : string * firmware_release => fr_created_at x.2)
    (filter (fun x : string * firmware_release => fr_channel x.2 = "stable") (map_to_list t))).
Definition latest_stable_release_dict (t : gmap string firmware_release) : option (string * firmware_release) :=
  max_by older_release (stable_releases t).

(** ** Firmware cohorts *)

Record cohort := Cohort { co_version : string; co_devices : list (string * string); co_majority : bool }.
Definition cohort_version (d : device) : string :=
  let v := strip (match col d "firmware_version" with JStr s => if is_empty s then "(unknown)" else s | _ => "(unknown)" end) in
  if is_empty v then "(unknown)" else v.
Definition cohort_before (a b : string * list (string * string)) : Prop :=
  (length b.2 < length a.2)%nat \/ length a.2 = length b.2 /\ strings.String.le a.1 b.1.
#[export] Instance cohort_before_dec : RelDecision cohort_before.
Proof. intros a b. unfold cohort_before. apply _. Defined.
Definition members_of (v : string) (l : list (string * device)) : list (string * string) :=
  sorted_by snd ((fun x : string * device => (x.1, device_name x.1 x.2)) <$>
                   filter (fun x : string * device => cohort_version x.2 = v) l).
Definition firmware_version_breakdown (include_qa_fixtures : bool) (h : hub) : list cohort :=
  let l := if include_qa_fixtures then map_to_list (hub_devices h) else real_devices h in
  let versions := remove_dups ((fun x : string * device => cohort_version x.2) <$> l) in
  let sorted := merge_sort cohort_before ((fun v => (v, members_of v l)) <$> versions) in
  let majority := match sorted with x :: _ => length x.2 | [] => 0%nat end in
  (fun x : string * list (string * string) =>
     Cohort x.1 x.2 ((length x.2 =? majority)%nat && (1 <? length sorted)%nat)) <$> sorted.

(** ** The list *)

Record device_filter := DeviceFilter {
  df_site : option string; df_group : option string; df_search : option string; df_status : option string;
  df_threshold : Z; df_include_qa : bool; df_chips : list string
}.
(** The tables the pages read, beside the estate. *)
Record device_view := DeviceView {
  dv_estate : estate; dv_firmware : firmware; dv_heartbeats : list heartbeat; dv_samples : list power_sample;
  dv_events : list device_event; dv_attention : attention
}.
Definition is_fixture (d : device) : bool := truthy (col d "is_qa_fixture").
Definition text_is (d : device) (k v : string) : bool := jeqs (col d k) v.
(** [func.lower(column).like(...)], which NULL does not satisfy. *)
Definition column_like (p : string) (v : json) : bool := match v with JStr s => like p (lower s) | _ => false end.
Definition matches_search (search id : string) (d : device) : bool :=
  let p := ("%" ++ lower search ++ "%")%string in
  column_like p (col d "display_name") || column_like p (col d "mac_address") || column_like p (JStr id).
Definition has_pending (id : string) (h : hub) : bool :=
  existsb (fun c => String.eqb (cmd_device_id c) id && in_flight c) ((map_to_list (hub_commands h)).*2).
Definition selects (f : device_filter) (now : time) (h : hub) (x : string * device) : bool :=
  let '(id, d) := x in
  let chip c := in_strs c (df_chips f) in
  (negb (truthy_str (df_site f)) || text_is d "site_id" (or_str (df_site f) EmptyString)) &&
  (if bool_decide (df_status f = Some "active") then text_is d "registration_state" "active" else true) &&
  (if bool_decide (df_status f = Some "disabled") then text_is d "registration_state" "disabled" else true) &&
  (if chip "qa_fixtures" then is_fixture d else df_include_qa f || negb (is_fixture d)) &&
  (negb (chip "offline_24h") || match col_at d "last_heartbeat_at" with Some t => t <? now - hours 24 | None => false end) &&
  (negb (chip "never") || never_heard d) &&
  (negb (chip "pending_cmds") || has_pending id h) &&
  (negb (truthy_str (df_search f)) || matches_search (or_str (df_search f) EmptyString) id d) &&
  (negb (truthy_str (df_group f)) || in_strs id (group_device_ids (or_str (df_group f) EmptyString) h)).
Definition created_at (x : string * device) : time := default 0 (col_at x.2 "created_at").

Section queries.
Context (strftime : time -> string) (environ : string -> option string) (py_repr : json -> string).

(** The rows of [list_devices], before they are rendered, and the scope log. *)
Definition device_rows (f : device_filter) (c : caller) (user : option string) (now : time) (e : estate)
    : outcome (list (string * device)) * list rbac_audit :=
  let h := es_hub e in
  scoped environ py_repr "device" effective_device_ids c user
    (order_by_desc created_at (filter (fun x => selects f now h x = true) (map_to_list (hub_devices h)))) e.

Definition latest_heartbeat_of (id : string) (l : list heartbeat) : option heartbeat :=
  head (order_by_desc hb_received_at (filter (fun b => hb_device_id b = id) l)).
Definition active_assignment_of (id : string) (w : firmware) : option (assignment * option release) :=
  (fun a => (a, fw_releases w !! as_release_id a)) <$> latest_where (active_for id) w.
Definition serialize_assignment (x : assignment * option release) : json :=
  let '(a, r) := x in
  JObj [("assignment_id", JStr (as_id a)); ("deployment_id", JStr (as_deployment_id a)); ("state", JStr (state_name (as_state a)));
        ("target_version", ojson (rl_version <$> r)); ("last_reported_version", ojson (as_last_reported_version a));
        ("error_message", as_error_message a); ("updated_at", JStr (strftime (as_updated_at a)))].
Definition heartbeat_state_of (d : device) (threshold : Z) (now : time) : string :=
  heartbeat_state_for (col_at d "last_heartbeat_at") (col_at d "last_seen_at") now threshold.
Definition status_of (d : device) (hb_state : string) (hb : option heartbeat) (a : option (assignment * option release))
    : string * string :=
  derive_central_status d hb_state (b ← hb; as_str (dget (hb_cols b) "health_state"))
    ((fun x : assignment * option release => (state_name (as_state x.1), rl_version <$> x.2)) <$> a).
Definition drift_summary (d : device) : json :=
  if negb (truthy (col d "central_management_enabled")) then JNull
  else match object_col d "desired_config" with
  | None => JNull
  | Some desired =>
    let summary state missing mismatched :=
      JObj [("state", JStr state); ("missing", JList (JStr <$> missing)); ("mismatched", JList (JStr <$> mismatched))] in
    match object_col d "last_reported_config" with
    | None => summary "unconfirmed" (dict_keys desired) []
    | Some reported =>
      let missing := filter (fun k => dict_has reported k = false) (dict_keys desired) in
      let mismatched := omap (fun kv : string * json =>
        match dict_get reported kv.1 with Some got => if py_eq got kv.2 then None else Some kv.1 | None => None end) desired in
      match missing, mismatched with
      | [], [] => summary "in_sync" [] []
      | _, _ => summary "drifted" missing mismatched
      end
    end
  end.
(** The devices fed by the relay of one. *)
Definition powered_by (id : string) (h : hub) : list (string * device) :=
  filter (fun x : string * device => col x.2 "power_source_device_id" = JStr id) (map_to_list (hub_devices h)).
Definition child_json (x : string * device) : json := JObj [("id", JStr x.1); ("display_name", col x.2 "display_name")].
Definition device_row (f : device_filter) (now : time) (v : device_view) (x : string * device) : pydict :=
  let '(id, d) := x in
  let st := heartbeat_state_of d (df_threshold f) now in
  let hb := latest_heartbeat_of id (dv_heartbeats v) in
  let a := active_assignment_of id (dv_firmware v) in
  let chip := status_of d st hb a in
  serialize_device strftime id d true ++
  [("heartbeat_state", JStr st); ("online", JBool (String.eqb st "online"));
   ("latest_relay_on", match hb with Some b => JBool (truthy (dget (hb_cols b) "relay_on")) | None => JNull end);
   ("latest_mode", match hb with Some b => dget (hb_cols b) "mode" | None => JNull end);
   ("powers_devices", JList (child_json <$> powered_by id (es_hub (dv_estate v))))] ++
  match a with Some x => [("active_firmware_assignment", serialize_assignment x)] | None => [] end ++
  [("central_status", JStr chip.1); ("central_status_class", JStr chip.2);
   ("latest_power_sample", from_option JObj JNull (latest_sample strftime id 0 now (dv_samples v)));
   ("desired_config_set", JBool (truthy (col d "desired_config"))); ("desired_config_drift_summary", drift_summary d)].
(** The page: [now] of the list and of the power samples. *)
Definition list_devices (f : device_filter) (c : caller) (user : option string) (now at_ : time) (v : device_view)
    : outcome (list pydict) * device_view :=
  let '(rows, log) := device_rows f c user now (dv_estate v) in
  (List.map (device_row f now v) <$> rows,
   DeviceView (with_scopes log (dv_estate v)) (dv_firmware v) (dv_heartbeats v) (dv_samples v) (dv_events v) (dv_attention v)).

(** ** The detail *)

Record device_detail := Detail {
  dd_device : pydict; dd_state : string; dd_heartbeat : option heartbeat; dd_assignment : option (assignment * option release);
  dd_status : string * string; dd_groups : list (string * string); dd_events : list device_event; dd_pending : list command;
  dd_audit : list audit_row; dd_failsafes : list failsafe_row; dd_desired : pydict; dd_reported : pydict; dd_drift : drift;
  dd_sample : option pydict; dd_breakdown : breakdown; dd_power_source : option (string * json); dd_powers : list (string * device)
}.
Definition object_or_empty (v : json) : pydict := match v with JObj d => d | _ => [] end.
Definition get_device_detail (c : caller) (device_id : string) (now at_ : time) (v : device_view) : option device_detail :=
  let e := dv_estate v in
  let h := es_hub e in
  d ← hub_devices h !! device_id;
  let st := heartbeat_state_of d 180 now in
  let hb := latest_heartbeat_of device_id (dv_heartbeats v) in
  let a := active_assignment_of device_id (dv_firmware v) in
  Some (Detail (serialize_device strftime device_id d true) st hb a (status_of d st hb a)
    ((fun x : string * dated group_cols => (x.1, group_key x.2)) <$>
       filter (fun x : string * dated group_cols => (x.1, device_id) ∈ hub_members h) (visible c (es_groups e)))
    (take 20 (order_by_desc de_at (filter (fun w => de_device_id w = device_id) (dv_events v))))
    (order_by_desc cmd_created_at
       (filter (fun k => cmd_device_id k = device_id /\ in_flight k = true) ((map_to_list (hub_commands h)).*2)))
    (query c (AuditFilter None None None (Some "device") (Some device_id)) 25 (es_audit e))
    (failsafes_of device_id 25 (dv_attention v))
    (object_or_empty (col d "desired_config")) (object_or_empty (col d "last_reported_config"))
    (compute_drift device_id (fleet_of c e))
    (latest_sample strftime device_id 0 at_ (dv_samples v))
    (power_source_breakdown device_id 0 (24 * 60 * 60) at_ (dv_samples v))
    (match col d "power_source_device_id" with
     | JStr p => if is_empty p then None else (fun x => (p, col x "display_name")) <$> hub_devices h !! p
     | _ => None
     end)
    (powered_by device_id h)).
End queries.

(** ** The order of versions *)

Lemma zs_lt_irrefl a : zs_lt a a = false.
Proof. induction a as [|x a IH]; cbn; [done|]. by rewrite Z.ltb_irrefl, Z.eqb_refl, IH. Qed.
Lemma zs_lt_trans a b c : zs_lt a b = true -> zs_lt b c = true -> zs_lt a c = true.
Proof.
  revert b c. induction a as [|x a IH]; intros [|y b] [|z c]; cbn; try done.
  rewrite !orb_true_iff, !andb_true_iff, !Z.ltb_lt, !Z.eqb_eq.
  intros [?|[-> ?]] [?|[-> ?]]; [left; lia|by left|by left|right; split; [done|by eapply IH]].
Qed.
Lemma zs_lt_total a b : zs_lt a b = true \/ a = b \/ zs_lt b a = true.
Proof.
  revert b. induction a as [|x a IH]; intros [|y b]; cbn; auto.
  rewrite !orb_true_iff, !andb_true_iff, !Z.ltb_lt, !Z.eqb_eq.
  destruct (Z.lt_trichotomy x y) as [?|[->|?]]; [by left; left| |by right; right; left].
  destruct (IH b) as [H|[->|H]]; auto.
Qed.
Lemma zs_lt_asym a b : zs_lt a b = true -> zs_lt b a = false.
Proof.
  intros H. destruct (zs_lt b a) eqn:E; [|done]. by rewrite <- (zs_lt_irrefl a), (zs_lt_trans a b a).
Qed.
(** A key that is not below another has no smaller numbers. *)
Lemma key_lt_prefix a b : key_lt a b = false -> zs_lt a.1 b.1 = false.
Proof. unfold key_lt. by intros [H _]%orb_false_iff. Qed.
Lemma ltb_lt s t : String.ltb s t = true <-> String_as_OT.lt s t.
Proof. unfold String.ltb, String_as_OT.lt. change String_as_OT.compare with String.compare. by destruct (String.compare s t). Qed.
Lemma key_lt_trans a b c : key_lt a b = true -> key_lt b c = true -> key_lt a c = true.
Proof.
  destruct a as [a s], b as [b t], c as [c u]. unfold key_lt. cbn.
  rewrite !orb_true_iff, !andb_true_iff, !bool_decide_eq_true, !ltb_lt.
  intros [H1|[-> H1]] [H2|[-> H2]]; [left; by eapply zs_lt_trans|by left|by left|right; split; [done|by etransitivity]].
Qed.
Lemma key_lt_irrefl a : key_lt a a = false.
Proof.
  unfold key_lt. rewrite zs_lt_irrefl. cbn. destruct (String.ltb a.2 a.2) eqn:E; [|by rewrite andb_false_r].
  apply ltb_lt in E. by destruct (irreflexivity String_as_OT.lt a.2).
Qed.

Section greatest.
Context {A : Type} (lt : A -> A -> bool).
Context (lt_irrefl : forall a, lt a a = false) (lt_trans : forall a b c, lt a b = true -> lt b c = true -> lt a c = true).

(** The greatest so far is below none of those it was compared with. *)
Lemma foldl_greatest l best (seen : list A) :
  best ∈ seen -> (forall y, y ∈ seen -> lt best y = false) ->
  let b := foldl (fun best y => if lt best y then y else best) best l in
  b ∈ seen ++ l /\ forall y, y ∈ seen ++ l -> lt b y = false.
Proof.
  revert best seen. induction l as [|x l IH]; intros best seen Hin Hs; cbn; [by rewrite app_nil_r|].
  specialize (IH (if lt best x then x else best) (seen ++ [x])). rewrite <- (assoc_L (++)) in IH. apply IH.
  - destruct (lt best x); apply elem_of_app; [right; left|by left].
  - intros y [Hy| ->%list_elem_of_singleton]%elem_of_app; destruct (lt best x) eqn:E; eauto.
    destruct (lt x y) eqn:E2; [|done]. specialize (Hs y Hy). by rewrite (lt_trans best x y) in Hs.
Qed.
Lemma max_by_greatest l x : max_by lt l = Some x -> x ∈ l /\ forall y, y ∈ l -> lt x y = false.
Proof.
  destruct l as [|a l]; [done|]. cbn. intros [= <-]. apply (foldl_greatest l a [a]); [left|].
  intros y ->%list_elem_of_singleton. apply lt_irrefl.
Qed.
End greatest.

(** ** The offered upgrade *)

(** The releases the query reads are stable ones; up to 200 it reads them all. *)
Lemma stable_release_elem t x : x ∈ stable_releases t -> t !! x.1 = Some x.2 /\ fr_channel x.2 = "stable".
Proof.
  unfold stable_releases. intros H%elem_of_take. destruct H as (i & H & _). apply list_elem_of_lookup_2 in H.
  rewrite order_by_desc_perm in H. apply list_elem_of_filter in H as [H1 H2]. destruct x.
  by apply elem_of_map_to_list in H2.
Qed.
Definition stable_count (t : gmap string firmware_release) : nat :=
  length (filter (fun x : string * firmware_release => fr_channel x.2 = "stable") (map_to_list t)).
Lemma stable_releases_all t id r :
  (stable_count t <= 200)%nat -> t !! id = Some r -> fr_channel r = "stable" -> (id, r) ∈ stable_releases t.
Proof.
  intros Hn Hr Hc. unfold stable_releases. rewrite take_ge by (rewrite order_by_desc_perm; exact Hn).
  rewrite order_by_desc_perm. apply list_elem_of_filter. split; [done|]. by apply elem_of_map_to_list.
Qed.

Lemma upgrade_iff a b : is_upgrade a b = true <->
  truthy_str a = true /\ truthy_str b = true /\ zs_lt (version_sort_key b).1 (version_sort_key a).1 = true.
Proof. unfold is_upgrade. destruct (truthy_str a), (truthy_str b); cbn; naive_solver. Qed.

(** The upgrade the pages offer moves forward only.  [is_upgrade] is a strict order on
    versions, so no sequence of offered upgrades returns to a version left behind and none is
    offered to a device on the target.  The target is a stable release, and no release among
    the newest 200 stable ones is above it in the order of versions; while there are no more
    than 200, no stable release is an upgrade over it. *)
Theorem offered_upgrades_move_forward t x :
  latest_stable_release_dict t = Some x ->
  (t !! x.1 = Some x.2 /\ fr_channel x.2 = "stable") /\
  (forall y, y ∈ stable_releases t -> older_release x y = false) /\
  ((stable_count t <= 200)%nat -> forall id r, t !! id = Some r -> fr_channel r = "stable" ->
     is_upgrade (Some (fr_version r)) (Some (fr_version x.2)) = false) /\
  forall a b c, is_upgrade a a = false /\ (is_upgrade a b = true -> is_upgrade b a = false) /\
    (is_upgrade a b = true -> is_upgrade b c = true -> is_upgrade a c = true).
Proof.
  intros Hx. apply max_by_greatest in Hx as [Hin Hmax].
  2: { intros a. apply key_lt_irrefl. }
  2: { intros a b c. apply key_lt_trans. }
  split_and!; [by apply stable_release_elem|by apply stable_release_elem in Hin as []|done| |].
  - intros Hn id r Hr Hc. destruct (is_upgrade _ _) eqn:E; [|done]. apply upgrade_iff in E as (_ & _ & E).
    specialize (Hmax (id, r) (stable_releases_all t id r Hn Hr Hc)). apply key_lt_prefix in Hmax. cbn [snd] in Hmax. by rewrite Hmax in E.
  - intros a b c. split_and!.
    + destruct (is_upgrade a a) eqn:E; [|done]. apply upgrade_iff in E as (_ & _ & E). by rewrite zs_lt_irrefl in E.
    + intros (Ha & Hb & H)%upgrade_iff. destruct (is_upgrade b a) eqn:E; [|done].
      apply upgrade_iff in E as (_ & _ & E). by rewrite (zs_lt_asym _ _ H) in E.
    + intros (Ha & Hb & H)%upgrade_iff (_ & Hc & H')%upgrade_iff. apply upgrade_iff. split_and!; [done..|by eapply zs_lt_trans].
Qed.

(** ** The list *)

Section pages.
Context (strftime : time -> string) (environ : string -> option string) (py_repr : json -> string).

(** What the filter returns keeps the order of what it was given. *)
Lemma scoped_sublist {A} (key : A -> string) resource effective dec t u need db rows audit out :
  (filter_with_shadow_logging environ py_repr key resource effective dec t u need db rows audit).1 = Ret out ->
  out `sublist_of` rows.
Proof.
  unfold filter_with_shadow_logging. destruct (negb _); [by intros [= <-]|]. cbv zeta.
  destruct (is_super_admin _ _ _); [by intros [= <-]|]. destruct (rbac_enforce_mode _ _ _) as [[]|]; [| |done];
    destruct (effective _ _ _ _) as [|ids]; intros [= <-]; try done.
  induction rows as [|r rows IH]; cbn; [constructor|]. destruct (bool_decide _); by constructor.
Qed.
Lemma sublist_sorted {A} (R : relation A) l k : l `sublist_of` k -> StronglySorted R k -> StronglySorted R l.
Proof.
  induction 1 as [|x l k Hs IH|x l k Hs IH]; intros H; [constructor| |]; apply StronglySorted_inv in H as [H1 H2]; [|by apply IH].
  constructor; [by apply IH|]. apply Forall_forall. intros y Hy. rewrite Forall_forall in H2. by apply H2; eapply elem_of_sublist.
Qed.

(** The list is a query over the devices: the rows, sorted, each once. *)
Definition listing (f : device_filter) (now : time) (h : hub) (ok : string -> bool) (l : list (string * device)) : Prop :=
  NoDup (fst <$> l) /\ StronglySorted (key_ge created_at) l /\
  forall id d, (id, d) ∈ l <-> hub_devices h !! id = Some d /\ selects f now h (id, d) = true /\ ok id = true.

Lemma listing_sublist f now h ok l :
  l `sublist_of` order_by_desc created_at (filter (fun x => selects f now h x = true) (map_to_list (hub_devices h))) ->
  (forall x, x ∈ l <-> x ∈ order_by_desc created_at (filter (fun x => selects f now h x = true) (map_to_list (hub_devices h)))
                       /\ ok x.1 = true) ->
  listing f now h ok l.
Proof.
  intros Hs Hin. split_and!.
  - eapply sublist_NoDup; [|by apply fmap_sublist]. rewrite order_by_desc_perm.
    eapply sublist_NoDup; [|apply fmap_sublist, sublist_filter]. apply NoDup_fst_map_to_list.
  - by eapply sublist_sorted; [|apply order_by_desc_sorted].
  - intros id d. rewrite Hin, order_by_desc_perm, list_elem_of_filter, elem_of_map_to_list. cbn [fst]. tauto.
Qed.

(** C21. The device list is exact.  A reader who is signed in is shown, newest first and each
    once, the devices the filters select: all of them in shadow mode, those in the scope of
    the bindings when they are enforced.  The page changes nothing but the scope log, which
    gets a row exactly when shadow mode shows a device the bindings would hide. *)
Theorem device_list_is_exact f c u now at_ v rows v' :
  is_empty u = false ->
  list_devices strftime environ py_repr f c (Some u) now at_ v = (Ret rows, v') ->
  let e := dv_estate v in
  let covered id := in_scope id (effective_device_ids (reads c) u "viewer" (rbac_of e)) in
  exists l mode, rows = device_row strftime f now v <$> l /\
    rbac_enforce_mode environ py_repr (es_settings e) = Ret mode /\
    listing f now (es_hub e) (fun id => match mode with Shadow => true | Enforce => covered id end) l /\
    v' = DeviceView (with_scopes (es_scopes (dv_estate v')) e) (dv_firmware v) (dv_heartbeats v) (dv_samples v)
           (dv_events v) (dv_attention v) /\
    (es_scopes (dv_estate v') = es_scopes e <-> forall x, x ∈ l -> covered x.1 = true).
Proof.
  intros Hu. unfold list_devices, device_rows, scoped. set (all := order_by_desc _ _).
  match goal with |- context [filter_with_shadow_logging _ _ _ ?r ?ef ?d ?t _ ?n ?db _ ?a] =>
    pose proof (list_filter_exact environ py_repr fst r ef d t u n db all a Hu) as H;
    pose proof (fun out => @scoped_sublist _ fst r ef d t (Some u) n db all a out) as Hsub end.
  cbv zeta in H |- *.
  destruct (rbac_enforce_mode _ _ _) as [mode|]; destruct (filter_with_shadow_logging _ _ _ _ _ _ _ _ _ _ _ _) as [[l|] log];
    intros E; simplify_eq/=; try by destruct mode. 2: by destruct H.
  specialize (Hsub l eq_refl). exists l, mode. split; [done|split; [done|split; [|split; [done|]]]].
  - apply listing_sublist; [exact Hsub|]. intros x. destruct mode; [destruct H as [-> _]; tauto|by apply H].
  - destruct mode.
    + destruct H as [-> [[-> Hn]|[(x & Hx & Hc) (n1 & n2 & n3 & ->)]]].
      * split; [|done]. intros _ x Hx. destruct (in_scope x.1 _) eqn:Ei; [done|]. destruct Hn. by exists x.
      * split; [intros E; by apply app_cons_not_nil in E || (apply (f_equal length) in E; rewrite length_app in E; cbn in E; lia)|].
        intros Ha. by rewrite (Ha x Hx) in Hc.
    + destruct H as [H ->]. split; [|done]. intros _ x Hx. by apply H in Hx as [].
Qed.

(** The heartbeat a page shows is the newest of the device. *)
Lemma latest_heartbeat_is_newest id l b :
  latest_heartbeat_of id l = Some b ->
  b ∈ l /\ hb_device_id b = id /\ forall b', b' ∈ l -> hb_device_id b' = id -> hb_received_at b' <= hb_received_at b.
Proof.
  intros H%order_by_desc_head. destruct H as [Hin Hmax]. apply list_elem_of_filter in Hin as [Hd Hin].
  split_and!; [done..|]. intros b' Hb' Hd'. apply Hmax. by apply list_elem_of_filter.
Qed.
End pages.

(** ** Cohorts *)

Definition fleet (qa : bool) (h : hub) : list (string * device) := if qa then map_to_list (hub_devices h) else real_devices h.
Definition cohorts (qa : bool) (h : hub) : list (string * list (string * string)) :=
  merge_sort cohort_before ((fun v => (v, members_of v (fleet qa h))) <$>
    remove_dups ((fun x : string * device => cohort_version x.2) <$> fleet qa h)).
Lemma breakdown_cohorts qa h : firmware_version_breakdown qa h =
  (fun x : string * list (string * string) =>
     Cohort x.1 x.2 ((length x.2 =? match cohorts qa h with y :: _ => length y.2 | [] => 0%nat end)%nat
                     && (1 <? length (cohorts qa h))%nat)) <$> cohorts qa h.
Proof. done. Qed.
#[local] Instance cohort_before_total : Total cohort_before.
Proof.
  intros [v l] [w k]. unfold cohort_before. cbn. destruct (Nat.lt_total (length l) (length k)) as [?|[E|?]]; auto.
  destruct (total strings.String.le v w); auto.
Qed.
#[local] Instance cohort_before_trans : Transitive cohort_before.
Proof.
  intros [v l] [w k] [u m]. unfold cohort_before. cbn. intros [?|[? ?]] [?|[? ?]]; [left; lia..|]. right.
  split; [lia|by etransitivity].
Qed.
Lemma cohorts_elem qa h x : x ∈ cohorts qa h <->
  x.2 = members_of x.1 (fleet qa h) /\ exists y, y ∈ fleet qa h /\ cohort_version y.2 = x.1.
Proof.
  unfold cohorts. rewrite merge_sort_Permutation, list_elem_of_fmap. split.
  - intros (v & -> & Hv). rewrite elem_of_remove_dups, list_elem_of_fmap in Hv. destruct Hv as (y & -> & Hy).
    split; [done|by exists y].
  - destruct x as [v l]. cbn. intros [-> (y & Hy & <-)]. eexists. split; [done|]. rewrite elem_of_remove_dups, list_elem_of_fmap.
    by exists y.
Qed.
Lemma members_elem v l id n : (id, n) ∈ members_of v l <-> exists d, (id, d) ∈ l /\ cohort_version d = v /\ n = device_name id d.
Proof.
  unfold members_of, sorted_by. rewrite merge_sort_Permutation, list_elem_of_fmap. split.
  - intros ([i d] & [= -> ->] & [Hv Hin]%list_elem_of_filter). by exists d.
  - intros (d & Hin & Hv & ->). exists (id, d). split; [done|]. by apply list_elem_of_filter.
Qed.

(** The cohorts split the fleet: one cohort per version in use, none empty, each holding the
    devices on that version, the largest first; the flag marks the cohorts as large as the
    largest, unless there is only one. *)
Theorem cohorts_split_the_fleet qa h :
  let l := firmware_version_breakdown qa h in
  NoDup (co_version <$> l) /\
  (forall x, x ∈ fleet qa h -> cohort_version x.2 ∈ (co_version <$> l)) /\
  (forall k, k ∈ l -> co_devices k <> [] /\
     forall id n, (id, n) ∈ co_devices k <->
       exists d, (id, d) ∈ fleet qa h /\ cohort_version d = co_version k /\ n = device_name id d) /\
  forall k, k ∈ l -> co_majority k = true <->
    (1 < length l)%nat /\ forall k', k' ∈ l -> (length (co_devices k') <= length (co_devices k))%nat.
Proof.
  cbv zeta. rewrite breakdown_cohorts.
  assert (Hs : StronglySorted cohort_before (cohorts qa h)) by (apply StronglySorted_merge_sort; apply _).
  assert (Hk : forall k, k ∈ firmware_version_breakdown qa h -> co_devices k = members_of (co_version k) (fleet qa h) /\
    exists y, y ∈ fleet qa h /\ cohort_version y.2 = co_version k).
  { rewrite breakdown_cohorts. intros k (x & -> & Hx)%list_elem_of_fmap. by apply cohorts_elem in Hx. }
  rewrite breakdown_cohorts in Hk. split_and!.
  - rewrite <- list_fmap_compose. unfold cohorts at 3. rewrite merge_sort_Permutation, <- list_fmap_compose.
    unfold compose. cbn. rewrite list_fmap_id. apply NoDup_remove_dups.
  - intros x Hx. rewrite list_elem_of_fmap. eexists (Cohort _ _ _). split; [reflexivity|]. apply list_elem_of_fmap.
    exists (cohort_version x.2, members_of (cohort_version x.2) (fleet qa h)). split; [reflexivity|].
    apply cohorts_elem. split; [done|by exists x].
  - intros k Hin. destruct (Hk k Hin) as [-> ((id & d) & Hy & Hv)]. split; [|intros; apply members_elem].
    intros E. apply (not_elem_of_nil (id, device_name id d)). rewrite <- E. apply members_elem. by exists d.
  - intros k (x & -> & Hx)%list_elem_of_fmap. cbn [co_majority co_devices]. rewrite andb_true_iff, Nat.eqb_eq, Nat.ltb_lt, length_fmap.
    rewrite (Logic.and_comm (_ = _)). apply and_iff_compat_l. destruct (cohorts qa h) as [|y l]; [by apply not_elem_of_nil in Hx|].
    apply StronglySorted_inv in Hs as [_ Hall]. rewrite Forall_forall in Hall.
    assert (Hm : forall z, z ∈ y :: l -> (length z.2 <= length y.2)%nat).
    { intros z [->|Hz]%elem_of_cons; [done|]. destruct (Hall z Hz) as [?|[? _]]; lia. }
    split.
    + intros -> k' (z & -> & Hz)%list_elem_of_fmap. by apply Hm.
    + intros H. apply Nat.le_antisymm; [by apply Hm|]. match type of H with forall k', k' ∈ ?g <$> _ -> _ => apply (H (g y)) end.
      apply list_elem_of_fmap. exists y. split; [reflexivity|left].
Qed.

Module Example.

Definition no_text (_ : time) : string := EmptyString.
Definition no_env (_ : string) : option string := None.
Definition no_repr (_ : json) : string := EmptyString.
Definition release (v : string) (t : time) : firmware_release :=
  FirmwareRelease v "stable" "f.bin" "/f.bin" "sha" 1 None None t.
(** The newest upload is an old release. *)
Definition t0 : gmap string firmware_release := {["fw_1" := release "0.1.10-dev" 5; "fw_2" := release "0.1.9" 7]}.
Lemma offered_upgrades_move_forward_witness :
  latest_stable_release_dict t0 = Some ("fw_1", release "0.1.10-dev" 5) /\ is_upgrade (Some "0.1.9") (Some "0.1.10-dev") = false.
Proof.
  assert (E : latest_stable_release_dict t0 = Some ("fw_1", release "0.1.10-dev" 5)) by (vm_compute; reflexivity).
  split; [exact E|]. destruct (offered_upgrades_move_forward t0 _ E) as (_ & _ & H & _).
  apply (H ltac:(vm_compute; lia) "fw_2" (release "0.1.9" 7)); reflexivity.
Defined.
(** A part that is no number counts as 0; a shorter version is below the same one with a zero. *)
Example odd_versions :
  is_upgrade (Some "v1.3") (Some "1.2") = false /\ is_upgrade (Some "1.2.0") (Some "1.2") = true.
Proof. split; vm_compute; reflexivity. Qed.

Definition all : caller := Caller None Shadow.
Definition now : time := hours 25.
Definition pump : device := Device true true None {["created_at" := JInt 1; "display_name" := JStr "Pump"]}.
Definition lamp : device := Device true true None {["created_at" := JInt 2; "display_name" := JStr "Lamp"]}.
Definition h0 : hub := Hub {["dev_1" := pump; "dev_2" := lamp]} ∅ [] [] empty_bus 0.
Definition v0 : device_view :=
  DeviceView (Estate h0 ∅ ∅ ∅ ∅ [] ∅ [] []) (Firmware ∅ ∅ [] 0) [] [] [] (Attention ∅ [] [] 0).
Definition search : device_filter := DeviceFilter None None (Some "AM") None 180 true ["never"; "old chip"].
Definition page := list_devices no_text no_env no_repr search all (Some "usr_1") now now v0.
Definition v1 : device_view := page.2.

Lemma device_list_is_exact_witness :
  exists rows l, page = (Ret rows, v1) /\ rows = device_row no_text search now v0 <$> l /\ NoDup (fst <$> l) /\ length l = 1%nat.
Proof.
  set (rows := match page.1 with Ret r => r | Raise _ => [] end).
  assert (E : page = (Ret rows, v1)) by (vm_compute; reflexivity).
  assert (Hl : length rows = 1%nat) by (vm_compute; reflexivity). exists rows.
  destruct (device_list_is_exact no_text no_env no_repr search all "usr_1" now now v0 rows v1 eq_refl E)
    as (l & mode & Hr & _ & [Hn _] & _). exists l. split; [exact E|]. split; [exact Hr|]. split; [exact Hn|].
  by rewrite <- Hl, Hr, length_fmap.
Defined.
End Example.
