(* ===== verification/SetupWizard.v ===== *)
(** * The setup wizard ([services/setup_wizard.py], [blueprints/admin/setup.py])

    The translator from the plain answers of the picker to a configuration and a watchdog
    rule, the route that applies them, and the steps of the first run.  The route keeps the
    configuration, the deletion of the previous rule and the new rule in transactions of
    their own.  The pages and the flash messages are left out.

    Then what the answers lead to: every configuration the picker makes is stored and, with two
    exceptions, every rule; the wizard keeps one rule per device and mode; a refused rule has
    already cost the device the one it had. *)

From stdpp Require Import pretty.
From Stdlib Require Import Ascii.
From S2P Require Import Prelude PyFloat PyNet EventBus Commands WatchdogActions WatchdogState WatchdogRules RuntimeSettings.
From S2P Require Import Devices DeviceConfig TenantScope Enrollment RoleBindings Identity Accounts Invitations.
From S2P Require Import ConfigBackup ConfigRestore ConfigFacts RuleForms RuleEndpoints AuditLog Estate EstateEndpoints.
From S2P Require Import EstateFacts.
From S2P Require Notifications.
From S2P Require ConflictTheorems.
Local Open Scope string_scope.
Local Open Scope list_scope.
Local Open Scope Z_scope.

(** ** Answers *)

Definition RULE_MARKER : string := "Created by the setup wizard".
Definition VALID_MODES : list string := ["smart_plug"; "internet_watchdog"; "device_watchdog"].
Definition DEFAULT_INTERNET_TARGETS : list string := ["1.1.1.1"; "8.8.8.8"].
Definition DEFAULT_POWER_OFF_SECONDS : Z := 5.
Definition DEFAULT_POST_REBOOT_HOLDOFF_SECONDS : Z := 180.
Definition DEFAULT_COOLDOWN_SECONDS : Z := 600.
Definition DEFAULT_MAX_CYCLES_PER_HOUR : Z := 6.
Definition PROBE_WINDOW_SECONDS : Z := 30.
Definition DEFAULT_OFFLINE_TOLERANCE_SECONDS : Z := 180.
Definition SetupWizardError {A} (m : string) : outcome A := Raise (AppError "SetupWizardError" m).

(** [{"desired_mode", "desired_config", "rule_payload"}]. *)
Record picked := Picked { pk_mode : string; pk_config : pydict; pk_rule : option pydict }.

Section wizard.
Context (py_repr : json -> string).
#[local] Abbreviation str := (py_str py_repr).

(** [str(answers.get(k) or dflt).strip()]. *)
Definition answer (answers : pydict) (k dflt : string) : string := strip (str (jor (dget answers k) (JStr dflt))).

Definition coerce_int (value : json) (dflt lo hi : Z) : outcome Z :=
  let s := strip (str value) in
  if (match value with JNull => true | _ => false end) || is_empty s then Ret dflt
  else match parse_int s with
       | None => SetupWizardError "must be a whole number"
       | Some v => if (v <? lo) || (hi <? v) then SetupWizardError "out of range" else Ret v
       end.
Definition clean_device_name (answers : pydict) : outcome string :=
  let name := answer answers "device_name" EmptyString in
  if is_empty name then SetupWizardError "Please give the device a friendly name."
  else if (120 <? String.length name)%nat then SetupWizardError "The device name must be 120 characters or fewer."
  else Ret name.
Definition tolerance_to_threshold (tolerance_seconds : Z) : Z :=
  Z.max 1 (- (- tolerance_seconds / PROBE_WINDOW_SECONDS)).
Definition wizard_rule_name (device_id mode : string) : string :=
  cat ["Setup wizard — "; if String.eqb mode "internet_watchdog" then "internet" else "device"; " watchdog for "; device_id].
Definition power_off (answers : pydict) : outcome Z :=
  coerce_int (dget answers "power_off_seconds") DEFAULT_POWER_OFF_SECONDS 1 600.
Definition cycle_action (answers : pydict) : outcome pydict :=
  off ← power_off answers; Ret [("kind", JStr "cycle"); ("power_off_seconds", JInt off)].
Record timers := Timers { tm_off : Z; tm_holdoff : Z; tm_cooldown : Z; tm_max : Z }.
Definition watchdog_timers (answers : pydict) : outcome timers :=
  off ← power_off answers;
  holdoff ← coerce_int (dget answers "post_reboot_holdoff_seconds") DEFAULT_POST_REBOOT_HOLDOFF_SECONDS 0 3600;
  cooldown ← coerce_int (dget answers "cooldown_seconds") DEFAULT_COOLDOWN_SECONDS 0 86400;
  max ← coerce_int (dget answers "max_cycles_per_hour") DEFAULT_MAX_CYCLES_PER_HOUR 1 60;
  Ret (Timers off holdoff cooldown max).
Definition timers_json (t : timers) : pydict :=
  [("power_off_seconds", JInt (tm_off t)); ("post_reboot_holdoff_seconds", JInt (tm_holdoff t));
   ("cooldown_seconds", JInt (tm_cooldown t)); ("max_cycles_per_hour", JInt (tm_max t))].
Definition tolerance_of (answers : pydict) : outcome Z :=
  coerce_int (dget answers "offline_tolerance_seconds") DEFAULT_OFFLINE_TOLERANCE_SECONDS PROBE_WINDOW_SECONDS 3600.

Definition parse_targets (raw : json) : list string :=
  let items := match raw with
               | JNull => []
               | JList l => str <$> l
               | _ => splitlines (Notifications.replace_char ","%char "010"%char (str raw))
               end in
  filter (fun t => is_empty t = false) (strip <$> items).
Definition address_to_probe (address : string) : outcome pydict :=
  let low := lower address in
  if startswith "http://" low || startswith "https://" low then Ret [("kind", JStr "http"); ("url", JStr address)]
  else
    let ping := Ret [("kind", JStr "ping"); ("host", JStr address)] in
    if negb (length (split_on ":"%char address) =? 2)%nat then ping
    else
      let '(host, _, port_s) := partition ":"%char address in
      let host := strip host in
      let port_s := strip port_s in
      if is_empty host || is_empty port_s then ping
      else match parse_int port_s with
           | None => SetupWizardError "The port must be a number."
           | Some port =>
             if (port <? 1) || (65535 <? port) then SetupWizardError "The port must be between 1 and 65535."
             else Ret [("kind", JStr "tcp"); ("host", JStr host); ("port", JInt port)]
           end.

(** ** The three modes *)

Definition RESTORE_BEHAVIORS : list string := ["restore_previous"; "always_on"; "always_off"].
Definition apply_smart_plug (answers : pydict) : outcome picked :=
  name ← clean_device_name answers;
  let behavior := answer answers "relay_restore_behavior" "restore_previous" in
  if negb (in_strs behavior RESTORE_BEHAVIORS) then SetupWizardError "Power-restore behaviour"
  else Ret (Picked "smart_plug" [("device_name", JStr name); ("relay_restore_behavior", JStr behavior)] None).

(** The payload both watchdog modes hand to [create_rule]. *)
Definition rule_payload (device_id mode : string) (probe action : pydict) (tolerance : Z) (t : timers) : pydict :=
  [("name", JStr (wizard_rule_name device_id mode)); ("description", JStr RULE_MARKER); ("probe", JObj probe);
   ("target", JObj [("kind", JStr "device"); ("id", JStr device_id)]); ("action", JObj action);
   ("failure_threshold", JInt (tolerance_to_threshold tolerance)); ("window_seconds", JInt PROBE_WINDOW_SECONDS);
   ("cooldown_seconds", JInt (tm_cooldown t)); ("max_cycles_per_hour", JInt (tm_max t))].
Definition internet_probe (targets : list string) : pydict :=
  [("kind", JStr "internet"); ("targets", JList ((fun h => JObj [("host", JStr h); ("port", JInt 53)]) <$> targets))].
Definition apply_internet_watchdog (device_id : string) (answers : pydict) : outcome picked :=
  name ← clean_device_name answers;
  let targets := match parse_targets (dget answers "internet_targets") with [] => DEFAULT_INTERNET_TARGETS | l => l end in
  if (10 <? length targets)%nat then SetupWizardError "Please list at most 10 things to check"
  else
    tolerance ← tolerance_of answers;
    t ← watchdog_timers answers;
    action ← cycle_action answers;
    Ret (Picked "internet_watchdog"
      [("device_name", JStr name);
       ("internet", JObj ([("targets", JList (JStr <$> targets)); ("failure_threshold_seconds", JInt tolerance)] ++ timers_json t))]
      (Some (rule_payload device_id "internet_watchdog" (internet_probe targets) action tolerance t))).
Definition apply_device_watchdog (device_id : string) (answers : pydict) : outcome picked :=
  name ← clean_device_name answers;
  let address := answer answers "watch_address" EmptyString in
  if is_empty address then SetupWizardError "Please tell us the address of the device to watch"
  else
    probe ← address_to_probe address;
    tolerance ← tolerance_of answers;
    t ← watchdog_timers answers;
    action ← cycle_action answers;
    Ret (Picked "device_watchdog"
      [("device_name", JStr name);
       ("device", JObj ([("target", JStr address); ("failure_threshold_seconds", JInt tolerance)] ++ timers_json t))]
      (Some (rule_payload device_id "device_watchdog" probe action tolerance t))).
Definition apply_picker (device_id mode : string) (answers : pydict) : outcome picked :=
  if String.eqb mode "smart_plug" then apply_smart_plug answers
  else if String.eqb mode "internet_watchdog" then apply_internet_watchdog device_id answers
  else if String.eqb mode "device_watchdog" then apply_device_watchdog device_id answers
  else SetupWizardError "Unknown setup mode".

(** Whether a rule is the wizard's for a device and a mode. *)
Definition is_wizard_rule (device_id mode : string) (r : rule_row) : bool :=
  String.eqb (rc_name (rr_rule r)) (wizard_rule_name device_id mode) &&
  String.eqb (default EmptyString (rr_description r)) RULE_MARKER.
Definition find_prior_wizard_rule (device_id mode : string) (d : rule_db) : option string :=
  (fun r => rc_id (rr_rule r)) <$> find (is_wizard_rule device_id mode) (list_rules d).

(** ** The route *)

Definition CREATE_RULE_KEYS : list string :=
  ["name"; "description"; "probe"; "target"; "action"; "failure_threshold"; "window_seconds"; "cooldown_seconds"].
(** [create_rule(site_id=..., **create_kwargs)]: the keys it takes, the defaults of the rest. *)
Definition create_kwargs (payload : pydict) : pydict :=
  filter (fun kv : string * json => in_strs kv.1 CREATE_RULE_KEYS = true) payload.
Definition kwargs_form (site : option string) (kw : pydict) : rule_form :=
  RuleForm (dget kw "name") (dget kw "probe") (dget kw "target") (dget kw "action") site (as_str (dget kw "description"))
    (dget_default kw "failure_threshold" (JInt 3)) (JInt 2) (dget_default kw "window_seconds" (JInt 60))
    (dget_default kw "cooldown_seconds" (JInt 300)) (JInt 3) (JInt 60) JNull JNull.
Definition picker_answers (f : form) : pydict :=
  (fun k => (k, form_raw f k)) <$> ["device_name"; "relay_restore_behavior"; "internet_targets"; "watch_address";
    "offline_tolerance_seconds"; "power_off_seconds"; "post_reboot_holdoff_seconds"; "cooldown_seconds"; "max_cycles_per_hour"].

Inductive setup_answer := ToStep (step : string) | ToIndex | ToPicker (device_id : string) | ToDevice (device_id : string) | NoSuchDevice.
(** The estate, the rules the caller sees, [session["setup_wizard"]]. *)
Record setup_state := SetupState { su_estate : estate; su_rules : rule_db; su_session : option pydict }.
Definition with_settings (g : settings -> settings) (e : estate) : estate :=
  Estate (es_hub e) (es_orgs e) (es_sites e) (es_groups e) (es_scenes e) (es_bindings e) (g (es_settings e)) (es_audit e) (es_scopes e).

Context (ulid : nat -> string) (strftime : time -> string) (environ : string -> option string).
Context (db_accepts : rule_row -> bool) (audit_accepts : audit_row -> bool) (remote_addr : option string).
#[local] Abbreviation audited := (audited audit_accepts remote_addr).

(** Step 2 of the route: the previous rule of the mode goes, then the new one is created. *)
Definition replace_rule (device_id mode : string) (site : option string) (payload : pydict) (user : option string)
    (now : time) (d : rule_db) : option string * outcome rule_row * rule_db :=
  let prior := find_prior_wizard_rule device_id mode d in
  let d := match prior with Some r => (delete_rule r d).2 | None => d end in
  let '(r, d) := create_rule py_repr ulid db_accepts (kwargs_form site (create_kwargs payload)) user now d in
  (prior, r, d).

Definition device_configure_submit (o : operator) (device_id : string) (f : form) (n1 n2 n3 : time) (p : setup_state)
    : outcome setup_answer * setup_state :=
  let c := op_caller o in
  match hub_devices (es_hub (su_estate p)) !! device_id with
  | None => (Ret NoSuchDevice, p)
  | Some d =>
    let in_wizard := bool_decide (form_get f "wizard" = Some "1") in
    let back := Ret (if in_wizard then ToStep "first-device" else ToPicker device_id) in
    match apply_picker device_id (field f "mode") (picker_answers f) with
    | Raise e => (match caught "SetupWizardError" e with Some _ => back | None => Raise e end, p)
    | Ret k =>
      let '(r, fl) := set_desired_config device_id (JObj (pk_config k)) (Some (pk_mode k)) n1 (fleet_of c (su_estate p)) in
      match r with
      | Raise e => (match caught "DesiredConfigError" e with Some _ => back | None => Raise e end, p)
      | Ret _ =>
        let e := into fl (su_estate p) in
        let applied replaced created := audited o "device.setup_mode_applied" "device" device_id
          [("mode", JStr (pk_mode k)); ("rule_created", ojson created); ("rule_replaced", ojson replaced);
           ("via", JStr (if in_wizard then "wizard" else "device_configure"))] n3 in
        let done := Ret (if in_wizard then ToStep "done" else ToDevice device_id) in
        match pk_rule k with
        | None => (done, SetupState (applied None None e) (su_rules p) (su_session p))
        | Some payload =>
          match replace_rule device_id (pk_mode k) (device_site d) payload (Some (op_id o)) n2 (su_rules p) with
          | (_, Raise x, rules) =>
            (if invalid_rule x then back else Raise x, SetupState e rules (su_session p))
          | (prior, Ret row, rules) =>
            (done, SetupState (applied prior (Some (rc_id (rr_rule row))) e) rules (su_session p))
          end
        end
      end
    end
  end.

(** ** The first run *)

Definition WIZARD_STEPS : list string := ["welcome"; "branding"; "smtp"; "first-device"; "done"].
Definition SETUP_COMPLETED : string := "system.setup_completed".
(** A stored row that holds no object makes the reader fail. *)
Definition is_setup_completed (t : settings) : outcome bool :=
  v ← setting_get environ SETUP_COMPLETED (Some "REBOOTER_SETUP_COMPLETED") JNull t;
  Ret (in_strs (lower (strip (str (jor v (JStr EmptyString))))) ["1"; "true"; "yes"; "on"]).
Definition should_show_first_run (p : setup_state) : outcome bool :=
  done ← is_setup_completed (es_settings (su_estate p));
  Ret (negb done && bool_decide (hub_devices (es_hub (su_estate p)) = ∅) && bool_decide (rd_rules (su_rules p) = ∅)).
Definition mark_setup_completed (o : operator) (n1 n2 n3 : time) : settings -> settings := fun t =>
  setting_set "system.setup_completed_at" (JStr (strftime n2)) (Some (op_id o)) n3
    (setting_set SETUP_COMPLETED (JBool true) (Some (op_id o)) n1 t).
(** Completing and dismissing differ in the audit row. *)
Definition finish (o : operator) (action : string) (n1 n2 n3 at_ : time) (p : setup_state) : setup_state :=
  SetupState (audited o action "runtime_settings" SETUP_COMPLETED [] at_
                (with_settings (mark_setup_completed o n1 n2 n3) (su_estate p))) (su_rules p) None.
Fixpoint next_of (step : string) (l : list string) : string :=
  match l with
  | a :: ((b :: _) as r) => if String.eqb a step then b else next_of step r
  | [a] => a
  | [] => step
  end.
Definition put_key (k : string) (v : json) (d : pydict) : pydict :=
  if dict_has d k then (fun kv : string * json => if String.eqb kv.1 k then (k, v) else kv) <$> d else d ++ [(k, v)].
Definition setup_wizard_step_submit (o : operator) (step : string) (f : form) (n1 n2 n3 at_ : time) (p : setup_state)
    : outcome setup_answer * setup_state :=
  if negb (in_strs step WIZARD_STEPS) then (Ret (ToStep "welcome"), p)
  else
    let state := default [] (su_session p) in
    let onward e state := (Ret (ToStep (next_of step WIZARD_STEPS)), SetupState e (su_rules p) (Some state)) in
    if String.eqb step "branding" then
      let portal_name := field f "portal_name" in
      let e := su_estate p in
      let e := if is_empty portal_name then e
               else audited o "setup.branding_set" "runtime_settings" "system.portal_name" [("portal_name", JStr portal_name)] at_
                      (with_settings (setting_set "system.portal_name" (JStr portal_name) (Some (op_id o)) n1) e) in
      onward e (put_key "branding_done" (JBool true) state)
    else if String.eqb step "smtp" then onward (su_estate p) (put_key "smtp_acknowledged" (JBool true) state)
    else if String.eqb step "done" then (Ret ToIndex, finish o "setup.completed" n1 n2 n3 at_ p)
    else onward (su_estate p) state.
Definition setup_wizard_skip (o : operator) (n1 n2 n3 at_ : time) (p : setup_state) : outcome setup_answer * setup_state :=
  (Ret ToIndex, finish o "setup.skipped" n1 n2 n3 at_ p).

(** ** The routes *)

Inductive setup_request := SubmitStep (step : string) (f : form) | SkipSetup | Configure (device_id : string) (f : form).
Definition handle_setup (q : setup_request) (o : operator) (n1 n2 n3 at_ : time) (p : setup_state)
    : outcome setup_answer * setup_state :=
  match q with
  | SubmitStep step f => setup_wizard_step_submit o step f n1 n2 n3 at_ p
  | SkipSetup => setup_wizard_skip o n1 n2 n3 at_ p
  | Configure id f => device_configure_submit o id f n1 n2 at_ p
  end.
End wizard.

Lemma clean_required (d : pydict) k s : clean s -> dget d k = JStr s -> require d k = Ret tt.
Proof. intros [E1 E2] H. unfold require. by rewrite H, E1, E2. Qed.

Section setup.
Context (py_repr : json -> string).

(** ** What the picker makes *)

Lemma coerced v dflt lo hi n : lo <= dflt <= hi -> coerce_int py_repr v dflt lo hi = Ret n -> lo <= n <= hi.
Proof.
  unfold coerce_int. intros Hd. destruct (_ || _); [by intros [= <-]|]. destruct (parse_int _) as [z|]; [|done].
  destruct ((z <? lo) || (hi <? z)) eqn:E; [done|]. intros [= <-]. apply orb_false_iff in E as [E1 E2]. lia.
Qed.
(** The probes the answers lead to. *)
Inductive wizard_probe : pydict -> Prop :=
  | wp_internet l : Forall clean l -> (length l <= 10)%nat -> wizard_probe (internet_probe l)
  | wp_ping h : clean h -> wizard_probe [("kind", JStr "ping"); ("host", JStr h)]
  | wp_tcp h p : clean h -> 1 <= p <= 65535 -> wizard_probe [("kind", JStr "tcp"); ("host", JStr h); ("port", JInt p)]
  | wp_http u : clean u -> startswith "http://" (lower u) || startswith "https://" (lower u) = true ->
      wizard_probe [("kind", JStr "http"); ("url", JStr u)].

Lemma targets_clean v : Forall clean (parse_targets py_repr v).
Proof.
  unfold parse_targets. apply Forall_forall. intros t [Ht Hin]%list_elem_of_filter.
  apply list_elem_of_fmap in Hin as (x & -> & _). by apply strip_clean.
Qed.
Lemma address_probe a p : clean a -> address_to_probe a = Ret p -> wizard_probe p.
Proof.
  intros Ha. unfold address_to_probe. destruct (_ || _) eqn:Eh; [intros [= <-]; by apply wp_http|].
  destruct (negb _); [intros [= <-]; by apply wp_ping|]. destruct (partition _ a) as [[h b] q].
  destruct (is_empty (strip h)) eqn:E1; [intros [= <-]; by apply wp_ping|].
  destruct (is_empty (strip q)); [intros [= <-]; by apply wp_ping|]. cbn [orb].
  destruct (parse_int _) as [z|]; [|done]. destruct ((z <? 1) || (65535 <? z)) eqn:Ez; [done|]. intros [= <-].
  apply orb_false_iff in Ez as [? ?]. apply wp_tcp; [by apply strip_clean|lia].
Qed.

Record timers_ok (t : timers) : Prop := {
  to_off : 1 <= tm_off t <= 600;
  to_cooldown : 0 <= tm_cooldown t <= 86400;
  to_max : 1 <= tm_max t <= 60
}.
Lemma timers_within a t : watchdog_timers py_repr a = Ret t -> timers_ok t.
Proof.
  unfold watchdog_timers. intros H. peel H. peel H. peel H. peel H. injection H as <-.
  split; (eapply coerced; [|eassumption]); unfold DEFAULT_POWER_OFF_SECONDS, DEFAULT_COOLDOWN_SECONDS, DEFAULT_MAX_CYCLES_PER_HOUR; lia.
Qed.

(** A pick, by its parts. *)
Inductive pick (id : string) (a : pydict) : string -> picked -> Prop :=
  | pick_plug name behavior :
      (String.length name <= 120)%nat -> in_strs behavior RESTORE_BEHAVIORS = true ->
      pick id a "smart_plug" (Picked "smart_plug" [("device_name", JStr name); ("relay_restore_behavior", JStr behavior)] None)
  | pick_watchdog mode block name body probe off tolerance t :
      (mode, block) = ("internet_watchdog", "internet") /\ (exists l, probe = internet_probe l) \/
      (mode, block) = ("device_watchdog", "device") /\ address_to_probe (answer py_repr a "watch_address" EmptyString) = Ret probe ->
      (String.length name <= 120)%nat -> wizard_probe probe -> tolerance_of py_repr a = Ret tolerance -> timers_ok t ->
      pick id a mode (Picked mode [("device_name", JStr name); (block, JObj body)]
        (Some (rule_payload id mode probe [("kind", JStr "cycle"); ("power_off_seconds", JInt off)] tolerance t))).

Lemma named a n : clean_device_name py_repr a = Ret n -> (String.length n <= 120)%nat.
Proof.
  unfold clean_device_name. destruct (is_empty _); [done|]. destruct (_ <? _)%nat eqn:E; [done|]. intros [= <-].
  by apply Nat.ltb_ge in E.
Qed.
Lemma tolerance_within a n : tolerance_of py_repr a = Ret n -> 30 <= n <= 3600.
Proof. apply coerced. unfold DEFAULT_OFFLINE_TOLERANCE_SECONDS, PROBE_WINDOW_SECONDS. lia. Qed.
Lemma cycled a p : cycle_action py_repr a = Ret p -> exists off, p = [("kind", JStr "cycle"); ("power_off_seconds", JInt off)].
Proof. unfold cycle_action. intros H. peel H. injection H as <-. eauto. Qed.

Lemma picks id mode a k : apply_picker py_repr id mode a = Ret k -> pick id a mode k.
Proof.
  unfold apply_picker. destruct (String.eqb_spec mode "smart_plug") as [->|_]; [|destruct (String.eqb_spec mode "internet_watchdog") as [->|_];
    [|destruct (String.eqb_spec mode "device_watchdog") as [->|_]; [|done]]].
  - unfold apply_smart_plug. intros H. peel H. destruct (negb _) eqn:E; [done|]. injection H as <-.
    apply negb_false_iff in E. apply pick_plug; [by eapply named|done].
  - unfold apply_internet_watchdog. intros H. peel H. cbv zeta in H. set (l := match parse_targets _ _ with [] => _ | _ => _ end) in H.
    assert (Hl : Forall clean l).
    { subst l. pose proof (targets_clean (dget a "internet_targets")) as Ht. destruct (parse_targets _ _); [|done].
      repeat constructor. }
    destruct (_ <? _)%nat eqn:El; [done|]. apply Nat.ltb_ge in El. peel H. peel H. peel H. injection H as <-.
    match goal with Hc : cycle_action _ _ = _ |- _ => apply cycled in Hc as [off ->] end.
    eapply pick_watchdog; [left; by eauto|by eapply named|by apply wp_internet|done|by eapply timers_within].
  - unfold apply_device_watchdog. intros H. peel H. cbv zeta in H. destruct (is_empty _) eqn:Ea; [done|].
    apply strip_clean in Ea. peel H. peel H. peel H. peel H. injection H as <-.
    match goal with Hc : cycle_action _ _ = _ |- _ => apply cycled in Hc as [off ->] end.
    eapply pick_watchdog; [right; by eauto|by eapply named|by eapply address_probe|done|by eapply timers_within].
Qed.

(** ** What the services make of it *)

Lemma validate_targets l : Forall clean l ->
  validate_entries (validate_target_entry py_repr) ((fun h => JObj [("host", JStr h); ("port", JInt 53)]) <$> l) = Ret tt.
Proof.
  induction 1 as [|h l [E1 E2] _ IH]; [done|]. cbn [fmap list_fmap validate_entries].
  assert (E : validate_target_entry py_repr (JObj [("host", JStr h); ("port", JInt 53)]) = Ret tt).
  { unfold validate_target_entry. cbn -[strip is_empty]. destruct h as [|c h]; [done|]. change (py_str py_repr _) with (String c h). by rewrite E1. }
  by rewrite E.
Qed.
(** A web address whose scheme is not in lower case. *)
Definition shouted (u : string) : bool :=
  (startswith "http://" (lower u) || startswith "https://" (lower u)) && negb (startswith "http://" u || startswith "https://" u).
Definition shouting (probe : pydict) : bool := jeqs (dget probe "kind") "http" && match dget probe "url" with JStr u => shouted u | _ => false end.
Lemma validate_wizard_probe probe : wizard_probe probe ->
  validate_probe py_repr (JObj probe) =
    (if shouting probe then invalid "probe.url must use http:// or https:// scheme" else Ret tt) /\
  jin (dget probe "kind") KNOWN_PROBE_KINDS = true.
Proof.
  intros [l Hl Hn|h Hh|h p Hh Hp|u Hc Hu]; (split; [|vm_compute; reflexivity]).
  - cbn -[validate_entries Nat.ltb]. unfold validate_internet. cbn -[validate_entries Nat.ltb]. rewrite length_fmap.
    apply Nat.ltb_ge in Hn. rewrite Hn. by rewrite validate_targets.
  - cbn -[require]. by rewrite (clean_required _ _ h).
  - cbn -[require]. rewrite (clean_required _ _ h) by done. cbn. unfold require_int. cbn.
    replace (p <? 1) with false by lia. by replace (65535 <? p) with false by lia.
  - cbn -[validate_http shouted]. unfold validate_http, shouted. rewrite Hu. cbn [andb].
    change (dget _ "url") with (JStr u). rewrite clean_stripped by done. destruct Hc as [_ E].
    cbn -[startswith is_empty]. rewrite E. by destruct (startswith "http://" u || startswith "https://" u).
Qed.

(** The two kinds of answers the picker takes and the rule service refuses: more than 3000
    seconds of tolerance, a web address whose scheme is not in lower case. *)
Definition refused_answers (mode : string) (a : pydict) : Prop :=
  mode <> "smart_plug" /\
  ((exists n, tolerance_of py_repr a = Ret n /\ 3000 < n) \/
   mode = "device_watchdog" /\ shouted (answer py_repr a "watch_address" EmptyString) = true).

Lemma threshold_range n : 30 <= n -> (100 <? tolerance_to_threshold n) = (3000 <? n) /\ 1 <= tolerance_to_threshold n.
Proof. unfold tolerance_to_threshold, PROBE_WINDOW_SECONDS. intros H. split; [|lia]. Z.to_euclidean_division_equations. lia. Qed.
Lemma shouting_address a probe : address_to_probe a = Ret probe -> shouting probe = shouted a.
Proof.
  unfold address_to_probe, shouted. destruct (startswith _ (lower a) || _) eqn:E.
  { intros [= <-]. unfold shouting, shouted. cbn -[startswith]. by rewrite E. }
  cbv zeta. cbn [andb]. destruct (negb _); [by intros [= <-]|]. destruct (partition _ a) as [[h b] q].
  destruct (is_empty (strip h) || is_empty (strip q)); [by intros [= <-]|]. destruct (parse_int _) as [z|]; [|done].
  destruct ((z <? 1) || _); [done|]. by intros [= <-].
Qed.
Lemma wizard_name_ok id mode : (String.length id <= 80)%nat ->
  let n := strip (wizard_rule_name id mode) in
  strip_or_empty (JStr (wizard_rule_name id mode)) = Ret n /\ is_empty n = false /\ (String.length n <= 120)%nat.
Proof.
  intros Hid. cbv zeta. split_and!; [done|by apply strip_nonblank|].
  etransitivity; [apply strip_length|]. unfold wizard_rule_name, cat.
  destruct (String.eqb mode _); cbn [foldr]; rewrite !append_length; cbn; lia.
Qed.
(** The numbers and the action of a wizard's payload. *)
Lemma payload_form site id mode probe off tolerance t :
  is_empty (strip id) = false -> (String.length id <= 80)%nat -> wizard_probe probe -> 30 <= tolerance -> timers_ok t ->
  validate_rule_inputs py_repr (kwargs_form site (create_kwargs
    (rule_payload id mode probe [("kind", JStr "cycle"); ("power_off_seconds", JInt off)] tolerance t))) =
  if shouting probe then invalid "probe.url must use http:// or https:// scheme"
  else if 3000 <? tolerance then invalid "failure_threshold must be between 1 and 100"
  else Ret (strip (wizard_rule_name id mode), tolerance_to_threshold tolerance, 2, 30, tm_cooldown t).
Proof.
  intros Hid Hlen Hp Ht [_ [Hc1 Hc2] _]. destruct (wizard_name_ok id mode Hlen) as (En & Hn & Hl).
  destruct (validate_wizard_probe probe Hp) as [Ep Ek]. destruct (threshold_range tolerance Ht) as [E1 E2].
  change (validate_rule_inputs py_repr (kwargs_form site _)) with (validate_rule_inputs py_repr
    (RuleForm (JStr (wizard_rule_name id mode)) (JObj probe) (JObj [("kind", JStr "device"); ("id", JStr id)])
       (JObj [("kind", JStr "cycle"); ("power_off_seconds", JInt off)]) site (Some RULE_MARKER)
       (JInt (tolerance_to_threshold tolerance)) (JInt 2) (JInt 30) (JInt (tm_cooldown t)) (JInt 3) (JInt 60) JNull JNull)).
  unfold validate_rule_inputs. cbn [rf_name rf_probe rf_target rf_action rf_failure_threshold rf_recovery_threshold
    rf_window_seconds rf_cooldown_seconds]. rewrite En. cbn [mbind outcome_bind]. rewrite Hn.
apply Nat.ltb_ge in Hl. rewrite Hl, Ek. cbn [negb]. rewrite Ep.
  destruct (shouting probe); [done|]. cbn [mbind outcome_bind].
  assert (Et : validate_target (JObj [("kind", JStr "device"); ("id", JStr id)]) = Ret tt).
  { destruct id as [|c id]; [done|]. unfold validate_target.
    change (strip_or_empty (dget [("kind", JStr "device"); ("id", JStr (String c id))] "id")) with (Ret (strip (String c id))).
    cbn -[strip is_empty]. by rewrite Hid. }
  rewrite Et. change (validate_action _ _) with (Ret tt). unfold int_between. cbn -[tolerance_to_threshold Z.ltb].
  rewrite E1. replace (tolerance_to_threshold tolerance <? 1) with false by lia. cbn [orb].
  destruct (3000 <? tolerance); [done|]. cbn -[Z.ltb tolerance_to_threshold].
  replace (tm_cooldown t <? 0) with false by lia. by replace (86400 <? tm_cooldown t) with false by lia.
Qed.

Lemma picked_config id mode a k : apply_picker py_repr id mode a = Ret k ->
  validate_desired_config (JObj (pk_config k)) (Some (pk_mode k)) = Ret (pk_config k) /\ pk_mode k = mode /\ pk_config k <> [].
Proof.
  intros Hk%picks. destruct Hk as [name behavior Hn Hb|mode block name body probe off tolerance t Hm Hn Hp Ht Hto]; (split; [|done]);
    apply Nat.ltb_ge in Hn; unfold validate_desired_config.
  - cbn -[Nat.ltb]. by rewrite Hn.
  - destruct Hm as [[[= -> ->] _]|[[= -> ->] _]]; cbn -[Nat.ltb]; by rewrite Hn.
Qed.

(** C24. The translation of the wizard is sound but for two kinds of answers.  Whatever the
    answers, the configuration the picker makes is one the configuration service stores, a
    smart plug gets no rule and both watchdog modes get one, which the rule service accepts
    unless the answers are of the two kinds: more than 3000 seconds of tolerance (the picker
    takes up to 3600) or, for a device, a web address whose scheme is not in lower case. *)
Theorem wizard_answers_are_accepted id mode a k site :
  is_empty (strip id) = false -> (String.length id <= 80)%nat -> apply_picker py_repr id mode a = Ret k ->
  validate_desired_config (JObj (pk_config k)) (Some (pk_mode k)) = Ret (pk_config k) /\ pk_mode k = mode /\
  match pk_rule k with
  | None => mode = "smart_plug"
  | Some payload => mode <> "smart_plug" /\
      match validate_rule_inputs py_repr (kwargs_form site (create_kwargs payload)) with
      | Ret (name, _, _, window, _) => ~ refused_answers mode a /\ name = strip (wizard_rule_name id mode) /\ window = 30
      | Raise e => refused_answers mode a /\ invalid_rule e = true
      end
  end.
Proof.
  intros Hid Hlen Hk. destruct (picked_config id mode a k Hk) as (Hc & Hmode & _). split; [exact Hc|split; [exact Hmode|]]. clear Hc Hmode.
  apply picks in Hk. destruct Hk as [|mode block name body probe off tolerance t Hm Hn Hp Ht Hto]; [done|].
  - cbn [pk_rule]. assert (Hplug : mode <> "smart_plug") by (by destruct Hm as [[[= -> ->] _]|[[= -> ->] _]]). split; [done|].
    pose proof (tolerance_within a tolerance Ht) as Hr. rewrite payload_form by (done || lia).
    assert (Hs : shouting probe = true <-> mode = "device_watchdog" /\ shouted (answer py_repr a "watch_address" EmptyString) = true).
    { destruct Hm as [[[= -> ->] [l ->]]|[[= -> ->] Ha]]; [by split; [|intros []]|].
      rewrite (shouting_address _ _ Ha). tauto. }
    destruct (shouting probe); [split; [split; [done|right; by apply Hs]|done]|].
    destruct (3000 <? tolerance) eqn:E3; [split; [split; [done|left; exists tolerance; split; [done|lia]]|done]|].
    split; [|done]. intros [_ [(n & Hn' & Hgt)|H]]; [|by apply Hs in H]. rewrite Ht in Hn'. injection Hn' as <-. lia.
Qed.
End setup.

(** ** One rule per device and mode *)

Definition marked (r : rule_row) : Prop := rr_description r = Some RULE_MARKER.
Definition rule_name (r : rule_row) : string := rc_name (rr_rule r).
Record good_rules (ulid : nat -> string) (d : rule_db) : Prop := {
  gr_keys i r : rd_rules d !! i = Some r -> rc_id (rr_rule r) = i;
  gr_minted i : is_Some (rd_rules d !! i) -> exists n, (n < rd_next d)%nat /\ i = String.append "wdr_" (ulid n);
  gr_single i j r s : rd_rules d !! i = Some r -> rd_rules d !! j = Some s -> marked r -> marked s -> rule_name r = rule_name s -> i = j
}.
Definition wizards (id mode : string) (r : rule_row) : Prop := marked r /\ rule_name r = wizard_rule_name id mode.
Lemma is_wizard_rule_iff id mode r : is_wizard_rule id mode r = true <-> wizards id mode r.
Proof.
  unfold is_wizard_rule, wizards, marked, rule_name. rewrite andb_true_iff, !String.eqb_eq.
  destruct (rr_description r) as [s|]; cbn; [naive_solver|split; [by intros []|by intros []]].
Qed.

Lemma prior_none id mode d : find_prior_wizard_rule id mode d = None -> forall i r, rd_rules d !! i = Some r -> ~ wizards id mode r.
Proof.
  unfold find_prior_wizard_rule. destruct (find _ _) as [x|] eqn:E; [done|]. intros _ i r Hr Hw.
  assert (Hin : r ∈ list_rules d) by (apply ConflictTheorems.elem_of_list_rules; eauto). apply list_elem_of_In in Hin.
  apply is_wizard_rule_iff in Hw. by rewrite (find_none _ _ E _ Hin) in Hw.
Qed.
Lemma prior_some ulid id mode d i : good_rules ulid d -> find_prior_wizard_rule id mode d = Some i ->
  exists r, rd_rules d !! i = Some r /\ wizards id mode r.
Proof.
  intros Hg. unfold find_prior_wizard_rule. destruct (find _ _) as [x|] eqn:E; [|done]. intros [= <-].
  apply find_some in E as [Hin Hx]. apply list_elem_of_In, ConflictTheorems.elem_of_list_rules in Hin as [k Hk].
  exists x. rewrite (gr_keys _ _ Hg _ _ Hk). split; [done|by apply is_wizard_rule_iff].
Qed.
Lemma delete_good ulid i d : good_rules ulid d -> good_rules ulid (delete_rule i d).2.
Proof.
  intros [H1 H2 H3]. unfold delete_rule. destruct (rd_rules d !! i) as [old|]; [|done]. cbn [snd]. split; cbn.
  - intros j r [_ Hj]%lookup_delete_Some. eauto.
  - intros j [r [_ Hj]%lookup_delete_Some]. eauto.
  - intros j k r s [_ Hj]%lookup_delete_Some [_ Hk]%lookup_delete_Some. eauto.
Qed.
Lemma enable_good ulid i b now d : good_rules ulid d -> good_rules ulid (set_enabled i b now d).2.
Proof.
  intros [H1 H2 H3]. unfold set_enabled. destruct (rd_rules d !! i) as [old|] eqn:E; [|done]. cbn [snd].
  match goal with |- good_rules _ (RuleDb (<[i := ?row]> _) _) => set (new := row) end.
  assert (Hsame : forall j r, <[i := new]> (rd_rules d) !! j = Some r ->
    exists r0, rd_rules d !! j = Some r0 /\ rc_id (rr_rule r) = rc_id (rr_rule r0) /\ (marked r -> marked r0) /\ rule_name r = rule_name r0).
  { intros j r [[<- <-]|[_ Hj]]%lookup_insert_Some; eauto 8. }
  split; cbn.
  - intros j r (r0 & Hj & -> & _)%Hsame. eauto.
  - intros j [r (r0 & Hj & _)%Hsame]. eauto.
  - intros j k r s (r0 & Hj & _ & Mr & Nr)%Hsame (s0 & Hk & _ & Ms & Ns)%Hsame Hr Hs E'. rewrite Nr, Ns in E'. eauto.
Qed.

Section table.
Context (py_repr : json -> string) (ulid : nat -> string) `{!Inj (=) (=) ulid} (db_accepts : rule_row -> bool).

Lemma fresh_rule d : good_rules ulid d -> rd_rules d !! String.append "wdr_" (ulid (rd_next d)) = None.
Proof.
  intros Hg. destruct (rd_rules d !! _) as [r|] eqn:E; [|done].
  destruct (gr_minted _ _ Hg _ (mk_is_Some _ _ E)) as (n & Hn & E'). injection E' as E'. apply (inj ulid) in E'. lia.
Qed.
Lemma wizard_name_strip id mode : clean id -> strip (wizard_rule_name id mode) = wizard_rule_name id mode.
Proof.
  intros Hid. unfold wizard_rule_name, cat. cbn [foldr]. rewrite app_nil.
  destruct (String.eqb mode _); [apply (strip_append "S"%char "etup wizard — internet watchdog for " id)|
    apply (strip_append "S"%char "etup wizard — device watchdog for " id)]; done.
Qed.

(** The row a wizard's payload becomes. *)
Record watches (id mode : string) (row : rule_row) : Prop := {
  wa_wizard : wizards id mode row;
  wa_armed : rc_enabled (rr_rule row) = true /\ rt_status (rr_rule row) = Armed;
  wa_target : rc_target (rr_rule row) = JObj [("kind", JStr "device"); ("id", JStr id)];
  wa_window : rc_window_seconds (rr_rule row) = 30
}.
Lemma create_wizard_rule id mode a k payload site user now d r d' :
  clean id -> (String.length id <= 80)%nat -> good_rules ulid d -> (forall i x, rd_rules d !! i = Some x -> ~ wizards id mode x) ->
  apply_picker py_repr id mode a = Ret k -> pk_rule k = Some payload ->
  create_rule py_repr ulid db_accepts (kwargs_form site (create_kwargs payload)) user now d = (r, d') ->
  match r with
  | Ret row => watches id mode row /\ rd_rules d !! rc_id (rr_rule row) = None /\
      rd_rules d' = <[rc_id (rr_rule row) := row]> (rd_rules d) /\ good_rules ulid d' /\ ~ refused_answers py_repr mode a
  | Raise e => d' = d /\ (refused_answers py_repr mode a -> invalid_rule e = true)
  end.
Proof.
  intros Hid Hlen Hg Hno Hk Hp. pose proof (fresh_rule d Hg) as Hf.
  destruct (wizard_answers_are_accepted py_repr id mode a k site) as (_ & _ & Hv); [by destruct Hid as [-> ?]|done|done|].
  rewrite Hp in Hv. destruct Hv as [_ Hv]. apply picks in Hk. destruct Hk as [|mode block name body probe off tolerance t Hm]; [done|].
  injection Hp as <-. unfold create_rule.
  destruct (validate_rule_inputs _ _) as [[[[[n ft] rt] ws] cd]|e]; [|intros [= <- <-]; by destruct Hv].
  destruct Hv as (Hr & -> & ->). rewrite wizard_name_strip by done. cbn [mbind outcome_bind kwargs_form rf_max_retries rf_retry_delay_seconds py_int].
  unfold session_scope. cbv zeta. match goal with |- context [db_accepts ?x] => set (row := x) end.
  destruct (db_accepts row); [|by intros [= <- <-]]. intros [= <- <-]. destruct Hg as [G1 G2 G3].
  assert (Hw : wizards id mode row) by done. split_and!; [by split|done|done| |done]. split; cbn [rd_rules rd_next].
  - intros i x [[<- <-]|[_ Hi]]%lookup_insert_Some; [done|eauto].
  - intros i [x [[<- _]|[_ Hi]]%lookup_insert_Some]; [exists (rd_next d); split; [lia|done]|].
    destruct (G2 i (mk_is_Some _ _ Hi)) as (m & ? & ?). exists m. split; [lia|done].
  - intros i j x y [[<- <-]|[Hni Hi]]%lookup_insert_Some [[<- <-]|[Hnj Hj]]%lookup_insert_Some Mx My E; [done| | |by eapply G3].
    + destruct (Hno j y Hj). split; [done|]. by rewrite <- E.
    + destruct (Hno i x Hi). split; [done|]. by rewrite E.
Qed.

(** Step 2 of the route. *)
Lemma replace_rule_exact id mode a k payload site user now d prior r d' :
  clean id -> (String.length id <= 80)%nat -> good_rules ulid d ->
  apply_picker py_repr id mode a = Ret k -> pk_rule k = Some payload ->
  replace_rule py_repr ulid db_accepts id mode site payload user now d = (prior, r, d') ->
  let d0 := match prior with Some i => base.delete i (rd_rules d) | None => rd_rules d end in
  prior = find_prior_wizard_rule id mode d /\ (forall i x, d0 !! i = Some x -> ~ wizards id mode x) /\ good_rules ulid d' /\
  match r with
  | Ret row => watches id mode row /\ d0 !! rc_id (rr_rule row) = None /\ rd_rules d' = <[rc_id (rr_rule row) := row]> d0 /\
      ~ refused_answers py_repr mode a
  | Raise e => rd_rules d' = d0 /\ (refused_answers py_repr mode a -> invalid_rule e = true)
  end.
Proof.
  intros Hid Hlen Hg Hk Hp. unfold replace_rule. set (p := find_prior_wizard_rule id mode d). cbv zeta.
  set (dd := match p with Some i => (delete_rule i d).2 | None => d end).
  assert (Hgd : good_rules ulid dd) by (subst dd; destruct p; [by apply delete_good|done]).
  assert (Ed : rd_rules dd = match p with Some i => base.delete i (rd_rules d) | None => rd_rules d end /\
               forall i x, rd_rules dd !! i = Some x -> ~ wizards id mode x).
  { subst dd. destruct p as [i|] eqn:Ep; [|split; [done|by apply prior_none]].
    destruct (prior_some ulid id mode d i Hg Ep) as (x & Hx & Hw). unfold delete_rule. rewrite Hx. split; [done|]. cbn.
    intros j y [Hne Hy]%lookup_delete_Some [My Ny]. destruct Hw as [Mx Nx]. apply Hne.
    eapply (gr_single _ _ Hg); [exact Hx|exact Hy|done|done|congruence]. }
  destruct Ed as [Ed Hno]. destruct (create_rule _ _ _ _ _ _ _) as [r0 d1] eqn:Ec. intros [= <- <- <-].
  pose proof (create_wizard_rule id mode a k payload site user now dd r0 d1 Hid Hlen Hgd Hno Hk Hp Ec) as H.
  rewrite <- Ed. split; [done|]. split; [done|]. destruct r0 as [row|e].
  - destruct H as (Hw & Hn & Hr & Hgood & Hnr). by split_and!.
  - destruct H as [-> He]. by split_and!.
Qed.
End table.

(** ** The route *)

Section routes.
Context (py_repr : json -> string) (ulid : nat -> string) `{!Inj (=) (=) ulid}.
Context (strftime : time -> string) (db_accepts : rule_row -> bool) (audit_accepts : audit_row -> bool) (remote_addr : option string).
#[local] Abbreviation handle_setup := (handle_setup py_repr ulid strftime db_accepts audit_accepts remote_addr).
#[local] Abbreviation configure := (device_configure_submit py_repr ulid db_accepts audit_accepts remote_addr).

Definition configured (id : string) (cfg : pydict) (p : setup_state) : Prop :=
  exists d, hub_devices (es_hub (su_estate p)) !! id = Some d /\ col d "desired_config" = JObj cfg.
Lemma configuration_saved id mode a k c now e d :
  apply_picker py_repr id mode a = Ret k -> hub_devices (es_hub e) !! id = Some d ->
  exists out fl d', set_desired_config id (JObj (pk_config k)) (Some (pk_mode k)) now (fleet_of c e) = (Ret out, fl) /\
    hub_devices (es_hub (into fl e)) !! id = Some d' /\ col d' "desired_config" = JObj (pk_config k).
Proof.
  intros Hk Hd. destruct (picked_config py_repr id mode a k Hk) as (Hc & _ & Hne). unfold set_desired_config. rewrite Hc.
  unfold get_device, fleet_of. cbn [fl_hub]. rewrite Hd. do 3 eexists. split; [reflexivity|].
  split; [cbn; by rewrite lookup_insert_eq|]. unfold col, set_col. cbn [dev_cols].
  rewrite !lookup_insert_ne by done. rewrite lookup_insert_eq. by destruct (pk_config k).
Qed.

Definition usable (id : string) : Prop := clean id /\ (String.length id <= 80)%nat.
Definition in_wizard (f : form) : bool := bool_decide (form_get f "wizard" = Some "1").
Definition done_answer (id : string) (f : form) : setup_answer := if in_wizard f then ToStep "done" else ToDevice id.
Definition back_answer (id : string) (f : form) : setup_answer := if in_wizard f then ToStep "first-device" else ToPicker id.
(** A request to configure, by what the answers lead to. *)
Lemma configure_cases o id f n1 n2 n3 p d :
  hub_devices (es_hub (su_estate p)) !! id = Some d ->
  match apply_picker py_repr id (field f "mode") (picker_answers f) with
  | Raise e => configure o id f n1 n2 n3 p = (match caught "SetupWizardError" e with Some _ => Ret (back_answer id f) | None => Raise e end, p)
  | Ret k =>
    exists answer p', configure o id f n1 n2 n3 p = (answer, p') /\ su_session p' = su_session p /\ configured id (pk_config k) p' /\
    match pk_rule k with
    | None => answer = Ret (done_answer id f) /\ su_rules p' = su_rules p
    | Some payload =>
      match replace_rule py_repr ulid db_accepts id (pk_mode k) (device_site d) payload (Some (op_id o)) n2 (su_rules p) with
      | (_, Ret row, rules) => answer = Ret (done_answer id f) /\ su_rules p' = rules
      | (_, Raise x, rules) => answer = (if invalid_rule x then Ret (back_answer id f) else Raise x) /\ su_rules p' = rules /\
                               es_audit (su_estate p') = es_audit (su_estate p)
      end
    end
  end.
Proof.
  intros Hd. unfold device_configure_submit. rewrite Hd. cbv zeta. destruct (apply_picker _ _ _ _) as [k|e] eqn:Hk; [|done].
  destruct (configuration_saved id _ _ k (op_caller o) n1 (su_estate p) d Hk Hd) as (out & fl & d' & -> & Hd' & Hcfg).
  destruct (pk_rule k) as [payload|].
  - destruct (replace_rule _ _ _ _ _ _ _ _ _ _) as [[prior [row|x]] rules]; do 2 eexists; (split; [reflexivity|]); (split; [done|]); split;
      [by exists d'|done|by exists d'|done].
  - do 2 eexists. split; [reflexivity|]. split; [done|]. split; [by exists d'|done].
Qed.

(** A step of the hub: a request of the wizard, or a rule deleted or switched on the rule pages. *)
Inductive setup_step : setup_state -> setup_state -> Prop :=
  | ss_request q o n1 n2 n3 at_ p : (forall id f, q = Configure id f -> usable id) ->
      setup_step p (handle_setup q o n1 n2 n3 at_ p).2
  | ss_delete i p : setup_step p (SetupState (su_estate p) (delete_rule i (su_rules p)).2 (su_session p))
  | ss_enable i b now p : setup_step p (SetupState (su_estate p) (set_enabled i b now (su_rules p)).2 (su_session p)).

Lemma configure_good o id f n1 n2 n3 p :
  usable id -> good_rules ulid (su_rules p) -> good_rules ulid (su_rules (configure o id f n1 n2 n3 p).2).
Proof.
  intros [Hid Hlen] Hg. destruct (hub_devices (es_hub (su_estate p)) !! id) as [d|] eqn:Hd;
    [|unfold device_configure_submit; by rewrite Hd].
  pose proof (configure_cases o id f n1 n2 n3 p d Hd) as H. destruct (apply_picker _ _ _ _) as [k|e] eqn:Hk; [|by rewrite H].
  destruct H as (answer & p' & -> & _ & _ & H). cbn [snd]. destruct (pk_rule k) as [payload|] eqn:Hp; [|by destruct H as [_ ->]].
  destruct (picked_config py_repr id _ _ k Hk) as (_ & Hm & _).
  destruct (replace_rule _ _ _ _ _ _ _ _ _ _) as [[prior r] rules] eqn:Er. rewrite Hm in Er.
  destruct (replace_rule_exact py_repr ulid db_accepts _ _ _ _ _ _ _ _ _ _ _ _ Hid Hlen Hg Hk Hp Er) as (_ & _ & Hg' & _).
  destruct r; [by destruct H as [_ ->]|by destruct H as (_ & -> & _)].
Qed.
Lemma setup_step_good p p' : setup_step p p' -> good_rules ulid (su_rules p) -> good_rules ulid (su_rules p').
Proof.
  intros [q o n1 n2 n3 at_ q0 Hq|i q0|i b now q0] Hg; [|by apply delete_good|by apply enable_good].
  destruct q as [step f| |id f]; cbn [SetupWizard.handle_setup].
  - unfold setup_wizard_step_submit. destruct (negb _); [done|]. cbv zeta. repeat destruct (String.eqb _ _); done.
  - done.
  - apply configure_good; [by eapply Hq|done].
Qed.
Lemma reachable_good p0 p : rtc setup_step p0 p -> rd_rules (su_rules p0) = ∅ -> good_rules ulid (su_rules p).
Proof.
  intros Hr E. assert (H0 : good_rules ulid (su_rules p0)).
  { assert (Hn : forall i r, rd_rules (su_rules p0) !! i <> Some r) by (intros i r; by rewrite E, lookup_empty).
    split; [intros i r H|intros i [r H]|intros i j r s H]; by apply Hn in H. }
  clear E. induction Hr as [|x y z Hs _ IH]; [done|]. by apply IH, (setup_step_good x y).
Qed.

(** C19. The wizard keeps one rule per device and mode.  Over any history of its requests, with
    rules deleted and switched in between, no two rules carry the marker and one name.  A
    request that succeeds has stored the configuration it made; for a smart plug it leaves
    the rules as they are, and for a watchdog the device ends with exactly one rule of that
    mode, armed, on that device, every other rule being as it was. *)
Theorem wizard_keeps_one_rule p0 p :
  rtc setup_step p0 p -> rd_rules (su_rules p0) = ∅ ->
  (forall i j r s, rd_rules (su_rules p) !! i = Some r -> rd_rules (su_rules p) !! j = Some s ->
     marked r -> marked s -> rule_name r = rule_name s -> i = j) /\
  forall o id f n1 n2 n3 p', usable id -> configure o id f n1 n2 n3 p = (Ret (done_answer id f), p') ->
    exists k, apply_picker py_repr id (field f "mode") (picker_answers f) = Ret k /\ configured id (pk_config k) p' /\
      match pk_rule k with
      | None => su_rules p' = su_rules p
      | Some _ => exists i row, rd_rules (su_rules p') !! i = Some row /\ watches id (pk_mode k) row /\
          forall j x, j <> i -> rd_rules (su_rules p') !! j = Some x <->
            rd_rules (su_rules p) !! j = Some x /\ ~ wizards id (pk_mode k) x
      end.
Proof.
  intros Hr E. pose proof (reachable_good p0 p Hr E) as Hg. split; [apply (gr_single _ _ Hg)|].
  intros o id f n1 n2 n3 p' [Hid Hlen] Hc. destruct (hub_devices (es_hub (su_estate p)) !! id) as [d|] eqn:Hd.
  2: { unfold device_configure_submit in Hc. rewrite Hd in Hc. unfold done_answer in Hc. by destruct (in_wizard f). }
  pose proof (configure_cases o id f n1 n2 n3 p d Hd) as H. destruct (apply_picker _ _ _ _) as [k|e] eqn:Hk.
  2: { rewrite H in Hc. destruct (caught _ _); [|done]. unfold done_answer, back_answer in Hc. by destruct (in_wizard f). }
  destruct H as (answer & p1 & Hc' & _ & Hcfg & H). rewrite Hc in Hc'. injection Hc' as <- <-. exists k. split; [done|split; [done|]].
  destruct (pk_rule k) as [payload|] eqn:Hp; [|by destruct H].
  destruct (picked_config py_repr id _ _ k Hk) as (_ & Hm & _). rewrite Hm in H |- *.
  destruct (replace_rule _ _ _ _ _ _ _ _ _ _) as [[prior r] rules] eqn:Er.
  destruct (replace_rule_exact py_repr ulid db_accepts _ _ _ _ _ _ _ _ _ _ _ _ Hid Hlen Hg Hk Hp Er) as (Eprior & Hno & _ & Hrow).
  destruct r as [row|x]; destruct H as [Ha H].
  2: { destruct (invalid_rule x); [|done]. unfold done_answer, back_answer in Ha. by destruct (in_wizard f). }
  rewrite H. destruct Hrow as (Hw & Hnew & -> & _). exists (rc_id (rr_rule row)), row.
  split; [apply lookup_insert_eq|split; [done|]]. intros j x Hj. rewrite lookup_insert_ne by done.
  destruct prior as [i|]; [|split; [intros Hx; split; [done|by eapply Hno]|by intros []]].
  symmetry in Eprior. destruct (prior_some ulid _ _ _ _ Hg Eprior) as (y & Hy & Hwy). split.
  - intros Hx. split; [by apply lookup_delete_Some in Hx as []|by eapply Hno].
  - intros [Hx Hnx]. apply lookup_delete_Some. split; [|done]. intros ->. by simplify_eq.
Qed.

(** C40. Refused answers cost the device its rule.  When the answers are of the two kinds the
    rule service refuses, the request answers as if nothing had happened and records nothing,
    yet the new configuration is stored and the rule the device had for that mode is gone,
    every other rule being as it was. *)
Theorem refused_answers_cost_the_rule p0 p o id f n1 n2 n3 k :
  rtc setup_step p0 p -> rd_rules (su_rules p0) = ∅ -> usable id -> is_Some (hub_devices (es_hub (su_estate p)) !! id) ->
  apply_picker py_repr id (field f "mode") (picker_answers f) = Ret k ->
  refused_answers py_repr (field f "mode") (picker_answers f) ->
  exists p', configure o id f n1 n2 n3 p = (Ret (back_answer id f), p') /\ configured id (pk_config k) p' /\
    es_audit (su_estate p') = es_audit (su_estate p) /\
    forall j x, rd_rules (su_rules p') !! j = Some x <-> rd_rules (su_rules p) !! j = Some x /\ ~ wizards id (pk_mode k) x.
Proof.
  intros Hr E [Hid Hlen] [d Hd] Hk Hrefused. pose proof (reachable_good p0 p Hr E) as Hg.
  pose proof (configure_cases o id f n1 n2 n3 p d Hd) as H. rewrite Hk in H. destruct H as (answer & p' & Hc & _ & Hcfg & H).
  destruct (picked_config py_repr id _ _ k Hk) as (_ & Hm & _). rewrite Hm in H |- *.
  destruct (pk_rule k) as [payload|] eqn:Hp.
  2: { apply picks in Hk. destruct Hk; [by destruct Hrefused|done]. }
  destruct (replace_rule _ _ _ _ _ _ _ _ _ _) as [[prior r] rules] eqn:Er.
  destruct (replace_rule_exact py_repr ulid db_accepts _ _ _ _ _ _ _ _ _ _ _ _ Hid Hlen Hg Hk Hp Er) as (Eprior & Hno & _ & Hrow).
  destruct r as [row|e]; [by destruct Hrow as (_ & _ & _ & [])|]. destruct Hrow as [Er' Hinv], H as (Ha & Hs & Hau).
  rewrite (Hinv Hrefused) in Ha. subst answer. exists p'. split; [done|split; [done|split; [done|]]]. rewrite Hs, Er'. intros j x.
  destruct prior as [i|]; [|split; [intros Hx; split; [done|by eapply Hno]|by intros []]].
  symmetry in Eprior. destruct (prior_some ulid _ _ _ _ Hg Eprior) as (y & Hy & Hwy). split.
  - intros Hx. split; [by apply lookup_delete_Some in Hx as []|by eapply Hno].
  - intros [Hx Hnx]. apply lookup_delete_Some. split; [|done]. intros ->. by simplify_eq.
Qed.
End routes.

Module Example.

Definition no_text (_ : time) : string := EmptyString.
Definition no_repr (_ : json) : string := EmptyString.
Definition accepts {A} (_ : A) : bool := true.
Definition admin : operator := Operator (Caller (Some "org_a") Enforce) "usr_a" ROLE_ADMIN "a@example.org".
Definition plug : device := Device true true None {["site_id" := JStr "site_1"]}.
Definition p0 : setup_state :=
  SetupState (Estate (Hub {["dev_1" := plug]} ∅ [] [] empty_bus 0) ∅ ∅ ∅ ∅ [] ∅ [] []) (RuleDb ∅ 0) None.
(** The camera at an address; the tolerance in seconds. *)
Definition watch (tolerance : string) : form :=
  [("mode", " device_watchdog "); ("device_name", "Camera"); ("watch_address", "10.0.0.9:80"); ("offline_tolerance_seconds", tolerance)].
Definition configure (f : form) (p : setup_state) : outcome setup_answer * setup_state :=
  device_configure_submit no_repr pretty accepts accepts None admin "dev_1" f 1 1 1 p.
Definition p1 : setup_state := (configure (watch "90") p0).2.
Definition p2 : setup_state := (configure (watch "300") p1).2.
Definition p3 : setup_state := (configure (watch "3600") p2).2.

Definition thresholds_of (p : setup_state) : list Z :=
  (fun r : rule_row => rc_failure_threshold (rr_rule r)) <$> rows (rd_rules (su_rules p)).
(** 90 seconds are three probes, 300 are ten, and 3600 would be 120. *)
Example thresholds :
  thresholds_of p1 = [3] /\
  thresholds_of p2 = [10] /\
  (configure (watch "3600") p2).1 = Ret (ToPicker "dev_1") /\ rd_rules (su_rules p3) = ∅.
Proof. split_and!; vm_compute; reflexivity. Qed.

Lemma steps_to_p2 : rtc (setup_step no_repr pretty no_text accepts accepts None) p0 p2.
Proof.
  assert (Hs : forall f p, setup_step no_repr pretty no_text accepts accepts None p (configure f p).2).
  { intros f p. refine (ss_request no_repr pretty no_text accepts accepts None (Configure "dev_1" f) admin 1 1 1 1 p _).
    intros id g [= <- _]. split; [by split|cbn; lia]. }
  eapply rtc_l; [apply (Hs (watch "90"))|]. apply rtc_once, (Hs (watch "300")).
Qed.

Lemma wizard_answers_are_accepted_witness :
  exists k, apply_picker no_repr "dev_1" "device_watchdog" [("device_name", JStr "Cam"); ("watch_address", JStr " HTTP://cam ")] = Ret k /\
    pk_mode k = "device_watchdog".
Proof.
  set (a := [("device_name", JStr "Cam"); ("watch_address", JStr " HTTP://cam ")]).
  set (k := match apply_picker no_repr "dev_1" "device_watchdog" a with Ret k => k | Raise _ => Picked EmptyString [] None end).
  assert (E : apply_picker no_repr "dev_1" "device_watchdog" a = Ret k) by (vm_compute; reflexivity).
  exists k. split; [exact E|].
  apply (wizard_answers_are_accepted no_repr "dev_1" "device_watchdog" a k (Some "site_1")); [reflexivity|cbn; lia|exact E].
Defined.

Lemma wizard_keeps_one_rule_witness :
  rd_rules (su_rules p2) <> ∅ /\
  forall i j r s, rd_rules (su_rules p2) !! i = Some r -> rd_rules (su_rules p2) !! j = Some s ->
    marked r -> marked s -> rule_name r = rule_name s -> i = j.
Proof.
  split; [by vm_compute|].
  apply (wizard_keeps_one_rule no_repr pretty no_text accepts accepts None p0 p2 steps_to_p2 eq_refl).
Defined.

Lemma refused_answers_cost_the_rule_witness :
  exists k, configure (watch "3600") p2 = (Ret (ToPicker "dev_1"), p3) /\ configured "dev_1" (pk_config k) p3.
Proof.
  set (k := match apply_picker no_repr "dev_1" "device_watchdog" (picker_answers (watch "3600")) with Ret k => k | Raise _ => Picked EmptyString [] None end).
  exists k. destruct (refused_answers_cost_the_rule no_repr pretty no_text accepts accepts None p0 p2 admin "dev_1" (watch "3600") 1 1 1 k
    steps_to_p2 eq_refl) as (p' & E & Hc & _).
  - split; [by split|cbn; lia].
  - vm_compute. by eexists.
  - vm_compute. reflexivity.
  - split; [by vm_compute|]. left. exists 3600. split; [vm_compute; reflexivity|lia].
  - assert (Ep : p3 = p') by (unfold p3, configure; by rewrite E). subst p'. by split.
Defined.
End Example.
