(* ===== verification/DeviceForms.v ===== *)
(** * The desired-configuration form ([blueprints/admin/_device_config_forms.py])

    The flat [cfg_*] fields of the form as the object the configuration service stores, the
    inverse that fills the form in, and the test whether the form may be shown at all.  The
    labels of the error messages are left out.

    Then that saving it loses nothing: [posted] is what the browser sends for the form the page
    shows ([templates/devices/_desired_config_form.html]), filled in from a stored configuration
    and left as it is. *)

From Stdlib Require Import Ascii.
From stdpp Require Import pretty.
From S2P Require Import Prelude PyFloat Commands Devices DeviceConfig ConfigFacts RuleForms EstateFacts.
Local Open Scope string_scope.
Local Open Scope list_scope.
Local Open Scope Z_scope.

Definition DeviceConfigFormError {A} (m : string) : outcome A := Raise (AppError "DeviceConfigFormError" m).

Definition RELAY_RESTORE_CHOICES : list string := ["restore_previous"; "always_on"; "always_off"].
Definition INTERNET_INT_SUBKEYS : list string :=
  ["failure_threshold_seconds"; "power_off_seconds"; "post_reboot_holdoff_seconds"; "max_cycles_per_incident";
   "max_cycles_per_hour"; "cooldown_seconds"; "dns_refresh_seconds"; "recovery_stability_seconds"].
Definition DEVICE_INT_SUBKEYS : list string :=
  ["failure_threshold_seconds"; "power_off_seconds"; "post_reboot_holdoff_seconds"; "max_cycles_per_incident";
   "max_cycles_per_hour"; "cooldown_seconds"; "recovery_stability_seconds"].
Definition POWER_INT_SUBKEYS : list string := ["sample_rate_hz"; "batch_seconds"].
Definition NOTIFICATIONS_BOOL_SUBKEYS : list string :=
  ["enabled"; "send_on_trigger"; "send_on_recovery"; "send_on_max_cycles_reached"; "send_test_notification_enabled"].
Definition NOTIFICATIONS_STR_SUBKEYS : list string := ["type"; "webhook_url"; "webhook_method"].
Definition NOTIFICATIONS_SECRET_SUBKEY : string := "webhook_auth_token".

(** ** The fields of a submitted form *)

Definition form_bool (f : form) (k : string) : bool := in_strs (lower (field f k)) ["1"; "true"; "on"; "yes"].
Definition form_int (f : form) (k : string) : outcome (option Z) :=
  let raw := field f k in
  if is_empty raw then Ret None
  else match parse_int raw with
       | Some z => Ret (Some z)
       | None => DeviceConfigFormError "must be a whole number"
       end.
(** The hidden companion of a checkbox. *)
Definition present (f : form) (k : string) : bool := negb (is_empty (field f (String.append k "_present"))).

(** [if v is not None: d[k] = v] at the end of a dict that lacks the key. *)
Definition entry (k : string) (v : option json) : pydict := match v with Some v => [(k, v)] | None => [] end.
(** [for sub in subkeys: ...]. *)
Fixpoint int_fields (f : form) (prefix : string) (subkeys : list string) : outcome pydict :=
  match subkeys with
  | [] => Ret []
  | sub :: r =>
    v ← form_int f (String.append prefix sub);
    rest ← int_fields f prefix r;
    Ret (entry sub (JInt <$> v) ++ rest)
  end.

Definition target_lines (f : form) (k : string) : list string :=
  filter (fun t => is_empty t = false) (strip <$> splitlines (default EmptyString (form_get f k))).
(** [_build_watchdog_block], with the field of the targets or of the target. *)
Definition build_watchdog_block (f : form) (prefix : string) (int_subkeys : list string)
    (targets_field target_field : option string) : outcome pydict :=
  let targets := match targets_field with
                 | Some k => match target_lines f k with [] => None | l => Some (JList (JStr <$> l)) end
                 | None => None
                 end in
  let target := k ← target_field; JStr <$> opt_field f k in
  ints ← int_fields f prefix int_subkeys;
  Ret (entry "targets" targets ++ entry "target" target ++ ints).
Definition build_notifications_block (f : form) (existing : json) : pydict :=
  let k sub := String.append "cfg_notifications_" sub in
  let token := field f (k NOTIFICATIONS_SECRET_SUBKEY) in
  concat ((fun sub => entry sub (if present f (k sub) then Some (JBool (form_bool f (k sub))) else None)) <$> NOTIFICATIONS_BOOL_SUBKEYS) ++
  concat ((fun sub => entry sub (JStr <$> opt_field f (k sub))) <$> NOTIFICATIONS_STR_SUBKEYS) ++
  entry NOTIFICATIONS_SECRET_SUBKEY
    (if negb (is_empty token) then Some (JStr token)
     else match existing with
          | JObj d => let old := dget d NOTIFICATIONS_SECRET_SUBKEY in if truthy old then Some old else None
          | _ => None
          end).
(** [if block: cfg[k] = block]. *)
Definition block (k : string) (d : pydict) : pydict := match d with [] => [] | _ => [(k, JObj d)] end.

Definition build_desired_config_from_form (f : form) (existing : pydict) : outcome pydict :=
  let name := opt_field f "cfg_device_name" in
  if (120 <? String.length (default EmptyString name))%nat then DeviceConfigFormError "Device name must be 120 characters or fewer."
  else
    let relay := opt_field f "cfg_relay_restore_behavior" in
    if match relay with Some r => negb (in_strs r RELAY_RESTORE_CHOICES) | None => false end
    then DeviceConfigFormError "Relay restore behavior must be one of"
    else
      monitor ← form_int f "cfg_monitor_interval_seconds";
      warmup ← form_int f "cfg_boot_warmup_seconds";
      let button := if present f "cfg_manual_button_enabled" then Some (JBool (form_bool f "cfg_manual_button_enabled")) else None in
      internet ← build_watchdog_block f "cfg_internet_" INTERNET_INT_SUBKEYS (Some "cfg_internet_targets") None;
      device ← build_watchdog_block f "cfg_device_" DEVICE_INT_SUBKEYS None (Some "cfg_device_target");
      power_ints ← int_fields f "cfg_power_" POWER_INT_SUBKEYS;
      let power := entry "enabled" (if present f "cfg_power_enabled" then Some (JBool (form_bool f "cfg_power_enabled")) else None)
                   ++ power_ints in
      let notifications := build_notifications_block f (dget existing "notifications") in
      Ret (entry "device_name" (JStr <$> name) ++ entry "relay_restore_behavior" (JStr <$> relay) ++
           entry "monitor_interval_seconds" (JInt <$> monitor) ++ entry "boot_warmup_seconds" (JInt <$> warmup) ++
           entry "manual_button_enabled" button ++ block "internet" internet ++ block "device" device ++
           block "power" power ++ block "notifications" notifications).

(** ** The inverse *)

Section values.
Context (py_repr : json -> string).
Definition as_bool (v : json) : json := JBool (truthy v).
(** [for sub in subkeys: if sub in block: values[prefix + sub] = ...]. *)
Definition prefixed (g : json -> json) (prefix : string) (subkeys : list string) (b : pydict) : pydict :=
  omap (fun sub => (fun v => (String.append prefix sub, g v)) <$> dict_get b sub) subkeys.
Definition of_block (v : json) (g : pydict -> pydict) : pydict := match v with JObj d => g d | _ => [] end.
Fixpoint join_lines (l : list string) : string :=
  match l with [] => EmptyString | [s] => s | s :: r => String.append s (String.append (String "010" EmptyString) (join_lines r)) end.
Definition targets_text (v : json) : option json :=
  match v with JList l => Some (JStr (join_lines (py_str py_repr <$> l))) | _ => None end.
Definition desired_config_to_form_values (cfg : pydict) : pydict :=
  let top g k := prefixed g "cfg_" [k] cfg in
  top id "device_name" ++ top id "relay_restore_behavior" ++ top id "monitor_interval_seconds" ++ top id "boot_warmup_seconds" ++
  top as_bool "manual_button_enabled" ++
  of_block (dget cfg "internet") (fun b => entry "cfg_internet_targets" (targets_text (dget b "targets")) ++ prefixed id "cfg_internet_" INTERNET_INT_SUBKEYS b) ++
  of_block (dget cfg "device") (fun b => prefixed id "cfg_device_" ["target"] b ++ prefixed id "cfg_device_" DEVICE_INT_SUBKEYS b) ++
  of_block (dget cfg "power") (fun b => prefixed as_bool "cfg_power_" ["enabled"] b ++ prefixed id "cfg_power_" POWER_INT_SUBKEYS b) ++
  of_block (dget cfg "notifications") (fun b => prefixed as_bool "cfg_notifications_" NOTIFICATIONS_BOOL_SUBKEYS b ++
                                                prefixed id "cfg_notifications_" NOTIFICATIONS_STR_SUBKEYS b).
End values.

(** ** Whether the form can hold a configuration *)

Definition representable_subkeys : list (string * list string) :=
  [("internet", INTERNET_INT_SUBKEYS ++ ["targets"]); ("device", DEVICE_INT_SUBKEYS ++ ["target"]);
   ("power", POWER_INT_SUBKEYS ++ ["enabled"]);
   ("notifications", NOTIFICATIONS_BOOL_SUBKEYS ++ NOTIFICATIONS_STR_SUBKEYS ++ [NOTIFICATIONS_SECRET_SUBKEY])].
Definition flat_list (v : json) : bool :=
  match v with JList l => forallb (fun t => match t with JObj _ | JList _ => false | _ => true end) l | _ => false end.
Definition block_representable (key : string) (allowed : list string) (v : json) : bool :=
  match v with
  | JNull => true
  | JObj b =>
    forallb (fun k => in_strs k allowed) (dict_keys b) &&
    (if String.eqb key "internet" && dict_has b "targets" then flat_list (dget b "targets") else true)
  | _ => false
  end.
Definition is_form_representable (cfg : json) : bool :=
  if negb (truthy cfg) then true
  else match cfg with
  | JObj d =>
    forallb (fun k => in_strs k ALLOWED_DESIRED_CONFIG_KEYS) (dict_keys d) &&
    forallb (fun ka : string * list string => block_representable ka.1 ka.2 (dget d ka.1)) representable_subkeys
  | _ => false
  end.

(** Case by case over the strings of a list. *)
Ltac each H t := apply in_strs_spec in H; repeat (apply elem_of_cons in H as [->|H]; [t|]); by apply not_elem_of_nil in H.

(** ** Lookups *)

Lemma dict_get_app a b k : dict_get (a ++ b) k = match dict_get a k with Some v => Some v | None => dict_get b k end.
Proof. induction a as [|[k' v] a IH]; [done|]. cbn. destruct (String.eqb k k'); [done|exact IH]. Qed.
Lemma dict_get_entry k v k' : dict_get (entry k v) k' = if String.eqb k' k then v else None.
Proof. destruct v; cbn; by destruct (String.eqb k' k). Qed.
Lemma dict_get_block k d k' : dict_get (block k d) k' = if String.eqb k' k then match d with [] => None | _ => Some (JObj d) end else None.
Proof. destruct d; cbn; by destruct (String.eqb k' k). Qed.
Lemma append_inj p s t : String.append p s = String.append p t -> s = t.
Proof. induction p as [|a p IH]; [done|]. rewrite !cons_app. by intros [= H%IH]. Qed.
Lemma prefixed_get g p subs b s : dict_get (prefixed g p subs b) (String.append p s) = if in_strs s subs then g <$> dict_get b s else None.
Proof.
  induction subs as [|x subs IH]; [done|]. unfold prefixed in *. cbn [omap list_omap].
  change (in_strs s (x :: subs)) with (String.eqb s x || in_strs s subs). destruct (String.eqb_spec s x) as [->|Hne]; cbn [orb].
  - destruct (dict_get b x) as [v|] eqn:Ev; cbn; [by rewrite String.eqb_refl|]. rewrite IH. by destruct (in_strs x subs).
  - rewrite <- IH. destruct (dict_get b x) as [v|]; cbn; [|done].
    by destruct (String.eqb_spec (String.append p s) (String.append p x)) as [H%append_inj|_].
Qed.
Lemma prefixed_other g p subs b k : in_strs k (String.append p <$> subs) = false -> dict_get (prefixed g p subs b) k = None.
Proof.
  induction subs as [|x subs IH]; [done|]. unfold prefixed in *. cbn [omap list_omap].
  change (in_strs k (String.append p <$> x :: subs)) with (String.eqb k (String.append p x) || in_strs k (String.append p <$> subs)).
  intros [Hne H]%orb_false_iff. destruct (dict_get b x) as [v|]; cbn; [|by apply IH]. rewrite Hne. by apply IH.
Qed.
Lemma form_get_pairs (g : string -> string) keys f k :
  form_get (((fun k => (k, g k)) <$> keys) ++ f) k = if in_strs k keys then Some (g k) else form_get f k.
Proof.
  induction keys as [|x keys IH]; [done|]. change (in_strs k (x :: keys)) with (String.eqb k x || in_strs k keys).
  cbn. destruct (String.eqb_spec k x) as [->|Hne]; [done|exact IH].
Qed.

(** ** The page *)

Definition TEXT_INPUTS : list string :=
  ["cfg_device_name"; "cfg_monitor_interval_seconds"; "cfg_boot_warmup_seconds"; "cfg_internet_targets"] ++
  (String.append "cfg_internet_" <$> INTERNET_INT_SUBKEYS) ++ ["cfg_device_target"] ++
  (String.append "cfg_device_" <$> DEVICE_INT_SUBKEYS) ++ (String.append "cfg_power_" <$> POWER_INT_SUBKEYS) ++
  (String.append "cfg_notifications_" <$> NOTIFICATIONS_STR_SUBKEYS).
Definition CHECKBOXES : list string :=
  ["cfg_manual_button_enabled"; "cfg_power_enabled"] ++ (String.append "cfg_notifications_" <$> NOTIFICATIONS_BOOL_SUBKEYS).
Section page.
Context (py_repr : json -> string).
(** [{{ cfg_form.get(k, '') }}]; the option of the select that is marked. *)
Definition shown (v : pydict) (k : string) : string := py_str py_repr (dget_default v k (JStr EmptyString)).
Definition selected (v : pydict) : string :=
  let s := shown v "cfg_relay_restore_behavior" in if in_strs s RELAY_RESTORE_CHOICES then s else EmptyString.
(** The inputs by kind: texts, the select, the hidden companions, the checked boxes; the token
    is never filled in. *)
Definition posted (v : pydict) : form :=
  ((fun k => (k, shown v k)) <$> TEXT_INPUTS) ++
  ((fun k => (k, selected v)) <$> ["cfg_relay_restore_behavior"]) ++
  ((fun k => (k, "1")) <$> ((fun b => String.append b "_present") <$> CHECKBOXES)) ++
  ((fun k => (k, "1")) <$> filter (fun b => truthy (dget v b) = true) CHECKBOXES) ++ [].

Lemma posted_text v k : in_strs k TEXT_INPUTS = true -> form_get (posted v) k = Some (shown v k).
Proof. intros H. unfold posted. by rewrite form_get_pairs, H. Qed.
Lemma posted_select v : form_get (posted v) "cfg_relay_restore_behavior" = Some (selected v).
Proof. unfold posted. by rewrite !form_get_pairs. Qed.
Lemma posted_present v b : in_strs b CHECKBOXES = true -> present (posted v) b = true.
Proof.
  intros H. unfold present, field, posted. rewrite !form_get_pairs.
  apply in_strs_spec in H. repeat (apply elem_of_cons in H as [->|H]; [reflexivity|]). by apply not_elem_of_nil in H.
Qed.
Lemma posted_box v b : in_strs b CHECKBOXES = true -> form_bool (posted v) b = truthy (dget v b).
Proof.
  intros H. unfold form_bool, field, posted. rewrite !form_get_pairs.
  assert (E1 : in_strs b TEXT_INPUTS = false /\ in_strs b ["cfg_relay_restore_behavior"] = false /\
               in_strs b ((fun b => String.append b "_present") <$> CHECKBOXES) = false).
  { apply in_strs_spec in H. repeat (apply elem_of_cons in H as [->|H]; [done|]). by apply not_elem_of_nil in H. }
  destruct E1 as (-> & -> & ->). destruct (truthy (dget v b)) eqn:E.
  - assert (Hin : in_strs b (filter (fun b => truthy (dget v b) = true) CHECKBOXES) = true).
    { apply in_strs_spec, list_elem_of_filter. split; [done|]. by apply in_strs_spec. }
    by rewrite Hin.
  - destruct (in_strs b (filter _ CHECKBOXES)) eqn:Hin; [|done]. apply in_strs_spec, list_elem_of_filter in Hin as [Hin _].
    by rewrite E in Hin.
Qed.

(** ** What the form is filled in with *)

Lemma of_block_none v (g : pydict -> pydict) k : (forall b, dict_get (g b) k = None) -> dict_get (of_block v g) k = None.
Proof. intros H. destruct v; done || apply H. Qed.
Lemma of_block_get v (g : pydict -> pydict) k h : (forall b, dict_get (g b) k = h b) ->
  dict_get (of_block v g) k = match v with JObj b => h b | _ => None end.
Proof. intros H. destruct v; done || apply H. Qed.

(** Drop the parts that do not hold the key. *)
Ltac skip :=
  match goal with
  | |- context [dict_get (prefixed ?g ?p ?subs ?b) ?k] => rewrite (prefixed_other g p subs b k) by (vm_compute; reflexivity)
  | |- context [dict_get (entry ?k ?v) ?k'] => rewrite (dict_get_entry k v k'); change (String.eqb k' k) with false; cbv iota
  end.
Ltac skip_blocks := repeat
  match goal with
  | |- context [dict_get (of_block ?v ?g) ?k] =>
      rewrite (of_block_none v g k) by (intros b; rewrite ?dict_get_app; repeat skip; reflexivity)
  end.
Ltac filled := unfold desired_config_to_form_values; rewrite !dict_get_app; skip_blocks; repeat skip.
#[local] Abbreviation values := (desired_config_to_form_values py_repr).
Definition in_block (cfg : pydict) (k s : string) : option json := match dget cfg k with JObj b => dict_get b s | _ => None end.

Lemma filled_top cfg k : in_strs k ["device_name"; "relay_restore_behavior"; "monitor_interval_seconds"; "boot_warmup_seconds"] = true ->
  dict_get (values cfg) (String.append "cfg_" k) = dict_get cfg k.
Proof.
  intros H%in_strs_spec. repeat (apply elem_of_cons in H as [->|H]; [filled; rewrite prefixed_get; cbn; by destruct (dict_get cfg _)|]).
  by apply not_elem_of_nil in H.
Qed.
Lemma filled_button cfg : dict_get (values cfg) "cfg_manual_button_enabled" = as_bool <$> dict_get cfg "manual_button_enabled".
Proof.
  filled. change "cfg_manual_button_enabled" with (String.append "cfg_" "manual_button_enabled"). rewrite prefixed_get. cbn.
  by destruct (dict_get cfg _).
Qed.
Lemma filled_last h cfg k g key s : (forall b, dict_get (g b) key = h <$> dict_get b s) ->
  dict_get (of_block (dget cfg k) g) key = h <$> in_block cfg k s.
Proof. intros H. unfold in_block. destruct (dget cfg k); done || apply H. Qed.
Lemma filled_block h cfg k g key s : (forall b, dict_get (g b) key = h <$> dict_get b s) ->
  match dict_get (of_block (dget cfg k) g) key with Some v => Some v | None => None end = h <$> in_block cfg k s.
Proof. intros H. rewrite (filled_last h cfg k g key s H). by destruct (h <$> _). Qed.
Lemma fmap_id_option (o : option json) : id <$> o = o.
Proof. by destruct o. Qed.
(** One key of a block. *)
Ltac in_the_block h :=
  filled; first [apply (filled_block h)|apply (filled_last h)]; intros b; rewrite ?dict_get_app; repeat skip; rewrite prefixed_get; cbn; by destruct (dict_get b _).

Lemma filled_internet cfg s : in_strs s INTERNET_INT_SUBKEYS = true ->
  dict_get (values cfg) (String.append "cfg_internet_" s) = in_block cfg "internet" s.
Proof. intros H. rewrite <- (fmap_id_option (in_block _ _ _)). each H ltac:(in_the_block (@id json)). Qed.
Lemma filled_targets cfg : dict_get (values cfg) "cfg_internet_targets" =
  match dget cfg "internet" with JObj b => targets_text py_repr (dget b "targets") | _ => None end.
Proof.
  filled. destruct (dget cfg "internet") as [| | | | | |b]; try done. cbn [of_block]. rewrite dict_get_app, dict_get_entry. cbn -[prefixed].
  skip. by destruct (targets_text _ _).
Qed.
Lemma filled_device cfg s : in_strs s ("target" :: DEVICE_INT_SUBKEYS) = true ->
  dict_get (values cfg) (String.append "cfg_device_" s) = in_block cfg "device" s.
Proof. intros H. rewrite <- (fmap_id_option (in_block _ _ _)). each H ltac:(in_the_block (@id json)). Qed.
Lemma filled_power cfg s : in_strs s POWER_INT_SUBKEYS = true ->
  dict_get (values cfg) (String.append "cfg_power_" s) = in_block cfg "power" s.
Proof. intros H. rewrite <- (fmap_id_option (in_block _ _ _)). each H ltac:(in_the_block (@id json)). Qed.
Lemma filled_power_box cfg : dict_get (values cfg) "cfg_power_enabled" = as_bool <$> in_block cfg "power" "enabled".
Proof. change "cfg_power_enabled" with (String.append "cfg_power_" "enabled"). in_the_block as_bool. Qed.
Lemma filled_box cfg s : in_strs s NOTIFICATIONS_BOOL_SUBKEYS = true ->
  dict_get (values cfg) (String.append "cfg_notifications_" s) = as_bool <$> in_block cfg "notifications" s.
Proof. intros H. each H ltac:(in_the_block as_bool). Qed.
Lemma filled_str cfg s : in_strs s NOTIFICATIONS_STR_SUBKEYS = true ->
  dict_get (values cfg) (String.append "cfg_notifications_" s) = in_block cfg "notifications" s.
Proof. intros H. rewrite <- (fmap_id_option (in_block _ _ _)). each H ltac:(in_the_block (@id json)). Qed.
End page.

(** ** Configurations with values of their kind *)

Definition text (v : json) : Prop := exists s, v = JStr s /\ clean s.
Definition lines (v : json) : Prop :=
  exists l, l <> [] /\ v = JList (JStr <$> l) /\ Forall (fun s => clean s /\ unbroken s = true) l.
Definition sub_ok (s : string) (v : json) : Prop :=
  if String.eqb s "targets" then lines v
  else if in_strs s ("target" :: NOTIFICATIONS_STR_SUBKEYS) then text v
  else if in_strs s NOTIFICATIONS_BOOL_SUBKEYS then exists b, v = JBool b
  else if String.eqb s NOTIFICATIONS_SECRET_SUBKEY then truthy v = true
  else exists z, v = JInt z.
Definition BLOCKS : list string := representable_subkeys.*1.
Definition key_ok (k : string) (v : json) : Prop :=
  if String.eqb k "device_name" then exists s, v = JStr s /\ clean s /\ (String.length s <= 120)%nat
  else if String.eqb k "relay_restore_behavior" then exists s, v = JStr s /\ in_strs s RELAY_RESTORE_CHOICES = true
  else if in_strs k ["monitor_interval_seconds"; "boot_warmup_seconds"] then exists z, v = JInt z
  else if String.eqb k "manual_button_enabled" then exists b, v = JBool b
  else exists b, v = JObj b /\ forall s w, dict_get b s = Some w -> sub_ok s w.
Record plain_config (cfg : pydict) : Prop := {
  pl_representable : is_form_representable (JObj cfg) = true;
  pl_kinds k v : dict_get cfg k = Some v -> key_ok k v
}.
Definition sub (cfg : pydict) (k : string) : pydict := match dget cfg k with JObj b => b | _ => [] end.
Lemma in_block_sub cfg k s : in_block cfg k s = dict_get (sub cfg k) s.
Proof. unfold in_block, sub. by destruct (dget cfg k). Qed.

Lemma dict_get_key (d : pydict) k v : dict_get d k = Some v -> k ∈ dict_keys d.
Proof.
  unfold dict_keys. induction d as [|[k' v'] d IH]; [done|]. cbn. destruct (String.eqb_spec k k') as [->|_]; [left|].
  intros H. right. by apply IH.
Qed.
Lemma representable_key cfg k v : plain_config cfg -> dict_get cfg k = Some v -> in_strs k ALLOWED_DESIRED_CONFIG_KEYS = true.
Proof.
  intros [Hr _] Hk. destruct cfg as [|kv cfg]; [done|]. cbn [is_form_representable truthy negb] in Hr.
  apply andb_true_iff in Hr as [Hr _]. rewrite forallb_forall in Hr. apply Hr, list_elem_of_In. by eapply dict_get_key.
Qed.
Lemma representable_sub cfg k allowed s v : plain_config cfg -> (k, allowed) ∈ representable_subkeys ->
  dict_get (sub cfg k) s = Some v -> in_strs s allowed = true /\ sub_ok s v.
Proof.
  intros Hp Hk. pose proof Hp as [Hr Hkinds]. unfold sub. destruct cfg as [|kv cfg]; [done|]. cbn [is_form_representable truthy negb] in Hr.
  apply andb_true_iff in Hr as [_ Hr]. rewrite forallb_forall in Hr.
  specialize (Hr (k, allowed) (proj1 (list_elem_of_In _ _) Hk)). cbn [fst snd] in Hr.
  unfold dget in *. destruct (dict_get (kv :: cfg) k) as [w|] eqn:Ew; [|done]. destruct w as [| | | | | |b]; try done.
  intros Hs. split.
  - cbn [block_representable] in Hr. apply andb_true_iff in Hr as [Hr _]. rewrite forallb_forall in Hr.
    apply Hr, list_elem_of_In. by eapply dict_get_key.
  - specialize (Hkinds k _ Ew).
    assert (Hb : exists b', JObj b = JObj b' /\ forall s w, dict_get b' s = Some w -> sub_ok s w).
    { repeat (apply elem_of_cons in Hk as [[= -> ->]|Hk]; [exact Hkinds|]). by apply not_elem_of_nil in Hk. }
    destruct Hb as (b' & [= <-] & Hb). by apply Hb.
Qed.

(** ** What the builder reads back *)

Section saved.
Context (py_repr : json -> string) (cfg : pydict) (Hp : plain_config cfg).
#[local] Abbreviation values := (desired_config_to_form_values py_repr cfg).
#[local] Abbreviation page := (posted py_repr values).

(** A text input shows nothing, text or a number. *)
Lemma read_field k o : in_strs k TEXT_INPUTS = true -> dict_get values k = o ->
  field page k = match o with None => EmptyString | Some v => strip (py_str py_repr v) end.
Proof.
  intros Hk Ho. unfold field. rewrite posted_text by done. unfold shown, dget_default. rewrite Ho. by destruct o.
Qed.
Lemma read_text k o : in_strs k TEXT_INPUTS = true -> dict_get values k = o -> (forall v, o = Some v -> text v) ->
  JStr <$> opt_field page k = o.
Proof.
  intros Hk Ho Ht. unfold opt_field. rewrite (read_field k o Hk Ho). destruct o as [v|]; [|done].
  destruct (Ht v eq_refl) as (s & -> & Hs & He). change (py_str py_repr (JStr s)) with s. cbv zeta. by rewrite Hs, He.
Qed.
Lemma read_int k o : in_strs k TEXT_INPUTS = true -> dict_get values k = o -> (forall v, o = Some v -> exists z, v = JInt z) ->
  exists z, form_int page k = Ret z /\ JInt <$> z = o.
Proof.
  intros Hk Ho Ht. unfold form_int. rewrite (read_field k o Hk Ho). destruct o as [v|]; [|by exists None].
  destruct (Ht v eq_refl) as (z & ->). exists (Some z). split; [|done]. destruct (parse_int_pretty z) as [[E1 E2] E3].
  change (py_str py_repr (JInt z)) with (pretty z). cbv zeta. by rewrite E1, E2, E3.
Qed.
Definition fields (g : string -> option json) (ks : list string) : pydict := concat ((fun s => entry s (g s)) <$> ks).
Lemma fields_get g ks k : dict_get (fields g ks) k = if in_strs k ks then g k else None.
Proof.
  unfold fields. induction ks as [|x ks IH]; [done|]. cbn [fmap list_fmap concat]. rewrite dict_get_app, dict_get_entry, IH.
  change (in_strs k (x :: ks)) with (String.eqb k x || in_strs k ks). destruct (String.eqb_spec k x) as [->|]; [|done]. cbn [orb].
  destruct (g x) eqn:E; [done|]. by destruct (in_strs x ks).
Qed.
Lemma read_ints prefix ks g :
  (forall s, in_strs s ks = true -> exists z, form_int page (String.append prefix s) = Ret z /\ JInt <$> z = g s) ->
  int_fields page prefix ks = Ret (fields g ks).
Proof.
  induction ks as [|x ks IH]; intros H; [done|]. cbn [int_fields].
  destruct (H x) as (z & -> & Ez); [apply in_strs_spec; left|]. cbn [mbind outcome_bind]. rewrite IH.
  - cbn [mbind outcome_bind]. unfold fields. cbn [fmap list_fmap concat]. by rewrite Ez.
  - intros s Hs. apply H. change (in_strs s (x :: ks)) with (String.eqb s x || in_strs s ks). by rewrite Hs, orb_true_r.
Qed.

(** The integers of a block. *)
Lemma sub_int k allowed ks s v : (k, allowed) ∈ representable_subkeys -> in_strs s ks = true ->
  forallb (fun s => negb (String.eqb s "targets" || in_strs s ("target" :: NOTIFICATIONS_STR_SUBKEYS) ||
                          in_strs s NOTIFICATIONS_BOOL_SUBKEYS || String.eqb s NOTIFICATIONS_SECRET_SUBKEY)) ks = true ->
  dict_get (sub cfg k) s = Some v -> exists z, v = JInt z.
Proof.
  intros Hk Hs Hall Hv. destruct (representable_sub cfg k allowed s v Hp Hk Hv) as [_ H]. rewrite forallb_forall in Hall.
  apply in_strs_spec, list_elem_of_In, Hall, negb_true_iff in Hs. apply orb_false_iff in Hs as [[[E1 E2]%orb_false_iff E3]%orb_false_iff E4].
  unfold sub_ok in H. by rewrite E1, E2, E3, E4 in H.
Qed.

(** The blocks. *)
Definition INTERNET : string * list string := ("internet", INTERNET_INT_SUBKEYS ++ ["targets"]).
Definition DEVICE : string * list string := ("device", DEVICE_INT_SUBKEYS ++ ["target"]).
Definition POWER : string * list string := ("power", POWER_INT_SUBKEYS ++ ["enabled"]).
Definition NOTIFICATIONS : string * list string :=
  ("notifications", NOTIFICATIONS_BOOL_SUBKEYS ++ NOTIFICATIONS_STR_SUBKEYS ++ [NOTIFICATIONS_SECRET_SUBKEY]).
Lemma blocks_listed : INTERNET ∈ representable_subkeys /\ DEVICE ∈ representable_subkeys /\ POWER ∈ representable_subkeys /\
  NOTIFICATIONS ∈ representable_subkeys.
Proof. split_and!; repeat (left; reflexivity) || right; repeat ((left; reflexivity) || right). Qed.

Lemma read_lines l : l <> [] -> Forall (fun s => clean s /\ unbroken s = true) l ->
  filter (fun t => is_empty t = false) (strip <$> splitlines (join_lines l)) = l.
Proof.
  intros Hne Hl. assert (E : splitlines (join_lines l) = l).
  { unfold splitlines. induction Hl as [|s l [[Hs He] Hu] Hl IH]; [done|]. destruct l as [|t l].
    - cbn [join_lines]. rewrite last_line by auto. done.
    - change (join_lines (s :: t :: l)) with (String.append s (String "010" (join_lines (t :: l)))).
      rewrite split_line by done. by rewrite IH. }
  rewrite E. clear E Hne. induction Hl as [|s l [[Hs He] _] _ IH]; [done|]. cbn [fmap list_fmap]. rewrite Hs, filter_cons_True by done. by f_equal.
Qed.
Lemma read_targets : match target_lines page "cfg_internet_targets" with [] => None | l => Some (JList (JStr <$> l)) end =
  dict_get (sub cfg "internet") "targets".
Proof.
  unfold target_lines. rewrite posted_text by done. cbn [default from_option]. unfold shown, dget_default. rewrite filled_targets.
  destruct blocks_listed as (Hin & _). destruct (dict_get (sub cfg "internet") "targets") as [v|] eqn:Ev.
  - destruct (representable_sub cfg _ _ _ _ Hp Hin Ev) as [_ H]. destruct H as (l & Hne & -> & Hl).
    assert (E : match dget cfg "internet" with JObj b => targets_text py_repr (dget b "targets") | _ => None end = Some (JStr (join_lines l))).
    { unfold sub in Ev. destruct (dget cfg "internet") as [| | | | | |b]; try done. unfold dget. rewrite Ev. cbn.
      rewrite <- list_fmap_compose. by rewrite (list_fmap_ext _ id) by done; rewrite list_fmap_id. }
    rewrite E. change (id (py_str py_repr (JStr (join_lines l)))) with (join_lines l). rewrite read_lines by done. by destruct l.
  - assert (E : match dget cfg "internet" with JObj b => targets_text py_repr (dget b "targets") | _ => None end = None).
    { unfold sub in Ev. destruct (dget cfg "internet") as [| | | | | |b]; try done. unfold dget. by rewrite Ev. }
    by rewrite E.
Qed.

Lemma read_internet : build_watchdog_block page "cfg_internet_" INTERNET_INT_SUBKEYS (Some "cfg_internet_targets") None =
  Ret (entry "targets" (dict_get (sub cfg "internet") "targets") ++ fields (dict_get (sub cfg "internet")) INTERNET_INT_SUBKEYS).
Proof.
  unfold build_watchdog_block. rewrite read_targets. cbv zeta. rewrite (read_ints _ _ (dict_get (sub cfg "internet"))); [done|].
  intros s Hs. destruct blocks_listed as (Hin & _). apply read_int.
  - clear - Hs. each Hs ltac:(reflexivity).
  - by rewrite filled_internet, in_block_sub.
  - intros v Hv. exact (sub_int _ _ INTERNET_INT_SUBKEYS s v Hin Hs eq_refl Hv).
Qed.
Lemma read_device : build_watchdog_block page "cfg_device_" DEVICE_INT_SUBKEYS None (Some "cfg_device_target") =
  Ret (entry "target" (dict_get (sub cfg "device") "target") ++ fields (dict_get (sub cfg "device")) DEVICE_INT_SUBKEYS).
Proof.
  destruct blocks_listed as (_ & Hin & _). unfold build_watchdog_block. cbv zeta. cbn [mbind option_bind].
  rewrite (read_text "cfg_device_target" (dict_get (sub cfg "device") "target")); [|done| |].
  2: { change "cfg_device_target" with (String.append "cfg_device_" "target"). by rewrite filled_device, in_block_sub. }
  2: { intros v Hv. by destruct (representable_sub cfg _ _ _ _ Hp Hin Hv) as [_ H]. }
  rewrite (read_ints _ _ (dict_get (sub cfg "device"))); [done|]. intros s Hs. apply read_int.
  - clear - Hs. each Hs ltac:(reflexivity).
  - rewrite filled_device, in_block_sub; [done|]. clear - Hs. each Hs ltac:(reflexivity).
  - intros v Hv. exact (sub_int _ _ DEVICE_INT_SUBKEYS s v Hin Hs eq_refl Hv).
Qed.
Lemma read_power : int_fields page "cfg_power_" POWER_INT_SUBKEYS = Ret (fields (dict_get (sub cfg "power")) POWER_INT_SUBKEYS).
Proof.
  destruct blocks_listed as (_ & _ & Hin & _). apply read_ints. intros s Hs. apply read_int.
  - clear - Hs. each Hs ltac:(reflexivity).
  - by rewrite filled_power, in_block_sub.
  - intros v Hv. exact (sub_int _ _ POWER_INT_SUBKEYS s v Hin Hs eq_refl Hv).
Qed.
(** A checkbox is read as it is shown, off when nothing is stored. *)
Definition box (o : option json) : option json := Some (JBool (truthy (default JNull o))).
Lemma read_box k o : in_strs k CHECKBOXES = true -> dict_get values k = as_bool <$> o ->
  (if present page k then Some (JBool (form_bool page k)) else None) = box o.
Proof.
  intros Hk Ho. rewrite posted_present, posted_box by done. unfold dget, box. rewrite Ho. by destruct o.
Qed.
Lemma read_notifications : build_notifications_block page (dget cfg "notifications") =
  fields (fun s => box (dict_get (sub cfg "notifications") s)) NOTIFICATIONS_BOOL_SUBKEYS ++
  fields (dict_get (sub cfg "notifications")) NOTIFICATIONS_STR_SUBKEYS ++
  entry NOTIFICATIONS_SECRET_SUBKEY (dict_get (sub cfg "notifications") NOTIFICATIONS_SECRET_SUBKEY).
Proof.
  destruct blocks_listed as (_ & _ & _ & Hin). unfold build_notifications_block. cbv zeta.
  assert (E : field page (String.append "cfg_notifications_" NOTIFICATIONS_SECRET_SUBKEY) = EmptyString).
  { unfold field, posted. rewrite !form_get_pairs. cbn -[CHECKBOXES filter]. by destruct (in_strs _ (filter _ CHECKBOXES)) eqn:E;
      [apply in_strs_spec, list_elem_of_filter in E as [_ E]; apply in_strs_spec in E|]. }
  rewrite E. cbn [is_empty negb]. f_equal; [|f_equal].
  - unfold fields. f_equal. apply list_fmap_ext. intros i s Hs%list_elem_of_lookup_2%in_strs_spec. f_equal. apply read_box.
    + clear - Hs. each Hs ltac:(reflexivity).
    + by rewrite filled_box, in_block_sub.
  - unfold fields. f_equal. apply list_fmap_ext. intros i s Hs%list_elem_of_lookup_2%in_strs_spec. f_equal. apply read_text.
    + clear - Hs. each Hs ltac:(reflexivity).
    + by rewrite filled_str, in_block_sub.
    + intros v Hv. destruct (representable_sub cfg _ _ _ _ Hp Hin Hv) as [_ H]. clear - Hs H. revert H. each Hs ltac:(done).
  - f_equal. unfold sub. destruct (dget cfg "notifications") as [| | | | | |b] eqn:Eb; try done. unfold dget.
    destruct (dict_get b NOTIFICATIONS_SECRET_SUBKEY) as [v|] eqn:Ev; [|done].
    assert (Ht : truthy v = true).
    { assert (Hs : dict_get (sub cfg "notifications") NOTIFICATIONS_SECRET_SUBKEY = Some v) by (unfold sub; by rewrite Eb).
      destruct (representable_sub cfg _ _ _ _ Hp Hin Hs) as [_ H]. exact H. }
    by rewrite Ht.
Qed.

(** Everything is kept, and what is new is a checkbox that is off. *)
Definition saved_as (old new : pydict) : Prop :=
  (forall s w, dict_get old s = Some w -> dict_get new s = Some w) /\
  (forall s w, dict_get new s = Some w -> dict_get old s = Some w \/ dict_get old s = None /\ w = JBool false).
Lemma saved_by old new : (forall s, dict_get new s = dict_get old s \/ (forall v, dict_get old s = Some v -> exists b, v = JBool b) /\ dict_get new s = box (dict_get old s)) ->
  saved_as old new.
Proof.
  intros H. split; intros s w Hs; destruct (H s) as [E|[Hb E]]; rewrite ?E in *; auto.
  - destruct (Hb w Hs) as [b ->]. by rewrite Hs.
  - destruct (dict_get old s) as [v|]; [|right; split; [done|by injection Hs]]. destruct (Hb v eq_refl) as [b ->]. by left.
Qed.
(** Outside the keys a block may have, neither has any. *)
Lemma sub_other k allowed s : (k, allowed) ∈ representable_subkeys -> in_strs s allowed = false -> dict_get (sub cfg k) s = None.
Proof.
  intros Hin Hs. destruct (dict_get (sub cfg k) s) as [v|] eqn:E; [|done].
  destruct (representable_sub cfg k allowed s v Hp Hin E) as [H _]. by rewrite Hs in H.
Qed.
Lemma in_strs_either s l k : in_strs s (l ++ k) = in_strs s l || in_strs s k.
Proof. unfold in_strs. by rewrite existsb_app. Qed.
Lemma in_strs_one s x : in_strs s [x] = String.eqb s x.
Proof. apply orb_false_r. Qed.

Lemma internet_saved : saved_as (sub cfg "internet")
  (entry "targets" (dict_get (sub cfg "internet") "targets") ++ fields (dict_get (sub cfg "internet")) INTERNET_INT_SUBKEYS).
Proof.
  apply saved_by. intros s. left. rewrite dict_get_app, dict_get_entry, fields_get. destruct blocks_listed as (Hin & _).
  pose proof (sub_other _ _ s Hin) as Ho. rewrite in_strs_either, in_strs_one in Ho.
  destruct (String.eqb_spec s "targets") as [->|_]; [by destruct (dict_get _ _)|].
  destruct (in_strs s INTERNET_INT_SUBKEYS); [done|]. by rewrite Ho.
Qed.
Lemma device_saved : saved_as (sub cfg "device")
  (entry "target" (dict_get (sub cfg "device") "target") ++ fields (dict_get (sub cfg "device")) DEVICE_INT_SUBKEYS).
Proof.
  apply saved_by. intros s. left. rewrite dict_get_app, dict_get_entry, fields_get. destruct blocks_listed as (_ & Hin & _).
  pose proof (sub_other _ _ s Hin) as Ho. rewrite in_strs_either, in_strs_one in Ho.
  destruct (String.eqb_spec s "target") as [->|_]; [by destruct (dict_get _ _)|].
  destruct (in_strs s DEVICE_INT_SUBKEYS); [done|]. by rewrite Ho.
Qed.
Lemma box_kind k allowed s : (k, allowed) ∈ representable_subkeys -> in_strs s NOTIFICATIONS_BOOL_SUBKEYS = true ->
  forall v, dict_get (sub cfg k) s = Some v -> exists b, v = JBool b.
Proof.
  intros Hin Hs v Hv. destruct (representable_sub cfg k allowed s v Hp Hin Hv) as [_ H]. revert H. clear - Hs. each Hs ltac:(done).
Qed.
Lemma power_saved : saved_as (sub cfg "power")
  (entry "enabled" (box (dict_get (sub cfg "power") "enabled")) ++ fields (dict_get (sub cfg "power")) POWER_INT_SUBKEYS).
Proof.
  apply saved_by. intros s. rewrite dict_get_app, dict_get_entry, fields_get. destruct blocks_listed as (_ & _ & Hin & _).
  pose proof (sub_other _ _ s Hin) as Ho. rewrite in_strs_either, in_strs_one in Ho.
  destruct (String.eqb_spec s "enabled") as [->|_]; [right; split; [by apply (box_kind _ _ _ Hin)|done]|left].
  destruct (in_strs s POWER_INT_SUBKEYS); [done|]. by rewrite Ho.
Qed.
Lemma notifications_saved : saved_as (sub cfg "notifications")
  (fields (fun s => box (dict_get (sub cfg "notifications") s)) NOTIFICATIONS_BOOL_SUBKEYS ++
   fields (dict_get (sub cfg "notifications")) NOTIFICATIONS_STR_SUBKEYS ++
   entry NOTIFICATIONS_SECRET_SUBKEY (dict_get (sub cfg "notifications") NOTIFICATIONS_SECRET_SUBKEY)).
Proof.
  apply saved_by. intros s. rewrite !dict_get_app, dict_get_entry, !fields_get. destruct blocks_listed as (_ & _ & _ & Hin).
  pose proof (sub_other _ _ s Hin) as Ho. rewrite !in_strs_either, in_strs_one in Ho.
  destruct (in_strs s NOTIFICATIONS_BOOL_SUBKEYS) eqn:Eb; [right; split; [by apply (box_kind _ _ _ Hin)|done]|left].
  destruct (in_strs s NOTIFICATIONS_STR_SUBKEYS); [destruct (dict_get _ s) eqn:E; [done|]|];
    (destruct (String.eqb_spec s NOTIFICATIONS_SECRET_SUBKEY) as [->|_]; [done|]); [done|by rewrite Ho].
Qed.

(** The scalar keys. *)
Lemma read_relay : opt_field page "cfg_relay_restore_behavior" =
  match dict_get cfg "relay_restore_behavior" with Some (JStr s) => Some s | _ => None end /\
  match dict_get cfg "relay_restore_behavior" with Some (JStr s) => in_strs s RELAY_RESTORE_CHOICES = true | Some _ => False | None => True end.
Proof.
  unfold opt_field, field. rewrite posted_select. unfold selected, shown, dget_default.
  change "cfg_relay_restore_behavior" with (String.append "cfg_" "relay_restore_behavior"). rewrite filled_top by done.
  destruct (dict_get cfg "relay_restore_behavior") as [v|] eqn:Ev; [|done].
  destruct (pl_kinds _ Hp _ _ Ev) as (s & -> & Hs). change (py_str py_repr (JStr s)) with s. cbv zeta. rewrite Hs. split; [|done].
  clear - Hs. each Hs ltac:(reflexivity).
Qed.
Lemma read_name : opt_field page "cfg_device_name" = match dict_get cfg "device_name" with Some (JStr s) => Some s | _ => None end /\
  match dict_get cfg "device_name" with Some (JStr s) => (String.length s <= 120)%nat | Some _ => False | None => True end.
Proof.
  unfold opt_field. rewrite (read_field "cfg_device_name" (dict_get cfg "device_name")); [|done|by apply (filled_top py_repr cfg "device_name")].
  destruct (dict_get cfg "device_name") as [v|] eqn:Ev; [|done].
  destruct (pl_kinds _ Hp _ _ Ev) as (s & -> & (Hs & He) & Hl). change (py_str py_repr (JStr s)) with s. cbv zeta. rewrite Hs, He. done.
Qed.
Lemma read_top k : in_strs k ["monitor_interval_seconds"; "boot_warmup_seconds"] = true ->
  exists z, form_int page (String.append "cfg_" k) = Ret z /\ JInt <$> z = dict_get cfg k.
Proof.
  intros Hk. apply read_int.
  - clear - Hk. each Hk ltac:(reflexivity).
  - apply filled_top. clear - Hk. each Hk ltac:(reflexivity).
  - intros v Hv%(pl_kinds _ Hp). revert Hv. clear - Hk. each Hk ltac:(done).
Qed.

(** The whole form. *)
Definition saved_internet : pydict := entry "targets" (dict_get (sub cfg "internet") "targets") ++ fields (dict_get (sub cfg "internet")) INTERNET_INT_SUBKEYS.
Definition saved_device : pydict := entry "target" (dict_get (sub cfg "device") "target") ++ fields (dict_get (sub cfg "device")) DEVICE_INT_SUBKEYS.
Definition saved_power : pydict := entry "enabled" (box (dict_get (sub cfg "power") "enabled")) ++ fields (dict_get (sub cfg "power")) POWER_INT_SUBKEYS.
Definition saved_notifications : pydict :=
  fields (fun s => box (dict_get (sub cfg "notifications") s)) NOTIFICATIONS_BOOL_SUBKEYS ++
  fields (dict_get (sub cfg "notifications")) NOTIFICATIONS_STR_SUBKEYS ++
  entry NOTIFICATIONS_SECRET_SUBKEY (dict_get (sub cfg "notifications") NOTIFICATIONS_SECRET_SUBKEY).
Definition saved_config : pydict :=
  entry "device_name" (dict_get cfg "device_name") ++ entry "relay_restore_behavior" (dict_get cfg "relay_restore_behavior") ++
  entry "monitor_interval_seconds" (dict_get cfg "monitor_interval_seconds") ++ entry "boot_warmup_seconds" (dict_get cfg "boot_warmup_seconds") ++
  entry "manual_button_enabled" (box (dict_get cfg "manual_button_enabled")) ++ block "internet" saved_internet ++
  block "device" saved_device ++ block "power" saved_power ++ block "notifications" saved_notifications.

Lemma form_read : build_desired_config_from_form page cfg = Ret saved_config.
Proof.
  unfold build_desired_config_from_form. destruct read_name as [-> Hl]. destruct read_relay as [-> Hr]. cbv zeta.
  assert (En : JStr <$> match dict_get cfg "device_name" with Some (JStr s) => Some s | _ => None end = dict_get cfg "device_name")
    by (destruct (dict_get cfg "device_name") as [[]|]; done).
  assert (Er : JStr <$> match dict_get cfg "relay_restore_behavior" with Some (JStr s) => Some s | _ => None end = dict_get cfg "relay_restore_behavior")
    by (destruct (dict_get cfg "relay_restore_behavior") as [[]|]; done).
  rewrite En, Er. clear En Er.
  replace (120 <? _)%nat with false
    by (symmetry; apply Nat.ltb_ge; destruct (dict_get cfg "device_name") as [[]|]; cbn; done || lia).
  replace (match match dict_get cfg "relay_restore_behavior" with Some (JStr s) => Some s | _ => None end with
           | Some r => negb (in_strs r RELAY_RESTORE_CHOICES) | None => false end) with false
    by (destruct (dict_get cfg "relay_restore_behavior") as [[]|]; done || by rewrite Hr).
  clear Hl Hr.
  destruct (read_top "monitor_interval_seconds" eq_refl) as (m & Em & Hm). destruct (read_top "boot_warmup_seconds" eq_refl) as (w & Ew & Hw).
  change "cfg_monitor_interval_seconds" with (String.append "cfg_" "monitor_interval_seconds").
  change "cfg_boot_warmup_seconds" with (String.append "cfg_" "boot_warmup_seconds"). rewrite Em, Ew. cbn [mbind outcome_bind].
  rewrite read_internet, read_device, read_power. cbn [mbind outcome_bind]. rewrite read_notifications, Hm, Hw.
  rewrite (read_box "cfg_manual_button_enabled" (dict_get cfg "manual_button_enabled") eq_refl (filled_button py_repr cfg)).
  rewrite (read_box "cfg_power_enabled" (dict_get (sub cfg "power") "enabled") eq_refl); [done|].
  by rewrite filled_power_box, in_block_sub.
Qed.

(** A block that is saved is found again, an empty one as no block. *)
Lemma sub_block k d out : dict_get out k = match d with [] => None | _ => Some (JObj d) end -> sub out k = d.
Proof. intros H. unfold sub, dget. rewrite H. by destruct d. Qed.
Ltac at_key := unfold saved_config; rewrite !dict_get_app, !dict_get_entry, !dict_get_block; cbn [String.eqb Ascii.eqb Bool.eqb].
Lemma some_or_none {A} (o : option A) : match o with Some v => Some v | None => None end = o.
Proof. by destruct o. Qed.
Lemma saved_blocks : sub saved_config "internet" = saved_internet /\ sub saved_config "device" = saved_device /\
  sub saved_config "power" = saved_power /\ sub saved_config "notifications" = saved_notifications.
Proof. split_and!; apply sub_block; at_key; rewrite ?some_or_none; done. Qed.
Lemma saved_scalar k : in_strs k ["device_name"; "relay_restore_behavior"; "monitor_interval_seconds"; "boot_warmup_seconds"] = true ->
  dict_get saved_config k = dict_get cfg k.
Proof. intros Hk. each Hk ltac:(at_key; apply some_or_none). Qed.
Lemma saved_button : dict_get saved_config "manual_button_enabled" = box (dict_get cfg "manual_button_enabled").
Proof. at_key. done. Qed.

Lemma entry_keys p k v : p k = true -> forallb p (dict_keys (entry k v)) = true.
Proof. intros H. destruct v; [|done]. cbn. by rewrite H. Qed.
Lemma block_keys p k d : p k = true -> forallb p (dict_keys (block k d)) = true.
Proof. intros H. destruct d; [done|]. cbn. by rewrite H. Qed.
Lemma app_keys p (a b : pydict) : forallb p (dict_keys (a ++ b)) = forallb p (dict_keys a) && forallb p (dict_keys b).
Proof. unfold dict_keys. by rewrite fmap_app, forallb_app. Qed.
Lemma saved_valid : validate_desired_config (JObj saved_config) None = Ret saved_config.
Proof.
  unfold validate_desired_config.
  replace (forallb _ (dict_keys saved_config)) with true
    by (symmetry; unfold saved_config; rewrite !app_keys, !entry_keys, !block_keys by done; done).
  cbn [negb]. rewrite saved_scalar by done. destruct read_name as [_ Hl].
  destruct (dict_get cfg "device_name") as [[]|]; try done. cbn [negb]. by apply Nat.ltb_ge in Hl as ->.
Qed.
End saved.

(** C20. Opening the form of a device and saving it as it is keeps every setting of a
    configuration with values of their kind: each scalar key, each key of the four blocks (the
    list of targets and the token that is never shown among them); the only additions are
    checkboxes recorded as off, and the service accepts the result. *)
Theorem form_saves_lose_nothing py_repr cfg (Hp : plain_config cfg) :
  exists out,
    build_desired_config_from_form (posted py_repr (desired_config_to_form_values py_repr cfg)) cfg = Ret out /\
    validate_desired_config (JObj out) None = Ret out /\
    (forall k, k ∈ BLOCKS -> saved_as (sub cfg k) (sub out k)) /\
    (forall k, k ∈ ["device_name"; "relay_restore_behavior"; "monitor_interval_seconds"; "boot_warmup_seconds"] ->
      dict_get out k = dict_get cfg k) /\
    dict_get out "manual_button_enabled" = Some (default (JBool false) (dict_get cfg "manual_button_enabled")).
Proof.
  exists (saved_config cfg). split; [by apply form_read|]. split; [by apply (saved_valid py_repr)|].
  destruct (saved_blocks cfg) as (Ei & Ed & Epw & En). split_and!.
  - intros k Hk. change BLOCKS with ["internet"; "device"; "power"; "notifications"] in Hk.
    apply elem_of_cons in Hk as [->|Hk]; [rewrite Ei; by apply internet_saved|].
    apply elem_of_cons in Hk as [->|Hk]; [rewrite Ed; by apply device_saved|].
    apply elem_of_cons in Hk as [->|Hk]; [rewrite Epw; by apply power_saved|].
    apply elem_of_cons in Hk as [->|Hk]; [rewrite En; by apply notifications_saved|by apply not_elem_of_nil in Hk].
  - intros k Hk. apply saved_scalar. by apply in_strs_spec.
  - rewrite saved_button. destruct (dict_get cfg "manual_button_enabled") as [v|] eqn:Ev; [|done].
    by destruct (pl_kinds _ Hp _ _ Ev) as (b & ->).
Qed.

(** A configuration the gate admits and the form does not keep: the select has no option for a
    behaviour outside its choices and a blank name is not a name, so both keys vanish when the
    page is saved. *)
Theorem representable_is_not_enough py_repr :
  let cfg := [("device_name", JStr " "); ("relay_restore_behavior", JStr "always")] in
  is_form_representable (JObj cfg) = true /\
  validate_desired_config (JObj cfg) None = Ret cfg /\
  exists out, build_desired_config_from_form (posted py_repr (desired_config_to_form_values py_repr cfg)) cfg = Ret out /\
    dict_get out "device_name" = None /\ dict_get out "relay_restore_behavior" = None.
Proof. cbv zeta. split; [reflexivity|]. split; [reflexivity|]. eexists. split; [vm_compute; reflexivity|]. done. Qed.

Module Example.

Definition cfg : pydict :=
  [("device_name", JStr "Router plug"); ("relay_restore_behavior", JStr "always_on");
   ("internet", JObj [("targets", JList [JStr "1.1.1.1"; JStr "example.org"]); ("power_off_seconds", JInt 30)]);
   ("notifications", JObj [("enabled", JBool true); ("webhook_auth_token", JStr "t")])].
Lemma cfg_plain : plain_config cfg.
Proof.
  split; [reflexivity|]. intros k v H. unfold cfg in H. cbn [dict_get] in H.
  destruct (String.eqb_spec k "device_name") as [->|_]; [injection H as <-; exists "Router plug"; repeat split; cbn; lia|].
  destruct (String.eqb_spec k "relay_restore_behavior") as [->|_]; [injection H as <-; by exists "always_on"|].
  destruct (String.eqb_spec k "internet") as [->|_];
    [|destruct (String.eqb_spec k "notifications") as [->|_]; [|done]]; injection H as <-; eexists; (split; [reflexivity|]);
    intros s w Hs; cbn [dict_get] in Hs.
  - destruct (String.eqb_spec s "targets") as [->|_];
      [injection Hs as <-; exists ["1.1.1.1"; "example.org"]; split; [done|split; [done|repeat constructor]]|].
    destruct (String.eqb_spec s "power_off_seconds") as [->|_]; [injection Hs as <-; by exists 30|done].
  - destruct (String.eqb_spec s "enabled") as [->|_]; [injection Hs as <-; by exists true|].
    destruct (String.eqb_spec s "webhook_auth_token") as [->|_]; [injection Hs as <-; done|done].
Qed.
Lemma form_saves_lose_nothing_witness : exists out,
  build_desired_config_from_form (posted (fun _ => EmptyString) (desired_config_to_form_values (fun _ => EmptyString) cfg)) cfg = Ret out /\
  saved_as (sub cfg "notifications") (sub out "notifications").
Proof.
  destruct (form_saves_lose_nothing (fun _ => EmptyString) cfg cfg_plain) as (out & E & _ & Hb & _). exists out. split; [exact E|].
  apply Hb. right; right; right; left.
Defined.
End Example.
