(* ===== verification/DevicePages.v ===== *)
(** * The device pages ([blueprints/admin/devices_ui.py])

    Editing, deleting, merging and upgrading devices, commands and their cancellation, the
    lockout and the desired configuration, each behind the gate of its route, over the releases
    and the estate.  The rendering of the two pages, the prose of the flash messages and where a
    redirect leads are left out; characters beyond ASCII count as printable. *)

From Stdlib Require Import Ascii.
From S2P Require Import Prelude PyFloat EventBus Commands Devices Deployments DeviceConfig RuntimeSettings TenantScope Enrollment.
From S2P Require Import RoleBindings Identity Accounts Invitations ConfigBackup ConfigRestore RuleForms.
From S2P Require Import AuditLog Estate EstateEndpoints FirmwareStore FirmwareEndpoints Inbox DeviceQueries DeviceForms.
Local Open Scope string_scope.
Local Open Scope list_scope.
Local Open Scope Z_scope.

(** ** The reboots of the last day *)

Definition show_qa_fixtures (raw : option string) (dflt : bool) : bool :=
  match raw with None => dflt | Some s => in_strs (lower s) ["1"; "true"; "yes"; "on"] end.
Record reboot := Reboot { rb_device : string; rb_name : string; rb_reason : json; rb_ghost : bool; rb_at : time }.
(** [.lower() in ("1", "true", "yes")] of a field that may be absent. *)
Definition ticked (f : form) (k : string) : bool := in_strs (lower (default EmptyString (form_get f k))) ["1"; "true"; "yes"].
(** The rows newest first, joined to their devices. *)
Definition reboot_rows (limit : nat) (now : time) (l : list device_event) (h : hub) : list (device_event * device) :=
  take (limit * 4)
    (omap (fun w => (fun d => (w, d)) <$> hub_devices h !! de_device_id w)
       (order_by_desc de_at (filter (fun w => de_type w = "device.rebooted" /\ now - hours 24 <= de_at w) l))).
(** [details.get(...) or ""]: a planned reason, or a reboot nobody planned. *)
Definition reboot_of (x : device_event * device) : reboot :=
  let planned := dget (de_details x.1) "last_planned_restart_reason" in
  let id := de_device_id x.1 in
  Reboot id (device_name id x.2) (jor planned (JStr "ghost")) (negb (truthy planned)) (de_at x.1).
(** [seen] and the break at the limit. *)
Fixpoint first_of_each (limit : nat) (seen : list string) (l : list (device_event * device)) : list reboot :=
  match limit, l with
  | S limit', x :: r =>
    if in_strs (de_device_id x.1) seen then first_of_each limit seen r
    else reboot_of x :: first_of_each limit' (de_device_id x.1 :: seen) r
  | _, _ => []
  end.
Definition recent_reboot_summary (limit : nat) (now : time) (l : list device_event) (h : hub) : list reboot :=
  first_of_each limit [] (reboot_rows limit now l h).

(** ** The name field *)

Definition printable (c : Ascii.ascii) : bool := let n := N_of_ascii c in ((32 <=? n) && negb (n =? 127))%N.
Fixpoint keep_printable (s : string) : string :=
  match s with
  | EmptyString => EmptyString
  | String c r => if printable c then String c (keep_printable r) else keep_printable r
  end.
Definition typed_name (f : form) : string := strip (keep_printable (default EmptyString (form_get f "display_name"))).

Section pages.
Context (ulid : nat -> string) (strftime : time -> string) (environ : string -> option string)
        (py_repr : json -> string) (json_loads : string -> outcome json).
Context (audit_accepts : audit_row -> bool) (device_accepts : device -> bool) (remote_addr : option string).
#[local] Abbreviation audited := (audited audit_accepts remote_addr).
#[local] Abbreviation audited_each := (audited_each audit_accepts remote_addr).
#[local] Abbreviation Refused := EstateEndpoints.Refused.

(** The devices the "Powered by" picker may offer. *)
Definition ALL_DEVICES : device_filter := DeviceFilter None None None None 180 false [].
Definition visible_power_source_ids (o : operator) (id : string) (site : json) (now : time) (e : estate)
    : outcome (list string) * estate :=
  let '(rows, log) := device_rows environ py_repr ALL_DEVICES (op_caller o) (Some (op_id o)) now e in
  ((fun l => (filter (fun x : string * device => x.1 <> id /\ py_eq (col x.2 "site_id") site = true) l).*1) <$> rows,
   with_scopes log e).

(** ** Editing *)

Definition text_json (s : string) : json := if is_empty s then JNull else JStr s.
Definition edit_patch (f : form) (power_source : string) : pydict :=
  [("notes", text_json (default EmptyString (form_get f "notes")));
   ("central_management_enabled", JBool (bool_decide (is_Some (form_get f "central_management_enabled"))));
   ("site_id", text_json (field f "site_id")); ("power_source_device_id", text_json power_source)] ++
  (if is_empty (typed_name f) then [] else [("display_name", JStr (typed_name f))]).
Definition diff_json (l : list (string * (json * json))) : json :=
  JObj ((fun x : string * (json * json) => (x.1, JObj [("old", x.2.1); ("new", x.2.2)])) <$> l).
(** The picker again: a source that is not offered is dropped. *)
Definition picked_source (o : operator) (id : string) (before : device) (f : form) (now : time) (e : estate)
    : outcome string * estate :=
  let raw := field f "power_source_device_id" in
  if is_empty raw then (Ret raw, e)
  else
    let '(r, e) := visible_power_source_ids o id (col before "site_id") now e in
    ((fun ids => if in_strs raw ids then raw else EmptyString) <$> r, e).
(** [n1], [n2]: the clock in the name sync. *)
Definition device_update_submit (o : operator) (id : string) (f : form) (now n1 n2 : time) (e : estate)
    : outcome estate_answer * estate :=
  match get_device id (fleet_of (op_caller o) e) with
  | None => (Ret (Refused 404), e)
  | Some before =>
    let '(r, e) := picked_source o id before f now e in
    match r with
    | Raise x => (Raise x, e)
    | Ret source =>
      let patch := edit_patch f source in
      let '(r, fl) := update_device_with_diff strftime device_accepts id patch now (fleet_of (op_caller o) e) in
      match r with
      | Raise x =>
        (match caught "PowerTopologyError" x, caught "SiteScopeError" x with
         | None, None => refused_if "UnknownPatchFieldError" 400 x
         | _, _ => Ret Back
         end, e)
      | Ret (None, _) => (Ret (Refused 404), e)
      | Ret (Some updated, diff) =>
        let renamed := negb (py_eq (col before "display_name") (dget updated "display_name")) in
        let '(synced, fl) :=
          if renamed then enqueue_display_name_sync ulid id (as_str (dget updated "display_name")) (Some (op_id o)) n1 n2 fl
          else (false, fl) in
        (Ret Back, audited o "device.updated" "device" id
           [("fields", jstrs (dict_keys (filter (fun kv : string * json => kv.2 <> JNull) patch))); ("diff", diff_json diff);
            ("display_name_sync_enqueued", JBool synced)] n2 (into fl e))
      end
    end
  end.

Definition device_set_protection (o : operator) (id : string) (f : form) (now : time) (e : estate)
    : outcome estate_answer * estate :=
  let new_value := in_strs (lower (default EmptyString (form_get f "is_protected"))) ["1"; "true"; "on"; "yes"] in
  let '(r, fl) := update_device strftime device_accepts id [("is_protected", JBool new_value)] now (fleet_of (op_caller o) e) in
  match r with
  | Raise x => (refused_if "UnknownPatchFieldError" 400 x, e)
  | Ret None => (Ret (Refused 404), e)
  | Ret (Some _) =>
    (Ret Back, audited o "device.protection_changed" "device" id
       [("is_protected", JBool new_value); ("reason", JStr "operator")] now (into fl e))
  end.

(** ** Deleting and merging *)

Definition device_delete_submit (o : operator) (id : string) (now : time) (e : estate) : outcome estate_answer * estate :=
  let f := fleet_of (op_caller o) e in
  let '(orphaned, f') := delete_device_with_audit_context id f in
  match orphaned with
  | None => (Ret Back, e)
  | Some ids =>
    let name c := JStr (from_option (device_name c) c (get_device c f)) in
    let e := audited o "device.deleted" "device" id
      [("orphaned_children", JList ((fun c => JObj [("id", JStr c); ("display_name", name c)]) <$> ids))] now (into f' e) in
    (Ret Back, foldl (fun e c => audited o "device.power_source_cleared_by_parent_delete" "device" c
       [("former_parent_id", JStr id); ("child_display_name", name c)] now e) e ids)
  end.
Definition device_merge_retire_submit (o : operator) (f : form) (now : time) (e : estate) : outcome estate_answer * estate :=
  let keep := field f "keep_device_id" in
  let retire := field f "retire_device_id" in
  let fl := fleet_of (op_caller o) e in
  let '(r, fl') := merge_retire_device keep retire now fl in
  match r with
  | Raise x => (match caught "MergeRetireError" x with Some _ => Ret Back | None => Raise x end, e)
  | Ret _ =>
    let name id k := (k, from_option (fun d => col d "display_name") JNull (get_device id fl)) in
    (Ret Back, audited o "device.merge_retired" "device" retire
       [("keep_device_id", JStr keep); ("retire_device_id", JStr retire);
        ("mac_address", JStr (from_option mac_of EmptyString (get_device keep fl)));
        name keep "keep_display_name"; name retire "retired_display_name"] now (into fl' e))
  end.
Definition devices_bulk_delete_submit (o : operator) (f : form) (now : time) (e : estate) : outcome estate_answer * estate :=
  let ids := fromkeys String.eqb (List.filter (fun i => negb (is_empty i)) (form_getlist f "device_id")) in
  if bool_decide (ids = []) then (Ret Back, e)
  else
    let n := length ids in
    let override := ticked f "override_lockout" in
    if negb (confirmed_form n "delete" f) then (Ret (Unconfirmed n (required_level n)), e)
    else
      let '(deleted, protected, unknown, fl) := delete_devices_bulk ids override (fleet_of (op_caller o) e) in
      let e := audited o "device.bulk_deleted" "device" EmptyString
        [("deleted_count", jcount (length deleted)); ("skipped_protected", jcount (length protected));
         ("skipped_unknown", jcount (length unknown)); ("deleted_ids", jstrs deleted);
         ("skipped_protected_ids", jstrs protected); ("override_lockout", JBool override);
         ("confirmation_level", JStr (required_level n)); ("reason", JStr "operator")] now (into fl e) in
      let e := audited_each o "device.bulk_deleted_per_device" deleted
        [("via", JStr "bulk_delete"); ("override_lockout", JBool override); ("outcome", JStr "deleted")] now e in
      (Ret Back, audited_each o "device.bulk_delete_skipped_per_device" protected
         [("via", JStr "bulk_delete"); ("outcome", JStr "skipped"); ("reason", JStr "is_protected")] now e).

(** ** Upgrading *)

Definition firmware_version_of (id : string) (o : operator) (e : estate) : option string :=
  d ← get_device id (fleet_of (op_caller o) e); as_str (col d "firmware_version").
Definition device_upgrade_to_latest_submit (o : operator) (id : string) (now flush_at : time) (w : works)
    : outcome estate_answer * works :=
  match latest_stable_release_dict (de_releases w.1) with
  | None => (Ret Back, w)
  | Some (release_id, latest) =>
    if negb (is_upgrade (Some (fr_version latest)) (firmware_version_of id o w.2)) then (Ret Back, w)
    else
      let '(r, fw) := create_deployment ulid release_id "device" (Some id) (Some (fr_channel latest)) false (Some (op_id o))
                        now flush_at (fleet_of (op_caller o) w.2) (firmware_of w.1) in
      match r with
      | Raise (LookupError _) | Raise (KeyError _) | Raise (ValueError _) => (Ret Back, w)
      | Raise x => (Raise x, w)
      | Ret (deployment_id, _) =>
        (Ret Back, (with_rollouts fw w.1, audited o "device.upgrade_initiated" "device" id
           [("via", JStr "devices_list_upgrade_button"); ("release_id", JStr release_id);
            ("release_version", JStr (fr_version latest)); ("deployment_id", JStr deployment_id)] flush_at w.2))
      end
  end.

(** ** Commands *)

(** [int(form.get(k) or n)], a text it refuses being [n]. *)
Definition number_or (f : form) (k : string) (n : Z) : json :=
  JInt (match py_int (text_or f k n) with Ret v => v | Raise _ => n end).
Definition device_send_command (o : operator) (id : string) (f : form) (now flush_at : time) (e : estate)
    : outcome estate_answer * estate :=
  let ty := field f "type" in
  if is_empty ty then (Ret (Refused 400), e)
  else
    let payload :=
      if String.eqb ty "relay_cycle"
      then [("power_off_seconds", number_or f "power_off_seconds" 5);
            ("post_reboot_holdoff_seconds", number_or f "post_reboot_holdoff_seconds" 180)]
      else [] in
    let override := ticked f "override_lockout" in
    let hold_off := ticked f "hold_off" in
    let '(r, h) := enqueue_for_device ulid id ty (Some payload) (Some (op_id o)) None None override hold_off
                     now flush_at (es_hub e) in
    match r with
    | Ret cmd =>
      (Ret Back, audited o "device.command_issued" "device" id
         [("type", JStr ty); ("command_id", JStr (cmd_id cmd)); ("reason", JStr "operator");
          ("override_lockout", JBool override); ("set_hold_off", JBool hold_off);
          ("via", JStr (if String.eqb (field f "next") "list" then "list_inline_toggle" else "detail_form"))] flush_at
         (with_hub (fun _ => h) e))
    | Raise (LookupError _) | Raise (KeyError _) | Raise (ValueError _) => (Ret (Refused 400), e)
    | Raise x => (match caught "DeviceLockedError" x with Some _ => Ret Back | None => Raise x end, e)
    end.
Definition device_cancel_command (o : operator) (id command_id : string) (now : time) (e : estate)
    : outcome estate_answer * estate :=
  let '(known, h) := cancel_pending_command command_id now (es_hub e) in
  (Ret Back, if known then audited o "device.command_cancelled" "device" id
                             [("command_id", JStr command_id); ("reason", JStr "operator")] now (with_hub (fun _ => h) e)
             else e).

(** ** The desired configuration *)

(** The two editors; [None]: back with a message. *)
Definition submitted_config (o : operator) (id editor : string) (f : form) (e : estate) : outcome (option pydict) :=
  if String.eqb editor "form" then
    match build_desired_config_from_form f (default [] (get_desired_config id (fleet_of (op_caller o) e))) with
    | Ret d => Ret (Some d)
    | Raise x => match caught "DeviceConfigFormError" x with Some _ => Ret None | None => Raise x end
    end
  else
    let raw := field f "desired_config_json" in
    if is_empty raw then Ret (Some [])
    else match json_loads raw with
         | Ret (JObj d) => Ret (Some d)
         | Ret _ | Raise (ValueError _) => Ret None
         | Raise x => Raise x
         end.
Definition device_desired_config_save_submit (o : operator) (id : string) (f : form) (now : time) (e : estate)
    : outcome estate_answer * estate :=
  let mode := opt_field f "desired_mode" in
  let editor := lower (strip (or_str (form_get f "editor") "json")) in
  match submitted_config o id editor f e with
  | Raise x => (Raise x, e)
  | Ret None => (Ret Back, e)
  | Ret (Some payload) =>
    let '(r, fl) := set_desired_config id (JObj payload) mode now (fleet_of (op_caller o) e) in
    match r, payload with
    | Raise x, _ => (match caught "DesiredConfigError" x with Some _ => Ret Back | None => Raise x end, e)
    | Ret _, [] => (Ret Back, audited o "device.desired_config_cleared" "device" id [] now (into fl e))
    | Ret None, _ => (Ret (Refused 404), e)
    | Ret (Some _), _ =>
      (Ret Back, audited o "device.desired_config_set" "device" id
         [("keys", jstrs (sorted (dict_keys payload))); ("desired_mode", ojson mode); ("editor", JStr editor)] now (into fl e))
    end
  end.
Definition push_json (r : push_result) : pydict :=
  match r with
  | NotEnqueued reason => [("enqueued", JBool false); ("command_id", JNull); ("reason", JStr reason)]
  | Enqueued id => [("enqueued", JBool true); ("command_id", JStr id); ("source", JStr "manual")]
  end.
(** The service sees the fleet only. *)
Definition device_desired_config_push_submit (o : operator) (id : string) (n1 n2 n3 : time) (e : estate)
    : outcome estate_answer * estate :=
  let p := Plant (fleet_of (op_caller o) e) (Firmware ∅ ∅ [] 0) [] [] [] (es_settings e) [] in
  let '(r, p) := push_desired_config ulid id "manual" (Some (op_id o)) n1 n2 n3 p in
  match r with
  | Raise x => (Raise x, e)
  | Ret out => (Ret Back, audited o "device.desired_config_pushed" "device" id (push_json out) n3 (into (pl_fleet p) e))
  end.

(** ** The routes *)

Inductive device_request :=
  | UpdateForm (id : string) (f : form) | ProtectForm (id : string) (f : form)
  | DeleteDeviceForm (id : string) | MergeForm (f : form) | DeleteDevicesForm (f : form)
  | UpgradeForm (id : string) | CommandForm (id : string) (f : form) | CancelForm (id command_id : string)
  | ConfigForm (id : string) (f : form) | PushForm (id : string).
Definition device_roles (q : device_request) : list string :=
  match q with
  | DeleteDeviceForm _ | MergeForm _ | DeleteDevicesForm _ | UpgradeForm _ => ADMIN_AND_UP
  | _ => ANY_ROLE
  end.
Definition on_estate (g : estate -> outcome estate_answer * estate) (w : works) : outcome estate_answer * works :=
  let '(r, e) := g w.2 in (r, (w.1, e)).
Definition handle_device (q : device_request) (o : operator) (now later : time) : works -> outcome estate_answer * works :=
  match q with
  | UpdateForm id f => on_estate (device_update_submit o id f now now later)
  | ProtectForm id f => on_estate (device_set_protection o id f now)
  | DeleteDeviceForm id => on_estate (device_delete_submit o id now)
  | MergeForm f => on_estate (device_merge_retire_submit o f now)
  | DeleteDevicesForm f => on_estate (devices_bulk_delete_submit o f now)
  | UpgradeForm id => device_upgrade_to_latest_submit o id now later
  | CommandForm id f => on_estate (device_send_command o id f now later)
  | CancelForm id cid => on_estate (device_cancel_command o id cid now)
  | ConfigForm id f => on_estate (device_desired_config_save_submit o id f now)
  | PushForm id => on_estate (device_desired_config_push_submit o id now now later)
  end.
Definition serve_device (jwt_decode : time -> string -> outcome pydict) (mode : enforce) (q : device_request)
    (rq : request) (now later : time) (g : idb) (w : works) : outcome estate_answer * works :=
  match (operator_call jwt_decode mode (device_roles q) (fun status => (Ret (Refused status), w))
           (fun c me u g => (Ret (handle_device q (Operator c me (us_role u) (us_email u)) now later w), g)) rq now g).1 with
  | Ret answer => answer
  | Raise x => (Raise x, w)
  end.
End pages.
