(* ===== verification/DevicePageTheorems.v ===== *)
(** * The device pages: what they keep, what they may connect, upgrade and command

    [device_pages_keep_the_estate] extends the invariant of [EstateFacts] to the pages; then the
    power source a form may pick, the upgrade button, a command of the page on every branch, and
    the list of the last reboots. *)

From stdpp Require Import pretty.
From S2P Require Import Prelude PyFloat EventBus Commands Devices Deployments DeviceConfig RuntimeSettings TenantScope Enrollment.
From S2P Require Import RoleBindings Identity Accounts Invitations ConfigBackup ConfigRestore RuleForms.
From S2P Require Import AuditLog Estate EstateEndpoints EstateFacts EstateTheorems FirmwareStore FirmwareEndpoints.
From S2P Require Import DeviceQueries DeviceForms DevicePages.
Local Open Scope string_scope.
Local Open Scope list_scope.
Local Open Scope Z_scope.

Section pages.
Context (ulid : nat -> string) (strftime : time -> string) (environ : string -> option string)
        (py_repr : json -> string) (json_loads : string -> outcome json).
Context (audit_accepts : audit_row -> bool) (device_accepts : device -> bool) (remote_addr : option string).
#[local] Abbreviation handle_device :=
  (handle_device ulid strftime environ py_repr json_loads audit_accepts device_accepts remote_addr).
#[local] Abbreviation device_update_submit :=
  (device_update_submit ulid strftime environ py_repr audit_accepts device_accepts remote_addr).
#[local] Abbreviation picked_source := (picked_source environ py_repr).
#[local] Abbreviation estate_ok := (estate_ok py_repr).
#[local] Abbreviation Refused := EstateEndpoints.Refused.

(** ** Consistency *)

Lemma update_diff_keeps P id patch now f : (forall s, known f s -> P s) ->
  keeps P (fl_hub f) (fl_hub (update_device_with_diff strftime device_accepts id patch now f).2).
Proof.
  intros Hk. pose proof (update_keeps P strftime device_accepts id patch now f Hk) as H. unfold update_device in H.
  by destruct (update_device_with_diff _ _ _ _ _ _).
Qed.
Lemma picked_source_estate o id d f now e : exists log, (picked_source o id d f now e).2 = with_scopes log e.
Proof.
  unfold picked_source, visible_power_source_ids. case_match; [by exists (es_scopes e); destruct e|].
  destruct (device_rows _ _ _ _ _ _ _) as [r log]. by exists log.
Qed.
Lemma audited_fold_ok {A} o action type (name : A -> string) (details : A -> pydict) now l : forall e, estate_ok e ->
  estate_ok (foldl (fun e x => audited audit_accepts remote_addr o action type (name x) (details x) now e) e l).
Proof. induction l as [|x l IH]; intros e He; [done|]. by apply IH, audited_ok. Qed.
Lemma set_config_keeps P id p mode now f : (forall s, known f s -> P s) ->
  keeps P (fl_hub f) (fl_hub (set_desired_config id p mode now f).2).
Proof.
  intros Hk. unfold set_desired_config. destruct (validate_desired_config p mode); [|done].
  destruct (get_device id f) as [d|] eqn:Hd; [|done]. cbn [snd].
  match goal with |- context [put_device id ?d' f] => apply (put_keeps P f id d d' Hk Hd) end.
  intros s Hs. left. rewrite !set_col_site in Hs by done. destruct mode; by rewrite ?set_col_site in Hs by done.
Qed.
Lemma push_keeps P id src u n1 n2 n3 p : (forall s, known (pl_fleet p) s -> P s) ->
  keeps P (plant_hub p) (plant_hub (push_desired_config ulid id src u n1 n2 n3 p).2).
Proof.
  intros Hk. unfold push_desired_config. case_match; [done|]. destruct (plant_device id p) as [d|]; [|done].
  case_match; [done|]. destruct (object_col d "desired_config") as [pl|]; [|done].
  pose proof (enqueue_same_tables ulid id "apply_config" (Some pl) u (Some 600) None false false n1 n2 (plant_hub p)) as Hs.
  destruct (enqueue_for_device _ _ _ _ _ _ _ _ _ _ _ _) as [r h]. cbn [snd] in Hs.
  assert (Hh : keeps P (plant_hub p) (plant_hub (DeviceConfig.with_hub h p))) by (by apply same_tables_keeps).
  destruct r as [cmd|]; [|done]. cbn [snd]. destruct (plant_device id (DeviceConfig.with_hub h p)) as [d'|] eqn:Hd; [|done].
  eapply keeps_trans; [exact Hh|].
  apply (put_keeps P (pl_fleet (DeviceConfig.with_hub h p)) id d' _ Hk Hd). intros s Hx. left. by rewrite set_col_site in Hx.
Qed.

Lemma edit_pages_ok o e : estate_ok e ->
  (forall id f now n1 n2, estate_ok (device_update_submit o id f now n1 n2 e).2) /\
  (forall id f now, estate_ok (device_set_protection strftime audit_accepts device_accepts remote_addr o id f now e).2).
Proof.
  intros He. assert (Hk : forall e s, known (fleet_of (op_caller o) e) s -> is_Some (es_sites e !! s)) by (intros ?; apply known_site).
  split; intros.
  - unfold DevicePages.device_update_submit. case_match; [|done].
    match goal with |- context [DevicePages.picked_source ?a ?b ?c ?i ?d ?f ?n ?e] =>
      destruct (picked_source_estate c i d f n e) as [log Hl]; destruct (DevicePages.picked_source a b c i d f n e) as [r e1] end.
    cbn [snd] in Hl. subst e1. assert (He1 : estate_ok (with_scopes log e)) by (by apply with_scopes_ok).
    destruct r as [source|]; [|done]. cbv zeta.
    pose proof (update_diff_keeps _ id (edit_patch f source) now _ (Hk (with_scopes log e))) as Hu.
    destruct (update_device_with_diff _ _ _ _ _ _) as [[[[updated|] diff]|] f1]; cbn [snd] in *; try done.
    match goal with |- context [if ?b then enqueue_display_name_sync ?u ?i ?n ?w ?x ?y ?z else (false, ?z)] =>
      assert (Hs : same_tables (fl_hub f1) (fl_hub (if b then enqueue_display_name_sync u i n w x y z else (false, z)).2))
        by (destruct b; [apply name_sync_same_tables|done]);
      destruct (if b then enqueue_display_name_sync u i n w x y z else (false, z)) as [synced f2] end.
    cbn [snd] in *. apply audited_ok, into_ok; [|done]. eapply keeps_trans; [exact Hu|by apply same_tables_keeps].
  - unfold device_set_protection. cbv zeta.
    match goal with |- context [update_device _ _ id ?p now ?f] =>
      pose proof (update_keeps _ strftime device_accepts id p now f (Hk e)) as Hu;
      destruct (update_device strftime device_accepts id p now f) as [[[updated|]|] f1]; cbn [snd] in *; try done end.
    by apply audited_ok, into_ok.
Qed.
Lemma removal_pages_ok o e : estate_ok e ->
  (forall id now, estate_ok (device_delete_submit audit_accepts remote_addr o id now e).2) /\
  (forall f now, estate_ok (device_merge_retire_submit audit_accepts remote_addr o f now e).2) /\
  (forall f now, estate_ok (devices_bulk_delete_submit audit_accepts remote_addr o f now e).2).
Proof.
  intros He. set (fl := fleet_of (op_caller o) e).
  assert (Hk : forall s, known fl s -> is_Some (es_sites e !! s)) by (intros s; apply known_site).
  split_and!; intros.
  - unfold device_delete_submit, delete_device_with_audit_context. fold fl. destruct (get_device id fl); [|done].
    cbv zeta beta iota. cbn [snd].
    match goal with |- estate_ok (foldl ?g ?e0 ?l) => apply (audited_fold_ok o _ _ (fun c => c) (fun c => _) now l e0) end.
    apply audited_ok, into_ok; [apply (drop_keeps _ id fl)|done].
  - unfold device_merge_retire_submit. cbv zeta. fold fl.
    pose proof (merge_keeps _ (field f "keep_device_id") (field f "retire_device_id") now fl Hk) as Hm.
    destruct (merge_retire_device _ _ now fl) as [[|] f1]; cbn [snd] in *; [|done]. by apply audited_ok, into_ok.
  - unfold devices_bulk_delete_submit. cbv zeta. case_match; [done|]. case_match; [done|]. unfold delete_devices_bulk.
    match goal with |- context [foldl (bulk_step ?ov) ?acc ?ids] =>
      pose proof (bulk_keeps (fun s => is_Some (es_sites e !! s)) ov ids acc) as Hb;
      destruct (foldl (bulk_step ov) acc ids) as [[[dl pr] un] f1] end.
    cbn [snd] in *. by apply audited_each_ok, audited_each_ok, audited_ok, into_ok.
Qed.
Lemma command_pages_ok o e : estate_ok e ->
  (forall id f now at_, estate_ok (device_send_command ulid audit_accepts remote_addr o id f now at_ e).2) /\
  (forall id cid now, estate_ok (device_cancel_command audit_accepts remote_addr o id cid now e).2).
Proof.
  intros He. split; intros.
  - unfold device_send_command. cbv zeta. case_match; [done|].
    match goal with |- context [enqueue_for_device ?u ?i ?t ?p ?b ?l ?g ?v ?h ?n ?a ?hub] =>
      pose proof (enqueue_same_tables u i t p b l g v h n a hub) as Hs;
      destruct (enqueue_for_device u i t p b l g v h n a hub) as [[cmd|[]] h'] end; cbn [snd] in *; try done.
    by apply audited_ok, queue_estate_ok.
  - unfold device_cancel_command. pose proof (hub_step_same_tables ulid _ _ (step_cancel ulid cid now (es_hub e))) as Hs.
    destruct (cancel_pending_command cid now (es_hub e)) as [[|] h]; [|done]. by apply audited_ok, queue_estate_ok.
Qed.
Lemma config_pages_ok o e : estate_ok e ->
  (forall id f now, estate_ok (device_desired_config_save_submit json_loads audit_accepts remote_addr o id f now e).2) /\
  (forall id n1 n2 n3, estate_ok (device_desired_config_push_submit ulid audit_accepts remote_addr o id n1 n2 n3 e).2).
Proof.
  intros He. assert (Hk : forall s, known (fleet_of (op_caller o) e) s -> is_Some (es_sites e !! s)) by (intros s; apply known_site).
  split; intros.
  - unfold device_desired_config_save_submit. cbv zeta. destruct (submitted_config _ _ _ _ _ _) as [[p|]|]; try done.
    match goal with |- context [set_desired_config id ?p ?m now ?f] => pose proof (set_config_keeps _ id p m now f Hk) as Hs;
      destruct (set_desired_config id p m now f) as [[[out|]|] f1] end; cbn [snd] in *; destruct p; cbn [snd]; try done;
      by apply audited_ok, into_ok.
  - unfold device_desired_config_push_submit. cbv zeta.
    match goal with |- context [push_desired_config ulid id ?s ?u n1 n2 n3 ?p] => pose proof (push_keeps _ id s u n1 n2 n3 p Hk) as Hs;
      destruct (push_desired_config ulid id s u n1 n2 n3 p) as [[out|] p'] end; cbn [snd] in *; [|done]. by apply audited_ok, into_ok.
Qed.

(** Every request of the device pages keeps the estate consistent: the sites of the devices
    exist, memberships name devices and groups that exist, each once, names stay unique.  Only
    the upgrade writes outside it, and then only deployments: the image files and the releases
    stay as they are. *)
Theorem device_pages_keep_the_estate q o now later w :
  estate_ok w.2 ->
  let w' := (handle_device q o now later w).2 in
  estate_ok w'.2 /\ de_disk w'.1 = de_disk w.1 /\ de_releases w'.1 = de_releases w.1 /\
  (w'.1 <> w.1 -> exists id, q = UpgradeForm id).
Proof.
  intros He. destruct w as [dp e]. cbn [snd] in He. pose proof (edit_pages_ok o e He). pose proof (removal_pages_ok o e He).
  pose proof (command_pages_ok o e He). pose proof (config_pages_ok o e He). destruct_and!.
  assert (Hon : forall g, estate_ok (g e).2 ->
    let w' := (on_estate g (dp, e)).2 in estate_ok w'.2 /\ de_disk w'.1 = de_disk dp /\ de_releases w'.1 = de_releases dp /\
    (w'.1 <> dp -> exists id, q = UpgradeForm id)).
  { intros g Hg. unfold on_estate. cbn [fst snd]. destruct (g e); cbn in *. done. }
  destruct q; cbn [DevicePages.handle_device fst snd]; try (apply Hon; auto).
  unfold device_upgrade_to_latest_submit. cbn [fst snd]. destruct (latest_stable_release_dict _) as [[rid r]|]; [|done].
  case_match; [done|]. destruct (create_deployment _ _ _ _ _ _ _ _ _ _ _) as [[[did n]|[]] fw]; cbn [fst snd]; try done.
  split_and!; [by apply audited_ok|done|done|eauto].
Qed.

(** ** The power source a form picks *)

(** What an accepted patch leaves in the row and in the others. *)
Lemma update_row id patch now f d : get_device id f = Some d ->
  let f' := (update_device_with_diff strftime device_accepts id patch now f).2 in
  exists d', hub_devices (fl_hub f') = <[id := d']> (hub_devices (fl_hub f)) /\
    (col d' "power_source_device_id" = col d "power_source_device_id" \/
     exists v v', ("power_source_device_id", v) ∈ patch /\ validate_power_source f id v = Ret v' /\
                  col d' "power_source_device_id" = v').
Proof.
  intros Hd. unfold get_device in Hd.
  assert (Hsame : exists d', hub_devices (fl_hub f) = <[id := d']> (hub_devices (fl_hub f)) /\
    (col d' "power_source_device_id" = col d "power_source_device_id" \/
     exists v v', ("power_source_device_id", v) ∈ patch /\ validate_power_source f id v = Ret v' /\
                  col d' "power_source_device_id" = v')) by (exists d; rewrite insert_id by done; auto).
  unfold update_device_with_diff, session_scope. case_match; [done|]. unfold get_device. rewrite Hd. unfold apply_patch.
  destruct (normalized ← _; _) as [[n d']|e] eqn:E; [|done]. peel E. peel E. destruct x0 as [d1 b]. simplify_eq.
  destruct (device_accepts _); [|done]. cbv zeta. cbn [snd fl_hub put_device]. eexists. split; [reflexivity|].
  assert (Hc : forall dx : device, col (if b then set_col "updated_at" (JInt now) dx else dx) "power_source_device_id" =
                          col dx "power_source_device_id") by (intros dx; by destruct b; [unfold col; cbn; rewrite lookup_insert_ne|]).
  cbn [snd fst]. rewrite Hc. destruct (write_fields_col "power_source_device_id" n ltac:(done) _ _ _ _ Hx0) as [Hs|(v & Hv & Hs)]; [by left|].
  right. unfold normalize_patch in Hx. rewrite mapM_ret in Hx. apply list_elem_of_lookup in Hv as [i Hi].
  destruct (Forall2_lookup_r _ _ _ _ _ Hx Hi) as ([k w] & Hp & H1). peel H1. simplify_eq. cbn [fst snd] in *.
  apply list_elem_of_lookup_2 in Hp. exists w, (col d1 "power_source_device_id"). done.
Qed.
Lemma name_sync_sources id n u n1 n2 f : sources (fl_hub (enqueue_display_name_sync ulid id n u n1 n2 f).2) = sources (fl_hub f).
Proof.
  unfold enqueue_display_name_sync. case_match; [done|]. case_match; [|done]. case_match; [done|].
  pose proof (enqueue_sources ulid id "apply_config" (Some [("device_name", ojson n)]) u (Some 600) None false false n1 n2 (fl_hub f)) as Hs.
  by destruct (enqueue_for_device _ _ _ _ _ _ _ _ _ _ _ _).
Qed.

(** [p] is offered for [id]: a row of the list the user may see, another device, on the same
    site. *)
Definition offered (o : operator) (id : string) (d : device) (now : time) (e : estate) (p : string) : Prop :=
  exists dp rows log, device_rows environ py_repr ALL_DEVICES (op_caller o) (Some (op_id o)) now e = (Ret rows, log) /\
    (p, dp) ∈ rows /\ p <> id /\ py_eq (col dp "site_id") (col d "site_id") = true /\
    hub_devices (es_hub e) !! p = Some dp /\ is_fixture dp = false.
Lemma rows_are_devices f c u now e rows log p dp :
  device_rows environ py_repr f c u now e = (Ret rows, log) -> (p, dp) ∈ rows ->
  hub_devices (es_hub e) !! p = Some dp /\ selects f now (es_hub e) (p, dp) = true.
Proof.
  unfold device_rows, scoped. cbv zeta. intros E Hin.
  assert (Hf := f_equal fst E). cbn in Hf. eapply scoped_sublist, elem_of_sublist in Hf; [|exact Hin].
  rewrite order_by_desc_perm, list_elem_of_filter, elem_of_map_to_list in Hf. tauto.
Qed.
Lemma picked_is_offered o id d f now e e1 s : picked_source o id d f now e = (Ret s, e1) ->
  s = EmptyString \/ offered o id d now e s.
Proof.
  unfold DevicePages.picked_source, visible_power_source_ids. destruct (is_empty (field f "power_source_device_id")) eqn:Ee.
  { intros [= <- <-]. left. by destruct (field f "power_source_device_id"). }
  destruct (device_rows _ _ _ _ _ _ _) as [[rows|] log] eqn:E; [|done]. cbn. destruct (in_strs _ _) eqn:Hin; intros [= <- _]; [|by left].
  apply in_strs_spec, list_elem_of_fmap in Hin as ([p dp] & -> & [[Hne Hs] Hin]%list_elem_of_filter). right. exists dp, rows, log. cbn in *.
  destruct (rows_are_devices _ _ _ _ _ _ _ _ _ E Hin) as [Hd Hsel]. split_and!; try done.
  unfold selects in Hsel. cbn in Hsel. destruct (is_fixture dp); [|done]. by rewrite !andb_false_r in Hsel.
Qed.
Lemma edit_patch_source f s v : ("power_source_device_id", v) ∈ edit_patch f s -> v = text_json s.
Proof.
  unfold edit_patch. rewrite elem_of_app. intros [H|H].
  - repeat (apply elem_of_cons in H as [H|H]; [by simplify_eq|]). by apply not_elem_of_nil in H.
  - destruct (is_empty (typed_name f)); [by apply not_elem_of_nil in H|]. apply elem_of_cons in H as [H|H]; [by simplify_eq|].
    by apply not_elem_of_nil in H.
Qed.

(** C22. Whatever is posted to the edit form of a device, the device keeps its power source,
    loses it, or gets one the picker offers this user: another device on the list they see, no
    test fixture, on the site the device was on.  No other device changes its source, and the
    sources stay a forest. *)
Theorem power_source_is_offered o id f now n1 n2 e d d' :
  let e' := (device_update_submit o id f now n1 n2 e).2 in
  hub_devices (es_hub e) !! id = Some d -> hub_devices (es_hub e') !! id = Some d' ->
  (power_source d' = power_source d \/ power_source d' = None \/
   exists p, power_source d' = Some p /\ offered o id d now e p) /\
  (forall i, i <> id -> sources (es_hub e') !! i = sources (es_hub e) !! i) /\
  (forest (es_hub e) -> forest (es_hub e')).
Proof.
  cbv zeta. intros Hd. unfold DevicePages.device_update_submit, get_device. cbn [fl_hub fleet_of]. rewrite Hd.
  destruct (picked_source_estate o id d f now e) as [log Hl].
  destruct (DevicePages.picked_source _ _ _ _ _ _ _ _) as [r e1] eqn:Ep. cbn [snd] in Hl. subst e1.
  assert (Hsame : forall d2, hub_devices (es_hub (with_scopes log e)) !! id = Some d2 ->
    (power_source d2 = power_source d \/ power_source d2 = None \/ exists p, power_source d2 = Some p /\ offered o id d now e p) /\
    (forall i, i <> id -> sources (es_hub (with_scopes log e)) !! i = sources (es_hub e) !! i) /\
    (forest (es_hub e) -> forest (es_hub (with_scopes log e)))) by (cbn; intros d2 H2; simplify_eq; auto).
  destruct r as [s|]; [|apply Hsame]. cbv zeta. apply picked_is_offered in Ep.
  set (f0 := fleet_of (op_caller o) (with_scopes log e)) in *.
  destruct (update_row id (edit_patch f s) now f0 d Hd) as (d1 & Hrow & Hcol). cbv zeta in Hrow, Hcol.
  pose proof (update_forest strftime device_accepts id (edit_patch f s) now f0) as Hforest.
  destruct (update_device_with_diff _ _ _ _ _ f0) as [[[[updated|] diff]|] f1]; cbn [snd] in *; try apply Hsame.
  match goal with |- context [if ?b then enqueue_display_name_sync ?u ?i ?n ?w ?x ?y ?z else (false, ?z)] =>
    assert (Hs : sources (fl_hub (if b then enqueue_display_name_sync u i n w x y z else (false, z)).2) = sources (fl_hub f1))
      by (destruct b; [apply name_sync_sources|done]);
    destruct (if b then enqueue_display_name_sync u i n w x y z else (false, z)) as [synced f2] end.
  cbn [snd es_hub into audited with_audit Estate.with_hub] in *. intros Hd'.
  assert (E : power_source d' = power_source d1).
  { assert (H : sources (fl_hub f2) !! id = sources (fl_hub f1) !! id) by (by rewrite Hs). unfold sources in H.
    rewrite !lookup_fmap, Hrow, lookup_insert_eq in H. change (hub_devices (es_hub _) !! id) with (hub_devices (fl_hub f2) !! id) in Hd'.
    rewrite Hd' in H. cbn in H. congruence. }
  split_and!.
  - rewrite E. unfold power_source in *. destruct Hcol as [->|(v & v' & Hin & Hv & ->)]; [by left|].
    right. apply edit_patch_source in Hin as ->. unfold text_json in Hv. destruct (is_empty s) eqn:Es; cbn in Hv; [simplify_eq; by left|].
    right. exists s. destruct Ep as [->|Ep]; [done|]. split; [|done]. destruct (String.eqb s id); [done|].
    destruct (get_device s f0); [|done]. peel Hv. by simplify_eq.
  - intros i Hne. change (sources (fl_hub f2) !! i = sources (es_hub e) !! i). rewrite Hs. unfold sources.
    rewrite Hrow, !lookup_fmap, lookup_insert_ne by done. done.
  - intros Hf. change (forest (fl_hub f2)). apply (forest_sub (fl_hub f1)); [|by apply Hforest]. intros p c. by apply feeds_sources.
Qed.

(** ** The upgrade button *)

Lemma create_for_device rid id ch force u now at_ f w did n fw :
  create_deployment ulid rid "device" (Some id) ch force u now at_ f w = (Ret (did, n), fw) ->
  exists r k m, fw_releases w !! rid = Some r /\
    fw = Firmware (fw_releases w) (<[did := Deployment rid "device" (Some id) (or_str ch (rl_channel r)) force u at_]> (fw_deployments w))
           ((supersede [id] now <$> fw_assignments w) ++ new_assignments ulid k did rid at_ [id]) m.
Proof.
  unfold create_deployment. change (negb (in_strs "device" ALLOWED_TARGET_TYPES)) with false.
  change (negb (String.eqb "device" "all_devices")) with true. cbn [andb]. cbv iota. destruct (negb _); [done|].
  destruct (fw_releases w !! rid) as [r|]; [|done]. unfold target_devices. change (String.eqb "device" "device") with true. cbv iota.
  destruct (get_device id f); [|done]. intros [= <- <- <-]. by eexists r, _, _.
Qed.
(** The rows of the other devices. *)
Lemma supersede_others id now (l : list assignment) a : as_device_id a <> id -> a ∈ supersede [id] now <$> l <-> a ∈ l.
Proof.
  intros Ha. rewrite list_elem_of_fmap. unfold supersede. split.
  - intros (b & -> & Hb). destruct (in_strs (as_device_id b) [id]) eqn:E; [|done]. destruct (active b); [|done].
    apply in_strs_spec, list_elem_of_singleton in E. done.
  - intros Hin. exists a. split; [|done]. destruct (in_strs (as_device_id a) [id]) eqn:E; [|done].
    by apply in_strs_spec, list_elem_of_singleton in E.
Qed.

(** The upgrade button moves one device forward or does nothing.  What it deploys is the
    newest stable release, registered, above the version the device reports; the one deployment
    and the one assignment it adds are for that device, and the rows of other devices stay as
    they are. *)
Theorem upgrade_button_moves_forward o id now at_ w :
  let w' := (device_upgrade_to_latest_submit ulid audit_accepts remote_addr o id now at_ w).2 in
  w' = w \/
  exists rid r d v did, latest_stable_release_dict (de_releases w.1) = Some (rid, r) /\
    de_releases w.1 !! rid = Some r /\ fr_channel r = "stable" /\
    hub_devices (es_hub w.2) !! id = Some d /\ col d "firmware_version" = JStr v /\
    is_upgrade (Some (fr_version r)) (Some v) = true /\
    de_deployments w'.1 = <[did := Deployment rid "device" (Some id) "stable" false (Some (op_id o)) at_]> (de_deployments w.1) /\
    es_hub w'.2 = es_hub w.2 /\
    (forall a, as_device_id a <> id -> a ∈ de_assignments w'.1 <-> a ∈ de_assignments w.1) /\
    (exists a, filter (fun a => active_for id a = true) (de_assignments w'.1) = [a] /\ as_release_id a = rid /\ as_deployment_id a = did).
Proof.
  cbv zeta. unfold device_upgrade_to_latest_submit. destruct (latest_stable_release_dict _) as [[rid r]|] eqn:El; [|by left].
  destruct (is_upgrade _ _) eqn:Eu; cbn [negb]; [|by left].
  assert (Hr : de_releases w.1 !! rid = Some r /\ fr_channel r = "stable").
  { apply max_by_greatest in El as [Hin _]; [by apply stable_release_elem in Hin|intros a; apply key_lt_irrefl|].
    intros a b c. apply key_lt_trans. }
  destruct Hr as [Hr Hch].
  destruct (get_device id (fleet_of (op_caller o) w.2)) as [d|] eqn:Hd; unfold firmware_version_of in Eu; rewrite Hd in Eu;
    [|by destruct (fr_version r)]. cbn in Eu.
  destruct (as_str (col d "firmware_version")) as [v|] eqn:Ev; [|apply upgrade_iff in Eu as (_ & Hb & _); done].
  destruct (create_deployment _ _ _ _ _ _ _ _ _ _ _) as [[[did n]|x] fw] eqn:Ec; [|left; by destruct x].
  right. exists rid, r, d, v, did. cbn [fst snd].
  apply create_for_device in Ec as (r' & k & m & _ & ->). rewrite Hch. cbn [or_str is_empty with_rollouts fw_deployments fw_assignments de_deployments de_assignments].
  split_and!; try done.
  - destruct (col d "firmware_version"); try done. by injection Ev as ->.
  - intros a Ha. cbn [firmware_of fw_assignments new_assignments]. rewrite elem_of_app, supersede_others by done. split; [|by left].
    intros [?|Hx%list_elem_of_singleton]; [done|]. by subst a.
  - cbn [firmware_of fw_assignments new_assignments]. rewrite filter_app, superseded_none by left. cbn [app].
    rewrite filter_cons_True; [by eexists|]. unfold active_for. cbn. by rewrite String.eqb_refl.
Qed.

(** ** Commands of the page *)

#[local] Abbreviation device_send_command := (device_send_command ulid audit_accepts remote_addr).
(** The queue after one command of the page. *)
Definition queued_by_page (o : operator) (id : string) (f : form) (at_ : time) (e e' : estate) : Prop :=
  exists cmd d d', hub_devices (es_hub e) !! id = Some d /\
    cmd_device_id cmd = id /\ cmd_type cmd = field f "type" /\ cmd_state cmd = Pending /\
    cmd_issued_by cmd = Some (op_id o) /\ cmd_created_at cmd = at_ /\
    hub_commands (es_hub e') = <[cmd_id cmd := cmd]> (hub_commands (es_hub e)) /\
    hub_devices (es_hub e') = <[id := d']> (hub_devices (es_hub e)) /\
    dev_is_held_off d' = (if ticked f "hold_off" then true
                          else if in_strs (field f "type") POWER_ON_TYPES then false else dev_is_held_off d) /\
    exists row, es_audit e' = es_audit e ++ filter (fun r => audit_accepts r = true) [row] /\
      au_action row = "device.command_issued" /\ au_target_id row = Some id.

(** The types whose payload the page can fill in. *)
Definition PAGE_COMMANDS : list string :=
  ["relay_on"; "relay_off"; "relay_toggle"; "relay_cycle"; "device_restart"; "factory_reset"; "check_firmware"; "start_firmware_update"].
Definition page_payload (f : form) (ty : string) : pydict :=
  if String.eqb ty "relay_cycle"
  then [("power_off_seconds", number_or f "power_off_seconds" 5);
        ("post_reboot_holdoff_seconds", number_or f "post_reboot_holdoff_seconds" 180)]
  else [].
Lemma page_payload_valid f ty : in_strs ty ALLOWED_TYPES = true ->
  if in_strs ty PAGE_COMMANDS then validate_payload ty (Some (page_payload f ty)) = Ret (page_payload f ty)
  else exists m, validate_payload ty (Some (page_payload f ty)) = Raise (ValueError m).
Proof.
  intros H%in_strs_spec. repeat (apply elem_of_cons in H as [->|H]; [first [reflexivity|by eexists]|]).
  by apply not_elem_of_nil in H.
Qed.
Lemma held_after ty ho d : dev_is_held_off (hold_off_effect ty ho d) =
  if ho then true else if in_strs ty POWER_ON_TYPES then false else dev_is_held_off d.
Proof.
  unfold hold_off_effect. destruct ho; [done|]. destruct (in_strs ty POWER_ON_TYPES); [|done].
  by destruct (dev_is_held_off d) eqn:E.
Qed.
Lemma page_commands_known ty : in_strs ty PAGE_COMMANDS = true -> in_strs ty ALLOWED_TYPES = true /\ is_empty ty = false.
Proof. intros H%in_strs_spec. repeat (apply elem_of_cons in H as [->|H]; [done|]). by apply not_elem_of_nil in H. Qed.

(** A command sent from a device page, on every branch.  It is refused exactly when its type
    is none the page can fill in or the device does not exist, and turned back exactly for a
    power command to a protected device without the override; then nothing changes.  Otherwise
    it queues one pending command in the operator's name, moves the hold-off of that device
    only, and logs one row. *)
Theorem command_page_is_exact o id f now at_ e :
  is_empty id = false ->
  let ty := field f "type" in
  let locked d := ty ∈ POWER_TYPES /\ dev_is_protected d = true /\ ticked f "override_lockout" = false in
  match device_send_command o id f now at_ e with
  | (Ret Back, e') =>
    ty ∈ PAGE_COMMANDS /\ exists d, hub_devices (es_hub e) !! id = Some d /\
      (locked d /\ e' = e \/ ~ locked d /\ queued_by_page o id f at_ e e')
  | (r, e') => r = Ret (Refused 400) /\ e' = e /\ (ty ∉ PAGE_COMMANDS \/ hub_devices (es_hub e) !! id = None)
  end.
Proof.
  intros Hid ty locked. unfold DevicePages.device_send_command. fold ty. cbv zeta.
  assert (Hin : ty ∈ PAGE_COMMANDS <-> in_strs ty PAGE_COMMANDS = true) by (by rewrite in_strs_spec).
  change (if String.eqb ty "relay_cycle" then _ else []) with (page_payload f ty).
  unfold enqueue_for_device, session_scope, enqueue_txn. destruct (in_strs ty PAGE_COMMANDS) eqn:Ep.
  - destruct (page_commands_known _ Ep) as [Ha He]. pose proof (page_payload_valid f ty Ha) as Hv. rewrite Ep in Hv. rewrite He, Ha, Hv.
    cbn [negb]. destruct (hub_devices (es_hub e) !! id) as [d|] eqn:Hd; [|by auto].
    destruct (locked_out ty (ticked f "override_lockout") d) eqn:El.
    + split; [by apply Hin|]. exists d. split; [done|]. left. split; [|done]. unfold locked_out in El. unfold locked.
      rewrite <- in_strs_spec. destruct (in_strs ty POWER_TYPES), (dev_is_protected d), (ticked f "override_lockout"); done.
    + split; [by apply Hin|]. exists d. split; [done|]. right. split.
      { unfold locked_out in El. unfold locked. rewrite <- in_strs_spec. by intros (H1 & H2 & H3); rewrite H1, H2, H3 in El. }
      exists (fresh_command ulid (hub_next (es_hub e)) id None (Some (op_id o)) ty (page_payload f ty) (now + seconds (ttl_or_default None)) at_).
      exists d, (hold_off_effect ty (ticked f "hold_off") d). split_and!; try done; [apply held_after|].
      unfold audited, with_audit. cbn. rewrite record_rows. eexists. split; [reflexivity|]. cbn. by rewrite Hid.
  - assert (Hno : ty ∉ PAGE_COMMANDS) by (by rewrite Hin).
    destruct (is_empty ty); [by auto|]. destruct (in_strs ty ALLOWED_TYPES) eqn:Ha; cbn [negb]; [|by auto].
    pose proof (page_payload_valid f ty Ha) as Hv. rewrite Ep in Hv. destruct Hv as [m ->]. by auto.
Qed.

(** Any signed-in user commands any device.  Whoever the gate lets in as a viewer, whatever
    their bindings, can have any device switched off from its page, a protected one too, by
    ticking the override; the same command to the API is refused. *)
Theorem viewers_command_every_device jwt_decode mode rq now later g w me u id f d b :
  (role_required_api jwt_decode ANY_ROLE rq now g).1 = Enter me u -> us_role u = ROLE_VIEWER ->
  is_empty id = false -> hub_devices (es_hub w.2) !! id = Some d ->
  field f "type" = "relay_off" -> ticked f "override_lockout" = true ->
  (exists o w', serve_device ulid strftime environ py_repr json_loads audit_accepts device_accepts remote_addr jwt_decode mode
      (CommandForm id f) rq now later g w = (Ret Back, w') /\ op_id o = me /\ queued_by_page o id f later w.2 w'.2) /\
  serve ulid strftime environ py_repr json_loads audit_accepts device_accepts remote_addr jwt_decode mode
    (DeviceCommand id b) rq now later g w.2 = (Ret (Refused 403), w.2).
Proof.
  intros Hg Hr Hid Hd Hty Ho. split.
  - set (o := Operator (Caller (tc_org (bind_tenant_scope me (rq_cookie rq) g).1) mode) me (us_role u) (us_email u)).
    assert (Hserve : serve_device ulid strftime environ py_repr json_loads audit_accepts device_accepts remote_addr jwt_decode mode
      (CommandForm id f) rq now later g w = on_estate (device_send_command o id f now later) w).
    { unfold serve_device, operator_call. cbn [device_roles]. by rewrite Hg. }
    rewrite Hserve. unfold on_estate. unfold DevicePages.device_send_command. rewrite Hty. cbn [is_empty]. cbv zeta.
    unfold enqueue_for_device, session_scope, enqueue_txn. cbn [in_strs existsb ALLOWED_TYPES String.eqb negb]. cbn -[audited locked_out].
    rewrite Hd. replace (locked_out _ _ d) with false by (unfold locked_out; rewrite Ho; by rewrite andb_false_r). cbn -[audited].
    eexists o, _. split; [reflexivity|]. split; [done|].
    exists (fresh_command ulid (hub_next (es_hub w.2)) id None (Some me) "relay_off" [] (now + seconds (ttl_or_default None)) later).
    exists d, (hold_off_effect "relay_off" (ticked f "hold_off") d). rewrite Hty. split_and!; try done; [apply held_after|].
    unfold audited, with_audit. cbn. rewrite record_rows. eexists. split; [reflexivity|]. cbn. by rewrite Hid.
  - unfold serve, operator_call. cbn [roles].
    by rewrite (viewer_is_forbidden _ WRITE_ROLES _ _ _ _ _ Hg Hr eq_refl).
Qed.

(** ** Bulk deletion *)

Lemma fromkeys_texts_from l : forall acc,
  foldl (fun acc i => if existsb (py_eq i) acc then acc else acc ++ [i]) (JStr <$> acc) (JStr <$> l) =
  JStr <$> foldl (fun acc i => if existsb (String.eqb i) acc then acc else acc ++ [i]) acc l.
Proof.
  induction l as [|x l IH]; intros acc; [done|]. cbn [foldl fmap list_fmap].
  assert (E : existsb (py_eq (JStr x)) (JStr <$> acc) = existsb (String.eqb x) acc)
    by (clear; induction acc as [|y acc IH]; [done|]; cbn [existsb fmap list_fmap]; by rewrite IH, py_eq_str).
  rewrite E. destruct (existsb _ acc); [apply IH|]. rewrite <- IH. by rewrite fmap_app.
Qed.
Lemma fromkeys_texts l : fromkeys py_eq (JStr <$> l) = JStr <$> fromkeys String.eqb l.
Proof. apply (fromkeys_texts_from l []). Qed.
Lemma filter_nonempty l : Forall (fun i => is_empty i = false) l ->
  List.filter (fun i => negb (is_empty i)) l = l /\ List.filter truthy (JStr <$> l) = JStr <$> l.
Proof.
  induction 1 as [|i l Hi _ [IH1 IH2]]; [done|]. cbn [List.filter fmap list_fmap truthy]. rewrite Hi. cbn [negb]. split; by f_equal.
Qed.
Lemma fromkeys_cons x l : fromkeys String.eqb (x :: l) <> [].
Proof.
  unfold fromkeys. cbn. assert (H : forall acc, acc <> [] ->
    foldl (fun acc i => if existsb (String.eqb i) acc then acc else acc ++ [i]) acc l <> []); [|by apply H].
  induction l as [|y l IH]; intros acc Ha; [done|]. cbn. apply IH. destruct (existsb _ acc); [done|]. by destruct acc.
Qed.
Lemma distinct_texts l : Forall (fun i => is_empty i = false) l -> distinct_ids (JStr <$> l) = Ret (JStr <$> fromkeys String.eqb l).
Proof.
  intros H. unfold distinct_ids. cbv zeta. rewrite (proj2 (filter_nonempty l H)), fromkeys_texts.
  replace (forallb hashable (JStr <$> l)) with true; [done|]. clear. induction l; [done|]. cbn [forallb fmap list_fmap]. by rewrite <- IHl.
Qed.
Lemma texts_are_ids l : mapM text_id (JStr <$> l) = Ret l.
Proof. induction l as [|x l IH]; [done|]. cbn [fmap list_fmap]. cbn. by rewrite IH. Qed.
Lemma confirmed_same n verb level typed :
  confirmed n (JStr verb) (ojson level) (ojson typed) = mass_validate n verb level typed.
Proof.
  unfold confirmed. destruct level as [l|], typed as [t|]; cbn [ojson as_str]; rewrite ?py_eq_str; unfold mass_validate; cbv zeta.
  all: do 2 (case_match; [done|]); f_equal; try (by rewrite !bool_decide_eq_false_2);
    apply bool_decide_ext; destruct (String.eqb_spec t verb); naive_solver.
Qed.

(** What the list page and a client of the API send for the same deletion. *)
Definition deletion_form (ids : list string) (override : bool) (level typed : option string) : form :=
  ((fun i => ("device_id", i)) <$> ids) ++ (if override then [("override_lockout", "true")] else []) ++
  from_option (fun s => [("confirmation_level", s)]) [] level ++ from_option (fun s => [("confirmation_typed_value", s)]) [] typed.
Definition deletion_body (ids : list string) (override : bool) (level typed : option string) : pydict :=
  [("device_ids", JList (JStr <$> ids)); ("override_lockout", JBool override);
   ("confirmation_level", ojson level); ("confirmation_typed_value", ojson typed)].
Lemma deletion_fields ids override level typed (f := deletion_form ids override level typed) :
  form_getlist f "device_id" = ids /\ ticked f "override_lockout" = override /\
  form_get f "confirmation_level" = level /\ form_get f "confirmation_typed_value" = typed.
Proof.
  assert (Hg : forall k rest, k <> "device_id" -> form_get (((fun i => ("device_id", i)) <$> ids) ++ rest) k = form_get rest k).
  { intros k rest Hk. clear - Hk. induction ids as [|i ids IH]; [done|]. cbn. destruct (String.eqb_spec k "device_id"); [done|exact IH]. }
  unfold f, deletion_form, ticked. split_and!; [|rewrite !Hg by done; by destruct override, level, typed..].
  unfold form_getlist. rewrite filter_app, fmap_app. replace (filter _ (((fun i => ("device_id", i)) <$> ids))) with ((fun i => ("device_id", i)) <$> ids).
  - rewrite <- list_fmap_compose. cbn. rewrite list_fmap_id. by destruct override, level, typed; cbn; rewrite app_nil_r.
  - clear. induction ids as [|i ids IH]; [done|]. cbn [fmap list_fmap]. rewrite filter_cons_True by done. by f_equal.
Qed.

(** The list page and the API delete alike.  For the same ids, override and confirmation
    the two routes leave the same devices, commands, memberships and audit rows: ids given twice
    count once, both ask for the same confirmation, both spare protected devices unless told
    otherwise. *)
Theorem bulk_delete_page_is_the_api o ids override level typed now e :
  Forall (fun i => is_empty i = false) ids ->
  (devices_bulk_delete_submit audit_accepts remote_addr o (deletion_form ids override level typed) now e).2 =
  (devices_bulk_delete_api audit_accepts remote_addr o (deletion_body ids override level typed) now e).2.
Proof.
  intros Hids. destruct (deletion_fields ids override level typed) as (Hl & Ho & Hc & Ht).
  destruct (filter_nonempty ids Hids) as [F1 F2].
  unfold devices_bulk_delete_submit, devices_bulk_delete_api, confirmed_form. rewrite Hl, Ho, Hc, Ht, F1. cbv zeta.
  cbn [deletion_body dget dict_get String.eqb Ascii.eqb Bool.eqb truthy]. destruct ids as [|x ids]; [done|].
  rewrite bool_decide_eq_false_2 by apply fromkeys_cons. change (jor (JList (JStr <$> x :: ids)) (JList [])) with (JList (JStr <$> x :: ids)).
  change (JStr <$> x :: ids) with (JStr x :: (JStr <$> ids)). cbv beta iota. change (JStr x :: (JStr <$> ids)) with (JStr <$> x :: ids).
  rewrite distinct_texts by done. rewrite length_fmap, confirmed_same. destruct (mass_validate _ _ _ _); [|done]. cbn [negb].
  rewrite texts_are_ids. by destruct (delete_devices_bulk _ _ _) as [[[? ?] ?] ?].
Qed.
End pages.

(** ** The last reboots *)

Definition reboots_of (now : time) (l : list device_event) (h : hub) : list (device_event * device) :=
  omap (fun w => (fun d => (w, d)) <$> hub_devices h !! de_device_id w)
    (order_by_desc de_at (filter (fun w => de_type w = "device.rebooted" /\ now - hours 24 <= de_at w) l)).
Definition newer (a b : device_event * device) : Prop := de_at b.1 <= de_at a.1.
Lemma reboots_elem now l h w d : (w, d) ∈ reboots_of now l h <->
  w ∈ l /\ de_type w = "device.rebooted" /\ now - hours 24 <= de_at w /\ hub_devices h !! de_device_id w = Some d.
Proof.
  unfold reboots_of. rewrite list_elem_of_omap. split.
  - intros (w' & Hw & (d' & Hd & [= <- <-])%fmap_Some). rewrite order_by_desc_perm, list_elem_of_filter in Hw. tauto.
  - intros (Hl & Ht & Hn & Hd). exists w. rewrite order_by_desc_perm, list_elem_of_filter, Hd. done.
Qed.
Lemma reboots_sorted now l h : StronglySorted newer (reboots_of now l h).
Proof.
  unfold reboots_of. set (g := fun w => _). pose proof (order_by_desc_sorted de_at (filter (fun w => de_type w = "device.rebooted" /\ now - hours 24 <= de_at w) l)) as H.
  induction H as [|w r _ IH Hw]; [constructor|]. cbn [omap list_omap]. destruct (g w) as [x|] eqn:E; [|exact IH].
  constructor; [exact IH|]. apply Forall_forall. intros y (w' & Hin & Hy)%list_elem_of_omap. rewrite Forall_forall in Hw. specialize (Hw w' Hin).
  unfold g in *. apply fmap_Some in E as (d1 & _ & ->). apply fmap_Some in Hy as (d2 & _ & ->). exact Hw.
Qed.
Lemma first_of_each_spec r more : forall limit seen, StronglySorted newer (r ++ more) ->
  let out := first_of_each limit seen r in
  (length out <= limit)%nat /\ NoDup (rb_device <$> out) /\
  forall b, b ∈ out -> (rb_device b ∉ seen) /\ exists x, x ∈ r /\ b = reboot_of x /\
    forall y, y ∈ r ++ more -> de_device_id y.1 = rb_device b -> newer x y.
Proof.
  induction r as [|x r IH]; intros limit seen Hs; [destruct limit; cbn; (split; [lia|split; [constructor|by intros b ?%not_elem_of_nil]])|].
  destruct limit as [|limit]; [cbn; split; [lia|split; [constructor|by intros b ?%not_elem_of_nil]]|].
  cbn [app] in Hs. apply StronglySorted_inv in Hs as [Hs Hx]. rewrite Forall_forall in Hx. cbn [first_of_each].
  destruct (in_strs (de_device_id x.1) seen) eqn:E.
  - destruct (IH (S limit) seen Hs) as (H1 & H2 & H3). split; [done|split; [done|]]. intros b Hb. destruct (H3 b Hb) as (Hn & z & Hz & -> & Hy).
    split; [done|]. exists z. split; [by right|split; [done|]]. intros y [->|Hin]%elem_of_cons Hd; [|by apply Hy].
    apply in_strs_spec in E. by rewrite Hd in E.
  - destruct (IH limit (de_device_id x.1 :: seen) Hs) as (H1 & H2 & H3). cbn zeta in *. split; [cbn; lia|]. split.
    + cbn. constructor; [|exact H2]. intros (b & Hd & Hb)%list_elem_of_fmap. destruct (H3 b Hb) as [Hn _]. apply Hn. rewrite <- Hd. left.
    + intros b [->|Hb]%elem_of_cons.
      * split; [rewrite <- in_strs_spec; cbn; by rewrite E|]. exists x. split; [left|split; [done|]].
        intros y [->|Hin]%elem_of_cons _; [apply Z.le_refl|by apply Hx].
      * destruct (H3 b Hb) as (Hn & z & Hz & -> & Hy). apply not_elem_of_cons in Hn as [Hne Hn]. split; [done|].
        exists z. split; [by right|split; [done|]]. intros y [->|Hin]%elem_of_cons Hd; [by rewrite Hd in Hne|by apply Hy].
Qed.

(** The line of recent reboots has at most [limit] entries, each of another device of the
    fleet; each is a reboot of the last day, and the device has none that is later. *)
Theorem recent_reboots_are_the_latest limit now l h :
  let out := recent_reboot_summary limit now l h in
  (length out <= limit)%nat /\ NoDup (rb_device <$> out) /\
  forall b, b ∈ out -> exists w d, w ∈ l /\ de_type w = "device.rebooted" /\ now - hours 24 <= de_at w /\
    hub_devices h !! de_device_id w = Some d /\ b = reboot_of (w, d) /\
    forall w', w' ∈ l -> de_type w' = "device.rebooted" -> de_device_id w' = rb_device b -> de_at w' <= rb_at b.
Proof.
  cbv zeta. unfold recent_reboot_summary, reboot_rows. fold (reboots_of now l h). set (L := reboots_of now l h).
  destruct (first_of_each_spec (take (limit * 4) L) (drop (limit * 4) L) limit []) as (H1 & H2 & H3); [rewrite take_drop; apply reboots_sorted|].
  split; [done|split; [done|]]. intros b Hb. destruct (H3 b Hb) as (_ & [w d] & Hx & -> & Hy). rewrite take_drop in Hy.
  apply elem_of_take in Hx as (i & Hi & _). apply list_elem_of_lookup_2, reboots_elem in Hi as (Hl & Ht & Hn & Hd).
  exists w, d. split_and!; try done. intros w' Hl' Ht' Hd'. cbn [reboot_of rb_at rb_device fst] in *.
  destruct (decide (now - hours 24 <= de_at w')); [|lia]. specialize (Hy (w', d)). apply Hy; [|done]. apply reboots_elem.
  split_and!; try done. by rewrite Hd'.
Qed.

Module Example.

Definition no_text (_ : time) : string := EmptyString.
Definition no_env (_ : string) : option string := None.
Definition no_repr (_ : json) : string := EmptyString.
Definition no_json (_ : string) : outcome json := Raise (ValueError "json").
Definition accepts (_ : audit_row) : bool := true.
Definition any_device (_ : device) : bool := true.
Definition no_jwt (_ : time) (_ : string) : outcome pydict := Raise (ValueError "jwt").
Definition handle_it := handle_device pretty no_text no_env no_repr no_json accepts any_device None.

(** A router on its plug, a strip and a lamp; the strip is on another site. *)
Definition on (site : string) (protected : bool) : device :=
  Device protected false None {["site_id" := JStr site; "display_name" := JStr "plug"; "firmware_version" := JStr "1.2.0"]}.
Definition e0 : estate :=
  Estate (Hub {["dev_router" := on "site_1" true; "dev_lamp" := on "site_1" false; "dev_strip" := on "site_2" false]} ∅ [] [] empty_bus 0)
    {["org_a"]} {["site_1" := Owned "org_a" (Dated 0 (SiteCols "One" None)); "site_2" := Owned "org_a" (Dated 0 (SiteCols "Two" None))]}
    ∅ ∅ [] ∅ [] [].
Definition admin : operator := Operator (Caller (Some "org_a") Enforce) "usr_a" ROLE_ADMIN "a@example.org".
Lemma e0_ok : estate_ok no_repr e0.
Proof.
  split; cbn; try done.
  - split; cbn; [constructor|by intros g d ?%not_elem_of_nil|]. intros i d s Hi Hs.
    assert (E : s = "site_1" \/ s = "site_2").
    { repeat (apply lookup_insert_Some in Hi as [[_ <-]|[_ Hi]]; [cbn in Hs; unfold device_site, col in Hs; cbn in Hs; injection Hs as <-; auto|]).
      apply lookup_singleton_Some in Hi as [_ <-]. cbn in Hs. unfold device_site, col in Hs. cbn in Hs. injection Hs as <-; auto. }
    by destruct E as [-> | ->]; eexists.
  - by intros g d ?%not_elem_of_nil.
  - intros i j x y Hi Hj _ Hk. apply lookup_insert_Some in Hi as [[<- <-]|[_ Hi]]; apply lookup_insert_Some in Hj as [[<- <-]|[_ Hj]];
      try apply lookup_singleton_Some in Hi as [<- <-]; try apply lookup_singleton_Some in Hj as [<- <-]; done.
Qed.
Definition edit (source : string) : form := [("display_name", "Reading lamp"); ("site_id", "site_1"); ("power_source_device_id", source)].
Definition depot0 : depot :=
  Depot ∅ {["fwr_1" := FirmwareRelease "1.3.0" "stable" "r.bin" "u" "h" 4 None None 1]} [] ∅ [] 0.
Definition w0 : works := (depot0, e0).
Definition w1 : works := (handle_it (UpdateForm "dev_lamp" (edit "dev_router")) admin 5 6 w0).2.
Lemma device_pages_keep_the_estate_witness : estate_ok no_repr w1.2.
Proof.
  destruct (device_pages_keep_the_estate pretty no_text no_env no_repr no_json accepts any_device None
              (UpdateForm "dev_lamp" (edit "dev_router")) admin 5 6 w0 e0_ok) as [H _]. exact H.
Defined.

(** The lamp gets the router's plug; the strip of the other site is not offered. *)
Definition source_of (id : string) (e : estate) : option string := hub_devices (es_hub e) !! id ≫= power_source.
Example other_site_is_dropped :
  (source_of "dev_lamp" w1.2, source_of "dev_lamp" (handle_it (UpdateForm "dev_lamp" (edit "dev_strip")) admin 5 6 w0).2.2) =
  (Some "dev_router", None).
Proof. vm_compute. reflexivity. Qed.
(** Moved to the other site in the same form, the lamp is fed from the site it left. *)
Definition move : form := [("site_id", "site_2"); ("power_source_device_id", "dev_router")].
Example moved_away_from_its_source :
  let e := (handle_it (UpdateForm "dev_lamp" move) admin 5 6 w0).2.2 in
  (hub_devices (es_hub e) !! "dev_lamp" ≫= device_site, source_of "dev_lamp" e) = (Some "site_2", Some "dev_router").
Proof. vm_compute. reflexivity. Qed.
Definition update_it := device_update_submit pretty no_text no_env no_repr accepts any_device None.
Definition lamp1 : device := default (on "site_1" false) (hub_devices (es_hub w1.2) !! "dev_lamp").
Lemma power_source_is_offered_witness : offered no_env no_repr admin "dev_lamp" (on "site_1" false) 5 e0 "dev_router".
Proof.
  assert (H0 : hub_devices (es_hub e0) !! "dev_lamp" = Some (on "site_1" false)) by (vm_compute; reflexivity).
  assert (H1 : hub_devices (es_hub (update_it admin "dev_lamp" (edit "dev_router") 5 5 6 e0).2) !! "dev_lamp" = Some lamp1)
    by (vm_compute; reflexivity).
  assert (Hl : power_source lamp1 = Some "dev_router") by (vm_compute; reflexivity).
  destruct (power_source_is_offered pretty no_text no_env no_repr no_json accepts any_device None admin "dev_lamp" (edit "dev_router") 5 5 6
              e0 (on "site_1" false) lamp1 H0 H1) as (H & _). rewrite Hl in H. destruct H as [H|[H|(p & Hp & H)]].
  - vm_compute in H. discriminate.
  - discriminate.
  - injection Hp as <-. exact H.
Defined.

(** The button: the lamp is behind, and not once it is there. *)
Example upgraded_once :
  let w := (handle_it (UpgradeForm "dev_lamp") admin 7 8 w0).2 in
  (as_device_id <$> de_assignments w.1, length (es_audit w.2)) = (["dev_lamp"], 1%nat).
Proof. vm_compute. reflexivity. Qed.

(** A viewer switches the protected plug of the router off. *)
Definition off : form := [("type", "relay_off"); ("override_lockout", "1")].
Definition send_it := device_send_command pretty accepts None.
Lemma command_page_is_exact_witness :
  queued_by_page accepts admin "dev_router" off 8 e0 (send_it admin "dev_router" off 7 8 e0).2.
Proof.
  pose proof (command_page_is_exact pretty accepts None admin "dev_router" off 7 8 e0 eq_refl) as H. cbv zeta in H.
  assert (Hb : (send_it admin "dev_router" off 7 8 e0).1 = Ret Back) by (vm_compute; reflexivity).
  unfold send_it in *. destruct (DevicePages.device_send_command _ _ _ _ _ _ _ _ _) as [r e']. cbn [fst snd] in *. subst r.
  destruct H as (_ & d & Hd & [[(_ & _ & Hl) _]|[_ H]]); [by vm_compute in Hl|exact H].
Defined.
Definition viewer : account := Account "v@example.org" "h" "V" true false false ROLE_VIEWER 0 0 0 None.
Definition people : idb := Idb {["usr_v" := viewer]} ∅ ∅ ∅ ∅ ∅ ∅ ∅ (RbacDb [] ∅ ∅ ∅ []) ∅ 0.
Definition rq : request := Request (Cookie (Some "usr_v") None None None) EmptyString.
Definition switch : command_body := CommandBody (JStr "relay_off") None None (JBool true) JNull JNull JNull.
Lemma viewers_command_every_device_witness :
  (exists o w', serve_device pretty no_text no_env no_repr no_json accepts any_device None no_jwt Enforce (CommandForm "dev_router" off)
     rq 7 8 people w0 = (Ret Back, w') /\ op_id o = "usr_v" /\ queued_by_page accepts o "dev_router" off 8 e0 w'.2) /\
  serve pretty no_text no_env no_repr no_json accepts any_device None no_jwt Enforce (DeviceCommand "dev_router" switch) rq 7 8 people e0 =
    (Ret (EstateEndpoints.Refused 403), e0).
Proof.
  apply (viewers_command_every_device pretty no_text no_env no_repr no_json accepts any_device None no_jwt Enforce rq 7 8 people w0
           "usr_v" viewer "dev_router" off (on "site_1" true) switch); vm_compute; reflexivity.
Defined.

Lemma bulk_delete_page_is_the_api_witness :
  let o := admin in
  (devices_bulk_delete_submit accepts None o (deletion_form ["dev_lamp"; "dev_router"; "dev_lamp"] false None None) 7 e0).2 =
  (devices_bulk_delete_api accepts None o (deletion_body ["dev_lamp"; "dev_router"; "dev_lamp"] false None None) 7 e0).2.
Proof. apply (bulk_delete_page_is_the_api pretty no_env no_json accepts None admin ["dev_lamp"; "dev_router"; "dev_lamp"] false None None 7 e0). repeat constructor. Defined.

(** A device that reboots often fills the rows the summary reads: the others are not shown. *)
Definition rebooted (id : string) (at_ : time) : device_event := DeviceEvent id "device.rebooted" at_ [].
Example one_restless_device_hides_the_rest :
  rb_device <$> recent_reboot_summary 3 (hours 24)
    (rebooted "dev_lamp" 1 :: ((fun n => rebooted "dev_router" (hours 1 + Z.of_nat n)) <$> seq 0 12)) (es_hub e0) = ["dev_router"].
Proof. vm_compute. reflexivity. Qed.
End Example.
