(* ===== verification/SsrfGuard.v ===== *)
(** * The outbound guard ([app/services/ssrf_guard.py])

    The classification of an address, the validation of a URL, the pinned
    connection and the request; and the escalation webhook
    ([app/services/webhook_delivery.py]) that goes through it.  The resolver and
    the HTTP library are arguments: the resolver answers with addresses, the
    library serves the request with the session the code sets up - the hosts it
    wants connections to, the sockets it opens, what comes back. *)

From Stdlib Require Import Ascii.
From S2P Require Import Prelude PyNet RuntimeSettings Notifications.
Local Open Scope string_scope.
Local Open Scope list_scope.
Local Open Scope Z_scope.

Definition MAX_RESPONSE_BYTES : Z := 64 * 1024.
Definition CGNAT_NETWORK : Z * Z := (dotted 100 64 0 0, 10).
Definition METADATA_IPS : list ip :=
  [V4 (dotted 169 254 169 254); V6 (hextets 0xfd00 0xec2 0 0 0 0 0 0x254) None].

(** [SSRFBlockedError]. *)
Definition SSRFBlockedError {A} (reason : string) : outcome A :=
  Raise (AppError "SSRFBlockedError" reason).

(** ** Addresses *)

(** [_normalize_ip]. *)
Definition normalize_ip (a : ip) : ip :=
  match a with
  | V4 _ => a
  | V6 n _ =>
    match ipv4_mapped n with
    | Some m => V4 m
    | None => match sixtofour n with Some m => V4 m | None => a end
    end
  end.

(** The refusal of an address, in the order of the tests. *)
Definition blocked_reason (a : ip) : option string :=
  if bool_decide (a ∈ METADATA_IPS) then Some "cloud metadata endpoint is blocked"
  else if is_unspecified a then Some "unspecified address is blocked"
  else if is_loopback a then Some "loopback address is blocked"
  else if is_link_local a then Some "link-local address is blocked"
  else if is_multicast a then Some "multicast address is blocked"
  else if is_reserved a then Some "reserved address is blocked"
  else if is_private a then Some "private address is blocked"
  else match a with
       | V4 n => if in_net 32 n CGNAT_NETWORK
                 then Some "CGNAT / shared address space is blocked" else None
       | V6 _ _ => None
       end.

(** [is_blocked_ip]: the reason when blocked. *)
Definition is_blocked_ip (ip_str : string) : option string :=
  match ip_address ip_str with
  | None => Some "not a valid IP address"
  | Some a => blocked_reason (normalize_ip a)
  end.

(** ** URLs *)

(** [socket.getaddrinfo]: addresses, [gaierror], or another exception. *)
Inductive resolution := Resolved (addrs : list string) | GaiError | ResolverRaises (e : exn).

Definition add_new (ips : list string) (addr : string) : list string :=
  let addr := (partition "%"%char addr).1.1 in
  if in_strs addr ips then ips else ips ++ [addr].

(** A socket: the address and the port it is connected to. *)
Abbreviation dial := (string * Z)%type.

(** A connection the library wants, to a host and a port; [_new_conn] of a connection class
    opens its socket. *)
Abbreviation wanted := (string * Z)%type.
Abbreviation conn_class := (wanted -> dial).
(** [pool_classes_by_scheme] of an adapter's pool manager: the connection class of a scheme. *)
Abbreviation adapter := (list (string * conn_class)).
(** What the code sets on a [requests.Session]. *)
Record session := Session { ss_trust_env : bool; ss_mounts : list (string * adapter) }.
Definition new_session : session := Session true [].
Definition set_trust_env (b : bool) (s : session) : session := Session b (ss_mounts s).
Definition mount (prefix : string) (a : adapter) (s : session) : session :=
  Session (ss_trust_env s) ((prefix, a) :: ss_mounts s).

(** [_pinned_new_conn]: the connection the library wants is to a host, the socket
    goes to the pinned address.  [_PinnedHTTPAdapter]: both schemes pinned. *)
Definition pinned_new_conn (pinned_ip : string) : conn_class := fun conn => (pinned_ip, conn.2).
Definition pinned_adapter (pinned_ip : string) : adapter :=
  [("http", pinned_new_conn pinned_ip); ("https", pinned_new_conn pinned_ip)].

(** What the HTTP library does with a request, redirects included when they are
    followed: the sockets it opens, each for a connection under a scheme, and the answer (its
    status and the reader of its body) or an exception. *)
Record hop := Hop { hp_scheme : string; hp_wanted : wanted; hp_dial : dial }.
Inductive http_result :=
  | HttpAnswer (status : Z) (read : Z -> outcome string)
  | HttpRaises (e : exn).
Abbreviation http_library :=
  (session -> string -> json -> pydict -> string -> bool -> list hop * http_result).

(** The documented behaviour of the library the code relies on.  A session asks the adapter
    mounted last for the prefix of a URL's scheme, the adapter's pool manager makes connections
    of the class it has for the scheme, and a connection opens its socket by [_new_conn]; there
    is no adapter for other schemes.  A session that does not trust the environment uses no
    proxy of it. *)
Definition dialer (s : session) (scheme : string) : option conn_class :=
  '(_, a) ← List.find (fun m : string * adapter => String.eqb m.1 (String.append scheme "://")) (ss_mounts s);
  '(_, f) ← List.find (fun e : string * conn_class => String.eqb e.1 scheme) a;
  Some f.
Definition mounts_on (s : session) (hp : hop) : Prop :=
  hp_scheme hp ∈ ["http"; "https"] /\
  forall f, dialer s (hp_scheme hp) = Some f -> hp_dial hp = f (hp_wanted hp).
Definition uses_the_mounts (http : http_library) : Prop :=
  forall s method url headers body redirects,
    ss_trust_env s = false -> Forall (fun m => m.1 ∈ ["http://"; "https://"]) (ss_mounts s) ->
    Forall (mounts_on s) (http s method url headers body redirects).1.

Section guard.
Context (environ : string -> option string) (py_repr : json -> string)
        (getaddrinfo : string -> resolution).

(** [_resolve_all]. *)
Definition resolve_all (hostname : string) : outcome (list string) :=
  match getaddrinfo hostname with
  | GaiError => SSRFBlockedError "hostname does not resolve"
  | ResolverRaises e => Raise e
  | Resolved addrs =>
    match foldl add_new [] addrs with
    | [] => SSRFBlockedError "hostname resolved to no addresses"
    | ips => Ret ips
    end
  end.

(** [_http_allowed]. *)
Definition http_allowed (t : settings) : bool :=
  match setting_get environ "outbound.allow_http" (Some "REBOOTER_OUTBOUND_ALLOW_HTTP")
          (JStr "false") t with
  | Raise _ => false
  | Ret raw => in_strs (lower (strip (py_str py_repr raw))) ["1"; "true"; "yes"; "on"]
  end.

(** The first refusal among the candidates. *)
Fixpoint check_candidates (ips : list string) : outcome unit :=
  match ips with
  | [] => Ret tt
  | s :: rest => match is_blocked_ip s with
                 | Some reason => SSRFBlockedError reason
                 | None => check_candidates rest
                 end
  end.

(** [validate_url]: the host name, the pinned address and the port. *)
Definition validate_url (url : json) (allow_internal : bool) (t : settings)
    : outcome (string * string * Z) :=
  match url with
  | JStr u =>
    if is_empty u then SSRFBlockedError "empty or non-string URL" else
    '(scheme, netloc) ← urlsplit (strip u);
    if negb (in_strs scheme ["http"; "https"]) then SSRFBlockedError "unsupported URL scheme"
    else if String.eqb scheme "http" && negb allow_internal && negb (http_allowed t)
    then SSRFBlockedError "plain http:// is not allowed for outbound webhooks"
    else match hostname netloc with
    | None => SSRFBlockedError "URL has no hostname"
    | Some host =>
      p ← url_port netloc;
      let port := match p with
                  | Some n => if n =? 0 then if String.eqb scheme "https" then 443 else 80 else n
                  | None => if String.eqb scheme "https" then 443 else 80
                  end in
      candidates ← resolve_all host;
      _ ← (if allow_internal then Ret tt else check_candidates candidates);
      Ret (host, hd empty_str candidates, port)
    end
  | _ => SSRFBlockedError "empty or non-string URL"
  end.

(** ** The request *)

(** The session of a call: no proxy of the environment, both schemes pinned. *)
Definition pinned_session (pinned_ip : string) : session :=
  mount "https://" (pinned_adapter pinned_ip)
    (mount "http://" (pinned_adapter pinned_ip) (set_trust_env false new_session)).

(** [safe_request]: the result and the sockets opened. *)
Definition safe_request (http : http_library) (method : string) (url : json) (headers : pydict)
    (body : string) (allow_redirects allow_internal : bool) (max_response_bytes : Z) (t : settings)
    : outcome (Z * string) * list dial :=
  match validate_url url allow_internal t with
  | Raise e => (Raise e, [])
  | Ret (_, pinned_ip, _) =>
    let '(hops, res) := http (pinned_session pinned_ip) (upper method) url headers body allow_redirects in
    (match res with
     | HttpRaises e => Raise e
     | HttpAnswer status read =>
       body ← read (max_response_bytes + 1);
       Ret (status,
            if max_response_bytes <? Z.of_nat (String.length body)
            then str_take (Z.to_nat max_response_bytes) body else body)
     end,
     hp_dial <$> hops)
  end.

(** [safe_post]. *)
Definition safe_post (http : http_library) (url : json) (headers : pydict) (body : string)
    (allow_internal : bool) (t : settings) : outcome (Z * string) * list dial :=
  safe_request http "POST" url headers body false allow_internal MAX_RESPONSE_BYTES t.

(** The exchange of [send_one]: the call of [safe_request] and its [except] clauses.
    [decode] is [resp.text]. *)
Definition guarded_exchange (http : http_library) (decode : string -> string) (t : settings)
    (r : request) : response :=
  match (safe_request http (rq_method r) (rq_url r) (rq_headers r) (rq_body r) false false
           MAX_RESPONSE_BYTES t).1 with
  | Ret (status, body) => Answer status (Some (decode body))
  | Raise (AppError "SSRFBlockedError" reason) => SSRFBlocked reason
  | Raise e => Failure (exn_str e)
  end.

(** [send_escalation_webhook]. *)
Definition send_escalation_webhook (dumps : json -> string) (http : http_library)
    (rule_id : string) (url : json) (payload : json) (sent_at : string) (t : settings)
    : pydict * list dial :=
  let body := dumps (JObj [("event", JStr "watchdog.rule_escalated"); ("rule_id", JStr rule_id);
                           ("payload", jor payload (JObj [])); ("sent_at", JStr sent_at)]) in
  let base := [("rule_id", JStr rule_id); ("escalation", JStr "webhook")] in
  let '(res, dials) := safe_request http "POST" url [("Content-Type", JStr "application/json")]
                         body false false MAX_RESPONSE_BYTES t in
  (match res with
   | Ret (status, _) =>
     base ++ [("http_status", JInt status); ("ok", JBool ((200 <=? status) && (status <? 300)))]
   | Raise (AppError "SSRFBlockedError" reason) =>
     base ++ [("error", JStr (String.append "ssrf_blocked: " reason))]
   | Raise e => base ++ [("error", JStr (exn_str e))]
   end, dials).
End guard.

(** ** The public internet, as intervals

    An independent description of the addresses the guard lets through. *)

(** The closed intervals of IPv4 that are not public. *)
Definition NON_PUBLIC_V4 : list (Z * Z) :=
  [(dotted 0 0 0 0, dotted 0 255 255 255);          (* this network *)
   (dotted 10 0 0 0, dotted 10 255 255 255);        (* RFC 1918 *)
   (dotted 100 64 0 0, dotted 100 127 255 255);     (* RFC 6598 *)
   (dotted 127 0 0 0, dotted 127 255 255 255);      (* loopback *)
   (dotted 169 254 0 0, dotted 169 254 255 255);    (* link-local, metadata *)
   (dotted 172 16 0 0, dotted 172 31 255 255);      (* RFC 1918 *)
   (dotted 192 0 0 0, dotted 192 0 0 8);            (* IETF assignments *)
   (dotted 192 0 0 11, dotted 192 0 0 255);
   (dotted 192 0 2 0, dotted 192 0 2 255);          (* documentation *)
   (dotted 192 168 0 0, dotted 192 168 255 255);    (* RFC 1918 *)
   (dotted 198 18 0 0, dotted 198 19 255 255);      (* benchmarking *)
   (dotted 198 51 100 0, dotted 198 51 100 255);    (* documentation *)
   (dotted 203 0 113 0, dotted 203 0 113 255);      (* documentation *)
   (dotted 224 0 0 0, dotted 255 255 255 255)].     (* multicast, reserved *)
Fixpoint outside (n : Z) (l : list (Z * Z)) : Prop :=
  match l with [] => True | (lo, hi) :: l => (n < lo \/ hi < n) /\ outside n l end.
Definition public_v4 (n : Z) : Prop := outside n NON_PUBLIC_V4.

(** The part of [2000::/3] that is not public, with its public islands cut out. *)
Definition NON_PUBLIC_2000 : list (Z * Z) :=
  [(h1 0x2001, hextets 0x2001 1 0 0 0 0 0 0);
   (hextets 0x2001 1 0 0 0 0 0 3, h2 0x2001 3 - 1);
   (h2 0x2001 4, h3 0x2001 4 0x112 - 1);
   (h3 0x2001 4 0x113, h2 0x2001 0x20 - 1);
   (h2 0x2001 0x40, h2 0x2001 0x200 - 1);
   (h2 0x2001 0xdb8, h2 0x2001 0xdb9 - 1);          (* documentation *)
   (h1 0x3fff, h2 0x3fff 0x1000 - 1)].              (* documentation *)
Definition global_unicast (n : Z) : Prop := h1 0x2000 <= n < h1 0x4000 /\ outside n NON_PUBLIC_2000.
(** [fec0::/10], the deprecated site-local block. *)
Definition site_local (n : Z) : Prop := h1 0xfec0 <= n < h1 0xff00.

(** The IPv4 address inside an IPv4-mapped or a 6to4 address. *)
Definition embedded_v4 (n : Z) : option Z :=
  if n / 2 ^ 32 =? 65535 then Some (n mod 2 ^ 32)
  else if n / 2 ^ 112 =? 0x2002 then Some ((n / 2 ^ 80) mod 2 ^ 32) else None.

(** A public address; one of the site-local block, not public, which the filter lets through. *)
Definition public (a : ip) : Prop :=
  match a with
  | V4 n => public_v4 n
  | V6 n _ => match embedded_v4 n with Some m => public_v4 m | None => global_unicast n end
  end.
Definition is_site_local (a : ip) : Prop :=
  match a with V4 _ => False | V6 n _ => embedded_v4 n = None /\ site_local n end.
Definition let_through (a : ip) : Prop := public a \/ is_site_local a.

(** ** The classification is exact *)

(** The intervals of networks of [w]-bit addresses. *)
Definition intervals (w : Z) (nets : list (Z * Z)) : list (Z * Z) :=
  (fun net => (net.1, net.1 + 2 ^ (w - net.2) - 1)) <$> nets.
Definition aligned (w : Z) (net : Z * Z) : bool :=
  (0 <=? net.2) && (net.2 <=? w) && (net.1 mod 2 ^ (w - net.2) =? 0).

Lemma in_nets_outside w n nets :
  0 <= n < 2 ^ w -> forallb (aligned w) nets = true ->
  in_nets w n nets = false <-> outside n (intervals w nets).
Proof.
  intros Hn. unfold in_nets, intervals.
  induction nets as [|[a p] nets IH]; intros Ha; cbn [forallb existsb fmap list_fmap].
  { done. }
  cbn [forallb] in Ha. apply andb_prop in Ha as [Ha Hr]. unfold aligned in Ha. bool_to_prop.
  cbn [fst snd] in *. rewrite orb_false_iff, (IH Hr). cbn [outside fst snd].
  rewrite <- not_true_iff_false, in_net_interval by lia. split; intros [? ?]; split; auto; lia.
Qed.

Lemma in_net_outside w n net :
  0 <= n < 2 ^ w -> aligned w net = true ->
  in_net w n net = false <-> outside n (intervals w [net]).
Proof.
  intros Hn Ha. rewrite <- in_nets_outside by (done || cbn; by rewrite Ha).
  cbn. by rewrite orb_false_r.
Qed.

Lemma in_exceptions w n nets :
  0 <= n < 2 ^ w -> forallb (aligned w) nets = true ->
  negb (in_nets w n nets) = false <-> ~ outside n (intervals w nets).
Proof.
  intros Hn Ha. rewrite <- in_nets_outside by done. by destruct (in_nets w n nets).
Qed.

(** Networks as intervals of numerals. *)
Ltac eval_outside :=
  repeat match goal with
  | |- context [outside ?n ?l] =>
    let l' := eval vm_compute in l in
    let E := fresh in
    assert (E : l = l') by (vm_compute; reflexivity); rewrite ?E in *; clear E;
    progress cbn [outside]
  | H : context [outside ?n ?l] |- _ =>
    let l' := eval vm_compute in l in
    let E := fresh in
    assert (E : l = l') by (vm_compute; reflexivity); rewrite ?E in *; clear E;
    progress cbn [outside] in H
  end.

(** The leading hextets as numerals. *)
Ltac eval_consts :=
  repeat match goal with
  | |- context [hextets ?a ?b ?c ?d ?e ?f ?g ?h] =>
    let v := eval vm_compute in (hextets a b c d e f g h) in
    change (hextets a b c d e f g h) with v
  | |- context [h1 ?a] => let v := eval vm_compute in (h1 a) in change (h1 a) with v
  | H : context [h1 ?a] |- _ => let v := eval vm_compute in (h1 a) in change (h1 a) with v in H
  end.

Lemma blocked_none (b : bool) (r : string) (x : option string) :
  (if b then Some r else x) = None <-> b = false /\ x = None.
Proof. destruct b; naive_solver. Qed.

Lemma no_reason : @None string = None <-> True.
Proof. done. Qed.

Lemma metadata_v4 n : bool_decide (V4 n ∈ METADATA_IPS) = false <-> n <> dotted 169 254 169 254.
Proof.
  rewrite bool_decide_eq_false. unfold METADATA_IPS.
  rewrite !not_elem_of_cons. split; [intros [? _]; congruence|].
  intros. split; [congruence|]. split; [done|]. apply not_elem_of_nil.
Qed.

Lemma v4_private_false n : 0 <= n < 2 ^ 32 ->
  v4_private n = false <->
  outside n (intervals 32 V4_PRIVATE) \/ ~ outside n (intervals 32 V4_PRIVATE_EXCEPT).
Proof.
  intros Hn. unfold v4_private.
  rewrite andb_false_iff, in_nets_outside, in_exceptions by done. done.
Qed.

Lemma v4_let_through n : 0 <= n < 2 ^ 32 -> blocked_reason (V4 n) = None <-> public_v4 n.
Proof.
  intros Hn. unfold blocked_reason. rewrite !blocked_none, no_reason, metadata_v4.
  cbn [is_unspecified is_loopback is_link_local is_multicast is_reserved is_private].
  rewrite !in_net_outside, v4_private_false, Z.eqb_neq by done.
  unfold public_v4. eval_outside.
  change (dotted 169 254 169 254) with 2852039166. lia.
Qed.

Lemma normalize_v6 n scope : 0 <= n < 2 ^ 128 ->
  normalize_ip (V6 n scope) =
  match embedded_v4 n with Some m => V4 m | None => V6 n scope end.
Proof.
  intros Hn. unfold normalize_ip, ipv4_mapped, sixtofour, embedded_v4.
  rewrite !Z.shiftr_div_pow2, !Z.land_ones by lia.
  destruct (n / 2 ^ 32 =? 65535); [done|]. by destruct (n / 2 ^ 112 =? 0x2002).
Qed.

Lemma embedded_valid n m : embedded_v4 n = Some m -> 0 <= m < 2 ^ 32.
Proof. unfold embedded_v4. intros H. repeat case_match; simplify_eq; apply Z.mod_pos_bound; lia. Qed.

Lemma not_embedded n : 0 <= n < 2 ^ 128 -> embedded_v4 n = None ->
  ipv4_mapped n = None /\ (n < h1 0x2002 \/ h1 0x2003 <= n).
Proof.
  intros Hn. unfold embedded_v4, ipv4_mapped. rewrite Z.shiftr_div_pow2 by lia.
  destruct (n / 2 ^ 32 =? 65535); [done|].
  destruct (n / 2 ^ 112 =? 0x2002) eqn:E; [done|]. intros _. split; [done|].
  apply Z.eqb_neq in E. unfold h1, hextets.
  assert (~ (0x2002 * 2 ^ 112 <= n < 0x2003 * 2 ^ 112)); [|lia].
  intros Hb. apply E. symmetry. apply (Z.div_unique_pos n (2 ^ 112) 0x2002 (n - 0x2002 * 2 ^ 112)); lia.
Qed.

(** Outside the reserved blocks: the global unicast block, or from [fc00::]. *)
Lemma v6_unreserved n : 0 <= n < 2 ^ 128 ->
  is_reserved (V6 n None) = false <->
  h1 0x2000 <= n < h1 0x4000 \/ h1 0xfc00 <= n < h1 0xfe00 \/ h1 0xfe80 <= n.
Proof.
  intros Hn. cbn [is_reserved]. rewrite in_nets_outside by done. eval_outside.
  eval_consts. lia.
Qed.

Lemma metadata_v6 n scope :
  bool_decide (V6 n scope ∈ METADATA_IPS) = true -> n = hextets 0xfd00 0xec2 0 0 0 0 0 0x254.
Proof.
  rewrite bool_decide_eq_true. unfold METADATA_IPS. rewrite !elem_of_cons.
  intros [[=]|[[= ->]|H]]; [done|]. by apply elem_of_nil in H.
Qed.

Lemma v6_private_false n : 0 <= n < 2 ^ 128 -> ipv4_mapped n = None ->
  is_private (V6 n None) = false <->
  outside n (intervals 128 V6_PRIVATE) \/ ~ outside n (intervals 128 V6_PRIVATE_EXCEPT).
Proof.
  intros Hn Hm. cbn [is_private]. rewrite Hm.
  rewrite andb_false_iff, in_nets_outside, in_exceptions by done. done.
Qed.

(** In the global unicast block, the private networks are the listed intervals. *)
Lemma unicast_private n : h1 0x2000 <= n < h1 0x4000 -> n < h1 0x2002 \/ h1 0x2003 <= n ->
  outside n (intervals 128 V6_PRIVATE) \/ ~ outside n (intervals 128 V6_PRIVATE_EXCEPT) <->
  outside n NON_PUBLIC_2000.
Proof. intros H1 H2. eval_outside. eval_consts. lia. Qed.

(** Above it, what is neither private nor link-local nor multicast is site-local. *)
Lemma upper_private n : h1 0xfc00 <= n < h1 0xfe00 \/ h1 0xfe80 <= n -> 0 <= n < 2 ^ 128 ->
  outside n (intervals 128 [(h1 0xfe80, 10)]) /\ outside n (intervals 128 [(h1 0xff00, 8)]) /\
  (outside n (intervals 128 V6_PRIVATE) \/ ~ outside n (intervals 128 V6_PRIVATE_EXCEPT)) <->
  site_local n.
Proof. intros H1 H2. unfold site_local. eval_outside. eval_consts. lia. Qed.

Lemma v6_let_through n scope : 0 <= n < 2 ^ 128 -> embedded_v4 n = None ->
  blocked_reason (V6 n scope) = None <-> global_unicast n \/ site_local n.
Proof.
  intros Hn He. apply not_embedded in He as [Hm H6]; [|done].
  unfold blocked_reason. rewrite !blocked_none, no_reason.
  change (is_reserved (V6 n scope)) with (is_reserved (V6 n None)).
  change (is_private (V6 n scope)) with (is_private (V6 n None)).
  rewrite v6_unreserved, v6_private_false by done.
  cbn [is_unspecified is_loopback is_link_local is_multicast].
  rewrite !in_net_outside, !Z.eqb_neq by done. unfold global_unicast.
  set (priv := outside n (intervals 128 V6_PRIVATE) \/ _).
  assert (Hreg : h1 0x2000 <= n < h1 0x4000 -> priv <-> outside n NON_PUBLIC_2000)
    by (intros; by apply unicast_private).
  assert (Hup : h1 0xfc00 <= n < h1 0xfe00 \/ h1 0xfe80 <= n ->
    outside n (intervals 128 [(h1 0xfe80, 10)]) /\ outside n (intervals 128 [(h1 0xff00, 8)]) /\ priv
      <-> site_local n) by (intros; by apply upper_private).
  assert (Hmeta : bool_decide (V6 n scope ∈ METADATA_IPS) = true -> ~ site_local n /\ ~ n < h1 0x4000).
  { intros ->%metadata_v6. unfold site_local. eval_consts. lia. }
  generalize dependent (outside n NON_PUBLIC_2000). intros unicast Hreg.
  clearbody priv. split.
  - intros (_ & _ & _ & Hll & Hmc & [Hr|Hr] & Hp & _); [left; by split; [|apply Hreg]|].
    right. apply Hup; auto.
  - intros Hor.
    assert (Hb : bool_decide (V6 n scope ∈ METADATA_IPS) = false).
    { destruct (bool_decide _); [|done]. destruct (Hmeta eq_refl).
      destruct Hor as [[[_ ?] _]|?]; [lia|done]. }
    destruct Hor as [[Hr Hu]|Hs].
    + clear Hup Hmeta. apply Hreg in Hu; [|done]. eval_outside. eval_consts.
      repeat split; auto; lia.
    + clear Hreg Hmeta.
      assert (Hr : h1 0xfc00 <= n < h1 0xfe00 \/ h1 0xfe80 <= n)
        by (unfold site_local in Hs; eval_consts; lia).
      destruct (Hup Hr) as [_ Hx]. destruct (Hx Hs) as (Hll & Hmc & Hp). clear Hup Hx.
      eval_outside. eval_consts. repeat split; auto; lia.
Qed.

Lemma filter_exact (a : ip) :
  valid_ip a -> blocked_reason (normalize_ip a) = None <-> let_through a.
Proof.
  unfold let_through. destruct a as [n|n scope]; cbn [valid_ip public is_site_local].
  - intros Hn. change (normalize_ip (V4 n)) with (V4 n). rewrite v4_let_through by done. tauto.
  - intros Hn. rewrite normalize_v6 by done. destruct (embedded_v4 n) as [m|] eqn:E.
    + rewrite v4_let_through by (by eapply embedded_valid). split; [tauto|]. by intros [?|[? _]].
    + rewrite v6_let_through by done. tauto.
Qed.

(** ** The request *)

Section requests.
Context (environ : string -> option string) (py_repr : json -> string)
        (getaddrinfo : string -> resolution).
Notation resolve_all := (resolve_all getaddrinfo).
Notation validate_url := (validate_url environ py_repr getaddrinfo).
Notation safe_request := (safe_request environ py_repr getaddrinfo).
Notation guarded_exchange := (guarded_exchange environ py_repr getaddrinfo).

(** The address in an answer of the resolver, without its scope. *)
Definition scopeless (addr : string) : string := (partition "%"%char addr).1.1.

Lemma add_new_elems addrs : forall acc s,
  s ∈ foldl add_new acc addrs <-> s ∈ acc \/ s ∈ scopeless <$> addrs.
Proof.
  induction addrs as [|x addrs IH]; intros acc s; cbn.
  { rewrite elem_of_nil. tauto. }
  rewrite IH, elem_of_cons. unfold add_new. fold (scopeless x).
  destruct (in_strs (scopeless x) acc) eqn:E.
  - apply in_strs_spec in E. split; [tauto|]. intros [?|[->|?]]; auto.
  - rewrite elem_of_app, list_elem_of_singleton. tauto.
Qed.

Lemma check_candidates_all ips :
  check_candidates ips = Ret tt -> Forall (fun s => is_blocked_ip s = None) ips.
Proof.
  induction ips as [|s ips IH]; cbn; [constructor|].
  destruct (is_blocked_ip s) eqn:E; [done|]. constructor; auto.
Qed.

(** A valid URL: the pinned address is the first answer of the resolver for its host,
    and every answer passes the filter. *)
Lemma validate_url_pins url t host pinned port :
  validate_url url false t = Ret (host, pinned, port) ->
  exists addrs, getaddrinfo host = Resolved addrs /\ pinned ∈ scopeless <$> addrs /\
    Forall (fun x => is_blocked_ip x = None) (scopeless <$> addrs).
Proof.
  unfold validate_url. destruct url as [| | | |u| |]; try done.
  destruct (is_empty u); [done|]. intros H. apply bind_ret in H as ([scheme netloc] & _ & H).
  destruct (negb _); [done|]. destruct (_ && _); [done|].
  destruct (hostname netloc) as [h|]; [|done].
  peel H. peel H. peel H. injection H as -> <- _.
  unfold resolve_all in Hx0. destruct (getaddrinfo host) as [addrs| |] eqn:E; try done.
  exists addrs. split; [done|].
  destruct (foldl add_new [] addrs) as [|p ps] eqn:Ef; [done|]. injection Hx0 as <-.
  assert (Hall : forall s, s ∈ p :: ps <-> s ∈ scopeless <$> addrs).
  { intros s. rewrite <- Ef, add_new_elems, elem_of_nil. tauto. }
  destruct x1. apply check_candidates_all in Hx1. split; [apply Hall; left|].
  rewrite Forall_forall in *. intros s Hs. by apply Hx1, Hall.
Qed.

(** An address text the filter accepts. *)
Definition accepted_text (s : string) : Prop :=
  exists a, ip_address s = Some a /\ (public a \/ is_site_local a).
Lemma unblocked_is_accepted s : is_blocked_ip s = None -> accepted_text s.
Proof.
  unfold is_blocked_ip. destruct (ip_address s) as [a|] eqn:E; [|done]. exists a. split; [done|].
  apply filter_exact; [by apply (ip_address_valid s)|done].
Qed.

Lemma str_take_length n : forall s, (String.length (str_take n s) <= n)%nat.
Proof. induction n as [|n IH]; intros [|a s]; cbn; try lia. specialize (IH s). lia. Qed.

(** The session of a call dials the pinned address, whatever the library asks of it. *)
Lemma dials_pinned http pinned method url headers body redirects : uses_the_mounts http ->
  Forall (fun d => d.1 = pinned) (hp_dial <$> (http (pinned_session pinned) method url headers body redirects).1).
Proof.
  intros Hlaw. apply Forall_fmap. eapply Forall_impl; [apply Hlaw; [done|]|].
  - repeat constructor; set_solver.
  - intros [scheme conn d] [Hs Hd]. cbn in Hs |- *. specialize (Hd (pinned_new_conn pinned)). cbn in Hd.
    rewrite Hd; [done|]. apply elem_of_cons in Hs as [->|Hs]; [reflexivity|].
    by apply list_elem_of_singleton in Hs as ->.
Qed.

(** C31. An outbound request stays on the public internet.  Whatever the URL and whatever the
    hosts the HTTP library wants connections to while it serves the request (a redirect, to the
    other scheme too, a second resolution of the name that answers differently), every socket
    it opens through the session of the call goes to one address; it is one of the addresses
    the resolver gave when the URL was validated, and each of those denotes a public address -
    or one of the site-local block [fec0::/10], which the filter lets through.  A refused URL
    opens no socket.  The body handed back never exceeds the cap. *)
Theorem requests_stay_on_the_public_internet http method url headers body redirects max t :
  uses_the_mounts http -> 0 <= max ->
  let '(res, dials) := safe_request http method url headers body redirects false max t in
  (dials = [] \/
   exists host addrs pinned,
     getaddrinfo host = Resolved addrs /\ pinned ∈ scopeless <$> addrs /\
     Forall accepted_text (scopeless <$> addrs) /\ Forall (fun d => d.1 = pinned) dials) /\
  match validate_url url false t with Raise e => res = Raise e /\ dials = [] | Ret _ => True end /\
  match res with Ret (_, b) => Z.of_nat (String.length b) <= max | Raise _ => True end.
Proof.
  intros Hlaw Hmax. unfold SsrfGuard.safe_request.
  destruct (validate_url url false t) as [[[host pinned] port]|e] eqn:E; [|by auto].
  apply validate_url_pins in E as (addrs & Hr & Hp & Hall).
  pose proof (dials_pinned http pinned (upper method) url headers body redirects Hlaw) as Hd.
  destruct (http _ _ _ _ _ _) as [hops result].
  split; [right; exists host, addrs, pinned|split; [done|]].
  - split_and!; [done|done| |done]. eapply Forall_impl; [exact Hall|]. apply unblocked_is_accepted.
  - destruct result as [status read|e]; [|done]. destruct (read (max + 1)) as [b|e]; cbn; [|done].
    destruct (max <? _) eqn:El; bool_to_prop; [|done].
    pose proof (str_take_length (Z.to_nat max) b). lia.
Qed.

(** ** Refusals and the delivery queue *)

Context (dumps : json -> string) (urlencode : pydict -> string) (to_str : json -> string)
        (hmac_hex : string -> string -> string) (sent_at : time -> string).
Notation attempt := (attempt dumps urlencode to_str hmac_hex sent_at).
Notation signed_request := (signed_request dumps urlencode to_str hmac_hex sent_at).

Lemma url_port_raises netloc e : url_port netloc = Raise e -> exists m, e = ValueError m.
Proof. unfold url_port. intros H. repeat case_match; simplify_eq; eauto. Qed.

(** An [https] URL with a host. *)
Definition https_url (url : json) (netloc host : string) : Prop :=
  exists u, url = JStr u /\ is_empty u = false /\ urlsplit (strip u) = Ret ("https", netloc) /\
    hostname netloc = Some host.

Lemma validate_https url netloc host t : https_url url netloc host ->
  validate_url url false t =
  (p ← url_port netloc;
   candidates ← resolve_all host;
   _ ← check_candidates candidates;
   Ret (host, hd empty_str candidates,
        match p with Some n => if n =? 0 then 443 else n | None => 443 end)).
Proof.
  intros (u & -> & Hu & Hs & Hh). unfold SsrfGuard.validate_url. rewrite Hu, Hs. cbn.
  by rewrite Hh.
Qed.

(** Which refusals end a delivery.  When the resolver fails, even for a moment, the
    guard raises [SSRFBlockedError] and the attempt marks the delivery dead: the first
    resolution failure is final, whatever number of attempts is left.  A URL whose port is not
    a port number raises [ValueError] instead, and that delivery, which can never succeed, is
    scheduled again while attempts are left. *)
Theorem resolver_failure_is_final http decode t c t0 t1 d r netloc host :
  signed_request c d t0 = Ret r -> https_url (rq_url r) netloc host ->
  let d' := attempt (guarded_exchange http decode t) c t0 t1 d in
  match url_port netloc with
  | Ret _ => getaddrinfo host = GaiError ->
             de_status d' = DELIVERY_DEAD /\ de_next_attempt_at d' = None
  | Raise _ => de_attempts d < MAX_ATTEMPTS ->
               de_status d' = DELIVERY_FAILED /\
               de_next_attempt_at d' = Some (t1 + backoff_delay (de_attempts d))
  end.
Proof.
  intros Hsig Hurl. unfold attempt. rewrite Hsig. unfold SsrfGuard.guarded_exchange, SsrfGuard.safe_request.
  rewrite (validate_https _ netloc host) by done.
  destruct (url_port netloc) as [p|e] eqn:Ep; cbn.
  - intros Hg. unfold resolve_all. by rewrite Hg.
  - intros Ha. apply url_port_raises in Ep as [m ->]. cbn.
    unfold schedule_retry_or_dead. by rewrite (proj2 (Z.leb_gt _ _) Ha).
Qed.
End requests.

(** The address filter is exact.  For a valid IPv4 address it refuses
    precisely the listed intervals: RFC 1918, loopback, link-local with the metadata
    endpoint, RFC 6598, documentation, benchmarking, IETF assignments, multicast and reserved.
    An IPv4-mapped or 6to4 IPv6 address has the verdict of the address it carries, so that
    wrapping a private address changes nothing; and of the other IPv6 addresses exactly the
    public part of [2000::/3] passes - and [fec0::/10], the site-local block, which the
    predicates of the standard library used here leave out. *)
Theorem address_filter_is_exact (a : ip) :
  valid_ip a ->
  blocked_reason (normalize_ip a) = None <-> let_through a.
Proof. apply filter_exact. Qed.

(** ** Examples *)
Module Example.

Definition no_env (_ : string) : option string := None.
Definition no_repr (_ : json) : string := empty_str.
(** One name with a public record, one with a public and a private record, and a
    resolver that is down for every other name. *)
Definition dns (host : string) : resolution :=
  if String.eqb host "hooks.example.com" then Resolved ["93.184.216.34"; "2606:2800:220::1"]
  else if String.eqb host "rebind.example.com" then Resolved ["93.184.216.34"; "10.0.0.5"]
  else GaiError.
(** A library that follows a redirect to a private address under the other scheme; a session
    that trusts the environment goes through a proxy. *)
Definition connect (s : session) (scheme : string) (conn : wanted) : hop :=
  Hop scheme conn (if ss_trust_env s then ("192.168.0.3", 3128) else default (fun c => c) (dialer s scheme) conn).
Definition redirecting : http_library := fun s _ _ _ _ _ =>
  ([connect s "https" ("hooks.example.com", 443); connect s "http" ("10.0.0.1", 80)],
   HttpAnswer 200 (fun _ => Ret "ok")).
Lemma redirecting_uses_the_mounts : uses_the_mounts redirecting.
Proof.
  intros s method url headers body redirects Ht _. unfold redirecting, connect. rewrite Ht.
  repeat constructor; cbn [hp_scheme hp_dial hp_wanted]; try set_solver; intros f ->; reflexivity.
Qed.
Definition request_to (u : string) :=
  safe_request no_env no_repr dns redirecting "post" (JStr u) [] "" false false 64 ∅.

Example pinned : request_to "https://hooks.example.com/x" =
  (Ret (200, "ok"), [("93.184.216.34", 443); ("93.184.216.34", 80)]).
Proof. vm_compute. reflexivity. Qed.
Example poisoned : request_to "https://rebind.example.com/x" =
  (SSRFBlockedError "private address is blocked", []).
Proof. vm_compute. reflexivity. Qed.
Example mapped : is_blocked_ip "::ffff:127.0.0.1" = Some "loopback address is blocked".
Proof. vm_compute. reflexivity. Qed.
Example site_local_passes : is_blocked_ip "fec0::1" = None.
Proof. vm_compute. reflexivity. Qed.

Lemma requests_stay_on_the_public_internet_witness :
  exists host addrs,
    dns host = Resolved addrs /\ "93.184.216.34" ∈ scopeless <$> addrs /\
    Forall accepted_text (scopeless <$> addrs).
Proof.
  pose proof (requests_stay_on_the_public_internet no_env no_repr dns redirecting "post"
    (JStr "https://hooks.example.com/x") [] "" false 64 ∅ redirecting_uses_the_mounts ltac:(lia)) as H.
  pose proof pinned as E. unfold request_to in E. rewrite E in H.
  destruct H as [[H|(host & addrs & ip & Hr & Hp & Ha & Hd)] _]; [discriminate H|].
  exists host, addrs. apply Forall_cons in Hd as [Hd _]. cbn [fst] in Hd. subst ip. split; [exact Hr|]. split; [exact Hp|exact Ha].
Defined.

(** A Slack channel whose name the resolver cannot look up just now, on the first attempt. *)
Definition channel_to (u : string) : channel :=
  Channel "slack" (JObj [("url", JStr u)]) None true None.
Definition first : delivery :=
  Delivery "whc" "watchdog.rule_fired" (JObj []) DELIVERY_PENDING 1 None None (Some 0) 0 None.
Definition text (_ : json) : string := "x".
Definition slack_request (u : string) : request :=
  Request "POST" (JStr u) json_header "{}".

Lemma resolver_failure_is_final_witness :
  de_status (attempt (fun _ => "{}") (fun _ => "") text (fun _ _ => "") (fun _ => "now")
    (guarded_exchange no_env no_repr dns redirecting (fun s => s) ∅)
    (channel_to "https://down.example.com/x") 10 11 first) = DELIVERY_DEAD.
Proof.
  refine (proj1 (resolver_failure_is_final no_env no_repr dns (fun _ => "{}") (fun _ => "") text
    (fun _ _ => "") (fun _ => "now") redirecting (fun s => s) ∅
    (channel_to "https://down.example.com/x") 10 11 first
    (slack_request "https://down.example.com/x") "down.example.com" "down.example.com" _ _ _)).
  - vm_compute. reflexivity.
  - exists "https://down.example.com/x". repeat split; vm_compute; reflexivity.
  - reflexivity.
Defined.

Lemma address_filter_is_exact_witness :
  let_through (V6 (hextets 0xfec0 0 0 0 0 0 0 1) None).
Proof.
  apply (proj1 (address_filter_is_exact (V6 (hextets 0xfec0 0 0 0 0 0 0 1) None)
    ltac:(split; [by vm_compute|by vm_compute]))).
  vm_compute. reflexivity.
Defined.
End Example.
