(* ===== verification/SyncModel.v ===== *)
(** * Multi-hub sync: tables and emission ([app/services/sync.py],
    [app/services/sync_emission.py], [app/models])

    The four syncable tables as rows of columns, the outbox every local mutation
    writes to, and the tombstones of the applier. *)

From stdpp Require Import pretty.
From S2P Require Import Prelude TenantScope.
Local Open Scope string_scope.
Local Open Scope list_scope.

(** ** Columns *)

(** A column value: a datetime, or any other JSON-serialisable value. *)
Inductive cell := Val (v : json) | Time (t : time).
#[export] Instance cell_eq_dec : EqDecision cell.
Proof. solve_decision. Defined.

Definition null : cell := Val JNull.

Inductive entity := Device | Site | Group | User.
#[export] Instance entity_eq_dec : EqDecision entity.
Proof. solve_decision. Defined.
Definition entity_code (e : entity) : nat :=
  match e with Device => 0 | Site => 1 | Group => 2 | User => 3 end.
Definition entity_of_code (n : nat) : entity :=
  match n with 0 => Device | 1 => Site | 2 => Group | _ => User end.
#[export] Instance entity_countable : Countable entity.
Proof. refine (inj_countable' entity_code entity_of_code _). by intros []. Defined.

(** A column: its name, whether it is a [DateTime], its default. *)
Inductive col_default := NoDefault | Const (v : json) | Now.
Record column := Column { co_name : string; co_datetime : bool; co_default : col_default }.

Definition device_columns : list column :=
  [Column "id" false NoDefault;
   Column "display_name" false (Const (JStr empty_str));
   Column "hardware_model" false NoDefault;
   Column "hardware_revision" false NoDefault;
   Column "firmware_version" false NoDefault;
   Column "mac_address" false NoDefault;
   Column "serial_number" false NoDefault;
   Column "local_ip" false NoDefault;
   Column "notes" false NoDefault;
   Column "site_id" false NoDefault;
   Column "central_management_enabled" false (Const (JBool true));
   Column "registration_state" false (Const (JStr "pending"));
   Column "capabilities" false (Const (JObj []));
   Column "last_heartbeat_at" true NoDefault;
   Column "last_seen_at" true NoDefault;
   Column "is_qa_fixture" false (Const (JBool false));
   Column "is_protected" false (Const (JBool false));
   Column "is_held_off" false (Const (JBool false));
   Column "power_source_device_id" false NoDefault;
   Column "last_known_relay_on" false NoDefault;
   Column "desired_config" false NoDefault;
   Column "desired_mode" false NoDefault;
   Column "last_reported_config" false NoDefault;
   Column "desired_config_updated_at" true NoDefault;
   Column "last_config_pushed_at" true NoDefault;
   Column "reported_recovery_mode" false NoDefault;
   Column "reported_auto_recovery_triggered" false NoDefault;
   Column "reported_last_known_good_restored" false NoDefault;
   Column "reported_consecutive_unhealthy_boots" false NoDefault;
   Column "reported_in_captive_portal" false NoDefault;
   Column "reported_central_enabled" false NoDefault;
   Column "reported_central_registered" false NoDefault;
   Column "reported_central_state" false NoDefault;
   Column "last_wifi_scan" false NoDefault;
   Column "last_wifi_scan_at" true NoDefault;
   Column "created_at" true Now;
   Column "updated_at" true Now].
Definition site_columns : list column :=
  [Column "organization_id" false NoDefault;
   Column "id" false NoDefault;
   Column "name" false NoDefault;
   Column "description" false NoDefault;
   Column "created_at" true Now;
   Column "updated_at" true Now].
Definition group_columns : list column :=
  [Column "organization_id" false NoDefault;
   Column "id" false NoDefault;
   Column "name" false NoDefault;
   Column "description" false NoDefault;
   Column "site_id" false NoDefault;
   Column "created_at" true Now;
   Column "updated_at" true Now].
Definition user_columns : list column :=
  [Column "id" false NoDefault;
   Column "email" false NoDefault;
   Column "password_hash" false NoDefault;
   Column "display_name" false (Const (JStr empty_str));
   Column "is_active" false (Const (JBool true));
   Column "is_admin" false (Const (JBool true));
   Column "is_super_admin" false (Const (JBool false));
   Column "role" false (Const (JStr "admin"));
   Column "tokens_valid_after" true Now;
   Column "created_at" true Now;
   Column "updated_at" true Now;
   Column "last_login_at" true NoDefault].

(** [model.__table__.columns]. *)
Definition columns (e : entity) : list column :=
  match e with
  | Device => device_columns | Site => site_columns
  | Group => group_columns | User => user_columns
  end.

(** [_SYNCABLE_MODELS] and [_MODEL_ENTITY_TYPE]. *)
Definition entity_type (e : entity) : string :=
  match e with Device => "device" | Site => "site" | Group => "group" | User => "user" end.
Definition syncable_model (t : string) : option entity :=
  find (fun e => String.eqb (entity_type e) t) [Device; Site; Group; User].

(** [issubclass(model, TenantScoped)]. *)
Definition tenant_scoped (e : entity) : bool :=
  match e with Site | Group => true | Device | User => false end.

(** [_NATURAL_KEY]. *)
Definition natural_key (e : entity) : option string :=
  match e with User => Some "email" | Site | Group => Some "name" | Device => None end.

(** A row; a column that is absent is NULL. *)
Abbreviation row := (gmap string cell).
Definition col (r : row) (c : string) : cell := default null (r !! c).

(** The organisation of a tenant-scoped row. *)
Definition org_of_row (r : row) : option string :=
  match col r "organization_id" with Val (JStr o) => Some o | _ => None end.

(** ** State *)

Record outbox_event := OutboxEvent {
  oe_seq : Z;
  oe_at : time;
  oe_event_type : string;
  oe_entity_type : string;
  oe_entity_id : string;
  oe_payload : pydict;
  oe_tombstone_for : option string;
  oe_scope_claims : option pydict
}.

Record tombstone := Tombstone {
  to_entity_type : string; to_created_at : time; to_from_seq : Z
}.
Record sync_state := SyncState {
  sy_rows : gmap (entity * string) row;
  sy_tombs : gmap string tombstone;
  sy_orgs : gmap string string;                  (* id -> slug *)
  sy_outbox : list outbox_event;                 (* by increasing seq *)
  sy_ulids : nat
}.
Definition with_rows (m : gmap (entity * string) row) (s : sync_state) : sync_state :=
  SyncState m (sy_tombs s) (sy_orgs s) (sy_outbox s) (sy_ulids s).
Definition with_tombs (m : gmap string tombstone) (s : sync_state) : sync_state :=
  SyncState (sy_rows s) m (sy_orgs s) (sy_outbox s) (sy_ulids s).
Definition with_outbox (l : list outbox_event) (s : sync_state) : sync_state :=
  SyncState (sy_rows s) (sy_tombs s) (sy_orgs s) l (sy_ulids s).

(** ** Emission *)
Section emission.
Context `{Clock : IsoClock}.

(** [entity_to_dict]. *)
Definition cell_to_json (c : cell) : json :=
  match c with Val v => v | Time t => JStr (isoformat t) end.
Definition entity_to_dict (e : entity) (r : row) : pydict :=
  (fun c => (co_name c, cell_to_json (col r (co_name c)))) <$> columns e.

(** [_scope_claims_for]: the lookup of the site runs on the connection, without
    the tenant filter. *)
Definition scope_claims_for (e : entity) (payload : pydict) (s : sync_state) : option pydict :=
  let org :=
    match e with
    | Site => dget payload "organization_id"
    | Device | Group =>
      match dget payload "site_id" with
      | JStr i => if is_empty i then JNull
                  else match sy_rows s !! (Site, i) with
                       | Some r => cell_to_json (col r "organization_id")
                       | None => JNull
                       end
      | _ => JNull
      end
    | User => JNull
    end in
  if truthy org then Some [("organization_id", org)] else None.

(** [_emit]: the next [seq] of the table. *)
Definition next_seq (s : sync_state) : Z :=
  match last (sy_outbox s) with Some e => oe_seq e + 1 | None => 1 end.
Definition emit (e : entity) (id verb : string) (payload : pydict) (tomb : option string)
    (now : time) (s : sync_state) : sync_state :=
  with_outbox (sy_outbox s ++
    [OutboxEvent (next_seq s) now (String.append (entity_type e) (String.append "." verb))
       (entity_type e) id payload tomb (scope_claims_for e payload s)]) s.

(** [_NON_EMITTING_COLUMNS]. *)
Definition non_emitting (e : entity) : list string :=
  match e with
  | Device => ["updated_at"; "last_heartbeat_at"; "firmware_version"; "local_ip";
               "last_reported_config"; "reported_recovery_mode";
               "reported_auto_recovery_triggered"; "reported_last_known_good_restored";
               "reported_consecutive_unhealthy_boots"; "reported_in_captive_portal";
               "reported_central_enabled"; "reported_central_registered";
               "reported_central_state"]
  | Site | Group => ["updated_at"]
  | User => ["updated_at"; "last_login_at"]
  end.

(** [has_changes()] on some column outside the ignored ones. *)
Definition config_changed (e : entity) (old new : row) : bool :=
  existsb (fun c => negb (in_strs (co_name c) (non_emitting e)) &&
                    negb (bool_decide (col old (co_name c) = col new (co_name c)))) (columns e).

(** [_after_insert], [_after_update], [_after_delete]. *)
Definition after_insert (suppressed : bool) (e : entity) (id : string) (r : row) (now : time)
    (s : sync_state) : sync_state :=
  if suppressed then s else emit e id "created" (entity_to_dict e r) None now s.
Definition after_update (suppressed : bool) (e : entity) (id : string) (old new : row) (now : time)
    (s : sync_state) : sync_state :=
  if suppressed then s
  else if config_changed e old new then emit e id "updated" (entity_to_dict e new) None now s
  else s.
Definition after_delete (suppressed : bool) (e : entity) (id : string) (now : time)
    (s : sync_state) : sync_state :=
  if suppressed then s
  else emit e id "deleted" [("deleted", JBool true)] (Some id) now s.

(** ** The ORM's writes

    [db_accepts] are the constraints the database checks at flush (types, NOT
    NULL, UNIQUE, foreign keys).  [org] is the active organisation and [mode] the
    isolation mode of the guard ([TenantScope]). *)
Context (db_accepts : gmap (entity * string) row -> bool).

(** The write guard on one row. *)
Definition guard_row (org : option string) (mode : enforce) (e : entity) (r : row) : outcome row :=
  if tenant_scoped e then
    match (guard_one org mode true
             (Flushed (entity_type e) true false true (org_of_row r)) []).1 with
    | Raise x => Raise x
    | Ret f => Ret (match fl_org f with
                    | Some o => <["organization_id" := Val (JStr o)]> r
                    | None => r
                    end)
    end
  else Ret r.

Definition check (m : gmap (entity * string) row) (s : sync_state) : outcome sync_state :=
  if db_accepts m then Ret (with_rows m s) else Raise (DBError "IntegrityError").

(** A new row: the columns not given take their defaults. *)
Definition fill_defaults (e : entity) (now : time) (given : row) : row :=
  foldr (fun c r =>
    <[co_name c := match given !! co_name c with
                   | Some v => v
                   | None => match co_default c with
                             | NoDefault => null
                             | Const v => Val v
                             | Now => Time now
                             end
                   end]> r) ∅ (columns e).

Definition orm_insert (suppressed : bool) (org : option string) (mode : enforce) (e : entity)
    (id : string) (given : row) (now : time) (s : sync_state) : outcome sync_state :=
  r ← guard_row org mode e (fill_defaults e now given);
  if bool_decide (sy_rows s !! (e, id) <> None) then Raise (DBError "UNIQUE")
  else s ← check (<[(e, id) := r]> (sy_rows s)) s;
       Ret (after_insert suppressed e id r now s).

Definition orm_update (suppressed : bool) (org : option string) (mode : enforce) (e : entity)
    (id : string) (old new : row) (now : time) (s : sync_state) : outcome sync_state :=
  r ← guard_row org mode e new;
  s ← check (<[(e, id) := r]> (sy_rows s)) s;
  Ret (after_update suppressed e id old r now s).

Definition orm_delete (suppressed : bool) (e : entity) (id : string) (now : time) (s : sync_state)
    : outcome sync_state :=
  s ← check (delete (e, id) (sy_rows s)) s;
  Ret (after_delete suppressed e id now s).
End emission.
