(* ===== verification/SyncApply.v ===== *)
(** * Multi-hub sync: the applier ([app/services/sync.py])

    One peer event applied to the local tables: organisation check, tombstones,
    reconciliation on the natural key, last-writer-wins.  The emission hooks are
    suppressed throughout. *)

From stdpp Require Import pretty.
From S2P Require Import Prelude TenantScope SyncModel.
Local Open Scope string_scope.
Local Open Scope list_scope.

(** An incoming event, as built from a peer's JSON.  The string columns are
    whatever the JSON holds; the database refuses to compare an id that is neither
    a string nor NULL. *)
Record event := Event {
  ev_seq : json;
  ev_at : json;
  ev_entity_type : json;
  ev_entity_id : json;
  ev_payload : json;
  ev_scope_claims : json;
  ev_tombstone_for : json
}.

Definition need_str (v : json) : outcome string :=
  match v with JStr s => Ret s | _ => Raise (DBError "type") end.

Definition nullable_str (v : json) : outcome (option string) :=
  match v with JStr s => Ret (Some s) | JNull => Ret None | _ => Raise (DBError "type") end.

Definition UnknownOrgError : exn := AppError "UnknownOrgError" "organization_id does not exist locally".

Section applier.
Context `{Clock : IsoClock}.
Context (db_accepts : gmap (entity * string) row -> bool).
Context (ulid : nat -> string).
(** What the database stores in a BIGINT column for a bound value, if it takes it. *)
Context (db_bigint : json -> option Z).

(** [is_tombstoned] and [add_tombstone]. *)
Definition is_tombstoned (s : sync_state) (id : string) : bool :=
  match sy_tombs s !! id with Some _ => true | None => false end.
Definition bigint (v : json) : outcome Z :=
  match db_bigint v with Some z => Ret z | None => Raise (DBError "bigint") end.
Definition add_tombstone (id ty : string) (seq : json) (now : time) (s : sync_state)
    : outcome sync_state :=
  if is_tombstoned s id then Ret s
  else q ← bigint seq; Ret (with_tombs (<[id := Tombstone ty now q]> (sy_tombs s)) s).

(** [_coerce_datetime]. *)
Definition coerce_datetime (v : json) : cell :=
  match v with
  | JStr i => match fromisoformat (replace_z i) with Some t => Time t | None => null end
  | v => Val v
  end.

(** [_as_utc]: a value that is not a datetime has no [tzinfo]. *)
Definition as_utc (c : cell) : outcome (option time) :=
  match c with
  | Time t => Ret (Some t)
  | Val JNull => Ret None
  | Val _ => Raise (AttributeError "tzinfo")
  end.

(** [a or b] on column values. *)
Definition cell_or (a b : cell) : cell :=
  match a with Time _ => a | Val v => if truthy v then a else b end.

(** [event_org_id]. *)
Definition event_org_id (ev : event) : outcome (option string) :=
  org ← jget (jor (ev_scope_claims ev) (JObj [])) "organization_id";
  Ret (match org with JStr o => if is_empty o then None else Some o | _ => None end).

(** [if name not in payload: continue; value = payload[name]] on any JSON. *)
Definition payload_lookup (p : json) (name : string) : outcome (option json) :=
  match p with
  | JObj d => Ret (dict_get d name)
  | JList l => if bool_decide (JStr name ∈ l) then Raise (TypeError "list indices") else Ret None
  | JStr s => match String.index 0 name s with
              | Some _ => Raise (TypeError "string indices")
              | None => Ret None
              end
  | _ => Raise (TypeError "not iterable")
  end.

(** The loop that builds [incoming]. *)
Definition incoming_step (p : json) (c : column) (acc : outcome row) : outcome row :=
  acc ← acc;
  v ← payload_lookup p (co_name c);
  Ret (match v with
       | None => acc
       | Some v => <[co_name c := if co_datetime c then coerce_datetime v else Val v]> acc
       end).
Definition incoming_of (e : entity) (p : json) : outcome row :=
  foldr (incoming_step p) (Ret ∅) (columns e).

(** What the tenant filter leaves visible of a row: [dec] is the decision for the
    event's context. *)
Definition sees (dec : read_decision) (e : entity) (r : row) : bool :=
  match dec with
  | Unfiltered => true
  | Filtered o => negb (tenant_scoped e) || bool_decide (org_of_row r = Some o)
  end.

(** [session.get(model, id)]. *)
Definition get_row (dec : read_decision) (e : entity) (id : string) (s : sync_state) : option row :=
  match sy_rows s !! (e, id) with
  | Some r => if sees dec e r then Some r else None
  | None => None
  end.

(** The ids of the visible rows of a model that satisfy a test, and the first of
    them ([session.scalar(select(...))]); the order of the query is open, any fixed
    one serves. *)
Definition ids_where (dec : read_decision) (e : entity) (p : row -> bool) (s : sync_state)
    : gset string :=
  list_to_set (omap (fun x : (entity * string) * row =>
    if bool_decide (x.1.1 = e) && sees dec e x.2 && p x.2 then Some x.1.2 else None)
    (map_to_list (sy_rows s))).
Definition first_where dec e p s : option string := head (elements (ids_where dec e p s)).

(** [resolve_default_org_id] ([bootstrap.py]). *)
Definition resolve_default_org_id (s : sync_state) : option string :=
  match head (map_to_list (filter (fun x : string * string => x.2 = "default") (sy_orgs s))) with
  | Some (o, _) => Some o
  | None => match map_to_list (sy_orgs s) with [(o, _)] => Some o | _ => None end
  end.

(** The context of an apply: the event's organisation, the isolation mode. *)
Definition decision (org : option string) (mode : enforce) : read_decision :=
  match org, mode with Some o, Enforce => Filtered o | _, _ => Unfiltered end.

(** [resolve_default_site_id] ([sites.py]), inside the applier.  Under [system()]
    ([org = None]) the guard does nothing. *)
Definition guard_org (org : option string) (mode : enforce) (e : entity) (r : row) : outcome row :=
  match org with None => Ret r | Some _ => guard_row org mode e r end.

Definition insert_row (org : option string) (mode : enforce) (e : entity) (id : string)
    (given : row) (now : time) (s : sync_state) : outcome sync_state :=
  r ← guard_org org mode e (fill_defaults e now given);
  if bool_decide (sy_rows s !! (e, id) <> None) then Raise (DBError "UNIQUE")
  else s ← check db_accepts (<[(e, id) := r]> (sy_rows s)) s;
       Ret (after_insert true e id r now s).

Definition update_row (org : option string) (mode : enforce) (e : entity) (id : string)
    (old new : row) (now : time) (s : sync_state) : outcome sync_state :=
  r ← guard_org org mode e new;
  s ← check db_accepts (<[(e, id) := r]> (sy_rows s)) s;
  Ret (after_update true e id old r now s).

Definition resolve_default_site_id (org : option string) (mode : enforce) (now : time)
    (s : sync_state) : outcome (string * sync_state) :=
  let dec := decision org mode in
  match first_where dec Site (fun r => bool_decide (col r "name" = Val (JStr "Default"))) s with
  | Some i => Ret (i, s)
  | None =>
    match elements (ids_where dec Site (fun _ => true) s) with
    | [i] => Ret (i, s)
    | _ =>
      match resolve_default_org_id s with
      | None => Raise (RuntimeError "resolve_default_site_id")
      | Some o =>
        let id := String.append "site_" (ulid (sy_ulids s)) in
        s ← insert_row org mode Site id
              (<["id" := Val (JStr id)]> (<["name" := Val (JStr "Default")]>
                (<["organization_id" := Val (JStr o)]> ∅))) now
              (SyncState (sy_rows s) (sy_tombs s) (sy_orgs s) (sy_outbox s) (S (sy_ulids s)));
        Ret (id, s)
      end
    end
  end.

(** The pin of (d): a tenant-scoped row belongs to the claimed organisation. *)
Definition pin_org (e : entity) (org : option string) (r : row) : row :=
  match org with
  | Some o => if tenant_scoped e then <["organization_id" := Val (JStr o)]> r else r
  | None => r
  end.

(** The remap of an unknown [site_id]. *)
Definition remap_site (e : entity) (org : option string) (mode : enforce) (now : time)
    (r : row) (s : sync_state) : outcome (row * sync_state) :=
  match e with
  | Device | Group =>
    match col r "site_id" with
    | Val v =>
      if truthy v then
        i ← need_str v;
        match get_row (decision org mode) Site i s with
        | Some _ => Ret (r, s)
        | None => '(d, s) ← resolve_default_site_id org mode now s;
                  Ret (<["site_id" := Val (JStr d)]> r, s)
        end
      else Ret (r, s)
    | Time _ => Ret (r, s)
    end
  | Site | User => Ret (r, s)
  end.

(** The row the event is about: by id, else by the natural key. *)
Definition get_by_id (dec : read_decision) (e : entity) (id : option string) (s : sync_state)
    : option string :=
  i ← id; _ ← get_row dec e i s; Some i.
Definition find_existing (dec : read_decision) (e : entity) (id : option string) (r : row)
    (s : sync_state) : option string :=
  match get_by_id dec e id s with
  | Some i => Some i
  | None =>
    match natural_key e with
    | Some k => if bool_decide (col r k = null) then None
                else first_where dec e (fun x => bool_decide (col x k = col r k)) s
    | None => None
    end
  end.

(** [incoming_updated <= existing_updated] when both exist. *)
Definition stale (incoming existing : option time) : bool :=
  match incoming, existing with Some a, Some b => (a <=? b)%Z | _, _ => false end.

(** [incoming.setdefault("id", event.entity_id)]. *)
Definition with_id (id : option string) (r : row) : row :=
  match r !! "id" with Some _ => r | None => <["id" := Val (ojson id)]> r end.

(** The upsert at the end of [_apply_outbox_event]. *)
Definition upsert (org : option string) (mode : enforce) (e : entity) (id : option string) (r : row)
    (updated : option time) (now : time) (s : sync_state) : outcome (bool * sync_state) :=
  match find_existing (decision org mode) e id r s with
  | None =>
    let r := with_id id r in
    match col r "id" with
    | Val (JStr i) => s ← insert_row org mode e i r now s; Ret (true, s)
    | _ => Raise (DBError "id")
    end
  | Some k =>
    let old := default ∅ (sy_rows s !! (e, k)) in
    existing_updated ← as_utc (col old "updated_at");
    if stale updated existing_updated then Ret (false, s)
    else s ← update_row org mode e k old (delete "id" r ∪ old) now s; Ret (true, s)
  end.

(** [_apply_outbox_event] and the flush; [org] is the verified organisation. *)
Definition apply_core (org : option string) (mode : enforce) (ev : event) (now : time)
    (s : sync_state) : outcome (bool * sync_state) :=
  id ← nullable_str (ev_entity_id ev);
  if match id with Some i => is_tombstoned s i | None => false end then Ret (false, s)
  else
    model ← match ev_entity_type ev with
            | JStr t => Ret (syncable_model t)
            | JList _ | JObj _ => Raise (TypeError "unhashable type")
            | _ => Ret None
            end;
    match model with
    | None => Ret (false, s)
    | Some e =>
      if truthy (ev_tombstone_for ev) then
        d ← need_str (ev_tombstone_for ev);
        s ← add_tombstone d (entity_type e) (jor (ev_seq ev) (JInt 0)) now s;
        match get_row (decision org mode) e d s with
        | Some _ => s ← orm_delete db_accepts true e d now s; Ret (true, s)
        | None => Ret (true, s)
        end
      else
        let payload := jor (ev_payload ev) (JObj []) in
        incoming ← incoming_of e payload;
        if bool_decide (incoming = ∅) then Ret (false, s)
        else
          '(incoming, s) ← remap_site e org mode now (pin_org e org incoming) s;
          u ← jget payload "updated_at";
          updated ← as_utc (cell_or (coerce_datetime u) (coerce_datetime (ev_at ev)));
          upsert org mode e id incoming updated now s
    end.

(** [apply_outbox_event]. *)
Definition apply_outbox_event (mode : enforce) (ev : event) (now : time) (s : sync_state)
    : outcome (bool * sync_state) :=
  org ← event_org_id ev;
  match org with
  | None => apply_core None mode ev now s
  | Some o =>
    if bool_decide (sy_orgs s !! o = None) then Raise UnknownOrgError
    else apply_core (Some o) mode ev now s
  end.
End applier.
