(* ===== verification/SyncFacts.v ===== *)
(** * Facts about the applier

    Reading and writing of rows, the frame of one apply, and what an apply of a
    full snapshot amounts to. *)

From stdpp Require Import pretty.
From S2P Require Import Prelude TenantScope SyncModel SyncApply.
Local Open Scope string_scope.
Local Open Scope list_scope.

(** The column of a name. *)
Definition find_column (e : entity) (n : string) : option column :=
  find (fun c => String.eqb (co_name c) n) (columns e).

Section facts.
Context `{Clock : IsoClock}.
Context (db_accepts : gmap (entity * string) row -> bool) (ulid : nat -> string).

(** ** Rows *)

Definition convert (c : column) (v : json) : cell :=
  if co_datetime c then coerce_datetime v else Val v.

Lemma incoming_lookup e d r n :
  incoming_of e (JObj d) = Ret r ->
  r !! n = match find_column e n with Some c => convert c <$> dict_get d n | None => None end.
Proof.
  unfold incoming_of, find_column. revert r. induction (columns e) as [|c l IH]; intros r; cbn.
  { intros [= <-]. done. }
  unfold incoming_step at 1. destruct (foldr _ _ l) as [acc|x]; [|done]. cbn.
  intros [= <-]. specialize (IH acc eq_refl).
  destruct (String.eqb_spec (co_name c) n) as [<-|Hn].
  - destruct (dict_get d (co_name c)) as [v|] eqn:E; cbn; [by rewrite lookup_insert_eq|].
    rewrite IH. by destruct (find _ l).
  - destruct (dict_get d (co_name c)); [by rewrite lookup_insert_ne|done].
Qed.

Lemma incoming_total e d : exists r, incoming_of e (JObj d) = Ret r.
Proof.
  unfold incoming_of. induction (columns e) as [|c l [r IH]]; cbn; [by eexists|].
  rewrite IH. unfold incoming_step. cbn. by eexists.
Qed.

Lemma fill_lookup e now (given : row) n :
  fill_defaults e now given !! n =
    match find_column e n with
    | Some c => Some (match given !! n with
                      | Some v => v
                      | None => match co_default c with
                                | NoDefault => null | Const v => Val v | Now => Time now end
                      end)
    | None => None
    end.
Proof.
  unfold fill_defaults, find_column. induction (columns e) as [|c l IH]; cbn; [done|].
  destruct (String.eqb_spec (co_name c) n) as [<-|Hn];
    [by rewrite lookup_insert_eq|by rewrite lookup_insert_ne].
Qed.

(** A row belongs to the organisation of the context. *)
Definition pinned (org : option string) (e : entity) (r : row) : Prop :=
  tenant_scoped e = true -> forall o, org = Some o -> r !! "organization_id" = Some (Val (JStr o)).

Lemma pin_pinned org e r : pinned org e (pin_org e org r).
Proof. intros Ht o ->. unfold pin_org. rewrite Ht. apply lookup_insert_eq. Qed.

Lemma org_of_row_lookup r o : r !! "organization_id" = Some (Val (JStr o)) -> org_of_row r = Some o.
Proof. intros H. unfold org_of_row, col. by rewrite H. Qed.

Lemma guard_pinned org mode e r : pinned org e r -> guard_org org mode e r = Ret r.
Proof.
  intros Hp. unfold guard_org, guard_row. destruct org as [o|]; [|done].
  destruct (tenant_scoped e) eqn:Ht; [|done]. specialize (Hp Ht o eq_refl).
  unfold guard_one. cbn [fl_org]. rewrite (org_of_row_lookup _ _ Hp), String.eqb_refl.
  cbn. by rewrite insert_id.
Qed.

Lemma guard_frame org mode e r r' : guard_org org mode e r = Ret r' -> forall n,
  n <> "organization_id" -> r' !! n = r !! n.
Proof.
  unfold guard_org, guard_row. intros H n Hn. destruct org as [o|]; [|by simplify_eq].
  destruct (tenant_scoped e); [|by simplify_eq].
  destruct (guard_one _ _ _ _ _).1 as [f|x]; [|done]. simplify_eq.
  destruct (fl_org f); [by rewrite lookup_insert_ne|done].
Qed.

(** ** Visibility *)

Lemma sees_pinned org mode e r : pinned org e r -> sees (decision org mode) e r = true.
Proof.
  intros Hp. unfold decision. destruct org as [o|], mode; try done. cbn.
  destruct (tenant_scoped e) eqn:Ht; [|done]. cbn.
  rewrite (org_of_row_lookup _ o) by (by apply Hp). by rewrite bool_decide_true.
Qed.

Lemma get_row_spec dec e i s r :
  get_row dec e i s = Some r <-> sy_rows s !! (e, i) = Some r /\ sees dec e r = true.
Proof.
  unfold get_row. destruct (sy_rows s !! (e, i)) as [x|]; [|split; [done|by intros [? _]]].
  destruct (sees dec e x) eqn:E; split; [by intros [= <-]|by intros [[= <-] _]|done|].
  intros [[= <-] H]. congruence.
Qed.

Lemma elem_of_ids_where dec e p s i :
  i ∈ ids_where dec e p s <->
  exists r, sy_rows s !! (e, i) = Some r /\ sees dec e r = true /\ p r = true.
Proof.
  unfold ids_where. rewrite elem_of_list_to_set, list_elem_of_omap. split.
  - intros ([[e' j] r] & Hin & H). cbn in H. apply elem_of_map_to_list in Hin.
    destruct (_ && _) eqn:E; [|done]. simplify_eq. bool_to_prop.
    match goal with H : bool_decide _ = true |- _ => apply bool_decide_eq_true in H; subst end.
    eauto.
  - intros (r & Hl & Hs & Hp). exists ((e, i), r). split; [by apply elem_of_map_to_list|].
    cbn. by rewrite bool_decide_true, Hs, Hp.
Qed.

Lemma first_where_elem dec e p s i : first_where dec e p s = Some i -> i ∈ ids_where dec e p s.
Proof.
  unfold first_where. intros H. apply elem_of_elements.
  destruct (elements _); [done|]. cbn in H. simplify_eq. left.
Qed.

Lemma find_existing_visible dec e id r s k :
  find_existing dec e id r s = Some k ->
  exists old, sy_rows s !! (e, k) = Some old /\ sees dec e old = true.
Proof.
  unfold find_existing, get_by_id. destruct (i ← id; _ ← get_row dec e i s; Some i) as [x|] eqn:Hg.
  - intros [= <-]. destruct id as [i|]; [|done]. cbn in Hg.
    destruct (get_row dec e i s) as [old|] eqn:E; [|done]. cbn in Hg. simplify_eq.
    apply get_row_spec in E. eauto.
  - destruct (natural_key e) as [nk|]; [|done]. case_bool_decide; [done|].
    intros Hf. apply first_where_elem, elem_of_ids_where in Hf as (r' & ? & ? & _). eauto.
Qed.

(** ** The frame of an apply *)

(** The rows a write in the context of [org] may change: those the context sees,
    and a new row under [id] or under a fresh site id. *)
Definition touchable (org : option string) (mode : enforce) (id : string) (s : sync_state)
    (e : entity) (i : string) : Prop :=
  (exists r, sy_rows s !! (e, i) = Some r /\ sees (decision org mode) e r = true) \/
  (sy_rows s !! (e, i) = None /\
   (i = id \/ exists n, sy_ulids s <= n /\ i = String.append "site_" (ulid n))).

(** What an apply in the context of [org] for entity [id] may do: it emits
    nothing, knows the same organisations, forgets no tombstone, and leaves every
    row as it is but the touchable ones, which stay visible or go. *)
Definition frame (org : option string) (mode : enforce) (id : string) (s s' : sync_state) : Prop :=
  sy_orgs s' = sy_orgs s /\ sy_outbox s' = sy_outbox s /\
  sy_tombs s ⊆ sy_tombs s' /\ sy_ulids s <= sy_ulids s' /\
  forall e i, sy_rows s' !! (e, i) = sy_rows s !! (e, i) \/
    (touchable org mode id s e i /\
     forall r, sy_rows s' !! (e, i) = Some r -> sees (decision org mode) e r = true).

Lemma frame_refl org mode id s : frame org mode id s s.
Proof. unfold frame. split_and!; auto. Qed.

Lemma frame_trans org mode id a b c :
  frame org mode id a b -> frame org mode id b c -> frame org mode id a c.
Proof.
  intros (O1 & X1 & T1 & U1 & R1) (O2 & X2 & T2 & U2 & R2).
  split_and!; [congruence..|by etrans|lia|]. intros e i.
  destruct (R1 e i) as [E1|[H1 V1]], (R2 e i) as [E2|[H2 V2]].
  - left. congruence.
  - right. split; [|done]. unfold touchable in *. rewrite E1 in H2.
    destruct H2 as [|(Hn & [|(n & Hn' & Hi)])]; auto.
    right. split; [done|]. right. exists n. split; [lia|done].
  - right. split; [done|]. intros r. rewrite E2. apply V1.
  - right. auto.
Qed.

(** A row the guard let through is one the context sees. *)
Lemma guard_sees org mode e r r' :
  guard_org org mode e r = Ret r' -> sees (decision org mode) e r' = true.
Proof.
  unfold guard_org, guard_row, decision, sees.
  destruct org as [o|], mode, (tenant_scoped e); cbn; try done.
  unfold guard_one. cbn. intros H.
  assert (Hr : r' = <["organization_id" := Val (JStr o)]> r).
  { destruct (org_of_row r) as [o'|] eqn:Ho; cbn in H; [|by simplify_eq].
    destruct (String.eqb_spec o' o) as [->|]; cbn in H; [|done]. by simplify_eq. }
  apply bool_decide_true. subst r'. unfold org_of_row, col. by rewrite lookup_insert_eq.
Qed.

Lemma insert_row_spec org mode e i given now s s' :
  insert_row db_accepts org mode e i given now s = Ret s' ->
  sy_rows s !! (e, i) = None /\
  exists r, guard_org org mode e (fill_defaults e now given) = Ret r /\
            s' = with_rows (<[(e, i) := r]> (sy_rows s)) s.
Proof.
  unfold insert_row. intros H. destruct (guard_org _ _ _ _) as [r|x]; [|done]. cbn in H.
  case_bool_decide as Hn; [done|]. unfold check in H. destruct (db_accepts _); [|done].
  cbn in H. simplify_eq. split; [|eauto]. destruct (sy_rows s !! (e, i)); [by destruct Hn|done].
Qed.

(** Adding one row, possibly after taking a fresh identifier. *)
Lemma frame_insert org mode e i r n id s :
  sees (decision org mode) e r = true -> sy_ulids s <= n -> sy_rows s !! (e, i) = None ->
  i = id \/ i = String.append "site_" (ulid (sy_ulids s)) ->
  frame org mode id s (with_rows (<[(e, i) := r]> (sy_rows s))
    (SyncState (sy_rows s) (sy_tombs s) (sy_orgs s) (sy_outbox s) n)).
Proof.
  intros Hv Hn Hnone Hi. unfold frame. cbn. split_and!; [done..|]. intros e' i'.
  destruct (decide ((e, i) = (e', i'))) as [[= <- <-]|Hne]; [|left; by rewrite lookup_insert_ne].
  right. rewrite lookup_insert_eq. split; [right|by intros ? [= <-]].
  destruct Hi as [Hi|Hi]; eauto.
Qed.

Lemma resolve_default_frame org mode now id s d s' :
  resolve_default_site_id db_accepts ulid org mode now s = Ret (d, s') -> frame org mode id s s'.
Proof.
  unfold resolve_default_site_id. cbv zeta.
  destruct (first_where _ _ _ _); [intros; simplify_eq; apply frame_refl|].
  destruct (elements _) as [|i [|j l]]; try (intros; simplify_eq; apply frame_refl).
  all: destruct (resolve_default_org_id s); [|done];
    destruct (insert_row _ _ _ _ _ _ _ _) as [s1|x] eqn:E; [|done];
    cbn; intros; simplify_eq; apply insert_row_spec in E as (Hn & r & Hg & ->);
    apply guard_sees in Hg; cbn in *; apply frame_insert; auto.
Qed.

Lemma remap_frame e org mode now id r s r' s' :
  remap_site db_accepts ulid e org mode now r s = Ret (r', s') ->
  frame org mode id s s' /\ forall n, n <> "site_id" -> r' !! n = r !! n.
Proof.
  assert (Hid : Ret (r, s) = Ret (r', s') ->
            frame org mode id s s' /\ forall n, n <> "site_id" -> r' !! n = r !! n).
  { intros [= <- <-]. split; [apply frame_refl|done]. }
  unfold remap_site. destruct e; try done.
  all: destruct (col r "site_id") as [v|t]; [|done]; destruct (truthy v); [|done];
    destruct v as [| | | |i| |]; try done; cbn;
    destruct (get_row _ _ i s); [done|];
    destruct (resolve_default_site_id _ _ _ _ _ _) as [[d s1]|x] eqn:E; [|done];
    cbn; intros [= <- <-]; split; [by eapply resolve_default_frame|];
    intros n Hn; by rewrite lookup_insert_ne.
Qed.

Lemma update_row_spec org mode e k old new now s s' :
  update_row db_accepts org mode e k old new now s = Ret s' ->
  exists r, guard_org org mode e new = Ret r /\ s' = with_rows (<[(e, k) := r]> (sy_rows s)) s.
Proof.
  unfold update_row. intros H. destruct (guard_org _ _ _ _) as [r|x]; [|done]. cbn in H.
  unfold check in H. destruct (db_accepts _); [|done]. cbn in H. simplify_eq. eauto.
Qed.

Lemma frame_write org mode e k m old id s :
  sy_rows s !! (e, k) = Some old -> sees (decision org mode) e old = true ->
  (forall e' i, (e', i) <> (e, k) -> m !! (e', i) = sy_rows s !! (e', i)) ->
  (forall r, m !! (e, k) = Some r -> sees (decision org mode) e r = true) ->
  frame org mode id s (with_rows m s).
Proof.
  intros Hk Hv Ho Hn. unfold frame. cbn. split_and!; [done..|]. intros e' i'.
  destruct (decide ((e', i') = (e, k))) as [[= -> ->]|Hne]; [|left; by apply Ho].
  right. split; [left; eauto|done].
Qed.

(** The id under which an insert puts its row. *)
Definition own_id (id : string) (r : row) : Prop :=
  r !! "id" = None \/ r !! "id" = Some (Val (JStr id)).

Lemma with_own_id id r : own_id id r -> col (with_id (Some id) r) "id" = Val (JStr id).
Proof.
  unfold own_id, with_id, col. intros [H|H]; rewrite H; [by rewrite lookup_insert_eq|by rewrite H].
Qed.

Lemma upsert_frame org mode e id r u now s b s' :
  upsert db_accepts org mode e id r u now s = Ret (b, s') ->
  exists i, frame org mode i s s' /\ (forall j, id = Some j -> own_id j r -> i = j).
Proof.
  unfold upsert. destruct (find_existing _ e id r s) as [k|] eqn:Hf.
  - apply find_existing_visible in Hf as (old & Hk & Hv). rewrite Hk. cbn [default].
    destruct (as_utc _) as [t|x]; [|done]. cbn. intros H. exists (default "" id). split; [|by intros j ->].
    destruct (stale u t); [simplify_eq; apply frame_refl|].
    destruct (update_row _ _ _ _ _ _ _ _ _) as [s1|x] eqn:E; [|done]. cbn in H. simplify_eq.
    apply update_row_spec in E as (r' & Hg%guard_sees & ->).
    eapply frame_write; [done..| |].
    + intros e' i Hne. by rewrite lookup_insert_ne.
    + rewrite lookup_insert_eq. by intros ? [= <-].
  - destruct (col (with_id id r) "id") as [[| | | |i| |]|] eqn:Hc; try done.
    destruct (insert_row _ _ _ _ _ _ _ _) as [s1|x] eqn:E; [|done].
    cbn. intros; simplify_eq. apply insert_row_spec in E as (Hn & x & Hg%guard_sees & ->).
    exists i. split; [destruct s; apply (frame_insert _ _ e i x); auto|].
    intros j -> Ho%with_own_id. congruence.
Qed.

(** ** The frame of [apply_core] *)
Context (db_bigint : json -> option Z).

Lemma is_tombstoned_spec s id : is_tombstoned s id = true <-> is_Some (sy_tombs s !! id).
Proof.
  unfold is_tombstoned. destruct (sy_tombs s !! id); split; try done; by intros [? ?].
Qed.

Lemma add_tombstone_spec d ty q now s s' :
  add_tombstone db_bigint d ty q now s = Ret s' ->
  exists m, s' = with_tombs m s /\ sy_tombs s ⊆ m /\ is_Some (m !! d).
Proof.
  unfold add_tombstone. destruct (is_tombstoned s d) eqn:Ht.
  - intros [= <-]. exists (sy_tombs s). apply is_tombstoned_spec in Ht. by destruct s.
  - destruct (bigint _ _) as [z|x]; [|done]. cbn. intros [= <-]. eexists. split_and!; [done| |].
    + apply insert_subseteq. unfold is_tombstoned in Ht. by destruct (sy_tombs s !! d).
    + rewrite lookup_insert_eq. eauto.
Qed.

Lemma frame_tombs org mode id m s : sy_tombs s ⊆ m -> frame org mode id s (with_tombs m s).
Proof. intros H. unfold frame. cbn. split_and!; auto. Qed.

(** The id of the row a payload describes is the event's. *)
Definition own_payload (id : string) (payload : json) : Prop :=
  forall d, payload = JObj d -> dict_get d "id" = None \/ dict_get d "id" = Some (JStr id).

Lemma incoming_own_id e id p r :
  own_payload id p -> incoming_of e p = Ret r -> r <> ∅ -> own_id id r.
Proof.
  intros Hp Hr Hne.
  assert (Hnil : forall q, (forall c, payload_lookup q c = Ret None \/ exists x, payload_lookup q c = Raise x) ->
            forall r, incoming_of e q = Ret r -> r = ∅).
  { intros q Hq. unfold incoming_of. induction (columns e) as [|c l IH]; cbn; [by intros ? [= <-]|].
    unfold incoming_step at 1. destruct (foldr _ _ l) as [acc|x]; [|done]. cbn. intros r'.
    destruct (Hq (co_name c)) as [->|[x ->]]; [|done]. cbn. intros [= <-]. by apply IH. }
  destruct p as [| | | |s|l|d].
  1-6: destruct Hne; eapply Hnil; [|exact Hr]; intros c; cbn.
  1-4: by right; eexists.
  - destruct (String.index 0 c s); [right; by eexists|by left].
  - case_bool_decide; [right; by eexists|by left].
  - unfold own_id. rewrite (incoming_lookup _ _ _ "id" Hr).
    destruct (Hp d eq_refl) as [->| ->]; destruct e; cbn; auto.
Qed.

Lemma apply_core_frame org mode ev now s b s' :
  apply_core db_accepts ulid db_bigint org mode ev now s = Ret (b, s') ->
  exists i, frame org mode i s s' /\
    forall id, ev_entity_id ev = JStr id -> own_payload id (jor (ev_payload ev) (JObj [])) -> i = id.
Proof.
  unfold apply_core. destruct (nullable_str (ev_entity_id ev)) as [id|x] eqn:Hid; [|done]. cbn.
  assert (Hskip : Ret (false, s) = Ret (b, s') -> exists i, frame org mode i s s' /\
    forall id, ev_entity_id ev = JStr id -> own_payload id (jor (ev_payload ev) (JObj [])) -> i = id).
  { intros [= <- <-]. exists (default "" id). split; [apply frame_refl|]. intros id' E _.
    rewrite E in Hid. cbn in Hid. by simplify_eq. }
  destruct (match id with Some i => _ | None => _ end); [done|].
  destruct (match ev_entity_type ev with JStr t => _ | _ => _ end) as [[e|]|x]; [|done|done]. cbn.
  destruct (truthy (ev_tombstone_for ev)).
  - destruct (need_str (ev_tombstone_for ev)) as [d|x]; [|done]. cbn.
    destruct (add_tombstone _ _ _ _ _ _) as [s1|x] eqn:Ha; [|done]. cbn.
    apply add_tombstone_spec in Ha as (m & -> & Hm & _). intros H. exists (default "" id). split.
    + destruct (get_row _ e d _) as [r|] eqn:Hg; [|simplify_eq; by apply frame_tombs].
      apply get_row_spec in Hg as [Hr Hv]. cbn in Hr.
      unfold orm_delete, check in H. destruct (db_accepts _); [|done]. cbn in H. simplify_eq.
      eapply frame_trans; [by apply (frame_tombs _ _ _ m)|].
      eapply frame_write; [exact Hr|exact Hv| |].
      * intros e' i Hne. cbn. by rewrite lookup_delete_ne.
      * intros r'. by rewrite lookup_delete_eq.
    + intros id' E _. rewrite E in Hid. cbn in Hid. by simplify_eq.
  - destruct (incoming_of e _) as [r|x] eqn:Hr; [|done]. cbn.
    case_bool_decide as Hne; [done|].
    destruct (remap_site _ _ _ _ _ _ _ _) as [[r1 s1]|x] eqn:Hm; [|done]. cbn.
    destruct (jget _ "updated_at") as [u|x]; [|done]. cbn.
    destruct (as_utc _) as [t|x]; [|done]. cbn. intros Hu.
    apply upsert_frame in Hu as (i & Hf & Hi). exists i. split.
    + eapply frame_trans; [|exact Hf]. by eapply remap_frame.
    + intros id' E Hp. rewrite E in Hid. cbn in Hid. simplify_eq. apply (Hi _ eq_refl).
      apply (remap_frame _ _ _ _ "") in Hm as [_ Hm]. unfold own_id. rewrite Hm by done.
      unfold pin_org. destruct org, (tenant_scoped e); rewrite ?lookup_insert_ne by done;
        eapply incoming_own_id; eauto.
Qed.
End facts.
