(* ===== verification/SyncReplicator.v ===== *)
(** * Multi-hub sync: the pull protocol ([app/services/sync_replicator.py],
    [app/blueprints/api/sync.py], [app/middleware/sync_auth.py])

    The token of a peer and its verification, the page a hub serves, the batch
    loop with its transaction per event, the cursor, and the tick over peers. *)

From Stdlib Require Import Ascii.
From stdpp Require Import pretty.
From S2P Require Import Prelude TenantScope SyncModel SyncApply.
Local Open Scope string_scope.
Local Open Scope list_scope.

(** ** Peer authentication *)

(** [bytes.fromhex]: pairs of hex digits, blanks between the pairs. *)
Definition hex_digit (a : ascii) : option Z :=
  let n := nat_of_ascii a in
  if (48 <=? n)%nat && (n <=? 57)%nat then Some (Z.of_nat n - 48)%Z
  else if (97 <=? n)%nat && (n <=? 102)%nat then Some (Z.of_nat n - 87)%Z
  else if (65 <=? n)%nat && (n <=? 70)%nat then Some (Z.of_nat n - 55)%Z
  else None.
Definition is_blank (a : ascii) : bool :=
  let n := nat_of_ascii a in ((9 <=? n) && (n <=? 13) || (n =? 32))%nat.
Fixpoint fromhex (s : string) : option (list Z) :=
  match s with
  | EmptyString => Some []
  | String a r =>
    if is_blank a then fromhex r
    else match hex_digit a, r with
         | Some h, String b r' =>
           match hex_digit b with
           | Some l => cons (16 * h + l)%Z <$> fromhex r'
           | None => None
           end
         | _, _ => None
         end
  end.

(** [s.split(".")]. *)
Fixpoint split_dot (s : string) : list string :=
  match s with
  | EmptyString => [EmptyString]
  | String a r =>
    if Ascii.eqb a "."%char then EmptyString :: split_dot r
    else match split_dot r with
         | w :: ws => String a w :: ws
         | [] => [String a EmptyString]
         end
  end.

(** [hmac.compare_digest] on strings: both must be ASCII. *)
Fixpoint is_ascii (s : string) : bool :=
  match s with
  | EmptyString => true
  | String a r => (nat_of_ascii a <? 128)%nat && is_ascii r
  end.
Definition compare_digest (a b : string) : outcome bool :=
  if is_ascii a && is_ascii b then Ret (String.eqb a b) else Raise (TypeError "compare_digest").

Section auth.
(** [hmac.new(key, text, sha256).hexdigest()]. *)
Context (hmac_hex : list Z -> string -> string).

(** [_get_sync_hmac_key]: [None] also for a value that is no hex string. *)
Definition get_sync_hmac_key (setting : json) : option (list Z) :=
  if truthy setting then match setting with JStr h => fromhex h | _ => None end else None.

(** [_generate_hmac_bearer_token]. *)
Definition join3 (a b c : string) : string :=
  String.append a (String "."%char (String.append b (String "."%char c))).
Definition generate_hmac_bearer_token (setting : json) (payload : string) : outcome string :=
  if negb (truthy setting) then Raise (ValueError "sync.hmac_key not configured")
  else match get_sync_hmac_key setting with
       | None => Raise (ValueError "Invalid sync.hmac_key format (expected hex)")
       | Some key => Ret (join3 "hmac-sha256" payload (hmac_hex key payload))
       end.

(** [_verify_hmac_bearer]: an empty key counts as none. *)
Definition verify_hmac_bearer (setting : json) (token : string) : outcome bool :=
  match get_sync_hmac_key setting with
  | None | Some [] => Ret false
  | Some key =>
    match split_dot token with
    | [tag; payload; sig] =>
      if String.eqb tag "hmac-sha256" then compare_digest (hmac_hex key payload) sig else Ret false
    | _ => Ret false
    end
  end.

(** [sync_peer_required]: what is done with a request. *)
Inductive access := AuthRequired | InvalidToken | AsPeer | AdminFallback.
Fixpoint str_drop (n : nat) (s : string) : string :=
  match n, s with
  | S n, String _ r => str_drop n r
  | _, _ => s
  end.
Definition sync_peer_required (setting : json) (authorization : string) : outcome access :=
  if negb (startswith "Bearer " authorization) then Ret AuthRequired
  else
    let token := str_drop 7 authorization in
    if startswith "hmac-sha256." token then
      ok ← verify_hmac_bearer setting token;
      Ret (match ok with true => AsPeer | false => InvalidToken end)
    else Ret AdminFallback.
End auth.

(** ** The page a hub serves *)
Section serving.
Context `{Clock : IsoClock}.

(** [fetch_outbox_events_since]; a negative LIMIT is a database error. *)
Definition fetch_outbox_events_since (since limit : Z) (s : sync_state)
    : outcome (list outbox_event) :=
  if (limit <? 0)%Z then Raise (DBError "LIMIT must not be negative")
  else Ret (take (Z.to_nat limit)
    (order_by oe_seq (List.filter (fun e => since <? oe_seq e)%Z (sy_outbox s)))).

(** The JSON of an event. *)
Definition odict (o : option pydict) : json := match o with Some d => JObj d | None => JNull end.
Definition event_json (e : outbox_event) : pydict :=
  [("seq", JInt (oe_seq e));
   ("at", JStr (isoformat (oe_at e)));
   ("event_type", JStr (oe_event_type e));
   ("entity_type", JStr (oe_entity_type e));
   ("entity_id", JStr (oe_entity_id e));
   ("payload", JObj (oe_payload e));
   ("scope_claims", odict (oe_scope_claims e));
   ("tombstone_for", ojson (oe_tombstone_for e))].

(** [sync_since]: [None] is the answer 400; [sync_page] is its body, on the
    parsed parameters. *)
Definition int_arg (arg : option string) (default : Z) : option Z :=
  match arg with Some s => parse_int s | None => Some default end.
Definition sync_page (seq limit : Z) (s : sync_state) : outcome json :=
  events ← fetch_outbox_events_since seq limit s;
  Ret (JObj
    [("events", JList ((fun e => JObj (event_json e)) <$> events));
     ("next_seq", JInt (match last events with Some e => oe_seq e | None => seq end));
     ("has_more", JBool (Z.of_nat (length events) =? limit)%Z)]).
Definition sync_since (seq_arg limit_arg : option string) (s : sync_state)
    : outcome (option json) :=
  match int_arg seq_arg 0, int_arg limit_arg 100 with
  | Some seq, Some limit => Some <$> sync_page seq (Z.min limit 1000) s
  | _, _ => Ret None
  end.
End serving.

(** ** The replicator *)

Record cursor := Cursor {
  cu_last_seq : Z; cu_updated_at : time; cu_last_error : option string;
  cu_last_error_at : option time
}.

(** A hub: the tables of [SyncModel] and the cursors of its peers. *)
Record hub := Hub { hub_db : sync_state; hub_cursors : gmap string cursor }.

Record stats := Stats { st_applied : nat; st_skipped : nat; st_errors : nat }.
Record batch := Batch {
  ba_stats : stats; ba_last_seq : json; ba_last_error : option string
}.
Record totals := Totals {
  tt_peers_polled : nat; tt_events_applied : nat; tt_errors : nat; tt_skipped : option string
}.

Section replicator.
Context `{Clock : IsoClock}.
Context (db_accepts : gmap (entity * string) row -> bool) (ulid : nat -> string)
        (db_bigint : json -> option Z).
(** [json.loads]. *)
Context (json_loads : string -> option json).
(** The HTTP exchange with the peer of a URL: the JSON it answered, [None] for
    any failure (no token, no connection, an error status, a body that is not
    JSON). *)
Context (http_get : json -> Z -> Z -> option json).

(** [get_sync_cursor] and [update_sync_cursor]. *)
Definition get_sync_cursor (peer : string) (h : hub) : Z :=
  match hub_cursors h !! peer with Some c => cu_last_seq c | None => 0%Z end.
Definition update_sync_cursor (peer : string) (last_seq : json) (error : option string)
    (now : time) (h : hub) : outcome hub :=
  q ← bigint db_bigint last_seq;
  Ret (Hub (hub_db h) (<[peer := Cursor q now error ((fun _ => now) <$> error)]> (hub_cursors h))).

(** The [OutboxEvent] built from a peer's JSON. *)
Definition need_key (d : pydict) (k : string) : outcome json :=
  match dict_get d k with Some v => Ret v | None => Raise (KeyError k) end.
Definition event_of_data (d : pydict) : outcome event :=
  at_ ← need_key d "at";
  _ ← need_key d "event_type";
  ty ← need_key d "entity_type";
  id ← need_key d "entity_id";
  payload ← need_key d "payload";
  Ret (Event (dget d "seq") at_ ty id payload (dget d "scope_claims") (dget d "tombstone_for")).

(** One event in its own transaction. *)
Definition apply_event (mode : enforce) (d : pydict) (now : time) (s : sync_state)
    : outcome bool * sync_state :=
  match event_of_data d with
  | Raise x => (Raise x, s)
  | Ret ev =>
    session_scope (fun s =>
      match apply_outbox_event db_accepts ulid db_bigint mode ev now s with
      | Ret (b, s') => (Ret b, s')
      | Raise x => (Raise x, s)
      end) s
  end.

(** The body of the loop of [_apply_event_batch] on one object. *)
Definition count_result (r : outcome bool) (t : stats) : stats :=
  match r with
  | Ret true => Stats (S (st_applied t)) (st_skipped t) (st_errors t)
  | Ret false => Stats (st_applied t) (S (st_skipped t)) (st_errors t)
  | Raise _ => Stats (st_applied t) (st_skipped t) (S (st_errors t))
  end.
Definition batch_step (mode : enforce) (d : pydict) (now : time) (b : batch) (s : sync_state)
    : batch * sync_state :=
  let seq := dget d "seq" in
  let '(r, s) := apply_event mode d now s in
  (Batch (count_result r (ba_stats b))
         (if bool_decide (seq = JNull) then ba_last_seq b else seq)
         (match r with Raise x => Some (String.append "seq: " (exn_str x)) | Ret _ => ba_last_error b end),
   s).

Fixpoint batch_loop (mode : enforce) (now : time) (l : list json) (b : batch) (s : sync_state)
    : outcome batch * sync_state :=
  match l with
  | [] => (Ret b, s)
  | JObj d :: l =>
    let '(b, s) := batch_step mode d now b s in batch_loop mode now l b s
  | _ :: _ => (Raise (AttributeError "get"), s)
  end.

(** [_apply_event_batch].  What the loop committed stays when it raises. *)
Definition empty_batch : batch := Batch (Stats 0 0 0) JNull None.
Definition apply_event_batch (mode : enforce) (peer : string) (events : json) (now : time)
    (h : hub) : outcome stats * hub :=
  match py_iter events with
  | Raise x => (Raise x, h)
  | Ret l =>
    let '(r, s) := batch_loop mode now l empty_batch (hub_db h) in
    let h := Hub s (hub_cursors h) in
    match r with
    | Raise x => (Raise x, h)
    | Ret b =>
      if bool_decide (ba_last_seq b = JNull) then (Ret (ba_stats b), h)
      else match update_sync_cursor peer (ba_last_seq b) (ba_last_error b) now h with
           | Ret h => (Ret (ba_stats b), h)
           | Raise x => (Raise x, h)
           end
    end
  end.

(** [_fetch_events_from_peer]: the events; any failure gives none. *)
Definition fetch_events_from_peer (url : json) (since limit : Z) : json :=
  match http_get url since limit with
  | Some (JObj data) => dget_default data "events" (JList [])
  | _ => JList []
  end.

(** [_get_peer_hubs] on the value of the setting. *)
Definition get_peer_hubs (setting : json) : list json :=
  let peers := match setting with
               | JStr s => match json_loads s with Some v => v | None => JList [] end
               | v => v
               end in
  match peers with JList l => l | _ => [] end.

(** The body of the [try] of [tick] for one peer. *)
Definition sync_peer (mode : enforce) (id url : json) (now : time) (h : hub)
    : outcome stats * hub :=
  match need_str id with
  | Raise x => (Raise x, h)
  | Ret peer =>
    let events := fetch_events_from_peer url (get_sync_cursor peer h) 100 in
    if truthy events then apply_event_batch mode peer events now h
    else (Ret (Stats 0 0 0), h)
  end.

Definition tick_peer (mode : enforce) (peer : pydict) (now : time) (t : totals) (h : hub)
    : totals * hub :=
  let id := dget peer "id" in
  let url := dget peer "url" in
  let failed := Totals (tt_peers_polled t) (tt_events_applied t) (S (tt_errors t)) None in
  if negb (truthy id && truthy url) then (failed, h)
  else match sync_peer mode id url now h with
       | (Ret st, h) => (Totals (S (tt_peers_polled t)) (tt_events_applied t + st_applied st)
                                (tt_errors t + st_errors st) None, h)
       | (Raise _, h) => (failed, h)
       end.

Fixpoint tick_peers (mode : enforce) (now : time) (l : list json) (t : totals) (h : hub)
    : outcome totals * hub :=
  match l with
  | [] => (Ret t, h)
  | JObj p :: l => let '(t, h) := tick_peer mode p now t h in tick_peers mode now l t h
  | _ :: _ => (Raise (AttributeError "get"), h)
  end.

(** [tick]. *)
Definition tick (sync_enabled peer_hubs : json) (mode : enforce) (now : time) (h : hub)
    : outcome totals * hub :=
  if negb (truthy sync_enabled) then (Ret (Totals 0 0 0 (Some "sync disabled")), h)
  else match get_peer_hubs peer_hubs with
       | [] => (Ret (Totals 0 0 0 (Some "no peers configured")), h)
       | peers => tick_peers mode now peers (Totals 0 0 0 None) h
       end.
End replicator.
