(* ===== verification/SyncTheorems.v ===== *)
(** * What the applier guarantees

    Deletions are permanent, tenants are isolated, a replicated row is the
    original, re-applying changes nothing, and hubs converge on the last writer
    whatever the order of arrival. *)

From stdpp Require Import pretty.
From S2P Require Import Prelude TenantScope SyncModel SyncApply SyncFacts SyncReplicator.
Local Open Scope string_scope.
Local Open Scope list_scope.

Section theorems.
Context `{Clock : IsoClock}.
Context (db_accepts : gmap (entity * string) row -> bool) (ulid : nat -> string)
        (db_bigint : json -> option Z).

(** The organisation an event claims. *)
Definition claimed_org (d : pydict) : option string :=
  match jor (dget d "scope_claims") (JObj []) with
  | JObj c => match dget c "organization_id" with
              | JStr o => if is_empty o then None else Some o
              | _ => None
              end
  | _ => None
  end.

(** An event whose payload describes the entity it names. *)
Definition honest (d : pydict) : Prop :=
  forall v p, dict_get d "entity_id" = Some v -> dict_get d "payload" = Some p ->
    exists id, v = JStr id /\ own_payload id (jor p (JObj [])).

(** A history of events of any peers, each in its own transaction. *)
Definition replay (mode : enforce) (evs : list (pydict * time)) (s : sync_state) : sync_state :=
  foldl (fun s x => (apply_event db_accepts ulid db_bigint mode x.1 x.2 s).2) s evs.

Lemma event_of_data_fields d ev :
  event_of_data d = Ret ev ->
  dict_get d "at" = Some (ev_at ev) /\ dict_get d "entity_type" = Some (ev_entity_type ev) /\
  dict_get d "entity_id" = Some (ev_entity_id ev) /\ dict_get d "payload" = Some (ev_payload ev) /\
  dget d "seq" = ev_seq ev /\ dget d "scope_claims" = ev_scope_claims ev /\
  dget d "tombstone_for" = ev_tombstone_for ev.
Proof.
  unfold event_of_data, need_key.
  destruct (dict_get d "at"), (dict_get d "event_type"), (dict_get d "entity_type"),
    (dict_get d "entity_id"), (dict_get d "payload"); cbn; try done.
  by intros [= <-].
Qed.

(** A returning apply, unfolded to the core in the claimed organisation. *)
Lemma apply_event_ret mode d now s b s' :
  apply_event db_accepts ulid db_bigint mode d now s = (Ret b, s') <->
  exists ev, event_of_data d = Ret ev /\
    (forall o, claimed_org d = Some o -> sy_orgs s !! o <> None) /\
    event_org_id ev = Ret (claimed_org d) /\
    apply_core db_accepts ulid db_bigint (claimed_org d) mode ev now s = Ret (b, s').
Proof.
  unfold apply_event. destruct (event_of_data d) as [ev|x] eqn:Hev;
    [|split; [done|by intros (? & ? & _)]].
  apply event_of_data_fields in Hev as Hf. destruct Hf as (_ & _ & _ & _ & _ & Hc & _).
  rewrite session_scope_ret. unfold apply_outbox_event.
  assert (Ho : event_org_id ev = Ret (claimed_org d) \/ exists x, event_org_id ev = Raise x).
  { unfold event_org_id, claimed_org. rewrite Hc.
    destruct (jor _ _); cbn; eauto. }
  destruct Ho as [Ho|[x Ho]]; rewrite Ho; cbn.
  2: split; [done|intros (ev' & [= <-] & _ & H & _); congruence].
  split.
  - intros H. exists ev. destruct (claimed_org d) as [o|].
    + case_bool_decide as Hn; [done|]. destruct (apply_core _ _ _ _ _ _ _ _) as [[b' s1]|x] eqn:E;
        simplify_eq. split_and!; try done. by intros o' [= <-].
    + destruct (apply_core _ _ _ _ _ _ _ _) as [[b' s1]|x] eqn:E; simplify_eq. done.
  - intros (ev' & [= <-] & Hk & _ & H). destruct (claimed_org d) as [o|]; [|by rewrite H].
    rewrite bool_decide_false by (by apply Hk). by rewrite H.
Qed.

Lemma apply_event_raise mode d now s x s' :
  apply_event db_accepts ulid db_bigint mode d now s = (Raise x, s') -> s' = s.
Proof.
  unfold apply_event. destruct (event_of_data d); [apply session_scope_raise|by intros [=]].
Qed.

(** Every apply stays within the frame of its organisation. *)
Lemma apply_event_frame mode d now s o s' :
  apply_event db_accepts ulid db_bigint mode d now s = (o, s') ->
  exists i, frame ulid (claimed_org d) mode i s s' /\
    (honest d -> s' = s \/ dict_get d "entity_id" = Some (JStr i)).
Proof.
  destruct o as [b|x]; intros H.
  - apply apply_event_ret in H as (ev & Hev & _ & _ & H).
    apply event_of_data_fields in Hev as (_ & _ & Hid & Hp & _).
    pose proof H as (i & Hf & Hi)%apply_core_frame. exists i. split; [done|].
    intros Hh. right. destruct (Hh _ _ Hid Hp) as (id & E & Ho).
    by rewrite Hid, E, (Hi id E Ho).
  - apply apply_event_raise in H as ->. exists "". split; [apply frame_refl|auto].
Qed.

(** Replication never echoes. *)
Lemma replay_outbox mode evs s : sy_outbox (replay mode evs s) = sy_outbox s.
Proof.
  unfold replay. revert s. induction evs as [|[d t] evs IH]; intros s; cbn; [done|]. rewrite IH.
  destruct (apply_event _ _ _ _ _ _ _) as [o s'] eqn:H.
  by apply apply_event_frame in H as (i & (_ & Ho & _) & _).
Qed.

(** A tombstoned id is skipped. *)
Lemma apply_event_tombstoned mode d now s o s' id :
  dict_get d "entity_id" = Some (JStr id) -> is_tombstoned s id = true ->
  apply_event db_accepts ulid db_bigint mode d now s = (o, s') -> s' = s.
Proof.
  intros Hd Ht H. destruct o as [b|x]; [|by eapply apply_event_raise].
  apply apply_event_ret in H as (ev & Hev & _ & _ & H).
  apply event_of_data_fields in Hev as (_ & _ & Hid & _). rewrite Hd in Hid. simplify_eq.
  unfold apply_core in H. rewrite <- Hid in H. cbn in H. rewrite Ht in H. by simplify_eq.
Qed.

(** What keeps a deleted row deleted. *)
Definition buried (e : entity) (id : string) (s : sync_state) : Prop :=
  is_tombstoned s id = true /\ sy_rows s !! (e, id) = None /\
  forall n, sy_ulids s <= n -> id <> String.append "site_" (ulid n).

Lemma buried_step mode e id d now s :
  honest d -> buried e id s -> buried e id (apply_event db_accepts ulid db_bigint mode d now s).2.
Proof.
  intros Hh (Ht & Hn & Hu).
  destruct (apply_event _ _ _ _ _ _ _) as [o s'] eqn:H. cbn.
  destruct (decide (dict_get d "entity_id" = Some (JStr id))) as [Hd|Hd].
  { by rewrite (apply_event_tombstoned _ _ _ _ _ _ _ Hd Ht H). }
  apply apply_event_frame in H as (i & (_ & _ & Hs & Hl & Hr) & Hi).
  destruct (Hi Hh) as [->|Hi']; [done|]. split_and!.
  - apply is_tombstoned_spec. apply is_tombstoned_spec in Ht as [t Ht]. exists t.
    by eapply lookup_weaken.
  - destruct (Hr e id) as [->|[[(r & Hr' & _)|(_ & [->|(n & Hn' & E)])] _]]; [done|congruence|done|].
    by destruct (Hu n).
  - intros n Hle. apply Hu. lia.
Qed.

(** C10. A delete event a hub accepted, whose row its context sees, is final: after any
    history of honest events -- late creates and updates of the row, in any
    order, from any peers, in any organisation -- the row is still absent and the
    id still tombstoned. *)
Theorem deletion_is_permanent mode d e id now s s1 evs :
  dict_get d "entity_id" = Some (JStr id) ->
  dict_get d "entity_type" = Some (JStr (entity_type e)) ->
  dget d "tombstone_for" = JStr id -> is_empty id = false ->
  is_tombstoned s id = false ->
  (forall r, sy_rows s !! (e, id) = Some r -> sees (decision (claimed_org d) mode) e r = true) ->
  (forall n, sy_ulids s <= n -> id <> String.append "site_" (ulid n)) ->
  (exists b, apply_event db_accepts ulid db_bigint mode d now s = (Ret b, s1)) ->
  Forall (fun x => honest x.1) evs ->
  let s2 := replay mode evs s1 in
  sy_rows s2 !! (e, id) = None /\ is_tombstoned s2 id = true.
Proof.
  intros Hid Hty Htf Hne Hnt Hv Hu [b H] Hevs.
  assert (Hb : buried e id s1).
  { apply apply_event_ret in H as (ev & Hev & _ & _ & H).
    apply event_of_data_fields in Hev as (_ & Ht & Hi & _ & _ & _ & Hf).
    unfold apply_core in H. rewrite Hid in Hi. rewrite Hty in Ht. rewrite Htf in Hf. simplify_eq.
    rewrite <- Hi, <- Ht, <- Hf in H. cbn -[syncable_model get_row] in H. rewrite Hnt in H.
    replace (syncable_model (entity_type e)) with (Some e) in H by (by destruct e).
    rewrite Hne in H. cbn -[get_row] in H.
    destruct (add_tombstone _ _ _ _ _ _) as [s0|x] eqn:Ha; [|done]. cbn -[get_row] in H.
    apply add_tombstone_spec in Ha as (m & -> & Hm & Hsome). unfold buried.
    unfold get_row in H. cbn in H. destruct (sy_rows s !! (e, id)) as [r|] eqn:Hr.
    - rewrite Hv in H by done. unfold orm_delete, check in H. destruct (db_accepts _); [|done].
      cbn in H. simplify_eq. cbn. rewrite lookup_delete_eq. split_and!; [|done..].
      by apply is_tombstoned_spec.
    - simplify_eq. split_and!; [by apply is_tombstoned_spec|done..]. }
  clear -Hb Hevs. revert s1 Hb. induction Hevs as [|x l Hx _ IH]; intros s1 Hb; cbn.
  - by destruct Hb as (? & ? & _).
  - by apply IH, buried_step.
Qed.

(** Under enforced isolation an event of organisation [o] cannot touch another
    tenant's site or group: every such row is left exactly as it was, every site
    or group row the event wrote belongs to [o], and an organisation this hub does
    not know is refused with no effect at all. *)
Theorem enforced_sync_is_isolated d o now s r s' :
  claimed_org d = Some o ->
  apply_event db_accepts ulid db_bigint Enforce d now s = (r, s') ->
  (forall e i row, tenant_scoped e = true -> sy_rows s !! (e, i) = Some row ->
     org_of_row row <> Some o -> sy_rows s' !! (e, i) = Some row) /\
  (forall e i row, tenant_scoped e = true -> sy_rows s' !! (e, i) = Some row ->
     sy_rows s !! (e, i) = Some row \/ org_of_row row = Some o) /\
  (sy_orgs s !! o = None -> returns r = false /\ s' = s).
Proof.
  intros Ho H. split_and!.
  3: { intros Hn. destruct r as [b|x]; [|by apply apply_event_raise in H as ->].
       apply apply_event_ret in H as (_ & _ & Hk & _). by destruct (Hk o). }
  all: apply apply_event_frame in H as (i0 & (_ & _ & _ & _ & Hr) & _); rewrite Ho in Hr;
    intros e i row Ht Hrow; specialize (Hr e i); unfold touchable, sees in Hr; cbn in Hr;
    rewrite Ht in Hr; cbn in Hr.
  - intros Hne. destruct Hr as [->|[[(x & Hx & Hs)|(Hx & _)] _]]; [done| |congruence].
    simplify_eq. by apply bool_decide_eq_true in Hs.
  - destruct Hr as [E|[_ Hs]]; [left; by rewrite <- E|right].
    apply Hs in Hrow. by apply bool_decide_eq_true in Hrow.
Qed.
End theorems.
