(* ===== verification/SyncSnapshot.v ===== *)
(** * Replicating a row

    Every create and update event carries the whole row.  What the applier makes
    of such a snapshot: the original row on a hub that lacks it, nothing when it
    is applied again, the last writer's row when several arrive in any order. *)

From stdpp Require Import pretty.
From S2P Require Import Prelude TenantScope SyncModel SyncApply SyncFacts SyncReplicator SyncTheorems.
Local Open Scope string_scope.
Local Open Scope list_scope.

(** A row as the tables hold it: a cell per column, of the column's type. *)
Definition typed_cell (c : column) (x : cell) : bool :=
  match co_datetime c, x with
  | true, Time _ | true, Val JNull | false, Val _ => true
  | _, _ => false
  end.
Definition typed_row (e : entity) (r : row) : Prop :=
  forallb (fun c => typed_cell c (col r (co_name c))) (columns e) = true.
Definition full_row (e : entity) (r : row) : Prop :=
  forall n, r !! n = None <-> find_column e n = None.

(** The row of [id], with its [updated_at]. *)
Definition row_of (e : entity) (id : string) (u : time) (r : row) : Prop :=
  full_row e r /\ typed_row e r /\ r !! "id" = Some (Val (JStr id)) /\
  r !! "updated_at" = Some (Time u).

(** The event a hub emits for a create or update of row [r]. *)
Definition snapshot (oe : outbox_event) (e : entity) (id : string) `{Clock : IsoClock} (r : row) : Prop :=
  oe_entity_type oe = entity_type e /\ oe_entity_id oe = id /\
  oe_payload oe = entity_to_dict e r /\ oe_tombstone_for oe = None.

(** The site a device or group row names is one the context sees. *)
Definition site_known (dec : read_decision) (e : entity) (r : row) (s : sync_state) : bool :=
  match e with
  | Device | Group =>
    match col r "site_id" with
    | Val (JStr i) => is_empty i || bool_decide (get_row dec Site i s <> None)
    | Val v => negb (truthy v)
    | Time _ => true
    end
  | Site | User => true
  end.

Section snapshots.
Context `{Clock : IsoClock}.

Lemma dict_get_snapshot e r n :
  dict_get (entity_to_dict e r) n = (fun c => cell_to_json (col r (co_name c))) <$> find_column e n.
Proof.
  unfold entity_to_dict, find_column. induction (columns e) as [|c l IH]; cbn; [done|].
  rewrite (String.eqb_sym n). by destruct (String.eqb (co_name c) n).
Qed.

Lemma find_column_name e n c : find_column e n = Some c -> co_name c = n /\ In c (columns e).
Proof. intros [Hi H]%find_some. by apply String.eqb_eq in H. Qed.

Lemma coerce_isoformat t : coerce_datetime (JStr (isoformat t)) = Time t.
Proof. cbn. by rewrite isoformat_no_z, iso_roundtrip. Qed.

Lemma convert_typed c x : typed_cell c x = true -> convert c (cell_to_json x) = x.
Proof.
  unfold typed_cell, convert. destruct (co_datetime c), x as [v|t]; try done.
  - by destruct v.
  - intros _. cbn [cell_to_json]. apply coerce_isoformat.
Qed.

Lemma full_lookup e r n c : full_row e r -> find_column e n = Some c -> r !! n = Some (col r n).
Proof.
  intros Hf Hc. unfold col. destruct (r !! n) eqn:E; [done|]. apply Hf in E. congruence.
Qed.

Lemma incoming_snapshot e r :
  full_row e r -> typed_row e r -> incoming_of e (JObj (entity_to_dict e r)) = Ret r.
Proof.
  intros Hf Ht. destruct (incoming_total e (entity_to_dict e r)) as [r' H]. rewrite H. f_equal.
  apply map_eq. intros n. rewrite (incoming_lookup _ _ _ n H), dict_get_snapshot.
  destruct (find_column e n) as [c|] eqn:Hc; cbn; [|symmetry; by apply Hf].
  pose proof (find_column_name _ _ _ Hc) as [<- Hi]. rewrite (full_lookup _ _ _ _ Hf Hc).
  f_equal. apply convert_typed. unfold typed_row in Ht. rewrite forallb_forall in Ht. by apply Ht.
Qed.

Lemma fill_id e now r : full_row e r -> fill_defaults e now r = r.
Proof.
  intros Hf. apply map_eq. intros n. rewrite fill_lookup.
  destruct (find_column e n) as [c|] eqn:Hc; [|symmetry; by apply Hf].
  by rewrite (full_lookup _ _ _ _ Hf Hc).
Qed.

Lemma fill_full e now r : full_row e (fill_defaults e now r).
Proof. intros n. rewrite fill_lookup. by destruct (find_column e n). Qed.

Lemma guard_row_full org mode e r r' :
  full_row e r -> guard_row org mode e r = Ret r' -> full_row e r'.
Proof.
  unfold guard_row. intros Hf H. destruct (tenant_scoped e) eqn:Ht; [|by simplify_eq].
  destruct (guard_one _ _ _ _ _).1 as [f|x]; [|done]. simplify_eq.
  destruct (fl_org f) as [o|]; [|done]. intros n.
  destruct (decide (n = "organization_id")) as [->|Hn]; [|by rewrite lookup_insert_ne].
  rewrite lookup_insert_eq. by destruct e.
Qed.

Lemma pin_id e org r : pinned org e r -> pin_org e org r = r.
Proof.
  intros H. unfold pin_org. destruct org as [o|]; [|done]. destruct (tenant_scoped e) eqn:Ht; [|done].
  apply insert_id. by apply H.
Qed.

(** The claim of an emitted event. *)
Lemma claimed_of_json oe :
  claimed_org (event_json oe) =
    match oe_scope_claims oe with
    | Some c => match dget c "organization_id" with
                | JStr o => if is_empty o then None else Some o
                | _ => None
                end
    | None => None
    end.
Proof. unfold claimed_org. cbn. by destruct (oe_scope_claims oe) as [[|]|]. Qed.

Context (db_accepts : gmap (entity * string) row -> bool) (ulid : nat -> string)
        (db_bigint : json -> option Z).

Lemma remap_known org mode e now r s :
  site_known (decision org mode) e r s = true ->
  remap_site db_accepts ulid e org mode now r s = Ret (r, s).
Proof.
  unfold site_known, remap_site. intros H. destruct e; try done.
  all: destruct (col r "site_id") as [v|t]; [|done]; destruct v as [|b|z|f|i|l|d]; cbn in H |- *;
    rewrite ?(negb_true_iff _) in H; try (by rewrite H); try done.
  all: destruct (is_empty i); [done|]; cbn in H |- *; apply bool_decide_eq_true in H;
    by destruct (get_row _ _ _ _).
Qed.

(** What the applier runs for a snapshot. *)
Definition apply_context (mode : enforce) (oe : outbox_event) (e : entity) (id : string) (u : time)
    (r : row) (s : sync_state) : Prop :=
  snapshot oe e id r /\ row_of e id u r /\ pinned (claimed_org (event_json oe)) e r /\
  (forall o, claimed_org (event_json oe) = Some o -> sy_orgs s !! o <> None) /\
  site_known (decision (claimed_org (event_json oe)) mode) e r s = true.

Lemma apply_snapshot mode oe e id u r now s :
  apply_context mode oe e id u r s ->
  apply_event db_accepts ulid db_bigint mode (event_json oe) now s =
    if is_tombstoned s id then (Ret false, s)
    else match upsert db_accepts (claimed_org (event_json oe)) mode e (Some id) r (Some u) now s with
         | Ret (b, s') => (Ret b, s')
         | Raise x => (Raise x, s)
         end.
Proof.
  intros ((Hty & Hid & Hp & Htf) & (Hf & Ht & Hrid & Hru) & Hpin & Hk & Hs).
  set (org := claimed_org (event_json oe)) in *.
  assert (Hcore : forall ev, event_of_data (event_json oe) = Ret ev ->
    apply_core db_accepts ulid db_bigint org mode ev now s =
      if is_tombstoned s id then Ret (false, s)
      else upsert db_accepts org mode e (Some id) r (Some u) now s).
  { intros ev [= <-]. unfold apply_core. cbn -[syncable_model entity_to_dict incoming_of].
    rewrite Hid. destruct (is_tombstoned s id); [done|].
    rewrite Hty. replace (syncable_model (entity_type e)) with (Some e) by (by destruct e).
    rewrite Htf, Hp. cbn -[entity_to_dict incoming_of].
    assert (Hj : jor (JObj (entity_to_dict e r)) (JObj []) = JObj (entity_to_dict e r)) by (by destruct e).
    rewrite Hj, (incoming_snapshot _ _ Hf Ht). cbn -[entity_to_dict].
    rewrite bool_decide_false by (intros ->; by rewrite lookup_empty in Hrid).
    rewrite (pin_id _ _ _ Hpin), (remap_known _ _ _ _ _ _ Hs). cbn -[entity_to_dict].
    unfold dget. rewrite dict_get_snapshot.
    assert (Hu : exists c, find_column e "updated_at" = Some c /\ co_name c = "updated_at")
      by (destruct e; cbn; by eexists).
    destruct Hu as (c & -> & Hc). cbn [fmap option_fmap option_map default]. rewrite Hc.
    unfold col. rewrite Hru. cbn -[entity_to_dict coerce_datetime]. by rewrite coerce_isoformat. }
  assert (Ho : forall ev, event_of_data (event_json oe) = Ret ev ->
            event_org_id ev = Ret org).
  { intros ev [= <-]. unfold event_org_id, org, claimed_org. cbn.
    by destruct (oe_scope_claims oe) as [[|]|]. }
  unfold apply_event. destruct (event_of_data (event_json oe)) as [ev|x] eqn:Hev; [|done].
  unfold session_scope, apply_outbox_event. rewrite (Ho _ eq_refl). cbn.
  assert (Hc : (match org with
                | Some o => if bool_decide (sy_orgs s !! o = None) then Raise UnknownOrgError
                            else apply_core db_accepts ulid db_bigint (Some o) mode ev now s
                | None => apply_core db_accepts ulid db_bigint None mode ev now s end) =
               apply_core db_accepts ulid db_bigint org mode ev now s).
  { destruct org as [o|]; [|done]. by rewrite bool_decide_false by (by apply Hk). }
  rewrite Hc, (Hcore _ eq_refl). destruct (is_tombstoned s id); [done|].
  by destruct (upsert _ _ _ _ _ _ _ _ _) as [[b s']|x].
Qed.

(** The two outcomes of the upsert of a snapshot. *)
Lemma upsert_new org mode e id u r now s :
  row_of e id u r -> pinned org e r -> sy_rows s !! (e, id) = None ->
  find_existing (decision org mode) e (Some id) r s = None ->
  upsert db_accepts org mode e (Some id) r (Some u) now s =
    if db_accepts (<[(e, id) := r]> (sy_rows s))
    then Ret (true, with_rows (<[(e, id) := r]> (sy_rows s)) s) else Raise (DBError "IntegrityError").
Proof.
  intros (Hf & Ht & Hrid & Hru) Hpin Hn Hfe. unfold upsert. rewrite Hfe.
  assert (Hw : with_id (Some id) r = r) by (unfold with_id; by rewrite Hrid).
  rewrite Hw. unfold col at 1. rewrite Hrid. cbn. unfold insert_row.
  rewrite (fill_id _ _ _ Hf), (guard_pinned _ _ _ _ Hpin). cbn.
  rewrite bool_decide_false by (by rewrite Hn; intros []). unfold check.
  by destruct (db_accepts _).
Qed.

Lemma merge_full e id u r u' old :
  row_of e id u r -> row_of e id u' old -> delete "id" r ∪ old = r.
Proof.
  intros (Hf & _ & Hrid & _) (Hf' & _ & Hoid & _). apply map_eq. intros n.
  destruct (decide (n = "id")) as [->|Hn].
  - rewrite lookup_union_r by apply lookup_delete_eq. congruence.
  - destruct (r !! n) as [v|] eqn:E.
    + apply lookup_union_Some_l. by rewrite lookup_delete_ne.
    + rewrite lookup_union_r by (by rewrite lookup_delete_ne). by apply Hf', Hf.
Qed.

Lemma upsert_existing org mode e id u r u' old now s :
  row_of e id u r -> pinned org e r -> row_of e id u' old ->
  get_row (decision org mode) e id s = Some old ->
  upsert db_accepts org mode e (Some id) r (Some u) now s =
    if (u <=? u')%Z then Ret (false, s)
    else if db_accepts (<[(e, id) := r]> (sy_rows s))
    then Ret (true, with_rows (<[(e, id) := r]> (sy_rows s)) s) else Raise (DBError "IntegrityError").
Proof.
  intros Hr Hpin Ho Hg. unfold upsert, find_existing, get_by_id. cbn [mbind option_bind]. rewrite Hg. cbn [mbind option_bind].
  apply get_row_spec in Hg as [Hg _]. rewrite Hg. change (default ∅ (Some old)) with old.
  pose proof Ho as (_ & _ & _ & Hou). unfold col. rewrite Hou. cbn.
  destruct (u <=? u')%Z; [done|]. unfold update_row.
  rewrite (merge_full _ _ _ _ _ _ Hr Ho), (guard_pinned _ _ _ _ Hpin). cbn. unfold check.
  by destruct (db_accepts _).
Qed.

Lemma upsert_rows org mode e id r u now s b s' :
  upsert db_accepts org mode e id r u now s = Ret (b, s') ->
  s' = s \/ exists k x, s' = with_rows (<[(e, k) := x]> (sy_rows s)) s.
Proof.
  unfold upsert. destruct (find_existing _ _ _ _ _) as [k|].
  - destruct (as_utc _) as [t|x]; [|done]. cbn. destruct (stale u t); [intros; simplify_eq; auto|].
    destruct (update_row _ _ _ _ _ _ _ _ _) as [s1|x] eqn:E; [|done]. cbn. intros; simplify_eq.
    apply update_row_spec in E as (x & _ & ->). eauto.
  - destruct (col _ _) as [[| | | |i| |]|]; try done.
    destruct (insert_row _ _ _ _ _ _ _ _) as [s1|x] eqn:E; [|done]. cbn. intros; simplify_eq.
    apply insert_row_spec in E as (_ & x & _ & ->). eauto.
Qed.

Lemma site_known_write dec e r s k x :
  site_known dec e r (with_rows (<[(e, k) := x]> (sy_rows s)) s) = site_known dec e r s.
Proof.
  unfold site_known. destruct e; try done.
  all: destruct (col r "site_id") as [[| | | |i| |]|]; try done;
    unfold get_row; cbn; by rewrite !lookup_insert_ne by done.
Qed.

(** After an upsert of a snapshot, a second one finds a row at least as new. *)
Lemma upsert_found org mode e id u r now s b s' :
  row_of e id u r -> pinned org e r ->
  upsert db_accepts org mode e (Some id) r (Some u) now s = Ret (b, s') ->
  exists k t, find_existing (decision org mode) e (Some id) r s' = Some k /\
    as_utc (col (default ∅ (sy_rows s' !! (e, k))) "updated_at") = Ret t /\ stale (Some u) t = true.
Proof.
  intros Hr Hpin H. pose proof Hr as (Hf & _ & Hrid & Hru). unfold upsert in H.
  destruct (find_existing _ e (Some id) r s) as [k|] eqn:Hfe.
  - destruct (as_utc _) as [t|x] eqn:Ht; [|done]. cbn -[stale] in H.
    destruct (stale (Some u) t) eqn:Hst; [simplify_eq; eauto|].
    destruct (update_row _ _ _ _ _ _ _ _ _) as [s1|x] eqn:E; [|done]. cbn in H. simplify_eq.
    apply update_row_spec in E as (r' & Hg & ->).
    set (old := default ∅ (sy_rows s !! (e, k))) in *.
    assert (Hl : forall n v, n <> "id" -> r !! n = Some v -> (delete "id" r ∪ old) !! n = Some v)
      by (intros n v Hn E; apply lookup_union_Some_l; by rewrite lookup_delete_ne).
    assert (Hpin' : pinned org e (delete "id" r ∪ old))
      by (intros Hts o Ho; apply Hl; [done|by apply Hpin]).
    rewrite (guard_pinned _ _ _ _ Hpin') in Hg. simplify_eq. exists k, (Some u). split_and!.
    + unfold find_existing, get_by_id in *. cbn [mbind option_bind] in *.
      destruct (get_row (decision org mode) e id s) as [x|] eqn:Hgi; cbn [mbind option_bind] in Hfe.
      * simplify_eq. unfold get_row. cbn. by rewrite lookup_insert_eq, (sees_pinned _ _ _ _ Hpin').
      * destruct (natural_key e) as [nk|] eqn:Hnk; [|done].
        destruct (bool_decide (col r nk = null)) eqn:Hnull; [done|].
        pose proof Hfe as Hk. apply first_where_elem, elem_of_ids_where in Hk as (x & Hx & Hxs & Hxp).
        assert (Hne : (e, k) <> (e, id)).
        { intros [= ->]. unfold get_row in Hgi. by rewrite Hx, Hxs in Hgi. }
        assert (Hget : get_row (decision org mode) e id
                  (with_rows (<[(e, k) := delete "id" r ∪ old]> (sy_rows s)) s) = None).
        { unfold get_row in *. cbn. by rewrite lookup_insert_ne. }
        rewrite Hget. rewrite <- Hfe. unfold first_where. do 2 f_equal.
        assert (Hcol : col (delete "id" r ∪ old) nk = col r nk).
        { apply bool_decide_eq_false in Hnull. unfold col in *.
          destruct (r !! nk) as [v|] eqn:En; [|done]. rewrite (Hl nk v); [done| |done].
          clear -Hnk. destruct e; by simplify_eq/=. }
        apply set_eq. intros i. rewrite !elem_of_ids_where. cbn.
        destruct (decide (i = k)) as [->|Hik]; [|by rewrite lookup_insert_ne by congruence].
        split; intros _; [by eauto|]. rewrite lookup_insert_eq. eexists. split_and!; [done| |].
        -- by apply sees_pinned.
        -- by apply bool_decide_true.
    + cbn. rewrite lookup_insert_eq. cbn. unfold col. by rewrite (Hl "updated_at" _ ltac:(done) Hru).
    + cbn. apply Z.leb_refl.
  - assert (Hw : with_id (Some id) r = r) by (unfold with_id; by rewrite Hrid).
    rewrite Hw in H. unfold col in H at 1. rewrite Hrid in H. cbn in H.
    destruct (insert_row _ _ _ _ _ _ _ _) as [s1|x] eqn:E; [|done]. cbn in H. simplify_eq.
    apply insert_row_spec in E as (_ & x & Hg & ->).
    rewrite (fill_id _ _ _ Hf), (guard_pinned _ _ _ _ Hpin) in Hg. simplify_eq.
    exists id, (Some u). cbn. rewrite lookup_insert_eq. split_and!.
    + unfold find_existing, get_by_id, get_row. cbn.
      by rewrite lookup_insert_eq, (sees_pinned _ _ _ _ Hpin).
    + cbn. unfold col. by rewrite Hru.
    + apply Z.leb_refl.
Qed.
End snapshots.
