(* ===== verification/SyncConvergence.v ===== *)
(** * Multi-hub sync: replication, idempotence, convergence

    The three promises of the applier on the events hubs really emit. *)

From stdpp Require Import pretty.
From S2P Require Import Prelude TenantScope SyncModel SyncApply SyncFacts SyncReplicator SyncTheorems.
From S2P Require Import SyncSnapshot.
Local Open Scope string_scope.
Local Open Scope list_scope.

(** The last writer of a history of row versions. *)
Abbreviation version := (time * row)%type.
Definition newest (a : version) (l : list version) : version :=
  foldl (fun a x => if (x.1 <=? a.1)%Z then a else x) a l.

Lemma newest_spec a l :
  newest a l ∈ a :: l /\ forall x, x ∈ a :: l -> (x.1 <= (newest a l).1)%Z.
Proof.
  unfold newest. revert a. induction l as [|y l IH]; intros a; cbn.
  { split; [left|]. intros x ->%list_elem_of_singleton. done. }
  destruct (IH (if (y.1 <=? a.1)%Z then a else y)) as [Hin Hmax]. split.
  - apply elem_of_cons in Hin as [->|Hin]; [|by do 2 right].
    destruct (_ <=? _)%Z; [left|right; left].
  - intros x Hx. pose proof (Hmax _ ltac:(left)) as H0. rewrite !elem_of_cons in Hx.
    destruct (y.1 <=? a.1)%Z eqn:E; bool_to_prop.
    + destruct Hx as [->|[->|Hx]]; [done|lia|]. apply Hmax. by right.
    + destruct Hx as [->|[->|Hx]]; [lia|done|]. apply Hmax. by right.
Qed.

Section convergence.
Context `{Clock : IsoClock}.
Context (db_accepts : gmap (entity * string) row -> bool) (ulid : nat -> string)
        (db_bigint : json -> option Z).

Lemma site_claim s r oe :
  typed_row Site r -> claimed_org (event_json oe) <> None ->
  oe_scope_claims oe = scope_claims_for Site (entity_to_dict Site r) s ->
  pinned (claimed_org (event_json oe)) Site r.
Proof.
  intros Ht Hne Hc _ o Ho. rewrite claimed_of_json, Hc in Ho. clear Hne Hc.
  unfold typed_row in Ht. cbn in Ht. apply andb_prop in Ht as [Ht _].
  unfold scope_claims_for, dget in Ho. cbn in Ho. unfold col in *.
  destruct (r !! "organization_id") as [[v|t]|]; cbn in *; [|done|done].
  destruct (truthy v); [|done]. cbn in Ho. destruct v as [| | | |o'| |]; try done.
  destruct (is_empty o'); [done|]. by simplify_eq.
Qed.

(** A row created on one hub becomes the same row on another: the ORM insert on
    hub A appends exactly one event to A's outbox, with the next sequence number,
    and applying that event on a hub B that lacks the row, knows the claimed
    organisation and sees the named site stores the identical row -- every column,
    to the microsecond -- and changes nothing else: no echo in B's outbox, no
    other row, no tombstone. *)
Theorem replicated_row_is_the_original dbA orgA modeA e id given u r nowA sA sA' :
  orm_insert dbA false orgA modeA e id given nowA sA = Ret sA' ->
  sy_rows sA' !! (e, id) = Some r -> typed_row e r ->
  r !! "id" = Some (Val (JStr id)) -> r !! "updated_at" = Some (Time u) ->
  exists oe, sy_outbox sA' = sy_outbox sA ++ [oe] /\ oe_seq oe = next_seq sA /\
    forall mode now sB, let org := claimed_org (event_json oe) in
      (e = Group -> pinned org e r) ->
      (forall o, org = Some o -> sy_orgs sB !! o <> None) ->
      site_known (decision org mode) e r sB = true ->
      is_tombstoned sB id = false -> sy_rows sB !! (e, id) = None ->
      (forall k i x, natural_key e = Some k -> sy_rows sB !! (e, i) = Some x -> col x k <> col r k) ->
      db_accepts (<[(e, id) := r]> (sy_rows sB)) = true ->
      apply_event db_accepts ulid db_bigint mode (event_json oe) now sB =
        (Ret true, with_rows (<[(e, id) := r]> (sy_rows sB)) sB).
Proof.
  intros H Hr Ht Hrid Hru. unfold orm_insert in H.
  destruct (guard_row _ _ _ _) as [r'|x] eqn:Hg; [|done]. cbn in H.
  case_bool_decide; [done|]. unfold check in H. destruct (dbA _); [|done]. cbn in H. simplify_eq.
  cbn in Hr. rewrite lookup_insert_eq in Hr. simplify_eq.
  pose proof (guard_row_full _ _ _ _ _ (fill_full e nowA given) Hg) as Hf.
  eexists. split; [done|]. split; [done|].
  set (oe := OutboxEvent _ _ _ _ _ _ _ _). intros mode now sB org Hpin Hk Hs Htomb Hn Hnk Hdb.
  assert (Hp : pinned org e r).
  { destruct e; [done| |by apply Hpin|done]. destruct (decide (org = None)) as [->|Hne]; [done|].
    apply (site_claim (with_rows (<[(Site, id) := r]> (sy_rows sA)) sA)); done. }
  rewrite (apply_snapshot db_accepts ulid db_bigint mode oe e id u r).
  2: { split; [done|]. split; [done|]. by split_and!. }
  rewrite Htomb, (upsert_new db_accepts org mode e id u r), Hdb; [done|done|done|done|].
  unfold find_existing, get_by_id, get_row. cbn. rewrite Hn. cbn. destruct (natural_key e) as [k|]; [|done].
  case_bool_decide; [done|]. destruct (first_where _ _ _ _) as [i|] eqn:Hi; [|done].
  apply first_where_elem, elem_of_ids_where in Hi as (x & Hx & _ & Hc).
  apply bool_decide_eq_true in Hc. by destruct (Hnk k i x).
Qed.

(** A delete applied twice. *)
Lemma redelete mode oe id now now' s b s1 :
  oe_tombstone_for oe = Some id -> oe_entity_id oe = id -> is_empty id = false ->
  apply_event db_accepts ulid db_bigint mode (event_json oe) now s = (Ret b, s1) ->
  apply_event db_accepts ulid db_bigint mode (event_json oe) now' s1 = (Ret false, s1).
Proof.
  intros Htf Hid Hne H. apply apply_event_ret in H as (ev & Hev & Hk & Ho & H). apply apply_event_ret.
  exists ev. split; [done|]. split.
  { intros o Hc. pose proof H as (i & (Ho' & _) & _)%apply_core_frame. rewrite Ho'. by apply Hk. }
  split; [done|]. apply event_of_data_fields in Hev as (_ & _ & Hi & _ & _ & _ & Hf).
  cbn in Hi. simplify_eq. unfold apply_core in *. rewrite <- Hi, <- Hf in *.
  cbn -[get_row syncable_model] in *. rewrite Htf in *.
  destruct (is_tombstoned s (oe_entity_id oe)) eqn:Ht; [simplify_eq; by rewrite Ht|].
  destruct (match ev_entity_type ev with JStr t => _ | _ => _ end) as [[e'|]|x]; [| |done];
    cbn -[get_row] in *; [|simplify_eq; by rewrite Ht].
  rewrite Hne in *. cbn -[get_row] in *.
  destruct (add_tombstone _ _ _ _ _ _) as [s0|x] eqn:Ha; [|done]. cbn -[get_row] in *.
  apply add_tombstone_spec in Ha as (m & -> & _ & Hm).
  assert (is_tombstoned s1 (oe_entity_id oe) = true) as ->; [|done].
  apply is_tombstoned_spec. destruct (get_row _ _ _ _); [|by simplify_eq].
  unfold orm_delete, check in H. destruct (db_accepts _); [|done]. cbn in H. by simplify_eq.
Qed.

(** Re-delivery is harmless: once a hub has applied (or skipped) an event, applying
    it again -- at any later time -- is skipped and changes nothing.  This holds
    for every create and update a hub emits, also when the row was reconciled with
    a local row of another id on its natural key, and for every delete. *)
Theorem reapplying_is_a_noop mode oe e id u r now now' s b s1 :
  apply_context mode oe e id u r s \/ (oe_tombstone_for oe = Some id /\ oe_entity_id oe = id) ->
  is_empty id = false ->
  apply_event db_accepts ulid db_bigint mode (event_json oe) now s = (Ret b, s1) ->
  apply_event db_accepts ulid db_bigint mode (event_json oe) now' s1 = (Ret false, s1).
Proof.
  intros [Hc|[Htf Hid]] Hne H.
  - rewrite (apply_snapshot _ _ _ _ _ _ _ _ _ _ _ Hc) in H.
    pose proof Hc as (Hsn & Hr & Hpin & Hk & Hs).
    set (org := claimed_org (event_json oe)) in *.
    destruct (is_tombstoned s id) eqn:Ht.
    { simplify_eq. by rewrite (apply_snapshot _ _ _ _ _ _ _ _ _ _ _ Hc), Ht. }
    destruct (upsert _ _ _ _ _ _ _ _ _) as [[b' s']|x] eqn:Hu; simplify_eq.
    assert (Hc' : apply_context mode oe e id u r s1 /\ is_tombstoned s1 id = false).
    { apply upsert_rows in Hu as [->|(k & x & ->)]; [done|]. split; [|done].
      split; [done|]. split; [done|]. split; [done|]. split; [done|].
      by rewrite site_known_write. }
    destruct Hc' as [Hc' Ht1]. destruct (upsert_found _ _ _ _ _ _ _ _ _ _ _ Hr Hpin Hu)
      as (k & t & Hfe & Ht' & Hst).
    rewrite (apply_snapshot _ _ _ _ _ _ _ _ _ _ _ Hc').
    rewrite Ht1. fold org. unfold upsert. rewrite Hfe, Ht'. cbn -[stale]. by rewrite Hst.
  - by apply (redelete mode oe id now now' s b s1).
Qed.

(** The versions a list of events carries, replayed over the row of [id]. *)
Lemma replay_versions mode e id org s (l : list (outbox_event * version)) stamps a :
  length stamps = length l -> is_tombstoned s id = false ->
  Forall (fun x => apply_context mode x.1 e id x.2.1 x.2.2 s /\
                   claimed_org (event_json x.1) = org /\
                   db_accepts (<[(e, id) := x.2.2]> (sy_rows s)) = true) l ->
  row_of e id a.1 a.2 -> sees (decision org mode) e a.2 = true ->
  replay db_accepts ulid db_bigint mode (zip ((fun x => event_json x.1) <$> l) stamps)
    (with_rows (<[(e, id) := a.2]> (sy_rows s)) s) =
  with_rows (<[(e, id) := (newest a l.*2).2]> (sy_rows s)) s.
Proof.
  intros Hlen Htomb Hall. revert stamps a Hlen.
  induction Hall as [|[oe [u r]] l (Hc & Ho & Hdb) _ IH]; intros [|t stamps] a Hlen Ha Hv; try done.
  cbn in Hlen. injection Hlen as Hlen. cbn -[with_rows event_json]. cbn in Hc, Ho, Hdb. subst org.
  pose proof Hc as (Hsn & Hr & Hpin & Hk & Hs).
  set (sa := with_rows (<[(e, id) := a.2]> (sy_rows s)) s).
  assert (Hca : apply_context mode oe e id u r sa)
    by (split; [done|]; split; [done|]; split; [done|]; split; [done|];
        unfold sa; by rewrite site_known_write).
  rewrite (apply_snapshot _ _ _ _ _ _ _ _ _ _ _ Hca).
  assert (is_tombstoned sa id = false) as -> by done.
  rewrite (upsert_existing db_accepts _ _ _ _ _ _ a.1 a.2); [|done..|].
  2: { apply get_row_spec. split; [|done]. unfold sa. cbn. by rewrite lookup_insert_eq. }
  destruct (u <=? a.1)%Z; cbn; [by apply IH|].
  rewrite insert_insert_eq, Hdb. cbn. apply (IH stamps (u, r)); [done..|].
  by apply sees_pinned.
Qed.

(** C2. Hubs converge.  Take the versions of one row that hubs wrote, each with its own
    timestamp, and a hub that holds one of them.  Whatever the order in which their
    events arrive, however often each is delivered and whenever, the hub ends with
    the same row: the one with the latest [updated_at]; nothing else changes. *)
Theorem hubs_converge_to_the_last_writer mode e id org s a (l : list (outbox_event * version)) :
  is_tombstoned s id = false ->
  get_row (decision org mode) e id s = Some a.2 -> row_of e id a.1 a.2 ->
  Forall (fun x => apply_context mode x.1 e id x.2.1 x.2.2 s /\
                   claimed_org (event_json x.1) = org /\
                   db_accepts (<[(e, id) := x.2.2]> (sy_rows s)) = true) l ->
  (forall x y, x ∈ a :: l.*2 -> y ∈ a :: l.*2 -> x.1 = y.1 -> x = y) ->
  exists w, w ∈ a :: l.*2 /\ (forall x, x ∈ a :: l.*2 -> (x.1 <= w.1)%Z) /\
    forall l' stamps, (forall x, x ∈ l' <-> x ∈ l) -> length stamps = length l' ->
      replay db_accepts ulid db_bigint mode (zip ((fun x => event_json x.1) <$> l') stamps) s =
      with_rows (<[(e, id) := w.2]> (sy_rows s)) s.
Proof.
  intros Htomb Hg Ha Hall Hinj. exists (newest a l.*2).
  destruct (newest_spec a l.*2) as [Hin Hmax]. split; [done|]. split; [done|].
  intros l' stamps Hl Hlen. apply get_row_spec in Hg as [Hrow Hv].
  assert (Hs : s = with_rows (<[(e, id) := a.2]> (sy_rows s)) s)
    by (destruct s; unfold with_rows; cbn in *; by rewrite insert_id).
  rewrite Hs at 1. rewrite (replay_versions mode e id org s l' stamps a); [|done..| |done|done].
  - do 3 f_equal. destruct (newest_spec a l'.*2) as [Hin' Hmax'].
    assert (Hl2 : forall x, x ∈ a :: l'.*2 <-> x ∈ a :: l.*2).
    { intros x. rewrite !elem_of_cons, !list_elem_of_fmap. by setoid_rewrite Hl. }
    rewrite Hl2 in Hin'. apply Hinj; [done..|].
    pose proof (Hmax _ Hin'). pose proof (Hmax' (newest a l.*2) ltac:(by apply Hl2)). lia.
  - rewrite Forall_forall in *. intros x Hx. by apply Hall, Hl.
Qed.
End convergence.
