(* ===== verification/SyncProtocol.v ===== *)
(** * Multi-hub sync: the pull protocol is correct

    Which tokens a hub accepts, what a batch does to the tables and the cursor, and
    that polling replays the peer's outbox in order, each event once. *)

From Stdlib Require Import Ascii.
From stdpp Require Import pretty.
From S2P Require Import Prelude TenantScope SyncModel SyncApply SyncReplicator SyncTheorems.
Local Open Scope string_scope.
Local Open Scope list_scope.

(** ** Tokens *)

(** A text without the separator. *)
Fixpoint no_dot (s : string) : bool :=
  match s with
  | EmptyString => true
  | String a r => negb (Ascii.eqb a "."%char) && no_dot r
  end.

Fixpoint join_dot (l : list string) : string :=
  match l with
  | [] => EmptyString
  | [w] => w
  | w :: l => String.append w (String "."%char (join_dot l))
  end.

Lemma split_dot_cons s : exists w l, split_dot s = w :: l.
Proof.
  induction s as [|a s (w & l & IH)]; cbn; [by do 2 eexists|].
  rewrite IH. destruct (Ascii.eqb a "."); by do 2 eexists.
Qed.

Lemma append_cons x a b : String.append (String x a) b = String x (String.append a b).
Proof. done. Qed.

Lemma join_split s : join_dot (split_dot s) = s.
Proof.
  induction s as [|a s IH]; cbn; [done|]. destruct (split_dot_cons s) as (w & l & E).
  rewrite E in *. destruct (Ascii.eqb_spec a ".") as [->|_].
  - cbn. by rewrite <- IH.
  - rewrite <- IH. by destruct l.
Qed.

Lemma split_dot_app a b :
  split_dot (String.append a (String "."%char b)) = split_dot a ++ split_dot b.
Proof.
  induction a as [|x a IH]; [done|]. rewrite append_cons. cbn. rewrite IH.
  destruct (Ascii.eqb x "."); [done|]. destruct (split_dot_cons a) as (w & l & ->). done.
Qed.

Lemma split_no_dot s : no_dot s = true -> split_dot s = [s].
Proof.
  induction s as [|a s IH]; cbn; [done|]. intros [Ha Hs]%andb_prop.
  apply negb_true_iff in Ha. by rewrite Ha, (IH Hs).
Qed.

Lemma split_one s w : split_dot s = [w] -> no_dot s = true.
Proof.
  revert w. induction s as [|a s IH]; intros w; cbn; [done|].
  destruct (split_dot_cons s) as (v & l & E). rewrite E in *.
  destruct (Ascii.eqb a "."); cbn; [done|]. intros [= _ ->]. by eapply IH.
Qed.

Section auth.
(** [hexdigest()] is lower-case hexadecimal. *)
Context (hmac_hex : list Z -> string -> string).
Hypothesis hexdigest_plain : forall k p, no_dot (hmac_hex k p) && is_ascii (hmac_hex k p) = true.

Lemma verify_generated setting key p :
  get_sync_hmac_key setting = Some key -> key <> [] ->
  generate_hmac_bearer_token hmac_hex setting p =
    Ret (join3 "hmac-sha256" p (hmac_hex key p)) /\
  verify_hmac_bearer hmac_hex setting (join3 "hmac-sha256" p (hmac_hex key p)) = Ret (no_dot p).
Proof.
  intros Hk Hne. pose proof (hexdigest_plain key p) as [Hd Ha]%andb_prop. split.
  - unfold generate_hmac_bearer_token. rewrite Hk. unfold get_sync_hmac_key in Hk.
    by destruct (truthy setting).
  - unfold verify_hmac_bearer. rewrite Hk. destruct key as [|z key]; [done|].
    unfold join3. rewrite !split_dot_app, (split_no_dot (hmac_hex _ _)) by done.
    destruct (no_dot p) eqn:Hp.
    + rewrite (split_no_dot p) by done. cbn. unfold compare_digest. by rewrite Ha, String.eqb_refl.
    + destruct (split_dot_cons p) as (w & l & E). rewrite E. destruct l as [|w' l].
      { apply split_one in E. congruence. }
      cbn. by destruct l.
Qed.

(** Which requests a hub serves as those of a peer.  The token a hub generates
    under the shared key is accepted if and only if the hub's identifier has no
    dot: a hub named after its host name is refused by every peer (403).  And
    nothing else is accepted: an accepted token is the HMAC, under the hub's own
    non-empty key, of the identifier it shows. *)
Theorem peer_tokens_are_authentic setting key :
  get_sync_hmac_key setting = Some key -> key <> [] ->
  (forall p, exists tok, generate_hmac_bearer_token hmac_hex setting p = Ret tok /\
     sync_peer_required hmac_hex setting (String.append "Bearer " tok) =
       Ret (if no_dot p then AsPeer else InvalidToken)) /\
  (forall hdr, sync_peer_required hmac_hex setting hdr = Ret AsPeer ->
     exists p, str_drop 7 hdr = join3 "hmac-sha256" p (hmac_hex key p)).
Proof.
  intros Hk Hne. split.
  - intros p. destruct (verify_generated setting key p Hk Hne) as [Hg Hv].
    eexists. split; [exact Hg|]. unfold sync_peer_required. rewrite startswith_app. cbn [negb].
    assert (Hd : str_drop 7 (String.append "Bearer " (join3 "hmac-sha256" p (hmac_hex key p))) =
                 join3 "hmac-sha256" p (hmac_hex key p)) by done.
    assert (Hs : startswith "hmac-sha256." (join3 "hmac-sha256" p (hmac_hex key p)) = true)
      by apply (startswith_app "hmac-sha256.").
    rewrite Hd, Hs, Hv. cbn. by destruct (no_dot p).
  - intros hdr. unfold sync_peer_required. destruct (startswith _ hdr); [|done]. cbn [negb].
    set (tok := str_drop 7 hdr). destruct (startswith _ tok); [|done].
    unfold verify_hmac_bearer. rewrite Hk. destruct key as [|z key]; [done|].
    pose proof (join_split tok) as Hj.
    destruct (split_dot tok) as [|a [|b [|c [|x l]]]]; try done.
    destruct (String.eqb_spec a "hmac-sha256") as [->|]; [|done]. unfold compare_digest.
    destruct (_ && _); [|done]. cbn.
    destruct (String.eqb_spec (hmac_hex (z :: key) b) c) as [<-|]; [|done].
    intros _. exists b. symmetry. exact Hj.
Qed.
End auth.

(** ** Batches and ticks *)

Definition total (t : stats) : nat := st_applied t + st_skipped t + st_errors t.

Section protocol.
Context `{Clock : IsoClock}.
Context (db_accepts : gmap (entity * string) row -> bool) (ulid : nat -> string)
        (db_bigint : json -> option Z) (json_loads : string -> option json)
        (http_get : json -> Z -> Z -> option json).

(** The events of one batch are applied at the instant of its tick. *)
Definition at_time (now : time) (ds : list pydict) : list (pydict * time) := (fun d => (d, now)) <$> ds.

Lemma batch_loop_app mode now ds rest b s :
  exists b', batch_loop db_accepts ulid db_bigint mode now ((JObj <$> ds) ++ rest) b s =
      batch_loop db_accepts ulid db_bigint mode now rest b'
        (replay db_accepts ulid db_bigint mode (at_time now ds) s) /\
    (ds = [] -> b' = b) /\ total (ba_stats b') = total (ba_stats b) + length ds /\
    (forall d, last ds = Some d -> dget d "seq" <> JNull -> ba_last_seq b' = dget d "seq") /\
    ((ba_last_error b = None <-> st_errors (ba_stats b) = 0) ->
     (ba_last_error b' = None <-> st_errors (ba_stats b') = 0)).
Proof.
  revert b s. induction ds as [|d ds IH]; intros b s.
  { exists b. split_and!; [done|done|cbn; lia|done|done]. }
  cbn. unfold batch_step. destruct (apply_event _ _ _ _ _ _ _) as [r s1] eqn:E.
  match goal with |- context [batch_loop _ _ _ _ _ _ ?b1 s1] =>
    destruct (IH b1 s1) as (b' & Hb & Hnil & Ht & Hs & He); cbn in Ht, Hs, He end.
  exists b'. rewrite Hb. split_and!.
  - done.
  - done.
  - rewrite Ht. unfold total. destruct r as [[]|]; cbn; lia.
  - intros d' Hl Hn. destruct ds as [|d2 ds]; [|by apply Hs].
    cbn in Hl. simplify_eq. rewrite (Hnil eq_refl). cbn.
    by rewrite bool_decide_false.
  - intros H0. apply He. destruct r as [[]|]; cbn; [done|done|by split].
Qed.

Lemma apply_batch_spec mode peer ds d z q now h :
  last ds = Some d -> dget d "seq" = JInt z -> db_bigint (JInt z) = Some q ->
  exists st err,
    apply_event_batch db_accepts ulid db_bigint mode peer (JList (JObj <$> ds)) now h =
      (Ret st, Hub (replay db_accepts ulid db_bigint mode (at_time now ds) (hub_db h))
                   (<[peer := Cursor q now err ((fun _ => now) <$> err)]> (hub_cursors h))) /\
    total st = length ds /\ (err = None <-> st_errors st = 0).
Proof.
  intros Hl Hz Hq.
  destruct (batch_loop_app mode now ds [] empty_batch (hub_db h)) as (b & Hb & _ & Ht & Hs & He).
  rewrite app_nil_r in Hb. cbn in Hb. do 2 eexists. split_and!.
  - unfold apply_event_batch. cbn [py_iter]. rewrite Hb, (Hs d), Hz by (by rewrite ?Hz).
    cbn. unfold update_sync_cursor, bigint. by rewrite Hq.
  - by rewrite Ht.
  - by apply He.
Qed.

(** One batch of events: whatever each of them does -- applied, skipped as stale or
    tombstoned, or refused with any exception -- every event is tried, in order, in
    its own transaction, and is counted once; a refused event leaves no trace in
    the tables; the cursor moves to the last event, and shows an error exactly when
    one occurred; nothing is emitted. *)
Theorem batch_is_contained mode peer ds d z q now h :
  last ds = Some d -> dget d "seq" = JInt z -> db_bigint (JInt z) = Some q ->
  exists st err s',
    apply_event_batch db_accepts ulid db_bigint mode peer (JList (JObj <$> ds)) now h =
      (Ret st, Hub s' (<[peer := Cursor q now err ((fun _ => now) <$> err)]> (hub_cursors h))) /\
    s' = replay db_accepts ulid db_bigint mode (at_time now ds) (hub_db h) /\
    total st = length ds /\ (err = None <-> st_errors st = 0) /\
    sy_outbox s' = sy_outbox (hub_db h).
Proof.
  intros Hl Hz Hq. destruct (apply_batch_spec mode peer ds d z q now h) as (st & err & H & Ht & He); [done..|].
  rewrite H. do 3 eexists. split_and!; [done|done|done|done|apply replay_outbox].
Qed.

(** The settings of a hub with one peer. *)
Definition one_peer (p : string) (url : json) : json := JList [JObj [("id", JStr p); ("url", url)]].

(** Ticks at the given instants. *)
Definition run_ticks (mode : enforce) (p : string) (url : json) (ts : list time) (h : hub) : hub :=
  foldl (fun h t => (tick db_accepts ulid db_bigint json_loads http_get (JBool true)
                          (one_peer p url) mode t h).2) h ts.

Lemma tick_one_peer mode p url t h :
  is_empty p = false -> truthy url = true ->
  (tick db_accepts ulid db_bigint json_loads http_get (JBool true) (one_peer p url) mode t h).2 =
  (sync_peer db_accepts ulid db_bigint http_get mode (JStr p) url t h).2.
Proof.
  intros Hp Hu. unfold tick, get_peer_hubs, one_peer. cbn -[sync_peer]. unfold tick_peer.
  cbn -[sync_peer]. rewrite Hp, Hu. cbn -[sync_peer].
  by destruct (sync_peer _ _ _ _ _ _ _ _ _) as [[st|x] h'].
Qed.

Lemma run_ticks_cons mode p url t ts h :
  is_empty p = false -> truthy url = true ->
  run_ticks mode p url (t :: ts) h =
  run_ticks mode p url ts (sync_peer db_accepts ulid db_bigint http_get mode (JStr p) url t h).2.
Proof. intros Hp Hu. unfold run_ticks at 1. cbn [foldl]. by rewrite tick_one_peer. Qed.

(** A single malformed element in a peer's answer -- anything but an object --
    stops the replication from that peer for good: the events before it are
    applied, the cursor does not move, and every later tick gets the same answer
    and stops at the same place. *)
Theorem malformed_event_wedges_the_peer mode p url data ds v rest h ts :
  is_empty p = false -> truthy url = true ->
  http_get url (get_sync_cursor p h) 100 = Some (JObj data) ->
  dget_default data "events" (JList []) = JList ((JObj <$> ds) ++ v :: rest) ->
  as_dict v = None ->
  hub_cursors (run_ticks mode p url ts h) = hub_cursors h.
Proof.
  intros Hp Hu Hg Hd Hv. revert h Hg. induction ts as [|t ts IH]; intros h Hg; [done|].
  rewrite run_ticks_cons by done.
  assert (Hc : hub_cursors (sync_peer db_accepts ulid db_bigint http_get mode (JStr p) url t h).2 =
               hub_cursors h).
  { unfold sync_peer. cbn -[apply_event_batch get_sync_cursor]. unfold fetch_events_from_peer.
    rewrite Hg, Hd.
    assert (truthy (JList ((JObj <$> ds) ++ v :: rest)) = true) as -> by (by destruct ds).
    unfold apply_event_batch. cbn [py_iter].
    destruct (batch_loop_app mode t ds (v :: rest) empty_batch (hub_db h)) as (b & -> & _).
    by destruct v. }
  rewrite IH; [done|]. unfold get_sync_cursor. by rewrite Hc.
Qed.

(** ** Polling *)

(** What the peer with tables [sA] answers. *)
Definition serve (sA : sync_state) (since limit : Z) : option json :=
  match sync_page since limit sA with Ret v => Some v | Raise _ => None end.

(** The events of [sA] after sequence number [c]. *)
Definition pending (c : Z) (sA : sync_state) : list outbox_event :=
  List.filter (fun e => c <? oe_seq e)%Z (sy_outbox sA).

Definition by_seq (l : list outbox_event) : Prop :=
  StronglySorted (fun a b => oe_seq a < oe_seq b)%Z l.

Lemma by_seq_filter f l : by_seq l -> by_seq (List.filter f l).
Proof.
  induction 1 as [|a l Hs IH Hf]; cbn; [constructor|]. destruct (f a); [|done]. constructor; [done|].
  rewrite Forall_forall in *. intros x Hx. apply Hf. rewrite !list_elem_of_In, filter_In in *. naive_solver.
Qed.

Lemma order_by_seq l : by_seq l -> order_by oe_seq l = l.
Proof.
  intros H. assert (Hk : StronglySorted (key_le oe_seq) l).
  { induction H as [|a l _ IH Hf]; constructor; [done|]. eapply Forall_impl; [done|].
    cbn. unfold key_le. lia. }
  apply (StronglySorted_unique_strong (key_le oe_seq)); [|apply order_by_sorted|done|apply order_by_perm].
  intros x y Hx Hy Hxy Hyx. rewrite (order_by_perm oe_seq l) in Hx.
  assert (Heq : oe_seq x = oe_seq y) by (unfold key_le in *; lia). clear -H Hx Hy Heq.
  induction H as [|a l _ IH Hf]; [by apply elem_of_nil in Hx|]. rewrite Forall_forall in Hf.
  apply elem_of_cons in Hx as [->|Hx], Hy as [->|Hy]; [done| | |by apply IH].
  - apply Hf in Hy. lia.
  - apply Hf in Hx. lia.
Qed.

Lemma filter_none {A} (f : A -> bool) l : (forall x, x ∈ l -> f x = false) -> List.filter f l = [].
Proof.
  induction l as [|a l IH]; intros H; cbn; [done|]. rewrite H by left. apply IH. intros x Hx.
  apply H. by right.
Qed.

Lemma filter_all {A} (f : A -> bool) l : (forall x, x ∈ l -> f x = true) -> List.filter f l = l.
Proof.
  intros H. apply forallb_filter_id, forallb_forall. intros x Hx. apply H. by apply list_elem_of_In.
Qed.

(** The next page starts where the last one ended. *)
Lemma filter_after_page p d e :
  by_seq (p ++ d) -> last p = Some e ->
  List.filter (fun x => oe_seq e <? oe_seq x)%Z (p ++ d) = d.
Proof.
  intros [Hpd [Hp _]]%StronglySorted_app [p' ->]%last_Some.
  apply StronglySorted_app in Hp as (Hle & _ & _).
  rewrite List.filter_app, (filter_none _ (p' ++ [e])), (filter_all _ d); [done| |].
  - intros x Hx. apply Z.ltb_lt, Hpd; [|done]. apply elem_of_app. right. left.
  - intros x [Hx| ->%list_elem_of_singleton]%elem_of_app; apply Z.ltb_ge; [|done].
    specialize (Hle x e Hx ltac:(left)). cbn in Hle. lia.
Qed.

Lemma pending_filter c c' s :
  (c <= c')%Z -> List.filter (fun e => c' <? oe_seq e)%Z (pending c s) = pending c' s.
Proof.
  intros Hle. unfold pending. induction (sy_outbox s) as [|a l IH]; cbn; [done|].
  destruct (c <? oe_seq a)%Z eqn:E1, (c' <? oe_seq a)%Z eqn:E2; cbn; rewrite ?E2, ?IH; try done.
  bool_to_prop. lia.
Qed.

Lemma replay_app mode a b s :
  replay db_accepts ulid db_bigint mode (a ++ b) s =
  replay db_accepts ulid db_bigint mode b (replay db_accepts ulid db_bigint mode a s).
Proof. apply foldl_app. Qed.

(** The cursor of [p] after the events of a page. *)
Definition cursor_after (c : Z) (l : list outbox_event) : Z :=
  match last l with Some e => oe_seq e | None => c end.

Lemma cursor_after_pending c l s :
  by_seq (pending c s) -> pending c s = l ++ drop (length l) (pending c s) ->
  pending (cursor_after c l) s = drop (length l) (pending c s).
Proof.
  intros Hs Hl. unfold cursor_after. destruct (last l) as [e|] eqn:E.
  - rewrite <- (pending_filter c (oe_seq e)).
    + rewrite Hl at 1. rewrite Hl in Hs. by apply filter_after_page.
    + apply last_Some_elem_of in E. assert (He : e ∈ pending c s) by (rewrite Hl; apply elem_of_app; by left).
      unfold pending in He. rewrite list_elem_of_In, filter_In in He. destruct He as [_ He]. bool_to_prop. lia.
  - apply last_None in E as ->. done.
Qed.

(** One tick against [sA]. *)
Lemma sync_peer_page mode p url sA t h :
  by_seq (sy_outbox sA) ->
  (forall e, e ∈ sy_outbox sA -> db_bigint (JInt (oe_seq e)) = Some (oe_seq e)) ->
  (forall since, http_get url since 100 = serve sA since 100) ->
  let page := take 100 (pending (get_sync_cursor p h) sA) in
  let h' := (sync_peer db_accepts ulid db_bigint http_get mode (JStr p) url t h).2 in
  hub_db h' = replay db_accepts ulid db_bigint mode (at_time t (event_json <$> page)) (hub_db h) /\
  get_sync_cursor p h' = cursor_after (get_sync_cursor p h) page.
Proof.
  intros Hs Hbig Hget. unfold sync_peer. cbn -[get_sync_cursor apply_event_batch take].
  set (c := get_sync_cursor p h). unfold fetch_events_from_peer. rewrite Hget.
  unfold serve, sync_page, fetch_outbox_events_since. cbn -[get_sync_cursor apply_event_batch take].
  rewrite order_by_seq by by apply by_seq_filter. change (Z.to_nat 100) with 100.
  fold (pending c sA). set (page := take 100 (pending c sA)).
  destruct page as [|e0 l] eqn:Hpage; [done|]. cbn [fmap list_fmap].
  destruct (last (e0 :: l)) as [e|] eqn:Hl; [|by apply last_None in Hl].
  assert (He : e ∈ sy_outbox sA).
  { apply last_Some_elem_of in Hl. rewrite <- Hpage in Hl. unfold page in Hl.
    apply elem_of_take in Hl as (i & Hl%list_elem_of_lookup_2 & _). unfold pending in Hl.
    rewrite list_elem_of_In, filter_In in Hl.
    apply list_elem_of_In. by destruct Hl. }
  destruct (apply_batch_spec mode p (event_json <$> e0 :: l) (event_json e) (oe_seq e) (oe_seq e) t h)
    as (st & err & H & _); [by rewrite fmap_last, Hl|done|by apply Hbig|].
  assert (Hj : JObj <$> (event_json <$> e0 :: l) = (fun e => JObj (event_json e)) <$> e0 :: l)
    by (by rewrite <- list_fmap_compose).
  rewrite Hj in H. cbn [fmap list_fmap] in H. rewrite H. split; [done|].
  unfold get_sync_cursor, cursor_after. cbn [snd hub_cursors]. by rewrite lookup_insert_eq, Hl.
Qed.

(** C35. Polling replays the peer's outbox.  After any number of ticks the hub has
    applied exactly the next [100 * ticks] events the peer had beyond the cursor --
    in sequence order, each once, none skipped -- and the cursor is at the last of
    them; so [ceil (n / 100)] ticks drain a backlog of [n] events, poison events
    included. *)
Theorem polling_replays_the_outbox mode p url sA h ts :
  is_empty p = false -> truthy url = true -> by_seq (sy_outbox sA) ->
  (forall e, e ∈ sy_outbox sA -> db_bigint (JInt (oe_seq e)) = Some (oe_seq e)) ->
  (forall since, http_get url since 100 = serve sA since 100) ->
  let c := get_sync_cursor p h in
  let due := take (100 * length ts) (pending c sA) in
  exists stamps, length stamps = length due /\ Forall (fun t => t ∈ ts) stamps /\
    hub_db (run_ticks mode p url ts h) =
      replay db_accepts ulid db_bigint mode (zip (event_json <$> due) stamps) (hub_db h) /\
    get_sync_cursor p (run_ticks mode p url ts h) = cursor_after c due /\
    (length (pending c sA) <= 100 * length ts -> due = pending c sA).
Proof.
  intros Hp Hu Hs Hbig Hget. revert h. induction ts as [|t ts IH]; intros h c due.
  { exists []. split_and!; [done|constructor|done|done|]. subst due. cbn.
    destruct (pending c sA); cbn; [done|lia]. }
  rewrite run_ticks_cons by done.
  destruct (sync_peer_page mode p url sA t h Hs Hbig Hget) as [Hdb Hc].
  fold c in Hdb, Hc. set (page := take 100 (pending c sA)) in *.
  set (h1 := (sync_peer _ _ _ _ _ _ _ _ _).2) in *.
  assert (Hdue : due = page ++ take (100 * length ts) (drop 100 (pending c sA))).
  { subst due page. rewrite take_take_drop. f_equal. cbn [length]. lia. }
  assert (Hnext : pending (get_sync_cursor p h1) sA = drop 100 (pending c sA)).
  { rewrite Hc, cursor_after_pending.
    - subst page. rewrite length_take. destruct (decide (100 <= length (pending c sA))).
      + by rewrite Nat.min_l.
      + rewrite Nat.min_r, !drop_ge by lia. done.
    - by apply by_seq_filter.
    - subst page. rewrite length_take. destruct (decide (100 <= length (pending c sA))).
      + by rewrite Nat.min_l, take_drop.
      + rewrite Nat.min_r, drop_ge, take_ge, app_nil_r by lia. done. }
  destruct (IH h1) as (stamps & Hlen & Hin & Hrun & Hcur & _). rewrite Hnext in *.
  set (rest := take (100 * length ts) (drop 100 (pending c sA))) in *.
  exists (replicate (length page) t ++ stamps). rewrite Hdue. split_and!.
  - rewrite !length_app, length_replicate. lia.
  - apply Forall_app. split; [apply Forall_replicate; left|].
    eapply Forall_impl; [exact Hin|]. intros x Hx. by right.
  - rewrite Hrun, Hdb, fmap_app, zip_with_app by (by rewrite length_fmap, length_replicate).
    rewrite replay_app. f_equal. f_equal. clear. unfold at_time.
    induction page as [|e l IH]; cbn; [done|]. f_equal. apply IH.
  - rewrite Hcur, Hc. unfold cursor_after. rewrite last_app. by destruct (last rest).
  - intros Hle. rewrite <- Hdue. subst due. apply take_ge. done.
Qed.
End protocol.
