(* ===== verification/SyncExamples.v ===== *)
(** * Multi-hub sync: concrete hubs

    Two hubs that share one site: the theorems of the sync files at work. *)

From Stdlib Require Import Ascii.
From stdpp Require Import pretty.
From S2P Require Import Prelude TenantScope SyncModel SyncApply SyncFacts SyncReplicator SyncTheorems.
From S2P Require Import SyncSnapshot SyncConvergence SyncProtocol.
Local Open Scope string_scope.
Local Open Scope list_scope.

Module Example.
#[local] Existing Instance binary_clock.
Definition db (_ : gmap (entity * string) row) : bool := true.
Definition ul (n : nat) : string := if (n =? 0)%nat then "a" else "b".
Definition big (v : json) : option Z := match v with JInt z => Some z | _ => None end.
Definition mac (_ : list Z) (_ : string) : string := "c0ffee".
Definition no_json (_ : string) : option json := None.

(** The site [s1] of organisation [o1], as written at [u]. *)
Definition given (u : time) : row :=
  <["organization_id" := Val (JStr "o1")]> (<["id" := Val (JStr "s1")]>
    (<["name" := Val (JStr "HQ")]> (<["updated_at" := Time u]> ∅))).
Definition site (u : time) : row := fill_defaults Site u (given u).
Definition site_event (q u : Z) : outbox_event :=
  OutboxEvent q u "site.updated" "site" "s1" (entity_to_dict Site (site u)) None
    (Some [("organization_id", JStr "o1")]).
Definition site_gone (q : Z) : outbox_event :=
  OutboxEvent q 50 "site.deleted" "site" "s1" [("deleted", JBool true)] (Some "s1")
    (Some [("organization_id", JStr "o1")]).

Definition orgs : gmap string string := {["o1" := "default"]}.
Definition empty_hub : sync_state := SyncState ∅ ∅ orgs [] 0.
Definition hub_with (u : time) : sync_state :=
  SyncState {[(Site, "s1") := site u]} ∅ orgs [] 0.

Lemma site_row_of u : row_of Site "s1" u (site u).
Proof. split; [apply fill_full|]. split; [reflexivity|]. split; reflexivity. Qed.

Lemma site_context q u s :
  sy_orgs s = orgs -> apply_context Enforce (site_event q u) Site "s1" u (site u) s.
Proof.
  intros Ho. split; [by split_and!|]. split; [apply site_row_of|].
  split; [by intros _ o [= <-]|]. split; [|done]. intros o [= <-]. by rewrite Ho.
Qed.

Lemma site_honest q u : honest (event_json (site_event q u)).
Proof. intros v p [= <-] [= <-]. exists "s1". split; [done|]. intros d [= <-]. by right. Qed.

Lemma deletion_is_permanent_witness :
  let s2 := replay db ul big Enforce
              [(event_json (site_event 7 900), 1000); (event_json (site_event 3 5), 1001)]%Z
              (apply_event db ul big Enforce (event_json (site_gone 4)) 60 (hub_with 10)).2 in
  sy_rows s2 !! (Site, "s1") = None /\ is_tombstoned s2 "s1" = true.
Proof.
  apply (deletion_is_permanent db ul big Enforce (event_json (site_gone 4)) Site "s1" 60
           (hub_with 10)); try reflexivity.
  - intros r Hr. assert (E : sy_rows (hub_with 10) !! (Site, "s1") = Some (site 10)) by reflexivity.
    rewrite E in Hr. apply (inj Some) in Hr. subst r. reflexivity.
  - intros n _. unfold ul. destruct (n =? 0)%nat; discriminate.
  - exists true. vm_compute. reflexivity.
  - apply Forall_forall. intros x Hx. rewrite !elem_of_cons in Hx.
    destruct Hx as [->|[->|Hx%elem_of_nil]]; [apply site_honest..|done].
Defined.

(** An account signed out here at 100 with its cutoff set, and edited at 110 on a peer that had
    not seen the sign-out: the peer's row replaces every column, the cutoff included. *)
Definition ann (cutoff u : time) : row :=
  fill_defaults User u
    (<["id" := Val (JStr "u1")]> (<["email" := Val (JStr "ann@example.org")]>
      (<["password_hash" := Val (JStr "h")]> (<["display_name" := Val (JStr "Ann")]>
        (<["tokens_valid_after" := Time cutoff]> (<["updated_at" := Time u]> ∅)))))).
Definition ann_edited : outbox_event :=
  OutboxEvent 9 110 "user.updated" "user" "u1" (entity_to_dict User (ann 0 110)) None None.
Lemma peer_edit_lowers_the_cutoff :
  let s := SyncState {[(User, "u1") := ann 100 100]} ∅ orgs [] 0 in
  let s2 := (apply_event db ul big Enforce (event_json ann_edited) 120 s).2 in
  col (ann 100 100) "tokens_valid_after" = Time 100 /\
  (fun r => col r "tokens_valid_after") <$> sy_rows s2 !! (User, "u1") = Some (Time 0).
Proof. vm_compute. split; reflexivity. Qed.

(** A hub with a site of another organisation. *)
Definition other_site : row := <["organization_id" := Val (JStr "o2")]> (site 10).
Definition two_tenants : sync_state :=
  SyncState (<[(Site, "s2") := other_site]> {[(Site, "s1") := site 10]}) ∅
    {["o1" := "default"; "o2" := "second"]} [] 0.
Definition hostile : pydict := event_json (OutboxEvent 1 20 "site.updated" "site" "s2"
  (entity_to_dict Site (site 20)) None (Some [("organization_id", JStr "o1")])).

Lemma enforced_sync_is_isolated_witness :
  sy_rows (apply_event db ul big Enforce hostile 30 two_tenants).2 !! (Site, "s2") = Some other_site.
Proof.
  destruct (apply_event db ul big Enforce hostile 30 two_tenants) as [r s1] eqn:E.
  apply (proj1 (enforced_sync_is_isolated db ul big hostile "o1" 30 two_tenants r s1 eq_refl E)
           Site "s2" other_site); [reflexivity..|]. intros H. vm_compute in H. discriminate H.
Defined.

Lemma replicated_row_is_the_original_witness :
  exists oe, sy_outbox (match orm_insert db false (Some "o1") Enforce Site "s1" (given 10) 10 empty_hub with
                        | Ret s => s | Raise _ => empty_hub end) = [oe] /\
    apply_event db ul big Enforce (event_json oe) 99 empty_hub =
      (Ret true, with_rows (<[(Site, "s1") := site 10]> ∅) empty_hub).
Proof.
  destruct (replicated_row_is_the_original db ul big db (Some "o1") Enforce Site "s1" (given 10) 10
    (site 10) 10 empty_hub
    (match orm_insert db false (Some "o1") Enforce Site "s1" (given 10) 10 empty_hub with
     | Ret s => s | Raise _ => empty_hub end)) as (oe & Ho & _ & H);
    [vm_compute; reflexivity..|].
  exists oe. split; [exact Ho|].
  assert (Hc : claimed_org (event_json oe) = Some "o1").
  { vm_compute in Ho. injection Ho as <-. reflexivity. }
  apply H.
  - discriminate.
  - rewrite Hc. intros o [= <-]. discriminate.
  - reflexivity.
  - reflexivity.
  - reflexivity.
  - intros k i x _ Hx. vm_compute in Hx. discriminate.
  - reflexivity.
Defined.

Lemma reapplying_is_a_noop_witness :
  apply_event db ul big Enforce (event_json (site_event 1 20)) 99
    (apply_event db ul big Enforce (event_json (site_event 1 20)) 30 (hub_with 10)).2 =
  (Ret false, (apply_event db ul big Enforce (event_json (site_event 1 20)) 30 (hub_with 10)).2).
Proof.
  apply (reapplying_is_a_noop db ul big Enforce (site_event 1 20) Site "s1" 20 (site 20) 30 99
           (hub_with 10) true).
  - left. by apply site_context.
  - reflexivity.
  - vm_compute. reflexivity.
Defined.

Definition v20 : outbox_event * version := (site_event 1 20, (20, site 20))%Z.
Definition v30 : outbox_event * version := (site_event 2 30, (30, site 30))%Z.

Lemma hubs_converge_to_the_last_writer_witness :
  exists w, (forall x, x ∈ [(10%Z, site 10); (20%Z, site 20); (30%Z, site 30)] -> (x.1 <= w.1)%Z) /\
    replay db ul big Enforce [(event_json (site_event 2 30), 70%Z); (event_json (site_event 1 20), 80%Z);
                              (event_json (site_event 1 20), 90%Z)] (hub_with 10) =
    with_rows (<[(Site, "s1") := w.2]> (sy_rows (hub_with 10))) (hub_with 10).
Proof.
  destruct (hubs_converge_to_the_last_writer db ul big Enforce Site "s1" (Some "o1") (hub_with 10)
              (10%Z, site 10) [v20; v30]) as (w & _ & Hmax & H).
  - reflexivity.
  - vm_compute. reflexivity.
  - apply site_row_of.
  - apply Forall_forall. intros x Hx. rewrite !elem_of_cons in Hx.
    destruct Hx as [->|[->|Hx%elem_of_nil]]; [..|done].
    all: split; [by apply site_context|done].
  - change ([v20; v30].*2) with [(20%Z, site 20); (30%Z, site 30)].
    intros x y Hx Hy Hxy. rewrite !elem_of_cons in Hx, Hy.
    destruct Hx as [Hx|[Hx|[Hx|Hx%elem_of_nil]]]; [..|done]; subst x;
      (destruct Hy as [Hy|[Hy|[Hy|Hy%elem_of_nil]]]; [..|done]; subst y);
      first [reflexivity|discriminate].
  - exists w. split; [exact Hmax|].
    apply (H [v30; v20; v20] [70; 80; 90]%Z); [|reflexivity].
    intros x. rewrite !elem_of_cons, elem_of_nil. naive_solver.
Defined.

Lemma peer_tokens_are_authentic_witness :
  exists tok, generate_hmac_bearer_token mac (JStr "00ff") "www2" = Ret tok /\
    sync_peer_required mac (JStr "00ff") (String.append "Bearer " tok) = Ret AsPeer.
Proof.
  apply (fun H1 H2 H3 => proj1 (peer_tokens_are_authentic mac H1 (JStr "00ff") [0; 255]%Z H2 H3) "www2").
  - reflexivity.
  - reflexivity.
  - discriminate.
Defined.

Definition hub_b : hub := Hub (hub_with 10) ∅.

Lemma batch_is_contained_witness :
  exists st err s', apply_event_batch db ul big Enforce "www2"
      (JList [JObj [("seq", JInt 1)]; JObj (event_json (site_event 2 30))]) 70 hub_b =
    (Ret st, Hub s' (<["www2" := Cursor 2 70 err ((fun _ => 70%Z) <$> err)]> ∅)) /\
    total st = 2.
Proof.
  destruct (batch_is_contained db ul big Enforce "www2"
    [[("seq", JInt 1)]; event_json (site_event 2 30)] (event_json (site_event 2 30)) 2 2 70 hub_b)
    as (st & err & s' & H & _ & Ht & _); [reflexivity..|].
  exists st, err, s'. split; [exact H|exact Ht].
Defined.

Definition bad_peer (_ : json) (_ _ : Z) : option json := Some (JObj [("events", JList [JNull])]).

Lemma malformed_event_wedges_the_peer_witness :
  hub_cursors (run_ticks db ul big no_json bad_peer Enforce "www2" (JStr "u") [1; 2; 3]%Z hub_b) = ∅.
Proof.
  apply (malformed_event_wedges_the_peer db ul big no_json bad_peer Enforce "www2" (JStr "u")
           [("events", JList [JNull])] [] JNull [] hub_b [1; 2; 3]%Z); reflexivity.
Defined.

(** A peer with two events, as seen over HTTP. *)
Definition peer_state : sync_state :=
  SyncState ∅ ∅ orgs [site_event 1 20; site_event 2 30] 0.
Definition good_peer (_ : json) (since limit : Z) : option json := serve peer_state since limit.

Lemma polling_replays_the_outbox_witness :
  exists stamps, hub_db (run_ticks db ul big no_json good_peer Enforce "www2" (JStr "u") [5]%Z hub_b) =
    replay db ul big Enforce
      (zip [event_json (site_event 1 20); event_json (site_event 2 30)] stamps) (hub_with 10).
Proof.
  destruct (polling_replays_the_outbox db ul big no_json good_peer Enforce "www2" (JStr "u")
              peer_state hub_b [5]%Z) as (stamps & _ & _ & H & _).
  - reflexivity.
  - reflexivity.
  - repeat constructor.
  - intros e He. reflexivity.
  - reflexivity.
  - exists stamps. exact H.
Defined.
End Example.
